(* ===== verification/_CoqProject ===== *)
-Q . S2P
Prelude.v
LinkedList.v
BlockDev.v
BlockIface.v
BlockCache.v
BlockCacheOk.v
BlockCacheProps.v
Kern.v
Frame.v
DProc.v
PageFrames.v
PageFramesOk.v
PageInit.v
Page.v
PageOk.v
PageKern.v
PageHeap.v
PageHeapProps.v
PageUser.v
PageUserOk.v
PageUmem.v
PageSpace.v
PageClean.v
PageFork.v
PageProps.v
PageDemo.v
NatBam.v
NatBamOk.v
NatStatfs.v
NatBmap.v
NatTree.v
NatBmapOk.v
Vfs.v
VfsOk.v
Pipe.v
PipeOk.v
NatRw.v
NatRwOk.v
NatWriteOk.v
NatFile.v
NatFso.v
NatMount.v
NatDir.v
NatDirView.v
NatDirOk.v
NatDirProps.v
FsPath.v
FsMount.v
FsMountOk.v
FsMisc.v
FsMiscOk.v
Fdesc.v
FdescOk.v
NatType.v
FsSys.v
NatDemo.v
Bfs.v
DevFs.v
FsDemo.v
Tasks.v
TaskSys.v
TaskQueueOk.v
TaskOk.v
TaskSched.v
TaskInv.v
TaskLife.v
TaskSysOk.v
TaskClock.v
TaskKept.v
Mutex.v
MsgQueue.v
Pty.v
PtyOk.v
PtyProps.v
Poll.v
TaskRung.v
TaskProps.v
TaskEvents.v
TaskDemo.v
PtyDemo.v
