(* ===== verification/Prelude.v ===== *)
(** Verification of the kernel of Vanadium OS: storage, files, memory and tasks.

    * The program

    The kernel (kern/, C) runs tasks over a buffer cache for block devices, a layer
    of file systems and paged memory.  Block devices (include/kern/block.h,
    drv/rd.drv.c) are reached through the cache (kern/block.c).  natfs
    (kern/fs/nat/) keeps files and directories in blocks of the cache; the
    file-system independent layer (kern/fs/) keeps the table of file objects, the
    mount table, path names, permissions, open files and pipes.  Paging
    (kern/arch-i386/, kern/lib/) hands out page frames, maps kernel memory and its
    heap, and gives each task an address space with lazy allocation and copy on
    write.  Tasks (kern/task.c, sched.c, signal.c, event.c, fork.c, clock.c, mutex.c,
    mqueue.c, task_dproc.c, syscall.c) wait on queues, get signals, events and alarms
    and are chosen by priority; pseudo-terminals (kern/fs/pty/) connect them.

    * How C becomes Rocq

    A kernel function is a computation [M S A] of this file: from a state [S] it
    returns a result ([Ret]), an error code ([Err]), or it halts, by [panic] or by
    what C leaves undefined (a NULL pointer, an oversized shift, a signed overflow,
    an index outside of an array).  [wp] is total correctness, [wlp] and [keeps]
    (Frame.v) are partial correctness and frame conditions.  Structures are
    records, tables are finite maps or lists, a pointer to an element of a table is
    its index, an [int] is a [Z] with its wrap-around written where it can happen.
    A function that waits ends at the switch to another task, and what it does
    when it runs again is a definition of its own.

    A loop that is not structural has fuel, and what runs out of it halts: that no
    operation halts is a theorem, which shows that the fuel is enough.  [read_loop]
    and [write_loop] have two rounds more than the request has whole blocks (the
    first and the last one may be partial), as have the loops of devfs for blocks and
    for pages of memory, [pipe_write_loop] one for each byte and
    one more, [pick_loop] one for each unit of time the ready tasks are behind and
    one more, [newpid] one more than there are tasks, [signal_handle] one more than
    there are handlers, [resume_waiters] one more than there are tasks, [evt_wait]
    2 (an interrupted wait clears what interrupted it), [lookup_loop] one for each
    character of the path; the scan of [pg_adget] has one for each page of the
    dynamic part of the kernel's addresses, and the walks of [uclean] and [copy_pages]
    ([USER_FUEL]) one for each page of the user part.  [task_rundp] need not end when
    the procedures put off further calls: its fuel is an argument, and the theorem says
    how much is enough when they do not.  So is the fuel of a walk over the headers of a
    boot file system, whose chain may be circular: one for each header is enough.

    * The files

    - LinkedList.v: lib/list.c.  The list operations refine sequences.
    - BlockDev.v: the interface of drivers and the RAM disk.  BlockIface.v: what a
      client sees of the cache, with its laws.  BlockCache.v: kern/block.c.
      BlockCacheOk.v: the cache implements the interface.  BlockCacheProps.v: the
      cache simulates the disk; write-back; growth.
    - Kern.v, Frame.v: the tables the file systems share.  DProc.v: deferred
      procedures (kern/task_dproc.c).
    - PageFrames.v, PageFramesOk.v, PageInit.v: page frames and their collection at
      start-up.  Page.v: page tables, kernel memory and its heap (kern/arch-i386/page.c,
      kern/lib/).  PageOk.v: the invariant of the tables.  PageKern.v, PageHeap.v,
      PageHeapProps.v: the kernel's addresses, kmalloc, dma_malloc and
      phys_map.
    - PageUser.v: user memory (page.c, umem.c, fork_i386.c, the sharing of the
      loader's pages in exec.c).  PageUserOk.v: what a task sees.  PageUmem.v: access
      by the kernel.  PageSpace.v, PageClean.v: allocation and freeing.  PageFork.v:
      the copy of fork.  PageProps.v: all of it together.
    - NatBam.v, NatBamOk.v, NatStatfs.v: the allocation map.  NatBmap.v, NatTree.v,
      NatBmapOk.v: the block map of a file as a tree.  NatRw.v, NatRwOk.v,
      NatWriteOk.v, NatFile.v: reading and writing.  NatFso.v: headers.
      NatMount.v: superblock.  NatDir.v: directories; NatDirView.v, NatDirOk.v,
      NatDirProps.v: what they hold.  NatType.v: natfs as an instance of the
      interfaces of the layer above.
    - Bfs.v: the boot file system (kern/fs/bfs/bfs.c).  DevFs.v: the device file system
      and character devices (kern/fs/devfs/devfs.c, kern/cio.c).
    - Vfs.v, VfsOk.v: file objects and permissions.  FsPath.v: path names.
      FsMount.v, FsMountOk.v: the mount table.  FsMisc.v, FsMiscOk.v: operations on
      names.  Fdesc.v, FdescOk.v: open files.  Pipe.v, PipeOk.v: pipes.  FsSys.v: the
      file system calls (kern/fs/syscall.c), over natfs and pipes.
    - Tasks.v: queues, scheduler, signals, events, creation and exit.  TaskSys.v:
      the system calls and interrupts over them.  TaskQueueOk.v: queues as lists.
      TaskOk.v, TaskSched.v: what the scheduler keeps and chooses.  TaskInv.v: the
      invariant [tasks_ok] ([sys_ok] with the alarms).  TaskLife.v, TaskSysOk.v, TaskClock.v, TaskKept.v,
      TaskRung.v: each operation keeps it.  TaskProps.v: histories.  TaskEvents.v: event
      queues over them.  Mutex.v: mutexes.  MsgQueue.v: message queues.
    - Pty.v: pseudo-terminals (kern/fs/pty/ptyfs.c).  PtyOk.v: rings, echo and the
      line discipline.  PtyProps.v: reading, writing and the file system.  Poll.v:
      waiting for files (sys__poll of kern/fs/syscall.c).
    - PageDemo.v, NatDemo.v, FsDemo.v, TaskDemo.v, PtyDemo.v: small systems to which
      the theorems apply, and theorems on what the code does wrong.

    * What is shown

    Storage: over any sequence of calls the cache with its devices behaves like the
    disk alone; [nat_bmap] implements the tree of pointers; a write to a file is
    read back, changes no other byte, no other file and only free blocks; the
    allocation map is exact and survives remounting; headers survive write-back
    (but for the device number, which is lost); names added to a directory are found,
    names removed are not, and other names stay.  In a boot file system a name leads
    to the first header that has it, and a read gives the bytes behind the header.  The
    file of a block device gives and takes the bytes of the device.
    Files: a path resolves to the walk from the current directory; mounts stay
    distinct over any history, and a late deferred unmount is all that can deactivate a
    fixed file system; open files are counted exactly over any history of
    system calls; what is written through a descriptor is read through it; a pipe is a
    queue of bytes.
    Memory: no frame has two owners; blocks of the kernel heap do not overlap and
    keep their contents; the address spaces of the tasks and the kernel's memory are
    separate functions from addresses to bytes, over any history of faults, copies,
    forks and frees ([memory_refines]).  The statements name what the code gets wrong:
    an allocation panics when frame 4095, which the search of the DMA map never finds,
    is the last one left ([out_of_frames]); the search for room in the kernel's
    addresses tests for the end of the area too late, so requests have to fit behind
    the last page table ([fits]); sizes close to 4 GB overflow ([size_ok]); and the
    frames that hold the list of free frames are on that list.  The model keeps the
    list apart from the frames, so the theorems on memory follow a history up to the
    point where such a frame is put to use ([list_alone]).
    Tasks: over any history from [task_init] on, the scheduler, the queues, the
    family tree, task numbers and pending signals stay consistent, alarms too unless a
    program sets the clock to a senseless time, and no operation halts but for the four
    that [stops] names; the scheduler finds the best task; delivery of signals ends;
    no alarm is missed; the event queue is a bounded queue, one event late after a
    fork; a mutex excludes; a
    message queue of one-byte items is a bounded queue (with larger items it is not);
    deferred calls are made in order.
    Terminals: reads and writes of both sides do what they do to the line being
    typed, the input and the output its users see; an edited line is read as edited;
    the terminals stay well-formed.  [poll] returns the files that are ready and leaves
    them as they were, or waits, and a task that waits goes on when one of its files
    changes.

    The parts meet in interfaces: the file systems are proved against [BlockLayer]
    and its laws, which BlockCacheOk.v discharges for kern/block.c; the layer of names
    is proved against the classes of Vfs.v, which NatType.v discharges for natfs; the
    tasks are proved over [TaskEnv], the calls of memory management, files and
    windows; mutexes, message queues and terminals are proved over the tasks.

    * Not modelled

    The first page directory (pg_init before pg_enable), the accessed and dirty bits,
    the header word of a block of [kmalloc], paging of the amd64 (the same operations
    with four levels of tables), core dumps; machine registers, and interrupts other
    than as steps of their own between operations; the window system and consoles,
    which draw; the copies between user memory and the file system calls, whose results
    are arguments; loading and relocating programs; start-up and shutdown; hardware
    drivers, which are port input and output; the boot loader, user programs and build
    tools, which are other programs. *)

From stdpp Require Export prelude gmap list strings.
From Stdlib Require Export ZArith Lia.

#[export] Set Default Goal Selector "!".
Open Scope Z_scope.

(** * Machine integers *)

(** Conversion to an unsigned 32-bit and 64-bit C integer type. *)
Definition u32 (x : Z) : Z := x mod 2 ^ 32.
Definition u64 (x : Z) : Z := x mod 2 ^ 64.
(** ... and to a signed one. *)
Definition s32 (x : Z) : Z := if u32 x <? 2 ^ 31 then u32 x else u32 x - 2 ^ 32.
Definition s64 (x : Z) : Z := if u64 x <? 2 ^ 63 then u64 x else u64 x - 2 ^ 64.

(** [is_byte]: a value of an [unsigned char]; [is_bytes]: an array of them. *)
Definition is_byte (x : Z) : Prop := 0 <= x < 256.
Abbreviation is_bytes := (Forall is_byte).
Definition bytes_ok (n : Z) (b : list Z) : Prop := Z.of_nat (length b) = n /\ is_bytes b.

(** * Memory blocks: C arrays of bytes addressed by offset *)

Definition rd8 (b : list Z) (i : Z) : Z := default 0 (b !! Z.to_nat i).
Definition wr8 (b : list Z) (i v : Z) : list Z := <[Z.to_nat i := v]> b.

(** [memcpy] out of and into an array at a byte offset; [memset] of a fresh array. *)
Definition mem_read (b : list Z) (off len : Z) : list Z :=
  take (Z.to_nat len) (drop (Z.to_nat off) b).
Definition mem_write (b : list Z) (off : Z) (src : list Z) : list Z :=
  take (Z.to_nat off) b ++ src ++ drop (Z.to_nat off + length src) b.
Definition zeros (n : Z) : list Z := replicate (Z.to_nat n) 0.

(** Little-endian 32-bit loads and stores, as the i386 and amd64 targets do them. *)
Definition le32 (v : Z) : list Z :=
  [v mod 256; v / 256 mod 256; v / 65536 mod 256; v / 16777216 mod 256].
Definition get32 (b : list Z) (off : Z) : Z :=
  rd8 b off + 256 * (rd8 b (off + 1) + 256 * (rd8 b (off + 2) + 256 * rd8 b (off + 3))).
Definition put32 (b : list Z) (off v : Z) : list Z := mem_write b off (le32 v).

(** Little-endian 64-bit loads and stores, as two 32-bit halves. *)
Definition get64 (b : list Z) (off : Z) : Z := get32 b off + 2 ^ 32 * get32 b (off + 4).
Definition put64 (b : list Z) (off v : Z) : list Z :=
  put32 (put32 b off v) (off + 4) (v / 2 ^ 32).

(** * Kernel computations: state, error returns and halts *)

(** A kernel function returns 0 with a result ([Ret]), returns a non-zero error
    code ([Err]), or does not return: it calls [panic], or it reaches behaviour
    the C standard leaves undefined (a wild pointer, an oversized shift). *)
Inductive halt := KPanic (msg : string) | Undefined.

Inductive outcome (S A : Type) : Type :=
| Ret (a : A) (s : S)
| Err (e : Z) (s : S)
| Halt (h : halt).
Arguments Ret {S A} a s.
Arguments Err {S A} e s.
Arguments Halt {S A} h.

Definition M (S A : Type) : Type := S -> outcome S A.

Definition ret {S A} (a : A) : M S A := fun s => Ret a s.
Definition bind {S A B} (m : M S A) (k : A -> M S B) : M S B := fun s =>
  match m s with
  | Ret a s' => k a s'
  | Err e s' => Err e s'
  | Halt h => Halt h
  end.
Definition fail {S A} (e : Z) : M S A := fun s => Err e s.
Definition halted {S A} (h : halt) : M S A := fun _ => Halt h.
Definition panic {S A} (msg : string) : M S A := halted (KPanic msg).
Definition gets {S A} (f : S -> A) : M S A := fun s => Ret (f s) s.
Definition modify {S} (f : S -> S) : M S unit := fun s => Ret tt (f s).

(** [attempt m] hands the error code to the caller, as C code that stores the
    return value instead of returning it; [status m] keeps only that code. *)
Definition attempt {S A} (m : M S A) : M S (Z + A) := fun s =>
  match m s with
  | Ret a s' => Ret (inr a) s'
  | Err e s' => Ret (inl e) s'
  | Halt h => Halt h
  end.
Definition status {S A} (m : M S A) : M S Z := fun s =>
  match m s with
  | Ret _ s' => Ret 0 s'
  | Err e s' => Ret e s'
  | Halt h => Halt h
  end.

(** Dereferencing a pointer: a missing object is a wild pointer. *)
Definition deref {S A} (o : option A) : M S A :=
  match o with Some a => ret a | None => halted Undefined end.

(** Running a computation of a component inside a larger state. *)
Definition zoom {S T A} (get : S -> T) (put : T -> S -> S) (m : M T A) : M S A := fun s =>
  match m (get s) with
  | Ret a t => Ret a (put t s)
  | Err e t => Err e (put t s)
  | Halt h => Halt h
  end.

Declare Scope kern_scope.
Delimit Scope kern_scope with kern.
Notation "x <~ m ;; k" := (bind m (fun x => k))
  (at level 20, m at level 99, k at level 200, only parsing) : kern_scope.
Notation "' p <~ m ;; k" := (bind m (fun x => match x with p => k end))
  (at level 20, p pattern, m at level 99, k at level 200, only parsing) : kern_scope.
Notation "m ;;; k" := (bind m (fun _ => k))
  (at level 100, k at level 200, right associativity) : kern_scope.
Open Scope kern_scope.

(** [wp m Q E s]: run from [s], [m] does not halt; it returns normally in [Q]
    or with an error code in [E]. *)
Definition wp {S A} (m : M S A) (Q : A -> S -> Prop) (E : Z -> S -> Prop) (s : S) : Prop :=
  match m s with
  | Ret a s' => Q a s'
  | Err e s' => E e s'
  | Halt _ => False
  end.

(** * Error codes (include/kern/errno.h) *)
Definition ENOENT : Z := 1.
Definition EACCES : Z := 2.
Definition EPERM : Z := 3.
Definition EBUSY : Z := 5.
Definition EEXIST : Z := 7.
Definition EFBIG : Z := 9.
Definition EINTR : Z := 10.
Definition EINVAL : Z := 11.
Definition ENOMEM : Z := 12.
Definition EMFILE : Z := 13.
Definition ENAMETOOLONG : Z := 16.
Definition ENFILE : Z := 17.
Definition ENODEV : Z := 18.
Definition EIO : Z := 20.
Definition ENOSPC : Z := 21.
Definition ENOSYS : Z := 22.
Definition ENOTDIR : Z := 23.
Definition ENOTEMPTY : Z := 24.
Definition ENOTTY : Z := 25.
Definition EPIPE : Z := 26.
Definition EROFS : Z := 27.
Definition ESPIPE : Z := 28.
Definition EXDEV : Z := 30.
Definition EBADF : Z := 32.
Definition EISDIR : Z := 33.

(** * Generic lemmas *)

Section wp.
Context {S A B : Type}.
Implicit Types (m : M S A) (Q : A -> S -> Prop) (E : Z -> S -> Prop).

Lemma wp_mono m Q Q' E E' s :
  wp m Q E s ->
  (forall a s', Q a s' -> Q' a s') ->
  (forall e s', E e s' -> E' e s') ->
  wp m Q' E' s.
Proof. unfold wp. destruct (m s); naive_solver. Qed.

Lemma wp_bind m (k : A -> M S B) (Q : B -> S -> Prop) E s :
  wp m (fun a s' => wp (k a) Q E s') E s -> wp (bind m k) Q E s.
Proof. unfold wp, bind. by destruct (m s). Qed.

(** Sequencing against a known specification of the first computation. *)
Lemma wp_seq m (k : A -> M S B) Q1 E1 (Q : B -> S -> Prop) E s :
  wp m Q1 E1 s ->
  (forall a s', Q1 a s' -> wp (k a) Q E s') ->
  (forall e s', E1 e s' -> E e s') ->
  wp (bind m k) Q E s.
Proof. intros H HQ HE. apply wp_bind. eapply wp_mono; eauto. Qed.

Lemma wp_attempt m (Q : Z + A -> S -> Prop) E s :
  wp m (fun a => Q (inr a)) (fun e => Q (inl e)) s -> wp (attempt m) Q E s.
Proof. unfold wp, attempt. by destruct (m s). Qed.

Lemma wp_status m (Q : Z -> S -> Prop) E s :
  wp m (fun _ => Q 0) Q s -> wp (status m) Q E s.
Proof. unfold wp, status. by destruct (m s). Qed.

(** A specification with the run it describes. *)
Lemma wp_run m Q E s :
  wp m Q E s ->
  wp m (fun a s' => m s = Ret a s' /\ Q a s') (fun e s' => m s = Err e s' /\ E e s') s.
Proof. unfold wp. by destruct (m s). Qed.

Lemma wp_deref_some (a : A) Q E s : Q a s -> wp (deref (Some a)) Q E s.
Proof. done. Qed.

Lemma wp_gets (h : S -> A) Q E s : Q (h s) s -> wp (gets h) Q E s.
Proof. done. Qed.

Lemma wp_ret (a : A) Q E s : Q a s -> wp (ret a) Q E s.
Proof. done. Qed.

Lemma wp_fail e Q E s : E e s -> wp (A := A) (fail e) Q E s.
Proof. done. Qed.

Lemma wp_assoc {C} m (k : A -> M S B) (h : B -> M S C) (Q : C -> S -> Prop) E s :
  wp (bind (bind m k) h) Q E s -> wp (bind m (fun a => bind (k a) h)) Q E s.
Proof. unfold wp, bind. by destruct (m s). Qed.

Lemma wp_known m (k : A -> M S B) (Q : B -> S -> Prop) E s a s' : m s = Ret a s' -> wp (k a) Q E s' -> wp (bind m k) Q E s.
Proof. unfold wp, bind. by intros ->. Qed.

Lemma wp_is m Q E s a s' : m s = Ret a s' -> Q a s' -> wp m Q E s.
Proof. unfold wp. by intros ->. Qed.

Lemma wp_Ret m Q E s a s' : m s = Ret a s' -> wp m Q E s -> Q a s'.
Proof. unfold wp. by intros ->. Qed.

Lemma wp_Err m Q E s e s' : m s = Err e s' -> wp m Q E s -> E e s'.
Proof. unfold wp. by intros ->. Qed.

End wp.

Lemma wp_zoom {S T A} (get : S -> T) (put : T -> S -> S) (m : M T A) Q E s :
  wp m (fun a t => Q a (put t s)) (fun e t => E e (put t s)) (get s) ->
  wp (zoom get put m) Q E s.
Proof. unfold wp, zoom. by destruct (m (get s)). Qed.

(** Running a sequence whose first computation is known. *)
Lemma bind_run {S A B} (m : M S A) (k : A -> M S B) s a s' : m s = Ret a s' -> bind m k s = k a s'.
Proof. intros E. unfold bind. by rewrite E. Qed.
Lemma gets_bind {S A B} (f : S -> A) (k : A -> M S B) s : bind (gets f) k s = k (f s) s.
Proof. done. Qed.
Lemma modify_bind {S B} (f : S -> S) (k : unit -> M S B) s : bind (modify f) k s = k tt (f s).
Proof. done. Qed.
Lemma ret_bind {S A B} (a : A) (k : A -> M S B) s : bind (ret a) k s = k a s.
Proof. done. Qed.

(** [step]: expose the first computation of a sequence. *)
Ltac wp_step := apply wp_bind; cbn [wp ret fail gets modify deref panic halted].
Ltac wp_pure := unfold wp; cbn.

(** ** Arithmetic *)

Lemma land_pow2 (b m : Z) : 0 <= m -> negb (Z.land b (2 ^ m) =? 0) = Z.testbit b m.
Proof.
  intros Hm. assert (Z.land b (2 ^ m) = if Z.testbit b m then 2 ^ m else 0) as ->.
  { apply Z.bits_inj'. intros j Hj. rewrite Z.land_spec, Z.pow2_bits_eqb by lia.
    destruct (Z.eqb_spec m j) as [->|Hne].
    - destruct (Z.testbit b j); [|by rewrite Z.testbit_0_l]. by rewrite Z.pow2_bits_true.
    - rewrite andb_false_r. destruct (Z.testbit b m); [|by rewrite Z.testbit_0_l].
      by rewrite Z.pow2_bits_false. }
  destruct (Z.testbit b m); [|done]. pose proof (Z.pow_pos_nonneg 2 m).
  destruct (Z.eqb_spec (2 ^ m) 0); [lia|done].
Qed.

Lemma u32_range x : 0 <= u32 x < 2 ^ 32.
Proof. apply Z.mod_pos_bound. lia. Qed.

Lemma u32_small x : 0 <= x < 2 ^ 32 -> u32 x = x.
Proof. apply Z.mod_small. Qed.

Lemma u64_small x : 0 <= x < 2 ^ 64 -> u64 x = x.
Proof. apply Z.mod_small. Qed.

(** The low and the high bits of a number written in base [2^n]. *)
Lemma testbit_low n a r k :
  0 <= a < 2 ^ n -> 0 <= k < n -> Z.testbit (a + 2 ^ n * r) k = Z.testbit a k.
Proof.
  intros Ha Hk. rewrite <- (Z.mod_pow2_bits_low (a + 2 ^ n * r) n k) by lia.
  rewrite Z.mul_comm, Z_mod_plus_full, Z.mod_small by lia. done.
Qed.

Lemma testbit_high n a r k :
  0 <= n <= k -> 0 <= a < 2 ^ n -> Z.testbit (a + 2 ^ n * r) k = Z.testbit r (k - n).
Proof.
  intros Hk Ha. replace k with ((k - n) + n) at 1 by lia.
  rewrite <- Z.div_pow2_bits by lia.
  rewrite Z.mul_comm, Z.div_add, Z.div_small by lia. done.
Qed.

Lemma testbit_above n a k : 0 <= a < 2 ^ n -> 0 <= n <= k -> Z.testbit a k = false.
Proof.
  intros Ha Hk. rewrite <- (Z.add_0_r a), <- (Z.mul_0_r (2 ^ n)).
  rewrite testbit_high by lia. apply Z.testbit_0_l.
Qed.

Lemma bound_testbit n x :
  0 <= n -> (forall k, n <= k -> Z.testbit x k = false) -> 0 <= x < 2 ^ n.
Proof.
  intros Hn Hx. replace x with (x mod 2 ^ n); [apply Z.mod_pos_bound; lia|].
  apply Z.bits_inj'. intros k Hk. destruct (decide (k < n)).
  - by rewrite Z.mod_pow2_bits_low by lia.
  - rewrite Z.mod_pow2_bits_high by lia. symmetry. apply Hx. lia.
Qed.

(** [land] distributes over a split in base [2^n]. *)
Lemma land_split n a b r q :
  0 <= n -> 0 <= a < 2 ^ n -> 0 <= b < 2 ^ n ->
  Z.land (a + 2 ^ n * r) (b + 2 ^ n * q) = Z.land a b + 2 ^ n * Z.land r q.
Proof.
  intros Hn Ha Hb.
  assert (Hab : 0 <= Z.land a b < 2 ^ n).
  { apply bound_testbit; [done|]. intros k Hk. by rewrite Z.land_spec, (testbit_above n a). }
  apply Z.bits_inj'. intros k Hk. rewrite Z.land_spec.
  destruct (decide (k < n)).
  - rewrite !testbit_low by lia. by rewrite Z.land_spec.
  - rewrite !testbit_high by lia. by rewrite Z.land_spec.
Qed.

(** ** Byte arrays *)

Lemma rd8_byte b i : is_bytes b -> is_byte (rd8 b i).
Proof.
  intros Hb. unfold rd8. destruct (b !! Z.to_nat i) eqn:E; cbn; [|by unfold is_byte].
  by eapply Forall_lookup_1.
Qed.

Lemma rd8_wr8 b i v : (Z.to_nat i < length b)%nat -> rd8 (wr8 b i v) i = v.
Proof. intros H. unfold rd8, wr8. by rewrite list_lookup_insert_eq. Qed.

Lemma rd8_wr8_ne b i j v : 0 <= i -> 0 <= j -> i <> j -> rd8 (wr8 b i v) j = rd8 b j.
Proof. intros Hi Hj Hne. unfold rd8, wr8. rewrite list_lookup_insert_ne; [done|lia]. Qed.

Lemma length_wr8 b i v : length (wr8 b i v) = length b.
Proof. apply length_insert. Qed.

Lemma is_bytes_wr8 b i v : is_bytes b -> is_byte v -> is_bytes (wr8 b i v).
Proof. intros Hb Hv. by apply Forall_insert. Qed.

Lemma bytes_ok_wr8 n b i v : bytes_ok n b -> is_byte v -> bytes_ok n (wr8 b i v).
Proof. intros [??] ?. split; [by rewrite length_wr8|by apply is_bytes_wr8]. Qed.

Lemma length_mem_read b off len :
  0 <= off -> 0 <= len -> off + len <= Z.of_nat (length b) ->
  Z.of_nat (length (mem_read b off len)) = len.
Proof. intros. unfold mem_read. rewrite length_take, length_drop. lia. Qed.

Lemma rd8_mem_read b off len i :
  0 <= off -> 0 <= i < len -> rd8 (mem_read b off len) i = rd8 b (off + i).
Proof.
  intros Hoff Hi. unfold rd8, mem_read. rewrite lookup_take_lt by lia.
  rewrite lookup_drop. f_equal. f_equal. lia.
Qed.

Lemma length_mem_write b off src :
  0 <= off -> off + Z.of_nat (length src) <= Z.of_nat (length b) ->
  length (mem_write b off src) = length b.
Proof.
  intros. unfold mem_write. rewrite !length_app, length_take, length_drop. lia.
Qed.

Lemma is_bytes_mem_write b off src :
  is_bytes b -> is_bytes src -> is_bytes (mem_write b off src).
Proof.
  intros. unfold mem_write. rewrite !Forall_app. auto using Forall_take, Forall_drop.
Qed.

Lemma bytes_ok_mem_write n b off src :
  bytes_ok n b -> is_bytes src -> 0 <= off -> off + Z.of_nat (length src) <= n ->
  bytes_ok n (mem_write b off src).
Proof.
  intros [Hl ?] ???. split; [rewrite length_mem_write; lia|by apply is_bytes_mem_write].
Qed.

Lemma rd8_mem_write b off src i :
  0 <= off -> off + Z.of_nat (length src) <= Z.of_nat (length b) -> 0 <= i ->
  rd8 (mem_write b off src) i =
    if decide (off <= i < off + Z.of_nat (length src)) then rd8 src (i - off) else rd8 b i.
Proof.
  intros Hoff Hlen Hi. unfold rd8, mem_write.
  destruct (decide (i < off)).
  - rewrite decide_False by lia.
    rewrite lookup_app_l by (rewrite length_take; lia). rewrite lookup_take_lt by lia. done.
  - rewrite lookup_app_r by (rewrite length_take; lia). rewrite length_take, Nat.min_l by lia.
    destruct (decide (i < off + Z.of_nat (length src))).
    + rewrite decide_True by lia. rewrite lookup_app_l by lia. do 2 f_equal. lia.
    + rewrite decide_False by lia. rewrite lookup_app_r by lia.
      rewrite lookup_drop. do 2 f_equal. lia.
Qed.

Lemma rd8_take b n j : 0 <= j < n -> rd8 (take (Z.to_nat n) b) j = rd8 b j.
Proof. intros. unfold rd8. by rewrite lookup_take_lt by lia. Qed.

Lemma rd8_drop b n j : 0 <= n -> 0 <= j -> rd8 (drop (Z.to_nat n) b) j = rd8 b (n + j).
Proof. intros. unfold rd8. rewrite lookup_drop. do 2 f_equal. lia. Qed.

Lemma rd8_app b b' j :
  0 <= j -> rd8 (b ++ b') j = if decide (j < Z.of_nat (length b)) then rd8 b j else rd8 b' (j - Z.of_nat (length b)).
Proof.
  intros Hj. unfold rd8. case_decide; [by rewrite lookup_app_l by lia|].
  rewrite lookup_app_r by lia. do 2 f_equal. lia.
Qed.

(** Arrays of one length with the same bytes are equal. *)
Lemma rd8_ext b b' :
  length b = length b' -> (forall j, 0 <= j < Z.of_nat (length b) -> rd8 b j = rd8 b' j) -> b = b'.
Proof.
  intros Hl He. apply list_eq_same_length with (length b); [done|done|]. intros i x y Hi Hx Hy.
  specialize (He (Z.of_nat i) ltac:(lia)). unfold rd8 in He. rewrite Nat2Z.id, Hx, Hy in He. done.
Qed.

Lemma bytes_ok_zeros n : 0 <= n -> bytes_ok n (zeros n).
Proof.
  intros. split; [unfold zeros; rewrite length_replicate; lia|].
  apply Forall_replicate. by unfold is_byte.
Qed.

Lemma rd8_zeros n i : rd8 (zeros n) i = 0.
Proof.
  unfold rd8, zeros. destruct (_ !! _) eqn:E; [|done].
  by apply lookup_replicate in E as [-> _].
Qed.

Lemma is_bytes_le32 v : is_bytes (le32 v).
Proof. unfold le32, is_byte. repeat constructor; apply Z.mod_pos_bound; lia. Qed.

Lemma get32_range b off : is_bytes b -> 0 <= get32 b off < 2 ^ 32.
Proof.
  intros Hb. unfold get32.
  pose proof (rd8_byte b off Hb). pose proof (rd8_byte b (off + 1) Hb).
  pose proof (rd8_byte b (off + 2) Hb). pose proof (rd8_byte b (off + 3) Hb).
  unfold is_byte in *. lia.
Qed.

Lemma get32_put32 b off v :
  0 <= off -> off + 4 <= Z.of_nat (length b) -> get32 (put32 b off v) off = u32 v.
Proof.
  intros. unfold get32, put32. rewrite !rd8_mem_write by (cbn; lia). cbn [length le32].
  rewrite !decide_True by lia.
  replace (off - off) with 0 by lia. replace (off + 1 - off) with 1 by lia.
  replace (off + 2 - off) with 2 by lia. replace (off + 3 - off) with 3 by lia.
  change (rd8 (le32 v) 0) with (v mod 256).
  change (rd8 (le32 v) 1) with (v / 256 mod 256).
  change (rd8 (le32 v) 2) with (v / 65536 mod 256).
  change (rd8 (le32 v) 3) with (v / 16777216 mod 256).
  unfold u32. change (2 ^ 32) with 4294967296. Z.div_mod_to_equations. lia.
Qed.

Lemma get32_put32_ne b off off' v :
  0 <= off -> off + 4 <= Z.of_nat (length b) -> 0 <= off' ->
  off' + 4 <= off \/ off + 4 <= off' ->
  get32 (put32 b off v) off' = get32 b off'.
Proof.
  intros. unfold get32, put32. rewrite !rd8_mem_write by (cbn; lia). cbn [length le32].
  rewrite !decide_False by lia. done.
Qed.

Lemma length_put32 b off v :
  0 <= off -> off + 4 <= Z.of_nat (length b) -> length (put32 b off v) = length b.
Proof. intros. apply length_mem_write; cbn; lia. Qed.

Lemma bytes_ok_put32 n b off v :
  bytes_ok n b -> 0 <= off -> off + 4 <= n -> bytes_ok n (put32 b off v).
Proof. intros. apply bytes_ok_mem_write; cbn; auto using is_bytes_le32; lia. Qed.

Lemma get32_zeros n off : get32 (zeros n) off = 0.
Proof. unfold get32. by rewrite !rd8_zeros. Qed.

(** Bit [k] of a 32-bit little-endian word is bit [k mod 8] of byte [k / 8]. *)
Lemma get32_testbit b off k :
  is_bytes b -> 0 <= k < 32 ->
  Z.testbit (get32 b off) k = Z.testbit (rd8 b (off + k / 8)) (k mod 8).
Proof.
  intros Hb Hk. unfold get32. change 256 with (2 ^ 8).
  pose proof (rd8_byte b off Hb). pose proof (rd8_byte b (off + 1) Hb).
  pose proof (rd8_byte b (off + 2) Hb). pose proof (rd8_byte b (off + 3) Hb).
  unfold is_byte in *.
  assert (k / 8 = 0 \/ k / 8 = 1 \/ k / 8 = 2 \/ k / 8 = 3) as [E|[E|[E|E]]]
    by (Z.div_mod_to_equations; lia);
    assert (k = 8 * (k / 8) + k mod 8) by (apply Z.div_mod; lia);
    assert (0 <= k mod 8 < 8) by (apply Z.mod_pos_bound; lia); rewrite E.
  - rewrite testbit_low, Z.add_0_r by lia. f_equal. lia.
  - rewrite testbit_high, testbit_low by lia. f_equal. lia.
  - rewrite 2!testbit_high, testbit_low by lia. f_equal. lia.
  - rewrite 3!testbit_high by lia. f_equal. lia.
Qed.

Create HintDb kern discriminated.
#[export] Hint Resolve u32_range bytes_ok_zeros bytes_ok_put32 bytes_ok_wr8
  is_bytes_le32 rd8_byte get32_range : kern.

(** ** Counting the elements that satisfy a test *)

Definition b2z (b : bool) : Z := if b then 1 else 0.
Fixpoint zcount {A} (q : A -> bool) (l : list A) : Z :=
  match l with [] => 0 | x :: l' => b2z (q x) + zcount q l' end.

Lemma zcount_nonneg {A} q (l : list A) : 0 <= zcount q l.
Proof. induction l as [|x l IH]; cbn; [done|]. destruct (q x); cbn; lia. Qed.
Lemma zcount_app {A} q (l l' : list A) : zcount q (l ++ l') = zcount q l + zcount q l'.
Proof. induction l as [|x l IH]; cbn; [done|]. rewrite IH. lia. Qed.
Lemma zcount_zero {A} q (l : list A) x : zcount q l = 0 -> x ∈ l -> q x = false.
Proof.
  induction l as [|y l IH]; cbn; [by intros _ ?%not_elem_of_nil|]. pose proof (zcount_nonneg q l).
  intros Hz Hx. destruct (q y) eqn:E; cbn in Hz; [lia|]. apply elem_of_cons in Hx as [->|Hx]; [done|]. by apply IH.
Qed.
Lemma zcount_insert {A} q (l : list A) i x y :
  l !! i = Some x -> zcount q (<[i := y]> l) = zcount q l - b2z (q x) + b2z (q y).
Proof.
  revert i. induction l as [|z l IH]; intros [|i] E; simplify_eq/=; [lia|]. rewrite (IH i E). lia.
Qed.
Lemma zcount_concat_insert {A} q (l : list (list A)) i r r' :
  l !! i = Some r -> zcount q (concat (<[i := r']> l)) = zcount q (concat l) - zcount q r + zcount q r'.
Proof.
  revert i. induction l as [|z l IH]; intros [|i] E; simplify_eq/=; rewrite !zcount_app; [lia|]. rewrite (IH i E). lia.
Qed.

(** * Ring buffers: [n] places, of which [cnt] from place [r] on are in use *)

Definition ring_list {A} (n : Z) (b : list A) (r : Z) (cnt : nat) : list A :=
  omap (fun j : nat => b !! Z.to_nat ((r + Z.of_nat j) mod n)) (seq 0 cnt).

Lemma omap_fmap_list {A B C} (f : B -> option C) (g : A -> B) (l : list A) : omap f (g <$> l) = omap (fun x => f (g x)) l.
Proof. induction l as [|x l IH]; [done|]. cbn. by rewrite <- IH. Qed.

Section ring.
Context {A : Type} (n : Z) (b : list A) (Hn : 0 < n) (Hb : Z.of_nat (length b) = n).

Lemma ring_place x : exists a, b !! Z.to_nat (x mod n) = Some a.
Proof. pose proof (Z.mod_pos_bound x n Hn). apply lookup_lt_is_Some_2. lia. Qed.

Lemma ring_list_ext b' r cnt :
  (forall j, 0 <= j < Z.of_nat cnt -> b' !! Z.to_nat ((r + j) mod n) = b !! Z.to_nat ((r + j) mod n)) -> ring_list n b' r cnt = ring_list n b r cnt.
Proof.
  intros H. unfold ring_list. apply list_omap_ext, Forall_Forall2_diag, Forall_forall. intros j Hj%elem_of_seq. apply H. lia.
Qed.

Lemma ring_last r cnt a : b !! Z.to_nat ((r + Z.of_nat cnt) mod n) = Some a -> ring_list n b r (S cnt) = ring_list n b r cnt ++ [a].
Proof. intros E. unfold ring_list. rewrite seq_S, omap_app. cbn. by rewrite E. Qed.

(** The next place is taken. *)
Lemma ring_push r cnt a :
  Z.of_nat cnt < n -> ring_list n (<[Z.to_nat ((r + Z.of_nat cnt) mod n) := a]> b) r (S cnt) = ring_list n b r cnt ++ [a].
Proof.
  intros Hc. pose proof (Z.mod_pos_bound (r + Z.of_nat cnt) n Hn) as Hm. unfold ring_list. rewrite seq_S, omap_app. cbn. rewrite list_lookup_insert_eq by lia. f_equal.
  apply ring_list_ext. intros j Hj. apply list_lookup_insert_ne. intros E.
  pose proof (Z.mod_pos_bound (r + j) n Hn) as Hmj. assert (Em : (r + Z.of_nat cnt) mod n = (r + j) mod n) by lia.
  assert (Hd : (Z.of_nat cnt - j) mod n = 0).
  { replace (Z.of_nat cnt - j) with ((r + Z.of_nat cnt) - (r + j)) by lia. by rewrite Zminus_mod, Em, Z.sub_diag, Z.mod_0_l by lia. }
  rewrite Z.mod_small in Hd by lia. lia.
Qed.
(** The first place is given up. *)
Lemma ring_pop r cnt :
  0 <= r < n -> exists a, b !! Z.to_nat r = Some a /\ ring_list n b r (S cnt) = a :: ring_list n b ((r + 1) mod n) cnt.
Proof.
  intros Hr. destruct (ring_place r) as [a E]. rewrite Z.mod_small in E by done. exists a. split; [done|]. unfold ring_list. cbn [seq omap list_omap].
  rewrite Z.add_0_r, Z.mod_small, E by done. f_equal. rewrite <- fmap_S_seq, omap_fmap_list. apply list_omap_ext, Forall_Forall2_diag, Forall_forall.
  intros j _. cbn. rewrite Zplus_mod_idemp_l. do 3 f_equal. lia.
Qed.
Lemma length_ring_list r cnt : length (ring_list n b r cnt) = cnt.
Proof.
  induction cnt as [|cnt IH]; [done|]. destruct (ring_place (r + Z.of_nat cnt)) as [a E]. rewrite (ring_last _ _ _ E), length_app, IH. cbn. lia.
Qed.
End ring.
