(* ===== verification/LinkedList.v ===== *)
(** Intrusive doubly-linked lists: lib/list.c and include/list.h.

    The store is the memory of [struct list_item] objects, keyed by address;
    an element is an object that embeds an item at offset [elem_off], so the
    functions convert between element and item addresses as the C code does.
    [dll] relates a store to the sequence of elements it holds, and each
    operation is proved to implement its counterpart on sequences
    ([seq_app], [seq_pre], [seq_rm], ...), which is what the block cache uses. *)

From S2P Require Import Prelude.

(** * Data *)

Record list_item := ListItem { next : Z; prev : Z }.
Record clist := CList { first : Z; last_ : Z; elem_off : Z }.
Record lstore := LStore { li : clist; items : gmap Z list_item }.

Definition NULL : Z := 0.

(** Reads and writes through an item pointer. *)
Definition item (p : Z) : M lstore list_item :=
  o <~ gets (fun s => items s !! p);; deref o.
Definition set_next (p v : Z) : M lstore unit :=
  i <~ item p;; modify (fun s => LStore (li s) (<[p := ListItem v (prev i)]> (items s))).
Definition set_prev (p v : Z) : M lstore unit :=
  i <~ item p;; modify (fun s => LStore (li s) (<[p := ListItem (next i) v]> (items s))).
Definition set_first (v : Z) : M lstore unit :=
  modify (fun s => LStore (CList v (last_ (li s)) (elem_off (li s))) (items s)).
Definition set_last (v : Z) : M lstore unit :=
  modify (fun s => LStore (CList (first (li s)) v (elem_off (li s))) (items s)).
Definition to_item (elem : Z) : M lstore Z := gets (fun s => elem + elem_off (li s)).

(** * Operations *)

Definition list_init (off : Z) : M lstore unit :=
  modify (fun s => LStore (CList NULL NULL off) (items s)).

Definition list_get (p : Z) : M lstore Z :=
  if p =? NULL then ret NULL else gets (fun s => p - elem_off (li s)).

Definition list_first : M lstore Z := p <~ gets (fun s => first (li s));; list_get p.
Definition list_last : M lstore Z := p <~ gets (fun s => last_ (li s));; list_get p.
Definition list_is_empty : M lstore bool := gets (fun s => first (li s) =? NULL).

(** Insertion into an empty list, shared by [list_ib] and [list_ia]. *)
Definition list_sole (msg : string) (e2 : Z) : M lstore unit :=
  f <~ gets (fun s => first (li s));;
  if negb (f =? NULL) then panic msg else
  set_first e2;;; set_last e2;;; set_prev e2 NULL;;; set_next e2 NULL.

Definition list_ib (elem1 elem2 : Z) : M lstore unit :=
  e1 <~ to_item elem1;; e2 <~ to_item elem2;;
  if elem1 =? NULL then list_sole "list_prep: !elem1 && li->first" e2 else
  set_next e2 e1;;;
  i1 <~ item e1;; set_prev e2 (prev i1);;;
  i1 <~ item e1;;
  (if negb (prev i1 =? NULL) then set_next (prev i1) e2 else set_first e2);;;
  set_prev e1 e2.

Definition list_ia (elem1 elem2 : Z) : M lstore unit :=
  e1 <~ to_item elem1;; e2 <~ to_item elem2;;
  if elem1 =? NULL then list_sole "list_app: !elem1 && li->first" e2 else
  i1 <~ item e1;; set_next e2 (next i1);;;
  set_prev e2 e1;;;
  i1 <~ item e1;;
  (if negb (next i1 =? NULL) then set_prev (next i1) e2 else set_last e2);;;
  set_next e1 e2.

Definition list_app (elem : Z) : M lstore unit := l <~ list_last;; list_ia l elem.
Definition list_pre (elem : Z) : M lstore unit := f <~ list_first;; list_ib f elem.

Definition list_rm (elem : Z) : M lstore unit :=
  e <~ to_item elem;;
  f <~ gets (fun s => first (li s));;
  (if e =? f then i <~ item e;; set_first (next i) else ret tt);;;
  l <~ gets (fun s => last_ (li s));;
  (if e =? l then i <~ item e;; set_last (prev i) else ret tt);;;
  i <~ item e;;
  (if negb (next i =? NULL) then set_prev (next i) (prev i) else ret tt);;;
  i <~ item e;;
  if negb (prev i =? NULL) then set_next (prev i) (next i) else ret tt.

Definition list_next (elem : Z) : M lstore Z :=
  if elem =? NULL then panic "list_next: !elem" else
  e <~ to_item elem;; i <~ item e;;
  if next i =? NULL then ret NULL else gets (fun s => next i - elem_off (li s)).

Definition list_prev (elem : Z) : M lstore Z :=
  if elem =? NULL then panic "list_prev: !elem" else
  e <~ to_item elem;; i <~ item e;;
  if prev i =? NULL then ret NULL else gets (fun s => prev i - elem_off (li s)).

(** The two-speed walk of [list_check]; [fuel] bounds the iterations of its
    [while], and [None] is a walk that has not ended. *)
Fixpoint check_loop (fuel : nat) (p i f : Z) : M lstore (option unit) :=
  if i =? NULL then ret (Some tt) else
  match fuel with
  | O => ret None
  | S fuel =>
    it <~ item i;;
    if negb (prev it =? p) then panic "list_check: bad prev" else
    f' <~ (if negb (f =? NULL) then
             f1 <~ item f;;
             if negb (next f1 =? NULL) then
               f2 <~ item (next f1);;
               if next it =? next f2 then panic "list_check: cycle" else ret (next f2)
             else ret NULL
           else ret NULL);;
    check_loop fuel i (next it) f'
  end.

Definition list_check (fuel : nat) : M lstore (option unit) :=
  f <~ gets (fun s => first (li s));; check_loop fuel NULL f f.

(** * Sequences: the abstract lists *)

Section seqs.
Context {A : Type} `{EqDecision A}.
Definition seq_app (l : list A) (x : A) : list A := l ++ [x].
Definition seq_pre (l : list A) (x : A) : list A := x :: l.
Definition seq_rm (l : list A) (x : A) : list A := filter (fun y => y <> x) l.
End seqs.
Arguments seq_app : simpl never.
Arguments seq_pre : simpl never.
Arguments seq_rm : simpl never.

(** * Representation *)

Definition hd_item (off : Z) (l : list Z) (nxt : Z) : Z :=
  match l with x :: _ => x + off | [] => nxt end.
Definition last_item (off : Z) (l : list Z) (prv : Z) : Z :=
  match last l with Some x => x + off | None => prv end.

(** A chain of items: [prv] and [nxt] are its neighbours. *)
Fixpoint seg (h : gmap Z list_item) (off prv : Z) (l : list Z) (nxt : Z) : Prop :=
  match l with
  | [] => True
  | x :: l' =>
    h !! (x + off) = Some (ListItem (hd_item off l' nxt) prv) /\
    seg h off (x + off) l' nxt
  end.

Definition dll (s : lstore) (l : list Z) : Prop :=
  let off := elem_off (li s) in
  first (li s) = hd_item off l NULL /\
  last_ (li s) = last_item off l NULL /\
  seg (items s) off NULL l NULL /\
  NoDup l /\
  Forall (fun x => x <> NULL /\ x + off <> NULL) l.

(** An element that can be linked in: it exists, is not NULL and is not in [l]. *)
Definition loose (s : lstore) (l : list Z) (y : Z) : Prop :=
  y <> NULL /\ y + elem_off (li s) <> NULL /\ y ∉ l /\
  is_Some (items s !! (y + elem_off (li s))).

(** * Chains *)

Section seg.
Context (off : Z).
Implicit Types (h : gmap Z list_item) (l : list Z).

Lemma last_item_cons x l prv : last_item off (x :: l) prv = last_item off l (x + off).
Proof.
  unfold last_item. rewrite last_cons. by destruct (last l).
Qed.

Lemma last_item_app l x prv : last_item off (l ++ [x]) prv = x + off.
Proof. unfold last_item. by rewrite last_snoc. Qed.

Lemma seg_app h prv l1 l2 nxt :
  seg h off prv (l1 ++ l2) nxt <->
  seg h off prv l1 (hd_item off l2 nxt) /\ seg h off (last_item off l1 prv) l2 nxt.
Proof.
  revert prv. induction l1 as [|x l1 IH]; intros prv; cbn [app seg]; [naive_solver|].
  rewrite IH, last_item_cons. destruct l1; cbn; naive_solver.
Qed.

Lemma seg_frame h prv l nxt y v :
  y ∉ l -> seg h off prv l nxt -> seg (<[y + off := v]> h) off prv l nxt.
Proof.
  revert prv. induction l as [|x l IH]; intros prv Hy; cbn; [done|].
  apply not_elem_of_cons in Hy as [Hyx Hyl]. intros [Hx Hl].
  rewrite lookup_insert_ne by lia. split; [done|]. by apply IH.
Qed.

Lemma seg_relink_last h prv l z nxt nxt' :
  z ∉ l ->
  seg h off prv (l ++ [z]) nxt ->
  seg (<[z + off := ListItem nxt' (last_item off l prv)]> h) off prv (l ++ [z]) nxt'.
Proof.
  intros Hz. rewrite !seg_app. intros [Hl _]. split; cbn.
  - by apply seg_frame.
  - by rewrite lookup_insert_eq.
Qed.

Lemma seg_relink_first h prv prv' z l nxt :
  z ∉ l ->
  seg h off prv (z :: l) nxt ->
  seg (<[z + off := ListItem (hd_item off l nxt) prv']> h) off prv' (z :: l) nxt.
Proof. intros Hz [_ Hl]. cbn. rewrite lookup_insert_eq. split; [done|]. by apply seg_frame. Qed.

(** The neighbours of an element in the middle of a chain. *)
Lemma seg_mid h prv l1 x l2 nxt :
  seg h off prv (l1 ++ x :: l2) nxt ->
  h !! (x + off) = Some (ListItem (hd_item off l2 nxt) (last_item off l1 prv)).
Proof. rewrite seg_app. cbn. naive_solver. Qed.

End seg.

(** * The operations implement sequences *)

(** Runs a list operation on a store whose relevant items are known. *)
Ltac lrun :=
  unfold wp, list_init, list_first, list_last, list_app, list_pre, list_ib, list_ia, list_sole,
    list_rm, list_next, list_prev, list_get, to_item, set_first, set_last, set_next, set_prev,
    item, bind, ret, gets, modify, deref, panic, halted, NULL in *; cbn -[Z.add Z.sub Z.eqb];
  repeat (first
    [ rewrite lookup_insert_eq
    | rewrite lookup_insert_ne by lia
    | match goal with H : ?h !! ?k = Some _ |- context [?h !! ?k] => rewrite H end
    | match goal with |- context [?a =? ?b] =>
        first [ replace (a =? b) with false by (symmetry; apply Z.eqb_neq; lia)
              | replace (a =? b) with true by (symmetry; apply Z.eqb_eq; lia) ]
      end ]; cbn -[Z.add Z.sub Z.eqb]).

Lemma dll_elem s l x : dll s l -> x ∈ l -> x <> 0 /\ x + elem_off (li s) <> 0.
Proof. intros (_ & _ & _ & _ & H) ?. rewrite Forall_forall in H. by apply H. Qed.

Lemma dll_sole s f y :
  dll s [] -> loose s [] y ->
  wp (list_sole f (y + elem_off (li s))) (fun _ s' => dll s' [y] /\ elem_off (li s') = elem_off (li s))
    (fun _ _ => False) s.
Proof.
  destruct s as [[fi la off] h]. intros (Hf & Hl & _) (? & ? & _ & [i Hi]); cbn in *. subst.
  lrun. split; [|done]. split_and!; cbn; auto.
  - by rewrite lookup_insert_eq.
  - apply NoDup_singleton.
Qed.

(** The element facts every insertion and removal starts from. *)
Lemma dll_at s l1 x l2 :
  dll s (l1 ++ x :: l2) ->
  let off := elem_off (li s) in
  x <> 0 /\ x + off <> 0 /\ x ∉ l1 /\ x ∉ l2 /\ (forall z, z ∈ l1 -> z ∉ l2) /\ NoDup l1 /\ NoDup l2 /\
  items s !! (x + off) = Some (ListItem (hd_item off l2 NULL) (last_item off l1 NULL)) /\
  seg (items s) off NULL l1 (x + off) /\ seg (items s) off (x + off) l2 NULL.
Proof.
  intros Hd off. assert (x <> 0 /\ x + off <> 0) as [] by (eapply (dll_elem _ _ x Hd); set_solver).
  destruct Hd as (_ & _ & Hseg & Hnd & _).
  pose proof (seg_mid _ _ _ _ _ _ _ Hseg). apply seg_app in Hseg as [? [_ ?]].
  apply NoDup_app in Hnd as (? & ? & [? ?]%NoDup_cons). split_and!; try done; set_solver.
Qed.

(** Closes the goals of [dll] about the distinctness of the elements. *)
Ltac dll_nodup :=
  repeat match goal with
  | H : _ |- _ => lazymatch type of H with
      | _ ∉ _ => fail | NoDup _ => fail | Forall _ _ => fail
      | forall _, _ ∈ _ -> _ ∉ _ => fail | _ <> _ => fail | _ => clear H end
  end;
  repeat (rewrite ?NoDup_app, ?NoDup_cons, ?Forall_app, ?Forall_cons,
    ?not_elem_of_app, ?not_elem_of_cons in *; cbn); 
  set_solver.

(** [list_ib] in front of an element. *)
Lemma list_ib_spec s l1 x l2 y :
  dll s (l1 ++ x :: l2) -> loose s (l1 ++ x :: l2) y ->
  wp (list_ib x y)
    (fun _ s' => dll s' (l1 ++ y :: x :: l2) /\ elem_off (li s') = elem_off (li s))
    (fun _ _ => False) s.
Proof.
  destruct s as [[fi la off] h]. intros Hd (? & ? & Hy & [i Hi]).
  pose proof (dll_at _ _ _ _ Hd) as (? & ? & Hx1 & Hx2 & H12 & Hn1 & Hn2 & Hx & Hs1 & Hs2).
  destruct Hd as (Hf & Hl & _ & _ & Hnn); cbn in *.
  rewrite not_elem_of_app, not_elem_of_cons in Hy. destruct Hy as (Hy1 & Hyx & Hy2).
  induction l1 as [|z l1 _] using rev_ind; cbn [app] in *.
  - lrun. split; [|done]. split_and!; cbn.
    + done.
    + rewrite Hl. by rewrite !last_item_cons.
    + rewrite lookup_insert_ne, !lookup_insert_eq by lia. split_and!; [done..|].
      by repeat apply seg_frame.
    + dll_nodup.
    + by constructor.
  - rewrite last_item_app in Hx.
    rewrite not_elem_of_app, not_elem_of_cons in Hx1, Hy1. destruct Hx1 as (? & ? & _), Hy1 as (? & ? & _).
    assert (z + off <> 0) by (rewrite !Forall_app, Forall_cons in Hnn; tauto).
    pose proof (seg_mid _ _ _ _ _ _ _ Hs1) as Hz; cbn in Hz.
    lrun. split; [|done]. split_and!; cbn.
    + rewrite Hf. by destruct l1.
    + rewrite Hl. unfold last_item. by rewrite !last_app_cons, last_cons_cons.
    + apply seg_app; split; cbn.
      * apply seg_frame; [dll_nodup|]. apply seg_relink_last with (nxt := x + off).
        { dll_nodup. }
        repeat apply seg_frame; [dll_nodup..|done].
      * rewrite last_item_app, lookup_insert_ne, lookup_insert_ne, !lookup_insert_eq by lia.
        split_and!; [done..|]. repeat apply seg_frame; try done. dll_nodup.
    + dll_nodup.
    + dll_nodup.
Qed.

(** [list_ia] behind an element. *)
Lemma list_ia_spec s l1 x l2 y :
  dll s (l1 ++ x :: l2) -> loose s (l1 ++ x :: l2) y ->
  wp (list_ia x y)
    (fun _ s' => dll s' (l1 ++ x :: y :: l2) /\ elem_off (li s') = elem_off (li s))
    (fun _ _ => False) s.
Proof.
  destruct s as [[fi la off] h]. intros Hd (? & ? & Hy & [i Hi]).
  pose proof (dll_at _ _ _ _ Hd) as (? & ? & Hx1 & Hx2 & H12 & Hn1 & Hn2 & Hx & Hs1 & Hs2).
  destruct Hd as (Hf & Hl & _ & _ & Hnn); cbn in *.
  rewrite not_elem_of_app, not_elem_of_cons in Hy. destruct Hy as (Hy1 & Hyx & Hy2).
  destruct l2 as [|z l2]; cbn [hd_item] in *.
  - lrun. split; [|done]. split_and!; cbn.
    + rewrite Hf. by destruct l1.
    + unfold last_item. by rewrite last_app_cons, last_cons_cons.
    + apply seg_app; split; cbn; [by repeat apply seg_frame|].
      rewrite lookup_insert_eq, lookup_insert_ne, lookup_insert_eq by lia. done.
    + dll_nodup.
    + dll_nodup.
  - rewrite not_elem_of_cons in Hx2, Hy2. destruct Hx2 as (? & ?), Hy2 as (? & ?).
    assert (z + off <> 0) by (rewrite !Forall_app, !Forall_cons in Hnn; tauto).
    destruct Hs2 as [Hz Hs2]; cbn in Hz.
    lrun. split; [|done]. split_and!; cbn.
    + rewrite Hf. by destruct l1.
    + rewrite Hl. unfold last_item. by rewrite !last_app_cons, !last_cons_cons.
    + apply seg_app; split; cbn.
      * repeat apply seg_frame; [dll_nodup..|done].
      * rewrite lookup_insert_eq, !lookup_insert_ne, lookup_insert_eq by lia. split_and!; [done..| |].
        { by rewrite lookup_insert_ne, lookup_insert_eq by lia. }
        repeat apply seg_frame; try done. dll_nodup.
    + dll_nodup.
    + dll_nodup.
Qed.

(** Linking into an empty list, from either end. *)
Lemma list_ia_sole s y :
  dll s [] -> loose s [] y ->
  wp (list_ia NULL y) (fun _ s' => dll s' [y] /\ elem_off (li s') = elem_off (li s))
    (fun _ _ => False) s.
Proof. apply (dll_sole s "list_app: !elem1 && li->first"). Qed.

Lemma list_ib_sole s y :
  dll s [] -> loose s [] y ->
  wp (list_ib NULL y) (fun _ s' => dll s' [y] /\ elem_off (li s') = elem_off (li s))
    (fun _ _ => False) s.
Proof. apply (dll_sole s "list_prep: !elem1 && li->first"). Qed.

(** The first and last elements, as [list_first] and [list_last] return them. *)
Lemma list_first_run s l : dll s l -> list_first s = Ret (default NULL (head l)) s.
Proof.
  intros Hd. destruct s as [[fi la off] h]. destruct l as [|x l].
  - destruct Hd as (Hf & _); cbn in *; subst. done.
  - pose proof (dll_elem _ _ x Hd) as [??]; [set_solver|]. destruct Hd as (Hf & _); cbn in *.
    lrun. f_equal. lia.
Qed.

Lemma list_last_run s l : dll s l -> list_last s = Ret (default NULL (last l)) s.
Proof.
  intros Hd. destruct s as [[fi la off] h]. induction l as [|x l _] using rev_ind.
  - destruct Hd as (_ & Hl & _); cbn in *; subst. done.
  - pose proof (dll_elem _ _ x Hd) as [??]; [set_solver|]. destruct Hd as (_ & Hl & _).
    rewrite last_item_app in Hl. rewrite last_snoc. cbn in *. lrun. f_equal. lia.
Qed.

Lemma list_app_spec s l y :
  dll s l -> loose s l y ->
  wp (list_app y) (fun _ s' => dll s' (seq_app l y) /\ elem_off (li s') = elem_off (li s))
    (fun _ _ => False) s.
Proof.
  intros Hd Hy. unfold list_app. apply wp_bind. unfold wp at 1. rewrite (list_last_run _ _ Hd).
  unfold seq_app. induction l as [|x l _] using rev_ind.
  - by apply list_ia_sole.
  - rewrite last_snoc. cbn [default from_option]. rewrite <- app_assoc. by apply list_ia_spec.
Qed.

Lemma list_pre_spec s l y :
  dll s l -> loose s l y ->
  wp (list_pre y) (fun _ s' => dll s' (seq_pre l y) /\ elem_off (li s') = elem_off (li s))
    (fun _ _ => False) s.
Proof.
  intros Hd Hy. unfold list_pre. apply wp_bind. unfold wp at 1. rewrite (list_first_run _ _ Hd).
  unfold seq_pre. destruct l as [|x l].
  - by apply list_ib_sole.
  - by apply (list_ib_spec s [] x l y).
Qed.

Lemma seq_rm_mid (l1 l2 : list Z) x : x ∉ l1 -> x ∉ l2 -> seq_rm (l1 ++ x :: l2) x = l1 ++ l2.
Proof.
  intros H1 H2. unfold seq_rm.
  assert (Hid : forall l : list Z, x ∉ l -> filter (fun y => y <> x) l = l).
  { intros l Hl. induction l as [|z l IH]; [done|]. apply not_elem_of_cons in Hl as [??].
    rewrite filter_cons_True by done. by rewrite IH. }
  rewrite filter_app, filter_cons_False by naive_solver. by rewrite !Hid.
Qed.

(** Unlinking the chain around a removed element. *)
Lemma seg_unlink h off l1 x l2 :
  x ∉ l1 -> x ∉ l2 -> NoDup l1 -> NoDup l2 -> (forall z, z ∈ l1 -> z ∉ l2) ->
  seg h off NULL l1 (x + off) -> seg h off (x + off) l2 NULL ->
  forall h', 
    h' = match l2 with
         | z :: l => <[z + off := ListItem (hd_item off l NULL) (last_item off l1 NULL)]> h
         | [] => h
         end ->
    forall h'',
    (forall l z, l1 = l ++ [z] ->
       h'' = <[z + off := ListItem (hd_item off l2 NULL) (last_item off l NULL)]> h') ->
    (l1 = [] -> h'' = h') ->
    seg h'' off NULL (l1 ++ l2) NULL.
Proof.
  intros Hx1 Hx2 Hn1 Hn2 H12 Hs1 Hs2 h' Hh' h'' Hc Hn.
  assert (Hs1' : seg h' off NULL l1 (x + off)).
  { subst h'. destruct l2; [done|]. apply seg_frame; [|done]. intros Hz. apply (H12 _ Hz). set_solver. }
  assert (Hs2' : seg h' off (last_item off l1 NULL) l2 NULL).
  { subst h'. destruct l2; [done|]. eapply seg_relink_first; [by apply NoDup_cons in Hn2 as []|done]. }
  apply seg_app. induction l1 as [|z l1 _] using rev_ind.
  - rewrite Hn by done. done.
  - rewrite (Hc l1 z) by done. split.
    + eapply seg_relink_last; [|done]. apply NoDup_app in Hn1. set_solver.
    + apply seg_frame; [|done]. apply H12. set_solver.
Qed.

(** An element that is not linked anywhere: [list_rm] leaves the list alone. *)
Lemma list_rm_detached s l x :
  dll s l -> x ∉ l -> x + elem_off (li s) <> 0 ->
  items s !! (x + elem_off (li s)) = Some (ListItem NULL NULL) ->
  list_rm x s = Ret tt s.
Proof.
  destruct s as [[fi la off] h]. intros (Hf & Hl & _) Hx ? Hi; cbn in *.
  assert (fi <> x + off).
  { subst fi. destruct l; cbn; [unfold NULL; lia|]. apply not_elem_of_cons in Hx. lia. }
  assert (la <> x + off).
  { subst la. unfold last_item. destruct (last l) eqn:El; [|unfold NULL; lia].
    apply last_Some_elem_of in El. intros ?. assert (z = x) by lia. by subst. }
  lrun. done.
Qed.

(** Where the ends of the list are relative to an element [x] of it. *)
Lemma last_item_drop off l1 x z l2 p p' :
  last_item off (l1 ++ x :: z :: l2) p = last_item off (l1 ++ z :: l2) p'.
Proof. unfold last_item. by rewrite !last_app_cons, last_cons_cons, last_cons; destruct (last l2). Qed.

Lemma last_item_ne off l1 x l2 p : x ∉ l2 -> l2 <> [] -> last_item off (l1 ++ x :: l2) p <> x + off.
Proof.
  intros Hx Hn. unfold last_item. rewrite last_app_cons.
  induction l2 as [|z l2 _] using rev_ind; [done|].
  rewrite app_comm_cons, last_snoc. set_solver by lia.
Qed.

Lemma hd_item_ne off l1 x l2 p : x ∉ l1 -> l1 <> [] -> hd_item off (l1 ++ x :: l2) p <> x + off.
Proof. destruct l1; [done|]. rewrite not_elem_of_cons. cbn. lia. Qed.

Lemma list_rm_spec s l x :
  dll s l -> x ∈ l ->
  wp (list_rm x) (fun _ s' => dll s' (seq_rm l x) /\ elem_off (li s') = elem_off (li s))
    (fun _ _ => False) s.
Proof.
  destruct s as [[fi la off] h]. intros Hd (l1 & l2 & ->)%list_elem_of_split.
  pose proof (dll_at _ _ _ _ Hd) as (? & ? & Hx1 & Hx2 & H12 & Hn1 & Hn2 & Hx & Hs1 & Hs2).
  rewrite seq_rm_mid by done.
  destruct Hd as (Hf & Hl & _ & _ & Hnn); cbn in *.
  pose proof (seg_unlink _ _ _ _ _ Hx1 Hx2 Hn1 Hn2 H12 Hs1 Hs2 _ eq_refl) as Hun.
  assert (HF : Forall (fun x => x <> NULL /\ x + off <> NULL) (l1 ++ l2)) by dll_nodup.
  assert (HN : NoDup (l1 ++ l2)) by dll_nodup.
  assert (l2 <> [] -> la <> x + off) by (intros; subst la; by apply last_item_ne).
  assert (l1 <> [] -> fi <> x + off) by (intros; subst fi; by apply hd_item_ne).
  assert (Hz0 : forall z, z ∈ l1 ++ l2 -> z + off <> 0).
  { intros z Hz. rewrite Forall_forall in HF. by apply HF in Hz as []. }
  destruct l2 as [|z' l2]; cbn [hd_item] in *;
    induction l1 as [|z l1 _] using rev_ind; cbn [app hd_item] in *.
  - cbn in Hl. lrun. split_and!; done.
  - rewrite !last_item_app in Hl, Hx. apply seg_mid in Hs1 as Hz. cbn in Hz.
    assert (fi <> x + off) by (apply H2; by destruct l1).
    assert (z + off <> 0) by (apply Hz0; set_solver +).
    assert (z <> x) by set_solver +Hx1.
    lrun. split; [|done]. split_and!; cbn; try done.
    + subst fi. by destruct l1.
    + by rewrite app_nil_r, last_item_app.
    + apply Hun; [|by destruct l1]. by intros l y [-> ->]%app_inj_tail.
  - pose proof (last_item_drop off [] x z' l2 NULL NULL) as E. cbn [app] in E. rewrite E in Hl.
    assert (z' + off <> 0) by (apply Hz0; set_solver +).
    assert (z' <> x) by set_solver +Hx2.
    destruct Hs2 as [Hz' _]. cbn in Hz'. cbn in Hx.
    assert (la <> x + off) by auto.
    lrun. split; [|done]. split_and!; cbn; try done.
    apply Hun; [|done]. by intros [] ? ?.
  - rewrite (last_item_drop off (l1 ++ [z]) x z' l2 NULL NULL) in Hl. rewrite !last_item_app in Hx, Hun.
    assert (fi <> x + off) by (apply H2; by destruct l1).
    assert (la <> x + off) by auto.
    apply seg_mid in Hs1 as Hz. destruct Hs2 as [Hz' _]. cbn in Hz, Hz'.
    assert (z + off <> 0) by (apply Hz0; set_solver +).
    assert (z' + off <> 0) by (apply Hz0; set_solver +).
    assert (z <> x) by set_solver +Hx1. assert (z' <> x) by set_solver +Hx2.
    assert (z <> z') by set_solver +H12.
    lrun. split; [|done]. split_and!; cbn; try done.
    + subst fi. by destruct l1.
    + apply Hun; [|by destruct l1]. by intros l y [-> ->]%app_inj_tail.
Qed.

(** Stepping through the list. *)
Lemma list_next_run s l1 x l2 :
  dll s (l1 ++ x :: l2) -> list_next x s = Ret (default NULL (head l2)) s.
Proof.
  intros Hd. pose proof (dll_at _ _ _ _ Hd) as (? & ? & _ & _ & _ & _ & _ & Hx & _ & _).
  assert (Hl2 : forall y, y ∈ l2 -> y + elem_off (li s) <> 0).
  { intros y Hy. apply (dll_elem _ _ y Hd). set_solver. }
  destruct s as [[fi la off] h], l2 as [|y l2]; cbn in *; [by lrun|].
  pose proof (Hl2 y ltac:(set_solver +)). lrun. f_equal. lia.
Qed.

Lemma list_prev_run s l1 x l2 :
  dll s (l1 ++ x :: l2) -> list_prev x s = Ret (default NULL (last l1)) s.
Proof.
  intros Hd. pose proof (dll_at _ _ _ _ Hd) as (? & ? & _ & _ & _ & _ & _ & Hx & _ & _).
  assert (Hl1 : forall y, y ∈ l1 -> y + elem_off (li s) <> 0).
  { intros y Hy. apply (dll_elem _ _ y Hd). set_solver. }
  destruct s as [[fi la off] h]; cbn in *.
  induction l1 as [|y l1 _] using rev_ind; [by lrun|].
  rewrite last_item_app in Hx. rewrite last_snoc.
  pose proof (Hl1 y ltac:(set_solver +)). lrun. f_equal. lia.
Qed.

(** ** The consistency check *)

(** The item at position [k], NULL past the end; its predecessor. *)
Definition item_at (off : Z) (l : list Z) (k : nat) : Z :=
  match l !! k with Some x => x + off | None => NULL end.
Definition item_before (off : Z) (l : list Z) (k : nat) : Z :=
  match k with O => NULL | S j => item_at off l j end.

Lemma dll_item_at s l k :
  let off := elem_off (li s) in
  dll s l -> (k < length l)%nat ->
  item_at off l k <> NULL /\
  items s !! item_at off l k = Some (ListItem (item_at off l (S k)) (item_before off l k)).
Proof.
  intros off Hd Hk. destruct (lookup_lt_is_Some_2 l k Hk) as [x Hx].
  assert (Hin : item_at off l k = x + off) by (unfold item_at; by rewrite Hx). rewrite Hin.
  split; [apply (dll_elem _ _ x Hd), list_elem_of_lookup; eauto|].
  destruct Hd as (_ & _ & Hseg & _). fold off in Hseg.
  rewrite <- (take_drop_middle l k x Hx) in Hseg. rewrite (seg_mid _ _ _ _ _ _ _ Hseg). do 2 f_equal.
  - unfold item_at. destruct (l !! S k) eqn:E.
    + by erewrite drop_S.
    + by rewrite drop_ge by (by apply lookup_ge_None).
  - unfold last_item, item_before, item_at. destruct k; [done|].
    destruct (lookup_lt_is_Some_2 l k) as [y Hy]; [lia|].
    rewrite (take_S_r _ _ _ Hy), last_snoc. by rewrite Hy.
Qed.

Lemma item_at_inj s l j k :
  dll s l -> (j < length l)%nat -> item_at (elem_off (li s)) l j = item_at (elem_off (li s)) l k -> j = k.
Proof.
  intros Hd Hj Heq. pose proof (dll_item_at _ _ _ Hd Hj) as [Hnn _]. revert Hnn Heq.
  unfold item_at. destruct (lookup_lt_is_Some_2 l j Hj) as [x Hx]. rewrite Hx.
  destruct (l !! k) as [y|] eqn:Hy; [|done]. intros _ ?. assert (x = y) as -> by lia.
  destruct Hd as (_ & _ & _ & Hnd & _). by eapply NoDup_lookup.
Qed.

Lemma item_bind {B} p i (k : list_item -> M lstore B) s :
  items s !! p = Some i -> bind (item p) k s = k i s.
Proof. intros H. unfold bind, item, gets, bind. by rewrite H. Qed.

Lemma check_loop_run s l k fuel :
  let off := elem_off (li s) in
  dll s l -> (length l <= k + fuel)%nat ->
  check_loop fuel (item_before off l k) (item_at off l k) (item_at off l (2 * k)) s = Ret (Some tt) s.
Proof.
  intros off Hd. revert k. induction fuel as [|fuel IH]; intros k Hk; cbn [check_loop].
  - unfold item_at at 1. by rewrite lookup_ge_None_2 by lia.
  - destruct (decide (k < length l)%nat) as [Hlt|].
    2: { unfold item_at at 1. by rewrite lookup_ge_None_2 by lia. }
    destruct (dll_item_at s l k Hd Hlt) as [Hnn Hi]. fold off in Hnn, Hi.
    rewrite (proj2 (Z.eqb_neq _ _) Hnn), (item_bind _ _ _ _ Hi). cbn [next prev].
    rewrite Z.eqb_refl. cbn [negb].
    assert (Hstep : forall f', f' = item_at off l (2 * S k) ->
      check_loop fuel (item_at off l k) (item_at off l (S k)) f' s = Ret (Some tt) s).
    { intros f' ->. apply (IH (S k)). lia. }
    assert (Hend : forall j, (length l <= j)%nat -> item_at off l j = NULL).
    { intros j Hj. unfold item_at. by rewrite lookup_ge_None_2. }
    unfold bind at 1. destruct (decide (2 * k < length l)%nat) as [H2|H2].
    2: { rewrite (Hend (2 * k)%nat) by lia. apply Hstep. symmetry. apply Hend. lia. }
    destruct (dll_item_at s l (2 * k) Hd H2) as [Hnn2 Hi2]. fold off in Hnn2, Hi2.
    rewrite (proj2 (Z.eqb_neq _ _) Hnn2). cbn [negb]. rewrite (item_bind _ _ _ _ Hi2). cbn [next prev].
    destruct (decide (S (2 * k) < length l)%nat) as [H3|H3].
    2: { rewrite (Hend (S (2 * k))) by lia. apply Hstep. symmetry. apply Hend. lia. }
    destruct (dll_item_at s l (S (2 * k)) Hd H3) as [Hnn3 Hi3]. fold off in Hnn3, Hi3.
    rewrite (proj2 (Z.eqb_neq _ _) Hnn3). cbn [negb]. rewrite (item_bind _ _ _ _ Hi3). cbn [next prev].
    rewrite (proj2 (Z.eqb_neq _ _)).
    { apply Hstep. f_equal. lia. }
    intros Heq. apply (item_at_inj s l) in Heq; [lia|done|lia].
Qed.

(** * Properties *)

(** C37. lib/list.c implements sequences: on a well-formed list, [list_app],
    [list_pre] and the insertions next to an element link a fresh element where
    they say, [list_rm] unlinks exactly the given element, and the result is
    well formed again. *)
Theorem list_ops_refine s l :
  dll s l ->
  (forall y, loose s l y ->
     wp (list_app y) (fun _ s' => dll s' (seq_app l y)) (fun _ _ => False) s /\
     wp (list_pre y) (fun _ s' => dll s' (seq_pre l y)) (fun _ _ => False) s /\
     forall l1 x l2, l = l1 ++ x :: l2 ->
       wp (list_ib x y) (fun _ s' => dll s' (l1 ++ y :: x :: l2)) (fun _ _ => False) s /\
       wp (list_ia x y) (fun _ s' => dll s' (l1 ++ x :: y :: l2)) (fun _ _ => False) s) /\
  (forall x, x ∈ l -> wp (list_rm x) (fun _ s' => dll s' (seq_rm l x)) (fun _ _ => False) s).
Proof.
  intros Hd. split.
  - intros y Hy. split_and!.
    + eapply wp_mono; [by apply list_app_spec|naive_solver|done].
    + eapply wp_mono; [by apply list_pre_spec|naive_solver|done].
    + intros l1 x l2 ->. split.
      * eapply wp_mono; [by apply list_ib_spec|naive_solver|done].
      * eapply wp_mono; [by apply list_ia_spec|naive_solver|done].
  - intros x Hx. eapply wp_mono; [by apply list_rm_spec|naive_solver|done].
Qed.

(** Walking a well-formed list visits its elements: [list_first] and
    [list_last] return the ends (NULL when empty), [list_next] and [list_prev]
    the neighbours (NULL at the ends); and [list_check], whose two-speed walk
    looks for cycles, ends within the length of the list without panicking. *)
Theorem list_walk_ok s l :
  dll s l ->
  list_first s = Ret (default NULL (head l)) s /\
  list_last s = Ret (default NULL (last l)) s /\
  (forall l1 x l2, l = l1 ++ x :: l2 ->
     list_next x s = Ret (default NULL (head l2)) s /\ list_prev x s = Ret (default NULL (last l1)) s) /\
  list_check (length l) s = Ret (Some tt) s.
Proof.
  intros Hd. split_and!; [by apply list_first_run|by apply list_last_run| |].
  - intros l1 x l2 ->. split; [by eapply list_next_run|by eapply list_prev_run].
  - unfold list_check. rewrite gets_bind.
    pose proof (check_loop_run s l 0 (length l) Hd ltac:(lia)) as Hrun. cbn in Hrun.
    destruct Hd as (Hf & _). unfold item_at, item_before in Hrun.
    replace (first (li s)) with (match l !! 0%nat with Some x => x + elem_off (li s) | None => NULL end).
    + exact Hrun.
    + rewrite Hf. by destruct l.
Qed.

(** ** Witnesses: elements at 100 and 200, items at offset 8, 300 not linked *)

Definition demo_list : lstore :=
  LStore (CList 108 208 8) (<[108 := ListItem 208 0]> (<[208 := ListItem 0 108]> {[308 := ListItem 0 0]})).

Lemma demo_dll : dll demo_list [100; 200].
Proof.
  unfold dll, demo_list; cbn -[Z.add]. split_and!; try (by vm_compute).
  - repeat constructor; rewrite ?elem_of_cons; set_solver by lia.
  - repeat constructor; unfold NULL; lia.
Qed.

Lemma list_ops_refine_witness :
  wp (list_app 300) (fun _ s' => dll s' [100; 200; 300]) (fun _ _ => False) demo_list /\
  wp (list_rm 100) (fun _ s' => dll s' [200]) (fun _ _ => False) demo_list.
Proof.
  destruct (list_ops_refine demo_list [100; 200] demo_dll) as [H1 H2]. split.
  - apply (H1 300). unfold loose, NULL. cbn -[Z.add]. split_and!; try lia; [|by eexists].
    intros H. apply list_elem_of_In in H. cbn in H. lia.
  - apply (H2 100). left.
Defined.

Lemma list_walk_ok_witness :
  list_next 100 demo_list = Ret 200 demo_list /\ list_check 2 demo_list = Ret (Some tt) demo_list.
Proof.
  destruct (list_walk_ok demo_list [100; 200] demo_dll) as (_ & _ & H1 & H2). split; [|exact H2].
  by apply (H1 [] 100 [200]).
Defined.
