(* ===== verification/BlockDev.v ===== *)
(** Block devices: the function pointers of [struct bdev] (include/kern/block.h)
    as an interface, and the ramdisk driver drv/rd.drv.c that implements it.

    [BlockDriver] is what kern/block.c calls; [BlockDriverOk] is what it relies
    on: a device holds an array of 512-byte blocks, a successful read returns
    the block, and a write inside the device succeeds and changes that block
    only.  The ramdisk is proved to meet it. *)

From S2P Require Import Prelude.

Definition BLK_SIZE : Z := 512.

(** * The driver interface *)

(** [open], [close], [read] and [write] of the device numbered [dev]; a read is
    given the buffer it fills and returns it with the error code. *)
Class BlockDriver (D : Type) := {
  drv_open : nat -> D -> Z * D;
  drv_close : nat -> D -> Z * D;
  drv_read : nat -> Z -> list Z -> D -> Z * list Z * D;
  drv_write : nat -> Z -> list Z -> D -> Z * D;
}.

(** Replacing one block of a disk. *)
Definition disk_upd (f : nat -> Z -> list Z) (dev : nat) (nr : Z) (b : list Z) : nat -> Z -> list Z :=
  fun dev' nr' => if decide (dev' = dev /\ nr' = nr) then b else f dev' nr'.

Class BlockDriverOk (D : Type) `{BlockDriver D} := {
  drv_inv : D -> Prop;
  drv_disk : D -> nat -> Z -> list Z;
  drv_range : D -> nat -> Z -> Prop;
  drv_disk_ok : forall d dev nr, drv_inv d -> bytes_ok BLK_SIZE (drv_disk d dev nr);
  drv_read_ok : forall d dev nr buf e buf' d',
    drv_inv d -> bytes_ok BLK_SIZE buf -> drv_read dev nr buf d = (e, buf', d') ->
    drv_inv d' /\ bytes_ok BLK_SIZE buf' /\
    (forall dev' nr', drv_disk d' dev' nr' = drv_disk d dev' nr') /\
    (forall dev' nr', drv_range d dev' nr' -> drv_range d' dev' nr') /\
    (e = 0 -> buf' = drv_disk d dev nr);
  drv_write_ok : forall d dev nr buf e d',
    drv_inv d -> bytes_ok BLK_SIZE buf -> drv_range d dev nr ->
    drv_write dev nr buf d = (e, d') ->
    e = 0 /\ drv_inv d' /\
    (forall dev' nr', drv_disk d' dev' nr' = disk_upd (drv_disk d) dev nr buf dev' nr') /\
    (forall dev' nr', drv_range d dev' nr' -> drv_range d' dev' nr');
}.

(** * The ramdisk *)

Definition RD_MAX : nat := 8.
Definition RDIOCNEW : Z := 0x7201.
Definition BIO_INFO : Z := 0x6201.

(** The [image] pointer of a unit: null, an allocation, or freed memory. *)
Inductive rd_image := RdNull | RdLive (bytes : list Z) | RdFreed.
Record rd_unit := RdUnit { u_image : rd_image; u_size : Z }.

(** The driver's [rd_units], by unit number. *)
Definition rd_units : Type := gmap nat rd_unit.
Definition rd_get (us : gmap nat rd_unit) (un : nat) : rd_unit :=
  default (RdUnit RdNull 0) (us !! un).

Definition rd_open (un : nat) (us : gmap nat rd_unit) : Z := 0.
Definition rd_close (un : nat) (us : gmap nat rd_unit) : Z := 0.

(** [memcpy] from and to the image; copying outside an allocation is undefined. *)
Definition image_read (i : rd_image) (off len : Z) : option (list Z) :=
  match i with
  | RdLive b => if (0 <=? off) && (off + len <=? Z.of_nat (length b))
                then Some (mem_read b off len) else None
  | _ => None
  end.
Definition image_write (i : rd_image) (off : Z) (src : list Z) : option rd_image :=
  match i with
  | RdLive b => if (0 <=? off) && (off + Z.of_nat (length src) <=? Z.of_nat (length b))
                then Some (RdLive (mem_write b off src)) else None
  | _ => None
  end.

(** The offset is an unsigned 64-bit product of [BLK_SIZE] and a [blk_t] computed
    in 32 bits, as the usual arithmetic conversions make it. *)
Definition rd_read (un : nat) (blk : Z) : M (gmap nat rd_unit) (list Z) :=
  us <~ gets id;; let u := rd_get us un in
  if (blk <? 0) || (u_size u <=? blk) then fail EINVAL else
  deref (image_read (u_image u) (u32 (BLK_SIZE * blk)) BLK_SIZE).

Definition rd_write (un : nat) (blk : Z) (buf : list Z) : M (gmap nat rd_unit) unit :=
  us <~ gets id;; let u := rd_get us un in
  if (blk <? 0) || (u_size u <=? blk) then fail EINVAL else
  i <~ deref (image_write (u_image u) (u32 (BLK_SIZE * blk)) buf);;
  modify (fun us => <[un := RdUnit i (u_size u)]> us).

(** [free]: freeing freed memory is undefined. *)
Definition rd_free (un : nat) : M (gmap nat rd_unit) unit :=
  us <~ gets id;; let u := rd_get us un in
  match u_image u with
  | RdNull => ret tt
  | RdLive _ => modify (fun us => <[un := RdUnit RdFreed (u_size u)]> us)
  | RdFreed => halted Undefined
  end.

(** The [ov_mul_size] macro of include/overflow.h. *)
Definition ov_mul_size (a b : Z) : bool :=
  negb (b =? 0) && negb (u64 (u64 a * u64 b) / u64 b =? u64 a).

(** The RDIOCNEW command: [bc] is the block count read from user memory, [sz0]
    the value the variable [sz] has before it is assigned, [kmalloc_err] the
    result of [kmalloc]. *)
Definition rd_ioctl_new (un : nat) (bc sz0 kmalloc_err : Z) : M (gmap nat rd_unit) unit :=
  if ov_mul_size sz0 bc then fail EINVAL else
  let sz := u32 (bc * BLK_SIZE) in
  rd_free un;;;
  us <~ gets id;;
  modify (fun us => <[un := RdUnit (u_image (rd_get us un)) 0]> us);;;
  if bc =? 0 then ret tt else
  if negb (kmalloc_err =? 0) then fail kmalloc_err else
  modify (fun us => <[un := RdUnit (RdLive (zeros sz)) bc]> us).

(** BIO_INFO reports the size of the unit; other commands are refused. *)
Definition rd_ioctl (un : nat) (cmd bc sz0 kmalloc_err : Z) : M (gmap nat rd_unit) Z :=
  if cmd =? BIO_INFO then gets (fun us => u_size (rd_get us un))
  else if cmd =? RDIOCNEW then rd_ioctl_new un bc sz0 kmalloc_err;;; ret 0
  else fail ENOTTY.

(** The ramdisk as a block driver; a halt has no return value and is shown as
    an error code no function returns. *)
Definition WILD : Z := -1.
#[export] Instance rd_driver : BlockDriver (gmap nat rd_unit) := {
  drv_open un us := (rd_open un us, us);
  drv_close un us := (rd_close un us, us);
  drv_read un blk buf us :=
    match rd_read un blk us with
    | Ret b us' => (0, b, us')
    | Err e us' => (e, buf, us')
    | Halt _ => (WILD, buf, us)
    end;
  drv_write un blk buf us :=
    match rd_write un blk buf us with
    | Ret _ us' => (0, us')
    | Err e us' => (e, us')
    | Halt _ => (WILD, us)
    end;
}.

(** * The ramdisk is a correct driver *)

(** A unit is well formed when its image has [size] blocks; a 32-bit offset then
    reaches all of it. *)
Definition rd_wf_unit (u : rd_unit) : Prop :=
  match u_image u with
  | RdLive b => bytes_ok (BLK_SIZE * u_size u) b /\ 0 <= u_size u < 2 ^ 23
  | _ => u_size u = 0
  end.
Definition rd_wf (us : gmap nat rd_unit) : Prop := map_Forall (fun _ u => rd_wf_unit u) us.

Definition rd_block (us : gmap nat rd_unit) (un : nat) (blk : Z) : list Z :=
  match u_image (rd_get us un) with
  | RdLive b => if (0 <=? blk) && (blk <? u_size (rd_get us un))
                then mem_read b (BLK_SIZE * blk) BLK_SIZE else zeros BLK_SIZE
  | _ => zeros BLK_SIZE
  end.
Definition rd_range (us : gmap nat rd_unit) (un : nat) (blk : Z) : Prop :=
  0 <= blk < u_size (rd_get us un).

Lemma rd_wf_get us un : rd_wf us -> rd_wf_unit (rd_get us un).
Proof.
  intros H. unfold rd_get. destruct (us !! un) eqn:E; [by apply (H un)|done].
Qed.

Lemma rd_range_live us un blk :
  rd_wf us -> rd_range us un blk ->
  exists b, u_image (rd_get us un) = RdLive b /\ bytes_ok (BLK_SIZE * u_size (rd_get us un)) b /\
    u32 (BLK_SIZE * blk) = BLK_SIZE * blk /\ 0 <= BLK_SIZE * blk /\
    BLK_SIZE * blk + BLK_SIZE <= Z.of_nat (length b).
Proof.
  intros Hwf Hr. pose proof (rd_wf_get us un Hwf) as Hu. unfold rd_wf_unit, rd_range, BLK_SIZE in *.
  destruct (u_image _) as [|b|]; [lia| |lia]. destruct Hu as [[Hl Hb] Hs]. exists b.
  rewrite u32_small by lia. split_and!; try done; lia.
Qed.

Lemma rd_block_ok us un blk : rd_wf us -> bytes_ok BLK_SIZE (rd_block us un blk).
Proof.
  intros Hwf. unfold rd_block. pose proof (rd_wf_get us un Hwf) as Hu. unfold rd_wf_unit in Hu.
  destruct (u_image _) as [|b|]; try (by apply bytes_ok_zeros).
  destruct Hu as [[Hl Hb] Hs]. destruct (_ && _) eqn:E; [|by apply bytes_ok_zeros].
  unfold BLK_SIZE in *. split; [rewrite length_mem_read; lia|].
  unfold mem_read. auto using Forall_take, Forall_drop.
Qed.

Lemma rd_read_run us un blk :
  rd_wf us ->
  rd_read un blk us = if decide (rd_range us un blk) then Ret (rd_block us un blk) us
                        else Err EINVAL us.
Proof.
  intros Hwf. unfold rd_read, bind, gets, id. case_decide as Hr.
  - destruct (rd_range_live us un blk Hwf Hr) as (b & Hb & Hok & Ho & H0 & H1).
    unfold rd_range, rd_block in *. rewrite Hb.
    replace ((blk <? 0) || (u_size (rd_get us un) <=? blk)) with false by lia.
    replace ((0 <=? blk) && (blk <? u_size (rd_get us un))) with true by lia.
    unfold image_read. rewrite Ho.
    replace ((0 <=? BLK_SIZE * blk) && (BLK_SIZE * blk + BLK_SIZE <=? Z.of_nat (length b))) with true by lia.
    done.
  - unfold rd_range in Hr. replace ((blk <? 0) || (u_size (rd_get us un) <=? blk)) with true by lia. done.
Qed.

(** The unit after a block has been written to it. *)
Lemma rd_write_run us un blk buf :
  rd_wf us -> bytes_ok BLK_SIZE buf -> rd_range us un blk ->
  exists b, u_image (rd_get us un) = RdLive b /\
    let u' := RdUnit (RdLive (mem_write b (BLK_SIZE * blk) buf)) (u_size (rd_get us un)) in
    rd_write un blk buf us = Ret tt (<[un := u']> us) /\ rd_wf_unit u'.
Proof.
  intros Hwf [Hlen Hbuf] Hr. destruct (rd_range_live us un blk Hwf Hr) as (b & Hb & Hok & Ho & H0 & H1).
  exists b. split; [done|]. unfold rd_write, bind, gets, id. rewrite Hb. unfold rd_range in Hr.
  replace ((blk <? 0) || (u_size (rd_get us un) <=? blk)) with false by lia.
  unfold image_write. rewrite Ho, Hlen.
  replace ((0 <=? BLK_SIZE * blk) && (BLK_SIZE * blk + BLK_SIZE <=? Z.of_nat (length b))) with true by lia.
  split; [done|]. unfold rd_wf_unit; cbn. pose proof (rd_wf_get us un Hwf) as Hu.
  unfold rd_wf_unit in Hu. rewrite Hb in Hu. destruct Hu as [_ Hs].
  split; [|done]. apply bytes_ok_mem_write; try done. destruct Hok. lia.
Qed.

Lemma rd_block_write us un blk buf b un' blk' :
  rd_wf us -> bytes_ok BLK_SIZE buf -> rd_range us un blk -> u_image (rd_get us un) = RdLive b ->
  rd_block (<[un := RdUnit (RdLive (mem_write b (BLK_SIZE * blk) buf)) (u_size (rd_get us un))]> us) un' blk'
  = disk_upd (rd_block us) un blk buf un' blk'.
Proof.
  intros Hwf [Hlen Hbuf] Hr Hb.
  destruct (rd_range_live us un blk Hwf Hr) as (b' & Hb' & [Hok _] & _ & H0 & H1).
  rewrite Hb in Hb'. injection Hb' as <-.
  unfold disk_upd, rd_block, rd_get. destruct (decide (un' = un)) as [->|Hne].
  2: { rewrite decide_False by tauto. by rewrite lookup_insert_ne. }
  rewrite lookup_insert_eq. cbn. fold (rd_get us un). rewrite Hb.
  destruct ((0 <=? blk') && (blk' <? u_size (rd_get us un))) eqn:E; unfold rd_range, BLK_SIZE in *.
  2: { rewrite decide_False; [done|]. intros [_ ->]. lia. }
  apply list_eq_same_length with (n := 512%nat).
  - case_decide; [lia|]. apply Nat2Z.inj. rewrite length_mem_read; lia.
  - apply Nat2Z.inj. rewrite length_mem_read; [lia..|]. rewrite length_mem_write; lia.
  - intros i x y Hi Hx Hy.
    assert (Hrd : forall l : list Z, rd8 l (Z.of_nat i) = default 0 (l !! i)).
    { intros l. unfold rd8. by rewrite Nat2Z.id. }
    assert (rd8 (mem_read (mem_write b (512 * blk) buf) (512 * blk') 512) (Z.of_nat i)
            = rd8 (if decide (un = un /\ blk' = blk) then buf else mem_read b (512 * blk') 512) (Z.of_nat i)) as Heq.
    { rewrite rd8_mem_read by lia. rewrite rd8_mem_write by lia. rewrite Hlen.
      destruct (decide (un = un /\ blk' = blk)) as [[_ ->]|Hd].
      - rewrite decide_True by lia. f_equal. lia.
      - assert (blk' <> blk) by tauto. rewrite decide_False by lia. by rewrite rd8_mem_read by lia. }
    rewrite !Hrd, Hx, Hy in Heq. by cbn in Heq.
Qed.

#[export] Program Instance rd_driver_ok : BlockDriverOk (gmap nat rd_unit) := {
  drv_inv := rd_wf;
  drv_disk := rd_block;
  drv_range := rd_range;
}.
Next Obligation. intros. by apply rd_block_ok. Qed.
Next Obligation.
  intros us un blk buf e buf' us' Hwf Hbuf. unfold drv_read, rd_driver. rewrite rd_read_run by done.
  case_decide; intros [= <- <- <-]; split_and!; try done. by apply rd_block_ok.
Qed.
Next Obligation.
  intros us un blk buf e us' Hwf Hbuf Hr. unfold drv_write, rd_driver.
  destruct (rd_write_run us un blk buf Hwf Hbuf Hr) as (b & Hb & -> & Hu).
  intros [= <- <-]. split_and!; [done| | |].
  - by apply map_Forall_insert_2.
  - intros. by apply rd_block_write.
  - unfold rd_range, rd_get. intros dev' nr' H. rewrite lookup_insert.
    case_decide; [by subst|done].
Qed.

(** A ramdisk stores what is written: on a well-formed unit, [rd_write] of a
    block inside it succeeds, a following [rd_read] returns the data, and every
    other block of every unit reads as before. *)
Theorem rd_write_read us un blk buf :
  rd_wf us -> bytes_ok BLK_SIZE buf -> rd_range us un blk ->
  exists us', rd_write un blk buf us = Ret tt us' /\ rd_wf us' /\
    rd_read un blk us' = Ret buf us' /\
    forall un' blk', un' <> un \/ blk' <> blk ->
      rd_block us' un' blk' = rd_block us un' blk' /\ (rd_range us' un' blk' <-> rd_range us un' blk').
Proof.
  intros Hwf Hbuf Hr. destruct (rd_write_run us un blk buf Hwf Hbuf Hr) as (b & Hb & Hw & Hu).
  cbn zeta in Hw. eexists. split; [exact Hw|].
  assert (Hwf' : rd_wf (<[un := RdUnit (RdLive (mem_write b (BLK_SIZE * blk) buf)) (u_size (rd_get us un))]> us))
    by (by apply map_Forall_insert_2).
  assert (Hrange : forall un' blk', rd_range (<[un := RdUnit (RdLive (mem_write b (BLK_SIZE * blk) buf))
      (u_size (rd_get us un))]> us) un' blk' <-> rd_range us un' blk').
  { intros un' blk'. unfold rd_range, rd_get. rewrite lookup_insert. case_decide; [by subst|done]. }
  split_and!; [done| |].
  - rewrite rd_read_run, decide_True by (done || by apply Hrange). f_equal.
    rewrite rd_block_write by done. unfold disk_upd. by rewrite decide_True.
  - intros un' blk' Hne. split; [|done]. rewrite rd_block_write by done. unfold disk_upd.
    rewrite decide_False; [done|]. intros [-> ->]. by destruct Hne.
Qed.

(** RDIOCNEW with a zero count frees the image and keeps the pointer, so a
    second RDIOCNEW on the unit frees the same memory again. *)
Theorem rd_ioctl_new_zero_double_free us un b n sz0 sz1 e0 e1 :
  us !! un = Some (RdUnit (RdLive b) n) ->
  (rd_ioctl_new un 0 sz0 e0;;; rd_ioctl_new un 0 sz1 e1) us = Halt Undefined.
Proof.
  intros Hu. unfold rd_ioctl_new. change (ov_mul_size sz0 0) with false. change (ov_mul_size sz1 0) with false.
  unfold rd_free, rd_get, bind, gets, id, modify. rewrite Hu.
  cbn [default from_option u_image u_size Z.eqb ret]. rewrite !lookup_insert_eq.
  cbn [default from_option u_image u_size Z.eqb ret]. done.
Qed.

(** RDIOCNEW computes the image size in 32 bits: for a count above 2^23 the
    image is shorter than the unit claims, and reading a block past it leaves the
    allocation. *)
Theorem rd_ioctl_new_overflow us un bc sz0 n :
  us !! un = Some (RdUnit RdNull n) -> 2 ^ 23 < bc < 2 ^ 24 -> ov_mul_size sz0 bc = false ->
  exists us', rd_ioctl_new un bc sz0 0 us = Ret tt us' /\ u_size (rd_get us' un) = bc /\
    forall blk, bc - 2 ^ 23 <= blk < 2 ^ 23 -> rd_read un blk us' = Halt Undefined.
Proof.
  intros Hu Hbc Hov. unfold rd_ioctl_new. rewrite Hov. unfold rd_free, rd_get.
  unfold bind at 1 2 3. unfold gets, id. rewrite Hu. cbn [default from_option u_image ret].
  unfold bind, modify. replace (bc =? 0) with false by lia. cbn [Z.eqb negb].
  eexists. split; [done|]. split; [by rewrite lookup_insert_eq|].
  intros blk Hblk. unfold rd_read, bind, gets, id, rd_get. rewrite lookup_insert_eq. cbn [default from_option u_size u_image id].
  replace ((blk <? 0) || (bc <=? blk)) with false by lia.
  unfold image_read, u32, BLK_SIZE. rewrite (Z.mod_small (512 * blk)) by lia.
  unfold zeros. rewrite length_replicate.
  replace (bc * 512) with ((bc - 2 ^ 23) * 512 + 1 * 2 ^ 32) by lia.
  rewrite Z_mod_plus_full, Z.mod_small by lia.
  rewrite Z2Nat.id by lia. rewrite (proj2 (Z.leb_gt (512 * blk + 512) _)), andb_false_r by lia. done.
Qed.

(** ** Witnesses *)

Definition rd_demo : gmap nat rd_unit := {[ 3%nat := RdUnit (RdLive (zeros 1024)) 2 ]}.

Lemma rd_write_read_witness :
  exists us', rd_write 3 1 (replicate 512 65) rd_demo = Ret tt us' /\ rd_read 3 1 us' = Ret (replicate 512 65) us'.
Proof.
  destruct (rd_write_read rd_demo 3 1 (replicate 512 65)) as (us' & H1 & _ & H2 & _).
  - apply map_Forall_singleton. unfold rd_wf_unit, BLK_SIZE. cbn [u_image u_size].
    split; [by apply bytes_ok_zeros|lia].
  - split; [done|]. apply Forall_replicate. by unfold is_byte.
  - unfold rd_range. by vm_compute.
  - exists us'. by split.
Defined.

Lemma rd_ioctl_new_zero_double_free_witness :
  (rd_ioctl_new 3 0 17 0;;; rd_ioctl_new 3 0 5 0) rd_demo = Halt Undefined.
Proof. apply (rd_ioctl_new_zero_double_free rd_demo 3 (zeros 1024) 2 17 5 0 0). reflexivity. Defined.

Lemma rd_ioctl_new_overflow_witness :
  exists us', rd_ioctl_new 0 8388609 0 0 {[ 0%nat := RdUnit RdNull 0 ]} = Ret tt us' /\
    rd_read 0 1 us' = Halt Undefined.
Proof.
  destruct (rd_ioctl_new_overflow {[ 0%nat := RdUnit RdNull 0 ]} 0 8388609 0 0) as (us' & H1 & _ & H2);
    [reflexivity|lia|reflexivity|].
  exists us'. split; [done|]. apply H2. lia.
Defined.
