(* ===== verification/BlockIface.v ===== *)
(** What the file systems see of kern/block.c.

    [BlockLayer] lists the operations: [blk_get], [blk_read], [blk_put],
    [blk_write] and the accesses to the [data], [valid] and [dirty] fields of a
    [struct block] that a holder of a reference makes.  [BlockLayerOk] states
    what they promise in terms of a logical disk and of the set of pinned
    buffers.  [blk_pread] and [blk_pwrite] are written over these operations as
    kern/block.c writes them.  BlockCache.v proves that the buffer cache is a
    [BlockLayerOk]; the file systems are proved against this interface only. *)

From S2P Require Import Prelude BlockDev.

(** * Operations *)

Class BlockLayer (S : Type) := {
  bl_get : nat -> Z -> M S nat;
  bl_read : nat -> Z -> M S nat;
  bl_put : nat -> M S unit;
  bl_write : nat -> M S unit;
  (** [b->data] *)
  bl_data : nat -> S -> list Z;
  (** the data overwritten, [valid = 1] and [dirty = 1] *)
  bl_fill : nat -> list Z -> M S unit;
  (** the data changed in place, [dirty = 1] *)
  bl_modify : nat -> (list Z -> list Z) -> M S unit;
}.

Section derived.
Context {S : Type} `{BlockLayer S}.

Definition blk_pread (dev : nat) (nr off len : Z) : M S (list Z) :=
  b <~ bl_read dev nr;;
  d <~ gets (bl_data b);;
  bl_put b;;;
  ret (mem_read d off len).

Definition blk_pwrite (dev : nat) (nr off : Z) (buf : list Z) : M S unit :=
  b <~ (if negb (Z.of_nat (length buf) =? BLK_SIZE) then bl_read dev nr else bl_get dev nr);;
  d <~ gets (bl_data b);;
  bl_fill b (mem_write d off buf);;;
  bl_put b.
End derived.

(** * Promises *)

(** A pinned buffer: its reference count, the block it holds, whether its data
    is valid. *)
Record pin := Pin { p_cnt : Z; p_dev : nat; p_nr : Z; p_valid : bool }.

Definition pin_cnt (o : option pin) : Z := match o with Some p => p_cnt p | None => 0 end.
Definition unpin (i : nat) (p : pin) (m : gmap nat pin) : gmap nat pin :=
  if p_cnt p =? 1 then delete i m else <[i := Pin (p_cnt p - 1) (p_dev p) (p_nr p) (p_valid p)]> m.

Class BlockLayerOk (S : Type) `{BlockLayer S} := {
  bl_inv : S -> Prop;
  (** the contents of every block of every device *)
  bl_disk : S -> nat -> Z -> list Z;
  (** the block exists on the device *)
  bl_range : S -> nat -> Z -> Prop;
  (** the device is installed *)
  bl_dev : S -> nat -> Prop;
  bl_pins : S -> gmap nat pin;
  (** the number of buffers *)
  bl_count : S -> nat;

  bl_disk_ok : forall s dev nr, bl_inv s -> bytes_ok BLK_SIZE (bl_disk s dev nr);
  bl_pin_pos : forall s i p, bl_inv s -> bl_pins s !! i = Some p -> 1 <= p_cnt p;
  bl_data_len : forall s i p, bl_inv s -> bl_pins s !! i = Some p ->
    bytes_ok BLK_SIZE (bl_data i s);
  bl_data_valid : forall s i p, bl_inv s -> bl_pins s !! i = Some p -> p_valid p = true ->
    bl_data i s = bl_disk s (p_dev p) (p_nr p);

  (** With an unpinned buffer left, [blk_get] succeeds and pins one. *)
  bl_get_ok : forall s dev nr, bl_inv s -> bl_dev s dev -> (size (bl_pins s) < bl_count s)%nat ->
    wp (bl_get dev nr)
      (fun i s' => bl_inv s' /\ (forall d n, bl_disk s' d n = bl_disk s d n) /\
         (forall d n, bl_range s d n -> bl_range s' d n) /\ (forall d, bl_dev s d -> bl_dev s' d) /\ bl_count s' = bl_count s /\
         exists v, bl_pins s' = <[i := Pin (pin_cnt (bl_pins s !! i) + 1) dev nr v]> (bl_pins s) /\
           forall p, bl_pins s !! i = Some p -> p_dev p = dev /\ p_nr p = nr /\ p_valid p = v)
      (fun _ _ => False) s;
  (** [blk_read] also makes the data valid, or fails with the driver's error
      and no buffer pinned. *)
  bl_read_ok : forall s dev nr, bl_inv s -> bl_dev s dev -> (size (bl_pins s) < bl_count s)%nat ->
    wp (bl_read dev nr)
      (fun i s' => bl_inv s' /\ (forall d n, bl_disk s' d n = bl_disk s d n) /\
         (forall d n, bl_range s d n -> bl_range s' d n) /\ (forall d, bl_dev s d -> bl_dev s' d) /\ bl_count s' = bl_count s /\
         bl_pins s' = <[i := Pin (pin_cnt (bl_pins s !! i) + 1) dev nr true]> (bl_pins s) /\
         forall p, bl_pins s !! i = Some p -> p_dev p = dev /\ p_nr p = nr)
      (fun e s' => e <> 0 /\ bl_inv s' /\ (forall d n, bl_disk s' d n = bl_disk s d n) /\
         (forall d n, bl_range s d n -> bl_range s' d n) /\ (forall d, bl_dev s d -> bl_dev s' d) /\ bl_count s' = bl_count s /\
         bl_pins s' = bl_pins s) s;
  bl_put_ok : forall s i p, bl_inv s -> bl_pins s !! i = Some p ->
    wp (bl_put i)
      (fun _ s' => bl_inv s' /\ (forall d n, bl_disk s' d n = bl_disk s d n) /\
         (forall d n, bl_range s d n -> bl_range s' d n) /\ (forall d, bl_dev s d -> bl_dev s' d) /\ bl_count s' = bl_count s /\
         bl_pins s' = unpin i p (bl_pins s))
      (fun _ _ => False) s;
  bl_fill_ok : forall s i p d, bl_inv s -> bl_pins s !! i = Some p ->
    bytes_ok BLK_SIZE d -> bl_range s (p_dev p) (p_nr p) ->
    wp (bl_fill i d)
      (fun _ s' => bl_inv s' /\
         (forall dv n, bl_disk s' dv n = disk_upd (bl_disk s) (p_dev p) (p_nr p) d dv n) /\
         (forall d n, bl_range s d n -> bl_range s' d n) /\ (forall d, bl_dev s d -> bl_dev s' d) /\ bl_count s' = bl_count s /\
         bl_pins s' = <[i := Pin (p_cnt p) (p_dev p) (p_nr p) true]> (bl_pins s))
      (fun _ _ => False) s;
  bl_modify_ok : forall s i p f, bl_inv s -> bl_pins s !! i = Some p -> p_valid p = true ->
    bytes_ok BLK_SIZE (f (bl_disk s (p_dev p) (p_nr p))) -> bl_range s (p_dev p) (p_nr p) ->
    wp (bl_modify i f)
      (fun _ s' => bl_inv s' /\
         (forall dv n, bl_disk s' dv n =
            disk_upd (bl_disk s) (p_dev p) (p_nr p) (f (bl_disk s (p_dev p) (p_nr p))) dv n) /\
         (forall d n, bl_range s d n -> bl_range s' d n) /\ (forall d, bl_dev s d -> bl_dev s' d) /\ bl_count s' = bl_count s /\
         bl_pins s' = bl_pins s)
      (fun _ _ => False) s;
  (** Writing a held buffer to the device does not change the logical disk. *)
  bl_write_ok : forall s i p, bl_inv s -> bl_pins s !! i = Some p -> p_valid p = true ->
    wp (bl_write i)
      (fun _ s' => bl_inv s' /\ (forall d n, bl_disk s' d n = bl_disk s d n) /\
         (forall d n, bl_range s d n -> bl_range s' d n) /\ (forall d, bl_dev s d -> bl_dev s' d) /\
         bl_count s' = bl_count s /\ bl_pins s' = bl_pins s)
      (fun _ _ => False) s;
}.

(** Every pinned buffer holds valid data: true between file-system calls. *)
Definition pins_valid (m : gmap nat pin) : Prop := map_Forall (fun _ p => p_valid p = true) m.

(** Nothing changed but what is cached: the effect of reading. *)
Definition bl_same {S} `{BlockLayerOk S} (s s' : S) : Prop :=
  bl_inv s' /\ (forall d n, bl_disk s' d n = bl_disk s d n) /\
  (forall d n, bl_range s d n -> bl_range s' d n) /\ (forall d, bl_dev s d -> bl_dev s' d) /\
  bl_count s' = bl_count s /\ bl_pins s' = bl_pins s.

(** One block changed. *)
Definition bl_upd {S} `{BlockLayerOk S} (dev : nat) (nr : Z) (d : list Z) (s s' : S) : Prop :=
  bl_inv s' /\ (forall dv n, bl_disk s' dv n = disk_upd (bl_disk s) dev nr d dv n) /\
  (forall d n, bl_range s d n -> bl_range s' d n) /\ (forall d, bl_dev s d -> bl_dev s' d) /\
  bl_count s' = bl_count s /\ bl_pins s' = bl_pins s.

Lemma disk_upd_eq f dev nr d : disk_upd f dev nr d dev nr = d.
Proof. unfold disk_upd. by rewrite decide_True. Qed.

Lemma disk_upd_ne f dev nr d dev' nr' :
  dev' <> dev \/ nr' <> nr -> disk_upd f dev nr d dev' nr' = f dev' nr'.
Proof. intros. unfold disk_upd. rewrite decide_False; [done|tauto]. Qed.

(** Pinning and unpinning a buffer restores the pins. *)
Lemma unpin_pin (m : gmap nat pin) i dev nr v :
  (forall p, m !! i = Some p -> p_dev p = dev /\ p_nr p = nr /\ p_valid p = v /\ 1 <= p_cnt p) ->
  let p := Pin (pin_cnt (m !! i) + 1) dev nr v in
  unpin i p (<[i := p]> m) = m.
Proof.
  intros Hp. unfold unpin. cbn. destruct (m !! i) as [q|] eqn:E; cbn.
  - destruct (Hp q eq_refl) as (? & ? & ? & ?).
    replace (p_cnt q + 1 =? 1) with false by lia. rewrite insert_insert_eq.
    apply insert_id. rewrite E. destruct q; cbn in *. subst. do 2 f_equal. lia.
  - by rewrite delete_insert_id.
Qed.

Section derived_ok.
Context {S : Type} `{HS : BlockLayerOk S}.
Implicit Types (s : S).

Lemma bl_same_refl s : bl_inv s -> bl_same s s.
Proof. intros. unfold bl_same. auto 10. Qed.

Lemma bl_same_trans s1 s2 s3 : bl_same s1 s2 -> bl_same s2 s3 -> bl_same s1 s3.
Proof.
  intros (? & Hd & Hr & Hv & Hc & Hp) (? & Hd' & Hr' & Hv' & Hc' & Hp').
  split_and!; [done| |auto|auto|congruence..].
  intros. by rewrite Hd'.
Qed.

(** Room for one more pin. *)
Definition room (k : nat) (s : S) : Prop := (size (bl_pins s) + k <= bl_count s)%nat.

Lemma room_same k s s' : bl_same s s' -> room k s -> room k s'.
Proof. unfold room. intros (_ & _ & _ & _ & -> & ->). done. Qed.

Lemma room_pin (m : gmap nat pin) i p : (size (<[i := p]> m) <= size m + 1)%nat.
Proof.
  destruct (m !! i) eqn:E.
  - rewrite map_size_insert_Some by eauto. lia.
  - rewrite map_size_insert_None by done. lia.
Qed.

(** ** Holding a buffer *)

(** From [s] to [s'] the buffer [i] was pinned for a block and the contents of
    the block became [d]. *)
Definition bl_edit (dev : nat) (nr : Z) (d : list Z) s (i : nat) s' : Prop :=
  bl_inv s' /\ (forall dv n, bl_disk s' dv n = disk_upd (bl_disk s) dev nr d dv n) /\
  (forall d n, bl_range s d n -> bl_range s' d n) /\ (forall d, bl_dev s d -> bl_dev s' d) /\
  bl_count s' = bl_count s /\
  bl_pins s' = <[i := Pin (pin_cnt (bl_pins s !! i) + 1) dev nr true]> (bl_pins s) /\
  forall p, bl_pins s !! i = Some p -> p_dev p = dev /\ p_nr p = nr /\ p_valid p = true /\ 1 <= p_cnt p.

Lemma disk_upd_id s dev nr dv n : disk_upd (bl_disk s) dev nr (bl_disk s dev nr) dv n = bl_disk s dv n.
Proof. unfold disk_upd. by case_decide as Hd; [destruct Hd as [-> ->]|]. Qed.
Lemma disk_upd_twice s s1 dev nr d d' :
  (forall dv n, bl_disk s1 dv n = disk_upd (bl_disk s) dev nr d dv n) ->
  forall dv n, disk_upd (bl_disk s1) dev nr d' dv n = disk_upd (bl_disk s) dev nr d' dv n.
Proof. intros H1 dv n. unfold disk_upd in *. case_decide; [done|]. rewrite H1. by case_decide. Qed.

Lemma bl_upd_same s s' dev nr : bl_upd dev nr (bl_disk s dev nr) s s' -> bl_same s s'.
Proof. intros (? & Hd & ?). split; [done|]. split; [|done]. intros. by rewrite Hd, disk_upd_id. Qed.

Lemma edit_pin dev nr d s i s' :
  bl_edit dev nr d s i s' -> bl_pins s' !! i = Some (Pin (pin_cnt (bl_pins s !! i) + 1) dev nr true).
Proof. intros (_ & _ & _ & _ & _ & -> & _). apply lookup_insert_eq. Qed.
Lemma edit_data dev nr d s i s' : bl_edit dev nr d s i s' -> bl_data i s' = d.
Proof.
  intros He. rewrite (bl_data_valid _ _ _ (proj1 He) (edit_pin _ _ _ _ _ _ He)) by done. cbn [p_dev p_nr].
  destruct He as (_ & Hd & _). by rewrite Hd, disk_upd_eq.
Qed.

Lemma read_edit s dev nr :
  bl_inv s -> bl_dev s dev -> pins_valid (bl_pins s) -> room 1 s ->
  wp (bl_read dev nr) (bl_edit dev nr (bl_disk s dev nr) s) (fun e s' => e <> 0 /\ bl_same s s') s.
Proof.
  intros Hi Hdv Hv Hr. unfold room in Hr. eapply wp_mono; [apply bl_read_ok; [done..|lia]| |]; cbn.
  - intros i s1 (Hi1 & Hd1 & Hr1 & Hv1 & Hc1 & Hp1 & Hid). split_and!; try done.
    + intros. by rewrite disk_upd_id.
    + intros p Hp. destruct (Hid p Hp). split_and!; [done..| |by apply (bl_pin_pos s i)]. by apply (Hv i).
  - intros e s' (? & ? & ? & ? & ? & ? & ?). by repeat split.
Qed.
(** [blk_get], and the data filled in. *)
Lemma get_edit s dev nr (d : list Z) :
  bl_inv s -> bl_dev s dev -> pins_valid (bl_pins s) -> room 1 s -> bl_range s dev nr -> bytes_ok BLK_SIZE d ->
  wp (bl_get dev nr)
    (fun i s1 => bytes_ok BLK_SIZE (bl_data i s1) /\
       wp (bl_fill i d) (fun _ => bl_edit dev nr d s i) (fun _ _ => False) s1)
    (fun _ _ => False) s.
Proof.
  intros Hi Hdv Hv Hr Hrg Hb. unfold room in Hr. eapply wp_mono; [apply bl_get_ok; [done..|lia]| |done]; cbn.
  intros i s1 (Hi1 & Hd1 & Hr1 & Hv1 & Hc1 & v & Hp1 & Hid).
  assert (Hl : bl_pins s1 !! i = Some (Pin (pin_cnt (bl_pins s !! i) + 1) dev nr v))
    by (rewrite Hp1; apply lookup_insert_eq).
  split; [by eapply bl_data_len|].
  eapply wp_mono; [by apply (bl_fill_ok s1 i _ _ Hi1 Hl); [|apply Hr1]| |done]; cbn.
  intros _ s2 (Hi2 & Hd2 & Hr2 & Hv2 & Hc2 & Hp2). split_and!; [done| |auto|auto|congruence| |].
  - intros. rewrite Hd2. unfold disk_upd. case_decide; [done|]. apply Hd1.
  - by rewrite Hp2, Hp1, insert_insert_eq.
  - intros p Hp. destruct (Hid p Hp) as (? & ? & ?). split_and!; [done..| |by apply (bl_pin_pos s i)]. by apply (Hv i).
Qed.
Lemma modify_edit s dev nr d i s1 h :
  bl_edit dev nr d s i s1 -> bl_range s dev nr -> bytes_ok BLK_SIZE (h d) ->
  wp (bl_modify i h) (fun _ => bl_edit dev nr (h d) s i) (fun _ _ => False) s1.
Proof.
  intros He Hrg Hb. pose proof (edit_pin _ _ _ _ _ _ He) as Hl. destruct He as (Hi1 & Hd1 & Hr1 & Hv1 & Hc1 & Hp1 & Hid).
  assert (Ed : bl_disk s1 dev nr = d) by (by rewrite Hd1, disk_upd_eq).
  eapply wp_mono; [apply (bl_modify_ok s1 i _ h Hi1 Hl); cbn; [done|by rewrite Ed|by apply Hr1]| |done]; cbn [p_dev p_nr].
  intros _ s2 (Hi2 & Hd2 & Hr2 & Hv2 & Hc2 & Hp2). rewrite Ed in Hd2. split_and!; [done| |auto|auto|congruence..|done].
  intros. rewrite Hd2. by eapply disk_upd_twice.
Qed.
Lemma fill_edit s dev nr d i s1 d' :
  bl_edit dev nr d s i s1 -> bl_range s dev nr -> bytes_ok BLK_SIZE d' ->
  wp (bl_fill i d') (fun _ => bl_edit dev nr d' s i) (fun _ _ => False) s1.
Proof.
  intros He Hrg Hb. pose proof (edit_pin _ _ _ _ _ _ He) as Hl. destruct He as (Hi1 & Hd1 & Hr1 & Hv1 & Hc1 & Hp1 & Hid).
  eapply wp_mono; [apply (bl_fill_ok s1 i _ d' Hi1 Hl); cbn; [done|by apply Hr1]| |done]; cbn.
  intros _ s2 (Hi2 & Hd2 & Hr2 & Hv2 & Hc2 & Hp2). split_and!; [done| |auto|auto|congruence| |done].
  - intros. rewrite Hd2. by eapply disk_upd_twice.
  - by rewrite Hp2, Hp1, insert_insert_eq.
Qed.
Lemma put_edit s dev nr d i s1 :
  bl_edit dev nr d s i s1 -> wp (bl_put i) (fun _ => bl_upd dev nr d s) (fun _ _ => False) s1.
Proof.
  intros He. pose proof (edit_pin _ _ _ _ _ _ He) as Hl. destruct He as (Hi1 & Hd1 & Hr1 & Hv1 & Hc1 & Hp1 & Hid).
  eapply wp_mono; [by apply (bl_put_ok s1 i)| |done]; cbn.
  intros _ s2 (Hi2 & Hd2 & Hr2 & Hv2 & Hc2 & Hp2). split_and!; [done| |auto|auto|congruence|].
  - intros. by rewrite Hd2.
  - rewrite Hp2, Hp1. by apply unpin_pin.
Qed.

(** Reading through the interface: [blk_read], use of the data, [blk_put]. *)
Lemma blk_pread_ok s dev nr off len :
  bl_inv s -> bl_dev s dev -> pins_valid (bl_pins s) -> room 1 s ->
  wp (blk_pread dev nr off len)
    (fun d s' => d = mem_read (bl_disk s dev nr) off len /\ bl_same s s')
    (fun e s' => e <> 0 /\ bl_same s s') s.
Proof.
  intros Hi Hdv Hv Hr. unfold blk_pread. eapply wp_seq; [by apply read_edit| |done]; cbn.
  intros i s1 He. apply wp_bind. cbn. rewrite (edit_data _ _ _ _ _ _ He).
  eapply wp_seq; [by eapply put_edit| |done]; cbn. intros _ s2 Hu. split; [done|]. by eapply bl_upd_same.
Qed.

(** A block overwritten by its holder: [blk_get], the data set, [blk_put]. *)
Lemma bl_overwrite_ok s dev nr (d : list Z -> list Z) :
  bl_inv s -> bl_dev s dev -> pins_valid (bl_pins s) -> room 1 s ->
  (forall b, bytes_ok BLK_SIZE b -> bytes_ok BLK_SIZE (d b)) ->
  (forall b b', bytes_ok BLK_SIZE b -> bytes_ok BLK_SIZE b' -> d b = d b') -> bl_range s dev nr ->
  wp (b <~ bl_get dev nr;; x <~ gets (bl_data b);; bl_fill b (d x);;; bl_put b)
    (fun _ s' => bl_upd dev nr (d (bl_disk s dev nr)) s s') (fun _ _ => False) s.
Proof.
  intros Hi Hdv Hv Hr Hb Hc Hrg.
  eapply wp_seq; [apply (get_edit s dev nr (d (bl_disk s dev nr))); [done..|by apply Hb, bl_disk_ok]| |done]; cbn.
  intros i s1 [Hlen Hw]. apply wp_bind. cbn. rewrite (Hc (bl_data i s1) (bl_disk s dev nr)) by (done || by apply bl_disk_ok).
  eapply wp_seq; [exact Hw| |done]; cbn. intros _ s2 He. by eapply put_edit.
Qed.

(** Overwriting a whole block with [blk_pwrite]. *)
Lemma blk_pwrite_ok s dev nr buf :
  bl_inv s -> bl_dev s dev -> pins_valid (bl_pins s) -> room 1 s ->
  bytes_ok BLK_SIZE buf -> bl_range s dev nr ->
  wp (blk_pwrite dev nr 0 buf) (fun _ s' => bl_upd dev nr buf s s') (fun _ _ => False) s.
Proof.
  intros Hi Hdv Hv Hr Hb Hrg. unfold blk_pwrite.
  replace (Z.of_nat (length buf) =? BLK_SIZE) with true by (destruct Hb; lia). cbn [negb].
  assert (Hw : forall b, bytes_ok BLK_SIZE b -> mem_write b 0 buf = buf).
  { intros b [Hl _]. destruct Hb. unfold mem_write. cbn. rewrite drop_ge by lia. apply app_nil_r. }
  eapply wp_mono; [apply (bl_overwrite_ok s dev nr (fun b => mem_write b 0 buf)); [done..| | |done]| |done].
  - intros b Hbb. by rewrite Hw.
  - intros b b' Hbb Hbb'. by rewrite !Hw.
  - cbn beta. intros _ s'. rewrite Hw by (by apply bl_disk_ok). done.
Qed.

(** Part of a block overwritten: [blk_read], the data set, [blk_put]. *)
Lemma bl_patch_ok s dev nr (d : list Z -> list Z) :
  bl_inv s -> bl_dev s dev -> pins_valid (bl_pins s) -> room 1 s ->
  (forall b, bytes_ok BLK_SIZE b -> bytes_ok BLK_SIZE (d b)) -> bl_range s dev nr ->
  wp (b <~ bl_read dev nr;; x <~ gets (bl_data b);; bl_fill b (d x);;; bl_put b)
    (fun _ s' => bl_upd dev nr (d (bl_disk s dev nr)) s s') (fun e s' => e <> 0 /\ bl_same s s') s.
Proof.
  intros Hi Hdv Hv Hr Hb Hrg. eapply wp_seq; [by apply read_edit| |done]; cbn.
  intros i s1 He. apply wp_bind. cbn. rewrite (edit_data _ _ _ _ _ _ He).
  eapply wp_seq; [apply (fill_edit _ _ _ _ _ _ (d (bl_disk s dev nr)) He); [done|by apply Hb, bl_disk_ok]| |done]; cbn.
  intros _ s2 He2. by eapply wp_mono; [eapply put_edit| |].
Qed.

(** Overwriting part of a block with [blk_pwrite]. *)
Lemma blk_pwrite_part_ok s dev nr off buf :
  bl_inv s -> bl_dev s dev -> pins_valid (bl_pins s) -> room 1 s ->
  is_bytes buf -> 0 <= off -> off + Z.of_nat (length buf) <= BLK_SIZE -> bl_range s dev nr ->
  wp (blk_pwrite dev nr off buf) (fun _ s' => bl_upd dev nr (mem_write (bl_disk s dev nr) off buf) s s')
    (fun e s' => e <> 0 /\ bl_same s s') s.
Proof.
  intros Hi Hdv Hv Hr Hb Ho Hl Hrg. destruct (decide (Z.of_nat (length buf) = BLK_SIZE)) as [E|E].
  - assert (off = 0) as -> by lia.
    eapply wp_mono; [apply blk_pwrite_ok; [done..|by split|done]| |done].
    cbn beta. intros _ s'. assert (mem_write (bl_disk s dev nr) 0 buf = buf) as ->; [|done].
    destruct (bl_disk_ok s dev nr Hi) as [Hl' _]. unfold mem_write. cbn.
    rewrite drop_ge by lia. apply app_nil_r.
  - unfold blk_pwrite. rewrite (proj2 (Z.eqb_neq _ _)) by done. cbn [negb].
    apply (bl_patch_ok s dev nr (fun d => mem_write d off buf)); [done..| |done].
    intros b Hbb. by apply bytes_ok_mem_write.
Qed.
End derived_ok.
