(* ===== verification/BlockCache.v ===== *)
(** The buffer cache: kern/block.c.

    The [struct block] objects are numbered as in [blk_blk]; the intrusive
    lists [blk_lists] and [blk_lru] are sequences of those numbers, which is
    what LinkedList.v proves lib/list.c to implement.  The device table, the
    counters of [struct bdev] and the state of the drivers are part of the
    state.  printk messages are not modelled. *)

From S2P Require Import Prelude LinkedList BlockDev BlockIface.

Definition BLK_NR_LISTS : Z := 64.
Definition BLK_MAXDEV : nat := 32.
Definition BLK_NBLK : nat := 1024.
Definition SYNC_WRITE : Z := 1.
Definition SYNC_INVALIDATE : Z := 2.

(** * State *)

Record buffer := Buffer {
  b_refcnt : Z;
  b_valid : bool;
  b_dirty : bool;
  b_dev : option nat;
  b_nr : Z;
  b_data : list Z;
}.

Record bdev := Bdev {
  d_name : string;
  d_refcnt : Z;
  d_read_cnt : Z;
  d_write_cnt : Z;
  d_error_cnt : Z;
}.

Record cache (D : Type) := Cache {
  blk_buf : gmap nat buffer;
  blk_lists : gmap Z (list nat);
  blk_lru : list nat;
  blk_count : nat;
  blk_dev : list (option nat);
  bdevs : gmap nat bdev;
  drv : D;
}.
Arguments Cache {D}.
Arguments blk_buf {D}.
Arguments blk_lists {D}.
Arguments blk_lru {D}.
Arguments blk_count {D}.
Arguments blk_dev {D}.
Arguments bdevs {D}.
Arguments drv {D}.

(** The counters kept by [blk_stat]. *)
Record blk_stat_t := BlkStat { st_dirty : Z; st_valid : Z; st_total : Z; st_free : Z }.

Definition set_refcnt (v : Z) (b : buffer) : buffer :=
  Buffer v (b_valid b) (b_dirty b) (b_dev b) (b_nr b) (b_data b).
Definition set_valid (v : bool) (b : buffer) : buffer :=
  Buffer (b_refcnt b) v (b_dirty b) (b_dev b) (b_nr b) (b_data b).
Definition set_dirty (v : bool) (b : buffer) : buffer :=
  Buffer (b_refcnt b) (b_valid b) v (b_dev b) (b_nr b) (b_data b).
Definition set_data (v : list Z) (b : buffer) : buffer :=
  Buffer (b_refcnt b) (b_valid b) (b_dirty b) (b_dev b) (b_nr b) v.
Definition set_ident (dev : nat) (nr : Z) (b : buffer) : buffer :=
  Buffer (b_refcnt b) (b_valid b) (b_dirty b) (Some dev) nr (b_data b).

Section block.
Context {D : Type} `{BlockDriver D}.

Definition with_buf (m : gmap nat buffer) (c : cache D) : cache D :=
  Cache m (blk_lists c) (blk_lru c) (blk_count c) (blk_dev c) (bdevs c) (drv c).
Definition with_lists (m : gmap Z (list nat)) (c : cache D) : cache D :=
  Cache (blk_buf c) m (blk_lru c) (blk_count c) (blk_dev c) (bdevs c) (drv c).
Definition with_lru (l : list nat) (c : cache D) : cache D :=
  Cache (blk_buf c) (blk_lists c) l (blk_count c) (blk_dev c) (bdevs c) (drv c).
Definition with_count (n : nat) (c : cache D) : cache D :=
  Cache (blk_buf c) (blk_lists c) (blk_lru c) n (blk_dev c) (bdevs c) (drv c).
Definition with_dev (l : list (option nat)) (c : cache D) : cache D :=
  Cache (blk_buf c) (blk_lists c) (blk_lru c) (blk_count c) l (bdevs c) (drv c).
Definition with_bdevs (m : gmap nat bdev) (c : cache D) : cache D :=
  Cache (blk_buf c) (blk_lists c) (blk_lru c) (blk_count c) (blk_dev c) m (drv c).
Definition with_drv (d : D) (c : cache D) : cache D :=
  Cache (blk_buf c) (blk_lists c) (blk_lru c) (blk_count c) (blk_dev c) (bdevs c) d.

(** Reads and writes through a [struct block *] and a [struct bdev *]. *)
Definition buf (b : nat) : M (cache D) buffer := o <~ gets (fun c => blk_buf c !! b);; deref o.
Definition upd_buf (b : nat) (f : buffer -> buffer) : M (cache D) unit :=
  bb <~ buf b;; modify (fun c => with_buf (<[b := f bb]> (blk_buf c)) c).
Definition dev_obj (d : nat) : M (cache D) bdev := o <~ gets (fun c => bdevs c !! d);; deref o.
Definition upd_dev (d : nat) (f : bdev -> bdev) : M (cache D) unit :=
  o <~ dev_obj d;; modify (fun c => with_bdevs (<[d := f o]> (bdevs c)) c).
Definition count_error (d : bdev) : bdev :=
  Bdev (d_name d) (d_refcnt d) (d_read_cnt d) (d_write_cnt d) (u64 (d_error_cnt d + 1)).
Definition count_read (d : bdev) : bdev :=
  Bdev (d_name d) (d_refcnt d) (u64 (d_read_cnt d + 1)) (d_write_cnt d) (d_error_cnt d).
Definition count_write (d : bdev) : bdev :=
  Bdev (d_name d) (d_refcnt d) (d_read_cnt d) (u64 (d_write_cnt d + 1)) (d_error_cnt d).
Definition set_drefcnt (v : Z) (d : bdev) : bdev :=
  Bdev (d_name d) v (d_read_cnt d) (d_write_cnt d) (d_error_cnt d).

(** The hash chain of block number [nr]. *)
Definition chain (nr : Z) (c : cache D) : list nat :=
  default [] (blk_lists c !! (nr mod BLK_NR_LISTS)).
Definition set_chain (nr : Z) (l : list nat) : M (cache D) unit :=
  modify (fun c => with_lists (<[nr mod BLK_NR_LISTS := l]> (blk_lists c)) c).

(** * Statistics and set-up *)

Definition blk_stat (c : cache D) : blk_stat_t :=
  foldl (fun st i =>
    match blk_buf c !! i with
    | Some b => BlkStat (st_dirty st + Z.b2z (b_dirty b)) (st_valid st + Z.b2z (b_valid b))
                  (st_total st) (st_free st + Z.b2z (b_refcnt b =? 0))
    | None => st
    end) (BlkStat 0 0 (Z.of_nat (blk_count c)) 0) (seq 0 (blk_count c)).

(** A zeroed [struct block]. *)
Definition new_buffer : buffer := Buffer 0 false false None 0 (zeros BLK_SIZE).

Fixpoint blk_init_loop (i n : nat) : M (cache D) unit :=
  match n with
  | O => ret tt
  | S n =>
    modify (fun c => with_buf (<[i := new_buffer]> (blk_buf c)) c);;;
    l <~ gets (chain 0);; set_chain 0 (seq_app l i);;;
    modify (fun c => with_lru (seq_app (blk_lru c) i) c);;;
    blk_init_loop (S i) n
  end.

(** [blk_init] for a cache of [nblk] buffers; the kernel passes BLK_NBLK.  The
    two allocations either succeed or panic. *)
Definition blk_init_n (nblk : nat) (alloc_ok : bool) : M (cache D) unit :=
  if negb alloc_ok then panic "blk_init: could not allocate memory for disk cache" else
  modify (fun c => with_buf ∅ (with_lists ∅ (with_lru [] c)));;;
  blk_init_loop 0 nblk;;;
  modify (with_count nblk).
Definition blk_init : bool -> M (cache D) unit := blk_init_n BLK_NBLK.

(** * The device table *)

Definition dev_named (c : cache D) (name : string) (o : option nat) : bool :=
  match o with
  | Some d => match bdevs c !! d with Some x => bool_decide (d_name x = name) | None => false end
  | None => false
  end.

(** The first slot that satisfies [p], as the [for] loops over [blk_dev] find it. *)
Definition find_slot {A} (p : A -> bool) (l : list A) : option nat :=
  fst <$> list_find (fun o => p o = true) l.

Definition blk_install (dev : nat) : M (cache D) unit :=
  c <~ gets id;;
  d <~ dev_obj dev;;
  match find_slot (dev_named c (d_name d)) (blk_dev c) with
  | Some _ => fail EEXIST
  | None =>
    match find_slot (fun o => bool_decide (o = None)) (blk_dev c) with
    | Some i =>
      upd_dev dev (fun d => Bdev (d_name d) 0 0 0 0);;;
      modify (fun c => with_dev (<[i := Some dev]> (blk_dev c)) c)
    | None => fail ENOMEM
    end
  end.

Definition blk_uinstall (dev : nat) : M (cache D) unit :=
  d <~ dev_obj dev;;
  if negb (d_refcnt d =? 0) then panic "blk_uinstall: device in use" else
  c <~ gets id;;
  match find_slot (fun o => bool_decide (o = Some dev)) (blk_dev c) with
  | Some i => modify (fun c => with_dev (<[i := None]> (blk_dev c)) c)
  | None => panic "blk_uinstall: device not installed"
  end.

Definition blk_find (name : string) : M (cache D) nat :=
  c <~ gets id;;
  match find_slot (dev_named c name) (blk_dev c) with
  | Some i => match blk_dev c !! i with Some (Some d) => ret d | _ => halted Undefined end
  | None => fail ENODEV
  end.

(** * Buffers *)

Definition blk_write (b : nat) : M (cache D) unit :=
  bb <~ buf b;;
  if negb (b_valid bb) then panic "blk_write: !b->valid" else
  if negb (b_dirty bb) then ret tt else
  upd_buf b (set_dirty false);;;
  dev <~ deref (b_dev bb);;
  c <~ gets id;;
  let '(err, d') := drv_write dev (b_nr bb) (b_data bb) (drv c) in
  modify (with_drv d');;;
  if negb (err =? 0) then upd_dev dev count_error;;; fail err else upd_dev dev count_write.

(** The search of the hash chain; [loop_det] is the loop counter of the C code. *)
Fixpoint blk_scan (loop_det : nat) (l : list nat) (dev : nat) (nr : Z) {struct l} : M (cache D) (option nat) :=
  match l with
  | [] => ret None
  | b :: l' =>
    match loop_det with
    | O => panic "blk_get: queue loop"
    | S loop_det =>
      bb <~ buf b;;
      if (negb (b_refcnt bb =? 0) || b_valid bb) && (b_nr bb =? nr) && bool_decide (b_dev bb = Some dev)
      then ret (Some b)
      else blk_scan loop_det l' dev nr
    end
  end.

(** The end of [blk_get]: the least recently used buffer [b] is written back if
    it is dirty and given to block [nr] of [dev].  A write error is not reported. *)
Definition blk_recycle (b : nat) (dev : nat) (nr : Z) : M (cache D) nat :=
  bb <~ buf b;;
  l <~ gets (chain (b_nr bb));; set_chain (b_nr bb) (seq_rm l b);;;
  modify (fun c => with_lru (seq_rm (blk_lru c) b) c);;;
  (if b_dirty bb then status (blk_write b) else ret 0);;;
  upd_buf b (fun bb => set_valid false (set_ident dev nr (set_refcnt 1 bb)));;;
  l <~ gets (chain nr);; set_chain nr (seq_pre l b);;;
  ret b.

Definition blk_get (dev : nat) (nr : Z) : M (cache D) nat :=
  c <~ gets id;;
  r <~ blk_scan (blk_count c) (chain nr c) dev nr;;
  match r with
  | Some b =>
    bb <~ buf b;;
    (if b_refcnt bb =? 0 then modify (fun c => with_lru (seq_rm (blk_lru c) b) c) else ret tt);;;
    upd_buf b (fun bb => set_refcnt (b_refcnt bb + 1) bb);;;
    ret b
  | None =>
    match blk_lru c with
    | [] => fail ENOMEM
    | b :: _ => blk_recycle b dev nr
    end
  end.

Definition blk_put (b : nat) : M (cache D) unit :=
  bb <~ buf b;;
  if b_refcnt bb =? 0 then panic "blk_put: !blk->refcnt" else
  upd_buf b (set_refcnt (b_refcnt bb - 1));;;
  if b_refcnt bb - 1 =? 0 then modify (fun c => with_lru (seq_app (blk_lru c) b) c) else ret tt.

Definition blk_read (dev : nat) (nr : Z) : M (cache D) nat :=
  b <~ blk_get dev nr;;
  bb <~ buf b;;
  if b_valid bb then ret b else
  c <~ gets id;;
  let '(err, data, d') := drv_read dev (b_nr bb) (b_data bb) (drv c) in
  modify (with_drv d');;;
  upd_buf b (set_data data);;;
  if negb (err =? 0) then upd_dev dev count_error;;; blk_put b;;; fail err else
  upd_dev dev count_read;;;
  upd_buf b (set_valid true);;;
  ret b.

(** [bb->dirty = 1; bb->valid = 1] after the data has been overwritten, and
    [bb->dirty = 1] after a change in place. *)
Definition buf_fill (b : nat) (data : list Z) : M (cache D) unit :=
  upd_buf b (fun bb => set_valid true (set_dirty true (set_data data bb))).
Definition buf_modify (b : nat) (f : list Z -> list Z) : M (cache D) unit :=
  upd_buf b (fun bb => set_dirty true (set_data (f (b_data bb)) bb)).
Definition buf_data (b : nat) (c : cache D) : list Z :=
  match blk_buf c !! b with Some bb => b_data bb | None => [] end.

(** * Writing back *)

(** One buffer of the LRU walk of [blk_syncdev] and [blk_syncall]. *)
Definition blk_sync_one (flags : Z) (b : nat) : M (cache D) unit :=
  bb <~ buf b;;
  (if negb (Z.land flags SYNC_WRITE =? 0) && b_dirty bb then status (blk_write b) else ret 0);;;
  bb <~ buf b;;
  if negb (Z.land flags SYNC_INVALIDATE =? 0) && negb (b_dirty bb)
  then upd_buf b (set_valid false) else ret tt.

Fixpoint blk_sync_loop (only : option nat) (flags : Z) (l : list nat) : M (cache D) unit :=
  match l with
  | [] => ret tt
  | b :: l' =>
    bb <~ buf b;;
    (match only with
     | Some dev => if bool_decide (b_dev bb = Some dev) then blk_sync_one flags b else ret tt
     | None => blk_sync_one flags b
     end);;;
    blk_sync_loop only flags l'
  end.

Definition blk_syncdev (dev : nat) (flags : Z) : M (cache D) unit :=
  l <~ gets blk_lru;; blk_sync_loop (Some dev) flags l.
Definition blk_syncall (flags : Z) : M (cache D) unit :=
  l <~ gets blk_lru;; blk_sync_loop None flags l.

(** * Opening devices *)

Definition blk_open (dev : nat) : M (cache D) unit :=
  d <~ dev_obj dev;;
  (if d_refcnt d =? 0 then
     c <~ gets id;;
     let '(err, d') := drv_open dev (drv c) in
     modify (with_drv d');;;
     if negb (err =? 0) then fail err else ret tt
   else ret tt);;;
  upd_dev dev (fun d => set_drefcnt (d_refcnt d + 1) d).

Definition blk_close (dev : nat) : M (cache D) unit :=
  d <~ dev_obj dev;;
  if d_refcnt d =? 0 then panic "blk_close: device not open" else
  (if d_refcnt d =? 1 then
     status (blk_syncdev dev (Z.lor SYNC_WRITE SYNC_INVALIDATE));;;
     c <~ gets id;;
     let '(err, d') := drv_close dev (drv c) in
     modify (with_drv d');;;
     if negb (err =? 0) then fail err else ret tt
   else ret tt);;;
  upd_dev dev (fun d => set_drefcnt (d_refcnt d - 1) d).

(** * Growing the cache *)

Fixpoint blk_add_loop (i n : nat) : M (cache D) unit :=
  match n with
  | O => ret tt
  | S n =>
    modify (fun c => with_buf (<[i := new_buffer]> (blk_buf c)) c);;;
    modify (fun c => with_lru (seq_pre (blk_lru c) i) c);;;
    blk_add_loop (S i) n
  end.

(** [krealloc_err] and [kmalloc_err] are the results of the two allocations. *)
Definition blk_add (count : nat) (krealloc_err kmalloc_err : Z) : M (cache D) unit :=
  n <~ gets blk_count;;
  if (count <? n)%nat then fail EINVAL else
  if (count =? n)%nat then ret tt else
  if negb (krealloc_err =? 0) then fail krealloc_err else
  if negb (kmalloc_err =? 0) then fail kmalloc_err else
  blk_add_loop n (count - n);;;
  modify (with_count count).

#[export] Instance cache_layer : BlockLayer (cache D) := {
  bl_get := blk_get;
  bl_read := blk_read;
  bl_put := blk_put;
  bl_write := blk_write;
  bl_data := buf_data;
  bl_fill := buf_fill;
  bl_modify := buf_modify;
}.

End block.
