(* ===== verification/BlockCacheOk.v ===== *)
(** The buffer cache implements the block interface.

    [cinv] is the invariant of kern/block.c: hash chains hold the buffers of
    their class without repetition, no block is cached twice, the LRU list is
    exactly the unreferenced buffers, dirty buffers are valid and lie on their
    device, clean valid buffers agree with the device.  [vdisk] is the logical
    disk: the cached copy of a block if there is a valid one, the device's
    otherwise.  The operations preserve [cinv] and act on [vdisk] as
    [BlockLayerOk] states, so eviction and write-back are invisible. *)

From S2P Require Import Prelude LinkedList BlockDev BlockIface BlockCache.

Section ok.
Context {D : Type} `{HD : BlockDriverOk D}.
Implicit Types (c : cache D) (b : buffer).

Definition live b : Prop := b_refcnt b <> 0 \/ b_valid b = true.

(** Buffer [i] holds a valid copy of block [nr] of [dev]. *)
Definition hit c (dev : nat) (nr : Z) (i : nat) b : Prop :=
  blk_buf c !! i = Some b /\ b_valid b = true /\ b_dev b = Some dev /\ b_nr b = nr.

Record cinv c : Prop := {
  ci_drv : drv_inv (drv c);
  ci_dom : forall i, is_Some (blk_buf c !! i) <-> (i < blk_count c)%nat;
  ci_data : forall i b, blk_buf c !! i = Some b -> bytes_ok BLK_SIZE (b_data b) /\ 0 <= b_refcnt b;
  ci_chain : forall nr i, i ∈ chain nr c ->
    exists b, blk_buf c !! i = Some b /\ b_nr b mod BLK_NR_LISTS = nr mod BLK_NR_LISTS;
  ci_chain_nd : forall nr, NoDup (chain nr c);
  ci_live : forall i b, blk_buf c !! i = Some b -> live b ->
    i ∈ chain (b_nr b) c /\ exists dev, b_dev b = Some dev /\ is_Some (bdevs c !! dev);
  ci_uniq : forall i j b b', blk_buf c !! i = Some b -> blk_buf c !! j = Some b' ->
    live b -> live b' -> b_dev b = b_dev b' -> b_nr b = b_nr b' -> i = j;
  ci_lru_nd : NoDup (blk_lru c);
  ci_lru : forall i, i ∈ blk_lru c <-> exists b, blk_buf c !! i = Some b /\ b_refcnt b = 0;
  ci_dirty : forall i b, blk_buf c !! i = Some b -> b_dirty b = true ->
    b_valid b = true /\ exists dev, b_dev b = Some dev /\ drv_range (drv c) dev (b_nr b);
  ci_clean : forall i b dev, blk_buf c !! i = Some b -> b_valid b = true -> b_dirty b = false ->
    b_dev b = Some dev -> b_data b = drv_disk (drv c) dev (b_nr b);
}.

(** The logical disk. *)
Definition cached c (dev : nat) (nr : Z) (i : nat) : option (list Z) :=
  match blk_buf c !! i with
  | Some b => if b_valid b && bool_decide (b_dev b = Some dev) && (b_nr b =? nr)
              then Some (b_data b) else None
  | None => None
  end.
Definition vdisk c (dev : nat) (nr : Z) : list Z :=
  default (drv_disk (drv c) dev nr) (head (omap (cached c dev nr) (chain nr c))).

(** The pinned buffers. *)
Definition buf_pin b : option pin :=
  if b_refcnt b =? 0 then None
  else match b_dev b with
       | Some dev => Some (Pin (b_refcnt b) dev (b_nr b) (b_valid b))
       | None => None
       end.
Definition pins c : gmap nat pin := omap buf_pin (blk_buf c).

Definition has_dev c (dev : nat) : Prop := is_Some (bdevs c !! dev).

(** * The logical disk in terms of hits *)

Lemma cached_hit c dev nr i d : cached c dev nr i = Some d <-> exists b, hit c dev nr i b /\ b_data b = d.
Proof.
  unfold cached, hit. destruct (blk_buf c !! i) as [b|].
  2: { split; [done|]. by intros (b & (? & _) & _). }
  destruct (b_valid b && bool_decide (b_dev b = Some dev) && (b_nr b =? nr)) eqn:E.
  - apply andb_true_iff in E as [[Hv Hd%bool_decide_eq_true]%andb_true_iff Hn%Z.eqb_eq].
    split; [intros [= <-]; eauto 10|]. by intros (b' & ([= <-] & _) & <-).
  - split; [done|]. intros (b' & ([= <-] & Hv & Hd & Hn) & _). exfalso.
    rewrite Hv, Hn, Z.eqb_refl in E. by rewrite bool_decide_eq_true_2 in E.
Qed.

Lemma vdisk_cases c dev nr :
  cinv c ->
  (exists i b, hit c dev nr i b /\ vdisk c dev nr = b_data b) \/
  ((forall i b, ~ hit c dev nr i b) /\ vdisk c dev nr = drv_disk (drv c) dev nr).
Proof.
  intros Hc. unfold vdisk. destruct (omap _ _) as [|d l] eqn:E; cbn.
  - right. split; [|done]. intros i b Hh.
    assert (Hi : i ∈ chain nr c).
    { destruct Hh as (Hb & Hv & _ & <-). by apply (ci_live c Hc i b Hb); right. }
    assert (b_data b ∈ omap (cached c dev nr) (chain nr c)) as Hin.
    { apply list_elem_of_omap. exists i. split; [done|]. apply cached_hit. eauto. }
    rewrite E in Hin. by apply not_elem_of_nil in Hin.
  - left. assert (d ∈ omap (cached c dev nr) (chain nr c)) as Hin by (rewrite E; left).
    apply list_elem_of_omap in Hin as (i & _ & (b & Hh & Hd)%cached_hit). by exists i, b.
Qed.

Lemma hit_unique c dev nr i j b b' : cinv c -> hit c dev nr i b -> hit c dev nr j b' -> i = j /\ b = b'.
Proof.
  intros Hc (Hb & Hv & Hd & Hn) (Hb' & Hv' & Hd' & Hn').
  assert (i = j) as -> by (apply (ci_uniq c Hc i j b b'); try done; [by right..|congruence|congruence]).
  split; [done|congruence].
Qed.

Lemma vdisk_hit c dev nr i b : cinv c -> hit c dev nr i b -> vdisk c dev nr = b_data b.
Proof.
  intros Hc Hh. destruct (vdisk_cases c dev nr Hc) as [(j & b' & Hh' & ->)|[Hn _]].
  - by destruct (hit_unique c dev nr i j b b' Hc Hh Hh') as [_ ->].
  - by apply Hn in Hh.
Qed.

Lemma vdisk_miss c dev nr :
  cinv c -> (forall i b, ~ hit c dev nr i b) -> vdisk c dev nr = drv_disk (drv c) dev nr.
Proof.
  intros Hc Hn. destruct (vdisk_cases c dev nr Hc) as [(j & b' & Hh' & _)|[_ ->]]; [|done].
  by apply Hn in Hh'.
Qed.

Lemma vdisk_ok c dev nr : cinv c -> bytes_ok BLK_SIZE (vdisk c dev nr).
Proof.
  intros Hc. destruct (vdisk_cases c dev nr Hc) as [(i & b & (Hb & _) & ->)|[_ ->]].
  - by apply (ci_data c Hc i b).
  - apply drv_disk_ok, ci_drv, Hc.
Qed.

Lemma pins_lookup c i p :
  pins c !! i = Some p <->
  exists b, blk_buf c !! i = Some b /\ b_refcnt b <> 0 /\ b_dev b = Some (p_dev p) /\
    p = Pin (b_refcnt b) (p_dev p) (b_nr b) (b_valid b).
Proof.
  unfold pins. rewrite lookup_omap. destruct (blk_buf c !! i) as [b|]; cbn.
  2: { split; [done|]. by intros (b & ? & _). }
  unfold buf_pin. destruct (Z.eqb_spec (b_refcnt b) 0) as [E|E].
  { split; [done|]. by intros (b' & [= <-] & ? & _). }
  destruct (b_dev b) as [dv|] eqn:Ed.
  - split; [intros [= <-]; cbn; eauto 10|].
    intros (b' & [= <-] & _ & Hd & ->). cbn. by rewrite Ed in Hd; injection Hd as <-.
  - split; [done|]. intros (b' & [= <-] & _ & Hd & _). by rewrite Ed in Hd.
Qed.

Lemma pins_upd c i b p :
  blk_buf c !! i = Some b -> b_refcnt b <> 0 -> b_dev b = Some (p_dev p) ->
  p = Pin (b_refcnt b) (p_dev p) (b_nr b) (b_valid b) -> pins c !! i = Some p.
Proof. intros. apply pins_lookup. eauto. Qed.

(** * Changing one live buffer *)

(** The driver state changed at most at the block of buffer [b]. *)
Definition drv_upd (d d' : D) b : Prop :=
  drv_inv d' /\ (forall dv n, drv_range d dv n -> drv_range d' dv n) /\
  (forall dv n, Some dv <> b_dev b \/ n <> b_nr b -> drv_disk d' dv n = drv_disk d dv n).

(** A new version [b'] of the buffer [b], consistent with the device [d']. *)
Definition buf_ok (d' : D) b b' : Prop :=
  b_refcnt b' = b_refcnt b /\ b_dev b' = b_dev b /\ b_nr b' = b_nr b /\
  bytes_ok BLK_SIZE (b_data b') /\
  (b_dirty b' = true -> b_valid b' = true /\ exists dev, b_dev b = Some dev /\ drv_range d' dev (b_nr b)) /\
  (b_valid b' = true -> b_dirty b' = false -> forall dev, b_dev b = Some dev ->
     b_data b' = drv_disk d' dev (b_nr b)).

Lemma drv_upd_refl c b : cinv c -> drv_upd (drv c) (drv c) b.
Proof. intros Hc. split_and!; [apply ci_drv, Hc|done|done]. Qed.

Section set.
Context (c : cache D) (i : nat) (b b' : buffer) (bds : gmap nat bdev) (d' : D).
Context (Hc : cinv c) (Hb : blk_buf c !! i = Some b) (Hlive : live b).
Context (Hok : buf_ok d' b b') (Hdrv : drv_upd (drv c) d' b).
Context (Hbds : forall dev, is_Some (bdevs c !! dev) -> is_Some (bds !! dev)).
Let c' := Cache (<[i := b']> (blk_buf c)) (blk_lists c) (blk_lru c) (blk_count c) (blk_dev c) bds d'.

(** A buffer of [c'] comes from one of [c] with the same identity. *)
Lemma set_from j x : blk_buf c' !! j = Some x ->
  exists y, blk_buf c !! j = Some y /\ b_refcnt x = b_refcnt y /\ b_dev x = b_dev y /\ b_nr x = b_nr y /\
    (live x -> live y) /\ (j = i /\ x = b' /\ y = b \/ j <> i /\ x = y).
Proof.
  destruct Hok as (Hr & Hd & Hn & _). cbn. rewrite lookup_insert. case_decide as E.
  - intros [= <-]. subst j. exists b. split_and!; try done. by left.
  - intros Hx. exists x. split_and!; try done. right. by split.
Qed.

Lemma other_drv j x dev : blk_buf c !! j = Some x -> j <> i -> live x -> b_dev x = Some dev ->
  drv_disk d' dev (b_nr x) = drv_disk (drv c) dev (b_nr x).
Proof.
  intros Hx Hj Hlx Hdx. apply Hdrv.
  destruct (decide (b_dev b = Some dev)); [|left; congruence].
  destruct (decide (b_nr x = b_nr b)) as [E|]; [|by right].
  exfalso. apply Hj, (ci_uniq c Hc j i x b); congruence.
Qed.

Lemma cinv_set : cinv c'.
Proof.
  destruct Hok as (Hr & Hd & Hn & Hbytes & Hdirty & Hclean).
  split.
  - apply Hdrv.
  - intros j. cbn. rewrite lookup_insert_is_Some. rewrite <- (ci_dom c Hc).
    destruct (decide (i = j)) as [<-|]; naive_solver.
  - intros j x (y & Hy & E & _ & _ & _ & Hcase)%set_from. rewrite E.
    destruct (ci_data c Hc j y Hy). destruct Hcase as [(_ & -> & _)|(_ & ->)]; done.
  - intros nr j Hj. destruct (ci_chain c Hc nr j Hj) as (y & Hy & En). cbn.
    rewrite lookup_insert. case_decide as E; [|eauto]. subst j. exists b'. split; [done|].
    rewrite Hb in Hy. injection Hy as <-. by rewrite Hn.
  - apply (ci_chain_nd c Hc).
  - intros j x (y & Hy & E & Ed & En & El & _)%set_from Hx. rewrite Ed, En.
    destruct (ci_live c Hc j y Hy (El Hx)) as (? & dev & ? & ?). split; [done|]. exists dev. auto.
  - intros j k x x' (y & Hy & E & Ed & En & El & _)%set_from (y' & Hy' & E' & Ed' & En' & El' & _)%set_from.
    intros ? ? ? ?. apply (ci_uniq c Hc j k y y'); auto; congruence.
  - apply (ci_lru_nd c Hc).
  - intros j. cbn. rewrite (ci_lru c Hc). rewrite lookup_insert. case_decide as E; [|done].
    subst j. rewrite Hb. split; intros (x & [= <-] & ?); eexists; (split; [done|congruence]).
  - intros j x (y & Hy & E & Ed & En & El & Hcase)%set_from Hx. rewrite Ed, En.
    destruct Hcase as [(_ & -> & ->)|(_ & ->)]; [auto|].
    destruct (ci_dirty c Hc j y Hy Hx) as (? & dev & ? & ?). split; [done|]. exists dev.
    split; [done|]. by apply Hdrv.
  - intros j x dev (y & Hy & E & Ed & En & El & Hcase)%set_from Hv Hx Hdev. rewrite En.
    destruct Hcase as [(_ & -> & ->)|(Hj & ->)]; [apply Hclean; congruence|].
    rewrite (ci_clean c Hc j y dev) by done. symmetry. eapply other_drv; eauto. by right.
Qed.

Lemma hit_set dev nr j x :
  hit c' dev nr j x <->
  (j = i /\ x = b' /\ b_valid b' = true /\ b_dev b = Some dev /\ b_nr b = nr) \/
  (j <> i /\ hit c dev nr j x).
Proof.
  destruct Hok as (Hr & Hd & Hn & _). unfold hit. cbn. rewrite lookup_insert. case_decide as E.
  - subst j. split.
    + intros ([= <-] & ? & ? & ?). left. split_and!; congruence.
    + intros [(_ & -> & ? & ? & ?)|[? _]]; [|done]. split_and!; congruence.
  - split; [by right|]. intros [[-> _]|[_ ?]]; done.
Qed.

Lemma vdisk_set dev nr :
  vdisk c' dev nr =
    if decide (b_dev b = Some dev /\ b_nr b = nr)
    then (if b_valid b' then b_data b' else drv_disk d' dev nr)
    else vdisk c dev nr.
Proof.
  pose proof cinv_set as Hc'. case_decide as E.
  - destruct E as [Ed En]. destruct (b_valid b') eqn:Ev.
    + apply (vdisk_hit c' dev nr i); [done|]. apply hit_set. left. by split_and!.
    + apply (vdisk_miss c'); [done|]. intros j x [(_ & _ & ? & _)|[Hj (Hx & Hv & Hdx & Hnx)]]%hit_set; [congruence|].
      apply Hj. apply (ci_uniq c Hc j i x b); try done; [by right|congruence..].
  - destruct (vdisk_cases c dev nr Hc) as [(j & x & Hh & ->)|[Hn ->]].
    + apply (vdisk_hit c' dev nr j); [done|]. apply hit_set. right. split; [|done].
      intros ->. destruct Hh as (Hx & _ & ? & ?). rewrite Hb in Hx. injection Hx as <-. tauto.
    + rewrite (vdisk_miss c'); [|done|].
      * cbn. apply Hdrv. destruct (decide (b_dev b = Some dev)); [right|left]; naive_solver.
      * intros j x [(_ & _ & _ & ? & ?)|[_ Hh]]%hit_set; [tauto|by apply Hn in Hh].
Qed.

Lemma pins_set dev :
  b_dev b = Some dev -> b_refcnt b <> 0 ->
  pins c' = <[i := Pin (b_refcnt b) dev (b_nr b) (b_valid b')]> (pins c).
Proof.
  intros Hdev Hr0. destruct Hok as (Hr & Hd & Hn & _). unfold pins; cbn.
  rewrite (omap_insert_Some _ _ _ _ (Pin (b_refcnt b) dev (b_nr b) (b_valid b'))); [done|].
  unfold buf_pin. rewrite Hr, Hd, Hn, Hdev. by rewrite (proj2 (Z.eqb_neq _ _) Hr0).
Qed.
End set.

(** * Changing a reference count *)

Section refs.
Context (c : cache D) (i : nat) (b : buffer) (r : Z) (lru' : list nat).
Context (Hc : cinv c) (Hb : blk_buf c !! i = Some b) (Hlive : live b) (Hr : 0 <= r).
Context (Hnd : NoDup lru') (Hi : i ∈ lru' <-> r = 0) (Hother : forall j, j <> i -> j ∈ lru' <-> j ∈ blk_lru c).
Let c' := Cache (<[i := set_refcnt r b]> (blk_buf c)) (blk_lists c) lru' (blk_count c)
            (blk_dev c) (bdevs c) (drv c).

Lemma refs_from j x : blk_buf c' !! j = Some x ->
  exists y, blk_buf c !! j = Some y /\ (live x -> live y) /\ b_valid x = b_valid y /\
    b_dirty x = b_dirty y /\ b_dev x = b_dev y /\ b_nr x = b_nr y /\ b_data x = b_data y /\
    (0 <= b_refcnt y -> 0 <= b_refcnt x).
Proof.
  cbn. rewrite lookup_insert. case_decide as E; [|eauto 10].
  intros [= <-]. subst j. exists b. by split_and!.
Qed.

Lemma cinv_refs : cinv c'.
Proof.
  split.
  - apply (ci_drv c Hc).
  - intros j. cbn. rewrite lookup_insert_is_Some. rewrite <- (ci_dom c Hc).
    destruct (decide (i = j)) as [<-|]; naive_solver.
  - intros j x (y & Hy & _ & _ & _ & _ & _ & E & ?)%refs_from. rewrite E.
    destruct (ci_data c Hc j y Hy). auto.
  - intros nr j Hj. destruct (ci_chain c Hc nr j Hj) as (y & Hy & En). cbn.
    rewrite lookup_insert. case_decide as E; [|eauto]. subst j. exists (set_refcnt r b). split; [done|].
    rewrite Hb in Hy. by injection Hy as <-.
  - apply (ci_chain_nd c Hc).
  - intros j x (y & Hy & El & _ & _ & Ed & En & _)%refs_from Hx. rewrite Ed, En.
    by apply (ci_live c Hc j y Hy (El Hx)).
  - intros j k x x' (y & Hy & El & _ & _ & Ed & En & _)%refs_from (y' & Hy' & El' & _ & _ & Ed' & En' & _)%refs_from.
    intros ? ? ? ?. apply (ci_uniq c Hc j k y y'); auto; congruence.
  - done.
  - intros j. cbn. rewrite lookup_insert. case_decide as E.
    + subst j. rewrite Hi. split; [intros ->; eexists; eauto|]. by intros (x & [= <-] & ?).
    + rewrite Hother by done. apply (ci_lru c Hc).
  - intros j x (y & Hy & _ & Ev & Edi & Ed & En & _)%refs_from. rewrite Ev, Edi, Ed, En.
    by apply (ci_dirty c Hc j y).
  - intros j x dev (y & Hy & _ & Ev & Edi & Ed & En & Eda & _)%refs_from. rewrite Ev, Edi, Ed, En, Eda.
    by apply (ci_clean c Hc j y).
Qed.

Lemma vdisk_refs dev nr : vdisk c' dev nr = vdisk c dev nr.
Proof.
  pose proof cinv_refs as Hc'.
  destruct (vdisk_cases c' dev nr Hc') as [(j & x & (Hx & Hv & Hd & Hn) & ->)|[Hno ->]].
  - apply refs_from in Hx as (y & Hy & _ & Ev & _ & Ed & En & -> & _).
    symmetry. apply (vdisk_hit c dev nr j); [done|]. split_and!; congruence.
  - symmetry. apply (vdisk_miss c dev nr); [done|]. intros j y (Hy & Hv & Hd & Hn).
    destruct (decide (i = j)) as [<-|Hne].
    + apply (Hno i (set_refcnt r b)). rewrite Hb in Hy. injection Hy as ->.
      split_and!; try done. cbn. by rewrite lookup_insert_eq.
    + apply (Hno j y). split_and!; try done. cbn. by rewrite lookup_insert_ne.
Qed.

Lemma pins_refs dev :
  b_dev b = Some dev ->
  pins c' = if r =? 0 then delete i (pins c) else <[i := Pin r dev (b_nr b) (b_valid b)]> (pins c).
Proof.
  intros Hdev. unfold pins; cbn. destruct (r =? 0) eqn:E.
  - rewrite omap_insert_None; [done|]. unfold buf_pin. cbn. by rewrite E.
  - rewrite (omap_insert_Some _ _ _ _ (Pin r dev (b_nr b) (b_valid b))); [done|].
    unfold buf_pin. cbn. by rewrite E, Hdev.
Qed.
End refs.

(** * Recycling a buffer *)

Lemma elem_of_seq_rm (l : list nat) x y : y ∈ seq_rm l x <-> y ∈ l /\ y <> x.
Proof. unfold seq_rm. rewrite list_elem_of_filter. tauto. Qed.
Lemma NoDup_seq_rm (l : list nat) x : NoDup l -> NoDup (seq_rm l x).
Proof. apply NoDup_filter. Qed.

Section evict.
Context (c : cache D) (i : nat) (b : buffer) (dev : nat) (nr : Z) (bds : gmap nat bdev) (d' : D).
Context (Hc : cinv c) (Hb : blk_buf c !! i = Some b) (Hr : b_refcnt b = 0).
Context (Hmiss : forall j x, blk_buf c !! j = Some x -> live x -> b_dev x = Some dev -> b_nr x <> nr).
Context (Hdev : is_Some (bdevs c !! dev)).
Context (Hbds : forall dv, is_Some (bdevs c !! dv) -> is_Some (bds !! dv)).
Context (Hinv : drv_inv d') (Hrange : forall dv n, drv_range (drv c) dv n -> drv_range d' dv n).
(** The old contents have been written back if they were dirty. *)
Context (Hdisk1 : forall dv, b_dirty b = true -> b_dev b = Some dv -> drv_disk d' dv (b_nr b) = b_data b).
Context (Hdisk2 : forall dv n, ~ (b_dirty b = true /\ b_dev b = Some dv /\ b_nr b = n) ->
  drv_disk d' dv n = drv_disk (drv c) dv n).

Let new := Buffer 1 false false (Some dev) nr (b_data b).
Let lists1 := <[b_nr b mod BLK_NR_LISTS := seq_rm (chain (b_nr b) c) i]> (blk_lists c).
Let l2 := default [] (lists1 !! (nr mod BLK_NR_LISTS)).
Let c' := Cache (<[i := new]> (blk_buf c)) (<[nr mod BLK_NR_LISTS := seq_pre l2 i]> lists1)
            (seq_rm (blk_lru c) i) (blk_count c) (blk_dev c) bds d'.

(** Chains after the move: [i] is on the chain of [nr] and on no other. *)
Lemma evict_chain1 n j :
  j ∈ default [] (lists1 !! (n mod BLK_NR_LISTS)) <-> j ∈ chain n c /\ j <> i.
Proof.
  unfold lists1. rewrite lookup_insert. case_decide as E; cbn.
  - rewrite elem_of_seq_rm. unfold chain. by rewrite E.
  - unfold chain. split; [|tauto]. intros Hj. split; [done|]. intros ->.
    destruct (ci_chain c Hc n i Hj) as (x & Hx & En). congruence.
Qed.

Lemma evict_chain n j :
  j ∈ chain n c' <-> (j = i /\ n mod BLK_NR_LISTS = nr mod BLK_NR_LISTS) \/ (j <> i /\ j ∈ chain n c).
Proof.
  unfold chain at 1; cbn. rewrite lookup_insert. case_decide as E; cbn.
  - unfold seq_pre, l2. rewrite elem_of_cons, E, evict_chain1. naive_solver.
  - rewrite evict_chain1. naive_solver.
Qed.

Lemma evict_chain_nd n : NoDup (chain n c').
Proof.
  assert (H1 : forall n, NoDup (default [] (lists1 !! (n mod BLK_NR_LISTS)))).
  { intros m. unfold lists1. rewrite lookup_insert. case_decide; cbn.
    - apply NoDup_seq_rm, (ci_chain_nd c Hc).
    - apply (ci_chain_nd c Hc). }
  unfold chain; cbn. rewrite lookup_insert. case_decide; cbn; [|apply H1].
  apply NoDup_cons. split; [|apply H1]. unfold l2. rewrite evict_chain1. tauto.
Qed.

Lemma evict_from j x : blk_buf c' !! j = Some x ->
  (j = i /\ x = new) \/ (j <> i /\ blk_buf c !! j = Some x).
Proof. cbn. rewrite lookup_insert. case_decide; [intros [= <-]; by left|by right]. Qed.

(** Other buffers do not hold the written-back block. *)
Lemma evict_other j x dv : blk_buf c !! j = Some x -> j <> i -> live x -> b_dev x = Some dv ->
  drv_disk d' dv (b_nr x) = drv_disk (drv c) dv (b_nr x).
Proof.
  intros Hx Hj Hl Hd. apply Hdisk2. intros (Hdi & Hdb & Hn).
  apply Hj. apply (ci_uniq c Hc j i x b); try congruence. right. by apply (ci_dirty c Hc i b).
Qed.

Lemma cinv_evict : cinv c'.
Proof.
  split.
  - done.
  - intros j. cbn. rewrite lookup_insert_is_Some. rewrite <- (ci_dom c Hc).
    destruct (decide (i = j)) as [<-|]; naive_solver.
  - intros j x [(_ & ->)|(_ & Hx)]%evict_from; [|by apply (ci_data c Hc j)]. cbn.
    split; [by apply (ci_data c Hc i)|lia].
  - intros n j [(-> & E)|(Hj & Hch)]%evict_chain.
    + exists new. cbn. rewrite lookup_insert_eq. auto.
    + destruct (ci_chain c Hc n j Hch) as (x & ? & ?). exists x. cbn. by rewrite lookup_insert_ne.
  - apply evict_chain_nd.
  - intros j x [(-> & ->)|(Hj & Hx)]%evict_from Hl.
    + cbn. split; [apply evict_chain; by left|eauto].
    + destruct (ci_live c Hc j x Hx Hl) as (? & dv & ? & ?).
      split; [apply evict_chain; by right|eauto].
  - intros j k x y [(-> & ->)|(Hj & Hx)]%evict_from [(-> & ->)|(Hk & Hy)]%evict_from; try done.
    + cbn. intros _ Hl Hd Hn. exfalso. by apply (Hmiss k y).
    + cbn. intros Hl _ Hd Hn. exfalso. by apply (Hmiss j x).
    + by apply (ci_uniq c Hc).
  - apply NoDup_seq_rm, (ci_lru_nd c Hc).
  - intros j. cbn. rewrite elem_of_seq_rm, (ci_lru c Hc), lookup_insert. case_decide as E; [|naive_solver].
    subst j. split; [tauto|]. by intros (x & [= <-] & ?).
  - intros j x [(-> & ->)|(Hj & Hx)]%evict_from; [done|]. intros Hdi.
    destruct (ci_dirty c Hc j x Hx Hdi) as (? & dv & ? & ?). eauto.
  - intros j x dv [(-> & ->)|(Hj & Hx)]%evict_from; [done|]. intros Hv Hdi Hd.
    rewrite (ci_clean c Hc j x dv) by done. symmetry. eapply evict_other; eauto. by right.
Qed.

Lemma vdisk_evict dv n : vdisk c' dv n = vdisk c dv n.
Proof.
  pose proof cinv_evict as Hc'.
  destruct (vdisk_cases c dv n Hc) as [(j & x & (Hx & Hv & Hd & Hn) & ->)|[Hno ->]].
  - destruct (decide (j = i)) as [->|Hj].
    + rewrite Hb in Hx. injection Hx as <-. rewrite (vdisk_miss c' dv n Hc').
      * cbn. subst n. destruct (b_dirty b) eqn:Edi; [by apply Hdisk1|].
        rewrite Hdisk2 by (intros [? _]; done). symmetry. by apply (ci_clean c Hc i b dv).
      * intros k y ([(-> & ->)|(Hk & Hy)]%evict_from & Hv' & Hd' & Hn'); [done|].
        apply Hk. apply (ci_uniq c Hc k i y b); try done; [by right..|congruence|congruence].
    + apply (vdisk_hit c' dv n j); [done|]. split_and!; try done. cbn. by rewrite lookup_insert_ne.
  - rewrite (vdisk_miss c' dv n Hc').
    + cbn. apply Hdisk2. intros (Hdi & Hd & Hn). apply (Hno i b). split_and!; try done. by apply (ci_dirty c Hc i b).
    + intros k y ([(-> & ->)|(Hk & Hy)]%evict_from & Hv' & Hd' & Hn'); [done|].
      by apply (Hno k y).
Qed.

Lemma pins_evict : pins c' = <[i := Pin 1 dev nr false]> (pins c) /\ pins c !! i = None.
Proof.
  split.
  - unfold pins; cbn. by rewrite (omap_insert_Some _ _ _ _ (Pin 1 dev nr false)).
  - unfold pins. rewrite lookup_omap, Hb. cbn. unfold buf_pin. by rewrite Hr.
Qed.
End evict.

(** * The operations *)

Lemma buf_bind {B} i b (k : buffer -> M (cache D) B) c :
  blk_buf c !! i = Some b -> bind (buf i) k c = k b c.
Proof. intros Hb. unfold bind at 1, buf, gets, bind. by rewrite Hb. Qed.

Lemma wp_buf {B} i b (k : buffer -> M (cache D) B) Q E c :
  blk_buf c !! i = Some b -> wp (k b) Q E c -> wp (bind (buf i) k) Q E c.
Proof. intros Hb. unfold wp. by rewrite (buf_bind _ _ _ _ Hb). Qed.

Lemma upd_buf_bind {B} i b f (k : unit -> M (cache D) B) c :
  blk_buf c !! i = Some b ->
  bind (upd_buf i f) k c = k tt (with_buf (<[i := f b]> (blk_buf c)) c).
Proof. intros Hb. unfold bind at 1, upd_buf. by rewrite (buf_bind _ _ _ _ Hb). Qed.

Lemma upd_dev_run dev o f c :
  bdevs c !! dev = Some o -> upd_dev dev f c = Ret tt (with_bdevs (<[dev := f o]> (bdevs c)) c).
Proof. intros Ho. unfold upd_dev, dev_obj, bind, gets, modify. by rewrite Ho. Qed.

Lemma upd_dev_bind {B} dev o f (k : unit -> M (cache D) B) c :
  bdevs c !! dev = Some o ->
  bind (upd_dev dev f) k c = k tt (with_bdevs (<[dev := f o]> (bdevs c)) c).
Proof. intros Ho. by rewrite (bind_run _ _ _ _ _ (upd_dev_run dev o f c Ho)). Qed.

Lemma bdevs_insert_mono c dev o dv : is_Some (bdevs c !! dv) -> is_Some (<[dev := o]> (bdevs c) !! dv).
Proof. rewrite lookup_insert_is_Some'. auto. Qed.

(** [blk_write] of a dirty buffer: the device gets the data, the buffer is clean. *)
Lemma blk_write_run c i b dev o :
  blk_buf c !! i = Some b -> b_valid b = true -> b_dirty b = true -> b_dev b = Some dev ->
  bdevs c !! dev = Some o -> drv_inv (drv c) -> bytes_ok BLK_SIZE (b_data b) ->
  drv_range (drv c) dev (b_nr b) ->
  exists d', blk_write i c = Ret tt
      (Cache (<[i := set_dirty false b]> (blk_buf c)) (blk_lists c) (blk_lru c) (blk_count c)
         (blk_dev c) (<[dev := count_write o]> (bdevs c)) d') /\
    drv_inv d' /\ (forall dv n, drv_range (drv c) dv n -> drv_range d' dv n) /\
    (forall dv n, drv_disk d' dv n = disk_upd (drv_disk (drv c)) dev (b_nr b) (b_data b) dv n).
Proof.
  intros Hb Hv Hdi Hd Ho Hinv Hby Hrg. unfold blk_write. rewrite (buf_bind _ _ _ _ Hb), Hv, Hdi. cbn [negb].
  rewrite (upd_buf_bind _ _ _ _ _ Hb), Hd. unfold bind, gets, deref, ret, id. cbn [drv with_buf].
  destruct (drv_write dev (b_nr b) (b_data b) (drv c)) as [e d'] eqn:Ew.
  destruct (drv_write_ok _ _ _ _ _ _ Hinv Hby Hrg Ew) as (-> & Hinv' & Hdisk & Hrange).
  exists d'. cbn -[upd_dev]. rewrite (upd_dev_run dev o) by done. by split_and!.
Qed.

Lemma blk_scan_run c dev nr fuel l :
  (length l <= fuel)%nat -> (forall i, i ∈ l -> is_Some (blk_buf c !! i)) ->
  exists r, blk_scan fuel l dev nr c = Ret r c /\
    match r with
    | Some i => exists b, i ∈ l /\ blk_buf c !! i = Some b /\ live b /\ b_dev b = Some dev /\ b_nr b = nr
    | None => forall i b, i ∈ l -> blk_buf c !! i = Some b -> live b -> b_dev b = Some dev -> b_nr b <> nr
    end.
Proof.
  revert fuel. induction l as [|i l IH]; intros fuel Hf Hl; cbn.
  { exists None. split; [done|]. intros ? ? []%not_elem_of_nil. }
  destruct fuel as [|fuel]; [cbn in Hf; lia|]. cbn in Hf.
  destruct (Hl i) as [b Hb]; [left|]. rewrite (buf_bind _ _ _ _ Hb).
  assert (Hlive : negb (b_refcnt b =? 0) || b_valid b = true <-> live b).
  { unfold live. rewrite orb_true_iff, negb_true_iff, Z.eqb_neq. done. }
  destruct ((negb (b_refcnt b =? 0) || b_valid b) && (b_nr b =? nr) && bool_decide (b_dev b = Some dev)) eqn:E.
  - rewrite !andb_true_iff, Hlive, Z.eqb_eq, bool_decide_eq_true in E.
    exists (Some i). split; [done|]. exists b. split; [left|]. tauto.
  - destruct (IH fuel) as (r & -> & Hr); [lia|intros; apply Hl; by right|].
    exists r. split; [done|]. destruct r as [j|].
    + destruct Hr as (x & ? & ?). exists x. split; [by right|]. done.
    + intros j x [->|Hj]%elem_of_cons Hx Hlx Hdx Hnx; [|by eapply Hr].
      rewrite Hb in Hx. injection Hx as <-. apply Hlive in Hlx.
      by rewrite Hlx, Hnx, Z.eqb_refl, bool_decide_eq_true_2 in E.
Qed.

Lemma NoDup_lt_length (l : list nat) n : NoDup l -> (forall x, x ∈ l -> (x < n)%nat) -> (length l <= n)%nat.
Proof.
  intros Hnd Hlt. trans (length (seq 0 n)); [|by rewrite length_seq].
  apply submseteq_length, NoDup_submseteq; [done|]. intros x Hx%Hlt. apply elem_of_seq. lia.
Qed.

(** While a buffer is unpinned, the LRU list is not empty. *)
Lemma lru_not_empty c : cinv c -> (size (pins c) < blk_count c)%nat -> blk_lru c <> [].
Proof.
  intros Hc Hlt Hnil.
  assert (blk_count c <= size (pins c))%nat; [|lia].
  rewrite <- size_dom. rewrite <- (size_set_seq (C := gset nat) 0 (blk_count c)). apply subseteq_size.
  intros i Hi%elem_of_set_seq. apply elem_of_dom.
  destruct (proj2 (ci_dom c Hc i)) as [b Hb]; [lia|].
  assert (b_refcnt b <> 0).
  { intros E. assert (i ∈ blk_lru c) as Hin by (apply (ci_lru c Hc); eauto).
    rewrite Hnil in Hin. by apply not_elem_of_nil in Hin. }
  destruct (ci_live c Hc i b Hb) as (_ & dev & Hd & _); [by left|].
  eexists. by eapply (pins_upd c i b (Pin (b_refcnt b) dev (b_nr b) (b_valid b))).
Qed.

Definition grows c c' : Prop :=
  cinv c' /\ (forall d n, vdisk c' d n = vdisk c d n) /\
  (forall d n, drv_range (drv c) d n -> drv_range (drv c') d n) /\
  (forall d, has_dev c d -> has_dev c' d) /\ blk_count c' = blk_count c.

Lemma ident_live c i b dev :
  cinv c -> blk_buf c !! i = Some b -> b_dev b = Some dev ->
  forall p, pins c !! i = Some p -> p_dev p = dev /\ p_nr p = b_nr b /\ p_valid p = b_valid b.
Proof.
  intros Hc Hb Hd p (x & Hx & _ & Hdx & Hp)%pins_lookup. rewrite Hb in Hx. injection Hx as <-.
  rewrite Hp. cbn. split_and!; congruence.
Qed.

Lemma pin_cnt_live c i b dev :
  blk_buf c !! i = Some b -> b_dev b = Some dev -> pin_cnt (pins c !! i) = b_refcnt b.
Proof.
  intros Hb Hd. unfold pins. rewrite lookup_omap, Hb. cbn. unfold buf_pin. rewrite Hd.
  by destruct (Z.eqb_spec (b_refcnt b) 0).
Qed.

(** Taking a reference to a buffer already in the cache. *)
Lemma blk_get_hit c i b dev nr :
  cinv c -> blk_buf c !! i = Some b -> live b -> b_dev b = Some dev -> b_nr b = nr ->
  let lru' := if b_refcnt b =? 0 then seq_rm (blk_lru c) i else blk_lru c in
  let c' := Cache (<[i := set_refcnt (b_refcnt b + 1) b]> (blk_buf c)) (blk_lists c) lru'
              (blk_count c) (blk_dev c) (bdevs c) (drv c) in
  grows c c' /\ pins c' = <[i := Pin (pin_cnt (pins c !! i) + 1) dev nr (b_valid b)]> (pins c).
Proof.
  intros Hc Hb Hl Hd Hn lru' c'. destruct (ci_data c Hc i b Hb) as [_ Hr].
  assert (Hnd : NoDup lru').
  { subst lru'. destruct (_ =? _); [apply NoDup_seq_rm|]; apply (ci_lru_nd c Hc). }
  assert (Hi : i ∈ lru' <-> b_refcnt b + 1 = 0).
  { split; [|lia]. subst lru'. destruct (Z.eqb_spec (b_refcnt b) 0) as [E|E].
    - rewrite elem_of_seq_rm. tauto.
    - rewrite (ci_lru c Hc). intros (x & Hx & ?). congruence. }
  assert (Ho : forall j, j <> i -> j ∈ lru' <-> j ∈ blk_lru c).
  { intros j Hj. subst lru'. destruct (_ =? _); [|done]. rewrite elem_of_seq_rm. tauto. }
  assert (Hr1 : 0 <= b_refcnt b + 1) by lia. split.
  - split_and!; try done.
    + by apply cinv_refs.
    + intros. by apply vdisk_refs.
  - subst c'. rewrite (pins_refs c i b _ lru' dev Hd), (pin_cnt_live c i b dev Hb Hd), <- Hn.
    by replace (b_refcnt b + 1 =? 0) with false by lia.
Qed.

Lemma blk_recycle_law c i b dev nr :
  cinv c -> has_dev c dev -> blk_buf c !! i = Some b -> b_refcnt b = 0 ->
  (forall j x, blk_buf c !! j = Some x -> live x -> b_dev x = Some dev -> b_nr x <> nr) ->
  wp (blk_recycle i dev nr)
    (fun j c' => j = i /\ grows c c' /\ pins c' = <[i := Pin 1 dev nr false]> (pins c) /\ pins c !! i = None)
    (fun _ _ => False) c.
Proof.
  intros Hc Hdev Hb Hr0 Hmiss. unfold wp.
  set (lists1 := <[b_nr b mod BLK_NR_LISTS := seq_rm (chain (b_nr b) c) i]> (blk_lists c)).
  set (c1 := with_lru (seq_rm (blk_lru c) i) (with_lists lists1 c)).
  (* the state after the write-back, dirty or not *)
  assert (exists b1 bds d', (if b_dirty b then status (blk_write i) else ret 0) c1 =
      Ret 0 (Cache (<[i := b1]> (blk_buf c)) lists1 (seq_rm (blk_lru c) i) (blk_count c) (blk_dev c) bds d') /\
      set_valid false (set_ident dev nr (set_refcnt 1 b1)) = Buffer 1 false false (Some dev) nr (b_data b) /\
      (forall dv, is_Some (bdevs c !! dv) -> is_Some (bds !! dv)) /\
      drv_inv d' /\ (forall dv n, drv_range (drv c) dv n -> drv_range d' dv n) /\
      (forall dv, b_dirty b = true -> b_dev b = Some dv -> drv_disk d' dv (b_nr b) = b_data b) /\
      (forall dv n, ~ (b_dirty b = true /\ b_dev b = Some dv /\ b_nr b = n) ->
         drv_disk d' dv n = drv_disk (drv c) dv n))
    as (b1 & bds & d' & Hrun & Hnew & Hbds & Hinv & Hrg & Hd1 & Hd2).
  { destruct (b_dirty b) eqn:Edi.
    - destruct (ci_dirty c Hc i b Hb Edi) as (Hv & dv & Hdv & Hrg).
      destruct (ci_live c Hc i b Hb) as (_ & dv' & Hdv' & [o Ho]); [by right|].
      assert (dv' = dv) as -> by congruence.
      destruct (blk_write_run c1 i b dv o) as (d' & Hw & Hi & Hr & Hd); try done.
      { apply (ci_drv c Hc). } { by apply (ci_data c Hc i b). }
      exists (set_dirty false b), (<[dv := count_write o]> (bdevs c)), d'.
      unfold status. rewrite Hw. split_and!; try done.
      + intros. by apply bdevs_insert_mono.
      + intros dv2 _ Hdv2. rewrite Hd. assert (dv2 = dv) as -> by congruence. apply disk_upd_eq.
      + intros dv2 n Hno. rewrite Hd. apply disk_upd_ne.
        destruct (decide (dv2 = dv)) as [->|]; [right|by left]. naive_solver.
    - exists b, (bdevs c), (drv c). split_and!; try done.
      + unfold ret, c1, with_lru, with_lists. cbn. by rewrite (insert_id _ _ _ Hb).
      + unfold set_valid, set_ident, set_refcnt. cbn. by rewrite Edi.
      + apply (ci_drv c Hc). }
  set (new := Buffer 1 false false (Some dev) nr (b_data b)) in *.
  set (c' := Cache (<[i := new]> (blk_buf c))
    (<[nr mod BLK_NR_LISTS := seq_pre (default [] (lists1 !! (nr mod BLK_NR_LISTS))) i]> lists1)
    (seq_rm (blk_lru c) i) (blk_count c) (blk_dev c) bds d').
  assert (Hfin : blk_recycle i dev nr c = Ret i c').
  { unfold blk_recycle, set_chain. rewrite (buf_bind _ _ _ _ Hb), gets_bind, !modify_bind.
    rewrite (bind_run _ _ _ _ _ Hrun), (upd_buf_bind i b1) by (cbn; apply lookup_insert_eq).
    rewrite gets_bind, modify_bind. unfold ret, with_lists, with_buf, chain. cbn.
    by rewrite Hnew, insert_insert_eq. }
  rewrite Hfin. split; [done|]. split.
  - split_and!; try done; [by apply cinv_evict|intros; by apply vdisk_evict].
  - by apply pins_evict.
Qed.

Lemma blk_get_law c dev nr :
  cinv c -> has_dev c dev -> (size (pins c) < blk_count c)%nat ->
  wp (blk_get dev nr)
    (fun i c' => grows c c' /\ exists v, 
       pins c' = <[i := Pin (pin_cnt (pins c !! i) + 1) dev nr v]> (pins c) /\
       forall p, pins c !! i = Some p -> p_dev p = dev /\ p_nr p = nr /\ p_valid p = v)
    (fun _ _ => False) c.
Proof.
  intros Hc Hdev Hsz. unfold blk_get. apply wp_bind. cbn [wp gets id].
  destruct (blk_scan_run c dev nr (blk_count c) (chain nr c)) as (r & Hscan & Hr).
  { apply NoDup_lt_length; [apply (ci_chain_nd c Hc)|]. intros i Hi. apply (ci_dom c Hc).
    destruct (ci_chain c Hc nr i Hi) as (b & -> & _). eauto. }
  { intros i Hi. destruct (ci_chain c Hc nr i Hi) as (b & -> & _). eauto. }
  unfold wp. unfold bind at 1. rewrite Hscan. destruct r as [i|].
  - destruct Hr as (b & _ & Hb & Hl & Hd & Hn). rewrite (buf_bind _ _ _ _ Hb).
    pose proof (blk_get_hit c i b dev nr Hc Hb Hl Hd Hn) as (Hg & Hp).
    destruct (Z.eqb_spec (b_refcnt b) 0) as [E|E]; unfold bind at 1; cbn [modify ret];
      rewrite (upd_buf_bind i b) by done; cbn [ret]; (split; [exact Hg|]);
      exists (b_valid b); (split; [exact Hp|]); rewrite <- Hn; by apply (ident_live c i b dev).
  - assert (Hmiss : forall j x, blk_buf c !! j = Some x -> live x -> b_dev x = Some dev -> b_nr x <> nr).
    { intros j x Hx Hl Hd Hn. destruct (ci_live c Hc j x Hx Hl) as [Hj _].
      apply (Hr j x); try done. by rewrite <- Hn. }
    destruct (blk_lru c) as [|i l] eqn:Elru; [by apply lru_not_empty in Hsz|].
    assert (Hin : i ∈ blk_lru c) by (rewrite Elru; left).
    apply (ci_lru c Hc) in Hin as (b & Hb & Hr0).
    pose proof (blk_recycle_law c i b dev nr Hc Hdev Hb Hr0 Hmiss) as Hrec. unfold wp in Hrec.
    destruct (blk_recycle i dev nr c) as [j c'| |]; try done.
    destruct Hrec as (-> & Hg & Hp & Hnone). split; [done|]. exists false. rewrite Hp, Hnone. by split.
Qed.

Lemma blk_put_law c i p :
  cinv c -> pins c !! i = Some p ->
  wp (blk_put i) (fun _ c' => grows c c' /\ pins c' = unpin i p (pins c)) (fun _ _ => False) c.
Proof.
  intros Hc (b & Hb & Hr & Hd & Hp)%pins_lookup. destruct (ci_data c Hc i b Hb) as [_ Hr0].
  unfold wp, blk_put. rewrite (buf_bind _ _ _ _ Hb), (proj2 (Z.eqb_neq _ _) Hr).
  rewrite (upd_buf_bind _ _ _ _ _ Hb).
  set (lru' := if b_refcnt b - 1 =? 0 then seq_app (blk_lru c) i else blk_lru c).
  assert (Hni : i ∉ blk_lru c) by (rewrite (ci_lru c Hc); intros (x & Hx & ?); congruence).
  assert (Hnd : NoDup lru').
  { subst lru'. pose proof (ci_lru_nd c Hc). destruct (_ =? _); [|done].
    apply NoDup_app. split_and!; [done| |apply NoDup_singleton].
    intros x Hx ->%list_elem_of_singleton. done. }
  assert (Hi : i ∈ lru' <-> b_refcnt b - 1 = 0).
  { subst lru'. destruct (Z.eqb_spec (b_refcnt b - 1) 0); [|tauto].
    unfold seq_app. rewrite elem_of_app, list_elem_of_singleton. tauto. }
  assert (Ho : forall j, j <> i -> j ∈ lru' <-> j ∈ blk_lru c).
  { intros j Hj. subst lru'. destruct (_ =? _); [|done].
    unfold seq_app. rewrite elem_of_app, list_elem_of_singleton. tauto. }
  assert (Hr1 : 0 <= b_refcnt b - 1) by lia.
  assert (Hl : live b) by (by left).
  set (c' := Cache (<[i := set_refcnt (b_refcnt b - 1) b]> (blk_buf c)) (blk_lists c) lru'
              (blk_count c) (blk_dev c) (bdevs c) (drv c)).
  assert (Hgoal : grows c c' /\ pins c' = unpin i p (pins c)).
  { split.
    - split_and!; try done; [by apply cinv_refs|intros; by apply vdisk_refs].
    - subst c'. rewrite (pins_refs c i b _ lru' (p_dev p) Hd). destruct p as [cnt dv nr v]. cbn in *.
      injection Hp as -> -> ->. unfold unpin. cbn.
      by replace (b_refcnt b =? 1) with (b_refcnt b - 1 =? 0) by lia. }
  subst c' lru'. by destruct (b_refcnt b - 1 =? 0).
Qed.

(** Filling and changing a pinned buffer. *)
Lemma buf_edit_law c i p d f :
  cinv c -> pins c !! i = Some p -> drv_range (drv c) (p_dev p) (p_nr p) ->
  bytes_ok BLK_SIZE d ->
  (forall b, blk_buf c !! i = Some b -> b_dev b = Some (p_dev p) -> b_nr b = p_nr p -> b_valid b = p_valid p ->
     f b = Buffer (b_refcnt b) true true (b_dev b) (b_nr b) d) ->
  wp (upd_buf i f)
    (fun _ c' => cinv c' /\ (forall dv n, vdisk c' dv n = disk_upd (vdisk c) (p_dev p) (p_nr p) d dv n) /\
       (forall d n, drv_range (drv c) d n -> drv_range (drv c') d n) /\
       (forall d, has_dev c d -> has_dev c' d) /\ blk_count c' = blk_count c /\
       pins c' = <[i := Pin (p_cnt p) (p_dev p) (p_nr p) true]> (pins c))
    (fun _ _ => False) c.
Proof.
  intros Hc (b & Hb & Hr & Hd & Hp)%pins_lookup Hrg Hby Hf.
  assert (Hn : b_nr b = p_nr p) by (by rewrite Hp). assert (Hv : b_valid b = p_valid p) by (by rewrite Hp).
  unfold wp, upd_buf. rewrite (buf_bind _ _ _ _ Hb), (Hf b) by done. cbn [modify].
  set (b' := Buffer (b_refcnt b) true true (b_dev b) (b_nr b) d).
  assert (Hok : buf_ok (drv c) b b').
  { split_and!; try done. intros _. split; [done|]. exists (p_dev p). by rewrite Hn. }
  assert (Hl : live b) by (by left). pose proof (drv_upd_refl c b Hc) as Hu.
  assert (Hbd : forall dev, is_Some (bdevs c !! dev) -> is_Some (bdevs c !! dev)) by done.
  split_and!; try done.
  - by apply (cinv_set c i b b' (bdevs c) (drv c)).
  - intros dv n. etrans; [by apply (vdisk_set c i b b' (bdevs c) (drv c))|].
    cbn. unfold disk_upd. destruct (decide (dv = p_dev p /\ n = p_nr p)) as [[-> ->]|E].
    + by rewrite decide_True.
    + rewrite decide_False; [done|]. intros [E1 E2]. apply E. split; congruence.
  - etrans; [by apply (pins_set c i b b' (bdevs c) (drv c) Hok (p_dev p))|]. cbn.
    destruct p. cbn in *. by injection Hp as -> -> ->.
Qed.

Lemma buf_fill_law c i p d :
  cinv c -> pins c !! i = Some p -> bytes_ok BLK_SIZE d -> drv_range (drv c) (p_dev p) (p_nr p) ->
  wp (buf_fill i d)
    (fun _ c' => cinv c' /\ (forall dv n, vdisk c' dv n = disk_upd (vdisk c) (p_dev p) (p_nr p) d dv n) /\
       (forall d n, drv_range (drv c) d n -> drv_range (drv c') d n) /\
       (forall d, has_dev c d -> has_dev c' d) /\ blk_count c' = blk_count c /\
       pins c' = <[i := Pin (p_cnt p) (p_dev p) (p_nr p) true]> (pins c))
    (fun _ _ => False) c.
Proof. intros. by apply buf_edit_law. Qed.

Lemma pin_data c i p :
  cinv c -> pins c !! i = Some p -> p_valid p = true -> buf_data i c = vdisk c (p_dev p) (p_nr p).
Proof.
  intros Hc (b & Hb & Hr & Hd & Hp)%pins_lookup Hv. unfold buf_data. rewrite Hb. symmetry.
  apply (vdisk_hit c _ _ i); [done|]. rewrite Hp in Hv. cbn in Hv. rewrite Hp. by split_and!.
Qed.

Lemma buf_modify_law c i p f :
  cinv c -> pins c !! i = Some p -> p_valid p = true ->
  bytes_ok BLK_SIZE (f (vdisk c (p_dev p) (p_nr p))) -> drv_range (drv c) (p_dev p) (p_nr p) ->
  wp (buf_modify i f)
    (fun _ c' => cinv c' /\
       (forall dv n, vdisk c' dv n =
          disk_upd (vdisk c) (p_dev p) (p_nr p) (f (vdisk c (p_dev p) (p_nr p))) dv n) /\
       (forall d n, drv_range (drv c) d n -> drv_range (drv c') d n) /\
       (forall d, has_dev c d -> has_dev c' d) /\ blk_count c' = blk_count c /\ pins c' = pins c)
    (fun _ _ => False) c.
Proof.
  intros Hc Hp Hv Hby Hrg.
  eapply wp_mono; [eapply (buf_edit_law c i p (f (vdisk c (p_dev p) (p_nr p))))| |]; try done.
  - intros b Hb Hd Hn Hvb. rewrite <- (pin_data c i p) by done. unfold buf_data. rewrite Hb.
    unfold set_dirty, set_data. cbn. by rewrite Hvb, Hv.
  - cbn. intros _ c' (? & ? & ? & ? & ? & Hpi). split_and!; try done.
    rewrite Hpi. apply insert_id. rewrite Hp. destruct p; cbn in *. by subst.
Qed.

(** The device part of [blk_read]: buffer [i] is pinned for block [nr] of [dev]
    and not valid; the driver has filled it with [data]. *)
Lemma blk_read_fill c i b dev data d' (f : bdev -> bdev) o v :
  cinv c -> blk_buf c !! i = Some b -> b_refcnt b <> 0 -> b_dev b = Some dev -> b_valid b = false ->
  bdevs c !! dev = Some o -> bytes_ok BLK_SIZE data -> drv_inv d' ->
  (forall dv n, drv_disk d' dv n = drv_disk (drv c) dv n) ->
  (forall dv n, drv_range (drv c) dv n -> drv_range d' dv n) ->
  (v = true -> data = drv_disk (drv c) dev (b_nr b)) ->
  let c' := Cache (<[i := set_valid v (set_data data b)]> (blk_buf c)) (blk_lists c) (blk_lru c)
              (blk_count c) (blk_dev c) (<[dev := f o]> (bdevs c)) d' in
  grows c c' /\ pins c' = <[i := Pin (b_refcnt b) dev (b_nr b) v]> (pins c).
Proof.
  intros Hc Hb Hr Hd Hv Ho Hby Hinv Hdisk Hrg Hdata c'.
  assert (Hdi : b_dirty b = false).
  { destruct (b_dirty b) eqn:E; [|done]. destruct (ci_dirty c Hc i b Hb E). congruence. }
  assert (Hok : buf_ok d' b (set_valid v (set_data data b))).
  { split_and!; try done; cbn; rewrite Hdi; [done|]. intros Hvt _ dv Hdv.
    rewrite Hdisk. assert (dv = dev) as -> by congruence. auto. }
  assert (Hu : drv_upd (drv c) d' b) by (by split_and!).
  assert (Hl : live b) by (by left).
  assert (Hbd : forall dv, is_Some (bdevs c !! dv) -> is_Some (<[dev := f o]> (bdevs c) !! dv))
    by (intros; by apply bdevs_insert_mono).
  split; [|by apply (pins_set c i b _ _ _ Hok dev)].
  split_and!; try done.
  - by apply (cinv_set c i b (set_valid v (set_data data b)) (<[dev := f o]> (bdevs c)) d').
  - intros dv n. etrans; [by apply (vdisk_set c i b (set_valid v (set_data data b)) (<[dev := f o]> (bdevs c)) d')|].
    case_decide as E; [|done]. destruct E as [Edv <-]. assert (dv = dev) as -> by congruence.
    assert (vdisk c dev (b_nr b) = drv_disk (drv c) dev (b_nr b)) as ->.
    { apply vdisk_miss; [done|]. intros j x (Hx & Hvx & Hdx & Hnx).
      assert (j = i) as -> by (apply (ci_uniq c Hc j i x b); try done; [by right|congruence]). congruence. }
    cbn. destruct v; [by apply Hdata|apply Hdisk].
Qed.

Lemma grows_trans c1 c2 c3 : grows c1 c2 -> grows c2 c3 -> grows c1 c3.
Proof.
  intros (? & Hd & Hr & Hv & Hc) (? & Hd' & Hr' & Hv' & Hc'). split_and!; [done| |auto|auto|congruence].
  intros. by rewrite Hd'.
Qed.

Lemma blk_read_law c dev nr :
  cinv c -> has_dev c dev -> (size (pins c) < blk_count c)%nat ->
  wp (blk_read dev nr)
    (fun i c' => grows c c' /\
       pins c' = <[i := Pin (pin_cnt (pins c !! i) + 1) dev nr true]> (pins c) /\
       forall p, pins c !! i = Some p -> p_dev p = dev /\ p_nr p = nr)
    (fun e c' => e <> 0 /\ grows c c' /\ pins c' = pins c) c.
Proof.
  intros Hc Hdev Hsz. unfold blk_read.
  eapply wp_seq; [by apply blk_get_law| |done]. cbn. intros i c1 (Hg1 & v & Hp1 & Hid).
  pose proof Hg1 as (Hc1 & _ & _ & Hdv1 & _).
  assert (Hl : pins c1 !! i = Some (Pin (pin_cnt (pins c !! i) + 1) dev nr v)) by (rewrite Hp1; apply lookup_insert_eq).
  pose proof Hl as (b & Hb & Hr & Hd & Hpin)%pins_lookup. cbn in Hd, Hpin. injection Hpin as Hcnt Hn Hv.
  unfold wp. rewrite (buf_bind _ _ _ _ Hb). destruct (b_valid b) eqn:Ev.
  { cbn. split; [done|]. subst v. split; [done|]. intros p Hp. by destruct (Hid p Hp) as (? & ? & ?). }
  subst v. rewrite gets_bind. cbn [id]. destruct (drv_read dev (b_nr b) (b_data b) (drv c1)) as [[e data] d'] eqn:Erd.
  destruct (drv_read_ok _ _ _ _ _ _ _ (ci_drv c1 Hc1) (proj1 (ci_data c1 Hc1 i b Hb)) Erd)
    as (Hinv & Hby & Hdisk & Hrg & Hdata).
  destruct (Hdv1 dev Hdev) as [o Ho].
  rewrite modify_bind, (upd_buf_bind i b) by done. destruct (Z.eqb_spec e 0) as [->|He]; cbn [negb].
  - destruct (blk_read_fill c1 i b dev data d' count_read o true) as [Hg2 Hp2]; try done; [auto|].
    rewrite (upd_dev_bind dev o) by exact Ho.
    rewrite (upd_buf_bind i (set_data data b)) by (cbn; apply lookup_insert_eq). cbn [ret].
    unfold with_buf, with_bdevs, with_drv. cbn [blk_buf blk_lists blk_lru blk_count blk_dev bdevs drv].
    rewrite insert_insert_eq. split; [by eapply grows_trans|]. split.
    + rewrite Hp2, Hp1, insert_insert_eq, <- Hcnt, <- Hn. done.
    + intros p Hp. by destruct (Hid p Hp) as (? & ? & ?).
  - destruct (blk_read_fill c1 i b dev data d' count_error o false) as [Hg2 Hp2]; try done.
    rewrite (upd_dev_bind dev o) by exact Ho.
    match goal with |- context [bind (blk_put i) _ ?x] => remember x as c2 eqn:Ec2 end.
    assert (Hc2 : c2 = Cache (<[i := set_valid false (set_data data b)]> (blk_buf c1)) (blk_lists c1) (blk_lru c1)
              (blk_count c1) (blk_dev c1) (<[dev := count_error o]> (bdevs c1)) d').
    { rewrite Ec2. unfold with_bdevs, with_buf, with_drv. cbn. do 2 f_equal. unfold set_valid, set_data. cbn. by rewrite Ev. }
    rewrite <- Hc2 in Hg2, Hp2. fold (wp (blk_put i;;; fail (A := nat) e)
      (fun i c' => grows c c' /\ pins c' = <[i := Pin (pin_cnt (pins c !! i) + 1) dev nr true]> (pins c) /\
        forall p, pins c !! i = Some p -> p_dev p = dev /\ p_nr p = nr)
      (fun e c' => e <> 0 /\ grows c c' /\ pins c' = pins c) c2).
    eapply wp_seq; [eapply (blk_put_law c2 i); [apply Hg2|rewrite Hp2; apply lookup_insert_eq]| |done].
    cbn. intros _ c3 [Hg3 Hp3]. split; [done|]. split; [by eapply grows_trans; [|eapply grows_trans]|].
    rewrite Hp3, Hp2, Hp1, insert_insert_eq, <- Hcnt, <- Hn. apply unpin_pin.
    intros p Hp. destruct (Hid p Hp) as (? & ? & ?). split_and!; try congruence.
    apply pins_lookup in Hp as (x & Hx & Hrx & _ & ->). cbn. destruct (ci_data c Hc i x Hx). lia.
Qed.

(** * Writing back *)

(** The buffers keep their identity and reference counts and get no dirtier;
    those selected by [sel] are clean. *)
Definition synced (sel : nat -> buffer -> Prop) c c' : Prop :=
  grows c c' /\ blk_lru c' = blk_lru c /\ pins c' = pins c /\
  forall j x, blk_buf c' !! j = Some x -> exists y, blk_buf c !! j = Some y /\
    b_refcnt x = b_refcnt y /\ b_dev x = b_dev y /\ b_nr x = b_nr y /\
    (b_dirty x = true -> b_dirty y = true) /\ (sel j y -> b_dirty x = false).

Lemma grows_refl c : cinv c -> grows c c.
Proof. intros. by split_and!. Qed.

Lemma synced_refl c : cinv c -> synced (fun _ _ => False) c c.
Proof. intros. split; [by apply grows_refl|]. split_and!; try done. intros j x Hx. exists x. by split_and!. Qed.

Lemma synced_trans s1 s2 c1 c2 c3 :
  (forall j x y, b_dev x = b_dev y -> s2 j y -> s2 j x) ->
  synced s1 c1 c2 -> synced s2 c2 c3 -> synced (fun j b => s1 j b \/ s2 j b) c1 c3.
Proof.
  intros Hs2 (Hg & Hl & Hp & Hb) (Hg' & Hl' & Hp' & Hb').
  split; [by eapply grows_trans|]. split_and!; [congruence..|].
  intros j x Hx. destruct (Hb' j x Hx) as (y & Hy & Er & Ed & En & Edi & Es).
  destruct (Hb j y Hy) as (z & Hz & Er' & Ed' & En' & Edi' & Es').
  exists z. split_and!; [done|congruence..|auto|].
  intros [H1|H2]; [|apply Es; by eapply Hs2].
  destruct (b_dirty x) eqn:E; [|done]. rewrite Edi in Es' by done. by apply Es' in H1.
Qed.

(** One step on an unreferenced buffer whose new version is [b'], clean on [d']. *)
Lemma synced_set c i b b' bds d' :
  cinv c -> blk_buf c !! i = Some b -> b_refcnt b = 0 -> live b ->
  buf_ok d' b b' -> b_dirty b' = false -> drv_upd (drv c) d' b ->
  (forall dev, is_Some (bdevs c !! dev) -> is_Some (bds !! dev)) ->
  (forall dev, b_dev b = Some dev -> (if b_valid b' then b_data b' else drv_disk d' dev (b_nr b)) = vdisk c dev (b_nr b)) ->
  synced (fun j _ => j = i) c
    (Cache (<[i := b']> (blk_buf c)) (blk_lists c) (blk_lru c) (blk_count c) (blk_dev c) bds d').
Proof.
  intros Hc Hb Hr0 Hl Hok Hdi Hu Hbd Hvd. split; [|split; [done|split]].
  - pose proof Hu as (? & ? & ?). split_and!; try done.
    + by apply (cinv_set c i b b' bds d').
    + intros dv n. etrans; [by apply (vdisk_set c i b b' bds d')|]. case_decide as E; [|done].
      destruct E as [Ed <-]. by apply Hvd.
  - unfold pins; cbn. rewrite omap_insert_None.
    + apply delete_id. rewrite lookup_omap, Hb. cbn. unfold buf_pin. by rewrite Hr0.
    + unfold buf_pin. destruct Hok as (-> & _). by rewrite Hr0.
  - intros j x (y & Hy & Er & Ed & En & _ & Hcase)%(set_from c i b b' bds d' Hb Hl Hok).
    exists y. split_and!; try done.
    + destruct Hcase as [(_ & -> & _)|(_ & ->)]; [congruence|done].
    + intros ->. by destruct Hcase as [(_ & -> & _)|(? & _)].
Qed.

Lemma blk_sync_write c i b :
  cinv c -> blk_buf c !! i = Some b -> b_refcnt b = 0 -> b_dirty b = true ->
  exists c', status (blk_write i) c = Ret 0 c' /\ synced (fun j _ => j = i) c c'.
Proof.
  intros Hc Hb Hr0 Hdi. destruct (ci_dirty c Hc i b Hb Hdi) as (Hv & dev & Hd & Hrg).
  destruct (ci_live c Hc i b Hb) as (_ & dv & Hdv & [o Ho]); [by right|].
  assert (dv = dev) as -> by congruence.
  destruct (ci_data c Hc i b Hb) as [Hby _].
  destruct (blk_write_run c i b dev o) as (d' & Hw & Hinv & Hr & Hdisk); try done; [apply (ci_drv c Hc)|].
  eexists. split; [unfold status; by rewrite Hw|].
  apply (synced_set c i b); try done.
  - by right.
  - split_and!; try done. cbn. intros _ _ dv Hdv'. assert (dv = dev) as -> by congruence.
    by rewrite Hdisk, disk_upd_eq.
  - split_and!; try done. intros dv n Hne. rewrite Hdisk. apply disk_upd_ne.
    destruct Hne as [?|?]; [left; congruence|by right].
  - intros. by apply bdevs_insert_mono.
  - intros dv Hdv'. cbn. rewrite Hv. symmetry. by apply (vdisk_hit c dv (b_nr b) i).
Qed.

Lemma blk_sync_one_law c i b flags :
  cinv c -> blk_buf c !! i = Some b -> b_refcnt b = 0 ->
  wp (blk_sync_one flags i)
    (fun _ c' => synced (fun j _ => j = i /\ Z.land flags SYNC_WRITE <> 0) c c') (fun _ _ => False) c.
Proof.
  intros Hc Hb Hr0. unfold wp, blk_sync_one. rewrite (buf_bind _ _ _ _ Hb).
  assert (exists c1, (if negb (Z.land flags SYNC_WRITE =? 0) && b_dirty b then status (blk_write i) else ret 0) c
      = Ret 0 c1 /\ synced (fun j _ => j = i /\ Z.land flags SYNC_WRITE <> 0) c c1) as (c1 & Hrun & Hs1).
  { destruct (Z.eqb_spec (Z.land flags SYNC_WRITE) 0) as [E|E]; cbn.
    - exists c. split; [done|]. split; [by apply grows_refl|]. split_and!; try done.
      intros j x Hx. exists x. split_and!; try done. tauto.
    - destruct (b_dirty b) eqn:Edi; cbn.
      + destruct (blk_sync_write c i b) as (c1 & ? & Hg & Hl & Hp & Hbuf); try done. exists c1. split; [done|].
        split_and!; try done. intros j x Hx. destruct (Hbuf j x Hx) as (y & ? & ? & ? & ? & ? & Hsel).
        exists y. split_and!; try done. intros [? _]. auto.
      + exists c. split; [done|]. split; [by apply grows_refl|]. split_and!; try done.
        intros j x Hx. exists x. split_and!; try done. intros [-> _]. congruence. }
  rewrite (bind_run _ _ _ _ _ Hrun). pose proof Hs1 as (Hg1 & Hl1 & Hp1 & Hb1). pose proof Hg1 as (Hc1 & _).
  destruct (proj2 (ci_dom c1 Hc1 i)) as [b1 Hbi].
  { destruct Hg1 as (_ & _ & _ & _ & ->). apply (ci_dom c Hc). eauto. }
  destruct (Hb1 i b1 Hbi) as (y & Hy & Er & Ed & En & Edi & _).
  rewrite Hb in Hy. injection Hy as <-. rewrite (buf_bind _ _ _ _ Hbi).
  destruct (negb (Z.land flags SYNC_INVALIDATE =? 0) && negb (b_dirty b1)) eqn:E; [|done].
  apply andb_true_iff in E as [_ Hnd%negb_true_iff].
  unfold upd_buf. rewrite (buf_bind _ _ _ _ Hbi). cbn [modify].
  destruct (b_valid b1) eqn:Ev.
  - assert (synced (fun j _ => j = i) c1 (with_buf (<[i := set_valid false b1]> (blk_buf c1)) c1)) as Hs2.
    { apply (synced_set c1 i b1); try done.
      - congruence.
      - by right.
      - destruct (ci_data c1 Hc1 i b1 Hbi). split_and!; try done. cbn. by rewrite Hnd.
      - by apply drv_upd_refl.
      - intros dev Hdev. cbn. rewrite (vdisk_hit c1 dev (b_nr b1) i b1) by done.
        symmetry. by apply (ci_clean c1 Hc1 i b1). }
    assert (Hs3 := synced_trans _ (fun j _ => j = i) c c1 _ ltac:(done) Hs1 Hs2).
    destruct Hs3 as (? & ? & ? & Hb3). split_and!; try done.
    intros j x Hx. destruct (Hb3 j x Hx) as (z & ? & ? & ? & ? & ? & Hsel).
    exists z. split_and!; try done. intros [? _]. apply Hsel. by right.
  - replace (set_valid false b1) with b1; [|destruct b1; cbn in *; by subst].
    rewrite insert_id by done. by destruct c1.
Qed.

Definition selected (only : option nat) (flags : Z) (l : list nat) (j : nat) b : Prop :=
  j ∈ l /\ Z.land flags SYNC_WRITE <> 0 /\ match only with Some dev => b_dev b = Some dev | None => True end.

Lemma blk_sync_loop_law only flags l c :
  cinv c -> (forall i, i ∈ l -> i ∈ blk_lru c) ->
  wp (blk_sync_loop only flags l) (fun _ c' => synced (selected only flags l) c c') (fun _ _ => False) c.
Proof.
  revert c. induction l as [|i l IH]; intros c Hc Hl; cbn [blk_sync_loop].
  { cbn. destruct (synced_refl c Hc) as (? & ? & ? & Hb). split_and!; try done.
    intros j x Hx. destruct (Hb j x Hx) as (y & ? & ? & ? & ? & ? & _). exists y. split_and!; try done.
    by intros ([]%not_elem_of_nil & _). }
  assert (Hi : i ∈ blk_lru c) by (apply Hl; left).
  apply (ci_lru c Hc) in Hi as (b & Hb & Hr0). apply (wp_buf i b); [done|].
  set (this := fun j (x : buffer) => j = i /\ Z.land flags SYNC_WRITE <> 0 /\
    match only with Some dev => b_dev x = Some dev | None => True end).
  assert (wp (match only with
    | Some dev => if bool_decide (b_dev b = Some dev) then blk_sync_one flags i else ret tt
    | None => blk_sync_one flags i end) (fun _ c' => synced this c c') (fun _ _ => False) c) as Hone.
  { assert (Hw : forall P : Prop, P -> wp (blk_sync_one flags i) (fun _ c' => synced this c c') (fun _ _ => False) c).
    { intros _ _. eapply wp_mono; [by eapply blk_sync_one_law| |done]. cbn.
      intros _ c' (? & ? & ? & Hb'). split_and!; try done. intros j x Hx.
      destruct (Hb' j x Hx) as (y & ? & ? & ? & ? & ? & Hs). exists y. split_and!; try done.
      intros (-> & ? & _). auto. }
    destruct only as [dev|]; [|by apply (Hw True)].
    case_bool_decide as E; [by apply (Hw True)|]. cbn.
    destruct (synced_refl c Hc) as (? & ? & ? & Hb'). split_and!; try done.
    intros j x Hx. destruct (Hb' j x Hx) as (y & Hy & ? & ? & ? & ? & _). exists y. split_and!; try done.
    unfold this. intros (-> & _ & Hd). congruence. }
  eapply wp_seq; [exact Hone| |done]. cbn. intros _ c1 Hs1.
  pose proof Hs1 as ((Hc1 & _) & Hlru & _).
  eapply wp_mono; [apply IH; [done|]| |done].
  { rewrite Hlru. intros j Hj. apply Hl. by right. }
  cbn. intros _ c2 Hs2.
  assert (Hs := synced_trans this (selected only flags l) c c1 c2).
  destruct Hs as (? & ? & ? & Hb3); try done.
  { unfold selected. intros j x y E (? & ? & Ho). split_and!; try done. destruct only; [congruence|done]. }
  split_and!; try done. intros j x Hx. destruct (Hb3 j x Hx) as (z & ? & ? & ? & ? & ? & Hsel).
  exists z. split_and!; try done. intros ([->|Hj]%elem_of_cons & ? & ?); apply Hsel; [left|right]; by split_and!.
Qed.

(** [blk_write] of a held buffer. *)
Lemma blk_write_law c i p :
  cinv c -> pins c !! i = Some p -> p_valid p = true ->
  wp (blk_write i) (fun _ c' => grows c c' /\ pins c' = pins c) (fun _ _ => False) c.
Proof.
  intros Hc Hp Hvp. pose proof Hp as (b & Hb & Hr & Hd & Ep)%pins_lookup.
  assert (Hv : b_valid b = true) by (rewrite Ep in Hvp; done).
  destruct (b_dirty b) eqn:Hdi.
  2: { unfold wp, blk_write. rewrite (buf_bind _ _ _ _ Hb), Hv, Hdi. cbn. split; [|done]. unfold grows. auto 10. }
  destruct (ci_dirty c Hc i b Hb Hdi) as (_ & dev & Hd' & Hrg).
  destruct (ci_live c Hc i b Hb) as (_ & dv & Hdv & [o Ho]); [by right|].
  assert (dv = dev) as -> by congruence. destruct (ci_data c Hc i b Hb) as [Hby _].
  destruct (blk_write_run c i b dev o) as (d' & Hw & Hinv & Hrn & Hdisk); try done; [apply (ci_drv c Hc)|].
  unfold wp. rewrite Hw.
  assert (Hok : buf_ok d' b (BlockCache.set_dirty false b)).
  { split_and!; try done. cbn. intros _ _ dv Hdv'. assert (dv = dev) as -> by congruence. by rewrite Hdisk, disk_upd_eq. }
  assert (Hu : drv_upd (drv c) d' b).
  { split_and!; try done. intros dv n Hne. rewrite Hdisk. apply disk_upd_ne.
    destruct Hne as [?|?]; [left; congruence|by right]. }
  assert (Hbd : forall dv, is_Some (bdevs c !! dv) -> is_Some (<[dev := count_write o]> (bdevs c) !! dv))
    by (intros; by apply bdevs_insert_mono).
  assert (Hl : live b) by (by right).
  split; [split_and!|].
  - by apply (cinv_set c i b (BlockCache.set_dirty false b) (<[dev := count_write o]> (bdevs c)) d').
  - intros dv n. etrans; [by apply (vdisk_set c i b (BlockCache.set_dirty false b) (<[dev := count_write o]> (bdevs c)) d')|].
    destruct (decide (b_dev b = Some dv /\ b_nr b = n)) as [[Ed <-]|]; [|done].
    cbn. rewrite Hv. symmetry. by apply (vdisk_hit c dv (b_nr b) i).
  - done.
  - done.
  - done.
  - unfold pins. cbn. apply map_eq. intros j. rewrite !lookup_omap, lookup_insert.
    destruct (decide (i = j)) as [<-|]; [|done]. by rewrite Hb.
Qed.

#[export] Program Instance cache_layer_ok : BlockLayerOk (cache D) := {
  bl_inv := cinv;
  bl_disk := vdisk;
  bl_range c := drv_range (drv c);
  bl_dev := has_dev;
  bl_pins := pins;
  bl_count := blk_count;
}.
Next Obligation. intros. by apply vdisk_ok. Qed.
Next Obligation.
  intros c i p Hc (b & Hb & Hr & _ & ->)%pins_lookup. cbn. destruct (ci_data c Hc i b Hb). lia.
Qed.
Next Obligation.
  intros c i p Hc (b & Hb & _)%pins_lookup. cbn. unfold buf_data. rewrite Hb. by apply (ci_data c Hc i b).
Qed.
Next Obligation. intros. by apply pin_data. Qed.
Next Obligation.
  intros. eapply wp_mono; [by apply blk_get_law| |done]. cbn. unfold grows. naive_solver.
Qed.
Next Obligation.
  intros. eapply wp_mono; [by apply blk_read_law| |]; cbn; unfold grows; naive_solver.
Qed.
Next Obligation.
  intros. eapply wp_mono; [by apply blk_put_law| |done]. cbn. unfold grows. naive_solver.
Qed.
Next Obligation. intros. by apply buf_fill_law. Qed.
Next Obligation. intros. by apply buf_modify_law. Qed.
Next Obligation.
  intros. eapply wp_mono; [by eapply blk_write_law| |done]. cbn. unfold grows. naive_solver.
Qed.

End ok.
