(* ===== verification/BlockCacheProps.v ===== *)
(** Properties of the buffer cache: set-up, growth, simulation of the disk,
    durability of write-back, and what a failing device does to it. *)

From S2P Require Import Prelude LinkedList BlockDev BlockIface BlockCache BlockCacheOk.

(** * The cache as a disk *)

(** Requests a file system makes of the cache. *)
Inductive request :=
| ReqRead (dev : nat) (nr off len : Z)
| ReqWrite (dev : nat) (nr : Z) (data : list Z)
| ReqSync (dev : nat) (flags : Z).

Section run.
Context {D : Type} `{BlockDriver D}.

Definition run_request (r : request) : M (cache D) (list Z) :=
  match r with
  | ReqRead dev nr off len => blk_pread dev nr off len
  | ReqWrite dev nr data => blk_pwrite dev nr 0 data;;; ret []
  | ReqSync dev flags => blk_syncdev dev flags;;; ret []
  end.

(** Runs requests until the first error; the answers so far and the error, 0 if
    there was none. *)
Fixpoint run_requests (rs : list request) : M (cache D) (list (list Z) * Z) :=
  match rs with
  | [] => ret ([], 0)
  | r :: rs =>
    a <~ attempt (run_request r);;
    match a with
    | inl e => ret ([], e)
    | inr d => '(ds, e) <~ run_requests rs;; ret (d :: ds, e)
    end
  end.
End run.

(** The same requests on an array of blocks. *)
Definition disk_request (r : request) (f : nat -> Z -> list Z) : list Z * (nat -> Z -> list Z) :=
  match r with
  | ReqRead dev nr off len => (mem_read (f dev nr) off len, f)
  | ReqWrite dev nr data => ([], disk_upd f dev nr data)
  | ReqSync _ _ => ([], f)
  end.
Fixpoint disk_requests (rs : list request) (f : nat -> Z -> list Z) : list (list Z) * (nat -> Z -> list Z) :=
  match rs with
  | [] => ([], f)
  | r :: rs => let '(d, f') := disk_request r f in
               let '(ds, f'') := disk_requests rs f' in (d :: ds, f'')
  end.

Section props.
Context {D : Type} `{HD : BlockDriverOk D}.
Implicit Types (c : cache D).

(** A request names an installed device, writes inside it, writes whole blocks. *)
Definition request_ok c (r : request) : Prop :=
  match r with
  | ReqRead dev _ _ _ => has_dev c dev
  | ReqWrite dev nr data => has_dev c dev /\ drv_range (drv c) dev nr /\ bytes_ok BLK_SIZE data
  | ReqSync _ _ => True
  end.

Lemma request_ok_mono c c' r :
  (forall d n, drv_range (drv c) d n -> drv_range (drv c') d n) ->
  (forall d, has_dev c d -> has_dev c' d) -> request_ok c r -> request_ok c' r.
Proof. destruct r; cbn; naive_solver. Qed.

Lemma run_request_ok c r :
  cinv c -> pins c = ∅ -> (0 < blk_count c)%nat -> request_ok c r ->
  wp (run_request r)
    (fun d c' => d = (disk_request r (vdisk c)).1 /\
       (forall dv n, vdisk c' dv n = (disk_request r (vdisk c)).2 dv n) /\
       cinv c' /\ pins c' = ∅ /\ blk_count c' = blk_count c /\
       (forall d n, drv_range (drv c) d n -> drv_range (drv c') d n) /\
       (forall d, has_dev c d -> has_dev c' d))
    (fun e c' => e <> 0) c.
Proof.
  intros Hc Hp Hn Hr.
  assert (Hv : pins_valid (bl_pins c)) by (cbn; rewrite Hp; apply map_Forall_empty).
  assert (Hroom : room 1 c) by (unfold room; cbn; rewrite Hp, map_size_empty; lia).
  destruct r as [dev nr off len|dev nr data|dev flags]; cbn in *.
  - eapply wp_mono; [by apply (blk_pread_ok c)| |]; cbn; [|naive_solver].
    intros d c' (-> & ? & ? & ? & ? & ? & Hp'). cbn in *. rewrite Hp in Hp'. by split_and!.
  - destruct Hr as (? & ? & ?).
    eapply wp_seq; [by apply (blk_pwrite_ok c)| |done]; cbn.
    intros _ c' (? & ? & ? & ? & ? & Hp'). cbn in *. rewrite Hp in Hp'. by split_and!.
  - apply wp_bind. unfold blk_syncdev. apply wp_bind. unfold wp at 1, gets.
    eapply wp_mono; [by apply blk_sync_loop_law| |done]. cbn.
    intros _ c' ((? & ? & ? & ? & ?) & _ & Hp' & _). rewrite Hp in Hp'. by split_and!.
Qed.

Lemma disk_requests_ext rs f g :
  (forall d n, f d n = g d n) ->
  (disk_requests rs f).1 = (disk_requests rs g).1 /\
  forall d n, (disk_requests rs f).2 d n = (disk_requests rs g).2 d n.
Proof.
  revert f g. induction rs as [|r rs IH]; intros f g Hfg; cbn; [done|].
  assert (Hr : (disk_request r f).1 = (disk_request r g).1 /\
    forall d n, (disk_request r f).2 d n = (disk_request r g).2 d n).
  { destruct r; cbn; try done; [by rewrite Hfg|]. split; [done|]. intros. unfold disk_upd. by case_decide. }
  destruct (disk_request r f) as [d f'], (disk_request r g) as [d' g']; cbn in Hr. destruct Hr as [-> Hr].
  destruct (IH f' g' Hr) as [H1 H2].
  destruct (disk_requests rs f'), (disk_requests rs g'); cbn in *. by subst.
Qed.

(** C2. The buffer cache behaves as the disk: from an idle cache, any sequence of
    block reads, block writes and syncs gives the answers, and leaves the logical
    contents, of the same sequence on a plain array of blocks; if a driver read
    fails, the answers given before it are still the right ones.  Eviction, LRU
    recycling and write-back are therefore never observable. *)
Theorem cache_simulates_disk rs c :
  cinv c -> pins c = ∅ -> (0 < blk_count c)%nat -> Forall (request_ok c) rs ->
  wp (run_requests rs)
    (fun r c' => (r.2 = 0 /\ r.1 = (disk_requests rs (vdisk c)).1 /\
                  forall d n, vdisk c' d n = (disk_requests rs (vdisk c)).2 d n) \/
                 (r.2 <> 0 /\ r.1 `prefix_of` (disk_requests rs (vdisk c)).1))
    (fun _ _ => False) c.
Proof.
  revert c. induction rs as [|r rs IH]; intros c Hc Hp Hn Hrs; cbn [run_requests].
  { cbn. by left. }
  apply Forall_cons in Hrs as [Hr Hrs]. apply wp_bind, wp_attempt.
  eapply wp_mono; [by apply run_request_ok| |].
  2: { cbn. intros e c' He. right. split; [done|apply prefix_nil]. }
  cbn. intros d c' (-> & Hd & Hc' & Hp' & Hn' & Hrg & Hdv).
  apply wp_bind. eapply wp_mono; [apply IH; try done| |done].
  { by rewrite Hn'. }
  { eapply Forall_impl; [exact Hrs|]. intros ?. by apply request_ok_mono. }
  intros [ds e] c2 Hres. cbn in *.
  destruct (disk_requests_ext rs (vdisk c') (disk_request r (vdisk c)).2 Hd) as [E1 E2].
  destruct (disk_request r (vdisk c)) as [d0 f'] eqn:Er. cbn in *.
  destruct (disk_requests rs f') as [ds' f''] eqn:Ers. cbn in *.
  destruct Hres as [(-> & -> & Hv)|(He & Hpre)].
  - left. rewrite E1. split_and!; try done. intros dv n. by rewrite Hv, E2.
  - right. split; [done|]. rewrite E1 in Hpre. by apply prefix_cons.
Qed.

(** ** Set-up and growth *)

Lemma blk_init_loop_run i n c :
  exists c', blk_init_loop i n c = Ret tt c' /\
    (forall j, blk_buf c' !! j = if decide (i <= j < i + n)%nat then Some new_buffer else blk_buf c !! j) /\
    (forall nr, chain nr c' = if decide (nr mod BLK_NR_LISTS = 0) then chain nr c ++ seq i n else chain nr c) /\
    blk_lru c' = blk_lru c ++ seq i n /\
    blk_count c' = blk_count c /\ blk_dev c' = blk_dev c /\ bdevs c' = bdevs c /\ drv c' = drv c.
Proof.
  revert i c. induction n as [|n IH]; intros i c; cbn [blk_init_loop].
  { exists c. split; [done|]. cbn. rewrite app_nil_r. split_and!; try done.
    - intros j. by rewrite decide_False by lia.
    - intros nr. rewrite app_nil_r. by case_decide. }
  unfold set_chain. rewrite modify_bind, gets_bind, !modify_bind.
  match goal with |- context [blk_init_loop (S i) n ?x] => destruct (IH (S i) x) as
    (c' & -> & Hb & Hch & Hl & Hcn & Hdv & Hbd & Hdr) end.
  exists c'. split; [done|]. cbn in Hb, Hl, Hcn, Hdv, Hbd, Hdr. split_and!; try done.
  - intros j. rewrite Hb, lookup_insert.
    destruct (decide (i = j)) as [<-|Hne].
    + rewrite decide_False by lia. by rewrite decide_True by lia.
    + destruct (decide (i <= j < i + S n)%nat); [rewrite decide_True by lia|rewrite decide_False by lia]; done.
  - intros nr. rewrite Hch. unfold chain; cbn. rewrite lookup_insert.
    change (0 mod BLK_NR_LISTS) with 0. destruct (decide (nr mod BLK_NR_LISTS = 0)) as [->|E].
    + rewrite decide_True by done. cbn. unfold seq_app. by rewrite <- app_assoc.
    + by rewrite decide_False by congruence.
  - rewrite Hl. unfold seq_app. by rewrite <- app_assoc.
Qed.

Lemma blk_init_n_law n c :
  drv_inv (drv c) ->
  wp (blk_init_n n true)
    (fun _ c' => cinv c' /\ blk_count c' = n /\ pins c' = ∅ /\ bdevs c' = bdevs c /\ drv c' = drv c /\
       forall dev nr, vdisk c' dev nr = drv_disk (drv c) dev nr)
    (fun _ _ => False) c.
Proof.
  intros Hd. unfold wp, blk_init_n. cbn [negb]. rewrite modify_bind.
  match goal with |- context [bind (blk_init_loop 0 n) _ ?x] => destruct (blk_init_loop_run 0 n x) as
    (c1 & Hrun & Hb & Hch & Hl & Hcn & Hdv & Hbd & Hdr) end.
  rewrite (bind_run _ _ _ _ _ Hrun). cbn in Hb, Hl, Hbd, Hdr. cbn [modify].
  assert (Hbuf : forall j x, blk_buf c1 !! j = Some x -> x = new_buffer /\ (j < n)%nat).
  { intros j x. rewrite Hb. case_decide; [intros [= <-]; split; [done|lia]|by rewrite lookup_empty]. }
  assert (Hc' : cinv (with_count n c1)).
  { split; cbn.
    - by rewrite Hdr.
    - intros j. rewrite Hb. case_decide; [split; [lia|eauto]|].
      rewrite lookup_empty. split; [by intros []|lia].
    - intros j x [-> _]%Hbuf. split; [by apply bytes_ok_zeros|done].
    - intros nr j Hj. unfold chain in Hj; cbn in Hj. rewrite (Hch nr : default [] _ = _) in Hj.
      unfold chain in Hj; cbn in Hj. rewrite lookup_empty in Hj. case_decide as E; cbn in Hj.
      + apply elem_of_seq in Hj. exists new_buffer. rewrite Hb, decide_True by lia. by rewrite E.
      + by apply not_elem_of_nil in Hj.
    - intros nr. unfold chain; cbn. rewrite (Hch nr : default [] _ = _).
      unfold chain; cbn. rewrite lookup_empty. case_decide; cbn; [apply NoDup_seq|apply NoDup_nil_2].
    - intros j x [-> _]%Hbuf [?|?]; done.
    - intros j k x y [-> _]%Hbuf _ [?|?]; done.
    - rewrite Hl. apply NoDup_seq.
    - intros j. rewrite Hl. cbn. rewrite elem_of_seq. rewrite Hb. split.
      + intros ?. exists new_buffer. by rewrite decide_True by lia.
      + intros (x & Hx & _). case_decide; [lia|]. by rewrite lookup_empty in Hx.
    - intros j x [-> _]%Hbuf. done.
    - intros j x dev [-> _]%Hbuf. done. }
  split_and!; try done.
  - unfold pins; cbn. apply map_eq. intros j. rewrite lookup_omap, lookup_empty.
    destruct (blk_buf c1 !! j) as [x|] eqn:E; [|done]. by apply Hbuf in E as [-> _].
  - intros dev nr. rewrite (vdisk_miss _ _ _ Hc'); [cbn; by rewrite Hdr|].
    intros j x ([-> _]%Hbuf & ? & _). done.
Qed.

(** Booting the cache: [blk_init] never panics when its memory is available
    and establishes the cache invariant with BLK_NBLK unreferenced buffers, the
    logical disk being the device's contents. *)
Theorem blk_init_ready c :
  drv_inv (drv c) ->
  wp (blk_init true)
    (fun _ c' => cinv c' /\ blk_count c' = BLK_NBLK /\ pins c' = ∅ /\
       forall dev nr, vdisk c' dev nr = drv_disk (drv c) dev nr)
    (fun _ _ => False) c.
Proof.
  intros Hd. eapply wp_mono; [by apply (blk_init_n_law BLK_NBLK)| |done]. cbn. naive_solver.
Qed.

(** C32. Durability: from a consistent cache with no buffer referenced, over a
    driver that writes every block inside of its device, [blk_syncall] with
    SYNC_WRITE (with or without SYNC_INVALIDATE) returns with no buffer dirty and
    no buffer referenced, and leaves every device holding exactly the logical
    contents from before the call, which the call does not change. *)
Theorem blk_syncall_durable flags c :
  cinv c -> pins c = ∅ -> Z.land flags SYNC_WRITE <> 0 ->
  wp (blk_syncall flags)
    (fun _ c' => cinv c' /\ pins c' = ∅ /\ (forall i b, blk_buf c' !! i = Some b -> b_dirty b = false) /\
       (forall dev nr, vdisk c' dev nr = vdisk c dev nr) /\
       forall dev nr, drv_disk (drv c') dev nr = vdisk c dev nr)
    (fun _ _ => False) c.
Proof.
  intros Hc Hp Hf. unfold blk_syncall. apply wp_bind. unfold wp at 1, gets.
  eapply wp_mono; [by apply blk_sync_loop_law| |done]. cbn.
  intros _ c' ((Hc' & Hd & _) & _ & Hp' & Hb).
  assert (Hall : forall i x dev, blk_buf c' !! i = Some x -> b_dev x = Some dev -> b_dirty x = false).
  { intros i x dev Hx Hdx. destruct (Hb i x Hx) as (y & Hy & Er & Ed & En & _ & Hsel). apply Hsel. split_and!; try done.
    apply (ci_lru c Hc). exists y. split; [done|]. destruct (decide (b_refcnt y = 0)); [done|].
    assert (pins c !! i = Some (Pin (b_refcnt y) dev (b_nr y) (b_valid y))) as E.
    { apply (pins_upd c i y); try done. cbn. congruence. }
    by rewrite Hp, lookup_empty in E. }
  split_and!; [done|congruence| |done|].
  - intros i x Hx. destruct (b_dirty x) eqn:Hdi; [|done]. destruct (ci_dirty c' Hc' i x Hx Hdi) as (_ & dev & Hdx & _).
    by rewrite (Hall i x dev) in Hdi.
  - intros dev nr. rewrite <- Hd.
    destruct (vdisk_cases c' dev nr Hc') as [(i & x & (Hx & Hv & Hdx & Hnx) & ->)|[_ ->]]; [|done].
    rewrite <- Hnx. symmetry. apply (ci_clean c' Hc' i x); try done. by eapply Hall.
Qed.

(** ** Growth *)

Lemma blk_add_loop_run i n c :
  exists c', blk_add_loop i n c = Ret tt c' /\
    (forall j, blk_buf c' !! j = if decide (i <= j < i + n)%nat then Some new_buffer else blk_buf c !! j) /\
    blk_lists c' = blk_lists c /\ blk_lru c' = reverse (seq i n) ++ blk_lru c /\
    blk_count c' = blk_count c /\ blk_dev c' = blk_dev c /\ bdevs c' = bdevs c /\ drv c' = drv c.
Proof.
  revert i c. induction n as [|n IH]; intros i c; cbn [blk_add_loop].
  { exists c. split_and!; try done. intros j. by rewrite decide_False by lia. }
  rewrite !modify_bind.
  match goal with |- context [blk_add_loop (S i) n ?x] => destruct (IH (S i) x) as
    (c' & -> & Hb & Hch & Hl & Hcn & Hdv & Hbd & Hdr) end.
  exists c'. split; [done|]. cbn in Hb, Hch, Hl, Hcn, Hdv, Hbd, Hdr. split_and!; try done.
  - intros j. rewrite Hb, lookup_insert.
    destruct (decide (i = j)) as [<-|Hne].
    + rewrite decide_False by lia. by rewrite decide_True by lia.
    + destruct (decide (i <= j < i + S n)%nat); [rewrite decide_True by lia|rewrite decide_False by lia]; done.
  - rewrite Hl. cbn [seq]. rewrite reverse_cons. unfold seq_pre. by rewrite <- app_assoc.
Qed.

(** Growing the cache: when its allocations succeed, [blk_add] to a larger
    count keeps the invariant and the logical disk, pins nothing and adds
    exactly the missing buffers to the pool. *)
Theorem blk_add_grows count c :
  cinv c -> (blk_count c < count)%nat ->
  wp (blk_add count 0 0)
    (fun _ c' => cinv c' /\ (forall dev nr, vdisk c' dev nr = vdisk c dev nr) /\
       blk_count c' = count /\ pins c' = pins c /\
       length (blk_lru c') = (length (blk_lru c) + (count - blk_count c))%nat)
    (fun _ _ => False) c.
Proof.
  intros Hc Hn. unfold wp, blk_add. rewrite gets_bind.
  rewrite (proj2 (Nat.ltb_ge _ _)) by lia. rewrite (proj2 (Nat.eqb_neq _ _)) by lia. cbn [Z.eqb negb].
  destruct (blk_add_loop_run (blk_count c) (count - blk_count c) c) as
    (c1 & Hrun & Hb & Hch & Hl & Hcn & Hdv & Hbd & Hdr).
  rewrite (bind_run _ _ _ _ _ Hrun). cbn [modify].
  assert (Hold : forall j x, blk_buf c !! j = Some x -> (j < blk_count c)%nat).
  { intros j x Hx. apply (ci_dom c Hc). eauto. }
  assert (Hnew : forall j x, blk_buf c1 !! j = Some x ->
    (x = new_buffer /\ blk_count c <= j < count)%nat \/ blk_buf c !! j = Some x).
  { intros j x. rewrite Hb. case_decide; [intros [= <-]; left; split; [done|lia]|by right]. }
  assert (Hkeep : forall j x, blk_buf c !! j = Some x -> blk_buf c1 !! j = Some x).
  { intros j x Hx. rewrite Hb, decide_False; [done|]. apply Hold in Hx. lia. }
  assert (Hchain : forall nr, chain nr (with_count count c1) = chain nr c).
  { intros nr. unfold chain; cbn. by rewrite Hch. }
  assert (Hnl : forall x, x = new_buffer -> ~ live x) by (intros ? -> [?|?]; done).
  assert (Hc' : cinv (with_count count c1)).
  { split.
    - cbn. rewrite Hdr. apply (ci_drv c Hc).
    - intros j. cbn. rewrite Hb. case_decide; [split; [lia|eauto]|]. rewrite (ci_dom c Hc). lia.
    - intros j x [[-> _]|Hx]%Hnew; [split; [by apply bytes_ok_zeros|done]|by apply (ci_data c Hc j)].
    - intros nr j. rewrite Hchain. intros Hj. destruct (ci_chain c Hc nr j Hj) as (x & ? & ?). eauto.
    - intros nr. rewrite Hchain. apply (ci_chain_nd c Hc).
    - intros j x [[-> _]|Hx]%Hnew Hlx; [by apply Hnl in Hlx|]. rewrite Hchain. cbn. rewrite Hbd.
      by apply (ci_live c Hc j).
    - intros j k x y [[-> _]|Hx]%Hnew [[-> _]|Hy]%Hnew Hlx Hly; try (by apply Hnl in Hlx); try (by apply Hnl in Hly).
      by apply (ci_uniq c Hc j k x y).
    - cbn. rewrite Hl. apply NoDup_app. split_and!; [rewrite reverse_Permutation; apply NoDup_seq| |apply (ci_lru_nd c Hc)].
      intros j Hj%elem_of_reverse%elem_of_seq Hj2. apply (ci_lru c Hc) in Hj2 as (x & Hx%Hold & _). lia.
    - intros j. cbn. rewrite Hl, elem_of_app, elem_of_reverse, elem_of_seq, (ci_lru c Hc). split.
      + intros [?|(x & Hx & ?)]; [|eauto]. exists new_buffer. by rewrite Hb, decide_True by lia.
      + intros (x & [[-> ?]|Hx]%Hnew & ?); [left; lia|eauto].
    - intros j x [[-> _]|Hx]%Hnew; [done|]. cbn. rewrite Hdr. by apply (ci_dirty c Hc j).
    - intros j x dev [[-> _]|Hx]%Hnew; [done|]. cbn. rewrite Hdr. by apply (ci_clean c Hc j). }
  split_and!; try done.
  - intros dev nr. destruct (vdisk_cases c dev nr Hc) as [(i & x & (Hx & ? & ? & ?) & ->)|[Hno ->]].
    + apply (vdisk_hit _ dev nr i); [done|]. split_and!; try done. by apply Hkeep.
    + rewrite (vdisk_miss _ dev nr Hc'); [cbn; by rewrite Hdr|].
      intros j x ([[-> _]|Hx]%Hnew & ? & ? & ?); [done|]. by apply (Hno j x).
  - unfold pins; cbn. apply map_eq. intros j. rewrite !lookup_omap, Hb. case_decide; [|done].
    destruct (blk_buf c !! j) eqn:E; [apply Hold in E; lia|done].
  - cbn. rewrite Hl, length_app, length_reverse, length_seq. lia.
Qed.

End props.

(** A write error during eviction is lost: [blk_get] reuses a dirty buffer
    whose write-back the driver refuses, counts the error, and still succeeds;
    the refused data is then in no buffer and not on the device. *)
Theorem blk_recycle_drops_write_error {D} `{BlockDriver D} (c : cache D) i b dev0 o dev nr e d' :
  blk_buf c !! i = Some b -> b_valid b = true -> b_dirty b = true -> b_dev b = Some dev0 ->
  bdevs c !! dev0 = Some o -> drv_write dev0 (b_nr b) (b_data b) (drv c) = (e, d') -> e <> 0 ->
  exists c', blk_recycle i dev nr c = Ret i c' /\ drv c' = d' /\
    blk_buf c' = <[i := Buffer 1 false false (Some dev) nr (b_data b)]> (blk_buf c) /\
    bdevs c' = <[dev0 := count_error o]> (bdevs c).
Proof.
  intros Hb Hv Hdi Hd Ho Hw He. unfold blk_recycle, set_chain.
  rewrite (buf_bind _ _ _ _ Hb), gets_bind, !modify_bind, Hdi.
  set (c1 := with_lru _ _).
  assert (Hrun : status (blk_write i) c1 =
    Ret e (with_bdevs (<[dev0 := count_error o]> (bdevs c)) (with_drv d' (with_buf (<[i := set_dirty false b]> (blk_buf c)) c1)))).
  { unfold status, blk_write. rewrite (buf_bind i b) by done. rewrite Hv, Hdi. cbn [negb].
    rewrite (upd_buf_bind i b) by done. rewrite Hd. unfold deref. rewrite ret_bind, gets_bind. unfold id.
    change (drv (with_buf (<[i := set_dirty false b]> (blk_buf c1)) c1)) with (drv c). rewrite Hw.
    rewrite modify_bind. rewrite (proj2 (Z.eqb_neq _ _) He). cbn [negb].
    by rewrite (upd_dev_bind dev0 o) by done. }
  rewrite (bind_run _ _ _ _ _ Hrun), (upd_buf_bind i (set_dirty false b)) by (cbn; apply lookup_insert_eq).
  rewrite gets_bind, modify_bind. eexists. split; [done|]. cbn. split_and!; try done.
  unfold set_valid, set_ident, set_refcnt. cbn. by rewrite insert_insert_eq.
Qed.

(** * A cache on a ramdisk, for the witnesses *)

Definition demo_units : gmap nat rd_unit := {[ 0%nat := RdUnit (RdLive (zeros 2048)) 4 ]}.
Definition demo_cache0 : cache (gmap nat rd_unit) :=
  Cache ∅ ∅ [] 0 (replicate BLK_MAXDEV None) {[ 0%nat := Bdev "rd0" 0 0 0 0 ]} demo_units.
Definition demo_cache (n : nat) : cache (gmap nat rd_unit) :=
  match blk_init_n n true demo_cache0 with Ret _ c => c | _ => demo_cache0 end.

Lemma demo_units_wf : rd_wf demo_units.
Proof.
  apply map_Forall_singleton. unfold rd_wf_unit, BLK_SIZE. cbn [u_image u_size].
  split; [by apply bytes_ok_zeros|lia].
Qed.

Lemma demo_cache_inv n :
  cinv (demo_cache n) /\ blk_count (demo_cache n) = n /\ pins (demo_cache n) = ∅ /\
  bdevs (demo_cache n) = {[ 0%nat := Bdev "rd0" 0 0 0 0 ]} /\ drv (demo_cache n) = demo_units.
Proof.
  pose proof (blk_init_n_law n demo_cache0 demo_units_wf) as H. unfold wp in H. unfold demo_cache.
  destruct (blk_init_n n true demo_cache0); [|done..]. naive_solver.
Qed.

(** Two buffers, three blocks written: the first is evicted, then read again. *)
Definition demo_requests : list request :=
  [ReqWrite 0 1 (replicate 512 7); ReqWrite 0 2 (replicate 512 8); ReqWrite 0 3 (replicate 512 9);
   ReqRead 0 1 10 3; ReqSync 0 3; ReqRead 0 3 0 2].

Lemma cache_simulates_disk_witness :
  wp (run_requests demo_requests)
    (fun r c' => r.2 = 0 /\ r.1 = [[]; []; []; [7; 7; 7]; []; [9; 9]] \/ r.2 <> 0)
    (fun _ _ => False) (demo_cache 2).
Proof.
  destruct (demo_cache_inv 2) as (Hc & Hn & Hp & Hb & Hd).
  assert (Hr : Forall (request_ok (demo_cache 2)) demo_requests).
  { unfold demo_requests, request_ok, has_dev. rewrite Hb, Hd. cbn.
    assert (Hy : forall x, is_byte x -> bytes_ok BLK_SIZE (replicate 512 x)).
    { intros x Hx. split; [done|]. by apply Forall_replicate. }
    repeat constructor; try (eexists; apply lookup_singleton_eq); try done;
      try (apply Hy; by unfold is_byte). }
  eapply wp_mono; [apply (cache_simulates_disk demo_requests (demo_cache 2) Hc Hp)| |done].
  - rewrite Hn. lia.
  - exact Hr.
  - intros [ds e] c' [(-> & Hds & _)|(He & _)]; [left|by right]. split; [done|]. rewrite Hds. vm_compute. done.
Defined.

Lemma blk_init_ready_witness :
  wp (blk_init true)
    (fun _ c' => cinv c' /\ blk_count c' = BLK_NBLK /\ pins c' = ∅ /\
       forall dev nr, vdisk c' dev nr = drv_disk demo_units dev nr)
    (fun _ _ => False) demo_cache0.
Proof. apply (blk_init_ready demo_cache0). exact demo_units_wf. Defined.

(** Block 1 is written and not yet on the ramdisk. *)
Definition demo_write (c : cache (gmap nat rd_unit)) : cache (gmap nat rd_unit) :=
  match run_request (ReqWrite 0 1 (replicate 512 7)) c with Ret _ c' => c' | _ => c end.
Definition demo_dirty : cache (gmap nat rd_unit) := demo_write (demo_cache 2).
Lemma demo_write_inv c :
  cinv c -> pins c = ∅ -> (0 < blk_count c)%nat -> request_ok c (ReqWrite 0 1 (replicate 512 7)) -> cinv (demo_write c) /\ pins (demo_write c) = ∅.
Proof.
  intros Hc Hp Hn Hr. pose proof (run_request_ok c _ Hc Hp Hn Hr) as Hw. unfold wp in Hw. unfold demo_write.
  destruct (run_request _ c) as [d c'|e c'|h]; [|done|done]. destruct Hw as (_ & _ & ? & ? & _). done.
Qed.
Lemma demo_dirty_inv : cinv demo_dirty /\ pins demo_dirty = ∅.
Proof.
  destruct (demo_cache_inv 2) as (Hc & Hn & Hp & Hb & Hd). apply demo_write_inv; [exact Hc|exact Hp|rewrite Hn; lia|].
  unfold request_ok, has_dev. rewrite Hb, Hd. split_and!; [by eexists; apply lookup_singleton_eq|done|split; [done|]].
  apply Forall_replicate. by unfold is_byte.
Qed.
Lemma blk_syncall_durable_witness :
  map_Exists (fun _ b => b_dirty b = true) (blk_buf demo_dirty) /\ drv_disk (drv demo_dirty) 0 1 = zeros 512 /\
  wp (blk_syncall 3)
    (fun _ c' => (forall i b, blk_buf c' !! i = Some b -> b_dirty b = false) /\ drv_disk (drv c') 0 1 = replicate 512 7)
    (fun _ _ => False) demo_dirty.
Proof.
  split; [exists 0%nat; eexists; split; vm_compute; reflexivity|]. split; [vm_compute; reflexivity|].
  assert (vdisk demo_dirty 0 1 = replicate 512 7) as Hv by (vm_compute; reflexivity).
  destruct demo_dirty_inv as [Hc Hp]. eapply wp_mono; [apply (blk_syncall_durable 3 demo_dirty Hc Hp); by vm_compute| |done].
  cbn. intros _ c' (_ & _ & Hd & _ & Hk). split; [exact Hd|]. by rewrite Hk.
Defined.

Lemma blk_add_grows_witness :
  wp (blk_add 5 0 0) (fun _ c' => cinv c' /\ blk_count c' = 5%nat) (fun _ _ => False) (demo_cache 2).
Proof.
  destruct (demo_cache_inv 2) as (Hc & Hn & Hp & Hb & Hd).
  eapply wp_mono; [apply (blk_add_grows 5 (demo_cache 2) Hc); rewrite Hn; lia| |done].
  cbn. intros _ c' (H1 & _ & H2 & _). by split.
Defined.

(** One dirty buffer for block 9 of a device of 4 blocks: the ramdisk refuses it. *)
Definition demo_bad : cache (gmap nat rd_unit) :=
  Cache {[ 0%nat := Buffer 0 true true (Some 0%nat) 9 (replicate 512 5) ]} {[ 9 := [0%nat] ]} [0%nat] 1
    [] {[ 0%nat := Bdev "rd0" 1 0 0 0 ]} demo_units.

Lemma blk_recycle_drops_write_error_witness :
  exists c', blk_recycle 0 0 1 demo_bad = Ret 0%nat c' /\ drv c' = demo_units /\
    bdevs c' = {[ 0%nat := Bdev "rd0" 1 0 0 1 ]}.
Proof.
  destruct (blk_recycle_drops_write_error demo_bad 0 (Buffer 0 true true (Some 0%nat) 9 (replicate 512 5))
    0 (Bdev "rd0" 1 0 0 0) 0 1 EINVAL demo_units) as (c' & H1 & H2 & _ & H3);
    try reflexivity; [by vm_compute..|].
  exists c'. split; [done|]. split; [done|]. rewrite H3. vm_compute. done.
Defined.
