(* ===== verification/Kern.v ===== *)
(** The kernel state the file systems share: the tables of kern/fs/main.c
    ([fs_fs], [fs_fso], [fs_fso_high]), the structures of include/kern/fs.h and
    the fields of the current task they read, over an abstract block layer.

    A pointer to an element of a table is its index.  Flags that the C code uses
    as truth values are booleans. *)

From S2P Require Import Prelude BlockDev BlockIface.

Definition FS_MAXFS : nat := 16.
Definition FS_MAXFSO : Z := 256.
Definition R_OK : Z := 4.
Definition W_OK : Z := 2.
Definition X_OK : Z := 1.

Definition S_IFMT : Z := 0x7000.
Definition S_IFREG : Z := 0.
Definition S_IFIFO : Z := 0x1000.
Definition S_IFCHR : Z := 0x2000.
Definition S_IFDIR : Z := 0x3000.
Definition S_IFBLK : Z := 0x4000.
Definition S_IRIGHTS : Z := 0xfff.
Definition S_ISREG (mode : Z) : bool := Z.land mode S_IFMT =? S_IFREG.
Definition S_ISDIR (mode : Z) : bool := Z.land mode S_IFMT =? S_IFDIR.
Definition S_ISFIFO (mode : Z) : bool := Z.land mode S_IFMT =? S_IFIFO.

(** [fs->nat] *)
Record fs_nat := FsNat {
  bam_block : Z; bam_size : Z; data_block : Z; data_size : Z; root_block : Z; free_block : Z;
  bam_buf : list Z; bam_curr : Z; bam_dirty : bool;
  n_ndirblks : Z; n_nindirlev : Z
}.

(** [struct fs]; [type] and [dev] are pointers, absent when NULL. *)
Record fs := Fs {
  prefix : list Z;
  removable : bool; read_only : bool; no_atime : bool; insecure : bool; active : bool; in_use : bool;
  unmount_time : Z;
  type : option nat; dev : option nat;
  nat_ : fs_nat
}.

(** [fso->nat] *)
Record fso_nat := FsoNat {
  bmap_valid : bool; bmap_log : Z; bmap_phys : Z; bmap : list Z; ndirblks : Z; nindirlev : Z
}.

(** [fso->pipe]; a task queue is the list of its tasks. *)
Record fso_pipe := FsoPipe {
  pq_readers : list nat; pq_writers : list nat; write_p : Z; read_p : Z; pbuf : list Z
}.
Definition no_pipe : fso_pipe := FsoPipe [] [] 0 0 [].

(** [struct fso]; the members of the union are separate fields. *)
Record fso := Fso {
  no_seek : bool; refcnt : Z; dirty : bool;
  f_fs : nat; index : Z; nlink : Z; uid : Z; gid : Z;
  atime : Z; ctime : Z; mtime : Z;
  blocks : Z; mode : Z; size : Z; rdev : Z;
  reader_count : Z; writer_count : Z;
  polling : option nat; pollcnt : Z; state : Z;
  fnat : fso_nat; fpipe : fso_pipe
}.

(** What the file systems read of [curr], with its index in [task]. *)
Record task := Task {
  ruid : Z; rgid : Z; euid : Z; egid : Z; cwd : list Z; tty : list Z; slot : nat;
  signal_pending : bool; unseen_events : bool; stopped : bool
}.

Record kern (S : Type) := Kern {
  k_blk : S;
  k_fs : gmap nat fs;
  k_fso : gmap nat fso;
  fs_fso_high : Z;
  k_curr : task;
  k_time : Z;            (** [clock_time ()] *)
  k_uptime : Z;          (** [clock_uptime ()] *)
  k_atmem : Z;           (** the result of [pg_atmem] *)
  k_pollq : list nat;    (** [fs_pollq] *)
  k_resumed : list nat;  (** tasks passed to [task_resume] *)
  k_fstype : list (option nat);                (** [fs_fstype] *)
  k_tasks : list (option (list Z * bool));     (** [task]: [cwd] (of the current task see [k_curr]) and whether [ocwd] is set *)
  k_events : list nat;                         (** tasks sent an [E_FNOTIF] event *)
  k_deferred : list nat;                       (** file systems passed to [task_defer (fs_dumount)] *)
  k_signals : list Z;                          (** signals passed to [signal_raise] *)
  k_kmalloc : Z                                (** the result of [kmalloc] *)
}.
Arguments Kern {S}. Arguments k_blk {S}. Arguments k_fs {S}. Arguments k_fso {S}.
Arguments fs_fso_high {S}. Arguments k_curr {S}. Arguments k_time {S}. Arguments k_uptime {S}.
Arguments k_atmem {S}. Arguments k_pollq {S}. Arguments k_resumed {S}. Arguments k_fstype {S}.
Arguments k_tasks {S}. Arguments k_events {S}. Arguments k_deferred {S}. Arguments k_signals {S}. Arguments k_kmalloc {S}.

(** ** Field updates *)

Definition set_bam (b : list Z) (c : Z) (d : bool) (n : fs_nat) : fs_nat :=
  FsNat (bam_block n) (bam_size n) (data_block n) (data_size n) (root_block n) (free_block n)
    b c d (n_ndirblks n) (n_nindirlev n).
Definition set_free_block (v : Z) (n : fs_nat) : fs_nat :=
  FsNat (bam_block n) (bam_size n) (data_block n) (data_size n) (root_block n) v
    (bam_buf n) (bam_curr n) (bam_dirty n) (n_ndirblks n) (n_nindirlev n).
Definition set_nat (n : fs_nat) (f : fs) : fs :=
  Fs (prefix f) (removable f) (read_only f) (no_atime f) (insecure f) (active f) (in_use f)
    (unmount_time f) (type f) (dev f) n.
Definition set_active (v : bool) (f : fs) : fs :=
  Fs (prefix f) (removable f) (read_only f) (no_atime f) (insecure f) v (in_use f)
    (unmount_time f) (type f) (dev f) (nat_ f).
Definition set_in_use (v : bool) (f : fs) : fs :=
  Fs (prefix f) (removable f) (read_only f) (no_atime f) (insecure f) (active f) v
    (unmount_time f) (type f) (dev f) (nat_ f).
Definition set_unmount_time (v : Z) (f : fs) : fs :=
  Fs (prefix f) (removable f) (read_only f) (no_atime f) (insecure f) (active f) (in_use f)
    v (type f) (dev f) (nat_ f).

Definition set_bmap_cache (v : bool) (l p : Z) (n : fso_nat) : fso_nat :=
  FsoNat v l p (bmap n) (ndirblks n) (nindirlev n).
Definition set_bmap (m : list Z) (n : fso_nat) : fso_nat :=
  FsoNat (bmap_valid n) (bmap_log n) (bmap_phys n) m (ndirblks n) (nindirlev n).

Definition set_fnat (n : fso_nat) (f : fso) : fso :=
  Fso (no_seek f) (refcnt f) (dirty f) (f_fs f) (index f) (nlink f) (uid f) (gid f)
    (atime f) (ctime f) (mtime f) (blocks f) (mode f) (size f) (rdev f)
    (reader_count f) (writer_count f) (polling f) (pollcnt f) (state f) n (fpipe f).
Definition set_refcnt (v : Z) (f : fso) : fso :=
  Fso (no_seek f) v (dirty f) (f_fs f) (index f) (nlink f) (uid f) (gid f)
    (atime f) (ctime f) (mtime f) (blocks f) (mode f) (size f) (rdev f)
    (reader_count f) (writer_count f) (polling f) (pollcnt f) (state f) (fnat f) (fpipe f).
Definition set_dirty (v : bool) (f : fso) : fso :=
  Fso (no_seek f) (refcnt f) v (f_fs f) (index f) (nlink f) (uid f) (gid f)
    (atime f) (ctime f) (mtime f) (blocks f) (mode f) (size f) (rdev f)
    (reader_count f) (writer_count f) (polling f) (pollcnt f) (state f) (fnat f) (fpipe f).
Definition set_nlink (v : Z) (f : fso) : fso :=
  Fso (no_seek f) (refcnt f) (dirty f) (f_fs f) (index f) v (uid f) (gid f)
    (atime f) (ctime f) (mtime f) (blocks f) (mode f) (size f) (rdev f)
    (reader_count f) (writer_count f) (polling f) (pollcnt f) (state f) (fnat f) (fpipe f).
Definition set_owner (u g : Z) (f : fso) : fso :=
  Fso (no_seek f) (refcnt f) (dirty f) (f_fs f) (index f) (nlink f) u g
    (atime f) (ctime f) (mtime f) (blocks f) (mode f) (size f) (rdev f)
    (reader_count f) (writer_count f) (polling f) (pollcnt f) (state f) (fnat f) (fpipe f).
Definition set_times (a c m : Z) (f : fso) : fso :=
  Fso (no_seek f) (refcnt f) (dirty f) (f_fs f) (index f) (nlink f) (uid f) (gid f)
    a c m (blocks f) (mode f) (size f) (rdev f)
    (reader_count f) (writer_count f) (polling f) (pollcnt f) (state f) (fnat f) (fpipe f).
Definition set_blocks (v : Z) (f : fso) : fso :=
  Fso (no_seek f) (refcnt f) (dirty f) (f_fs f) (index f) (nlink f) (uid f) (gid f)
    (atime f) (ctime f) (mtime f) v (mode f) (size f) (rdev f)
    (reader_count f) (writer_count f) (polling f) (pollcnt f) (state f) (fnat f) (fpipe f).
Definition set_mode (v : Z) (f : fso) : fso :=
  Fso (no_seek f) (refcnt f) (dirty f) (f_fs f) (index f) (nlink f) (uid f) (gid f)
    (atime f) (ctime f) (mtime f) (blocks f) v (size f) (rdev f)
    (reader_count f) (writer_count f) (polling f) (pollcnt f) (state f) (fnat f) (fpipe f).
Definition set_size (v : Z) (f : fso) : fso :=
  Fso (no_seek f) (refcnt f) (dirty f) (f_fs f) (index f) (nlink f) (uid f) (gid f)
    (atime f) (ctime f) (mtime f) (blocks f) (mode f) v (rdev f)
    (reader_count f) (writer_count f) (polling f) (pollcnt f) (state f) (fnat f) (fpipe f).
Definition set_rdev (v : Z) (f : fso) : fso :=
  Fso (no_seek f) (refcnt f) (dirty f) (f_fs f) (index f) (nlink f) (uid f) (gid f)
    (atime f) (ctime f) (mtime f) (blocks f) (mode f) (size f) v
    (reader_count f) (writer_count f) (polling f) (pollcnt f) (state f) (fnat f) (fpipe f).
Definition set_state (v : Z) (f : fso) : fso :=
  Fso (no_seek f) (refcnt f) (dirty f) (f_fs f) (index f) (nlink f) (uid f) (gid f)
    (atime f) (ctime f) (mtime f) (blocks f) (mode f) (size f) (rdev f)
    (reader_count f) (writer_count f) (polling f) (pollcnt f) v (fnat f) (fpipe f).
Definition set_pipe (p : fso_pipe) (f : fso) : fso :=
  Fso (no_seek f) (refcnt f) (dirty f) (f_fs f) (index f) (nlink f) (uid f) (gid f)
    (atime f) (ctime f) (mtime f) (blocks f) (mode f) (size f) (rdev f)
    (reader_count f) (writer_count f) (polling f) (pollcnt f) (state f) (fnat f) p.
Definition set_no_seek (v : bool) (f : fso) : fso :=
  Fso v (refcnt f) (dirty f) (f_fs f) (index f) (nlink f) (uid f) (gid f)
    (atime f) (ctime f) (mtime f) (blocks f) (mode f) (size f) (rdev f)
    (reader_count f) (writer_count f) (polling f) (pollcnt f) (state f) (fnat f) (fpipe f).
Definition set_counts (r w : Z) (f : fso) : fso :=
  Fso (no_seek f) (refcnt f) (dirty f) (f_fs f) (index f) (nlink f) (uid f) (gid f)
    (atime f) (ctime f) (mtime f) (blocks f) (mode f) (size f) (rdev f)
    r w (polling f) (pollcnt f) (state f) (fnat f) (fpipe f).
Definition set_mtime (v : Z) (f : fso) : fso := set_times (atime f) (ctime f) v f.
Definition set_atime (v : Z) (f : fso) : fso := set_times v (ctime f) (mtime f) f.
Definition set_ctime (v : Z) (f : fso) : fso := set_times (atime f) v (mtime f) f.

(** ** Table accesses *)

Section access.
Context {S : Type}.
Implicit Types (k : kern S).

Definition with_blk (b : S) k : kern S :=
  Kern b (k_fs k) (k_fso k) (fs_fso_high k) (k_curr k) (k_time k) (k_uptime k) (k_atmem k)
    (k_pollq k) (k_resumed k) (k_fstype k) (k_tasks k) (k_events k) (k_deferred k) (k_signals k) (k_kmalloc k).
Definition with_fs (m : gmap nat fs) k : kern S :=
  Kern (k_blk k) m (k_fso k) (fs_fso_high k) (k_curr k) (k_time k) (k_uptime k) (k_atmem k)
    (k_pollq k) (k_resumed k) (k_fstype k) (k_tasks k) (k_events k) (k_deferred k) (k_signals k) (k_kmalloc k).
Definition with_fso (m : gmap nat fso) k : kern S :=
  Kern (k_blk k) (k_fs k) m (fs_fso_high k) (k_curr k) (k_time k) (k_uptime k) (k_atmem k)
    (k_pollq k) (k_resumed k) (k_fstype k) (k_tasks k) (k_events k) (k_deferred k) (k_signals k) (k_kmalloc k).
Definition with_high (h : Z) k : kern S :=
  Kern (k_blk k) (k_fs k) (k_fso k) h (k_curr k) (k_time k) (k_uptime k) (k_atmem k)
    (k_pollq k) (k_resumed k) (k_fstype k) (k_tasks k) (k_events k) (k_deferred k) (k_signals k) (k_kmalloc k).
Definition with_curr (t : task) k : kern S :=
  Kern (k_blk k) (k_fs k) (k_fso k) (fs_fso_high k) t (k_time k) (k_uptime k) (k_atmem k)
    (k_pollq k) (k_resumed k) (k_fstype k) (k_tasks k) (k_events k) (k_deferred k) (k_signals k) (k_kmalloc k).
Definition with_poll (q r : list nat) k : kern S :=
  Kern (k_blk k) (k_fs k) (k_fso k) (fs_fso_high k) (k_curr k) (k_time k) (k_uptime k) (k_atmem k)
    q r (k_fstype k) (k_tasks k) (k_events k) (k_deferred k) (k_signals k) (k_kmalloc k).
Definition with_fstype (l : list (option nat)) k : kern S :=
  Kern (k_blk k) (k_fs k) (k_fso k) (fs_fso_high k) (k_curr k) (k_time k) (k_uptime k) (k_atmem k)
    (k_pollq k) (k_resumed k) l (k_tasks k) (k_events k) (k_deferred k) (k_signals k) (k_kmalloc k).
Definition with_events (e : list nat) k : kern S :=
  Kern (k_blk k) (k_fs k) (k_fso k) (fs_fso_high k) (k_curr k) (k_time k) (k_uptime k) (k_atmem k)
    (k_pollq k) (k_resumed k) (k_fstype k) (k_tasks k) e (k_deferred k) (k_signals k) (k_kmalloc k).
Definition with_tasks (l : list (option (list Z * bool))) k : kern S :=
  Kern (k_blk k) (k_fs k) (k_fso k) (fs_fso_high k) (k_curr k) (k_time k) (k_uptime k) (k_atmem k)
    (k_pollq k) (k_resumed k) (k_fstype k) l (k_events k) (k_deferred k) (k_signals k) (k_kmalloc k).
Definition with_signals (l : list Z) k : kern S :=
  Kern (k_blk k) (k_fs k) (k_fso k) (fs_fso_high k) (k_curr k) (k_time k) (k_uptime k) (k_atmem k)
    (k_pollq k) (k_resumed k) (k_fstype k) (k_tasks k) (k_events k) (k_deferred k) l (k_kmalloc k).
Definition with_deferred (d : list nat) k : kern S :=
  Kern (k_blk k) (k_fs k) (k_fso k) (fs_fso_high k) (k_curr k) (k_time k) (k_uptime k) (k_atmem k)
    (k_pollq k) (k_resumed k) (k_fstype k) (k_tasks k) (k_events k) d (k_signals k) (k_kmalloc k).

(** A call into the block layer. *)
Definition blk {A} (m : M S A) : M (kern S) A := zoom k_blk with_blk m.

Definition get_fs (i : nat) : M (kern S) fs := o <~ gets (fun k => k_fs k !! i);; deref o.
Definition upd_fs (i : nat) (f : fs -> fs) : M (kern S) unit :=
  x <~ get_fs i;; modify (fun k => with_fs (<[i := f x]> (k_fs k)) k).
Definition get_fso (i : nat) : M (kern S) fso := o <~ gets (fun k => k_fso k !! i);; deref o.
Definition upd_fso (i : nat) (f : fso -> fso) : M (kern S) unit :=
  x <~ get_fso i;; modify (fun k => with_fso (<[i := f x]> (k_fso k)) k).

(** [fs->dev], dereferenced. *)
Definition get_dev (i : nat) : M (kern S) nat := f <~ get_fs i;; deref (dev f).
Definition get_nat (i : nat) : M (kern S) fs_nat := f <~ get_fs i;; ret (nat_ f).
Definition upd_nat (i : nat) (f : fs_nat -> fs_nat) : M (kern S) unit :=
  upd_fs i (fun x => set_nat (f (nat_ x)) x).
Definition upd_fnat (i : nat) (f : fso_nat -> fso_nat) : M (kern S) unit :=
  upd_fso i (fun x => set_fnat (f (fnat x)) x).
End access.

(** ** Lemmas on the accesses *)

Section access_ok.
Context {S : Type}.
Implicit Types (k : kern S).

Lemma wp_get_fs i f (Q : fs -> kern S -> Prop) E k :
  k_fs k !! i = Some f -> Q f k -> wp (get_fs i) Q E k.
Proof. intros H. unfold get_fs, wp, bind. cbn. by rewrite H. Qed.

Lemma wp_get_fso i f (Q : fso -> kern S -> Prop) E k :
  k_fso k !! i = Some f -> Q f k -> wp (get_fso i) Q E k.
Proof. intros H. unfold get_fso, wp, bind. cbn. by rewrite H. Qed.

Lemma wp_get_dev i f d (Q : nat -> kern S -> Prop) E k :
  k_fs k !! i = Some f -> dev f = Some d -> Q d k -> wp (get_dev i) Q E k.
Proof. intros H Hd. unfold get_dev, get_fs, wp, bind. cbn. rewrite H. cbn. by rewrite Hd. Qed.

Lemma wp_get_nat i f (Q : fs_nat -> kern S -> Prop) E k :
  k_fs k !! i = Some f -> Q (nat_ f) k -> wp (get_nat i) Q E k.
Proof. intros H. unfold get_nat, get_fs, wp, bind. cbn. by rewrite H. Qed.

Lemma wp_upd_nat i f g (Q : unit -> kern S -> Prop) E k :
  k_fs k !! i = Some f -> Q tt (with_fs (<[i := set_nat (g (nat_ f)) f]> (k_fs k)) k) ->
  wp (upd_nat i g) Q E k.
Proof. intros H. unfold upd_nat, upd_fs, get_fs, wp, bind. cbn. by rewrite H. Qed.

Lemma wp_upd_fso i f g (Q : unit -> kern S -> Prop) E k :
  k_fso k !! i = Some f -> Q tt (with_fso (<[i := g f]> (k_fso k)) k) -> wp (upd_fso i g) Q E k.
Proof. intros H. unfold upd_fso, get_fso, wp, bind. cbn. by rewrite H. Qed.

Lemma wp_upd_fnat i f g (Q : unit -> kern S -> Prop) E k :
  k_fso k !! i = Some f -> Q tt (with_fso (<[i := set_fnat (g (fnat f)) f]> (k_fso k)) k) ->
  wp (upd_fnat i g) Q E k.
Proof. intros. by apply wp_upd_fso with (f := f). Qed.

Lemma wp_blk {A} (m : M S A) (Q : A -> kern S -> Prop) E k :
  wp m (fun a t => Q a (with_blk t k)) (fun e t => E e (with_blk t k)) (k_blk k) ->
  wp (blk m) Q E k.
Proof. apply wp_zoom. Qed.
End access_ok.
