(* ===== verification/Frame.v ===== *)
(** Partial correctness and frame conditions of kernel computations.

    [wlp m Q E s]: when [m], run from [s], returns, it does so in [Q] or with an
    error in [E].  [keeps R m]: whatever [m] returns, the states before and
    after are related by [R]; the lemmas follow the structure of [m], and the
    hint database [keeps] collects them. *)

From S2P Require Import Prelude BlockDev BlockIface Kern.

Definition wlp {S A} (m : M S A) (Q : A -> S -> Prop) (E : Z -> S -> Prop) (s : S) : Prop :=
  match m s with Ret a s' => Q a s' | Err e s' => E e s' | Halt _ => True end.
Definition keeps {S A} (R : S -> S -> Prop) (m : M S A) : Prop :=
  forall s, wlp m (fun _ => R s) (fun _ => R s) s.

Section wlp.
Context {S A B : Type}.
Implicit Types (m : M S A) (Q : A -> S -> Prop) (E : Z -> S -> Prop).

Lemma wlp_bind m (k : A -> M S B) (Q : B -> S -> Prop) E s :
  wlp m (fun a s' => wlp (k a) Q E s') E s -> wlp (bind m k) Q E s.
Proof. unfold wlp, bind. by destruct (m s). Qed.
Lemma wlp_mono m Q Q' E E' s :
  wlp m Q E s -> (forall a s', Q a s' -> Q' a s') -> (forall e s', E e s' -> E' e s') -> wlp m Q' E' s.
Proof. unfold wlp. destruct (m s); naive_solver. Qed.
Lemma wlp_ret (a : A) Q E s : Q a s -> wlp (ret a) Q E s.
Proof. done. Qed.
Lemma wlp_fail e Q E s : E e s -> wlp (A := A) (fail e) Q E s.
Proof. done. Qed.
Lemma wlp_gets (h : S -> A) Q E s : Q (h s) s -> wlp (gets h) Q E s.
Proof. done. Qed.
Lemma wlp_modify (h : S -> S) (Q : unit -> S -> Prop) E s : Q tt (h s) -> wlp (modify h) Q E s.
Proof. done. Qed.
Lemma wlp_deref (o : option A) Q E s : (forall a, o = Some a -> Q a s) -> wlp (deref o) Q E s.
Proof. unfold wlp, deref. destruct o; cbn; auto. Qed.
Lemma wlp_attempt m (Q : Z + A -> S -> Prop) E s :
  wlp m (fun a => Q (inr a)) (fun e => Q (inl e)) s -> wlp (attempt m) Q E s.
Proof. unfold wlp, attempt. by destruct (m s). Qed.
Lemma wlp_status m (Q : Z -> S -> Prop) E s : wlp m (fun _ => Q 0) Q s -> wlp (status m) Q E s.
Proof. unfold wlp, status. by destruct (m s). Qed.
Lemma wlp_keeps R m Q E s :
  keeps R m -> (forall a s', R s s' -> Q a s') -> (forall e s', R s s' -> E e s') -> wlp m Q E s.
Proof. intros Hk HQ HE. eapply wlp_mono; [apply Hk|cbn; auto|cbn; auto]. Qed.
Lemma wlp_Ret m Q E s a s' : wlp m Q E s -> m s = Ret a s' -> Q a s'.
Proof. unfold wlp. intros H E0. by rewrite E0 in H. Qed.
Lemma wlp_Err m Q E s e s' : wlp m Q E s -> m s = Err e s' -> E e s'.
Proof. unfold wlp. intros H E0. by rewrite E0 in H. Qed.
End wlp.

Section keeps.
Context {S : Type} (R : S -> S -> Prop) `{!PreOrder R}.

Lemma keeps_ret {A} (a : A) : keeps R (ret a).
Proof. intros s. cbv. reflexivity. Qed.
Lemma keeps_fail {A} e : keeps R (fail (A := A) e).
Proof. intros s. cbv. reflexivity. Qed.
Lemma keeps_gets {A} (h : S -> A) : keeps R (gets h).
Proof. intros s. cbv. reflexivity. Qed.
Lemma keeps_halted {A} h : keeps R (halted (A := A) h).
Proof. done. Qed.
Lemma keeps_deref {A} (o : option A) : keeps R (deref o).
Proof. destruct o; [apply keeps_ret|done]. Qed.
Lemma keeps_bind {A B} (m : M S A) (k : A -> M S B) :
  keeps R m -> (forall a, keeps R (k a)) -> keeps R (bind m k).
Proof.
  intros Hm Hk s. apply wlp_bind. eapply wlp_mono; [apply Hm| |done].
  intros a s' H'. eapply wlp_mono; [apply Hk| |]; intros; by transitivity s'.
Qed.
Lemma keeps_attempt {A} (m : M S A) : keeps R m -> keeps R (attempt m).
Proof. intros Hm s. apply wlp_attempt, Hm. Qed.
Lemma keeps_status {A} (m : M S A) : keeps R m -> keeps R (status m).
Proof. intros Hm s. apply wlp_status, Hm. Qed.
Lemma keeps_modify (h : S -> S) : (forall s, R s (h s)) -> keeps R (modify h).
Proof. intros Hh s. apply Hh. Qed.
End keeps.

Lemma wp_wlp {S A} (m : M S A) Q E s : wp m Q E s -> wlp m Q E s.
Proof. unfold wp, wlp. by destruct (m s). Qed.
Lemma wp_wlp_and {S A} (m : M S A) Q E Q' E' s :
  wp m Q E s -> wlp m Q' E' s -> wp m (fun a s' => Q a s' /\ Q' a s') (fun e s' => E e s' /\ E' e s') s.
Proof. unfold wp, wlp. by destruct (m s). Qed.
Lemma wp_keeps {S A} (m : M S A) Q E R s :
  wp m Q E s -> keeps R m -> wp m (fun a s' => Q a s' /\ R s s') (fun e s' => E e s' /\ R s s') s.
Proof. unfold wp. intros Hm Hk. specialize (Hk s). unfold wlp in Hk. by destruct (m s). Qed.

Create HintDb keeps.
#[export] Hint Resolve keeps_ret keeps_fail keeps_gets keeps_halted keeps_deref keeps_attempt keeps_status : keeps.

#[export] Hint Extern 1 (PreOrder _) => typeclasses eauto : keeps.

(** Follow the structure of a computation, splitting its conditionals. *)
Ltac keeps_step :=
  lazymatch goal with
  | |- keeps _ (bind _ _) => apply keeps_bind; [typeclasses eauto| |intros ?]
  | |- keeps _ (attempt _) => apply keeps_attempt
  | |- keeps _ (status _) => apply keeps_status
  | |- keeps _ (match _ with _ => _ end) => case_match
  end.
Ltac keeps := repeat first [solve [eauto 2 with keeps] | keeps_step].

(** ** The kernel tables *)

Section kern.
Context {S : Type}.
Implicit Types (k : kern S).

Lemma wlp_get_fs i (Q : fs -> kern S -> Prop) E k :
  (forall f, k_fs k !! i = Some f -> Q f k) -> wlp (get_fs i) Q E k.
Proof. intros H. apply wlp_bind, wlp_gets, wlp_deref, H. Qed.
Lemma wlp_get_fso i (Q : fso -> kern S -> Prop) E k :
  (forall f, k_fso k !! i = Some f -> Q f k) -> wlp (get_fso i) Q E k.
Proof. intros H. apply wlp_bind, wlp_gets, wlp_deref, H. Qed.
Lemma wlp_upd_fs i h (Q : unit -> kern S -> Prop) E k :
  (forall f, k_fs k !! i = Some f -> Q tt (with_fs (<[i := h f]> (k_fs k)) k)) -> wlp (upd_fs i h) Q E k.
Proof. intros H. apply wlp_bind, wlp_get_fs. intros f Hf. apply wlp_modify. auto. Qed.
Lemma wlp_upd_fso i h (Q : unit -> kern S -> Prop) E k :
  (forall f, k_fso k !! i = Some f -> Q tt (with_fso (<[i := h f]> (k_fso k)) k)) -> wlp (upd_fso i h) Q E k.
Proof. intros H. apply wlp_bind, wlp_get_fso. intros f Hf. apply wlp_modify. auto. Qed.
Lemma wlp_blk {A} (m : M S A) (Q : A -> kern S -> Prop) E k :
  wlp m (fun a t => Q a (with_blk t k)) (fun e t => E e (with_blk t k)) (k_blk k) -> wlp (blk m) Q E k.
Proof. unfold wlp, blk, zoom. by destruct (m (k_blk k)). Qed.

Lemma keeps_get_fs R `{!PreOrder R} i : keeps (S := kern S) R (get_fs i).
Proof. intros k. apply wlp_get_fs. by intros. Qed.
Lemma keeps_get_fso R `{!PreOrder R} i : keeps (S := kern S) R (get_fso i).
Proof. intros k. apply wlp_get_fso. by intros. Qed.
Lemma keeps_upd_fs R i h :
  (forall k f, k_fs k !! i = Some f -> R k (with_fs (<[i := h f]> (k_fs k)) k)) -> keeps (S := kern S) R (upd_fs i h).
Proof. intros H k. apply wlp_upd_fs. auto. Qed.
Lemma keeps_upd_fso R i h :
  (forall k f, k_fso k !! i = Some f -> R k (with_fso (<[i := h f]> (k_fso k)) k)) -> keeps (S := kern S) R (upd_fso i h).
Proof. intros H k. apply wlp_upd_fso. auto. Qed.
Lemma keeps_blk R {A} (m : M S A) : (forall k b, R k (with_blk b k)) -> keeps R (blk m).
Proof. intros HR k. apply wlp_blk. unfold wlp. by destruct (m (k_blk k)). Qed.
End kern.

#[export] Hint Resolve keeps_get_fs keeps_get_fso : keeps.

(** ** Errors *)

(** The errors that [m] can return satisfy [P]. *)
Definition fails {S A} (P : Z -> Prop) (m : M S A) : Prop :=
  forall s, wlp m (fun _ _ => True) (fun e _ => P e) s.

Lemma wp_fails {S A} (m : M S A) Q E P s : wp m Q E s -> fails P m -> wp m Q (fun e s' => E e s' /\ P e) s.
Proof. unfold wp. intros Hm Hf. specialize (Hf s). unfold wlp in Hf. by destruct (m s). Qed.

Section fails.
Context {S : Type} (P : Z -> Prop).

Lemma fails_ret {A} (a : A) : fails (S := S) P (ret a).
Proof. by intros ?. Qed.
Lemma fails_fail {A} e : P e -> fails (S := S) P (fail (A := A) e).
Proof. by intros ? ?. Qed.
Lemma fails_gets {A} (h : S -> A) : fails P (gets h).
Proof. by intros ?. Qed.
Lemma fails_modify (h : S -> S) : fails P (modify h).
Proof. by intros ?. Qed.
Lemma fails_halted {A} h : fails (S := S) P (halted (A := A) h).
Proof. by intros ?. Qed.
Lemma fails_deref {A} (o : option A) : fails (S := S) P (deref o).
Proof. intros s. by destruct o. Qed.
Lemma fails_bind {A B} (m : M S A) (h : A -> M S B) : fails P m -> (forall a, fails P (h a)) -> fails P (bind m h).
Proof. intros Hm Hh s. apply wlp_bind. eapply wlp_mono; [apply Hm| |done]. intros a s' _. apply Hh. Qed.
Lemma fails_attempt {A} (m : M S A) : fails P (attempt m).
Proof. intros s. unfold wlp, attempt. by destruct (m s). Qed.
(** An error that was caught and is returned later. *)
Lemma fails_caught {A B} (m : M S A) (h : Z + A -> M S B) :
  fails P m -> (forall e, P e -> fails P (h (inl e))) -> (forall a, fails P (h (inr a))) -> fails P (bind (attempt m) h).
Proof.
  intros Hm He Ha s. apply wlp_bind. specialize (Hm s). unfold wlp, attempt in *.
  destruct (m s) as [a s'|e s'|]; [apply Ha|by apply He|done].
Qed.
Lemma fails_status {A} (m : M S A) : fails P (status m).
Proof. intros s. unfold wlp, status. by destruct (m s). Qed.
End fails.

Section kern_fails.
Context {S : Type} (P : Z -> Prop).

Lemma fails_blk {A} (m : M S A) : fails P m -> fails P (blk m).
Proof. intros Hm k. apply wlp_blk, Hm. Qed.
Lemma fails_get_fs i : fails (S := kern S) P (get_fs i).
Proof. intros k. by apply wlp_get_fs. Qed.
Lemma fails_get_fso i : fails (S := kern S) P (get_fso i).
Proof. intros k. by apply wlp_get_fso. Qed.
Lemma fails_get_dev i : fails (S := kern S) P (get_dev i).
Proof. apply fails_bind; [apply fails_get_fs|intros f; apply fails_deref]. Qed.
Lemma fails_get_nat i : fails (S := kern S) P (get_nat i).
Proof. apply fails_bind; [apply fails_get_fs|intros f; apply fails_ret]. Qed.
Lemma fails_upd_fs i h : fails (S := kern S) P (upd_fs i h).
Proof. intros k. by apply wlp_upd_fs. Qed.
Lemma fails_upd_fso i h : fails (S := kern S) P (upd_fso i h).
Proof. intros k. by apply wlp_upd_fso. Qed.
End kern_fails.

Create HintDb fails.
#[export] Hint Resolve fails_ret fails_gets fails_modify fails_halted fails_deref fails_attempt fails_status fails_blk
  fails_get_fs fails_get_fso fails_get_dev fails_get_nat fails_upd_fs fails_upd_fso : fails.

Ltac fails_step :=
  lazymatch goal with
  | |- fails _ (bind (attempt _) _) => apply fails_caught; [|intros ? ?|intros ?]
  | |- fails _ (bind _ _) => apply fails_bind; [|intros ?]
  | |- fails _ (blk _) => apply fails_blk
  | |- fails _ (match _ with _ => _ end) => case_match
  end.
Ltac fails := repeat first [solve [eauto 3 with fails] | fails_step].
