(* ===== verification/DProc.v ===== *)
(** Deferred procedures (kern/task_dproc.c): calls put off until the way back to user
    mode.

    What a procedure does is its effect on the rest of the system, [effect], with the
    calls it puts off itself. *)

From S2P Require Import Prelude.

Definition NDPROC : Z := 64.

Section dproc.
Context {P C E : Type} (effect : P -> C -> E -> E * list (P * C)).

(** [task_dprocs], [task_dproc_head] and [task_dproc_cnt] with the rest of the
    system; a procedure is [None] when NULL. *)
Record dstate := Dstate { dprocs : list (option P * C); dproc_head : Z; dproc_cnt : Z; d_env : E }.

Definition task_defer (proc : option P) (cx : C) : M dstate unit :=
  match proc with
  | None => panic "task_defer: !proc"
  | Some _ =>
    s <~ gets (fun s => s);;
    if NDPROC <=? dproc_cnt s then panic "task_defer: too many procs"
    else
      let i := (dproc_head s + dproc_cnt s) mod NDPROC in
      modify (fun s => Dstate (dprocs s) (dproc_head s) (dproc_cnt s + 1) (d_env s));;;
      modify (fun s => Dstate (<[Z.to_nat i := (proc, cx)]> (dprocs s)) (dproc_head s) (dproc_cnt s) (d_env s))
  end.

Fixpoint defer_all (l : list (P * C)) : M dstate unit :=
  match l with [] => ret tt | (p, c) :: l' => task_defer (Some p) c;;; defer_all l' end.
Definition call (p : P) (c : C) : M dstate unit :=
  s <~ gets (fun s => s);;
  let r := effect p c (d_env s) in
  modify (fun s => Dstate (dprocs s) (dproc_head s) (dproc_cnt s) r.1);;;
  defer_all r.2.

(** A procedure may put off further calls, so that the loop need not end. *)
Fixpoint task_rundp (fuel : nat) : M dstate unit :=
  s <~ gets (fun s => s);;
  if dproc_cnt s =? 0 then ret tt
  else
    match fuel with
    | O => halted Undefined
    | S fuel' =>
      modify (fun s => Dstate (dprocs s) (dproc_head s) (dproc_cnt s - 1) (d_env s));;;
      e <~ deref (dprocs s !! Z.to_nat (dproc_head s));;
      modify (fun s => Dstate (dprocs s) ((dproc_head s + 1) mod NDPROC) (dproc_cnt s) (d_env s));;;
      match e.1 with
      | None => panic "task_rundp: !proc"
      | Some p => call p e.2;;; task_rundp fuel'
      end
    end.

(** * The queue *)

Definition entry_of (x : P * C) : option P * C := (Some x.1, x.2).
(** [q] is the queue of calls, the oldest first. *)
Record holds (s : dstate) (q : list (P * C)) : Prop := Holds {
  hd_len : Z.of_nat (length (dprocs s)) = NDPROC;
  hd_head : 0 <= dproc_head s < NDPROC;
  hd_room : Z.of_nat (length q) <= NDPROC;
  hd_cnt : dproc_cnt s = Z.of_nat (length q);
  hd_ring : ring_list NDPROC (dprocs s) (dproc_head s) (length q) = entry_of <$> q
}.

Definition room (q : list (P * C)) : Prop := Z.of_nat (length q) < NDPROC.
Lemma task_defer_ok s q p c :
  holds s q ->
  if decide (room q) then exists s', task_defer (Some p) c s = Ret tt s' /\ holds s' (q ++ [(p, c)]) /\ d_env s' = d_env s
  else exists msg, task_defer (Some p) c s = Halt (KPanic msg).
Proof.
  intros [Hl Hh Hrm Hc Hr]. unfold task_defer, room. rewrite gets_bind. case_decide as Hq.
  - rewrite (proj2 (Z.leb_gt _ _)) by lia. cbv zeta. rewrite modify_bind. eexists. split; [reflexivity|]. split; [|done].
    split; cbn [dprocs dproc_head dproc_cnt]; rewrite ?length_app, ?length_insert; cbn [length]; try done; [lia..|].
    rewrite Nat.add_1_r, Hc, fmap_app, <- Hr. by apply ring_push.
  - rewrite (proj2 (Z.leb_le _ _)) by lia. by eexists.
Qed.

Lemma defer_all_ok l s q :
  holds s q ->
  if decide (Z.of_nat (length q + length l) <= NDPROC) then exists s', defer_all l s = Ret tt s' /\ holds s' (q ++ l) /\ d_env s' = d_env s
  else exists msg, defer_all l s = Halt (KPanic msg).
Proof.
  revert s q. induction l as [|[p c] l IH]; intros s q Hs; cbn [defer_all length].
  { rewrite app_nil_r, decide_True by (pose proof (hd_room _ _ Hs); lia). by exists s. }
  pose proof (task_defer_ok s q p c Hs) as Hd. unfold room in Hd. destruct (decide (Z.of_nat (length q) < NDPROC)) as [Hq|Hq].
  - destruct Hd as (s1 & E1 & Hs1 & Ee1). rewrite (bind_run _ _ _ _ _ E1). specialize (IH s1 _ Hs1). rewrite length_app in IH. cbn [length] in IH.
    replace (length q + 1 + length l)%nat with (length q + S (length l))%nat in IH by lia. rewrite <- app_assoc, Ee1 in IH. exact IH.
  - destruct Hd as [msg E1]. rewrite decide_False by lia. exists msg. unfold bind. by rewrite E1.
Qed.

(** * The reference: the calls one after the other *)

Inductive run_result := Finished (e : E) | TooMany | Endless.
Fixpoint run_queue (fuel : nat) (q : list (P * C)) (e : E) : run_result :=
  match q with
  | [] => Finished e
  | (p, c) :: q' =>
    match fuel with
    | O => Endless
    | S fuel' =>
      let r := effect p c e in
      if decide (Z.of_nat (length (q' ++ r.2)) <= NDPROC) then run_queue fuel' (q' ++ r.2) r.1 else TooMany
    end
  end.
Definition same_run (o : outcome dstate unit) (r : run_result) : Prop :=
  match r with
  | Finished e => exists s', o = Ret tt s' /\ holds s' [] /\ d_env s' = e
  | TooMany => exists msg, o = Halt (KPanic msg)
  | Endless => o = Halt Undefined
  end.

Lemma rundp_ok fuel s q : holds s q -> same_run (task_rundp fuel s) (run_queue fuel q (d_env s)).
Proof.
  revert s q. induction fuel as [|fuel IH]; intros s q Hs; pose proof Hs as [Hl Hh Hrm Hc Hr]; (destruct q as [|[p c] q]; [cbn [task_rundp run_queue]; rewrite gets_bind, Hc; by exists s|]).
  all: cbn [task_rundp run_queue]; rewrite gets_bind, Hc; cbn [length] in *; rewrite (proj2 (Z.eqb_neq _ _)) by lia.
  1: done.
  destruct (ring_pop NDPROC (dprocs s) ltac:(done) Hl (dproc_head s) (length q) Hh) as (x & Ex & Er). rewrite Hr in Er. cbn [fmap list_fmap] in Er. injection Er as <- Er.
  rewrite modify_bind, Ex. cbn [deref]. rewrite ret_bind, modify_bind. cbn [fst snd entry_of dprocs dproc_head dproc_cnt d_env].
  unfold call. set (r := effect p c (d_env s)). unfold bind at 1. unfold bind at 1. cbn [gets]. cbn [d_env]. fold r. cbv zeta. rewrite modify_bind. cbn [dprocs dproc_head dproc_cnt].
  set (s1 := Dstate _ _ _ r.1). assert (Hs1 : holds s1 q) by (split; cbn; [done|by apply Z.mod_pos_bound|lia|lia|done]).
  pose proof (defer_all_ok r.2 s1 q Hs1) as Hd. rewrite length_app. case_decide as Hq.
  - destruct Hd as (s2 & E2 & Hs2 & Ee2). rewrite E2. specialize (IH s2 _ Hs2). by rewrite Ee2 in IH.
  - destruct Hd as [msg E2]. rewrite E2. by exists msg.
Qed.
Lemma run_queue_plain q e : (forall p c e, (effect p c e).2 = []) -> Z.of_nat (length q) <= NDPROC -> run_queue (length q) q e = Finished (foldl (fun e x => (effect x.1 x.2 e).1) e q).
Proof.
  intros Hno. revert e. induction q as [|[p c] q IH]; intros e Hq; [done|]. cbn [length run_queue foldl fst snd]. rewrite Hno, app_nil_r. cbn [length] in Hq. rewrite decide_True by lia. apply IH. lia.
Qed.

(** C26. [task_rundp] makes the calls that were put off in the order they were put
    off, each once, those put off meanwhile behind them: it does what the queue of
    calls does, it panics when and only when more than 64 calls wait, and it ends
    when the procedures put off nothing. *)
Theorem rundp_in_order fuel s q :
  holds s q ->
  same_run (task_rundp fuel s) (run_queue fuel q (d_env s)) /\
  ((forall p c e, (effect p c e).2 = []) ->
   exists s', task_rundp (length q) s = Ret tt s' /\ holds s' [] /\ d_env s' = foldl (fun e x => (effect x.1 x.2 e).1) (d_env s) q).
Proof.
  intros Hs. split; [by apply rundp_ok|]. intros Hno. pose proof (rundp_ok (length q) s q Hs) as Hr. by rewrite (run_queue_plain q _ Hno (hd_room _ _ Hs)) in Hr.
Qed.
End dproc.

(** Two calls that add a number to a list. *)
Definition two_calls : dstate (P := unit) (C := Z) (E := list Z) :=
  Dstate ((Some tt, 1) :: (Some tt, 2) :: replicate 62 (None, 0)) 0 2 [].
Lemma rundp_in_order_witness :
  exists s', task_rundp (fun _ c l => (l ++ [c], [])) 2 two_calls = Ret tt s' /\ d_env s' = [1; 2].
Proof.
  destruct (rundp_in_order (fun (_ : unit) c l => (l ++ [c], [])) 2 two_calls [(tt, 1); (tt, 2)]) as [_ H].
  - split; [reflexivity|cbn; unfold NDPROC; lia|cbn; unfold NDPROC; lia|reflexivity|reflexivity].
  - destruct (H (fun _ _ _ => eq_refl)) as (s' & Es & _ & Ee). exists s'. split; [exact Es|exact Ee].
Defined.
