(* ===== verification/PageFrames.v ===== *)
(** Page frames (kern/arch-i386/page.c, lines 45 to 263): counting the memory the
    loader reports, the list of free frames and the map of the frames below
    16 MB that DMA can reach.

    A frame is its number.  [pg_flist] is an array of its own here, absent while
    the pointer is NULL, with as many places as [pg_init] provides for; the frames
    it is stored in are [pg_flist_base] to [pg_flist_end].  A write beyond the
    array is undefined.  [pg_collect] puts those frames on the list too (PageInit.v);
    once one of them holds a page or a table, writes to it change the list, which an
    array of its own does not show.  Page.v therefore describes the code as long as
    [list_alone] (PageOk.v) holds, and the theorems on memory speak of such states.
    [printk] is left out. *)

From S2P Require Import Prelude.

Definition PAGE_SIZE : Z := 4096.
Definition PAGE_SHIFT : Z := 12.
Definition PAGE_PMASK : Z := 0xfff.
Definition KMAPENT_MEM : Z := 1.
Definition DMA_PAGES : Z := 4096.

(** [struct kmapent] *)
Record kmapent := Kmapent { km_type : Z; km_base : Z; km_size : Z }.

Record frames := Frames {
  pg_flist : option (list Z);
  pg_flist_base : Z; pg_flist_end : Z;
  pg_nfree : Z; pg_nfree_dma : Z; pg_total : Z;
  pg_dma_map : list bool
}.
Definition frames0 : frames := Frames None (2 ^ 32 - 1) 0 0 0 0 (replicate 4096 false).

Definition set_flist (o : option (list Z)) (s : frames) : frames :=
  Frames o (pg_flist_base s) (pg_flist_end s) (pg_nfree s) (pg_nfree_dma s) (pg_total s) (pg_dma_map s).
Definition set_flist_area (b e : Z) (s : frames) : frames :=
  Frames (pg_flist s) b e (pg_nfree s) (pg_nfree_dma s) (pg_total s) (pg_dma_map s).
Definition set_nfree (n : Z) (s : frames) : frames :=
  Frames (pg_flist s) (pg_flist_base s) (pg_flist_end s) n (pg_nfree_dma s) (pg_total s) (pg_dma_map s).
Definition set_total (n : Z) (s : frames) : frames :=
  Frames (pg_flist s) (pg_flist_base s) (pg_flist_end s) (pg_nfree s) (pg_nfree_dma s) n (pg_dma_map s).
Definition set_dma (n : Z) (mp : list bool) (s : frames) : frames :=
  Frames (pg_flist s) (pg_flist_base s) (pg_flist_end s) (pg_nfree s) n (pg_total s) mp.

(** ** Frames in the DMA area *)

(** The search of [pg_alloc_dma] from frame [i] on, with [n] frames left: the
    start and the end of a run. *)
Fixpoint dma_scan (n : nat) (mp : list bool) (i start s : Z) : option (Z * Z) :=
  match n with
  | O => None
  | S n' =>
    if s <=? i - start then Some (start, i)
    else
      let start := if i mod 15 =? 0 then i else start in
      let start := if default false (mp !! Z.to_nat i) then start else i + 1 in
      dma_scan n' mp (i + 1) start s
  end.

(** The entries [p], ..., [p + n - 1] of the map set to [b]. *)
Fixpoint dma_mark (n : nat) (b : bool) (p : Z) (mp : list bool) : list bool :=
  match n with
  | O => mp
  | S n' => dma_mark n' b (p + 1) (<[Z.to_nat p := b]> mp)
  end.

(** For no frames at all the loop that clears the map starts below its first
    entry. *)
Definition pg_alloc_dma (s : Z) : M frames Z :=
  st <~ gets (fun s => s);;
  match dma_scan 4096 (pg_dma_map st) 0 0 s with
  | None => fail ENOMEM
  | Some (start, i) =>
    if i =? start then halted Undefined
    else
      modify (fun st => set_dma (u32 (pg_nfree_dma st - s)) (dma_mark (Z.to_nat (i - start)) false start (pg_dma_map st)) st);;;
      ret start
  end.

(** [pg_dma_map[p + i]] for the last [n] of [s] frames; beyond the end of the map the
    access is undefined. *)
Fixpoint free_dma_loop (n : nat) (p : Z) : M frames unit :=
  match n with
  | O => ret tt
  | S n' =>
    st <~ gets (fun s => s);;
    b <~ deref (pg_dma_map st !! Z.to_nat p);;
    if (b : bool) then panic "pg_free_dma: page is already free"
    else
      modify (fun st => set_dma (pg_nfree_dma st) (<[Z.to_nat p := true]> (pg_dma_map st)) st);;;
      free_dma_loop n' (p + 1)
  end.
Definition pg_free_dma (p s : Z) : M frames unit :=
  if (DMA_PAGES <=? p) || (DMA_PAGES <? u32 (p + s)) then panic "pg_free_dma: page not in the DMA area"
  else
    free_dma_loop (Z.to_nat s) p;;;
    modify (fun st => set_dma (u32 (pg_nfree_dma st + s)) (pg_dma_map st) st).

(** ** Frames of the list *)

Definition pg_alloc : M frames Z :=
  st <~ gets (fun s => s);;
  match pg_flist st with
  | None => panic "pg_alloc: pg_flist not initialized"
  | Some l =>
    if pg_nfree st =? 0 then pg_alloc_dma 1
    else
      let n := pg_nfree st - 1 in
      modify (set_nfree n);;;
      p <~ deref (l !! Z.to_nat n);;
      if p =? 0 then panic "pg_alloc: null frame in list" else ret p
  end.

Definition pg_free (p : Z) : M frames unit :=
  if p =? 0 then panic "pg_free: !p"
  else
    st <~ gets (fun s => s);;
    match pg_flist st with
    | None => panic "pg_free: pg_flist not initialized"
    | Some l =>
      if p <? DMA_PAGES then pg_free_dma p 1
      else if (length l <=? Z.to_nat (pg_nfree st))%nat then halted Undefined
      else modify (fun st => set_nfree (u32 (pg_nfree st + 1)) (set_flist (Some (<[Z.to_nat (pg_nfree st) := p]> l)) st))
    end.

(** ** Memory at start-up *)

(** The part of an entry of the memory map that both loops compute: [base] and
    [end] as 32-bit addresses, or [None] where they continue with the next one. *)
Definition ent_range (me : kmapent) : option (Z * Z) :=
  let base := u32 (km_base me) in
  let size := u32 (km_size me) in
  let e := u32 (base + size) in
  if negb (base =? km_base me) then None
  else if negb (size =? km_size me) then None
  else if u32 (base + e) <? base then None
  else Some (base, e).
(** ... and in pages. *)
Definition page_range (base e : Z) : Z * Z :=
  let base := if negb (Z.land base PAGE_PMASK =? 0) then u32 (base + PAGE_SIZE) else base in
  (Z.shiftr base PAGE_SHIFT, Z.shiftr e PAGE_SHIFT).

Definition count_ent (me : kmapent) (st : frames) : frames :=
  if negb (km_type me =? KMAPENT_MEM) then st
  else
    match ent_range me with
    | None => st
    | Some (base, e) =>
      let '(base, e) := page_range base e in
      let st := set_total (u32 (pg_total st + (e - base))) st in
      if (0x100000 <=? km_base me) && (base <? pg_flist_base st) then set_flist_area base e st else st
    end.
Definition pg_count (mem_map : list kmapent) : M frames unit :=
  modify (fun st => foldl (fun st me => count_ent me st) (set_total 0 st) mem_map).

(** [for (n = base; n < end && ...; n++) pg_free (n)] with [m] pages left. *)
Fixpoint collect_pages (m : nat) (n : Z) : M frames unit :=
  match m with
  | O => ret tt
  | S m' =>
    st <~ gets (fun s => s);;
    if u32 (pg_nfree st + pg_nfree_dma st) <? pg_total st then pg_free n;;; collect_pages m' (n + 1) else ret tt
  end.
Definition collect_ent (me : kmapent) : M frames unit :=
  if negb ((km_type me =? KMAPENT_MEM) && (0x100000 <=? km_base me)) then ret tt
  else
    match ent_range me with
    | None => ret tt
    | Some (base, e) =>
      st <~ gets (fun s => s);;
      let base := if (pg_flist_base st <=? base) && (base <? pg_flist_end st) then pg_flist_end st else base in
      let e := if (pg_flist_base st <=? e) && (e <? pg_flist_end st) then pg_flist_base st else e in
      if e <=? base then ret tt
      else
        let '(base, e) := page_range base e in
        collect_pages (Z.to_nat (e - base)) base
    end.
Fixpoint pg_collect (mem_map : list kmapent) : M frames unit :=
  match mem_map with
  | [] => ret tt
  | me :: l => collect_ent me;;; pg_collect l
  end.

(** The end of [pg_init], after the page tables are set up. *)
Definition pg_init_frames (mem_map : list kmapent) : M frames unit :=
  pg_count mem_map;;;
  st <~ gets (fun s => s);;
  let fsz := u32 (pg_total st + 1023) / 1024 in
  if u32 (pg_flist_end st - pg_flist_base st) <? fsz then panic "pg_init: too many memory pages"
  else
    modify (fun st => set_flist (Some (replicate (Z.to_nat (1024 * fsz)) 0))
      (set_flist_area (pg_flist_base st) (u32 (pg_flist_base st + fsz)) st));;;
    pg_collect mem_map.
