(* ===== verification/PageFramesOk.v ===== *)
(** Correctness of the allocation of page frames.

    [free_frame] is the set of free frames that the list and the DMA map stand
    for; [fr_ok U] says that the frames among [U] are kept consistently.  The
    operations take frames out of the set and put them back, and in every history
    of a client that returns only what it was given no frame has two owners. *)

From S2P Require Import Prelude PageFrames.

(** * The state *)

Definition dma_is_free (mp : list bool) (p : Z) : Prop := 0 <= p < 4096 /\ mp !! Z.to_nat p = Some true.
Definition listed (s : frames) : list Z :=
  match pg_flist s with Some l => take (Z.to_nat (pg_nfree s)) l | None => [] end.
Definition free_frame (s : frames) (p : Z) : Prop := p ∈ listed s \/ dma_is_free (pg_dma_map s) p.
Definition free_count (s : frames) : Z := pg_nfree s + pg_nfree_dma s.

Record fr_ok (U : list Z) (s : frames) : Prop := FrOk {
  fk_list : exists l, pg_flist s = Some l /\ 0 <= pg_nfree s <= Z.of_nat (length l) /\ (length U <= length l)%nat;
  fk_nodup : NoDup (listed s);
  fk_high : forall p, p ∈ listed s -> DMA_PAGES <= p;
  fk_map : length (pg_dma_map s) = 4096%nat;
  fk_dma : pg_nfree_dma s = zcount id (pg_dma_map s);
  fk_in : forall p, free_frame s p -> p ∈ U;
  fk_U : NoDup U;
  fk_range : forall p, p ∈ U -> 0 < p < 2 ^ 20
}.

Lemma listed_length U s : fr_ok U s -> Z.of_nat (length (listed s)) = pg_nfree s.
Proof. intros Hs. destruct (fk_list _ _ Hs) as (l & El & Hn & _). unfold listed. rewrite El, length_take. lia. Qed.

Lemma fr_small U s : fr_ok U s -> (length U < Z.to_nat (2 ^ 20))%nat.
Proof.
  intros Hs. assert (U ⊆+ seqZ 1 (2 ^ 20 - 1)) as Hsub.
  { apply NoDup_submseteq; [apply Hs|]. intros p Hp%(fk_range _ _ Hs). apply elem_of_seqZ. lia. }
  apply submseteq_length in Hsub. rewrite length_seqZ in Hsub. lia.
Qed.
Lemma listed_le U s : fr_ok U s -> pg_nfree s <= Z.of_nat (length U).
Proof.
  intros Hs. rewrite <- (listed_length _ _ Hs). apply Nat2Z.inj_le, submseteq_length, NoDup_submseteq; [apply Hs|].
  intros p Hp. apply (fk_in _ _ Hs). by left.
Qed.
Lemma zcount_le {A} q (l : list A) : zcount q l <= Z.of_nat (length l).
Proof. induction l as [|x l IH]; cbn [zcount length]; [lia|]. destruct (q x); cbn; lia. Qed.
Lemma dma_count U s : fr_ok U s -> 0 <= pg_nfree_dma s <= 4096.
Proof.
  intros Hs. rewrite (fk_dma _ _ Hs). pose proof (zcount_le id (pg_dma_map s)) as Hc. rewrite (fk_map _ _ Hs) in Hc.
  pose proof (zcount_nonneg id (pg_dma_map s)). lia.
Qed.

(** * The DMA map *)

(** A run of [s] free frames that the search may return: it does not go across a
    multiple of 15. *)
Definition dma_run (mp : list bool) (p s : Z) : Prop :=
  (forall q, p <= q < p + s -> dma_is_free mp q) /\ (forall q, p < q < p + s -> q mod 15 <> 0).

Lemma dma_scan_spec n mp i start s :
  0 < s -> 0 <= start <= i -> i + Z.of_nat n = 4096 -> i - start <= s -> length mp = 4096%nat -> dma_run mp start (i - start) ->
  match dma_scan n mp i start s with
  | Some (p, e) => dma_run mp p s /\ 0 <= p /\ e = p + s /\ e < 4096
  | None => forall p, start <= p -> dma_run mp p s -> p + s <= 4095 -> False
  end.
Proof.
  intros Hs. revert i start. induction n as [|n IH]; intros i start Hi Hn Hle Hl Hr; cbn [dma_scan].
  { intros p Hp _ Hend. lia. }
  destruct (Z.leb_spec s (i - start)) as [Hhit|Hmiss].
  { assert (i - start = s) as E by lia. rewrite E in Hr. split; [done|]. lia. }
  set (st1 := if i mod 15 =? 0 then i else start). set (st2 := if default false _ then st1 else i + 1).
  assert (Hst : start <= st1 <= i /\ (st1 = start /\ i mod 15 <> 0 \/ st1 = i /\ i mod 15 = 0)).
  { unfold st1. destruct (Z.eqb_spec (i mod 15) 0); lia. }
  destruct (lookup_lt_is_Some_2 mp (Z.to_nat i)) as [b Hb]; [lia|].
  assert (Hst2 : st2 = if b then st1 else i + 1) by (unfold st2; rewrite Hb; done).
  assert (Hrun : dma_run mp st2 (i + 1 - st2)).
  { rewrite Hst2. destruct Hr as [Hr1 Hr2]. destruct b; [|split; intros; lia]. split; intros q Hq.
    - destruct (decide (q = i)) as [->|]; [split; [lia|done]|]. apply Hr1. lia.
    - destruct (decide (q = i)) as [->|]; [lia|]. apply Hr2. lia. }
  assert (Hmv : forall p, start <= p -> dma_run mp p s -> st2 <= p).
  { intros p Hp [Hp1 Hp2]. destruct (decide (st2 <= p)); [done|exfalso]. assert (p < st2) by lia.
    assert (p <= i < p + s) as Hin by (rewrite Hst2 in *; destruct b; lia). rewrite Hst2 in *. destruct b.
    - destruct Hst as [_ [[E _]|[E Hm]]]; [lia|]. apply (Hp2 i); [lia|done].
    - destruct (Hp1 i Hin) as [_ Hf]. congruence. }
  specialize (IH (i + 1) st2). assert (Hb2 : 0 <= st2 <= i + 1) by (rewrite Hst2; destruct b; lia).
  specialize (IH Hb2 ltac:(lia)). assert (Hle2 : i + 1 - st2 <= s) by (rewrite Hst2; destruct b; lia).
  specialize (IH Hle2 Hl Hrun). destruct (dma_scan n mp (i + 1) st2 s) as [[p e]|]; [done|].
  intros p Hp Hrn Hend. eapply IH; [by apply Hmv|done|done].
Qed.

Lemma dma_mark_length n b p mp : length (dma_mark n b p mp) = length mp.
Proof. revert p mp. induction n as [|n IH]; intros p mp; cbn; [done|]. by rewrite IH, length_insert. Qed.
Lemma dma_mark_lookup n b p mp q :
  0 <= p -> 0 <= q -> dma_mark n b p mp !! Z.to_nat q =
    if decide (p <= q < p + Z.of_nat n /\ (Z.to_nat q < length mp)%nat) then Some b else mp !! Z.to_nat q.
Proof.
  revert p mp. induction n as [|n IH]; intros p mp Hp Hq; cbn [dma_mark]; [rewrite decide_False by lia; done|].
  rewrite IH, length_insert by lia. destruct (decide (q = p)) as [->|Hne].
  - rewrite (decide_False (P := _ <= _ < _ /\ _)) by lia. destruct (decide (Z.to_nat p < length mp)%nat) as [Hl|Hl].
    + rewrite list_lookup_insert_eq, decide_True by (done || lia). done.
    + rewrite list_insert_ge, decide_False by lia. done.
  - rewrite list_lookup_insert_ne by lia. destruct (decide (p + 1 <= q < p + 1 + Z.of_nat n /\ (Z.to_nat q < length mp)%nat)).
    + by rewrite decide_True by lia.
    + by rewrite decide_False by lia.
Qed.
(** Clearing entries that are set takes them off the count. *)
Lemma dma_mark_count n p mp :
  0 <= p -> (forall q, p <= q < p + Z.of_nat n -> dma_is_free mp q) -> zcount id (dma_mark n false p mp) = zcount id mp - Z.of_nat n.
Proof.
  revert p mp. induction n as [|n IH]; intros p mp Hp Hf; cbn [dma_mark]; [lia|]. destruct (Hf p) as [_ H0]; [lia|].
  rewrite IH; [|lia|].
  - rewrite (zcount_insert _ _ _ _ _ H0). cbn. lia.
  - intros q Hq. destruct (Hf q) as [Hr Hq']; [lia|]. split; [done|]. rewrite list_lookup_insert_ne by lia. done.
Qed.

(** * The operations *)

(** The set of free frames after [P] was taken out of it. *)
Definition taken (P : Z -> Prop) (s s' : frames) : Prop := forall q, free_frame s' q <-> free_frame s q /\ ~ P q.
Definition put_back (P : Z -> Prop) (s s' : frames) : Prop := forall q, free_frame s' q <-> free_frame s q \/ P q.
Definition in_run (p n q : Z) : Prop := p <= q < p + n.

Lemma fr_ok_map U s n mp :
  fr_ok U s -> length mp = 4096%nat -> n = zcount id mp -> (forall q, dma_is_free mp q -> q ∈ U) -> fr_ok U (set_dma n mp s).
Proof.
  intros [] Hl Hn Hin. split; try done. intros p [Hp|Hp]; [apply fk_in0; by left|by apply Hin].
Qed.

Lemma pg_alloc_dma_ok U n s :
  fr_ok U s -> 0 < n ->
  wp (pg_alloc_dma n)
    (fun p s' => fr_ok U s' /\ dma_run (pg_dma_map s) p n /\ 0 < p /\ p + n < 4096 /\ taken (in_run p n) s s' /\
       free_count s' = free_count s - n)
    (fun e s' => e = ENOMEM /\ s' = s /\ forall p, dma_run (pg_dma_map s) p n -> 4095 < p + n) s.
Proof.
  intros Hs Hn. unfold pg_alloc_dma. apply wp_bind, wp_gets.
  pose proof (dma_scan_spec 4096 (pg_dma_map s) 0 0 n Hn ltac:(lia) ltac:(lia) ltac:(lia) (fk_map _ _ Hs)) as Hsc.
  specialize (Hsc ltac:(split; intros; lia)). destruct (dma_scan 4096 _ 0 0 n) as [[p e]|].
  2: { split; [done|]. split; [done|]. intros p Hr. destruct (decide (p + n <= 4095)) as [Hle|]; [|lia]. exfalso.
    apply (Hsc p); [|done|done]. destruct Hr as [Hf _]. destruct (Hf p); lia. }
  destruct Hsc as ([Hf Hb] & Hp & -> & He). rewrite (proj2 (Z.eqb_neq _ _)) by lia. replace (p + n - p) with n by lia.
  assert (Hfp : forall q, in_run p n q -> free_frame s q) by (intros q Hq; right; by apply Hf).
  assert (Hp0 : 0 < p) by (apply (fk_range _ _ Hs p), (fk_in _ _ Hs), Hfp; unfold in_run; lia).
  assert (Hc : zcount id (dma_mark (Z.to_nat n) false p (pg_dma_map s)) = pg_nfree_dma s - n).
  { rewrite (fk_dma _ _ Hs), dma_mark_count; [lia|lia|]. intros q Hq. apply Hf. lia. }
  pose proof (dma_count _ _ Hs) as Hd. pose proof (zcount_nonneg id (dma_mark (Z.to_nat n) false p (pg_dma_map s))).
  assert (Hmp : forall q, dma_is_free (dma_mark (Z.to_nat n) false p (pg_dma_map s)) q <-> dma_is_free (pg_dma_map s) q /\ ~ in_run p n q).
  { intros q. unfold dma_is_free, in_run. destruct (decide (0 <= q < 4096)) as [Hq|]; [|tauto].
    rewrite dma_mark_lookup by lia. rewrite (fk_map _ _ Hs). destruct (decide (p <= q < p + n)) as [Hin|Hout].
    - rewrite decide_True by lia. split; [intros [_ ?]; done|tauto].
    - rewrite decide_False by lia. tauto. }
  apply wp_bind. unfold wp at 1, modify. rewrite u32_small by lia. apply wp_ret. split.
  { apply fr_ok_map; [done|by rewrite dma_mark_length; apply Hs|by rewrite Hc|]. intros q [Hq _]%Hmp. apply (fk_in _ _ Hs). by right. }
  split; [done|]. split; [done|]. split; [done|]. split; [|unfold free_count; cbn; lia].
  intros q. unfold free_frame. change (listed (set_dma _ _ s)) with (listed s). cbn [pg_dma_map set_dma]. rewrite Hmp.
  split; [|tauto]. intros [Hq|Hq]; [|tauto]. split; [by left|]. pose proof (fk_high _ _ Hs q Hq) as Hh. unfold in_run, DMA_PAGES in *. lia.
Qed.

Lemma free_dma_loop_ok n p s :
  length (pg_dma_map s) = 4096%nat -> 0 <= p -> p + Z.of_nat n <= 4096 -> (forall q, p <= q < p + Z.of_nat n -> ~ dma_is_free (pg_dma_map s) q) ->
  wp (free_dma_loop n p)
    (fun _ s' => exists mp, s' = set_dma (pg_nfree_dma s) mp s /\ length mp = 4096%nat /\
       zcount id mp = zcount id (pg_dma_map s) + Z.of_nat n /\ forall q, dma_is_free mp q <-> dma_is_free (pg_dma_map s) q \/ in_run p (Z.of_nat n) q)
    (fun _ _ => False) s.
Proof.
  revert p s. induction n as [|n IH]; intros p s Hl Hp He Hno; cbn [free_dma_loop].
  { apply wp_ret. exists (pg_dma_map s). split; [by destruct s|]. split; [done|]. split; [lia|]. intros q. unfold in_run. split; [tauto|]. intros [?|?]; [done|lia]. }
  apply wp_bind, wp_gets. destruct (lookup_lt_is_Some_2 (pg_dma_map s) (Z.to_nat p)) as [b Hb]; [lia|].
  assert (b = false) as -> by (destruct b; [|done]; exfalso; apply (Hno p); [lia|]; split; [lia|done]).
  rewrite Hb. apply wp_bind, wp_deref_some. apply wp_bind. cbn. set (s1 := set_dma _ _ s).
  assert (Hf1 : forall q, dma_is_free (pg_dma_map s1) q <-> dma_is_free (pg_dma_map s) q \/ q = p).
  { intros q. unfold dma_is_free, s1. cbn. destruct (decide (q = p)) as [->|Hne].
    - rewrite list_lookup_insert_eq by lia. split; [tauto|]. intros _. split; [lia|done].
    - destruct (decide (0 <= q < 4096)); [|tauto]. rewrite list_lookup_insert_ne by lia. tauto. }
  eapply wp_mono; [apply (IH (p + 1) s1)| |done].
  - unfold s1. cbn. by rewrite length_insert.
  - lia.
  - lia.
  - intros q Hq [Hf| ->]%Hf1; [|lia]. apply (Hno q); [lia|done].
  - intros [] s2 (mp & -> & Hlm & Hz & Hf). exists mp. split; [done|]. split; [done|]. split.
    + rewrite Hz. unfold s1. cbn [pg_dma_map set_dma]. rewrite (zcount_insert _ _ _ _ _ Hb). cbn. lia.
    + intros q. rewrite Hf, Hf1. unfold in_run. split; [intros [[?| ->]|?]|intros [?|?]]; try tauto; try (right; lia).
      destruct (decide (q = p)); [tauto|]. right. lia.
Qed.

Lemma pg_free_dma_ok U p n s :
  fr_ok U s -> 0 < n -> (forall q, in_run p n q -> q ∈ U /\ q < DMA_PAGES /\ ~ free_frame s q) ->
  wp (pg_free_dma p n)
    (fun _ s' => fr_ok U s' /\ put_back (in_run p n) s s' /\ free_count s' = free_count s + n)
    (fun _ _ => False) s.
Proof.
  intros Hs Hn Hq. unfold pg_free_dma, DMA_PAGES, in_run in *. destruct (Hq p) as (Hp & Hp2 & _); [lia|].
  destruct (Hq (p + n - 1)) as (_ & He & _); [lia|]. apply (fk_range _ _ Hs) in Hp.
  rewrite u32_small by lia. rewrite (proj2 (Z.leb_gt _ _)), (proj2 (Z.ltb_ge _ _)) by lia. cbn [orb].
  eapply wp_seq; [apply (free_dma_loop_ok (Z.to_nat n) p s); [apply Hs|lia|lia|]| |done].
  { intros q Hr Hf. destruct (Hq q) as (_ & _ & Hno); [lia|]. apply Hno. by right. }
  intros [] s1 (mp & -> & Hl & Hz & Hf). rewrite Z2Nat.id in * by lia.
  pose proof (dma_count _ _ Hs) as Hd. assert (zcount id mp = pg_nfree_dma s + n) as Hz' by (rewrite Hz, (fk_dma _ _ Hs); done).
  pose proof (zcount_le id mp) as Hzl. cbn. rewrite u32_small by lia. unfold set_dma. cbn. fold (set_dma (pg_nfree_dma s + n) mp s).
  split; [|split].
  - apply fr_ok_map; [done|done|done|]. intros q [Hq'|Hr]%Hf; [apply (fk_in _ _ Hs); by right|]. by apply Hq.
  - intros q. unfold free_frame. change (listed (set_dma _ _ s)) with (listed s). cbn [pg_dma_map set_dma]. rewrite Hf. unfold in_run. tauto.
  - unfold free_count. cbn. lia.
Qed.

(** A frame alone is a run that does not go across a boundary. *)
Lemma dma_run_one mp p : dma_run mp p 1 <-> dma_is_free mp p.
Proof.
  split.
  - intros [Hf _]. apply Hf. lia.
  - intros Hf. split; [|intros; lia]. intros q Hq. by replace q with p by lia.
Qed.

Lemma pg_alloc_ok U s :
  fr_ok U s ->
  wp pg_alloc
    (fun p s' => fr_ok U s' /\ free_frame s p /\ 0 < p < 2 ^ 20 /\ taken (eq p) s s' /\ free_count s' = free_count s - 1)
    (fun e s' => e = ENOMEM /\ s' = s /\ forall p, free_frame s p -> p = 4095) s.
Proof.
  intros Hs. destruct (fk_list _ _ Hs) as (l & El & Hn & Hlen). unfold pg_alloc. apply wp_bind, wp_gets. rewrite El.
  destruct (Z.eqb_spec (pg_nfree s) 0) as [E0|E0].
  - assert (Hno : listed s = []) by (apply nil_length_inv; pose proof (listed_length _ _ Hs); lia).
    eapply wp_mono; [by apply (pg_alloc_dma_ok U 1)| |].
    + intros p s' (Hs' & Hr%dma_run_one & Hp & _ & Ht & Hc). split; [done|]. assert (free_frame s p) by by right.
      split; [done|]. split; [by apply (fk_range _ _ Hs), (fk_in _ _ Hs)|]. split; [|done].
      intros q. rewrite (Ht q). unfold in_run. split; intros [? ?]; (split; [done|]); lia.
    + intros e s' (-> & -> & Hno'). split; [done|]. split; [done|]. intros p [Hp|Hp]; [rewrite Hno in Hp; by apply not_elem_of_nil in Hp|].
      specialize (Hno' p). rewrite dma_run_one in Hno'. specialize (Hno' Hp). destruct Hp. lia.
  - destruct (lookup_lt_is_Some_2 l (Z.to_nat (pg_nfree s - 1))) as [p Hp]; [lia|].
    assert (Hls : listed s = take (Z.to_nat (pg_nfree s - 1)) l ++ [p]).
    { unfold listed. rewrite El. replace (Z.to_nat (pg_nfree s)) with (S (Z.to_nat (pg_nfree s - 1))) by lia. by apply take_S_r. }
    assert (Hin : p ∈ listed s) by (rewrite Hls; apply elem_of_app; right; by apply list_elem_of_singleton).
    assert (Hr : 0 < p < 2 ^ 20) by (apply (fk_range _ _ Hs), (fk_in _ _ Hs); by left).
    set (s1 := set_nfree (pg_nfree s - 1) s). assert (Hls1 : listed s1 = take (Z.to_nat (pg_nfree s - 1)) l) by (unfold listed, s1; cbn; by rewrite El).
    pose proof (fk_nodup _ _ Hs) as Hnd. rewrite Hls in Hnd. apply NoDup_app in Hnd as (Hnd & Hdis & _).
    assert (Ht : taken (eq p) s s1).
    { intros q. unfold free_frame. rewrite Hls1, Hls, elem_of_app, list_elem_of_singleton. change (pg_dma_map s1) with (pg_dma_map s). split.
      - intros [Hq|Hq]; [split; [tauto|]; intros ->; apply (Hdis q Hq); by apply list_elem_of_singleton|].
        split; [tauto|]. intros ->. pose proof (fk_high _ _ Hs q Hin). destruct Hq. unfold DMA_PAGES in *. lia.
      - intros [[[?| ->]|?] Hne]; [tauto|congruence|tauto]. }
    apply wp_bind. unfold wp at 1, modify. fold s1. rewrite Hp. apply wp_bind, wp_ret. rewrite (proj2 (Z.eqb_neq _ _)) by lia. apply wp_ret.
    split; [|split; [by left|split; [done|split; [done|unfold free_count, s1; cbn; lia]]]].
    split; [|by rewrite Hls1| |apply Hs|apply Hs| |apply Hs|apply Hs].
    + exists l. split; [done|]. cbn. lia.
    + intros q Hq. apply (fk_high _ _ Hs). rewrite Hls. apply elem_of_app. left. by rewrite Hls1 in Hq.
    + intros q [Hq _]%Ht. by apply (fk_in _ _ Hs).
Qed.

Lemma pg_free_ok U p s :
  fr_ok U s -> p ∈ U -> ~ free_frame s p ->
  wp (pg_free p) (fun _ s' => fr_ok U s' /\ put_back (eq p) s s' /\ free_count s' = free_count s + 1) (fun _ _ => False) s.
Proof.
  intros Hs Hp Hno. pose proof (fk_range _ _ Hs p Hp) as Hr. destruct (fk_list _ _ Hs) as (l & El & Hn & Hlen). unfold pg_free.
  rewrite (proj2 (Z.eqb_neq _ _)) by lia. apply wp_bind, wp_gets. rewrite El. destruct (Z.ltb_spec p DMA_PAGES) as [Hd|Hd].
  - eapply wp_mono; [apply (pg_free_dma_ok U p 1 s Hs)| |done]; [lia| |].
    + unfold in_run. intros q Hq. by replace q with p by lia.
    + intros [] s' (Hs' & Hb & Hc). split; [done|]. split; [|done]. intros q. rewrite (Hb q). unfold in_run. split; (intros [?|?]; [tauto|right; lia]).
  - assert (Hroom : (Z.to_nat (pg_nfree s) < length l)%nat).
    { assert (p :: listed s ⊆+ U) as Hsub%submseteq_length.
      { apply NoDup_submseteq; [apply NoDup_cons; split; [intros ?; apply Hno; by left|apply Hs]|].
        intros q [->|Hq]%elem_of_cons; [done|]. apply (fk_in _ _ Hs). by left. }
      cbn in Hsub. pose proof (listed_length _ _ Hs). lia. }
    rewrite (proj2 (Nat.leb_gt _ _)) by done. unfold wp, modify. pose proof (fr_small _ _ Hs). pose proof (listed_le _ _ Hs).
    rewrite u32_small by lia. set (s1 := set_nfree _ _).
    assert (Hls1 : listed s1 = listed s ++ [p]).
    { unfold listed, s1. cbn. rewrite El. replace (Z.to_nat (pg_nfree s + 1)) with (S (Z.to_nat (pg_nfree s))) by lia.
      rewrite (take_S_r _ _ p) by (by apply list_lookup_insert_eq). by rewrite take_insert_ge by lia. }
    assert (Hb : put_back (eq p) s s1).
    { intros q. unfold free_frame. rewrite Hls1, elem_of_app, list_elem_of_singleton. change (pg_dma_map s1) with (pg_dma_map s).
      split; [intros [[?| ->]|?]; tauto|intros [[?|?]| ->]; tauto]. }
    split; [|split; [done|unfold free_count, s1; cbn; lia]].
    split; [| | |apply Hs|apply Hs| |apply Hs|apply Hs].
    + eexists. split; [done|]. cbn. rewrite length_insert. lia.
    + rewrite Hls1. apply NoDup_app. split; [apply Hs|]. split; [|apply NoDup_singleton].
      intros q Hq ->%list_elem_of_singleton. apply Hno. by left.
    + intros q. rewrite Hls1, elem_of_app, list_elem_of_singleton. intros [Hq| ->]; [by apply (fk_high _ _ Hs)|done].
    + intros q [Hq|<-]%Hb; [by apply (fk_in _ _ Hs)|done].
Qed.

(** * Histories *)

(** What a client of the frame allocator may do: it returns frames it owns. *)
Inductive fr_op := OpAlloc | OpFree (p : Z) | OpAllocDma (n : Z) | OpFreeDma (p n : Z).
Definition fr_legal (own : list Z) (op : fr_op) : Prop :=
  match op with
  | OpAlloc => True
  | OpFree p => p ∈ own
  | OpAllocDma n => 0 < n
  | OpFreeDma p n => 0 < n /\ forall q, in_run p n q -> q ∈ own /\ q < DMA_PAGES
  end.
Definition fr_exec (own : list Z) (op : fr_op) : M frames (list Z) :=
  match op with
  | OpAlloc => p <~ pg_alloc;; ret (p :: own)
  | OpFree p => pg_free p;;; ret (list_difference own [p])
  | OpAllocDma n => p <~ pg_alloc_dma n;; ret (seqZ p n ++ own)
  | OpFreeDma p n => pg_free_dma p n;;; ret (list_difference own (seqZ p n))
  end.
(** A step that is refused for lack of memory leaves the client as it was. *)
Inductive fr_step : frames * list Z -> frames * list Z -> Prop :=
| FrRet own op s own' s' : fr_legal own op -> fr_exec own op s = Ret own' s' -> fr_step (s, own) (s', own')
| FrErr own op s e s' : fr_legal own op -> fr_exec own op s = Err e s' -> fr_step (s, own) (s', own).

(** Every managed frame is either free or owned, never both. *)
Record shared_out (U : list Z) (s : frames) (own : list Z) : Prop := SharedOut {
  so_ok : fr_ok U s;
  so_nodup : NoDup own;
  so_split : forall p, p ∈ U <-> p ∈ own \/ free_frame s p;
  so_not_free : forall p, p ∈ own -> ~ free_frame s p;
  so_count : Z.of_nat (length own) + free_count s = Z.of_nat (length U)
}.

Lemma length_list_difference (l r : list Z) :
  NoDup l -> NoDup r -> (forall x, x ∈ r -> x ∈ l) -> (length (list_difference l r) + length r = length l)%nat.
Proof.
  intros Hl Hr Hin. rewrite <- length_app. apply Permutation_length, NoDup_Permutation; [|done|].
  - apply NoDup_app. split; [by apply NoDup_list_difference|]. split; [|done]. by intros x [_ ?]%list_elem_of_difference.
  - intros x. rewrite elem_of_app, list_elem_of_difference. destruct (decide (x ∈ r)); naive_solver.
Qed.

(** Frames taken out of the free ones go to the client ... *)
Lemma so_take U s own r s' :
  shared_out U s own -> fr_ok U s' -> NoDup r -> (forall p, p ∈ r -> free_frame s p) -> taken (fun q => q ∈ r) s s' ->
  free_count s' = free_count s - Z.of_nat (length r) -> shared_out U s' (r ++ own).
Proof.
  intros [H1 H2 H3 H4 H5] Hs' Hr Hf Ht Hc. split; [done| | | |].
  - apply NoDup_app. split; [done|]. split; [|done]. intros p Hp Ho. by apply (H4 p Ho), Hf.
  - intros p. rewrite H3, elem_of_app, (Ht p). destruct (decide (p ∈ r)); naive_solver.
  - intros p [Hp|Hp]%elem_of_app [Hfr Hn]%Ht; [done|]. by apply (H4 p).
  - rewrite length_app. lia.
Qed.
(** ... and back. *)
Lemma so_give U s own r s' :
  shared_out U s own -> fr_ok U s' -> NoDup r -> (forall p, p ∈ r -> p ∈ own) -> put_back (fun q => q ∈ r) s s' ->
  free_count s' = free_count s + Z.of_nat (length r) -> shared_out U s' (list_difference own r).
Proof.
  intros [H1 H2 H3 H4 H5] Hs' Hr Hin Hb Hc. split; [done|by apply NoDup_list_difference| | |].
  - intros p. rewrite H3, list_elem_of_difference, (Hb p). destruct (decide (p ∈ r)); naive_solver.
  - intros p [Hp Hn]%list_elem_of_difference [Hf|?]%Hb; [|done]. by apply (H4 p).
  - pose proof (length_list_difference own r H2 Hr Hin). lia.
Qed.

Lemma elem_of_run p n q : q ∈ seqZ p n <-> in_run p n q.
Proof. apply elem_of_seqZ. Qed.

Lemma fr_exec_ok U s own op :
  shared_out U s own -> fr_legal own op ->
  wp (fr_exec own op) (fun own' s' => shared_out U s' own') (fun e s' => e = ENOMEM /\ s' = s) s.
Proof.
  intros Hso. pose proof (so_ok _ _ _ Hso) as Hs. destruct op as [|p|n|p n]; cbn [fr_legal fr_exec].
  - intros _. eapply wp_seq; [by apply (pg_alloc_ok U)| |by intros e s' (-> & -> & _)].
    intros p s' (Hs' & Hf & _ & Ht & Hc). apply wp_ret. apply (so_take U s own [p] s'); try done.
    + apply NoDup_singleton.
    + by intros q ->%list_elem_of_singleton.
    + intros q. rewrite (Ht q), list_elem_of_singleton. naive_solver.
  - intros Hp. eapply wp_seq; [apply (pg_free_ok U p s Hs); [by apply (so_split _ _ _ Hso); left|by apply (so_not_free _ _ _ Hso)]| |done].
    intros [] s' (Hs' & Hb & Hc). apply wp_ret. apply (so_give U s own [p] s'); try done.
    + apply NoDup_singleton.
    + by intros q ->%list_elem_of_singleton.
    + intros q. rewrite (Hb q), list_elem_of_singleton. naive_solver.
  - intros Hn. eapply wp_seq; [by apply (pg_alloc_dma_ok U n)| |by intros e s' (-> & -> & _)].
    intros p s' (Hs' & [Hf _] & _ & _ & Ht & Hc). apply wp_ret. apply (so_take U s own (seqZ p n) s'); try done.
    + apply NoDup_seqZ.
    + intros q Hq%elem_of_run. right. by apply Hf.
    + intros q. rewrite (Ht q), elem_of_run. done.
    + rewrite length_seqZ. lia.
  - intros [Hn Hq]. eapply wp_seq; [apply (pg_free_dma_ok U p n s Hs Hn)| |done].
    + intros q Hr. destruct (Hq q Hr) as [Ho Hd]. split; [by apply (so_split _ _ _ Hso); left|]. split; [done|]. by apply (so_not_free _ _ _ Hso).
    + intros [] s' (Hs' & Hb & Hc). apply wp_ret. apply (so_give U s own (seqZ p n) s'); try done.
      * apply NoDup_seqZ.
      * intros q Hr%elem_of_run. by apply Hq.
      * intros q. rewrite (Hb q), elem_of_run. done.
      * rewrite length_seqZ. lia.
Qed.

