(* ===== verification/PageInit.v ===== *)
(** The frames after start-up (kern/arch-i386/page.c, [pg_count], [pg_collect] and
    the end of [pg_init]): every page of the memory above 1 MB is free, the pages
    that hold the free list among them. *)

From S2P Require Import Prelude Frame PageFrames PageFramesOk.

(** The pages of an entry of the memory map that [pg_count] counts, and those that
    [pg_collect] frees. *)
Definition ent_span (me : kmapent) : option (Z * Z) :=
  if km_type me =? KMAPENT_MEM then
    match ent_range me with Some (base, e) => Some (page_range base e) | None => None end
  else None.
Definition span_pages (o : option (Z * Z)) : list Z := match o with Some (b, e) => seqZ b (e - b) | None => [] end.
Definition counted (me : kmapent) : list Z := span_pages (ent_span me).
Definition collected (me : kmapent) : list Z := if 0x100000 <=? km_base me then counted me else [].

(** A memory map as a loader reports it: whole regions that do not overlap. *)
Record map_sane (mm : list kmapent) : Prop := MapSane {
  ms_order : forall me b e, me ∈ mm -> ent_span me = Some (b, e) -> b <= e;
  ms_disjoint : NoDup (concat (counted <$> mm))
}.

Lemma in_concat {A} (x : A) (ls : list (list A)) : x ∈ concat ls <-> exists l, x ∈ l /\ l ∈ ls.
Proof.
  induction ls as [|l ls IH]; cbn; [split; [by intros ?%not_elem_of_nil|by intros (l & _ & ?%not_elem_of_nil)]|].
  rewrite elem_of_app, IH. split.
  - intros [?|(l' & ? & ?)]; [exists l; split; [done|left]|exists l'; split; [done|by right]].
  - intros (l' & Hx & [->|Hl]%elem_of_cons); [by left|right; eauto].
Qed.

Lemma page_range_bounds base e b' e' : 0 <= base < 2 ^ 32 -> 0 <= e < 2 ^ 32 -> page_range base e = (b', e') -> 0 <= b' < 2 ^ 20 /\ 0 <= e' < 2 ^ 20.
Proof.
  intros Hb He. unfold page_range, PAGE_SIZE, PAGE_SHIFT. set (x := if negb _ then _ else _).
  assert (0 <= x < 2 ^ 32) by (unfold x; destruct (negb _); [apply u32_range|done]). intros [= <- <-].
  rewrite !Z.shiftr_div_pow2 by lia. Z.div_mod_to_equations; lia.
Qed.
Lemma ent_range_bounds me base e : ent_range me = Some (base, e) -> base = km_base me /\ 0 <= base < 2 ^ 32 /\ 0 <= e < 2 ^ 32 /\ base + e < 2 ^ 32.
Proof.
  unfold ent_range. destruct (Z.eqb_spec (u32 (km_base me)) (km_base me)) as [E|]; cbn [negb]; [|done]. destruct (negb _); [done|].
  destruct (Z.ltb_spec (u32 (u32 (km_base me) + u32 (u32 (km_base me) + u32 (km_size me)))) (u32 (km_base me))) as [|Hge]; [done|].
  intros [= <- <-]. pose proof (u32_range (km_base me)). pose proof (u32_range (u32 (km_base me) + u32 (km_size me))).
  split_and!; [done|lia..|]. set (x := u32 (km_base me)) in *. set (y := u32 (x + u32 (km_size me))) in *. unfold u32 in Hge.
  destruct (decide (x + y < 2 ^ 32)); [done|]. rewrite <- (Z.mod_unique (x + y) (2 ^ 32) 1 (x + y - 2 ^ 32)) in Hge by lia. lia.
Qed.
Lemma ent_span_bounds me b e : ent_span me = Some (b, e) -> 0 <= b < 2 ^ 20 /\ 0 <= e < 2 ^ 20.
Proof.
  unfold ent_span. destruct (_ =? _); [|done]. destruct (ent_range me) as [[base e']|] eqn:E; [|done].
  apply ent_range_bounds in E as (_ & Hb & He & _). destruct (page_range base e') as [x y] eqn:Ep. intros [= <- <-]. exact (page_range_bounds _ _ _ _ Hb He Ep).
Qed.
(** A region above 1 MB has no page below it. *)
Lemma ent_span_high me b e : ent_span me = Some (b, e) -> 0x100000 <= km_base me -> 256 <= b \/ e = 0.
Proof.
  unfold ent_span. destruct (_ =? _); [|done]. destruct (ent_range me) as [[base e']|] eqn:E; [|done].
  apply ent_range_bounds in E as (Hk & Hb & He & Hw). unfold page_range, PAGE_SIZE, PAGE_SHIFT. intros [= <- <-] Hh.
  rewrite !Z.shiftr_div_pow2 by lia. destruct (negb _); [|left; Z.div_mod_to_equations; lia]. unfold u32.
  destruct (decide (base + 4096 < 2 ^ 32)) as [Hlt|Hge].
  - left. rewrite Z.mod_small by lia. Z.div_mod_to_equations; lia.
  - right. apply Z.div_small. lia.
Qed.
Lemma collected_high me p : p ∈ collected me -> 256 <= p < 2 ^ 20.
Proof.
  unfold collected, counted. destruct (Z.leb_spec 0x100000 (km_base me)) as [Hh|]; [|by intros ?%not_elem_of_nil].
  destruct (ent_span me) as [[b e]|] eqn:E; cbn; [|by intros ?%not_elem_of_nil]. intros Hp%elem_of_seqZ.
  pose proof (ent_span_bounds _ _ _ E). destruct (ent_span_high _ _ _ E Hh); lia.
Qed.

(** ** Counting *)

(** The region the free list is put into. *)
Definition area_of (mm : list kmapent) (b e : Z) : Prop :=
  exists me, me ∈ mm /\ ent_span me = Some (b, e) /\ 0x100000 <= km_base me.

Lemma count_ent_span me st :
  count_ent me st =
    match ent_span me with
    | None => st
    | Some (b, e) =>
      let st := set_total (u32 (pg_total st + (e - b))) st in
      if (0x100000 <=? km_base me) && (b <? pg_flist_base st) then set_flist_area b e st else st
    end.
Proof.
  unfold count_ent, ent_span. destruct (km_type me =? KMAPENT_MEM); [|done]. cbn [negb].
  destruct (ent_range me) as [[base e]|]; [|done]. destruct (page_range base e). done.
Qed.

Lemma seqZ_length_span me b e : ent_span me = Some (b, e) -> b <= e -> Z.of_nat (length (counted me)) = e - b.
Proof. intros E Hle. unfold counted. rewrite E. cbn. rewrite length_seqZ. lia. Qed.

(** Page numbers are below [2 ^ 20], so disjoint regions have few pages. *)
Lemma counted_range mm p : p ∈ concat (counted <$> mm) -> 0 <= p < 2 ^ 20.
Proof.
  intros (l & Hp & (me & -> & _)%list_elem_of_fmap)%in_concat. unfold counted in Hp.
  destruct (ent_span me) as [[b e]|] eqn:E; cbn in Hp; [|by apply not_elem_of_nil in Hp].
  apply ent_span_bounds in E. apply elem_of_seqZ in Hp. lia.
Qed.
Lemma counted_small mm : NoDup (concat (counted <$> mm)) -> Z.of_nat (length (concat (counted <$> mm))) <= 2 ^ 20.
Proof.
  intros Hn. assert (concat (counted <$> mm) ⊆+ seqZ 0 (2 ^ 20)) as Hsub%submseteq_length.
  { apply NoDup_submseteq; [done|]. intros p Hp%counted_range. apply elem_of_seqZ. lia. }
  rewrite length_seqZ in Hsub. lia.
Qed.

Lemma count_loop_ok mm st :
  (forall me b e, me ∈ mm -> ent_span me = Some (b, e) -> b <= e) ->
  0 <= pg_total st -> pg_total st + Z.of_nat (length (concat (counted <$> mm))) < 2 ^ 32 ->
  let st' := foldl (fun st me => count_ent me st) st mm in
  pg_total st' = pg_total st + Z.of_nat (length (concat (counted <$> mm))) /\
  (exists b e, st' = set_total (pg_total st') (set_flist_area b e st) /\
     (b = pg_flist_base st /\ e = pg_flist_end st /\ (forall b' e', area_of mm b' e' -> b <= b') \/ area_of mm b e)).
Proof.
  revert st. induction mm as [|me mm IH]; intros st Ho H0 Hb; cbn [foldl].
  { cbn in *. split; [lia|]. exists (pg_flist_base st), (pg_flist_end st). split; [by destruct st|left]. split; [done|]. split; [done|]. by intros b' e' (me & ?%not_elem_of_nil & _). }
  rewrite fmap_cons in *. cbn [concat] in *. rewrite length_app in Hb |- *. rewrite count_ent_span.
  assert (Hsub : forall b e, area_of mm b e -> area_of (me :: mm) b e).
  { intros b e (me' & Hin & Hx). exists me'. split; [by right|done]. }
  destruct (ent_span me) as [[b e]|] eqn:E.
  2: { assert (counted me = []) as Hc by (unfold counted; by rewrite E). rewrite Hc in Hb |- *. cbn [length] in *.
    destruct (IH st) as [Ht (b & e & Es & Ha)]; [by intros; eapply Ho; [right|]|done|lia|]. split; [lia|].
    exists b, e. split; [done|]. destruct Ha as [(? & ? & Hm)|?]; [left|right; auto]. split; [done|]. split; [done|].
    intros b' e' (me' & [->|Hin]%elem_of_cons & Hx & Hh); [congruence|]. eapply Hm. by exists me'. }
  assert (Hle : b <= e) by (eapply Ho; [left|done]). pose proof (seqZ_length_span _ _ _ E Hle) as Hlen.
  rewrite u32_small by lia. cbn zeta. set (st1 := set_total _ st).
  set (st2 := if (0x100000 <=? km_base me) && (b <? pg_flist_base st1) then set_flist_area b e st1 else st1).
  assert (Ht2 : pg_total st2 = pg_total st + (e - b)) by (unfold st2; by destruct (_ && _)).
  destruct (IH st2) as [Ht (b2 & e2 & Es & Ha)]; [by intros; eapply Ho; [right|]|lia|lia|]. split; [lia|].
  exists b2, e2. split.
  - rewrite Es at 1. unfold st2, st1. by destruct (_ && _).
  - destruct Ha as [(-> & -> & Hm)|Ha]; [|right; auto]. unfold st2 in *.
    destruct (Z.leb_spec 0x100000 (km_base me)) as [Hh|Hh], (Z.ltb_spec b (pg_flist_base st1)) as [Hlt|Hge]; cbn [andb] in *;
      [right; exists me; split; [left|done]|left..]; (split; [done|split; [done|]]);
      intros b' e' (me' & [->|Hin]%elem_of_cons & Hx & Hh'); try (eapply Hm; by exists me'); [|lia..].
    rewrite Hx in E. injection E as -> ->. done.
Qed.

(** ** Collecting *)

(** What freeing frames leaves alone. *)
Definition same_static (s s' : frames) : Prop :=
  pg_total s' = pg_total s /\ pg_flist_base s' = pg_flist_base s /\ pg_flist_end s' = pg_flist_end s.
#[export] Instance same_static_pre : PreOrder same_static.
Proof. split; [done|]. intros s1 s2 s3 (? & ? & ?) (? & ? & ?). split_and!; congruence. Qed.

Lemma pg_free_dma_static p n : keeps same_static (pg_free_dma p n).
Proof.
  unfold pg_free_dma. case_match; [apply keeps_halted|]. apply keeps_bind; [apply _| |intros _; by apply keeps_modify].
  generalize p. induction (Z.to_nat n) as [|m IH]; intros q; cbn [free_dma_loop]; [apply keeps_ret, _|].
  apply keeps_bind; [apply _|apply keeps_gets, _|]. intros st. apply keeps_bind; [apply _|apply keeps_deref, _|]. intros b. case_match; [apply keeps_halted|].
  apply keeps_bind; [apply _|by apply keeps_modify|]. auto.
Qed.
Lemma pg_free_static p : keeps same_static (pg_free p).
Proof.
  unfold pg_free. case_match; [apply keeps_halted|]. apply keeps_bind; [apply _|apply keeps_gets, _|]. intros st.
  case_match; [|apply keeps_halted]. case_match; [apply pg_free_dma_static|]. case_match; [apply keeps_halted|]. by apply keeps_modify.
Qed.

Lemma collect_pages_ok U m n s :
  fr_ok U s -> (forall q, in_run n (Z.of_nat m) q -> q ∈ U /\ ~ free_frame s q) ->
  free_count s + Z.of_nat m <= pg_total s -> pg_total s < 2 ^ 32 ->
  wp (collect_pages m n)
    (fun _ s' => fr_ok U s' /\ put_back (in_run n (Z.of_nat m)) s s' /\ free_count s' = free_count s + Z.of_nat m /\ same_static s s')
    (fun _ _ => False) s.
Proof.
  revert n s. induction m as [|m IH]; intros n s Hs Hq Hc Ht; cbn [collect_pages].
  { apply wp_ret. split; [done|]. split; [|split; [lia|done]]. intros q. unfold in_run. split; [tauto|]. intros [?|?]; [done|lia]. }
  apply wp_bind, wp_gets. destruct (Hq n) as [Hn Hno]; [unfold in_run; lia|].
  assert (0 <= free_count s) by (unfold free_count; pose proof (dma_count _ _ Hs); destruct (fk_list _ _ Hs) as (? & _ & ? & _); lia).
  unfold free_count in *. rewrite u32_small, (proj2 (Z.ltb_lt _ _)) by lia.
  pose proof (pg_free_ok U n s Hs Hn Hno) as Hw. pose proof (pg_free_static n s) as Hk. apply wp_bind. unfold wp at 1. unfold wp in Hw. unfold wlp in Hk.
  destruct (pg_free n s) as [u s1|e s1|]; [|done|done]. destruct Hw as (Hs1 & Hb & Hc1). unfold free_count in *.
  eapply wp_mono; [apply (IH (n + 1) s1 Hs1)| |done].
  - intros q Hr. unfold in_run in *. destruct (Hq q) as [HU Hf]; [lia|]. split; [done|]. intros [?|?]%Hb; [done|lia].
  - unfold free_count. destruct Hk as (-> & _). lia.
  - by destruct Hk as (-> & _).
  - intros [] s2 (Hs2 & Hb2 & Hc2 & Hk2). split; [done|]. split; [|split; [unfold free_count in *; lia|by etrans]].
    intros q. rewrite (Hb2 q), (Hb q). unfold in_run. split; [intros [[?|?]|?]|intros [?|?]]; try tauto; try (right; lia).
    destruct (decide (q = n)); [left; right; lia|right; lia].
Qed.

Lemma collect_ent_ok U me s :
  fr_ok U s -> (forall b e, ent_span me = Some (b, e) -> b <= e) ->
  (forall q, q ∈ collected me -> q ∈ U /\ ~ free_frame s q) ->
  free_count s + Z.of_nat (length (collected me)) <= pg_total s -> pg_total s < 2 ^ 32 -> pg_flist_end s <= 0x100000 ->
  wp (collect_ent me)
    (fun _ s' => fr_ok U s' /\ put_back (fun q => q ∈ collected me) s s' /\
       free_count s' = free_count s + Z.of_nat (length (collected me)) /\ same_static s s')
    (fun _ _ => False) s.
Proof.
  intros Hs Ho Hq Hc Ht He. unfold collect_ent, collected, counted, ent_span in *.
  assert (Hskip : collected me = [] -> wp (A := unit) (ret tt) (fun _ s' => fr_ok U s' /\ put_back (fun q => q ∈ collected me) s s' /\
    free_count s' = free_count s + Z.of_nat (length (collected me)) /\ same_static s s') (fun _ _ => False) s).
  { intros ->. apply wp_ret. split; [done|]. split; [|split; [cbn; lia|done]]. intros q. rewrite elem_of_nil. tauto. }
  unfold collected, counted, ent_span in Hskip.
  destruct (Z.leb_spec 0x100000 (km_base me)) as [Hh|Hh]; [|rewrite andb_false_r; by apply Hskip].
  destruct (km_type me =? KMAPENT_MEM); cbn [andb negb]; [|by apply Hskip].
  destruct (ent_range me) as [[base e]|] eqn:Er; [|by apply Hskip]. apply ent_range_bounds in Er as (Hk & Hb & Hbe & Hw).
  apply wp_bind, wp_gets. rewrite (proj2 (Z.ltb_ge base _)) by lia. rewrite andb_false_r.
  destruct (page_range base e) as [b' e'] eqn:Ep. specialize (Ho b' e' eq_refl). cbn [span_pages] in *.
  pose proof (page_range_bounds _ _ _ _ Hb Hbe Ep) as [Hb' He'].
  assert (Hpages : base <= b' * 4096 \/ b' = 0 /\ 2 ^ 32 - 4096 <= base).
  { unfold page_range, PAGE_SIZE, PAGE_SHIFT, PAGE_PMASK in Ep. injection Ep as <- _. rewrite Z.shiftr_div_pow2 by lia.
    change 0xfff with (Z.ones 12). rewrite Z.land_ones by lia. destruct (Z.eqb_spec (base mod 2 ^ 12) 0) as [E|E]; cbn [negb].
    - left. Z.div_mod_to_equations; lia.
    - unfold u32. destruct (decide (base + 4096 < 2 ^ 32)).
      + left. rewrite Z.mod_small by lia. Z.div_mod_to_equations; lia.
      + right. split; [apply Z.div_small|]; Z.div_mod_to_equations; lia. }
  assert (He12 : e' = e / 4096) by (unfold page_range, PAGE_SHIFT in Ep; injection Ep as _ <-; by rewrite Z.shiftr_div_pow2 by lia).
  destruct (decide (e <= base)) as [Hle|Hgt].
  - assert (Hem : seqZ b' (e' - b') = []).
    { apply seqZ_nil. destruct Hpages as [Hp|[-> Hp]]; Z.div_mod_to_equations; lia. }
    rewrite (proj2 (Z.leb_le _ _)); [by apply Hskip|]. destruct (Z.leb_spec (pg_flist_base s) e); cbn [andb]; [|done].
    destruct (e <? pg_flist_end s); lia.
  - rewrite (proj2 (Z.ltb_ge e _)) by lia. rewrite andb_false_r, (proj2 (Z.leb_gt _ _)), Ep by lia.
    rewrite length_seqZ in Hc.
    eapply wp_mono; [apply (collect_pages_ok U (Z.to_nat (e' - b')) b' s Hs)| |done].
    + intros q Hr. apply Hq, elem_of_seqZ. unfold in_run in Hr. lia.
    + lia.
    + done.
    + intros [] s' (Hs' & Hb2 & Hc2 & Hk2). split; [done|]. split; [|split; [rewrite length_seqZ; lia|done]].
      intros q. rewrite (Hb2 q), elem_of_seqZ. unfold in_run. by rewrite Z2Nat.id by lia.
Qed.

Lemma pg_collect_ok U mm s :
  fr_ok U s -> (forall me b e, me ∈ mm -> ent_span me = Some (b, e) -> b <= e) -> NoDup (concat (collected <$> mm)) ->
  (forall q, q ∈ concat (collected <$> mm) -> q ∈ U /\ ~ free_frame s q) ->
  free_count s + Z.of_nat (length (concat (collected <$> mm))) <= pg_total s -> pg_total s < 2 ^ 32 -> pg_flist_end s <= 0x100000 ->
  wp (pg_collect mm)
    (fun _ s' => fr_ok U s' /\ put_back (fun q => q ∈ concat (collected <$> mm)) s s' /\
       free_count s' = free_count s + Z.of_nat (length (concat (collected <$> mm))) /\ same_static s s')
    (fun _ _ => False) s.
Proof.
  revert s. induction mm as [|me mm IH]; intros s Hs Ho Hn Hq Hc Ht He; cbn [pg_collect].
  { apply wp_ret. split; [done|]. split; [|split; [cbn; lia|done]]. intros q. cbn. rewrite elem_of_nil. tauto. }
  rewrite fmap_cons in *. cbn [concat] in *. rewrite length_app in *. apply NoDup_app in Hn as (_ & Hdis & Hn).
  eapply wp_seq; [apply (collect_ent_ok U me s Hs); [by intros; eapply Ho; [left|]| |lia|done|done]| |done].
  { intros q Hin. apply Hq, elem_of_app. by left. }
  intros [] s1 (Hs1 & Hb & Hc1 & Hk). pose proof Hk as (Ek1 & Ek2 & Ek3).
  eapply wp_mono; [apply (IH s1 Hs1); [by intros; eapply Ho; [right|]|done| |lia|lia|lia]| |done].
  - intros q Hin. destruct (Hq q) as [HU Hf]; [apply elem_of_app; by right|]. split; [done|]. intros [?|Hx]%Hb; [done|]. by apply (Hdis q).
  - intros [] s2 (Hs2 & Hb2 & Hc2 & Hk2). split; [done|]. split; [|split; [lia|by etrans]].
    intros q. rewrite (Hb2 q), (Hb q), elem_of_app. tauto.
Qed.

Lemma collected_sub mm : concat (collected <$> mm) `sublist_of` concat (counted <$> mm).
Proof.
  induction mm as [|me mm IH]; cbn; [done|]. apply sublist_app; [|done]. unfold collected. destruct (_ <=? _); [done|apply sublist_nil_l].
Qed.

(** The free list fits into the region it is put in. *)
Definition list_fits (mm : list kmapent) : Prop :=
  (exists b e, area_of mm b e) /\
  forall b e, area_of mm b e -> (Z.of_nat (length (concat (counted <$> mm))) + 1023) / 1024 <= e - b.

(** Start-up hands over all the memory: for a memory map of regions that do not
    overlap, [pg_init] leaves exactly the pages of the regions above 1 MB free, each
    once, and counts them.  The pages that hold the free list itself are free too:
    [pg_collect] compares byte addresses with the page numbers [pg_flist_base] and
    [pg_flist_end], so nothing is left out. *)
Theorem pg_init_collects mm :
  map_sane mm -> list_fits mm ->
  wp (pg_init_frames mm)
    (fun _ s => shared_out (concat (collected <$> mm)) s [] /\
       pg_flist_end s = pg_flist_base s + (pg_total s + 1023) / 1024 /\
       forall p, pg_flist_base s <= p < pg_flist_end s -> free_frame s p)
    (fun _ _ => False) frames0.
Proof.
  intros [Ho Hd] [(b0 & e0 & Ha0) Hfit]. set (U := concat (collected <$> mm)). set (n := Z.of_nat (length (concat (counted <$> mm)))) in *.
  pose proof (counted_small mm Hd) as Hsm. fold n in Hsm.
  destruct (count_loop_ok mm (set_total 0 frames0)) as [Ht (b & e & Est & Har)]; [done|cbn; lia|cbn; fold n; lia|]. fold n in Ht.
  unfold pg_init_frames. apply wp_bind. unfold pg_count, wp at 1, modify. cbn beta. set (st := foldl _ _ mm) in *. cbn [pg_total set_total] in Ht.
  assert (Ha : area_of mm b e).
  { destruct Har as [(-> & _ & Hm)|]; [exfalso|done]. specialize (Hm b0 e0 Ha0). cbn in Hm.
    destruct Ha0 as (me & _ & Hsp & _). apply ent_span_bounds in Hsp. lia. }
  pose proof Ha as (me & Hme & Hsp & Hh). pose proof (ent_span_bounds _ _ _ Hsp) as Hbe. specialize (Hfit b e Ha).
  assert (Eb : pg_flist_base st = b /\ pg_flist_end st = e) by (rewrite Est; done). destruct Eb as [Eb Ee].
  assert (0 <= (n + 1023) / 1024) as Hf0 by (apply Z.div_pos; lia).
  apply wp_bind, wp_gets. rewrite Ht, Eb, Ee, Z.add_0_l. rewrite (u32_small (n + 1023)), (u32_small (e - b)) by lia.
  set (fsz := (n + 1023) / 1024) in *.
  rewrite (proj2 (Z.ltb_ge _ _)) by done. apply wp_bind. unfold wp at 1, modify. rewrite Eb, (u32_small (b + fsz)) by lia.
  set (s1 := set_flist _ _). assert (Hl1 : listed s1 = []) by (unfold listed, s1; rewrite Est; cbn; by rewrite take_0).
  assert (Hm1 : pg_dma_map s1 = replicate 4096 false) by (unfold s1; rewrite Est; done).
  assert (Hno : forall q, ~ free_frame s1 q).
  { intros q [Hq|[_ Hq]]; [rewrite Hl1 in Hq; by apply not_elem_of_nil in Hq|]. rewrite Hm1 in Hq. by apply lookup_replicate in Hq as [? _]. }
  assert (Hlu : Z.of_nat (length U) <= n) by (apply Nat2Z.inj_le, sublist_length, collected_sub).
  assert (HnU : NoDup U) by (exact (sublist_NoDup _ _ Hd (collected_sub mm))).
  assert (Hs1 : fr_ok U s1).
  { split; [|by rewrite Hl1; constructor|by rewrite Hl1; intros ? ?%not_elem_of_nil|by rewrite Hm1|by rewrite Hm1; unfold s1; rewrite Est; vm_compute| |done|].
    - eexists. split; [done|]. rewrite length_replicate. unfold s1. rewrite Est. cbn. unfold fsz. Z.div_mod_to_equations; lia.
    - intros q Hq. by apply Hno in Hq.
    - intros q (l & Hq & (me' & -> & _)%list_elem_of_fmap)%in_concat. apply collected_high in Hq. lia. }
  assert (Hst1 : pg_total s1 = n /\ pg_flist_base s1 = b /\ pg_flist_end s1 = b + fsz) by (unfold s1; cbn [pg_total pg_flist_base pg_flist_end set_flist set_flist_area]; lia). destruct Hst1 as (T1 & T2 & T3).
  assert (Hc1 : free_count s1 = 0) by (unfold free_count, s1; rewrite Est; done).
  eapply wp_mono; [apply (pg_collect_ok U mm s1 Hs1 Ho)| |done].
  - exact HnU.
  - intros q Hq. split; [done|apply Hno].
  - fold U. lia.
  - lia.
  - lia.
  - intros [] s2 (Hs2 & Hb2 & Hc2 & (K1 & K2 & K3)). fold U in Hb2, Hc2. split; [|split].
    + split; [done|constructor| |by intros ? ?%not_elem_of_nil|cbn; lia].
      intros q. rewrite (Hb2 q), elem_of_nil. specialize (Hno q). tauto.
    + rewrite K1, K2, K3, T1, T2, T3. done.
    + intros q Hq. apply Hb2. right. unfold U. apply in_concat. exists (collected me). split.
      * unfold collected, counted. rewrite (proj2 (Z.leb_le _ _)), Hsp by done. apply elem_of_seqZ. lia.
      * apply list_elem_of_fmap. by exists me.
Qed.
