(* ===== verification/Page.v ===== *)
(** Page tables and kernel memory of the i386 (kern/arch-i386/page.c, lines 45 to
    56 and 265 to 683, kern/lib/malloc.c, dma_malloc.c and phys_map.c).

    The memory of the machine is the contents of its frames, 4096 bytes each.  A
    directory is the array [pg_dir] of a task; [pg_tab], a window to the tables of
    the current directory, is the walk through that directory: an access through
    an entry that is not present is a fault inside of the kernel, [Undefined].
    Flushing the translation buffer has no counterpart.  [pg_dirs] has the
    directories of the tasks and the current one.  The header of a block of kernel
    memory is kept in [kmalloc_list] and not among the bytes of its page. *)

From S2P Require Import Prelude PageFrames.

Definition PAGE_TMP : Z := 7.
Definition PAGE_TAB : Z := 0x1000.
Definition PAGE_DYN : Z := 0x1400.
Definition PAGE_USER : Z := 0x40000.
Definition PAGE_USER_END : Z := 0x100000.
Definition PAGE_DYN_COUNT : Z := PAGE_USER - PAGE_DYN.
Definition PAGE_ITAB : Z := 3.

Definition PGF_PRESENT : Z := 1.
Definition PGF_WRITABLE : Z := 2.
Definition PGF_USER : Z := 4.
Definition PGF_PWT : Z := 8.
Definition PGF_PCD : Z := 16.
Definition PGF_PHYS : Z := 512.
Definition PGF_SPACE_IN_USE : Z := 1024.
Definition PGF_AUTO : Z := 1024.
Definition PGF_COW : Z := 2048.
Definition PGF_KERN : Z := Z.lor PGF_PRESENT (Z.lor PGF_WRITABLE PGF_SPACE_IN_USE).
Definition EFAULT : Z := 8.

(** An entry that maps frame [f], and its parts. *)
Definition pte (f flags : Z) : Z := u32 (Z.lor (Z.shiftl f 12) flags).
Definition pte_frame (e : Z) : Z := Z.shiftr e 12.
Definition has (e flag : Z) : bool := negb (Z.land e flag =? 0).

(** [struct mhead]: its page, the pages of the block and its name. *)
Record mhead := Mhead { mh_page : Z; mh_npages : Z; mh_name : list Z }.
Definition MHEAD_SIZE : Z := 32.

(** A signal the paging code raises for the current task ([signal_raise] and
    [signal_raise_fatal]); what becomes of it is Tasks.v. *)
Inductive sigcall := Raise (n : Z) | RaiseFatal (n : Z).

Record pager := Pager {
  pg_fr : frames;
  pg_vfree : Z;
  pg_dirs : gmap nat (list Z);
  pg_dir : nat;
  pg_mem : gmap Z (list Z);
  t_pg_count : Z;              (** [curr->pg_count] *)
  kmalloc_list : list mhead;
  pg_raised : list sigcall     (** the signals raised so far *)
}.
Definition set_fr (f : frames) (s : pager) : pager :=
  Pager f (pg_vfree s) (pg_dirs s) (pg_dir s) (pg_mem s) (t_pg_count s) (kmalloc_list s) (pg_raised s).
Definition set_vfree (v : Z) (s : pager) : pager :=
  Pager (pg_fr s) v (pg_dirs s) (pg_dir s) (pg_mem s) (t_pg_count s) (kmalloc_list s) (pg_raised s).
Definition set_dirs (m : gmap nat (list Z)) (s : pager) : pager :=
  Pager (pg_fr s) (pg_vfree s) m (pg_dir s) (pg_mem s) (t_pg_count s) (kmalloc_list s) (pg_raised s).
Definition set_dir (d : nat) (s : pager) : pager :=
  Pager (pg_fr s) (pg_vfree s) (pg_dirs s) d (pg_mem s) (t_pg_count s) (kmalloc_list s) (pg_raised s).
Definition set_mem (m : gmap Z (list Z)) (s : pager) : pager :=
  Pager (pg_fr s) (pg_vfree s) (pg_dirs s) (pg_dir s) m (t_pg_count s) (kmalloc_list s) (pg_raised s).
Definition set_count (n : Z) (s : pager) : pager :=
  Pager (pg_fr s) (pg_vfree s) (pg_dirs s) (pg_dir s) (pg_mem s) n (kmalloc_list s) (pg_raised s).
Definition set_kmalloc (l : list mhead) (s : pager) : pager :=
  Pager (pg_fr s) (pg_vfree s) (pg_dirs s) (pg_dir s) (pg_mem s) (t_pg_count s) l (pg_raised s).
Definition set_raised (l : list sigcall) (s : pager) : pager :=
  Pager (pg_fr s) (pg_vfree s) (pg_dirs s) (pg_dir s) (pg_mem s) (t_pg_count s) (kmalloc_list s) l.

Definition fr {A} (m : M frames A) : M pager A := zoom pg_fr set_fr m.

(** ** Memory *)

Definition frame (s : pager) (f : Z) : list Z := default (zeros PAGE_SIZE) (pg_mem s !! f).
Definition wr_frame (f : Z) (b : list Z) : M pager unit := modify (fun s => set_mem (<[f := b]> (pg_mem s)) s).

Definition rd_dir (t : Z) : M pager Z :=
  s <~ gets (fun s => s);;
  l <~ deref (pg_dirs s !! pg_dir s);;
  deref (l !! Z.to_nat t).
Definition wr_dir (t v : Z) : M pager unit :=
  modify (fun s => set_dirs (alter (fun l => <[Z.to_nat t := v]> l) (pg_dir s) (pg_dirs s)) s).
(** The frame of the table of page [i]. *)
Definition tab_frame (i : Z) : M pager Z :=
  e <~ rd_dir (i / 1024);;
  if has e PGF_PRESENT then ret (pte_frame e) else halted Undefined.
Definition rd_tab (i : Z) : M pager Z :=
  f <~ tab_frame i;; gets (fun s => get32 (frame s f) (4 * (i mod 1024))).
Definition wr_tab (i v : Z) : M pager unit :=
  f <~ tab_frame i;; s <~ gets (fun s => s);; wr_frame f (put32 (frame s f) (4 * (i mod 1024)) v).
(** The frame that page [i] of the address space is mapped to. *)
Definition page_frame (i : Z) : M pager Z :=
  e <~ rd_tab i;;
  if has e PGF_PRESENT then ret (pte_frame e) else halted Undefined.

(** [memset (page, 0, PAGE_SIZE)] and [memcpy] of a page. *)
Definition zero_page (i : Z) : M pager unit := f <~ page_frame i;; wr_frame f (zeros PAGE_SIZE).
Definition copy_page (d s : Z) : M pager unit :=
  fs <~ page_frame s;; fd <~ page_frame d;; st <~ gets (fun s => s);; wr_frame fd (frame st fs).
(** The table behind [&pg_tab[t << 10]]. *)
Definition zero_tab (t : Z) : M pager unit := f <~ tab_frame (1024 * t);; wr_frame f (zeros PAGE_SIZE).

(** [for (i = p; i < p + s; i++)]: the number of rounds. *)
Definition rounds_of (p s : Z) : nat := Z.to_nat (u32 (p + s) - p).

(** ** The kernel's address space *)

Definition pg_wradir (index value : Z) : M pager unit :=
  modify (fun s => set_dirs ((fun l => <[Z.to_nat index := value]> l) <$> pg_dirs s) s).

(** The search of [pg_adget].  A round goes on by at least one page, so the pages
    that are left are enough fuel. *)
Fixpoint adget_scan (fuel : nat) (s i start : Z) : M pager Z :=
  if negb (u32 (i - start) <? s) then ret start
  else if PAGE_DYN + PAGE_DYN_COUNT <=? i then fail ENOMEM
  else
    match fuel with
    | O => halted Undefined
    | S fuel' =>
      d <~ rd_dir (i / 1024);;
      if d =? 0 then adget_scan fuel' s (i + 4096) start
      else
        e <~ rd_tab i;;
        adget_scan fuel' s (i + 1) (if negb (e =? 0) then i + 1 else start)
    end.
Fixpoint adget_tables (n : nat) (t : Z) : M pager unit :=
  match n with
  | O => ret tt
  | S n' =>
    d <~ rd_dir t;;
    (if d =? 0 then
       f <~ fr pg_alloc;;
       pg_wradir t (pte f PGF_KERN);;;
       zero_tab t
     else ret tt);;;
    adget_tables n' (t + 1)
  end.
(** [pg_tab[i] = v] for [n] pages from [i] on. *)
Fixpoint fill_tab (n : nat) (i v : Z) : M pager unit :=
  match n with O => ret tt | S n' => wr_tab i v;;; fill_tab n' (i + 1) v end.

Definition pg_adget (s : Z) : M pager Z :=
  start <~ adget_scan (Z.to_nat PAGE_DYN_COUNT) s PAGE_DYN PAGE_DYN;;
  adget_tables (Z.to_nat (u32 (start + s + 1023) / 1024 - start / 1024)) (start / 1024);;;
  fill_tab (rounds_of start s) start PGF_SPACE_IN_USE;;;
  modify (fun st => set_vfree (u32 (pg_vfree st - s)) st);;;
  ret start.
Definition pg_adput (p s : Z) : M pager unit :=
  fill_tab (rounds_of p s) p 0;;;
  modify (fun st => set_vfree (u32 (pg_vfree st + s)) st).

Fixpoint atmem_loop (n : nat) (i : Z) (reuse : bool) : M pager unit :=
  match n with
  | O => ret tt
  | S n' =>
    e <~ rd_tab i;;
    if e =? 0 then panic "pg_atmem: call pg_adget first"
    else if negb (e =? PGF_SPACE_IN_USE) then
      (if reuse then atmem_loop n' (i + 1) reuse else panic "pg_atmem: address space already mapped")
    else
      r <~ attempt (fr pg_alloc);;
      match r with
      | inl _ => panic "pg_atmem: pg_alloc() failed"
      | inr m => wr_tab i (pte m PGF_KERN);;; atmem_loop n' (i + 1) reuse
      end
  end.
Definition pg_atmem (p s : Z) (reuse : bool) : M pager unit :=
  st <~ gets (fun st => st);;
  if u32 (pg_nfree (pg_fr st) + pg_nfree_dma (pg_fr st)) <? s then fail ENOMEM
  else atmem_loop (rounds_of p s) p reuse.

Fixpoint dtmem_loop (n : nat) (i : Z) : M pager unit :=
  match n with
  | O => ret tt
  | S n' =>
    e <~ rd_tab i;;
    if has e PGF_PRESENT then
      fr (pg_free (pte_frame e));;;
      wr_tab i PGF_SPACE_IN_USE;;;
      dtmem_loop n' (i + 1)
    else panic "pg_dtmem: page not present"
  end.
Definition pg_dtmem (p s : Z) : M pager unit := dtmem_loop (rounds_of p s) p.

(** Pages [p], ... mapped to the frames [m], ... *)
Fixpoint map_run (n : nat) (p m : Z) : M pager unit :=
  match n with O => ret tt | S n' => wr_tab p (pte m PGF_KERN);;; map_run n' (p + 1) (m + 1) end.
Definition pg_atdma (p s : Z) : M pager unit :=
  m <~ fr (pg_alloc_dma s);; map_run (Z.to_nat s) p m.
Definition pg_dtdma (p s : Z) : M pager unit :=
  e <~ rd_tab p;;
  fr (pg_free_dma (pte_frame e) s);;;
  fill_tab (Z.to_nat s) p PGF_SPACE_IN_USE.

Definition READ_CACHE : Z := 1.
Definition WRITE_CACHE : Z := 2.
Definition cache_flags (cache : Z) : option Z :=
  if (cache =? 0) || (cache =? WRITE_CACHE) then Some PGF_PCD
  else if cache =? Z.lor READ_CACHE WRITE_CACHE then Some 0
  else if cache =? READ_CACHE then Some PGF_PWT
  else None.
Fixpoint atphys_loop (n : nat) (p phys cache : Z) : M pager unit :=
  match n with
  | O => ret tt
  | S n' =>
    e <~ rd_tab p;;
    if e =? 0 then panic "pg_atphys: call pg_adget first"
    else if negb (e =? PGF_SPACE_IN_USE) then panic "pg_atphys: address space already mapped"
    else
      match cache_flags cache with
      | None => panic "pg_atphys: bad cache flags"
      | Some c =>
        wr_tab p (Z.lor (pte phys (Z.lor PGF_KERN PGF_PHYS)) c);;;
        atphys_loop n' (p + 1) (u32 (phys + 1)) cache
      end
  end.
Definition pg_atphys (p s phys cache : Z) : M pager unit := atphys_loop (Z.to_nat s) p phys cache.
Fixpoint dtphys_loop (n : nat) (i : Z) : M pager unit :=
  match n with
  | O => ret tt
  | S n' =>
    e <~ rd_tab i;;
    if has e PGF_PRESENT then wr_tab i PGF_SPACE_IN_USE;;; dtphys_loop n' (i + 1)
    else panic "pg_dtmem: page not present"
  end.
Definition pg_dtphys (p s : Z) : M pager unit := dtphys_loop (rounds_of p s) p.

(** ** Directories *)

(** The result of [pg_getphys] for a directory: the frame it is stored in. *)
Definition pg_newdir (d : nat) (phys : Z) : M pager unit :=
  s <~ gets (fun s => s);;
  l <~ deref (pg_dirs s !! pg_dir s);;
  let kern := take (Z.to_nat (PAGE_USER / 1024)) l ++ replicate (Z.to_nat ((PAGE_USER_END - PAGE_USER) / 1024)) 0 in
  modify (set_dirs (<[d := <[Z.to_nat (PAGE_TAB / 1024) := u32 (Z.lor (Z.shiftl phys 12) PGF_KERN)]> kern]> (pg_dirs s))).
Definition pg_setdir (d : nat) : M pager unit := modify (set_dir d).

Definition pg_altab (pti flags : Z) : M pager unit :=
  let t := pti / 1024 in
  d <~ rd_dir t;;
  if d =? 0 then
    if flags =? 0 then fail EFAULT
    else
      f <~ fr pg_alloc;;
      wr_dir t (pte f flags);;;
      zero_tab t
  else ret tt.

(** ** Kernel memory *)

Definition npages_of (size : Z) : Z := u32 (size + MHEAD_SIZE + PAGE_SIZE - 1) / PAGE_SIZE.

(** The result is the address after the header. *)
Definition kmalloc (size : Z) (name : list Z) : M pager Z :=
  let npages := npages_of size in
  page <~ pg_adget npages;;
  r <~ attempt (pg_atmem page npages false);;
  match r with
  | inl err => pg_adput page npages;;; fail err
  | inr _ =>
    modify (fun s => set_kmalloc (kmalloc_list s ++ [Mhead page npages (take 19 name)]) s);;;
    ret (page * PAGE_SIZE + MHEAD_SIZE)
  end.

Definition find_mhead (page : Z) (s : pager) : option mhead :=
  snd <$> list_find (fun h => mh_page h = page) (kmalloc_list s).
Definition kfree (ptr : Z) : M pager unit :=
  if ptr =? 0 then ret tt
  else
    let page := (ptr - MHEAD_SIZE) / PAGE_SIZE in
    s <~ gets (fun s => s);;
    h <~ deref (find_mhead page s);;
    modify (fun s => set_kmalloc (filter (fun h => mh_page h <> page) (kmalloc_list s)) s);;;
    pg_dtmem page (mh_npages h);;;
    pg_adput page (mh_npages h).

(** A byte of the address space, and [memcpy] byte by byte. *)
Definition rd_byte (a : Z) : M pager Z :=
  f <~ page_frame (a / PAGE_SIZE);; gets (fun s => rd8 (frame s f) (a mod PAGE_SIZE)).
Definition wr_byte (a v : Z) : M pager unit :=
  f <~ page_frame (a / PAGE_SIZE);; s <~ gets (fun s => s);; wr_frame f (wr8 (frame s f) (a mod PAGE_SIZE) v).
Fixpoint kmemcpy (n : nat) (d s : Z) : M pager unit :=
  match n with O => ret tt | S n' => b <~ rd_byte s;; wr_byte d b;;; kmemcpy n' (d + 1) (s + 1) end.

Definition krealloc (ptr size : Z) (name : list Z) : M pager Z :=
  if ptr =? 0 then kmalloc size name
  else
    s <~ gets (fun s => s);;
    h <~ deref (find_mhead ((ptr - MHEAD_SIZE) / PAGE_SIZE) s);;
    let old_size := u32 (mh_npages h * PAGE_SIZE - MHEAD_SIZE) in
    n <~ kmalloc size name;;
    (if old_size <? size then kmemcpy (Z.to_nat old_size) n ptr else kmemcpy (Z.to_nat size) n ptr);;;
    kfree ptr;;;
    ret n.

(** The address, or 0. *)
Definition dma_malloc (size : Z) : M pager Z :=
  let pg_cnt := u32 (u32 (size - 1) / PAGE_SIZE + 1) in
  r <~ attempt (pg_adget (u32 (pg_cnt + 1)));;
  match r with
  | inl _ => ret 0
  | inr pg =>
    r <~ attempt (pg_atdma pg pg_cnt);;
    match r with
    | inl _ => pg_adput pg (u32 (pg_cnt + 1));;; ret 0
    | inr _ => ret (pg * PAGE_SIZE)
    end
  end.
Definition dma_free (ptr size : Z) : M pager unit :=
  let pg_cnt := u32 (u32 (size - 1) / PAGE_SIZE + 1) in
  let pg := ptr / PAGE_SIZE in
  pg_dtdma pg pg_cnt;;;
  pg_adput pg (u32 (pg_cnt + 1)).

Definition phys_map (base size cache : Z) : M pager Z :=
  let npages := size / PAGE_SIZE + 1 in
  vpage <~ pg_adget npages;;
  r <~ attempt (pg_atphys vpage npages (base / PAGE_SIZE) cache);;
  match r with
  | inl err => pg_adput vpage npages;;; fail err
  | inr _ => ret (vpage * PAGE_SIZE + base mod PAGE_SIZE)
  end.
Definition phys_unmap (p size : Z) : M pager unit :=
  let npages := size / PAGE_SIZE + 1 in
  let vpage := p / PAGE_SIZE in
  pg_dtphys vpage npages;;;
  pg_adput vpage npages.
