(* ===== verification/PageOk.v ===== *)
(** The invariant of the page tables: every frame of the machine is free, holds
    one table, or backs one page of one address space, and no frame is lost.

    A [place] is what a frame can be used for.  The lemmas give the effect on the
    places of each elementary change: taking and returning a frame, writing an
    entry, adding a table, and writing to a page.  A frame that was taken and is
    not yet at a place is in the list [L]. *)

From S2P Require Import Prelude PageFrames PageFramesOk Page.

(** * Entries *)

Lemma has_bit e b : 0 <= b -> has e (2 ^ b) = Z.testbit e b.
Proof. apply land_pow2. Qed.

Lemma pte_small f fl : 0 <= f < 2 ^ 20 -> 0 <= fl < 4096 -> pte f fl = 4096 * f + fl.
Proof.
  intros Hf Hl. unfold pte. rewrite Z.shiftl_mul_pow2 by lia. assert (Z.land (f * 2 ^ 12) fl = 0) as E.
  { apply Z.bits_inj'. intros b Hb. rewrite Z.land_spec, Z.bits_0. destruct (decide (b < 12)).
    - by rewrite Z.mul_pow2_bits_low by lia.
    - rewrite andb_comm. assert (Z.testbit fl b = false) as ->; [|done].
      destruct (decide (fl = 0)) as [->|]; [apply Z.bits_0|]. apply Z.bits_above_log2; [lia|].
      assert (Z.log2 fl < 12) by (apply Z.log2_lt_pow2; lia). lia. }
  rewrite <- Z.lxor_lor, <- Z.add_nocarry_lxor by done. rewrite u32_small; lia.
Qed.
Lemma pte_frame_pte f fl : 0 <= f < 2 ^ 20 -> 0 <= fl < 4096 -> pte_frame (pte f fl) = f.
Proof.
  intros Hf Hl. rewrite pte_small by done. unfold pte_frame. rewrite Z.shiftr_div_pow2 by lia. change (2 ^ 12) with 4096.
  rewrite Z.mul_comm, Z.div_add_l by lia. rewrite Z.div_small by lia. lia.
Qed.
(** The flags, whatever the frame is. *)
Lemma pte_has f fl b : 0 <= b < 12 -> has (pte f fl) (2 ^ b) = has fl (2 ^ b).
Proof.
  intros Hb. rewrite !has_bit by lia. unfold pte, u32. rewrite Z.mod_pow2_bits_low by lia. by rewrite Z.lor_spec, Z.shiftl_spec_low by lia.
Qed.
Lemma pte_present f fl : has (pte f fl) PGF_PRESENT = has fl PGF_PRESENT.
Proof. apply (pte_has f fl 0). lia. Qed.
Lemma pte_phys f fl : has (pte f fl) PGF_PHYS = has fl PGF_PHYS.
Proof. apply (pte_has f fl 9). lia. Qed.
Lemma pte_cow f fl : has (pte f fl) PGF_COW = has fl PGF_COW.
Proof. apply (pte_has f fl 11). lia. Qed.
Lemma pte_range f fl : 0 <= pte f fl < 2 ^ 32.
Proof. apply u32_range. Qed.
Lemma pte_frame_range e : 0 <= e < 2 ^ 32 -> 0 <= pte_frame e < 2 ^ 20.
Proof. intros He. unfold pte_frame. rewrite Z.shiftr_div_pow2 by lia. Z.div_mod_to_equations; lia. Qed.
Lemma has_zero fl : has 0 fl = false.
Proof. unfold has. by rewrite Z.land_0_l. Qed.

(** * The tables as functions *)

Definition dirent (s : pager) (d : nat) (t : Z) : Z :=
  match pg_dirs s !! d with Some l => default 0 (l !! Z.to_nat t) | None => 0 end.
Definition tabent (s : pager) (d : nat) (v : Z) : Z :=
  let e := dirent s d (v / 1024) in
  if e =? 0 then 0 else get32 (frame s (pte_frame e)) (4 * (v mod 1024)).

(** The uses of a frame: a table or a page of the kernel's dynamic area, a table or
    a page of the user part of an address space. *)
Inductive place := KTab (t : Z) | KPg (v : Z) | UTab (d : nat) (t : Z) | UPg (d : nat) (v : Z).
#[export] Instance place_eq_dec : EqDecision place.
Proof. solve_decision. Defined.

Definition pvalid (pl : place) : Prop :=
  match pl with
  | KTab t => 5 <= t < 256
  | KPg v => PAGE_DYN <= v < PAGE_USER
  | UTab _ t => 256 <= t < 1024
  | UPg _ v => PAGE_USER <= v < PAGE_USER_END
  end.
#[export] Instance pvalid_dec pl : Decision (pvalid pl).
Proof. destruct pl; cbn; apply _. Defined.
Definition entry (s : pager) (pl : place) : Z :=
  match pl with
  | KTab t => dirent s (pg_dir s) t
  | KPg v => tabent s (pg_dir s) v
  | UTab d t => dirent s d t
  | UPg d v => tabent s d v
  end.
(** Frames of devices and shared ones belong to nobody. *)
Definition owns (pl : place) (e : Z) : bool :=
  has e PGF_PRESENT && match pl with KPg _ => negb (has e PGF_PHYS) | UPg _ _ => negb (has e PGF_COW) | _ => true end.
Definition at_place (s : pager) (pl : place) (f : Z) : Prop :=
  pvalid pl /\ owns pl (entry s pl) = true /\ pte_frame (entry s pl) = f.

(** The place of a page of address space [d]. *)
Definition page_place (d : nat) (v : Z) : place := if v <? PAGE_USER then KPg v else UPg d v.
Definition pageable (v : Z) : Prop := PAGE_DYN <= v < PAGE_USER_END.
(** The kernel has tables up to table [top]. *)
Definition kern_top (s : pager) (top : Z) : Prop :=
  5 <= top <= 256 /\ forall t, 5 <= t < 256 -> (dirent s (pg_dir s) t = 0 <-> top <= t).

(** The directories: the kernel's part is the same in each of them. *)
Record tabs_ok (s : pager) : Prop := TabsOk {
  to_dirs : forall d l, pg_dirs s !! d = Some l -> length l = 1024%nat /\ Forall (fun e => 0 <= e < 2 ^ 32) l;
  to_cur : is_Some (pg_dirs s !! pg_dir s);
  to_kern : forall d t, is_Some (pg_dirs s !! d) -> 0 <= t < 256 -> t <> 4 -> dirent s d t = dirent s (pg_dir s) t;
  to_pres : forall d t, 0 <= t < 1024 -> dirent s d t = 0 \/ has (dirent s d t) PGF_PRESENT = true;
  to_ident : dirent s (pg_dir s) 0 = pte PAGE_ITAB PGF_KERN;
  to_top : exists top, kern_top s top;
  to_mem : forall f, bytes_ok PAGE_SIZE (frame s f)
}.
(** The frames [U] of the machine: each is free, in [L], or at one place. *)
Record page_ok (U L : list Z) (s : pager) : Prop := PageOk {
  po_fr : fr_ok U (pg_fr s);
  po_low : forall f, f ∈ U -> 256 <= f;
  po_tabs : tabs_ok s;
  po_own : forall pl f, at_place s pl f -> f ∈ U /\ ~ free_frame (pg_fr s) f /\ f ∉ L;
  po_inj : forall pl pl' f, at_place s pl f -> at_place s pl' f -> pl = pl';
  po_nodup : NoDup L;
  po_limbo : forall f, f ∈ L -> f ∈ U /\ ~ free_frame (pg_fr s) f;
  po_all : forall f, f ∈ U -> free_frame (pg_fr s) f \/ f ∈ L \/ exists pl, at_place s pl f
}.

(** * Tables *)

(** The indices of tables the kernel writes to: the one of [PAGE_TMP], and those of
    the dynamic and the user area. *)
Definition tabix (t : Z) : Prop := t = 0 \/ 5 <= t < 1024.
Definition is_table (s : pager) (f : Z) : Prop :=
  exists d t, tabix t /\ dirent s d t <> 0 /\ pte_frame (dirent s d t) = f.
(** Directories [d] and [d'] have the same table [t]. *)
Definition shares (d d' : nat) (t : Z) : Prop := d' = d \/ t < 256.

Lemma dirent_dir s d t : dirent s d t <> 0 -> is_Some (pg_dirs s !! d).
Proof. unfold dirent. destruct (pg_dirs s !! d); [by eexists|done]. Qed.

(** Directory [d] has table [t]. *)
Definition has_tab (s : pager) (d : nat) (t : Z) : Prop := tabix t /\ dirent s d t <> 0.
(** A frame gets new contents, and entry [v] of address space [d] becomes [e]. *)
Definition wr_data (s : pager) (f : Z) (b : list Z) : pager := set_mem (<[f := b]> (pg_mem s)) s.
Definition wr_ent (s : pager) (d : nat) (v e : Z) : pager :=
  let f := pte_frame (dirent s d (v / 1024)) in
  wr_data s f (put32 (frame s f) (4 * (v mod 1024)) e).

Lemma frame_set f b s g : frame (wr_data s f b) g = if decide (g = f) then b else frame s g.
Proof. unfold frame. cbn. destruct (decide (g = f)) as [->|Hne]; [by rewrite lookup_insert_eq|by rewrite lookup_insert_ne]. Qed.

Section tables.
Context {U L : list Z} {s : pager} (Hs : page_ok U L s).

Lemma dirent_kern d t : dirent s d t <> 0 -> t < 256 -> tabix t -> dirent s d t = dirent s (pg_dir s) t.
Proof.
  intros Hd Hk Ht. apply (to_kern _ (po_tabs _ _ _ Hs)); [by eapply dirent_dir|unfold tabix in Ht; lia|unfold tabix in Ht; lia].
Qed.
Lemma dirent_shared d d' t : dirent s d t <> 0 -> dirent s d' t <> 0 -> shares d d' t -> tabix t -> dirent s d' t = dirent s d t.
Proof. intros Hd Hd' [->|Hk] Ht; [done|]. by rewrite (dirent_kern d'), (dirent_kern d). Qed.
Lemma dirent_present d t : tabix t -> dirent s d t <> 0 -> has (dirent s d t) PGF_PRESENT = true.
Proof. intros Ht Hd. destruct (to_pres _ (po_tabs _ _ _ Hs) d t) as [?|?]; [unfold tabix in Ht; lia|done|done]. Qed.

(** The place of a table. *)
Definition tab_place (d : nat) (t : Z) : place := if t <? 256 then KTab t else UTab d t.
Lemma tab_at d t : 5 <= t < 1024 -> dirent s d t <> 0 -> at_place s (tab_place d t) (pte_frame (dirent s d t)).
Proof.
  intros Ht Hd. unfold tab_place. destruct (Z.ltb_spec t 256) as [Hk|Hu].
  - rewrite (dirent_kern d t Hd) by (lia || right; lia). split; [cbn; lia|]. split; [|done]. cbn [entry].
    rewrite (dirent_kern d t Hd) in Hd by (lia || right; lia). unfold owns. by rewrite (dirent_present (pg_dir s) t) by (done || right; lia).
  - split; [cbn; lia|]. split; [|done]. cbn [entry]. unfold owns. by rewrite dirent_present by (done || right; lia).
Qed.
Lemma ident_frame d : dirent s d 0 <> 0 -> pte_frame (dirent s d 0) = 3.
Proof.
  intros Hd. rewrite (dirent_kern d 0 Hd), (to_ident _ (po_tabs _ _ _ Hs)) by (lia || by left).
  apply pte_frame_pte; unfold PAGE_ITAB; [lia|]. by vm_compute.
Qed.
(** Tables are distinct frames. *)
Lemma table_inj d t d' t' :
  tabix t -> tabix t' -> dirent s d t <> 0 -> dirent s d' t' <> 0 -> pte_frame (dirent s d t) = pte_frame (dirent s d' t') ->
  t = t' /\ (d = d' \/ t < 256).
Proof.
  assert (Hz : forall d d' t', 5 <= t' < 1024 -> dirent s d 0 <> 0 -> dirent s d' t' <> 0 ->
    pte_frame (dirent s d 0) = pte_frame (dirent s d' t') -> False).
  { intros d1 d2 t2 Ht Hd1 Hd2 He. rewrite ident_frame in He by done. pose proof (tab_at d2 t2 Ht Hd2) as Ha.
    apply (po_own _ _ _ Hs) in Ha as (Hu & _). apply (po_low _ _ _ Hs) in Hu. lia. }
  intros [->|Ht] [->|Ht'] Hd Hd' He.
  - split; [done|]. right. lia.
  - exfalso. by eapply Hz.
  - exfalso. by eapply Hz.
  - pose proof (tab_at d t Ht Hd) as Ha. pose proof (tab_at d' t' Ht' Hd') as Ha'. rewrite He in Ha.
    pose proof (po_inj _ _ _ Hs _ _ _ Ha Ha') as E. revert E. unfold tab_place.
    destruct (Z.ltb_spec t 256), (Z.ltb_spec t' 256); intros [= ->]; auto.
Qed.

Lemma rd_dir_run t : 0 <= t < 1024 -> rd_dir t s = Ret (dirent s (pg_dir s) t) s.
Proof.
  intros Ht. unfold rd_dir, dirent. rewrite gets_bind. destruct (to_cur _ (po_tabs _ _ _ Hs)) as [l El]. rewrite El. cbn [deref]. rewrite ret_bind.
  destruct (to_dirs _ (po_tabs _ _ _ Hs) _ _ El) as [Hl _]. destruct (lookup_lt_is_Some_2 l (Z.to_nat t)) as [e Ee]; [lia|]. by rewrite Ee.
Qed.
Lemma tab_frame_run v : has_tab s (pg_dir s) (v / 1024) -> tab_frame v s = Ret (pte_frame (dirent s (pg_dir s) (v / 1024))) s.
Proof.
  intros [Ht Hd]. unfold tab_frame. erewrite bind_run by (apply rd_dir_run; unfold tabix in Ht; lia).
  by rewrite dirent_present.
Qed.
Lemma rd_tab_run v : has_tab s (pg_dir s) (v / 1024) -> rd_tab v s = Ret (tabent s (pg_dir s) v) s.
Proof.
  intros Ht. unfold rd_tab. erewrite bind_run by (by apply tab_frame_run). unfold gets, tabent.
  by rewrite (proj2 (Z.eqb_neq _ _)) by apply Ht.
Qed.
Lemma wr_tab_run v e : has_tab s (pg_dir s) (v / 1024) -> wr_tab v e s = Ret tt (wr_ent s (pg_dir s) v e).
Proof. intros Ht. unfold wr_tab. erewrite bind_run by (by apply tab_frame_run). done. Qed.

Lemma tabent_range d v : 0 <= tabent s d v < 2 ^ 32.
Proof. unfold tabent. destruct (_ =? 0); [lia|]. apply get32_range, (to_mem _ (po_tabs _ _ _ Hs)). Qed.

(** ** Changes of memory *)

(** Writing an entry changes that entry alone. *)
Lemma tabent_wr_ent d0 v e d v' :
  0 <= v -> has_tab s d0 (v / 1024) -> 0 <= v' -> tabix (v' / 1024) -> 0 <= e < 2 ^ 32 ->
  tabent (wr_ent s d0 v e) d v' = if decide (v' = v /\ shares d0 d (v / 1024) /\ dirent s d (v / 1024) <> 0) then e else tabent s d v'.
Proof.
  intros Hv [Ht Hd] Hv' Ht' He. unfold tabent. change (dirent (wr_ent s d0 v e)) with (dirent s).
  destruct (Z.eqb_spec (dirent s d (v' / 1024)) 0) as [E0|E0].
  { rewrite decide_False; [done|]. intros (-> & _ & ?). done. }
  unfold wr_ent. rewrite frame_set. set (f := pte_frame (dirent s d0 (v / 1024))). pose proof (to_mem _ (po_tabs _ _ _ Hs) f) as [Hl _]. unfold PAGE_SIZE in Hl.
  destruct (decide (pte_frame (dirent s d (v' / 1024)) = f)) as [Ef|Ef].
  - destruct (table_inj _ _ _ _ Ht' Ht E0 Hd Ef) as [Et Hsh]. rewrite Ef. destruct (decide (v' = v)) as [->|Hne].
    + rewrite decide_True by (split; [done|]; split; [|done]; unfold shares; tauto).
      rewrite get32_put32 by (Z.div_mod_to_equations; lia). by apply u32_small.
    + rewrite decide_False by tauto. apply get32_put32_ne; Z.div_mod_to_equations; lia.
  - rewrite decide_False; [done|]. intros (-> & Hsh & Hd'). apply Ef. unfold f. by rewrite (dirent_shared d0 d _ Hd Hd' Hsh Ht).
Qed.
(** Writing to a frame that is no table changes no entry. *)
Lemma tabent_wr_data f b d v : ~ is_table s f -> tabix (v / 1024) -> tabent (wr_data s f b) d v = tabent s d v.
Proof.
  intros Hf Ht. unfold tabent. change (dirent (wr_data s f b)) with (dirent s). destruct (Z.eqb_spec (dirent s d (v / 1024)) 0) as [|Hd]; [done|].
  rewrite frame_set, decide_False; [done|]. intros <-. apply Hf. by exists d, (v / 1024).
Qed.
End tables.

(** * The invariant *)

Lemma page_place_valid d v : pageable v -> pvalid (page_place d v).
Proof. unfold pageable, page_place. destruct (Z.ltb_spec v PAGE_USER); cbn; unfold PAGE_DYN in *; lia. Qed.
Lemma page_tabix v : pageable v -> tabix (v / 1024).
Proof. unfold pageable, PAGE_DYN, PAGE_USER_END. intros Hv. right. Z.div_mod_to_equations; lia. Qed.
(** For the kernel's pages every directory will do. *)
Lemma entry_page U L s d v : page_ok U L s -> pageable v -> has_tab s d (v / 1024) -> entry s (page_place d v) = tabent s d v.
Proof.
  intros Hs Hv [Ht Hd]. unfold page_place. destruct (Z.ltb_spec v PAGE_USER) as [Hk|]; [|done]. cbn [entry]. unfold tabent.
  rewrite (dirent_kern Hs d _ Hd); [done| |done]. unfold pageable, PAGE_USER in *. Z.div_mod_to_equations; lia.
Qed.

Lemma entry_wr_ent U L s d0 v e pl :
  page_ok U L s -> pageable v -> has_tab s d0 (v / 1024) -> 0 <= e < 2 ^ 32 -> pvalid pl ->
  entry (wr_ent s d0 v e) pl = if decide (pl = page_place d0 v) then e else entry s pl.
Proof.
  intros Hs Hv Ht He Hpl. assert (Hdir : forall d t, dirent (wr_ent s d0 v e) d t = dirent s d t) by done.
  pose proof Hv as [Hv1 Hv2]. unfold PAGE_DYN, PAGE_USER_END in Hv1, Hv2. unfold page_place. pose proof Ht as [Hti Hd].
  destruct pl as [t|v'|d t|d v']; cbn [entry pvalid] in *; unfold PAGE_DYN, PAGE_USER, PAGE_USER_END in Hpl.
  - rewrite Hdir, decide_False; [done|]. by destruct (_ <? _).
  - rewrite (tabent_wr_ent Hs) by (try done; try lia; right; Z.div_mod_to_equations; lia). change (pg_dir (wr_ent s d0 v e)) with (pg_dir s).
    destruct (decide (v' = v)) as [->|Hne].
    + assert (v / 1024 < 256) by (Z.div_mod_to_equations; lia). rewrite (decide_True (P := _ /\ _)); [|split; [done|]; split; [by right|by rewrite <- (dirent_kern Hs d0)]].
      rewrite (proj2 (Z.ltb_lt _ _)) by (unfold PAGE_USER; lia). by rewrite decide_True.
    + rewrite decide_False by tauto. rewrite decide_False; [done|]. destruct (_ <? _); congruence.
  - rewrite Hdir, decide_False; [done|]. by destruct (_ <? _).
  - rewrite (tabent_wr_ent Hs) by (try done; try lia; right; Z.div_mod_to_equations; lia). destruct (decide (UPg d v' = _)) as [E|E].
    + destruct (Z.ltb_spec v PAGE_USER) as [|Hu]; [done|]. injection E as -> ->. rewrite decide_True; [done|]. split; [done|]. split; [by left|done].
    + rewrite decide_False; [done|]. intros (-> & Hsh & _). apply E. rewrite (proj2 (Z.ltb_ge _ _)) by (unfold PAGE_USER; lia).
      destruct Hsh as [->|Hk]; [done|]. exfalso. Z.div_mod_to_equations; lia.
Qed.

(** The frame an entry at a place owns. *)
Definition owned (pl : place) (e : Z) : list Z := if owns pl e then [pte_frame e] else [].
Lemma at_place_owned s pl f : at_place s pl f <-> pvalid pl /\ f ∈ owned pl (entry s pl).
Proof.
  unfold at_place, owned. destruct (owns pl (entry s pl)); [rewrite list_elem_of_singleton; naive_solver|].
  split; [naive_solver|]. intros [_ H]. by apply not_elem_of_nil in H.
Qed.

(** One place changes hands: what it owned is in nobody's hands afterwards. *)
Lemma page_ok_place U L s s' pl e :
  page_ok U (owned pl e ++ L) s -> tabs_ok s' -> pg_fr s' = pg_fr s -> pvalid pl ->
  (forall pl', pvalid pl' -> entry s' pl' = if decide (pl' = pl) then e else entry s pl') ->
  page_ok U (owned pl (entry s pl) ++ L) s'.
Proof.
  intros Hs Htb Hfr Hpl He.
  assert (Ha : forall pl' f, at_place s' pl' f <-> pvalid pl' /\ (pl' = pl /\ f ∈ owned pl e \/ pl' <> pl /\ at_place s pl' f)).
  { intros pl' f. rewrite !at_place_owned. destruct (decide (pvalid pl')) as [Hv|]; [|tauto]. rewrite He by done.
    destruct (decide (pl' = pl)) as [->|]; tauto. }
  assert (Ho : forall f, f ∈ owned pl (entry s pl) -> at_place s pl f) by (intros f Hf; by apply at_place_owned).
  pose proof (po_nodup _ _ _ Hs) as (Hn1 & Hn2 & Hn3)%NoDup_app.
  split; rewrite ?Hfr; try apply Hs; try done.
  - intros pl' f [Hv [[-> Hf]|[Hne Hat]]]%Ha.
    + destruct (po_limbo _ _ _ Hs f) as [Hu Hfree]; [apply elem_of_app; by left|]. split; [done|]. split; [done|].
      intros [Hf'|Hf']%elem_of_app; [|by apply (Hn2 f)]. apply Ho, (po_own _ _ _ Hs) in Hf' as (_ & _ & Hf'). apply Hf', elem_of_app. by left.
    + destruct (po_own _ _ _ Hs _ _ Hat) as (Hu & Hfree & Hl). split; [done|]. split; [done|]. rewrite elem_of_app in *.
      intros [Hf'|Hf']; [|tauto]. apply Hne. by apply (po_inj _ _ _ Hs _ _ f), Ho.
  - intros pl1 pl2 f [Hv1 H1]%Ha [Hv2 H2]%Ha. destruct H1 as [[-> H1]|[Hne1 H1]], H2 as [[-> H2]|[Hne2 H2]]; try done.
    + apply (po_own _ _ _ Hs) in H2 as (_ & _ & H2). destruct H2. apply elem_of_app. by left.
    + apply (po_own _ _ _ Hs) in H1 as (_ & _ & H1). destruct H1. apply elem_of_app. by left.
    + by apply (po_inj _ _ _ Hs _ _ f).
  - apply NoDup_app. split; [unfold owned; destruct (owns _ _); [apply NoDup_singleton|constructor]|]. split; [|done].
    intros f Hf%Ho Hl. apply (po_own _ _ _ Hs) in Hf as (_ & _ & Hf). apply Hf, elem_of_app. by right.
  - intros f [Hf|Hf]%elem_of_app; [apply Ho, (po_own _ _ _ Hs) in Hf as (? & ? & _); done|]. apply (po_limbo _ _ _ Hs), elem_of_app. by right.
  - intros f Hu. rewrite elem_of_app. destruct (po_all _ _ _ Hs f Hu) as [Hf|[[Hf|Hf]%elem_of_app|[pl' Hat]]]; [by left| | |].
    + right; right. exists pl. apply Ha. split; [done|]. by left.
    + right; left. by right.
    + right. destruct (decide (pl' = pl)) as [->|Hne]; [left; left; by apply at_place_owned|]. right. exists pl'. apply Ha. split; [apply Hat|by right].
Qed.

(** Memory changes, the directories do not. *)
Lemma tabs_ok_mem s s' :
  tabs_ok s -> pg_dirs s' = pg_dirs s -> pg_dir s' = pg_dir s -> (forall f, bytes_ok PAGE_SIZE (frame s' f)) -> tabs_ok s'.
Proof.
  intros [H1 H2 H3 H4 H5 [top H6] H7] Hd Hc Hm. assert (Hdi : dirent s' = dirent s) by (unfold dirent; by rewrite Hd).
  split; rewrite ?Hdi, ?Hd, ?Hc; try done. exists top. unfold kern_top. by rewrite Hdi, Hc.
Qed.

Lemma wr_ent_mem U L s d v e g : page_ok U L s -> 0 <= v -> bytes_ok PAGE_SIZE (frame (wr_ent s d v e) g).
Proof.
  intros Hs Hv. unfold wr_ent. rewrite frame_set. destruct (decide _); [|apply (to_mem _ (po_tabs _ _ _ Hs))]. apply bytes_ok_put32; [apply (to_mem _ (po_tabs _ _ _ Hs))|Z.div_mod_to_equations; lia|].
  unfold PAGE_SIZE. Z.div_mod_to_equations; lia.
Qed.
Lemma page_ok_wr_ent U L s d v e :
  pageable v -> has_tab s d (v / 1024) -> 0 <= e < 2 ^ 32 -> page_ok U (owned (page_place d v) e ++ L) s ->
  page_ok U (owned (page_place d v) (tabent s d v) ++ L) (wr_ent s d v e).
Proof.
  intros Hv Ht He Hs. rewrite <- (entry_page _ _ _ _ _ Hs Hv Ht). eapply page_ok_place; [exact Hs| |done|by apply page_place_valid|].
  - eapply tabs_ok_mem; [apply Hs|done|done|]. intros f. eapply wr_ent_mem; [done|]. unfold pageable, PAGE_DYN in Hv. lia.
  - intros pl Hpl. by eapply entry_wr_ent.
Qed.

(** ** Taking and returning frames *)

Lemma page_ok_take U L s r fr' :
  page_ok U L s -> fr_ok U fr' -> NoDup r -> (forall f, f ∈ r -> free_frame (pg_fr s) f) -> taken (fun f => f ∈ r) (pg_fr s) fr' ->
  page_ok U (r ++ L) (set_fr fr' s).
Proof.
  intros Hs Hfr Hr Hf Ht. split; try done; try apply Hs.
  - eapply tabs_ok_mem; [apply Hs|done|done|apply (to_mem _ (po_tabs _ _ _ Hs))].
  - intros pl f Ha. destruct (po_own _ _ _ Hs pl f Ha) as (Hu & Hn & Hl). split; [done|]. split; [by intros [? _]%Ht|].
    intros [?|?]%elem_of_app; [|done]. by apply Hn, Hf.
  - apply NoDup_app. split; [done|]. split; [|apply Hs]. intros f Hfr' Hl. apply (po_limbo _ _ _ Hs) in Hl as [_ Hl]. by apply Hl, Hf.
  - intros f [Hi|Hi]%elem_of_app.
    + split; [by apply (fk_in _ _ (po_fr _ _ _ Hs)), Hf|]. by intros [_ ?]%Ht.
    + destruct (po_limbo _ _ _ Hs f Hi) as [? Hn]. split; [done|]. by intros [? _]%Ht.
  - intros f Hu. cbn [pg_fr set_fr]. rewrite (Ht f), elem_of_app. destruct (decide (f ∈ r)); [tauto|]. destruct (po_all _ _ _ Hs f Hu) as [?|[?|?]]; tauto.
Qed.
Lemma page_ok_give U L s r fr' :
  page_ok U (r ++ L) s -> fr_ok U fr' -> put_back (fun f => f ∈ r) (pg_fr s) fr' -> page_ok U L (set_fr fr' s).
Proof.
  intros Hs Hfr Hb. pose proof (po_nodup _ _ _ Hs) as (Hn1 & Hn2 & Hn3)%NoDup_app. split; try done; try apply Hs.
  - eapply tabs_ok_mem; [apply Hs|done|done|apply (to_mem _ (po_tabs _ _ _ Hs))].
  - intros pl f Ha. destruct (po_own _ _ _ Hs pl f Ha) as (Hu & Hn & Hl). rewrite elem_of_app in Hl. split; [done|]. split; [|tauto]. intros [?|?]%Hb; tauto.
  - intros f Hi. destruct (po_limbo _ _ _ Hs f) as [? Hn]; [apply elem_of_app; by right|]. split; [done|]. intros [?|Hr]%Hb; [done|by apply (Hn2 f)].
  - intros f Hu. cbn [pg_fr set_fr]. rewrite (Hb f). destruct (po_all _ _ _ Hs f Hu) as [?|[[?|?]%elem_of_app|?]]; tauto.
Qed.

Lemma set_fr_id s : set_fr (pg_fr s) s = s.
Proof. by destruct s. Qed.

Lemma alloc_ok U L s :
  page_ok U L s ->
  wp (fr pg_alloc)
    (fun f s' => exists fr', s' = set_fr fr' s /\ page_ok U (f :: L) s' /\ 0 < f < 2 ^ 20 /\ f ∉ L /\ free_frame (pg_fr s) f /\
       free_count fr' = free_count (pg_fr s) - 1)
    (fun e s' => e = ENOMEM /\ s' = s /\ forall f, free_frame (pg_fr s) f -> f = 4095) s.
Proof.
  intros Hs. apply wp_zoom. eapply wp_mono; [apply (pg_alloc_ok U), Hs| |by intros e fr' (-> & -> & H); rewrite set_fr_id].
  intros f fr' (Hfr & Hf & Hr & Ht & Hc). exists fr'. split; [done|]. split; [|split; [done|]].
  - apply (page_ok_take U L s [f] fr'); [done|done|apply NoDup_singleton|by intros ? ->%list_elem_of_singleton|].
    intros q. rewrite (Ht q), list_elem_of_singleton. naive_solver.
  - split; [|done]. intros Hl. by apply (po_limbo _ _ _ Hs) in Hl as [_ ?].
Qed.
Lemma free_ok U L f s :
  page_ok U (f :: L) s ->
  wp (fr (pg_free f))
    (fun _ s' => exists fr', s' = set_fr fr' s /\ page_ok U L s' /\ free_count fr' = free_count (pg_fr s) + 1) (fun _ _ => False) s.
Proof.
  intros Hs. destruct (po_limbo _ _ _ Hs f) as [Hu Hn]; [left|]. apply wp_zoom. eapply wp_mono; [apply (pg_free_ok U f); [apply Hs|done|done]| |done].
  intros [] fr' (Hfr & Hb & Hc). exists fr'. split; [done|]. split; [|done]. apply (page_ok_give U L s [f] fr'); [done|done|].
  intros q. rewrite (Hb q), list_elem_of_singleton. naive_solver.
Qed.

(** ** Data *)

Lemma limbo_no_table U L s f : page_ok U L s -> f ∈ L -> ~ is_table s f.
Proof.
  intros Hs Hf (d & t & Ht & Hd & E). destruct (po_limbo _ _ _ Hs f Hf) as [Hu _]. destruct Ht as [->|Ht].
  - rewrite (ident_frame Hs) in E by done. apply (po_low _ _ _ Hs) in Hu. lia.
  - pose proof (tab_at Hs d t Ht Hd) as Ha. rewrite E in Ha. apply (po_own _ _ _ Hs) in Ha as (_ & _ & ?). done.
Qed.
Definition is_page (pl : place) : Prop := match pl with KPg _ | UPg _ _ => True | _ => False end.
Lemma page_no_table U L s pl f : page_ok U L s -> is_page pl -> at_place s pl f -> ~ is_table s f.
Proof.
  intros Hs Hp Ha (d & t & Ht & Hd & E). destruct (po_own _ _ _ Hs _ _ Ha) as (Hu & _). destruct Ht as [->|Ht].
  - rewrite (ident_frame Hs) in E by done. apply (po_low _ _ _ Hs) in Hu. lia.
  - pose proof (tab_at Hs d t Ht Hd) as Ha'. rewrite E in Ha'. rewrite (po_inj _ _ _ Hs _ _ _ Ha Ha') in Hp. unfold tab_place in Hp. by destruct (_ <? _).
Qed.

Lemma entry_tabix pl : pvalid pl -> match pl with KTab t | UTab _ t => tabix t | KPg v | UPg _ v => tabix (v / 1024) end.
Proof.
  destruct pl as [t|v|d t|d v]; cbn; unfold tabix, PAGE_DYN, PAGE_USER, PAGE_USER_END; intros H; (right; Z.div_mod_to_equations; lia).
Qed.
Lemma entry_wr_data U L s f b pl : page_ok U L s -> ~ is_table s f -> pvalid pl -> entry (wr_data s f b) pl = entry s pl.
Proof.
  intros Hs Hf Hpl%entry_tabix. destruct pl as [t|v|d t|d v]; cbn [entry]; [done| |done|]; change (pg_dir (wr_data s f b)) with (pg_dir s);
    by apply (tabent_wr_data).
Qed.
Lemma page_ok_entries U L s s' :
  page_ok U L s -> tabs_ok s' -> pg_fr s' = pg_fr s -> (forall pl, pvalid pl -> entry s' pl = entry s pl) -> page_ok U L s'.
Proof.
  intros Hs Ht Hfr He. assert (Ha : forall pl f, at_place s' pl f <-> at_place s pl f).
  { intros pl f. rewrite !at_place_owned. destruct (decide (pvalid pl)); [|tauto]. by rewrite He. }
  split; rewrite ?Hfr; try done; try apply Hs.
  - intros pl f. rewrite Ha. apply Hs.
  - intros pl pl' f. rewrite !Ha. apply Hs.
  - intros f Hu. destruct (po_all _ _ _ Hs f Hu) as [?|[?|[pl Hp]]]; [tauto..|]. right; right. exists pl. by apply Ha.
Qed.
Lemma page_ok_wr_data U L s f b : page_ok U L s -> ~ is_table s f -> bytes_ok PAGE_SIZE b -> page_ok U L (wr_data s f b).
Proof.
  intros Hs Hf Hb. eapply page_ok_entries; [done| |done|intros; by eapply entry_wr_data]. eapply tabs_ok_mem; [apply Hs|done|done|].
  intros g. rewrite frame_set. destruct (decide _); [done|apply (to_mem _ (po_tabs _ _ _ Hs))].
Qed.

(** ** New tables *)

(** Table [t] is added to directory [d0], for the kernel to every directory, and
    cleared. *)
Definition put_dir (s : pager) (d0 : nat) (t e : Z) : gmap nat (list Z) :=
  if t <? 256 then (fun l => <[Z.to_nat t := e]> l) <$> pg_dirs s else alter (fun l => <[Z.to_nat t := e]> l) d0 (pg_dirs s).
Definition add_tab (s : pager) (d0 : nat) (t e : Z) : pager := wr_data (set_dirs (put_dir s d0 t e) s) (pte_frame e) (zeros PAGE_SIZE).

Lemma put_dir_lookup s d0 t e d :
  put_dir s d0 t e !! d = (if decide (shares d0 d t) then (fun l => <[Z.to_nat t := e]> l) <$> pg_dirs s !! d else pg_dirs s !! d).
Proof.
  unfold put_dir, shares. destruct (Z.ltb_spec t 256).
  - rewrite lookup_fmap, decide_True by tauto. done.
  - destruct (decide (d = d0)) as [->|Hne]; [rewrite lookup_alter_eq, decide_True by tauto; done|].
    rewrite lookup_alter_ne, decide_False by (congruence || lia). done.
Qed.

Section new_table.
Context {U L : list Z} {s : pager} (Hs : page_ok U L s) (d0 : nat) (t e : Z) (Ht : 5 <= t < 1024) (He : 0 <= e < 2 ^ 32).

Lemma dirent_add d t' :
  0 <= t' -> dirent (add_tab s d0 t e) d t' = if decide (t' = t /\ shares d0 d t /\ is_Some (pg_dirs s !! d)) then e else dirent s d t'.
Proof.
  intros Ht'. unfold dirent. cbn [add_tab wr_data set_mem set_dirs pg_dirs]. rewrite put_dir_lookup.
  destruct (decide (shares d0 d t)) as [Hsh|Hsh]; [|by rewrite decide_False by tauto].
  destruct (pg_dirs s !! d) as [l|] eqn:El; cbn; [|rewrite decide_False; [done|]; by intros (_ & _ & [? ?])].
  destruct (to_dirs _ (po_tabs _ _ _ Hs) _ _ El) as [Hl _]. destruct (decide (t' = t)) as [->|Hne].
  - rewrite list_lookup_insert_eq, decide_True by (lia || (split; [done|]; split; [done|by eexists])). done.
  - rewrite list_lookup_insert_ne, decide_False by (tauto || lia). done.
Qed.

Context (Hd0 : is_Some (pg_dirs s !! d0)) (H0 : dirent s d0 t = 0) (Hf : pte_frame e ∈ L) (Hp : has e PGF_PRESENT = true) (Htop : t < 256 -> kern_top s t).

Lemma add_tab_none d : shares d0 d t -> dirent s d t = 0.
Proof.
  intros [->|Hk]; [done|]. destruct (decide (is_Some (pg_dirs s !! d))) as [Hd|Hd].
  - rewrite (to_kern _ (po_tabs _ _ _ Hs)) by (done || lia). by rewrite <- (to_kern _ (po_tabs _ _ _ Hs) d0) by (done || lia).
  - unfold dirent. destruct (pg_dirs s !! d); [|done]. destruct Hd. by eexists.
Qed.
Lemma tabent_add d v : 0 <= v -> tabix (v / 1024) -> tabent (add_tab s d0 t e) d v = tabent s d v.
Proof.
  intros Hv Hvt. unfold tabent at 1. rewrite dirent_add by (Z.div_mod_to_equations; lia). unfold add_tab. rewrite frame_set.
  destruct (decide (v / 1024 = t /\ shares d0 d t /\ is_Some (pg_dirs s !! d))) as [(E & Hsh & _)|Hn].
  - unfold tabent. rewrite E, (add_tab_none d Hsh). cbn [Z.eqb]. rewrite decide_True by done. rewrite get32_zeros. by destruct (e =? 0).
  - unfold tabent. destruct (Z.eqb_spec (dirent s d (v / 1024)) 0) as [|Hd]; [done|]. rewrite decide_False; [done|].
    intros E. apply (limbo_no_table _ _ _ _ Hs Hf). by exists d, (v / 1024).
Qed.
Lemma entry_add pl : pvalid pl -> entry (add_tab s d0 t e) pl = if decide (pl = tab_place d0 t) then e else entry s pl.
Proof.
  intros Hpl. pose proof (entry_tabix _ Hpl) as Hti. unfold tab_place. destruct pl as [t'|v|d t'|d v]; cbn [entry pvalid] in *; change (pg_dir (add_tab s d0 t e)) with (pg_dir s).
  - rewrite dirent_add by lia. pose proof (to_cur _ (po_tabs _ _ _ Hs)). destruct (decide (t' = t)) as [->|Hne].
    + rewrite (proj2 (Z.ltb_lt _ _)) by lia. rewrite !decide_True; [done..|]. split; [done|]. split; [right; lia|done].
    + rewrite !decide_False; [done| |tauto]. destruct (_ <? _); congruence.
  - unfold PAGE_DYN in Hpl. rewrite tabent_add by (lia || done). rewrite decide_False; [done|]. by destruct (_ <? _).
  - rewrite dirent_add by lia. destruct (decide (UTab d t' = _)) as [E|E].
    + destruct (Z.ltb_spec t 256); [done|]. injection E as -> ->. rewrite decide_True; [done|]. split; [done|]. split; [by left|done].
    + rewrite decide_False; [done|]. intros (-> & [->|?] & _); [|lia]. apply E. by rewrite (proj2 (Z.ltb_ge _ _)) by lia.
  - unfold PAGE_USER in Hpl. rewrite tabent_add by (lia || done). rewrite decide_False; [done|]. by destruct (_ <? _).
Qed.
Lemma tabs_ok_add : tabs_ok (add_tab s d0 t e).
Proof.
  pose proof (po_tabs _ _ _ Hs) as Hb. assert (Hsome : forall d, is_Some (put_dir s d0 t e !! d) <-> is_Some (pg_dirs s !! d)).
  { intros d. rewrite put_dir_lookup. destruct (decide _); [apply fmap_is_Some|done]. }
  split; cbn [add_tab wr_data set_mem set_dirs pg_dirs pg_dir].
  - intros d l. rewrite put_dir_lookup. destruct (decide _); [|by apply Hb]. intros (l' & El & ->)%fmap_Some.
    destruct (to_dirs _ Hb _ _ El) as [Hl Hr]. rewrite length_insert. split; [done|]. by apply Forall_insert.
  - apply Hsome, Hb.
  - intros d t' Hd%Hsome Htr Hne. rewrite !dirent_add by lia. pose proof (to_cur _ Hb). unfold shares.
    destruct (decide (t' = t)) as [->|?]; [rewrite !decide_True by (repeat split; (done || lia)); done|]. rewrite !decide_False by tauto. by apply Hb.
  - intros d t' Htr. rewrite dirent_add by lia. destruct (decide _); [by right|by apply Hb].
  - rewrite dirent_add, decide_False by lia. apply Hb.
  - pose proof (to_cur _ Hb). destruct (decide (t < 256)) as [Hk|Hk].
    + exists (t + 1). specialize (Htop Hk) as [_ Hti]. split; [lia|]. intros t' Htr. change (pg_dir (wr_data _ _ _)) with (pg_dir s). rewrite dirent_add by lia.
      destruct (decide (t' = t)) as [->|Hne].
      * rewrite decide_True by (split; [done|]; split; [right; lia|done]). split; [|lia]. intros ->. by rewrite has_zero in Hp.
      * rewrite decide_False by tauto. rewrite Hti by done. lia.
    + destruct (to_top _ Hb) as [top [Hr Hti]]. exists top. split; [done|]. intros t' Htr. change (pg_dir (wr_data _ _ _)) with (pg_dir s). rewrite dirent_add, decide_False by lia. by apply Hti.
  - intros f. change (bytes_ok PAGE_SIZE (frame (add_tab s d0 t e) f)). unfold add_tab. rewrite frame_set.
    destruct (decide _); [apply bytes_ok_zeros; by unfold PAGE_SIZE|apply Hb].
Qed.
End new_table.

Lemma page_ok_add_tab U L s d0 t f fl :
  page_ok U (f :: L) s -> is_Some (pg_dirs s !! d0) -> 5 <= t < 1024 -> dirent s d0 t = 0 -> 0 < f < 2 ^ 20 -> 0 <= fl < 4096 -> has fl PGF_PRESENT = true ->
  (t < 256 -> kern_top s t) -> page_ok U L (add_tab s d0 t (pte f fl)).
Proof.
  intros Hs Hd0 Ht H0 Hf Hfl Hpr Htop. set (e := pte f fl). pose proof (pte_range f fl) as He. fold e in He.
  assert (Hfe : pte_frame e = f) by (apply pte_frame_pte; lia). assert (Hp : has e PGF_PRESENT = true) by (unfold e; by rewrite pte_present).
  assert (Hin : pte_frame e ∈ f :: L) by (rewrite Hfe; left). set (pl := tab_place d0 t).
  assert (Ho : owned pl e = [f]) by (unfold owned, owns, pl, tab_place; rewrite Hp, Hfe; by destruct (_ <? _)).
  assert (Hz : owned pl (entry s pl) = []).
  { unfold owned, owns, pl, tab_place. destruct (Z.ltb_spec t 256); cbn [entry]; [|rewrite H0; by rewrite has_zero].
    rewrite <- (to_kern _ (po_tabs _ _ _ Hs) d0) by (done || lia). by rewrite H0, has_zero. }
  change (page_ok U ([] ++ L) (add_tab s d0 t e)). rewrite <- Hz. eapply (page_ok_place U L s _ pl e).
  - by rewrite Ho.
  - by apply (tabs_ok_add Hs).
  - done.
  - unfold pl, tab_place. destruct (Z.ltb_spec t 256); cbn; lia.
  - intros pl' Hpl. by apply (entry_add Hs).
Qed.

(** * What stays *)

(** Between two states the pages outside of [X] keep their entries and the contents
    of the frames they own, and no table is taken away. *)
Record kept (X : place -> Prop) (s s' : pager) : Prop := Kept {
  kp_cur : pg_dir s' = pg_dir s;
  kp_dirs : forall d, is_Some (pg_dirs s' !! d) <-> is_Some (pg_dirs s !! d);
  kp_tabs : forall d t, tabix t -> dirent s d t <> 0 -> dirent s' d t = dirent s d t;
  kp_ent : forall pl, pvalid pl -> is_page pl -> ~ X pl -> entry s' pl = entry s pl;
  kp_data : forall pl f, pvalid pl -> is_page pl -> ~ X pl -> f ∈ owned pl (entry s pl) -> frame s' f = frame s f
}.
Definition nothing : place -> Prop := fun _ => False.

Lemma kept_refl X s : kept X s s.
Proof. done. Qed.
Lemma kept_trans X s1 s2 s3 : kept X s1 s2 -> kept X s2 s3 -> kept X s1 s3.
Proof.
  intros [A1 A2 A3 A4 A5] [B1 B2 B3 B4 B5]. split.
  - congruence.
  - intros d. by rewrite B2.
  - intros d t Ht Hd. rewrite B3, A3; try done. by rewrite A3.
  - intros pl Hv Hp Hx. by rewrite B4, A4.
  - intros pl f Hv Hp Hx Hf. rewrite (B5 pl f), (A5 pl f); try done. by rewrite A4.
Qed.
Lemma kept_mono (X Y : place -> Prop) s s' : (forall pl, X pl -> Y pl) -> kept X s s' -> kept Y s s'.
Proof. intros H [A1 A2 A3 A4 A5]. split; eauto. Qed.
Lemma kept_tab X s s' d t : kept X s s' -> has_tab s d t -> has_tab s' d t.
Proof. intros Hk [Ht Hd]. split; [done|]. by rewrite (kp_tabs _ _ _ Hk). Qed.

Lemma kept_fr X s fr' : kept X s (set_fr fr' s).
Proof. done. Qed.
Lemma kept_wr_ent U L s d v e :
  page_ok U L s -> pageable v -> has_tab s d (v / 1024) -> 0 <= e < 2 ^ 32 -> kept (eq (page_place d v)) s (wr_ent s d v e).
Proof.
  intros Hs Hv Ht He. split; try done.
  - intros pl Hpl _ Hx. rewrite (entry_wr_ent U L) by done. by rewrite decide_False by congruence.
  - intros pl f Hpl Hp _ Hf. unfold wr_ent. rewrite frame_set, decide_False; [done|]. intros ->.
    eapply page_no_table; [done|done|by apply at_place_owned|]. exists d, (v / 1024). split; [|split; [|done]]; apply Ht.
Qed.
Lemma kept_wr_data U L s f b :
  page_ok U L s -> ~ is_table s f -> kept (fun pl => at_place s pl f) s (wr_data s f b).
Proof.
  intros Hs Hf. split; try done.
  - intros pl Hpl _ _. by eapply entry_wr_data.
  - intros pl g Hpl Hp Hx Hg. rewrite frame_set, decide_False; [done|]. intros ->. apply Hx. by apply at_place_owned.
Qed.
Lemma kept_add_tab U L s d0 t f fl :
  page_ok U (f :: L) s -> is_Some (pg_dirs s !! d0) -> 5 <= t < 1024 -> dirent s d0 t = 0 -> 0 < f < 2 ^ 20 -> 0 <= fl < 4096 -> kept nothing s (add_tab s d0 t (pte f fl)).
Proof.
  intros Hs Hd0 Ht H0 Hf Hfl. pose proof (pte_range f fl) as He. assert (Hfe : pte_frame (pte f fl) = f) by (apply pte_frame_pte; lia).
  assert (Hin : pte_frame (pte f fl) ∈ f :: L) by (rewrite Hfe; left). split; try done.
  - intros d. cbn [add_tab wr_data set_mem set_dirs pg_dirs]. rewrite put_dir_lookup. destruct (decide _); [apply fmap_is_Some|done].
  - intros d t' Ht' Hd. rewrite (dirent_add Hs) by (unfold tabix in *; lia || done). rewrite decide_False; [done|]. intros (-> & Hsh & _). by apply Hd, (add_tab_none Hs d0 t).
  - intros pl Hpl Hp _. rewrite (entry_add Hs) by done. rewrite decide_False; [done|]. intros ->. unfold tab_place in Hp. by destruct (_ <? _).
  - intros pl g Hpl Hp _ Hg. unfold add_tab. rewrite frame_set, Hfe, decide_False; [done|]. intros ->.
    assert (Ha : at_place s pl f) by (by apply at_place_owned). apply (po_own _ _ _ Hs) in Ha as (_ & _ & []). left.
Qed.

(** The entry of the page the kernel maps frames at for a moment is not looked at. *)
Lemma has_tmp U L s : page_ok U L s -> has_tab s (pg_dir s) (PAGE_TMP / 1024).
Proof. intros Hs. split; [by left|]. change (PAGE_TMP / 1024) with 0. rewrite (to_ident _ (po_tabs _ _ _ Hs)). by vm_compute. Qed.
Lemma wr_tmp_ok U L s e : page_ok U L s -> 0 <= e < 2 ^ 32 -> page_ok U L (wr_ent s (pg_dir s) PAGE_TMP e) /\ kept nothing s (wr_ent s (pg_dir s) PAGE_TMP e).
Proof.
  intros Hs He. pose proof (has_tmp _ _ _ Hs) as Ht.
  assert (Hen : forall pl, pvalid pl -> entry (wr_ent s (pg_dir s) PAGE_TMP e) pl = entry s pl).
  { intros pl Hpl. pose proof (entry_tabix _ Hpl) as Hti. destruct pl as [t|v|d t|d v]; cbn [entry pvalid] in *; [done| |done|]; unfold PAGE_DYN, PAGE_USER in Hpl;
      (rewrite (tabent_wr_ent Hs) by (done || lia); rewrite decide_False by (unfold PAGE_TMP; lia); done). }
  split.
  - eapply page_ok_entries; [done| |done|done]. eapply tabs_ok_mem; [apply Hs|done|done|]. intros f. by eapply wr_ent_mem.
  - split; try done; [intros; by apply Hen|]. intros pl f Hpl Hp _ Hf. unfold wr_ent. rewrite frame_set, decide_False; [done|]. intros ->.
    eapply page_no_table; [done|done|by apply at_place_owned|]. exists (pg_dir s), 0. split; [by left|]. split; [|done]. apply Ht.
Qed.

(** The counters and the list of blocks are no part of it. *)
Lemma page_ok_side U L s v n l r : page_ok U L s -> page_ok U L (Pager (pg_fr s) v (pg_dirs s) (pg_dir s) (pg_mem s) n l r).
Proof.
  intros Hs. eapply page_ok_entries; [exact Hs|eapply tabs_ok_mem; [apply Hs|done|done|apply (to_mem _ (po_tabs _ _ _ Hs))]|done|].
  by intros [] _.
Qed.
Lemma kept_side X s fr' v n l r : kept X s (Pager fr' v (pg_dirs s) (pg_dir s) (pg_mem s) n l r).
Proof. done. Qed.

(** The tables of the user part, which the operations on kernel memory leave alone. *)
Definition utabs (s s' : pager) : Prop := forall d t, 256 <= t < 1024 -> dirent s' d t = dirent s d t.
#[export] Instance utabs_preorder : PreOrder utabs.
Proof. split; [done|]. intros s1 s2 s3 H1 H2 d t Ht. by rewrite H2, H1. Qed.

(** * What is in use and what is free *)

(** A place that has not changed holds the frame it held. *)
Lemma place_stays X s s' pl f : kept X s s' -> ~ X pl -> at_place s pl f -> at_place s' pl f.
Proof.
  intros Hk Hx Ha. pose proof Ha as (Hv & Ho & Hf). pose proof (entry_tabix _ Hv) as Ht. assert (E : entry s' pl = entry s pl); [|split; [done|by rewrite E]].
  assert (Hz : entry s pl <> 0) by (intros E; rewrite E in Ho; unfold owns in Ho; by rewrite has_zero in Ho).
  destruct pl as [t|v|d t|d v]; [|by apply Hk| |by apply Hk]; cbn [entry] in *; rewrite ?(kp_cur _ _ _ Hk); by apply (kp_tabs _ _ _ Hk).
Qed.
Section fresh.
Context {U : list Z} {X : place -> Prop} {s s' : pager} (Hs : page_ok U [] s) (Hs' : page_ok U [] s') (Hk : kept X s s') (Hx : forall pl, X pl -> owned pl (entry s pl) = []).

(** When only places that held no frame have changed, every place holds what it held. *)
Lemma fresh_place pl f : at_place s pl f -> at_place s' pl f.
Proof.
  intros Ha. apply (place_stays X s); [done| |done]. intros Hp. apply at_place_owned in Ha as [_ Ha]. rewrite (Hx pl Hp) in Ha. by apply not_elem_of_nil in Ha.
Qed.
(** What is free was free. *)
Lemma still_free f : free_frame (pg_fr s') f -> free_frame (pg_fr s) f.
Proof.
  intros Hf. destruct (po_all _ _ _ Hs f (fk_in _ _ (po_fr _ _ _ Hs') _ Hf)) as [?|[?%not_elem_of_nil|[pl Ha]]]; [done|done|].
  apply fresh_place in Ha. by destruct (po_own _ _ _ Hs' _ _ Ha) as (_ & ? & _).
Qed.
(** Frames that come to places which held none were free. *)
Lemma fresh_frames pl f : X pl -> at_place s' pl f -> free_frame (pg_fr s) f.
Proof.
  intros Hpl Ha. destruct (po_own _ _ _ Hs' _ _ Ha) as (Hu & _). destruct (po_all _ _ _ Hs f Hu) as [?|[?%not_elem_of_nil|[pl' Ha']]]; [done|done|exfalso].
  apply fresh_place in Ha' as Ha2. apply at_place_owned in Ha' as [_ Ha']. rewrite (po_inj _ _ _ Hs' _ _ _ Ha2 Ha), (Hx pl Hpl) in Ha'. by apply not_elem_of_nil in Ha'.
Qed.
End fresh.
(** When no page has changed and no table of a task, the frames that are not free
    any more are tables of the kernel. *)
Lemma only_tables U s s' f :
  page_ok U [] s -> page_ok U [] s' -> kept nothing s s' -> utabs s s' -> free_frame (pg_fr s) f -> free_frame (pg_fr s') f \/ exists t, at_place s' (KTab t) f.
Proof.
  intros Hs Hs' Hk Hu Hf. destruct (po_all _ _ _ Hs' f (fk_in _ _ (po_fr _ _ _ Hs) _ Hf)) as [?|[?%not_elem_of_nil|[pl Ha]]]; [by left|done|].
  assert (Hno : ~ at_place s pl f) by (intros (_ & Hn & _)%(po_own _ _ _ Hs); done).
  destruct pl as [t|v|d t|d v]; [right; by exists t|exfalso..]; apply Hno; pose proof Ha as (Hv & Ho & Hp); cbn [entry] in *; (split; [done|]).
  - rewrite <- (kp_ent _ _ _ Hk (KPg v) Hv I ltac:(by intros [])). done.
  - cbn in Hv. cbn [entry]. by rewrite <- (Hu d t).
  - rewrite <- (kp_ent _ _ _ Hk (UPg d v) Hv I ltac:(by intros [])). done.
Qed.

(** The frames that hold [pg_flist].  The list has the frames from [DMA_PAGES] on;
    without such frames it is neither read nor written. *)
Definition in_list (s : pager) (f : Z) : Prop := pg_flist_base (pg_fr s) <= f < pg_flist_end (pg_fr s).
Definition list_alone (U : list Z) (s : pager) : Prop :=
  (forall f, f ∈ U -> f < DMA_PAGES) \/ forall pl f, at_place s pl f -> ~ in_list s f.
