(* ===== verification/PageKern.v ===== *)
(** The kernel's part of the address space: finding room ([pg_adget]), giving it
    back, and mapping memory, runs for DMA and devices into it. *)

From S2P Require Import Prelude Frame PageFrames PageFramesOk Page PageOk.

(** The pages [p], ..., [p + n - 1] of the kernel. *)
Definition kpages (p n : Z) : place -> Prop := fun pl => exists v, pl = KPg v /\ p <= v < p + n.
Definition kent (s : pager) (v : Z) : Z := tabent s (pg_dir s) v.
(** The current directory has table [t]. *)
Definition ktab (s : pager) (t : Z) : Prop := has_tab s (pg_dir s) t.
Definition in_dyn (p n : Z) : Prop := PAGE_DYN <= p /\ p + n <= PAGE_USER.
(** The run of pages has tables, and every entry of it is [e]. *)
Definition filled (s : pager) (p n e : Z) : Prop := forall v, p <= v < p + n -> ktab s (v / 1024) /\ kent s v = e.

Lemma kept_ktab X s s' t : kept X s s' -> ktab s t -> ktab s' t.
Proof. unfold ktab. intros Hk. rewrite (kp_cur _ _ _ Hk). by apply (kept_tab X). Qed.
Lemma kpages_place d p n v : in_dyn p n -> p <= v < p + n -> page_place d v = KPg v.
Proof. intros Hd Hv. unfold page_place, in_dyn in *. by rewrite (proj2 (Z.ltb_lt _ _)) by lia. Qed.
Lemma dyn_pageable p n v : in_dyn p n -> p <= v < p + n -> pageable v.
Proof. unfold in_dyn, pageable, PAGE_DYN, PAGE_USER, PAGE_USER_END. lia. Qed.
Lemma dyn_bounds p n : in_dyn p n -> 0 <= n -> 5120 <= p /\ p + n <= 262144.
Proof. unfold in_dyn, PAGE_DYN, PAGE_USER. lia. Qed.
Lemma dyn_tab v : PAGE_DYN <= v < PAGE_USER -> 5 <= v / 1024 < 256.
Proof. unfold PAGE_DYN, PAGE_USER. intros Hv. Z.div_mod_to_equations; lia. Qed.
Lemma rounds_eq p n : 0 <= p -> 0 <= n -> p + n < 2 ^ 32 -> rounds_of p n = Z.to_nat n.
Proof. intros. unfold rounds_of. rewrite u32_small by lia. f_equal. lia. Qed.
Lemma kept_kent X s s' v : kept X s s' -> PAGE_DYN <= v < PAGE_USER -> ~ X (KPg v) -> kent s' v = kent s v.
Proof. intros Hk Hv Hx. apply (kp_ent _ _ _ Hk (KPg v)); done. Qed.

Lemma kept_pages_run s s1 s2 i n : kept (eq (KPg i)) s s1 -> kept (kpages (i + 1) (Z.of_nat n)) s1 s2 -> kept (kpages i (Z.of_nat (S n))) s s2.
Proof.
  intros H1 H2. eapply kept_trans; eapply kept_mono; [|exact H1| |exact H2].
  - intros pl <-. exists i. split; [done|]. lia.
  - intros pl (v & -> & Hv). exists v. split; [done|]. lia.
Qed.

(** Pages without an entry before and after have not changed. *)
Lemma kept_undone s s' p n :
  kept (kpages p n) s s' -> in_dyn p n -> (forall v, p <= v < p + n -> kent s v = 0 /\ kent s' v = 0) -> kept nothing s s'.
Proof.
  intros [K1 K2 K3 K4 K5] Hd Hz. assert (Hc : forall pl, kpages p n pl \/ ~ kpages p n pl).
  { intros [t|v|d t|d v]; try (by right; intros (? & ? & _)). destruct (decide (p <= v < p + n)) as [|Hn]; [left; by exists v|].
    right. by intros (v' & [= <-] & ?). }
  split; try done.
  - intros pl Hpl Hp _. destruct (Hc pl) as [(v & -> & Hv)|]; [|by apply K4]. destruct (Hz v Hv) as [H1 H2]. exact (eq_trans H2 (eq_sym H1)).
  - intros pl f Hpl Hp _ Hf. destruct (Hc pl) as [(v & -> & Hv)|]; [|by apply (K5 pl)]. destruct (Hz v Hv) as [H1 H2].
    cbn [entry] in Hf. fold (kent s v) in Hf. rewrite H1 in Hf. by apply not_elem_of_nil in Hf.
Qed.

(** * Entries and frames are independent *)

Definition with_fr {A} (fr' : frames) (o : outcome pager A) : outcome pager A :=
  match o with Ret a s => Ret a (set_fr fr' s) | Err e s => Err e (set_fr fr' s) | Halt h => Halt h end.
Definition no_fr {A} (m : M pager A) : Prop := forall fr' s, m (set_fr fr' s) = with_fr fr' (m s).
Lemma no_fr_bind {A B} (m : M pager A) (k : A -> M pager B) : no_fr m -> (forall a, no_fr (k a)) -> no_fr (bind m k).
Proof. intros Hm Hk fr' s. unfold bind. rewrite Hm. destruct (m s) as [a s'|e s'|h]; cbn; [apply Hk|done..]. Qed.
Lemma no_fr_rd_dir t : no_fr (rd_dir t).
Proof.
  intros fr' s. unfold rd_dir. rewrite !gets_bind. cbn [pg_dirs pg_dir set_fr]. destruct (pg_dirs s !! pg_dir s) as [l|]; [|done].
  cbn [deref]. rewrite !ret_bind. by destruct (l !! Z.to_nat t).
Qed.
Lemma no_fr_wr_tab v e : no_fr (wr_tab v e).
Proof.
  unfold wr_tab. apply no_fr_bind; [|done]. unfold tab_frame. apply no_fr_bind; [apply no_fr_rd_dir|]. intros d. by destruct (has d PGF_PRESENT).
Qed.
Lemma no_fr_fill_tab n i e : no_fr (fill_tab n i e).
Proof.
  revert i. induction n as [|n IH]; intros i; [done|]. apply (no_fr_bind (wr_tab i e)); [apply no_fr_wr_tab|]. intros _. apply IH.
Qed.
Lemma no_fr_rd_tab i : no_fr (rd_tab i).
Proof.
  unfold rd_tab. apply no_fr_bind; [|done]. unfold tab_frame. apply no_fr_bind; [apply no_fr_rd_dir|]. intros d. by destruct (has d PGF_PRESENT).
Qed.
Lemma run_no_fr {A} (m : M pager A) fr' s a s' : no_fr m -> m s = Ret a s' -> m (set_fr fr' s) = Ret a (set_fr fr' s').
Proof. intros Hm E. by rewrite Hm, E. Qed.
(** What such a computation does, it also does with other frames. *)
Lemma wp_no_fr {A} (m : M pager A) Q E fr' s :
  no_fr m -> wp m (fun a s' => Q a (set_fr fr' s')) (fun e s' => E e (set_fr fr' s')) s -> wp m Q E (set_fr fr' s).
Proof. intros Hm. unfold wp. rewrite Hm. by destruct (m s). Qed.

(** * Filling entries *)

(** The frames that pages [i], ... own. *)
Fixpoint run_owned (n : nat) (i : Z) (s : pager) : list Z :=
  match n with O => [] | S n' => owned (KPg i) (kent s i) ++ run_owned n' (i + 1) s end.
Lemma run_owned_ext n i s s' : (forall v, i <= v < i + Z.of_nat n -> kent s' v = kent s v) -> run_owned n i s' = run_owned n i s.
Proof.
  revert i. induction n as [|n IH]; intros i H; cbn; [done|]. rewrite (H i) by lia. f_equal. apply IH. intros v Hv. apply H. lia.
Qed.
(** The parts of the state that entries and frames are no part of. *)
Definition side (s : pager) : list mhead * Z * Z := (kmalloc_list s, pg_vfree s, t_pg_count s).

Lemma page_ok_perm U L L' s : L ≡ₚ L' -> page_ok U L s -> page_ok U L' s.
Proof.
  intros Hp [H1 H2 H3 H4 H5 H6 H7 H8]. split; try done.
  - intros pl f Hf. rewrite <- Hp. eauto.
  - by rewrite <- Hp.
  - intros f. rewrite <- Hp. eauto.
  - intros f Hf. rewrite <- Hp. eauto.
Qed.

Lemma wr_kent_ok U L s v e :
  PAGE_DYN <= v < PAGE_USER -> ktab s (v / 1024) -> 0 <= e < 2 ^ 32 -> page_ok U (owned (KPg v) e ++ L) s ->
  wp (wr_tab v e)
    (fun _ s' => page_ok U (owned (KPg v) (kent s v) ++ L) s' /\ kept (eq (KPg v)) s s' /\ kent s' v = e /\ pg_fr s' = pg_fr s /\ side s' = side s) (fun _ _ => False) s.
Proof.
  intros Hv Ht He Hs. assert (Hd : in_dyn v 1) by (unfold in_dyn; lia). pose proof (dyn_pageable v 1 v Hd ltac:(lia)) as Hp.
  pose proof (kpages_place (pg_dir s) v 1 v Hd ltac:(lia)) as Hpl. unfold wp. rewrite (wr_tab_run Hs) by done. rewrite <- Hpl in *. split.
  { apply page_ok_wr_ent; done. }
  split; [by eapply kept_wr_ent|]. split; [|done]. change (entry (wr_ent s (pg_dir s) v e) (KPg v) = e).
  rewrite (entry_wr_ent U _ s (pg_dir s) v e _ Hs) by (done || (cbn; lia)). by rewrite decide_True.
Qed.

Lemma fill_tab_ok U L s n i e :
  in_dyn i (Z.of_nat n) -> (forall v, i <= v < i + Z.of_nat n -> ktab s (v / 1024)) -> 0 <= e < 2 ^ 32 -> has e PGF_PRESENT = false -> page_ok U L s ->
  wp (fill_tab n i e)
    (fun _ s' => page_ok U (run_owned n i s ++ L) s' /\ kept (kpages i (Z.of_nat n)) s s' /\ filled s' i (Z.of_nat n) e /\ pg_fr s' = pg_fr s /\ side s' = side s) (fun _ _ => False) s.
Proof.
  intros Hd Ht He Hno. revert i L s Hd Ht. induction n as [|n IH]; intros i L s Hd Ht Hs; cbn [fill_tab].
  { apply wp_ret. split; [done|]. split; [apply kept_refl|]. split; [|done]. intros v Hv. lia. }
  assert (Hi : PAGE_DYN <= i < PAGE_USER) by (unfold in_dyn in Hd; lia). assert (Hon : owned (KPg i) e = []) by (unfold owned, owns; by rewrite Hno).
  eapply wp_seq; [apply (wr_kent_ok U L s i e Hi (Ht i ltac:(lia)) He); by rewrite Hon| |done]. intros [] s1 (Hs1 & Hk1 & He1 & F1 & F2).
  eapply wp_mono; [eapply (IH (i + 1)); [unfold in_dyn in *; lia| |exact Hs1]| |done].
  { intros v Hv. eapply kept_ktab; [exact Hk1|]. apply Ht. lia. }
  intros [] s2 (Hs2 & Hk2 & Hf2 & G1 & G2). split; [|split; [|split]].
  - rewrite (run_owned_ext n (i + 1) s s1) in Hs2.
    + eapply page_ok_perm; [|exact Hs2]. cbn [run_owned]. rewrite <- app_assoc. apply Permutation_app_swap_app.
    + intros v Hv. apply (kept_kent _ _ _ _ Hk1); [unfold in_dyn in Hd; lia|]. intros [= ?]. lia.
  - by eapply kept_pages_run.
  - intros v Hv. destruct (decide (v = i)) as [->|Hne]; [|apply Hf2; lia]. split; [eapply kept_ktab; [exact Hk2|]; eapply kept_ktab; [exact Hk1|]; apply Ht; lia|].
    rewrite (kept_kent _ _ _ _ Hk2); [done|done|]. intros (v & [= <-] & ?). lia.
  - split; congruence.
Qed.

(** * The user part *)

Lemma keeps_fr {A} (m : M frames A) : keeps utabs (fr m).
Proof. intros s. unfold wlp, fr, zoom. by destruct (m (pg_fr s)). Qed.
Lemma keeps_wr_frame f b : keeps utabs (wr_frame f b).
Proof. by apply keeps_modify. Qed.
#[export] Hint Resolve keeps_fr keeps_wr_frame : keeps.
Lemma rd_dir_utabs t : keeps utabs (rd_dir t).
Proof. unfold rd_dir. keeps. Qed.
#[export] Hint Resolve rd_dir_utabs : keeps.
Lemma tab_frame_utabs i : keeps utabs (tab_frame i).
Proof. unfold tab_frame. keeps. Qed.
#[export] Hint Resolve tab_frame_utabs : keeps.
Lemma rd_tab_utabs i : keeps utabs (rd_tab i).
Proof. unfold rd_tab. keeps. Qed.
Lemma wr_tab_utabs i v : keeps utabs (wr_tab i v).
Proof. unfold wr_tab. keeps. Qed.
#[export] Hint Resolve rd_tab_utabs wr_tab_utabs : keeps.
Lemma fill_tab_utabs n i v : keeps utabs (fill_tab n i v).
Proof. revert i. induction n as [|n IH]; intros i; cbn [fill_tab]; keeps. Qed.
Lemma atmem_loop_utabs n i reuse : keeps utabs (atmem_loop n i reuse).
Proof. revert i. induction n as [|n IH]; intros i; cbn [atmem_loop]; unfold panic; keeps. Qed.
Lemma dtmem_loop_utabs n i : keeps utabs (dtmem_loop n i).
Proof. revert i. induction n as [|n IH]; intros i; cbn [dtmem_loop]; unfold panic; keeps. Qed.
Lemma map_run_utabs n p m : keeps utabs (map_run n p m).
Proof. revert p m. induction n as [|n IH]; intros p m; cbn [map_run]; keeps. Qed.
Lemma atphys_loop_utabs n p phys cache : keeps utabs (atphys_loop n p phys cache).
Proof. revert p phys. induction n as [|n IH]; intros p phys; cbn [atphys_loop]; unfold panic; keeps. Qed.
Lemma dtphys_loop_utabs n i : keeps utabs (dtphys_loop n i).
Proof. revert i. induction n as [|n IH]; intros i; cbn [dtphys_loop]; unfold panic; keeps. Qed.
#[export] Hint Resolve fill_tab_utabs atmem_loop_utabs dtmem_loop_utabs map_run_utabs atphys_loop_utabs dtphys_loop_utabs : keeps.
Lemma pg_adput_utabs p n : keeps utabs (pg_adput p n).
Proof. unfold pg_adput. keeps. by apply keeps_modify. Qed.
#[export] Hint Resolve pg_adput_utabs : keeps.

(** * Room in the address space *)

(** The search looks at the end of the area before it takes a step of four tables,
    not after it; it stays inside of the area when there is room behind the last
    table, or when the kernel has all its tables. *)
Definition fits (s : pager) (n : Z) : Prop := forall top, kern_top s top -> top = 256 \/ 1024 * top + n <= PAGE_USER.

Lemma kent_top s top v : kern_top s top -> 1024 * top <= v < PAGE_USER -> kent s v = 0.
Proof.
  intros [Hr Ht] Hv. unfold kent, tabent. rewrite (proj2 (Ht (v / 1024) ltac:(unfold PAGE_USER in *; Z.div_mod_to_equations; lia)));
    [done|]. Z.div_mod_to_equations; lia.
Qed.

Lemma adget_scan_ok U L s n top fuel i start :
  page_ok U L s -> kern_top s top -> top = 256 \/ 1024 * top + n <= PAGE_USER -> 0 < n < 2 ^ 20 ->
  PAGE_DYN <= start <= i -> start <= 1024 * top -> (top = 256 -> i <= PAGE_USER) -> i <= PAGE_USER + 4096 -> PAGE_USER - i <= Z.of_nat fuel ->
  (forall v, start <= v < i -> v < PAGE_USER -> kent s v = 0) -> i - start <= n \/ top < 256 /\ 1024 * top <= i ->
  wp (adget_scan fuel n i start)
    (fun p s' => s' = s /\ in_dyn p n /\ p <= 1024 * top /\ forall v, p <= v < p + n -> kent s v = 0)
    (fun e s' => s' = s /\ e = ENOMEM) s.
Proof.
  intros Hs Htop Hfit Hn. revert i start. induction fuel as [|fuel IH]; intros i start Hst Hstt Hi Hi2 Hfu Hfree Hle; cbn [adget_scan].
  all: unfold PAGE_DYN, PAGE_USER in *; rewrite u32_small by lia; destruct (Z.ltb_spec (i - start) n) as [Hlt|Hge]; cbn [negb].
  1,3: destruct (Z.leb_spec (5120 + PAGE_DYN_COUNT) i) as [Hend|Hend]; [done|]; unfold PAGE_DYN_COUNT, PAGE_USER, PAGE_DYN in Hend.
  1: lia.
  2, 3: apply wp_ret; split; [done|]; unfold in_dyn, PAGE_DYN, PAGE_USER.
  2, 3: assert (start + n <= 262144) by (destruct (decide (top = 256)); [specialize (Hi ltac:(done)); lia|lia]); split; [lia|]; split; [done|];
    intros v Hv; apply Hfree; lia.
  pose proof (dyn_tab i ltac:(unfold PAGE_DYN, PAGE_USER; lia)) as Ht. eapply wp_known; [apply (rd_dir_run Hs); lia|].
  pose proof Htop as [Hr Hti]. destruct (Z.eqb_spec (dirent s (pg_dir s) (i / 1024)) 0) as [E0|E0].
  - apply Hti in E0; [|done]. assert (1024 * top <= i) by (Z.div_mod_to_equations; lia). apply IH; try lia.
    intros v Hv Hu. destruct (decide (v < i)); [by apply Hfree; lia|]. apply (kent_top s top); [done|unfold PAGE_USER; lia].
  - assert (Htt : i / 1024 < top) by (destruct (decide (i / 1024 < top)); [done|]; exfalso; apply E0, Hti; [done|lia]).
    assert (Hit : i < 1024 * top) by (Z.div_mod_to_equations; lia). eapply wp_known; [apply (rd_tab_run Hs); split; [by right; lia|done]|].
    fold (kent s i). destruct (Z.eqb_spec (kent s i) 0) as [Ez|Ez]; cbn [negb]; apply IH; try lia.
    intros v Hv Hu. destruct (decide (v = i)) as [->|]; [done|]. apply Hfree; lia.
Qed.

Lemma zero_new_tab U L s t e :
  page_ok U L s -> 5 <= t < 1024 -> has e PGF_PRESENT = true -> zero_tab t (set_dirs (put_dir s (pg_dir s) t e) s) = Ret tt (add_tab s (pg_dir s) t e).
Proof.
  intros Hs Ht Hp. destruct (to_cur _ (po_tabs _ _ _ Hs)) as [l El]. destruct (to_dirs _ (po_tabs _ _ _ Hs) _ _ El) as [Hl _].
  unfold zero_tab, tab_frame, rd_dir, bind. cbn [gets set_dirs pg_dirs pg_dir]. rewrite put_dir_lookup, decide_True by (done || by left). rewrite El. cbn.
  replace (1024 * t / 1024) with t by (rewrite Z.mul_comm, Z.div_mul; lia). rewrite list_lookup_insert_eq by lia. cbn. by rewrite Hp.
Qed.
Lemma kern_flags : 0 <= PGF_KERN < 4096 /\ has PGF_KERN PGF_PRESENT = true /\ has PGF_KERN PGF_PHYS = false.
Proof. by vm_compute. Qed.

Lemma adget_tables_ok U L s n t :
  page_ok U L s -> 5 <= t -> t + Z.of_nat n <= 256 -> (exists top, kern_top s top /\ t <= top) ->
  wp (adget_tables n t)
    (fun _ s' => page_ok U L s' /\ kept nothing s s' /\ utabs s s' /\ (forall t', t <= t' < t + Z.of_nat n -> ktab s' t') /\ side s' = side s /\
       free_count (pg_fr s) - Z.of_nat n <= free_count (pg_fr s'))
    (fun e s' => e = ENOMEM /\ page_ok U L s' /\ kept nothing s s' /\ utabs s s' /\ side s' = side s) s.
Proof.
  revert s t. induction n as [|n IH]; intros s t Hs Ht Hn (top & Htop & Hle); cbn [adget_tables].
  { apply wp_ret. split; [done|]. split; [apply kept_refl|]. split; [done|]. split; [intros; lia|]. split; [done|lia]. }
  assert (Hnext : forall s1, page_ok U L s1 -> kept nothing s s1 -> utabs s s1 -> ktab s1 t -> side s1 = side s -> free_count (pg_fr s) - 1 <= free_count (pg_fr s1) -> (exists top, kern_top s1 top /\ t + 1 <= top) ->
    wp (adget_tables n (t + 1)) (fun _ s' => page_ok U L s' /\ kept nothing s s' /\ utabs s s' /\ (forall t', t <= t' < t + Z.of_nat (S n) -> ktab s' t') /\ side s' = side s /\
        free_count (pg_fr s) - Z.of_nat (S n) <= free_count (pg_fr s'))
      (fun e s' => e = ENOMEM /\ page_ok U L s' /\ kept nothing s s' /\ utabs s s' /\ side s' = side s) s1).
  { intros s1 Hs1 Hk1 Hut1 Ht1 Hsd Hc1 Htp. eapply wp_mono; [apply (IH s1 (t + 1) Hs1); [lia|lia|done]| |].
    - intros [] s2 (Hs2 & Hk2 & Hut2 & Ht2 & Hsd2 & Hc2). split; [done|]. split; [by eapply kept_trans|]. split; [by etransitivity|]. split; [|split; [congruence|lia]]. intros t' Ht'.
      destruct (decide (t' = t)) as [->|]; [by eapply kept_ktab|apply Ht2; lia].
    - intros e s2 (-> & Hs2 & Hk2 & Hut2 & Hsd2). split; [done|]. split; [done|]. split; [by eapply kept_trans|]. split; [by etransitivity|congruence]. }
  eapply wp_known; [apply (rd_dir_run Hs); lia|]. apply wp_bind. destruct (Z.eqb_spec (dirent s (pg_dir s) t) 0) as [E0|E0].
  - assert (top = t) as -> by (apply (proj2 Htop) in E0; lia). eapply wp_seq; [by apply alloc_ok| |].
    2: { intros e s' (-> & -> & _). split; [done|]. split; [done|]. split; [apply kept_refl|done]. }
    intros f s1 (fr' & -> & Hs1 & Hf & _ & _ & Hcf). destruct kern_flags as (Hk1 & Hk2 & _).
    assert (Hpr : has (pte f PGF_KERN) PGF_PRESENT = true) by (by rewrite pte_present). apply wp_bind. unfold pg_wradir, wp at 1, modify.
    assert (E : (fun l => <[Z.to_nat t := pte f PGF_KERN]> l) <$> pg_dirs (set_fr fr' s) = put_dir (set_fr fr' s) (pg_dir s) t (pte f PGF_KERN))
      by (unfold put_dir; by rewrite (proj2 (Z.ltb_lt _ _)) by lia). rewrite E.
    eapply wp_is; [apply (zero_new_tab U _ _ t _ Hs1); (done || lia)|].
    assert (Hadd : page_ok U L (add_tab (set_fr fr' s) (pg_dir s) t (pte f PGF_KERN))) by (apply page_ok_add_tab; (done || apply (po_tabs _ _ _ Hs1) || lia)).
    apply (Hnext _ Hadd); [eapply kept_trans; [apply (kept_fr _ _ fr')|eapply (kept_add_tab U L); (done || apply (po_tabs _ _ _ Hs1) || lia)]| | |done|cbn; lia|].
    + intros d t' Ht'. rewrite (dirent_add Hs1) by (apply pte_range || lia). by rewrite decide_False by lia.
    + split; [right; lia|]. rewrite (dirent_add Hs1) by (apply pte_range || lia). rewrite decide_True by (split; [done|]; split; [by left|apply (po_tabs _ _ _ Hs)]).
      intros E1. by rewrite E1, has_zero in Hpr.
    + destruct (to_top _ (po_tabs _ _ _ Hadd)) as [top' Htop']. exists top'. split; [done|]. destruct (decide (t + 1 <= top')); [done|exfalso].
      destruct Htop' as [Hr' Hti']. specialize (Hti' t ltac:(lia)). rewrite (dirent_add Hs1) in Hti' by (apply pte_range || lia).
      rewrite decide_True in Hti' by (split; [done|]; split; [by left|apply (po_tabs _ _ _ Hs)]). rewrite (proj2 Hti'), has_zero in Hpr by lia. done.
  - apply wp_ret. apply (Hnext s Hs); [apply kept_refl|done|by split; [right; lia|]|done|lia|]. exists top. split; [done|].
    destruct (decide (t + 1 <= top)); [done|]. exfalso. apply E0, (proj2 Htop); lia.
Qed.

Lemma space_in_use : 0 <= PGF_SPACE_IN_USE < 2 ^ 32 /\ has PGF_SPACE_IN_USE PGF_PRESENT = false.
Proof. by vm_compute. Qed.
Lemma run_owned_nil n i s : (forall v, i <= v < i + Z.of_nat n -> has (kent s v) PGF_PRESENT = false) -> run_owned n i s = [].
Proof.
  revert i. induction n as [|n IH]; intros i H; cbn; [done|]. unfold owned at 1, owns. rewrite (H i) by lia. cbn. apply IH. intros v Hv. apply H. lia.
Qed.

(** The tables that [n] pages need at most. *)
Definition new_tables (n : Z) : Z := n / 1024 + 2.
Lemma pg_adget_ok U s n :
  page_ok U [] s -> 0 < n < 2 ^ 20 -> fits s n ->
  wp (pg_adget n)
    (fun p s' => in_dyn p n /\ page_ok U [] s' /\ kept (kpages p n) s s' /\ utabs s s' /\ (forall v, p <= v < p + n -> kent s v = 0) /\
       filled s' p n PGF_SPACE_IN_USE /\ kmalloc_list s' = kmalloc_list s /\ pg_vfree s' = u32 (pg_vfree s - n) /\
       free_count (pg_fr s) - new_tables n <= free_count (pg_fr s'))
    (fun e s' => e = ENOMEM /\ page_ok U [] s' /\ kept nothing s s' /\ utabs s s' /\ side s' = side s) s.
Proof.
  intros Hs Hn Hfit. destruct (to_top _ (po_tabs _ _ _ Hs)) as [top Htop]. unfold pg_adget. pose proof Htop as [Hr _].
  eapply wp_seq; [apply (adget_scan_ok U [] s n top); try done| |].
  all: unfold PAGE_DYN, PAGE_DYN_COUNT, PAGE_USER; try lia.
  { by apply Hfit. }
  2: { intros e s' [-> ->]. split; [done|]. split; [done|]. split; [apply kept_refl|done]. }
  intros p s' (-> & Hd & Hpt & Hz). pose proof (dyn_bounds p n Hd ltac:(lia)) as Hb. rewrite u32_small by lia.
  assert (Ht : 5 <= p / 1024) by (Z.div_mod_to_equations; lia).
  eapply wp_seq; [apply (adget_tables_ok U [] s _ (p / 1024) Hs Ht)| |done].
  { Z.div_mod_to_equations; lia. }
  { exists top. split; [done|]. Z.div_mod_to_equations; lia. }
  intros [] s1 (Hs1 & Hk1 & Hut1 & Ht1 & Hsd1 & Hc1). rewrite rounds_eq by lia. destruct space_in_use as [Hp1 Hp2].
  assert (Htab : forall v, p <= v < p + n -> ktab s1 (v / 1024)) by (intros v Hv; apply Ht1; Z.div_mod_to_equations; lia).
  assert (Hz1 : forall v, p <= v < p + n -> kent s1 v = 0).
  { intros v Hv. rewrite (kept_kent _ _ _ _ Hk1); [by apply Hz| |by intros []]. unfold in_dyn in Hd. lia. }
  eapply wp_seq; [apply wp_keeps; [apply (fill_tab_ok U [] s1 (Z.to_nat n) p PGF_SPACE_IN_USE); rewrite ?Z2Nat.id by lia; done|apply (fill_tab_utabs _ p)]| |by intros e s2 [[] _]].
  rewrite Z2Nat.id by lia. intros [] s2 [(Hs2 & Hk2 & Hf2 & Hfr2 & Hsd2) Hut2]. rewrite run_owned_nil in Hs2.
  2: { intros v Hv. rewrite Z2Nat.id in Hv by lia. rewrite Hz1 by done. apply has_zero. }
  assert (Hsd : side s2 = side s) by congruence. injection Hsd as E1 E2 _. apply wp_bind. unfold wp at 1, modify. apply wp_ret. split; [done|]. split; [|split; [|split]].
  - by apply page_ok_side.
  - eapply kept_trans; [|eapply kept_trans; [exact Hk2|apply kept_side]]. by eapply kept_mono; [|exact Hk1].
  - by etransitivity; [exact Hut1|exact Hut2].
  - split; [done|]. split; [done|]. cbn. rewrite E1, E2, Hfr2. split; [done|]. split; [done|]. unfold new_tables. Z.div_mod_to_equations; lia.
Qed.

Lemma pg_adput_ok U s p n :
  page_ok U [] s -> in_dyn p n -> 0 < n -> (forall v, p <= v < p + n -> ktab s (v / 1024) /\ has (kent s v) PGF_PRESENT = false) ->
  wp (pg_adput p n)
    (fun _ s' => page_ok U [] s' /\ kept (kpages p n) s s' /\ (forall v, p <= v < p + n -> kent s' v = 0) /\
       kmalloc_list s' = kmalloc_list s /\ pg_vfree s' = u32 (pg_vfree s + n) /\ pg_fr s' = pg_fr s) (fun _ _ => False) s.
Proof.
  intros Hs Hd Hn He. pose proof (dyn_bounds p n Hd ltac:(lia)) as Hb. unfold pg_adput. rewrite rounds_eq by lia.
  eapply wp_seq; [apply (fill_tab_ok U [] s (Z.to_nat n) p 0)| |done]; rewrite ?Z2Nat.id by lia; try done.
  { intros v Hv. by apply He. }
  intros [] s1 (Hs1 & Hk1 & Hf1 & Hfr & Hsd). rewrite run_owned_nil in Hs1 by (intros v Hv; rewrite Z2Nat.id in Hv by lia; by apply He).
  injection Hsd as E1 E2 _. unfold wp, modify. split.
  { by apply page_ok_side. }
  split; [eapply kept_trans; [exact Hk1|apply kept_side]|]. split; [intros v Hv; by apply (Hf1 v Hv)|]. cbn. by rewrite E1, E2.
Qed.

(** * Runs of pages *)

(** A computation that may also stop, as [K] says. *)
Definition wpk {S A} (K : halt -> Prop) (m : M S A) (Q : A -> S -> Prop) (E : Z -> S -> Prop) (s : S) : Prop :=
  match m s with Ret a s' => Q a s' | Err e s' => E e s' | Halt h => K h end.
Section wpk.
Context {S A B : Type} (K : halt -> Prop).
Implicit Types (m : M S A) (Q : A -> S -> Prop) (E : Z -> S -> Prop).
Lemma wpk_wp m Q E s : wp m Q E s -> wpk K m Q E s.
Proof. unfold wp, wpk. by destruct (m s). Qed.
Lemma wpk_mono (K' : halt -> Prop) m Q Q' E E' s :
  wpk K m Q E s -> (forall a s', Q a s' -> Q' a s') -> (forall e s', E e s' -> E' e s') -> (forall h, K h -> K' h) -> wpk K' m Q' E' s.
Proof. unfold wpk. destruct (m s); naive_solver. Qed.
Lemma wpk_bind m (k : A -> M S B) (Q : B -> S -> Prop) E s : wpk K m (fun a s' => wpk K (k a) Q E s') E s -> wpk K (bind m k) Q E s.
Proof. unfold wpk, bind. by destruct (m s). Qed.
Lemma wpk_seq m (k : A -> M S B) Q1 E1 (Q : B -> S -> Prop) E s :
  wp m Q1 E1 s -> (forall a s', Q1 a s' -> wpk K (k a) Q E s') -> (forall e s', E1 e s' -> E e s') -> wpk K (bind m k) Q E s.
Proof. unfold wp, wpk, bind. destruct (m s); naive_solver. Qed.
Lemma wpk_attempt m (Q : Z + A -> S -> Prop) E s : wpk K m (fun a => Q (inr a)) (fun e => Q (inl e)) s -> wpk K (attempt m) Q E s.
Proof. unfold wpk, attempt. by destruct (m s). Qed.
Lemma wpk_known m (k : A -> M S B) (Q : B -> S -> Prop) E s a s' : m s = Ret a s' -> wpk K (k a) Q E s' -> wpk K (bind m k) Q E s.
Proof. unfold wpk, bind. by intros ->. Qed.
Lemma wpk_wlp_and m Q E Q' E' s : wpk K m Q E s -> wlp m Q' E' s -> wpk K m (fun a s' => Q a s' /\ Q' a s') (fun e s' => E e s' /\ E' e s') s.
Proof. unfold wpk, wlp. by destruct (m s). Qed.
End wpk.

(** A loop over the pages [i], ... of the kernel that changes one entry per round:
    from entries in [pre] it goes to entries in [post]. *)
Definition run_in (s : pager) (i n : Z) (P : Z -> Z -> Prop) : Prop := forall v, i <= v < i + n -> ktab s (v / 1024) /\ P v (kent s v).

Lemma run_loopk (K : halt -> Prop) (loop : nat -> Z -> M pager unit) (I : nat -> Z -> pager -> Prop) (pre post : Z -> Z -> Prop) :
  (forall i, loop O i = ret tt) ->
  (forall n i s (Q : unit -> pager -> Prop) (E : Z -> pager -> Prop), I (S n) i s -> PAGE_DYN <= i < PAGE_USER -> ktab s (i / 1024) -> pre i (kent s i) ->
     (forall s1, I n (i + 1) s1 -> kept (eq (KPg i)) s s1 -> post i (kent s1 i) -> side s1 = side s -> wpk K (loop n (i + 1)) Q E s1) ->
     wpk K (loop (S n) i) Q E s) ->
  forall n i s, I n i s -> in_dyn i (Z.of_nat n) -> run_in s i (Z.of_nat n) pre ->
  wpk K (loop n i)
    (fun _ s' => I O (i + Z.of_nat n) s' /\ kept (kpages i (Z.of_nat n)) s s' /\ run_in s' i (Z.of_nat n) post /\ side s' = side s)
    (fun _ _ => False) s.
Proof.
  intros H0 HS n. induction n as [|n IH]; intros i s Hi Hd Hr.
  { rewrite H0. apply wpk_wp, wp_ret. rewrite Z.add_0_r. split; [done|]. split; [apply kept_refl|]. split; [|done]. intros v Hv. lia. }
  assert (Hin : PAGE_DYN <= i < PAGE_USER) by (unfold in_dyn in Hd; lia). destruct (Hr i ltac:(lia)) as [Ht Hp].
  apply HS; [done|done|done|done|]. intros s1 Hi1 Hk1 Hp1 Sd1. eapply wpk_mono; [apply (IH (i + 1) s1 Hi1)| |done|done].
  - unfold in_dyn in *. lia.
  - intros v Hv. destruct (Hr v ltac:(lia)) as [Htv Hpv]. split; [by eapply kept_ktab|].
    rewrite (kept_kent _ _ _ _ Hk1); [done|unfold in_dyn in Hd; lia|]. intros [= ->]. lia.
  - intros [] s2 (Hi2 & Hk2 & Hr2 & Sd2). split; [by replace (i + Z.of_nat (S n)) with (i + 1 + Z.of_nat n) by lia|].
    split; [by eapply kept_pages_run|]. split; [|congruence]. intros v Hv. destruct (decide (v = i)) as [->|Hne]; [|apply Hr2; lia].
    split; [eapply kept_ktab; [exact Hk2|]; by eapply kept_ktab|]. rewrite (kept_kent _ _ _ _ Hk2); [done|done|]. intros (v & [= <-] & ?). lia.
Qed.
Lemma run_loop (loop : nat -> Z -> M pager unit) (I : nat -> Z -> pager -> Prop) (pre post : Z -> Z -> Prop) :
  (forall i, loop O i = ret tt) ->
  (forall n i s (Q : unit -> pager -> Prop) (E : Z -> pager -> Prop), I (S n) i s -> PAGE_DYN <= i < PAGE_USER -> ktab s (i / 1024) -> pre i (kent s i) ->
     (forall s1, I n (i + 1) s1 -> kept (eq (KPg i)) s s1 -> post i (kent s1 i) -> side s1 = side s -> wp (loop n (i + 1)) Q E s1) ->
     wp (loop (S n) i) Q E s) ->
  forall n i s, I n i s -> in_dyn i (Z.of_nat n) -> run_in s i (Z.of_nat n) pre ->
  wp (loop n i)
    (fun _ s' => I O (i + Z.of_nat n) s' /\ kept (kpages i (Z.of_nat n)) s s' /\ run_in s' i (Z.of_nat n) post /\ side s' = side s)
    (fun _ _ => False) s.
Proof. exact (run_loopk (fun _ => False) loop I pre post). Qed.

(** * Memory *)

(** Each page of the run is mapped to a frame of its own. *)
Definition mapped (s : pager) (p n : Z) : Prop := run_in s p n (fun _ e => exists f, 0 < f < 2 ^ 20 /\ e = pte f PGF_KERN).

Lemma kern_owned v f : 0 < f < 2 ^ 20 -> owned (KPg v) (pte f PGF_KERN) = [f].
Proof.
  intros Hf. destruct kern_flags as (H1 & H2 & H3). unfold owned, owns. rewrite pte_present, pte_phys, H2, H3. cbn. by rewrite pte_frame_pte by lia.
Qed.
Lemma zcount_pos (l : list bool) : 0 < zcount id l -> exists i, l !! i = Some true.
Proof.
  induction l as [|b l IH]; cbn; [lia|]. destruct b; cbn; intros H; [by exists 0%nat|]. destruct IH as [i Hi]; [lia|]. by exists (S i).
Qed.
Lemma zcount_one (l : list bool) : (forall i j, l !! i = Some true -> l !! j = Some true -> i = j) -> zcount id l <= 1.
Proof.
  induction l as [|b l IH]; cbn; [lia|]. intros H. assert (zcount id l <= 1) by (apply IH; intros i j Hi Hj; by apply (inj S), (H (S i) (S j))).
  destruct b; cbn; [|lia]. destruct (decide (zcount id l = 0)); [lia|]. destruct (zcount_pos l) as [i Hi]; [pose proof (zcount_nonneg id l); lia|]. by specialize (H 0%nat (S i) eq_refl Hi).
Qed.
Lemma free_exists U s : fr_ok U s -> 0 < free_count s -> exists f, free_frame s f.
Proof.
  intros Hs Hc. pose proof (listed_length _ _ Hs) as Hl. unfold free_count in Hc. destruct (listed s) as [|f l] eqn:E.
  - cbn in Hl. rewrite (fk_dma _ _ Hs) in Hc. destruct (zcount_pos (pg_dma_map s) ltac:(lia)) as [i Hi]. exists (Z.of_nat i). right.
    apply lookup_lt_Some in Hi as Hlt. rewrite (fk_map _ _ Hs) in Hlt. split; [lia|]. by rewrite Nat2Z.id, Hi.
  - exists f. left. rewrite E. left.
Qed.
Lemma free_count_u32 U s : fr_ok U s -> u32 (pg_nfree s + pg_nfree_dma s) = free_count s.
Proof.
  intros Hs. unfold free_count. pose proof (dma_count _ _ Hs). pose proof (listed_le _ _ Hs). pose proof (fr_small _ _ Hs).
  destruct (fk_list _ _ Hs) as (l & _ & ? & _). apply u32_small. lia.
Qed.

(** [pg_atmem] panics when the last free frame is frame 4095, which the search of
    [pg_alloc_dma] never finds. *)
Definition last_frame (h : halt) : Prop := h = KPanic "pg_atmem: pg_alloc() failed".
Lemma lone_frame U s : fr_ok U s -> 0 < free_count s -> (forall f, free_frame s f -> f = 4095) -> free_count s = 1 /\ free_frame s 4095.
Proof.
  intros Hs Hc Hno. destruct (free_exists U s Hs Hc) as [f Hf]. pose proof (Hno f Hf) as ->. split; [|done].
  pose proof (listed_length _ _ Hs) as Hl. unfold free_count in *. destruct (listed s) as [|g l] eqn:E.
  - cbn in Hl. rewrite (fk_dma _ _ Hs) in *. assert (zcount id (pg_dma_map s) <= 1); [|lia]. apply zcount_one. intros i j Hi Hj.
    assert (Hlen : length (pg_dma_map s) = 4096%nat) by apply Hs. apply lookup_lt_Some in Hi as Hi', Hj as Hj'.
    assert (Z.of_nat i = 4095) by (apply Hno; right; split; [lia|]; by rewrite Nat2Z.id, Hi).
    assert (Z.of_nat j = 4095) by (apply Hno; right; split; [lia|]; by rewrite Nat2Z.id, Hj). lia.
  - assert (Hg : g ∈ listed s) by (rewrite E; left). pose proof (Hno g (or_introl Hg)) as ->. pose proof (fk_high _ _ Hs _ Hg). unfold DMA_PAGES in *. lia.
Qed.

Lemma atmem_loop_ok U s n i c :
  page_ok U [] s /\ free_count (pg_fr s) = c + Z.of_nat n -> 0 <= c -> in_dyn i (Z.of_nat n) -> filled s i (Z.of_nat n) PGF_SPACE_IN_USE ->
  wpk (fun h => last_frame h /\ c = 0 /\ free_frame (pg_fr s) 4095) (atmem_loop n i false)
    (fun _ s' => (page_ok U [] s' /\ free_count (pg_fr s') = c) /\ kept (kpages i (Z.of_nat n)) s s' /\ mapped s' i (Z.of_nat n) /\ side s' = side s)
    (fun _ _ => False) s.
Proof.
  intros [Hs Hcs] Hc Hd Hf. eapply wpk_mono; [apply (run_loopk (fun h => last_frame h /\ c = 0 /\ free_frame (pg_fr s) 4095) (fun n i => atmem_loop n i false)
    (fun n _ s1 => (page_ok U [] s1 /\ free_count (pg_fr s1) = c + Z.of_nat n) /\ forall f, free_frame (pg_fr s1) f -> free_frame (pg_fr s) f)
    (fun _ e => e = PGF_SPACE_IN_USE)); try done| |done|done].
  2: { intros [] s' ([[? Hc'] _] & ? & ? & ?). rewrite Z.add_0_r in Hc'. done. }
  clear Hcs n i Hd Hf. intros n i s1 Q E [[Hs1 Hcn] Hfr1] Hi Ht He Hnext. cbn [atmem_loop]. eapply wpk_known; [by apply (rd_tab_run Hs1)|].
  fold (kent s1 i). rewrite He. cbn [Z.eqb PGF_SPACE_IN_USE negb Pos.eqb]. apply wpk_bind, wpk_attempt. eapply wpk_mono; [by apply (wpk_wp (fun _ => False)), alloc_ok| | |done].
  2: { intros e s' (_ & -> & Hno). destruct (lone_frame U (pg_fr s1)) as [H1 H4]; [apply Hs1|lia|done|]. split; [done|]. split; [lia|by apply Hfr1]. }
  intros f s2 (fr' & -> & Hs2 & Hfr & _ & _ & Hc1).
  eapply wpk_seq; [apply (wr_kent_ok U [] (set_fr fr' s1) i (pte f PGF_KERN) Hi Ht (pte_range _ _)); by rewrite kern_owned| |done].
  intros [] s3 (Hs3 & Hk3 & He3 & F3 & Sd3). change (kent (set_fr fr' s1) i) with (kent s1 i) in Hs3. rewrite He in Hs3.
  assert (Hk : kept (eq (KPg i)) s1 s3) by (eapply kept_trans; [apply (kept_fr _ _ fr')|exact Hk3]).
  apply Hnext; [|exact Hk|by exists f|exact Sd3]. split; [split; [exact Hs3|rewrite F3; cbn; lia]|]. intros g Hg. apply Hfr1.
  apply (still_free Hs1 Hs3 Hk); [|done]. intros pl <-. cbn [entry]. fold (kent s1 i). by rewrite He.
Qed.
Lemma pg_atmem_ok U s p n :
  page_ok U [] s -> in_dyn p n -> 0 < n -> filled s p n PGF_SPACE_IN_USE ->
  wpk (fun h => last_frame h /\ free_count (pg_fr s) = n /\ free_frame (pg_fr s) 4095) (pg_atmem p n false)
    (fun _ s' => page_ok U [] s' /\ kept (kpages p n) s s' /\ mapped s' p n /\ side s' = side s /\ free_count (pg_fr s') = free_count (pg_fr s) - n)
    (fun e s' => e = ENOMEM /\ s' = s /\ free_count (pg_fr s) < n) s.
Proof.
  intros Hs Hd Hn Hf. pose proof (dyn_bounds p n Hd ltac:(lia)) as Hb. unfold pg_atmem. eapply wpk_known; [done|].
  rewrite (free_count_u32 U) by apply Hs. destruct (Z.ltb_spec (free_count (pg_fr s)) n) as [Hlt|Hge]; [done|]. rewrite rounds_eq by lia.
  eapply wpk_mono; [apply (atmem_loop_ok U s (Z.to_nat n) p (free_count (pg_fr s) - n))| |done|]; rewrite ?Z2Nat.id by lia; try done.
  - split; [done|lia].
  - lia.
  - intros [] s' ([? ?] & ? & ? & ?). done.
  - cbn. intros h (? & ? & ?). split; [done|]. split; [lia|done].
Qed.

Lemma dtmem_loop_ok U s n i c :
  page_ok U [] s /\ free_count (pg_fr s) + Z.of_nat n = c -> in_dyn i (Z.of_nat n) -> mapped s i (Z.of_nat n) ->
  wp (dtmem_loop n i)
    (fun _ s' => (page_ok U [] s' /\ free_count (pg_fr s') + 0 = c) /\ kept (kpages i (Z.of_nat n)) s s' /\
       filled s' i (Z.of_nat n) PGF_SPACE_IN_USE /\ side s' = side s) (fun _ _ => False) s.
Proof.
  intros Hs Hd Hm. apply (run_loop dtmem_loop (fun n _ s => page_ok U [] s /\ free_count (pg_fr s) + Z.of_nat n = c)
    (fun _ e => exists f, 0 < f < 2 ^ 20 /\ e = pte f PGF_KERN) (fun _ e => e = PGF_SPACE_IN_USE)); try done.
  clear s n i Hs Hd Hm. intros n i s Q E [Hs Hcn] Hi Ht (f & Hf & He) Hnext. cbn [dtmem_loop]. eapply wp_known; [by apply (rd_tab_run Hs)|].
  fold (kent s i). destruct kern_flags as (Hfl & Hp & _). destruct space_in_use as [Hu1 Hu2]. rewrite He, pte_present, Hp, pte_frame_pte by lia.
  assert (Ha : at_place s (KPg i) f) by (apply at_place_owned; split; [done|]; cbn [entry]; fold (kent s i); rewrite He, kern_owned by done; left).
  destruct (po_own _ _ _ Hs _ _ Ha) as (Hu & Hn & _). apply wp_bind, wp_zoom. eapply wp_mono; [apply (pg_free_ok U f); [apply Hs|done|done]| |done].
  intros [] fr' (Hfr & Hb & Hc). apply wp_bind, wp_no_fr; [apply no_fr_wr_tab|].
  eapply wp_mono; [apply (wr_kent_ok U [] s i PGF_SPACE_IN_USE Hi Ht Hu1 Hs)| |done]. intros [] s1 (Hs1 & Hk1 & He1 & F1 & Sd1).
  rewrite He, kern_owned in Hs1 by done. apply Hnext; [|eapply kept_trans; [exact Hk1|apply kept_fr]|done|done]. split.
  - apply (page_ok_give U [] s1 [f] fr' Hs1 Hfr). rewrite F1. intros q. rewrite (Hb q), list_elem_of_singleton. naive_solver.
  - cbn. lia.
Qed.
Lemma pg_dtmem_ok U s p n :
  page_ok U [] s -> in_dyn p n -> 0 < n -> mapped s p n ->
  wp (pg_dtmem p n)
    (fun _ s' => page_ok U [] s' /\ kept (kpages p n) s s' /\ filled s' p n PGF_SPACE_IN_USE /\ side s' = side s /\
       free_count (pg_fr s') = free_count (pg_fr s) + n) (fun _ _ => False) s.
Proof.
  intros Hs Hd Hn Hm. pose proof (dyn_bounds p n Hd ltac:(lia)) as Hb. unfold pg_dtmem. rewrite rounds_eq by lia.
  eapply wp_mono; [apply (dtmem_loop_ok U s (Z.to_nat n) p (free_count (pg_fr s) + n))| |done]; rewrite ?Z2Nat.id by lia; try done.
  intros [] s' ([? ?] & ? & ? & ?). split; [done|]. split; [done|]. split; [done|]. split; [done|]. lia.
Qed.

(** * Runs for DMA *)

(** Pages [p], ... are mapped to the frames [m], ... *)
Definition dma_mapped (s : pager) (p n m : Z) : Prop := 0 < m /\ m + n < 4096 /\ run_in s p n (fun v e => e = pte (v + (m - p)) PGF_KERN).

Lemma map_run_ok U s n p m :
  page_ok U (seqZ m (Z.of_nat n)) s -> 0 < m -> m + Z.of_nat n < 4096 -> in_dyn p (Z.of_nat n) -> filled s p (Z.of_nat n) PGF_SPACE_IN_USE ->
  wp (map_run n p m)
    (fun _ s' => page_ok U [] s' /\ kept (kpages p (Z.of_nat n)) s s' /\ dma_mapped s' p (Z.of_nat n) m /\ side s' = side s /\ pg_fr s' = pg_fr s)
    (fun _ _ => False) s.
Proof.
  intros Hs Hm Hm2 Hd Hf. assert (E : m = p + (m - p)) by lia. revert E. generalize (m - p) as k. intros k E. rewrite E in Hs |- *.
  eapply wp_mono; [apply (run_loop (fun n i => map_run n i (i + k))
    (fun n i s1 => (page_ok U (seqZ (i + k) (Z.of_nat n)) s1 /\ 0 < i + k /\ i + k + Z.of_nat n < 4096) /\ pg_fr s1 = pg_fr s)
    (fun _ e => e = PGF_SPACE_IN_USE) (fun v e => e = pte (v + k) PGF_KERN)); try done| |done].
  2: { split; [split; [done|lia]|done]. }
  2: { intros [] s' ([[? _] ?] & ? & Hr & ?). split; [done|]. split; [done|]. split; [|done]. split; [lia|]. split; [lia|]. by replace (p + k - p) with k by lia. }
  intros n' i s1 Q E' [[Hs1 Hb] F] Hi Ht He Hnext. cbn [map_run]. rewrite seqZ_cons in Hs1 by lia.
  eapply wp_seq; [apply (wr_kent_ok U (seqZ (Z.succ (i + k)) (Z.pred (Z.of_nat (S n')))) s1 i (pte (i + k) PGF_KERN) Hi Ht (pte_range _ _)); by rewrite kern_owned by lia| |done].
  intros [] s2 (Hs2 & Hk2 & He2 & F2 & Sd2). rewrite He in Hs2. replace (i + k + 1) with (i + 1 + k) by lia. apply Hnext; [|done|done|done].
  split; [|congruence]. split; [|lia]. replace (i + 1 + k) with (Z.succ (i + k)) by lia. by replace (Z.of_nat n') with (Z.pred (Z.of_nat (S n'))) by lia.
Qed.

Lemma page_ok_app_nil U L s : page_ok U (L ++ []) s -> page_ok U L s.
Proof. by rewrite app_nil_r. Qed.

Lemma pg_atdma_ok U s p n :
  page_ok U [] s -> in_dyn p n -> 0 < n -> filled s p n PGF_SPACE_IN_USE ->
  wp (pg_atdma p n)
    (fun _ s' => page_ok U [] s' /\ kept (kpages p n) s s' /\ (exists m, dma_mapped s' p n m) /\ side s' = side s /\
       free_count (pg_fr s') = free_count (pg_fr s) - n)
    (fun e s' => e = ENOMEM /\ s' = s) s.
Proof.
  intros Hs Hd Hn Hf. unfold pg_atdma. apply wp_bind, wp_zoom. eapply wp_mono; [apply (pg_alloc_dma_ok U n); [apply Hs|done]| |].
  2: { intros e fr' (-> & -> & _). by rewrite set_fr_id. }
  intros m fr' (Hfr & [Hrf _] & Hm & Hm2 & Ht & Hc).
  assert (Hs1 : page_ok U (seqZ m (Z.of_nat (Z.to_nat n))) (set_fr fr' s)).
  { rewrite Z2Nat.id by lia. apply page_ok_app_nil, page_ok_take; [done|done|apply NoDup_seqZ| |].
    - intros f Hin%elem_of_run. right. by apply Hrf.
    - intros f. rewrite (Ht f), elem_of_run. done. }
  eapply wp_mono; [apply (map_run_ok U _ (Z.to_nat n) p m Hs1)| |done]; rewrite ?Z2Nat.id by lia; try done.
  intros [] s2 (Hs2 & Hk2 & Hm3 & Sd2 & F2). split; [done|]. split; [eapply kept_trans; [apply (kept_fr _ _ fr')|exact Hk2]|].
  split; [by exists m|]. split; [done|]. rewrite F2. done.
Qed.

Lemma run_owned_dma n p k s :
  0 < p + k -> p + k + Z.of_nat n < 4096 -> (forall v, p <= v < p + Z.of_nat n -> kent s v = pte (v + k) PGF_KERN) -> run_owned n p s = seqZ (p + k) (Z.of_nat n).
Proof.
  revert p. induction n as [|n IH]; intros p Hm Hm2 He; cbn [run_owned]; [done|]. rewrite (He p), kern_owned by lia. rewrite seqZ_cons by lia.
  cbn. f_equal. rewrite (IH (p + 1)) by (try lia; intros v Hv; apply He; lia). f_equal; lia.
Qed.
Lemma pg_dtdma_ok U s p n m :
  page_ok U [] s -> in_dyn p n -> 0 < n -> dma_mapped s p n m ->
  wp (pg_dtdma p n)
    (fun _ s' => page_ok U [] s' /\ kept (kpages p n) s s' /\ filled s' p n PGF_SPACE_IN_USE /\ side s' = side s /\
       free_count (pg_fr s') = free_count (pg_fr s) + n) (fun _ _ => False) s.
Proof.
  intros Hs Hd Hn (Hm & Hm2 & Hma). destruct (Hma p ltac:(lia)) as [Ht He]. replace (p + (m - p)) with m in He by lia.
  unfold pg_dtdma. eapply wp_known; [by apply (rd_tab_run Hs)|]. fold (kent s p). destruct kern_flags as (Hfl & _ & _). rewrite He, pte_frame_pte by lia.
  assert (Hin : forall q, in_run m n q -> q ∈ U /\ q < DMA_PAGES /\ ~ free_frame (pg_fr s) q).
  { intros q Hq. unfold in_run in Hq. assert (Ha : at_place s (KPg (p + (q - m))) q).
    { apply at_place_owned. split; [cbn; unfold in_dyn in Hd; lia|]. cbn [entry]. fold (kent s (p + (q - m))). rewrite (proj2 (Hma (p + (q - m)) ltac:(lia))).
      replace (p + (q - m) + (m - p)) with q by lia. rewrite kern_owned by lia. left. }
    destruct (po_own _ _ _ Hs _ _ Ha) as (? & ? & _). split; [done|]. split; [unfold DMA_PAGES; lia|done]. }
  apply wp_bind, wp_zoom. eapply wp_mono; [apply (pg_free_dma_ok U m n); [apply Hs|done|done]| |done]. intros [] fr' (Hfr & Hb & Hc).
  apply wp_no_fr; [apply no_fr_fill_tab|]. destruct space_in_use as [Hu1 Hu2].
  eapply wp_mono; [apply (fill_tab_ok U [] s (Z.to_nat n) p PGF_SPACE_IN_USE)| |done]; rewrite ?Z2Nat.id by lia; try done.
  { intros v Hv. by apply Hma. }
  intros [] s1 (Hs1 & Hk1 & Hf1 & F1 & Sd1). rewrite (run_owned_dma _ p (m - p)) in Hs1 by (rewrite ?Z2Nat.id by lia; try lia; intros v Hv; by apply Hma).
  rewrite Z2Nat.id in Hs1 by lia. replace (p + (m - p)) with m in Hs1 by lia. split.
  { apply (page_ok_give U [] s1 (seqZ m n) fr' Hs1 Hfr). rewrite F1. intros q. rewrite (Hb q), elem_of_run. done. }
  split; [eapply kept_trans; [exact Hk1|apply kept_fr]|]. split; [exact Hf1|]. split; [exact Sd1|done].
Qed.

(** * Devices *)

(** The entry of a page of a device, which owns no frame. *)
Definition dev_entry (phys cache : Z) : Z := Z.lor (pte phys (Z.lor PGF_KERN PGF_PHYS)) (default 0 (cache_flags cache)).
Definition dev_mapped (s : pager) (p n phys cache : Z) : Prop := run_in s p n (fun v e => e = dev_entry (u32 (v + (phys - p))) cache).

Lemma cache_flags_small cache c : cache_flags cache = Some c -> 0 <= c < 4096.
Proof. unfold cache_flags. repeat case_match; intros [= <-]; by vm_compute. Qed.
Lemma lor_range a b : 0 <= a < 2 ^ 32 -> 0 <= b < 2 ^ 32 -> 0 <= Z.lor a b < 2 ^ 32.
Proof.
  intros Ha Hb. split; [apply Z.lor_nonneg; lia|]. destruct (decide (Z.lor a b = 0)) as [->|Hne]; [lia|].
  apply Z.log2_lt_pow2; [assert (0 <= Z.lor a b) by (apply Z.lor_nonneg; lia); lia|]. rewrite Z.log2_lor by lia. 
  apply Z.max_lub_lt; (destruct (decide (a = 0)) as [->|]; destruct (decide (b = 0)) as [->|]; cbn; try lia; apply Z.log2_lt_pow2; lia).
Qed.
Lemma has_lor a c b : 0 <= b -> has a (2 ^ b) = true -> has (Z.lor a c) (2 ^ b) = true.
Proof. intros Hb. rewrite !has_bit, Z.lor_spec by done. by intros ->. Qed.

Lemma dev_entry_range phys cache : 0 <= dev_entry phys cache < 2 ^ 32.
Proof.
  apply lor_range; [apply pte_range|]. destruct (cache_flags cache) as [c|] eqn:E; cbn; [|lia]. apply cache_flags_small in E. lia.
Qed.
Lemma dev_entry_has phys cache b : 0 <= b < 12 -> has (Z.lor PGF_KERN PGF_PHYS) (2 ^ b) = true -> has (dev_entry phys cache) (2 ^ b) = true.
Proof. intros Hb Hh. unfold dev_entry. apply has_lor; [lia|]. by rewrite pte_has. Qed.
Lemma dev_present phys cache : has (dev_entry phys cache) PGF_PRESENT = true.
Proof. by apply (dev_entry_has phys cache 0). Qed.
Lemma dev_owned v phys cache : owned (KPg v) (dev_entry phys cache) = [].
Proof. unfold owned, owns. rewrite dev_present. assert (has (dev_entry phys cache) PGF_PHYS = true) as ->; [|done]. by apply (dev_entry_has phys cache 9). Qed.

Lemma pg_atphys_ok U s p n phys cache :
  page_ok U [] s -> is_Some (cache_flags cache) -> in_dyn p n -> 0 < n -> 0 <= phys < 2 ^ 32 -> filled s p n PGF_SPACE_IN_USE ->
  wp (pg_atphys p n phys cache)
    (fun _ s' => page_ok U [] s' /\ kept (kpages p n) s s' /\ dev_mapped s' p n phys cache /\ side s' = side s /\ pg_fr s' = pg_fr s)
    (fun _ _ => False) s.
Proof.
  intros Hs [c Hc] Hd Hn Hph Hf. unfold pg_atphys, dev_mapped. rewrite <- (u32_small phys Hph) at 1. replace phys with (p + (phys - p)) at 1 by lia. generalize (phys - p) as k. intros k.
  eapply wp_mono; [apply (run_loop (fun n i => atphys_loop n i (u32 (i + k)) cache) (fun _ _ s1 => page_ok U [] s1 /\ pg_fr s1 = pg_fr s)
    (fun _ e => e = PGF_SPACE_IN_USE) (fun v e => e = dev_entry (u32 (v + k)) cache)); rewrite ?Z2Nat.id by lia; try done| |done].
  - intros n' i s1 Q E [Hs1 F] Hi Ht He Hnext. cbn [atphys_loop]. eapply wp_known; [by apply (rd_tab_run Hs1)|]. fold (kent s1 i). rewrite He.
    cbn [Z.eqb PGF_SPACE_IN_USE negb Pos.eqb]. rewrite Hc.
    assert (Ee : Z.lor (pte (u32 (i + k)) (Z.lor PGF_KERN PGF_PHYS)) c = dev_entry (u32 (i + k)) cache) by (unfold dev_entry; by rewrite Hc). rewrite Ee.
    eapply wp_seq; [apply (wr_kent_ok U [] s1 i _ Hi Ht (dev_entry_range _ _)); by rewrite dev_owned| |done].
    intros [] s2 (Hs2 & Hk2 & He2 & F2 & Sd2). rewrite He in Hs2.
    replace (u32 (u32 (i + k) + 1)) with (u32 (i + 1 + k)) by (unfold u32; rewrite Z.add_mod_idemp_l by done; f_equal; lia).
    apply Hnext; [|done|done|done]. split; [exact Hs2|congruence].
  - intros [] s' ([? ?] & ? & ? & ?). rewrite Z2Nat.id in * by lia. done.
Qed.
Lemma pg_dtphys_ok U s p n phys cache :
  page_ok U [] s -> in_dyn p n -> 0 < n -> dev_mapped s p n phys cache ->
  wp (pg_dtphys p n)
    (fun _ s' => page_ok U [] s' /\ kept (kpages p n) s s' /\ filled s' p n PGF_SPACE_IN_USE /\ side s' = side s /\ pg_fr s' = pg_fr s)
    (fun _ _ => False) s.
Proof.
  intros Hs Hd Hn Hm. pose proof (dyn_bounds p n Hd ltac:(lia)) as Hb. unfold pg_dtphys. rewrite rounds_eq by lia. destruct space_in_use as [Hu1 Hu2].
  eapply wp_mono; [apply (run_loop dtphys_loop (fun _ _ s1 => page_ok U [] s1 /\ pg_fr s1 = pg_fr s)
    (fun v e => e = dev_entry (u32 (v + (phys - p))) cache) (fun _ e => e = PGF_SPACE_IN_USE)); rewrite ?Z2Nat.id by lia; try done| |done].
  - intros n' i s1 Q E [Hs1 F] Hi Ht He Hnext. cbn [dtphys_loop]. eapply wp_known; [by apply (rd_tab_run Hs1)|]. fold (kent s1 i). rewrite He, dev_present.
    eapply wp_seq; [apply (wr_kent_ok U [] s1 i PGF_SPACE_IN_USE Hi Ht Hu1 Hs1)| |done]. intros [] s2 (Hs2 & Hk2 & He2 & F2 & Sd2).
    rewrite He, dev_owned in Hs2. apply Hnext; [|done|done|done]. split; [exact Hs2|congruence].
  - intros [] s' ([? ?] & ? & ? & ?). rewrite Z2Nat.id in * by lia. done.
Qed.
