(* ===== verification/PageHeap.v ===== *)
(** Kernel memory: the blocks of [kmalloc] and [dma_malloc] and the windows of
    [phys_map] never overlap, each page of a block has a frame of its own, and what
    is given back can be used again. *)

From S2P Require Import Prelude PageFrames PageFramesOk Page PageOk PageKern.

(** * Regions *)

(** What the kernel was given: a block with its header, [n] pages for DMA and the
    page behind them, or the window to a device. *)
Inductive region := RMem (h : mhead) | RDma (p n : Z) | RDev (p n phys cache : Z).
#[export] Instance mhead_eq_dec : EqDecision mhead.
Proof. solve_decision. Defined.
#[export] Instance region_eq_dec : EqDecision region.
Proof. solve_decision. Defined.

Definition r_page (r : region) : Z := match r with RMem h => mh_page h | RDma p _ => p | RDev p _ _ _ => p end.
Definition r_len (r : region) : Z := match r with RMem h => mh_npages h | RDma _ n => n + 1 | RDev _ n _ _ => n end.
Definition r_in (r : region) (v : Z) : Prop := r_page r <= v < r_page r + r_len r.
Definition r_mapped (s : pager) (r : region) : Prop :=
  match r with
  | RMem h => 0 < mh_npages h /\ mapped s (mh_page h) (mh_npages h)
  | RDma p n => 0 < n /\ (exists m, dma_mapped s p n m) /\ filled s (p + n) 1 PGF_SPACE_IN_USE
  | RDev p n phys cache => 0 < n /\ dev_mapped s p n phys cache
  end.
Definition heads (rs : list region) : list mhead := omap (fun r => match r with RMem h => Some h | _ => None end) rs.
Definition total_len (rs : list region) : Z := foldr (fun r x => r_len r + x) 0 rs.

Record heap_ok (U : list Z) (s : pager) (rs : list region) : Prop := HeapOk {
  ho_page : page_ok U [] s;
  ho_in : forall r, r ∈ rs -> in_dyn (r_page r) (r_len r) /\ r_mapped s r;
  ho_apart : forall i j r r' v, rs !! i = Some r -> rs !! j = Some r' -> r_in r v -> r_in r' v -> i = j;
  ho_rest : forall v, PAGE_DYN <= v < PAGE_USER -> kent s v <> 0 -> exists r, r ∈ rs /\ r_in r v;
  ho_list : kmalloc_list s = heads rs;
  ho_vfree : pg_vfree s = u32 (PAGE_DYN_COUNT - total_len rs)
}.

Lemma r_len_pos s r : r_mapped s r -> 0 < r_len r.
Proof. destruct r; cbn; [intros [? _]; done|intros [? _]; lia|intros [? _]; done]. Qed.

(** A region is not touched by changes elsewhere. *)
Lemma run_in_kept X s s' p n P :
  kept X s s' -> in_dyn p n -> (forall v, p <= v < p + n -> ~ X (KPg v)) -> run_in s p n P -> run_in s' p n P.
Proof.
  intros Hk Hd Hx Hr v Hv. destruct (Hr v Hv) as [Ht Hp]. split; [by eapply kept_ktab|].
  rewrite (kept_kent _ _ _ _ Hk); [done|unfold in_dyn in Hd; lia|by apply Hx].
Qed.
Lemma r_mapped_kept X s s' r :
  kept X s s' -> in_dyn (r_page r) (r_len r) -> (forall v, r_in r v -> ~ X (KPg v)) -> r_mapped s r -> r_mapped s' r.
Proof.
  intros Hk Hd Hx. destruct r as [h|p n|p n phys cache]; cbn in *.
  - intros [? Hm]. split; [done|]. by eapply run_in_kept.
  - intros (Hn & [m (? & ? & Hm)] & Hf). split; [done|]. split.
    + exists m. split; [done|]. split; [done|]. eapply run_in_kept; [done| | |done]; [unfold in_dyn in *; lia|]. intros v Hv. apply Hx. unfold r_in. cbn. lia.
    + refine (run_in_kept X s s' (p + n) 1 (fun _ e => e = PGF_SPACE_IN_USE) Hk _ _ Hf); [unfold in_dyn in *; lia|]. intros v Hv. apply Hx. unfold r_in. cbn. lia.
  - intros [? Hm]. split; [done|]. by eapply run_in_kept.
Qed.
Lemma r_entry s r v : r_mapped s r -> r_in r v -> kent s v <> 0.
Proof.
  assert (Hne : forall e, has e PGF_PRESENT = true -> e <> 0) by (intros e He ->; by rewrite has_zero in He).
  destruct kern_flags as (_ & Hp & _). destruct r as [h|p n|p n phys cache]; unfold r_in; cbn.
  - intros [_ Hm] Hv. destruct (Hm v Hv) as (_ & f & _ & ->). apply Hne. by rewrite pte_present.
  - intros (_ & [m (_ & _ & Hm)] & Hf) Hv. destruct (decide (v < p + n)).
    + destruct (Hm v ltac:(lia)) as [_ ->]. apply Hne. by rewrite pte_present.
    + destruct (Hf v ltac:(lia)) as [_ ->]. done.
  - intros [_ Hm] Hv. destruct (Hm v Hv) as [_ ->]. apply Hne, dev_present.
Qed.

(** ** Regions come and go *)

Lemma total_len_app rs rs' : total_len (rs ++ rs') = total_len rs + total_len rs'.
Proof. unfold total_len. induction rs as [|r rs IH]; cbn; [done|]. rewrite IH. lia. Qed.
Lemma heads_app rs rs' : heads (rs ++ rs') = heads rs ++ heads rs'.
Proof. apply omap_app. Qed.
Lemma u32_sub x n : u32 (u32 x - n) = u32 (x - n).
Proof. unfold u32. by rewrite Zminus_mod_idemp_l. Qed.
Lemma u32_add x n : u32 (u32 x + n) = u32 (x + n).
Proof. unfold u32. by rewrite Zplus_mod_idemp_l. Qed.

Lemma heap_add U s s' rs r :
  heap_ok U s rs -> page_ok U [] s' -> kept (kpages (r_page r) (r_len r)) s s' -> in_dyn (r_page r) (r_len r) -> r_mapped s' r ->
  (forall v, r_in r v -> kent s v = 0) -> kmalloc_list s' = kmalloc_list s ++ heads [r] -> pg_vfree s' = u32 (pg_vfree s - r_len r) ->
  heap_ok U s' (rs ++ [r]).
Proof.
  intros Hh Hs' Hk Hd Hm Hz Hl Hv.
  assert (Hfree : forall r' v, r' ∈ rs -> r_in r' v -> ~ r_in r v) by (intros r' v Hr' Hv' Hv2; apply (ho_in _ _ _ Hh) in Hr' as [_ Hm']; by apply (r_entry _ _ _ Hm' Hv'), Hz).
  split.
  - done.
  - intros r' [Hr'|Hr'%list_elem_of_singleton]%elem_of_app; [|by subst r']. destruct (ho_in _ _ _ Hh r' Hr') as [Hd' Hm']. split; [done|].
    eapply r_mapped_kept; [exact Hk|done| |done]. intros v Hv' (v' & [= <-] & Hr). by apply (Hfree r' v).
  - intros i j r1 r2 v. rewrite !lookup_app_Some. intros [Hi|[Hi1 Hi]] [Hj|[Hj1 Hj]] H1 H2.
    + by apply (ho_apart _ _ _ Hh i j r1 r2 v).
    + apply list_lookup_singleton_Some in Hj as [Hj <-]. exfalso. apply (Hfree r1 v); [by eapply list_elem_of_lookup_2|done|done].
    + apply list_lookup_singleton_Some in Hi as [Hi <-]. exfalso. apply (Hfree r2 v); [by eapply list_elem_of_lookup_2|done|done].
    + apply list_lookup_singleton_Some in Hi as [Hi _], Hj as [Hj _]. lia.
  - intros v Hdv Hne. destruct (decide (r_page r <= v < r_page r + r_len r)) as [Hin|Hout].
    + exists r. split; [apply elem_of_app; right; by apply list_elem_of_singleton|done].
    + rewrite (kept_kent _ _ _ _ Hk) in Hne; [|done|intros (v' & [= <-] & ?); done]. destruct (ho_rest _ _ _ Hh v Hdv Hne) as (r' & Hr' & ?). exists r'.
      split; [apply elem_of_app; by left|done].
  - by rewrite heads_app, Hl, (ho_list _ _ _ Hh).
  - rewrite Hv, (ho_vfree _ _ _ Hh), u32_sub, total_len_app. cbn. f_equal. lia.
Qed.

Lemma heap_del U s s' rs1 r rs2 :
  heap_ok U s (rs1 ++ r :: rs2) -> page_ok U [] s' -> kept (kpages (r_page r) (r_len r)) s s' -> (forall v, r_in r v -> kent s' v = 0) ->
  kmalloc_list s' = heads (rs1 ++ rs2) -> pg_vfree s' = u32 (pg_vfree s + r_len r) -> heap_ok U s' (rs1 ++ rs2).
Proof.
  intros Hh Hs' Hk Hz Hl Hv.
  assert (Hat : forall i r', (rs1 ++ rs2) !! i = Some r' -> exists j, (rs1 ++ r :: rs2) !! j = Some r' /\ j <> length rs1 /\ (i < length rs1 /\ j = i \/ length rs1 <= i /\ j = S i)%nat).
  { intros i r' Hi. destruct (decide (i < length rs1)%nat) as [Hlt|Hge].
    - exists i. rewrite lookup_app_l in * by lia. split; [done|]. lia.
    - exists (S i). rewrite lookup_app_r in Hi by lia. rewrite lookup_app_r by lia. replace (S i - length rs1)%nat with (S (i - length rs1)) by lia. split; [done|]. lia. }
  assert (Hr : (rs1 ++ r :: rs2) !! length rs1 = Some r) by (rewrite lookup_app_r, Nat.sub_diag; done || lia).
  split.
  - done.
  - intros r' (i & Hi)%list_elem_of_lookup_1. destruct (Hat i r' Hi) as (j & Hj & Hne & _).
    destruct (ho_in _ _ _ Hh r') as [Hd' Hm']; [by eapply list_elem_of_lookup_2|]. split; [done|].
    eapply r_mapped_kept; [exact Hk|done| |done]. intros v Hv' (v' & [= <-] & Hin). apply Hne. by apply (ho_apart _ _ _ Hh j (length rs1) r' r v).
  - intros i1 i2 r1 r2 v H1 H2 Hv1 Hv2. destruct (Hat i1 r1 H1) as (j1 & Hj1 & _ & E1), (Hat i2 r2 H2) as (j2 & Hj2 & _ & E2).
    assert (j1 = j2) by (by apply (ho_apart _ _ _ Hh j1 j2 r1 r2 v)). lia.
  - intros v Hdv Hne. destruct (decide (r_page r <= v < r_page r + r_len r)) as [Hin|Hout]; [by rewrite Hz in Hne|].
    rewrite (kept_kent _ _ _ _ Hk) in Hne; [|done|intros (v' & [= <-] & ?); done]. destruct (ho_rest _ _ _ Hh v Hdv Hne) as (r' & Hr' & Hin'). exists r'. split; [|done].
    apply elem_of_app in Hr' as [?|[->|?]%elem_of_cons]; [apply elem_of_app; by left|done|apply elem_of_app; by right].
  - done.
  - rewrite Hv, (ho_vfree _ _ _ Hh), u32_add, !total_len_app. change (total_len (r :: rs2)) with (r_len r + total_len rs2). f_equal. lia.
Qed.

(** ** What changes *)

(** The pages that have changed are pages of the kernel which were unused, or are
    in [Y]. *)
Definition moved (Y : Z -> Prop) (s s' : pager) : Prop :=
  exists X, kept X s s' /\ forall pl, X pl -> exists v, pl = KPg v /\ (kent s v = 0 \/ Y v).
Lemma moved_fresh Y s s' p n : kept (kpages p n) s s' -> (forall v, p <= v < p + n -> kent s v = 0) -> moved Y s s'.
Proof. intros Hk Hz. exists (kpages p n). split; [done|]. intros pl (v & -> & Hv). exists v. split; [done|]. left. by apply Hz. Qed.
Lemma moved_region s s' r : kept (kpages (r_page r) (r_len r)) s s' -> moved (r_in r) s s'.
Proof. intros Hk. eexists. split; [exact Hk|]. intros pl (v & -> & Hv). exists v. split; [done|]. by right. Qed.
Lemma moved_nothing Y s s' : kept nothing s s' -> moved Y s s'.
Proof. intros Hk. exists nothing. split; [done|]. by intros pl []. Qed.
Lemma moved_mono (Y Y' : Z -> Prop) s s' : (forall v, Y v -> Y' v) -> moved Y s s' -> moved Y' s s'.
Proof. intros H (X & Hk & Hx). exists X. split; [done|]. intros pl Hpl. destruct (Hx pl Hpl) as (v & -> & Hv). naive_solver. Qed.
Definition no_page : Z -> Prop := fun _ => False.

(** * The operations *)

(** A failed search for room or memory leaves the regions as they are. *)
Lemma heap_same U s s' rs :
  heap_ok U s rs -> page_ok U [] s' -> kept nothing s s' -> kmalloc_list s' = kmalloc_list s -> pg_vfree s' = pg_vfree s -> heap_ok U s' rs.
Proof.
  intros Hh Hs' Hk Hl Hv. split; rewrite ?Hl, ?Hv; try apply Hh; try done.
  - intros r Hr. destruct (ho_in _ _ _ Hh r Hr) as [Hd Hm]. split; [done|]. eapply r_mapped_kept; [exact Hk|done|by intros v _ []|done].
  - intros v Hd. rewrite (kept_kent _ _ _ _ Hk) by (done || by intros []). by apply Hh.
Qed.
Lemma heap_page U s rs : heap_ok U s rs -> page_ok U [] s.
Proof. apply ho_page. Qed.

Definition size_ok (size : Z) : Prop := 0 <= size /\ size + MHEAD_SIZE + PAGE_SIZE - 1 < 2 ^ 32.
Lemma npages_ok size : size_ok size -> 0 < npages_of size < 2 ^ 20 /\ size + MHEAD_SIZE <= npages_of size * PAGE_SIZE.
Proof.
  intros [H1 H2]. unfold npages_of. rewrite u32_small by (unfold MHEAD_SIZE, PAGE_SIZE in *; lia). unfold MHEAD_SIZE, PAGE_SIZE in *. Z.div_mod_to_equations; lia.
Qed.

(** Room that was found and given back. *)
Lemma heap_undone U s s1 s2 rs p n :
  heap_ok U s rs -> in_dyn p n -> kept (kpages p n) s s1 -> kept (kpages p n) s1 s2 -> page_ok U [] s2 ->
  (forall v, p <= v < p + n -> kent s v = 0 /\ kent s2 v = 0) ->
  kmalloc_list s2 = kmalloc_list s -> pg_vfree s2 = u32 (u32 (pg_vfree s - n) + n) -> heap_ok U s2 rs /\ kept nothing s s2.
Proof.
  intros Hh Hd Hk1 Hk2 Hs2 Hz L2 V2.
  assert (Hk : kept nothing s s2) by (apply (kept_undone s s2 p n); [by eapply kept_trans|done|done]).
  split; [|done]. eapply heap_same; [done|done|done|done|]. rewrite V2, u32_add, (ho_vfree _ _ _ Hh), <- Z.add_opp_r, <- Z.add_assoc, Z.add_opp_diag_l, u32_add.
  f_equal. lia.
Qed.
(** Where [kmalloc] of [n] pages panics: of all the frames that were free, frame 4095
    among them, only that one is left when the last page is to be mapped. *)
Definition out_of_frames (s : pager) (n : Z) (h : halt) : Prop :=
  last_frame h /\ free_frame (pg_fr s) 4095 /\ free_count (pg_fr s) <= n + new_tables n.
Lemma kmalloc_ok U s rs size name :
  heap_ok U s rs -> size_ok size -> fits s (npages_of size) ->
  wpk (out_of_frames s (npages_of size)) (kmalloc size name)
    (fun a s' => exists p, let h := Mhead p (npages_of size) (take 19 name) in
       a = p * PAGE_SIZE + MHEAD_SIZE /\ heap_ok U s' (rs ++ [RMem h]) /\ kept (kpages p (npages_of size)) s s' /\
       forall v, p <= v < p + npages_of size -> kent s v = 0)
    (fun e s' => e = ENOMEM /\ heap_ok U s' rs /\ kept nothing s s') s.
Proof.
  intros Hh Hsz Hfit. destruct (npages_ok size Hsz) as [Hn _]. set (n := npages_of size) in *. unfold kmalloc. fold n.
  eapply wpk_seq; [apply (pg_adget_ok U s n (heap_page _ _ _ Hh) Hn Hfit)| |].
  2: { intros e s' (-> & Hs' & Hk & _ & Sd). injection Sd as E1 E2 _. split; [done|]. split; [by eapply heap_same|done]. }
  intros p s1 (Hd & Hs1 & Hk1 & _ & Hz & Hf1 & L1 & V1 & C1). apply wpk_bind, wpk_attempt.
  eapply wpk_mono; [apply (pg_atmem_ok U s1 p n Hs1 Hd ltac:(lia) Hf1)| | |].
  - intros [] s2 (Hs2 & Hk2 & Hm2 & Sd & _). injection Sd as L2 V2 _. apply wpk_wp, wp_bind. unfold wp at 1, modify. apply wp_ret. exists p.
    assert (Hk : kept (kpages p n) s s2) by (by eapply kept_trans). split; [done|]. split; [|split; [by eapply kept_trans; [exact Hk|apply kept_side]|done]].
    apply (heap_add U s); cbn; try done.
    + by apply page_ok_side.
    + eapply kept_trans; [exact Hk|apply kept_side].
    + split; [lia|]. exact Hm2.
    + by rewrite L2, L1.
    + by rewrite V2, V1.
  - intros e s2 (-> & -> & _). destruct space_in_use as [_ Hu2]. eapply wpk_seq; [apply (pg_adput_ok U s1 p n Hs1 Hd ltac:(lia))| |done].
    { intros v Hv. destruct (Hf1 v Hv) as [? ->]. done. }
    intros [] s2 (Hs2 & Hk2 & Hz2 & L2 & V2 & _). apply wpk_wp, wp_fail. split; [done|].
    apply (heap_undone U s s1 s2 rs p n); try done; [intros v Hv; by rewrite Hz, Hz2|congruence|congruence].
  - cbn. intros h (Hl & Hc & Hf4). split; [done|]. split; [|lia]. apply (still_free (heap_page _ _ _ Hh) Hs1 Hk1); [|done].
    intros pl (v & -> & Hv). cbn [entry]. fold (kent s v). by rewrite Hz.
Qed.

Section blocks.
Context {U : list Z} {s : pager} {rs1 : list region} {h : mhead} {rs2 : list region} (Hh : heap_ok U s (rs1 ++ RMem h :: rs2)).

Lemma block_in : in_dyn (mh_page h) (mh_npages h) /\ 0 < mh_npages h /\ mapped s (mh_page h) (mh_npages h).
Proof. apply (ho_in _ _ _ Hh (RMem h)), elem_of_app. right. left. Qed.
Lemma other_page h' : RMem h' ∈ rs1 ++ rs2 -> mh_page h' <> mh_page h.
Proof.
  intros Hin E. destruct block_in as (_ & Hn & _). assert (Hin' : RMem h' ∈ rs1 ++ RMem h :: rs2).
  { apply elem_of_app in Hin as [?|?]; apply elem_of_app; [by left|right; by right]. }
  destruct (ho_in _ _ _ Hh _ Hin') as [_ Hm']. pose proof (r_len_pos _ _ Hm') as Hn'. cbn in Hn'.
  assert (Hl : (rs1 ++ RMem h :: rs2) !! length rs1 = Some (RMem h)) by (rewrite lookup_app_r, Nat.sub_diag; done || lia).
  assert (forall j, (rs1 ++ RMem h :: rs2) !! j = Some (RMem h') -> j = length rs1) as Hj.
  { intros j Hj. apply (ho_apart _ _ _ Hh j (length rs1) (RMem h') (RMem h) (mh_page h)); [done|done|unfold r_in; cbn; lia..]. }
  apply elem_of_app in Hin as [[i Hi]%list_elem_of_lookup_1|[i Hi]%list_elem_of_lookup_1].
  - apply lookup_lt_Some in Hi as Hlt. specialize (Hj i). rewrite lookup_app_l in Hj by done. specialize (Hj Hi). lia.
  - specialize (Hj (length rs1 + S i)%nat). rewrite lookup_app_r in Hj by lia. replace (length rs1 + S i - length rs1)%nat with (S i) in Hj by lia. specialize (Hj Hi). lia.
Qed.
Lemma elem_heads h' rs : h' ∈ heads rs <-> RMem h' ∈ rs.
Proof.
  unfold heads. rewrite list_elem_of_omap. split; [intros ([h2| |] & Hin & E); by simplify_eq|]. intros Hin. by exists (RMem h').
Qed.
Lemma find_block : find_mhead (mh_page h) s = Some h.
Proof.
  unfold find_mhead. rewrite (ho_list _ _ _ Hh). destruct (list_find_elem_of (fun h' => mh_page h' = mh_page h) (heads (rs1 ++ RMem h :: rs2)) h) as [[i h'] E].
  - apply elem_heads, elem_of_app. right. left.
  - done.
  - rewrite E. cbn. f_equal. apply list_find_Some in E as (Hi & Hp & _). apply list_elem_of_lookup_2, elem_heads in Hi.
    apply elem_of_app in Hi as [Hi|[[= ->]|Hi]%elem_of_cons]; [|done|]; (exfalso; apply (other_page h'); [apply elem_of_app; tauto|done]).
Qed.
Lemma filter_block : filter (fun h' => mh_page h' <> mh_page h) (kmalloc_list s) = heads (rs1 ++ rs2).
Proof.
  rewrite (ho_list _ _ _ Hh). assert (E : forall l : list mhead, (forall h', h' ∈ l -> mh_page h' <> mh_page h) -> filter (fun h' : mhead => mh_page h' <> mh_page h) l = l).
  { intros l. induction l as [|x l IH]; [done|]. intros Hl. rewrite filter_cons_True by (apply Hl; left). f_equal. apply IH. intros h' Hi. apply Hl. by right. }
  rewrite !heads_app. change (heads (RMem h :: rs2)) with (h :: heads rs2). rewrite filter_app, filter_cons_False by tauto.
  rewrite !E; [done| |]; intros h' Hi%elem_heads; apply other_page, elem_of_app; tauto.
Qed.

Lemma kfree_ok :
  wp (kfree (mh_page h * PAGE_SIZE + MHEAD_SIZE))
    (fun _ s' => heap_ok U s' (rs1 ++ rs2) /\ kept (kpages (mh_page h) (mh_npages h)) s s' /\ free_count (pg_fr s') = free_count (pg_fr s) + mh_npages h)
    (fun _ _ => False) s.
Proof.
  destruct block_in as (Hd & Hn & Hm). pose proof (dyn_bounds _ _ Hd ltac:(lia)) as Hb. unfold kfree.
  rewrite (proj2 (Z.eqb_neq _ _)) by (unfold PAGE_SIZE, MHEAD_SIZE; lia). rewrite Z.add_simpl_r, Z.div_mul by done. apply wp_bind, wp_gets.
  rewrite find_block. apply wp_bind, wp_deref_some. apply wp_bind. unfold wp at 1, modify. set (s0 := set_kmalloc _ s).
  assert (Hs0 : page_ok U [] s0) by (apply page_ok_side, Hh).
  eapply wp_seq; [apply (pg_dtmem_ok U s0 (mh_page h) (mh_npages h) Hs0 Hd Hn Hm)| |done]. intros [] s1 (Hs1 & Hk1 & Hf1 & Sd1 & C1).
  destruct space_in_use as [_ Hu2]. eapply wp_mono; [apply (pg_adput_ok U s1 (mh_page h) (mh_npages h) Hs1 Hd Hn)| |done].
  { intros v Hv. destruct (Hf1 v Hv) as [? ->]. done. }
  intros [] s2 (Hs2 & Hk2 & Hz2 & L2 & V2 & F2). injection Sd1 as L1 V1 _.
  assert (Hk : kept (kpages (mh_page h) (mh_npages h)) s s2) by (eapply kept_trans; [apply (kept_side _ s)|]; eapply kept_trans; [exact Hk1|exact Hk2]).
  split; [|split; [done|rewrite F2, C1; done]]. apply (heap_del U s s2 rs1 (RMem h) rs2); try done.
  - by rewrite L2, L1, <- filter_block.
  - by rewrite V2, V1.
Qed.
End blocks.

(** ** Runs for DMA *)

Definition dma_pages (size : Z) : Z := (size - 1) / PAGE_SIZE + 1.
Definition dma_size_ok (size : Z) : Prop := 0 < size < 2 ^ 31.
Lemma dma_pages_eq size : dma_size_ok size -> u32 (u32 (size - 1) / PAGE_SIZE + 1) = dma_pages size /\ u32 (dma_pages size + 1) = dma_pages size + 1 /\ 0 < dma_pages size < 2 ^ 20 - 1.
Proof.
  intros Hs. unfold dma_size_ok, dma_pages, PAGE_SIZE in *. rewrite (u32_small (size - 1)) by lia.
  assert (0 < (size - 1) / 4096 + 1 < 2 ^ 20 - 1) by (Z.div_mod_to_equations; lia). rewrite !u32_small by lia. lia.
Qed.
Lemma kpages_shorter p n pl : kpages p n pl -> kpages p (n + 1) pl.
Proof. intros (v & -> & Hv). exists v. split; [done|]. lia. Qed.
Lemma filled_part s p n q m e : filled s p n e -> p <= q -> q + m <= p + n -> filled s q m e.
Proof. intros Hf H1 H2 v Hv. apply Hf. lia. Qed.

Lemma dma_malloc_ok U s rs size :
  heap_ok U s rs -> dma_size_ok size -> fits s (dma_pages size + 1) ->
  wp (dma_malloc size)
    (fun a s' => moved no_page s s' /\ (a = 0 /\ heap_ok U s' rs \/ exists p, a = p * PAGE_SIZE /\ 0 < a /\ heap_ok U s' (rs ++ [RDma p (dma_pages size)])))
    (fun _ _ => False) s.
Proof.
  intros Hh Hsz Hfit. destruct (dma_pages_eq size Hsz) as (E1 & E2 & Hn). unfold dma_malloc. cbv zeta. rewrite E1, E2. set (n := dma_pages size) in *.
  apply wp_bind, wp_attempt. eapply wp_mono; [apply (pg_adget_ok U s (n + 1) (heap_page _ _ _ Hh) ltac:(lia) Hfit)| |].
  2: { intros e s' (-> & Hs' & Hk & _ & Sd). injection Sd as S1 S2 _. split; [by apply moved_nothing|]. left. split; [done|]. by eapply heap_same. }
  intros p s1 (Hd & Hs1 & Hk1 & _ & Hz & Hf1 & L1 & V1 & _). assert (Hd' : in_dyn p n) by (unfold in_dyn in *; lia). apply wp_bind, wp_attempt.
  eapply wp_mono; [apply (pg_atdma_ok U s1 p n Hs1 Hd' ltac:(lia)); by eapply filled_part; [exact Hf1|lia|lia]| |].
  - intros [] s2 (Hs2 & Hk2 & Hm2 & Sd & _). injection Sd as L2 V2 _. apply wp_ret. apply (kept_mono _ _ _ _ (kpages_shorter p n)) in Hk2 as Hk2'.
    assert (Hk : kept (kpages p (n + 1)) s s2) by (by eapply kept_trans). split; [by eapply moved_fresh|]. right. exists p. split; [done|].
    pose proof (dyn_bounds _ _ Hd ltac:(lia)). split; [unfold PAGE_SIZE; lia|]. apply (heap_add U s); cbn; try done.
    + split; [lia|]. split; [done|]. refine (run_in_kept _ _ _ (p + n) 1 (fun _ e => e = PGF_SPACE_IN_USE) Hk2 _ _ _).
      * unfold in_dyn in *. lia.
      * intros v Hv (v' & [= <-] & ?). lia.
      * eapply filled_part; [exact Hf1|lia|lia].
    + by rewrite L2, L1, app_nil_r.
    + by rewrite V2, V1.
  - intros e s2 (-> & ->). destruct space_in_use as [_ Hu2]. eapply wp_seq; [apply (pg_adput_ok U s1 p (n + 1) Hs1 Hd ltac:(lia))| |done].
    { intros v Hv. destruct (Hf1 v Hv) as [? ->]. done. }
    intros [] s2 (Hs2 & Hk2 & Hz2 & L2 & V2 & _). apply wp_ret.
    destruct (heap_undone U s s1 s2 rs p (n + 1)) as [Hh' Hk']; try done; [intros v Hv; by rewrite Hz, Hz2|congruence|congruence|].
    split; [by apply moved_nothing|]. by left.
Qed.

Lemma dma_free_ok U s rs1 p size rs2 :
  heap_ok U s (rs1 ++ RDma p (dma_pages size) :: rs2) -> dma_size_ok size ->
  wp (dma_free (p * PAGE_SIZE) size) (fun _ s' => heap_ok U s' (rs1 ++ rs2) /\ moved (r_in (RDma p (dma_pages size))) s s') (fun _ _ => False) s.
Proof.
  intros Hh Hsz. destruct (dma_pages_eq size Hsz) as (E1 & E2 & Hn). unfold dma_free. cbv zeta. rewrite E1, E2, Z.div_mul by done. set (n := dma_pages size) in *.
  destruct (ho_in _ _ _ Hh (RDma p n)) as [Hd (_ & [m Hm] & Hf)]; [apply elem_of_app; right; left|]. cbn in Hd. assert (Hd' : in_dyn p n) by (unfold in_dyn in *; lia).
  eapply wp_seq; [apply (pg_dtdma_ok U s p n m (heap_page _ _ _ Hh) Hd' ltac:(lia) Hm)| |done]. intros [] s1 (Hs1 & Hk1 & Hf1 & Sd1 & _).
  destruct space_in_use as [_ Hu2]. eapply wp_mono; [apply (pg_adput_ok U s1 p (n + 1) Hs1 Hd ltac:(lia))| |done].
  { intros v Hv. destruct (decide (v < p + n)); [destruct (Hf1 v ltac:(lia)) as [? ->]; done|]. destruct (Hf v ltac:(lia)) as [Ht E].
    split; [by eapply kept_ktab|]. rewrite (kept_kent _ _ _ _ Hk1), E; [done|unfold in_dyn in *; lia|]. intros (v' & [= <-] & ?). lia. }
  intros [] s2 (Hs2 & Hk2 & Hz2 & L2 & V2 & F2). injection Sd1 as L1 V1 _.
  assert (Hk : kept (kpages p (n + 1)) s s2) by (eapply kept_trans; [eapply kept_mono; [apply kpages_shorter|exact Hk1]|exact Hk2]).
  split; [|by apply (moved_region _ _ (RDma p n))]. apply (heap_del U s s2 rs1 (RDma p n) rs2); try done.
  - by rewrite L2, L1, (ho_list _ _ _ Hh), !heads_app.
  - by rewrite V2, V1.
Qed.

(** ** Devices *)

Definition dev_pages (size : Z) : Z := size / PAGE_SIZE + 1.
Lemma dev_pages_pos size : 0 <= size < 2 ^ 31 -> 0 < dev_pages size < 2 ^ 20.
Proof. intros H. unfold dev_pages, PAGE_SIZE. Z.div_mod_to_equations; lia. Qed.

Lemma phys_map_ok U s rs base size cache :
  heap_ok U s rs -> 0 <= size < 2 ^ 31 -> 0 <= base < 2 ^ 32 -> is_Some (cache_flags cache) -> fits s (dev_pages size) ->
  wp (phys_map base size cache)
    (fun a s' => exists p, a = p * PAGE_SIZE + base mod PAGE_SIZE /\ heap_ok U s' (rs ++ [RDev p (dev_pages size) (base / PAGE_SIZE) cache]) /\ moved no_page s s')
    (fun e s' => e = ENOMEM /\ heap_ok U s' rs /\ moved no_page s s') s.
Proof.
  intros Hh Hsz Hb Hc Hfit. pose proof (dev_pages_pos size Hsz) as Hn. unfold phys_map. fold (dev_pages size). set (n := dev_pages size) in *. cbv zeta.
  assert (Hph : 0 <= base / PAGE_SIZE < 2 ^ 32) by (unfold PAGE_SIZE; Z.div_mod_to_equations; lia).
  eapply wp_seq; [apply (pg_adget_ok U s n (heap_page _ _ _ Hh) Hn Hfit)| |].
  2: { intros e s' (-> & Hs' & Hk & _ & Sd). injection Sd as S1 S2 _. split; [done|]. split; [by eapply heap_same|by apply moved_nothing]. }
  intros p s1 (Hd & Hs1 & Hk1 & _ & Hz & Hf1 & L1 & V1 & C1). apply wp_bind, wp_attempt.
  eapply wp_mono; [apply (pg_atphys_ok U s1 p n (base / PAGE_SIZE) cache Hs1 Hc Hd ltac:(lia) Hph Hf1)| |done].
  intros [] s2 (Hs2 & Hk2 & Hm2 & Sd & _). injection Sd as L2 V2 _. apply wp_ret. exists p. split; [done|].
  assert (Hk : kept (kpages p n) s s2) by (by eapply kept_trans). split; [|by eapply moved_fresh]. apply (heap_add U s); cbn; try done.
  - split; [lia|]. exact Hm2.
  - by rewrite L2, L1, app_nil_r.
  - by rewrite V2, V1.
Qed.
Lemma phys_unmap_ok U s rs1 p size phys cache rs2 a :
  heap_ok U s (rs1 ++ RDev p (dev_pages size) phys cache :: rs2) -> 0 <= size < 2 ^ 31 -> a / PAGE_SIZE = p ->
  wp (phys_unmap a size) (fun _ s' => heap_ok U s' (rs1 ++ rs2) /\ moved (r_in (RDev p (dev_pages size) phys cache)) s s') (fun _ _ => False) s.
Proof.
  intros Hh Hsz Ha. pose proof (dev_pages_pos size Hsz) as Hn. unfold phys_unmap. fold (dev_pages size). set (n := dev_pages size) in *. cbv zeta. rewrite Ha.
  destruct (ho_in _ _ _ Hh (RDev p n phys cache)) as [Hd [_ Hm]]; [apply elem_of_app; right; left|]. cbn in Hd.
  eapply wp_seq; [apply (pg_dtphys_ok U s p n phys cache (heap_page _ _ _ Hh) Hd ltac:(lia) Hm)| |done]. intros [] s1 (Hs1 & Hk1 & Hf1 & Sd1 & _).
  destruct space_in_use as [_ Hu2]. eapply wp_mono; [apply (pg_adput_ok U s1 p n Hs1 Hd ltac:(lia))| |done].
  { intros v Hv. destruct (Hf1 v Hv) as [? ->]. done. }
  intros [] s2 (Hs2 & Hk2 & Hz2 & L2 & V2 & F2). injection Sd1 as L1 V1 _.
  assert (Hk : kept (kpages p n) s s2) by (by eapply kept_trans).
  split; [|by apply (moved_region _ _ (RDev p n phys cache))]. apply (heap_del U s s2 rs1 (RDev p n phys cache) rs2); try done.
  - by rewrite L2, L1, (ho_list _ _ _ Hh), !heads_app.
  - by rewrite V2, V1.
Qed.
