(* ===== verification/PageHeapProps.v ===== *)
(** Kernel memory over any history, and what a client of [kmalloc] and [krealloc]
    relies on: [krealloc] keeps the contents of the block. *)

From S2P Require Import Prelude Frame PageFrames PageFramesOk Page PageOk PageKern PageHeap.

(** * Copying inside of kernel memory *)

(** The byte at a kernel address. *)
Definition kbyte (s : pager) (a : Z) : Z := rd8 (frame s (pte_frame (kent s (a / PAGE_SIZE)))) (a mod PAGE_SIZE).
Definition in_mem (s : pager) (a : Z) : Prop := in_dyn (a / PAGE_SIZE) 1 /\ mapped s (a / PAGE_SIZE) 1.

(** Contents change, the map of the address space does not. *)
Record same_map (s s' : pager) : Prop := SameMap {
  sm_dirs : pg_dirs s' = pg_dirs s;
  sm_cur : pg_dir s' = pg_dir s;
  sm_ent : forall pl, pvalid pl -> entry s' pl = entry s pl;
  sm_fr : pg_fr s' = pg_fr s;
  sm_side : side s' = side s
}.
Lemma same_map_trans s1 s2 s3 : same_map s1 s2 -> same_map s2 s3 -> same_map s1 s3.
Proof. intros [] []. split; try congruence. intros pl Hpl. by rewrite sm_ent1, sm_ent0. Qed.
Lemma same_map_kent s s' v : same_map s s' -> PAGE_DYN <= v < PAGE_USER -> kent s' v = kent s v.
Proof. intros Hm Hv. apply (sm_ent _ _ Hm (KPg v)). done. Qed.
Lemma same_map_tab s s' t : same_map s s' -> ktab s t -> ktab s' t.
Proof. intros [E1 E2 _ _ _]. unfold ktab, has_tab, dirent. by rewrite E1, E2. Qed.
Lemma same_map_run s s' p n P : same_map s s' -> in_dyn p n -> run_in s p n P -> run_in s' p n P.
Proof.
  intros Hm Hd Hr v Hv. destruct (Hr v Hv). split; [by eapply same_map_tab|]. rewrite (same_map_kent _ _ _ Hm); [done|unfold in_dyn in Hd; lia].
Qed.
Lemma heap_data U s s' rs : heap_ok U s rs -> page_ok U [] s' -> same_map s s' -> heap_ok U s' rs.
Proof.
  intros Hh Hs' Hm. pose proof (sm_side _ _ Hm) as E. injection E as E1 E2 _. split; rewrite ?E1, ?E2; try apply Hh; try done.
  - intros r Hr. destruct (ho_in _ _ _ Hh r Hr) as [Hd Hr']. split; [done|]. destruct r as [h|p n|p n phys cache]; cbn in *.
    + destruct Hr' as [? Hr']. split; [done|]. by eapply same_map_run.
    + destruct Hr' as (? & [m (? & ? & Hr')] & Hf). split; [done|]. split.
      * exists m. split; [done|]. split; [done|]. eapply same_map_run; [done| |done]. unfold in_dyn in *. lia.
      * refine (same_map_run s s' (p + n) 1 (fun _ e => e = PGF_SPACE_IN_USE) Hm _ Hf). unfold in_dyn in *. lia.
    + destruct Hr' as [? Hr']. split; [done|]. by eapply same_map_run.
  - intros v Hv. rewrite (same_map_kent _ _ _ Hm Hv). by apply Hh.
Qed.

Section bytes.
Context {U : list Z} {s : pager} (Hs : page_ok U [] s).

Lemma in_mem_frame a : in_mem s a ->
  ktab s (a / PAGE_SIZE / 1024) /\ at_place s (KPg (a / PAGE_SIZE)) (pte_frame (kent s (a / PAGE_SIZE))) /\ has (kent s (a / PAGE_SIZE)) PGF_PRESENT = true.
Proof.
  intros [Hd Hm]. destruct (Hm (a / PAGE_SIZE) ltac:(lia)) as (Ht & f & Hf & E). destruct kern_flags as (Hfl & Hp & _). split; [done|]. split.
  - apply at_place_owned. split; [cbn; unfold in_dyn in Hd; lia|]. cbn [entry]. fold (kent s (a / PAGE_SIZE)). rewrite E, kern_owned, pte_frame_pte by lia. left.
  - by rewrite E, pte_present.
Qed.
Lemma kpage_frame_run a : in_mem s a -> page_frame (a / PAGE_SIZE) s = Ret (pte_frame (kent s (a / PAGE_SIZE))) s.
Proof.
  intros (Ht & _ & Hp)%in_mem_frame. unfold page_frame. erewrite bind_run by (by apply (rd_tab_run Hs)). fold (kent s (a / PAGE_SIZE)). by rewrite Hp.
Qed.
Lemma rd_byte_run a : in_mem s a -> rd_byte a s = Ret (kbyte s a) s.
Proof. intros Ha. unfold rd_byte. erewrite bind_run by (by apply kpage_frame_run). done. Qed.
Lemma kbyte_byte a : is_byte (kbyte s a).
Proof. apply rd8_byte, (to_mem _ (po_tabs _ _ _ Hs)). Qed.

Lemma wr_byte_ok a b :
  in_mem s a -> is_byte b ->
  wp (wr_byte a b) (fun _ s' => page_ok U [] s' /\ same_map s s' /\ kept (eq (KPg (a / PAGE_SIZE))) s s' /\ forall a', in_mem s a' -> kbyte s' a' = if decide (a' = a) then b else kbyte s a')
    (fun _ _ => False) s.
Proof.
  intros Ha Hb. destruct (in_mem_frame a Ha) as (_ & Hat & _). set (f := pte_frame (kent s (a / PAGE_SIZE))) in *.
  assert (Hnt : ~ is_table s f) by exact (page_no_table U [] s (KPg (a / PAGE_SIZE)) f Hs I Hat). unfold wr_byte. eapply wp_known; [by apply kpage_frame_run|]. fold f. apply wp_bind, wp_gets.
  unfold wr_frame, wp, modify. change (set_mem _ s) with (wr_data s f (wr8 (frame s f) (a mod PAGE_SIZE) b)).
  destruct (to_mem _ (po_tabs _ _ _ Hs) f) as [Hl _].
  assert (Hs' : page_ok U [] (wr_data s f (wr8 (frame s f) (a mod PAGE_SIZE) b))) by (apply page_ok_wr_data; [done|done|apply bytes_ok_wr8; [apply (to_mem _ (po_tabs _ _ _ Hs))|done]]).
  assert (Hsm : same_map s (wr_data s f (wr8 (frame s f) (a mod PAGE_SIZE) b))) by (split; try done; intros; by eapply entry_wr_data).
  split; [done|]. split; [done|]. split.
  { eapply kept_mono; [|by eapply kept_wr_data]. intros pl Hpl. by eapply (po_inj _ _ _ Hs). }
  intros a' Ha'. unfold kbyte. assert (Hd' : PAGE_DYN <= a' / PAGE_SIZE < PAGE_USER) by (destruct Ha' as [Hd _]; unfold in_dyn in Hd; lia).
  rewrite (same_map_kent _ _ _ Hsm Hd'), frame_set. destruct (decide (pte_frame (kent s (a' / PAGE_SIZE)) = f)) as [E|E].
  - destruct (in_mem_frame a' Ha') as (_ & Hat' & _). rewrite E in Hat'. pose proof (po_inj _ _ _ Hs _ _ _ Hat Hat') as [= Epg]. rewrite E.
    assert (0 <= a mod PAGE_SIZE < PAGE_SIZE /\ 0 <= a' mod PAGE_SIZE < PAGE_SIZE) by (split; apply Z.mod_pos_bound; done).
    destruct (decide (a' = a)) as [->|Hne]; [apply rd8_wr8; unfold PAGE_SIZE in *; lia|]. apply rd8_wr8_ne; try lia. unfold PAGE_SIZE in *. Z.div_mod_to_equations; lia.
  - rewrite decide_False; [done|]. intros ->. done.
Qed.
End bytes.

Lemma same_map_mem s s' a : same_map s s' -> in_mem s a -> in_mem s' a.
Proof. intros Hm [Hd Ha]. split; [done|]. by eapply same_map_run. Qed.

(** The pages of the [n] bytes at [d]. *)
Definition byte_pages (d : Z) (n : nat) : place -> Prop := fun pl => exists a, pl = KPg (a / PAGE_SIZE) /\ d <= a < d + Z.of_nat n.

Lemma same_map_refl s : same_map s s.
Proof. done. Qed.

Lemma kmemcpy_ok U s n d src :
  page_ok U [] s -> (forall j, 0 <= j < Z.of_nat n -> in_mem s (d + j) /\ in_mem s (src + j)) -> (d + Z.of_nat n <= src \/ src + Z.of_nat n <= d) ->
  wp (kmemcpy n d src)
    (fun _ s' => page_ok U [] s' /\ same_map s s' /\ kept (byte_pages d n) s s' /\
       forall a, in_mem s a -> kbyte s' a = if decide (d <= a < d + Z.of_nat n) then kbyte s (src + (a - d)) else kbyte s a)
    (fun _ _ => False) s.
Proof.
  revert s d src. induction n as [|n IH]; intros s d src Hs Hm Hdis; cbn [kmemcpy].
  { apply wp_ret. split; [done|]. split; [apply same_map_refl|]. split; [apply kept_refl|]. intros a _. by rewrite decide_False by lia. }
  destruct (Hm 0 ltac:(lia)) as [Hd0 Hs0]. rewrite !Z.add_0_r in *. eapply wp_known; [by apply (rd_byte_run Hs)|].
  eapply wp_seq; [apply (wr_byte_ok Hs d (kbyte s src) Hd0 (kbyte_byte Hs _))| |done]. intros [] s1 (Hs1 & Hsm1 & Hk1 & Hb1).
  eapply wp_mono; [apply (IH s1 (d + 1) (src + 1) Hs1)| |done].
  - intros j Hj. destruct (Hm (j + 1) ltac:(lia)). split; eapply same_map_mem; try exact Hsm1; by rewrite <- Z.add_assoc, (Z.add_comm 1).
  - lia.
  - intros [] s2 (Hs2 & Hsm2 & Hk2 & Hb2). split; [done|]. split; [by eapply same_map_trans|]. split.
    { eapply kept_trans; (eapply kept_mono; [|eassumption]); [intros pl <-; exists d; split; [done|lia]|]. intros pl (a & -> & Ha). exists a. split; [done|lia]. }
    intros a Ha. rewrite Hb2 by (by eapply same_map_mem).
    destruct (decide (d + 1 <= a < d + 1 + Z.of_nat n)) as [Hin|Hout].
    + rewrite decide_True by lia. replace (src + 1 + (a - (d + 1))) with (src + (a - d)) by lia. rewrite Hb1 by (apply Hm; lia). by rewrite decide_False by lia.
    + rewrite Hb1 by done. destruct (decide (a = d)) as [->|Hne]; [rewrite decide_True by lia; f_equal; lia|]. by rewrite decide_False by lia.
Qed.

Lemma kbyte_kept X s s' a : kept X s s' -> in_mem s a -> ~ X (KPg (a / PAGE_SIZE)) -> kbyte s' a = kbyte s a.
Proof.
  intros Hk Ha Hx. assert (Hd : PAGE_DYN <= a / PAGE_SIZE < PAGE_USER) by (destruct Ha as [Hd _]; unfold in_dyn in Hd; lia).
  unfold kbyte. rewrite (kept_kent _ _ _ _ Hk Hd Hx). f_equal. apply (kp_data _ _ _ Hk (KPg (a / PAGE_SIZE))); [done|done|done|].
  destruct Ha as [_ Hm]. destruct (Hm (a / PAGE_SIZE) ltac:(lia)) as (_ & f & Hf & E). destruct kern_flags as (Hfl & _ & _).
  cbn [entry]. fold (kent s (a / PAGE_SIZE)). rewrite E, kern_owned, pte_frame_pte by lia. left.
Qed.
(** An address inside of a block. *)
Lemma block_mem s p n a : in_dyn p n -> mapped s p n -> p * PAGE_SIZE <= a < (p + n) * PAGE_SIZE -> in_mem s a.
Proof.
  intros Hd Hm Ha. assert (p <= a / PAGE_SIZE < p + n) as Hp by (unfold PAGE_SIZE in *; Z.div_mod_to_equations; lia).
  split; [unfold in_dyn in *; lia|]. intros v Hv. apply Hm. lia.
Qed.

(** The start of block [q] is copied to the start of block [p]. *)
Definition start_of (p : Z) : Z := p * PAGE_SIZE + MHEAD_SIZE.
Lemma start_mem s p n j : in_dyn p n -> mapped s p n -> 0 <= j < n * PAGE_SIZE - MHEAD_SIZE -> in_mem s (start_of p + j) /\ p <= (start_of p + j) / PAGE_SIZE < p + n.
Proof.
  intros Hd Hm Hj. split; [apply (block_mem s p n); [done|done|]|]; unfold start_of, PAGE_SIZE, MHEAD_SIZE in *; [lia|Z.div_mod_to_equations; lia].
Qed.
Lemma copy_block U s p n q m len :
  page_ok U [] s -> in_dyn p n -> mapped s p n -> in_dyn q m -> mapped s q m -> p + n <= q \/ q + m <= p ->
  0 <= len <= n * PAGE_SIZE - MHEAD_SIZE -> len <= m * PAGE_SIZE - MHEAD_SIZE ->
  wp (kmemcpy (Z.to_nat len) (start_of p) (start_of q))
    (fun _ s' => page_ok U [] s' /\ same_map s s' /\ kept (kpages p n) s s' /\ forall j, 0 <= j < len -> kbyte s' (start_of p + j) = kbyte s (start_of q + j)) (fun _ _ => False) s.
Proof.
  intros Hs Hd Hm Hd' Hm' Hdis Hl Hl'.
  eapply wp_mono; [apply (kmemcpy_ok U s (Z.to_nat len) (start_of p) (start_of q) Hs); rewrite Z2Nat.id by lia| |done].
  - intros j Hj. split; [apply (start_mem s p n)|apply (start_mem s q m)]; (done || lia).
  - unfold start_of, PAGE_SIZE, MHEAD_SIZE in *. lia.
  - rewrite Z2Nat.id by lia. intros [] s2 (Hs2 & Hsm2 & Hk2 & Hb2). split; [done|]. split; [done|]. split.
    { eapply kept_mono; [|exact Hk2]. intros pl (a & -> & Ha). rewrite Z2Nat.id in Ha by lia. eexists. split; [done|]. replace a with (start_of p + (a - start_of p)) by lia.
      apply (start_mem s); [done|done|lia]. }
    intros j Hj.
    rewrite Hb2 by (apply (start_mem s p n); (done || lia)). rewrite decide_True by lia. f_equal. lia.
Qed.
(** A block in the room that was free is apart from every block. *)
Lemma fresh_apart s p n q m : 0 < n -> 0 < m -> mapped s q m -> (forall v, p <= v < p + n -> kent s v = 0) -> p + n <= q \/ q + m <= p.
Proof.
  intros Hn Hnm Hm Hz. destruct (decide (p + n <= q)); [by left|]. destruct (decide (q + m <= p)); [by right|exfalso].
  destruct (Hm (Z.max p q)) as (_ & f & _ & E); [lia|]. rewrite Hz in E by lia. destruct kern_flags as (_ & Hpr & _).
  pose proof (pte_present f PGF_KERN) as Hc. by rewrite <- E, Hpr, has_zero in Hc.
Qed.

Lemma krealloc_ok U s rs1 h rs2 size name :
  heap_ok U s (rs1 ++ RMem h :: rs2) -> size_ok size -> fits s (npages_of size) ->
  wpk (out_of_frames s (npages_of size)) (krealloc (start_of (mh_page h)) size name)
    (fun a s' => exists p, a = start_of p /\ heap_ok U s' (rs1 ++ rs2 ++ [RMem (Mhead p (npages_of size) (take 19 name))]) /\ moved (r_in (RMem h)) s s' /\
       forall j, 0 <= j < size -> j < mh_npages h * PAGE_SIZE - MHEAD_SIZE -> kbyte s' (a + j) = kbyte s (start_of (mh_page h) + j))
    (fun e s' => e = ENOMEM /\ heap_ok U s' (rs1 ++ RMem h :: rs2) /\ kept nothing s s') s.
Proof.
  intros Hh Hsz Hfit. destruct (block_in Hh) as (Hd & Hn & Hm). pose proof (dyn_bounds _ _ Hd ltac:(lia)) as Hb.
  destruct (npages_ok size Hsz) as [Hnp Hfits]. unfold krealloc. rewrite (proj2 (Z.eqb_neq _ _)) by (unfold start_of, PAGE_SIZE, MHEAD_SIZE; lia).
  eapply wpk_known; [done|]. assert (Epg : (start_of (mh_page h) - MHEAD_SIZE) / PAGE_SIZE = mh_page h) by (unfold start_of; by rewrite Z.add_simpl_r, Z.div_mul).
  rewrite Epg, (find_block Hh). eapply wpk_known; [done|]. rewrite u32_small by (unfold PAGE_SIZE, MHEAD_SIZE; lia).
  apply wpk_bind. eapply wpk_mono; [apply (kmalloc_ok U s _ size name Hh Hsz Hfit)| |done|done]. intros a s1 (p & -> & Hh1 & Hk1 & Hz). fold (start_of p).
  set (n := npages_of size) in *. set (h' := Mhead p n (take 19 name)) in *. set (old := mh_npages h * PAGE_SIZE - MHEAD_SIZE).
  rewrite <- (app_assoc rs1 (RMem h :: rs2)) in Hh1. cbn [app] in Hh1. destruct (block_in Hh1) as (_ & _ & Hm1).
  destruct (ho_in _ _ _ Hh1 (RMem h')) as [Hd' [_ Hm']]; [apply elem_of_app; right; right; apply elem_of_app; right; left|]. cbn in Hd', Hm'.
  pose proof (fresh_apart s p n _ _ ltac:(lia) Hn Hm Hz) as Hdis. set (len := Z.min old size).
  assert (Hlen : 0 <= len /\ len <= old /\ len <= size) by (unfold len, old, PAGE_SIZE, MHEAD_SIZE, size_ok in *; lia).
  replace (if old <? size then _ else _) with (kmemcpy (Z.to_nat len) (start_of p) (start_of (mh_page h))) by (unfold len; destruct (Z.ltb_spec old size); do 2 f_equal; lia).
  apply wpk_wp. eapply wp_seq; [apply (copy_block U s1 p n (mh_page h) (mh_npages h) len (heap_page _ _ _ Hh1)); (done || lia)| |done].
  intros [] s2 (Hs2 & Hsm2 & Hk2 & Hb2). pose proof (heap_data _ _ _ _ Hh1 Hs2 Hsm2) as Hh2.
  eapply wp_seq; [apply (kfree_ok Hh2)| |done]. intros [] s3 (Hh3 & Hk3 & _). apply wp_ret. exists p. split; [done|]. split; [done|]. split.
  { exists (fun pl => kpages p n pl \/ kpages (mh_page h) (mh_npages h) pl). split.
    - eapply kept_trans; [|eapply kept_trans]; (eapply kept_mono; [|eassumption]); tauto.
    - intros pl [(v & -> & Hv)|(v & -> & Hv)]; exists v; (split; [done|]); [left; by apply Hz|by right]. }
  intros j Hj Hjo. destruct (start_mem s1 p n j Hd' Hm') as [Hc1 Hp1]; [lia|]. destruct (start_mem s (mh_page h) (mh_npages h) j Hd Hm) as [Hc2 Hp2]; [lia|].
  rewrite (kbyte_kept _ s2 s3 _ Hk3); [|by eapply same_map_mem|intros (v & [= <-] & Hv); lia]. rewrite Hb2 by lia.
  apply (kbyte_kept _ s s1 _ Hk1); [done|]. intros (v & [= <-] & Hv). lia.
Qed.

(** * Histories *)

Inductive hp_op :=
| HMalloc (size : Z) (name : list Z)
| HRealloc (h : mhead) (size : Z) (name : list Z)
| HFree (h : mhead)
| HDma (size : Z)
| HDmaFree (p size : Z)
| HMap (base size cache : Z)
| HUnmap (p off size phys cache : Z)
| HWrite (h : mhead) (j b : Z).

(** A client asks for sizes that do not overflow, gives back what it has, and
    writes inside of its blocks. *)
Definition hp_legal (s : pager) (rs : list region) (op : hp_op) : Prop :=
  match op with
  | HMalloc size _ => size_ok size /\ fits s (npages_of size)
  | HRealloc h size _ => RMem h ∈ rs /\ size_ok size /\ fits s (npages_of size)
  | HFree h => RMem h ∈ rs
  | HDma size => dma_size_ok size /\ fits s (dma_pages size + 1)
  | HDmaFree p size => RDma p (dma_pages size) ∈ rs /\ dma_size_ok size
  | HMap base size cache => 0 <= size < 2 ^ 31 /\ 0 <= base < 2 ^ 32 /\ is_Some (cache_flags cache) /\ fits s (dev_pages size)
  | HUnmap p off size phys cache => RDev p (dev_pages size) phys cache ∈ rs /\ 0 <= off < PAGE_SIZE /\ 0 <= size < 2 ^ 31
  | HWrite h j b => RMem h ∈ rs /\ 0 <= j < mh_npages h * PAGE_SIZE - MHEAD_SIZE /\ is_byte b
  end.
Definition hp_exec (op : hp_op) : M pager Z :=
  match op with
  | HMalloc size name => kmalloc size name
  | HRealloc h size name => krealloc (start_of (mh_page h)) size name
  | HFree h => kfree (start_of (mh_page h));;; ret 0
  | HDma size => dma_malloc size
  | HDmaFree p size => dma_free (p * PAGE_SIZE) size;;; ret 0
  | HMap base size cache => phys_map base size cache
  | HUnmap p off size _ _ => phys_unmap (p * PAGE_SIZE + off) size;;; ret 0
  | HWrite h j b => wr_byte (start_of (mh_page h) + j) b;;; ret 0
  end.
(** The regions of the client afterwards, [a] being the result. *)
Definition drop_region (r : region) (rs : list region) : list region := list_difference rs [r].
Definition block_at (a size : Z) (name : list Z) : region := RMem (Mhead (a / PAGE_SIZE) (npages_of size) (take 19 name)).
Definition hp_after (rs : list region) (op : hp_op) (a : Z) : list region :=
  match op with
  | HMalloc size name => rs ++ [block_at a size name]
  | HRealloc h size name => drop_region (RMem h) rs ++ [block_at a size name]
  | HFree h => drop_region (RMem h) rs
  | HDma size => if a =? 0 then rs else rs ++ [RDma (a / PAGE_SIZE) (dma_pages size)]
  | HDmaFree p size => drop_region (RDma p (dma_pages size)) rs
  | HMap base size cache => rs ++ [RDev (a / PAGE_SIZE) (dev_pages size) (base / PAGE_SIZE) cache]
  | HUnmap p _ size phys cache => drop_region (RDev p (dev_pages size) phys cache) rs
  | HWrite _ _ _ => rs
  end.
(** The pages of the region an operation gives back or writes to. *)
Definition touched (op : hp_op) : Z -> Prop :=
  match op with
  | HRealloc h _ _ | HFree h | HWrite h _ _ => r_in (RMem h)
  | HDmaFree p size => r_in (RDma p (dma_pages size))
  | HUnmap p _ size phys cache => r_in (RDev p (dev_pages size) phys cache)
  | HMalloc _ _ | HDma _ | HMap _ _ _ => no_page
  end.

(** A region is there once. *)
Lemma region_split U s rs r : heap_ok U s rs -> r ∈ rs -> exists rs1 rs2, rs = rs1 ++ r :: rs2 /\ drop_region r rs = rs1 ++ rs2.
Proof.
  intros Hh Hr. destruct (list_elem_of_split _ _ Hr) as (rs1 & rs2 & E). exists rs1, rs2. split; [done|]. subst rs.
  assert (Hl : (rs1 ++ r :: rs2) !! length rs1 = Some r) by (rewrite lookup_app_r, Nat.sub_diag; done || lia).
  destruct (ho_in _ _ _ Hh r Hr) as [_ Hm]. pose proof (r_len_pos _ _ Hm) as Hn.
  assert (Hone : forall i, (rs1 ++ r :: rs2) !! i = Some r -> i = length rs1) by (intros i Hi; apply (ho_apart _ _ _ Hh i _ r r (r_page r)); unfold r_in; (done || lia)).
  assert (Hno : r ∉ rs1 /\ r ∉ rs2).
  { split; intros [i Hi]%list_elem_of_lookup_1.
    - apply lookup_lt_Some in Hi as Hlt. specialize (Hone i). rewrite lookup_app_l in Hone by done. specialize (Hone Hi). lia.
    - specialize (Hone (length rs1 + S i)%nat). rewrite lookup_app_r in Hone by lia. replace (length rs1 + S i - length rs1)%nat with (S i) in Hone by lia. specialize (Hone Hi). lia. }
  assert (E : forall l l', r ∉ l -> list_difference (l ++ l') [r] = l ++ list_difference l' [r]).
  { intros l l'. induction l as [|x l IH]; cbn; [done|]. intros [Hx Hl2]%not_elem_of_cons. destruct (decide_rel _ _ _) as [->%list_elem_of_singleton|_]; [done|]. by rewrite IH. }
  unfold drop_region. rewrite E by apply Hno. cbn. destruct (decide_rel _ _ _) as [_|Hn']; [|by destruct Hn'; apply list_elem_of_singleton]. f_equal.
  specialize (E rs2 []). rewrite app_nil_r in E. rewrite E by apply Hno. apply app_nil_r.
Qed.
Lemma start_page p : start_of p / PAGE_SIZE = p.
Proof. unfold start_of. rewrite Z.div_add_l by done. by rewrite Z.add_0_r. Qed.
(** Where an operation panics. *)
Definition hp_stops (s : pager) (op : hp_op) (h : halt) : Prop :=
  match op with HMalloc size _ | HRealloc _ size _ => out_of_frames s (npages_of size) h | _ => False end.
Lemma wp_ret0 {A} (m : M pager A) Q E s : wp m (fun _ => Q 0) E s -> wp (m;;; ret 0) Q E s.
Proof. intros H. apply wp_bind. eapply wp_mono; [exact H|done|done]. Qed.

Lemma hp_exec_ok U s rs op :
  heap_ok U s rs -> hp_legal s rs op ->
  wpk (hp_stops s op) (hp_exec op) (fun a s' => heap_ok U s' (hp_after rs op a) /\ moved (touched op) s s') (fun e s' => e = ENOMEM /\ heap_ok U s' rs /\ moved no_page s s') s.
Proof.
  intros Hh. destruct op as [size name|h size name|h|size|p size|base size cache|p off size phys cache|h j b]; cbn [hp_legal hp_exec hp_after touched hp_stops].
  - intros [Hsz Hf]. eapply wpk_mono; [by apply (kmalloc_ok U s rs)| | |done].
    + intros a s' (p & -> & Hh' & Hk & Hz). unfold block_at. fold (start_of p). rewrite start_page. split; [done|by eapply moved_fresh].
    + intros e s' (-> & Hh' & Hk). split; [done|]. split; [done|by apply moved_nothing].
  - intros (Hr & Hsz & Hf). destruct (region_split _ _ _ _ Hh Hr) as (rs1 & rs2 & -> & ->). eapply wpk_mono; [by apply (krealloc_ok U s rs1 h rs2)| | |done].
    + intros a s' (p & -> & Hh' & Hm & _). unfold block_at. by rewrite start_page, <- app_assoc.
    + intros e s' (-> & Hh' & Hk). split; [done|]. split; [done|by apply moved_nothing].
  - intros Hr. destruct (region_split _ _ _ _ Hh Hr) as (rs1 & rs2 & -> & ->). apply wpk_wp, wp_ret0. eapply wp_mono; [apply (kfree_ok Hh)| |done].
    intros _ s' (Hh' & Hk & _). split; [done|by apply (moved_region _ _ (RMem h))].
  - intros [Hsz Hf]. apply wpk_wp. eapply wp_mono; [by apply (dma_malloc_ok U s rs size)| |done]. intros a s' [Hm [[-> Hh']|(p & -> & Ha & Hh')]]; (split; [|done]); [done|].
    rewrite (proj2 (Z.eqb_neq _ _)) by lia. by rewrite Z.div_mul.
  - intros [Hr Hsz]. destruct (region_split _ _ _ _ Hh Hr) as (rs1 & rs2 & -> & ->). apply wpk_wp, wp_ret0. eapply wp_mono; [by apply (dma_free_ok U s rs1 p size rs2)|done|done].
  - intros (Hsz & Hb & Hc & Hf). apply wpk_wp. eapply wp_mono; [by apply (phys_map_ok U s rs)| |done]. intros a s' (p & -> & Hh' & Hm). split; [|done].
    rewrite Z.div_add_l by done. rewrite (Z.div_small (base mod _)) by (apply Z.mod_pos_bound; done). by rewrite Z.add_0_r.
  - intros (Hr & Ho & Hsz). destruct (region_split _ _ _ _ Hh Hr) as (rs1 & rs2 & -> & ->). apply wpk_wp, wp_ret0.
    eapply wp_mono; [apply (phys_unmap_ok U s rs1 p size phys cache rs2 _ Hh Hsz)|done|done]. rewrite Z.div_add_l by done. rewrite Z.div_small by done. lia.
  - intros (Hr & Hj & Hb). destruct (ho_in _ _ _ Hh _ Hr) as [Hd [_ Hm]]. apply wpk_wp, wp_ret0. destruct (start_mem s (mh_page h) (mh_npages h) j Hd Hm Hj) as [Hin Hpg].
    eapply wp_mono; [by apply (wr_byte_ok (heap_page _ _ _ Hh))| |done].
    intros [] s' (Hs' & Hsm & Hk & _). split; [by eapply heap_data|]. eexists. split; [exact Hk|]. intros pl <-. eexists. split; [done|]. by right.
Qed.

(** The user part of the directories is left alone. *)
Lemma adget_then {A} U s n (k : Z + Z -> M pager A) :
  page_ok U [] s -> 0 < n < 2 ^ 20 -> fits s n -> (forall r, keeps utabs (k r)) -> wlp (bind (attempt (pg_adget n)) k) (fun _ => utabs s) (fun _ => utabs s) s.
Proof.
  intros Hs Hn Hf Hk. assert (Hu : forall r s1, utabs s s1 -> wlp (k r) (fun _ => utabs s) (fun _ => utabs s) s1).
  { intros r s1 H1. eapply wlp_mono; [apply Hk| |]; cbn; intros; by etransitivity. }
  apply wlp_bind, wlp_attempt. eapply wlp_mono; [apply wp_wlp, (pg_adget_ok U s n Hs Hn Hf)| |]; cbn beta; intros ? s1 H1; apply Hu; apply H1.
Qed.
Lemma adget_seq {A} U s n (k : Z -> M pager A) :
  page_ok U [] s -> 0 < n < 2 ^ 20 -> fits s n -> (forall p, keeps utabs (k p)) -> wlp (bind (pg_adget n) k) (fun _ => utabs s) (fun _ => utabs s) s.
Proof.
  intros Hs Hn Hf Hk. apply wlp_bind. eapply wlp_mono; [apply wp_wlp, (pg_adget_ok U s n Hs Hn Hf)| |]; cbn beta; [|intros e s1 H1; apply H1].
  intros p s1 H1. eapply wlp_mono; [apply Hk| |]; cbn; intros ? s2 H2; (etransitivity; [apply H1|exact H2]).
Qed.
Lemma kmalloc_utabs U s size name : page_ok U [] s -> size_ok size -> fits s (npages_of size) -> wlp (kmalloc size name) (fun _ => utabs s) (fun _ => utabs s) s.
Proof.
  intros Hs Hsz Hf. apply (adget_seq U); [done|by apply npages_ok|done|]. intros p. unfold pg_atmem, panic. keeps. by apply keeps_modify.
Qed.
Lemma kfree_utabs a : keeps utabs (kfree a).
Proof. unfold kfree, pg_dtmem. keeps. by apply keeps_modify. Qed.
Lemma wr_byte_utabs a b : keeps utabs (wr_byte a b).
Proof. unfold wr_byte, page_frame. keeps. Qed.
Lemma rd_byte_utabs a : keeps utabs (rd_byte a).
Proof. unfold rd_byte, page_frame. keeps. Qed.
#[export] Hint Resolve kfree_utabs wr_byte_utabs rd_byte_utabs : keeps.
Lemma kmemcpy_utabs n d src : keeps utabs (kmemcpy n d src).
Proof. revert d src. induction n as [|n IH]; intros d src; cbn [kmemcpy]; keeps. Qed.
#[export] Hint Resolve kmemcpy_utabs : keeps.

Lemma krealloc_utabs U s ptr size name :
  page_ok U [] s -> size_ok size -> fits s (npages_of size) -> wlp (krealloc ptr size name) (fun _ => utabs s) (fun _ => utabs s) s.
Proof.
  intros Hs Hsz Hf. unfold krealloc. case_match; [by eapply kmalloc_utabs|]. apply wlp_bind, wlp_gets, wlp_bind, wlp_deref. intros h' _. apply wlp_bind.
  eapply wlp_mono; [by eapply kmalloc_utabs| |done]. intros a s1 H1.
  eapply wlp_keeps; [|intros ? s2 H2; by etransitivity; [exact H1|exact H2]..]. keeps.
Qed.

Lemma hp_utabs U s rs op : heap_ok U s rs -> hp_legal s rs op -> wlp (hp_exec op) (fun _ => utabs s) (fun _ => utabs s) s.
Proof.
  intros Hh. pose proof (heap_page _ _ _ Hh) as Hs. destruct op as [size name|h size name|h|size|p size|base size cache|p off size phys cache|h j b]; cbn [hp_legal hp_exec].
  - intros [Hsz Hf]. by eapply kmalloc_utabs.
  - intros (_ & Hsz & Hf). by eapply krealloc_utabs.
  - intros _. eapply (wlp_keeps utabs); [keeps|done|done].
  - intros [Hsz Hf]. destruct (dma_pages_eq size Hsz) as (E1 & E2 & Hn). unfold dma_malloc. cbv zeta. rewrite E1, E2.
    apply (adget_then U); [done|lia|done|]. intros r. unfold pg_atdma. keeps.
  - intros _. eapply (wlp_keeps utabs); [|done|done]. unfold dma_free, pg_dtdma. cbv zeta. keeps.
  - intros (Hsz & _ & _ & Hf). apply (adget_seq U); [done|by apply dev_pages_pos|done|]. intros q. unfold pg_atphys. keeps.
  - intros _. eapply (wlp_keeps utabs); [|done|done]. unfold phys_unmap, pg_dtphys. cbv zeta. keeps.
  - intros _. eapply (wlp_keeps utabs); [keeps|done|done].
Qed.

(** No page of the kernel or of a task and no table of a task has changed; frames
    that are not free any more are tables of the kernel. *)
Record only_new_tables (s s' : pager) : Prop := OnlyNewTables {
  nt_kept : kept nothing s s';
  nt_user : utabs s s';
  nt_free : forall f, free_frame (pg_fr s') f -> free_frame (pg_fr s) f;
  nt_taken : forall f, free_frame (pg_fr s) f -> free_frame (pg_fr s') f \/ exists t, at_place s' (KTab t) f
}.
Lemma failed_tables U s s' rs rs' : heap_ok U s rs -> heap_ok U s' rs' -> kept nothing s s' -> utabs s s' -> only_new_tables s s'.
Proof.
  intros Hh Hh' Hk Hu. pose proof (heap_page _ _ _ Hh) as Hs. pose proof (heap_page _ _ _ Hh') as Hs'.
  split; [done|done| |]; intros f Hf; [|exact (only_tables U s s' f Hs Hs' Hk Hu Hf)]. apply (still_free Hs Hs' Hk); [by intros pl []|done].
Qed.

(** C17. What [kmalloc] gives, to a caller whose size leaves room for the header below
    4 GB and for whose pages there is room behind the last page table of the kernel:
    an address behind a header at the start of a page, with room for the bytes asked
    for; its pages were unused and its frames free, it joins the blocks, and no other
    page of the kernel or of a task changes its mapping or its contents.  When it
    fails, with ENOMEM, the blocks are those from before, no page of the kernel or
    of a task has changed, and the frames that are not free any more are page tables
    of the kernel, which stay.  It panics only where frame 4095 is free and all other
    free frames have been used up.  All this holds while no frame that holds the list
    of free frames is in use. *)
Theorem kmalloc_spec U s rs size name :
  heap_ok U s rs -> list_alone U s -> size_ok size -> fits s (npages_of size) ->
  wpk (out_of_frames s (npages_of size)) (kmalloc size name)
    (fun a s' => list_alone U s' -> exists p, let n := npages_of size in
       a = p * PAGE_SIZE + MHEAD_SIZE /\ a + size <= (p + n) * PAGE_SIZE /\ in_dyn p n /\ mapped s' p n /\
       (forall v, p <= v < p + n -> kent s v = 0) /\ (forall v f, p <= v < p + n -> at_place s' (KPg v) f -> free_frame (pg_fr s) f) /\
       heap_ok U s' (rs ++ [RMem (Mhead p n (take 19 name))]) /\ kept (kpages p n) s s' /\ utabs s s')
    (fun e s' => list_alone U s' -> e = ENOMEM /\ heap_ok U s' rs /\ only_new_tables s s') s.
Proof.
  intros Hh _ Hsz Hf. destruct (npages_ok size Hsz) as [Hn Hfit]. pose proof (kmalloc_utabs U s size name (heap_page _ _ _ Hh) Hsz Hf) as Hu.
  eapply wpk_mono; [exact (wpk_wlp_and _ _ _ _ _ _ _ (kmalloc_ok U s rs size name Hh Hsz Hf) Hu)| | |done].
  - intros a s' [(p & -> & Hh' & Hk & Hz) Hut] _. exists p. split; [done|]. split; [unfold PAGE_SIZE in *; lia|].
    destruct (ho_in _ _ _ Hh' (RMem (Mhead p (npages_of size) (take 19 name)))) as [Hd [_ Hm]]; [apply elem_of_app; right; by apply list_elem_of_singleton|].
    do 3 (split; [done|]). split; [|done]. intros v f Hv Ha.
    eapply (fresh_frames (heap_page _ _ _ Hh) (heap_page _ _ _ Hh') Hk); [|by exists v|exact Ha].
    intros pl (v' & -> & Hv'). cbn [entry]. fold (kent s v'). by rewrite Hz.
  - intros e s' [(-> & Hh' & Hk) Hut] _. split; [done|]. split; [done|]. by eapply failed_tables.
Qed.

(** C19. [krealloc] of a block, for the callers of [kmalloc_spec], moves it: the new one
    holds the contents of the old one up to the smaller of the sizes, the old one is
    free again, and besides them only pages that were unused have changed.  When it
    fails, with ENOMEM, the old block and all others are as before and no page has
    changed; page tables the kernel has added stay.  It panics only where [kmalloc]
    does.  All this holds while no frame that holds the list of free frames is in
    use. *)
Theorem krealloc_spec U s rs1 h rs2 size name :
  heap_ok U s (rs1 ++ RMem h :: rs2) -> list_alone U s -> size_ok size -> fits s (npages_of size) ->
  wpk (out_of_frames s (npages_of size)) (krealloc (start_of (mh_page h)) size name)
    (fun a s' => list_alone U s' -> exists p, a = start_of p /\ heap_ok U s' (rs1 ++ rs2 ++ [RMem (Mhead p (npages_of size) (take 19 name))]) /\
       moved (r_in (RMem h)) s s' /\ size <= npages_of size * PAGE_SIZE - MHEAD_SIZE /\
       forall j, 0 <= j < size -> j < mh_npages h * PAGE_SIZE - MHEAD_SIZE -> kbyte s' (a + j) = kbyte s (start_of (mh_page h) + j))
    (fun e s' => list_alone U s' -> e = ENOMEM /\ heap_ok U s' (rs1 ++ RMem h :: rs2) /\ only_new_tables s s') s.
Proof.
  intros Hh _ Hsz Hf. destruct (npages_ok size Hsz) as [_ Hfit]. pose proof (krealloc_utabs U s (start_of (mh_page h)) size name (heap_page _ _ _ Hh) Hsz Hf) as Hu.
  eapply wpk_mono; [exact (wpk_wlp_and _ _ _ _ _ _ _ (krealloc_ok U s rs1 h rs2 size name Hh Hsz Hf) Hu)| | |done].
  - intros a s' [(p & -> & Hh' & Hm & Hb) _] _. exists p. split; [done|]. split; [done|]. split; [done|]. split; [lia|done].
  - intros e s' [(-> & Hh' & Hk) Hut] _. split; [done|]. split; [done|]. by eapply failed_tables.
Qed.
