(* ===== verification/PageUser.v ===== *)
(** The memory of user tasks on the i386: page faults, copy on write and lazy
    allocation (kern/arch-i386/page.c, [pg_uauto] and [pg_fault]), access to user
    memory (kern/arch-i386/umem.c), and the copy that fork makes
    (kern/fork_i386.c).

    A buffer of the kernel is a list of bytes.  An access of the kernel to a user
    page that is not present ends in [pg_fault]; when that gives up, control goes to
    the handler [fault] has set, or the kernel panics without one.  [fault_result]
    is how it ends. *)

From S2P Require Import Prelude PageFrames Page.

Definition ERANGE : Z := 31.
Definition SIGBUS : Z := 7.
Definition SIGSEGV : Z := 11.
Definition SIGSTK : Z := 31.
Definition SIGOOM : Z := 32.
(** The flags of a user page, of one that is copied when it is written to, and of
    the page frames are mapped at for a moment. *)
Definition PGF_UPAGE : Z := Z.lor PGF_PRESENT (Z.lor PGF_WRITABLE PGF_USER).
Definition PGF_TMP : Z := Z.lor PGF_PRESENT PGF_WRITABLE.

Definition signal_raise (n : Z) : M pager unit := modify (fun s => set_raised (pg_raised s ++ [Raise n]) s).
Definition signal_raise_fatal (n : Z) : M pager unit := modify (fun s => set_raised (pg_raised s ++ [RaiseFatal n]) s).
(** [fault: signal_raise (SIGSEGV); return EFAULT] *)
Definition fault_exit {A} : M pager A := signal_raise SIGSEGV;;; fail EFAULT.
Definition count_up : M pager unit := modify (fun s => set_count (u32 (t_pg_count s + 1)) s).
Definition count_down : M pager unit := modify (fun s => set_count (u32 (t_pg_count s - 1)) s).

(** ** Faults *)

Definition pg_uauto (p : Z) : M pager unit :=
  d <~ rd_dir (p / 1024);;
  if negb (has d PGF_USER) then fail EFAULT
  else
    e <~ rd_tab p;;
    if has e PGF_COW then
      m <~ fr pg_alloc;;
      wr_tab PAGE_TMP (pte m PGF_TMP);;;
      copy_page PAGE_TMP p;;;
      wr_tab PAGE_TMP 0;;;
      wr_tab p (pte m PGF_UPAGE);;;
      count_up
    else if has e PGF_PRESENT then ret tt
    else if has e PGF_AUTO then
      m <~ fr pg_alloc;;
      wr_tab p (pte m PGF_UPAGE);;;
      zero_page p;;;
      count_up
    else fail EFAULT.

(** [return 0], [return 1] and [fault_abort ()] *)
Inductive fault_result := FDone | FKernel | FAbort.
Definition pg_fault (umode : bool) (p : Z) : M pager fault_result :=
  if (p <? PAGE_USER) || (PAGE_USER_END <=? p) then
    if umode then signal_raise_fatal SIGSEGV;;; ret FDone else ret FKernel
  else
    r <~ attempt (pg_uauto p);;
    match r with
    | inr _ => ret FDone
    | inl err =>
      if umode then
        signal_raise_fatal (if err =? ENOMEM then SIGOOM else if err =? EFAULT then SIGSEGV else SIGBUS);;;
        ret FDone
      else ret FAbort
    end.

(** ** The address space of a task *)

(** The checks of [uclean] over the directory. *)
Fixpoint chk_dir (n : nat) (t : Z) : M pager unit :=
  match n with
  | O => ret tt
  | S n' =>
    d <~ rd_dir t;;
    if has d PGF_PRESENT && (pte_frame d =? 0) then panic "uclean: null frame in directory" else chk_dir n' (t + 1)
  end.
(** A table that is not there is skipped.  A round goes on by at least one page, so
    the user pages that are left are enough fuel. *)
Definition USER_FUEL : nat := Z.to_nat (PAGE_USER_END - PAGE_USER).
Fixpoint uclean_pages (fuel : nat) (i : Z) : M pager unit :=
  if PAGE_USER_END <=? i then ret tt
  else
    match fuel with
    | O => halted Undefined
    | S fuel' =>
      d <~ rd_dir (i / 1024);;
      if d =? 0 then uclean_pages fuel' (i / 1024 * 1024 + 1024)
      else
        e <~ rd_tab i;;
        if has e PGF_COW then uclean_pages fuel' (i + 1)
        else if has e PGF_PRESENT then
          if pte_frame e =? 0 then panic "uclean: null frame in table"
          else fr (pg_free (pte_frame e));;; uclean_pages fuel' (i + 1)
        else uclean_pages fuel' (i + 1)
    end.
Fixpoint uclean_tables (n : nat) (t : Z) : M pager unit :=
  match n with
  | O => ret tt
  | S n' =>
    d <~ rd_dir t;;
    (if d =? 0 then ret tt
     else if pte_frame d =? 0 then panic "uclean: null frame in directory"
     else fr (pg_free (pte_frame d));;; wr_dir t 0);;;
    uclean_tables n' (t + 1)
  end.
Definition UTABS : nat := Z.to_nat ((PAGE_USER_END - PAGE_USER) / 1024).
Definition uclean : M pager unit :=
  chk_dir UTABS (PAGE_USER / 1024);;;
  uclean_pages USER_FUEL PAGE_USER;;;
  uclean_tables UTABS (PAGE_USER / 1024);;;
  modify (set_count 0).

Definition user_range (start e : Z) : bool :=
  (start <? e) && ((PAGE_USER <=? start) && (start <? PAGE_USER_END)) && ((PAGE_USER <? e) && (e <=? PAGE_USER_END)).

Fixpoint ualloc_tables (n : nat) (t : Z) : M pager unit :=
  match n with
  | O => ret tt
  | S n' =>
    d <~ rd_dir t;;
    (if d =? 0 then
       pg <~ fr pg_alloc;;
       wr_dir t (pte pg PGF_UPAGE);;;
       zero_tab t;;;
       count_up
     else ret tt);;;
    ualloc_tables n' (t + 1)
  end.
Fixpoint ualloc_pages (n : nat) (i : Z) : M pager unit :=
  match n with
  | O => ret tt
  | S n' =>
    e <~ rd_tab i;;
    (if e =? 0 then wr_tab i PGF_AUTO else ret tt);;;
    ualloc_pages n' (i + 1)
  end.
Definition u_alloc (start e : Z) : M pager unit :=
  if negb (user_range start e) then fault_exit
  else
    ualloc_tables (Z.to_nat ((e - 1) / 1024 + 1 - start / 1024)) (start / 1024);;;
    ualloc_pages (Z.to_nat (e - start)) start.

Fixpoint ufree_pages (n : nat) (i : Z) : M pager unit :=
  match n with
  | O => ret tt
  | S n' =>
    e <~ rd_tab i;;
    if e =? 0 then fault_exit
    else
      d <~ rd_dir (i / 1024);;
      (if negb (d =? 0) && has e PGF_PRESENT then fr (pg_free (pte_frame e));;; count_down else ret tt);;;
      wr_tab i 0;;;
      ufree_pages n' (i + 1)
  end.
Definition u_free (start e : Z) : M pager unit :=
  if negb (user_range start e) then fault_exit else ufree_pages (Z.to_nat (e - start)) start.

(** The tables and pages [exec_init] shares with the image of the loader
    (kern/exec.c, lines 228 to 242). *)
Fixpoint ldr_cow (n : nat) (upg ldr_page : Z) : M pager unit :=
  match n with
  | O => ret tt
  | S n' =>
    pg_altab upg PGF_UPAGE;;;
    e <~ rd_tab ldr_page;;
    wr_tab upg (pte (pte_frame e) (Z.lor PGF_PRESENT (Z.lor PGF_USER PGF_COW)));;;
    ldr_cow n' (upg + 1) (ldr_page + 1)
  end.

(** ** Access to user memory *)

Definition range_chk (p size : Z) : M pager unit :=
  let page0 := p / 4096 in
  let page1 := u32 (p + size - 1) / 4096 in
  if negb ((PAGE_USER <=? page0) && (page0 <? PAGE_USER_END)) then fault_exit
  else if negb ((PAGE_USER <=? page1) && (page1 <? PAGE_USER_END)) then fault_exit
  else ret tt.

Fixpoint uauto_run (n : nat) (i : Z) : M pager unit :=
  match n with O => ret tt | S n' => pg_uauto i;;; uauto_run n' (i + 1) end.
Definition uga (p size : Z) : M pager unit :=
  if size =? 0 then ret tt
  else
    let pg := p / 4096 in
    let last := u32 (p + size - 1) / 4096 in
    if last <? pg then fault_exit
    else if negb ((PAGE_USER <=? pg) && (pg <? PAGE_USER_END)) then fault_exit
    else if negb ((PAGE_USER <=? last) && (last <? PAGE_USER_END)) then fault_exit
    else uauto_run (Z.to_nat (last - pg + 1)) pg.
Definition uaa (p sz nm : Z) : M pager unit :=
  let s := u32 (sz * nm) in
  if s <? sz then fail EINVAL else uga p s.

(** [memcpy] to, [memcpy] from and [memset] of memory that is mapped. *)
Fixpoint put_bytes (a : Z) (l : list Z) : M pager unit :=
  match l with [] => ret tt | b :: l' => wr_byte a b;;; put_bytes (a + 1) l' end.
Fixpoint get_bytes (n : nat) (a : Z) : M pager (list Z) :=
  match n with O => ret [] | S n' => b <~ rd_byte a;; l <~ get_bytes n' (a + 1);; ret (b :: l) end.

Definition tucpy (d : Z) (src : list Z) : M pager unit :=
  uga d (Z.of_nat (length src));;; put_bytes d src.
Definition fucpy (s size : Z) : M pager (list Z) :=
  uga s size;;; get_bytes (Z.to_nat size) s.
Definition uset (p v size : Z) : M pager unit :=
  uga p size;;; put_bytes p (replicate (Z.to_nat size) (v mod 256)).

(** A load of the kernel from user memory; [None] when the fault handler takes
    over. *)
Definition rd_user (a : Z) : M pager (option Z) :=
  let p := a / 4096 in
  d <~ rd_dir (p / 1024);;
  e <~ (if has d PGF_PRESENT then rd_tab p else ret 0);;
  if has e PGF_PRESENT then b <~ rd_byte a;; ret (Some b)
  else
    r <~ pg_fault false p;;
    match r with
    | FDone => b <~ rd_byte a;; ret (Some b)
    | FAbort => ret None
    | FKernel => panic "kernel mode fault"
    end.

(** The result is what was written to the buffer. *)
Fixpoint fustr_loop (fuel : nat) (cnt s max : Z) (acc : list Z) : M pager (list Z) :=
  if max <=? cnt then fail ERANGE
  else
    match fuel with
    | O => halted Undefined
    | S fuel' =>
      range_chk s 1;;;
      r <~ rd_user s;;
      match r with
      | None => fault_exit
      | Some b =>
        if b =? 0 then ret (acc ++ [b]) else fustr_loop fuel' (cnt + 1) (u32 (s + 1)) max (acc ++ [b])
      end
    end.
Definition fustr (s max : Z) : M pager (list Z) := fustr_loop (Z.to_nat max) 0 s max [].

(** [usa]: the page of the start is looked at again for each page of the string. *)
Fixpoint usa_loop (fuel : nat) (s p1 max le : Z) : M pager unit :=
  match fuel with
  | O => halted Undefined
  | S fuel' =>
    if max <? p1 - s then fail le
    else
      (if p1 mod 4096 =? 0 then pg_uauto (s / 4096) else ret tt);;;
      r <~ rd_user p1;;
      match r with
      | None => panic "fault.S: fault_abort: fault longjmp not set"
      | Some b => if b =? 0 then ret tt else usa_loop fuel' s (p1 + 1) max le
      end
  end.
Definition usa (s max le : Z) : M pager unit :=
  if max =? 0 then panic "usa: !max"
  else pg_uauto (s / 4096);;; usa_loop (Z.to_nat (max + 2)) s s max le.

(** The new stack pointer and the result. *)
Definition upush (esp v : Z) : M pager (Z * Z) :=
  let esp := u32 (esp - 4) in
  r <~ attempt (tucpy esp (le32 v));;
  match r with
  | inl err => signal_raise SIGSTK;;; ret (esp, err)
  | inr _ => ret (esp, 0)
  end.

(** ** Fork *)

(** The directory of another task. *)
Definition rd_tdir (d : nat) (t : Z) : M pager Z :=
  s <~ gets (fun s => s);; l <~ deref (pg_dirs s !! d);; deref (l !! Z.to_nat t).
Definition wr_tdir (d : nat) (t v : Z) : M pager unit :=
  modify (fun s => set_dirs (alter (fun l => <[Z.to_nat t := v]> l) d (pg_dirs s)) s).
(** [TMP_TAB[j] = v] *)
Definition wr_tmp_tab (j v : Z) : M pager unit :=
  f <~ page_frame PAGE_TMP;; s <~ gets (fun s => s);; wr_frame f (put32 (frame s f) (4 * j) v).

Fixpoint copy_loop (fuel : nat) (t : nat) (i : Z) : M pager unit :=
  if PAGE_USER_END <=? i then ret tt
  else
    match fuel with
    | O => halted Undefined
    | S fuel' =>
      d <~ rd_dir (i / 1024);;
      if d =? 0 then copy_loop fuel' t (i + 1024)
      else
        td <~ rd_tdir t (i / 1024);;
        (if td =? 0 then
           pg <~ fr pg_alloc;;
           wr_tdir t (i / 1024) (pte pg PGF_UPAGE);;;
           wr_tab PAGE_TMP (pte pg PGF_TMP);;;
           zero_page PAGE_TMP
         else wr_tab PAGE_TMP td);;;
        e <~ rd_tab i;;
        if has e PGF_AUTO then wr_tmp_tab (i mod 1024) PGF_AUTO;;; copy_loop fuel' t (i + 1)
        else if negb (has e PGF_PRESENT) then copy_loop fuel' t (i + 1)
        else
          pg <~ fr pg_alloc;;
          wr_tmp_tab (i mod 1024) (pte pg PGF_UPAGE);;;
          wr_tab PAGE_TMP (pte pg PGF_TMP);;;
          copy_page PAGE_TMP i;;;
          copy_loop fuel' t (i + 1)
    end.
Definition copy_pages (t : nat) (phys : Z) : M pager unit :=
  pg_newdir t phys;;;
  r <~ attempt (copy_loop USER_FUEL t PAGE_USER);;
  wr_tab PAGE_TMP 0;;;
  match r with inl err => fail err | inr _ => ret tt end.
