(* ===== verification/PageUserOk.v ===== *)
(** The memory a user task sees, and faults.

    [upage] is the contents of a page of an address space: of the frame it is
    mapped to, or zeros when it is to be allocated on first use.  Faults, lazy
    allocation and copy on write change the tables and never what a task sees. *)

From S2P Require Import Prelude PageFrames PageFramesOk Page PageOk PageKern PageUser.

Definition is_user (v : Z) : Prop := PAGE_USER <= v < PAGE_USER_END.
Definition PGF_CPAGE : Z := Z.lor PGF_PRESENT (Z.lor PGF_USER PGF_COW).

Definition page_of (s : pager) (e : Z) : option (list Z) :=
  if has e PGF_PRESENT then Some (frame s (pte_frame e)) else if has e PGF_AUTO then Some (zeros PAGE_SIZE) else None.
Definition upage (s : pager) (d : nat) (v : Z) : option (list Z) := page_of s (tabent s d v).
(** The byte at address [a]. *)
Definition umem (s : pager) (d : nat) (a : Z) : option Z :=
  if decide (is_user (a / PAGE_SIZE)) then (fun b => rd8 b (a mod PAGE_SIZE)) <$> upage s d (a / PAGE_SIZE) else None.

(** The entries of user pages: nothing, a page to come, a page of its own, and a
    page of the kernel to be copied. *)
Inductive uform (s : pager) : Z -> Prop :=
| UNone : uform s 0
| UAuto : uform s PGF_AUTO
| UOwn f : 0 < f < 2 ^ 20 -> uform s (pte f PGF_UPAGE)
| UCow f w : 0 < f < 2 ^ 20 -> at_place s (KPg w) f -> uform s (pte f PGF_CPAGE).

Record user_ok (U L : list Z) (s : pager) : Prop := UserOk {
  uo_page : page_ok U L s;
  uo_tab : forall d t, 256 <= t < 1024 -> dirent s d t = 0 \/ exists f, 0 < f < 2 ^ 20 /\ dirent s d t = pte f PGF_UPAGE;
  uo_form : forall d v, is_user v -> uform s (tabent s d v)
}.

Lemma upage_flags : 0 <= PGF_UPAGE < 4096 /\ has PGF_UPAGE PGF_PRESENT = true /\ has PGF_UPAGE PGF_COW = false /\ has PGF_UPAGE PGF_USER = true.
Proof. by vm_compute. Qed.
Lemma cpage_flags : 0 <= PGF_CPAGE < 4096 /\ has PGF_CPAGE PGF_PRESENT = true /\ has PGF_CPAGE PGF_COW = true.
Proof. by vm_compute. Qed.
Lemma pte_user f fl : has (pte f fl) PGF_USER = has fl PGF_USER.
Proof. apply (pte_has f fl 2). lia. Qed.
Lemma pte_auto f fl : has (pte f fl) PGF_AUTO = has fl PGF_AUTO.
Proof. apply (pte_has f fl 10). lia. Qed.

Lemma user_place d v : is_user v -> page_place d v = UPg d v.
Proof. intros Hv. unfold page_place, is_user in *. by rewrite (proj2 (Z.ltb_ge _ _)) by lia. Qed.
Lemma user_pageable v : is_user v -> pageable v.
Proof. unfold is_user, pageable, PAGE_DYN, PAGE_USER. lia. Qed.
Lemma user_table v : is_user v -> 256 <= v / 1024 < 1024.
Proof. unfold is_user, PAGE_USER, PAGE_USER_END. intros Hv. Z.div_mod_to_equations; lia. Qed.
Lemma tabent_some s d v : tabent s d v <> 0 -> dirent s d (v / 1024) <> 0.
Proof. unfold tabent. by destruct (Z.eqb_spec (dirent s d (v / 1024)) 0). Qed.

Lemma own_owned d v f : 0 < f < 2 ^ 20 -> owned (UPg d v) (pte f PGF_UPAGE) = [f].
Proof.
  intros Hf. destruct upage_flags as (H1 & H2 & H3 & _). unfold owned, owns. rewrite pte_present, pte_cow, H2, H3. cbn. by rewrite pte_frame_pte by lia.
Qed.
Lemma cow_owned d v f : owned (UPg d v) (pte f PGF_CPAGE) = [].
Proof. destruct cpage_flags as (H1 & H2 & H3). unfold owned, owns. by rewrite pte_present, pte_cow, H2, H3. Qed.
Lemma auto_owned d v : owned (UPg d v) PGF_AUTO = [].
Proof. done. Qed.

(** ** What is kept *)

(** User pages apart, nothing in [X]. *)
Definition user_only (X : place -> Prop) : Prop := forall pl, X pl -> match pl with UPg _ _ => True | _ => False end.

Lemma kept_uent X s s' d v : kept X s s' -> is_user v -> ~ X (UPg d v) -> tabent s' d v = tabent s d v.
Proof. intros Hk Hv Hx. by apply (kp_ent _ _ _ Hk (UPg d v)). Qed.
Lemma uform_kept X s s' e : kept X s s' -> user_only X -> uform s e -> uform s' e.
Proof.
  intros Hk Hx Hu. destruct Hu as [| |f Hf|f w Hf Ha]; [constructor|constructor|by constructor|]. apply (UCow _ f w Hf). apply at_place_owned in Ha as [Hv Ha]. apply at_place_owned.
  split; [done|]. rewrite (kp_ent _ _ _ Hk); [done|done|done|by intros ?%Hx].
Qed.
Lemma page_of_kept X s s' e d v :
  kept X s s' -> user_only X -> is_user v -> ~ X (UPg d v) -> tabent s d v = e -> uform s e -> page_of s' e = page_of s e.
Proof.
  intros Hk Hx Hv Hn E Hu. unfold page_of. destruct (has e PGF_PRESENT) eqn:Ep; [|done]. f_equal.
  destruct Hu as [| |f Hf|f w Hf Ha]; [by rewrite has_zero in Ep|done| |].
  - apply (kp_data _ _ _ Hk (UPg d v)); [done|done|done|]. cbn [entry]. destruct upage_flags as (Hfl & _). rewrite E, own_owned, pte_frame_pte by lia. left.
  - destruct cpage_flags as (Hfl & _). rewrite pte_frame_pte by lia. apply at_place_owned in Ha as [Hvw Ha].
    apply (kp_data _ _ _ Hk (KPg w)); [done|done|by intros ?%Hx|done].
Qed.
Lemma upage_kept U L X s s' d v :
  user_ok U L s -> kept X s s' -> user_only X -> is_user v -> ~ X (UPg d v) -> upage s' d v = upage s d v.
Proof.
  intros Hs Hk Hx Hv Hn. unfold upage. rewrite (kept_uent _ _ _ _ _ Hk Hv Hn). eapply page_of_kept; [done|done|done|done|done|]. by apply Hs.
Qed.
Lemma user_ok_kept U L L' X s s' :
  user_ok U L s -> page_ok U L' s' -> kept X s s' -> user_only X -> (forall d v, is_user v -> X (UPg d v) -> uform s' (tabent s' d v)) ->
  (forall d t, 256 <= t < 1024 -> dirent s d t = 0 -> dirent s' d t = 0 \/ exists f, 0 < f < 2 ^ 20 /\ dirent s' d t = pte f PGF_UPAGE) ->
  (forall d v, is_user v -> X (UPg d v) \/ ~ X (UPg d v)) -> user_ok U L' s'.
Proof.
  intros Hs Hs' Hk Hx Hf Ht Hdec. split; [done| |].
  - intros d t Htr. destruct (decide (dirent s d t = 0)) as [E0|E0]; [by apply Ht|]. rewrite (kp_tabs _ _ _ Hk) by (done || right; lia). by apply Hs.
  - intros d v Hv. destruct (Hdec d v Hv) as [Hin|Hout]; [by apply Hf|]. rewrite (kept_uent _ _ _ _ _ Hk Hv Hout).
    eapply uform_kept; [done|done|]. by apply Hs.
Qed.

(** The pages of one address space. *)
Definition upages (d : nat) (p n : Z) : place -> Prop := fun pl => exists v, pl = UPg d v /\ p <= v < p + n.
Lemma upages_only d p n : user_only (upages d p n).
Proof. by intros pl (v & -> & _). Qed.
Lemma upages_dec d p n pl : upages d p n pl \/ ~ upages d p n pl.
Proof.
  destruct pl as [t|v|d' t|d' v]; try (by right; intros (? & ? & _)). destruct (decide (d' = d /\ p <= v < p + n)) as [[-> Hv]|Hn]; [left; by exists v|].
  right. intros (v' & [= <- <-] & Hv). tauto.
Qed.
Lemma one_page d v pl : upages d v 1 pl <-> UPg d v = pl.
Proof. split; [intros (v' & -> & Hv); f_equal; lia|]. intros <-. exists v. split; [done|lia]. Qed.
Lemma kept_one d v s s' : kept (eq (UPg d v)) s s' -> kept (upages d v 1) s s'.
Proof. apply kept_mono. intros pl. apply one_page. Qed.

(** * Frames mapped for a moment *)

(** The parts of the state that belong to the kernel. *)
Definition kside (s : pager) : list mhead * Z * list sigcall := (kmalloc_list s, pg_vfree s, pg_raised s).

(** Kernel memory is as before. *)
Record kern_same (s s' : pager) : Prop := KernSame {
  ks_ent : forall v, PAGE_DYN <= v < PAGE_USER -> kent s' v = kent s v;
  ks_data : forall v f, PAGE_DYN <= v < PAGE_USER -> f ∈ owned (KPg v) (kent s v) -> frame s' f = frame s f;
  ks_list : kmalloc_list s' = kmalloc_list s;
  ks_vfree : pg_vfree s' = pg_vfree s
}.
Lemma kern_same_refl s : kern_same s s.
Proof. done. Qed.
Lemma kern_same_trans s1 s2 s3 : kern_same s1 s2 -> kern_same s2 s3 -> kern_same s1 s3.
Proof.
  intros [A1 A2 A3 A4] [B1 B2 B3 B4]. split; [| |congruence|congruence].
  - intros v Hv. by rewrite B1, A1.
  - intros v f Hv Hf. rewrite (B2 v), (A2 v); [done..|]. by rewrite A1.
Qed.
Lemma kept_kern X s s' : kept X s s' -> user_only X -> kmalloc_list s' = kmalloc_list s -> pg_vfree s' = pg_vfree s -> kern_same s s'.
Proof.
  intros Hk Hx Hl Hv. split; [| |done|done].
  - intros v Hd. apply (kept_kent _ _ _ _ Hk Hd). by intros ?%Hx.
  - intros v f Hd Hf. apply (kp_data _ _ _ Hk (KPg v)); [done|done|by intros ?%Hx|done].
Qed.

Lemma frame_wr_ent s d v e f : has_tab s d (v / 1024) -> ~ is_table s f -> frame (wr_ent s d v e) f = frame s f.
Proof. intros [Ht Hd] Hf. unfold wr_ent. rewrite frame_set, decide_False; [done|]. intros ->. apply Hf. by exists d, (v / 1024). Qed.
Lemma tmp_flags : 0 <= PGF_TMP < 4096 /\ has PGF_TMP PGF_PRESENT = true.
Proof. by vm_compute. Qed.

Section tmp.
Context {U L : list Z} {s : pager} (Hs : page_ok U L s).

Lemma tabent_tmp e : 0 <= e < 2 ^ 32 -> tabent (wr_ent s (pg_dir s) PAGE_TMP e) (pg_dir s) PAGE_TMP = e.
Proof.
  intros He. pose proof (has_tmp _ _ _ Hs) as Ht. rewrite (tabent_wr_ent Hs) by (done || by left).
  rewrite decide_True; [done|]. split; [done|]. split; [by left|apply Ht].
Qed.
Lemma page_frame_run p e : has_tab s (pg_dir s) (p / 1024) -> tabent s (pg_dir s) p = e -> has e PGF_PRESENT = true -> page_frame p s = Ret (pte_frame e) s.
Proof. intros Ht E Hp. unfold page_frame. erewrite bind_run by (by apply (rd_tab_run Hs)). by rewrite E, Hp. Qed.
End tmp.

(** State after a step that leaves every directory alone. *)
Record tmp_step (U L : list Z) (s s' : pager) : Prop := TmpStep {
  ts_ok : page_ok U L s';
  ts_kept : kept nothing s s';
  ts_dirs : pg_dirs s' = pg_dirs s;
  ts_fr : pg_fr s' = pg_fr s;
  ts_data : forall f, ~ is_table s f -> f ∉ L -> frame s' f = frame s f
}.
Lemma dirent_same s s' : pg_dirs s' = pg_dirs s -> dirent s' = dirent s.
Proof. intros E. unfold dirent. by rewrite E. Qed.
Lemma is_table_same s s' f : pg_dirs s' = pg_dirs s -> is_table s' f <-> is_table s f.
Proof. intros E%dirent_same. unfold is_table. by rewrite E. Qed.
Lemma tmp_step_trans U L s1 s2 s3 : tmp_step U L s1 s2 -> tmp_step U L s2 s3 -> tmp_step U L s1 s3.
Proof.
  intros [A1 A2 A3 A4 A5] [B1 B2 B3 B4 B5]. split; [done|by eapply kept_trans|congruence|congruence|].
  intros f Hf HL. rewrite B5, A5; [done|done|done| |done]. by rewrite (is_table_same s1).
Qed.

Lemma wr_tmp_step U L s e : page_ok U L s -> 0 <= e < 2 ^ 32 -> tmp_step U L s (wr_ent s (pg_dir s) PAGE_TMP e).
Proof.
  intros Hs He. destruct (wr_tmp_ok U L s e Hs He) as [H1 H2]. split; try done.
  intros f Hf _. apply frame_wr_ent; [by eapply has_tmp|done].
Qed.
(** [pg_tab[PAGE_TMP] = e] *)
Lemma wr_tmp_run U L s e : page_ok U L s -> wr_tab PAGE_TMP e s = Ret tt (wr_ent s (pg_dir s) PAGE_TMP e).
Proof. intros Hs. apply (wr_tab_run Hs). by eapply has_tmp. Qed.

(** Writing to a frame in hand that is mapped there. *)
Lemma wr_limbo_step U L s m b : page_ok U L s -> m ∈ L -> bytes_ok PAGE_SIZE b -> tmp_step U L s (wr_data s m b).
Proof.
  intros Hs Hm Hb. assert (Hnt : ~ is_table s m) by (by eapply limbo_no_table). split; try done.
  - by apply page_ok_wr_data.
  - eapply kept_mono; [|by apply (kept_wr_data U L)]. intros pl Ha. by apply (po_own _ _ _ Hs) in Ha as (_ & _ & ?).
  - intros f _ Hf. rewrite frame_set, decide_False; [done|]. by intros ->.
Qed.

(** A page is copied to frame [m]. *)
Lemma copy_tmp_ok U L s m p e :
  page_ok U (m :: L) s -> 0 < m < 2 ^ 20 -> has_tab s (pg_dir s) (p / 1024) -> is_user p -> tabent s (pg_dir s) p = e -> has e PGF_PRESENT = true ->
  ~ is_table s (pte_frame e) -> pte_frame e ∉ m :: L ->
  wp (wr_tab PAGE_TMP (pte m PGF_TMP);;; copy_page PAGE_TMP p)
    (fun _ s' => tmp_step U (m :: L) s s' /\ frame s' m = frame s (pte_frame e) /\ kside s' = kside s) (fun _ _ => False) s.
Proof.
  intros Hs Hm Ht Hp E Hpr Hnt HnL. pose proof (pte_range m PGF_TMP) as Hr. eapply wp_known; [by eapply wr_tmp_run|].
  pose proof (wr_tmp_step _ _ _ _ Hs Hr) as Hst. set (s1 := wr_ent s (pg_dir s) PAGE_TMP (pte m PGF_TMP)) in *. pose proof (ts_ok _ _ _ _ Hst) as Hs1.
  assert (E1 : tabent s1 (pg_dir s1) p = e) by (change (pg_dir s1) with (pg_dir s); rewrite (kept_uent nothing s) by (apply Hst || done || by intros []); done).
  unfold copy_page. eapply wp_known; [by apply (page_frame_run Hs1 p e)|]. destruct tmp_flags as [Hf1 Hf2].
  eapply wp_known; [apply (page_frame_run Hs1 PAGE_TMP (pte m PGF_TMP)); [by eapply has_tmp|by apply (tabent_tmp Hs)|by rewrite pte_present]|].
  rewrite pte_frame_pte by lia. apply wp_bind, wp_gets. unfold wr_frame, wp, modify. change (set_mem _ s1) with (wr_data s1 m (frame s1 (pte_frame e))).
  split; [|split; [|done]].
  - eapply tmp_step_trans; [exact Hst|]. apply wr_limbo_step; [done|left|apply (to_mem _ (po_tabs _ _ _ Hs1))].
  - rewrite frame_set, decide_True by done. by apply (ts_data _ _ _ _ Hst).
Qed.

(** * A page becomes present *)

Definition own_page (s : pager) (d : nat) (v : Z) : Prop := exists f, 0 < f < 2 ^ 20 /\ tabent s d v = pte f PGF_UPAGE.
Record uauto_step (U : list Z) (p : Z) (s s' : pager) : Prop := UautoStep {
  us_ok : user_ok U [] s';
  us_kept : kept (upages (pg_dir s) p 1) s s';
  us_same : upage s' (pg_dir s) p = upage s (pg_dir s) p;
  us_own : own_page s' (pg_dir s) p;
  us_dirs : pg_dirs s' = pg_dirs s;
  us_side : kside s' = kside s
}.

(** A new entry for a page that owned no frame. *)
Lemma wr_uent_ok U s s1 d p e :
  user_ok U [] s -> is_user p -> page_ok U (owned (UPg d p) e) s1 -> kept (upages d p 1) s s1 -> pg_dirs s1 = pg_dirs s ->
  has_tab s d (p / 1024) -> owned (UPg d p) (tabent s1 d p) = [] -> 0 <= e < 2 ^ 32 -> uform s1 e ->
  let s2 := wr_ent s1 d p e in
  user_ok U [] s2 /\ kept (upages d p 1) s s2 /\ tabent s2 d p = e /\ forall f, ~ is_table s1 f -> frame s2 f = frame s1 f.
Proof.
  intros Hu Hp Hs1 Hk Hd Ht Ho Hr Hform s2. assert (Ht1 : has_tab s1 d (p / 1024)) by (by eapply kept_tab). rewrite <- (app_nil_r (owned _ _)) in Hs1.
  assert (Hs2 : page_ok U [] s2).
  { pose proof (page_ok_wr_ent U [] s1 d p e (user_pageable p Hp) Ht1 Hr) as Hw. rewrite (user_place _ _ Hp), Ho in Hw. by apply Hw. }
  assert (Hk12 : kept (upages d p 1) s1 s2) by (apply kept_one; rewrite <- (user_place _ _ Hp); by apply (kept_wr_ent U _ s1 d p e Hs1 (user_pageable p Hp))).
  assert (He2 : tabent s2 d p = e).
  { change (entry s2 (UPg d p) = e). unfold s2. rewrite (entry_wr_ent U _ s1 d p _ _ Hs1) by (done || by apply user_pageable). by rewrite decide_True by (by rewrite user_place). }
  split; [|split; [by eapply kept_trans|split; [done|intros f Hf; by apply frame_wr_ent]]].
  apply (user_ok_kept U [] [] (upages d p 1) s s2 Hu Hs2); [by eapply kept_trans|apply upages_only| | |intros; apply upages_dec].
  - intros d' v Hv (v' & [= -> ->] & Hv'). replace v' with p by lia. rewrite He2. eapply uform_kept; [exact Hk12|apply upages_only|done].
  - intros d' t Ht' E0. left. change (dirent s1 d' t = 0). by rewrite (dirent_same s s1).
Qed.
(** The frame of the new entry has the contents the task saw. *)
Lemma map_upage U s s1 p m :
  user_ok U [] s -> is_user p -> page_ok U [m] s1 -> kept (upages (pg_dir s) p 1) s s1 -> pg_dirs s1 = pg_dirs s -> 0 < m < 2 ^ 20 ->
  has_tab s (pg_dir s) (p / 1024) -> owned (UPg (pg_dir s) p) (tabent s1 (pg_dir s) p) = [] ->
  wp (wr_tab p (pte m PGF_UPAGE))
    (fun _ s2 => user_ok U [] s2 /\ kept (upages (pg_dir s) p 1) s s2 /\ tabent s2 (pg_dir s) p = pte m PGF_UPAGE /\ pg_dirs s2 = pg_dirs s /\
       frame s2 m = frame s1 m /\ kside s2 = kside s1) (fun _ _ => False) s1.
Proof.
  intros Hu Hp Hs1 Hk Hd Hm Ht Ho. pose proof (kp_cur _ _ _ Hk) as Hc.
  eapply wp_is; [apply (wr_tab_run Hs1); rewrite Hc; by eapply kept_tab|]. rewrite Hc.
  destruct (wr_uent_ok U s s1 (pg_dir s) p (pte m PGF_UPAGE) Hu Hp) as (H1 & H2 & H3 & H4); try done; [by rewrite own_owned|apply pte_range|by constructor|].
  split; [done|]. split; [done|]. split; [done|]. split; [done|]. split; [|done]. apply H4. eapply limbo_no_table; [exact Hs1|left].
Qed.

Lemma own_at U L s d v f : user_ok U L s -> is_user v -> 0 < f < 2 ^ 20 -> tabent s d v = pte f PGF_UPAGE -> at_place s (UPg d v) f /\ ~ is_table s f.
Proof.
  intros Hu Hv Hf E. assert (Ha : at_place s (UPg d v) f) by (apply at_place_owned; split; [done|]; cbn [entry]; rewrite E, own_owned by done; left).
  split; [done|]. exact (page_no_table U L s (UPg d v) f (uo_page _ _ _ Hu) I Ha).
Qed.
(** New contents for a page that has a frame of its own. *)
Lemma wr_own_ok U s d v f b :
  user_ok U [] s -> is_user v -> 0 < f < 2 ^ 20 -> tabent s d v = pte f PGF_UPAGE -> bytes_ok PAGE_SIZE b ->
  user_ok U [] (wr_data s f b) /\ kept (upages d v 1) s (wr_data s f b) /\ tabent (wr_data s f b) d v = pte f PGF_UPAGE /\ upage (wr_data s f b) d v = Some b.
Proof.
  intros Hu Hv Hf E Hb. destruct (own_at U [] s d v f Hu Hv Hf E) as [Ha Hnt]. pose proof (uo_page _ _ _ Hu) as Hs. pose proof (user_table v Hv) as Ht.
  assert (Hk : kept (upages d v 1) s (wr_data s f b)).
  { eapply kept_mono; [|by apply (kept_wr_data U [])]. intros pl Hpl. apply one_page. by apply (po_inj _ _ _ Hs _ _ f). }
  assert (E' : tabent (wr_data s f b) d v = pte f PGF_UPAGE) by (by rewrite (tabent_wr_data) by (done || right; lia)). destruct upage_flags as (Hf1 & Hf2 & _).
  split; [|split; [done|split; [done|]]].
  - apply (user_ok_kept U [] [] (upages d v 1) s); [done|by apply page_ok_wr_data|done|apply upages_only| |by left|intros; apply upages_dec].
    intros d' v1 Hv1 (v' & [= -> ->] & Hv'). replace v' with v by lia. rewrite E'. by constructor.
  - unfold upage. rewrite E'. unfold page_of. rewrite pte_present, Hf2, pte_frame_pte by lia. by rewrite frame_set, decide_True.
Qed.
Lemma user_ok_side U L s v n l r : user_ok U L s -> user_ok U L (Pager (pg_fr s) v (pg_dirs s) (pg_dir s) (pg_mem s) n l r).
Proof.
  intros Hu. apply (user_ok_kept U L L nothing s); [done|by apply page_ok_side, Hu|apply kept_side|by intros ? []|by intros ? ? ? []|by left|by right; intros []].
Qed.

Section uauto.
Context {U : list Z} {s : pager} {p : Z} (Hu : user_ok U [] s) (Hp : is_user p) (Ht : has_tab s (pg_dir s) (p / 1024)).

Lemma uauto_auto :
  tabent s (pg_dir s) p = PGF_AUTO ->
  wp (m <~ fr pg_alloc;; wr_tab p (pte m PGF_UPAGE);;; zero_page p;;; count_up) (fun _ s' => uauto_step U p s s') (fun e s' => e = ENOMEM /\ s' = s) s.
Proof.
  intros Ee. pose proof (uo_page _ _ _ Hu) as Hs. destruct upage_flags as (Hf1 & Hf2 & _).
  eapply wp_seq; [by apply alloc_ok| |by intros e s' (-> & -> & _)]. intros m s1 (fr' & -> & Hs1 & Hm & _).
  eapply wp_seq; [apply (map_upage U s (set_fr fr' s) p m Hu Hp Hs1); (done || (change (tabent (set_fr fr' s)) with (tabent s); by rewrite Ee))| |done].
  intros [] s2 (Hu2 & Hk2 & He2 & Hd2 & _ & Sd2). pose proof (uo_page _ _ _ Hu2) as Hs2. pose proof (kp_cur _ _ _ Hk2) as Hc2.
  unfold zero_page. apply wp_bind. eapply wp_known; [apply (page_frame_run Hs2 p (pte m PGF_UPAGE)); rewrite ?Hc2; [by eapply kept_tab|done|by rewrite pte_present]|].
  rewrite pte_frame_pte by lia. unfold wr_frame, count_up, wp, modify. change (set_mem _ s2) with (wr_data s2 m (zeros PAGE_SIZE)).
  destruct (wr_own_ok U s2 (pg_dir s) p m (zeros PAGE_SIZE) Hu2 Hp Hm He2) as (Hu3 & Hk3 & He3 & Hp3); [by apply bytes_ok_zeros|]. split.
  - by apply user_ok_side.
  - eapply kept_trans; [exact Hk2|]. eapply kept_trans; [exact Hk3|apply kept_side].
  - unfold upage at 2. rewrite Ee. exact Hp3.
  - by exists m.
  - exact Hd2.
  - exact Sd2.
Qed.

Lemma uauto_cow f w :
  0 < f < 2 ^ 20 -> at_place s (KPg w) f -> tabent s (pg_dir s) p = pte f PGF_CPAGE ->
  wp (m <~ fr pg_alloc;; wr_tab PAGE_TMP (pte m PGF_TMP);;; copy_page PAGE_TMP p;;; wr_tab PAGE_TMP 0;;; wr_tab p (pte m PGF_UPAGE);;; count_up)
    (fun _ s' => uauto_step U p s s') (fun e s' => e = ENOMEM /\ s' = s) s.
Proof.
  intros Hf Ha Ee. pose proof (uo_page _ _ _ Hu) as Hs. destruct upage_flags as (Hf1 & Hf2 & _). destruct cpage_flags as (Hg1 & Hg2 & Hg3).
  eapply wp_seq; [by apply alloc_ok| |by intros e s' (-> & -> & _)]. intros m s1 (fr' & -> & Hs1 & Hm & _ & Hfree & _).
  assert (Hnt : ~ is_table s f) by exact (page_no_table U [] s (KPg w) f Hs I Ha).
  assert (Hfm : f ∉ [m]) by (intros ->%list_elem_of_singleton; by apply (po_own _ _ _ Hs) in Ha as (_ & ? & _)).
  assert (Hcp : wp (wr_tab PAGE_TMP (pte m PGF_TMP);;; copy_page PAGE_TMP p)
    (fun _ s' => tmp_step U [m] (set_fr fr' s) s' /\ frame s' m = frame s f /\ kside s' = kside s) (fun _ _ => False) (set_fr fr' s)).
  { pose proof (copy_tmp_ok U [] (set_fr fr' s) m p (pte f PGF_CPAGE) Hs1 Hm Ht Hp Ee) as H. rewrite pte_present, pte_frame_pte in H by lia. by apply H. }
  apply wp_assoc. eapply wp_seq; [exact Hcp| |done]. intros [] s2 (Hst2 & Hfm2 & Sd2). pose proof (ts_ok _ _ _ _ Hst2) as Hs2.
  eapply wp_known; [by eapply wr_tmp_run|]. pose proof (wr_tmp_step U [m] s2 0 Hs2 ltac:(lia)) as Hst3. set (s3 := wr_ent s2 (pg_dir s2) PAGE_TMP 0) in *.
  assert (Hk3 : kept nothing s s3) by (eapply kept_trans; [apply (kept_fr _ _ fr')|]; eapply kept_trans; [apply Hst2|apply Hst3]).
  assert (Hf3 : frame s3 m = frame s f).
  { rewrite <- Hfm2. apply frame_wr_ent; [by eapply has_tmp|]. eapply limbo_no_table; [exact Hs2|left]. }
  eapply wp_seq; [apply (map_upage U s s3 p m Hu Hp (ts_ok _ _ _ _ Hst3)); [|by rewrite (ts_dirs _ _ _ _ Hst3), (ts_dirs _ _ _ _ Hst2)|done|done|]| |done].
  { eapply kept_mono; [|exact Hk3]. by intros ? []. }
  { rewrite (kept_uent _ _ _ _ _ Hk3) by (done || by intros []). by rewrite Ee, cow_owned. }
  intros [] s4 (Hu4 & Hk4 & He4 & Hd4 & Hf4 & Sd4). unfold count_up, wp, modify. split.
  - by apply user_ok_side.
  - eapply kept_trans; [exact Hk4|apply kept_side].
  - change (page_of s4 (tabent s4 (pg_dir s) p) = page_of s (tabent s (pg_dir s) p)). rewrite He4, Ee. unfold page_of.
    rewrite !pte_present, Hf2, Hg2, !pte_frame_pte by lia. by rewrite Hf4, Hf3.
  - by exists m.
  - exact Hd4.
  - change (kside s4 = kside s). by rewrite Sd4.
Qed.
End uauto.

Lemma pg_uauto_ok U s p :
  user_ok U [] s -> is_user p ->
  wp (pg_uauto p) (fun _ s' => uauto_step U p s s' /\ is_Some (upage s (pg_dir s) p))
    (fun e s' => s' = s /\ (e = EFAULT /\ upage s (pg_dir s) p = None \/ e = ENOMEM /\ is_Some (upage s (pg_dir s) p))) s.
Proof.
  intros Hu Hp. pose proof (uo_page _ _ _ Hu) as Hs. pose proof (user_table p Hp) as Htr. unfold pg_uauto. eapply wp_known; [apply (rd_dir_run Hs); lia|].
  destruct upage_flags as (Hf1 & Hf2 & Hf3 & Hf4). destruct cpage_flags as (Hg1 & Hg2 & Hg3).
  destruct (uo_tab _ _ _ Hu (pg_dir s) (p / 1024) Htr) as [E0|(tf & Htf & E0)].
  { rewrite E0, has_zero. cbn [negb]. apply wp_fail. split; [done|]. left. split; [done|]. unfold upage, tabent. rewrite E0. cbn [Z.eqb]. unfold page_of. by rewrite !has_zero. }
  rewrite E0, pte_user, Hf4. cbn [negb].
  assert (Ht : has_tab s (pg_dir s) (p / 1024)) by (split; [right; lia|]; rewrite E0; intros Ez; by rewrite <- (pte_present tf), Ez, has_zero in Hf2).
  eapply wp_known; [by apply (rd_tab_run Hs)|]. pose proof (uo_form _ _ _ Hu (pg_dir s) p Hp) as Hform. remember (tabent s (pg_dir s) p) as e eqn:Ee.
  assert (Hup : upage s (pg_dir s) p = page_of s e) by (unfold upage; by rewrite <- Ee). rewrite Hup. destruct Hform as [| |f Hf|f w Hf Ha].
  - rewrite !has_zero. apply wp_fail. split; [done|]. left. split; [done|]. unfold page_of. by rewrite !has_zero.
  - change (has PGF_AUTO PGF_COW) with false. change (has PGF_AUTO PGF_PRESENT) with false. change (has PGF_AUTO PGF_AUTO) with true. cbv iota.
    eapply wp_mono; [by apply (uauto_auto Hu Hp Ht)| |]; [intros [] s' ?; split; [done|by eexists]|intros e' s' [-> ->]; split; [done|right; split; [done|by eexists]]].
  - rewrite pte_cow, Hf3, pte_present, Hf2. apply wp_ret. unfold page_of. rewrite pte_present, Hf2. split; [|by eexists].
    split; [done|apply kept_refl|done|by exists f|done|done].
  - rewrite pte_cow, Hg3. unfold page_of. rewrite pte_present, Hg2.
    eapply wp_mono; [by apply (uauto_cow Hu Hp Ht f w)| |]; [intros [] s' ?; split; [done|by eexists]|intros e' s' [-> ->]; split; [done|right; split; [done|by eexists]]].
Qed.
