(* ===== verification/PageUmem.v ===== *)
(** Access to the memory of the current task: [uga] makes a range accessible without
    changing what the task sees, and [tucpy] and [fucpy] write to it and read from
    it. *)

From S2P Require Import Prelude PageFrames PageFramesOk Page PageOk PageKern PageUser PageUserOk.

(** * Making pages accessible *)

(** What every task sees is as before; only pages [i], ... of the current task have
    got new entries. *)
Record same_view (U : list Z) (i n : Z) (s s' : pager) : Prop := SameView {
  sv_ok : user_ok U [] s';
  sv_kept : kept (upages (pg_dir s) i n) s s';
  sv_page : forall d v, is_user v -> upage s' d v = upage s d v;
  sv_dirs : pg_dirs s' = pg_dirs s;
  sv_side : kside s' = kside s
}.
Lemma sv_cur U i n s s' : same_view U i n s s' -> pg_dir s' = pg_dir s.
Proof. intros H. apply (kp_cur _ _ _ (sv_kept _ _ _ _ _ H)). Qed.
Lemma same_view_refl U i n s : user_ok U [] s -> same_view U i n s s.
Proof. intros Hu. split; (done || apply kept_refl). Qed.
Lemma same_view_umem U i n s s' d a : same_view U i n s s' -> umem s' d a = umem s d a.
Proof. intros Hv. unfold umem. destruct (decide _); [|done]. by rewrite (sv_page _ _ _ _ _ Hv). Qed.

(** Pages the task may write to. *)
Definition owned_run (s : pager) (d : nat) (i n : Z) : Prop := forall v, i <= v < i + n -> is_user v /\ own_page s d v.

Lemma upages_head d i n pl : upages d i 1 pl -> upages d i (Z.of_nat (S n)) pl.
Proof. intros (v & -> & Hv). exists v. split; [done|lia]. Qed.
Lemma upages_tail d i n pl : upages d (i + 1) (Z.of_nat n) pl -> upages d i (Z.of_nat (S n)) pl.
Proof. intros (v & -> & Hv). exists v. split; [done|lia]. Qed.

Lemma uauto_view U p s s' : user_ok U [] s -> is_user p -> uauto_step U p s s' -> same_view U p 1 s s'.
Proof.
  intros Hu Hp [H1 H2 H3 H4 H5 H6]. split; try done. intros d v Hv. destruct (decide (d = pg_dir s /\ v = p)) as [[-> ->]|Hne]; [done|].
  eapply upage_kept; [exact Hu|exact H2|apply upages_only|done|]. intros (v' & [= -> ->] & ?). apply Hne. split; [done|lia].
Qed.

Lemma uauto_run_ok U n i s :
  user_ok U [] s -> PAGE_USER <= i -> i + Z.of_nat n <= PAGE_USER_END ->
  wp (uauto_run n i)
    (fun _ s' => same_view U i (Z.of_nat n) s s' /\ owned_run s' (pg_dir s) i (Z.of_nat n) /\ forall v, i <= v < i + Z.of_nat n -> is_Some (upage s (pg_dir s) v))
    (fun e s' => same_view U i (Z.of_nat n) s s' /\ (e = EFAULT /\ (exists v, i <= v < i + Z.of_nat n /\ upage s (pg_dir s) v = None) \/ e = ENOMEM)) s.
Proof.
  revert i s. induction n as [|n IH]; intros i s Hu Hi He; cbn [uauto_run].
  { apply wp_ret. split; [by apply same_view_refl|]. split; intros v Hv; lia. }
  assert (Hp : is_user i) by (unfold is_user; lia). eapply wp_seq; [by apply (pg_uauto_ok U s i)| |].
  2: { intros e s' [-> He']. split; [by apply same_view_refl|]. destruct He' as [[-> Hn]|[-> _]]; [left|by right]. split; [done|]. exists i. split; [lia|done]. }
  intros [] s1 [Hst Hsome]. pose proof (uauto_view U i s s1 Hu Hp Hst) as Hv1. pose proof (sv_cur _ _ _ _ _ Hv1) as Hc.
  assert (Hview : forall s2, same_view U (i + 1) (Z.of_nat n) s1 s2 -> same_view U i (Z.of_nat (S n)) s s2).
  { intros s2 Hv2. split; [apply Hv2| | | |].
    - eapply kept_trans; [eapply kept_mono; [apply upages_head|apply Hv1]|]. eapply kept_mono; [apply upages_tail|]. rewrite <- Hc. apply Hv2.
    - intros d v Hv. by rewrite (sv_page _ _ _ _ _ Hv2), (sv_page _ _ _ _ _ Hv1).
    - by rewrite (sv_dirs _ _ _ _ _ Hv2), (sv_dirs _ _ _ _ _ Hv1).
    - by rewrite (sv_side _ _ _ _ _ Hv2), (sv_side _ _ _ _ _ Hv1). }
  eapply wp_mono; [apply (IH (i + 1) s1 (sv_ok _ _ _ _ _ Hv1)); lia| |].
  - intros [] s2 (Hv2 & Hown & Hall). rewrite Hc in Hown, Hall. split; [by apply Hview|]. split.
    + intros v Hv. destruct (decide (v = i)) as [->|]; [|apply Hown; lia]. split; [done|]. destruct (us_own _ _ _ _ Hst) as (f & Hf & E). exists f. split; [done|].
      rewrite <- Hc in E |- *. rewrite (kept_uent _ _ _ _ _ (sv_kept _ _ _ _ _ Hv2) Hp); [done|]. intros (v & [= <-] & ?). lia.
    + intros v Hv. destruct (decide (v = i)) as [->|]; [done|]. rewrite <- (sv_page _ _ _ _ _ Hv1) by (unfold is_user; lia). apply Hall. lia.
  - intros e s2 [Hv2 He']. split; [by apply Hview|]. destruct He' as [[-> (v & Hv & Hn)]| ->]; [left|by right]. split; [done|]. exists v. split; [lia|].
    rewrite Hc, (sv_page _ _ _ _ _ Hv1) in Hn by (unfold is_user; lia). done.
Qed.

(** The pages of a range of addresses, and that they are all user pages. *)
Definition first_page (a : Z) : Z := a / 4096.
Definition page_count (a size : Z) : Z := (a + size - 1) / 4096 - a / 4096 + 1.
Definition user_bytes (a size : Z) : Prop := PAGE_USER <= first_page a /\ first_page a + page_count a size <= PAGE_USER_END.
#[export] Instance user_bytes_dec a size : Decision (user_bytes a size).
Proof. apply _. Defined.
(** The state after a range was refused. *)
Definition segv (s : pager) : pager := set_raised (pg_raised s ++ [Raise SIGSEGV]) s.
(** Why a range is refused. *)
Definition uga_err (s : pager) (a size : Z) (e : Z) : Prop :=
  e = EFAULT /\ (exists v, first_page a <= v < first_page a + page_count a size /\ upage s (pg_dir s) v = None) \/ e = ENOMEM.

Lemma uga_ok U s a size :
  user_ok U [] s -> 0 <= a < 2 ^ 32 -> 0 < size <= 2 ^ 32 - 4096 ->
  wp (uga a size)
    (fun _ s' => user_bytes a size /\ same_view U (first_page a) (page_count a size) s s' /\ owned_run s' (pg_dir s) (first_page a) (page_count a size) /\
       forall v, first_page a <= v < first_page a + page_count a size -> is_Some (upage s (pg_dir s) v))
    (fun e s' => ~ user_bytes a size /\ e = EFAULT /\ s' = segv s \/
       user_bytes a size /\ same_view U (first_page a) (page_count a size) s s' /\ uga_err s a size e) s.
Proof.
  intros Hu Ha Hsz. unfold uga, user_bytes. rewrite (proj2 (Z.eqb_neq _ _)) by lia. fold (first_page a). set (n := page_count a size).
  assert (Hout : forall E : Prop, ~ E -> wp (A := unit) fault_exit (fun _ s' => E /\ same_view U (first_page a) n s s' /\ owned_run s' (pg_dir s) (first_page a) n /\
       forall v, first_page a <= v < first_page a + n -> is_Some (upage s (pg_dir s) v))
    (fun e s' => ~ E /\ e = EFAULT /\ s' = segv s \/ E /\ same_view U (first_page a) n s s' /\ uga_err s a size e) s).
  { intros E HE. unfold fault_exit, signal_raise, wp, bind, modify, fail. by left. }
  assert (Hu32 : u32 (a + size - 1) = a + size - 1 \/ 2 ^ 32 <= a + size - 1 /\ u32 (a + size - 1) = a + size - 1 - 2 ^ 32).
  { destruct (decide (a + size - 1 < 2 ^ 32)); [left; by apply u32_small; lia|right]. split; [lia|]. unfold u32. symmetry. apply Z.mod_unique with 1; lia. }
  unfold PAGE_USER, PAGE_USER_END, first_page, page_count in *.
  destruct (Z.ltb_spec (u32 (a + size - 1) / 4096) (a / 4096)) as [Hlt|Hge]; [apply Hout; unfold n; Z.div_mod_to_equations; lia|].
  assert (Hnw : u32 (a + size - 1) = a + size - 1) by (destruct Hu32 as [|[Hw E]]; [done|rewrite E in Hge; Z.div_mod_to_equations; lia]). rewrite Hnw in *.
  destruct (Z.leb_spec 262144 (a / 4096)) as [H1|H1], (Z.ltb_spec (a / 4096) 1048576) as [H2|H2]; cbn [negb andb]; try (apply Hout; unfold n; lia).
  destruct (Z.leb_spec 262144 ((a + size - 1) / 4096)) as [H3|H3], (Z.ltb_spec ((a + size - 1) / 4096) 1048576) as [H4|H4]; cbn [negb andb]; try (apply Hout; unfold n; lia).
  eapply wp_mono; [apply (uauto_run_ok U (Z.to_nat ((a + size - 1) / 4096 - a / 4096 + 1)) (a / 4096) s Hu); unfold PAGE_USER, PAGE_USER_END; lia| |]; rewrite Z2Nat.id by lia.
  - intros [] s' (? & ? & ?). split; [lia|done].
  - intros e s' (? & ?). right. split; [lia|done].
Qed.

(** * Bytes *)

Lemma umem_user s d a : is_user (a / PAGE_SIZE) -> umem s d a = (fun b => rd8 b (a mod PAGE_SIZE)) <$> upage s d (a / PAGE_SIZE).
Proof. intros Hv. unfold umem. by rewrite decide_True. Qed.
Lemma umem_upage s s' d : (forall v, is_user v -> upage s' d v = upage s d v) -> forall a, umem s' d a = umem s d a.
Proof. intros H a. unfold umem. destruct (decide _); [|done]. by rewrite H. Qed.

Section own.
Context {U : list Z} {s : pager} (Hu : user_ok U [] s).

(** The byte [a] is on a page the current task may write to. *)
Definition own_byte (s : pager) (a : Z) : Prop := is_user (a / PAGE_SIZE) /\ own_page s (pg_dir s) (a / PAGE_SIZE).

Lemma own_frame_run a : own_byte s a ->
  exists f, 0 < f < 2 ^ 20 /\ tabent s (pg_dir s) (a / PAGE_SIZE) = pte f PGF_UPAGE /\ page_frame (a / PAGE_SIZE) s = Ret f s /\
    upage s (pg_dir s) (a / PAGE_SIZE) = Some (frame s f).
Proof.
  intros (Hv & f & Hf & E). destruct upage_flags as (Hf1 & Hf2 & _). exists f. split; [done|]. split; [done|]. split.
  - rewrite (page_frame_run (uo_page _ _ _ Hu) _ (pte f PGF_UPAGE)); [by rewrite pte_frame_pte by lia| |done|by rewrite pte_present].
    split; [right; pose proof (user_table _ Hv); lia|]. apply tabent_some. rewrite E. intros Ez. by rewrite <- (pte_present f), Ez, has_zero in Hf2.
  - unfold upage. rewrite E. unfold page_of. by rewrite pte_present, Hf2, pte_frame_pte by lia.
Qed.
Lemma rd_own_run a : own_byte s a -> exists b, rd_byte a s = Ret b s /\ umem s (pg_dir s) a = Some b.
Proof.
  intros Ha. destruct (own_frame_run a Ha) as (f & _ & _ & Hr & Hp). exists (rd8 (frame s f) (a mod PAGE_SIZE)). split.
  - unfold rd_byte. by rewrite (bind_run _ _ _ _ _ Hr).
  - rewrite umem_user by apply Ha. by rewrite Hp.
Qed.
Lemma wr_own_byte a b :
  own_byte s a -> is_byte b ->
  wp (wr_byte a b)
    (fun _ s' => user_ok U [] s' /\ kept (upages (pg_dir s) (a / PAGE_SIZE) 1) s s' /\ (forall a', own_byte s a' -> own_byte s' a') /\ kside s' = kside s /\
       pg_dirs s' = pg_dirs s /\ forall a', umem s' (pg_dir s) a' = if decide (a' = a) then Some b else umem s (pg_dir s) a') (fun _ _ => False) s.
Proof.
  intros Ha Hb. destruct (own_frame_run a Ha) as (f & Hf & E & Hr & Hp). pose proof (proj1 Ha) as Hv. pose proof (uo_page _ _ _ Hu) as Hs.
  pose proof (to_mem _ (po_tabs _ _ _ Hs) f) as Hbo. unfold wr_byte. eapply wp_known; [exact Hr|]. apply wp_bind, wp_gets. unfold wr_frame, wp, modify.
  change (set_mem _ s) with (wr_data s f (wr8 (frame s f) (a mod PAGE_SIZE) b)).
  destruct (wr_own_ok U s (pg_dir s) (a / PAGE_SIZE) f (wr8 (frame s f) (a mod PAGE_SIZE) b) Hu Hv Hf E) as (Hu' & Hk & E' & Hp'); [by apply bytes_ok_wr8|].
  split; [done|]. split; [done|]. split; [|split; [done|split; [done|]]].
  - intros a' [Hv' (g & Hg & Eg)]. split; [done|]. exists g. split; [done|]. change (pg_dir (wr_data _ _ _)) with (pg_dir s).
    rewrite tabent_wr_data; [done| |right; pose proof (user_table _ Hv'); lia]. by apply (own_at U [] s (pg_dir s) (a / PAGE_SIZE)).
  - intros a'. unfold umem. assert (Hm : 0 <= a mod PAGE_SIZE < PAGE_SIZE /\ 0 <= a' mod PAGE_SIZE < PAGE_SIZE) by (split; apply Z.mod_pos_bound; done).
    destruct (decide (is_user (a' / PAGE_SIZE))) as [Hv'|Hv']; [|by rewrite decide_False by (intros ->; done)].
    destruct (decide (a' / PAGE_SIZE = a / PAGE_SIZE)) as [Ep|Ep].
    + rewrite Ep, Hp', Hp. cbn. destruct Hbo as [Hl _]. destruct (decide (a' = a)) as [->|Hne]; f_equal; [apply rd8_wr8; lia|].
      apply rd8_wr8_ne; [lia|lia|]. unfold PAGE_SIZE in *. Z.div_mod_to_equations; lia.
    + rewrite decide_False by congruence. f_equal. eapply upage_kept; [exact Hu|exact Hk|apply upages_only|done|]. intros (v & [= <-] & ?). lia.
Qed.
End own.

(** What the other tasks see, and the kernel's memory, stays. *)
Definition others_kept (s s' : pager) : Prop := pg_dir s' = pg_dir s /\ exists X, user_only X /\ (forall d v, X (UPg d v) -> d = pg_dir s) /\ kept X s s'.
Lemma others_upages s s' i n : kept (upages (pg_dir s) i n) s s' -> others_kept s s'.
Proof.
  intros Hk. split; [apply Hk|]. exists (upages (pg_dir s) i n). split; [apply upages_only|]. split; [|done]. by intros d v (v' & [= -> ->] & _).
Qed.
Lemma others_kept_trans s1 s2 s3 : others_kept s1 s2 -> others_kept s2 s3 -> others_kept s1 s3.
Proof.
  intros [C1 (X & X1 & X2 & X3)] [C2 (Y & Y1 & Y2 & Y3)]. split; [congruence|]. exists (fun pl => X pl \/ Y pl). split; [|split].
  - intros pl [?|?]; [by apply X1|by apply Y1].
  - intros d v [?%X2|H%Y2]; [done|]. by rewrite C1 in H.
  - eapply kept_trans; eapply kept_mono; [|exact X3| |exact Y3]; auto.
Qed.
Lemma others_umem U s s' d a : user_ok U [] s -> others_kept s s' -> d <> pg_dir s -> umem s' d a = umem s d a.
Proof.
  intros Hu [_ (X & X1 & X2 & X3)] Hd. apply umem_upage. intros v Hv. eapply upage_kept; [exact Hu|exact X3|done|done|]. by intros ?%X2.
Qed.

Lemma put_bytes_ok U s a l :
  user_ok U [] s -> (forall j, 0 <= j < Z.of_nat (length l) -> own_byte s (a + j)) -> is_bytes l ->
  wp (put_bytes a l)
    (fun _ s' => user_ok U [] s' /\ others_kept s s' /\ kside s' = kside s /\ pg_dirs s' = pg_dirs s /\
       forall a', umem s' (pg_dir s) a' = if decide (a <= a' < a + Z.of_nat (length l)) then l !! Z.to_nat (a' - a) else umem s (pg_dir s) a')
    (fun _ _ => False) s.
Proof.
  revert a s. induction l as [|b l IH]; intros a s Hu Ho Hb; cbn [put_bytes].
  { apply wp_ret. split; [done|]. split; [apply (others_upages s s 0 0), kept_refl|]. split; [done|]. split; [done|]. intros a'. by rewrite decide_False by (cbn; lia). }
  apply Forall_cons in Hb as [Hb Hl]. cbn [length] in *. eapply wp_seq; [apply (wr_own_byte Hu a b); [|done]| |done].
  { rewrite <- (Z.add_0_r a). apply Ho. lia. }
  intros [] s1 (Hu1 & Hk1 & Ho1 & Sd1 & D1 & Hm1). pose proof (kp_cur _ _ _ Hk1) as Hc.
  eapply wp_mono; [apply (IH (a + 1) s1 Hu1)| |done].
  - intros j Hj. apply Ho1. replace (a + 1 + j) with (a + (j + 1)) by lia. apply Ho. lia.
  - done.
  - intros [] s2 (Hu2 & Hk2 & Sd2 & D2 & Hm2). split; [done|]. split; [eapply others_kept_trans; [by eapply others_upages|done]|]. split; [congruence|]. split; [congruence|].
    intros a'. rewrite <- Hc, Hm2, Hc, Hm1. destruct (decide (a + 1 <= a' < a + 1 + Z.of_nat (length l))) as [Hin|Hout].
    + rewrite decide_True by lia. replace (Z.to_nat (a' - a)) with (S (Z.to_nat (a' - (a + 1)))) by lia. done.
    + destruct (decide (a' = a)) as [->|Hne]; [rewrite decide_True by lia; by rewrite Z.sub_diag|]. by rewrite decide_False by lia.
Qed.
Lemma get_bytes_ok U s n a :
  user_ok U [] s -> (forall j, 0 <= j < Z.of_nat n -> own_byte s (a + j)) ->
  exists l, get_bytes n a s = Ret l s /\ length l = n /\ forall j, 0 <= j < Z.of_nat n -> l !! Z.to_nat j = umem s (pg_dir s) (a + j).
Proof.
  intros Hu. revert a. induction n as [|n IH]; intros a Ho; cbn [get_bytes].
  { exists []. split; [done|]. split; [done|]. intros; lia. }
  destruct (rd_own_run Hu a) as (b & Hr & Hb); [rewrite <- (Z.add_0_r a); apply Ho; lia|].
  destruct (IH (a + 1)) as (l & Hl & Hn & Hj). { intros j Hj. replace (a + 1 + j) with (a + (j + 1)) by lia. apply Ho. lia. }
  exists (b :: l). rewrite (bind_run _ _ _ _ _ Hr), (bind_run _ _ _ _ _ Hl). split; [done|]. split; [by cbn; rewrite Hn|].
  intros j Hjr. destruct (decide (j = 0)) as [->|Hne]; [by rewrite Z.add_0_r|]. replace (Z.to_nat j) with (S (Z.to_nat (j - 1))) by lia.
  cbn. rewrite Hj by lia. f_equal. lia.
Qed.

(** * Copying *)

(** The bytes of the range that the task does not see. *)
Definition hole (s : pager) (a size : Z) : Prop := exists j, 0 <= j < size /\ umem s (pg_dir s) (a + j) = None.
(** How a copy fails: the task has no memory at some address of the range, or there
    is no frame left; what the tasks see is as before. *)
Definition copy_err (s : pager) (a size : Z) (e : Z) : Prop := e = EFAULT /\ hole s a size \/ e = ENOMEM.
Definition unseen (U : list Z) (s s' : pager) : Prop :=
  user_ok U [] s' /\ others_kept s s' /\ (forall d a, umem s' d a = umem s d a) /\ kern_same s s' /\ pg_dirs s' = pg_dirs s.

Lemma others_kern s s' : others_kept s s' -> kside s' = kside s -> kern_same s s'.
Proof. intros (_ & X & Hx & _ & Hk) [= E1 E2 _]. by eapply kept_kern. Qed.

Lemma range_page a size j : 0 <= a -> 0 <= j < size -> first_page a <= (a + j) / PAGE_SIZE < first_page a + page_count a size.
Proof. intros Ha Hj. unfold first_page, page_count, PAGE_SIZE. Z.div_mod_to_equations; lia. Qed.
Lemma range_byte a size v : 0 <= a -> 0 < size -> first_page a <= v < first_page a + page_count a size -> exists j, 0 <= j < size /\ (a + j) / PAGE_SIZE = v.
Proof.
  intros Ha Hs Hv. unfold first_page, page_count, PAGE_SIZE in *. exists (Z.max 0 (4096 * v - a)). split; Z.div_mod_to_equations; lia.
Qed.
Lemma view_unseen U i n s s' : same_view U i n s s' -> unseen U s s'.
Proof.
  intros Hv. pose proof (sv_side _ _ _ _ _ Hv) as [= E1 E2 E3]. split; [apply Hv|]. split; [eapply others_upages, Hv|]. split; [|split; [|apply Hv]].
  - intros d a. by eapply same_view_umem.
  - eapply kept_kern; [apply Hv|apply upages_only|done|done].
Qed.
Lemma segv_unseen U s : user_ok U [] s -> unseen U s (segv s).
Proof.
  intros Hu. split; [by apply user_ok_side|]. split; [|done]. eapply (others_upages _ _ 0 0), kept_side.
Qed.
Lemma hole_outside s a size : 0 <= a -> 0 < size -> ~ user_bytes a size -> hole s a size.
Proof.
  intros Ha Hs Hn. assert (Hlo : first_page a < PAGE_USER \/ PAGE_USER_END < first_page a + page_count a size) by (unfold user_bytes in Hn; lia). destruct Hlo as [Hlo|Hhi].
  - exists 0. split; [lia|]. unfold umem. rewrite decide_False; [done|]. rewrite Z.add_0_r. unfold is_user, first_page, PAGE_SIZE in *. lia.
  - exists (size - 1). split; [lia|]. unfold umem. rewrite decide_False; [done|]. replace (a + (size - 1)) with (a + size - 1) by lia. unfold is_user, first_page, page_count, PAGE_SIZE in *. lia.
Qed.

(** The range of a copy: [uga] with what it means for bytes. *)
Lemma access_ok U s a size :
  user_ok U [] s -> 0 <= a < 2 ^ 32 -> 0 <= size <= 2 ^ 32 - 4096 ->
  wp (uga a size)
    (fun _ s' => unseen U s s' /\ kside s' = kside s /\ (forall j, 0 <= j < size -> own_byte s' (a + j)) /\ forall j, 0 <= j < size -> is_Some (umem s (pg_dir s) (a + j)))
    (fun e s' => unseen U s s' /\ copy_err s a size e) s.
Proof.
  intros Hu Ha Hsz. destruct (decide (size = 0)) as [->|Hne].
  { unfold uga. cbn [Z.eqb]. apply wp_ret. split; [|split; [done|split; intros; lia]]. split; [done|]. split; [|done]. apply (others_upages _ _ 0 0), kept_refl. }
  eapply wp_mono; [apply (uga_ok U s a size Hu Ha); lia| |].
  - intros [] s' (Hr & Hv & Ho & Hall). pose proof (sv_cur _ _ _ _ _ Hv) as Hc. split; [by eapply view_unseen|]. split; [apply Hv|].
    assert (Hp : forall j, 0 <= j < size -> is_user ((a + j) / PAGE_SIZE)) by (intros j Hj; apply Ho, (range_page a size); lia). split.
    + intros j Hj. split; [by apply Hp|]. rewrite Hc. apply Ho, (range_page a size); lia.
    + intros j Hj. rewrite umem_user by (by apply Hp). apply fmap_is_Some, Hall, (range_page a size); lia.
  - intros e s' [(Hn & -> & ->)|(Hr & Hv & He)].
    + split; [by apply segv_unseen|]. left. split; [done|]. apply hole_outside; [lia|lia|done].
    + split; [by eapply view_unseen|]. destruct He as [[-> (v & Hvr & Hno)]| ->]; [left|by right]. split; [done|].
      destruct (range_byte a size v ltac:(lia) ltac:(lia) Hvr) as (j & Hj & <-). exists j. split; [done|]. unfold umem. destruct (decide _); [|done]. by rewrite Hno.
Qed.

Lemma tucpy_ok U s a src :
  user_ok U [] s -> 0 <= a < 2 ^ 32 -> Z.of_nat (length src) <= 2 ^ 32 - 4096 -> is_bytes src ->
  wp (tucpy a src)
    (fun _ s' => user_ok U [] s' /\ others_kept s s' /\ pg_dirs s' = pg_dirs s /\ kern_same s s' /\
       (forall j, 0 <= j < Z.of_nat (length src) -> is_Some (umem s (pg_dir s) (a + j))) /\
       forall a', umem s' (pg_dir s) a' = if decide (a <= a' < a + Z.of_nat (length src)) then src !! Z.to_nat (a' - a) else umem s (pg_dir s) a')
    (fun e s' => unseen U s s' /\ copy_err s a (Z.of_nat (length src)) e) s.
Proof.
  intros Hu Ha Hl Hb. unfold tucpy. eapply wp_seq; [apply (access_ok U s a _ Hu Ha); lia| |done].
  intros [] s1 ((Hu1 & Hk1 & Hm1 & L1 & D1) & Sd1 & Ho1 & Hall). pose proof (proj1 Hk1) as Hc. eapply wp_mono; [apply (put_bytes_ok U s1 a src Hu1 Ho1 Hb)| |done].
  intros [] s2 (Hu2 & Hk2 & Sd2 & D2 & Hm2). split; [done|]. split; [by eapply others_kept_trans|]. split; [congruence|].
  split; [by eapply kern_same_trans; [exact L1|eapply others_kern]|].
  split; [done|]. intros a'. rewrite <- Hc, Hm2. destruct (decide _); [done|]. by rewrite Hm1, Hc.
Qed.
Lemma fucpy_ok U s a size :
  user_ok U [] s -> 0 <= a < 2 ^ 32 -> 0 <= size <= 2 ^ 32 - 4096 ->
  wp (fucpy a size)
    (fun l s' => unseen U s s' /\ Z.of_nat (length l) = size /\ forall j, 0 <= j < size -> umem s (pg_dir s) (a + j) = l !! Z.to_nat j)
    (fun e s' => unseen U s s' /\ copy_err s a size e) s.
Proof.
  intros Hu Ha Hs. unfold fucpy. eapply wp_seq; [apply (access_ok U s a size Hu Ha Hs)| |done]. intros [] s1 (Hun & _ & Ho & _).
  pose proof Hun as (Hu1 & Hk1 & Hm1 & _). destruct (get_bytes_ok U s1 (Z.to_nat size) a Hu1) as (l & Hr & Hl & Hj). { intros j Hj. apply Ho. lia. }
  eapply wp_is; [exact Hr|]. split; [done|]. split; [lia|]. intros j Hjr. rewrite Hj by lia. by rewrite Hm1, (proj1 Hk1).
Qed.
Lemma uset_ok U s a v size :
  user_ok U [] s -> 0 <= a < 2 ^ 32 -> 0 <= size <= 2 ^ 32 - 4096 ->
  wp (uset a v size)
    (fun _ s' => user_ok U [] s' /\ others_kept s s' /\ kern_same s s' /\ forall a', umem s' (pg_dir s) a' = if decide (a <= a' < a + size) then Some (v mod 256) else umem s (pg_dir s) a')
    (fun e s' => unseen U s s' /\ copy_err s a size e) s.
Proof.
  intros Hu Ha Hs. unfold uset. eapply wp_seq; [apply (access_ok U s a size Hu Ha Hs)| |done].
  intros [] s1 ((Hu1 & Hk1 & Hm1 & L1 & _) & Sd1 & Ho1 & Hall). pose proof (proj1 Hk1) as Hc.
  eapply wp_mono; [apply (put_bytes_ok U s1 a (replicate (Z.to_nat size) (v mod 256)) Hu1)| |done].
  - rewrite length_replicate, Z2Nat.id by lia. done.
  - apply Forall_replicate. unfold is_byte. pose proof (Z.mod_pos_bound v 256). lia.
  - intros [] s2 (Hu2 & Hk2 & Sd2 & _ & Hm2). split; [done|]. split; [by eapply others_kept_trans|].
    split; [by eapply kern_same_trans; [exact L1|eapply others_kern]|]. intros a'. rewrite <- Hc, Hm2, length_replicate, Z2Nat.id by lia.
    destruct (decide _); [|by rewrite Hm1, Hc]. apply lookup_replicate. split; [done|]. lia.
Qed.
