(* ===== verification/PageSpace.v ===== *)
(** Address spaces: allocating pages ([u_alloc]), and giving everything back
    ([uclean]). *)

From S2P Require Import Prelude PageFrames PageFramesOk Page PageOk PageKern PageUser PageUserOk PageUmem.

(** * Allocation *)

Lemma zeros_page : bytes_ok PAGE_SIZE (zeros PAGE_SIZE).
Proof. by apply bytes_ok_zeros. Qed.

(** A table for user pages is added to directory [d]. *)
Lemma add_utab U s d t m :
  user_ok U [] s -> is_Some (pg_dirs s !! d) -> 256 <= t < 1024 -> dirent s d t = 0 -> 0 < m < 2 ^ 20 ->
  forall fr', page_ok U [m] (set_fr fr' s) ->
  let s' := add_tab (set_fr fr' s) d t (pte m PGF_UPAGE) in
  user_ok U [] s' /\ kept nothing s s' /\ dirent s' d t = pte m PGF_UPAGE /\ (forall d' t', 0 <= t' -> (d', t') <> (d, t) -> dirent s' d' t' = dirent s d' t').
Proof.
  intros Hu Hd Ht H0 Hm fr' Hs1 s'. destruct upage_flags as (Hf1 & Hf2 & _).
  assert (Hs' : page_ok U [] s') by (apply page_ok_add_tab; (done || lia)).
  assert (Hk : kept nothing s s') by (eapply kept_trans; [apply (kept_fr _ _ fr')|]; apply (kept_add_tab U []); (done || lia)).
  assert (Hdi : forall d' t', 0 <= t' -> dirent s' d' t' = if decide (t' = t /\ shares d d' t /\ is_Some (pg_dirs s !! d')) then pte m PGF_UPAGE else dirent s d' t').
  { intros d' t' Ht'. unfold s'. by rewrite (dirent_add Hs1) by (apply pte_range || lia). }
  split; [|split; [done|split]].
  - apply (user_ok_kept U [] [] nothing s); [done|done|done|by intros ? []|by intros ? ? ? []| |by right; intros []].
    intros d' t' Ht' E0. rewrite Hdi by lia. destruct (decide _); [right; by exists m|by left].
  - rewrite Hdi, decide_True by (lia || (split; [done|]; split; [by left|done])). done.
  - intros d' t' Ht' Hne. rewrite Hdi, decide_False; [done| |done]. intros (-> & [->|?] & _); [done|lia].
Qed.

(** New tables are not seen. *)
Lemma kept_nothing_view U s s' : user_ok U [] s -> user_ok U [] s' -> kept nothing s s' -> forall d v, is_user v -> upage s' d v = upage s d v.
Proof. intros Hu Hu' Hk d v Hv. eapply upage_kept; [exact Hu|exact Hk|by intros ? []|done|by intros []]. Qed.

Definition grown (U : list Z) (s s' : pager) : Prop := user_ok U [] s' /\ kept nothing s s' /\ kside s' = kside s.
Lemma grown_trans U s1 s2 s3 : grown U s1 s2 -> grown U s2 s3 -> grown U s1 s3.
Proof. intros (A1 & A2 & A3) (B1 & B2 & B3). split; [done|]. split; [by eapply kept_trans|congruence]. Qed.
Lemma grown_refl U s : user_ok U [] s -> grown U s s.
Proof. intros Hu. split; [done|]. split; [apply kept_refl|done]. Qed.

Lemma wr_dir_new_run s t e : 256 <= t -> wr_dir t e s = Ret tt (set_dirs (put_dir s (pg_dir s) t e) s).
Proof. intros Ht. unfold wr_dir, modify, put_dir. by rewrite (proj2 (Z.ltb_ge _ _)) by lia. Qed.
(** A table for the current task. *)
Lemma cur_utab_ok U s t m fr' :
  user_ok U [] s -> 256 <= t < 1024 -> dirent s (pg_dir s) t = 0 -> 0 < m < 2 ^ 20 -> page_ok U [m] (set_fr fr' s) ->
  let s' := add_tab (set_fr fr' s) (pg_dir s) t (pte m PGF_UPAGE) in grown U s s' /\ has_tab s' (pg_dir s) t.
Proof.
  intros Hu Ht E0 Hm Hs1 s'. pose proof (uo_page _ _ _ Hu) as Hs. destruct upage_flags as (Hf1 & Hf2 & _).
  destruct (add_utab U s (pg_dir s) t m Hu (to_cur _ (po_tabs _ _ _ Hs)) ltac:(lia) E0 Hm fr' Hs1) as (Hu2 & Hk2 & Hd2 & _).
  split; [done|]. split; [right; lia|]. unfold s'. rewrite Hd2. intros Ez. rewrite <- (pte_present m), Ez, has_zero in Hf2. done.
Qed.

Lemma ualloc_tables_ok U n t s :
  user_ok U [] s -> 256 <= t -> t + Z.of_nat n <= 1024 ->
  wp (ualloc_tables n t)
    (fun _ s' => grown U s s' /\ forall t', t <= t' < t + Z.of_nat n -> has_tab s' (pg_dir s) t')
    (fun e s' => e = ENOMEM /\ grown U s s') s.
Proof.
  revert t s. induction n as [|n IH]; intros t s Hu Ht Hn; cbn [ualloc_tables].
  { apply wp_ret. split; [by apply grown_refl|]. intros; lia. }
  pose proof (uo_page _ _ _ Hu) as Hs.
  assert (Hnext : forall s1, grown U s s1 -> has_tab s1 (pg_dir s) t ->
    wp (ualloc_tables n (t + 1)) (fun _ s' => grown U s s' /\ forall t', t <= t' < t + Z.of_nat (S n) -> has_tab s' (pg_dir s) t') (fun e s' => e = ENOMEM /\ grown U s s') s1).
  { intros s1 Hg1 Ht1. pose proof Hg1 as (Hu1 & Hk1 & _). eapply wp_mono; [apply (IH (t + 1) s1 Hu1); lia| |].
    - intros [] s2 [Hg2 Ht2]. rewrite (kp_cur _ _ _ Hk1) in Ht2. split; [by eapply grown_trans|]. intros t' Ht'.
      destruct (decide (t' = t)) as [->|]; [eapply kept_tab; [apply Hg2|done]|apply Ht2; lia].
    - intros e s2 [-> Hg2]. split; [done|]. by eapply grown_trans. }
  eapply wp_known; [apply (rd_dir_run Hs); lia|]. apply wp_bind. destruct (Z.eqb_spec (dirent s (pg_dir s) t) 0) as [E0|E0].
  - eapply wp_seq; [by apply alloc_ok| |intros e s' (-> & -> & _); split; [done|by apply grown_refl]]. intros m s1 (fr' & -> & Hs1 & Hm & _).
    destruct (cur_utab_ok U s t m fr' Hu ltac:(lia) E0 Hm Hs1) as [(Hu2 & Hk2 & Sd2) Ht2]. eapply wp_known; [apply wr_dir_new_run; lia|].
    eapply wp_known; [apply (zero_new_tab U _ _ t _ Hs1); [lia|by rewrite pte_present]|]. unfold count_up, wp, modify. apply Hnext; [|exact Ht2].
    split; [by apply user_ok_side|]. split; [eapply kept_trans; [exact Hk2|apply kept_side]|done].
  - apply wp_ret. apply Hnext; [by apply grown_refl|]. split; [right; lia|done].
Qed.

(** Pages without an entry become pages to come. *)
Lemma ualloc_pages_ok U n i s :
  user_ok U [] s -> PAGE_USER <= i -> i + Z.of_nat n <= PAGE_USER_END -> (forall v, i <= v < i + Z.of_nat n -> has_tab s (pg_dir s) (v / 1024)) ->
  wp (ualloc_pages n i)
    (fun _ s' => user_ok U [] s' /\ kept (upages (pg_dir s) i (Z.of_nat n)) s s' /\ kside s' = kside s /\
       forall v, is_user v -> upage s' (pg_dir s) v = if decide (i <= v < i + Z.of_nat n /\ upage s (pg_dir s) v = None) then Some (zeros PAGE_SIZE) else upage s (pg_dir s) v)
    (fun _ _ => False) s.
Proof.
  revert i s. induction n as [|n IH]; intros i s Hu Hi He Ht; cbn [ualloc_pages].
  { apply wp_ret. split; [done|]. split; [apply kept_refl|]. split; [done|]. intros v _. by rewrite decide_False by lia. }
  assert (Hv : is_user i) by (unfold is_user; lia). pose proof (uo_page _ _ _ Hu) as Hs. pose proof (Ht i ltac:(lia)) as Ht0.
  eapply wp_known; [by apply (rd_tab_run Hs)|]. apply wp_bind.
  assert (Hstep : wp (if tabent s (pg_dir s) i =? 0 then wr_tab i PGF_AUTO else ret tt)
    (fun _ s1 => user_ok U [] s1 /\ kept (upages (pg_dir s) i 1) s s1 /\ kside s1 = kside s /\
       upage s1 (pg_dir s) i = Some (default (zeros PAGE_SIZE) (upage s (pg_dir s) i))) (fun _ _ => False) s).
  { destruct (Z.eqb_spec (tabent s (pg_dir s) i) 0) as [E0|E0].
    - eapply wp_is; [by apply (wr_tab_run Hs)|].
      destruct (wr_uent_ok U s s (pg_dir s) i PGF_AUTO Hu Hv) as (H1 & H2 & H3 & _); try done; [by rewrite E0|constructor|].
      split; [done|]. split; [done|]. split; [done|]. unfold upage. by rewrite H3, E0.
    - apply wp_ret. split; [done|]. split; [apply kept_refl|]. split; [done|]. unfold upage. pose proof (uo_form _ _ _ Hu (pg_dir s) i Hv) as Hf.
      destruct upage_flags as (_ & Hf2 & _). destruct cpage_flags as (_ & Hg2 & _). unfold page_of.
      destruct Hf as [| |f Hf|f w Hf Ha]; [done|done|by rewrite pte_present, Hf2|by rewrite pte_present, Hg2]. }
  eapply wp_mono; [exact Hstep| |done]. intros [] s1 (Hu1 & Hk1 & Sd1 & Hp1). pose proof (kp_cur _ _ _ Hk1) as Hc.
  eapply wp_mono; [apply (IH (i + 1) s1 Hu1); [lia|lia|]| |done].
  { intros v Hvr. rewrite Hc. eapply kept_tab; [exact Hk1|]. apply Ht. lia. }
  intros [] s2 (Hu2 & Hk2 & Sd2 & Hp2). rewrite Hc in Hk2, Hp2. split; [done|]. split; [|split; [congruence|]].
  - eapply kept_trans; eapply kept_mono; [apply upages_head|exact Hk1|apply upages_tail|exact Hk2].
  - intros v Hvr. rewrite Hp2 by done. assert (Hother : v <> i -> upage s1 (pg_dir s) v = upage s (pg_dir s) v).
    { intros Hne. eapply upage_kept; [exact Hu|exact Hk1|apply upages_only|done|]. intros (v' & [= <-] & ?). lia. }
    destruct (decide (v = i)) as [->|Hne].
    + rewrite decide_False by lia. rewrite Hp1. destruct (upage s (pg_dir s) i); cbn; [by rewrite decide_False by naive_solver|by rewrite decide_True by (split; [lia|done])].
    + rewrite (Hother Hne). destruct (decide (_ /\ _)) as [[? ?]|Hn]; [by rewrite decide_True by (split; [lia|done])|]. rewrite decide_False; [done|]. intros [? ?]. apply Hn. split; [lia|done].
Qed.

Lemma user_range_spec a b : user_range a b = true <-> PAGE_USER <= a /\ a < b <= PAGE_USER_END.
Proof. unfold user_range. rewrite !andb_true_iff, !Z.ltb_lt, !Z.leb_le. unfold PAGE_USER, PAGE_USER_END. lia. Qed.

Lemma u_alloc_ok U s a b :
  user_ok U [] s ->
  wp (u_alloc a b)
    (fun _ s' => user_ok U [] s' /\ others_kept s s' /\ PAGE_USER <= a /\ a < b <= PAGE_USER_END /\ kern_same s s' /\
       forall x, umem s' (pg_dir s) x = if decide (a <= x / PAGE_SIZE < b /\ umem s (pg_dir s) x = None) then Some 0 else umem s (pg_dir s) x)
    (fun e s' => (user_ok U [] s' /\ others_kept s s' /\ kern_same s s' /\ forall d x, umem s' d x = umem s d x) /\
       (e = EFAULT /\ ~ (PAGE_USER <= a /\ a < b <= PAGE_USER_END) \/ e = ENOMEM)) s.
Proof.
  intros Hu. unfold u_alloc. destruct (user_range a b) eqn:Er; cbn [negb].
  2: { unfold fault_exit, signal_raise, wp, bind, modify, fail. destruct (segv_unseen U s Hu) as (? & ? & ? & ? & _). split; [done|]. left. split; [done|]. rewrite <- user_range_spec. by rewrite Er. }
  apply user_range_spec in Er as [Ha Hb]. unfold PAGE_USER, PAGE_USER_END in Ha, Hb.
  assert (Hothers : forall s1, kept nothing s s1 -> others_kept s s1) by (intros s1 Hk; apply (others_upages s s1 0 0); eapply kept_mono; [|exact Hk]; by intros ? []).
  eapply wp_seq; [apply (ualloc_tables_ok U _ (a / 1024) s Hu); Z.div_mod_to_equations; lia| |].
  2: { intros e s' [-> (Hu' & Hk & Sd)]. split; [|by right]. split; [done|]. split; [by apply Hothers|]. split; [by eapply others_kern; [apply Hothers|]|]. intros d x. apply umem_upage. by apply (kept_nothing_view U). }
  intros [] s1 [(Hu1 & Hk1 & Sd1) Ht1]. pose proof (kp_cur _ _ _ Hk1) as Hc.
  eapply wp_mono; [apply (ualloc_pages_ok U (Z.to_nat (b - a)) a s1 Hu1); unfold PAGE_USER, PAGE_USER_END; try lia| |done].
  { intros v Hv. rewrite Hc. apply Ht1. Z.div_mod_to_equations; lia. }
  rewrite Z2Nat.id by lia. intros [] s2 (Hu2 & Hk2 & Sd2 & Hp2). rewrite Hc in Hp2. split; [done|].
  assert (Hall : others_kept s s2) by (eapply others_kept_trans; [by apply Hothers|by eapply others_upages]). split; [done|]. unfold PAGE_USER, PAGE_USER_END. split; [lia|]. split; [lia|]. split; [apply others_kern; [done|congruence]|].
  intros x. unfold umem. destruct (decide (is_user (x / PAGE_SIZE))) as [Hx|Hx].
  2: { rewrite decide_False; [done|]. intros [? _]. apply Hx. unfold is_user, PAGE_USER, PAGE_USER_END. lia. }
  rewrite Hp2 by done. rewrite (kept_nothing_view U s s1 Hu Hu1 Hk1) by done. destruct (upage s (pg_dir s) (x / PAGE_SIZE)) eqn:Ep.
  - rewrite !decide_False by naive_solver. done.
  - destruct (decide (a <= x / PAGE_SIZE < a + (b - a) /\ _)) as [[? _]|Hn]; [rewrite decide_True by (split; [lia|done]); cbn; by rewrite rd8_zeros|].
    rewrite decide_False; [done|]. intros [? _]. apply Hn. split; [lia|done].
Qed.

(** * The image of the loader *)

Lemma pg_altab_ok U s p :
  user_ok U [] s -> is_user p ->
  wp (pg_altab p PGF_UPAGE) (fun _ s' => grown U s s' /\ has_tab s' (pg_dir s) (p / 1024)) (fun e s' => e = ENOMEM /\ s' = s) s.
Proof.
  intros Hu Hp. pose proof (uo_page _ _ _ Hu) as Hs. pose proof (user_table p Hp) as Ht. unfold pg_altab. eapply wp_known; [apply (rd_dir_run Hs); lia|].
  destruct (Z.eqb_spec (dirent s (pg_dir s) (p / 1024)) 0) as [E0|E0]; [|apply wp_ret; split; [by apply grown_refl|split; [right; lia|done]]].
  change (PGF_UPAGE =? 0) with false. eapply wp_seq; [by apply alloc_ok| |by intros e s' (-> & -> & _)]. intros m s1 (fr' & -> & Hs1 & Hm & _).
  eapply wp_known; [apply wr_dir_new_run; lia|]. eapply wp_is; [apply (zero_new_tab U _ _ _ _ Hs1); [lia|destruct upage_flags as (_ & Hf2 & _); by rewrite pte_present]|].
  exact (cur_utab_ok U s _ m fr' Hu Ht E0 Hm Hs1).
Qed.

(** Pages of the current task become pages to be copied on write from pages of the
    kernel. *)
Lemma ldr_cow_ok U n u l s :
  user_ok U [] s -> PAGE_USER <= u -> u + Z.of_nat n <= PAGE_USER_END -> in_dyn l (Z.of_nat n) -> mapped s l (Z.of_nat n) ->
  (forall v, u <= v < u + Z.of_nat n -> owned (UPg (pg_dir s) v) (tabent s (pg_dir s) v) = []) ->
  wp (ldr_cow n u l)
    (fun _ s' => user_ok U [] s' /\ kept (upages (pg_dir s) u (Z.of_nat n)) s s' /\ kside s' = kside s /\
       forall v, u <= v < u + Z.of_nat n -> upage s' (pg_dir s) v = Some (frame s (pte_frame (kent s (l + (v - u))))))
    (fun e s' => e = ENOMEM /\ user_ok U [] s' /\ kept (upages (pg_dir s) u (Z.of_nat n)) s s' /\ kside s' = kside s) s.
Proof.
  revert u l s. induction n as [|n IH]; intros u l s Hu H1 H2 Hd Hm Ho; cbn [ldr_cow].
  { apply wp_ret. split; [done|]. split; [apply kept_refl|]. split; [done|]. intros; lia. }
  assert (Hv : is_user u) by (unfold is_user; lia). eapply wp_seq; [by apply (pg_altab_ok U s u)| |].
  2: { intros e s' [-> ->]. split; [done|]. split; [done|]. split; [apply kept_refl|done]. }
  intros [] s1 [(Hu1 & Hk1 & Sd1) Ht1]. pose proof (kp_cur _ _ _ Hk1) as Hc1. assert (Hld : PAGE_DYN <= l < PAGE_USER) by (unfold in_dyn in Hd; lia).
  destruct (Hm l ltac:(lia)) as (Htl & f & Hf & El). assert (El1 : kent s1 l = pte f PGF_KERN) by (by rewrite (kept_kent _ _ _ _ Hk1) by (done || by intros [])).
  eapply wp_known; [apply (rd_tab_run (uo_page _ _ _ Hu1)); rewrite Hc1; eapply kept_tab; [exact Hk1|exact Htl]|]. fold (kent s1 l). rewrite El1. destruct kern_flags as (Hfl & _).
  rewrite pte_frame_pte by lia. fold PGF_CPAGE. eapply wp_known; [apply (wr_tab_run (uo_page _ _ _ Hu1)); by rewrite Hc1|]. rewrite Hc1.
  assert (Hat : forall s', kent s' l = pte f PGF_KERN -> at_place s' (KPg l) f).
  { intros s' E. apply at_place_owned. split; [done|]. cbn [entry]. fold (kent s' l). rewrite E, kern_owned by done. left. }
  assert (Hnone : owned (UPg (pg_dir s) u) (tabent s1 (pg_dir s) u) = []) by (rewrite (kept_uent _ _ _ _ _ Hk1 Hv) by (by intros []); apply Ho; lia).
  pose proof (wr_uent_ok U s1 s1 (pg_dir s) u (pte f PGF_CPAGE) Hu1 Hv) as Hw. rewrite cow_owned in Hw.
  destruct (Hw (uo_page _ _ _ Hu1) (kept_refl _ _) eq_refl Ht1 Hnone (pte_range _ _) (UCow _ f l Hf (Hat s1 El1))) as (Hu2 & Hk2 & He2 & _).
  set (s2 := wr_ent s1 (pg_dir s) u (pte f PGF_CPAGE)) in *.
  assert (Hk : kept (upages (pg_dir s) u 1) s s2) by (eapply kept_trans; [eapply kept_mono; [|exact Hk1]; by intros ? []|exact Hk2]).
  assert (Hc2 : pg_dir s2 = pg_dir s) by apply Hk. assert (Hnk : forall v, ~ upages (pg_dir s) u 1 (KPg v)) by (by intros v (? & ? & _)).
  assert (Hkf : forall v, l <= v < l + Z.of_nat (S n) -> kent s2 v = kent s v /\ frame s2 (pte_frame (kent s v)) = frame s (pte_frame (kent s v))).
  { intros v Hvr. assert (Hvd : PAGE_DYN <= v < PAGE_USER) by (unfold in_dyn in Hd; lia). split; [by apply (kept_kent _ _ _ _ Hk)|].
    destruct (Hm v Hvr) as (_ & g & Hg & Eg). apply (kp_data _ _ _ Hk (KPg v)); [done|done|done|]. cbn [entry]. fold (kent s v). rewrite Eg, kern_owned, pte_frame_pte by lia. left. }
  assert (Hmono : forall s3, kept (upages (pg_dir s) (u + 1) (Z.of_nat n)) s2 s3 -> kept (upages (pg_dir s) u (Z.of_nat (S n))) s s3).
  { intros s3 Hk3. eapply kept_trans; eapply kept_mono; [|exact Hk| |exact Hk3]; intros pl (v & -> & Hvr); exists v; (split; [done|lia]). }
  assert (Sd2 : kside s2 = kside s) by done.
  eapply wp_mono; [apply (IH (u + 1) (l + 1) s2 Hu2); rewrite ?Hc2; try lia| |].
  - unfold in_dyn in *. lia.
  - intros v Hvr. destruct (Hm v ltac:(lia)) as (Htv & g & Hg & Eg). split; [by eapply kept_ktab|]. exists g. split; [done|]. by rewrite (proj1 (Hkf v ltac:(lia))).
  - intros v Hvr. rewrite (kept_uent _ _ _ _ _ Hk) by (unfold is_user; lia || (intros (v' & [= <-] & ?); lia)). apply Ho. lia.
  - intros [] s3 (Hu3 & Hk3 & Sd3 & Hp3). rewrite Hc2 in Hk3, Hp3. split; [done|]. split; [by apply Hmono|]. split; [congruence|]. intros v Hvr.
    destruct (decide (v = u)) as [->|Hne].
    + rewrite Z.sub_diag, Z.add_0_r. rewrite (upage_kept U [] _ s2 s3 _ _ Hu2 Hk3 (upages_only _ _ _) Hv) by (intros (v' & [= <-] & ?); lia).
      destruct (Hkf l ltac:(lia)) as [_ Ef]. rewrite El, pte_frame_pte in * by lia. destruct cpage_flags as (Hcf & Hg2 & _).
      unfold upage. rewrite He2. unfold page_of. by rewrite pte_present, Hg2, pte_frame_pte, Ef by lia.
    + rewrite Hp3 by lia. destruct (Hkf (l + (v - u)) ltac:(lia)) as [E1 E2]. replace (l + 1 + (v - (u + 1))) with (l + (v - u)) by lia. by rewrite E1, E2.
  - intros e s3 (-> & Hu3 & Hk3 & Sd3). rewrite Hc2 in Hk3. split; [done|]. split; [done|]. split; [by apply Hmono|congruence].
Qed.
