(* ===== verification/PageClean.v ===== *)
(** [uclean]: everything a task had is given back, and nothing else changes. *)

From S2P Require Import Prelude PageFrames PageFramesOk Page PageOk PageKern PageUser PageUserOk PageUmem.

(** The places of the user part of directory [d]. *)
Definition of_user (d : nat) (pl : place) : bool := match pl with UTab d' _ | UPg d' _ => bool_decide (d' = d) | _ => false end.
(** Frames of pages below [i] and of tables below [t] that have been freed. *)
Definition freed_page (s : pager) (i f : Z) : Prop := exists v, PAGE_USER <= v < i /\ at_place s (UPg (pg_dir s) v) f.
Definition freed_tab (s : pager) (t f : Z) : Prop := exists t', 256 <= t' < t /\ at_place s (UTab (pg_dir s) t') f.
Definition freed (s : pager) (i t : Z) (fr' : frames) (U : list Z) : Prop :=
  fr_ok U fr' /\ forall f, free_frame fr' f <-> free_frame (pg_fr s) f \/ freed_page s i f \/ freed_tab s t f.

Section clean.
Context {U : list Z} {s : pager} (Hu : user_ok U [] s).
Let Hs : page_ok U [] s := uo_page _ _ _ Hu.

Lemma chk_dir_run n t : 256 <= t -> t + Z.of_nat n <= 1024 -> chk_dir n t s = Ret tt s.
Proof.
  revert t. induction n as [|n IH]; intros t Ht Hn; [done|]. cbn [chk_dir]. erewrite bind_run by (apply (rd_dir_run Hs); lia). destruct upage_flags as (Hf1 & _).
  destruct (uo_tab _ _ _ Hu (pg_dir s) t ltac:(lia)) as [->|(f & Hf & ->)].
  - rewrite has_zero. apply IH; lia.
  - rewrite pte_frame_pte by lia. rewrite (proj2 (Z.eqb_neq _ _)) by lia. rewrite andb_false_r. apply IH; lia.
Qed.

Lemma no_table_entry v : dirent s (pg_dir s) (v / 1024) = 0 -> tabent s (pg_dir s) v = 0.
Proof. intros E. unfold tabent. by rewrite E. Qed.
Lemma upg_at v f : at_place s (UPg (pg_dir s) v) f -> tabent s (pg_dir s) v = pte f PGF_UPAGE /\ 0 < f < 2 ^ 20.
Proof.
  intros [Hv Hf]%at_place_owned. cbn [entry] in Hf. destruct (uo_form _ _ _ Hu (pg_dir s) v Hv) as [| |g Hg|g w Hg _].
  - by apply not_elem_of_nil in Hf.
  - by apply not_elem_of_nil in Hf.
  - rewrite own_owned in Hf by done. by apply list_elem_of_singleton in Hf as ->.
  - rewrite cow_owned in Hf. by apply not_elem_of_nil in Hf.
Qed.

(** Nothing is freed twice. *)
Lemma free_next fr' i t f pl :
  freed s i t fr' U -> at_place s pl f -> (forall v, pl = UPg (pg_dir s) v -> i <= v) -> (forall t', pl = UTab (pg_dir s) t' -> t <= t') -> f ∈ U /\ ~ free_frame fr' f.
Proof.
  intros [_ Hfr] Ha H1 H2. destruct (po_own _ _ _ Hs _ _ Ha) as (Hin & Hn & _). split; [done|].
  intros [?|[(v & Hv & Ha')|(t' & Ht' & Ha')]]%Hfr; [done| |]; pose proof (po_inj _ _ _ Hs _ _ _ Ha Ha') as ->; [specialize (H1 v eq_refl)|specialize (H2 t' eq_refl)]; lia.
Qed.

Lemma uclean_pages_ok fuel i fr' :
  PAGE_USER <= i -> PAGE_USER_END - i <= Z.of_nat fuel -> freed s i 256 fr' U ->
  wp (uclean_pages fuel i) (fun _ s' => exists fr'', s' = set_fr fr'' s /\ freed s PAGE_USER_END 256 fr'' U) (fun _ _ => False) (set_fr fr' s).
Proof.
  revert i fr'. induction fuel as [|fuel IH]; intros i fr' Hi Hfu Hfr; cbn [uclean_pages].
  all: destruct (Z.leb_spec PAGE_USER_END i) as [Hend|Hend].
  1, 3: apply wp_ret; exists fr'; split; [done|]; destruct Hfr as [H1 H2]; split; [done|]; intros f; rewrite H2; unfold freed_page;
    split; (intros [?|[(v & Hv & Ha)|?]]; [tauto| |tauto]); right; left; exists v; (split; [|done]); pose proof (proj1 Ha) as Hv'; cbn in Hv'; lia.
  1: lia.
  assert (Hv : is_user i) by (unfold is_user; lia). pose proof (user_table i Hv) as Htr.
  eapply wp_known; [apply (run_no_fr _ fr' s), (rd_dir_run Hs); [apply no_fr_rd_dir|lia]|].
  assert (Hskip : forall j, i < j -> (forall v f, i <= v < j -> ~ at_place s (UPg (pg_dir s) v) f) -> freed s j 256 fr' U).
  { intros j Hj Hno. destruct Hfr as [H1 H2]. split; [done|]. intros f. rewrite H2. unfold freed_page.
    split; (intros [?|[(v & Hvr & Ha)|?]]; [tauto| |tauto]); right; left; exists v; (split; [|done]); [lia|].
    destruct (decide (v < i)); [lia|]. exfalso. apply (Hno v f); [lia|done]. }
  destruct (Z.eqb_spec (dirent s (pg_dir s) (i / 1024)) 0) as [E0|E0].
  { apply IH; [Z.div_mod_to_equations; lia|Z.div_mod_to_equations; lia|]. apply Hskip; [Z.div_mod_to_equations; lia|]. intros v f Hvr Ha.
    apply upg_at in Ha as [Ee Hf]. rewrite no_table_entry in Ee by (replace (v / 1024) with (i / 1024) by (Z.div_mod_to_equations; lia); done).
    destruct upage_flags as (_ & Hf2 & _). by rewrite <- (pte_present f), <- Ee, has_zero in Hf2. }
  eapply wp_known; [apply (run_no_fr _ fr' s), (rd_tab_run Hs); [apply no_fr_rd_tab|split; [right; lia|done]]|].
  assert (Hnone : owned (UPg (pg_dir s) i) (tabent s (pg_dir s) i) = [] -> freed s (i + 1) 256 fr' U).
  { intros Hno. apply Hskip; [lia|]. intros v f Hvr [_ Ha]%at_place_owned. cbn [entry] in Ha. replace v with i in Ha by lia. rewrite Hno in Ha. by apply not_elem_of_nil in Ha. }
  destruct upage_flags as (Hf1 & Hf2 & Hf3 & _). destruct cpage_flags as (_ & _ & Hg3).
  pose proof (uo_form _ _ _ Hu (pg_dir s) i Hv) as Hform. remember (tabent s (pg_dir s) i) as e eqn:Ee. destruct Hform as [| |f Hf|f w Hf Ha].
  - rewrite !has_zero. apply IH; [lia|lia|]. by apply Hnone.
  - change (has PGF_AUTO PGF_COW) with false. change (has PGF_AUTO PGF_PRESENT) with false. cbv iota. apply IH; [lia|lia|]. by apply Hnone.
  - rewrite pte_cow, Hf3, pte_present, Hf2, pte_frame_pte by lia. rewrite (proj2 (Z.eqb_neq _ _)) by lia. cbv iota.
    assert (Ha : at_place s (UPg (pg_dir s) i) f) by (apply at_place_owned; split; [done|]; cbn [entry]; rewrite <- Ee, own_owned by done; left).
    destruct (free_next fr' i 256 f _ Hfr Ha) as [Hin Hn]; [intros v [= ->]; lia|done|]. destruct Hfr as [H1 H2].
    apply wp_bind, wp_zoom. eapply wp_mono; [by apply (pg_free_ok U f)| |done]. intros [] fr2 (Hfr2 & Hb & _). cbn [pg_fr set_fr] in Hb |- *.
    apply (IH (i + 1) fr2); [lia|lia|]. split; [done|]. intros g. rewrite (Hb g), H2. unfold freed_page. split.
    + intros [[?|[(v & Hvr & Hav)|?]]| <-]; [tauto|right; left; exists v; split; [lia|done]|tauto|right; left; exists i; split; [lia|done]].
    + intros [?|[(v & Hvr & Hav)|?]]; [tauto| |tauto]. destruct (decide (v = i)) as [->|]; [|left; right; left; exists v; split; [lia|done]].
      right. apply upg_at in Ha as [E1 ?], Hav as [E2 ?]. rewrite E1 in E2. rewrite <- (pte_frame_pte f PGF_UPAGE), E2, pte_frame_pte by lia. done.
  - rewrite pte_cow, Hg3. apply IH; [lia|lia|]. apply Hnone, cow_owned.
Qed.

(** ** The tables *)

(** Tables below [t] have been taken out of the current directory. *)
Record cleared (t : Z) (s' : pager) : Prop := Cleared {
  cl_mem : pg_mem s' = pg_mem s;
  cl_cur : pg_dir s' = pg_dir s;
  cl_side : kside s' = kside s;
  cl_other : forall d, d <> pg_dir s -> pg_dirs s' !! d = pg_dirs s !! d;
  cl_dir : exists l l', pg_dirs s !! pg_dir s = Some l /\ pg_dirs s' !! pg_dir s = Some l' /\ length l' = 1024%nat /\
    forall k : nat, (k < 1024)%nat -> l' !! k = if decide (256 <= Z.of_nat k < t) then Some 0 else l !! k
}.
Lemma cleared_dirent t s' d t' : cleared t s' -> 0 <= t' < 1024 -> dirent s' d t' = if decide (d = pg_dir s /\ 256 <= t' < t) then 0 else dirent s d t'.
Proof.
  intros Hc Ht. unfold dirent. destruct (decide (d = pg_dir s)) as [->|Hne].
  - destruct (cl_dir _ _ Hc) as (l & l' & -> & -> & _ & Hl). rewrite Hl by lia. destruct (decide (256 <= Z.of_nat (Z.to_nat t') < t)) as [Hin|Hout].
    + rewrite decide_True by (split; [done|lia]). done.
    + rewrite decide_False by lia. done.
  - rewrite (cl_other _ _ Hc) by done. rewrite decide_False by tauto. done.
Qed.

Lemma uclean_tables_ok n t s' fr' :
  256 <= t -> t + Z.of_nat n = 1024 -> cleared t s' -> pg_fr s' = fr' -> freed s PAGE_USER_END t fr' U ->
  wp (uclean_tables n t) (fun _ s2 => cleared 1024 s2 /\ freed s PAGE_USER_END 1024 (pg_fr s2) U) (fun _ _ => False) s'.
Proof.
  revert t s' fr'. induction n as [|n IH]; intros t s' fr' Ht Hn Hc Ef Hfr; cbn [uclean_tables].
  { apply wp_ret. replace 1024 with t by lia. by rewrite Ef. }
  destruct (cl_dir _ _ Hc) as (l & l' & El & El' & Hl' & Hlk).
  assert (Hrd : rd_dir t s' = Ret (dirent s (pg_dir s) t) s').
  { unfold rd_dir. rewrite gets_bind, (cl_cur _ _ Hc), El'. cbn [deref]. rewrite ret_bind. destruct (lookup_lt_is_Some_2 l' (Z.to_nat t)) as [e Ee]; [lia|]. rewrite Ee. cbn.
    unfold ret. f_equal. unfold dirent. rewrite El. rewrite Hlk in Ee by lia. rewrite decide_False in Ee by lia. by rewrite Ee. }
  eapply wp_known; [exact Hrd|]. apply wp_bind. destruct upage_flags as (Hf1 & Hf2 & _). pose proof (uo_tab _ _ _ Hu (pg_dir s) t ltac:(lia)) as Hform.
  assert (Htab : forall f, at_place s (UTab (pg_dir s) t) f <-> dirent s (pg_dir s) t <> 0 /\ pte_frame (dirent s (pg_dir s) t) = f).
  { intros f. split; [intros (_ & Ho & Hf); split; [intros E; cbn [entry] in Ho; unfold owns in Ho; by rewrite E, has_zero in Ho|done]|].
    intros [Hd <-]. split; [cbn; lia|]. split; [|done]. unfold owns. cbn [entry]. rewrite (dirent_present Hs) by (done || right; lia). done. }
  destruct (Z.eqb_spec (dirent s (pg_dir s) t) 0) as [E0|E0].
  - apply wp_ret. eapply IH; [lia|lia| |exact Ef|].
    + destruct Hc as [A1 A2 A3 A4 A5]. split; try done. exists l, l'. split; [done|]. split; [done|]. split; [done|]. intros k Hk. rewrite Hlk by done.
      destruct (decide (Z.of_nat k = t)) as [Ek|]; [|by repeat case_decide; try lia].
      rewrite decide_False, decide_True by lia. unfold dirent in E0. rewrite El in E0. replace (Z.to_nat t) with k in E0 by lia.
      destruct (to_dirs _ (po_tabs _ _ _ Hs) _ _ El) as [Hll _]. destruct (lookup_lt_is_Some_2 l k) as [x Hx]; [lia|]. rewrite Hx in E0 |- *. by cbn in E0; subst x.
    + destruct Hfr as [H1 H2]. split; [done|]. intros f. rewrite H2. unfold freed_tab. split; (intros [?|[?|(t' & Htr & Ha)]]; [tauto|tauto|]); right; right; exists t'; (split; [|done]); [lia|].
      destruct (decide (t' = t)) as [->|]; [|lia]. apply Htab in Ha as [? _]. done.
  - destruct Hform as [?|(f & Hf & Ed)]; [done|]. rewrite Ed, pte_frame_pte by lia. rewrite (proj2 (Z.eqb_neq _ _)) by lia. cbv iota.
    assert (Ha : at_place s (UTab (pg_dir s) t) f) by (apply Htab; split; [done|]; by rewrite Ed, pte_frame_pte by lia).
    rewrite <- Ef in Hfr. destruct (free_next (pg_fr s') PAGE_USER_END t f _ Hfr Ha) as [Hin Hno]; [done|intros t' [= ->]; lia|]. destruct Hfr as [H1 H2].
    apply wp_bind, wp_zoom. eapply wp_mono; [by apply (pg_free_ok U f)| |done]. intros [] fr2 (Hfr2 & Hb & _). unfold wr_dir, wp at 1, modify.
    eapply IH; [lia|lia| |done|].
    + destruct Hc as [A1 A2 A3 A4 A5]. split; cbn [pg_mem pg_dir pg_dirs set_dirs set_fr]; try done.
      * intros d Hd. rewrite A2, lookup_alter_ne by done. by apply A4.
      * exists l, (<[Z.to_nat t := 0]> l'). split; [done|]. rewrite A2, lookup_alter_eq, El'. split; [done|]. rewrite length_insert. split; [done|]. intros k Hk.
        destruct (decide (k = Z.to_nat t)) as [->|Hne]; [rewrite list_lookup_insert_eq, decide_True by lia; done|].
        rewrite list_lookup_insert_ne, Hlk by lia. by repeat case_decide; try lia.
    + split; [done|]. intros g. rewrite (Hb g), H2. unfold freed_tab. split.
      * intros [[?|[?|(t' & Htr & Hat)]]| <-]; [tauto|tauto|right; right; exists t'; split; [lia|done]|right; right; exists t; split; [lia|done]].
      * intros [?|[?|(t' & Htr & Hat)]]; [tauto|tauto|]. destruct (decide (t' = t)) as [->|]; [|left; right; right; exists t'; split; [lia|done]].
        right. apply Htab in Hat as [_ <-]. by rewrite Ed, pte_frame_pte by lia.
Qed.
End clean.

(** ** The address space afterwards *)

(** The places of [D] are given up and their frames freed. *)
Lemma page_ok_drop U s s' (D : place -> bool) :
  page_ok U [] s -> tabs_ok s' -> fr_ok U (pg_fr s') -> (forall pl, pvalid pl -> entry s' pl = if D pl then 0 else entry s pl) ->
  (forall f, free_frame (pg_fr s') f <-> free_frame (pg_fr s) f \/ exists pl, D pl = true /\ at_place s pl f) -> page_ok U [] s'.
Proof.
  intros Hs Ht Hfr He Hf. assert (Ha : forall pl f, at_place s' pl f <-> D pl = false /\ at_place s pl f).
  { intros pl f. rewrite !at_place_owned. destruct (decide (pvalid pl)) as [Hv|]; [|tauto]. rewrite He by done. destruct (D pl); [|tauto].
    split; [|naive_solver]. intros [_ H]. by destruct pl; apply not_elem_of_nil in H. }
  split; [done|apply Hs|done| | |constructor|by intros ? ?%not_elem_of_nil|].
  - intros pl f [HD Hp]%Ha. destruct (po_own _ _ _ Hs _ _ Hp) as (? & Hn & _). split; [done|]. split; [|apply not_elem_of_nil].
    intros [?|(pl' & HD' & Hp')]%Hf; [done|]. pose proof (po_inj _ _ _ Hs _ _ _ Hp Hp') as ->. congruence.
  - intros pl pl' f [_ H1]%Ha [_ H2]%Ha. by apply (po_inj _ _ _ Hs _ _ f).
  - intros f Hu. destruct (po_all _ _ _ Hs f Hu) as [?|[?%not_elem_of_nil|[pl Hp]]]; [left; apply Hf; by left|done|].
    destruct (D pl) eqn:ED; [left; apply Hf; right; by exists pl|]. right; right. exists pl. by apply Ha.
Qed.

Lemma freed_all s f : freed_page s PAGE_USER_END f \/ freed_tab s 1024 f <-> exists pl, of_user (pg_dir s) pl = true /\ at_place s pl f.
Proof.
  split.
  - intros [(v & _ & Ha)|(t & _ & Ha)]; [exists (UPg (pg_dir s) v)|exists (UTab (pg_dir s) t)]; (split; [by apply bool_decide_true|done]).
  - intros (pl & HD & Ha). pose proof (proj1 Ha) as Hv. destruct pl as [t|v|d t|d v]; cbn in HD, Hv; try done; apply bool_decide_eq_true in HD as ->.
    + right. exists t. split; [lia|done].
    + left. exists v. split; [lia|done].
Qed.

Section after.
Context {U : list Z} {s s' : pager} (Hu : user_ok U [] s) (Hc : cleared (s := s) 1024 s').

Lemma clean_dirent d t : 0 <= t < 1024 -> dirent s' d t = if decide (d = pg_dir s /\ 256 <= t) then 0 else dirent s d t.
Proof. intros Ht. rewrite (cleared_dirent 1024 s' d t Hc Ht). destruct (decide (d = pg_dir s /\ 256 <= t < 1024)); [rewrite decide_True by lia; done|rewrite decide_False by lia; done]. Qed.
Lemma clean_frame f : frame s' f = frame s f.
Proof. unfold frame. by rewrite (cl_mem _ _ Hc). Qed.
Lemma clean_tabent d v : 0 <= v / 1024 < 1024 -> tabent s' d v = if decide (d = pg_dir s /\ 256 <= v / 1024) then 0 else tabent s d v.
Proof. intros Hv. unfold tabent. rewrite clean_dirent by done. destruct (decide _); [done|]. destruct (_ =? 0); [done|]. by rewrite clean_frame. Qed.
Lemma clean_entry pl : pvalid pl -> entry s' pl = if of_user (pg_dir s) pl then 0 else entry s pl.
Proof.
  intros Hpl. destruct pl as [t|v|d t|d v]; cbn [entry of_user pvalid] in *; rewrite ?(cl_cur _ _ Hc); unfold PAGE_DYN, PAGE_USER, PAGE_USER_END in Hpl.
  - rewrite clean_dirent, decide_False by lia. done.
  - rewrite clean_tabent, decide_False by (Z.div_mod_to_equations; lia). done.
  - rewrite clean_dirent by lia. case_bool_decide; [rewrite decide_True by lia; done|rewrite decide_False by tauto; done].
  - rewrite clean_tabent by (Z.div_mod_to_equations; lia). case_bool_decide; [rewrite decide_True by (split; [done|Z.div_mod_to_equations; lia]); done|rewrite decide_False by tauto; done].
Qed.
Lemma clean_tabs : tabs_ok s'.
Proof.
  pose proof (po_tabs _ _ _ (uo_page _ _ _ Hu)) as Hb. destruct (cl_dir _ _ Hc) as (l & l' & El & El' & Hl' & Hlk).
  assert (Hsome : forall d, is_Some (pg_dirs s' !! d) <-> is_Some (pg_dirs s !! d)).
  { intros d. destruct (decide (d = pg_dir s)) as [->|]; [rewrite El, El'; split; by eexists|by rewrite (cl_other _ _ Hc)]. }
  split; rewrite ?(cl_cur _ _ Hc).
  - intros d m Hm. destruct (decide (d = pg_dir s)) as [->|]; [|rewrite (cl_other _ _ Hc) in Hm by done; exact (to_dirs _ Hb _ _ Hm)]. rewrite El' in Hm. injection Hm as <-. split; [done|].
    apply Forall_lookup. intros k x Hk. assert (k < 1024)%nat by (apply lookup_lt_Some in Hk; lia). rewrite Hlk in Hk by done. destruct (decide _); [injection Hk as <-; lia|].
    destruct (to_dirs _ Hb _ _ El) as [_ Hr]. by eapply Forall_lookup in Hr.
  - apply Hsome, Hb.
  - intros d t Hd Ht Hne. rewrite !clean_dirent, !decide_False by lia. apply Hb; [by apply Hsome|done|done].
  - intros d t Ht. rewrite clean_dirent by done. destruct (decide _); [by left|by apply Hb].
  - rewrite clean_dirent, decide_False by lia. apply Hb.
  - destruct (to_top _ Hb) as [top [Hr Ht]]. exists top. split; [done|]. intros t Htr. rewrite (cl_cur _ _ Hc), clean_dirent, decide_False by lia. by apply Ht.
  - intros f. rewrite clean_frame. apply Hb.
Qed.
Lemma clean_user_ok : freed s PAGE_USER_END 1024 (pg_fr s') U -> user_ok U [] s'.
Proof.
  intros [H1 H2]. assert (Hs' : page_ok U [] s').
  { apply (page_ok_drop U s s' (of_user (pg_dir s))); [apply Hu|apply clean_tabs|done|apply clean_entry|]. intros f. by rewrite H2, freed_all. }
  split; [done| |].
  - intros d t Ht. rewrite clean_dirent by lia. destruct (decide _); [by left|]. by apply Hu.
  - intros d v Hv. rewrite clean_tabent by (pose proof (user_table v Hv); lia). destruct (decide _); [constructor|]. pose proof (uo_form _ _ _ Hu d v Hv) as Hf.
    destruct Hf as [| |f Hf|f w Hf Ha]; [constructor|constructor|by constructor|]. apply (UCow _ f w Hf). apply at_place_owned in Ha as [Hvw Ha]. apply at_place_owned. split; [done|].
    by rewrite clean_entry.
Qed.
End after.

Lemma uclean_ok U s :
  user_ok U [] s ->
  wp uclean
    (fun _ s' => user_ok U [] s' /\ pg_dir s' = pg_dir s /\ t_pg_count s' = 0 /\ (forall a, umem s' (pg_dir s) a = None) /\
       (forall d a, d <> pg_dir s -> umem s' d a = umem s d a) /\ pg_mem s' = pg_mem s /\ kern_same s s' /\
       (forall f, free_frame (pg_fr s') f <-> free_frame (pg_fr s) f \/ exists pl, of_user (pg_dir s) pl = true /\ at_place s pl f))
    (fun _ _ => False) s.
Proof.
  intros Hu. pose proof (uo_page _ _ _ Hu) as Hs. unfold uclean. eapply wp_known; [apply (chk_dir_run Hu); unfold UTABS; vm_compute; congruence|].
  rewrite <- (set_fr_id s) at 1. eapply wp_seq; [apply (uclean_pages_ok Hu); [done|unfold USER_FUEL; rewrite Z2Nat.id; vm_compute; congruence|]| |done].
  { split; [apply Hs|]. intros f. split; [by left|]. intros [?|[(v & ? & _)|(t & ? & _)]]; [done|lia|lia]. }
  intros [] s1 (fr1 & -> & Hfr1). eapply wp_seq; [apply (uclean_tables_ok Hu UTABS 256 (set_fr fr1 s) fr1); [lia|by vm_compute| |done|done]| |done].
  { destruct (to_cur _ (po_tabs _ _ _ Hs)) as [l El]. split; try done. exists l, l. split; [done|]. split; [done|]. split; [by apply (to_dirs _ (po_tabs _ _ _ Hs) _ _ El)|].
    intros k Hk. by rewrite decide_False by lia. }
  intros [] s2 [Hc2 Hfr2]. pose proof (clean_user_ok Hu Hc2 Hfr2) as Hu2. unfold wp, modify. split; [by apply user_ok_side|]. split; [apply Hc2|]. split; [done|].
  assert (Hview : forall d v, is_user v -> upage s2 d v = if decide (d = pg_dir s) then None else upage s d v).
  { intros d v Hv. pose proof (user_table v Hv) as Htv. unfold upage. rewrite (clean_tabent Hc2) by lia. destruct (decide (d = pg_dir s)) as [->|Hne].
    - rewrite decide_True by lia. unfold page_of. by rewrite !has_zero.
    - rewrite decide_False by tauto. unfold page_of. by rewrite (clean_frame Hc2). }
  split; [|split; [|split; [apply Hc2|split]]].
  - intros a. unfold umem. destruct (decide _) as [Hv|]; [|done]. change (upage (set_count 0 s2)) with (upage s2). by rewrite Hview, decide_True.
  - intros d a Hd. apply umem_upage. intros v Hv. change (upage (set_count 0 s2)) with (upage s2). by rewrite Hview, decide_False.
  - pose proof (cl_side _ _ Hc2) as [= E1 E2 _]. split; [|intros v f _ _; exact (clean_frame Hc2 f)|done|done].
    intros v Hv. change (kent (set_count 0 s2) v) with (kent s2 v). exact (clean_entry Hc2 (KPg v) Hv).
  - intros f. destruct Hfr2 as [_ H2]. change (pg_fr (set_count 0 s2)) with (pg_fr s2). by rewrite H2, freed_all.
Qed.
