(* ===== verification/PageFork.v ===== *)
(** Fork: the child gets an address space of its own with the contents of the
    parent's ([pg_newdir] and [copy_pages]). *)

From S2P Require Import Prelude PageFrames PageFramesOk Page PageOk PageKern PageUser PageUserOk PageUmem PageSpace.

(** * A new directory *)

Lemma newdir_ok U s t phys :
  user_ok U [] s -> pg_dirs s !! t = None ->
  wp (pg_newdir t phys)
    (fun _ s' => user_ok U [] s' /\ pg_dir s' = pg_dir s /\ is_Some (pg_dirs s' !! t) /\ (forall d v, is_user v -> upage s' d v = upage s d v) /\
       (forall v, is_user v -> tabent s' t v = 0) /\ pg_mem s' = pg_mem s /\ pg_fr s' = pg_fr s /\ kside s' = kside s /\
       (forall pl, pvalid pl -> entry s' pl = entry s pl)) (fun _ _ => False) s.
Proof.
  intros Hu Hnone. pose proof (uo_page _ _ _ Hu) as Hs. pose proof (po_tabs _ _ _ Hs) as Hb. destruct (to_cur _ Hb) as [l El]. destruct (to_dirs _ Hb _ _ El) as [Hl Hr].
  assert (Hne : t <> pg_dir s) by (intros ->; congruence). unfold pg_newdir. apply wp_bind, wp_gets. rewrite El. apply wp_bind, wp_deref_some. unfold wp, modify.
  set (e4 := u32 (Z.lor (Z.shiftl phys 12) PGF_KERN)). set (nl := <[_ := e4]> _).
  assert (Hnl : forall k, 0 <= k < 1024 -> nl !! Z.to_nat k = if decide (k = 4) then Some e4 else if decide (k < 256) then l !! Z.to_nat k else Some 0).
  { intros k Hk. unfold nl. change (Z.to_nat (PAGE_TAB / 1024)) with 4%nat. change (Z.to_nat (PAGE_USER / 1024)) with 256%nat. change (Z.to_nat ((PAGE_USER_END - PAGE_USER) / 1024)) with 768%nat.
    destruct (decide (k = 4)) as [->|]; [rewrite list_lookup_insert_eq by (rewrite length_app, length_take, length_replicate; lia); done|].
    rewrite list_lookup_insert_ne by lia. destruct (decide (k < 256)).
    - rewrite lookup_app_l, lookup_take_lt by (rewrite ?length_take; lia). done.
    - rewrite lookup_app_r by (rewrite length_take; lia). rewrite length_take, lookup_replicate_2 by lia. done. }
  assert (Hlen : length nl = 1024%nat) by (unfold nl; rewrite length_insert, length_app, length_take, length_replicate; vm_compute (Z.to_nat _); lia).
  set (s' := set_dirs (<[t := nl]> (pg_dirs s)) s).
  assert (Hdi : forall d k, 0 <= k < 1024 -> dirent s' d k = if decide (d = t) then (if decide (k = 4) then e4 else if decide (k < 256) then dirent s (pg_dir s) k else 0) else dirent s d k).
  { intros d k Hk. unfold dirent, s'. cbn [pg_dirs set_dirs]. destruct (decide (d = t)) as [->|Hd]; [|by rewrite lookup_insert_ne].
    rewrite lookup_insert_eq, Hnl, El by done. destruct (decide (k = 4)); [done|]. by destruct (decide (k < 256)). }
  assert (Hold : forall k, dirent s t k = 0) by (intros k; unfold dirent; by rewrite Hnone).
  assert (Htb : forall d v, 256 <= v / 1024 < 1024 -> tabent s' d v = tabent s d v).
  { intros d v Hv. unfold tabent. rewrite Hdi by lia. destruct (decide (d = t)) as [->|]; [|done]. rewrite Hold. by rewrite !decide_False by lia. }
  assert (Hen : forall pl, pvalid pl -> entry s' pl = entry s pl).
  { intros pl Hpl. destruct pl as [k|v|d k|d v]; cbn [entry pvalid] in *; change (pg_dir s') with (pg_dir s); unfold PAGE_DYN, PAGE_USER, PAGE_USER_END in Hpl.
    - rewrite Hdi, decide_False by (done || lia). done.
    - unfold tabent. rewrite Hdi, decide_False by (done || (Z.div_mod_to_equations; lia)). done.
    - rewrite Hdi by lia. destruct (decide (d = t)) as [->|]; [|done]. rewrite Hold. by rewrite !decide_False by lia.
    - apply Htb. Z.div_mod_to_equations; lia. }
  assert (Hcur : forall k, 0 <= k < 1024 -> dirent s' (pg_dir s) k = dirent s (pg_dir s) k) by (intros k Hk; rewrite Hdi, decide_False; done).
  assert (He4 : 0 <= e4 < 2 ^ 32 /\ has e4 PGF_PRESENT = true) by (split; [apply u32_range|exact (pte_present phys PGF_KERN)]).
  assert (Htabs : tabs_ok s').
  { split; change (pg_dir s') with (pg_dir s).
    - intros d m. unfold s'. cbn [pg_dirs set_dirs]. destruct (decide (d = t)) as [->|]; [|rewrite lookup_insert_ne by done; apply Hb]. rewrite lookup_insert_eq. intros [= <-]. split; [done|].
      apply Forall_insert; [|apply He4]. apply Forall_app. split; [by apply Forall_take|]. apply Forall_replicate. lia.
    - unfold s'. cbn [pg_dirs set_dirs]. rewrite lookup_insert_ne by done. apply Hb.
    - intros d k [m Hm] Hk Hk4. rewrite (Hcur k) by lia. rewrite Hdi by lia. destruct (decide (d = t)) as [->|Hd]; [by rewrite decide_False, decide_True by lia|].
      apply Hb; [|done|done]. unfold s' in Hm. cbn [pg_dirs set_dirs] in Hm. rewrite lookup_insert_ne in Hm by done. by eexists.
    - intros d k Hk. rewrite Hdi by lia. destruct (decide (d = t)); [|by apply Hb]. destruct (decide (k = 4)); [right; apply He4|]. destruct (decide (k < 256)); [by apply Hb|by left].
    - rewrite Hcur by lia. apply Hb.
    - destruct (to_top _ Hb) as [top [H1 H2]]. exists top. split; [done|]. intros k Hk. change (pg_dir s') with (pg_dir s). rewrite Hcur by lia. by apply H2.
    - apply (to_mem _ Hb). }
  assert (Hs' : page_ok U [] s') by (by eapply page_ok_entries).
  split; [|split; [done|split; [unfold s'; cbn; rewrite lookup_insert_eq; by eexists|split; [|split; [|done]]]]].
  - split; [done| |].
    + intros d k Hk. rewrite Hdi by lia. destruct (decide (d = t)); [left; by rewrite !decide_False by lia|by apply Hu].
    + intros d v Hv. rewrite Htb by (by apply user_table). destruct (uo_form _ _ _ Hu d v Hv) as [| |f Hf|f w Hf Ha]; [constructor|constructor|by constructor|].
      apply (UCow _ f w Hf). apply at_place_owned in Ha as [Hvw Ha]. apply at_place_owned. split; [done|]. by rewrite Hen.
  - intros d v Hv. unfold upage. rewrite Htb by (by apply user_table). done.
  - intros v Hv. rewrite Htb by (by apply user_table). unfold tabent. by rewrite Hold.
Qed.

(** * The directory of another task *)

(** The current directory alone decides what the kernel reads and writes. *)
Definition with_dirs {A} (D : gmap nat (list Z)) (o : outcome pager A) : outcome pager A :=
  match o with Ret a s => Ret a (set_dirs D s) | Err e s => Err e (set_dirs D s) | Halt h => Halt h end.
Lemma tab_frame_dirs D s i : D !! pg_dir s = pg_dirs s !! pg_dir s -> tab_frame i (set_dirs D s) = with_dirs D (tab_frame i s).
Proof.
  intros E. unfold tab_frame, rd_dir, bind. cbn [gets set_dirs pg_dirs pg_dir]. rewrite E. destruct (pg_dirs s !! pg_dir s) as [l|]; [|done]. cbn.
  destruct (l !! Z.to_nat (i / 1024)) as [e|]; [|done]. cbn. by destruct (has e PGF_PRESENT).
Qed.
Lemma wr_tab_dirs D s i v : D !! pg_dir s = pg_dirs s !! pg_dir s -> wr_tab i v (set_dirs D s) = with_dirs D (wr_tab i v s).
Proof.
  intros E. unfold wr_tab, bind. rewrite tab_frame_dirs by done. unfold tab_frame, rd_dir, bind. cbn [gets]. destruct (pg_dirs s !! pg_dir s) as [l|]; [|done]. cbn.
  destruct (l !! Z.to_nat (i / 1024)) as [e|]; [|done]. cbn. by destruct (has e PGF_PRESENT).
Qed.
Lemma zero_page_dirs D s i : D !! pg_dir s = pg_dirs s !! pg_dir s -> zero_page i (set_dirs D s) = with_dirs D (zero_page i s).
Proof.
  intros E. unfold zero_page, page_frame, rd_tab, bind. rewrite tab_frame_dirs by done. unfold tab_frame, rd_dir, bind. cbn [gets]. destruct (pg_dirs s !! pg_dir s) as [l|]; [|done]. cbn.
  destruct (l !! Z.to_nat (i / 1024)) as [e|]; [|done]. cbn. destruct (has e PGF_PRESENT); [|done]. cbn. change (frame (set_dirs D s)) with (frame s).
  by destruct (has (get32 (frame s (pte_frame e)) (4 * (i mod 1024))) PGF_PRESENT).
Qed.
Lemma rd_tdir_run U L s d k : page_ok U L s -> is_Some (pg_dirs s !! d) -> 0 <= k < 1024 -> rd_tdir d k s = Ret (dirent s d k) s.
Proof.
  intros Hs [l El] Hk. destruct (to_dirs _ (po_tabs _ _ _ Hs) _ _ El) as [Hl _]. unfold rd_tdir, dirent, bind. cbn [gets]. rewrite El. cbn.
  destruct (lookup_lt_is_Some_2 l (Z.to_nat k)) as [e Ee]; [lia|]. by rewrite Ee.
Qed.

Lemma tmp_user U s s' : user_ok U [] s -> tmp_step U [] s s' -> user_ok U [] s'.
Proof.
  intros Hu Hst. apply (user_ok_kept U [] [] nothing s); [done|apply Hst|apply Hst|by intros ? []|by intros ? ? ? []| |by right; intros []].
  intros d t _ E. left. by rewrite (dirent_same s s' (ts_dirs _ _ _ _ Hst)).
Qed.

(** The table of the child that page [i] is in is mapped at [PAGE_TMP]. *)
Definition tmp_maps (s : pager) (t : nat) (i : Z) : Prop :=
  exists e, tabent s (pg_dir s) PAGE_TMP = e /\ has e PGF_PRESENT = true /\ pte_frame e = pte_frame (dirent s t (i / 1024)).
Record tab_ready (U : list Z) (t : nat) (i : Z) (s s' : pager) : Prop := TabReady {
  tr_ok : user_ok U [] s';
  tr_kept : kept nothing s s';
  tr_tab : has_tab s' t (i / 1024);
  tr_tmp : tmp_maps s' t i;
  tr_side : kside s' = kside s
}.

Lemma child_table_ok U s t i :
  user_ok U [] s -> is_Some (pg_dirs s !! t) -> t <> pg_dir s -> is_user i ->
  wp (td <~ rd_tdir t (i / 1024);;
      (if td =? 0 then
         pg <~ fr pg_alloc;; wr_tdir t (i / 1024) (pte pg PGF_UPAGE);;; wr_tab PAGE_TMP (pte pg PGF_TMP);;; zero_page PAGE_TMP
       else wr_tab PAGE_TMP td))
    (fun _ s' => tab_ready U t i s s') (fun e s' => e = ENOMEM /\ s' = s) s.
Proof.
  intros Hu Hd Hne Hi. pose proof (uo_page _ _ _ Hu) as Hs. pose proof (user_table i Hi) as Ht. destruct upage_flags as (Hf1 & Hf2 & _). destruct tmp_flags as [Hg1 Hg2].
  eapply wp_known; [apply (rd_tdir_run U [] s t); (done || lia)|]. destruct (Z.eqb_spec (dirent s t (i / 1024)) 0) as [E0|E0].
  - eapply wp_seq; [by apply alloc_ok| |by intros e s' (-> & -> & _)]. intros m s1 (fr' & -> & Hs1 & Hm & _). set (e := pte m PGF_TMP). pose proof (pte_range m PGF_TMP : 0 <= e < 2 ^ 32) as Her.
    set (sT := wr_ent s (pg_dir s) PAGE_TMP e). pose proof (wr_tmp_step U [] s e Hs Her) as HsT. pose proof (tmp_user U s sT Hu HsT) as HuT.
    pose proof (wr_tmp_step U [m] (set_fr fr' s) e Hs1 Her) as HsT1. change (wr_ent (set_fr fr' s) (pg_dir (set_fr fr' s)) PAGE_TMP e) with (set_fr fr' sT) in HsT1.
    pose proof (ts_ok _ _ _ _ HsT1) as HpT. set (D := put_dir (set_fr fr' s) t (i / 1024) (pte m PGF_UPAGE)).
    assert (HD : D !! pg_dir s = pg_dirs s !! pg_dir s) by (unfold D; rewrite put_dir_lookup, decide_False; [done|]; intros [?|?]; [congruence|lia]).
    assert (ED : D = put_dir (set_fr fr' sT) t (i / 1024) (pte m PGF_UPAGE)) by done.
    apply wp_bind. unfold wr_tdir, wp at 1, modify. assert (EA : alter (fun l => <[Z.to_nat (i / 1024) := pte m PGF_UPAGE]> l) t (pg_dirs (set_fr fr' s)) = D)
      by (unfold D, put_dir; by rewrite (proj2 (Z.ltb_ge _ _)) by lia). rewrite EA.
    eapply wp_known; [rewrite (wr_tab_dirs D (set_fr fr' s)) by done; rewrite (wr_tmp_run U [m] (set_fr fr' s)) by done; done|].
    change (wr_ent (set_fr fr' s) (pg_dir (set_fr fr' s)) PAGE_TMP e) with (set_fr fr' sT).
    assert (Hz : zero_page PAGE_TMP (set_fr fr' sT) = Ret tt (wr_data (set_fr fr' sT) m (zeros PAGE_SIZE))).
    { unfold zero_page. erewrite bind_run by (apply (page_frame_run HpT PAGE_TMP e); [by eapply has_tmp|by apply (tabent_tmp Hs1)|unfold e; by rewrite pte_present]).
      unfold e. by rewrite pte_frame_pte by lia. }
    eapply wp_is; [rewrite (zero_page_dirs D (set_fr fr' sT)) by done; rewrite Hz; done|].
    assert (Efin : set_dirs D (wr_data (set_fr fr' sT) m (zeros PAGE_SIZE)) = add_tab (set_fr fr' sT) t (i / 1024) (pte m PGF_UPAGE)).
    { unfold add_tab. rewrite pte_frame_pte by lia. by rewrite ED. }
    rewrite Efin. destruct (add_utab U sT t (i / 1024) m HuT Hd Ht E0 Hm fr' HpT) as (Hu2 & Hk2 & Hd2 & _). split.
    + done.
    + eapply kept_trans; [apply HsT|exact Hk2].
    + split; [right; lia|]. rewrite Hd2. intros Ez. by rewrite <- (pte_present m), Ez, has_zero in Hf2.
    + exists e. split; [|split; [unfold e; by rewrite pte_present|]].
      * change (pg_dir (add_tab (set_fr fr' sT) t (i / 1024) (pte m PGF_UPAGE))) with (pg_dir s). rewrite (tabent_add HpT); try done; try lia.
        -- by apply (tabent_tmp Hs1).
        -- apply pte_range.
        -- rewrite pte_frame_pte by lia. left.
        -- by left.
      * rewrite Hd2. unfold e. by rewrite !pte_frame_pte by lia.
    + done.
  - destruct (uo_tab _ _ _ Hu t (i / 1024) Ht) as [?|(f & Hf & Ed)]; [done|]. rewrite Ed. pose proof (pte_range f PGF_UPAGE) as Her. eapply wp_is; [by eapply wr_tmp_run|].
    pose proof (wr_tmp_step U [] s _ Hs Her) as HsT. split.
    + by eapply tmp_user.
    + apply HsT.
    + eapply kept_tab; [apply HsT|]. split; [right; lia|done].
    + exists (pte f PGF_UPAGE). split; [by apply (tabent_tmp Hs)|]. split; [by rewrite pte_present|]. rewrite (dirent_same s _ (ts_dirs _ _ _ _ HsT)). by rewrite Ed.
    + done.
Qed.

(** * Copying *)

(** An entry of the child's table, written through [PAGE_TMP]. *)
Lemma wr_tmp_tab_run U L s t i e :
  page_ok U L s -> tmp_maps s t i -> wr_tmp_tab (i mod 1024) e s = Ret tt (wr_ent s t i e).
Proof.
  intros Hs (x & Hx & Hp & Hf). unfold wr_tmp_tab. erewrite bind_run by (apply (page_frame_run Hs PAGE_TMP x); [by eapply has_tmp|done|done]). rewrite Hf. done.
Qed.

Definition child (t : nat) : place -> Prop := fun pl => exists v, pl = UPg t v.
Lemma child_only t : user_only (child t).
Proof. by intros pl (v & ->). Qed.
Lemma upages_child t i n pl : upages t i n pl -> child t pl.
Proof. intros (v & -> & _). by exists v. Qed.

(** Pages below [i] of the child have the contents of the parent's. *)
Record copying (U : list Z) (t : nat) (s0 : pager) (i : Z) (s : pager) : Prop := Copying {
  cp_ok : user_ok U [] s;
  cp_kept : kept (child t) s0 s;
  cp_done : forall v, is_user v -> v < i -> upage s t v = upage s0 (pg_dir s0) v;
  cp_rest : forall v, is_user v -> i <= v -> tabent s t v = 0;
  cp_side : kside s = kside s0
}.

Lemma copying_view U t s0 i s d v : user_ok U [] s0 -> copying U t s0 i s -> d <> t -> is_user v -> upage s d v = upage s0 d v.
Proof. intros Hu0 Hc Hd Hv. eapply upage_kept; [exact Hu0|apply Hc|apply child_only|done|]. intros (v' & [= -> _]). done. Qed.
(** Page [i] of the child is set, and the others are left alone. *)
Lemma copying_next U t s0 i s s' X :
  copying U t s0 i s -> user_ok U [] s' -> kept X s s' -> (forall pl, X pl -> upages t i 1 pl) -> kside s' = kside s -> upage s' t i = upage s0 (pg_dir s0) i ->
  copying U t s0 (i + 1) s'.
Proof.
  intros Hc Hu' Hk HX Sd Hp.
  assert (Hout : forall v, v <> i -> ~ X (UPg t v)) by (intros v Hv (v' & [= <-] & ?)%HX; lia). split.
  - done.
  - eapply kept_trans; [apply Hc|]. eapply kept_mono; [|exact Hk]. intros pl ?%HX. by eapply upages_child.
  - intros v Hv Hlt. destruct (decide (v = i)) as [->|Hne]; [done|]. rewrite <- (cp_done _ _ _ _ _ Hc v Hv) by lia.
    eapply upage_kept; [apply Hc|exact Hk| |done|by apply Hout]. by intros pl (? & -> & _)%HX.
  - intros v Hv Hge. rewrite (kept_uent _ _ _ _ _ Hk Hv) by (apply Hout; lia). apply (cp_rest _ _ _ _ _ Hc); [done|lia].
  - by rewrite Sd, (cp_side _ _ _ _ _ Hc).
Qed.
Lemma copying_skip U t s0 i s s' : copying U t s0 i s -> user_ok U [] s' -> kept nothing s s' -> kside s' = kside s -> copying U t s0 i s'.
Proof.
  intros Hc Hu' Hk Sd. split.
  - done.
  - eapply kept_trans; [apply Hc|]. eapply kept_mono; [|exact Hk]. by intros pl [].
  - intros v Hv Hlt. rewrite <- (cp_done _ _ _ _ _ Hc v Hv Hlt). apply (kept_nothing_view U s s'); [apply Hc|done|done|done].
  - intros v Hv Hge. rewrite (kept_uent _ _ _ _ _ Hk Hv) by (by intros []). by apply (cp_rest _ _ _ _ _ Hc).
  - by rewrite Sd, (cp_side _ _ _ _ _ Hc).
Qed.

(** The contents of page [i] of the current task are copied to a new frame of the
    child. *)
Lemma copy_frame_ok U s t i e :
  user_ok U [] s -> t <> pg_dir s -> is_user i -> has_tab s (pg_dir s) (i / 1024) -> has_tab s t (i / 1024) -> tmp_maps s t i ->
  tabent s (pg_dir s) i = e -> has e PGF_PRESENT = true -> tabent s t i = 0 ->
  wp (pg <~ fr pg_alloc;; wr_tmp_tab (i mod 1024) (pte pg PGF_UPAGE);;; wr_tab PAGE_TMP (pte pg PGF_TMP);;; copy_page PAGE_TMP i)
    (fun _ s' => user_ok U [] s' /\ kept (upages t i 1) s s' /\ upage s' t i = upage s (pg_dir s) i /\ kside s' = kside s)
    (fun err s' => err = ENOMEM /\ s' = s) s.
Proof.
  intros Hu Hne Hi Htc Ht Htmp Ee Hpr H0. pose proof (uo_page _ _ _ Hu) as Hs. destruct upage_flags as (Hf1 & Hf2 & _). destruct tmp_flags as [Hg1 Hg2].
  eapply wp_seq; [by apply alloc_ok| |by intros ? s' (-> & -> & _)]. intros m s1 (fr' & -> & Hs1 & Hm & _).
  eapply wp_known; [by apply (wr_tmp_tab_run U [m])|]. set (s2 := wr_ent (set_fr fr' s) t i (pte m PGF_UPAGE)).
  destruct (wr_uent_ok U s (set_fr fr' s) t i (pte m PGF_UPAGE) Hu Hi) as (Hu2 & Hk2 & He2 & _); try done.
  { by rewrite own_owned. } { change (tabent (set_fr fr' s)) with (tabent s). by rewrite H0. } { apply pte_range. } { by constructor. }
  fold s2 in Hu2, Hk2, He2. pose proof (uo_page _ _ _ Hu2) as Hs2. pose proof (pte_range m PGF_TMP) as Her. eapply wp_known; [by eapply wr_tmp_run|].
  change (pg_dir s2) with (pg_dir s). pose proof (wr_tmp_step U [] s2 _ Hs2 Her) as HsT. change (pg_dir s2) with (pg_dir s) in HsT. set (s3 := wr_ent s2 (pg_dir s) PAGE_TMP (pte m PGF_TMP)) in *.
  pose proof (tmp_user U s2 s3 Hu2 HsT) as Hu3. pose proof (ts_ok _ _ _ _ HsT) as Hs3. assert (Hni : forall v, ~ upages t i 1 (UPg (pg_dir s) v)) by (intros v (v' & [= ?] & _); congruence).
  assert (Hk3 : kept (upages t i 1) s s3) by (eapply kept_trans; [exact Hk2|]; eapply kept_mono; [|apply HsT]; by intros ? []).
  assert (Ec3 : tabent s3 (pg_dir s) i = e) by (by rewrite (kept_uent _ _ _ _ _ Hk3 Hi (Hni i))).
  assert (Et3 : tabent s3 t i = pte m PGF_UPAGE) by (rewrite (kept_uent _ _ _ _ _ (ts_kept _ _ _ _ HsT) Hi); [done|by intros []]).
  unfold copy_page. eapply wp_known; [apply (page_frame_run Hs3 i e); [by eapply kept_tab|done|done]|].
  eapply wp_known; [apply (page_frame_run Hs3 PAGE_TMP (pte m PGF_TMP)); [by eapply has_tmp|by apply (tabent_tmp Hs2)|by rewrite pte_present]|].
  rewrite pte_frame_pte by lia. apply wp_bind, wp_gets. unfold wr_frame, wp, modify. change (set_mem _ s3) with (wr_data s3 m (frame s3 (pte_frame e))).
  destruct (wr_own_ok U s3 t i m (frame s3 (pte_frame e)) Hu3 Hi Hm Et3) as (Hu4 & Hk4 & _ & Hp4); [apply (to_mem _ (po_tabs _ _ _ Hs3))|].
  split; [done|]. split; [by eapply kept_trans|]. split; [|done]. rewrite Hp4, <- (upage_kept U [] _ s s3 (pg_dir s) i Hu Hk3 (upages_only _ _ _) Hi (Hni i)).
  unfold upage. rewrite Ec3. unfold page_of. by rewrite Hpr.
Qed.

Lemma wp_assoc4 {A C} (a : M pager A) (b c d : A -> M pager unit) (h : M pager C) Q E s :
  wp (bind (bind a (fun x => bind (b x) (fun _ => bind (c x) (fun _ => d x)))) (fun _ => h)) Q E s ->
  wp (bind a (fun x => bind (b x) (fun _ => bind (c x) (fun _ => bind (d x) (fun _ => h))))) Q E s.
Proof.
  unfold wp, bind. destruct (a s) as [x s1| |]; [|done..]. destruct (b x s1) as [? s2| |]; [|done..]. destruct (c x s2) as [? s3| |]; [|done..]. by destruct (d x s3).
Qed.

Definition copy_failed (U : list Z) (t : nat) (s0 s : pager) : Prop := user_ok U [] s /\ kept (child t) s0 s /\ kside s = kside s0.
Lemma copying_failed U t s0 i s : copying U t s0 i s -> copy_failed U t s0 s.
Proof. intros [H1 H2 _ _ H5]. done. Qed.

Lemma copy_loop_ok U t s0 fuel i s :
  user_ok U [] s0 -> is_Some (pg_dirs s0 !! t) -> t <> pg_dir s0 ->
  copying U t s0 i s -> PAGE_USER <= i -> PAGE_USER_END - i <= Z.of_nat fuel -> i mod 1024 = 0 \/ dirent s (pg_dir s0) (i / 1024) <> 0 ->
  wp (copy_loop fuel t i) (fun _ s' => copying U t s0 PAGE_USER_END s') (fun e s' => e = ENOMEM /\ copy_failed U t s0 s') s.
Proof.
  intros Hu0 Hd0 Hne. revert i s. induction fuel as [|fuel IH]; intros i s Hc Hi Hfu Hal; cbn [copy_loop].
  all: destruct (Z.leb_spec PAGE_USER_END i) as [Hend|Hend].
  1, 3: apply wp_ret; destruct Hc as [H1 H2 H3 H4 H5]; split; [done|done|intros v Hv _; apply H3; [done|unfold is_user in Hv; lia]|intros v Hv; unfold is_user in Hv; lia|done].
  1: lia.
  assert (Hv : is_user i) by (unfold is_user; lia). pose proof (user_table i Hv) as Htr. pose proof (cp_ok _ _ _ _ _ Hc) as Hu. pose proof (uo_page _ _ _ Hu) as Hs.
  pose proof (kp_cur _ _ _ (cp_kept _ _ _ _ _ Hc)) as Hcur. eapply wp_known; [apply (rd_dir_run Hs); lia|]. rewrite Hcur.
  destruct (Z.eqb_spec (dirent s (pg_dir s0) (i / 1024)) 0) as [E0|E0].
  { destruct Hal as [Hal|]; [|done]. apply IH; [|lia|lia|left; Z.div_mod_to_equations; lia]. destruct Hc as [H1 H2 H3 H4 H5]. split; [done|done| |intros v Hvr Hge; apply H4; [done|lia]|done].
    intros v Hvr Hlt. destruct (decide (v < i)); [by apply H3|]. rewrite <- (copying_view U t s0 i s (pg_dir s0) v Hu0 (Copying _ _ _ _ _ H1 H2 H3 H4 H5)) by done.
    unfold upage. rewrite (H4 v) by (done || lia). unfold tabent. replace (v / 1024) with (i / 1024) by (Z.div_mod_to_equations; lia). by rewrite E0. }
  assert (Hd : is_Some (pg_dirs s !! t)) by (by apply (kp_dirs _ _ _ (cp_kept _ _ _ _ _ Hc))).
  apply wp_assoc. eapply wp_seq; [apply (child_table_ok U s t i Hu Hd); [by rewrite Hcur|done]| |intros e s' [-> ->]; split; [done|by eapply copying_failed]].
  intros [] s1 Hr. pose proof (tr_ok _ _ _ _ _ Hr) as Hu1. pose proof (uo_page _ _ _ Hu1) as Hs1. pose proof (copying_skip U t s0 i s s1 Hc Hu1 (tr_kept _ _ _ _ _ Hr) (tr_side _ _ _ _ _ Hr)) as Hc1.
  pose proof (kp_cur _ _ _ (tr_kept _ _ _ _ _ Hr)) as Hcur1. rewrite Hcur in Hcur1.
  assert (Ht1 : has_tab s1 (pg_dir s0) (i / 1024)) by (eapply kept_tab; [apply Hr|]; split; [right; lia|done]).
  eapply wp_known; [apply (rd_tab_run Hs1); by rewrite Hcur1|]. rewrite Hcur1. pose proof (cp_rest _ _ _ _ _ Hc1 i Hv ltac:(lia)) as Hz1.
  pose proof (copying_view U t s0 i s1 (pg_dir s0) i Hu0 Hc1 ltac:(congruence) Hv) as Hview.
  assert (Hnext : forall s2, copying U t s0 (i + 1) s2 -> kept (upages t i 1) s1 s2 ->
    wp (copy_loop fuel t (i + 1)) (fun _ s' => copying U t s0 PAGE_USER_END s') (fun e s' => e = ENOMEM /\ copy_failed U t s0 s') s2).
  { intros s2 Hc2 Hk2. apply IH; [done|lia|lia|]. destruct (decide ((i + 1) mod 1024 = 0)); [by left|right].
    replace ((i + 1) / 1024) with (i / 1024) by (Z.div_mod_to_equations; lia). rewrite (kp_tabs _ _ _ Hk2) by (apply Ht1). apply Ht1. }
  destruct upage_flags as (_ & Hf2 & _ & _). destruct cpage_flags as (_ & Hg2 & _).
  assert (Hcopy : forall e, tabent s1 (pg_dir s0) i = e -> has e PGF_PRESENT = true ->
    wp (pg <~ fr pg_alloc;; wr_tmp_tab (i mod 1024) (pte pg PGF_UPAGE);;; wr_tab PAGE_TMP (pte pg PGF_TMP);;; copy_page PAGE_TMP i;;; copy_loop fuel t (i + 1))
      (fun _ s' => copying U t s0 PAGE_USER_END s') (fun e s' => e = ENOMEM /\ copy_failed U t s0 s') s1).
  { intros e Ee Hpr. apply wp_assoc4. eapply wp_seq; [apply (copy_frame_ok U s1 t i e Hu1); rewrite ?Hcur1; (done || apply Hr)| |intros err s' [-> ->]; split; [done|by eapply copying_failed]].
    intros [] s2 (Hu2 & Hk2 & Hp2 & Sd2). rewrite Hcur1, Hview in Hp2. apply Hnext; [|done]. by eapply copying_next. }
  pose proof (uo_form _ _ _ Hu1 (pg_dir s0) i Hv) as Hform. remember (tabent s1 (pg_dir s0) i) as e eqn:Ee. unfold upage in Hview. rewrite <- Ee in Hview.
  fold (upage s0 (pg_dir s0) i) in Hview. destruct Hform as [| |f Hf|f w Hf Ha].
  - rewrite !has_zero. cbn [negb]. apply Hnext; [|apply kept_refl]. eapply (copying_next U t s0 i s1 s1 nothing); [done|done|apply kept_refl|by intros ? []|done|].
    unfold upage at 1. rewrite Hz1. exact Hview.
  - change (has PGF_AUTO PGF_AUTO) with true. cbv iota. eapply wp_known; [apply (wr_tmp_tab_run U [] s1 t i PGF_AUTO Hs1), Hr|].
    destruct (wr_uent_ok U s1 s1 t i PGF_AUTO Hu1 Hv) as (Hu2 & Hk2 & He2 & _); [done|apply kept_refl|done|apply Hr|by rewrite Hz1|done|constructor|].
    apply Hnext; [|done]. eapply (copying_next U t s0 i s1); [done|done|exact Hk2|done|done|]. unfold upage at 1. rewrite He2. exact Hview.
  - rewrite pte_auto, pte_present, Hf2. change (has PGF_UPAGE PGF_AUTO) with false. cbn [negb]. by apply (Hcopy (pte f PGF_UPAGE)); [|rewrite pte_present].
  - rewrite pte_auto, pte_present, Hg2. change (has PGF_CPAGE PGF_AUTO) with false. cbn [negb]. by apply (Hcopy (pte f PGF_CPAGE)); [|rewrite pte_present].
Qed.

Lemma copy_pages_ok U s t phys :
  user_ok U [] s -> pg_dirs s !! t = None ->
  wp (copy_pages t phys)
    (fun _ s' => user_ok U [] s' /\ pg_dir s' = pg_dir s /\ (forall a, umem s' t a = umem s (pg_dir s) a) /\ (forall d a, d <> t -> umem s' d a = umem s d a) /\
       kern_same s s')
    (fun e s' => e = ENOMEM /\ user_ok U [] s' /\ pg_dir s' = pg_dir s /\ kern_same s s' /\ forall d a, d <> t -> umem s' d a = umem s d a) s.
Proof.
  intros Hu Hnone. assert (Hne : t <> pg_dir s).
  { intros ->. destruct (to_cur _ (po_tabs _ _ _ (uo_page _ _ _ Hu))) as [l El]. congruence. }
  unfold copy_pages. eapply wp_seq; [by apply newdir_ok| |done]. intros [] s0 (Hu0 & Hc0 & Hd0 & Hp0 & Hz0 & Em0 & _ & Sd0 & Hen0).
  assert (Hstart : copying U t s0 PAGE_USER s0) by (split; [done|apply kept_refl|intros v Hv; unfold is_user in Hv; lia|intros v Hv _; by apply Hz0|done]).
  assert (Hview : forall s', user_ok U [] s' -> kept (child t) s0 s' -> forall d a, d <> t -> umem s' d a = umem s d a).
  { intros s' Hu' Hk d a Hd. apply umem_upage. intros v Hv. rewrite <- Hp0 by done. eapply upage_kept; [exact Hu0|exact Hk|apply child_only|done|]. intros (v' & [= ?]). done. }
  assert (Hkern : forall s', kept (child t) s0 s' -> kside s' = kside s0 -> kern_same s s').
  { intros s' Hk [= E1 E2 _]. injection Sd0 as E3 E4 _. eapply (kern_same_trans s s0); [|by eapply kept_kern; [exact Hk|apply child_only|..]].
    split; [intros v Hv; exact (Hen0 (KPg v) Hv)|intros v f _ _; unfold frame; by rewrite Em0|done|done]. }
  apply wp_bind, wp_attempt. eapply wp_mono; [apply (copy_loop_ok U t s0 USER_FUEL PAGE_USER s0 Hu0 Hd0); [by rewrite Hc0|done|done|unfold USER_FUEL; rewrite Z2Nat.id; vm_compute; congruence|by left]| |].
  - intros [] s1 Hc1. pose proof (cp_ok _ _ _ _ _ Hc1) as Hu1. eapply wp_known; [eapply wr_tmp_run, Hu1|]. pose proof (wr_tmp_step U [] s1 0 (uo_page _ _ _ Hu1) ltac:(lia)) as HsT.
    set (s2 := wr_ent s1 (pg_dir s1) PAGE_TMP 0) in *. pose proof (tmp_user U s1 s2 Hu1 HsT) as Hu2. apply wp_ret. pose proof (cp_kept _ _ _ _ _ Hc1) as Hk1.
    assert (Hk2 : kept (child t) s0 s2) by (eapply kept_trans; [exact Hk1|]; eapply kept_mono; [|apply HsT]; by intros ? []).
    split; [done|]. split; [change (pg_dir s2) with (pg_dir s1); by rewrite (kp_cur _ _ _ Hk1)|]. split; [|split; [by apply Hview|by apply Hkern; [|apply Hc1]]].
    + intros a. unfold umem. destruct (decide (is_user (a / PAGE_SIZE))) as [Hv|]; [|done]. f_equal. rewrite <- Hp0, <- Hc0 by done.
      rewrite <- (cp_done _ _ _ _ _ Hc1) by (done || (unfold is_user in Hv; lia)). apply (kept_nothing_view U s1 s2); [done|done|apply HsT|done].
  - intros e s1 (-> & Hu1 & Hk1 & Sd1). eapply wp_known; [eapply wr_tmp_run, Hu1|]. pose proof (wr_tmp_step U [] s1 0 (uo_page _ _ _ Hu1) ltac:(lia)) as HsT.
    set (s2 := wr_ent s1 (pg_dir s1) PAGE_TMP 0) in *. apply wp_fail. split; [done|]. pose proof (tmp_user U s1 s2 Hu1 HsT) as Hu2. split; [done|].
    split; [change (pg_dir s2) with (pg_dir s1); by rewrite (kp_cur _ _ _ Hk1)|].
    assert (Hk2 : kept (child t) s0 s2) by (eapply kept_trans; [exact Hk1|]; eapply kept_mono; [|apply HsT]; by intros ? []). split; [by apply Hkern|by apply Hview].
Qed.
