(* ===== verification/PageProps.v ===== *)
(** The paging code implements separate address spaces over one kernel: the memory
    each task sees, and the memory of the kernel's blocks, as functions from
    addresses to bytes, change only by what the specification of an operation says.
    Faults, lazy allocation, copy on write and the sharing of frames and tables are
    not seen. *)

From S2P Require Import Prelude Frame PageFrames PageFramesOk Page PageOk PageKern PageHeap PageHeapProps PageUser PageUserOk PageUmem PageSpace PageClean PageFork.

(** * What the kernel sees *)

(** The byte at address [a] of a block, or [None]. *)
Definition kpage_at (s : pager) (v : Z) : Prop :=
  PAGE_DYN <= v < PAGE_USER /\ 0 < pte_frame (kent s v) /\ kent s v = pte (pte_frame (kent s v)) PGF_KERN.
#[export] Instance kpage_at_dec s v : Decision (kpage_at s v).
Proof. apply _. Defined.
Definition kmem (s : pager) (a : Z) : option Z := if decide (kpage_at s (a / PAGE_SIZE)) then Some (kbyte s a) else None.

Lemma ktab_entry s v : PAGE_DYN <= v < PAGE_USER -> kent s v <> 0 -> ktab s (v / 1024).
Proof.
  intros Hv He. split; [right; pose proof (dyn_tab v Hv); lia|]. intros E. apply He. unfold kent, tabent. by rewrite E.
Qed.
Section kmem.
Context {U L : list Z} {s : pager} (Hs : page_ok U L s).

Lemma kpage_spec v : kpage_at s v <-> in_dyn v 1 /\ mapped s v 1.
Proof.
  destruct kern_flags as (Hfl & Hp & _). split.
  - intros (Hv & Hf & E). split; [unfold in_dyn; lia|]. intros v' Hv'. replace v' with v by lia. split.
    + apply ktab_entry; [done|]. intros E0. rewrite <- (pte_present (pte_frame (kent s v))), <- E, E0, has_zero in Hp. done.
    + exists (pte_frame (kent s v)). split; [|done]. split; [done|]. apply pte_frame_range, (tabent_range Hs).
  - intros [Hd Hm]. destruct (Hm v ltac:(lia)) as (_ & f & Hf & E). split; [unfold in_dyn in Hd; lia|]. rewrite E, pte_frame_pte by lia. split; [lia|done].
Qed.
Lemma kmem_in_mem a : in_mem s a <-> kpage_at s (a / PAGE_SIZE).
Proof. by rewrite kpage_spec. Qed.
Lemma kpage_owned v : kpage_at s v -> pte_frame (kent s v) ∈ owned (KPg v) (kent s v).
Proof.
  intros Hk. pose proof (pte_frame_range _ (tabent_range Hs (pg_dir s) v)) as Hr. fold (kent s v) in Hr. destruct Hk as (_ & Hf & E).
  remember (pte_frame (kent s v)) as f eqn:Ef. rewrite E, kern_owned by lia. left.
Qed.

Lemma kern_same_kmem s' : kern_same s s' -> forall a, kmem s' a = kmem s a.
Proof.
  intros Hk a. assert (Hp : kpage_at s' (a / PAGE_SIZE) <-> kpage_at s (a / PAGE_SIZE)).
  { unfold kpage_at. split; intros (Hv & H); (split; [done|]); by rewrite (ks_ent _ _ Hk) in *. }
  unfold kmem. destruct (decide (kpage_at s (a / PAGE_SIZE))) as [Hv|Hv]; [rewrite decide_True by (by apply Hp)|by rewrite decide_False by (by rewrite Hp)].
  pose proof (proj1 Hv) as Hd. f_equal. unfold kbyte. rewrite (ks_ent _ _ Hk) by done. f_equal. apply (ks_data _ _ Hk (a / PAGE_SIZE)); [done|]. by apply kpage_owned.
Qed.
(** The blocks that are not in [Y] keep their contents. *)
Lemma moved_kmem s' Y a b : moved Y s s' -> kmem s a = Some b -> ~ Y (a / PAGE_SIZE) -> kmem s' a = Some b.
Proof.
  intros (X & Hk & Hx). unfold kmem. destruct (decide (kpage_at s (a / PAGE_SIZE))) as [Hp|]; [|done]. intros [= <-] Hy. pose proof (proj1 Hp) as Hv.
  assert (Hn : ~ X (KPg (a / PAGE_SIZE))).
  { intros (v & [= <-] & [E0|?])%Hx; [|done]. destruct Hp as (_ & Hf & _). rewrite E0 in Hf. done. }
  assert (E : kent s' (a / PAGE_SIZE) = kent s (a / PAGE_SIZE)) by (by apply (kept_kent _ _ _ _ Hk)).
  rewrite decide_True by (unfold kpage_at; by rewrite E). f_equal. apply (kbyte_kept _ s s' a Hk); [by apply kmem_in_mem|done].
Qed.
End kmem.

(** * The kernel does not disturb user memory *)

(** No task shares a page of [Y] until it writes to it. *)
Definition unshared (s : pager) (Y : Z -> Prop) : Prop :=
  forall d v f w, is_user v -> tabent s d v = pte f PGF_CPAGE -> Y w -> ~ at_place s (KPg w) f.

Lemma unshared_no_page s : unshared s no_page.
Proof. by intros d v f w _ _ []. Qed.

Lemma user_ok_moved U s s' Y :
  user_ok U [] s -> page_ok U [] s' -> moved Y s s' -> utabs s s' -> unshared s Y -> user_ok U [] s' /\ forall d a, umem s' d a = umem s d a.
Proof.
  intros Hu Hs' (X & Hk & Hx) Ht Hy. assert (Hno : forall d v, ~ X (UPg d v)) by (by intros d v (v' & ? & _)%Hx).
  assert (He : forall d v, is_user v -> tabent s' d v = tabent s d v) by (intros d v Hv; by eapply kept_uent).
  assert (Hw : forall d v f w, is_user v -> tabent s d v = pte f PGF_CPAGE -> at_place s (KPg w) f -> ~ X (KPg w)).
  { intros d v f w Hv E Ha (w' & [= <-] & [E0|Hyw])%Hx; [|by eapply Hy]. apply at_place_owned in Ha as [_ Ha]. cbn [entry] in Ha. fold (kent s w) in Ha.
    rewrite E0 in Ha. by apply not_elem_of_nil in Ha. }
  split; [split; [done| |]|].
  - intros d t Htr. rewrite Ht by done. by apply Hu.
  - intros d v Hv. rewrite He by done. pose proof (uo_form _ _ _ Hu d v Hv) as Hf. remember (tabent s d v) as e eqn:Ee.
    destruct Hf as [| |f Hf|f w Hf Ha]; [constructor|constructor|by constructor|]. apply (UCow _ f w Hf). pose proof (Hw d v f w Hv (eq_sym Ee) Ha) as Hn.
    apply at_place_owned in Ha as [Hvw Ha]. apply at_place_owned. split; [done|]. by rewrite (kp_ent _ _ _ Hk).
  - intros d. apply umem_upage. intros v Hv. unfold upage. rewrite He by done. pose proof (uo_form _ _ _ Hu d v Hv) as Hf. remember (tabent s d v) as e eqn:Ee.
    unfold page_of. destruct (has e PGF_PRESENT) eqn:Ep; [|done]. f_equal. destruct Hf as [| |f Hf|f w Hf Ha]; [by rewrite has_zero in Ep|done| |].
    + apply (kp_data _ _ _ Hk (UPg d v)); [done|done|apply Hno|]. cbn [entry]. destruct upage_flags as (Hfl & _). rewrite <- Ee, own_owned, pte_frame_pte by lia. left.
    + destruct cpage_flags as (Hfl & _). rewrite pte_frame_pte by lia. pose proof (Hw d v f w Hv (eq_sym Ee) Ha) as Hn. apply at_place_owned in Ha as [Hvw Ha].
      by apply (kp_data _ _ _ Hk (KPg w)).
Qed.

(** * User memory does not disturb the kernel *)

Lemma run_in_same s s' p n P :
  (forall v, PAGE_DYN <= v < PAGE_USER -> kent s' v = kent s v) -> in_dyn p n -> (forall v, p <= v < p + n -> kent s v <> 0) -> run_in s p n P -> run_in s' p n P.
Proof.
  intros He Hd Hn Hr v Hv. assert (Hvd : PAGE_DYN <= v < PAGE_USER) by (unfold in_dyn in Hd; lia). rewrite He by done. split; [|by apply Hr].
  apply ktab_entry; [done|]. rewrite He by done. by apply Hn.
Qed.
Lemma heap_ok_same U s s' rs : heap_ok U s rs -> page_ok U [] s' -> kern_same s s' -> heap_ok U s' rs.
Proof.
  intros Hh Hs' Hk. pose proof (ks_ent _ _ Hk) as He. split; [done| |apply Hh| |by rewrite (ks_list _ _ Hk), (ho_list _ _ _ Hh)|by rewrite (ks_vfree _ _ Hk), (ho_vfree _ _ _ Hh)].
  - intros r Hr. destruct (ho_in _ _ _ Hh r Hr) as [Hd Hm]. split; [done|]. pose proof (r_entry s r) as Hne. specialize (fun v => Hne v Hm). unfold r_in in Hne.
    destruct r as [h|p n|p n phys cache]; cbn in *.
    + destruct Hm as [? Hm]. split; [done|]. by eapply run_in_same.
    + destruct Hm as (? & [m (? & ? & Hm)] & Hf). split; [done|]. split.
      * exists m. split; [done|]. split; [done|]. eapply run_in_same; [done| | |done]; [unfold in_dyn in *; lia|]. intros v Hv. apply Hne. lia.
      * refine (run_in_same s s' (p + n) 1 (fun _ e => e = PGF_SPACE_IN_USE) He _ _ Hf); [unfold in_dyn in *; lia|]. intros v Hv. apply Hne. lia.
    + destruct Hm as [? Hm]. split; [done|]. by eapply run_in_same.
  - intros v Hv. rewrite He by done. by apply Hh.
Qed.

(** * The specification *)

(** The current task, the memory of each task, and the memory of the kernel. *)
Record spaces := Spaces { sp_cur : nat; sp_mem : nat -> Z -> option Z; sp_kern : Z -> option Z }.
Definition abs (s : pager) : spaces := Spaces (pg_dir s) (umem s) (kmem s).

Inductive uop :=
| UAlloc (a b : Z)
| UFault (p : Z)
| UWrite (a : Z) (src : list Z)
| URead (a size : Z)
| USet (a v size : Z)
| UShare (n : nat) (u l : Z)
| UClean
| UFork (t : nat) (phys : Z)
| USwitch (d : nat).
Inductive mem_op := KOp (op : hp_op) | UOp (op : uop).

(** The memory of the tasks afterwards. *)
Definition uview (op : uop) (A : spaces) (d : nat) (x : Z) : option Z :=
  match op with
  | UAlloc a b => if decide (d = sp_cur A /\ a <= x / PAGE_SIZE < b /\ sp_mem A d x = None) then Some 0 else sp_mem A d x
  | UWrite a src => if decide (d = sp_cur A /\ a <= x < a + Z.of_nat (length src)) then src !! Z.to_nat (x - a) else sp_mem A d x
  | USet a v size => if decide (d = sp_cur A /\ a <= x < a + size) then Some (v mod 256) else sp_mem A d x
  | UShare n u l => if decide (d = sp_cur A /\ u <= x / PAGE_SIZE < u + Z.of_nat n) then sp_kern A (x + (l - u) * PAGE_SIZE) else sp_mem A d x
  | UClean => if decide (d = sp_cur A) then None else sp_mem A d x
  | UFork t _ => if decide (d = t) then sp_mem A (sp_cur A) x else sp_mem A d x
  | UFault _ | URead _ _ | USwitch _ => sp_mem A d x
  end.
(** What the operations of tasks do, [r] being the bytes that were read: kernel
    memory stays as it is. *)
Definition uspec (op : uop) (r : list Z) (A A' : spaces) : Prop :=
  sp_cur A' = (match op with USwitch d => d | _ => sp_cur A end) /\
  (match op with URead a size => Z.of_nat (length r) = size /\ forall j, 0 <= j < size -> sp_mem A (sp_cur A) (a + j) = r !! Z.to_nat j | _ => True end) /\
  (forall a, sp_kern A' a = sp_kern A a) /\
  forall d x, sp_mem A' d x = uview op A d x.
(** What the operations on kernel memory do: no task sees them, and blocks they were
    not called for keep their contents. *)
Definition kspec (Y : Z -> Prop) (A A' : spaces) : Prop :=
  sp_cur A' = sp_cur A /\ (forall d x, sp_mem A' d x = sp_mem A d x) /\ forall a b, sp_kern A a = Some b -> ~ Y (a / PAGE_SIZE) -> sp_kern A' a = Some b.
Definition mspec (op : mem_op) (r : Z * list Z) (A A' : spaces) : Prop :=
  match op with KOp op => kspec (touched op) A A' | UOp op => uspec op r.2 A A' end.
(** After an error everything is as it was; the child of a failed fork, and a task
    whose loader could not be mapped, have some of the pages already. *)
Definition mfail (op : mem_op) (A A' : spaces) : Prop :=
  match op with
  | KOp _ => kspec no_page A A'
  | UOp op =>
    sp_cur A' = sp_cur A /\ (forall a, sp_kern A' a = sp_kern A a) /\
    forall d x, (match op with UFork t _ => d <> t | UShare _ _ _ => d <> sp_cur A | _ => True end) -> sp_mem A' d x = sp_mem A d x
  end.
Inductive astep : spaces -> spaces -> Prop :=
| ARet op r A A' : mspec op r A A' -> astep A A'
| AFail op A A' : mfail op A A' -> astep A A'.

(** * The code *)

Definition uexec (op : uop) : M pager (list Z) :=
  match op with
  | UAlloc a b => u_alloc a b;;; ret []
  | UFault p => pg_uauto p;;; ret []
  | UWrite a src => tucpy a src;;; ret []
  | URead a size => fucpy a size
  | USet a v size => uset a v size;;; ret []
  | UShare n u l => ldr_cow n u l;;; ret []
  | UClean => uclean;;; ret []
  | UFork t phys => copy_pages t phys;;; ret []
  | USwitch d => pg_setdir d;;; ret []
  end.
Definition ulegal (s : pager) (op : uop) : Prop :=
  match op with
  | UAlloc _ _ | UClean => True
  | UFault p => is_user p
  | UWrite a src => 0 <= a < 2 ^ 32 /\ Z.of_nat (length src) <= 2 ^ 32 - 4096 /\ is_bytes src
  | URead a size | USet a _ size => 0 <= a < 2 ^ 32 /\ 0 <= size <= 2 ^ 32 - 4096
  | UShare n u l =>
    PAGE_USER <= u /\ u + Z.of_nat n <= PAGE_USER_END /\ in_dyn l (Z.of_nat n) /\ mapped s l (Z.of_nat n) /\
    forall v, u <= v < u + Z.of_nat n -> owned (UPg (pg_dir s) v) (tabent s (pg_dir s) v) = []
  | UFork t _ => pg_dirs s !! t = None
  | USwitch d => is_Some (pg_dirs s !! d)
  end.
Definition mem_exec (op : mem_op) : M pager (Z * list Z) :=
  match op with KOp op => a <~ hp_exec op;; ret (a, []) | UOp op => l <~ uexec op;; ret (0, l) end.
Definition mem_legal (s : pager) (rs : list region) (op : mem_op) : Prop :=
  match op with KOp op => hp_legal s rs op /\ unshared s (touched op) | UOp op => ulegal s op end.
Definition mem_after (rs : list region) (op : mem_op) (r : Z * list Z) : list region :=
  match op with KOp op => hp_after rs op r.1 | UOp _ => rs end.
(** A step after which no frame that holds the list of free frames is in use. *)
Inductive mem_step (U : list Z) : pager * list region -> pager * list region -> Prop :=
| MsRet s rs op r s' : mem_legal s rs op -> mem_exec op s = Ret r s' -> list_alone U s' -> mem_step U (s, rs) (s', mem_after rs op r)
| MsErr s rs op e s' : mem_legal s rs op -> mem_exec op s = Err e s' -> list_alone U s' -> mem_step U (s, rs) (s', rs).
(** Where an operation panics. *)
Definition mem_stops (s : pager) (op : mem_op) (h : halt) : Prop := match op with KOp op => hp_stops s op h | UOp _ => False end.
Definition mem_ok (U : list Z) (s : pager) (rs : list region) : Prop := heap_ok U s rs /\ user_ok U [] s.

(** The kernel's part is the same in every directory. *)
Lemma setdir_ok U s d : user_ok U [] s -> is_Some (pg_dirs s !! d) -> user_ok U [] (set_dir d s) /\ kern_same s (set_dir d s).
Proof.
  intros Hu Hd. pose proof (uo_page _ _ _ Hu) as Hs. pose proof (po_tabs _ _ _ Hs) as Hb. set (s' := set_dir d s).
  assert (Hk : forall k, 0 <= k < 256 -> k <> 4 -> dirent s d k = dirent s (pg_dir s) k) by (intros; by apply Hb).
  assert (Hen : forall pl, pvalid pl -> entry s' pl = entry s pl).
  { intros pl Hpl. destruct pl as [k|v|d' k|d' v]; cbn [entry pvalid] in *; [|  |done|done]; change (pg_dir s') with d; unfold PAGE_DYN, PAGE_USER in Hpl.
    - apply Hk; lia.
    - change (tabent s' d v) with (tabent s d v). unfold tabent. rewrite Hk by (Z.div_mod_to_equations; lia). done. }
  assert (Htabs : tabs_ok s').
  { destruct Hb as [H1 H2 H3 H4 H5 H6 H7]. split; change (pg_dirs s') with (pg_dirs s); change (pg_dir s') with d; try done.
    - intros d' k Hd' Hkr Hne. change (dirent s d' k = dirent s d k). rewrite Hk by done. by apply H3.
    - change (dirent s d 0 = pte PAGE_ITAB PGF_KERN). by rewrite Hk by lia.
    - destruct H6 as [top [Hr Ht]]. exists top. split; [done|]. intros k Hkr. change (dirent s' (pg_dir s') k) with (dirent s d k). rewrite Hk by lia. by apply Ht. }
  split; [split; [by eapply page_ok_entries| |]|].
  - intros d' k Hkr. by apply (uo_tab _ _ _ Hu).
  - intros d' v Hv. change (tabent s' d' v) with (tabent s d' v). destruct (uo_form _ _ _ Hu d' v Hv) as [| |f Hf|f w Hf Ha]; [constructor|constructor|by constructor|].
    apply (UCow _ f w Hf). apply at_place_owned in Ha as [Hvw Ha]. apply at_place_owned. split; [done|]. by rewrite Hen.
  - split; [intros v Hv; exact (Hen (KPg v) Hv)|done|done|done].
Qed.

Lemma wp_ret_nil {A} (m : M pager A) (Q : list Z -> pager -> Prop) E s : wp m (fun _ => Q []) E s -> wp (m;;; ret []) Q E s.
Proof. intros H. apply wp_bind. eapply wp_mono; [exact H|done|done]. Qed.

(** An operation that succeeds changes the memory of the current task as [f] says. *)
Lemma cur_only U s s' (f : Z -> option Z) :
  user_ok U [] s -> others_kept s s' -> (forall x, umem s' (pg_dir s) x = f x) -> forall d x, umem s' d x = if decide (d = pg_dir s) then f x else umem s d x.
Proof. intros Hu Hk Hf d x. destruct (decide (d = pg_dir s)) as [->|]; [done|]. by eapply others_umem. Qed.

Definition ustep_ok (U : list Z) (s : pager) (op : uop) (r : list Z) (s' : pager) : Prop :=
  user_ok U [] s' /\ kern_same s s' /\ uspec op r (abs s) (abs s').
Definition ufail_ok (U : list Z) (s : pager) (op : uop) (e : Z) (s' : pager) : Prop :=
  user_ok U [] s' /\ kern_same s s' /\ (e = EFAULT \/ e = ENOMEM) /\ mfail (UOp op) (abs s) (abs s').

Lemma unseen_fail U s op e s' : unseen U s s' -> e = EFAULT \/ e = ENOMEM -> user_ok U [] s -> ufail_ok U s op e s'.
Proof.
  intros (Hu' & Hk & Hm & Hks & _) He Hu. split; [done|]. split; [done|]. split; [done|]. split; [apply Hk|].
  split; [by apply (kern_same_kmem (uo_page _ _ _ Hu))|]. intros d x _. apply Hm.
Qed.
(** An operation whose effect on the memory of the current task is [f]. *)
Lemma cur_step U s s' (f : Z -> option Z) op r :
  user_ok U [] s -> user_ok U [] s' -> others_kept s s' -> kern_same s s' -> (forall x, umem s' (pg_dir s) x = f x) ->
  match op with URead _ _ | USwitch _ => False | _ => True end ->
  (forall d x, (if decide (d = pg_dir s) then f x else umem s d x) = uview op (abs s) d x) -> ustep_ok U s op r s'.
Proof.
  intros Hu Hu' Hk Hks Hm Hop Hf. split; [done|]. split; [done|]. split; [destruct op; try done; apply Hk|]. split; [by destruct op|].
  split; [by apply (kern_same_kmem (uo_page _ _ _ Hu))|]. intros d x. rewrite <- Hf. by apply (cur_only U).
Qed.

(** The pages of the loader, seen by the task. *)
Lemma share_view U s s' n u l d x :
  user_ok U [] s -> PAGE_USER <= u -> u + Z.of_nat n <= PAGE_USER_END -> in_dyn l (Z.of_nat n) -> mapped s l (Z.of_nat n) ->
  kept (upages (pg_dir s) u (Z.of_nat n)) s s' -> (forall v, u <= v < u + Z.of_nat n -> upage s' (pg_dir s) v = Some (frame s (pte_frame (kent s (l + (v - u)))))) ->
  (if decide (d = pg_dir s) then umem s' (pg_dir s) x else umem s d x) =
  (if decide (d = pg_dir s /\ u <= x / PAGE_SIZE < u + Z.of_nat n) then kmem s (x + (l - u) * PAGE_SIZE) else umem s d x).
Proof.
  intros Hu H1 H2 Hd Hm Hk Hp. destruct (decide (d = pg_dir s)) as [->|]; [|by rewrite decide_False by tauto]. unfold umem.
  destruct (decide (u <= x / PAGE_SIZE < u + Z.of_nat n)) as [Hx|Hx].
  - rewrite (decide_True (P := _ /\ _)) by done. rewrite decide_True by (unfold is_user; lia). rewrite Hp by done. cbn [fmap option_fmap option_map]. unfold kmem, kbyte.
    assert (E : (x + (l - u) * PAGE_SIZE) / PAGE_SIZE = l + (x / PAGE_SIZE - u)) by (rewrite Z.div_add by done; lia). rewrite E, Z.mod_add by done.
    rewrite decide_True; [done|]. apply (kpage_spec (uo_page _ _ _ Hu)). split; [unfold in_dyn in *; lia|]. intros v Hv. apply Hm. lia.
  - rewrite (decide_False (P := _ /\ _)) by tauto. destruct (decide (is_user (x / PAGE_SIZE))) as [Hv|]; [|done]. f_equal.
    eapply upage_kept; [exact Hu|exact Hk|apply upages_only|done|]. by intros (v & [= <-] & ?).
Qed.
Lemma moved_spec U s rs s' rs' Y :
  heap_ok U s rs -> heap_ok U s' rs' -> moved Y s s' -> (forall d a, umem s' d a = umem s d a) -> kspec Y (abs s) (abs s').
Proof.
  intros Hh Hh' Hm Hv. split; [by destruct Hm as (X & Hk & _); apply Hk|]. split; [done|]. intros a b Ha Hy. by eapply (moved_kmem (ho_page _ _ _ Hh)).
Qed.

Lemma uexec_ok U s op : user_ok U [] s -> ulegal s op -> wp (uexec op) (ustep_ok U s op) (ufail_ok U s op) s.
Proof.
  intros Hu. pose proof (kern_same_kmem (uo_page _ _ _ Hu)) as Hkm. destruct op as [a b|p|a src|a size|a v size|n u l| |t phys|d]; cbn [ulegal uexec].
  - intros _. apply wp_ret_nil. eapply wp_mono; [by apply (u_alloc_ok U s a b)| |].
    + intros [] s' (Hu' & Hk & _ & _ & Hks & Hm). eapply cur_step; [done|done|done|done|exact Hm|done|]. intros d x. cbn [uview abs sp_cur sp_mem sp_kern].
      destruct (decide (d = pg_dir s)) as [->|]; [by repeat case_decide; naive_solver|by rewrite decide_False by tauto].
    + intros e s' ((Hu' & Hk & Hks & Hm) & He). split; [done|]. split; [done|]. split; [naive_solver|]. split; [apply Hk|].
      split; [by apply Hkm|]. intros d x _. apply Hm.
  - intros Hp. apply wp_ret_nil. eapply wp_mono; [by apply (pg_uauto_ok U s p)| |].
    + intros [] s' [Hst _]. pose proof (uauto_view U p s s' Hu Hp Hst) as Hv. pose proof (view_unseen _ _ _ _ _ Hv) as (Hu' & Hk & Hm & Hks & _).
      split; [done|]. split; [done|]. split; [apply Hk|]. split; [done|]. split; [by apply Hkm|done].
    + intros e s' [-> He]. split; [done|]. split; [apply kern_same_refl|]. split; [naive_solver|done].
  - intros (Ha & Hl & Hb). apply wp_ret_nil. eapply wp_mono; [by apply (tucpy_ok U s a src)| |].
    + intros [] s' (Hu' & Hk & _ & Hks & _ & Hm). eapply cur_step; [done|done|done|done|exact Hm|done|]. intros d x. cbn [uview abs sp_cur sp_mem sp_kern].
      destruct (decide (d = pg_dir s)) as [->|]; [by repeat case_decide; naive_solver|by rewrite decide_False by tauto].
    + intros e s' [Hun He]. apply unseen_fail; [done|unfold copy_err in He; naive_solver|done].
  - intros (Ha & Hl). eapply wp_mono; [by apply (fucpy_ok U s a size)| |].
    + intros l s' ((Hu' & Hk & Hm & Hks & _) & Hlen & Hj). split; [done|]. split; [done|]. split; [apply Hk|]. split; [done|]. split; [by apply Hkm|done].
    + intros e s' [Hun He]. apply unseen_fail; [done|unfold copy_err in He; naive_solver|done].
  - intros (Ha & Hl). apply wp_ret_nil. eapply wp_mono; [by apply (uset_ok U s a v size)| |].
    + intros [] s' (Hu' & Hk & Hks & Hm). eapply cur_step; [done|done|done|done|exact Hm|done|]. intros d x. cbn [uview abs sp_cur sp_mem sp_kern].
      destruct (decide (d = pg_dir s)) as [->|]; [by repeat case_decide; naive_solver|by rewrite decide_False by tauto].
    + intros e s' [Hun He]. apply unseen_fail; [done|unfold copy_err in He; naive_solver|done].
  - intros (H1 & H2 & Hd & Hm & Ho). apply wp_ret_nil. eapply wp_mono; [by apply (ldr_cow_ok U n u l s)| |].
    + intros [] s' (Hu' & Hk & Sd & Hp). pose proof (others_upages _ _ _ _ Hk) as Hok. eapply cur_step; [done|done|done|by apply others_kern|done|done|].
      intros d x. cbn [uview abs sp_cur sp_mem sp_kern]. by eapply share_view.
    + intros e s' (-> & Hu' & Hk & Sd). pose proof (others_upages _ _ _ _ Hk) as Hok. pose proof (others_kern _ _ Hok Sd) as Hks.
      split; [done|]. split; [done|]. split; [by right|]. split; [apply Hok|]. split; [by apply Hkm|]. intros d x Hd'. by apply (others_umem U s s').
  - intros _. apply wp_ret_nil. eapply wp_mono; [by apply (uclean_ok U s)| |done]. intros [] s' (Hu' & Hc & _ & Hm & Ho & _ & Hks & _). split; [done|]. split; [done|].
    split; [done|]. split; [done|]. split; [by apply Hkm|]. intros d x. cbn [uview abs sp_cur sp_mem sp_kern]. destruct (decide (d = pg_dir s)) as [->|]; [apply Hm|by apply Ho].
  - intros Hn. apply wp_ret_nil. eapply wp_mono; [by apply (copy_pages_ok U s t phys)| |].
    + intros [] s' (Hu' & Hc & Hm & Ho & Hks). split; [done|]. split; [done|]. split; [done|]. split; [done|]. split; [by apply Hkm|].
      intros d x. cbn [uview abs sp_cur sp_mem sp_kern]. destruct (decide (d = t)) as [->|]; [apply Hm|by apply Ho].
    + intros e s' (-> & Hu' & Hc & Hks & Ho). split; [done|]. split; [done|]. split; [by right|]. split; [done|]. split; [by apply Hkm|]. intros d x Hd. by apply Ho.
  - intros Hd. apply wp_ret_nil. unfold pg_setdir, wp, modify. destruct (setdir_ok U s d Hu Hd) as [Hu' Hks]. split; [done|]. split; [done|].
    split; [done|]. split; [done|]. split; [by apply Hkm|done].
Qed.

Lemma mem_exec_ok U s rs op :
  mem_ok U s rs -> mem_legal s rs op ->
  wpk (mem_stops s op) (mem_exec op) (fun r s' => mem_ok U s' (mem_after rs op r) /\ mspec op r (abs s) (abs s'))
    (fun e s' => mem_ok U s' rs /\ (e = EFAULT \/ e = ENOMEM) /\ mfail op (abs s) (abs s')) s.
Proof.
  intros [Hh Hu]. destruct op as [op|op]; cbn [mem_legal mem_exec mem_after mspec mem_stops].
  - intros [Hl Hun]. apply wpk_bind. eapply wpk_mono; [apply wpk_wlp_and; [by apply (hp_exec_ok U s rs op)|by apply (hp_utabs U s rs op)]| | |done].
    + intros a s' [[Hh' Hm] Ht]. apply wpk_wp, wp_ret. destruct (user_ok_moved U s s' _ Hu (ho_page _ _ _ Hh') Hm Ht Hun) as [Hu' Hv]. split; [done|].
      by eapply moved_spec.
    + intros e s' [(-> & Hh' & Hm) Ht]. destruct (user_ok_moved U s s' _ Hu (ho_page _ _ _ Hh') Hm Ht (unshared_no_page s)) as [Hu' Hv]. split; [done|].
      split; [by right|]. by eapply moved_spec.
  - intros Hl. apply wpk_wp, wp_bind. eapply wp_mono; [by apply (uexec_ok U s op)| |].
    + intros l s' (Hu' & Hks & Hs). apply wp_ret. split; [|done]. split; [|done]. eapply heap_ok_same; [done|apply Hu'|done].
    + intros e s' (Hu' & Hks & He & Hf). split; [|done]. split; [|done]. eapply heap_ok_same; [done|apply Hu'|done].
Qed.

Lemma mem_history U s0 rs0 s rs : mem_ok U s0 rs0 -> rtc (mem_step U) (s0, rs0) (s, rs) -> mem_ok U s rs /\ rtc astep (abs s0) (abs s).
Proof.
  intros H0 Hr. change (mem_ok U (s, rs).1 (s, rs).2 /\ rtc astep (abs s0) (abs (s, rs).1)). revert Hr. generalize (s, rs). clear s rs.
  apply (rtc_ind_r (fun x => mem_ok U x.1 x.2 /\ rtc astep (abs s0) (abs x.1)) (s0, rs0)); [done|].
  intros x y _ Hst [Hm Ha]. destruct Hst as [s rs op' r s' Hl E _|s rs op' e s' Hl E _]; cbn [fst snd] in *; pose proof (mem_exec_ok U s rs op' Hm Hl) as Hw;
    unfold wpk in Hw; rewrite E in Hw.
  - destruct Hw as [Hm' Hs]. split; [done|]. eapply rtc_r; [exact Ha|by eapply ARet].
  - destruct Hw as (Hm' & _ & Hs). split; [done|]. eapply rtc_r; [exact Ha|by eapply AFail].
Qed.

(** C3. The paging code refines separate address spaces over one kernel, in every
    history of kernel allocations of all kinds, user allocations, faults, copies from
    and to the kernel, pages shared until they are written to, exit, fork and
    switches of tasks: the memory a task sees changes exactly as the specification
    of the operation says, and not by what another task or the kernel does, by a
    fault, by copy on write, or by an operation that fails; the kernel's blocks keep
    their contents but for the block an operation was called for.  The blocks never
    overlap, every frame stays free or at one place, and the next operation returns,
    with EFAULT or ENOMEM at worst.  The one panic left is that of an allocation of
    kernel memory when frame 4095 is free and all other free frames are used up.

    The operations are those [mem_legal] allows: sizes whose pages do not overflow
    32 bits; requests for which there is room behind the last page table of the
    kernel ([fits]); only what was given is given back; the kernel does not write to
    or give back pages that tasks share with it until they are written to; a fork
    makes a new directory and a switch goes to one that is there.  The history ends
    where a frame that holds the list of free frames is handed out ([list_alone]). *)
Theorem memory_refines U s0 rs0 s rs op :
  mem_ok U s0 rs0 -> list_alone U s0 -> rtc (mem_step U) (s0, rs0) (s, rs) -> mem_legal s rs op ->
  mem_ok U s rs /\ rtc astep (abs s0) (abs s) /\
  wpk (mem_stops s op) (mem_exec op) (fun r s' => list_alone U s' -> mem_ok U s' (mem_after rs op r) /\ mspec op r (abs s) (abs s'))
    (fun e s' => list_alone U s' -> mem_ok U s' rs /\ (e = EFAULT \/ e = ENOMEM) /\ mfail op (abs s) (abs s')) s.
Proof.
  intros H0 _ Hr Hl. destruct (mem_history U s0 rs0 s rs H0 Hr) as [Hm Ha]. split; [done|]. split; [done|].
  eapply wpk_mono; [by apply (mem_exec_ok U s rs op)| | |done]; auto.
Qed.

