(* ===== verification/PageDemo.v ===== *)
(** Paging on concrete memory: a machine with four free frames, the memory map of a
    small machine, and kernel and user memory over the four frames, where the first
    directory has the table of the kernel's image and nothing else. *)

From S2P Require Import Prelude Frame PageFrames PageFramesOk PageInit Page PageOk PageKern PageHeap PageHeapProps PageUser PageUserOk PageUmem PageSpace PageClean PageFork PageProps.

(** * Four frames *)

Definition four_frames : frames :=
  Frames (Some [5000; 5001; 0; 0]) 4200 4201 2 2 4 (<[300%nat := true]> (<[301%nat := true]> (replicate 4096 false))).
Definition four : list Z := [5000; 5001; 300; 301].

Lemma four_free p : free_frame four_frames p <-> p ∈ four.
Proof.
  unfold free_frame, four, listed, dma_is_free. cbn [pg_flist pg_nfree pg_dma_map four_frames]. rewrite !elem_of_cons. split.
  - intros [Hp|[Hp Hm]]; [change (p ∈ [5000; 5001]) in Hp; rewrite !elem_of_cons in Hp; set_solver|].
    destruct (decide (p = 300)) as [|]; [tauto|]. destruct (decide (p = 301)) as [|]; [tauto|exfalso].
    rewrite !list_lookup_insert_ne in Hm by lia. by apply lookup_replicate in Hm as [? _].
  - intros [->|[->|[->|[->|[]%not_elem_of_nil]]]]; [left; set_solver..|right|right]; (split; [lia|done]).
Qed.
Lemma four_ok : shared_out four four_frames [].
Proof.
  assert (Hn : NoDup four) by (apply (bool_decide_unpack _); done).
  split; [|constructor| |by intros ? ?%not_elem_of_nil|done].
  - split; [by eexists| | |done|by vm_compute| |done|].
    + apply (bool_decide_unpack _); done.
    + change (listed four_frames) with [5000; 5001]. unfold DMA_PAGES. intros p. rewrite !elem_of_cons, elem_of_nil. lia.
    + intros p. apply four_free.
    + intros p. unfold four. rewrite !elem_of_cons, elem_of_nil. lia.
  - intros p. rewrite four_free, elem_of_nil. tauto.
Qed.


(** * Start-up *)

Definition demo_map : list kmapent := [Kmapent 2 0 0x20000; Kmapent 1 0x20000 0x7fc00; Kmapent 1 0x150000 0x600000].

Lemma demo_span me b e : me ∈ demo_map -> ent_span me = Some (b, e) -> (b, e) = (32, 159) \/ (b, e) = (336, 1872) /\ km_base me = 0x150000.
Proof.
  unfold demo_map. rewrite !elem_of_cons, elem_of_nil. intros [->|[->|[->|[]]]] [= <- <-]; [by left|by right].
Qed.

Lemma pg_init_collects_witness :
  wp (pg_init_frames demo_map)
    (fun _ s => shared_out (seqZ 336 1536) s [] /\ forall p, pg_flist_base s <= p < pg_flist_end s -> free_frame s p) (fun _ _ => False) frames0.
Proof.
  eapply wp_mono; [apply (pg_init_collects demo_map)| |done].
  - split; [intros me b e Hm Hs; destruct (demo_span me b e Hm Hs) as [[= -> ->]|[[= -> ->] _]]; lia|].
    change (concat (counted <$> demo_map)) with (seqZ 32 127 ++ seqZ 336 1536 ++ []). rewrite app_nil_r.
    apply NoDup_app. split; [apply NoDup_seqZ|]. split; [|apply NoDup_seqZ]. intros p Hp%elem_of_seqZ Hq%elem_of_seqZ. lia.
  - split; [exists 336, 1872; exists (Kmapent 1 0x150000 0x600000); split; [set_solver|done]|].
    intros b e (me & Hm & Hs & Hh). destruct (demo_span me b e Hm Hs) as [[= -> ->]|[[= -> ->] _]]; [|by vm_compute].
    exfalso. revert Hm Hs Hh. unfold demo_map. rewrite !elem_of_cons, elem_of_nil. by intros [->|[->|[->|[]]]].
  - intros _ s (Hso & _ & Hf). exact (conj Hso Hf).
Defined.

(** * Kernel and user memory *)

Definition first_dir : list Z := pte PAGE_ITAB PGF_KERN :: replicate 1023 0.
Definition four_pager : pager := Pager four_frames PAGE_DYN_COUNT {[0%nat := first_dir]} 0 ∅ 0 [] [].

Lemma four_dirent d t : 0 <= t -> dirent four_pager d t = if decide (d = 0%nat /\ t = 0) then pte PAGE_ITAB PGF_KERN else 0.
Proof.
  intros Ht. unfold dirent. cbn [pg_dirs four_pager]. destruct (decide (d = 0%nat)) as [->|Hd]; [|by rewrite lookup_singleton_ne, decide_False by naive_solver].
  rewrite lookup_singleton_eq. destruct (decide (t = 0)) as [->|Ht0]; [done|]. rewrite decide_False by tauto.
  replace (Z.to_nat t) with (S (Z.to_nat (t - 1))) by lia. unfold first_dir. cbn [lookup list_lookup].
  destruct (replicate 1023 0 !! Z.to_nat (t - 1)) as [e|] eqn:E; [|done]. by apply lookup_replicate in E as [-> _].
Qed.
Lemma four_tabent d v : 1024 <= v -> tabent four_pager d v = 0.
Proof. intros Hv. unfold tabent. rewrite four_dirent, decide_False; [done| |]; Z.div_mod_to_equations; lia. Qed.
Lemma four_entry pl : pvalid pl -> entry four_pager pl = 0.
Proof.
  unfold pvalid, PAGE_DYN, PAGE_USER. destruct pl as [t|v|d t|d v]; cbn [entry]; intros Hv; rewrite ?four_tabent by lia; try done; rewrite four_dirent, decide_False; done || lia.
Qed.
Lemma four_no_place pl f : ~ at_place four_pager pl f.
Proof. intros (Hv & Ho & _). rewrite four_entry in Ho by done. unfold owns in Ho. by rewrite has_zero in Ho. Qed.
Lemma four_top top : kern_top four_pager top <-> top = 5.
Proof.
  assert (H0 : forall t, 5 <= t < 256 -> dirent four_pager (pg_dir four_pager) t = 0) by (intros t Ht; rewrite four_dirent, decide_False; done || lia).
  split; [|intros ->; split; [lia|]; intros t Ht; rewrite H0 by done; lia].
  intros [Hr Ht]. destruct (decide (top = 5)); [done|]. apply (Ht 5) in H0; lia.
Qed.
Lemma four_tabs : tabs_ok four_pager.
Proof.
  split.
  - intros d l Hl. cbn [pg_dirs four_pager] in Hl. apply lookup_singleton_Some in Hl as [<- <-]. split; [done|]. constructor; [by vm_compute|]. by apply Forall_replicate.
  - by exists first_dir.
  - intros d t [l Hl] _ _. cbn [pg_dirs four_pager] in Hl. by apply lookup_singleton_Some in Hl as [<- _].
  - intros d t Ht. rewrite four_dirent by lia. destruct (decide _); [by right|by left].
  - done.
  - exists 5. by apply four_top.
  - intros f. by apply bytes_ok_zeros.
Qed.
Lemma four_page_ok : page_ok four [] four_pager.
Proof.
  pose proof four_ok as Ho. split.
  - apply Ho.
  - intros f. unfold four. rewrite !elem_of_cons, elem_of_nil. lia.
  - apply four_tabs.
  - by intros pl f ?%four_no_place.
  - by intros pl pl' f ?%four_no_place.
  - constructor.
  - by intros f ?%not_elem_of_nil.
  - intros f Hf. left. by apply four_free.
Qed.
Lemma four_heap_ok : heap_ok four four_pager [].
Proof.
  split; [apply four_page_ok|by intros r ?%not_elem_of_nil|done| |done|done].
  intros v Hv []. unfold kent. apply four_tabent. unfold PAGE_DYN in Hv. lia.
Qed.
Lemma four_user_ok : user_ok four [] four_pager.
Proof.
  split; [apply four_page_ok| |].
  - intros d t Ht. left. rewrite four_dirent, decide_False; done || lia.
  - intros d v Hv. rewrite four_tabent by (unfold is_user, PAGE_USER in Hv; lia). constructor.
Qed.
Lemma four_fits n : n <= PAGE_USER - 5120 -> fits four_pager n.
Proof. intros Hn top ->%four_top. right. lia. Qed.
(** The list is in frame 4200, which is none of the four. *)
Lemma four_list_alone s : page_ok four [] s -> pg_flist_base (pg_fr s) = 4200 -> pg_flist_end (pg_fr s) = 4201 -> list_alone four s.
Proof.
  intros Hs E1 E2. right. intros pl f (Hf & _)%(po_own _ _ _ Hs). unfold in_list. rewrite E1, E2. revert Hf. unfold four. rewrite !elem_of_cons, elem_of_nil. lia.
Qed.
Lemma four_alone : list_alone four four_pager.
Proof. by apply four_list_alone; [apply four_page_ok|..]. Qed.

Lemma four_mem_ok : mem_ok four four_pager [].
Proof. split; [apply four_heap_ok|apply four_user_ok]. Qed.

(** * A history *)

Definition after {A} (m : M pager A) (s : pager) : pager := match m s with Ret _ s' | Err _ s' => s' | Halt _ => s end.

(** The kernel allocates a block, the task allocates a page and writes to it. *)
Definition op_block : mem_op := KOp (HMalloc 100 [65]).
Definition op_room : mem_op := UOp (UAlloc 0x40000 0x40001).
Definition op_write : mem_op := UOp (UWrite 0x40000005 [7]).
Definition block : mhead := Mhead 5120 1 [65].
Definition pager1 : pager := after (mem_exec op_block) four_pager.
Definition pager2 : pager := after (mem_exec op_room) pager1.
Definition pager3 : pager := after (mem_exec op_write) pager2.

Lemma pager1_run : mem_exec op_block four_pager = Ret (20971552, []) pager1.
Proof. vm_compute. reflexivity. Qed.
Lemma pager2_run : mem_exec op_room pager1 = Ret (0, []) pager2.
Proof. vm_compute. reflexivity. Qed.
Lemma pager3_run : mem_exec op_write pager2 = Ret (0, []) pager3.
Proof. vm_compute. reflexivity. Qed.

Lemma op_block_legal : mem_legal four_pager [] op_block.
Proof. split; [|apply unshared_no_page]. split; [by vm_compute|]. by apply four_fits. Qed.
Lemma op_write_legal s rs : mem_legal s rs op_write.
Proof. split; [done|]. split; [by vm_compute|]. by repeat constructor. Qed.
(** A step of the history, which leaves the list where it is. *)
Lemma four_step s rs op r s' :
  mem_ok four s rs -> mem_legal s rs op -> mem_exec op s = Ret r s' -> pg_flist_base (pg_fr s') = 4200 -> pg_flist_end (pg_fr s') = 4201 ->
  mem_step four (s, rs) (s', mem_after rs op r) /\ mem_ok four s' (mem_after rs op r).
Proof.
  intros Hm Hl E E1 E2. pose proof (mem_exec_ok four s rs op Hm Hl) as Hw. unfold wpk in Hw. rewrite E in Hw. destruct Hw as [Hm' _].
  split; [|done]. apply (MsRet _ _ _ _ _ _ Hl E). apply four_list_alone; [apply Hm'|done|done].
Qed.
Lemma pager1_step : mem_step four (four_pager, []) (pager1, [RMem block]) /\ mem_ok four pager1 [RMem block].
Proof. exact (four_step _ _ _ _ _ four_mem_ok op_block_legal pager1_run ltac:(vm_compute; reflexivity) ltac:(vm_compute; reflexivity)). Qed.
Lemma pager1_ok : mem_ok four pager1 [RMem block].
Proof. exact (proj2 pager1_step). Qed.
Lemma pager2_step : mem_step four (pager1, [RMem block]) (pager2, [RMem block]) /\ mem_ok four pager2 [RMem block].
Proof. exact (four_step _ [RMem block] op_room _ _ pager1_ok I pager2_run ltac:(vm_compute; reflexivity) ltac:(vm_compute; reflexivity)). Qed.
Lemma pager3_step : mem_step four (pager2, [RMem block]) (pager3, [RMem block]) /\ mem_ok four pager3 [RMem block].
Proof. exact (four_step _ [RMem block] op_write _ _ (proj2 pager2_step) (op_write_legal _ _) pager3_run ltac:(vm_compute; reflexivity) ltac:(vm_compute; reflexivity)). Qed.
Lemma pager3_reached : rtc (mem_step four) (four_pager, []) (pager3, [RMem block]).
Proof. eapply rtc_l; [apply pager1_step|]. eapply rtc_l; [apply pager2_step|]. eapply rtc_l; [apply pager3_step|apply rtc_refl]. Qed.

Lemma memory_refines_witness :
  rtc (mem_step four) (four_pager, []) (pager3, [RMem block]) /\ umem pager3 0 0x40000005 = Some 7 /\ umem four_pager 0 0x40000005 = None /\
  mem_ok four pager3 [RMem block] /\ rtc astep (abs four_pager) (abs pager3).
Proof.
  destruct (memory_refines four four_pager [] pager3 [RMem block] (UOp UClean) four_mem_ok four_alone pager3_reached I) as (Hok & Ha & _).
  split; [exact pager3_reached|]. split; [vm_compute; reflexivity|]. split; [vm_compute; reflexivity|]. split; [exact Hok|exact Ha].
Defined.


(** * Blocks *)

Lemma wpk_Ret {S A} K (m : M S A) Q E s a s' : m s = Ret a s' -> wpk K m Q E s -> Q a s'.
Proof. unfold wpk. by intros ->. Qed.
Lemma wpk_Err {S A} K (m : M S A) Q E s e s' : m s = Err e s' -> wpk K m Q E s -> E e s'.
Proof. unfold wpk. by intros ->. Qed.
Lemma pager1_alone : list_alone four pager1.
Proof. apply four_list_alone; [apply pager1_ok|vm_compute; reflexivity..]. Qed.

Lemma block_run : kmalloc 100 [65] four_pager = Ret 20971552 pager1.
Proof. vm_compute. reflexivity. Qed.
Lemma block_legal : size_ok 100 /\ fits four_pager (npages_of 100).
Proof. split; [unfold size_ok, MHEAD_SIZE, PAGE_SIZE; lia|]. by apply four_fits. Qed.
(** A request that the four frames cannot serve. *)
Definition pager_short : pager := after (kmalloc 20000 [65]) four_pager.
Lemma short_run : kmalloc 20000 [65] four_pager = Err ENOMEM pager_short.
Proof. vm_compute. reflexivity. Qed.
Lemma short_legal : size_ok 20000 /\ fits four_pager (npages_of 20000).
Proof. split; [unfold size_ok, MHEAD_SIZE, PAGE_SIZE; lia|]. by apply four_fits. Qed.
Lemma short_count : free_count (pg_fr pager_short) = 3.
Proof. vm_compute. reflexivity. Qed.
Lemma short_alone : list_alone four pager_short.
Proof.
  destruct (wpk_Err _ _ _ _ _ _ _ short_run (kmalloc_ok four four_pager [] 20000 [65] four_heap_ok (proj1 short_legal) (proj2 short_legal))) as (_ & Hh & _).
  apply four_list_alone; [exact (heap_page _ _ _ Hh)|vm_compute; reflexivity..].
Qed.

(** A block on the first free page, and the request that fails: a page table is
    left. *)
Lemma kmalloc_spec_witness :
  (exists s' p, kmalloc 100 [65] four_pager = Ret 20971552 s' /\ heap_ok four s' [RMem (Mhead p (npages_of 100) [65])]) /\
  (exists s', kmalloc 20000 [65] four_pager = Err ENOMEM s' /\ heap_ok four s' [] /\ only_new_tables four_pager s' /\ free_count (pg_fr s') = 3).
Proof.
  split.
  - pose proof (kmalloc_spec four four_pager [] 100 [65] four_heap_ok four_alone (proj1 block_legal) (proj2 block_legal)) as H.
    destruct (wpk_Ret _ _ _ _ _ _ _ block_run H pager1_alone) as (p & _ & _ & _ & _ & _ & _ & Hh & _). exists pager1, p. split; [exact block_run|exact Hh].
  - pose proof (kmalloc_spec four four_pager [] 20000 [65] four_heap_ok four_alone (proj1 short_legal) (proj2 short_legal)) as H.
    destruct (wpk_Err _ _ _ _ _ _ _ short_run H short_alone) as (_ & Hh & Ht). exists pager_short. split; [exact short_run|]. split; [exact Hh|]. split; [exact Ht|exact short_count].
Defined.

Lemma pager1_fits n : n <= PAGE_USER - 6144 -> fits pager1 n.
Proof.
  intros Hn top [Hr Ht]. right. assert (top = 6) as ->; [|lia].
  assert (E5 : dirent pager1 (pg_dir pager1) 5 <> 0) by (vm_compute; congruence). assert (E6 : dirent pager1 (pg_dir pager1) 6 = 0) by (vm_compute; reflexivity).
  apply (Ht 6) in E6; [|lia]. destruct (decide (top <= 5)) as [H|]; [|lia]. exfalso. apply E5, Ht; [lia|exact H].
Qed.
Lemma krealloc_spec_witness :
  exists a s', krealloc 20971552 200 [66] pager1 = Ret a s' /\
    (exists p, a = start_of p /\ heap_ok four s' [RMem (Mhead p 1 [66])]) /\ forall j, 0 <= j < 200 -> kbyte s' (a + j) = kbyte pager1 (20971552 + j).
Proof.
  pose proof (krealloc_spec four pager1 [] block [] 200 [66] (proj1 pager1_ok) pager1_alone) as H. change (start_of (mh_page block)) with 20971552 in H.
  assert (E : krealloc 20971552 200 [66] pager1 = Ret 20975648 (after (krealloc 20971552 200 [66]) pager1)) by (vm_compute; reflexivity).
  assert (Hb : pg_flist_base (pg_fr (after (krealloc 20971552 200 [66]) pager1)) = 4200 /\ pg_flist_end (pg_fr (after (krealloc 20971552 200 [66]) pager1)) = 4201) by (vm_compute; split; reflexivity).
  revert E Hb. generalize (after (krealloc 20971552 200 [66]) pager1). intros s' E Hb. exists 20975648, s'. split; [exact E|].
  assert (Hsz : size_ok 200) by (unfold size_ok, MHEAD_SIZE, PAGE_SIZE; lia). assert (Hf : fits pager1 (npages_of 200)) by (apply pager1_fits; change (npages_of 200) with 1; unfold PAGE_USER; lia).
  assert (Hal : list_alone four s').
  { destruct (wpk_Ret _ _ _ _ _ _ _ E (krealloc_ok four pager1 [] block [] 200 [66] (proj1 pager1_ok) Hsz Hf)) as (p & _ & Hh & _).
    exact (four_list_alone s' (heap_page _ _ _ Hh) (proj1 Hb) (proj2 Hb)). }
  destruct (wpk_Ret _ _ _ _ _ _ _ E (H Hsz Hf) Hal) as (p & Ha & Hh & _ & _ & Hj). split; [exists p; split; [exact Ha|exact Hh]|].
  intros j Hj'. apply Hj; [exact Hj'|]. change (j < 4064). lia.
Defined.

(** * Where the code goes wrong *)

(** Two free frames, one of them the last that DMA can reach: [kmalloc] of one page
    uses the first for a table, is told that one is left, and panics. *)
Definition last_pager : pager :=
  Pager (Frames (Some [5000; 0]) 4200 4201 1 1 2 (<[4095%nat := true]> (replicate 4096 false))) PAGE_DYN_COUNT {[0%nat := first_dir]} 0 ∅ 0 [] [].
Theorem kmalloc_last_frame_panics : kmalloc 100 [65] last_pager = Halt (KPanic "pg_atmem: pg_alloc() failed").
Proof. vm_compute. reflexivity. Qed.

(** A request for more pages than the dynamic area has is given room that reaches
    into the user area. *)
Theorem adget_beyond_area :
  adget_scan (Z.to_nat PAGE_DYN_COUNT) (PAGE_DYN_COUNT + 1000) PAGE_DYN PAGE_DYN four_pager = Ret PAGE_DYN four_pager /\
  PAGE_USER < PAGE_DYN + (PAGE_DYN_COUNT + 1000).
Proof. split; [vm_compute; reflexivity|done]. Qed.

(** A request for 4 GB less one byte is given one page. *)
Theorem kmalloc_wraps :
  exists s', kmalloc (2 ^ 32 - 1) [65] four_pager = Ret 20971552 s' /\ kmalloc_list s' = [block].
Proof. eexists. split; [vm_compute; reflexivity|]. reflexivity. Qed.

(** On a machine with a little more than 16 MB the first frame that is handed out for
    DMA is the first frame of the list of free frames, which is in use. *)
Definition big_map : list kmapent := [Kmapent 1 0x150000 0xf00000].
Definition hands_out_list (o : outcome frames unit) : bool :=
  match o with
  | Ret _ s => match pg_alloc_dma 1 s with Ret p _ => (pg_flist_base s <=? p) && (p <? pg_flist_end s) && (0 <? pg_nfree s) | _ => false end
  | _ => false
  end.
Theorem list_frame_handed_out : hands_out_list (pg_init_frames big_map frames0) = true.
Proof. vm_compute. reflexivity. Qed.
