(* ===== verification/NatBamOk.v ===== *)
(** Correctness of the natfs block allocation map: the invariant [bam_ok], the
    logical map [used], and the effect of every operation on it. *)

From S2P Require Import Prelude BlockDev BlockIface Kern NatBam.

(** * Bits *)

Definition BPB : Z := 4096. (** bits of a map block *)

Definition in_bam (n : fs_nat) (nr : Z) : Prop := bam_block n <= nr < bam_block n + bam_size n.
#[export] Instance in_bam_dec n nr : Decision (in_bam n nr).
Proof. unfold in_bam. apply _. Defined.

(** The logical content of the [j]th map block, over the device contents [d]. *)
Definition lbam (n : fs_nat) (d : Z -> list Z) (j : Z) : list Z :=
  if bam_curr n =? bam_block n + j then bam_buf n else d (bam_block n + j).
Definition bit_of (b : list Z) (x : Z) : bool := Z.testbit (rd8 b (x / 8)) (x mod 8).
Definition used (n : fs_nat) (d : Z -> list Z) (nr : Z) : bool :=
  bit_of (lbam n d (nr / BPB)) (nr mod BPB).

(** The fields of [fs->nat] that a mount fixes. *)
Definition geom (n : fs_nat) : Z * Z * Z * Z * Z * Z * Z :=
  (bam_block n, bam_size n, data_block n, data_size n, root_block n, n_ndirblks n, n_nindirlev n).

Section bits.
Implicit Types (b : list Z) (x y : Z).

Lemma bit_of_word b x :
  is_bytes b -> 0 <= x -> bit_of b x = Z.testbit (get32 b (4 * (x / 32))) (x mod 32).
Proof.
  intros Hb Hx. unfold bit_of. rewrite get32_testbit by (auto; apply Z.mod_pos_bound; lia).
  f_equal; [f_equal|]; Z.div_mod_to_equations; lia.
Qed.

Lemma land1_testbit w : Z.land w 1 = if Z.testbit w 0 then 1 else 0.
Proof.
  change 1 with (Z.ones 1) at 1. rewrite Z.land_ones by lia.
  rewrite Z.bit0_odd. rewrite Zmod_odd. done.
Qed.

(** The scan for a zero bit stops at the lowest one. *)
Lemma first_zero_spec fuel w bn :
  0 <= w < 2 ^ Z.of_nat fuel ->
  let r := first_zero (S fuel) w bn in
  bn <= r <= bn + Z.of_nat fuel /\ Z.testbit w (r - bn) = false /\
  forall j, 0 <= j < r - bn -> Z.testbit w j = true.
Proof.
  revert w bn. induction fuel as [|fuel IH]; intros w bn Hw r; subst r.
  - assert (w = 0) as -> by lia. change (first_zero 1 0 bn) with bn. rewrite Z.sub_diag.
    split; [lia|]. split; [done|lia].
  - change (first_zero (S (S fuel)) w bn) with
      (if Z.land w 1 =? 0 then bn else first_zero (S fuel) (Z.shiftr w 1) (bn + 1)).
    rewrite land1_testbit. destruct (Z.testbit w 0) eqn:E0; cbn [Z.eqb].
    + assert (0 <= Z.shiftr w 1 < 2 ^ Z.of_nat fuel) as Hs.
      { rewrite Z.shiftr_div_pow2 by lia. change (2 ^ 1) with 2.
        rewrite Nat2Z.inj_succ, Z.pow_succ_r in Hw by lia. Z.div_mod_to_equations; lia. }
      destruct (IH (Z.shiftr w 1) (bn + 1) Hs) as (Hr & Hz & Hj).
      set (r := first_zero (S fuel) _ _) in *. split; [lia|]. split.
      * rewrite Z.shiftr_spec in Hz by lia. rewrite <- Hz. f_equal. lia.
      * intros j Hj'. destruct (decide (j = 0)) as [->|]; [done|].
        specialize (Hj (j - 1)). rewrite Z.shiftr_spec in Hj by lia.
        rewrite <- Hj by lia. f_equal. lia.
    + rewrite Z.sub_diag. split; [lia|]. split; [done|lia].
Qed.

Lemma all_used_bits w : 0 <= w < 2 ^ 32 -> (forall j, 0 <= j < 32 -> Z.testbit w j = true) -> w = ALL_USED.
Proof.
  intros Hw Hb. apply Z.bits_inj'. intros j Hj. unfold ALL_USED.
  change 0xffffffff with (Z.ones 32). destruct (decide (j < 32)).
  - rewrite Z.ones_spec_low by lia. apply Hb. lia.
  - rewrite Z.ones_spec_high by lia. apply (testbit_above 32); lia.
Qed.

(** The index found for a word with a zero bit. *)
Lemma first_zero_32 w :
  0 <= w < 2 ^ 32 -> w <> ALL_USED ->
  0 <= first_zero 33 w 0 < 32 /\ Z.testbit w (first_zero 33 w 0) = false.
Proof.
  intros Hw Hne. destruct (first_zero_spec 32 w 0 Hw) as (Hr & Hz & Hj).
  set (r := first_zero 33 w 0) in *. rewrite Z.sub_0_r in *.
  split; [|done]. split; [lia|]. destruct (decide (r < 32)); [done|].
  exfalso. apply Hne, all_used_bits; [done|]. intros j ?. apply Hj. lia.
Qed.

Lemma find_word_spec n b :
  (n <= 128)%nat ->
  match find_word n b with
  | Some w => 128 - Z.of_nat n <= w < 128 /\ get32 b (4 * w) <> ALL_USED
  | None => forall w, 128 - Z.of_nat n <= w < 128 -> get32 b (4 * w) = ALL_USED
  end.
Proof.
  induction n as [|n IH]; intros Hn; cbn [find_word]; [intros w ?; lia|].
  destruct (Z.eqb_spec (get32 b (4 * (128 - Z.of_nat (S n)))) ALL_USED) as [E|E].
  - specialize (IH ltac:(lia)). destruct (find_word n b).
    + destruct IH; split; [lia|done].
    + intros w Hw. destruct (decide (w = 128 - Z.of_nat (S n))) as [->|]; [done|]. apply IH. lia.
  - split; [lia|done].
Qed.

(** Setting a bit through its 32-bit word. *)
Lemma bit_of_put32 b w j x :
  bytes_ok BLK_SIZE b -> 0 <= w < 128 -> 0 <= j < 32 -> 0 <= x < BPB ->
  bit_of (put32 b (4 * w) (Z.lor (get32 b (4 * w)) (u32 (Z.shiftl 1 (Z.land j 31))))) x =
    if decide (x = 32 * w + j) then true else bit_of b x.
Proof.
  intros [Hl Hb] Hw Hj Hx. unfold BLK_SIZE, BPB in *.
  set (v := Z.lor _ _).
  assert (Hj31 : Z.land j 31 = j) by (change 31 with (Z.ones 5); rewrite Z.land_ones, Z.mod_small; lia).
  assert (Hsh : u32 (Z.shiftl 1 (Z.land j 31)) = 2 ^ j).
  { rewrite Hj31, Z.shiftl_1_l. apply u32_small. split; [lia|]. apply Z.pow_lt_mono_r; lia. }
  assert (Hv : u32 v = v).
  { apply u32_small, bound_testbit; [lia|]. intros m Hm. unfold v. rewrite Hsh, Z.lor_spec.
    rewrite (testbit_above 32 (get32 b (4 * w))) by (auto with kern; lia).
    rewrite Z.pow2_bits_eqb by lia. apply Z.eqb_neq. lia. }
  assert (Hb' : is_bytes (put32 b (4 * w) v)) by (apply is_bytes_mem_write; auto with kern).
  rewrite !bit_of_word by (done || lia).
  destruct (decide (x / 32 = w)) as [Hxw|Hxw].
  - rewrite Hxw, get32_put32, Hv by lia. unfold v. rewrite Hsh, Z.lor_spec, Z.pow2_bits_eqb by lia.
    destruct (Z.eqb_spec j (x mod 32)); [rewrite decide_True by (Z.div_mod_to_equations; lia)
      |rewrite decide_False by (Z.div_mod_to_equations; lia)].
    + apply orb_true_r.
    + apply orb_false_r.
  - rewrite get32_put32_ne by (Z.div_mod_to_equations; lia).
    rewrite decide_False by (Z.div_mod_to_equations; lia). done.
Qed.

Lemma land7 x : 0 <= x -> Z.land x 7 = x mod 8.
Proof. intros. change 7 with (Z.ones 3). by rewrite Z.land_ones. Qed.

(** Clearing or setting a bit through its byte. *)
Definition wbit (b : list Z) (x v : Z) : list Z :=
  wr8 b (x / 8) (Z.lor (Z.land (rd8 b (x / 8)) (Z.lnot (Z.shiftl 1 (Z.land x 7)))) (Z.shiftl v (Z.land x 7))).

Lemma wbit_byte c j v :
  is_byte c -> 0 <= j < 8 -> 0 <= v <= 1 ->
  is_byte (Z.lor (Z.land c (Z.lnot (Z.shiftl 1 j))) (Z.shiftl v j)) /\
  forall m, 0 <= m < 8 -> Z.testbit (Z.lor (Z.land c (Z.lnot (Z.shiftl 1 j))) (Z.shiftl v j)) m =
    if decide (m = j) then v =? 1 else Z.testbit c m.
Proof.
  intros Hc Hj Hv.
  assert (Hb : forall m, 0 <= m -> Z.testbit (Z.lor (Z.land c (Z.lnot (Z.shiftl 1 j))) (Z.shiftl v j)) m =
    if decide (m = j) then v =? 1 else Z.testbit c m).
  { intros m Hm. rewrite Z.lor_spec, Z.land_spec, Z.lnot_spec, Z.shiftl_1_l, Z.pow2_bits_eqb by lia.
    assert (v = 0 \/ v = 1) as [-> | ->] by lia.
    - rewrite Z.shiftl_0_l, Z.testbit_0_l, orb_false_r. destruct (Z.eqb_spec j m).
      + rewrite decide_True by done. apply andb_false_r.
      + rewrite decide_False by done. apply andb_true_r.
    - rewrite Z.shiftl_1_l, Z.pow2_bits_eqb by lia. destruct (Z.eqb_spec j m).
      + rewrite decide_True by done. apply orb_true_r.
      + rewrite decide_False, andb_true_r, orb_false_r by done. done. }
  split; [|intros m ?; apply Hb; lia].
  apply (bound_testbit 8); [lia|]. intros m Hm. rewrite Hb by lia. rewrite decide_False by lia.
  by apply (testbit_above 8).
Qed.

Lemma bytes_ok_wbit b x v :
  bytes_ok BLK_SIZE b -> 0 <= x -> 0 <= v <= 1 -> bytes_ok BLK_SIZE (wbit b x v).
Proof.
  intros Hb Hx Hv. apply bytes_ok_wr8; [done|]. rewrite land7 by done.
  apply wbit_byte; [apply rd8_byte, Hb|apply Z.mod_pos_bound; lia|done].
Qed.

Lemma bit_of_wbit b x v y :
  bytes_ok BLK_SIZE b -> 0 <= x < BPB -> 0 <= y < BPB -> 0 <= v <= 1 ->
  bit_of (wbit b x v) y = if decide (y = x) then v =? 1 else bit_of b y.
Proof.
  intros [Hl Hb] Hx Hy Hv. unfold bit_of, wbit, BPB, BLK_SIZE in *. rewrite land7 by lia.
  destruct (decide (y / 8 = x / 8)) as [E|E].
  - rewrite E, rd8_wr8 by (Z.div_mod_to_equations; lia).
    destruct (wbit_byte (rd8 b (x / 8)) (x mod 8) v) as [_ Hw];
      [by apply rd8_byte|apply Z.mod_pos_bound; lia|done|].
    rewrite Hw by (apply Z.mod_pos_bound; lia).
    destruct (decide (y mod 8 = x mod 8)).
    + rewrite decide_True by (Z.div_mod_to_equations; lia). done.
    + rewrite decide_False by congruence. done.
  - rewrite rd8_wr8_ne by (Z.div_mod_to_equations; lia). rewrite decide_False by congruence. done.
Qed.
End bits.

(** * Invariant and frame *)

Section ok.
Context {S : Type} `{HS : BlockLayerOk S}.
Implicit Types (k : kern S) (f : fs) (n : fs_nat).

(** The contents of the device [dv]. *)
Definition dsk k (dv : nat) : Z -> list Z := bl_disk (k_blk k) dv.

Record geom_ok n : Prop := GeomOk {
  go_block : 0 < bam_block n;
  go_size : 0 <= bam_size n;
  go_end : bam_block n + bam_size n < 2 ^ 32;
  go_bits : bam_size n * BPB <= 2 ^ 32;
  go_data : 0 <= data_block n
}.

Record bam_ok k (i : nat) f (dv : nat) : Prop := BamOk {
  bo_fs : k_fs k !! i = Some f;
  bo_dev : dev f = Some dv;
  bo_inv : bl_inv (k_blk k);
  bo_bdev : bl_dev (k_blk k) dv;
  bo_pins : pins_valid (bl_pins (k_blk k));
  bo_room : room 1 (k_blk k);
  bo_geom : geom_ok (nat_ f);
  bo_range : forall nr, in_bam (nat_ f) nr -> bl_range (k_blk k) dv nr;
  bo_buf : bytes_ok BLK_SIZE (bam_buf (nat_ f));
  bo_curr : bam_curr (nat_ f) = 0 \/ in_bam (nat_ f) (bam_curr (nat_ f));
  bo_dirty : bam_dirty (nat_ f) = true -> bam_curr (nat_ f) <> 0;
  bo_clean : bam_dirty (nat_ f) = false -> bam_curr (nat_ f) <> 0 ->
    bam_buf (nat_ f) = dsk k dv (bam_curr (nat_ f))
}.

(** From [k] to [k'] only the map of the file system [i] changed: the mounted
    geometry, the other tables and every block outside the map are the same. *)
Record bam_step (i : nat) (dv : nat) f f' k k' : Prop := BamStep {
  bs_ok : bam_ok k' i f' dv;
  bs_eq : k' = with_fs (<[i := f']> (k_fs k)) (with_blk (k_blk k') k);
  bs_fs : f' = set_nat (nat_ f') f;
  bs_geom : geom (nat_ f') = geom (nat_ f);
  bs_range : forall d nr, bl_range (k_blk k) d nr -> bl_range (k_blk k') d nr;
  bs_dev : forall d, bl_dev (k_blk k) d -> bl_dev (k_blk k') d;
  bs_count : bl_count (k_blk k') = bl_count (k_blk k);
  bs_pins : bl_pins (k_blk k') = bl_pins (k_blk k);
  bs_disk : forall d nr, d <> dv \/ ~ in_bam (nat_ f) nr -> bl_disk (k_blk k') d nr = bl_disk (k_blk k) d nr
}.

Lemma set_nat_id f : set_nat (nat_ f) f = f.
Proof. by destruct f. Qed.

Lemma with_fs_blk_id k i f : k_fs k !! i = Some f -> with_fs (<[i := f]> (k_fs k)) (with_blk (k_blk k) k) = k.
Proof. intros Hf. destruct k. unfold with_fs, with_blk. cbn in *. f_equal. by apply insert_id. Qed.

Lemma with_fs_eq k m : with_fs m k = with_fs m (with_blk (k_blk (with_fs m k)) k).
Proof. by destruct k. Qed.

Lemma bam_step_refl i dv f k : bam_ok k i f dv -> bam_step i dv f f k k.
Proof.
  intros Hk. split; [done|symmetry; apply with_fs_blk_id, Hk|symmetry; apply set_nat_id|done..].
Qed.

Lemma geom_eq n n' : geom n = geom n' ->
  bam_block n = bam_block n' /\ bam_size n = bam_size n' /\ data_block n = data_block n' /\
  data_size n = data_size n' /\ root_block n = root_block n' /\ n_ndirblks n = n_ndirblks n' /\
  n_nindirlev n = n_nindirlev n'.
Proof. unfold geom. intros. simplify_eq. done. Qed.

Lemma geom_in_bam n n' nr : geom n = geom n' -> in_bam n nr <-> in_bam n' nr.
Proof. intros (E1 & E2 & _)%geom_eq. unfold in_bam. by rewrite E1, E2. Qed.

Lemma geom_geom_ok n n' : geom n = geom n' -> geom_ok n' -> geom_ok n.
Proof. intros (E1 & E2 & E3 & _)%geom_eq []. split; lia. Qed.

Lemma bam_step_trans i dv f1 f2 f3 k1 k2 k3 :
  bam_step i dv f1 f2 k1 k2 -> bam_step i dv f2 f3 k2 k3 -> bam_step i dv f1 f3 k1 k3.
Proof.
  intros [O1 E1 F1 G1 R1 D1 C1 P1 K1] [O2 E2 F2 G2 R2 D2 C2 P2 K2].
  split; [done| | |congruence|auto|auto|congruence|congruence|].
  - rewrite E2, E1. destruct k1. cbn. by rewrite insert_insert_eq.
  - rewrite F2, F1. done.
  - intros d nr Hn. rewrite K2, K1; [done|done|]. by rewrite (geom_in_bam _ _ nr G1).
Qed.

(** The bits of the logical map through an update of [bam_buf]. *)
Lemma set_buf_step i dv f k b :
  bam_ok k i f dv -> bam_curr (nat_ f) <> 0 -> bytes_ok BLK_SIZE b ->
  let f' := set_nat (set_bam b (bam_curr (nat_ f)) true (nat_ f)) f in
  bam_step i dv f f' k (with_fs (<[i := f']> (k_fs k)) k).
Proof.
  intros [G1 G2 G3 G4 G5 G6 [] G8 G9 G10 G11 G12] Hc Hb f'. split; try done.
  split; try done. cbn. by rewrite lookup_insert_eq.
Qed.

Lemma set_free_step i dv f k v :
  bam_ok k i f dv ->
  let f' := set_nat (set_free_block v (nat_ f)) f in
  bam_step i dv f f' k (with_fs (<[i := f']> (k_fs k)) k).
Proof.
  intros [G1 G2 G3 G4 G5 G6 [] G8 G9 G10 G11 G12] f'. split; try done.
  split; try done. cbn. by rewrite lookup_insert_eq.
Qed.

(** ** Operations on the current map block *)

(** Every map block keeps its logical content. *)
Definition same_bam k f k' f' dv : Prop :=
  forall j, 0 <= j < bam_size (nat_ f) -> lbam (nat_ f') (dsk k' dv) j = lbam (nat_ f) (dsk k dv) j.

Lemma nat_sync_bam_ok i dv f k :
  bam_ok k i f dv ->
  wp (nat_sync_bam i)
    (fun _ k' => exists f', bam_step i dv f f' k k' /\ same_bam k f k' f' dv /\
       bam_dirty (nat_ f') = false /\ bam_curr (nat_ f') = bam_curr (nat_ f))
    (fun _ _ => False) k.
Proof.
  intros Hk. pose proof Hk as [G1 G2 G3 G4 G5 G6 [] G8 G9 G10 G11 G12]. unfold nat_sync_bam.
  apply wp_bind, (wp_get_nat i f); [done|].
  destruct (bam_dirty (nat_ f)) eqn:Ed; cbn [negb].
  2: { exists f. split; [by apply bam_step_refl|]. by split. }
  assert (Hin : in_bam (nat_ f) (bam_curr (nat_ f))) by (destruct G10; [by destruct (G11 eq_refl)|done]).
  set (f1 := set_nat (set_bam (bam_buf (nat_ f)) (bam_curr (nat_ f)) false (nat_ f)) f).
  set (k1 := with_fs (<[i := f1]> (k_fs k)) k).
  assert (Hf1 : k_fs k1 !! i = Some f1) by (unfold k1; cbn; apply lookup_insert_eq).
  apply wp_bind, (wp_upd_nat i f); [done|].
  apply wp_bind, (wp_get_dev i f1 dv); [done..|].
  apply wp_bind, (wp_get_nat i f1); [done..|]. apply wp_blk.
  eapply wp_mono; [apply (blk_pwrite_ok (k_blk k1) dv); [done..|by apply G8]| |done].
  cbn [f1 set_nat nat_ set_bam bam_curr bam_buf].
  intros _ s' (U1 & U2 & U3 & U4 & U5 & U6).
  exists f1. split; [split|split].
  - split; try done.
    + by apply U4.
    + intros d p. cbn. rewrite U6. apply G5.
    + unfold room. cbn. rewrite U5, U6. apply G6.
    + intros nr ?. cbn. by apply U3, G8.
    + intros _ _. unfold dsk. cbn. rewrite U2. by rewrite disk_upd_eq.
  - unfold k1, with_fs, with_blk. done.
  - done.
  - done.
  - exact U3.
  - exact U4.
  - exact U5.
  - exact U6.
  - intros d nr Hn. cbn. rewrite U2. apply disk_upd_ne.
    destruct (decide (nr = bam_curr (nat_ f))) as [->|]; [|by right]. by destruct Hn; [left|].
  - intros j Hj. unfold lbam, dsk. cbn. destruct (Z.eqb_spec (bam_curr (nat_ f)) (bam_block (nat_ f) + j)); [done|].
    rewrite U2. apply disk_upd_ne. by right.
  - done.
Qed.

Lemma dsk_with_fs m k : dsk (with_fs m k) = dsk k.
Proof. done. Qed.

Lemma bam_ok_curr0 k i f dv :
  bam_ok k i f dv -> bam_dirty (nat_ f) = false ->
  let f' := set_nat (set_bam (bam_buf (nat_ f)) 0 (bam_dirty (nat_ f)) (nat_ f)) f in
  bam_step i dv f f' k (with_fs (<[i := f']> (k_fs k)) k) /\
  same_bam k f (with_fs (<[i := f']> (k_fs k)) k) f' dv.
Proof.
  intros [G1 G2 G3 G4 G5 G6 [] G8 G9 G10 G11 G12] Hd f'. split.
  - split; try done. split; try done; cbn.
    + by rewrite lookup_insert_eq.
    + by left.
    + by rewrite Hd.
  - intros j Hj. unfold lbam, f'. cbn [nat_ set_nat set_bam bam_curr bam_block bam_buf].
    destruct (Z.eqb_spec 0 (bam_block (nat_ f) + j)); [lia|].
    destruct (Z.eqb_spec (bam_curr (nat_ f)) (bam_block (nat_ f) + j)) as [E|]; [|done].
    rewrite <- E, G12; [done..|lia].
Qed.

Lemma bam_ok_load k i f dv nr s' :
  bam_ok k i f dv -> bam_dirty (nat_ f) = false -> in_bam (nat_ f) nr -> bl_same (k_blk k) s' ->
  let f' := set_nat (set_bam (dsk k dv nr) nr (bam_dirty (nat_ f)) (nat_ f)) f in
  bam_step i dv f f' k (with_fs (<[i := f']> (k_fs k)) (with_blk s' k)) /\
  same_bam k f (with_fs (<[i := f']> (k_fs k)) (with_blk s' k)) f' dv.
Proof.
  intros [G1 G2 G3 G4 G5 G6 G7 G8 G9 G10 G11 G12] Hd Hin (U1 & U2 & U3 & U4 & U5 & U6) f'.
  pose proof G7 as []. split.
  - split; try done. split; try done; cbn.
    + by rewrite lookup_insert_eq.
    + by apply U4.
    + by rewrite U6.
    + unfold room. cbn. by rewrite U5, U6.
    + intros nr' ?. by apply U3, G8.
    + by apply bl_disk_ok.
    + by right.
    + destruct G7. intros _. unfold in_bam in Hin. lia.
    + intros _ _. unfold dsk. cbn. by rewrite U2.
  - intros j Hj. unfold lbam, dsk. cbn. rewrite U2.
    destruct (Z.eqb_spec nr (bam_block (nat_ f) + j)) as [->|];
    destruct (Z.eqb_spec (bam_curr (nat_ f)) (bam_block (nat_ f) + j)) as [E|]; try done.
    + rewrite <- E, G12; [done..|]. destruct G7. lia.
    + rewrite <- E, G12; [done..|]. destruct G7. lia.
Qed.

Lemma same_bam_trans k1 f1 k2 f2 k3 f3 dv :
  geom (nat_ f2) = geom (nat_ f1) -> same_bam k1 f1 k2 f2 dv -> same_bam k2 f2 k3 f3 dv ->
  same_bam k1 f1 k3 f3 dv.
Proof.
  intros (_ & E & _)%geom_eq H1 H2 j Hj. rewrite H2, H1; [done|done|]. by rewrite E.
Qed.

(** Reading through the cache leaves the map as it is. *)
Lemma bam_ok_same k i f dv s' :
  bam_ok k i f dv -> bl_same (k_blk k) s' ->
  bam_step i dv f f k (with_blk s' k) /\ same_bam k f (with_blk s' k) f dv.
Proof.
  intros [G1 G2 G3 G4 G5 G6 [] G8 G9 G10 G11 G12] (U1 & U2 & U3 & U4 & U5 & U6). split.
  - split; try done; cbn.
    + split; try done; cbn.
      * by apply U4.
      * by rewrite U6.
      * unfold room. by rewrite U5, U6.
      * intros nr ?. by apply U3, G8.
      * intros. unfold dsk. cbn. rewrite U2. by apply G12.
    + destruct k. unfold with_fs, with_blk. cbn in *. f_equal. by rewrite insert_id.
    + symmetry. apply set_nat_id.
  - intros j Hj. unfold lbam, dsk. cbn. by rewrite U2.
Qed.

Lemma mem_read_all b : bytes_ok BLK_SIZE b -> mem_read b 0 BLK_SIZE = b.
Proof. intros [Hl _]. apply take_ge. cbn [drop Z.to_nat]. lia. Qed.

(** [e] is the error of a failed read of a map block. *)
Definition read_failed f (dv : nat) (e : Z) : Prop :=
  e <> 0 /\ exists nr s s', in_bam (nat_ f) nr /\ blk_pread dv nr 0 BLK_SIZE s = Err e (s' : S).

Lemma nat_switch_bam_ok i dv f k j :
  bam_ok k i f dv -> 0 <= j < bam_size (nat_ f) ->
  wp (nat_switch_bam i (u32 (bam_block (nat_ f) + j)))
    (fun _ k' => exists f', bam_step i dv f f' k k' /\ same_bam k f k' f' dv /\
       bam_curr (nat_ f') = bam_block (nat_ f) + j)
    (fun e k' => read_failed f dv e /\ exists f', bam_step i dv f f' k k' /\ same_bam k f k' f' dv) k.
Proof.
  intros Hk Hj. pose proof (bo_geom _ _ _ _ Hk) as [].
  rewrite u32_small by lia. unfold nat_switch_bam.
  apply wp_bind, (wp_get_nat i f); [apply Hk|].
  destruct (Z.eqb_spec (bam_block (nat_ f) + j) (bam_curr (nat_ f))) as [E|_].
  { exists f. split; [by apply bam_step_refl|]. by split. }
  apply wp_bind, wp_status. eapply wp_mono; [by apply nat_sync_bam_ok| |done].
  intros _ k1 (f1 & St1 & Sa1 & Hd1 & Hc1). pose proof (bs_ok _ _ _ _ _ _ St1) as Hk1.
  destruct (geom_eq _ _ (bs_geom _ _ _ _ _ _ St1)) as (Eb & Es & _).
  apply wp_bind, (wp_get_dev i f1 dv); [apply Hk1..|].
  apply wp_bind, wp_attempt, wp_blk.
  eapply wp_mono; [apply wp_run, blk_pread_ok; apply Hk1| |].
  - intros b s' (_ & -> & Hs). apply (wp_upd_nat i f1); [apply Hk1|].
    destruct (bam_ok_load k1 i f1 dv (bam_block (nat_ f) + j) s' Hk1 Hd1) as [St2 Sa2].
    { unfold in_bam. lia. }
    { done. }
    rewrite mem_read_all by (apply bl_disk_ok, Hk1).
    eexists. split; [eapply bam_step_trans; [exact St1|exact St2]|].
    split; [|done]. eapply same_bam_trans; [apply St1|exact Sa1|exact Sa2].
  - intros e s' (Hrun & He & Hs).
    destruct (bam_ok_same k1 i f1 dv s' Hk1 Hs) as [St2 Sa2].
    pose proof (bs_ok _ _ _ _ _ _ St2) as Hk2.
    destruct (bam_ok_curr0 _ i f1 dv Hk2 Hd1) as [St3 Sa3].
    apply wp_bind, (wp_upd_nat i f1); [apply Hk2|].
    split; [split; [done|]; do 3 eexists; split; [|exact Hrun]; unfold in_bam; lia|].
    eexists. split.
    + eapply bam_step_trans; [exact St1|]. eapply bam_step_trans; [exact St2|exact St3].
    + eapply same_bam_trans; [apply St1|exact Sa1|].
      eapply same_bam_trans; [apply St2|exact Sa2|exact Sa3].
Qed.

(** ** Allocation and release *)

(** Blocks the map has a bit for. *)
Definition mapped_blk f (nr : Z) : Prop := 0 <= nr < bam_size (nat_ f) * BPB.
Definition is_used k f (dv : nat) (nr : Z) : bool := used (nat_ f) (dsk k dv) nr.

Lemma mapped_div f nr : mapped_blk f nr -> 0 <= nr / BPB < bam_size (nat_ f).
Proof. unfold mapped_blk, BPB. intros. Z.div_mod_to_equations; lia. Qed.

Lemma same_bam_used k f k' f' dv nr :
  same_bam k f k' f' dv -> mapped_blk f nr -> is_used k' f' dv nr = is_used k f dv nr.
Proof. intros Hs Hm. unfold is_used, used. by rewrite Hs by (apply mapped_div; done). Qed.

Lemma mapped_geom f f' nr : geom (nat_ f') = geom (nat_ f) -> mapped_blk f' nr <-> mapped_blk f nr.
Proof. intros (_ & E & _)%geom_eq. unfold mapped_blk. by rewrite E. Qed.

(** Changing the buffered map block changes the bits it covers. *)
Lemma set_buf_used k i f dv b j nr :
  bam_ok k i f dv -> bam_curr (nat_ f) = bam_block (nat_ f) + j -> mapped_blk f nr ->
  let f' := set_nat (set_bam b (bam_curr (nat_ f)) true (nat_ f)) f in
  is_used (with_fs (<[i := f']> (k_fs k)) k) f' dv nr =
    if decide (nr / BPB = j) then bit_of b (nr mod BPB) else is_used k f dv nr.
Proof.
  intros Hk Hc Hm f'. unfold is_used, used, lbam, f'.
  cbn [nat_ set_nat set_bam bam_curr bam_block bam_buf]. rewrite Hc.
  destruct (decide (nr / BPB = j)) as [->|Hne].
  - by rewrite Z.eqb_refl.
  - replace (bam_block (nat_ f) + j =? bam_block (nat_ f) + nr / BPB) with false by lia. done.
Qed.

(** The buffered block as the current map block. *)
Lemma curr_used k f dv j nr :
  bam_curr (nat_ f) = bam_block (nat_ f) + j -> nr / BPB = j ->
  is_used k f dv nr = bit_of (bam_buf (nat_ f)) (nr mod BPB).
Proof. intros Hc Hj. unfold is_used, used, lbam. by rewrite Hc, Hj, Z.eqb_refl. Qed.

Lemma nat_read_bam_ok i dv f k nr :
  bam_ok k i f dv -> mapped_blk f nr ->
  wp (nat_read_bam i nr)
    (fun b k' => b = is_used k f dv nr /\ exists f', bam_step i dv f f' k k' /\ same_bam k f k' f' dv)
    (fun e k' => read_failed f dv e /\ exists f', bam_step i dv f f' k k' /\ same_bam k f k' f' dv) k.
Proof.
  intros Hk Hm. unfold nat_read_bam. pose proof (mapped_div _ _ Hm).
  apply wp_bind, (wp_get_nat i f); [apply Hk|].
  replace (nr / BLK_SIZE / 8) with (nr / BPB) by (rewrite Z.div_div; done).
  eapply wp_seq; [by apply nat_switch_bam_ok| |auto].
  intros _ k1 (f1 & St & Sa & Hc). pose proof (bs_ok _ _ _ _ _ _ St) as Hk1.
  apply wp_bind, (wp_get_nat i f1); [apply Hk1|]. wp_pure.
  split; [|by eauto].
  rewrite <- (same_bam_used _ _ _ _ _ _ Sa Hm).
  destruct (geom_eq _ _ (bs_geom _ _ _ _ _ _ St)) as (Eb & _). rewrite <- Eb in Hc.
  rewrite (curr_used k1 f1 dv _ nr Hc eq_refl). unfold bit_of, mapped_blk, BLK_SIZE, BPB in *.
  rewrite land7, Z.shiftl_1_l by lia.
  replace (nr / 8 mod 512) with (nr mod 4096 / 8) by (Z.div_mod_to_equations; lia).
  replace ((nr mod 4096) mod 8) with (nr mod 8) by (Z.div_mod_to_equations; lia).
  rewrite land_pow2 by (apply Z.mod_pos_bound; lia). done.
Qed.

(** One bit of the map changed. *)
Definition bam_set k f k' f' (dv : nat) (nr : Z) (v : bool) : Prop :=
  forall x, mapped_blk f x -> is_used k' f' dv x = if decide (x = nr) then v else is_used k f dv x.

Lemma nat_write_bam_ok i dv f k nr v :
  bam_ok k i f dv -> mapped_blk f nr -> 0 <= v <= 1 ->
  wp (nat_write_bam i nr v)
    (fun _ k' => exists f', bam_step i dv f f' k k' /\ bam_set k f k' f' dv nr (v =? 1))
    (fun e k' => read_failed f dv e /\ exists f', bam_step i dv f f' k k' /\ same_bam k f k' f' dv) k.
Proof.
  intros Hk Hm Hv. unfold nat_write_bam. pose proof (mapped_div _ _ Hm).
  apply wp_bind, (wp_get_nat i f); [apply Hk|].
  replace (nr / BLK_SIZE / 8) with (nr / BPB) by (rewrite Z.div_div; done).
  eapply wp_seq; [by apply nat_switch_bam_ok| |auto].
  intros _ k1 (f1 & St & Sa & Hc). pose proof (bs_ok _ _ _ _ _ _ St) as Hk1.
  destruct (geom_eq _ _ (bs_geom _ _ _ _ _ _ St)) as (Eb & _). rewrite <- Eb in Hc.
  pose proof (bo_geom _ _ _ _ Hk1) as []. pose proof (bo_buf _ _ _ _ Hk1) as Hb.
  apply (wp_upd_nat i f1); [apply Hk1|].
  set (b := wr8 _ _ _). unfold mapped_blk in Hm.
  assert (b = wbit (bam_buf (nat_ f1)) (nr mod BPB) v) as ->.
  { unfold b, wbit, BLK_SIZE, BPB in *. rewrite !land7 by (Z.div_mod_to_equations; lia).
    replace (nr / 8 mod 512) with (nr mod 4096 / 8) by (Z.div_mod_to_equations; lia).
    replace ((nr mod 4096) mod 8) with (nr mod 8) by (Z.div_mod_to_equations; lia). done. }
  assert (Hn : 0 <= nr mod BPB < BPB) by (apply Z.mod_pos_bound; unfold BPB; lia).
  eexists. split.
  - eapply bam_step_trans; [exact St|]. apply set_buf_step; [done|lia|by apply bytes_ok_wbit; [|lia|]].
  - intros x Hx. rewrite (set_buf_used k1 i f1 dv _ (nr / BPB) x Hk1 Hc)
      by (apply (mapped_geom f), Hx; apply St).
    rewrite <- (same_bam_used _ _ _ _ _ x Sa Hx).
    destruct (decide (x / BPB = nr / BPB)) as [Ex|Ex].
    + rewrite bit_of_wbit by (done || (apply Z.mod_pos_bound; unfold BPB; lia)).
      rewrite (curr_used k1 f1 dv _ x Hc Ex). unfold BPB in *.
      destruct (decide (x = nr)) as [->|Hne]; [by rewrite decide_True|].
      rewrite decide_False; [done|]. intros E. apply Hne.
      rewrite (Z.div_mod x 4096), (Z.div_mod nr 4096) by lia. congruence.
    + rewrite (decide_False (P := x = nr)) by congruence. done.
Qed.

Lemma nat_bfree_ok i dv f k nr :
  bam_ok k i f dv -> mapped_blk f nr ->
  wp (nat_bfree i nr)
    (fun _ k' => exists f', bam_step i dv f f' k k' /\ bam_set k f k' f' dv nr false)
    (fun e k' => read_failed f dv e /\ exists f', bam_step i dv f f' k k' /\
       forall x, mapped_blk f x -> is_used k' f' dv x = is_used k f dv x) k.
Proof.
  intros Hk Hm. unfold nat_bfree. apply wp_bind, (wp_upd_nat i f); [apply Hk|].
  cbn beta. set (n1 := if nr <? free_block (nat_ f) then set_free_block nr (nat_ f) else nat_ f). set (k1 := with_fs (<[i := set_nat n1 f]> (k_fs k)) k).
  assert (bam_step i dv f (set_nat n1 f) k k1 /\
    forall x, is_used k1 (set_nat n1 f) dv x = is_used k f dv x) as [St Hu].
  { unfold k1, n1. destruct (nr <? free_block (nat_ f)).
    - split; [by apply set_free_step|done].
    - rewrite set_nat_id. split; [|done].
      replace (with_fs _ k) with k; [by apply bam_step_refl|].
      destruct k. unfold with_fs. cbn. rewrite insert_id; [done|apply Hk]. }
  eapply wp_mono; [apply (nat_write_bam_ok i dv (set_nat n1 f) k1 nr 0); [apply St| |lia]| |].
  - by apply (mapped_geom f); [apply St|].
  - intros _ k2 (f2 & St2 & Hs). exists f2. split; [by eapply bam_step_trans|].
    intros x Hx. rewrite Hs by (by apply (mapped_geom f); [apply St|]). by rewrite Hu.
  - intros e k2 [(He & nr' & s & s' & Hin & Hr) (f2 & St2 & Hs)]. split.
    + split; [done|]. exists nr', s, s'. split; [|done]. by apply (geom_in_bam _ (nat_ (set_nat n1 f))); [symmetry; apply St|].
    + exists f2. split; [by eapply bam_step_trans|]. intros x Hx. rewrite <- Hu.
      apply same_bam_used; [done|]. by apply (mapped_geom f); [apply St|].
Qed.

Lemma read_failed_geom f f' dv e : geom (nat_ f') = geom (nat_ f) -> read_failed f' dv e -> read_failed f dv e.
Proof.
  intros Hg (He & nr & s & s' & Hin & Hr). split; [done|]. exists nr, s, s'. split; [|done].
  by apply (geom_in_bam _ (nat_ f')).
Qed.

(** A full map block has no zero bit; the word scan finds the bit otherwise. *)
Lemma find_word_none b x : is_bytes b -> find_word 128 b = None -> 0 <= x < BPB -> bit_of b x = true.
Proof.
  intros Hb Hf Hx. pose proof (find_word_spec 128 b ltac:(lia)) as Hs. rewrite Hf in Hs.
  rewrite bit_of_word by (done || lia). unfold BPB in Hx.
  rewrite Hs by (Z.div_mod_to_equations; lia). unfold ALL_USED. change 0xffffffff with (Z.ones 32).
  apply Z.ones_spec_low. apply Z.mod_pos_bound. lia.
Qed.

Lemma find_word_some b w :
  is_bytes b -> find_word 128 b = Some w ->
  let j := first_zero 33 (get32 b (4 * w)) 0 in
  0 <= w < 128 /\ 0 <= j < 32 /\ bit_of b (32 * w + j) = false.
Proof.
  intros Hb Hf j. pose proof (find_word_spec 128 b ltac:(lia)) as Hs. rewrite Hf in Hs.
  destruct Hs as [Hw Hne]. destruct (first_zero_32 (get32 b (4 * w))) as [Hj Hz]; [by apply get32_range|done|].
  fold j in Hj, Hz. split; [lia|]. split; [done|].
  rewrite bit_of_word by (done || lia).
  replace ((32 * w + j) / 32) with w by (Z.div_mod_to_equations; lia).
  replace ((32 * w + j) mod 32) with j by (Z.div_mod_to_equations; lia). done.
Qed.

(** What an allocation that scans from map block [j] on returns. *)
Definition alloc_ok (i : nat) (dv : nat) (j : Z) f k (bn : Z) k' : Prop :=
  mapped_blk f bn /\ j * BPB <= bn /\ is_used k f dv bn = false /\
  exists f', bam_step i dv f f' k k' /\ bam_set k f k' f' dv bn true.
Definition alloc_err (i : nat) (dv : nat) (j : Z) f k (e : Z) k' : Prop :=
  (e = ENOSPC /\ (forall x, mapped_blk f x -> j * BPB <= x -> is_used k f dv x = true) \/
   read_failed f dv e) /\
  exists f', bam_step i dv f f' k k' /\ same_bam k f k' f' dv.

Lemma balloc_step i dv f k j w :
  bam_ok k i f dv -> 0 <= j < bam_size (nat_ f) -> bam_curr (nat_ f) = bam_block (nat_ f) + j ->
  find_word 128 (bam_buf (nat_ f)) = Some w ->
  let bamw := get32 (bam_buf (nat_ f)) (4 * w) in
  let bn := first_zero 33 bamw 0 in
  let b := put32 (bam_buf (nat_ f)) (4 * w) (Z.lor bamw (u32 (Z.shiftl 1 (Z.land bn 31)))) in
  let f' := set_nat (set_bam b (bam_curr (nat_ f)) true (nat_ f)) f in
  alloc_ok i dv j f k (u32 (u32 (bn + 4 * w * 8) + j * BLK_SIZE * 8)) (with_fs (<[i := f']> (k_fs k)) k).
Proof.
  intros Hk Hj Hc Hf bamw bn b f'. pose proof (bo_geom _ _ _ _ Hk) as [].
  pose proof (bo_buf _ _ _ _ Hk) as Hb.
  destruct (find_word_some _ _ (proj2 Hb) Hf) as (Hw & Hbn & Hz). fold bamw bn in Hbn, Hz.
  assert (u32 (u32 (bn + 4 * w * 8) + j * BLK_SIZE * 8) = j * BPB + (32 * w + bn)) as ->.
  { unfold BLK_SIZE, BPB in *. rewrite (u32_small (bn + _)) by lia. rewrite u32_small by lia. lia. }
  assert (Hdiv : (j * BPB + (32 * w + bn)) / BPB = j) by (unfold BPB in *; Z.div_mod_to_equations; lia).
  assert (Hmod : (j * BPB + (32 * w + bn)) mod BPB = 32 * w + bn)
    by (unfold BPB in *; Z.div_mod_to_equations; lia).
  split; [unfold mapped_blk, BPB in *; lia|]. split; [lia|]. split.
  { rewrite (curr_used k f dv _ _ Hc Hdiv), Hmod. done. }
  exists f'. split.
  - apply set_buf_step; [done|lia|]. apply bytes_ok_put32; [done|lia|unfold BLK_SIZE; lia].
  - intros x Hx. unfold f'. rewrite (set_buf_used k i f dv b j x Hk Hc Hx).
    destruct (decide (x / BPB = j)) as [Ex|Ex].
    + unfold b. rewrite bit_of_put32 by (done || (apply Z.mod_pos_bound; unfold BPB; lia)).
      rewrite (curr_used k f dv _ x Hc Ex).
      destruct (decide (x = j * BPB + (32 * w + bn))) as [->|Hne]; [by rewrite decide_True|].
      rewrite decide_False; [done|]. intros E. apply Hne. rewrite (Z.div_mod x BPB) by done. lia.
    + rewrite (decide_False (P := x = _)); [done|]. intros ->. done.
Qed.

Lemma balloc_loop_ok m i dv f k j :
  bam_ok k i f dv -> 0 <= j -> (Z.to_nat (bam_size (nat_ f) - j) = m)%nat ->
  wp (balloc_loop m i j) (alloc_ok i dv j f k) (alloc_err i dv j f k) k.
Proof.
  revert f k j. induction m as [|m IH]; intros f k j Hk Hj Hm; cbn [balloc_loop].
  - split.
    + left. split; [done|]. unfold mapped_blk, BPB. intros. lia.
    + exists f. split; [by apply bam_step_refl|done].
  - apply wp_bind, (wp_get_nat i f); [apply Hk|].
    eapply wp_seq; [apply (nat_switch_bam_ok i dv f k j Hk); lia| |].
    2: { intros e k' [He Hf]. split; [by right|done]. }
    intros _ k1 (f1 & St & Sa & Hc). pose proof (bs_ok _ _ _ _ _ _ St) as Hk1.
    pose proof (bs_geom _ _ _ _ _ _ St) as Hg. destruct (geom_eq _ _ Hg) as (Eb & Es & _).
    rewrite <- Eb in Hc.
    assert (Hu : forall x, mapped_blk f x -> is_used k1 f1 dv x = is_used k f dv x)
      by (intros; by apply same_bam_used).
    apply wp_bind, (wp_get_nat i f1); [apply Hk1|].
    destruct (find_word 128 (bam_buf (nat_ f1))) as [w|] eqn:Ew.
    + apply wp_bind, (wp_upd_nat i f1); [apply Hk1|]. wp_pure.
      destruct (balloc_step i dv f1 k1 j w Hk1 ltac:(lia) Hc Ew) as (M1 & M2 & M3 & f2 & St2 & M4).
      assert (mapped_blk f (u32 (u32 (first_zero 33 (get32 (bam_buf (nat_ f1)) (4 * w)) 0 + 4 * w * 8) + j * BLK_SIZE * 8)))
        by (by apply (mapped_geom _ _ _ Hg)).
      split; [done|]. split; [done|]. split; [by rewrite <- Hu|].
      exists f2. split; [by eapply bam_step_trans|].
      intros x Hx. rewrite M4 by (by apply (mapped_geom _ _ _ Hg)). by rewrite Hu.
    + eapply wp_mono; [apply (IH f1 k1 (j + 1) Hk1); lia| |].
      * intros bn k' (M1 & M2 & M3 & f2 & St2 & M4).
        assert (mapped_blk f bn) by (by apply (mapped_geom _ _ _ Hg)).
        split; [done|]. split; [unfold BPB in *; lia|]. split; [by rewrite <- Hu|].
        exists f2. split; [by eapply bam_step_trans|].
        intros x Hx. rewrite M4 by (by apply (mapped_geom _ _ _ Hg)). by rewrite Hu.
      * intros e k' [He (f2 & St2 & Sa2)]. split.
        -- destruct He as [[-> Ha]|He]; [|right; by eapply read_failed_geom]. left. split; [done|].
           intros x Hx Hjx. rewrite <- Hu by done.
           destruct (decide ((j + 1) * BPB <= x)); [by apply Ha; [apply (mapped_geom _ _ _ Hg)|]|].
           rewrite (curr_used k1 f1 dv j x Hc) by (unfold BPB in *; Z.div_mod_to_equations; lia).
           apply find_word_none; [apply Hk1|done|apply Z.mod_pos_bound; unfold BPB; lia].
        -- exists f2. split; [by eapply bam_step_trans|]. by eapply same_bam_trans; [apply St| |].
Qed.

Lemma nat_balloc_ok i dv f k :
  bam_ok k i f dv ->
  let j := data_block (nat_ f) / BPB in
  wp (nat_balloc i) (alloc_ok i dv j f k) (alloc_err i dv j f k) k.
Proof.
  intros Hk j. unfold nat_balloc. apply wp_bind, (wp_get_nat i f); [apply Hk|].
  replace (data_block (nat_ f) / BLK_SIZE / 8) with j by (unfold j; rewrite Z.div_div; done).
  pose proof (bo_geom _ _ _ _ Hk) as []. apply balloc_loop_ok; [done| |done].
  unfold j. apply Z.div_pos; [done|]. unfold BPB. lia.
Qed.

(** C29. [nat_balloc] returns a block of the allocation map, at or after the map
    block of the data area, whose bit was clear, and sets exactly that bit; it
    fails with ENOSPC only when every bit it searches is set, or with the error of
    a map block that cannot be read, and then changes no bit; no block outside the
    map changes. *)
Theorem nat_balloc_spec i dv f k :
  bam_ok k i f dv ->
  let j := data_block (nat_ f) / BPB in
  wp (nat_balloc i) (alloc_ok i dv j f k) (alloc_err i dv j f k) k.
Proof. apply nat_balloc_ok. Qed.

(** [nat_bfree] clears exactly the bit of the block, or fails with the error
    of a map block that cannot be read and changes no bit; [nat_read_bam] then
    sees it. *)
Theorem nat_bfree_spec i dv f k nr :
  bam_ok k i f dv -> mapped_blk f nr ->
  wp (nat_bfree i nr;;; nat_read_bam i nr)
    (fun b k' => b = false /\ exists f', bam_step i dv f f' k k' /\ bam_set k f k' f' dv nr false)
    (fun e k' => read_failed f dv e) k.
Proof.
  intros Hk Hm. eapply wp_seq; [by apply nat_bfree_ok| |by intros ? ? [? _]].
  intros [] k1 (f1 & St & Hs). pose proof (bs_ok _ _ _ _ _ _ St) as Hk1. pose proof (bs_geom _ _ _ _ _ _ St) as Hg.
  eapply wp_mono; [apply (nat_read_bam_ok i dv f1 k1 nr); [done|by apply (mapped_geom _ _ _ Hg)]| |].
  - intros b k2 (Hb & f2 & St2 & Hs2). split; [rewrite Hb, Hs, decide_True; done|].
    exists f2. split; [by eapply bam_step_trans|]. intros x Hx. rewrite (same_bam_used k1 f1 k2 f2); [|done|by apply (mapped_geom _ _ _ Hg)]. by apply Hs.
  - intros e k2 [(He & nr' & s & s' & Hb & Hr) _]. split; [done|]. exists nr', s, s'. split; [|done].
    unfold in_bam in *. destruct (geom_eq _ _ Hg) as (E1 & E2 & _). by rewrite E1, E2 in Hb.
Qed.
End ok.
