(* ===== verification/NatStatfs.v ===== *)
(** [popcnt] and [nat_statfs] (kern/fs/nat/main.c): the parallel bit count
    equals the number of one bits, and the reported free blocks are the zero
    bits of the allocation map. *)

From S2P Require Import Prelude BlockDev BlockIface Kern NatBam NatBamOk.

(** * Finite sums *)

Fixpoint zsum (n : nat) (g : Z -> Z) : Z :=
  match n with O => 0 | S n' => zsum n' g + g (Z.of_nat n') end.

Lemma zsum_ext n g h : (forall j, 0 <= j < Z.of_nat n -> g j = h j) -> zsum n g = zsum n h.
Proof.
  induction n as [|n IH]; intros Hgh; cbn [zsum]; [done|].
  rewrite IH, Hgh by (intros; (apply Hgh || idtac); lia). done.
Qed.

Lemma zsum_add m n g : zsum (m + n) g = zsum m g + zsum n (fun j => g (Z.of_nat m + j)).
Proof.
  induction n as [|n IH]; cbn [zsum]; [rewrite Nat.add_0_r; lia|].
  rewrite Nat.add_succ_r. cbn [zsum]. rewrite IH, Nat2Z.inj_add. lia.
Qed.

Lemma zsum_1 g : zsum 1 g = g 0.
Proof. cbn [zsum]. apply Z.add_0_l. Qed.

Lemma zsum_mul m n g :
  zsum (m * n) g = zsum m (fun i => zsum n (fun j => g (i * Z.of_nat n + j))).
Proof.
  induction m as [|m IH]; cbn [zsum Nat.mul]; [done|].
  rewrite Nat.add_comm, zsum_add, IH. f_equal. apply zsum_ext. intros. f_equal. lia.
Qed.

(** * The parallel bit count *)

(** Numbers as little-endian fields of [w] bits, and pairs of such fields. *)
Fixpoint fv (w : Z) (l : list Z) : Z :=
  match l with [] => 0 | a :: l' => a + 2 ^ w * fv w l' end.
Fixpoint pv (w : Z) (ps : list (Z * Z)) : Z :=
  match ps with [] => 0 | (a, b) :: ps' => a + 2 ^ w * (b + 2 ^ w * pv w ps') end.
(** The masks of the even and of the odd fields. *)
Fixpoint emask (w : Z) (n : nat) : Z :=
  match n with O => 0 | S n' => (2 ^ w - 1) + 2 ^ w * (0 + 2 ^ w * emask w n') end.
Fixpoint omask (w : Z) (n : nat) : Z :=
  match n with O => 0 | S n' => 0 + 2 ^ w * ((2 ^ w - 1) + 2 ^ w * omask w n') end.

Definition stage (w : Z) (n : nat) (v : Z) : Z :=
  u32 (Z.land v (emask w n) + Z.shiftr (Z.land v (omask w n)) w).

Definition fields (w : Z) (ps : list (Z * Z)) : Prop :=
  Forall (fun p => 0 <= p.1 <= w /\ 0 <= p.2 <= w) ps.
Definition sums (ps : list (Z * Z)) : list Z := (fun p => p.1 + p.2) <$> ps.

Lemma pow2_double w : 0 <= w -> 2 ^ (2 * w) = 2 ^ w * 2 ^ w.
Proof. intros. rewrite <- Z.pow_add_r by lia. f_equal. lia. Qed.

Lemma land_ones_small w a : 0 <= w -> 0 <= a < 2 ^ w -> Z.land a (2 ^ w - 1) = a.
Proof.
  intros Hw Ha. replace (2 ^ w - 1) with (Z.ones w) by (rewrite Z.ones_equiv; lia).
  rewrite Z.land_ones by lia. apply Z.mod_small. lia.
Qed.

Lemma land_masks w ps :
  1 <= w -> fields w ps ->
  Z.land (pv w ps) (emask w (length ps)) = fv (2 * w) ps.*1 /\
  Z.land (pv w ps) (omask w (length ps)) = 2 ^ w * fv (2 * w) ps.*2.
Proof.
  intros Hw. assert (Hwp : w < 2 ^ w) by (apply Z.pow_gt_lin_r; lia).
  induction 1 as [|[a b] ps [Ha Hb] _ [IHe IHo]]; cbn [pv emask omask fv length fmap list_fmap].
  { by rewrite !Z.land_0_l, Z.mul_0_r. }
  cbn [fst snd] in *. rewrite !land_split by lia.
  fold (@fmap list _ _ _ (@fst Z Z) ps) (@fmap list _ _ _ (@snd Z Z) ps).
  rewrite IHe, IHo, !Z.land_0_r, !land_ones_small, pow2_double by lia. split; ring.
Qed.

Lemma fv_sums w ps : fv w ps.*1 + fv w ps.*2 = fv w (sums ps).
Proof.
  unfold sums. induction ps as [|[a b] ps IH]; [done|]. rewrite !fmap_cons. cbn [fv fst snd].
  rewrite <- IH. ring.
Qed.

Lemma fv_bound w l : 0 <= w -> Forall (fun a => 0 <= a < 2 ^ w) l ->
  0 <= fv w l < 2 ^ (w * Z.of_nat (length l)).
Proof.
  intros Hw. induction 1 as [|a l Ha _ IH]; cbn [fv length]; [rewrite Z.mul_0_r; lia|].
  rewrite Nat2Z.inj_succ, Z.mul_succ_r, Z.add_comm, Z.pow_add_r by lia. nia.
Qed.

Lemma stage_ok w ps :
  1 <= w -> 2 * w * Z.of_nat (length ps) = 32 -> fields w ps ->
  stage w (length ps) (pv w ps) = fv (2 * w) (sums ps).
Proof.
  intros Hw Hl Hf. unfold stage. destruct (land_masks w ps Hw Hf) as [-> ->].
  rewrite Z.shiftr_div_pow2, (Z.mul_comm (2 ^ w)), Z.div_mul by lia. rewrite fv_sums.
  apply u32_small.
  replace (2 ^ 32) with (2 ^ (2 * w * Z.of_nat (length (sums ps)))).
  2: { unfold sums. rewrite length_fmap, Hl. done. }
  apply fv_bound; [lia|]. unfold sums. apply Forall_fmap. eapply Forall_impl; [exact Hf|].
  intros [a b] [Ha Hb]. cbn [fst snd compose] in *.
  assert (2 * w < 2 ^ (2 * w)) by (apply Z.pow_gt_lin_r; lia). lia.
Qed.

(** Regrouping [2n] fields into pairs. *)
Fixpoint pairs (l : list Z) : list (Z * Z) :=
  match l with a :: b :: l' => (a, b) :: pairs l' | _ => [] end.

Lemma pairs_ok n w l :
  length l = (2 * n)%nat -> Forall (fun a => 0 <= a <= w) l ->
  fv w l = pv w (pairs l) /\ length (pairs l) = n /\ fields w (pairs l) /\
  foldr Z.add 0 l = foldr Z.add 0 (sums (pairs l)).
Proof.
  revert l. induction n as [|n IH]; intros l Hl Hf.
  - destruct l; [|done]. split; [done|]. split; [done|]. split; [constructor|done].
  - destruct l as [|a [|b l]]; [cbn in Hl; lia..|]. cbn in Hl. inversion Hf as [|?? Ha Hf']. subst.
    inversion Hf' as [|?? Hb Hf'']. subst. destruct (IH l ltac:(lia) Hf'') as (E1 & E2 & E3 & E4).
    cbn [pairs fv pv length]. rewrite E1, E2. split; [ring|]. split; [done|]. split; [by constructor|].
    unfold sums. rewrite fmap_cons. cbn [foldr fst snd]. rewrite E4. unfold sums. ring.
Qed.

Lemma sums_bound w ps : fields w ps -> Forall (fun a => 0 <= a <= 2 * w) (sums ps).
Proof. intros H. apply Forall_fmap. eapply Forall_impl; [exact H|]. intros [] []. cbn in *. lia. Qed.

(** One stage on a number given by its fields. *)
Lemma stage_fields n w w2 l :
  1 <= w -> w2 = 2 * w -> w2 * Z.of_nat n = 32 -> length l = (2 * n)%nat -> Forall (fun a => 0 <= a <= w) l ->
  exists l', stage w n (fv w l) = fv w2 l' /\ length l' = n /\
    Forall (fun a => 0 <= a <= w2) l' /\ foldr Z.add 0 l' = foldr Z.add 0 l.
Proof.
  intros Hw -> Hn Hl Hf. destruct (pairs_ok n w l Hl Hf) as (E1 & E2 & E3 & E4).
  exists (sums (pairs l)). rewrite E1, E4. rewrite <- E2 at 1. rewrite stage_ok by (rewrite ?E2; done).
  split; [done|]. split; [by unfold sums; rewrite length_fmap|]. split; [by apply sums_bound|done].
Qed.

(** The bits of a number as fields of width one. *)
Fixpoint bits (n : nat) (v : Z) : list Z :=
  match n with O => [] | S n' => v mod 2 :: bits n' (v / 2) end.

Lemma bits_ok n v :
  0 <= v < 2 ^ Z.of_nat n ->
  fv 1 (bits n v) = v /\ length (bits n v) = n /\ Forall (fun a => 0 <= a <= 1) (bits n v) /\
  foldr Z.add 0 (bits n v) = zsum n (fun j => Z.b2z (Z.testbit v j)).
Proof.
  revert v. induction n as [|n IH]; intros v Hv.
  - assert (v = 0) as -> by lia. split; [done|]. split; [done|]. split; [constructor|done].
  - rewrite Nat2Z.inj_succ, Z.pow_succ_r in Hv by lia.
    destruct (IH (v / 2)) as (E1 & E2 & E3 & E4); [Z.div_mod_to_equations; lia|].
    cbn [bits fv length foldr]. rewrite E1, E2. split; [change (2 ^ 1) with 2; Z.div_mod_to_equations; lia|].
    split; [done|]. split; [constructor; [Z.div_mod_to_equations; lia|done]|].
    change (S n) with (1 + n)%nat. rewrite zsum_add, E4. cbn [zsum]. f_equal.
    + rewrite Z.bit0_mod. rewrite Z.add_0_l. done.
    + apply zsum_ext. intros j Hj. rewrite Z.div2_bits by lia. do 2 f_equal. lia.
Qed.

Lemma popcnt_stages v : popcnt v = stage 16 1 (stage 8 2 (stage 4 4 (stage 2 8 (stage 1 16 v)))).
Proof.
  unfold popcnt, stage.
  replace (emask 1 16) with 0x55555555 by (by vm_compute).
  replace (omask 1 16) with 0xaaaaaaaa by (by vm_compute).
  replace (emask 2 8) with 0x33333333 by (by vm_compute).
  replace (omask 2 8) with 0xcccccccc by (by vm_compute).
  replace (emask 4 4) with 0x0f0f0f0f by (by vm_compute).
  replace (omask 4 4) with 0xf0f0f0f0 by (by vm_compute).
  replace (emask 8 2) with 0x00ff00ff by (by vm_compute).
  replace (omask 8 2) with 0xff00ff00 by (by vm_compute).
  replace (emask 16 1) with 0x0000ffff by (by vm_compute).
  replace (omask 16 1) with 0xffff0000 by (by vm_compute).
  reflexivity.
Qed.

Lemma popcnt_bits v :
  0 <= v < 2 ^ 32 -> popcnt v = zsum 32 (fun j => Z.b2z (Z.testbit v j)).
Proof.
  intros Hv. destruct (bits_ok 32 v Hv) as (E & L0 & F0 & S0). rewrite <- S0, popcnt_stages.
  rewrite <- E at 1. clear E S0.
  destruct (stage_fields 16 1 2 (bits 32 v)) as (l1 & -> & L1 & F1 & <-); [lia|done|done|done|done|].
  destruct (stage_fields 8 2 4 l1) as (l2 & -> & L2 & F2 & <-); [lia|done|done|done|done|].
  destruct (stage_fields 4 4 8 l2) as (l3 & -> & L3 & F3 & <-); [lia|done|done|done|done|].
  destruct (stage_fields 2 8 16 l3) as (l4 & -> & L4 & F4 & <-); [lia|done|done|done|done|].
  destruct (stage_fields 1 16 32 l4) as (l5 & -> & L5 & F5 & <-); [lia|done|done|done|done|].
  destruct l5 as [|x [|]]; [done| |done]. cbn [fv foldr]. lia.
Qed.

(** * Free blocks *)

Lemma popcnt_not32 v :
  0 <= v < 2 ^ 32 -> popcnt (not32 v) = zsum 32 (fun j => Z.b2z (negb (Z.testbit v j))).
Proof.
  intros Hv. unfold not32, ALL_USED. rewrite popcnt_bits by lia. apply zsum_ext. intros j Hj. f_equal.
  assert (0xffffffff - v = Z.lxor v (Z.ones 32)) as ->.
  {
    assert (Z.land v (Z.lxor v (Z.ones 32)) = 0) as Hd.
    { apply Z.bits_inj'. intros m Hm. rewrite Z.land_spec, Z.lxor_spec, Z.testbit_0_l.
      destruct (decide (m < 32)); [rewrite Z.ones_spec_low by lia; by destruct (Z.testbit v m)|].
      by rewrite (testbit_above 32 v) by lia. }
    assert (v + Z.lxor v (Z.ones 32) = Z.ones 32); [|change (Z.ones 32) with 0xffffffff in *; lia].
    rewrite Z.add_nocarry_lxor by done. by rewrite <- Z.lxor_assoc, Z.lxor_nilpotent, Z.lxor_0_l. }
  rewrite Z.lxor_spec, Z.ones_spec_low by lia. by destruct (Z.testbit v j).
Qed.

Definition free_bit (b : list Z) (x : Z) : Z := Z.b2z (negb (bit_of b x)).

Lemma statfs_word b w :
  is_bytes b -> 0 <= w < 128 ->
  (if get32 b (4 * w) =? ALL_USED then 0 else popcnt (not32 (get32 b (4 * w)))) =
  zsum 32 (fun j => free_bit b (32 * w + j)).
Proof.
  intros Hb Hw. transitivity (zsum 32 (fun j => Z.b2z (negb (Z.testbit (get32 b (4 * w)) j)))).
  - destruct (Z.eqb_spec (get32 b (4 * w)) ALL_USED) as [E|E].
    + rewrite E. by vm_compute.
    + apply popcnt_not32, get32_range, Hb.
  - apply zsum_ext. intros j Hj. unfold free_bit. rewrite bit_of_word by (done || lia).
    replace ((32 * w + j) / 32) with w by (Z.div_mod_to_equations; lia).
    replace ((32 * w + j) mod 32) with j by (Z.div_mod_to_equations; lia). done.
Qed.

(** One map block: a word at a time is a bit at a time. *)
Lemma statfs_words_ok b n :
  is_bytes b -> (n <= 128)%nat ->
  statfs_words n b = zsum n (fun w => zsum 32 (fun j => free_bit b (32 * (128 - Z.of_nat n + w) + j))).
Proof.
  intros Hb. induction n as [|n IH]; intros Hn; [done|].
  cbn [statfs_words]. rewrite statfs_word by (done || lia).
  change (S n) with (1 + n)%nat. rewrite zsum_add, IH by lia. f_equal.
  - rewrite zsum_1. apply zsum_ext. intros j Hj. f_equal. lia.
  - apply zsum_ext. intros w Hw. apply zsum_ext. intros j Hj. f_equal. lia.
Qed.

Lemma statfs_block b : is_bytes b -> statfs_words 128 b = zsum (Z.to_nat BPB) (free_bit b).
Proof.
  intros Hb. rewrite statfs_words_ok by (done || lia). change (Z.to_nat BPB) with (128 * 32)%nat.
  rewrite zsum_mul. apply zsum_ext. intros w Hw. apply zsum_ext. intros j Hj. f_equal. lia.
Qed.

Section statfs.
Context {S : Type} `{HS : BlockLayerOk S}.
Implicit Types (k : kern S) (f : fs).

(** The number of zero bits among the first [n] of the map. *)
Definition free_count k f (dv : nat) (n : nat) : Z :=
  zsum n (fun nr => Z.b2z (negb (is_used k f dv nr))).

Lemma free_count_block k f dv (j : nat) :
  (Z.of_nat j < bam_size (nat_ f)) ->
  free_count k f dv (j * Z.to_nat BPB + Z.to_nat BPB) =
  free_count k f dv (j * Z.to_nat BPB) + zsum (Z.to_nat BPB) (free_bit (lbam (nat_ f) (dsk k dv) (Z.of_nat j))).
Proof.
  intros Hj. unfold free_count. rewrite zsum_add. f_equal. apply zsum_ext. intros x Hx.
  unfold free_bit, is_used, used. rewrite Nat2Z.inj_mul. unfold BPB in *. rewrite Z2Nat.id in * by lia.
  replace ((Z.of_nat j * 4096 + x) / 4096) with (Z.of_nat j) by (Z.div_mod_to_equations; lia).
  replace ((Z.of_nat j * 4096 + x) mod 4096) with x by (Z.div_mod_to_equations; lia). done.
Qed.

Lemma statfs_loop_ok n i dv f k (j : nat) free :
  bam_ok k i f dv -> (Z.to_nat (bam_size (nat_ f)) = j + n)%nat ->
  free = u32 (free_count k f dv (j * Z.to_nat BPB)) ->
  wp (statfs_loop n i (Z.of_nat j) free)
    (fun r k' => r = u32 (free_count k f dv ((j + n) * Z.to_nat BPB)) /\
       exists f', bam_step i dv f f' k k' /\ same_bam k f k' f' dv)
    (fun e k' => read_failed f dv e /\ exists f', bam_step i dv f f' k k' /\ same_bam k f k' f' dv) k.
Proof.
  revert f k j free. induction n as [|n IH]; intros f k j free Hk Hn Hfree; cbn [statfs_loop].
  { rewrite Nat.add_0_r. split; [done|]. exists f. split; [by apply bam_step_refl|done]. }
  apply wp_bind, (wp_get_nat i f); [apply Hk|].
  eapply wp_seq; [apply (nat_switch_bam_ok i dv f k _ Hk); lia| |auto].
  intros _ k1 (f1 & St & Sa & Hc). pose proof (bs_ok _ _ _ _ _ _ St) as Hk1.
  pose proof (bs_geom _ _ _ _ _ _ St) as Hg. destruct (geom_eq _ _ Hg) as (Eb & Es & _).
  assert (Hu : forall m, Z.of_nat m <= bam_size (nat_ f) * BPB -> free_count k1 f1 dv m = free_count k f dv m).
  { intros m Hm. apply zsum_ext. intros x Hx. by rewrite (same_bam_used k f k1 f1) by (done || (unfold mapped_blk; lia)). }
  apply wp_bind, (wp_get_nat i f1); [apply Hk1|].
  replace (Z.of_nat j + 1) with (Z.of_nat (Datatypes.S j)) by lia.
  assert (Hlb : lbam (nat_ f1) (dsk k1 dv) (Z.of_nat j) = bam_buf (nat_ f1)).
  { unfold lbam. rewrite Eb, Hc. by rewrite Z.eqb_refl. }
  eapply wp_mono; [apply (IH f1 k1 (Datatypes.S j)); [done|lia|]| |].
  - rewrite Nat.mul_succ_l, free_count_block, Hlb by lia.
    rewrite Hfree, statfs_block by (apply Hk1). rewrite Hu by (unfold BPB; lia).
    unfold u32. by rewrite Zplus_mod_idemp_l.
  - intros r k2 [-> (f2 & St2 & Sa2)]. split.
    + rewrite Hu by (unfold BPB; lia). do 2 f_equal. lia.
    + exists f2. split; [by eapply bam_step_trans|]. by eapply same_bam_trans; [apply St| |].
  - intros e k2 [He (f2 & St2 & Sa2)]. split; [by eapply read_failed_geom|].
    exists f2. split; [by eapply bam_step_trans|]. by eapply same_bam_trans; [apply St| |].
Qed.

(** [nat_statfs] reports the data size of the superblock and, as a 32-bit
    count, the number of blocks whose bit in the allocation map is zero; it
    changes neither the map nor any other block, and fails only when a map block
    cannot be read. *)
Theorem nat_statfs_counts_free i dv f k :
  bam_ok k i f dv ->
  wp (nat_statfs i)
    (fun r k' => r = (data_size (nat_ f), u32 (free_count k f dv (Z.to_nat (bam_size (nat_ f) * BPB)))) /\
       exists f', bam_step i dv f f' k k' /\ same_bam k f k' f' dv)
    (fun e k' => read_failed f dv e /\ exists f', bam_step i dv f f' k k' /\ same_bam k f k' f' dv) k.
Proof.
  intros Hk. unfold nat_statfs. apply wp_bind, (wp_get_nat i f); [apply Hk|].
  pose proof (bo_geom _ _ _ _ Hk) as [].
  eapply wp_seq; [apply (statfs_loop_ok _ i dv f k 0 0); done| |auto].
  intros r k1 [-> He]. split; [|done]. f_equal. f_equal. f_equal. unfold BPB. lia.
Qed.
End statfs.
