(* ===== verification/NatBmap.v ===== *)
(** The block map of a natfs file (kern/fs/nat/bmap.c, lines 151 to 321):
    [ndirblks] direct blocks followed by trees of [nindirlev] levels of indirect
    blocks with 128 entries each.

    A file is the index of its [struct fso].  [nat_bmap] leaves its result in
    [bmap_phys].  The loops over the levels and over the entries of a block run
    a number of times that is known at entry, so they are structural. *)

From S2P Require Import Prelude BlockDev BlockIface Kern NatBam.

Definition NBMAP : Z := 114.

Section ops.
Context {S : Type} `{BlockLayer S}.

(** A fresh block, zeroed in the cache: the sequence of calls that both
    [nat_bmap_dir] and [nat_bmap] make. *)
Definition zero_block (d : nat) (bn : Z) : M S unit :=
  bb <~ bl_get d bn;;
  bl_fill bb (zeros BLK_SIZE);;;
  bl_put bb.

Definition alloc_zero (fsi : nat) : M (kern S) Z :=
  bn <~ nat_balloc fsi;;
  d <~ get_dev fsi;;
  blk (zero_block d bn);;;
  ret bn.

Definition nat_bmap_dir (i : nat) (log : Z) (alloc : bool) : M (kern S) Z :=
  if NBMAP <=? log then fail EFBIG
  else
    f <~ get_fso i;;
    if alloc && (default 0 (bmap (fnat f) !! Z.to_nat log) =? 0) then
      bn <~ alloc_zero (f_fs f);;
      upd_fso i (fun f =>
        set_dirty true (set_blocks (u32 (blocks f + 1))
          (set_fnat (set_bmap (<[Z.to_nat log := bn]> (bmap (fnat f))) (fnat f)) f)));;;
      ret bn
    else ret (default 0 (bmap (fnat f) !! Z.to_nat log)).

(** [while (bn && indl)], with [shift = 7 * (indl - 1)]. *)
Fixpoint bmap_loop (i : nat) (log : Z) (alloc : bool) (indl : nat) (bn : Z) : M (kern S) Z :=
  match indl with
  | O => ret bn
  | Datatypes.S indl' =>
    if bn =? 0 then ret bn
    else
      f <~ get_fso i;;
      d <~ get_dev (f_fs f);;
      bb <~ blk (bl_read d bn);;
      let ix := Z.land (Z.shiftr log (7 * Z.of_nat indl')) 127 in
      imap <~ gets (fun k => bl_data bb (k_blk k));;
      let bn := get32 imap (4 * ix) in
      if bn =? 0 then
        if negb alloc then blk (bl_put bb);;; ret 0
        else
          r <~ attempt (alloc_zero (f_fs f));;
          match r with
          | inl e => blk (bl_put bb);;; fail e
          | inr bn =>
            blk (bl_modify bb (fun imap => put32 imap (4 * ix) bn));;;
            upd_fso i (fun f => set_dirty true (set_blocks (u32 (blocks f + 1)) f));;;
            blk (bl_put bb);;;
            bmap_loop i log alloc indl' bn
          end
      else
        blk (bl_put bb);;;
        bmap_loop i log alloc indl' bn
  end.

Definition set_phys (i : nat) (log bn : Z) : M (kern S) unit :=
  upd_fnat i (set_bmap_cache true log bn).

Definition nat_bmap (i : nat) (log : Z) (alloc : bool) : M (kern S) unit :=
  f <~ get_fso i;;
  let n := fnat f in
  if bmap_valid n && (bmap_log n =? log) && (negb alloc || negb (bmap_phys n =? 0)) then ret tt
  else if log <? ndirblks n then
    bn <~ nat_bmap_dir i log alloc;;
    set_phys i log bn
  else
    let shift := 7 * nindirlev n in
    if 32 <=? shift then halted Undefined
    else
      bn <~ nat_bmap_dir i (u32 (ndirblks n + Z.shiftr log shift)) alloc;;
      bn <~ bmap_loop i log alloc (Z.to_nat (nindirlev n)) bn;;
      set_phys i log bn.

(** The loop of [nat_trunc_indir] over the last [n] entries of the block in
    [bb]; [sub] is what it does with an entry before it frees it.  The first
    error is kept. *)
Fixpoint trunc_entries (sub : Z -> M (kern S) Z) (fsi bb : nat) (n : nat) (err : Z) : M (kern S) Z :=
  match n with
  | O => ret err
  | Datatypes.S n' =>
    imap <~ gets (fun k => bl_data bb (k_blk k));;
    let e := get32 imap (4 * (128 - Z.of_nat n)) in
    if e =? 0 then trunc_entries sub fsi bb n' err
    else
      err1 <~ sub e;;
      let err := if err =? 0 then err1 else err in
      err1 <~ status (nat_bfree fsi e);;
      let err := if err =? 0 then err1 else err in
      trunc_entries sub fsi bb n' err
  end.

Fixpoint nat_trunc_indir (fsi : nat) (indl : nat) (bn : Z) : M (kern S) Z :=
  d <~ get_dev fsi;;
  r <~ attempt (blk (bl_read d bn));;
  match r with
  | inl e => ret e
  | inr bb =>
    err <~ trunc_entries
      (match indl with O => fun _ => ret 0 | Datatypes.S indl' => nat_trunc_indir fsi indl' end)
      fsi bb 128 0;;
    blk (bl_put bb);;;
    ret err
  end.

(** The loop of [nat_trunc] over the last [n] entries of [bmap]. *)
Fixpoint trunc_loop (i : nat) (n : nat) : M (kern S) unit :=
  match n with
  | O => ret tt
  | Datatypes.S n' =>
    f <~ get_fso i;;
    let j := NBMAP - Z.of_nat n in
    let bn := default 0 (bmap (fnat f) !! Z.to_nat j) in
    if bn =? 0 then trunc_loop i n'
    else
      (if ndirblks (fnat f) <=? j
       then _ <~ nat_trunc_indir (f_fs f) (Z.to_nat (nindirlev (fnat f) - 1)) bn;; ret tt
       else ret tt);;;
      status (nat_bfree (f_fs f) bn);;;
      upd_fnat i (fun n => set_bmap (<[Z.to_nat j := 0]> (bmap n)) n);;;
      trunc_loop i n'
  end.

Definition nat_trunc (i : nat) : M (kern S) unit :=
  f <~ get_fso i;;
  let indl := nindirlev (fnat f) in
  if (indl <? 1) || (8 <? indl) then fail EINVAL
  else
    trunc_loop i (Z.to_nat NBMAP);;;
    upd_fso i (fun f =>
      set_size 0 (set_blocks 1 (set_dirty true
        (set_fnat (set_bmap_cache false (bmap_log (fnat f)) (bmap_phys (fnat f)) (fnat f)) f)))).
End ops.
