(* ===== verification/NatTree.v ===== *)
(** The shape of a natfs file on disk: which block holds which part of it.

    [node] follows the direct and indirect pointers from the [bmap] of the file;
    the blocks of a file are indexed by [key]: the [i]th direct block, or the
    indirect or data block at depth [d] whose index among the blocks of its depth
    is [p].  [tree_ok] says that no block is used twice and that every block of
    the file is owned.  [grow] is what filling in missing blocks on the way to a
    logical block does to the tree. *)

From S2P Require Import Prelude BlockDev BlockIface Kern NatBmap.

Inductive key := KDir (i : Z) | KInd (d : nat) (p : Z).
#[export] Instance key_eq_dec : EqDecision key.
Proof. solve_decision. Defined.

Implicit Types (dk : Z -> list Z) (m : fso_nat).

Definition slot m (j : Z) : Z := default 0 (bmap m !! Z.to_nat j).
Fixpoint inode dk m (d : nat) (p : Z) : Z :=
  match d with
  | O => slot m (ndirblks m + p)
  | S d' =>
    let b := inode dk m d' (p / 128) in
    if b =? 0 then 0 else get32 (dk b) (4 * (p mod 128))
  end.
Definition node dk m (a : key) : Z :=
  match a with KDir i => slot m i | KInd d p => inode dk m d p end.

Definition lev m : nat := Z.to_nat (nindirlev m).
Definition kvalid m (a : key) : Prop :=
  match a with
  | KDir i => 0 <= i < ndirblks m
  | KInd d p => (d <= lev m)%nat /\ 0 <= p /\ ndirblks m + p / 128 ^ Z.of_nat d < NBMAP
  end.
(** Blocks that hold pointers. *)
Definition kindex m (a : key) : Prop :=
  match a with KDir _ => False | KInd d p => (d < lev m)%nat end.

(** The key of the [log]th block of the file, and the logical numbers that have one. *)
Definition data_key m (log : Z) : key := if log <? ndirblks m then KDir log else KInd (lev m) log.
Definition log_ok m (log : Z) : Prop := 0 <= log < 2 ^ 32 /\ kvalid m (data_key m log).

Record map_ok m : Prop := MapOk {
  mo_len : length (bmap m) = Z.to_nat NBMAP;
  mo_u32 : Forall (fun b => 0 <= b < 2 ^ 32) (bmap m);
  mo_ndir : 0 <= ndirblks m <= NBMAP;
  mo_lev : 0 <= nindirlev m <= 4
}.

Record tree_ok (own : Z -> Prop) dk m : Prop := TreeOk {
  to_map : map_ok m;
  to_inj : forall a b, kvalid m a -> kvalid m b -> node dk m a <> 0 -> node dk m a = node dk m b -> a = b;
  to_own : forall a, kvalid m a -> node dk m a <> 0 -> own (node dk m a)
}.

Definition same_shape m m' : Prop := ndirblks m' = ndirblks m /\ nindirlev m' = nindirlev m.

Lemma kvalid_shape m m' a : same_shape m m' -> kvalid m' a <-> kvalid m a.
Proof. intros [E1 E2]. unfold kvalid, lev. by rewrite E1, E2. Qed.
Lemma kindex_shape m m' a : same_shape m m' -> kindex m' a <-> kindex m a.
Proof. intros [E1 E2]. unfold kindex, lev. by rewrite E2. Qed.
Lemma data_key_shape m m' log : same_shape m m' -> data_key m' log = data_key m log.
Proof. intros [E1 E2]. unfold data_key, lev. by rewrite E1, E2. Qed.

(** The parent of an indirect block. *)
Lemma kvalid_parent m d p : kvalid m (KInd (S d) p) -> kvalid m (KInd d (p / 128)).
Proof.
  intros (Hd & Hp & Hb). split; [lia|]. split; [apply Z.div_pos; lia|].
  rewrite Z.div_div by (try apply Z.pow_pos_nonneg; lia).
  rewrite <- Z.pow_succ_r, <- Nat2Z.inj_succ by lia. done.
Qed.

Lemma inode_child dk m d p :
  inode dk m (S d) p =
    if inode dk m d (p / 128) =? 0 then 0 else get32 (dk (inode dk m d (p / 128))) (4 * (p mod 128)).
Proof. done. Qed.

(** The path from the [bmap] to a logical block. *)
Definition path m (log : Z) (d : nat) : Z := log / 128 ^ (Z.of_nat (lev m) - Z.of_nat d).
Definition on_path m (log : Z) (a : key) : Prop :=
  match a with
  | KDir i => i = log
  | KInd d p => ndirblks m <= log /\ (d <= lev m)%nat /\ p = path m log d
  end.

Lemma path_lev m log : path m log (lev m) = log.
Proof. unfold path. rewrite Z.sub_diag. apply Z.div_1_r. Qed.

Lemma path_parent m log d : 0 <= log -> (d < lev m)%nat -> path m log (S d) / 128 = path m log d.
Proof.
  intros Hl Hd. unfold path. rewrite Z.div_div by (try apply Z.pow_nonzero; lia).
  f_equal. rewrite Z.mul_comm, <- Z.pow_succ_r by lia. f_equal. lia.
Qed.

Lemma path_valid m log d : log_ok m log -> ndirblks m <= log -> (d <= lev m)%nat -> kvalid m (KInd d (path m log d)).
Proof.
  intros [Hl Hv] Hn Hd. unfold data_key in Hv. rewrite (proj2 (Z.ltb_ge _ _)) in Hv by lia.
  destruct Hv as (_ & _ & Hb). split; [done|]. split; [apply Z.div_pos; [lia|apply Z.pow_pos_nonneg; lia]|].
  unfold path. rewrite Z.div_div by (try apply Z.pow_nonzero; try apply Z.pow_pos_nonneg; lia).
  rewrite <- Z.pow_add_r by lia. replace (Z.of_nat (lev m) - Z.of_nat d + Z.of_nat d) with (Z.of_nat (lev m)) by lia. done.
Qed.

(** The code's index expression. *)
Lemma path_index m log d :
  0 <= log -> (d < lev m)%nat ->
  Z.land (Z.shiftr log (7 * Z.of_nat (lev m - S d))) 127 = path m log (S d) mod 128.
Proof.
  intros Hl Hd. change 127 with (Z.ones 7). rewrite Z.land_ones, Z.shiftr_div_pow2 by lia.
  unfold path. f_equal. f_equal. change 128 with (2 ^ 7). rewrite <- Z.pow_mul_r by lia. f_equal. lia.
Qed.

Lemma data_on_path m log log' : on_path m log (data_key m log') -> log' = log.
Proof.
  unfold data_key. destruct (Z.ltb_spec log' (ndirblks m)); cbn; [done|].
  intros (_ & _ & ->). apply path_lev.
Qed.

Lemma slot_range m j : map_ok m -> 0 <= slot m j < 2 ^ 32.
Proof.
  intros [_ Hf _ _]. unfold slot. destruct (bmap m !! Z.to_nat j) eqn:E; cbn; [|lia].
  by eapply Forall_lookup_1 in Hf.
Qed.

Lemma node_range dk m a :
  map_ok m -> (forall nr, is_bytes (dk nr)) -> 0 <= node dk m a < 2 ^ 32.
Proof.
  intros Hm Hd. destruct a as [i|[|d] p]; cbn; [by apply slot_range..|].
  destruct (_ =? 0); [lia|]. by apply get32_range.
Qed.

(** ** Updates of the tree *)

(** A pointer filled in an indirect block. *)
Lemma node_set_child own dk dk' m d p b bn :
  tree_ok own dk m -> (forall nr, bytes_ok BLK_SIZE (dk nr)) ->
  kvalid m (KInd (S d) p) -> node dk m (KInd d (p / 128)) = b -> b <> 0 ->
  node dk m (KInd (S d) p) = 0 ->
  0 < bn < 2 ^ 32 -> (forall a, kvalid m a -> node dk m a <> bn) ->
  dk' b = put32 (dk b) (4 * (p mod 128)) bn ->
  dk' bn = zeros BLK_SIZE ->
  (forall a, kvalid m a -> kindex m a -> node dk m a <> 0 -> node dk m a <> b -> dk' (node dk m a) = dk (node dk m a)) ->
  forall a, kvalid m a -> node dk' m a = if decide (a = KInd (S d) p) then bn else node dk m a.
Proof.
  intros [Hm Hinj _] Hlen Hv Hb Hb0 Hc0 Hbn Hfresh Eb Ebn Hsame [i|e q] Ha.
  { by rewrite decide_False. }
  revert q Ha. induction e as [|e IH]; intros q Ha; [by rewrite decide_False|].
  pose proof (kvalid_parent _ _ _ Ha) as Hpa. specialize (IH _ Hpa). cbn [node] in *.
  rewrite !inode_child, IH.
  destruct (decide (KInd e (q / 128) = KInd (S d) p)) as [E|E].
  { injection E as -> Eq. rewrite Eq, Hc0, decide_False by congruence. cbn [Z.eqb].
    destruct (Z.eqb_spec bn 0); [done|]. by rewrite Ebn, get32_zeros. }
  set (y := inode dk m e (q / 128)) in *. destruct (Z.eqb_spec y 0) as [E0|E0].
  { rewrite decide_False; [done|]. intros E'. injection E' as -> ->. apply Hb0. by rewrite <- Hb. }
  destruct (decide (y = b)) as [Eyb|Hyb].
  - assert (KInd e (q / 128) = KInd d (p / 128)) as E'.
    { apply Hinj; [done|by apply kvalid_parent|done|]. exact (eq_trans Eyb (eq_sym Hb)). }
    rewrite Eyb, Eb. injection E' as -> Eq. destruct (Hlen b) as [Hl _]. unfold BLK_SIZE in Hl.
    pose proof (Z.mod_pos_bound p 128). pose proof (Z.mod_pos_bound q 128).
    destruct (decide (KInd (S d) q = KInd (S d) p)) as [E'|E'].
    + injection E' as ->. rewrite get32_put32 by lia. apply u32_small. lia.
    + apply get32_put32_ne; [lia|lia|lia|]. assert (q mod 128 <> p mod 128); [|lia].
      intros Em. apply E'. f_equal. rewrite (Z.div_mod q 128), (Z.div_mod p 128) by lia. congruence.
  - assert (KInd (S e) q <> KInd (S d) p) as Hne by (intros E'; injection E' as -> ->; apply Hyb, Hb).
    rewrite decide_False by done.
    unfold y. f_equal. apply (Hsame (KInd e (q / 128))); [done| |done|done].
    destruct Ha. cbn. lia.
Qed.

(** A pointer filled in the [bmap] of the file. *)
Lemma node_set_root own dk dk' m j bn :
  tree_ok own dk m -> 0 <= j < NBMAP -> slot m j = 0 -> 0 < bn < 2 ^ 32 ->
  dk' bn = zeros BLK_SIZE ->
  (forall a, kvalid m a -> kindex m a -> node dk m a <> 0 -> dk' (node dk m a) = dk (node dk m a)) ->
  let m' := set_bmap (<[Z.to_nat j := bn]> (bmap m)) m in
  let a0 := if j <? ndirblks m then KDir j else KInd 0 (j - ndirblks m) in
  forall a, kvalid m a -> node dk' m' a = if decide (a = a0) then bn else node dk m a.
Proof.
  intros [Hm Hinj _] Hj Hs Hbn Ebn Hsame m' a0 a Ha. destruct Hm as [Hl Hu Hn Hlv].
  assert (Hslot : forall x, 0 <= x < NBMAP -> slot m' x = if decide (x = j) then bn else slot m x).
  { intros x Hx. unfold slot, m'. cbn. destruct (decide (x = j)) as [->|].
    - rewrite list_lookup_insert_eq; [done|lia].
    - rewrite list_lookup_insert_ne; [done|lia]. }
  destruct a as [i|e q].
  { cbn [node kvalid] in *. rewrite Hslot by lia. unfold a0.
    destruct (Z.ltb_spec j (ndirblks m)).
    - destruct (decide (i = j)) as [->|]; [by rewrite decide_True|]. rewrite decide_False; congruence.
    - rewrite !decide_False; [done|done|lia]. }
  revert q Ha. induction e as [|e IH]; intros q Ha.
  { destruct Ha as (_ & Hq & Hb). cbn [node inode]. change (ndirblks m') with (ndirblks m).
    change (Z.of_nat 0) with 0 in Hb. rewrite Z.pow_0_r, Z.div_1_r in Hb.
    rewrite Hslot by lia. unfold a0. destruct (Z.ltb_spec j (ndirblks m)).
    - rewrite !decide_False; [done|done|lia].
    - destruct (decide (ndirblks m + q = j)) as [<-|].
      + rewrite decide_True; [done|]. f_equal. lia.
      + rewrite decide_False; [done|]. intros E. injection E as ->. lia. }
  pose proof (kvalid_parent _ _ _ Ha) as Hpa. specialize (IH _ Hpa). cbn [node] in *.
  rewrite !inode_child, IH. rewrite (decide_False (P := KInd (S e) q = a0)).
  2: { unfold a0. destruct (_ <? _); congruence. }
  destruct (decide (KInd e (q / 128) = a0)) as [E|E].
  - assert (inode dk m e (q / 128) = 0) as ->.
    { unfold a0 in E. destruct (j <? ndirblks m); [done|]. injection E as -> ->. cbn.
      rewrite <- Hs. f_equal. lia. }
    cbn [Z.eqb]. destruct (Z.eqb_spec bn 0); [done|]. by rewrite Ebn, get32_zeros.
  - destruct (Z.eqb_spec (inode dk m e (q / 128)) 0) as [|E0]; [done|].
    f_equal. apply (Hsame (KInd e (q / 128))); [done| |done]. destruct Ha. cbn. lia.
Qed.

(** The tree depends on the contents of its indirect blocks only. *)
Lemma node_same dk dk' m :
  (forall a, kvalid m a -> kindex m a -> node dk m a <> 0 -> dk' (node dk m a) = dk (node dk m a)) ->
  forall a, kvalid m a -> node dk' m a = node dk m a.
Proof.
  intros Hs [i|e q] Ha; [done|]. revert q Ha. induction e as [|e IH]; intros q Ha; [done|].
  pose proof (kvalid_parent _ _ _ Ha) as Hpa. specialize (IH _ Hpa). cbn [node] in *.
  rewrite !inode_child, IH. destruct (Z.eqb_spec (inode dk m e (q / 128)) 0) as [|E0]; [done|].
  f_equal. apply (Hs (KInd e (q / 128))); [done| |done]. destruct Ha. cbn. lia.
Qed.

(** Below an empty place there is nothing. *)
Lemma node_empty_below dk m log d :
  0 <= log -> ndirblks m <= log -> (d <= lev m)%nat -> node dk m (KInd d (path m log d)) = 0 ->
  node dk m (data_key m log) = 0.
Proof.
  intros Hl Hn Hd H0. unfold data_key. rewrite (proj2 (Z.ltb_ge _ _)) by lia. rewrite <- (path_lev m log) at 1.
  assert (forall e, (d + e <= lev m)%nat -> node dk m (KInd (d + e) (path m log (d + e))) = 0) as Hind.
  { induction e as [|e IH]; intros He; [by rewrite Nat.add_0_r|].
    rewrite Nat.add_succ_r. cbn [node] in *. rewrite inode_child, path_parent, IH by lia. done. }
  specialize (Hind (lev m - d)%nat ltac:(lia)). by replace (d + (lev m - d))%nat with (lev m) in Hind by lia.
Qed.

Lemma node_ext dk m m' a : bmap m' = bmap m -> ndirblks m' = ndirblks m -> node dk m' a = node dk m a.
Proof.
  intros Hb Hn. assert (forall j, slot m' j = slot m j) as Hs by (intros; unfold slot; by rewrite Hb).
  destruct a as [i|d p]; cbn; [done|]. revert p.
  induction d as [|d IH]; intros p; cbn [inode]; [by rewrite Hs, Hn|]. by rewrite IH.
Qed.

Lemma node_dk_ext dk dk' m a : (forall nr, dk' nr = dk nr) -> node dk' m a = node dk m a.
Proof.
  intros Hd. destruct a as [i|d p]; cbn; [done|]. revert p.
  induction d as [|d IH]; intros p; cbn [inode]; [done|]. by rewrite IH, Hd.
Qed.
