(* ===== verification/NatBmapOk.v ===== *)
(** Correctness of [nat_bmap]: with an empty path filled in on request, it finds
    the block that [node] names for a logical block, and changes nothing else. *)

From S2P Require Import Prelude BlockDev BlockIface Kern NatBam NatBamOk NatBmap NatTree.

Section ok.
Context {S : Type} `{HS : BlockLayerOk S}.
Implicit Types (k : kern S) (f : fs) (g : fso).

(** * Invariants *)

(** The allocation map keeps everything but data blocks marked: a block with a
    zero bit is a data block that exists on the device. *)
Record fs_inv k (i : nat) f (dv : nat) : Prop := FsInv {
  fi_bam : bam_ok k i f dv;
  fi_data : bam_block (nat_ f) + bam_size (nat_ f) <= data_block (nat_ f);
  fi_free : forall nr, mapped_blk f nr -> is_used k f dv nr = false ->
    data_block (nat_ f) <= nr /\ bl_range (k_blk k) dv nr
}.

(** An allocated data block. *)
Definition own k f (dv : nat) (nr : Z) : Prop :=
  data_block (nat_ f) <= nr /\ mapped_blk f nr /\ is_used k f dv nr = true /\ bl_range (k_blk k) dv nr.

Record file_inv k (i : nat) g f (dv : nat) : Prop := FileInv {
  fo_fso : k_fso k !! i = Some g;
  fo_fs : fs_inv k (f_fs g) f dv;
  fo_room : room 2 (k_blk k);
  fo_tree : tree_ok (own k f dv) (dsk k dv) (fnat g)
}.

(** The remembered translation [bmap_log], [bmap_phys] is right. *)
Definition cache_ok k g (dv : nat) : Prop :=
  bmap_valid (fnat g) = true ->
  log_ok (fnat g) (bmap_log (fnat g)) /\
  bmap_phys (fnat g) = node (dsk k dv) (fnat g) (data_key (fnat g) (bmap_log (fnat g))).

Definition file_ok k (i : nat) g f (dv : nat) : Prop := file_inv k i g f dv /\ cache_ok k g dv.

Lemma own_data k f dv nr : own k f dv nr -> data_block (nat_ f) <= nr.
Proof. by intros (? & _). Qed.

Lemma not_in_bam k i f dv nr : fs_inv k i f dv -> data_block (nat_ f) <= nr -> ~ in_bam (nat_ f) nr.
Proof. intros Hk Hd. pose proof (fi_data _ _ _ _ Hk). unfold in_bam. lia. Qed.

Lemma dsk_ok k dv nr : bl_inv (k_blk k) -> bytes_ok BLK_SIZE (dsk k dv nr).
Proof. apply bl_disk_ok. Qed.

(** * Allocation of a zeroed block *)

(** Only the map of the file system [i] and data blocks changed. *)
Record fs_step (i : nat) (dv : nat) f f' k k' : Prop := FsStep {
  ss_eq : k' = with_fs (<[i := f']> (k_fs k)) (with_blk (k_blk k') k);
  ss_fs : f' = set_nat (nat_ f') f;
  ss_geom : geom (nat_ f') = geom (nat_ f);
  ss_range : forall d nr, bl_range (k_blk k) d nr -> bl_range (k_blk k') d nr;
  ss_dev : forall d, bl_dev (k_blk k) d -> bl_dev (k_blk k') d;
  ss_count : bl_count (k_blk k') = bl_count (k_blk k);
  ss_pins : bl_pins (k_blk k') = bl_pins (k_blk k)
}.

Lemma bam_fs_step i dv f f' k k' : bam_step i dv f f' k k' -> fs_step i dv f f' k k'.
Proof. by intros []. Qed.

Lemma fs_step_trans i dv f1 f2 f3 k1 k2 k3 :
  fs_step i dv f1 f2 k1 k2 -> fs_step i dv f2 f3 k2 k3 -> fs_step i dv f1 f3 k1 k3.
Proof.
  intros [E1 F1 G1 R1 D1 C1 P1] [E2 F2 G2 R2 D2 C2 P2].
  split; [| |congruence|auto|auto|congruence|congruence].
  - rewrite E2, E1. destruct k1. cbn. by rewrite insert_insert_eq.
  - rewrite F2, F1. done.
Qed.

(** A write of one block outside the map through the cache. *)
Lemma fs_step_upd k i f dv nr d s' :
  bam_ok k i f dv -> bl_upd dv nr d (k_blk k) s' -> fs_step i dv f f k (with_blk s' k).
Proof.
  intros Hk (U1 & U2 & U3 & U4 & U5 & U6). split; try done; cbn.
  - destruct k. unfold with_fs, with_blk. cbn in *. f_equal. rewrite insert_id; [done|apply Hk].
  - symmetry. apply set_nat_id.
Qed.

Lemma bam_ok_upd k i f dv nr d s' :
  bam_ok k i f dv -> ~ in_bam (nat_ f) nr -> bl_upd dv nr d (k_blk k) s' ->
  bam_ok (with_blk s' k) i f dv /\ same_bam k f (with_blk s' k) f dv.
Proof.
  intros [G1 G2 G3 G4 G5 G6 [] G8 G9 G10 G11 G12] Hn (U1 & U2 & U3 & U4 & U5 & U6). split.
  - split; try done; cbn.
    + by apply U4.
    + by rewrite U6.
    + unfold room. by rewrite U5, U6.
    + intros x ?. by apply U3, G8.
    + intros Hd Hc. unfold dsk. cbn. rewrite U2, disk_upd_ne; [by apply G12|]. right. intros <-.
      destruct G10; done.
  - intros j Hj. unfold lbam, dsk. cbn. rewrite U2, disk_upd_ne; [done|]. right. intros <-.
    apply Hn. unfold in_bam. lia.
Qed.

Lemma fs_inv_bam k i f dv k' f' :
  fs_inv k i f dv -> bam_ok k' i f' dv -> geom (nat_ f') = geom (nat_ f) ->
  (forall d nr, bl_range (k_blk k) d nr -> bl_range (k_blk k') d nr) ->
  (forall nr, mapped_blk f nr -> is_used k' f' dv nr = false -> is_used k f dv nr = false) ->
  fs_inv k' i f' dv.
Proof.
  intros [Hb Hd Hf] Hb' Hg Hr Hu. destruct (geom_eq _ _ Hg) as (E1 & E2 & E3 & _). split; [done|lia|].
  intros nr Hm Hu'. rewrite E3. destruct (Hf nr) as [??]; [by apply (mapped_geom _ _ _ Hg)| |by auto].
  apply Hu; [by apply (mapped_geom _ _ _ Hg)|done].
Qed.

(** The disk after an allocation: the new block is zero, the others outside the
    map are as before. *)
Definition alloc_zero_post (i : nat) (dv : nat) f k (bn : Z) k' : Prop :=
  mapped_blk f bn /\ data_block (nat_ f) <= bn /\ is_used k f dv bn = false /\
  exists f', fs_step i dv f f' k k' /\ fs_inv k' i f' dv /\ bam_set k f k' f' dv bn true /\
    dsk k' dv bn = zeros BLK_SIZE /\
    (forall d nr, d <> dv \/ ~ in_bam (nat_ f) nr /\ nr <> bn -> dsk k' d nr = dsk k d nr).

(** Nothing but the cached map block changed. *)
Definition fs_same (i : nat) (dv : nat) f k k' : Prop :=
  exists f', bam_step i dv f f' k k' /\ fs_inv k' i f' dv /\ same_bam k f k' f' dv.

Lemma alloc_zero_ok k i f dv :
  fs_inv k i f dv ->
  wp (alloc_zero i) (alloc_zero_post i dv f k) (fun e k' => e <> 0 /\ fs_same i dv f k k') k.
Proof.
  intros Hk. pose proof (fi_bam _ _ _ _ Hk) as Hb. unfold alloc_zero.
  eapply wp_seq; [by apply nat_balloc_ok| |].
  2: { intros e k' [He (f' & St & Sa)]. split; [by destruct He as [[-> _]|[? _]]|].
    exists f'. split; [done|]. split; [|done]. eapply fs_inv_bam; [done|apply St..|].
    intros nr Hm. by rewrite (same_bam_used _ _ _ _ _ _ Sa Hm). }
  intros bn k1 (Hm & _ & Hu & f1 & St & Hs). destruct (fi_free _ _ _ _ Hk bn Hm Hu) as [Hd Hr].
  pose proof (bs_ok _ _ _ _ _ _ St) as Hb1. pose proof (bs_geom _ _ _ _ _ _ St) as Hg.
  assert (Hn : ~ in_bam (nat_ f1) bn) by (rewrite (geom_in_bam _ _ bn Hg); by eapply not_in_bam).
  apply wp_bind, (wp_get_dev i f1 dv); [apply Hb1..|].
  apply wp_bind, wp_blk.
  eapply wp_mono; [apply (bl_overwrite_ok (k_blk k1) dv bn (fun _ => zeros BLK_SIZE)); [apply Hb1..| |done|]| |done].
  - intros b _. by apply bytes_ok_zeros.
  - by apply (bs_range _ _ _ _ _ _ St).
  - cbn beta. intros _ s' Hup. destruct (bam_ok_upd k1 i f1 dv bn _ s' Hb1 Hn Hup) as [Hb2 Sa2].
    split; [done|]. split; [done|]. split; [done|].
    pose proof Hup as (U1 & U2 & U3 & U4 & U5 & U6).
    assert (Hu2 : bam_set k f (with_blk s' k1) f1 dv bn true).
    { intros x Hx. rewrite (same_bam_used _ _ _ _ _ x Sa2), Hs; [done|done|].
      by apply (mapped_geom _ _ _ Hg). }
    exists f1. split; [|split; [|split; [done|split]]].
    + eapply fs_step_trans; [by apply bam_fs_step|]. by eapply fs_step_upd.
    + eapply fs_inv_bam; [exact Hk|exact Hb2|exact Hg| |].
      * intros d nr ?. cbn. by apply U3, (bs_range _ _ _ _ _ _ St).
      * intros nr Hnr. rewrite (Hu2 nr Hnr). by destruct (decide (nr = bn)).
    + unfold dsk. cbn. by rewrite U2, disk_upd_eq.
    + intros d nr Hdn. unfold dsk. cbn. rewrite U2, disk_upd_ne.
      * apply (bs_disk _ _ _ _ _ _ St). destruct Hdn as [|[]]; [by left|by right].
      * destruct Hdn as [|[]]; [by left|by right].
Qed.

(** * Growth of a file *)

Definition fresh k f (dv : nat) (nr : Z) : Prop := mapped_blk f nr /\ is_used k f dv nr = false.
Definition index_blk k g (dv : nat) (nr : Z) : Prop :=
  nr <> 0 /\ exists a, kvalid (fnat g) a /\ kindex (fnat g) a /\ node (dsk k dv) (fnat g) a = nr.
Abbreviation nd k g dv := (node (dsk k dv) (fnat g)).

(** From [k] to [k'] the file [i] only gained blocks, all of them on the path to
    its logical block [log] and none of them in use before; every other block in
    use that is not an indirect block of the file kept its contents. *)
Record file_step (i : nat) (dv : nat) (log : Z) g f k g' f' k' : Prop := FileStep {
  st_inv : file_inv k' i g' f' dv;
  st_k : k' = with_fso (<[i := g']> (k_fso k)) (with_fs (<[f_fs g := f']> (k_fs k)) (with_blk (k_blk k') k));
  st_g : g' = set_fnat (fnat g') (set_dirty (dirty g') (set_blocks (blocks g') g));
  st_f : f' = set_nat (nat_ f') f;
  st_geom : geom (nat_ f') = geom (nat_ f);
  st_range : forall d nr, bl_range (k_blk k) d nr -> bl_range (k_blk k') d nr;
  st_dev : forall d, bl_dev (k_blk k) d -> bl_dev (k_blk k') d;
  st_count : bl_count (k_blk k') = bl_count (k_blk k);
  st_pins : bl_pins (k_blk k') = bl_pins (k_blk k);
  st_shape : same_shape (fnat g) (fnat g');
  st_keep : forall a, kvalid (fnat g) a -> nd k g dv a <> 0 -> nd k' g' dv a = nd k g dv a;
  st_new : forall a, kvalid (fnat g) a -> nd k g dv a = 0 -> nd k' g' dv a <> 0 ->
    on_path (fnat g) log a /\ fresh k f dv (nd k' g' dv a);
  st_disk : forall d nr, d <> dv \/ ~ in_bam (nat_ f) nr /\ ~ fresh k f dv nr /\ ~ index_blk k g dv nr ->
    dsk k' d nr = dsk k d nr;
  st_zero : nd k g dv (data_key (fnat g) log) = 0 -> nd k' g' dv (data_key (fnat g) log) <> 0 ->
    dsk k' dv (nd k' g' dv (data_key (fnat g) log)) = zeros BLK_SIZE;
  st_used : forall x, mapped_blk f x ->
    is_used k' f' dv x = true <->
    is_used k f dv x = true \/
    exists a, kvalid (fnat g) a /\ nd k g dv a = 0 /\ nd k' g' dv a = x /\ x <> 0
}.

(** The remembered translation did not change. *)
Definition same_cache g g' : Prop :=
  bmap_valid (fnat g') = bmap_valid (fnat g) /\ bmap_log (fnat g') = bmap_log (fnat g) /\
  bmap_phys (fnat g') = bmap_phys (fnat g).

Lemma own_not_fresh k f dv nr : own k f dv nr -> ~ fresh k f dv nr.
Proof. intros (_ & _ & Hu & _) [_ Hf]. congruence. Qed.

Lemma kern_id k i g j f :
  k_fso k !! i = Some g -> k_fs k !! j = Some f ->
  with_fso (<[i := g]> (k_fso k)) (with_fs (<[j := f]> (k_fs k)) (with_blk (k_blk k) k)) = k.
Proof. intros Hg Hf. rewrite !insert_id by done. by destruct k. Qed.

Lemma kern_trans k1 k2 k3 i j j' g2 g3 f2 f3 s2 s3 :
  k2 = with_fso (<[i := g2]> (k_fso k1)) (with_fs (<[j := f2]> (k_fs k1)) (with_blk s2 k1)) ->
  k3 = with_fso (<[i := g3]> (k_fso k2)) (with_fs (<[j' := f3]> (k_fs k2)) (with_blk s3 k2)) -> j' = j ->
  k3 = with_fso (<[i := g3]> (k_fso k1)) (with_fs (<[j := f3]> (k_fs k1)) (with_blk s3 k1)).
Proof.
  destruct k1. cbn. intros -> -> ->. cbn. by rewrite !insert_insert_eq.
Qed.

Lemma file_step_refl i dv log g f k : file_inv k i g f dv -> file_step i dv log g f k g f k.
Proof.
  intros Hk. split; try done.
  - symmetry. apply kern_id; apply Hk.
  - by destruct g.
  - by rewrite set_nat_id.
  - intros x Hx. split; [by left|]. intros [?|(a & ? & E & ? & ?)]; [done|congruence].
Qed.

(** A data block of the file is owned and no indirect block. *)
Lemma data_blk_facts k i g f dv log :
  file_inv k i g f dv -> log_ok (fnat g) log -> nd k g dv (data_key (fnat g) log) <> 0 ->
  own k f dv (nd k g dv (data_key (fnat g) log)) /\ ~ index_blk k g dv (nd k g dv (data_key (fnat g) log)).
Proof.
  intros Hk [_ Hv] Hn. pose proof (fo_tree _ _ _ _ _ Hk) as [Hm Hi Ho]. split; [by apply Ho|].
  intros (_ & a & Ha & Hx & E). assert (a = data_key (fnat g) log) as ->.
  { apply Hi; [done|done|by rewrite E|done]. }
  unfold data_key in Hx. destruct (log <? ndirblks (fnat g)); cbn in Hx; [done|lia].
Qed.

Lemma fresh_mono i dv log g f k g' f' k' nr :
  file_step i dv log g f k g' f' k' -> fresh k' f' dv nr -> fresh k f dv nr.
Proof.
  intros St [Hm Hu]. pose proof (st_geom _ _ _ _ _ _ _ _ _ St) as Hg.
  apply (mapped_geom _ _ _ Hg) in Hm. split; [done|]. apply not_true_is_false. intros Ht.
  apply not_true_iff_false in Hu. apply Hu. apply (st_used _ _ _ _ _ _ _ _ _ St); [done|by left].
Qed.

Lemma file_step_trans i dv log g1 f1 k1 g2 f2 k2 g3 f3 k3 :
  log_ok (fnat g1) log ->
  file_step i dv log g1 f1 k1 g2 f2 k2 -> file_step i dv log g2 f2 k2 g3 f3 k3 ->
  file_step i dv log g1 f1 k1 g3 f3 k3.
Proof.
  intros Hlog A B.
  pose proof (fun nr => fresh_mono _ _ _ _ _ _ _ _ _ nr A) as Hfr.
  pose proof A as [I1 K1 G1 F1 M1 R1 D1 C1 P1 S1 E1 N1 X1 Z1 U1].
  destruct B as [I2 K2 G2 F2 M2 R2 D2 C2 P2 S2 E2 N2 X2 Z2 U2].
  assert (Hv : forall a, kvalid (fnat g1) a -> kvalid (fnat g2) a) by (intros; by apply (kvalid_shape _ _ _ S1)).
  split; [done| | | |congruence|auto|auto|congruence|congruence| | | | | |].
  - eapply kern_trans; [exact K1|exact K2|by rewrite G1].
  - rewrite G2, G1. done.
  - rewrite F2, F1. done.
  - destruct S1, S2. split; congruence.
  - intros a Ha Hn. rewrite E2, E1; [done|done|done|by apply Hv|]. by rewrite E1.
  - intros a Ha Hn Hn3. destruct (decide (nd k2 g2 dv a = 0)) as [E|E].
    + destruct (N2 a (Hv a Ha) E Hn3) as [Ho Hf]. split; [|by apply Hfr].
      destruct S1 as [S1a S1b]. unfold on_path, path, lev in *. by rewrite S1a, S1b in Ho.
    + rewrite E2 by auto. by apply N1.
  - intros d nr Hd. rewrite X2, X1; [done|done|]. destruct Hd as [|(Hb & Hf & Hx)]; [by left|right].
    split; [by rewrite (geom_in_bam _ _ nr M1)|]. split; [by intros ?%Hfr|].
    intros (Hnr & a & Ha & Hi & En). apply (kvalid_shape _ _ a S1) in Ha. apply (kindex_shape _ _ a S1) in Hi.
    destruct (decide (nd k1 g1 dv a = 0)) as [E|E].
    + apply Hf. rewrite <- En. apply N1; [done|done|by rewrite En].
    + apply Hx. split; [done|]. exists a. split; [done|]. split; [done|]. by rewrite <- E1.
  - intros Hn Hn3. rewrite (data_key_shape _ _ log S1) in Z2.
    destruct (decide (nd k2 g2 dv (data_key (fnat g1) log) = 0)) as [E|E]; [by apply Z2|].
    assert (Hv1 : kvalid (fnat g1) (data_key (fnat g1) log)) by apply Hlog.
    rewrite E2 by auto.
    assert (Hlog2 : log_ok (fnat g2) log).
    { split; [apply Hlog|]. rewrite (data_key_shape _ _ log S1). auto. }
    pose proof (data_blk_facts _ _ _ _ _ log I1 Hlog2) as Hf. rewrite (data_key_shape _ _ log S1) in Hf.
    destruct (Hf E) as [Ho Hx]. rewrite X2; [by apply Z1|]. right. split; [|split; [by apply own_not_fresh|done]].
    eapply not_in_bam; [apply I1|by apply own_data in Ho].
  - intros x Hx. rewrite U2 by (by apply (mapped_geom _ _ _ M1)). rewrite U1 by done. split.
    + intros [[?|(a & Ha & En & Ex & Hnz)]|(a & Ha & En & Ex & Hnz)]; [by left| |]; right; exists a.
      * split; [done|]. split; [done|]. split; [|done]. rewrite E2; [done|auto|congruence].
      * apply (kvalid_shape _ _ a S1) in Ha. split; [done|]. split; [|done].
        destruct (decide (nd k1 g1 dv a = 0)) as [|E]; [done|]. rewrite E1 in En by done. done.
    + intros [?|(a & Ha & En & Ex & Hnz)]; [by left; left|].
      destruct (decide (nd k2 g2 dv a = 0)) as [E|E]; [right; exists a; auto|].
      left. right. exists a. split; [done|]. split; [done|]. split; [|done]. rewrite <- E2; auto.
Qed.

(** ** One allocation *)

Lemma own_mono k f dv k' f' nr :
  geom (nat_ f') = geom (nat_ f) ->
  (forall d nr, bl_range (k_blk k) d nr -> bl_range (k_blk k') d nr) ->
  (forall x, mapped_blk f x -> is_used k f dv x = true -> is_used k' f' dv x = true) ->
  own k f dv nr -> own k' f' dv nr.
Proof.
  intros Hg Hr Hu (H1 & H2 & H3 & H4). destruct (geom_eq _ _ Hg) as (_ & _ & E & _).
  split; [by rewrite E|]. split; [by apply (mapped_geom _ _ _ Hg)|]. split; [by apply Hu|by apply Hr].
Qed.

(** The block [bn] added at the empty place [a0] of the tree. *)
Lemma file_step_alloc i dv log g f k g' f' k' a0 bn :
  file_inv k i g f dv -> log_ok (fnat g) log -> kvalid (fnat g) a0 -> nd k g dv a0 = 0 -> on_path (fnat g) log a0 ->
  mapped_blk f bn -> data_block (nat_ f) <= bn -> is_used k f dv bn = false ->
  k' = with_fso (<[i := g']> (k_fso k)) (with_fs (<[f_fs g := f']> (k_fs k)) (with_blk (k_blk k') k)) ->
  g' = set_fnat (fnat g') (set_dirty (dirty g') (set_blocks (blocks g') g)) ->
  fs_inv k' (f_fs g) f' dv ->
  f' = set_nat (nat_ f') f -> geom (nat_ f') = geom (nat_ f) ->
  (forall d nr, bl_range (k_blk k) d nr -> bl_range (k_blk k') d nr) ->
  (forall d, bl_dev (k_blk k) d -> bl_dev (k_blk k') d) ->
  bl_count (k_blk k') = bl_count (k_blk k) -> bl_pins (k_blk k') = bl_pins (k_blk k) ->
  map_ok (fnat g') -> same_shape (fnat g) (fnat g') ->
  bam_set k f k' f' dv bn true -> dsk k' dv bn = zeros BLK_SIZE ->
  (forall d nr, d <> dv \/ ~ in_bam (nat_ f) nr /\ nr <> bn /\ ~ index_blk k g dv nr -> dsk k' d nr = dsk k d nr) ->
  (forall a, kvalid (fnat g) a -> nd k' g' dv a = if decide (a = a0) then bn else nd k g dv a) ->
  file_step i dv log g f k g' f' k'.
Proof.
  intros Hk [_ Hv] Ha0 Hn0 Hp Hm Hd Hu Ek Eg Hfs Ef Hg Hr Hdv Hc Hpn Hmo Hsh Hbs Hz Hx Hnd.
  pose proof (fo_tree _ _ _ _ _ Hk) as [_ Hi Ho]. pose proof (fo_fs _ _ _ _ _ Hk) as Hfs0.
  assert (Hbn0 : bn <> 0) by (pose proof (bo_geom _ _ _ _ (fi_bam _ _ _ _ Hfs0)) as []; pose proof (fi_data _ _ _ _ Hfs0); lia).
  assert (Hnb : forall a, kvalid (fnat g) a -> nd k g dv a <> 0 -> nd k g dv a <> bn).
  { intros a Ha Hna E. destruct (Ho a Ha Hna) as (_ & _ & Hu' & _). congruence. }
  assert (Hum : forall x, mapped_blk f x -> is_used k f dv x = true -> is_used k' f' dv x = true).
  { intros x Hxm Hxu. rewrite (Hbs x Hxm). by destruct (decide (x = bn)). }
  split; [|done|done|done|done|done|done|done|done|done| | | | |].
  - split.
    + rewrite Ek. cbn. apply lookup_insert_eq.
    + rewrite Eg. done.
    + unfold room. rewrite Hc, Hpn. apply Hk.
    + split; [done| |].
      * intros a b Ha%(kvalid_shape _ _ _ Hsh) Hb%(kvalid_shape _ _ _ Hsh). rewrite !Hnd by done.
        destruct (decide (a = a0)) as [->|], (decide (b = a0)) as [->|]; [done| | |by apply Hi].
        -- intros _ E. exfalso. apply (Hnb b Hb); congruence.
        -- intros Hna E. exfalso. by apply (Hnb a Ha).
      * intros a Ha%(kvalid_shape _ _ _ Hsh). rewrite !Hnd by done.
        destruct (decide (a = a0)) as [->|].
        -- intros _. destruct (geom_eq _ _ Hg) as (_ & _ & E & _). split; [by rewrite E|].
           split; [by apply (mapped_geom _ _ _ Hg)|]. split; [|by apply Hr, (fi_free _ _ _ _ Hfs0)].
           rewrite (Hbs bn Hm). by rewrite decide_True.
        -- intros Hna. eapply own_mono; eauto.
  - intros a Ha Hna. rewrite Hnd by done. rewrite decide_False; congruence.
  - intros a Ha E Hna. rewrite Hnd in * by done. destruct (decide (a = a0)) as [->|]; [|done].
    by split.
  - intros d nr [?|(? & Hf & ?)]; apply Hx; [by left|right]. split; [done|]. split; [|done].
    intros ->. by apply Hf.
  - intros Hna. rewrite Hnd by done. destruct (decide _); done.
  - intros x Hxm. rewrite (Hbs x Hxm). split.
    + destruct (decide (x = bn)) as [->|]; [|by left]. intros _. right. exists a0.
      split; [done|]. split; [done|]. split; [|done]. rewrite Hnd by done. by rewrite decide_True.
    + intros [?|(a & Ha & En & Ex & Hnz)]; [by destruct (decide _)|].
      rewrite Hnd in Ex by done. destruct (decide (a = a0)); [|congruence]. by rewrite decide_True.
Qed.

(** Nothing but the allocation map's buffer changed. *)
Lemma file_step_same i dv log g f k f' k' :
  file_inv k i g f dv -> log_ok (fnat g) log -> bam_step (f_fs g) dv f f' k k' -> fs_inv k' (f_fs g) f' dv -> same_bam k f k' f' dv ->
  file_step i dv log g f k g f' k' /\ forall a, kvalid (fnat g) a -> nd k' g dv a = nd k g dv a.
Proof.
  intros Hk [_ Hv] St Hfs Sa. pose proof (fo_fs _ _ _ _ _ Hk) as Hfs0.
  pose proof (fo_tree _ _ _ _ _ Hk) as [Hm Hi Ho].
  destruct St as [_ Ek Ef Hg Hr Hdv Hc Hp Hx].
  assert (Hnd : forall a, kvalid (fnat g) a -> nd k' g dv a = nd k g dv a).
  { apply node_same. intros a Ha _ Hna. apply Hx. right. eapply not_in_bam; [done|]. eapply own_data, Ho; done. }
  assert (Hu : forall x, mapped_blk f x -> is_used k' f' dv x = is_used k f dv x)
    by (intros; by apply same_bam_used).
  split; [|done]. split; [|idtac|by destruct g|done|done|done|done|done|done|done| | | | |].
  - split; [rewrite Ek; apply Hk|done|unfold room; rewrite Hc, Hp; apply Hk|]. split; [done| |].
    + intros a b Ha Hb. rewrite !Hnd by done. by apply Hi.
    + intros a Ha. rewrite Hnd by done. intros Hna. eapply own_mono; [done..| |by apply Ho].
      intros x Hxm. by rewrite Hu.
  - rewrite (insert_id (k_fso k)) by apply Hk. rewrite Ek at 1. by destruct k.
  - intros a Ha _. by apply Hnd.
  - intros a Ha E. by rewrite Hnd.
  - intros d nr [?|(? & _)]; apply Hx; auto.
  - intros E. by rewrite Hnd.
  - intros x Hxm. rewrite Hu by done. split; [by left|]. intros [?|(a & Ha & E & Ex & Hnz)]; [done|].
    rewrite Hnd in Ex by done. congruence.
Qed.

(** ** A block held while others are used *)

(** [bb] holds block [nr] with one more reference than in [s]. *)
Definition pinned (dv : nat) (nr : Z) (bb : nat) (s s1 : S) : Prop :=
  bl_inv s1 /\ (forall d n, bl_disk s1 d n = bl_disk s d n) /\
  (forall d n, bl_range s d n -> bl_range s1 d n) /\ (forall d, bl_dev s d -> bl_dev s1 d) /\
  bl_count s1 = bl_count s /\
  bl_pins s1 = <[bb := Pin (pin_cnt (bl_pins s !! bb) + 1) dv nr true]> (bl_pins s) /\
  forall p, bl_pins s !! bb = Some p -> p_dev p = dv /\ p_nr p = nr /\ p_valid p = true /\ 1 <= p_cnt p.

Lemma pin_read_ok k i f dv nr (Q : nat -> kern S -> Prop) E :
  bam_ok k i f dv ->
  (forall bb s1, pinned dv nr bb (k_blk k) s1 -> Q bb (with_blk s1 k)) ->
  (forall e s1, e <> 0 -> bl_same (k_blk k) s1 -> E e (with_blk s1 k)) ->
  wp (blk (bl_read dv nr)) Q E k.
Proof.
  intros [G1 G2 G3 G4 G5 G6 G7 G8 G9 G10 G11 G12] HQ HE. unfold room in G6. apply wp_blk.
  eapply wp_mono; [apply bl_read_ok; [done..|lia]| |].
  - intros bb s1 (? & ? & ? & ? & ? & ? & Hp). apply HQ. split_and!; try done.
    intros p Hl. destruct (Hp p Hl). split_and!; [done|done|by apply (G5 bb)|by apply (bl_pin_pos (k_blk k) bb)].
  - intros e s1 (? & ? & ? & ? & ? & ? & ?). apply HE; [done|]. split; [done|]. by split_and!.
Qed.

Lemma bam_ok_pinned k i f dv nr bb s1 :
  bam_ok k i f dv -> room 2 (k_blk k) -> pinned dv nr bb (k_blk k) s1 ->
  bam_ok (with_blk s1 k) i f dv.
Proof.
  intros [G1 G2 G3 G4 G5 G6 [] G8 G9 G10 G11 G12] Hr (P1 & P2 & P3 & P4 & P5 & P6 & P7).
  split; try done; cbn.
  - by apply P4.
  - rewrite P6. by apply map_Forall_insert_2.
  - unfold room in *. rewrite P5, P6. pose proof (room_pin (bl_pins (k_blk k)) bb (Pin (pin_cnt (bl_pins (k_blk k) !! bb) + 1) dv nr true)). lia.
  - intros x ?. by apply P3, G8.
  - intros. unfold dsk. cbn. rewrite P2. by apply G12.
Qed.

Lemma is_used_dsk k k' f dv nr :
  (forall x, in_bam (nat_ f) x -> dsk k' dv x = dsk k dv x) -> mapped_blk f nr ->
  is_used k' f dv nr = is_used k f dv nr.
Proof.
  intros Hs Hm%mapped_div. unfold is_used, used, lbam. destruct (_ =? _); [done|].
  rewrite Hs; [done|]. unfold in_bam. lia.
Qed.

Lemma fs_inv_pinned k i f dv nr bb s1 :
  fs_inv k i f dv -> room 2 (k_blk k) -> pinned dv nr bb (k_blk k) s1 ->
  fs_inv (with_blk s1 k) i f dv.
Proof.
  intros Hk Hr Hp. eapply fs_inv_bam; [done| |done| |].
  - eapply bam_ok_pinned; [apply Hk|done|done].
  - cbn. apply Hp.
  - intros x Hx. by rewrite (is_used_dsk k) by (done || intros; apply Hp).
Qed.

(** Releasing the block. *)
Lemma unpin_put_ok k dv nr bb s s1 (Q : unit -> kern S -> Prop) E :
  pinned dv nr bb s s1 -> bl_inv (k_blk k) -> bl_pins (k_blk k) = bl_pins s1 ->
  (forall s', bl_inv s' -> (forall d n, bl_disk s' d n = bl_disk (k_blk k) d n) ->
     (forall d n, bl_range (k_blk k) d n -> bl_range s' d n) ->
     (forall d, bl_dev (k_blk k) d -> bl_dev s' d) ->
     bl_count s' = bl_count (k_blk k) -> bl_pins s' = bl_pins s -> Q tt (with_blk s' k)) ->
  wp (blk (bl_put bb)) Q E k.
Proof.
  intros (P1 & P2 & P3 & P4 & P5 & P6 & P7) Hi Hp HQ. apply wp_blk.
  eapply wp_mono; [eapply (bl_put_ok (k_blk k) bb); [done|rewrite Hp, P6; apply lookup_insert_eq]| |done].
  intros [] s' (U1 & U2 & U3 & U4 & U5 & U6). apply HQ; [done..|].
  rewrite U6, Hp, P6. apply unpin_pin. intros p Hl. by apply P7.
Qed.

(** [s'] is [s] but for the pins, which are those of [s0]. *)
Definition repinned (s0 s s' : S) : Prop :=
  bl_inv s' /\ (forall d n, bl_disk s' d n = bl_disk s d n) /\
  (forall d n, bl_range s d n -> bl_range s' d n) /\ (forall d, bl_dev s d -> bl_dev s' d) /\
  bl_count s' = bl_count s /\ bl_pins s' = bl_pins s0.

Lemma bam_ok_repinned k0 f0 k i f dv s' :
  bam_ok k0 i f0 dv -> bam_ok k i f dv -> repinned (k_blk k0) (k_blk k) s' ->
  bl_count (k_blk k) = bl_count (k_blk k0) -> bam_ok (with_blk s' k) i f dv.
Proof.
  intros H0 [G1 G2 G3 G4 G5 G6 [] G8 G9 G10 G11 G12] (R1 & R2 & R3 & R4 & R5 & R6) Hc.
  split; try done; cbn.
  - by apply R4.
  - rewrite R6. apply H0.
  - unfold room. rewrite R5, R6, Hc. apply H0.
  - intros x ?. by apply R3, G8.
  - intros. unfold dsk. cbn. rewrite R2. by apply G12.
Qed.

(** A step of the map while a block is held, seen after its release. *)
Lemma bam_step_unpin i dv f f2 k nr bb s1 k2 s3 :
  bam_ok k i f dv -> pinned dv nr bb (k_blk k) s1 -> bam_step i dv f f2 (with_blk s1 k) k2 ->
  same_bam (with_blk s1 k) f k2 f2 dv -> repinned (k_blk k) (k_blk k2) s3 ->
  bam_step i dv f f2 k (with_blk s3 k2) /\ same_bam k f (with_blk s3 k2) f2 dv.
Proof.
  intros Hk (P1 & P2 & P3 & P4 & P5 & P6 & P7) [B1 B2 B3 B4 B5 B6 B7 B8 B9] Sa HR.
  pose proof HR as (R1 & R2 & R3 & R4 & R5 & R6). cbn in B5, B6, B7, B8, B9. split; [split|].
  - eapply bam_ok_repinned; [exact Hk|done|done|congruence].
  - rewrite B2. done.
  - done.
  - done.
  - intros. cbn. auto.
  - intros. cbn. auto.
  - cbn. congruence.
  - cbn. congruence.
  - intros d x Hd. cbn. rewrite R2, B9 by done. apply P2.
  - intros j Hj. specialize (Sa j Hj). unfold lbam, dsk in *. cbn in *. by rewrite R2, Sa, P2.
Qed.

Lemma unpin_repinned k dv nr bb s s1 (Q : unit -> kern S -> Prop) E :
  pinned dv nr bb s s1 -> bl_inv (k_blk k) -> bl_pins (k_blk k) = bl_pins s1 ->
  (forall s', repinned s (k_blk k) s' -> Q tt (with_blk s' k)) ->
  wp (blk (bl_put bb)) Q E k.
Proof.
  intros Hp Hi Hpn HQ. eapply unpin_put_ok; [done..|]. intros s' R1 R2 R3 R4 R5 R6.
  apply HQ. split; [done|]. by split_and!.
Qed.

(** ** The loop over the levels *)

Lemma index_node k i g f dv log d :
  file_inv k i g f dv -> log_ok (fnat g) log -> ndirblks (fnat g) <= log -> (d < lev (fnat g))%nat ->
  nd k g dv (KInd d (path (fnat g) log d)) <> 0 ->
  index_blk k g dv (nd k g dv (KInd d (path (fnat g) log d))) /\
  own k f dv (nd k g dv (KInd d (path (fnat g) log d))).
Proof.
  intros Hk Hl Hn Hd Hb. assert (kvalid (fnat g) (KInd d (path (fnat g) log d))) by (apply path_valid; [done..|lia]).
  split; [|by apply (fo_tree _ _ _ _ _ Hk)]. split; [done|]. eexists. split; [done|]. by split.
Qed.

(** The missing pointer at depth [d + 1] filled in, with its block [b] held. *)
Lemma bmap_fill_ok i dv log g f k d bb s1 (K : Z -> M (kern S) Z) Q E :
  file_inv k i g f dv -> log_ok (fnat g) log -> ndirblks (fnat g) <= log -> (d < lev (fnat g))%nat ->
  let b := nd k g dv (KInd d (path (fnat g) log d)) in
  let ix := path (fnat g) log (Datatypes.S d) mod 128 in
  b <> 0 -> nd k g dv (KInd (Datatypes.S d) (path (fnat g) log (Datatypes.S d))) = 0 ->
  pinned dv b bb (k_blk k) s1 ->
  (forall g' f' k', file_step i dv log g f k g' f' k' ->
     same_cache g g' ->
     nd k' g' dv (KInd (Datatypes.S d) (path (fnat g) log (Datatypes.S d))) <> 0 ->
     (forall a, kvalid (fnat g) a -> a <> KInd (Datatypes.S d) (path (fnat g) log (Datatypes.S d)) ->
        nd k' g' dv a = nd k g dv a) ->
     wp (K (nd k' g' dv (KInd (Datatypes.S d) (path (fnat g) log (Datatypes.S d))))) Q E k') ->
  (forall e f' k', e <> 0 -> file_step i dv log g f k g f' k' ->
     (forall a, kvalid (fnat g) a -> nd k' g dv a = nd k g dv a) -> E e k') ->
  wp (r <~ attempt (alloc_zero (f_fs g));;
      match r with
      | inl e => blk (bl_put bb);;; fail e
      | inr bn =>
        blk (bl_modify bb (fun imap => put32 imap (4 * ix) bn));;;
        upd_fso i (fun g => set_dirty true (set_blocks (u32 (blocks g + 1)) g));;;
        blk (bl_put bb);;;
        K bn
      end) Q E (with_blk s1 k).
Proof.
  intros Hk Hl Hn Hd b ix Hb Hc0 Hp HK HE.
  pose proof (fo_fs _ _ _ _ _ Hk) as Hfs. pose proof Hp as (P1 & P2 & P3 & P4 & P5 & P6 & P7).
  destruct (index_node _ _ _ _ _ _ _ Hk Hl Hn Hd Hb) as [Hix Hown]. fold b in Hix, Hown.
  pose proof (fs_inv_pinned _ _ _ _ _ _ _ Hfs (fo_room _ _ _ _ _ Hk) Hp) as Hfs1.
  apply wp_bind, wp_attempt. eapply wp_mono; [by apply alloc_zero_ok| |].
  2: { intros e k2 [He (f2 & St & Hfs2 & Sa)]. destruct St as [B1 B2 B3 B4 B5 B6 B7 B8 B9]. apply wp_bind.
    eapply unpin_repinned; [exact Hp|apply Hfs2|exact B8|]. intros s3 HR. wp_pure.
    destruct (bam_step_unpin _ _ _ _ _ _ _ _ _ _ (fi_bam _ _ _ _ Hfs) Hp
      (BamStep _ _ _ _ _ _ B1 B2 B3 B4 B5 B6 B7 B8 B9) Sa HR) as [St3 Sa3].
    assert (Hfs3 : fs_inv (with_blk s3 k2) (f_fs g) f2 dv).
    { eapply fs_inv_bam; [exact Hfs|apply St3..|]. intros x Hxm. by rewrite (same_bam_used _ _ _ _ _ x Sa3). }
    destruct (file_step_same i dv log g f k f2 (with_blk s3 k2)) as [Sf Hnd]; [done..|].
    by eapply HE. }
  intros bn k2 (Hm & Hdb & Hu & f2 & [B2 B3 B4 B5 B6 B7 B8] & Hfs2 & Hbs & Hz & Hx).
  cbn in B5, B6, B7, B8.
  assert (Hu0 : forall x, mapped_blk f x -> is_used (with_blk s1 k) f dv x = is_used k f dv x)
    by (intros; apply is_used_dsk; [intros; apply P2|done]).
  rewrite Hu0 in Hu by done.
  assert (Hbbn : b <> bn) by (intros E'; rewrite E' in Hown; destruct Hown as (_ & _ & Hu' & _); congruence).
  assert (Hnb : ~ in_bam (nat_ f) b) by (eapply not_in_bam; [done|by eapply own_data]).
  assert (Hdb2 : bl_disk (k_blk k2) dv b = dsk k dv b) by (etransitivity; [apply (Hx dv b); by right|apply P2]).
  assert (Hix128 : 0 <= ix < 128) by (apply Z.mod_pos_bound; lia).
  apply wp_bind, wp_blk.
  eapply wp_mono; [apply (bl_modify_ok (k_blk k2) bb (Pin (pin_cnt (bl_pins (k_blk k) !! bb) + 1) dv b true))| |done].
  { apply Hfs2. }
  { rewrite B8, P6. apply lookup_insert_eq. }
  { done. }
  { cbn [p_dev p_nr]. apply bytes_ok_put32; [apply bl_disk_ok, Hfs2|lia|unfold BLK_SIZE; lia]. }
  { cbn [p_dev p_nr]. apply B5, P3, Hown. }
  cbn [p_dev p_nr]. intros [] s3 (M1 & M2 & M3 & M4 & M5 & M6).
  assert (Hg2 : k_fso (with_blk s3 k2) !! i = Some g) by (cbn; rewrite B2; apply Hk).
  apply wp_bind, (wp_upd_fso i g); [exact Hg2|]. cbn beta. set (g' := set_dirty true _).
  apply wp_bind. eapply unpin_repinned; [exact Hp|exact M1|cbn; congruence|].
  intros s5 (R1 & R2 & R3 & R4 & R5 & R6). cbn in R2, R3, R4, R5.
  set (k5 := with_blk s5 _).
  assert (Hdsk : forall d' nr, dsk k5 d' nr = disk_upd (bl_disk (k_blk k2)) dv b (put32 (dsk k dv b) (4 * ix) bn) d' nr).
  { intros d' nr. unfold dsk, k5. cbn. rewrite R2, M2, Hdb2. done. }
  assert (Hdsk' : forall d' nr, d' <> dv \/ ~ in_bam (nat_ f) nr /\ nr <> bn /\ nr <> b -> dsk k5 d' nr = dsk k d' nr).
  { intros d' nr Hd'. rewrite Hdsk, disk_upd_ne by (destruct Hd' as [|(_ & _ & ?)]; auto).
    etransitivity; [apply (Hx d' nr)|apply P2]. destruct Hd' as [|(? & ? & _)]; auto. }
  pose proof (geom_eq _ _ B4) as (_ & _ & Edat & _).
  assert (Hbam5 : bam_ok k5 (f_fs g) f2 dv).
  { assert (Hb2 := fi_bam _ _ _ _ Hfs2).
    assert (Hn2 : ~ in_bam (nat_ f2) b) by (by rewrite (geom_in_bam _ _ b B4)).
    destruct (bam_ok_upd k2 (f_fs g) f2 dv b (put32 (bl_disk (k_blk k2) dv b) (4 * ix) bn) s3) as [Hb3 _]; [done..| |].
    { split; [done|]. by split_and!. }
    assert (bam_ok (with_fso (<[i := g']> (k_fso (with_blk s3 k2))) (with_blk s3 k2)) (f_fs g) f2 dv) as Hb4
      by (destruct Hb3; by split).
    eapply (bam_ok_repinned k f); [apply Hfs|exact Hb4| |cbn; congruence].
    split; [done|]. by split_and!. }
  assert (Hused5 : forall x, mapped_blk f x -> is_used k5 f2 dv x = is_used k2 f2 dv x).
  { intros x Hxm. apply is_used_dsk; [|by apply (mapped_geom _ _ _ B4)]. intros y Hy.
    rewrite Hdsk, disk_upd_ne; [done|right]. intros ->. by rewrite (geom_in_bam _ _ b B4) in Hy. }
  assert (Hset : bam_set k f k5 f2 dv bn true).
  { intros x Hxm. rewrite Hused5, (Hbs x Hxm), Hu0 by done. done. }
  assert (Hrange : forall d' nr, bl_range (k_blk k) d' nr -> bl_range (k_blk k5) d' nr) by (intros; cbn; auto).
  pose proof (fo_tree _ _ _ _ _ Hk) as Ht.
  assert (Hlog : 0 <= log) by apply Hl.
  assert (Hva : kvalid (fnat g) (KInd (Datatypes.S d) (path (fnat g) log (Datatypes.S d)))) by (apply path_valid; [done..|lia]).
  assert (Hbn0 : 0 < bn < 2 ^ 32).
  { pose proof (bo_geom _ _ _ _ (fi_bam _ _ _ _ Hfs)) as []. pose proof (fi_data _ _ _ _ Hfs).
    unfold mapped_blk in Hm. lia. }
  assert (Hnode : forall a, kvalid (fnat g) a -> nd k5 g' dv a =
    if decide (a = KInd (Datatypes.S d) (path (fnat g) log (Datatypes.S d))) then bn else nd k g dv a).
  { change (fnat g') with (fnat g). eapply (node_set_child (own k f dv) (dsk k dv) (dsk k5 dv) (fnat g) d _ b bn Ht).
    - intros nr. apply bl_disk_ok, Hfs.
    - done.
    - rewrite path_parent by lia. done.
    - done.
    - done.
    - done.
    - intros a Ha E'. destruct (decide (nd k g dv a = 0)); [lia|].
      destruct (to_own _ _ _ Ht a Ha) as (_ & _ & Hu' & _); [done|]. rewrite E' in Hu'. congruence.
    - rewrite Hdsk. by rewrite disk_upd_eq.
    - rewrite Hdsk, disk_upd_ne by (right; congruence). apply Hz.
    - intros a Ha Hi Hna Hnb'. apply Hdsk'. right. split; [|split; [|done]].
      + eapply not_in_bam; [done|]. by eapply own_data, (to_own _ _ _ Ht).
      + intros E'. destruct (to_own _ _ _ Ht a Ha) as (_ & _ & Hu' & _); [done|]. rewrite E' in Hu'. congruence. }
  pose proof (Hnode _ Hva) as Hna. rewrite decide_True in Hna by done. rewrite <- Hna.
  eapply HK; [|done|rewrite Hna; lia|intros a Ha Hne; rewrite Hnode by done; by rewrite decide_False].
  eapply (file_step_alloc i dv log g f k g' f2 k5 (KInd (Datatypes.S d) (path (fnat g) log (Datatypes.S d))) bn);
    try done.
  - unfold k5. rewrite B2. done.
  - eapply fs_inv_bam; [exact Hfs|done|done|done|]. intros x Hxm. rewrite (Hset x Hxm). by destruct (decide _).
  - intros. cbn. auto.
  - cbn. congruence.
  - apply Ht.
  - rewrite Hdsk, disk_upd_ne by (right; congruence). apply Hz.
  - intros d' nr [?|(? & ? & Hni)]; apply Hdsk'; [by left|right]. split; [done|]. split; [done|]. by intros ->.
Qed.

(** Reading a block of the file system leaves the file as it is. *)
Lemma file_inv_same k i g f dv s' :
  file_inv k i g f dv -> bl_same (k_blk k) s' ->
  file_inv (with_blk s' k) i g f dv /\ (forall a, kvalid (fnat g) a -> nd (with_blk s' k) g dv a = nd k g dv a).
Proof.
  intros Hk Hs. pose proof Hs as (U1 & U2 & U3 & U4 & U5 & U6).
  destruct (bam_ok_same _ _ _ _ _ (fi_bam _ _ _ _ (fo_fs _ _ _ _ _ Hk)) Hs) as [St Sa].
  assert (Hfs : fs_inv (with_blk s' k) (f_fs g) f dv).
  { eapply fs_inv_bam; [apply Hk|apply St|done|exact U3|]. intros x Hx. by rewrite (same_bam_used _ _ _ _ _ x Sa). }
  assert (Hnd : forall a, kvalid (fnat g) a -> nd (with_blk s' k) g dv a = nd k g dv a)
    by (apply node_same; intros; apply U2).
  split; [|done]. pose proof (fo_tree _ _ _ _ _ Hk) as [Hm Hi Ho].
  split; [apply Hk|done|unfold room; cbn; rewrite U5, U6; apply Hk|]. split; [done| |].
  - intros a b Ha Hb. rewrite !Hnd by done. by apply Hi.
  - intros a Ha. rewrite Hnd by done. intros Hna. eapply own_mono; [done|exact U3| |by apply Ho].
    intros x Hx. by rewrite (same_bam_used _ _ _ _ _ x Sa).
Qed.

(** The results of the loop and of [nat_bmap_dir], in either mode. *)
Definition bmap_ret_at (i : nat) (dv : nat) (log : Z) (alloc : bool) (a : key) g f k (r : Z) k' g' f' : Prop :=
  file_step i dv log g f k g' f' k' /\ same_cache g g' /\ r = nd k' g' dv a /\ (alloc = true -> r <> 0) /\
  (alloc = false -> g' = g /\ k' = with_blk (k_blk k') k /\ bl_same (k_blk k) (k_blk k')).
Definition bmap_ret (i : nat) (dv : nat) (log : Z) (alloc : bool) (a : key) g f k (r : Z) k' : Prop :=
  exists g' f', bmap_ret_at i dv log alloc a g f k r k' g' f'.
(** Only the place [a] of the tree changed. *)
Definition only_at (dv : nat) (a : key) g k g' k' : Prop :=
  forall b, kvalid (fnat g) b -> b <> a -> nd k' g' dv b = nd k g dv b.
Definition bmap_err (i : nat) (dv : nat) (log : Z) (alloc : bool) g f k (e : Z) k' : Prop :=
  e <> 0 /\ exists g' f', file_step i dv log g f k g' f' k' /\ same_cache g g' /\
    nd k' g' dv (data_key (fnat g) log) = nd k g dv (data_key (fnat g) log) /\
    (alloc = false -> g' = g /\ k' = with_blk (k_blk k') k /\ bl_same (k_blk k) (k_blk k')).

Lemma file_step_read k i g f dv log s' :
  file_inv k i g f dv -> log_ok (fnat g) log -> bl_same (k_blk k) s' ->
  file_step i dv log g f k g f (with_blk s' k) /\
  forall a, kvalid (fnat g) a -> nd (with_blk s' k) g dv a = nd k g dv a.
Proof.
  intros Hk Hl Hs. destruct (bam_ok_same _ _ _ _ _ (fi_bam _ _ _ _ (fo_fs _ _ _ _ _ Hk)) Hs) as [St Sa].
  apply file_step_same; [done|done|done| |done]. apply (file_inv_same _ _ _ _ _ _ Hk Hs).
Qed.

Lemma pinned_repinned dv nr bb s s1 s' : pinned dv nr bb s s1 -> repinned s s1 s' -> bl_same s s'.
Proof.
  intros (P1 & P2 & P3 & P4 & P5 & P6 & P7) (R1 & R2 & R3 & R4 & R5 & R6).
  split; [done|]. split_and!; [intros; by rewrite R2|auto|auto|congruence|done].
Qed.

Lemma log_ok_shape m m' log : same_shape m m' -> log_ok m log -> log_ok m' log.
Proof.
  intros Hs [Hr Hv]. split; [done|]. rewrite (data_key_shape _ _ _ Hs). by apply (kvalid_shape _ _ _ Hs).
Qed.

Lemma path_shape m m' log d : same_shape m m' -> path m' log d = path m log d.
Proof. intros [_ E]. unfold path, lev. by rewrite E. Qed.

Lemma same_cache_trans g1 g2 g3 : same_cache g1 g2 -> same_cache g2 g3 -> same_cache g1 g3.
Proof. unfold same_cache. intuition congruence. Qed.

(** Composition of a step with a later result. *)
Lemma bmap_ret_trans i dv log alloc a g f k g1 f1 k1 r k' :
  log_ok (fnat g) log -> file_step i dv log g f k g1 f1 k1 ->
  (alloc = false -> g1 = g /\ k1 = with_blk (k_blk k1) k /\ bl_same (k_blk k) (k_blk k1)) ->
  same_cache g g1 -> bmap_ret i dv log alloc a g1 f1 k1 r k' -> bmap_ret i dv log alloc a g f k r k'.
Proof.
  intros Hl St Ha Hca (g' & f' & St' & Hca' & Hr & Hnz & Hs). exists g', f'. split; [by eapply file_step_trans|].
  split; [by eapply same_cache_trans|]. split; [done|]. split; [done|]. intros Hal. destruct (Ha Hal) as (-> & E1 & B1). destruct (Hs Hal) as (-> & E2 & B2).
  split; [done|]. split; [rewrite E2, E1; done|by eapply bl_same_trans].
Qed.

Lemma bmap_loop_ok alloc indl i dv log g f k d :
  file_inv k i g f dv -> log_ok (fnat g) log -> ndirblks (fnat g) <= log ->
  (d + indl = lev (fnat g))%nat ->
  let b := nd k g dv (KInd d (path (fnat g) log d)) in
  (alloc = true -> b <> 0) ->
  wp (bmap_loop i log alloc indl b)
    (bmap_ret i dv log alloc (data_key (fnat g) log) g f k) (bmap_err i dv log alloc g f k) k.
Proof.
  revert g f k d. induction indl as [|indl IH]; intros g f k d Hk Hl Hn Hd b Hb; cbn [bmap_loop].
  { exists g, f. split; [by apply file_step_refl|]. split; [done|]. split.
    - unfold b, data_key. rewrite (proj2 (Z.ltb_ge _ _)) by lia. replace d with (lev (fnat g)) by lia. by rewrite path_lev.
    - split; [done|]. intros _. split; [done|]. split; [by destruct k|apply bl_same_refl, Hk]. }
  pose proof (fo_fs _ _ _ _ _ Hk) as Hfs. assert (Hlog : 0 <= log) by apply Hl.
  destruct (Z.eqb_spec b 0) as [E0|E0].
  { exists g, f. split; [by apply file_step_refl|]. split; [done|]. split; [|split; [done|]].
    - rewrite E0. symmetry. eapply (node_empty_below _ _ _ d); [done..|lia|done].
    - intros _. split; [done|]. split; [by destruct k|apply bl_same_refl, Hk]. }
  apply wp_bind, (wp_get_fso i g); [apply Hk|].
  apply wp_bind, (wp_get_dev (f_fs g) f dv); [apply Hfs..|]. apply wp_bind.
  eapply pin_read_ok; [apply Hfs| |].
  2: { intros e s1 He Hs. destruct (file_step_read _ _ _ _ _ log _ Hk Hl Hs) as [St Hnd].
    split; [done|]. exists g, f. split; [done|]. split; [done|]. split; [apply Hnd, Hl|done]. }
  intros bb s1 Hp. apply wp_bind, wp_gets. pose proof Hp as (P1 & P2 & _ & _ & _ & P6 & _).
  cbn [k_blk with_blk].
  rewrite (bl_data_valid s1 bb (Pin (pin_cnt (bl_pins (k_blk k) !! bb) + 1) dv b true) P1)
    by (done || (rewrite P6; apply lookup_insert_eq)).
  cbn [p_dev p_nr]. rewrite P2.
  replace (Z.land (Z.shiftr log (7 * Z.of_nat indl)) 127) with (path (fnat g) log (Datatypes.S d) mod 128).
  2: { rewrite <- path_index by lia. do 4 f_equal. lia. }
  assert (Hc : get32 (bl_disk (k_blk k) dv b) (4 * (path (fnat g) log (Datatypes.S d) mod 128)) =
    nd k g dv (KInd (Datatypes.S d) (path (fnat g) log (Datatypes.S d)))).
  { cbn [node]. rewrite inode_child, path_parent by lia.
    change (inode (dsk k dv) (fnat g) d (path (fnat g) log d)) with b.
    rewrite (proj2 (Z.eqb_neq b 0) E0). done. }
  rewrite Hc. set (c := nd k g dv (KInd (Datatypes.S d) _)) in *.
  assert (Hrelease : forall s2, repinned (k_blk k) s1 s2 ->
    bl_same (k_blk k) s2 /\ file_step i dv log g f k g f (with_blk s2 (with_blk s1 k)) /\
    forall a, kvalid (fnat g) a -> nd (with_blk s2 (with_blk s1 k)) g dv a = nd k g dv a).
  { intros s2 Hr. pose proof (pinned_repinned _ _ _ _ _ _ Hp Hr) as Hs. split; [done|].
    change (with_blk s2 (with_blk s1 k)) with (with_blk s2 k). by apply file_step_read. }
  destruct (Z.eqb_spec c 0) as [Ec|Ec]; [destruct alloc; cbn [negb]|].
  - eapply (bmap_fill_ok i dv log g f k d); [done|done|done|lia|done|done|done| |].
    + intros g' f' k' St Hca Hnz Hoth. pose proof (st_shape _ _ _ _ _ _ _ _ _ St) as Hsh.
      rewrite <- (path_shape _ _ _ _ Hsh) in *.
      eapply wp_mono; [apply wp_run, (IH g' f' k' (Datatypes.S d));
        [apply St|by apply (log_ok_shape (fnat g))| | |done]| |].
      * destruct Hsh as [-> _]. done.
      * destruct Hsh as [_ E]. unfold lev in *. rewrite E. lia.
      * intros r k2 [_ Hr]. rewrite (data_key_shape _ _ _ Hsh) in Hr. by eapply bmap_ret_trans.
      * intros e k2 (Hrun & He & g2 & f2 & St2 & Hca2 & En & _). split; [done|]. exists g2, f2.
        split; [by eapply file_step_trans|]. split; [by eapply same_cache_trans|]. split; [|done].
        rewrite (data_key_shape _ _ _ Hsh) in En. rewrite En.
        apply Hoth; [apply Hl|]. unfold data_key. rewrite (proj2 (Z.ltb_ge _ _)) by lia.
        intros E. injection E as E _. destruct indl; [done|lia].
    + intros e f' k' He St Hnd. split; [done|]. exists g, f'. split; [done|]. split; [done|]. split; [apply Hnd, Hl|done].
  - apply wp_bind. eapply unpin_repinned; [exact Hp|done|done|]. intros s2 Hr.
    destruct (Hrelease s2 Hr) as (Hs & St & Hnd). exists g, f. split; [done|]. split; [done|].
    rewrite Hnd by apply Hl. split; [|split; [done|done]].
    symmetry. eapply (node_empty_below _ _ _ (Datatypes.S d)); [done..|lia|done].
  - apply wp_bind. eapply unpin_repinned; [exact Hp|done|done|]. intros s2 Hr.
    destruct (Hrelease s2 Hr) as (Hs & St & Hnd).
    assert (Hc2 : c = nd (with_blk s2 (with_blk s1 k)) g dv (KInd (Datatypes.S d) (path (fnat g) log (Datatypes.S d)))).
    { rewrite Hnd; [done|]. apply path_valid; [done..|lia]. }
    rewrite Hc2.
    eapply wp_mono; [apply (IH g f (with_blk s2 (with_blk s1 k)) (Datatypes.S d)); [apply St|done|done|lia|by rewrite <- Hc2]| |].
    + intros r k2 Hr2. by eapply bmap_ret_trans.
    + intros e k2 (He & g2 & f2 & St2 & Hca2 & En & Hs2). split; [done|]. exists g2, f2.
      split; [by eapply file_step_trans|]. split; [done|]. split; [rewrite En; apply Hnd, Hl|].
      intros Ha. destruct (Hs2 Ha) as (-> & E2 & B2). split; [done|]. split; [rewrite E2; done|by eapply bl_same_trans].
Qed.

(** ** The pointers in the file itself *)

Definition root_key g (j : Z) : key :=
  if j <? ndirblks (fnat g) then KDir j else KInd 0 (j - ndirblks (fnat g)).

Lemma nd_root k g dv j : 0 <= j -> nd k g dv (root_key g j) = slot (fnat g) j.
Proof.
  intros Hj. unfold root_key. destruct (_ <? _); [done|]. cbn. f_equal. lia.
Qed.

Lemma alloc_root_ok i dv log g f k j bn k1 :
  file_inv k i g f dv -> log_ok (fnat g) log -> kvalid (fnat g) (root_key g j) -> on_path (fnat g) log (root_key g j) ->
  0 <= j < NBMAP -> slot (fnat g) j = 0 -> alloc_zero_post (f_fs g) dv f k bn k1 ->
  let g' := set_dirty true (set_blocks (u32 (blocks g + 1))
    (set_fnat (set_bmap (<[Z.to_nat j := bn]> (bmap (fnat g))) (fnat g)) g)) in
  let k' := with_fso (<[i := g']> (k_fso k1)) k1 in
  k_fso k1 = k_fso k /\ bn <> 0 /\ exists f', file_step i dv log g f k g' f' k' /\
    nd k' g' dv (root_key g j) = bn /\ only_at dv (root_key g j) g k g' k'.
Proof.
  intros Hk Hl Hv Hp Hj Hs (Hm & Hdb & Hu & f2 & [B2 B3 B4 B5 B6 B7 B8] & Hfs2 & Hbs & Hz & Hx) g' k'.
  pose proof (fo_tree _ _ _ _ _ Hk) as Ht. pose proof (fo_fs _ _ _ _ _ Hk) as Hfs.
  assert (Hbn0 : 0 < bn < 2 ^ 32).
  { pose proof (bo_geom _ _ _ _ (fi_bam _ _ _ _ Hfs)) as []. pose proof (fi_data _ _ _ _ Hfs).
    unfold mapped_blk in Hm. lia. }
  assert (Hxo : forall a, kvalid (fnat g) a -> nd k g dv a <> 0 -> dsk k' dv (nd k g dv a) = dsk k dv (nd k g dv a)).
  { intros a Ha Hna. pose proof (to_own _ _ _ Ht a Ha Hna) as Ho. apply (Hx dv). right. split.
    - eapply not_in_bam; [done|by eapply own_data].
    - intros E. rewrite E in Ho. destruct Ho as (_ & _ & Hu' & _). congruence. }
  assert (Hnode : forall a, kvalid (fnat g) a -> nd k' g' dv a = if decide (a = root_key g j) then bn else nd k g dv a)
    by (apply (node_set_root (own k f dv) (dsk k dv) (dsk k' dv) (fnat g) j bn Ht); auto).
  split; [by rewrite B2|]. split; [lia|]. exists f2. split.
  - eapply (file_step_alloc i dv log g f k g' f2 k' (root_key g j) bn); try done.
    + by rewrite nd_root by lia.
    + unfold k'. rewrite B2. done.
    + destruct Hfs2 as [[] ??]. by split; [split|..].
    + destruct (to_map _ _ _ Ht) as [M1 M2 M3 M4]. split; cbn; [by rewrite length_insert|apply Forall_insert; [done|lia]|done..].
    + intros d nr [?|(? & ? & _)]; apply Hx; [by left|by right].
  - split; [rewrite Hnode by done; by rewrite decide_True|].
    intros b Hb Hne. rewrite Hnode by done. by rewrite decide_False.
Qed.

Lemma nat_bmap_dir_ok i dv log alloc g f k j :
  file_inv k i g f dv -> log_ok (fnat g) log -> kvalid (fnat g) (root_key g j) -> on_path (fnat g) log (root_key g j) ->
  0 <= j < NBMAP ->
  wp (nat_bmap_dir i j alloc)
    (fun r k' => exists g' f', bmap_ret_at i dv log alloc (root_key g j) g f k r k' g' f' /\
       only_at dv (root_key g j) g k g' k')
    (bmap_err i dv log alloc g f k) k.
Proof.
  intros Hk Hl Hv Hp Hj. unfold nat_bmap_dir. rewrite (proj2 (Z.leb_gt _ _)) by lia.
  apply wp_bind, (wp_get_fso i g); [apply Hk|]. fold (slot (fnat g) j).
  destruct (alloc && (slot (fnat g) j =? 0)) eqn:Ea.
  - apply andb_prop in Ea as [-> Es%Z.eqb_eq]. apply wp_bind.
    eapply wp_mono; [apply alloc_zero_ok, Hk| |].
    + intros bn k1 Hpost. destruct (alloc_root_ok i dv log g f k j bn k1) as (Ek & Hbn & f' & St & Hnd & Honly); [done..|].
      apply wp_bind, (wp_upd_fso i g); [rewrite Ek; apply Hk|]. apply wp_ret.
      eexists _, f'. split; [|exact Honly]. split; [exact St|]. split; [done|]. split; [done|]. split; done.
    + intros e k' [He (f' & St & Hfs & Sa)]. destruct (file_step_same i dv log g f k f' k') as [Sf Hnd]; [done..|].
      split; [done|]. exists g, f'. split; [done|]. split; [done|]. split; [apply Hnd, Hl|done].
  - exists g, f. split; [|done]. split; [by apply file_step_refl|]. split; [done|]. split; [by rewrite nd_root by lia|].
    split; [|intros _; split; [done|]; split; [by destruct k|apply bl_same_refl, Hk]].
    intros ->. cbn in Ea. by apply Z.eqb_neq in Ea.
Qed.

(** ** The whole translation *)

Lemma node_cache dk v l p m a : node dk (set_bmap_cache v l p m) a = node dk m a.
Proof. by apply node_ext. Qed.

Lemma kvalid_cache v l p m a : kvalid (set_bmap_cache v l p m) a <-> kvalid m a.
Proof. by apply kvalid_shape. Qed.

Definition set_cache (v : bool) (l p : Z) g : fso := set_fnat (set_bmap_cache v l p (fnat g)) g.

Lemma file_step_cache i dv log g f k v l p :
  file_inv k i g f dv ->
  file_step i dv log g f k (set_cache v l p g) f (with_fso (<[i := set_cache v l p g]> (k_fso k)) k).
Proof.
  intros Hk. set (g' := set_cache v l p g). set (k' := with_fso _ k).
  assert (Hnd : forall a, nd k' g' dv a = nd k g dv a) by (intros; apply node_cache).
  pose proof (fo_fs _ _ _ _ _ Hk) as Hfs. pose proof (fo_tree _ _ _ _ _ Hk) as [[] Hi Ho].
  split; try done.
  - split; [cbn; apply lookup_insert_eq|destruct Hfs as [[] ??]; by split; [split|..]|apply Hk|].
    split; [by split| |].
    + intros a b. rewrite !Hnd. apply Hi.
    + intros a Ha. rewrite Hnd. by apply Ho.
  - unfold k'. rewrite (insert_id (k_fs k)) by apply Hfs. by destruct k.
  - symmetry. apply set_nat_id.
  - intros a Ha E. by rewrite Hnd.
  - intros E. by rewrite Hnd.
  - intros x Hx. split; [by left|]. intros [?|(a & ? & E & Ex & ?)]; [done|]. rewrite Hnd in Ex. congruence.
Qed.

Lemma file_inv_log_same k i g f dv log1 log2 g' f' k' :
  file_step i dv log1 g f k g' f' k' -> log_ok (fnat g) log2 -> log2 <> log1 ->
  nd k' g' dv (data_key (fnat g) log2) = nd k g dv (data_key (fnat g) log2).
Proof.
  intros St Hl Hne. destruct (decide (nd k g dv (data_key (fnat g) log2) = 0)) as [E|E].
  - destruct (decide (nd k' g' dv (data_key (fnat g) log2) = 0)) as [E'|E']; [congruence|].
    destruct (st_new _ _ _ _ _ _ _ _ _ St _ (proj2 Hl) E E') as [Hp _]. by apply data_on_path in Hp.
  - apply (st_keep _ _ _ _ _ _ _ _ _ St); [apply Hl|done].
Qed.

(** A step that leaves the data block of [log] keeps the remembered translation right. *)
Lemma cache_ok_step k i g f dv log g' f' k' :
  file_step i dv log g f k g' f' k' -> same_cache g g' ->
  nd k' g' dv (data_key (fnat g) log) = nd k g dv (data_key (fnat g) log) ->
  cache_ok k g dv -> cache_ok k' g' dv.
Proof.
  intros St (C1 & C2 & C3) Hd Hc Hv. rewrite C1 in Hv. destruct (Hc Hv) as [Hl Hp].
  pose proof (st_shape _ _ _ _ _ _ _ _ _ St) as Hsh. rewrite C2, C3, (data_key_shape _ _ _ Hsh).
  split; [by apply (log_ok_shape (fnat g))|]. rewrite Hp.
  destruct (decide (bmap_log (fnat g) = log)) as [->|Hne]; [done|]. symmetry. by eapply file_inv_log_same.
Qed.

(** What [nat_bmap] leaves behind. *)
Definition bmap_post (i : nat) (dv : nat) (log : Z) (alloc : bool) g f k k' : Prop :=
  exists g' f', file_step i dv log g f k g' f' k' /\ cache_ok k' g' dv /\
    bmap_phys (fnat g') = nd k' g' dv (data_key (fnat g) log) /\
    (alloc = true -> bmap_phys (fnat g') <> 0) /\
    (alloc = false -> g' = set_cache true log (bmap_phys (fnat g')) g /\ bl_same (k_blk k) (k_blk k') /\
       k' = with_fso (<[i := g']> (k_fso k)) (with_blk (k_blk k') k)).
Definition bmap_fail (i : nat) (dv : nat) (log : Z) (alloc : bool) g f k (e : Z) k' : Prop :=
  e <> 0 /\ exists g' f', file_step i dv log g f k g' f' k' /\ cache_ok k' g' dv /\ same_cache g g' /\
    (alloc = false -> g' = g /\ k' = with_blk (k_blk k') k /\ bl_same (k_blk k) (k_blk k')).

Lemma set_phys_ok i dv log alloc g f k r k' :
  log_ok (fnat g) log -> bmap_ret i dv log alloc (data_key (fnat g) log) g f k r k' ->
  wp (set_phys i log r) (fun _ => bmap_post i dv log alloc g f k) (fun _ _ => False) k'.
Proof.
  intros Hl (g1 & f1 & St & Hca & Hr & Hnz & Hs). pose proof (st_inv _ _ _ _ _ _ _ _ _ St) as Hk1.
  apply (wp_upd_fnat i g1); [apply Hk1|]. fold (set_cache true log r g1).
  pose proof (file_step_cache i dv log g1 f1 k' true log r Hk1) as St2.
  pose proof (st_shape _ _ _ _ _ _ _ _ _ St) as Hsh.
  exists (set_cache true log r g1), f1. split; [by eapply file_step_trans|].
  assert (Hn : nd (with_fso (<[i := set_cache true log r g1]> (k_fso k')) k') (set_cache true log r g1) dv (data_key (fnat g) log) = r).
  { rewrite Hr. apply node_cache. }
  split; [|split; [done|split; [done|]]].
  - intros _. cbn. split; [by apply (log_ok_shape (fnat g))|]. change (data_key _ log) with (data_key (fnat g1) log).
    rewrite (data_key_shape _ _ _ Hsh). symmetry. exact Hn.
  - intros Ha. destruct (Hs Ha) as (-> & E & B). split; [done|]. split; [done|]. cbn. rewrite E. done.
Qed.

Lemma root_of_log g log :
  log_ok (fnat g) log -> map_ok (fnat g) -> ndirblks (fnat g) <= log ->
  let j := u32 (ndirblks (fnat g) + Z.shiftr log (7 * nindirlev (fnat g))) in
  0 <= j < NBMAP /\ root_key g j = KInd 0 (path (fnat g) log 0).
Proof.
  intros Hl [M1 M2 M3 M4] Hn j. pose proof (path_valid _ _ 0%nat Hl Hn ltac:(lia)) as (_ & H0 & Hb).
  assert (path (fnat g) log 0 = Z.shiftr log (7 * nindirlev (fnat g))) as E.
  { unfold path, lev. rewrite Z.shiftr_div_pow2 by lia. change 128 with (2 ^ 7). rewrite <- Z.pow_mul_r by lia.
    do 2 f_equal. lia. }
  rewrite Z.pow_0_r, Z.div_1_r, E in Hb. rewrite E in H0. unfold NBMAP in *.
  assert (j = ndirblks (fnat g) + Z.shiftr log (7 * nindirlev (fnat g))) as Ej by (apply u32_small; lia).
  split; [lia|]. unfold root_key. rewrite Ej, (proj2 (Z.ltb_ge _ _)) by lia. f_equal. rewrite E. lia.
Qed.

Lemma bmap_fail_err i dv log alloc g f k e k' :
  cache_ok k g dv -> bmap_err i dv log alloc g f k e k' -> bmap_fail i dv log alloc g f k e k'.
Proof.
  intros Hc (He & g' & f' & St & Hca & Hd & Hs). split; [done|]. exists g', f'. split; [done|].
  split; [by eapply cache_ok_step|done].
Qed.

Lemma nat_bmap_ok i dv log alloc g f k :
  file_ok k i g f dv -> log_ok (fnat g) log ->
  wp (nat_bmap i log alloc) (fun _ => bmap_post i dv log alloc g f k) (bmap_fail i dv log alloc g f k) k.
Proof.
  intros [Hk Hc] Hl. unfold nat_bmap. apply wp_bind, (wp_get_fso i g); [apply Hk|].
  pose proof (to_map _ _ _ (fo_tree _ _ _ _ _ Hk)) as Hm.
  destruct (bmap_valid (fnat g) && (bmap_log (fnat g) =? log) && (negb alloc || negb (bmap_phys (fnat g) =? 0))) eqn:Ec.
  { apply andb_prop in Ec as [[Ev El%Z.eqb_eq]%andb_prop Ep]. destruct (Hc Ev) as [_ Hp]. rewrite El in Hp.
    apply wp_ret. exists g, f. split; [by apply file_step_refl|]. split; [done|]. split; [done|]. split.
    - intros ->. cbn in Ep. by apply negb_true_iff, Z.eqb_neq in Ep.
    - intros _. assert (set_cache true log (bmap_phys (fnat g)) g = g) as Eg
        by (destruct g as [? ? ? ? ? ? ? ? ? ? ? ? ? ? ? ? ? ? ? ? []]; cbn in *; by subst).
      split; [done|]. split; [apply bl_same_refl, Hk|]. rewrite insert_id by apply Hk. by destruct k. }
  clear Ec. destruct (Z.ltb_spec log (ndirblks (fnat g))) as [Hd|Hd].
  - assert (root_key g log = data_key (fnat g) log) as Er.
    { unfold root_key, data_key. by rewrite (proj2 (Z.ltb_lt _ _)). }
    eapply wp_seq; [apply (nat_bmap_dir_ok i dv log alloc g f k log); [done|done| | |]| |].
    + rewrite Er. apply Hl.
    + unfold root_key. by rewrite (proj2 (Z.ltb_lt _ _)).
    + destruct Hl as [? _], Hm. unfold NBMAP in *. lia.
    + rewrite Er. intros r k' (g' & f' & Hr & _). eapply wp_mono; [eapply set_phys_ok; [done|by exists g', f']|done|done].
    + intros e k' He. by eapply bmap_fail_err.
  - destruct (root_of_log g log Hl Hm Hd) as [Hj Er]. set (j := u32 _) in *.
    rewrite (proj2 (Z.leb_gt _ _)) by (destruct Hm; lia).
    eapply wp_seq; [apply (nat_bmap_dir_ok i dv log alloc g f k j); [done|done| | |done]| |].
    + rewrite Er. apply path_valid; [done..|lia].
    + rewrite Er. cbn. split; [done|]. split; [lia|done].
    + rewrite Er. intros r k1 (g1 & f1 & (St & Hca & Hr & Hnz & Hs) & Honly).
      pose proof (st_shape _ _ _ _ _ _ _ _ _ St) as Hsh. rewrite <- (path_shape _ _ _ _ Hsh) in Hr. subst r.
      assert (El : Z.to_nat (nindirlev (fnat g)) = lev (fnat g1)) by (destruct Hsh as [_ E]; unfold lev; by rewrite E).
      rewrite El.
      eapply wp_seq; [apply wp_run, (bmap_loop_ok alloc _ i dv log g1 f1 k1 0); [apply St|by apply (log_ok_shape (fnat g))| |done|done]| |].
      * destruct Hsh as [-> _]. done.
      * intros r k2 [_ Hr2]. rewrite (data_key_shape _ _ _ Hsh) in Hr2.
        eapply wp_mono; [eapply set_phys_ok; [exact Hl|by eapply bmap_ret_trans]|done|done].
      * intros e k2 (Hrun & He & g2 & f2 & St2 & Hca2 & En & Hs2). rewrite (data_key_shape _ _ _ Hsh) in En.
        eapply bmap_fail_err; [done|]. split; [done|]. exists g2, f2. split; [by eapply file_step_trans|].
        split; [by eapply same_cache_trans|]. split.
        2: { intros Ha. destruct (Hs Ha) as (-> & E1 & B1), (Hs2 Ha) as (-> & E2 & B2). split; [done|].
          split; [rewrite E2, E1; done|by eapply bl_same_trans]. }
        rewrite En. apply Honly; [apply Hl|].
        unfold data_key. rewrite (proj2 (Z.ltb_ge _ _)) by lia. intros E. injection E as E _.
        rewrite <- El in Hrun. unfold lev in E. by rewrite E in Hrun.
    + intros e k' He. by eapply bmap_fail_err.
Qed.

(** A logical block beyond the reach of the block map. *)
Lemma nat_bmap_efbig i dv log alloc g f k :
  file_ok k i g f dv -> 0 <= log < 2 ^ 32 -> 1 <= nindirlev (fnat g) -> ~ log_ok (fnat g) log -> nat_bmap i log alloc k = Err EFBIG k.
Proof.
  intros [Hk Hc] Hr Hlev Hl. pose proof (to_map _ _ _ (fo_tree _ _ _ _ _ Hk)) as [M1 M2 M3 M4].
  unfold nat_bmap. erewrite bind_run by (unfold get_fso; rewrite gets_bind, (fo_fso _ _ _ _ _ Hk); reflexivity).
  destruct (bmap_valid (fnat g) && (bmap_log (fnat g) =? log)) eqn:Ec.
  { apply andb_prop in Ec as [Ev El%Z.eqb_eq]. destruct (Hc Ev) as [Hl' _]. by rewrite El in Hl'. }
  cbn [andb]. destruct (Z.ltb_spec log (ndirblks (fnat g))) as [Hd|Hd].
  { exfalso. apply Hl. split; [done|]. unfold data_key. rewrite (proj2 (Z.ltb_lt _ _)) by done. cbn. lia. }
  rewrite (proj2 (Z.leb_gt _ _)) by lia. unfold nat_bmap_dir.
  assert (NBMAP <= ndirblks (fnat g) + Z.shiftr log (7 * nindirlev (fnat g))) as Hbig.
  { apply Z.nlt_ge. intros Hlt. apply Hl. split; [done|]. unfold data_key.
    rewrite (proj2 (Z.ltb_ge _ _)) by lia. split; [done|]. split; [lia|].
    unfold lev. rewrite Z2Nat.id by lia. change 128 with (2 ^ 7). rewrite <- Z.pow_mul_r by lia.
    by rewrite <- Z.shiftr_div_pow2 by lia. }
  assert (0 <= Z.shiftr log (7 * nindirlev (fnat g)) < 2 ^ 25) as Hs.
  { rewrite Z.shiftr_div_pow2 by lia. assert (2 ^ 7 <= 2 ^ (7 * nindirlev (fnat g))) by (apply Z.pow_le_mono_r; lia).
    split; [apply Z.div_pos; lia|]. apply Z.div_lt_upper_bound; [lia|]. lia. }
  rewrite u32_small by (unfold NBMAP in *; lia). by rewrite (proj2 (Z.leb_le _ _)).
Qed.

(** C7. [nat_bmap] translates a logical block of a file to the block that the
    direct and indirect pointers name, for any depth of the tree and whatever the
    remembered translation; asked to allocate, it fills the missing blocks of the
    path with blocks that were free, each zeroed, and keeps every other block, the
    shape of the tree and the other files' blocks; beyond the reach of the block
    map it fails with EFBIG and changes nothing. *)
Theorem nat_bmap_spec i dv log alloc g f k :
  file_ok k i g f dv -> 0 <= log < 2 ^ 32 -> 1 <= nindirlev (fnat g) ->
  (log_ok (fnat g) log ->
     wp (nat_bmap i log alloc) (fun _ => bmap_post i dv log alloc g f k) (bmap_fail i dv log alloc g f k) k) /\
  (~ log_ok (fnat g) log -> nat_bmap i log alloc k = Err EFBIG k).
Proof. intros Hk Hr Hl. split; [by apply nat_bmap_ok|by apply (nat_bmap_efbig i dv log alloc g f)]. Qed.
End ok.
