(* ===== verification/Vfs.v ===== *)
(** The file-system independent layer: kern/fs/main.c ([fs_getfso], [fs_putfso],
    [fs_state], [fs_sync] and the table of file-system types) and [fs_chk_perm]
    of kern/fs/misc.c.

    The entry points of [struct fstype] that these functions call are the class
    [FsLow]; a file-system type is a pointer, and the class dispatches on it. *)

From S2P Require Import Prelude BlockDev BlockIface Kern.

Class FsLow (S : Type) := {
  ft_getfso : nat -> nat -> M (kern S) unit;
  ft_putfso : nat -> nat -> M (kern S) unit;
  ft_syncfso : nat -> nat -> M (kern S) unit;
  ft_sync : nat -> nat -> M (kern S) unit;
  ft_chk_perm : nat -> nat -> Z -> Z -> Z -> M (kern S) unit;
  ft_name : nat -> list Z;
}.

Definition FS_MAXFSTYPE : nat := 8.

(** [index != -1] for an unsigned 32-bit [index]. *)
Definition INO_NONE : Z := 0xffffffff.

(** [memset (n, 0, sizeof *n)], then the fields [fs_getfso] sets. *)
Definition new_fso (fsi : nat) (ino : Z) : fso :=
  Fso false 1 false fsi ino 0 0 0 0 0 0 0 0 0 0 0 0 None 0 0
    (FsoNat false 0 0 (replicate 114 0) 0 0) no_pipe.

(** [S_IRUSR], [S_IRGRP], [S_IROTH] and the like, as a shift of [R_OK], [W_OK], [X_OK]. *)
Definition perm_shift (f : fs) (g : fso) (uid gid : Z) : Z :=
  if Kern.uid g =? uid then 6 else if Kern.gid g =? gid then 3 else 0.

Section ops.
Context {S : Type} `{FsLow S}.

(** ** Permissions *)

Definition perm_mask (f : fs) (g : fso) (uid gid bit : Z) : Z :=
  if insecure f then Z.lor bit (Z.lor (Z.shiftl bit 3) (Z.shiftl bit 6))
  else Z.shiftl bit (perm_shift f g uid gid).

Definition fs_chk_perm (i : nat) (mode uid gid : Z) : M (kern S) unit :=
  g <~ get_fso i;;
  f <~ get_fs (f_fs g);;
  let r := perm_mask f g uid gid R_OK in
  let w := perm_mask f g uid gid W_OK in
  let x := perm_mask f g uid gid X_OK in
  let wants bit := negb (Z.land mode bit =? 0) in
  let has m := negb (Z.land (Kern.mode g) m =? 0) in
  if wants W_OK && read_only f then fail EROFS
  else if uid =? 0 then ret tt
  else if wants R_OK && negb (has r) then fail EACCES
  else if wants W_OK && negb (has w) then fail EACCES
  else if wants X_OK && negb (has x) then fail EACCES
  else t <~ deref (type f);; ft_chk_perm t i mode uid gid.

(** ** The table of file objects *)

(** The scan of [fs_getfso]: the object for [ino] if it is in use, else the last
    free slot below [fs_fso_high]. *)
Fixpoint getfso_scan (n : nat) (j : nat) (fsi : nat) (ino : Z) (free : option nat)
    : M (kern S) (nat + option nat) :=
  match n with
  | O => ret (inr free)
  | Datatypes.S n' =>
    p <~ get_fso j;;
    if refcnt p =? 0 then getfso_scan n' (Datatypes.S j) fsi ino (Some j)
    else if negb (ino =? INO_NONE) && (index p =? ino) && (f_fs p =? fsi)%nat then ret (inl j)
    else getfso_scan n' (Datatypes.S j) fsi ino free
  end.

Definition fs_getfso (fsi : nat) (ino : Z) : M (kern S) nat :=
  high <~ gets fs_fso_high;;
  r <~ getfso_scan (Z.to_nat high) 0 fsi ino None;;
  match r with
  | inl j => upd_fso j (fun p => set_refcnt (refcnt p + 1) p);;; ret j
  | inr free =>
    n <~ match free with
         | Some n => ret n
         | None =>
           if FS_MAXFSO <=? high then fail ENOMEM
           else
             e <~ gets k_atmem;;
             if negb (e =? 0) then fail e
             else modify (with_high (high + 1));;; ret (Z.to_nat high)
         end;;
    modify (fun k => with_fso (<[n := new_fso fsi ino]> (k_fso k)) k);;;
    f <~ get_fs fsi;;
    t <~ deref (type f);;
    r <~ attempt (ft_getfso t n);;
    match r with
    | inl e => upd_fso n (set_refcnt 0);;; fail e
    | inr _ => ret n
    end
  end.

(** [fs_putfso]; a NULL argument is [None].  The result of the type's [putfso]
    is not looked at. *)
Definition fs_putfso (o : option nat) : M (kern S) unit :=
  match o with
  | None => ret tt
  | Some i =>
    p <~ get_fso i;;
    if refcnt p =? 0 then panic "fs_putfso: !fso->refcnt"
    else
      (if refcnt p =? 1 then
         f <~ get_fs (f_fs p);;
         t <~ deref (type f);;
         _ <~ status (ft_putfso t i);; ret tt
       else ret tt);;;
      upd_fso i (fun p => set_refcnt (refcnt p - 1) p)
  end.

(** ** Poll state *)

Definition task_resume (t : nat) : M (kern S) unit :=
  modify (fun k => with_poll (k_pollq k) (k_resumed k ++ [t]) k).

Definition fs_state (i : nat) (st : Z) : M (kern S) unit :=
  f <~ get_fso i;;
  if state f =? st then ret tt
  else
    upd_fso i (set_state st);;;
    match polling f with
    | Some t => task_resume t
    | None =>
      if negb (pollcnt f =? 0) then modify (fun k => with_poll [] (k_resumed k ++ k_pollq k) k)
      else ret tt
    end.

Definition fs_setstate (i : nat) (st : Z) : M (kern S) unit :=
  f <~ get_fso i;; fs_state i (Z.lor (state f) st).
Definition fs_clrstate (i : nat) (st : Z) : M (kern S) unit :=
  f <~ get_fso i;; fs_state i (Z.land (state f) (Z.lnot st)).

(** ** Writing back *)

(** The loop of [fs_sync] over the file objects; the first error is kept. *)
Fixpoint sync_loop (n : nat) (j : nat) (fsi t : nat) (err : Z) : M (kern S) Z :=
  match n with
  | O => ret err
  | Datatypes.S n' =>
    p <~ get_fso j;;
    if (f_fs p =? fsi)%nat && negb (refcnt p =? 0) && dirty p then
      lasterr <~ status (ft_syncfso t j);;
      sync_loop n' (Datatypes.S j) fsi t (if err =? 0 then lasterr else err)
    else sync_loop n' (Datatypes.S j) fsi t err
  end.

Definition fs_sync (fsi : nat) : M (kern S) unit :=
  f <~ get_fs fsi;;
  if read_only f then ret tt
  else
    high <~ gets fs_fso_high;;
    t <~ deref (type f);;
    err <~ sync_loop (Z.to_nat high) 0 fsi t 0;;
    lasterr <~ status (ft_sync t fsi);;
    let err := if err =? 0 then lasterr else err in
    if err =? 0 then ret tt else fail err.

Fixpoint syncall_loop (n : nat) (i : nat) (err : Z) : M (kern S) Z :=
  match n with
  | O => ret err
  | Datatypes.S n' =>
    f <~ get_fs i;;
    if in_use f then
      lasterr <~ status (fs_sync i);;
      syncall_loop n' (Datatypes.S i) (if err =? 0 then lasterr else err)
    else syncall_loop n' (Datatypes.S i) err
  end.

Definition fs_syncall : M (kern S) unit :=
  err <~ syncall_loop FS_MAXFS 0 0;;
  if err =? 0 then ret tt else fail err.

(** ** File-system types *)

Fixpoint find_type (p : option nat -> bool) (l : list (option nat)) (i : nat) : option nat :=
  match l with
  | [] => None
  | x :: l' => if p x then Some i else find_type p l' (Datatypes.S i)
  end.

Definition fs_install (t : nat) : M (kern S) unit :=
  l <~ gets k_fstype;;
  match find_type (fun x => bool_decide (x = None)) l 0 with
  | Some i => modify (with_fstype (<[i := Some t]> l))
  | None => fail ENOMEM
  end.

Fixpoint type_busy (n : nat) (j : nat) (t : nat) : M (kern S) bool :=
  match n with
  | O => ret false
  | Datatypes.S n' =>
    p <~ get_fso j;;
    if refcnt p =? 0 then type_busy n' (Datatypes.S j) t
    else
      f <~ get_fs (f_fs p);;
      if bool_decide (type f = Some t) then ret true else type_busy n' (Datatypes.S j) t
  end.

Definition fs_uinstall (t : nat) : M (kern S) unit :=
  high <~ gets fs_fso_high;;
  b <~ type_busy (Z.to_nat high) 0 t;;
  if b then fail EBUSY
  else
    l <~ gets k_fstype;;
    match find_type (fun x => bool_decide (x = Some t)) l 0 with
    | Some i => modify (with_fstype (<[i := None]> l))
    | None => panic "fs_uinstall: filesystem type not installed"
    end.

Definition fs_find (name : list Z) : M (kern S) nat :=
  l <~ gets k_fstype;;
  match find_type (fun x => match x with Some t => bool_decide (ft_name t = name) | None => false end) l 0 with
  | Some i => o <~ deref (l !! i);; deref o
  | None => fail EINVAL
  end.
End ops.
