(* ===== verification/VfsOk.v ===== *)
(** Correctness of the file-system independent layer: permission checks, the
    table of file objects and the write-back of dirty objects. *)

From S2P Require Import Prelude BlockDev BlockIface Kern NatBamOk Vfs.

(** * Permissions *)

(** The rwx bits that apply to a user: those of the owner, of the group or of
    the others, or of anyone on a file system mounted insecure. *)
Definition class_bits (f : fs) (g : fso) (uid gid : Z) : Z :=
  let m := Kern.mode g in
  if insecure f then Z.lor m (Z.lor (Z.shiftr m 3) (Z.shiftr m 6))
  else if Kern.uid g =? uid then Z.shiftr m 6
  else if Kern.gid g =? gid then Z.shiftr m 3
  else m.

(** Every permission asked for is granted. *)
Definition granted (f : fs) (g : fso) (mode uid gid : Z) : Prop :=
  (Z.testbit mode 1 = true -> read_only f = false) /\
  (uid = 0 \/ forall b, 0 <= b <= 2 -> Z.testbit mode b = true -> Z.testbit (class_bits f g uid gid) b = true).

Lemma wants_bit m b : 0 <= b -> negb (Z.land m (2 ^ b) =? 0) = Z.testbit m b.
Proof. apply land_pow2. Qed.

Lemma land_lor_zero m a b : (Z.land m (Z.lor a b) =? 0) = (Z.land m a =? 0) && (Z.land m b =? 0).
Proof.
  rewrite Z.land_lor_distr_r. apply eq_bool_prop_intro.
  rewrite andb_True, !Is_true_true, !Z.eqb_eq. apply Z.lor_eq_0_iff.
Qed.

(** The mask of a permission against the bits of the user's class. *)
Lemma has_perm f g uid gid b :
  0 <= b <= 2 ->
  negb (Z.land (Kern.mode g) (perm_mask f g uid gid (2 ^ b)) =? 0) = Z.testbit (class_bits f g uid gid) b.
Proof.
  intros Hb. unfold perm_mask, class_bits, perm_shift.
  assert (Hsh : forall n, 0 <= n -> Z.shiftl (2 ^ b) n = 2 ^ (b + n))
    by (intros; rewrite Z.shiftl_mul_pow2, <- Z.pow_add_r by lia; done).
  destruct (insecure f).
  - rewrite !land_lor_zero, !negb_andb, !Hsh, !wants_bit, !Z.lor_spec, !Z.shiftr_spec by lia. done.
  - destruct (Kern.uid g =? uid), (Kern.gid g =? gid); rewrite Hsh, wants_bit, ?Z.shiftr_spec by lia; try done;
      by rewrite Z.add_0_r.
Qed.

Section perm.
Context {S : Type} `{FsLow S}.
Implicit Types (k : kern S).

(** The type's own check accepts. *)
Definition type_accepts (t : nat) : Prop :=
  forall i mode uid gid k, ft_chk_perm t i mode uid gid k = Ret tt k.

Lemma fs_chk_perm_run i mode uid gid k g f t :
  k_fso k !! i = Some g -> k_fs k !! f_fs g = Some f -> type f = Some t -> type_accepts t ->
  fs_chk_perm i mode uid gid k =
    if Z.testbit mode 1 && read_only f then Err EROFS k
    else if uid =? 0 then Ret tt k
    else if forallb (fun b => negb (Z.testbit mode b) || Z.testbit (class_bits f g uid gid) b) [2; 1; 0]
    then Ret tt k else Err EACCES k.
Proof.
  intros Hg Hf Ht Ha. unfold fs_chk_perm.
  erewrite bind_run by (unfold get_fso; rewrite gets_bind, Hg; reflexivity).
  erewrite bind_run by (unfold get_fs; rewrite gets_bind, Hf; reflexivity).
  change R_OK with (2 ^ 2). change W_OK with (2 ^ 1). change X_OK with (2 ^ 0).
  rewrite !has_perm, !wants_bit by lia. cbn [forallb].
  destruct (Z.testbit mode 1 && read_only f) eqn:E1; [done|]. destruct (uid =? 0); [done|].
  destruct (Z.testbit mode 2), (Z.testbit (class_bits f g uid gid) 2); cbn [andb orb negb]; try done;
  destruct (Z.testbit mode 1), (Z.testbit (class_bits f g uid gid) 1); cbn [andb orb negb]; try done;
  destruct (Z.testbit mode 0), (Z.testbit (class_bits f g uid gid) 0); cbn [andb orb negb]; try done;
  rewrite Ht; apply Ha.
Qed.

(** [fs_chk_perm] grants a request exactly when the file system is writable
    for a write request and the user is root or every permission bit asked for is
    set in the class (owner, group, others; any class on an insecure mount) that
    applies to the user; otherwise it answers EROFS or EACCES, and it never
    changes the state. *)
Theorem fs_chk_perm_spec i mode uid gid k g f t :
  k_fso k !! i = Some g -> k_fs k !! f_fs g = Some f -> type f = Some t -> type_accepts t ->
  (fs_chk_perm i mode uid gid k = Ret tt k <-> granted f g mode uid gid) /\
  (~ granted f g mode uid gid -> fs_chk_perm i mode uid gid k =
     Err (if Z.testbit mode 1 && read_only f then EROFS else EACCES) k).
Proof.
  intros Hg Hf Ht Ha. rewrite (fs_chk_perm_run i mode uid gid k g f t Hg Hf Ht Ha).
  unfold granted. destruct (Z.testbit mode 1 && read_only f) eqn:E1.
  { apply andb_prop in E1 as [E1 E2]. split; [|done]. split; [done|]. intros [Hw _]. rewrite Hw in E2; done. }
  assert (Hro : Z.testbit mode 1 = true -> read_only f = false).
  { intros E. rewrite E in E1. done. }
  destruct (Z.eqb_spec uid 0) as [->|Hu]; [split; [tauto|]; intros []; tauto|].
  assert (Hb : forallb (fun b => negb (Z.testbit mode b) || Z.testbit (class_bits f g uid gid) b) [2; 1; 0] = true <->
    forall b, 0 <= b <= 2 -> Z.testbit mode b = true -> Z.testbit (class_bits f g uid gid) b = true).
  { rewrite forallb_forall. split.
    - intros Hall b Hb Hm. specialize (Hall b). rewrite Hm in Hall. apply Hall. cbn. lia.
    - intros Hall b Hin. destruct (Z.testbit mode b) eqn:Em; [|done]. apply Hall; [|done]. cbn in Hin. lia. }
  destruct (forallb _ _) eqn:E.
  - split; [split; [|done]|].
    + intros _. split; [done|]. right. by apply Hb.
    + intros Hn. destruct Hn. split; [done|]. right. by apply Hb.
  - split; [split; [done|]|done]. intros [_ [?|Hall]]; [done|]. by apply Hb in Hall.
Qed.
End perm.
