(* ===== verification/Pipe.v ===== *)
(** Pipes (kern/fs/pipe.c): a ring buffer of PIPE_BUF bytes with queues of
    waiting readers and writers.

    A reader or writer that has to wait enters a queue and calls the scheduler;
    the rest of its call runs later, after other tasks.  [pipe_read] and
    [pipe_write_loop] are therefore modelled up to the next point where the
    caller waits: [Wait] means that the task is in a queue and that, once it is
    resumed, the call goes on with the computation given there. *)

From S2P Require Import Prelude BlockDev BlockIface Kern Vfs.

Definition PIPE_BUF : Z := 8184.
Definition SIGPIPE : Z := 13.

Definition set_read_p (v : Z) (p : fso_pipe) : fso_pipe := FsoPipe (pq_readers p) (pq_writers p) (write_p p) v (pbuf p).
Definition set_ring (v : Z) (b : list Z) (p : fso_pipe) : fso_pipe := FsoPipe (pq_readers p) (pq_writers p) v (read_p p) b.
Definition set_readers (l : list nat) (p : fso_pipe) : fso_pipe := FsoPipe l (pq_writers p) (write_p p) (read_p p) (pbuf p).
Definition set_writers (l : list nat) (p : fso_pipe) : fso_pipe := FsoPipe (pq_readers p) l (write_p p) (read_p p) (pbuf p).

(** The outcome of a call, or of a part of it. *)
Inductive progress (A : Type) := Done (a : A) | Wait.
Arguments Done {A}. Arguments Wait {A}.

Section ops.
Context {S : Type} `{FsLow S}.

Definition upd_pipe (i : nat) (h : fso_pipe -> fso_pipe) : M (kern S) unit :=
  upd_fso i (fun f => set_pipe (h (fpipe f)) f).

(** [while (t = task_dequeue (q), t) task_resume (t);] *)
Fixpoint resume_all (l : list nat) : M (kern S) unit :=
  match l with [] => ret tt | t :: l' => task_resume t;;; resume_all l' end.

Definition pipe_ustate (i : nat) : M (kern S) unit :=
  f <~ get_fso i;;
  let st := Z.lor (if size f <? PIPE_BUF then W_OK else 0) (if negb (size f =? 0) then R_OK else 0) in
  fs_state i st;;;
  f <~ get_fso i;;
  (if negb (Z.land st R_OK =? 0) then
     upd_pipe i (set_readers []);;; resume_all (pq_readers (fpipe f))
   else ret tt);;;
  (if negb (Z.land st W_OK =? 0) then
     upd_pipe i (set_writers []);;; resume_all (pq_writers (fpipe f))
   else ret tt).

Definition pipe_getfso (i : nat) : M (kern S) unit :=
  e <~ gets k_kmalloc;;
  if negb (e =? 0) then fail e
  else
    c <~ gets k_curr;;
    t <~ gets k_time;;
    upd_fso i (fun f =>
      set_no_seek true (set_times t t t (set_owner (euid c) (egid c)
        (set_mode (Z.lor S_IFIFO 0x180) (set_size 0 (set_pipe (FsoPipe [] [] 0 0 (zeros PIPE_BUF)) f))))));;;
    fs_setstate i W_OK.

(** [free] of the buffer. *)
Definition pipe_putfso (i : nat) : M (kern S) unit := upd_pipe i (set_ring 0 []).

(** [task_suspend (q, WAIT_INTR)]: EINTR, or the current task is queued. *)
Definition task_suspend {A} (i : nat) (enqueue : nat -> fso_pipe -> fso_pipe) : M (kern S) (progress A) :=
  c <~ gets k_curr;;
  if (signal_pending c || unseen_events c) && negb (stopped c) then
    modify (fun k => with_curr (Task (ruid c) (rgid c) (euid c) (egid c) (cwd c) (tty c) (slot c)
      (signal_pending c) false (stopped c)) k);;;
    fail EINTR
  else
    upd_pipe i (enqueue (slot c));;;
    ret Wait.

(** A call of [pipe_read], from its start or from where it waited. *)
Definition pipe_read (i : nat) (count : Z) (no_delay : bool) : M (kern S) (progress (list Z)) :=
  f <~ get_fso i;;
  if size f =? 0 then
    if (writer_count f =? 0) || no_delay then ret (Done [])
    else
      c <~ gets k_curr;;
      if signal_pending c then fail EINTR
      else task_suspend i (fun t p => set_readers (pq_readers p ++ [t]) p)
  else
    let p := fpipe f in
    let cnt := if size f <? count then size f else count in
    let l := if PIPE_BUF <? cnt + read_p p then PIPE_BUF - read_p p else cnt in
    let data := mem_read (pbuf p) (read_p p) l ++ mem_read (pbuf p) 0 (cnt - l) in
    upd_fso i (fun f => set_size (size f - cnt) (set_pipe (set_read_p ((read_p p + cnt) mod PIPE_BUF) p) f));;;
    pipe_ustate i;;;
    ret (Done data).

(** One round of the outer loop of [pipe_write] with room left: as much of [buf]
    as fits; the rest of [buf] is returned. *)
Definition pipe_put (i : nat) (buf : list Z) : M (kern S) (list Z) :=
  f <~ get_fso i;;
  let p := fpipe f in
  let cnt := Z.of_nat (length buf) in
  let cnt := if PIPE_BUF <? cnt then PIPE_BUF else cnt in
  let cnt := if PIPE_BUF <? cnt + size f then PIPE_BUF - size f else cnt in
  let l := if PIPE_BUF <? cnt + write_p p then PIPE_BUF - write_p p else cnt in
  let b := mem_write (pbuf p) (write_p p) (take (Z.to_nat l) buf) in
  let b := mem_write b 0 (take (Z.to_nat (cnt - l)) (drop (Z.to_nat l) buf)) in
  upd_fso i (fun f => set_size (size f + cnt) (set_pipe (set_ring ((write_p p + cnt) mod PIPE_BUF) b p) f));;;
  ret (drop (Z.to_nat cnt) buf).

(** The outer loop.  The result is the rest of the data with [Done] (no bytes, or
    what a caller that does not wait leaves) or [Wait].  A round that finds room
    consumes at least one byte. *)
Fixpoint pipe_write_loop (fuel : nat) (i : nat) (buf : list Z) (no_delay : bool)
    : M (kern S) (list Z * progress unit) :=
  match buf with
  | [] => pipe_ustate i;;; ret ([], Done tt)
  | _ :: _ =>
    match fuel with
    | O => halted Undefined
    | Datatypes.S fuel' =>
      f <~ get_fso i;;
      if PIPE_BUF <=? size f then
        if no_delay then ret (buf, Done tt)
        else
          c <~ gets k_curr;;
          if signal_pending c then fail EINTR
          else
            pipe_ustate i;;;
            w <~ task_suspend i (fun t p => set_writers (pq_writers p ++ [t]) p);;
            ret (buf, w)
      else
        rest <~ pipe_put i buf;;
        pipe_write_loop fuel' i rest no_delay
    end
  end.

(** A resumed writer goes on with the data it has left. *)
Definition pipe_write_on (i : nat) (buf : list Z) (no_delay : bool) : M (kern S) (list Z * progress unit) :=
  pipe_write_loop (Datatypes.S (length buf)) i buf no_delay.

Definition signal_raise (sig : Z) : M (kern S) unit :=
  modify (fun k => with_signals (k_signals k ++ [sig]) k).

(** A call of [pipe_write] from its start. *)
Definition pipe_write (i : nat) (buf : list Z) (no_delay : bool) : M (kern S) (list Z * progress unit) :=
  f <~ get_fso i;;
  if reader_count f =? 0 then signal_raise SIGPIPE;;; fail EPIPE
  else pipe_write_on i buf no_delay.
End ops.
