(* ===== verification/PipeOk.v ===== *)
(** Pipes are queues of bytes (kern/fs/pipe.c).

    [contents f]: the bytes in the ring buffer of a pipe, in order.  Reading
    takes them off the front and writing adds to the back, over any interleaving
    of readers and writers. *)

From S2P Require Import Prelude BlockDev BlockIface Kern Frame Vfs Pipe.

(** * The ring *)

(** [n] bytes from position [r] on. *)
Definition ring (b : list Z) (r n : Z) : list Z :=
  (fun j => rd8 b ((r + Z.of_nat j) mod PIPE_BUF)) <$> seq 0 (Z.to_nat n).
Definition contents (f : fso) : list Z := ring (pbuf (fpipe f)) (read_p (fpipe f)) (size f).

Record ring_ok (f : fso) : Prop := RingOk {
  rg_size : 0 <= size f <= PIPE_BUF;
  rg_read : 0 <= read_p (fpipe f) < PIPE_BUF;
  rg_write : write_p (fpipe f) = (read_p (fpipe f) + size f) mod PIPE_BUF;
  rg_buf : Z.of_nat (length (pbuf (fpipe f))) = PIPE_BUF
}.

Lemma length_ring b r n : 0 <= n -> Z.of_nat (length (ring b r n)) = n.
Proof. intros. unfold ring. rewrite length_fmap, length_seq. lia. Qed.

Lemma rd8_ring b r n j : 0 <= j < n -> rd8 (ring b r n) j = rd8 b ((r + j) mod PIPE_BUF).
Proof.
  intros Hj. unfold ring, rd8 at 1. rewrite list_lookup_fmap, lookup_seq_lt by lia. cbn. do 2 f_equal. lia.
Qed.

(** A position in the ring, without the modulus. *)
Lemma ring_pos x : 0 <= x < 2 * PIPE_BUF -> x mod PIPE_BUF = if decide (x < PIPE_BUF) then x else x - PIPE_BUF.
Proof.
  intros Hx. case_decide; [by apply Z.mod_small; lia|].
  replace x with (x - PIPE_BUF + 1 * PIPE_BUF) at 1 by lia. rewrite Z.mod_add by done. apply Z.mod_small. lia.
Qed.

(** The two copies of [pipe_read]. *)
Lemma ring_read b r n cnt :
  0 <= r < PIPE_BUF -> 0 <= cnt <= n -> n <= PIPE_BUF -> Z.of_nat (length b) = PIPE_BUF ->
  let l := if PIPE_BUF <? cnt + r then PIPE_BUF - r else cnt in
  mem_read b r l ++ mem_read b 0 (cnt - l) = take (Z.to_nat cnt) (ring b r n) /\
  ring b ((r + cnt) mod PIPE_BUF) (n - cnt) = drop (Z.to_nat cnt) (ring b r n).
Proof.
  intros Hr Hc Hn Hb l. assert (0 <= l <= cnt /\ r + l <= PIPE_BUF /\ cnt - l <= PIPE_BUF /\ (l < cnt -> l = PIPE_BUF - r)) as (L1 & L2 & L3 & L4).
  { unfold l. destruct (Z.ltb_spec PIPE_BUF (cnt + r)); lia. }
  pose proof (length_mem_read b r l ltac:(lia) ltac:(lia) ltac:(lia)) as Hl1.
  pose proof (length_mem_read b 0 (cnt - l) ltac:(lia) ltac:(lia) ltac:(lia)) as Hl2.
  pose proof (length_ring b r n ltac:(lia)) as Hl. split; apply rd8_ext.
  - rewrite length_app, length_take. lia.
  - intros j Hj. rewrite length_app in Hj. rewrite rd8_app, Hl1, rd8_take, rd8_ring, ring_pos by lia. case_decide as H1.
    + rewrite rd8_mem_read by lia. by rewrite decide_True by lia.
    + rewrite rd8_mem_read by lia. rewrite decide_False by lia. f_equal. lia.
  - pose proof (length_ring b ((r + cnt) mod PIPE_BUF) (n - cnt) ltac:(lia)). rewrite length_drop. lia.
  - intros j Hj. rewrite length_ring in Hj by lia. rewrite rd8_drop, !rd8_ring by lia.
    rewrite Zplus_mod_idemp_l. do 2 f_equal. lia.
Qed.

(** The two copies of [pipe_put]. *)
Lemma ring_write b r n cnt buf :
  0 <= r < PIPE_BUF -> 0 <= n -> 0 <= cnt <= Z.of_nat (length buf) -> n + cnt <= PIPE_BUF -> Z.of_nat (length b) = PIPE_BUF ->
  let w := (r + n) mod PIPE_BUF in
  let l := if PIPE_BUF <? cnt + w then PIPE_BUF - w else cnt in
  let b' := mem_write (mem_write b w (take (Z.to_nat l) buf)) 0 (take (Z.to_nat (cnt - l)) (drop (Z.to_nat l) buf)) in
  length b' = length b /\ ring b' r (n + cnt) = ring b r n ++ take (Z.to_nat cnt) buf.
Proof.
  intros Hr Hn Hc Hf Hb w l b'. assert (0 <= w < PIPE_BUF) as Hw by (apply Z.mod_pos_bound; done).
  assert (w = if decide (r + n < PIPE_BUF) then r + n else r + n - PIPE_BUF) as Ew by (apply ring_pos; lia).
  assert (0 <= l <= cnt /\ w + l <= PIPE_BUF /\ cnt - l <= PIPE_BUF /\ (l < cnt -> l = PIPE_BUF - w)) as (L1 & L2 & L3 & L4).
  { unfold l. destruct (Z.ltb_spec PIPE_BUF (cnt + w)); lia. }
  set (s1 := take (Z.to_nat l) buf). set (s2 := take (Z.to_nat (cnt - l)) (drop (Z.to_nat l) buf)).
  assert (Z.of_nat (length s1) = l) as Hs1 by (unfold s1; rewrite length_take; lia).
  assert (Z.of_nat (length s2) = cnt - l) as Hs2 by (unfold s2; rewrite length_take, length_drop; lia).
  set (b1 := mem_write b w s1). assert (length b1 = length b) as Hb1 by (apply length_mem_write; lia).
  assert (b' = mem_write b1 0 s2) as Eb by done. clearbody b'. subst b'.
  assert (length (mem_write b1 0 s2) = length b) as Hb' by (rewrite length_mem_write; lia). split; [done|].
  pose proof (length_ring b r n Hn) as Hl0. apply rd8_ext.
  - rewrite length_app, length_take. pose proof (length_ring (mem_write b1 0 s2) r (n + cnt) ltac:(lia)). lia.
  - intros j Hj. rewrite length_ring in Hj by lia. rewrite rd8_ring, rd8_app, Hl0 by lia.
    assert (0 <= (r + j) mod PIPE_BUF < PIPE_BUF) as Hm by (apply Z.mod_pos_bound; done).
    rewrite rd8_mem_write, Hs2 by lia. unfold b1. rewrite rd8_mem_write, Hs1 by lia.
    rewrite ring_pos in Hm |- * by lia. destruct (decide (j < n)) as [Hjn|Hjn].
    + rewrite rd8_ring, ring_pos by lia.
      rewrite (decide_False (P := _ <= _ < 0 + _)), (decide_False (P := w <= _ < _)); [done|repeat case_decide; lia..].
    + rewrite rd8_take by lia. destruct (decide (j - n < l)) as [Hjl|Hjl].
      * rewrite (decide_False (P := _ <= _ < 0 + _)), (decide_True (P := w <= _ < _)); [|repeat case_decide; lia..].
        unfold s1. rewrite rd8_take by (repeat case_decide; lia). f_equal. repeat case_decide; lia.
      * rewrite (decide_True (P := _ <= _ < 0 + _)); [|repeat case_decide; lia].
        unfold s2. rewrite rd8_take, rd8_drop by (repeat case_decide; lia). f_equal. repeat case_decide; lia.
Qed.

(** * Operations *)

(** The state of a pipe after [pipe_ustate]. *)
Definition poll_state (f : fso) : Z :=
  Z.lor (if size f <? PIPE_BUF then W_OK else 0) (if negb (size f =? 0) then R_OK else 0).
Definition woken (f : fso) : fso :=
  set_state (poll_state f) (set_pipe
    (FsoPipe (if size f =? 0 then pq_readers (fpipe f) else [])
      (if size f <? PIPE_BUF then [] else pq_writers (fpipe f))
      (write_p (fpipe f)) (read_p (fpipe f)) (pbuf (fpipe f))) f).

(** No reader waits for bytes that are there, and no writer for room that is there. *)
Definition awake (f : fso) : Prop :=
  (pq_readers (fpipe f) <> [] -> size f = 0) /\ (pq_writers (fpipe f) <> [] -> size f = PIPE_BUF).

Lemma woken_ring f : ring_ok f -> ring_ok (woken f).
Proof. by intros [? ? ? ?]. Qed.
Lemma woken_contents f : contents (woken f) = contents f.
Proof. done. Qed.
Lemma woken_awake f : 0 <= size f <= PIPE_BUF -> awake (woken f).
Proof.
  intros Hs. split; cbn.
  - destruct (Z.eqb_spec (size f) 0); done.
  - destruct (Z.ltb_spec (size f) PIPE_BUF); [done|]. intros _. lia.
Qed.

Section ok.
Context {S : Type} `{FsLow S}.
Implicit Types (k : kern S) (f : fso).

(** [k'] differs from [k] at most in object [i] and in the tasks resumed and the
    poll queue. *)
Definition only_fso (i : nat) k f' k' : Prop :=
  k_fso k' = <[i := f']> (k_fso k) /\ k_curr k' = k_curr k /\ k_fs k' = k_fs k /\ k_blk k' = k_blk k /\
  k_signals k' = k_signals k.

Lemma get_fso_run i f k : k_fso k !! i = Some f -> get_fso i k = Ret f k.
Proof. intros Hf. unfold get_fso, bind. cbn. by rewrite Hf. Qed.
Lemma upd_fso_run i f h k : k_fso k !! i = Some f -> upd_fso i h k = Ret tt (with_fso (<[i := h f]> (k_fso k)) k).
Proof. intros Hf. unfold upd_fso. by rewrite (bind_run _ _ _ _ _ (get_fso_run i f k Hf)). Qed.

Lemma resume_all_run l k : resume_all l k = Ret tt (with_poll (k_pollq k) (k_resumed k ++ l) k).
Proof.
  revert k. induction l as [|t l IH]; intros k; cbn [resume_all]; [rewrite app_nil_r; by destruct k|].
  unfold task_resume. rewrite modify_bind, IH. cbn. by rewrite <- app_assoc.
Qed.

Lemma fs_state_run i f st k :
  k_fso k !! i = Some f -> exists k', fs_state i st k = Ret tt k' /\ only_fso i k (set_state st f) k'.
Proof.
  intros Hf. unfold fs_state. rewrite (bind_run _ _ _ _ _ (get_fso_run i f k Hf)). destruct (Z.eqb_spec (state f) st) as [<-|Hne].
  - exists k. split; [done|]. split; [|done]. symmetry. apply insert_id. rewrite Hf. by destruct f.
  - rewrite (bind_run _ _ _ _ _ (upd_fso_run i f _ k Hf)). destruct (polling f) as [t|]; [by eexists|].
    destruct (negb (pollcnt f =? 0)); by eexists.
Qed.

Lemma only_fso_trans i k f1 k1 f2 k2 : only_fso i k f1 k1 -> only_fso i k1 f2 k2 -> only_fso i k f2 k2.
Proof.
  intros (A1 & A2 & A3 & A4 & A5) (B1 & B2 & B3 & B4 & B5). split; [by rewrite B1, A1, insert_insert_eq|].
  by rewrite B2, B3, B4, B5.
Qed.
Lemma only_fso_upd i f h k : k_fso k !! i = Some f -> only_fso i k (h f) (with_fso (<[i := h f]> (k_fso k)) k).
Proof. done. Qed.
Lemma only_fso_lookup i k f k' : only_fso i k f k' -> k_fso k' !! i = Some f.
Proof. intros (-> & _). apply lookup_insert_eq. Qed.

(** The queue emptied and its tasks resumed, or nothing. *)
Lemma wake_run (b : bool) i f h l k :
  k_fso k !! i = Some f ->
  exists k', (if b then upd_pipe i h;;; resume_all l else ret tt) k = Ret tt k' /\
    only_fso i k (if b then set_pipe (h (fpipe f)) f else f) k'.
Proof.
  intros Hf. destruct b.
  - unfold upd_pipe. rewrite (bind_run _ _ _ _ _ (upd_fso_run i f _ k Hf)), resume_all_run. by eexists.
  - exists k. split; [done|]. split; [|done]. symmetry. by apply insert_id.
Qed.

Lemma poll_state_read f : Z.land (poll_state f) R_OK =? 0 = (size f =? 0).
Proof. unfold poll_state, R_OK, W_OK. by destruct (size f <? PIPE_BUF), (size f =? 0). Qed.
Lemma poll_state_write f : Z.land (poll_state f) W_OK =? 0 = negb (size f <? PIPE_BUF).
Proof. unfold poll_state, R_OK, W_OK. by destruct (size f <? PIPE_BUF), (size f =? 0). Qed.

Lemma pipe_ustate_run i f k :
  k_fso k !! i = Some f -> exists k', pipe_ustate i k = Ret tt k' /\ only_fso i k (woken f) k'.
Proof.
  intros Hf. unfold pipe_ustate. rewrite (bind_run _ _ _ _ _ (get_fso_run i f k Hf)). fold (poll_state f). cbv zeta.
  destruct (fs_state_run i f (poll_state f) k Hf) as (k1 & E1 & O1). rewrite (bind_run _ _ _ _ _ E1).
  pose proof (only_fso_lookup _ _ _ _ O1) as Hf1. rewrite (bind_run _ _ _ _ _ (get_fso_run _ _ _ Hf1)).
  rewrite poll_state_read, poll_state_write, negb_involutive.
  destruct (wake_run (negb (size f =? 0)) i (set_state (poll_state f) f) (set_readers []) (pq_readers (fpipe f)) k1 Hf1) as (k2 & E2 & O2).
  rewrite (bind_run _ _ _ _ _ E2). pose proof (only_fso_lookup _ _ _ _ O2) as Hf2.
  destruct (wake_run (size f <? PIPE_BUF) i _ (set_writers []) (pq_writers (fpipe f)) k2 Hf2) as (k3 & E3 & O3).
  exists k3. split; [exact E3|]. pose proof (only_fso_trans _ _ _ _ _ _ (only_fso_trans _ _ _ _ _ _ O1 O2) O3) as O.
  enough (woken f = _) as -> by exact O. unfold woken. by destruct f as [? ? ? ? ? ? ? ? ? ? ? ? ? sz ? ? ? ? ? ? ? []]; cbn;
    destruct (sz =? 0), (sz <? PIPE_BUF).
Qed.

(** ** Reading *)

(** A reader of a pipe that is not empty takes what it asked for, or all there is. *)
Lemma pipe_read_run i f count nd k :
  k_fso k !! i = Some f -> ring_ok f -> size f <> 0 -> 0 <= count ->
  exists k' f', pipe_read i count nd k = Ret (Done (take (Z.to_nat count) (contents f))) k' /\ only_fso i k f' k' /\
    contents f' = drop (Z.to_nat count) (contents f) /\ ring_ok f' /\ awake f'.
Proof.
  intros Hf [Hs Hr Hw Hb] Hne Hc. unfold pipe_read. rewrite (bind_run _ _ _ _ _ (get_fso_run i f k Hf)).
  rewrite (proj2 (Z.eqb_neq _ _) Hne). cbv zeta. set (cnt := if size f <? count then size f else count).
  assert (0 <= cnt <= size f /\ (cnt = count \/ cnt = size f /\ size f < count)) as [Hcnt Ecnt].
  { unfold cnt. destruct (Z.ltb_spec (size f) count); lia. }
  rewrite (bind_run _ _ _ _ _ (upd_fso_run i f _ k Hf)). set (f1 := set_size _ _).
  destruct (pipe_ustate_run i f1 (with_fso (<[i := f1]> (k_fso k)) k)) as (k2 & E2 & O2); [apply lookup_insert_eq|].
  rewrite (bind_run _ _ _ _ _ E2). exists k2, (woken f1). unfold ret.
  destruct (ring_read (pbuf (fpipe f)) (read_p (fpipe f)) (size f) cnt Hr Hcnt (proj2 Hs) Hb) as [Ht Hd].
  pose proof (length_ring (pbuf (fpipe f)) (read_p (fpipe f)) (size f) (proj1 Hs)) as Hl.
  split; [|split; [|split; [|split]]].
  - do 2 f_equal. rewrite Ht. unfold contents. destruct Ecnt as [->|[-> Hlt]]; [done|]. rewrite !take_ge by lia. done.
  - eapply only_fso_trans; [apply only_fso_upd, Hf|exact O2].
  - rewrite woken_contents. unfold contents. cbn. rewrite Hd. destruct Ecnt as [->|[-> Hlt]]; [done|]. rewrite !drop_ge by lia. done.
  - apply woken_ring. split; cbn; [lia|apply Z.mod_pos_bound; done| |done].
    rewrite Hw, Zplus_mod_idemp_l. f_equal. lia.
  - apply woken_awake. cbn. lia.
Qed.

(** ** Writing *)

Lemma pipe_put_run i f buf k :
  k_fso k !! i = Some f -> ring_ok f ->
  exists k' f', let n := Z.to_nat (Z.min (Z.of_nat (length buf)) (PIPE_BUF - size f)) in
    pipe_put i buf k = Ret (drop n buf) k' /\ only_fso i k f' k' /\
    contents f' = contents f ++ take n buf /\ ring_ok f' /\ size f' = size f + Z.of_nat n /\
    pq_readers (fpipe f') = pq_readers (fpipe f) /\ pq_writers (fpipe f') = pq_writers (fpipe f).
Proof.
  intros Hf [Hs Hr Hw Hb]. unfold pipe_put. rewrite (bind_run _ _ _ _ _ (get_fso_run i f k Hf)). cbv zeta.
  set (n := Z.min (Z.of_nat (length buf)) (PIPE_BUF - size f)).
  replace (if PIPE_BUF <? (if PIPE_BUF <? Z.of_nat (length buf) then PIPE_BUF else Z.of_nat (length buf)) + size f
     then PIPE_BUF - size f else if PIPE_BUF <? Z.of_nat (length buf) then PIPE_BUF else Z.of_nat (length buf)) with n.
  2: { unfold n. destruct (Z.ltb_spec PIPE_BUF (Z.of_nat (length buf)));
    match goal with |- context [PIPE_BUF <? ?x + size f] => destruct (Z.ltb_spec PIPE_BUF (x + size f)) end; lia. }
  assert (0 <= n <= Z.of_nat (length buf) /\ size f + n <= PIPE_BUF) as [Hn Hfit] by (unfold n; lia).
  rewrite Hw. destruct (ring_write (pbuf (fpipe f)) (read_p (fpipe f)) (size f) n buf Hr (proj1 Hs) Hn Hfit Hb) as [Hlen Hc].
  cbv zeta in Hlen, Hc. rewrite (bind_run _ _ _ _ _ (upd_fso_run i f _ k Hf)). eexists _, _. split; [done|].
  split; [by split|]. cbn. unfold contents. cbn. split; [exact Hc|]. split; [|split; [lia|done]].
  split; cbn; [lia|done| |by rewrite Hlen]. rewrite Zplus_mod_idemp_l. f_equal. lia.
Qed.

(** The bytes of [buf] that fit. *)
Definition fitting f (buf : list Z) : nat := Z.to_nat (Z.min (Z.of_nat (length buf)) (PIPE_BUF - size f)).

(** [f'] is the pipe [f] up to its queues and poll state. *)
Definition same_ring f f' : Prop := size f' = size f /\ contents f' = contents f /\ (ring_ok f -> ring_ok f').

(** A writer that finds the pipe full: it returns when it does not want to wait,
    is interrupted, or waits with all readers resumed. *)
Lemma pipe_full_run i f buf nd fuel k :
  k_fso k !! i = Some f -> ring_ok f -> PIPE_BUF <= size f -> buf <> [] ->
  match pipe_write_loop (Datatypes.S fuel) i buf nd k with
  | Ret (rest, Done _) k' => rest = buf /\ nd = true /\ k' = k
  | Ret (rest, Wait) k' => rest = buf /\ nd = false /\ exists f', k_fso k' !! i = Some f' /\ same_ring f f' /\ awake f' /\
      slot (k_curr k) ∈ pq_writers (fpipe f')
  | Err e k' => e = EINTR /\ nd = false /\ exists f', k_fso k' !! i = Some f' /\ same_ring f f'
  | Halt _ => False
  end.
Proof.
  intros Hf Hok Hfull Hb. destruct buf as [|x buf]; [done|]. cbn [pipe_write_loop].
  rewrite (bind_run _ _ _ _ _ (get_fso_run i f k Hf)), (proj2 (Z.leb_le _ _) Hfull). destruct nd; [done|].
  rewrite gets_bind. destruct (signal_pending (k_curr k)) eqn:Es; [by split; [done|split; [done|exists f]]|].
  destruct (pipe_ustate_run i f k Hf) as (k1 & E1 & O1). rewrite (bind_run _ _ _ _ _ E1).
  pose proof (only_fso_lookup _ _ _ _ O1) as Hf1. unfold bind at 1, task_suspend. rewrite gets_bind.
  destruct ((signal_pending (k_curr k1) || unseen_events (k_curr k1)) && negb (stopped (k_curr k1))).
  { rewrite modify_bind. cbn. split; [done|]. split; [done|]. exists (woken f). split; [done|]. split; [done|]. split; [done|apply woken_ring]. }
  unfold upd_pipe. rewrite (bind_run _ _ _ _ _ (upd_fso_run i (woken f) _ k1 Hf1)). cbn [ret]. split; [done|]. split; [done|].
  eexists. split; [apply lookup_insert_eq|]. split; [split; [done|split; [done|by intros [? ? ? ?]]]|].
  destruct O1 as (_ & <- & _). split; [|cbn; set_solver]. split; cbn; [|intros _; pose proof (rg_size f Hok); lia].
  destruct (Z.eqb_spec (size f) 0); done.
Qed.

(** The outcome of a write of [buf] to the pipe [f]: the bytes that fit are in the
    pipe, in every case; the writer is done, or it waits with the rest, or it gives
    up on the rest. *)
Definition write_result i f (buf : list Z) nd k (r : outcome (kern S) (list Z * progress unit)) : Prop :=
  let n := fitting f buf in
  match r with
  | Ret (rest, p) k' => rest = drop n buf /\ exists f', k_fso k' !! i = Some f' /\
      contents f' = contents f ++ take n buf /\ ring_ok f' /\
      (rest = [] -> p = Done tt /\ awake f') /\
      (rest <> [] -> match p with
                    | Done _ => nd = true
                    | Wait => nd = false /\ awake f' /\ slot (k_curr k) ∈ pq_writers (fpipe f')
                    end)
  | Err e k' => e = EINTR /\ nd = false /\ (n < length buf)%nat /\ exists f', k_fso k' !! i = Some f' /\
      contents f' = contents f ++ take n buf /\ ring_ok f'
  | Halt _ => False
  end.

Lemma write_full_result i f f0 buf rest nd fuel k k0 :
  k_fso k !! i = Some f -> ring_ok f -> PIPE_BUF <= size f -> k_curr k = k_curr k0 ->
  rest = drop (fitting f0 buf) buf -> rest <> [] -> contents f = contents f0 ++ take (fitting f0 buf) buf ->
  write_result i f0 buf nd k0 (pipe_write_loop (Datatypes.S fuel) i rest nd k).
Proof.
  intros Hf Hok Hfull Hcur Hr Hne Hc. pose proof (pipe_full_run i f rest nd fuel k Hf Hok Hfull Hne) as R.
  assert (fitting f0 buf < length buf)%nat as Hlt.
  { destruct (decide (fitting f0 buf < length buf)%nat) as [|Hge]; [done|]. rewrite Hr, drop_ge in Hne by lia. done. }
  unfold write_result. destruct (pipe_write_loop _ i rest nd k) as [[r p] k'|e k'|]; [| |done].
  - destruct p.
    + destruct R as (-> & -> & ->). split; [done|]. by exists f.
    + destruct R as (-> & -> & f' & Hf' & (_ & E1 & E2) & Ha & Hq). split; [done|]. exists f'. rewrite E1, <- Hcur.
      split_and!; try done. by apply E2.
  - destruct R as (-> & -> & f' & Hf' & (_ & E1 & E2)). split_and!; try done. exists f'. rewrite E1. split_and!; try done. by apply E2.
Qed.

Lemma pipe_write_on_run i f buf nd k :
  k_fso k !! i = Some f -> ring_ok f -> write_result i f buf nd k (pipe_write_on i buf nd k).
Proof.
  intros Hf Hok. pose proof (rg_size f Hok) as Hs. unfold pipe_write_on.
  assert (forall f1 k1 fuel, k_fso k1 !! i = Some f1 -> ring_ok f1 -> drop (fitting f buf) buf = [] ->
    contents f1 = contents f ++ take (fitting f buf) buf ->
    write_result i f buf nd k (pipe_write_loop fuel i [] nd k1)) as Hend.
  { intros f1 k1 fuel Hf1 Hok1 Hd Hc1. unfold write_result.
    destruct (pipe_ustate_run i f1 k1 Hf1) as (k2 & E2 & O2).
    assert (pipe_write_loop fuel i [] nd k1 = Ret ([], Done tt) k2) as -> by (destruct fuel; cbn; by rewrite (bind_run _ _ _ _ _ E2)).
    split; [done|]. exists (woken f1). split; [by eapply only_fso_lookup|]. split; [done|]. split; [by apply woken_ring|].
    split; [|done]. split; [done|]. apply woken_awake, Hok1. }
  destruct (decide (buf = [])) as [->|Hb]; [apply (Hend f); rewrite ?drop_nil, ?take_nil, ?app_nil_r; done|].
  destruct (Z.leb_spec PIPE_BUF (size f)) as [Hfull|Hroom].
  { assert (fitting f buf = 0%nat) as Ez by (unfold fitting; lia).
    apply (write_full_result i f); rewrite ?Ez, ?drop_0, ?take_0, ?app_nil_r; done. }
  destruct buf as [|x b]; [done|]. set (buf := x :: b) in *. change (length buf) with (Datatypes.S (length b)). unfold buf at 2. cbn [pipe_write_loop].
  fold buf. rewrite (bind_run _ _ _ _ _ (get_fso_run i f k Hf)), (proj2 (Z.leb_gt _ _) Hroom).
  destruct (pipe_put_run i f buf k Hf Hok) as (k1 & f1 & E1 & O1 & C1 & R1 & S1 & _). fold (fitting f buf) in E1, C1, S1.
  rewrite (bind_run _ _ _ _ _ E1). pose proof (only_fso_lookup _ _ _ _ O1) as Hf1.
  change (write_result i f buf nd k (pipe_write_loop (Datatypes.S (length b)) i (drop (fitting f buf) buf) nd k1)).
  destruct (decide (drop (fitting f buf) buf = [])) as [Hd|Hd]; [rewrite Hd; by apply (Hend f1)|].
  apply (write_full_result i f1); [done|done| |by destruct O1 as (_ & -> & _)|done|done|done].
  rewrite S1. unfold fitting in *. destruct (Z.le_ge_cases (Z.of_nat (length buf)) (PIPE_BUF - size f)); [|lia].
  rewrite drop_ge in Hd by lia. done.
Qed.

(** * Any interleaving *)

(** What a step does to the stream of bytes. *)
Inductive action := In (w : list Z) | Out (r : list Z) | Quiet.

(** The steps of the readers and writers of pipe [i], each up to the next point
    where it waits, and any step of the rest of the system that leaves the ring
    alone: opens, closes, signals, task switches, polls. *)
Inductive pipe_step (i : nat) k : action -> kern S -> Prop :=
| ps_read count nd r k' : 0 <= count -> pipe_read i count nd k = Ret (Done r) k' -> pipe_step i k (Out r) k'
| ps_read_wait count nd k' : 0 <= count -> pipe_read i count nd k = Ret Wait k' -> pipe_step i k Quiet k'
| ps_read_err count nd e k' : 0 <= count -> pipe_read i count nd k = Err e k' -> pipe_step i k Quiet k'
| ps_write buf nd f r k' : k_fso k !! i = Some f -> pipe_write_on i buf nd k = Ret r k' ->
    pipe_step i k (In (take (fitting f buf) buf)) k'
| ps_write_err buf nd f e k' : k_fso k !! i = Some f -> pipe_write_on i buf nd k = Err e k' ->
    pipe_step i k (In (take (fitting f buf) buf)) k'
| ps_other f f' k' : k_fso k !! i = Some f -> k_fso k' !! i = Some f' -> same_ring f f' -> pipe_step i k Quiet k'.

Inductive pipe_run (i : nat) k : list action -> kern S -> Prop :=
| pr_nil : pipe_run i k [] k
| pr_step a k1 l k2 : pipe_step i k a k1 -> pipe_run i k1 l k2 -> pipe_run i k (a :: l) k2.

Definition ins (l : list action) : list Z := l ≫= (fun a => match a with In w => w | _ => [] end).
Definition outs (l : list action) : list Z := l ≫= (fun a => match a with Out r => r | _ => [] end).

Lemma pipe_read_empty i f count nd k :
  k_fso k !! i = Some f -> ring_ok f -> size f = 0 ->
  match pipe_read i count nd k with
  | Ret (Done r) k' => r = [] /\ k' = k /\ (writer_count f = 0 \/ nd = true)
  | Ret Wait k' => exists f', k_fso k' !! i = Some f' /\ same_ring f f' /\ slot (k_curr k) ∈ pq_readers (fpipe f')
  | Err e k' => e = EINTR /\ exists f', k_fso k' !! i = Some f' /\ same_ring f f'
  | Halt _ => False
  end.
Proof.
  intros Hf Hok Hz. unfold pipe_read. rewrite (bind_run _ _ _ _ _ (get_fso_run i f k Hf)), Hz. cbn [Z.eqb].
  destruct (Z.eqb_spec (writer_count f) 0) as [Hw|Hw]; cbn [orb]; [by split; [done|split; [done|left]]|]. destruct nd; [by split; [done|split; [done|right]]|].
  rewrite gets_bind. destruct (signal_pending (k_curr k)); [by split; [done|exists f]|].
  unfold task_suspend. rewrite gets_bind.
  destruct ((signal_pending (k_curr k) || unseen_events (k_curr k)) && negb (stopped (k_curr k))).
  { rewrite modify_bind. cbn. split; [done|]. by exists f. }
  unfold upd_pipe. rewrite (bind_run _ _ _ _ _ (upd_fso_run i f _ k Hf)). cbn [ret].
  eexists. split; [apply lookup_insert_eq|]. split; [split; [done|split; [done|by intros [? ? ? ?]]]|]. cbn. set_solver.
Qed.

Lemma contents_empty f : size f = 0 -> contents f = [].
Proof. intros Hz. unfold contents. by rewrite Hz. Qed.

Lemma pipe_step_stream i f k a k' :
  k_fso k !! i = Some f -> ring_ok f -> pipe_step i k a k' ->
  exists f', k_fso k' !! i = Some f' /\ ring_ok f' /\ contents f ++ ins [a] = outs [a] ++ contents f'.
Proof.
  intros Hf Hok Hs. unfold ins, outs. destruct Hs as [count nd r k' Hc E|count nd k' Hc E|count nd e k' Hc E|buf nd f0 r k' Hf0 E|buf nd f0 e k' Hf0 E|f0 f' k' Hf0 Hf' Hr]; cbn; rewrite ?app_nil_r.
  1-3: destruct (Z.eq_dec (size f) 0) as [Hz|Hz];
    [pose proof (pipe_read_empty i f count nd k Hf Hok Hz) as R; rewrite E in R
    |destruct (pipe_read_run i f count nd k Hf Hok Hz Hc) as (k1 & f1 & E1 & O1 & C1 & R1 & _); rewrite E in E1; try done].
  - destruct R as (-> & -> & _). by exists f.
  - injection E1 as -> <-. exists f1. split; [by eapply only_fso_lookup|]. split; [done|]. rewrite C1. by rewrite take_drop.
  - destruct R as (f' & Hf' & (_ & E1 & E2) & _). exists f'. rewrite E1. auto.
  - destruct R as (_ & f' & Hf' & (_ & E1 & E2)). exists f'. rewrite E1. auto.
  - rewrite Hf in Hf0. injection Hf0 as <-. pose proof (pipe_write_on_run i f buf nd k Hf Hok) as R. rewrite E in R.
    destruct r as [rest p]. destruct R as (_ & f' & Hf' & C' & R' & _). by exists f'.
  - rewrite Hf in Hf0. injection Hf0 as <-. pose proof (pipe_write_on_run i f buf nd k Hf Hok) as R. rewrite E in R.
    destruct R as (_ & _ & _ & f' & Hf' & C' & R'). by exists f'.
  - rewrite Hf in Hf0. injection Hf0 as <-. destruct Hr as (_ & E1 & E2). exists f'. rewrite E1. auto.
Qed.

(** C24. A pipe is a queue: over any interleaving of its readers and writers, with
    waits, interruptions and calls that do not wait, the bytes read are the bytes
    that were in the pipe followed by the bytes written, in order, and what has
    not been read yet is in the pipe; the buffer never overflows. *)
Theorem pipe_fifo i f k l k' :
  k_fso k !! i = Some f -> ring_ok f -> pipe_run i k l k' ->
  exists f', k_fso k' !! i = Some f' /\ ring_ok f' /\ contents f ++ ins l = outs l ++ contents f'.
Proof.
  intros Hf Hok Hr. revert f Hf Hok. induction Hr as [k|k a k1 l k2 Hs _ IH]; intros f Hf Hok.
  { exists f. by rewrite app_nil_r. }
  destruct (pipe_step_stream i f k a k1 Hf Hok Hs) as (f1 & Hf1 & Hok1 & E1).
  destruct (IH f1 Hf1 Hok1) as (f2 & Hf2 & Hok2 & E2). exists f2. split; [done|]. split; [done|].
  unfold ins, outs in *. cbn in *. rewrite app_nil_r in E1. rewrite app_assoc, E1, <- !app_assoc. f_equal.
  exact E2.
Qed.

(** A write takes as many bytes as fit and never more: it is complete when
    all fit; otherwise the caller waits with the rest in the queue of writers,
    with every reader resumed, or, when it does not want to wait or is
    interrupted, it returns. *)
Theorem pipe_write_spec i f buf nd k :
  k_fso k !! i = Some f -> ring_ok f -> reader_count f <> 0 -> write_result i f buf nd k (pipe_write i buf nd k).
Proof.
  intros Hf Hok Hr. unfold pipe_write. rewrite (bind_run _ _ _ _ _ (get_fso_run i f k Hf)), (proj2 (Z.eqb_neq _ _) Hr).
  by apply pipe_write_on_run.
Qed.

(** A writer that does not wait loses wake-ups: when not all its bytes fit, it
    returns without updating the state of the pipe, and the readers that wait for
    bytes stay in their queue although the pipe is full. *)
Theorem pipe_nodelay_lost_wakeup i f buf k :
  k_fso k !! i = Some f -> ring_ok f -> size f = 0 -> reader_count f <> 0 -> pq_readers (fpipe f) <> [] ->
  PIPE_BUF < Z.of_nat (length buf) ->
  exists k' f', pipe_write i buf true k = Ret (drop (Z.to_nat PIPE_BUF) buf, Done tt) k' /\ k_fso k' !! i = Some f' /\
    size f' = PIPE_BUF /\ pq_readers (fpipe f') = pq_readers (fpipe f) /\ k_resumed k' = k_resumed k /\ ~ awake f'.
Proof.
  intros Hf Hok Hz Hr Hq Hl. unfold pipe_write. rewrite (bind_run _ _ _ _ _ (get_fso_run i f k Hf)), (proj2 (Z.eqb_neq _ _) Hr).
  unfold pipe_write_on. destruct buf as [|x b]; [cbn in Hl; unfold PIPE_BUF in Hl; lia|]. set (buf := x :: b) in *.
  change (length buf) with (Datatypes.S (length b)). unfold buf at 1. cbn [pipe_write_loop].
  fold buf. rewrite (bind_run _ _ _ _ _ (get_fso_run i f k Hf)), Hz. cbn [Z.leb PIPE_BUF Z.compare].
  destruct (pipe_put_run i f buf k Hf Hok) as (k1 & f1 & E1 & O1 & C1 & R1 & S1 & Q1 & _).
  rewrite Hz in E1, S1. replace (Z.min (Z.of_nat (length buf)) (PIPE_BUF - 0)) with PIPE_BUF in E1, S1 by lia.
  rewrite (bind_run _ _ _ _ _ E1). pose proof (only_fso_lookup _ _ _ _ O1) as Hf1.
  assert (drop (Z.to_nat PIPE_BUF) buf <> []) as Hd.
  { intros Hd. apply (f_equal length) in Hd. rewrite length_drop in Hd. change (length (@nil Z)) with 0%nat in Hd. assert (0 < PIPE_BUF) by done. lia. }
  assert (size f1 = PIPE_BUF) as Hs1 by (assert (0 < PIPE_BUF) by done; lia).
  exists k1, f1. split_and!; [|done|done|done| |].
  - change (pipe_write_loop (Datatypes.S (length b)) i (drop (Z.to_nat PIPE_BUF) buf) true k1 = Ret (drop (Z.to_nat PIPE_BUF) buf, Done tt) k1).
    pose proof (pipe_full_run i f1 _ true (length b) k1 Hf1 R1 ltac:(lia) Hd) as R.
    destruct (pipe_write_loop _ i _ true k1) as [[r []] k2|e k2|]; [|by destruct R as (_ & ? & _)|by destruct R as (_ & ? & _)|done].
    by destruct R as (-> & _ & ->); destruct a.
  - revert E1. unfold pipe_put. rewrite (bind_run _ _ _ _ _ (get_fso_run i f k Hf)). cbv zeta.
    rewrite (bind_run _ _ _ _ _ (upd_fso_run i f _ k Hf)). unfold ret. by intros [= _ <-].
  - intros [Ha _]. rewrite Q1 in Ha. specialize (Ha Hq). rewrite Hs1 in Ha. done.
Qed.
End ok.
