(* ===== verification/NatRw.v ===== *)
(** Reading and writing natfs files (kern/fs/nat/rw.c).

    The request's [buf] is the result of a read and an argument of a write; the
    comparisons of unsigned values with zero in the source never hold and are
    left out.  The loops advance by at least one byte, and by a whole block but
    in the first and the last round: [rw_fuel] rounds are enough. *)

From S2P Require Import Prelude BlockDev BlockIface Kern NatBam NatBmap Vfs.

Definition NAT_FILE_SIZE_MAX : Z := 0x7fffffff.
Definition rw_fuel (count : Z) : nat := Z.to_nat (count / BLK_SIZE + 2).

(** [l]: the part of a transfer of [count] bytes that falls in one block. *)
Definition rw_len (off count : Z) : Z :=
  let s := off mod BLK_SIZE in
  if BLK_SIZE - s <? count then BLK_SIZE - s else count.

Section ops.
Context {S : Type} `{BlockLayer S} `{FsLow S}.

Fixpoint read_loop (fuel : nat) (i : nat) (off count : Z) : M (kern S) (list Z) :=
  if count =? 0 then ret []
  else
    match fuel with
    | O => halted Undefined
    | Datatypes.S fuel' =>
      let s := off mod BLK_SIZE in
      let l := rw_len off count in
      nat_bmap i (u32 (off / BLK_SIZE)) false;;;
      g <~ get_fso i;;
      data <~ (if bmap_phys (fnat g) =? 0 then ret (zeros l)
               else d <~ get_dev (f_fs g);; blk (blk_pread d (bmap_phys (fnat g)) s l));;
      rest <~ read_loop fuel' i (u64 (off + l)) (count - l);;
      ret (data ++ rest)
    end.

Definition nat_read (i : nat) (off count : Z) : M (kern S) (list Z) :=
  c <~ gets k_curr;;
  fs_chk_perm i R_OK (euid c) (egid c);;;
  g <~ get_fso i;;
  if S_ISDIR (mode g) then fail EISDIR
  else if negb (S_ISREG (mode g)) then fail EINVAL
  else if size g <? off then ret []
  else
    let count := if size g <? u64 (off + count) then size g - off else count in
    f <~ get_fs (f_fs g);;
    t <~ gets k_time;;
    (if negb (read_only f) && negb (no_atime f) then upd_fso i (fun g => set_dirty true (set_atime t g))
     else ret tt);;;
    read_loop (rw_fuel count) i off count.

Fixpoint write_loop (fuel : nat) (i : nat) (off : Z) (buf : list Z) : M (kern S) unit :=
  let count := Z.of_nat (length buf) in
  if count =? 0 then ret tt
  else
    match fuel with
    | O => halted Undefined
    | Datatypes.S fuel' =>
      let s := off mod BLK_SIZE in
      let l := rw_len off count in
      nat_bmap i (u32 (off / BLK_SIZE)) true;;;
      g <~ get_fso i;;
      if bmap_phys (fnat g) =? 0 then panic "nat_write: !fso->nat.bmap_phys"
      else
        (if size g <? u64 (off + l)
         then upd_fso i (fun g => set_dirty true (set_size (u64 (off + l)) g))
         else ret tt);;;
        d <~ get_dev (f_fs g);;
        blk (blk_pwrite d (bmap_phys (fnat g)) s (take (Z.to_nat l) buf));;;
        write_loop fuel' i (u64 (off + l)) (drop (Z.to_nat l) buf)
    end.

Definition nat_write (i : nat) (off : Z) (buf : list Z) : M (kern S) unit :=
  let count := Z.of_nat (length buf) in
  c <~ gets k_curr;;
  fs_chk_perm i W_OK (euid c) (egid c);;;
  g <~ get_fso i;;
  if S_ISDIR (mode g) then fail EISDIR
  else if negb (S_ISREG (mode g)) then fail EINVAL
  else if NAT_FILE_SIZE_MAX <=? u64 (off + count) then fail EINVAL
  else
    t <~ gets k_time;;
    upd_fso i (fun g => set_dirty true (set_mtime t g));;;
    write_loop (rw_fuel count) i off buf.
End ops.
