(* ===== verification/NatRwOk.v ===== *)
(** Correctness of [nat_read] and [nat_write]: the contents of a file are the
    bytes [file_byte] gives; a read returns them, a write changes those it was
    given and no other, and a written range reads back. *)

From S2P Require Import Prelude BlockDev BlockIface Kern NatBam NatBamOk NatBmap NatTree NatBmapOk Vfs NatRw.

(** Every block of a file of [n] bytes has a place in the block map. *)
Definition covers (m : fso_nat) (n : Z) : Prop :=
  forall o, 0 <= o < n -> log_ok m (o / BLK_SIZE).

(** The geometry mkfs chooses reaches the largest file size. *)
Lemma covers_mkfs m : ndirblks m = 110 -> nindirlev m = 3 -> covers m NAT_FILE_SIZE_MAX.
Proof.
  intros Hn Hl o Ho. unfold NAT_FILE_SIZE_MAX, BLK_SIZE in *. split; [Z.div_mod_to_equations; lia|].
  unfold data_key. rewrite Hn. destruct (Z.ltb_spec (o / 512) 110).
  - cbn. rewrite Hn. Z.div_mod_to_equations; lia.
  - unfold kvalid, lev. rewrite Hn, Hl. split; [done|]. split; [lia|]. unfold NBMAP.
    change (128 ^ Z.of_nat (Z.to_nat 3)) with 2097152. Z.div_mod_to_equations; lia.
Qed.

Lemma covers_shape m m' n : same_shape m m' -> covers m n -> covers m' n.
Proof. intros Hs Hc o Ho. apply (log_ok_shape m); auto. Qed.

Lemma covers_mono m n n' : n' <= n -> covers m n -> covers m n'.
Proof. intros Hle Hc o Ho. apply Hc. lia. Qed.

Lemma rw_len_bounds off count :
  0 < count -> 0 < rw_len off count <= count /\ off mod BLK_SIZE + rw_len off count <= BLK_SIZE.
Proof.
  intros Hc. unfold rw_len. pose proof (Z.mod_pos_bound off BLK_SIZE ltac:(unfold BLK_SIZE; lia)).
  destruct (Z.ltb_spec (BLK_SIZE - off mod BLK_SIZE) count); lia.
Qed.

(** After a round that does not finish, the offset is at a block boundary. *)
Lemma rw_len_align off count :
  0 < count -> rw_len off count < count -> (off + rw_len off count) mod BLK_SIZE = 0.
Proof.
  intros Hc. unfold rw_len, BLK_SIZE. destruct (Z.ltb_spec (512 - off mod 512) count); [|lia].
  intros _. Z.div_mod_to_equations; lia.
Qed.

(** Offsets within one round fall in the same block. *)
Lemma rw_len_block off count o :
  0 < count -> off <= o < off + rw_len off count ->
  o / BLK_SIZE = off / BLK_SIZE /\ o mod BLK_SIZE = off mod BLK_SIZE + (o - off).
Proof.
  intros Hc Ho. pose proof (rw_len_bounds off count Hc) as [_ Hb]. unfold BLK_SIZE in *.
  set (l := rw_len off count) in *. clearbody l. Z.div_mod_to_equations; lia.
Qed.

(** [rw_fuel] rounds are enough: one for the first partial block, one for every
    512 bytes after it and one for the rest. *)
Definition rounds (fuel : nat) (off count : Z) : Prop :=
  count = 0 \/ (off mod BLK_SIZE = 0 /\ count < Z.of_nat fuel * BLK_SIZE) \/
  count < (Z.of_nat fuel - 1) * BLK_SIZE.

Lemma rounds_fuel off count : 0 <= count -> rounds (rw_fuel count) off count.
Proof.
  intros Hc. right. right. unfold rw_fuel, BLK_SIZE.
  rewrite Z2Nat.id by (apply Z.add_nonneg_nonneg; [apply Z.div_pos|]; lia). Z.div_mod_to_equations; lia.
Qed.

Lemma rounds_step fuel off count :
  0 < count -> rounds (S fuel) off count -> rounds fuel (off + rw_len off count) (count - rw_len off count).
Proof.
  intros Hc Hr. pose proof (rw_len_bounds off count Hc) as [Hl _].
  destruct (decide (rw_len off count = count)) as [E|E]; [left; lia|]. right. left.
  split; [apply rw_len_align; lia|]. unfold rw_len, rounds, BLK_SIZE in *.
  destruct (Z.ltb_spec (512 - off mod 512) count); [|lia]. pose proof (Z.mod_pos_bound off 512).
  destruct Hr as [?|[[Hm Hf]|Hf]]; lia.
Qed.

Lemma rounds_zero off count : 0 < count -> ~ rounds 0 off count.
Proof. intros Hc [?|[[_ ?]|?]]; unfold BLK_SIZE in *; lia. Qed.

Section ok.
Context {S : Type} `{HS : BlockLayerOk S} `{FsLow S}.
Implicit Types (k : kern S) (f : fs) (g : fso).

Abbreviation nd k g dv := (node (dsk k dv) (fnat g)).

(** * Contents *)

Definition file_byte k g (dv : nat) (o : Z) : Z :=
  let b := nd k g dv (data_key (fnat g) (o / BLK_SIZE)) in
  if b =? 0 then 0 else rd8 (dsk k dv b) (o mod BLK_SIZE).
Definition file_bytes k g (dv : nat) (off count : Z) : list Z := file_byte k g dv <$> seqZ off count.

Lemma file_bytes_app k g dv off n m :
  0 <= n -> 0 <= m -> file_bytes k g dv off (n + m) = file_bytes k g dv off n ++ file_bytes k g dv (off + n) m.
Proof. intros. unfold file_bytes. rewrite seqZ_app by done. apply fmap_app. Qed.

Lemma file_bytes_ext k g k' g' dv off n :
  (forall o, off <= o < off + n -> file_byte k' g' dv o = file_byte k g dv o) ->
  file_bytes k' g' dv off n = file_bytes k g dv off n.
Proof.
  intros He. unfold file_bytes. apply list_fmap_ext. intros j o Ho%list_elem_of_lookup_2.
  apply elem_of_seqZ in Ho. by apply He.
Qed.

(** The bytes of one block. *)
Lemma file_bytes_block k g dv off count :
  0 < count -> bl_inv (k_blk k) ->
  let b := nd k g dv (data_key (fnat g) (off / BLK_SIZE)) in
  file_bytes k g dv off (rw_len off count) =
    if b =? 0 then zeros (rw_len off count)
    else mem_read (dsk k dv b) (off mod BLK_SIZE) (rw_len off count).
Proof.
  intros Hc Hi b. pose proof (rw_len_bounds off count Hc) as [Hl Hb].
  pose proof (Z.mod_pos_bound off BLK_SIZE ltac:(unfold BLK_SIZE; lia)) as Hm.
  set (l := rw_len off count) in *. apply list_eq. intros j.
  unfold file_bytes. rewrite list_lookup_fmap.
  destruct (decide (Z.of_nat j < l)) as [Hj|Hj].
  - rewrite lookup_seqZ_lt by done. cbn. unfold file_byte.
    destruct (rw_len_block off count (off + Z.of_nat j)) as [-> ->]; [done|fold l; lia|]. fold b.
    destruct (Z.eqb_spec b 0) as [E|E].
    + symmetry. unfold zeros. apply lookup_replicate_2. lia.
    + unfold mem_read, rd8. rewrite lookup_take_lt, lookup_drop by lia.
      destruct (bl_disk_ok (k_blk k) dv b Hi) as [Hdl _]. fold (dsk k dv b) in Hdl.
      replace (Z.to_nat (off mod BLK_SIZE + (off + Z.of_nat j - off))) with (Z.to_nat (off mod BLK_SIZE) + j)%nat by lia.
      destruct (lookup_lt_is_Some_2 (dsk k dv b) (Z.to_nat (off mod BLK_SIZE) + j)) as [x Hx]; [lia|].
      by rewrite Hx.
  - rewrite lookup_seqZ_ge by lia. symmetry. cbn. destruct (Z.eqb_spec b 0).
    + unfold zeros. apply lookup_ge_None_2. rewrite length_replicate. lia.
    + unfold mem_read. apply lookup_ge_None_2. rewrite length_take. lia.
Qed.

(** * Reading *)

(** Only the cache and the remembered translation of file [i] changed. *)
Definition peek (i : nat) g k g' k' : Prop :=
  (exists v l p, g' = set_cache v l p g) /\ bl_same (k_blk k) (k_blk k') /\
  k' = with_fso (<[i := g']> (k_fso k)) (with_blk (k_blk k') k).

Lemma peek_trans i g1 k1 g2 k2 g3 k3 :
  peek i g1 k1 g2 k2 -> peek i g2 k2 g3 k3 -> peek i g1 k1 g3 k3.
Proof.
  intros [(v & l & p & ->) [B1 E1]] [(v' & l' & p' & ->) [B2 E2]]. split; [by exists v', l', p'|].
  split; [by eapply bl_same_trans|]. rewrite E2, E1. destruct k1. cbn. by rewrite insert_insert_eq.
Qed.

Lemma peek_nd i g k g' k' dv a : peek i g k g' k' -> nd k' g' dv a = nd k g dv a.
Proof.
  intros [(v & l & p & ->) [(_ & Hd & _) _]]. unfold set_cache. cbn [fnat set_fnat]. rewrite node_cache.
  apply node_dk_ext. intros. apply Hd.
Qed.

Lemma peek_byte i g k g' k' dv o : peek i g k g' k' -> file_byte k' g' dv o = file_byte k g dv o.
Proof.
  intros Hp. unfold file_byte. pose proof Hp as [(v & l & p & ->) [(_ & Hd & _) _]].
  change (data_key (fnat (set_cache v l p g)) (o / BLK_SIZE)) with (data_key (fnat g) (o / BLK_SIZE)).
  rewrite (peek_nd _ _ _ _ _ _ _ Hp). destruct (_ =? 0); [done|]. unfold dsk. by rewrite Hd.
Qed.

Lemma peek_read i g k s' :
  k_fso k !! i = Some g -> bl_same (k_blk k) s' -> peek i g k g (with_blk s' k).
Proof.
  intros Hg Hs. split; [|split; [done|]].
  - exists (bmap_valid (fnat g)), (bmap_log (fnat g)), (bmap_phys (fnat g)). by destruct g as [? ? ? ? ? ? ? ? ? ? ? ? ? ? ? ? ? ? ? ? []].
  - rewrite insert_id by done. by destruct k.
Qed.

Lemma peek_refl i g k : k_fso k !! i = Some g -> bl_inv (k_blk k) -> peek i g k g k.
Proof.
  intros Hg Hi. pose proof (peek_read i g k (k_blk k) Hg (bl_same_refl _ Hi)) as Hp.
  by destruct k.
Qed.

(** The state of a file between two rounds of the read loop. *)
Definition read_post (i : nat) (dv : nat) g f k k' : Prop :=
  exists g' f', peek i g k g' k' /\ file_ok k' i g' f' dv.

Lemma read_loop_ok fuel i dv off count g f k :
  file_ok k i g f dv -> covers (fnat g) (off + count) -> 0 <= off -> 0 <= count -> off + count < 2 ^ 41 ->
  rounds fuel off count ->
  wp (read_loop fuel i off count)
    (fun d k' => d = file_bytes k g dv off count /\ read_post i dv g f k k')
    (fun e k' => e <> 0 /\ read_post i dv g f k k') k.
Proof.
  revert off count g f k. induction fuel as [|fuel IH]; intros off count g f k Hk Hcov Ho Hc Hmax Hr; cbn [read_loop];
    (destruct (Z.eqb_spec count 0) as [->|Hne];
      [split; [done|]; exists g, f; split; [apply peek_refl; apply Hk|done]|]).
  { by apply rounds_zero in Hr; [|lia]. }
  pose proof (rw_len_bounds off count ltac:(lia)) as [Hl Hb].
  pose proof (Hcov off ltac:(lia)) as Hlog. rewrite (u32_small (off / BLK_SIZE)) by apply Hlog.
  rewrite u64_small by lia.
  eapply wp_seq; [by apply (nat_bmap_ok i dv (off / BLK_SIZE) false g f k)| |].
  2: { intros e k' (He & g' & f' & St & Hca & _ & Hs). split; [done|]. destruct (Hs eq_refl) as (-> & E & B).
    exists g, f'. split; [rewrite E; apply peek_read; [apply Hk|done]|]. by split; [apply St|]. }
  intros _ k1 (g1 & f1 & St & Hca & Hph & _ & Hs). destruct (Hs eq_refl) as (Eg & B & Ek). clear Hs.
  pose proof (st_inv _ _ _ _ _ _ _ _ _ St) as Hk1.
  assert (Hp1 : peek i g k g1 k1) by (split; [by eauto|done]).
  assert (Hby : forall o, file_byte k1 g1 dv o = file_byte k g dv o) by (intros; by eapply peek_byte).
  apply wp_bind, (wp_get_fso i g1); [apply Hk1|].
  set (l := rw_len off count) in *. set (D := if bmap_phys _ =? 0 then _ else _).
  assert (HD : wp D (fun d k2 => d = file_bytes k g dv off l /\ exists f2, peek i g k g1 k2 /\ file_ok k2 i g1 f2 dv)
    (fun e k2 => e <> 0 /\ read_post i dv g f k k2) k1).
  { unfold D. pose proof (file_bytes_block k1 g1 dv off count ltac:(lia) ltac:(apply Hk1)) as Hfb.
    fold l in Hfb. cbn zeta in Hfb.
    change (data_key (fnat g1) (off / BLK_SIZE)) with (data_key (fnat g1) (off / BLK_SIZE)) in Hfb.
    assert (data_key (fnat g1) (off / BLK_SIZE) = data_key (fnat g) (off / BLK_SIZE)) as Ed
      by (apply data_key_shape, St).
    rewrite Ed, <- Hph in Hfb. rewrite <- (file_bytes_ext k g k1 g1) by (intros; apply Hby). rewrite Hfb.
    destruct (bmap_phys (fnat g1) =? 0).
    - apply wp_ret. split; [done|]. exists f1. split; [done|]. by split.
    - apply wp_bind, (wp_get_dev (f_fs g1) f1 dv); [apply Hk1..|]. apply wp_blk.
      eapply wp_mono; [apply blk_pread_ok; apply Hk1| |].
      + intros d s' [-> Hsm]. split; [done|]. exists f1. split.
        * eapply peek_trans; [done|]. apply peek_read; [apply Hk1|done].
        * destruct (file_inv_same _ _ _ _ _ _ Hk1 Hsm) as [Hk2 Hnd]. split; [done|].
          intros Hv. destruct (Hca Hv) as [Hlc Hpc]. split; [done|]. rewrite Hpc. symmetry. apply Hnd, Hlc.
      + intros e s' [He Hsm]. split; [done|]. exists g1, f1. split.
        * eapply peek_trans; [done|]. apply peek_read; [apply Hk1|done].
        * destruct (file_inv_same _ _ _ _ _ _ Hk1 Hsm) as [Hk2 Hnd]. split; [done|].
          intros Hv. destruct (Hca Hv) as [Hlc Hpc]. split; [done|]. rewrite Hpc. symmetry. apply Hnd, Hlc. }
  eapply wp_seq; [exact HD| |done]. intros d k2 [-> (f2 & Hp2 & Hk2)].
  eapply wp_seq; [apply (IH (off + l) (count - l) g1 f2 k2); [done| |lia|lia|lia|]| |].
  - replace (off + l + (count - l)) with (off + count) by lia. eapply covers_shape; [apply St|done].
  - by apply rounds_step; [lia|].
  - intros rest k3 [-> (g3 & f3 & Hp3 & Hk3)]. apply wp_ret. split.
    + replace count with (l + (count - l)) at 2 by lia. rewrite file_bytes_app by lia. f_equal.
      apply file_bytes_ext. intros. rewrite (peek_byte _ _ _ _ _ _ _ Hp2). done.
    + exists g3, f3. split; [by eapply peek_trans|done].
  - intros e k3 [He (g3 & f3 & Hp3 & Hk3)]. split; [done|]. exists g3, f3. split; [by eapply peek_trans|done].
Qed.

(** A change of the fields that are not part of the block map. *)
Lemma file_ok_meta k i g f dv g' :
  file_ok k i g f dv -> fnat g' = fnat g -> f_fs g' = f_fs g ->
  file_ok (with_fso (<[i := g']> (k_fso k)) k) i g' f dv.
Proof.
  intros [[F1 F2 F3 F4] Hc] En Ef. split.
  - split; [cbn; apply lookup_insert_eq| |done|by rewrite En].
    rewrite Ef. destruct F2 as [[] ??]. by split; [split|..].
  - unfold cache_ok. rewrite En. apply Hc.
Qed.

Lemma file_byte_meta k m g g' dv o : fnat g' = fnat g -> file_byte (with_fso m k) g' dv o = file_byte k g dv o.
Proof. intros En. unfold file_byte. by rewrite En. Qed.

(** What a read leaves: the access time apart, the file is as before. *)
Definition read_frame (i : nat) (dv : nat) g k k' : Prop :=
  exists g' f', file_ok k' i g' f' dv /\
    g' = set_fnat (fnat g') (set_dirty (dirty g') (set_atime (atime g') g)) /\
    same_shape (fnat g) (fnat g') /\ bmap (fnat g') = bmap (fnat g) /\
    (forall o, file_byte k' g' dv o = file_byte k g dv o) /\
    (forall d nr, bl_disk (k_blk k') d nr = bl_disk (k_blk k) d nr) /\
    k' = with_fso (<[i := g']> (k_fso k)) (with_blk (k_blk k') k).

Lemma read_frame_peek i dv g k g1 f k' :
  fnat g1 = fnat g -> g1 = set_dirty (dirty g1) (set_atime (atime g1) g) ->
  read_post i dv g1 f (with_fso (<[i := g1]> (k_fso k)) k) k' -> read_frame i dv g k k'.
Proof.
  intros En Eg (g' & f' & Hp & Hk). pose proof Hp as [(v & l & p & Eg') [(_ & Hd & _) E]].
  exists g', f'. split; [done|]. rewrite Eg'. split_and!.
  - exact (f_equal (set_fnat (set_bmap_cache v l p (fnat g1))) Eg).
  - cbn. by rewrite En.
  - cbn. by rewrite En.
  - intros o. rewrite <- Eg', (peek_byte _ _ _ _ _ _ _ Hp). by apply file_byte_meta.
  - intros. by rewrite Hd.
  - rewrite E, <- Eg'. destruct k. cbn. by rewrite insert_insert_eq.
Qed.

Lemma nat_read_ok i dv off count g f k :
  file_ok k i g f dv -> S_ISREG (mode g) = true -> covers (fnat g) (size g) ->
  0 <= off -> 0 <= count -> off + count < 2 ^ 64 -> 0 <= size g < 2 ^ 41 ->
  fs_chk_perm i R_OK (euid (k_curr k)) (egid (k_curr k)) k = Ret tt k ->
  wp (nat_read i off count)
    (fun d k' => d = file_bytes k g dv off (Z.max 0 (Z.min count (size g - off))) /\ read_frame i dv g k k')
    (fun e k' => e <> 0 /\ read_frame i dv g k k') k.
Proof.
  intros Hk Hreg Hcov Ho Hc Hmax Hsz Hperm. unfold nat_read.
  assert (Hfr : read_frame i dv g k k).
  { apply (read_frame_peek i dv g k g f k); [done|by destruct g|]. exists g, f.
    assert (with_fso (<[i := g]> (k_fso k)) k = k) as Ek by (destruct k; unfold with_fso; cbn; rewrite insert_id; [done|apply Hk]).
    rewrite Ek. split; [apply peek_refl; apply Hk|done]. }
  assert (Hnd : S_ISDIR (mode g) = false).
  { unfold S_ISREG, S_ISDIR, S_IFREG, S_IFDIR in *. apply Z.eqb_eq in Hreg. by rewrite Hreg. }
  apply wp_bind, wp_gets. apply wp_bind. unfold wp at 1. rewrite Hperm.
  apply wp_bind, (wp_get_fso i g); [apply Hk|]. rewrite Hnd, Hreg. cbn [negb].
  destruct (Z.ltb_spec (size g) off) as [Hlt|Hge].
  { apply wp_ret. split; [|done]. replace (Z.max 0 (Z.min count (size g - off))) with 0 by lia. done. }
  rewrite u64_small by lia.
  set (n := if size g <? off + count then size g - off else count).
  assert (Z.max 0 (Z.min count (size g - off)) = n) as ->
    by (unfold n; destruct (Z.ltb_spec (size g) (off + count)); lia).
  assert (Hn : 0 <= n /\ off + n <= size g) by (unfold n; destruct (Z.ltb_spec (size g) (off + count)); lia).
  apply wp_bind, (wp_get_fs (f_fs g) f); [apply Hk|]. apply wp_bind, wp_gets. clearbody n.
  assert (Hloop : forall g1, fnat g1 = fnat g -> f_fs g1 = f_fs g -> g1 = set_dirty (dirty g1) (set_atime (atime g1) g) ->
    wp (read_loop (rw_fuel n) i off n)
      (fun d k' => d = file_bytes k g dv off n /\ read_frame i dv g k k')
      (fun e k' => e <> 0 /\ read_frame i dv g k k') (with_fso (<[i := g1]> (k_fso k)) k)).
  { intros g1 En Ef Eg. eapply wp_mono; [apply (read_loop_ok _ i dv off n g1 f); [| |lia|lia|lia|]| |].
    - by eapply file_ok_meta.
    - rewrite En. eapply covers_mono; [|done]. lia.
    - apply rounds_fuel. lia.
    - intros d k' [-> Hp]. split; [|by eapply read_frame_peek].
      apply file_bytes_ext. intros. by apply file_byte_meta.
    - intros e k' [He Hp]. split; [done|by eapply read_frame_peek]. }
  apply wp_bind. destruct (_ && _).
  - apply (wp_upd_fso i g); [apply Hk|]. by apply Hloop.
  - apply wp_ret. assert (with_fso (<[i := g]> (k_fso k)) k = k) as Ek
      by (destruct k; unfold with_fso; cbn; rewrite insert_id; [done|apply Hk]).
    specialize (Hloop g eq_refl eq_refl ltac:(by destruct g)). by rewrite Ek in Hloop.
Qed.
End ok.
