(* ===== verification/NatWriteOk.v ===== *)
(** Correctness of [nat_write]: the bytes written are the bytes of the file
    afterwards, every other byte of the file and every block that belongs to
    something else is as before. *)

From S2P Require Import Prelude BlockDev BlockIface Kern NatBam NatBamOk NatBmap NatTree NatBmapOk Vfs NatRw NatRwOk.

Section ok.
Context {S : Type} `{HS : BlockLayerOk S} `{FsLow S}.
Implicit Types (k : kern S) (f : fs) (g : fso).

Abbreviation nd k g dv := (node (dsk k dv) (fnat g)).

(** A block of the file, indirect blocks included. *)
Definition file_blk k g (dv : nat) (nr : Z) : Prop :=
  nr <> 0 /\ exists a, kvalid (fnat g) a /\ nd k g dv a = nr.

(** From [k] to [k'] file [i] was written: bytes outside [P], blocks in use that
    are not its own and all other state are the same; new blocks were free. *)
Record wstep (i : nat) (dv : nat) (P : Z -> Prop) g f k g' f' k' : Prop := WStep {
  ws_ok : file_ok k' i g' f' dv;
  ws_k : k' = with_fso (<[i := g']> (k_fso k)) (with_fs (<[f_fs g := f']> (k_fs k)) (with_blk (k_blk k') k));
  ws_g : g' = set_fnat (fnat g') (set_size (size g') (set_mtime (mtime g')
    (set_dirty (dirty g') (set_blocks (blocks g') g))));
  ws_f : f' = set_nat (nat_ f') f;
  ws_geom : geom (nat_ f') = geom (nat_ f);
  ws_range : forall d nr, bl_range (k_blk k) d nr -> bl_range (k_blk k') d nr;
  ws_dev : forall d, bl_dev (k_blk k) d -> bl_dev (k_blk k') d;
  ws_count : bl_count (k_blk k') = bl_count (k_blk k);
  ws_pins : bl_pins (k_blk k') = bl_pins (k_blk k);
  ws_shape : same_shape (fnat g) (fnat g');
  ws_byte : forall o, log_ok (fnat g) (o / BLK_SIZE) -> ~ P o -> file_byte k' g' dv o = file_byte k g dv o;
  ws_frame : forall d nr, d <> dv \/ ~ in_bam (nat_ f) nr /\ ~ fresh k f dv nr /\ ~ file_blk k g dv nr ->
    dsk k' d nr = dsk k d nr;
  ws_new : forall nr, file_blk k' g' dv nr -> file_blk k g dv nr \/ fresh k f dv nr;
  ws_keep : forall nr, file_blk k g dv nr -> file_blk k' g' dv nr;
  ws_node : forall a, kvalid (fnat g) a -> nd k g dv a <> 0 -> nd k' g' dv a = nd k g dv a;
  ws_used : forall x, mapped_blk f x -> is_used k f dv x = true -> is_used k' f' dv x = true;
  ws_leak : forall x, mapped_blk f x -> is_used k' f' dv x = true ->
    is_used k f dv x = true \/ file_blk k' g' dv x
}.

Lemma wstep_trans i dv P Q g1 f1 k1 g2 f2 k2 g3 f3 k3 :
  wstep i dv P g1 f1 k1 g2 f2 k2 -> wstep i dv Q g2 f2 k2 g3 f3 k3 ->
  wstep i dv (fun o => P o \/ Q o) g1 f1 k1 g3 f3 k3.
Proof.
  intros [O1 K1 G1 F1 M1 R1 D1 C1 P1 S1 B1 X1 N1 E1 T1 U1 L1] [O2 K2 G2 F2 M2 R2 D2 C2 P2 S2 B2 X2 N2 E2 T2 U2 L2].
  assert (Hm : forall x, mapped_blk f1 x -> mapped_blk f2 x) by (intros; by apply (mapped_geom _ _ _ M1)).
  assert (Hfr : forall nr, fresh k2 f2 dv nr -> fresh k1 f1 dv nr).
  { intros nr [Hx Hu]. apply (mapped_geom _ _ _ M1) in Hx. split; [done|]. apply not_true_is_false. intros Ht.
    rewrite U1 in Hu by done. done. }
  split; [done| | | |congruence|auto|auto|congruence|congruence| | | | |auto| |auto|].
  - eapply kern_trans; [exact K1|exact K2|by rewrite G1].
  - rewrite G2, G1. done.
  - rewrite F2, F1. done.
  - destruct S1, S2. split; congruence.
  - intros o Hl Hn. rewrite B2, B1 by (try (by apply (log_ok_shape (fnat g1))); tauto). done.
  - intros d nr Hd. rewrite X2, X1; [done|done|]. destruct Hd as [|(Hb & Hf & Hx)]; [by left|right].
    split; [by rewrite (geom_in_bam _ _ nr M1)|]. split; [by intros ?%Hfr|]. by intros [?|?]%N1.
  - intros nr [[?|?]%N1|?%Hfr]%N2; auto.
  - intros a Ha Hn. rewrite T2, T1; [done|done|done|by apply (kvalid_shape _ _ _ S1)|by rewrite T1].
  - intros x Hx Hu. destruct (L2 x (Hm x Hx) Hu) as [Hu2|]; [|by right].
    destruct (L1 x Hx Hu2) as [|]; [by left|right; auto].
Qed.

Lemma wstep_weaken i dv (P Q : Z -> Prop) g f k g' f' k' :
  (forall o, P o -> Q o) -> wstep i dv P g f k g' f' k' -> wstep i dv Q g f k g' f' k'.
Proof. intros Hpq []. split; try done. intros o Ho Hn. auto. Qed.

(** ** Filling in blocks *)

Lemma file_step_byte i dv log g f k g' f' k' o :
  file_inv k i g f dv -> file_step i dv log g f k g' f' k' ->
  log_ok (fnat g) (o / BLK_SIZE) -> file_byte k' g' dv o = file_byte k g dv o.
Proof.
  intros Hk St Hl. unfold file_byte. rewrite (data_key_shape _ _ _ (st_shape _ _ _ _ _ _ _ _ _ St)).
  destruct (Z.eqb_spec (nd k g dv (data_key (fnat g) (o / BLK_SIZE))) 0) as [E|E].
  - destruct (Z.eqb_spec (nd k' g' dv (data_key (fnat g) (o / BLK_SIZE))) 0) as [|E']; [done|].
    destruct (st_new _ _ _ _ _ _ _ _ _ St _ (proj2 Hl) E E') as [Hp _]. apply data_on_path in Hp. rewrite Hp in *.
    rewrite (st_zero _ _ _ _ _ _ _ _ _ St E E'). apply rd8_zeros.
  - destruct (data_blk_facts _ _ _ _ _ _ Hk Hl E) as [Ho Hx].
    rewrite (st_keep _ _ _ _ _ _ _ _ _ St) by (done || apply Hl). rewrite (proj2 (Z.eqb_neq _ _) E).
    rewrite (st_disk _ _ _ _ _ _ _ _ _ St); [done|]. right. split; [|split; [by apply own_not_fresh|done]].
    eapply not_in_bam; [apply Hk|by eapply own_data].
Qed.

Lemma index_file_blk k g dv nr : index_blk k g dv nr -> file_blk k g dv nr.
Proof. intros (Hn & a & Ha & _ & E). split; [done|]. by exists a. Qed.

Lemma wstep_grow i dv log g f k g' f' k' :
  file_inv k i g f dv -> file_step i dv log g f k g' f' k' -> cache_ok k' g' dv ->
  wstep i dv (fun _ => False) g f k g' f' k'.
Proof.
  intros Hk St Hc. pose proof (fun o => file_step_byte _ _ _ _ _ _ _ _ _ o Hk St) as Hby.
  destruct St as [I1 K1 G1 F1 M1 R1 D1 C1 P1 S1 E1 N1 X1 Z1 U1].
  split; [by split|done| |done..|by auto| | | |done| |].
  - rewrite G1. by destruct g.
  - intros d nr [?|(? & ? & Hx)]; apply X1; [by left|right]. split; [done|]. split; [done|]. by intros ?%index_file_blk.
  - intros nr (Hn & a & Ha & <-). apply (kvalid_shape _ _ _ S1) in Ha.
    destruct (decide (nd k g dv a = 0)) as [E|E]; [right; by apply N1|].
    left. rewrite E1 by done. split; [done|]. by exists a.
  - intros nr (Hn & a & Ha & <-). split; [done|]. exists a. split; [by apply (kvalid_shape _ _ _ S1)|]. by apply E1.
  - intros x Hx Hu. apply U1; [done|by left].
  - intros x Hx Hu. apply U1 in Hu as [?|(a & Ha & E & Ex & Hnz)]; [by left| |done]. right. split; [done|].
    exists a. split; [by apply (kvalid_shape _ _ _ S1)|done].
Qed.

(** ** Changing the size and the times *)

Lemma wstep_meta i dv P g f k g' :
  file_ok k i g f dv -> fnat g' = fnat g ->
  g' = set_size (size g') (set_mtime (mtime g') (set_dirty (dirty g') (set_blocks (blocks g') g))) ->
  wstep i dv P g f k g' f (with_fso (<[i := g']> (k_fso k)) k).
Proof.
  intros Hk En Eg. assert (Ef : f_fs g' = f_fs g) by (by rewrite Eg).
  assert (Hn : forall a, nd (with_fso (<[i := g']> (k_fso k)) k) g' dv a = nd k g dv a) by (intros; by rewrite En).
  assert (Hb : forall nr, file_blk (with_fso (<[i := g']> (k_fso k)) k) g' dv nr <-> file_blk k g dv nr).
  { intros nr. unfold file_blk. by rewrite En. }
  split; try done.
  - by eapply file_ok_meta.
  - destruct Hk as [[_ Hfs _ _] _]. rewrite (insert_id (k_fs k)) by apply Hfs. by destruct k.
  - rewrite En. rewrite Eg at 1. by destruct g.
  - symmetry. apply set_nat_id.
  - by rewrite En.
  - intros o Ho _. by apply file_byte_meta.
  - intros nr ?%Hb. by left.
  - intros nr. by apply Hb.
  - intros x _ Hu. by left.
Qed.

(** ** Writing into a data block *)

(** The offsets a chunk of [l] bytes at [s] in logical block [log] covers. *)
Definition chunk (log s l : Z) (o : Z) : Prop := o / BLK_SIZE = log /\ s <= o mod BLK_SIZE < s + l.

Lemma data_key_inj m log log' : data_key m log = data_key m log' -> log = log'.
Proof. unfold data_key. destruct (log <? _), (log' <? _); congruence. Qed.

Lemma wstep_data i dv g f k log s c s' :
  file_ok k i g f dv -> log_ok (fnat g) log -> is_bytes c -> 0 <= s -> s + Z.of_nat (length c) <= BLK_SIZE ->
  let b := nd k g dv (data_key (fnat g) log) in
  b <> 0 -> bl_upd dv b (mem_write (dsk k dv b) s c) (k_blk k) s' ->
  wstep i dv (chunk log s (Z.of_nat (length c))) g f k g f (with_blk s' k) /\
  forall o, chunk log s (Z.of_nat (length c)) o -> file_byte (with_blk s' k) g dv o = rd8 c (o mod BLK_SIZE - s).
Proof.
  intros [Hk Hc] Hl Hcb Hs Hsl b Hb Hup. pose proof Hup as (U1 & U2 & U3 & U4 & U5 & U6).
  destruct (data_blk_facts _ _ _ _ _ _ Hk Hl Hb) as [Ho Hx]. fold b in Ho, Hx.
  pose proof (fo_fs _ _ _ _ _ Hk) as Hfs.
  assert (Hnb : ~ in_bam (nat_ f) b) by (eapply not_in_bam; [done|by eapply own_data]).
  destruct (bam_ok_upd k _ f dv b _ s' (fi_bam _ _ _ _ Hfs) Hnb Hup) as [Hb' Sa].
  set (k' := with_blk s' k) in *.
  assert (Hd : forall d nr, d <> dv \/ nr <> b -> dsk k' d nr = dsk k d nr).
  { intros d nr Hne. unfold dsk, k'. cbn. rewrite U2. by apply disk_upd_ne. }
  assert (Hdb : dsk k' dv b = mem_write (dsk k dv b) s c) by (unfold dsk, k'; cbn; by rewrite U2, disk_upd_eq).
  assert (Hu : forall x, mapped_blk f x -> is_used k' f dv x = is_used k f dv x) by (intros; by apply same_bam_used).
  assert (Hnd : forall a, kvalid (fnat g) a -> nd k' g dv a = nd k g dv a).
  { apply node_same. intros a Ha Hi Hna. apply Hd. right. intros E. apply Hx. split; [done|]. by exists a. }
  pose proof (fo_tree _ _ _ _ _ Hk) as [Hm Hinj Hown].
  assert (Hk' : file_ok k' i g f dv).
  { split.
    - split; [apply Hk| |unfold room; cbn; rewrite U5, U6; apply Hk|].
      + eapply fs_inv_bam; [done|done|done|exact U3|]. intros x Hxm. by rewrite Hu.
      + split; [done| |].
        * intros a a' Ha Ha'. rewrite !Hnd by done. by apply Hinj.
        * intros a Ha. rewrite Hnd by done. intros Hna. eapply own_mono; [done|exact U3| |by apply Hown].
          intros x Hxm. by rewrite Hu.
    - intros Hv. destruct (Hc Hv) as [Hlc Hpc]. split; [done|]. rewrite Hnd; [done|apply Hlc]. }
  assert (Hlen : Z.of_nat (length (dsk k dv b)) = BLK_SIZE) by apply bl_disk_ok, Hfs.
  assert (Hbyte : forall o, log_ok (fnat g) (o / BLK_SIZE) -> file_byte k' g dv o =
    if decide (chunk log s (Z.of_nat (length c)) o) then rd8 c (o mod BLK_SIZE - s) else file_byte k g dv o).
  { intros o Hlo. unfold file_byte. rewrite Hnd by apply Hlo. unfold chunk.
    pose proof (Z.mod_pos_bound o BLK_SIZE ltac:(unfold BLK_SIZE; lia)).
    destruct (decide (o / BLK_SIZE = log)) as [El|El].
    - rewrite El. fold b. rewrite (proj2 (Z.eqb_neq _ _) Hb), Hdb, rd8_mem_write by lia.
      destruct (decide (s <= o mod BLK_SIZE < s + Z.of_nat (length c))).
      + by rewrite decide_True.
      + rewrite decide_False; [done|]. intros [??]. done.
    - rewrite (decide_False (P := _ /\ _)) by (intros [??]; done).
      destruct (Z.eqb_spec (nd k g dv (data_key (fnat g) (o / BLK_SIZE))) 0) as [|E]; [done|].
      rewrite Hd; [done|]. right. intros E'. apply El.
      apply (data_key_inj (fnat g)). apply Hinj; [apply Hlo|apply Hl|done|done]. }
  split.
  2: { intros o Hch. rewrite Hbyte; [by rewrite decide_True|]. destruct Hch as [-> _]. done. }
  split; try done.
  - symmetry. apply (kern_id (with_blk s' k)); [apply Hk|apply Hfs].
  - by destruct g.
  - symmetry. apply set_nat_id.
  - intros o Hlo Hn. rewrite Hbyte by done. by rewrite decide_False.
  - intros d nr [?|(? & ? & Hnf)]; apply Hd; [by left|right]. intros ->. apply Hnf. split; [done|].
    eexists. split; [apply Hl|done].
  - intros nr (Hn & a & Ha & <-). left. rewrite Hnd in * by done. split; [done|]. by exists a.
  - intros nr (Hn & a & Ha & <-). split; [done|]. exists a. split; [done|]. by apply Hnd.
  - intros a Ha _. by apply Hnd.
  - intros x Hxm. by rewrite Hu.
  - intros x Hxm. rewrite Hu by done. by left.
Qed.

(** ** The loop *)

Definition in_range (off n : Z) (o : Z) : Prop := off <= o < off + n.

(** The bytes [off, off + n) of the file are the first [n] of [buf], and nothing
    but those from [off] to [off + length buf] may differ from before. *)
Definition written (i : nat) (dv : nat) (off : Z) (buf : list Z) (n : Z) g f k g' f' k' : Prop :=
  wstep i dv (in_range off n) g f k g' f' k' /\
  (forall o, in_range off n o -> file_byte k' g' dv o = rd8 buf (o - off)).

Definition new_size g (off n : Z) : Z := if n =? 0 then size g else Z.max (size g) (off + n).

Lemma chunk_range off count o :
  0 < count -> 0 <= off ->
  chunk (off / BLK_SIZE) (off mod BLK_SIZE) (rw_len off count) o <-> in_range off (rw_len off count) o.
Proof.
  intros Hc Ho. pose proof (rw_len_bounds off count Hc) as [Hl Hb]. unfold chunk, in_range, BLK_SIZE in *.
  set (l := rw_len off count) in *. clearbody l. split; [intros [E ?]|intros ?; split]; Z.div_mod_to_equations; lia.
Qed.

Lemma is_bytes_take (n : nat) b : is_bytes b -> is_bytes (take n b).
Proof. apply Forall_take. Qed.

(** A first chunk of [l] bytes, then [n] more. *)
Lemma written_app i dv off buf l n g f k g1 f1 k1 g2 f2 k2 :
  0 <= l -> 0 <= n -> l + n <= Z.of_nat (length buf) -> covers (fnat g) (off + l + n) -> 0 <= off ->
  written i dv off buf l g f k g1 f1 k1 ->
  written i dv (off + l) (drop (Z.to_nat l) buf) n g1 f1 k1 g2 f2 k2 ->
  written i dv off buf (l + n) g f k g2 f2 k2.
Proof.
  intros Hl Hn Hln Hcov Ho [W1 B1] [W2 B2]. split.
  - eapply wstep_weaken; [|by eapply wstep_trans]. unfold in_range. lia.
  - intros o Hr. unfold in_range in *. destruct (decide (o < off + l)).
    + rewrite (ws_byte _ _ _ _ _ _ _ _ _ W2) by ((eapply log_ok_shape; [apply W1|apply Hcov; lia]) || lia). apply B1. lia.
    + rewrite B2 by lia. rewrite rd8_drop by lia. f_equal. lia.
Qed.

(** One round, once the block is there. *)
Lemma write_chunk_ok i dv off buf g f k (Q : unit -> kern S -> Prop) E :
  let l := rw_len off (Z.of_nat (length buf)) in
  let phys := nd k g dv (data_key (fnat g) (off / BLK_SIZE)) in
  file_ok k i g f dv -> log_ok (fnat g) (off / BLK_SIZE) -> is_bytes buf -> buf <> [] -> 0 <= off -> phys <> 0 ->
  (forall k', written i dv off buf l g f k g f k' -> Q tt k') ->
  (forall e k', e <> 0 -> wstep i dv (fun _ => False) g f k g f k' -> E e k') ->
  wp (blk (blk_pwrite dv phys (off mod BLK_SIZE) (take (Z.to_nat l) buf))) Q E k.
Proof.
  intros l phys Hk Hl Hb Hne Ho Hp HQ HE. pose proof Hk as [Hi Hc].
  assert (Hcnt : 0 < Z.of_nat (length buf)) by (destruct buf; [done|cbn; lia]).
  pose proof (rw_len_bounds off _ Hcnt) as [Hlb Hbl]. fold l in Hlb, Hbl.
  assert (Hlen : Z.of_nat (length (take (Z.to_nat l) buf)) = l) by (rewrite length_take; lia).
  pose proof (Z.mod_pos_bound off BLK_SIZE ltac:(unfold BLK_SIZE; lia)).
  destruct (data_blk_facts _ _ _ _ _ _ Hi Hl Hp) as [(_ & _ & _ & Hrg) _]. fold phys in Hrg.
  apply wp_blk. eapply wp_mono; [apply blk_pwrite_part_ok; [apply Hi|apply Hi|apply Hi|apply Hi|by apply is_bytes_take|lia|lia|done]| |].
  - cbn beta. intros [] s' Hup. apply HQ.
    destruct (wstep_data i dv g f k (off / BLK_SIZE) (off mod BLK_SIZE) (take (Z.to_nat l) buf) s') as [W B];
      [done|done|by apply is_bytes_take|lia|lia|done|done|].
    rewrite Hlen in W, B. split.
    + eapply wstep_weaken; [|exact W]. intros o. by apply chunk_range.
    + intros o Hr. rewrite B by (by apply chunk_range).
      destruct (rw_len_block off (Z.of_nat (length buf)) o Hcnt Hr) as [_ ->].
      unfold in_range in Hr. rewrite rd8_take by lia. f_equal. lia.
  - intros e s' [He Hsm]. apply HE; [done|].
    destruct (file_step_read _ _ _ _ _ (off / BLK_SIZE) _ Hi Hl Hsm) as [St Hnd].
    eapply wstep_grow; [done|exact St|]. intros Hv. destruct (Hc Hv) as [Hlc Hpc]. split; [done|].
    rewrite Hnd; [done|apply Hlc].
Qed.

Definition write_ret (i : nat) (dv : nat) (off : Z) (buf : list Z) g f k k' : Prop :=
  exists g' f', written i dv off buf (Z.of_nat (length buf)) g f k g' f' k' /\
    size g' = new_size g off (Z.of_nat (length buf)).
Definition write_err (i : nat) (dv : nat) (off : Z) (buf : list Z) g f k k' : Prop :=
  exists g' f' n, 0 <= n <= Z.of_nat (length buf) /\ written i dv off buf n g f k g' f' k' /\
    size g <= size g' <= Z.max (size g) (off + Z.of_nat (length buf)).

Lemma written_0 i dv off buf g f k g' f' k' :
  wstep i dv (fun _ => False) g f k g' f' k' -> written i dv off buf 0 g f k g' f' k'.
Proof.
  intros W. split; [by eapply wstep_weaken; [|exact W]|]. intros o Ho. unfold in_range in Ho. lia.
Qed.

Lemma written_grow i dv off buf n g f k g1 f1 k1 g2 f2 k2 :
  wstep i dv (fun _ => False) g f k g1 f1 k1 -> written i dv off buf n g1 f1 k1 g2 f2 k2 ->
  written i dv off buf n g f k g2 f2 k2.
Proof.
  intros W [W2 B2]. split; [|done]. eapply wstep_weaken; [|by eapply wstep_trans]. cbn. tauto.
Qed.

Lemma wstep_refl i dv P g f k : file_ok k i g f dv -> wstep i dv P g f k g f k.
Proof.
  intros Hk. assert (Ek : with_fso (<[i := g]> (k_fso k)) k = k)
    by (destruct k; unfold with_fso; cbn; rewrite insert_id; [done|apply Hk]).
  pose proof (wstep_meta i dv P g f k g Hk eq_refl ltac:(by destruct g)) as W. by rewrite Ek in W.
Qed.

(** The size update of one round. *)
Lemma grow_size_ok i dv off l g f k (Q : unit -> kern S -> Prop) E :
  file_ok k i g f dv -> 0 <= off + l < 2 ^ 64 ->
  (forall g' k', wstep i dv (fun _ => False) g f k g' f k' -> fnat g' = fnat g -> f_fs g' = f_fs g ->
     k_fso k' !! i = Some g' -> size g' = Z.max (size g) (off + l) -> dsk k' = dsk k -> Q tt k') ->
  wp (if size g <? u64 (off + l) then upd_fso i (fun g => set_dirty true (set_size (u64 (off + l)) g)) else ret tt) Q E k.
Proof.
  intros Hk Hr HQ. rewrite u64_small by lia. destruct (Z.ltb_spec (size g) (off + l)).
  - apply (wp_upd_fso i g); [apply Hk|]. eapply HQ; [apply wstep_meta; [done|done|by destruct g]|done|done| | |done].
    + apply lookup_insert_eq.
    + cbn. lia.
  - apply wp_ret. apply (HQ g); [by apply wstep_refl|done|done|apply Hk|lia|done].
Qed.

Lemma write_loop_ok fuel i dv off buf g f k :
  file_ok k i g f dv -> covers (fnat g) (off + Z.of_nat (length buf)) -> is_bytes buf -> 0 <= off ->
  off + Z.of_nat (length buf) < 2 ^ 41 -> rounds fuel off (Z.of_nat (length buf)) ->
  wp (write_loop fuel i off buf) (fun _ => write_ret i dv off buf g f k)
    (fun e k' => e <> 0 /\ write_err i dv off buf g f k k') k.
Proof.
  revert off buf g f k.
  induction fuel as [|fuel IH]; intros off buf g f k Hk Hcov Hb Ho Hmax Hr; cbn [write_loop];
    (destruct (Z.eqb_spec (Z.of_nat (length buf)) 0) as [E0|Hne];
      [exists g, f; rewrite E0; split; [by apply written_0, wstep_refl|done]|]).
  { by apply rounds_zero in Hr; [|lia]. }
  set (count := Z.of_nat (length buf)) in *.
  pose proof (rw_len_bounds off count ltac:(lia)) as [Hl Hbl].
  pose proof (Hcov off ltac:(lia)) as Hlog. rewrite (u32_small (off / BLK_SIZE)) by apply Hlog.
  eapply wp_seq; [by apply (nat_bmap_ok i dv (off / BLK_SIZE) true g f k)| |].
  2: { intros e k' (He & g' & f' & St & Hca & _). split; [done|]. exists g', f', 0. split; [lia|].
    split; [apply written_0; eapply wstep_grow; [apply Hk|done|done]|]. rewrite (st_g _ _ _ _ _ _ _ _ _ St). cbn. lia. }
  intros _ k1 (g1 & f1 & St & Hca & Hph & Hnz & _). specialize (Hnz eq_refl).
  pose proof (wstep_grow _ _ _ _ _ _ _ _ _ (proj1 Hk) St Hca) as W1.
  pose proof (ws_ok _ _ _ _ _ _ _ _ _ W1) as Hk1. pose proof (st_shape _ _ _ _ _ _ _ _ _ St) as Hsh.
  assert (Hsz1 : size g1 = size g) by (rewrite (st_g _ _ _ _ _ _ _ _ _ St); done).
  apply wp_bind, (wp_get_fso i g1); [apply Hk1|]. rewrite (proj2 (Z.eqb_neq _ _) Hnz).
  set (l := rw_len off count) in *.
  apply wp_bind. apply (grow_size_ok i dv off l g1 f1 k1); [done|lia|].
  intros g2 k2 W2 En Ef Hg2 Hs2 Hd2. pose proof (ws_ok _ _ _ _ _ _ _ _ _ W2) as Hk2.
  assert (W12 : wstep i dv (fun _ => False) g f k g2 f1 k2)
    by (eapply wstep_weaken; [|exact (wstep_trans _ _ _ _ _ _ _ _ _ _ _ _ _ W1 W2)]; cbn; tauto).
  pose proof (fo_fs _ _ _ _ _ (proj1 Hk2)) as Hfs2. rewrite Ef in Hfs2.
  apply wp_bind, (wp_get_dev (f_fs g1) f1 dv); [apply Hfs2..|]. rewrite (u64_small (off + l)) by lia.
  assert (Hph2 : bmap_phys (fnat g1) = nd k2 g2 dv (data_key (fnat g2) (off / BLK_SIZE))).
  { rewrite Hph, Hd2, En, (data_key_shape _ _ _ Hsh). done. }
  assert (Hsh2 : same_shape (fnat g) (fnat g2)) by (by rewrite En).
  rewrite Hph2. apply wp_bind, (write_chunk_ok i dv off buf g2 f1 k2).
  - done.
  - by apply (log_ok_shape (fnat g)).
  - done.
  - intros ->. done.
  - done.
  - by rewrite <- Hph2.
  - intros k3 W3. pose proof (written_grow _ _ _ _ _ _ _ _ _ _ _ _ _ _ W12 W3) as W13. fold count l in W13.
    assert (Hdl : Z.of_nat (length (drop (Z.to_nat l) buf)) = count - l) by (rewrite length_drop; lia).
    eapply wp_mono; [apply (IH (off + l) (drop (Z.to_nat l) buf) g2 f1 k3)| |].
    + apply W3.
    + rewrite Hdl. replace (off + l + (count - l)) with (off + count) by lia. by eapply covers_shape.
    + by apply Forall_drop.
    + lia.
    + lia.
    + rewrite Hdl. by apply rounds_step; [lia|].
    + cbn beta. intros [] k4 (g4 & f4 & W4 & Hs4). rewrite Hdl in W4, Hs4. exists g4, f4. fold count. split.
      * replace count with (l + (count - l)) by lia.
        eapply (written_app i dv off buf l (count - l)); [lia|lia|lia| |done|exact W13|exact W4].
        by replace (off + l + (count - l)) with (off + count) by lia.
      * rewrite Hs4. unfold new_size. rewrite Hs2, Hsz1, (proj2 (Z.eqb_neq count 0)) by lia.
        destruct (Z.eqb_spec (count - l) 0); lia.
    + intros e k4 (He & g4 & f4 & n & Hn & W4 & Hs4). rewrite Hdl in Hn, Hs4. split; [done|]. exists g4, f4, (l + n).
      fold count. split; [lia|]. split; [|rewrite Hs2, Hsz1 in Hs4; lia].
      eapply (written_app i dv off buf l n); [lia|lia|lia| |done|exact W13|exact W4].
      eapply covers_mono; [|exact Hcov]. lia.
  - intros e k3 He W3. split; [done|]. exists g2, f1, 0. split; [lia|]. split; [|rewrite Hs2, Hsz1; lia].
    eapply written_grow; [exact W12|by apply written_0].
Qed.
End ok.
