(* ===== verification/NatFile.v ===== *)
(** The contract of natfs files: what [nat_read] and [nat_write] promise to the
    system calls, stated on the contents of the file and proved from the
    correctness of the block map and of the loops. *)

From S2P Require Import Prelude BlockDev BlockIface Kern NatBam NatBamOk NatBmap NatTree NatBmapOk Vfs VfsOk NatRw NatRwOk NatWriteOk.

Section file.
Context {S : Type} `{HS : BlockLayerOk S} `{FsLow S}.
Implicit Types (k : kern S) (f : fs) (g : fso).

(** A regular file in use, of a file-system type that makes no permission check
    of its own, within the reach of its block map. *)
Record reg_file k (i : nat) g f (dv : nat) : Prop := RegFile {
  rf_ok : file_ok k i g f dv;
  rf_reg : S_ISREG (mode g) = true;
  rf_type : exists t, type f = Some t /\ type_accepts t;
  rf_size : 0 <= size g < 2 ^ 31;
  rf_covers : covers (fnat g) NAT_FILE_SIZE_MAX
}.

Definition may k g f (m : Z) : Prop := granted f g m (euid (k_curr k)) (egid (k_curr k)).

Lemma granted_run k i g f dv m :
  file_ok k i g f dv -> (exists t, type f = Some t /\ type_accepts t) -> may k g f m ->
  fs_chk_perm i m (euid (k_curr k)) (egid (k_curr k)) k = Ret tt k.
Proof.
  intros [Hi _] (t & Ht & Ha) Hm.
  rewrite (fs_chk_perm_run i m _ _ k g f t (fo_fso _ _ _ _ _ Hi) (bo_fs _ _ _ _ (fi_bam _ _ _ _ (fo_fs _ _ _ _ _ Hi))) Ht Ha).
  destruct Hm as [Hw Hu]. destruct (Z.testbit m 1) eqn:E1; [rewrite Hw by done|]; cbn [andb];
  (destruct (Z.eqb_spec (euid (k_curr k)) 0) as [|Hne]; [done|]); destruct Hu as [?|Hb]; try done;
  (assert (forallb (fun b => negb (Z.testbit m b) || Z.testbit (class_bits f g (euid (k_curr k)) (egid (k_curr k))) b) [2; 1; 0] = true) as ->;
   [|done]); apply forallb_forall; intros b Hin; (destruct (Z.testbit m b) eqn:Em; [|done]); apply Hb; try done; cbn in Hin; lia.
Qed.
Lemma may_run k i g f dv m :
  reg_file k i g f dv -> may k g f m ->
  fs_chk_perm i m (euid (k_curr k)) (egid (k_curr k)) k = Ret tt k.
Proof. intros Hk. apply (granted_run k i g f dv m); apply Hk. Qed.

Lemma not_dir m : S_ISREG m = true -> S_ISDIR m = false.
Proof. unfold S_ISREG, S_ISDIR, S_IFREG, S_IFDIR. intros ->%Z.eqb_eq. done. Qed.

(** [nat_write] without its permission and type checks. *)
Lemma nat_write_core i dv off buf g f k :
  reg_file k i g f dv -> may k g f W_OK -> is_bytes buf -> 0 <= off ->
  off + Z.of_nat (length buf) < NAT_FILE_SIZE_MAX ->
  wp (nat_write i off buf)
    (fun _ k' => exists g' f', written i dv off buf (Z.of_nat (length buf)) g f k g' f' k' /\
       size g' = new_size g off (Z.of_nat (length buf)))
    (fun e k' => e <> 0 /\ write_err i dv off buf g f k k') k.
Proof.
  intros Hk Hm Hb Ho Hmax. pose proof (rf_ok _ _ _ _ _ Hk) as Hok.
  unfold nat_write. apply wp_bind, wp_gets, wp_bind. unfold wp at 1.
  rewrite (may_run k i g f dv W_OK Hk Hm). apply wp_bind, (wp_get_fso i g); [apply Hok|].
  rewrite (not_dir _ (rf_reg _ _ _ _ _ Hk)), (rf_reg _ _ _ _ _ Hk). cbn [negb].
  unfold NAT_FILE_SIZE_MAX in Hmax.
  rewrite (proj2 (Z.leb_gt _ _)) by (rewrite u64_small by lia; unfold NAT_FILE_SIZE_MAX; lia).
  apply wp_bind, wp_gets, wp_bind, (wp_upd_fso i g); [apply Hok|].
  set (g1 := set_dirty true (set_mtime (k_time k) g)).
  assert (W1 : wstep i dv (fun _ => False) g f k g1 f (with_fso (<[i := g1]> (k_fso k)) k))
    by (apply wstep_meta; [done|done|by destruct g]).
  eapply wp_mono; [apply (write_loop_ok _ i dv off buf g1 f); [apply W1| |done|done|lia|apply rounds_fuel; lia]| |].
  - eapply covers_mono; [|apply Hk]. unfold NAT_FILE_SIZE_MAX. lia.
  - cbn beta. intros [] k' (g' & f' & W & Hs). exists g', f'. split; [by eapply written_grow|done].
  - intros e k' (He & g' & f' & n & Hn & W & Hs). split; [done|]. exists g', f', n. split; [done|].
    split; [by eapply written_grow|done].
Qed.

(** The file is still what it was, but for its contents and size. *)
Lemma reg_file_wstep k i g f dv P g' f' k' :
  reg_file k i g f dv -> wstep i dv P g f k g' f' k' -> 0 <= size g' < 2 ^ 31 -> reg_file k' i g' f' dv.
Proof.
  intros Hk W Hs. pose proof (ws_g _ _ _ _ _ _ _ _ _ W) as Eg. split; [apply W| | |done|].
  - rewrite Eg. apply Hk.
  - rewrite (ws_f _ _ _ _ _ _ _ _ _ W). apply Hk.
  - eapply covers_shape; [apply W|apply Hk].
Qed.

Lemma may_wstep k i g f dv P g' f' k' m :
  wstep i dv P g f k g' f' k' -> may k g f m -> may k' g' f' m.
Proof.
  intros W. unfold may. rewrite (ws_k _ _ _ _ _ _ _ _ _ W), (ws_g _ _ _ _ _ _ _ _ _ W), (ws_f _ _ _ _ _ _ _ _ _ W). done.
Qed.

Lemma new_size_bound g off n :
  0 <= size g < 2 ^ 31 -> 0 <= off -> 0 <= n -> off + n < NAT_FILE_SIZE_MAX ->
  0 <= new_size g off n < 2 ^ 31 /\ (0 < n -> off + n <= new_size g off n).
Proof. unfold new_size, NAT_FILE_SIZE_MAX. intros. destruct (Z.eqb_spec n 0); lia. Qed.

(** The bytes [off, off + length buf) of a file that holds [buf] there. *)
Lemma file_bytes_buf k g dv off buf :
  (forall o, in_range off (Z.of_nat (length buf)) o -> file_byte k g dv o = rd8 buf (o - off)) ->
  file_bytes k g dv off (Z.of_nat (length buf)) = buf.
Proof.
  intros Hb. apply list_eq. intros j. unfold file_bytes. rewrite list_lookup_fmap.
  destruct (decide (j < length buf)%nat) as [Hj|Hj].
  - rewrite lookup_seqZ_lt by lia. cbn. rewrite Hb by (unfold in_range; lia).
    destruct (lookup_lt_is_Some_2 buf j Hj) as [x Hx]. unfold rd8.
    replace (Z.to_nat (off + Z.of_nat j - off)) with j by lia. by rewrite Hx.
  - rewrite lookup_seqZ_ge by lia. symmetry. apply lookup_ge_None_2. lia.
Qed.

(** C27. Reading a regular file returns exactly its bytes from [off] on, as many
    as were asked for and the size allows (none beyond the end), or fails with the
    device's error; apart from the access time and the cached block translation
    nothing of the file, of the disk or of the kernel's tables changes. *)
Theorem nat_read_spec i dv off count g f k :
  reg_file k i g f dv -> may k g f R_OK -> 0 <= off -> 0 <= count -> off + count < 2 ^ 64 ->
  wp (nat_read i off count)
    (fun d k' => d = file_bytes k g dv off (Z.max 0 (Z.min count (size g - off))) /\ read_frame i dv g k k')
    (fun e k' => e <> 0 /\ read_frame i dv g k k') k.
Proof.
  intros Hk Hm Ho Hc Hmax. pose proof (rf_size _ _ _ _ _ Hk). apply (nat_read_ok i dv off count g f); try apply Hk; try done.
  - eapply covers_mono; [|apply Hk]. unfold NAT_FILE_SIZE_MAX. lia.
  - lia.
  - by eapply may_run.
Qed.

(** C5. Writing [buf] at [off] of a regular file: on success the bytes of that
    range are [buf], every other byte is as before (zero where there was no
    block), and the size is the larger of the old one and the end of the range;
    new blocks were free before and belong to the file, blocks in use that are not
    the file's keep their contents, and no block is marked used without belonging
    to the file.  On an error a prefix of [buf] has been written and the same
    holds for everything else. *)
Theorem nat_write_spec i dv off buf g f k :
  reg_file k i g f dv -> may k g f W_OK -> is_bytes buf -> 0 <= off ->
  off + Z.of_nat (length buf) < NAT_FILE_SIZE_MAX ->
  wp (nat_write i off buf)
    (fun _ k' => exists g' f', written i dv off buf (Z.of_nat (length buf)) g f k g' f' k' /\
       size g' = new_size g off (Z.of_nat (length buf)))
    (fun e k' => e <> 0 /\ exists g' f' n, 0 <= n <= Z.of_nat (length buf) /\
       written i dv off buf n g f k g' f' k' /\
       size g <= size g' <= Z.max (size g) (off + Z.of_nat (length buf))) k.
Proof. apply nat_write_core. Qed.

(** What was written is read. *)
Lemma nat_read_back i dv off buf g f k g1 f1 k1 :
  reg_file k i g f dv -> may k g f R_OK -> 0 <= off -> off + Z.of_nat (length buf) < NAT_FILE_SIZE_MAX ->
  written i dv off buf (Z.of_nat (length buf)) g f k g1 f1 k1 -> size g1 = new_size g off (Z.of_nat (length buf)) ->
  reg_file k1 i g1 f1 dv /\
  wp (nat_read i off (Z.of_nat (length buf))) (fun d k2 => d = buf /\ read_frame i dv g1 k1 k2) (fun e _ => e <> 0) k1.
Proof.
  intros Hk Hr Ho Hmax [W B] Hs. pose proof (rf_size _ _ _ _ _ Hk) as Hsz.
  destruct (new_size_bound g off (Z.of_nat (length buf))) as [Hs1 Hs2]; [done|done|lia|done|].
  assert (Hk1 : reg_file k1 i g1 f1 dv) by (eapply reg_file_wstep; [done|done|by rewrite Hs]). split; [done|].
  unfold NAT_FILE_SIZE_MAX in Hmax.
  eapply wp_mono; [apply (nat_read_ok i dv off (Z.of_nat (length buf)) g1 f1)| |by intros ?? []]; try apply Hk1; try lia.
  - eapply covers_mono; [|apply Hk1]. pose proof (rf_size _ _ _ _ _ Hk1). unfold NAT_FILE_SIZE_MAX. lia.
  - eapply may_run; [done|by eapply may_wstep].
  - intros d k2 [-> Hfr]. split; [|done]. destruct (decide (length buf = 0)%nat) as [E|E].
    + apply nil_length_inv in E as ->. by replace (Z.max 0 (Z.min _ _)) with 0 by (cbn; lia).
    + replace (Z.max 0 (Z.min (Z.of_nat (length buf)) (size g1 - off))) with (Z.of_nat (length buf)) by lia.
      by apply file_bytes_buf.
Qed.

(** C4. What is written reads back: after a successful [nat_write], a
    [nat_read] of the same range returns the same bytes, unless the device
    fails. *)
Theorem nat_write_read i dv off buf g f k :
  reg_file k i g f dv -> may k g f W_OK -> may k g f R_OK -> is_bytes buf -> 0 <= off ->
  off + Z.of_nat (length buf) < NAT_FILE_SIZE_MAX ->
  wp (nat_write i off buf;;; nat_read i off (Z.of_nat (length buf)))
    (fun d _ => d = buf) (fun e _ => e <> 0) k.
Proof.
  intros Hk Hw Hr Hb Ho Hmax. eapply wp_seq; [by apply (nat_write_core i dv off buf g f)| |by intros ?? []].
  intros [] k1 (g1 & f1 & W & Hs). destruct (nat_read_back i dv off buf g f k g1 f1 k1) as [_ Hrd]; try done.
  eapply wp_mono; [exact Hrd| |done]. by intros d k2 [-> _].
Qed.

(** C6. A write leaves every other file alone: a file of the same file system
    that shares no block with the written one keeps all its bytes, whether the
    write succeeds or fails half way. *)
Theorem nat_write_other_file i dv off buf g f k j gj :
  reg_file k i g f dv -> may k g f W_OK -> is_bytes buf -> 0 <= off ->
  off + Z.of_nat (length buf) < NAT_FILE_SIZE_MAX ->
  file_ok k j gj f dv -> j <> i ->
  (forall nr, file_blk k gj dv nr -> ~ file_blk k g dv nr) ->
  let same k' := k_fso k' !! j = Some gj /\
    forall o, log_ok (fnat gj) (o / BLK_SIZE) -> file_byte k' gj dv o = file_byte k gj dv o in
  wp (nat_write i off buf) (fun _ k' => same k') (fun _ k' => same k') k.
Proof.
  intros Hk Hw Hb Ho Hmax [Hj _] Hne Hdis same.
  assert (Hsame : forall P g' f' k', wstep i dv P g f k g' f' k' -> same k').
  { intros P g' f' k' W. split.
    - rewrite (ws_k _ _ _ _ _ _ _ _ _ W). cbn. rewrite lookup_insert_ne by done. apply Hj.
    - assert (Hd : forall a, kvalid (fnat gj) a -> node (dsk k dv) (fnat gj) a <> 0 ->
        dsk k' dv (node (dsk k dv) (fnat gj) a) = dsk k dv (node (dsk k dv) (fnat gj) a)).
      { intros a Ha Hna. pose proof (to_own _ _ _ (fo_tree _ _ _ _ _ Hj) a Ha Hna) as Hown.
        apply (ws_frame _ _ _ _ _ _ _ _ _ W). right.
        split; [eapply not_in_bam; [apply Hj|by eapply own_data]|]. split; [by apply own_not_fresh|].
        apply Hdis. split; [done|]. by exists a. }
      intros o Ho'. unfold file_byte.
      rewrite (node_same (dsk k dv) (dsk k' dv) (fnat gj)) by (auto; apply Ho').
      destruct (Z.eqb_spec (node (dsk k dv) (fnat gj) (data_key (fnat gj) (o / BLK_SIZE))) 0); [done|].
      by rewrite Hd by (done || apply Ho'). }
  eapply wp_mono; [by apply (nat_write_core i dv off buf g f)| |].
  - intros ? k' (g' & f' & [W _] & _). by eapply Hsame.
  - intros e k' (_ & g' & f' & n & _ & [W _] & _). by eapply Hsame.
Qed.
End file.
