(* ===== verification/NatFso.v ===== *)
(** File headers of natfs (kern/fs/nat/fso.c, struct nat_header of
    include/priv/natfs.h): loading a header into a file object and writing it
    back.  [encode] and [decode] are the in-memory layout of the structure. *)

From S2P Require Import Prelude BlockDev BlockIface Kern NatBam NatBamOk NatBmap NatTree NatBmapOk Vfs VfsOk.

Record nat_header := NatHeader {
  hd_ctime : Z; hd_mtime : Z; hd_atime : Z; hd_uid : Z; hd_gid : Z; hd_size : Z; hd_mode : Z;
  hd_nlink : Z; hd_blocks : Z; hd_rdev : Z; hd_ndirblks : Z; hd_nindirlev : Z; hd_bmap : list Z
}.

Definition le64 (v : Z) : list Z := le32 v ++ le32 (v / 2 ^ 32).

(** The fields before [bmap], in the order of the structure (56 bytes). *)
Definition encode_fixed (h : nat_header) : list Z :=
  le64 (hd_ctime h) ++ le64 (hd_mtime h) ++ le64 (hd_atime h) ++ le32 (hd_uid h) ++ le32 (hd_gid h) ++
  le32 (hd_size h) ++ le32 (hd_mode h) ++ le32 (hd_nlink h) ++ le32 (hd_blocks h) ++ le32 (hd_rdev h) ++
  [hd_ndirblks h mod 256; hd_nindirlev h mod 256; 0; 0].
Definition encode_bmap (l : list Z) : list Z := l ≫= le32.
Definition encode (h : nat_header) : list Z := encode_fixed h ++ encode_bmap (hd_bmap h).

Definition decode_bmap (b : list Z) : list Z := (fun j => get32 b (56 + 4 * j)) <$> seqZ 0 NBMAP.
Definition decode (b : list Z) : nat_header :=
  NatHeader (get64 b 0) (get64 b 8) (get64 b 16) (s32 (get32 b 24)) (s32 (get32 b 28)) (get32 b 32) (get32 b 36)
    (get32 b 40) (get32 b 44) (get32 b 48) (rd8 b 52) (rd8 b 53) (decode_bmap b).

Definition nat_imode (mode : Z) : Z :=
  let n := Z.land mode S_IFMT in
  let n := Z.lor n 0x124 in
  let n := if negb (Z.land mode 0x92 =? 0) then Z.lor n 0x92 else n in
  if negb (Z.land mode 0x49 =? 0) then Z.lor n 0x49 else n.

(** [fso] filled from a header. *)
Definition load_header (insec : bool) (h : nat_header) (g : fso) : fso :=
  let g := set_rdev (hd_rdev h) (set_mode (hd_mode h) (set_size (hd_size h) (set_blocks (hd_blocks h) g))) in
  let g := set_owner (hd_uid h) (hd_gid h) g in
  let g := set_times (s64 (hd_atime h)) (s64 (hd_ctime h)) (s64 (hd_mtime h)) g in
  let g := set_nlink (hd_nlink h) g in
  let g := if insec then set_owner 0 0 (set_mode (nat_imode (mode g)) g) else g in
  set_fnat (FsoNat (bmap_valid (fnat g)) (bmap_log (fnat g)) (bmap_phys (fnat g)) (hd_bmap h)
    (hd_ndirblks h) (hd_nindirlev h)) g.

(** The header [nat_syncfso] writes: the block is cleared first and [rdev] is
    not among the fields it sets. *)
Definition store_header (insec : bool) (g : fso) : nat_header :=
  NatHeader (u64 (ctime g)) (u64 (mtime g)) (u64 (atime g))
    (if insec then 0 else uid g) (if insec then 0 else gid g) (u32 (size g))
    (if insec then nat_imode (u32 (mode g)) else u32 (mode g))
    (nlink g) (blocks g) 0 (ndirblks (fnat g)) (nindirlev (fnat g)) (bmap (fnat g)).

Section ops.
Context {S : Type} `{BlockLayer S} `{FsLow S}.

(** The header is copied out between [blk_read] and [blk_put]; the block is not
    used after the fields have been read. *)
Definition nat_getfso (i : nat) : M (kern S) unit :=
  g <~ get_fso i;;
  d <~ get_dev (f_fs g);;
  data <~ blk (blk_pread d (index g) 0 BLK_SIZE);;
  f <~ get_fs (f_fs g);;
  upd_fso i (load_header (insecure f) (decode data));;;
  fs_state i (Z.lor R_OK W_OK).

Definition nat_syncfso (i : nat) : M (kern S) unit :=
  g <~ get_fso i;;
  if negb (dirty g) then ret tt
  else
    d <~ get_dev (f_fs g);;
    f <~ get_fs (f_fs g);;
    blk (b <~ bl_get d (index g);;
         bl_fill b (encode (store_header (insecure f) g));;;
         bl_put b);;;
    upd_fso i (set_dirty false).

Definition nat_putfso (i : nat) : M (kern S) unit :=
  g <~ get_fso i;;
  if nlink g =? 0 then
    status (nat_trunc i);;;
    status (nat_bfree (f_fs g) (index g));;;
    ret tt
  else nat_syncfso i.

Definition nat_chk_perm (i : nat) (mode uid gid : Z) : M (kern S) unit := ret tt.
End ops.

(** * The layout round trip *)

Lemma le32_value v : v mod 256 + 256 * (v / 256 mod 256 + 256 * (v / 65536 mod 256 + 256 * (v / 16777216 mod 256))) = u32 v.
Proof. unfold u32. change (2 ^ 32) with 4294967296. Z.div_mod_to_equations. lia. Qed.

Lemma length_encode_bmap l : length (encode_bmap l) = (4 * length l)%nat.
Proof. induction l as [|x l IH]; [done|]. cbn [encode_bmap mbind list_bind]. rewrite length_app. cbn [length le32].
  unfold encode_bmap in IH. cbn in IH. rewrite IH. lia. Qed.

Lemma rd8_app_r pre b off : 0 <= off -> rd8 (pre ++ b) (Z.of_nat (length pre) + off) = rd8 b off.
Proof. intros. unfold rd8. rewrite lookup_app_r by lia. do 2 f_equal. lia. Qed.

Lemma get32_app_r pre b off : 0 <= off -> get32 (pre ++ b) (Z.of_nat (length pre) + off) = get32 b off.
Proof. intros. unfold get32. rewrite <- !Z.add_assoc, !rd8_app_r by lia. done. Qed.

Lemma get32_le32 v rest : get32 (le32 v ++ rest) 0 = u32 v.
Proof. apply le32_value. Qed.

Lemma get32_encode_bmap l j :
  0 <= j < Z.of_nat (length l) -> get32 (encode_bmap l) (4 * j) = u32 (default 0 (l !! Z.to_nat j)).
Proof.
  revert j. induction l as [|x l IH]; intros j Hj; cbn [length] in Hj; [lia|].
  change (encode_bmap (x :: l)) with (le32 x ++ encode_bmap l).
  destruct (decide (j = 0)) as [->|Hne]; [apply get32_le32|].
  replace (4 * j) with (Z.of_nat (length (le32 x)) + 4 * (j - 1)) by (cbn [length le32]; lia).
  rewrite get32_app_r, IH by lia. by replace (Z.to_nat j) with (Datatypes.S (Z.to_nat (j - 1))) by lia.
Qed.

(** A header whose fields fit their types. *)
Record header_ok (h : nat_header) : Prop := HeaderOk {
  ho_ctime : 0 <= hd_ctime h < 2 ^ 64; ho_mtime : 0 <= hd_mtime h < 2 ^ 64; ho_atime : 0 <= hd_atime h < 2 ^ 64;
  ho_uid : - 2 ^ 31 <= hd_uid h < 2 ^ 31; ho_gid : - 2 ^ 31 <= hd_gid h < 2 ^ 31;
  ho_size : 0 <= hd_size h < 2 ^ 32; ho_mode : 0 <= hd_mode h < 2 ^ 32; ho_nlink : 0 <= hd_nlink h < 2 ^ 32;
  ho_blocks : 0 <= hd_blocks h < 2 ^ 32; ho_rdev : 0 <= hd_rdev h < 2 ^ 32;
  ho_ndir : 0 <= hd_ndirblks h < 256; ho_nind : 0 <= hd_nindirlev h < 256;
  ho_len : length (hd_bmap h) = Z.to_nat NBMAP; ho_bmap : Forall (fun b => 0 <= b < 2 ^ 32) (hd_bmap h)
}.

Lemma s32_id v : - 2 ^ 31 <= v < 2 ^ 31 -> s32 (u32 v) = v.
Proof. unfold s32, u32. intros. rewrite Zmod_mod. destruct (Z.ltb_spec (v mod 2 ^ 32) (2 ^ 31)); Z.div_mod_to_equations; lia. Qed.

Lemma u64_halves v : 0 <= v < 2 ^ 64 -> u32 v + 2 ^ 32 * u32 (v / 2 ^ 32) = v.
Proof. intros. unfold u32. Z.div_mod_to_equations; lia. Qed.

Lemma length_encode_fixed h : length (encode_fixed h) = 56%nat.
Proof. done. Qed.

Lemma rd8_encode_fixed h rest i : 0 <= i < 56 -> rd8 (encode_fixed h ++ rest) i = rd8 (encode_fixed h) i.
Proof. intros Hi. unfold rd8. rewrite lookup_app_l; [done|]. rewrite length_encode_fixed. lia. Qed.

Lemma get32_encode_fixed h rest i : 0 <= i <= 52 -> get32 (encode_fixed h ++ rest) i = get32 (encode_fixed h) i.
Proof. intros Hi. unfold get32. by rewrite !rd8_encode_fixed by lia. Qed.

Lemma decode_encode h : header_ok h -> decode (encode h) = h.
Proof.
  intros [H1 H2 H3 H4 H5 H6 H7 H8 H9 H10 H11 H12 H13 H14]. unfold decode, encode, get64.
  rewrite !get32_encode_fixed, !rd8_encode_fixed by lia.
  assert (decode_bmap (encode_fixed h ++ encode_bmap (hd_bmap h)) = hd_bmap h) as ->.
  { apply list_eq. intros j. unfold decode_bmap. rewrite list_lookup_fmap.
    destruct (decide (j < length (hd_bmap h))%nat) as [Hj|Hj].
    - rewrite lookup_seqZ_lt by (unfold NBMAP in *; lia). cbn [fmap option_fmap option_map].
      rewrite Z.add_0_l. change 56 with (Z.of_nat (length (encode_fixed h))).
      rewrite get32_app_r, get32_encode_bmap by lia. rewrite Nat2Z.id.
      destruct (lookup_lt_is_Some_2 (hd_bmap h) j Hj) as [x Hx]. rewrite Hx. cbn. f_equal.
      apply u32_small. by eapply Forall_lookup_1 in H14.
    - rewrite lookup_seqZ_ge by (unfold NBMAP in *; lia). symmetry. apply lookup_ge_None_2. lia. }
  assert (F64 : forall v a b, 0 <= v < 2 ^ 64 -> a = u32 v -> b = u32 (v / 2 ^ 32) -> a + 2 ^ 32 * b = v)
    by (intros v a b Hv -> ->; by apply u64_halves).
  assert (F32 : forall v a, 0 <= v < 2 ^ 32 -> a = u32 v -> a = v) by (intros v a Hv ->; by apply u32_small).
  assert (FS : forall v a, - 2 ^ 31 <= v < 2 ^ 31 -> a = u32 v -> s32 a = v) by (intros v a Hv ->; by apply s32_id).
  rewrite (F64 (hd_ctime h) (get32 (encode_fixed h) 0) (get32 (encode_fixed h) (0 + 4)) H1 (le32_value _) (le32_value _)).
  rewrite (F64 (hd_mtime h) (get32 (encode_fixed h) 8) (get32 (encode_fixed h) (8 + 4)) H2 (le32_value _) (le32_value _)).
  rewrite (F64 (hd_atime h) (get32 (encode_fixed h) 16) (get32 (encode_fixed h) (16 + 4)) H3 (le32_value _) (le32_value _)).
  rewrite (FS (hd_uid h) (get32 (encode_fixed h) 24) H4 (le32_value _)), (FS (hd_gid h) (get32 (encode_fixed h) 28) H5 (le32_value _)).
  rewrite (F32 (hd_size h) (get32 (encode_fixed h) 32) H6 (le32_value _)), (F32 (hd_mode h) (get32 (encode_fixed h) 36) H7 (le32_value _)).
  rewrite (F32 (hd_nlink h) (get32 (encode_fixed h) 40) H8 (le32_value _)), (F32 (hd_blocks h) (get32 (encode_fixed h) 44) H9 (le32_value _)).
  rewrite (F32 (hd_rdev h) (get32 (encode_fixed h) 48) H10 (le32_value _)).
  change (rd8 (encode_fixed h) 52) with (hd_ndirblks h mod 256).
  change (rd8 (encode_fixed h) 53) with (hd_nindirlev h mod 256).
  rewrite !Z.mod_small by lia. by destruct h.
Qed.

(** * Write-back and loading *)

Lemma is_bytes_le64 v : is_bytes (le64 v).
Proof. unfold le64. apply Forall_app. split; apply is_bytes_le32. Qed.

Lemma is_bytes_encode h : is_bytes (encode h).
Proof.
  unfold encode, encode_fixed. rewrite !Forall_app. split_and!; try apply is_bytes_le32; try apply is_bytes_le64.
  - repeat constructor; unfold is_byte; try lia; apply Z.mod_pos_bound; lia.
  - unfold encode_bmap. induction (hd_bmap h) as [|x l IH]; [constructor|].
    cbn [mbind list_bind]. apply Forall_app. split; [apply is_bytes_le32|done].
Qed.

Lemma bytes_ok_encode h : length (hd_bmap h) = Z.to_nat NBMAP -> bytes_ok BLK_SIZE (encode h).
Proof.
  intros Hl. split; [|apply is_bytes_encode]. unfold encode. rewrite length_app, length_encode_bmap, Hl. done.
Qed.

Section ok.
Context {S : Type} `{HS : BlockLayerOk S} `{FsLow S}.
Implicit Types (k : kern S) (f : fs) (g : fso).

Lemma nat_syncfso_ok i dv g f k :
  k_fso k !! i = Some g -> bam_ok k (f_fs g) f dv -> bl_range (k_blk k) dv (index g) ->
  length (bmap (fnat g)) = Z.to_nat NBMAP -> dirty g = true ->
  wp (nat_syncfso i)
    (fun _ k' => exists s', k' = with_fso (<[i := set_dirty false g]> (k_fso k)) (with_blk s' k) /\
       bl_upd dv (index g) (encode (store_header (insecure f) g)) (k_blk k) s')
    (fun _ _ => False) k.
Proof.
  intros Hg Hk Hr Hl Hd. unfold nat_syncfso. apply wp_bind, (wp_get_fso i g); [done|]. rewrite Hd. cbn [negb].
  apply wp_bind, (wp_get_dev (f_fs g) f dv); [apply Hk..|].
  apply wp_bind, (wp_get_fs (f_fs g) f); [apply Hk..|]. apply wp_bind, wp_blk.
  eapply wp_mono; [apply (bl_overwrite_ok (k_blk k) dv (index g) (fun _ => encode (store_header (insecure f) g)));
    [apply Hk..| |done|done]| |done].
  - intros b _. by apply bytes_ok_encode.
  - cbn beta. intros [] s' Hup. apply (wp_upd_fso i g); [done|]. by exists s'.
Qed.

Lemma nat_getfso_ok i dv g f k :
  k_fso k !! i = Some g -> bam_ok k (f_fs g) f dv -> polling g = None -> pollcnt g = 0 -> state g = 0 ->
  wp (nat_getfso i)
    (fun _ k' => exists s', bl_same (k_blk k) s' /\
       k' = with_fso (<[i := set_state 6 (load_header (insecure f) (decode (dsk k dv (index g))) g)]> (k_fso k)) (with_blk s' k))
    (fun e k' => e <> 0 /\ exists s', bl_same (k_blk k) s' /\ k' = with_blk s' k) k.
Proof.
  intros Hg Hk Hpo Hpc Hst. unfold nat_getfso. apply wp_bind, (wp_get_fso i g); [done|].
  apply wp_bind, (wp_get_dev (f_fs g) f dv); [apply Hk..|]. apply wp_bind, wp_blk.
  eapply wp_mono; [apply blk_pread_ok; apply Hk| |].
  2: { intros e s' [He Hs]. split; [done|]. by exists s'. }
  intros d s' [-> Hs]. rewrite mem_read_all by apply bl_disk_ok, Hk. fold (dsk k dv (index g)).
  apply wp_bind, (wp_get_fs (f_fs g) f); [apply Hk..|].
  apply wp_bind, (wp_upd_fso i g); [done|]. set (g1 := load_header _ _ _).
  assert (polling g1 = None /\ pollcnt g1 = 0 /\ state g1 = 0) as (Hpo1 & Hpc1 & Hst1)
    by (unfold g1, load_header; destruct (insecure f); done).
  unfold fs_state. apply wp_bind, (wp_get_fso i g1); [apply lookup_insert_eq|]. rewrite Hst1. cbn [Z.eqb Z.lor R_OK W_OK].
  apply wp_bind, (wp_upd_fso i g1); [apply lookup_insert_eq|]. rewrite Hpo1, Hpc1. cbn [Z.eqb negb]. apply wp_ret.
  exists s'. split; [done|]. destruct k. cbn. by rewrite insert_insert_eq.
Qed.

(** Fields of a file object within the types of the header. *)
Record fso_fits g : Prop := FsoFits {
  ff_ctime : - 2 ^ 63 <= ctime g < 2 ^ 63; ff_mtime : - 2 ^ 63 <= mtime g < 2 ^ 63; ff_atime : - 2 ^ 63 <= atime g < 2 ^ 63;
  ff_uid : - 2 ^ 31 <= uid g < 2 ^ 31; ff_gid : - 2 ^ 31 <= gid g < 2 ^ 31; ff_size : 0 <= size g < 2 ^ 32;
  ff_mode : 0 <= mode g < 2 ^ 32; ff_nlink : 0 <= nlink g < 2 ^ 32; ff_blocks : 0 <= blocks g < 2 ^ 32;
  ff_ndir : 0 <= ndirblks (fnat g) < 256; ff_nind : 0 <= nindirlev (fnat g) < 256;
  ff_len : length (bmap (fnat g)) = Z.to_nat NBMAP; ff_bmap : Forall (fun b => 0 <= b < 2 ^ 32) (bmap (fnat g))
}.

Lemma u64_range x : 0 <= u64 x < 2 ^ 64.
Proof. apply Z.mod_pos_bound. lia. Qed.

Lemma s64_id v : - 2 ^ 63 <= v < 2 ^ 63 -> s64 (u64 v) = v.
Proof. unfold s64, u64. intros. rewrite Zmod_mod. destruct (Z.ltb_spec (v mod 2 ^ 64) (2 ^ 63)); Z.div_mod_to_equations; lia. Qed.

Lemma store_header_ok g : fso_fits g -> header_ok (store_header false g).
Proof.
  intros []. split; cbn [store_header hd_ctime hd_mtime hd_atime hd_uid hd_gid hd_size hd_mode hd_nlink hd_blocks
    hd_rdev hd_ndirblks hd_nindirlev hd_bmap]; try done; try apply u64_range; apply u32_range.
Qed.

(** The attributes of a file. *)
Definition meta g : list Z :=
  [uid g; gid g; mode g; size g; nlink g; blocks g; atime g; ctime g; mtime g; ndirblks (fnat g); nindirlev (fnat g)]
  ++ bmap (fnat g).

(** C39. Writing a dirty file object back and loading its header into another
    object gives the same owner, mode, size, link and block counts, times and
    block map; the device number, however, comes back as zero, since
    [nat_syncfso] clears the header and does not store [rdev]. *)
Theorem nat_syncfso_reload i j dv g f k :
  k_fso k !! i = Some g -> bam_ok k (f_fs g) f dv -> ~ in_bam (nat_ f) (index g) ->
  bl_range (k_blk k) dv (index g) -> dirty g = true -> insecure f = false -> fso_fits g -> j <> i ->
  wp (nat_syncfso i;;; modify (fun k => with_fso (<[j := new_fso (f_fs g) (index g)]> (k_fso k)) k);;; nat_getfso j)
    (fun _ k' => exists g', k_fso k' !! j = Some g' /\ meta g' = meta g /\ rdev g' = 0)
    (fun e _ => e <> 0) k.
Proof.
  intros Hg Hk Hnb Hr Hd Hi Hf Hne. eapply wp_seq; [eapply nat_syncfso_ok; [done..|apply Hf|done]| |done].
  cbn beta. intros [] k1 (s1 & -> & Hup). apply wp_bind. unfold wp at 1. cbn [modify].
  destruct (bam_ok_upd k (f_fs g) f dv (index g) _ s1 Hk Hnb Hup) as [Hk1 _].
  set (k2 := with_fso _ _).
  assert (Hk2 : bam_ok k2 (f_fs g) f dv) by (destruct Hk1; by split).
  eapply wp_mono; [apply (nat_getfso_ok j dv (new_fso (f_fs g) (index g)) f k2); [apply lookup_insert_eq|done..]| |by intros ?? []].
  intros [] k3 (s3 & _ & ->). eexists. split; [apply lookup_insert_eq|].
  assert (dsk k2 dv (index g) = encode (store_header false g)) as E.
  { destruct Hup as (_ & U2 & _). unfold dsk, k2. cbn. rewrite U2, disk_upd_eq, Hi. done. }
  cbn [index new_fso]. rewrite E, decode_encode, Hi by (by apply store_header_ok).
  destruct Hf. split; [|done]. unfold meta. cbn. rewrite !s64_id, !u32_small by done. done.
Qed.
End ok.
