(* ===== verification/NatMount.v ===== *)
(** Mounting and unmounting natfs (kern/fs/nat/mount.c) and the entry points of
    its [struct fstype] that the file-system independent layer calls
    (kern/fs/nat/main.c). *)

From S2P Require Import Prelude BlockDev BlockIface Kern NatBam NatBamOk NatBmap NatBmapOk Vfs Pipe NatFso.

(** * The superblock (struct nat_super, block 1) *)

Definition NAT_MAGIC : list Z := [66; 69; 51; 50; 85; 76; 70; 0].
Definition SB_DIRTY : Z := 32.

Definition sb_nat (sb : list Z) (n : fs_nat) : fs_nat :=
  FsNat (get32 sb 8) (get32 sb 12) (get32 sb 16) (get32 sb 20) (get32 sb 24) (get32 sb 16)
    (bam_buf n) 0 false (rd8 sb 28) (rd8 sb 29).
Definition sb_magic (sb : list Z) : bool := bool_decide (mem_read sb 0 8 = NAT_MAGIC).

Section ops.
Context {S : Type} `{BlockLayer S}.

Definition nat_mount (i : nat) : M (kern S) unit :=
  d <~ get_dev i;;
  sbb <~ blk (bl_read d 1);;
  sb <~ gets (fun k => bl_data sbb (k_blk k));;
  if negb (sb_magic sb) then blk (bl_put sbb);;; fail EINVAL
  else
    upd_nat i (sb_nat sb);;;
    f <~ get_fs i;;
    (if negb (read_only f) then
       blk (bl_modify sbb (fun b => put32 b SB_DIRTY 1));;;
       _ <~ status (blk (bl_write sbb));; ret tt
     else ret tt);;;
    blk (bl_put sbb).

Definition nat_umount (i : nat) : M (kern S) unit :=
  f <~ get_fs i;;
  if negb (read_only f) then
    status (nat_sync_bam i);;;
    d <~ get_dev i;;
    r <~ attempt (blk (bl_read d 1));;
    match r with
    | inl _ => ret tt
    | inr sbb =>
      blk (bl_modify sbb (fun b => put32 b SB_DIRTY 0));;;
      status (blk (bl_write sbb));;;
      blk (bl_put sbb)
    end
  else ret tt.

(** ** The type table: natfs and pipes *)

Definition NATFS : nat := 1.
Definition PIPEFS : nat := 2.
Definition nat_name : list Z := [110; 97; 116; 105; 118; 101].
Definition pipe_name : list Z := [112; 105; 112; 101].

Definition on_type {A} (t : nat) (n p : M (kern S) A) : M (kern S) A :=
  if (t =? NATFS)%nat then n else if (t =? PIPEFS)%nat then p else halted Undefined.

(** The entry points [pipe_syncfso] and [pipe_sync] fail with ENOSYS, and
    [pipe_chk_perm] grants everything. *)
#[export] Instance nat_low : FsLow S := {
  ft_getfso t i := on_type t (nat_getfso i) (pipe_getfso i);
  ft_putfso t i := on_type t (nat_putfso i) (pipe_putfso i);
  ft_syncfso t i := on_type t (nat_syncfso i) (fail ENOSYS);
  ft_sync t i := on_type t (nat_sync i) (fail ENOSYS);
  ft_chk_perm t i mode uid gid := on_type t (nat_chk_perm i mode uid gid) (ret tt);
  ft_name t := if (t =? NATFS)%nat then nat_name else if (t =? PIPEFS)%nat then pipe_name else [];
}.
End ops.

(** * Correctness *)

Section ok.
Context {S : Type} `{HS : BlockLayerOk S}.
Implicit Types (k : kern S) (f : fs).

(** What [nat_mount] relies on of the device and of the superblock it finds. *)
Record mountable k (i : nat) f (dv : nat) : Prop := Mountable {
  mt_fs : k_fs k !! i = Some f;
  mt_dev : dev f = Some dv;
  mt_inv : bl_inv (k_blk k);
  mt_bdev : bl_dev (k_blk k) dv;
  mt_pins : pins_valid (bl_pins (k_blk k));
  mt_room : room 1 (k_blk k);
  mt_buf : bytes_ok BLK_SIZE (bam_buf (nat_ f));
  mt_range : bl_range (k_blk k) dv 1;
  mt_magic : sb_magic (dsk k dv 1) = true;
  mt_geom : geom_ok (sb_nat (dsk k dv 1) (nat_ f));
  mt_super : 1 < get32 (dsk k dv 1) 8;
  mt_bam : forall nr, in_bam (sb_nat (dsk k dv 1) (nat_ f)) nr -> bl_range (k_blk k) dv nr
}.

(** The state of the kernel, the file system and one block of its device apart. *)
Definition only_fs (i : nat) (dv : nat) (nr : Z) k f' k' : Prop :=
  k' = with_fs (<[i := f']> (k_fs k)) (with_blk (k_blk k') k) /\
  (forall d n, d <> dv \/ n <> nr -> bl_disk (k_blk k') d n = bl_disk (k_blk k) d n).

Lemma bytes_ok_flag b v : bytes_ok BLK_SIZE b -> bytes_ok BLK_SIZE (put32 b SB_DIRTY v).
Proof. intros Hb. apply bytes_ok_put32; [done|unfold SB_DIRTY; lia|unfold SB_DIRTY, BLK_SIZE; lia]. Qed.

Lemma pinned_lookup dv nr bb (s s1 : S) :
  pinned dv nr bb s s1 -> bl_pins s1 !! bb = Some (Pin (pin_cnt (bl_pins s !! bb) + 1) dv nr true).
Proof. intros (_ & _ & _ & _ & _ & -> & _). apply lookup_insert_eq. Qed.

(** The superblock flag set in the held buffer and written through. *)
Lemma flag_write_ok k dv bb s s1 v (Q : unit -> kern S -> Prop) E :
  pinned dv 1 bb s s1 -> bl_inv (k_blk k) -> bl_pins (k_blk k) = bl_pins s1 -> bl_range (k_blk k) dv 1 ->
  (forall s', bl_upd dv 1 (put32 (bl_disk (k_blk k) dv 1) SB_DIRTY v) (k_blk k) s' -> Q tt (with_blk s' k)) ->
  wp (blk (bl_modify bb (fun b => put32 b SB_DIRTY v));;; _ <~ status (blk (bl_write bb));; ret tt) Q E k.
Proof.
  intros Hp Hi Hpn Hr HQ. pose proof (pinned_lookup _ _ _ _ _ Hp) as Hl. rewrite <- Hpn in Hl.
  apply wp_bind, wp_blk. eapply wp_mono; [eapply (bl_modify_ok (k_blk k) bb); [done|exact Hl|done| |done]| |done].
  { cbn [p_dev p_nr]. apply bytes_ok_flag, bl_disk_ok, Hi. }
  cbn [p_dev p_nr]. intros [] s2 (U1 & U2 & U3 & U4 & U5 & U6).
  apply wp_bind, wp_status, wp_blk. eapply wp_mono; [eapply (bl_write_ok s2 bb); [done|rewrite U6; exact Hl|done]| |done].
  intros [] s3 (V1 & V2 & V3 & V4 & V5 & V6). apply wp_ret. cbn. apply HQ.
  split; [done|]. split_and!; [intros; by rewrite V2|auto|auto|congruence|congruence].
Qed.

(** The disk after a mount or unmount: the flag of the superblock may differ. *)
Definition sb_flag k k' (dv : nat) (v : Z) : Prop :=
  (forall d n, d <> dv \/ n <> 1 -> bl_disk (k_blk k') d n = bl_disk (k_blk k) d n) /\
  bl_disk (k_blk k') dv 1 = put32 (bl_disk (k_blk k) dv 1) SB_DIRTY v.

Lemma mount_bam_ok k i f dv k' f' :
  mountable k i f dv -> f' = set_nat (sb_nat (dsk k dv 1) (nat_ f)) f ->
  k_fs k' !! i = Some f' -> bl_inv (k_blk k') -> (forall d, bl_dev (k_blk k) d -> bl_dev (k_blk k') d) ->
  (forall d n, bl_range (k_blk k) d n -> bl_range (k_blk k') d n) ->
  bl_count (k_blk k') = bl_count (k_blk k) -> bl_pins (k_blk k') = bl_pins (k_blk k) ->
  bam_ok k' i f' dv.
Proof.
  intros [M1 M2 M3 M4 M5 M6 M7 M8 M9 M10 M11 M12] -> Hf Hi Hd Hr Hc Hp. split; try done; cbn.
  - by apply Hd.
  - by rewrite Hp.
  - unfold room. by rewrite Hc, Hp.
  - intros nr Hnr. by apply Hr, M12.
  - by left.
Qed.

Lemma nat_mount_ok k i f dv :
  mountable k i f dv ->
  wp (nat_mount i)
    (fun _ k' => let f' := set_nat (sb_nat (dsk k dv 1) (nat_ f)) f in
       bam_ok k' i f' dv /\ k' = with_fs (<[i := f']> (k_fs k)) (with_blk (k_blk k') k) /\
       (if read_only f then forall d n, bl_disk (k_blk k') d n = bl_disk (k_blk k) d n else sb_flag k k' dv 1))
    (fun e k' => e <> 0 /\ bl_same (k_blk k) (k_blk k') /\ k' = with_blk (k_blk k') k) k.
Proof.
  intros Hm. pose proof Hm as [M1 M2 M3 M4 M5 M6 M7 M8 M9 M10 M11 M12]. unfold nat_mount.
  apply wp_bind, (wp_get_dev i f dv); [done..|]. apply wp_bind, wp_blk. unfold room in M6.
  eapply wp_mono; [apply bl_read_ok; [done..|lia]| |].
  2: { intros e s1 (He & U1 & U2 & U3 & U4 & U5 & U6). split; [done|]. split; [|done]. split; [done|]. by split_and!. }
  intros bb s1 (U1 & U2 & U3 & U4 & U5 & U6 & U7).
  assert (Hp : pinned dv 1 bb (k_blk k) s1).
  { split_and!; try done. intros p Hl. destruct (U7 p Hl). split_and!; [done|done|by apply (M5 bb)|by apply (bl_pin_pos (k_blk k) bb)]. }
  pose proof (pinned_lookup _ _ _ _ _ Hp) as Hlk. apply wp_bind, wp_gets. cbn [k_blk with_blk].
  rewrite (bl_data_valid s1 bb _ U1 Hlk) by done. cbn [p_dev p_nr]. rewrite U2. fold (dsk k dv 1). rewrite M9. cbn [negb].
  apply wp_bind, (wp_upd_nat i f); [done|]. set (f' := set_nat (sb_nat (dsk k dv 1) (nat_ f)) f).
  apply wp_bind, (wp_get_fs i f'); [cbn; apply lookup_insert_eq|]. change (read_only f') with (read_only f).
  apply wp_bind. set (k1 := with_fs _ _).
  assert (Hend : forall s2 (P : kern S -> Prop), bl_inv s2 -> bl_pins s2 = bl_pins s1 -> bl_count s2 = bl_count s1 ->
    (forall d n, bl_range s1 d n -> bl_range s2 d n) -> (forall d, bl_dev s1 d -> bl_dev s2 d) ->
    (forall s3, (forall d n, bl_disk s3 d n = bl_disk s2 d n) -> P (with_blk s3 k1)) ->
    wp (blk (bl_put bb)) (fun _ k' => bam_ok k' i f' dv /\ k' = with_fs (<[i := f']> (k_fs k)) (with_blk (k_blk k') k) /\ P k')
      (fun _ _ => False) (with_blk s2 k1)).
  { intros s2 P I2 P2 C2 R2 D2 HP. eapply unpin_put_ok; [exact Hp|done|cbn; congruence|].
    intros s3 V1 V2 V3 V4 V5 V6. cbn in V2, V3, V4, V5. split; [|split; [done|by apply HP]].
    eapply (mount_bam_ok k i f dv); [done|done|cbn; apply lookup_insert_eq|done| | |cbn; congruence|done].
    - intros. cbn. auto.
    - intros. cbn. auto. }
  destruct (read_only f); cbn [negb].
  - apply wp_ret. eapply wp_mono; [apply (Hend s1 (fun k' => forall d n, bl_disk (k_blk k') d n = bl_disk (k_blk k) d n)); [done..|]|done|done].
    intros s3 V2 d n. cbn. by rewrite V2, U2.
  - eapply flag_write_ok; [exact Hp|done|done|by apply U3|]. cbn [k_blk with_fs with_blk k1].
    intros s2 (W1 & W2 & W3 & W4 & W5 & W6).
    eapply wp_mono; [apply (Hend s2 (fun k' => sb_flag k k' dv 1)); [done..|]|done|done].
    intros s3 V2. split.
    + intros d n Hdn. cbn. rewrite V2, W2, disk_upd_ne by done. apply U2.
    + cbn. by rewrite V2, W2, disk_upd_eq, U2.
Qed.

Lemma nat_umount_ok k i f dv :
  bam_ok k i f dv -> 1 < bam_block (nat_ f) -> bl_range (k_blk k) dv 1 -> read_only f = false ->
  wp (nat_umount i)
    (fun _ k' => exists f', bam_ok k' i f' dv /\ f' = set_nat (nat_ f') f /\ geom (nat_ f') = geom (nat_ f) /\
       k' = with_fs (<[i := f']> (k_fs k)) (with_blk (k_blk k') k) /\
       (forall d nr, bl_range (k_blk k) d nr -> bl_range (k_blk k') d nr) /\
       (forall j, 0 <= j < bam_size (nat_ f) -> dsk k' dv (bam_block (nat_ f) + j) = lbam (nat_ f) (dsk k dv) j) /\
       (forall d n, d <> dv \/ ~ in_bam (nat_ f) n /\ n <> 1 -> dsk k' d n = dsk k d n) /\
       (dsk k' dv 1 = put32 (dsk k dv 1) SB_DIRTY 0 \/ dsk k' dv 1 = dsk k dv 1))
    (fun _ _ => False) k.
Proof.
  intros Hk Hb1 Hr1 Hro. unfold nat_umount. apply wp_bind, (wp_get_fs i f); [apply Hk|]. rewrite Hro. cbn [negb].
  apply wp_bind, wp_status. eapply wp_mono; [by apply nat_sync_bam_ok| |done].
  intros _ k1 (f1 & St & Sa & Hd1 & _). pose proof (bs_ok _ _ _ _ _ _ St) as Hk1.
  pose proof (bs_geom _ _ _ _ _ _ St) as Hg. destruct (geom_eq _ _ Hg) as (Eb & Es & _).
  assert (Hn1 : ~ in_bam (nat_ f1) 1) by (rewrite (geom_in_bam _ _ 1 Hg); unfold in_bam; lia).
  assert (Hbam : forall j, 0 <= j < bam_size (nat_ f) -> dsk k1 dv (bam_block (nat_ f) + j) = lbam (nat_ f) (dsk k dv) j).
  { intros j Hj. rewrite <- (Sa j Hj). unfold lbam. rewrite Eb.
    destruct (Z.eqb_spec (bam_curr (nat_ f1)) (bam_block (nat_ f) + j)) as [E|]; [|done].
    rewrite <- E, (bo_clean _ _ _ _ Hk1); [done|done|]. lia. }
  assert (H1 : dsk k1 dv 1 = dsk k dv 1).
  { apply (bs_disk _ _ _ _ _ _ St). right. by rewrite <- (geom_in_bam _ _ 1 Hg). }
  (** The rest is a read of block 1, a write of its flag, or nothing. *)
  assert (Hpost : forall s', bl_upd dv 1 (put32 (dsk k1 dv 1) SB_DIRTY 0) (k_blk k1) s' \/ bl_same (k_blk k1) s' ->
    let k' := with_blk s' k1 in
    exists f', bam_ok k' i f' dv /\ f' = set_nat (nat_ f') f /\ geom (nat_ f') = geom (nat_ f) /\
       k' = with_fs (<[i := f']> (k_fs k)) (with_blk (k_blk k') k) /\
       (forall d nr, bl_range (k_blk k) d nr -> bl_range (k_blk k') d nr) /\
       (forall j, 0 <= j < bam_size (nat_ f) -> dsk k' dv (bam_block (nat_ f) + j) = lbam (nat_ f) (dsk k dv) j) /\
       (forall d n, d <> dv \/ ~ in_bam (nat_ f) n /\ n <> 1 -> dsk k' d n = dsk k d n) /\
       (dsk k' dv 1 = put32 (dsk k dv 1) SB_DIRTY 0 \/ dsk k' dv 1 = dsk k dv 1)).
  { intros s' Hs k'. exists f1.
    assert (bam_ok k' i f1 dv /\ (forall d n, bl_range (k_blk k1) d n -> bl_range s' d n) /\
      (forall d n, d <> dv \/ n <> 1 -> dsk k' d n = dsk k1 d n) /\
      (dsk k' dv 1 = put32 (dsk k dv 1) SB_DIRTY 0 \/ dsk k' dv 1 = dsk k dv 1)) as (O & R & D & D1).
    { rewrite <- H1. destruct Hs as [Hs|Hs]; pose proof Hs as (V1 & V2 & V3 & V4 & V5 & V6).
      - split_and!; [by eapply bam_ok_upd|done| |left]; unfold dsk; cbn; intros; rewrite V2.
        + by apply disk_upd_ne.
        + apply disk_upd_eq.
      - split_and!; [apply (bam_ok_same k1 i f1 dv s' Hk1 Hs)|done| |right]; unfold dsk; cbn; intros; by rewrite V2. }
    split; [done|]. split; [apply St|]. split; [done|]. split; [|split; [|split; [|split; [|done]]]].
    - unfold k'. rewrite (bs_eq _ _ _ _ _ _ St). done.
    - intros d nr Hr. apply R, (bs_range _ _ _ _ _ _ St), Hr.
    - intros j Hj. rewrite D by lia. by apply Hbam.
    - intros d n [Hdn|[Hn Hn']]; (rewrite D; [apply (bs_disk _ _ _ _ _ _ St); auto|auto]). }
  apply wp_bind, (wp_get_dev i f1 dv); [apply Hk1..|]. apply wp_bind, wp_attempt.
  eapply pin_read_ok; [exact Hk1| |].
  2: { intros e s' _ Hs. apply wp_ret. by apply Hpost; right. }
  intros bb s1 Hp. pose proof Hp as (P1 & P2 & P3 & P4 & P5 & P6 & P7).
  assert (Hseq : forall Q E, wp ((blk (bl_modify bb (fun b => put32 b SB_DIRTY 0));;; _ <~ status (blk (bl_write bb));; ret tt);;; blk (bl_put bb)) Q E (with_blk s1 k1) ->
    wp (blk (bl_modify bb (fun b => put32 b SB_DIRTY 0));;; status (blk (bl_write bb));;; blk (bl_put bb)) Q E (with_blk s1 k1)).
  { intros Q E. unfold wp, bind, status, ret. destruct (blk (bl_modify bb _) (with_blk s1 k1)); [|done..].
    by destruct (blk (bl_write bb) s). }
  apply Hseq. apply wp_bind. eapply flag_write_ok; [exact Hp|done|done| |].
  { cbn. by apply P3, (bs_range _ _ _ _ _ _ St). }
  cbn [k_blk with_blk]. intros s2 (W1 & W2 & W3 & W4 & W5 & W6).
  eapply unpin_put_ok; [exact Hp|done|done|]. intros s3 V1 V2 V3 V4 V5 V6. cbn in V2, V3, V4, V5.
  apply Hpost. left. split; [done|]. split_and!.
  - intros d n. rewrite V2, W2, P2. unfold disk_upd. destruct (decide _); [done|]. apply P2.
  - auto.
  - auto.
  - congruence.
  - done.
Qed.

(** The superblock fields do not include the flag. *)
Lemma sb_nat_flag b v n : bytes_ok BLK_SIZE b -> sb_nat (put32 b SB_DIRTY v) n = sb_nat b n /\ sb_magic (put32 b SB_DIRTY v) = sb_magic b.
Proof.
  intros [Hl _]. unfold BLK_SIZE, SB_DIRTY in *.
  assert (Hr : forall i, 0 <= i < 32 -> rd8 (put32 b 32 v) i = rd8 b i).
  { intros i Hi. unfold put32. rewrite rd8_mem_write by (cbn; lia). by rewrite decide_False by lia. }
  split.
  - unfold sb_nat, get32. by rewrite !Hr by lia.
  - unfold sb_magic. assert (mem_read (put32 b 32 v) 0 8 = mem_read b 0 8) as ->; [|done].
    unfold put32, mem_write, mem_read. rewrite !drop_0.
    rewrite take_app_le by (rewrite length_take; lia). rewrite take_take. done.
Qed.

(** The mounted file system agrees with its superblock. *)
Definition described k f (dv : nat) : Prop :=
  sb_magic (dsk k dv 1) = true /\ geom (sb_nat (dsk k dv 1) (nat_ f)) = geom (nat_ f) /\ 1 < bam_block (nat_ f).

(** C38. The allocation map survives unmounting and mounting again: a block is
    marked used after the new mount exactly when it was before the unmount,
    whatever part of the map was still unwritten in [bam_buf], and no block
    outside the map and the superblock changes. *)
Theorem nat_remount k i f dv :
  bam_ok k i f dv -> described k f dv -> bl_range (k_blk k) dv 1 -> read_only f = false ->
  wp (nat_umount i;;; nat_mount i)
    (fun _ k' => exists f', bam_ok k' i f' dv /\ geom (nat_ f') = geom (nat_ f) /\
       (forall nr, mapped_blk f nr -> is_used k' f' dv nr = is_used k f dv nr) /\
       (forall d n, d <> dv \/ ~ in_bam (nat_ f) n /\ n <> 1 -> dsk k' d n = dsk k d n))
    (fun e _ => e <> 0) k.
Proof.
  intros Hk (Hmg & Hgm & Hb1) Hr1 Hro. eapply wp_seq; [by apply nat_umount_ok| |done].
  intros [] k1 (f1 & Hk1 & Ef1 & Hg1 & Ek1 & Hr & Hbam & Hx & Hsb).
  destruct (geom_eq _ _ Hg1) as (Eb & Es & _).
  assert (Hbo : bytes_ok BLK_SIZE (dsk k dv 1)) by apply bl_disk_ok, Hk.
  assert (geom (sb_nat (dsk k1 dv 1) (nat_ f1)) = geom (nat_ f) /\ sb_magic (dsk k1 dv 1) = true) as [Hgs Hms].
  { destruct Hsb as [-> | ->]; [destruct (sb_nat_flag (dsk k dv 1) 0 (nat_ f1) Hbo) as [-> ->]|]; split; try done; rewrite <- Hgm; done. }
  destruct (geom_eq _ _ Hgs) as (Eb2 & Es2 & _).
  assert (Hm : mountable k1 i f1 dv).
  { pose proof Hk1 as [G1 G2 G3 G4 G5 G6 G7 G8 G9 G10 G11 G12]. split; try done.
    - by apply Hr.
    - eapply geom_geom_ok; [exact Hgs|apply Hk].
    - cbn [sb_nat bam_block] in Eb2. rewrite Eb2. done.
    - intros nr Hnr. apply G8. unfold in_bam in *. rewrite Eb2, Es2 in Hnr. by rewrite Eb, Es. }
  eapply wp_mono; [by apply (nat_mount_ok k1 i f1 dv)| |by intros ?? []].
  intros [] k2 (Hk2 & _ & Hd2). assert (read_only f1 = false) as Hro1 by (by rewrite Ef1). rewrite Hro1 in Hd2.
  destruct Hd2 as [Hd2 _]. set (f2 := set_nat (sb_nat (dsk k1 dv 1) (nat_ f1)) f1) in *. exists f2. split; [exact Hk2|]. split; [exact Hgs|]. split.
  - intros nr Hnr. pose proof (mapped_div _ _ Hnr) as Hj. unfold is_used, used.
    assert (lbam (nat_ f2) (dsk k2 dv) (nr / BPB) = lbam (nat_ f) (dsk k dv) (nr / BPB)) as ->; [|done].
    rewrite <- Hbam by done. unfold lbam at 1. cbn [f2 nat_ set_nat bam_curr sb_nat].
    change (get32 (dsk k1 dv 1) 8) with (bam_block (sb_nat (dsk k1 dv 1) (nat_ f1))). cbn [bam_block sb_nat] in *.
    rewrite Eb2. rewrite (proj2 (Z.eqb_neq _ _)) by lia. apply Hd2. right. lia.
  - intros d n Hdn. rewrite <- Hx by done. apply Hd2. destruct Hdn as [|[]]; auto.
Qed.
End ok.
