(* ===== verification/NatDir.v ===== *)
(** Directories of natfs (kern/fs/nat/dir.c).

    A path is the list of its characters, without the terminating NUL; a
    directory block is an array of 16 entries of 32 bytes, a name of at most 27
    characters padded with NULs and the 32-bit number of the header block.  A
    [struct dirent_ptr] is the held buffer and the offset of the entry in it:
    entries are read and cleared through the buffer, so that two pointers into
    one block see each other's changes. *)

From S2P Require Import Prelude BlockDev BlockIface Kern NatBam NatBmap Vfs NatFso.

Definition NAT_NAME_MAX : Z := 27.
Definition NAT_DIR_SIZE_MAX : Z := 0x100000.
Definition NAT_D_PER_BLOCK : Z := 16.
Definition SLASH : Z := 47.
Definition DOT : Z := 46.

(** * Strings *)

(** The C string at an offset of a block. *)
Fixpoint cstr (l : list Z) : list Z :=
  match l with [] => [] | c :: l' => if c =? 0 then [] else c :: cstr l' end.

(** [strchr (p, '/')]: the part before the first slash and the part after it. *)
Fixpoint split_slash (p : list Z) : option (list Z * list Z) :=
  match p with
  | [] => None
  | c :: p' =>
    if c =? SLASH then Some ([], p')
    else match split_slash p' with Some (a, b) => Some (c :: a, b) | None => None end
  end.

(** [basename]: what follows the last slash. *)
Fixpoint basename (p : list Z) : list Z :=
  match split_slash p with
  | None => p
  | Some _ => match p with [] => [] | _ :: p' => basename p' end
  end.

(** * Directory entries *)

Definition de_off (j : Z) : Z := 32 * j.
Definition de_name (b : list Z) (off : Z) : list Z := cstr (drop (Z.to_nat off) b).
Definition de_first (b : list Z) (off : Z) : Z := get32 b (off + 28).
(** [memset] of the entry, [strcpy] of the name and [first_block]. *)
Definition de_bytes (name : list Z) (first : Z) : list Z :=
  name ++ zeros (28 - Z.of_nat (length name)) ++ le32 first.
Definition de_put (off : Z) (name : list Z) (first : Z) (b : list Z) : list Z := mem_write b off (de_bytes name first).
Definition de_clear (off : Z) (b : list Z) : list Z := mem_write b off (zeros 32).

Definition de_match (b : list Z) (off : Z) (name : list Z) : bool :=
  negb (de_first b off =? 0) && bool_decide (de_name b off = name).

(** The scan of a block's last [n] entries for a name. *)
Fixpoint find_de (n : nat) (b : list Z) (name : list Z) : option Z :=
  match n with
  | O => None
  | S n' =>
    let off := de_off (NAT_D_PER_BLOCK - Z.of_nat n) in
    if de_match b off name then Some off else find_de n' b name
  end.
(** ... for a free entry, and for any entry in use. *)
Fixpoint find_free (n : nat) (b : list Z) : option Z :=
  match n with
  | O => None
  | S n' =>
    let off := de_off (NAT_D_PER_BLOCK - Z.of_nat n) in
    if de_first b off =? 0 then Some off else find_free n' b
  end.
Fixpoint find_used (n : nat) (b : list Z) : bool :=
  match n with
  | O => false
  | S n' =>
    if negb (de_first b (de_off (NAT_D_PER_BLOCK - Z.of_nat n)) =? 0) then true else find_used n' b
  end.

Section ops.
Context {S : Type} `{BlockLayer S} `{FsLow S}.

Definition perm (i : nat) (m : Z) : M (kern S) unit :=
  c <~ gets k_curr;; fs_chk_perm i m (euid c) (egid c).

(** [nat_bmap] of an existing block, then [blk_read]. *)
Definition dir_block (i : nat) (log : Z) : M (kern S) nat :=
  nat_bmap i log false;;;
  g <~ get_fso i;;
  d <~ get_dev (f_fs g);;
  blk (bl_read d (bmap_phys (fnat g))).

Definition buf_now (bb : nat) : M (kern S) (list Z) := gets (fun k => bl_data bb (k_blk k)).

(** The loops over the blocks [log], [log + 1], ... of a directory, [n] of them. *)
Fixpoint find_loop (n : nat) (i : nat) (log : Z) (name : list Z) : M (kern S) (nat * Z) :=
  match n with
  | O => fail ENOENT
  | Datatypes.S n' =>
    bb <~ dir_block i log;;
    b <~ buf_now bb;;
    match find_de 16 b name with
    | Some off => ret (bb, off)
    | None => blk (bl_put bb);;; find_loop n' i (log + 1) name
    end
  end.

Definition find_entry (i : nat) (name : list Z) : M (kern S) (nat * Z) :=
  g <~ get_fso i;;
  if negb (S_ISDIR (mode g)) then fail ENOTDIR
  else
    perm i X_OK;;;
    find_loop (Z.to_nat (size g / BLK_SIZE)) i 0 name.

(** The first pass of [new_entry]: EEXIST, or the block and offset of the first
    free entry.  A block is scanned in full, and a free entry noted, before the
    next one is read. *)
Fixpoint scan_loop (n : nat) (i : nat) (log : Z) (name : list Z) (free : option (Z * Z))
    : M (kern S) (option (Z * Z)) :=
  match n with
  | O => ret free
  | Datatypes.S n' =>
    bb <~ dir_block i log;;
    b <~ buf_now bb;;
    g <~ get_fso i;;
    match find_de 16 b name with
    | Some _ => blk (bl_put bb);;; fail EEXIST
    | None =>
      let free :=
        match free with
        | Some _ => free
        | None =>
          match find_free 16 b with
          | Some off => if bmap_phys (fnat g) =? 0 then None else Some (bmap_phys (fnat g), off)
          | None => None
          end
        end in
      blk (bl_put bb);;;
      scan_loop n' i (log + 1) name free
    end
  end.

Definition new_entry (i : nat) (name : list Z) (first : Z) : M (kern S) unit :=
  g <~ get_fso i;;
  if negb (S_ISDIR (mode g)) then fail ENOTDIR
  else if bool_decide (name = []) then fail EEXIST
  else
    perm i (Z.lor X_OK W_OK);;;
    if NAT_NAME_MAX <? Z.of_nat (length name) then fail ENAMETOOLONG
    else
      free <~ scan_loop (Z.to_nat (size g / BLK_SIZE)) i 0 name None;;
      ' (bb, off) <~
        match free with
        | Some (nr, off) =>
          d <~ get_dev (f_fs g);;
          bb <~ blk (bl_read d nr);;
          ret (bb, off)
        | None =>
          if NAT_DIR_SIZE_MAX <? size g + BLK_SIZE then fail EFBIG
          else
            nat_bmap i (u32 (size g / BLK_SIZE)) true;;;
            g <~ get_fso i;;
            d <~ get_dev (f_fs g);;
            bb <~ blk (bl_get d (bmap_phys (fnat g)));;
            blk (bl_fill bb (zeros BLK_SIZE));;;
            upd_fso i (fun g => set_dirty true (set_size (u64 (size g + BLK_SIZE)) g));;;
            ret (bb, 0)
        end;;
      t <~ gets k_time;;
      upd_fso i (fun g => set_dirty true (set_mtime t g));;;
      blk (bl_modify bb (de_put off name (u32 first)));;;
      blk (bl_put bb).

Fixpoint empty_loop (n : nat) (i : nat) (log : Z) : M (kern S) unit :=
  match n with
  | O => ret tt
  | Datatypes.S n' =>
    bb <~ dir_block i log;;
    b <~ buf_now bb;;
    blk (bl_put bb);;;
    if find_used 16 b then fail ENOTEMPTY else empty_loop n' i (log + 1)
  end.

Definition is_empty (i : nat) : M (kern S) unit :=
  g <~ get_fso i;;
  if negb (S_ISDIR (mode g)) then fail ENOTDIR
  else empty_loop (Z.to_nat (size g / BLK_SIZE)) i 0.

(** ** Path resolution *)

(** [fs_putfso] of an object that is not NULL; its result is always 0. *)
Definition put (i : nat) : M (kern S) unit := fs_putfso (Some i).

(** [fs_getfso] of the object an entry points at, then [blk_put] of its block. *)
Definition get_de (fsi : nat) (p : nat * Z) : M (kern S) nat :=
  b <~ buf_now p.1;;
  r <~ attempt (fs_getfso fsi (de_first b p.2));;
  blk (bl_put p.1);;;
  match r with inl e => fail e | inr i => ret i end.

(** The loop of [nat_lookup_dir]; a round consumes the slash it stops at, so
    [length p] rounds are enough.  [None]: the function returns 0 without
    setting [*f]. *)
Fixpoint lookup_loop (fuel : nat) (fsi : nat) (dir : nat) (p : list Z) : M (kern S) (option nat) :=
  match split_slash p with
  | None => ret (Some dir)
  | Some (name, p') =>
    match fuel with
    | O => halted Undefined
    | Datatypes.S fuel' =>
      if NAT_NAME_MAX <? Z.of_nat (length name) then put dir;;; ret None
      else
        r <~ attempt (find_entry dir name);;
        put dir;;;
        match r with
        | inl e => fail e
        | inr dptr => dir <~ get_de fsi dptr;; lookup_loop fuel' fsi dir p'
        end
    end
  end.

Definition nat_lookup_dir (fsi : nat) (p : list Z) : M (kern S) (option nat) :=
  n <~ get_nat fsi;;
  dir <~ fs_getfso fsi (root_block n);;
  lookup_loop (length p) fsi dir p.

Definition nat_lookup (fsi : nat) (p : list Z) : M (kern S) nat :=
  let bn := basename p in
  o <~ nat_lookup_dir fsi p;;
  dir <~ deref o;;
  if bool_decide (bn = []) then ret dir
  else
    r <~ attempt (find_entry dir bn);;
    put dir;;;
    match r with inl e => fail e | inr dptr => get_de fsi dptr end.

(** ** Operations on names *)

(** Run [m]; on an error do [clean] and return the error. *)
Definition or_clean {A} (clean : M (kern S) unit) (m : M (kern S) A) : M (kern S) A :=
  r <~ attempt m;;
  match r with inl e => clean;;; fail e | inr a => ret a end.

Definition creat_header (n : fs_nat) (c : task) (t mode rdev : Z) : nat_header :=
  NatHeader (u64 t) (u64 t) (u64 t) (euid c) (egid c) 0 (u32 mode) 1 1 rdev (n_ndirblks n) (n_nindirlev n)
    (replicate 114 0).

Definition nat_creat (fsi : nat) (name : list Z) (mode rdev : Z) : M (kern S) nat :=
  o <~ nat_lookup_dir fsi name;;
  dir <~ deref o;;
  or_clean (put dir) (perm dir W_OK);;;
  nr <~ or_clean (put dir) (nat_balloc fsi);;
  d <~ get_dev fsi;;
  n <~ get_nat fsi;;
  c <~ gets k_curr;;
  t <~ gets k_time;;
  or_clean (status (nat_bfree fsi nr);;; put dir)
    (blk (bb <~ bl_get d nr;;
          bl_fill bb (encode (creat_header n c t mode rdev));;;
          bl_put bb));;;
  r <~ attempt (new_entry dir (basename name) nr);;
  put dir;;;
  match r with
  | inl e => status (nat_bfree fsi nr);;; fail e
  | inr _ => fs_getfso fsi nr
  end.

(** [None]: the function returns 0 and leaves [*de] as it was. *)
Definition nat_readdir (i : nat) (idx : Z) : M (kern S) (option (Z * list Z)) :=
  if idx <? 0 then fail EINVAL
  else
    perm i R_OK;;;
    g <~ get_fso i;;
    if idx =? 0 then ret (Some (index g, [DOT]))
    else if idx =? 1 then ret (Some (index g, [DOT; DOT]))
    else
      let j := idx - 2 in
      if size g / 32 <=? j then fail ENOENT
      else
        r <~ attempt (nat_bmap i (j / NAT_D_PER_BLOCK) false);;
        match r with
        | inl _ => ret None
        | inr _ =>
          g <~ get_fso i;;
          d <~ get_dev (f_fs g);;
          r <~ attempt (blk (blk_pread d (bmap_phys (fnat g)) (32 * (j mod NAT_D_PER_BLOCK)) 32));;
          match r with
          | inl _ => ret None
          | inr nde => ret (Some (de_first nde 0, de_name nde 0))
          end
        end.

Definition nat_link (i : nat) (name : list Z) : M (kern S) unit :=
  f <~ get_fso i;;
  if S_ISDIR (mode f) then fail EISDIR
  else
    o <~ nat_lookup_dir (f_fs f) name;;
    dir <~ deref o;;
    r <~ attempt (new_entry dir (basename name) (index f));;
    put dir;;;
    match r with
    | inl e => fail e
    | inr _ =>
      t <~ gets k_time;;
      upd_fso i (fun f => set_dirty true (set_nlink (u32 (nlink f + 1)) (set_ctime t f)))
    end.

Definition clear_de (p : nat * Z) : M (kern S) unit := blk (bl_modify p.1 (de_clear p.2)).
Definition touch_dir (i : nat) : M (kern S) unit :=
  t <~ gets k_time;; upd_fso i (fun g => set_dirty true (set_mtime t g)).
Definition drop_link (i : nat) : M (kern S) unit :=
  upd_fso i (fun f => set_dirty true (set_nlink (u32 (nlink f - 1)) f)).

Definition nat_unlink (fsi : nat) (name : list Z) : M (kern S) unit :=
  o <~ nat_lookup_dir fsi name;;
  dir <~ deref o;;
  or_clean (put dir) (perm dir (Z.lor X_OK W_OK));;;
  dptr <~ or_clean (put dir) (find_entry dir (basename name));;
  b <~ buf_now dptr.1;;
  f <~ or_clean (blk (bl_put dptr.1);;; put dir) (fs_getfso fsi (de_first b dptr.2));;
  g <~ get_fso f;;
  if S_ISDIR (mode g) then
    blk (bl_put dptr.1);;; put dir;;; put f;;; fail EISDIR
  else
    clear_de dptr;;;
    blk (bl_put dptr.1);;;
    drop_link f;;;
    touch_dir dir;;;
    put dir;;;
    put f.

Definition nat_chdir (fsi : nat) (name : list Z) : M (kern S) unit :=
  dir <~ nat_lookup fsi name;;
  g <~ get_fso dir;;
  if negb (S_ISDIR (mode g)) then put dir;;; fail ENOTDIR
  else
    r <~ attempt (perm dir X_OK);;
    put dir;;;
    match r with inl e => fail e | inr _ => ret tt end.

Definition nat_mkdir (fsi : nat) (name : list Z) (mode : Z) : M (kern S) unit :=
  dir <~ nat_creat fsi name (Z.lor S_IFDIR (Z.land mode S_IRIGHTS)) 0;;
  put dir.

Definition nat_rmdir (fsi : nat) (name : list Z) : M (kern S) unit :=
  o <~ nat_lookup_dir fsi name;;
  parent <~ deref o;;
  or_clean (put parent) (perm parent (Z.lor X_OK W_OK));;;
  dir <~ or_clean (put parent) (nat_lookup fsi name);;
  or_clean (put parent;;; put dir) (is_empty dir);;;
  dptr <~ or_clean (put parent;;; put dir) (find_entry parent (basename name));;
  touch_dir parent;;;
  clear_de dptr;;;
  blk (bl_put dptr.1);;;
  drop_link dir;;;
  put parent;;;
  put dir.

(** ** Renaming *)

(** The replacement of an existing target: its link is dropped and its entry
    taken over.  [p] is the entry of the old name. *)
Definition rename_over (fsi : nat) (ndir : nat) (newname : list Z) (p : nat * Z) : M (kern S) unit :=
  np <~ find_entry ndir (basename newname);;
  b <~ buf_now np.1;;
  f <~ or_clean (blk (bl_put np.1)) (fs_getfso fsi (de_first b np.2));;
  g <~ get_fso f;;
  (if S_ISDIR (mode g) then or_clean (blk (bl_put np.1);;; put f) (is_empty f) else ret tt);;;
  drop_link f;;;
  put f;;;
  b <~ buf_now p.1;;
  let first := de_first b p.2 in
  blk (bl_modify np.1 (fun b =>
    let b := de_clear np.2 b in
    let first := if (np.1 =? p.1)%nat then de_first b p.2 else first in
    de_put np.2 (basename newname) first b));;;
  blk (bl_put np.1).

Definition clean_rename (p : option (nat * Z)) (odir ndir : option nat) : M (kern S) unit :=
  (match p with Some p => blk (bl_put p.1) | None => ret tt end);;;
  fs_putfso odir;;;
  fs_putfso ndir.

Definition nat_rename (fsi : nat) (oldname newname : list Z) : M (kern S) unit :=
  let plen := length oldname in
  if bool_decide (oldname = newname) then fail EINVAL
  else if bool_decide (take plen newname = oldname /\ newname !! plen = Some SLASH) then fail EINVAL
  else
    odir <~ nat_lookup_dir fsi oldname;;
    or_clean (clean_rename None odir None) (i <~ deref odir;; perm i (Z.lor X_OK W_OK));;;
    ndir <~ or_clean (clean_rename None odir None) (nat_lookup_dir fsi newname);;
    or_clean (clean_rename None odir ndir) (i <~ deref ndir;; perm i W_OK);;;
    oi <~ deref odir;;
    ni <~ deref ndir;;
    p <~ or_clean (clean_rename None odir ndir) (find_entry oi (basename oldname));;
    b <~ buf_now p.1;;
    err <~ status (new_entry ni (basename newname) (de_first b p.2));;
    (if err =? EEXIST then or_clean (clean_rename (Some p) odir ndir) (rename_over fsi ni newname p) else ret tt);;;
    let err := if err =? EEXIST then 0 else err in
    clear_de p;;;
    touch_dir oi;;;
    touch_dir ni;;;
    clean_rename (Some p) odir ndir;;;
    if err =? 0 then ret tt else fail err.
End ops.
