(* ===== verification/NatDirView.v ===== *)
(** What a natfs directory holds (kern/fs/nat/dir.c).

    A directory is a file of 32-byte entries; [dir_view] is the list of them, a
    name and the number of a header block each, an entry with number 0 being
    free.  The scans of a block are related to this list; [add_entry] is what
    adding a name means for it. *)

From S2P Require Import Prelude BlockDev BlockIface Kern Frame NatBam NatBamOk NatBmap NatTree NatBmapOk Vfs VfsOk NatRw NatRwOk NatWriteOk NatFile NatFso NatDir.

(** * Entries of one block *)

Definition entry_name (b : list Z) (i : Z) : list Z := de_name b (de_off i).
Definition entry_first (b : list Z) (i : Z) : Z := de_first b (de_off i).
Definition entry_is (b : list Z) (i : Z) (name : list Z) : Prop := entry_first b i <> 0 /\ entry_name b i = name.

Lemma de_match_spec b i name : de_match b (de_off i) name = true <-> entry_is b i name.
Proof. unfold de_match, entry_is, entry_first, entry_name. rewrite andb_true_iff, negb_true_iff, Z.eqb_neq, bool_decide_eq_true. done. Qed.

Lemma find_de_spec n b name : (n <= 16)%nat ->
  match find_de n b name with
  | Some off => exists i, 16 - Z.of_nat n <= i < 16 /\ off = de_off i /\ entry_is b i name /\
      forall i', 16 - Z.of_nat n <= i' < i -> ~ entry_is b i' name
  | None => forall i, 16 - Z.of_nat n <= i < 16 -> ~ entry_is b i name
  end.
Proof.
  induction n as [|n IH]; intros Hn; [intros i Hi; lia|]. cbn [find_de]. change NAT_D_PER_BLOCK with 16.
  destruct (de_match b (de_off (16 - Z.of_nat (S n))) name) eqn:Em.
  - apply de_match_spec in Em. exists (16 - Z.of_nat (S n)). split_and!; [lia|lia|done|done|]. intros i' Hi'. lia.
  - assert (~ entry_is b (16 - Z.of_nat (S n)) name) as Hno by (rewrite <- de_match_spec, Em; done).
    specialize (IH ltac:(lia)). destruct (find_de n b name) as [off|].
    + destruct IH as (i & Hi & -> & He & Hb). exists i. split_and!; [lia|lia|done|done|].
      intros i' Hi'. destruct (decide (i' = 16 - Z.of_nat (S n))) as [->|]; [done|]. apply Hb. lia.
    + intros i Hi. destruct (decide (i = 16 - Z.of_nat (S n))) as [->|]; [done|]. apply IH. lia.
Qed.
Lemma find_free_spec n b : (n <= 16)%nat ->
  match find_free n b with
  | Some off => exists i, 16 - Z.of_nat n <= i < 16 /\ off = de_off i /\ entry_first b i = 0 /\
      forall i', 16 - Z.of_nat n <= i' < i -> entry_first b i' <> 0
  | None => forall i, 16 - Z.of_nat n <= i < 16 -> entry_first b i <> 0
  end.
Proof.
  induction n as [|n IH]; intros Hn; [intros i Hi; lia|]. cbn [find_free]. change NAT_D_PER_BLOCK with 16.
  destruct (Z.eqb_spec (de_first b (de_off (16 - Z.of_nat (S n)))) 0) as [E|E].
  - exists (16 - Z.of_nat (S n)). split_and!; [lia|lia|done|done|]. intros i' Hi'. lia.
  - specialize (IH ltac:(lia)). destruct (find_free n b) as [off|].
    + destruct IH as (i & Hi & -> & He & Hb). exists i. split_and!; [lia|lia|done|done|].
      intros i' Hi'. destruct (decide (i' = 16 - Z.of_nat (S n))) as [->|]; [done|]. apply Hb. lia.
    + intros i Hi. destruct (decide (i = 16 - Z.of_nat (S n))) as [->|]; [done|]. apply IH. lia.
Qed.
Lemma find_used_spec n b : (n <= 16)%nat ->
  find_used n b = true <-> exists i, 16 - Z.of_nat n <= i < 16 /\ entry_first b i <> 0.
Proof.
  induction n as [|n IH]; intros Hn; [split; [done|intros (i & Hi & _); lia]|]. cbn [find_used]. change NAT_D_PER_BLOCK with 16.
  destruct (Z.eqb_spec (de_first b (de_off (16 - Z.of_nat (S n)))) 0) as [E|E]; cbn [negb].
  - rewrite IH by lia. split; intros (i & Hi & Hf); exists i; (split; [|done]); [lia|].
    destruct (decide (i = 16 - Z.of_nat (S n))) as [->|]; [done|lia].
  - split; [|done]. intros _. exists (16 - Z.of_nat (S n)). split; [lia|done].
Qed.

(** ** Writing an entry *)

Lemma cstr_app a l : Forall (fun c => c <> 0) a -> cstr (a ++ 0 :: l) = a.
Proof. induction 1 as [|c a Hc _ IH]; [done|]. cbn. rewrite (proj2 (Z.eqb_neq c 0)) by done. by rewrite IH. Qed.
(** A string that ends among the first bytes depends on them only. *)
Lemma cstr_take_le n l : (length (cstr (take n l)) < n)%nat -> (n <= length l)%nat -> cstr (take n l) = cstr l.
Proof.
  revert n. induction l as [|c l IH]; intros n Hn Hl; [by rewrite take_nil|]. destruct n as [|n]; [cbn in Hn; lia|].
  cbn in *. destruct (c =? 0); [done|]. cbn in Hn. rewrite IH; [done|lia|lia].
Qed.

Lemma length_de_bytes name x : Z.of_nat (length name) <= 28 -> length (de_bytes name x) = 32%nat.
Proof. intros Hn. unfold de_bytes, zeros, le32. rewrite !length_app, length_replicate. cbn. lia. Qed.
Lemma is_bytes_de name x : is_bytes name -> is_bytes (de_bytes name x).
Proof. intros Hn. unfold de_bytes. rewrite !Forall_app. split; [done|]. split; [by apply Forall_replicate|apply is_bytes_le32]. Qed.
Lemma get32_de_bytes name x : Z.of_nat (length name) <= 28 -> get32 (de_bytes name x) 28 = u32 x.
Proof.
  intros Hn. unfold de_bytes. rewrite app_assoc, <- (app_nil_r (le32 x)).
  replace 28 with (Z.of_nat (length (name ++ zeros (28 - Z.of_nat (length name)))) + 0) at 2.
  - rewrite get32_app_r by lia. apply get32_le32.
  - rewrite length_app. unfold zeros. rewrite length_replicate. lia.
Qed.
Lemma cstr_de_bytes name x : Forall (fun c => c <> 0) name -> Z.of_nat (length name) <= 27 -> cstr (de_bytes name x) = name.
Proof.
  intros Hc Hn. unfold de_bytes, zeros. replace (Z.to_nat (28 - Z.of_nat (length name))) with (S (Z.to_nat (27 - Z.of_nat (length name)))) by lia.
  by apply cstr_app.
Qed.
Lemma cstr_zeros n : cstr (zeros n) = [].
Proof. unfold zeros. by destruct (Z.to_nat n). Qed.

(** * Directories *)

(** An entry: its name and the number of its header block, 0 when it is free. *)
Definition dslot : Type := list Z * Z.
Definition named (name : list Z) (s : dslot) : Prop := s.2 <> 0 /\ s.1 = name.
Definition is_free (s : dslot) : Prop := s.2 = 0.
#[export] Instance named_dec name s : Decision (named name s).
Proof. unfold named. apply _. Defined.
#[export] Instance is_free_dec s : Decision (is_free s).
Proof. unfold is_free. apply _. Defined.

Definition find_name (name : list Z) (l : list dslot) : option (nat * dslot) := list_find (named name) l.
(** A name goes to the first free entry, or to the first of a new block of 16. *)
Definition add_entry (name : list Z) (x : Z) (l : list dslot) : list dslot :=
  match list_find is_free l with
  | Some (j, _) => <[j := (name, x)]> l
  | None => l ++ (name, x) :: replicate 15 ([], 0)
  end.
Definition del_entry (j : nat) (l : list dslot) : list dslot := <[j := ([], 0)]> l.
(** No name twice. *)
Definition unique (l : list dslot) : Prop :=
  forall j1 j2 s1 s2, l !! j1 = Some s1 -> l !! j2 = Some s2 -> s1.2 <> 0 -> named s1.1 s2 -> j1 = j2.

Section view.
Context {S : Type} `{HS : BlockLayerOk S}.
Implicit Types (k : kern S) (f : fs) (g : fso).

Definition dent k g (dv : nat) (j : Z) : dslot :=
  let e := file_bytes k g dv (32 * j) 32 in (cstr e, get32 e 28).
Definition dir_view k g (dv : nat) : list dslot := dent k g dv <$> seqZ 0 (size g / 32).

Lemma dir_view_lookup k g dv j s :
  dir_view k g dv !! j = Some s <-> Z.of_nat j < size g / 32 /\ s = dent k g dv (Z.of_nat j).
Proof.
  unfold dir_view. rewrite list_lookup_fmap. destruct (decide (Z.of_nat j < size g / 32)) as [Hj|Hj].
  - rewrite lookup_seqZ_lt by lia. cbn. split; [intros [= <-]; done|intros [_ ->]; done].
  - rewrite lookup_seqZ_ge by lia. cbn. split; [done|intros [? _]; lia].
Qed.

(** The entries depend on the bytes of the file only. *)
Lemma dent_ext k g k' g' dv j :
  (forall o, 32 * j <= o < 32 * j + 32 -> file_byte k' g' dv o = file_byte k g dv o) -> dent k' g' dv j = dent k g dv j.
Proof. intros He. unfold dent. by rewrite (file_bytes_ext k g k' g') by done. Qed.

(** The block of an entry. *)
Lemma dent_block k g dv log i :
  bl_inv (k_blk k) -> 0 <= i < 16 ->
  let b := node (dsk k dv) (fnat g) (data_key (fnat g) log) in
  b <> 0 -> file_bytes k g dv (32 * (16 * log + i)) 32 = mem_read (dsk k dv b) (32 * i) 32.
Proof.
  intros Hi Hj b Hb. set (o := 32 * (16 * log + i)).
  assert (Eo : o / BLK_SIZE = log /\ o mod BLK_SIZE = 32 * i).
  { unfold o, BLK_SIZE. replace (32 * (16 * log + i)) with (32 * i + log * 512) by lia.
    rewrite Z.div_add, Z.mod_add, Z.div_small, Z.mod_small by lia. done. }
  assert (El : rw_len o 32 = 32) by (unfold rw_len; rewrite (proj2 Eo), (proj2 (Z.ltb_ge _ _)); unfold BLK_SIZE; lia).
  pose proof (file_bytes_block k g dv o 32 ltac:(lia) Hi) as Hf. cbn zeta in Hf. rewrite El, (proj1 Eo), (proj2 Eo) in Hf.
  fold b in Hf. by rewrite (proj2 (Z.eqb_neq b 0)) in Hf.
Qed.

Lemma dent_entry k g dv log i :
  bl_inv (k_blk k) -> 0 <= i < 16 ->
  let b := node (dsk k dv) (fnat g) (data_key (fnat g) log) in
  b <> 0 -> Z.of_nat (length (dent k g dv (16 * log + i)).1) <= 27 ->
  dent k g dv (16 * log + i) = (entry_name (dsk k dv b) i, entry_first (dsk k dv b) i).
Proof.
  intros Hi Hj b Hb Hn. unfold dent in *. rewrite (dent_block k g dv log i Hi Hj Hb) in *. fold b in Hn |- *.
  destruct (bl_disk_ok (k_blk k) dv b Hi) as [Hl _]. fold (dsk k dv b) in Hl. unfold BLK_SIZE in Hl.
  unfold entry_name, entry_first, de_name, de_first, de_off, mem_read in *. cbn [fst] in Hn. f_equal.
  - apply cstr_take_le; [lia|rewrite length_drop; lia].
  - unfold get32. rewrite !rd8_take, !rd8_drop by lia. by rewrite !Z.add_assoc.
Qed.

(** A directory: no holes, whole blocks, names that end inside of their entry. *)
Record dir_file k (i : nat) g f (dv : nat) : Prop := DirFile {
  df_ok : file_ok k i g f dv;
  df_dir : S_ISDIR (mode g) = true;
  df_size : 0 <= size g <= NAT_DIR_SIZE_MAX;
  df_blocks : size g mod BLK_SIZE = 0;
  df_full : forall log, 0 <= log < size g / BLK_SIZE -> node (dsk k dv) (fnat g) (data_key (fnat g) log) <> 0;
  df_names : forall j, 0 <= j < size g / 32 -> Z.of_nat (length (dent k g dv j).1) <= 27;
  df_covers : covers (fnat g) NAT_DIR_SIZE_MAX
}.

Lemma df_log k i g f dv log : dir_file k i g f dv -> 0 <= log < size g / BLK_SIZE -> log_ok (fnat g) log.
Proof.
  intros Hd Hl. rewrite <- (Z.div_mul log BLK_SIZE) by done. apply (df_covers _ _ _ _ _ Hd).
  pose proof (df_size _ _ _ _ _ Hd). unfold BLK_SIZE in *. Z.div_mod_to_equations; lia.
Qed.

Lemma df_slots k i g f dv : dir_file k i g f dv -> size g / 32 = 16 * (size g / BLK_SIZE).
Proof. intros Hd. pose proof (df_blocks _ _ _ _ _ Hd). unfold BLK_SIZE in *. Z.div_mod_to_equations; lia. Qed.

(** Entry [i] of block [log], as the scans see it. *)
Lemma df_entry k i g f dv log j :
  dir_file k i g f dv -> 0 <= log < size g / BLK_SIZE -> 0 <= j < 16 ->
  let b := dsk k dv (node (dsk k dv) (fnat g) (data_key (fnat g) log)) in
  dent k g dv (16 * log + j) = (entry_name b j, entry_first b j).
Proof.
  intros Hd Hl Hj. apply dent_entry; [apply Hd|done|by eapply df_full|]. eapply df_names; [done|].
  rewrite (df_slots _ _ _ _ _ Hd). lia.
Qed.

(** A change of the cached translation, or of the times, is none of the directory. *)
Lemma dir_view_same k g k' g' dv :
  size g' = size g -> (forall o, 0 <= o < size g -> file_byte k' g' dv o = file_byte k g dv o) ->
  dir_view k' g' dv = dir_view k g dv.
Proof.
  intros Es Hb. unfold dir_view. rewrite Es. apply list_fmap_ext. intros n j Hj%list_elem_of_lookup_2.
  apply elem_of_seqZ in Hj. apply dent_ext. intros o Ho. apply Hb. Z.div_mod_to_equations; lia.
Qed.
End view.
