(* ===== verification/NatDirOk.v ===== *)
(** Correctness of the directories of natfs (kern/fs/nat/dir.c): searching a
    directory, adding a name, removing one and testing for emptiness do to the
    list of its entries what they should, and fail for the reasons they give. *)

From S2P Require Import Prelude BlockDev BlockIface Kern Frame NatBam NatBamOk NatBmap NatTree NatBmapOk Vfs VfsOk NatRw NatRwOk NatWriteOk NatFile NatFso NatDir NatDirView.

Section errs.
Context {S : Type} `{HS : BlockLayerOk S}.

(** An error of the block layer. *)
Definition layer_err (e : Z) : Prop :=
  exists s s' : S,
    (exists d nr, bl_read d nr s = Err e s') \/ (exists d nr, bl_get d nr s = Err e s') \/
    (exists b, bl_put b s = Err e s') \/ (exists b d, bl_fill b d s = Err e s') \/
    (exists b h, bl_modify b h s = Err e s').

Context (P : Z -> Prop) (HP : forall e, layer_err e -> P e).
#[local] Ltac layer := intros s; unfold wlp; case_match eqn:E; [done| |done]; apply HP; exists s; eexists; naive_solver.

Lemma fails_bl_read d nr : fails P (bl_read d nr). Proof. layer. Qed.
Lemma fails_bl_get d nr : fails P (bl_get d nr). Proof. layer. Qed.
Lemma fails_bl_put b : fails P (bl_put b). Proof. layer. Qed.
Lemma fails_bl_fill b d : fails P (bl_fill b d). Proof. layer. Qed.
Lemma fails_bl_modify b h : fails P (bl_modify b h). Proof. layer. Qed.
#[local] Hint Resolve fails_bl_read fails_bl_get fails_bl_put fails_bl_fill fails_bl_modify : fails.

Lemma fails_pread d nr off len : fails P (blk_pread d nr off len).
Proof. unfold blk_pread. fails. Qed.
Lemma fails_switch_bam i nr : fails P (nat_switch_bam i nr).
Proof. pose proof fails_pread. unfold nat_switch_bam. fails; auto using fails_fail. Qed.
Lemma fails_balloc i : P ENOSPC -> fails P (nat_balloc i).
Proof.
  intros Hn. unfold nat_balloc. apply fails_bind; [fails|]. intros n. generalize (data_block n / BLK_SIZE / 8) at 2.
  induction (Z.to_nat _) as [|m IH]; intros j; cbn [balloc_loop]; [by apply fails_fail|].
  pose proof fails_switch_bam. fails. 
Qed.
Lemma fails_alloc_zero i : P ENOSPC -> fails P (alloc_zero i).
Proof. intros Hn. pose proof (fun i => fails_balloc i Hn). unfold alloc_zero, zero_block. fails. Qed.

Context (alloc : bool) (Hn : alloc = true -> P ENOSPC).

Lemma fails_bmap_dir i j : j < NBMAP -> fails P (nat_bmap_dir i j alloc).
Proof.
  intros Hj. unfold nat_bmap_dir. rewrite (proj2 (Z.leb_gt _ _)) by done. apply fails_bind; [fails|]. intros g.
  destruct (alloc && _) eqn:E; [|fails]. apply andb_prop in E as [E _].
  pose proof (fun i => fails_alloc_zero i (Hn E)). fails.
Qed.
Lemma fails_bmap_loop i log n bn : fails P (bmap_loop i log alloc n bn).
Proof.
  revert bn. induction n as [|n IH]; intros bn; cbn [bmap_loop]; [fails|].
  destruct (bn =? 0); [fails|]. repeat (apply fails_bind; [fails|intros ?]). destruct (_ =? 0); [|fails].
  destruct alloc; cbn [negb]; [|fails]. pose proof (fun i => fails_alloc_zero i (Hn eq_refl)).
  fails; auto using fails_fail.
Qed.

Lemma nat_bmap_errs k i g f dv log :
  file_inv k i g f dv -> log_ok (fnat g) log -> wlp (nat_bmap i log alloc) (fun _ _ => True) (fun e _ => P e) k.
Proof.
  intros Hk Hl. pose proof (to_map _ _ _ (fo_tree _ _ _ _ _ Hk)) as Hm. apply wlp_bind, wlp_get_fso. intros g' Hg.
  rewrite (fo_fso _ _ _ _ _ Hk) in Hg. injection Hg as <-. cbn zeta.
  destruct (bmap_valid (fnat g) && _ && _); [exact I|]. destruct (Z.ltb_spec log (ndirblks (fnat g))) as [Hd|Hd].
  - apply fails_bind; [apply fails_bmap_dir; destruct Hm; lia|]. intros bn. unfold set_phys, upd_fnat. fails.
  - destruct (root_of_log g log Hl Hm Hd) as [Hj _]. destruct (32 <=? _); [exact I|].
    apply fails_bind; [apply fails_bmap_dir, Hj|]. intros bn. apply fails_bind; [apply fails_bmap_loop|].
    intros bn'. unfold set_phys, upd_fnat. fails.
Qed.
End errs.

Section ops.
Context {S : Type} `{HS : BlockLayerOk S} `{FsLow S}.
Implicit Types (k : kern S) (f : fs) (g : fso).

Abbreviation nd k g dv := (node (dsk k dv) (fnat g)).

(** * Reading a directory *)

(** The directory was only looked at. *)
Definition dir_read (i : nat) (dv : nat) g f k g' k' : Prop := peek i g k g' k' /\ dir_file k' i g' f dv.

Lemma peek_shape i g k g' k' : peek i g k g' k' -> fnat g' = set_bmap_cache (bmap_valid (fnat g')) (bmap_log (fnat g')) (bmap_phys (fnat g')) (fnat g) /\ size g' = size g /\ mode g' = mode g /\ f_fs g' = f_fs g.
Proof. intros [(v & l & p & ->) _]. done. Qed.
Lemma peek_dent i g k g' k' dv j : peek i g k g' k' -> dent k' g' dv j = dent k g dv j.
Proof. intros Hp. apply dent_ext. intros o _. by eapply peek_byte. Qed.
Lemma peek_view i g k g' k' dv : peek i g k g' k' -> dir_view k' g' dv = dir_view k g dv.
Proof. intros Hp. apply dir_view_same; [apply (peek_shape _ _ _ _ _ Hp)|intros; by eapply peek_byte]. Qed.

Lemma dir_read_peek i dv g f k g' f' k' :
  dir_file k i g f dv -> peek i g k g' k' -> file_ok k' i g' f' dv -> dir_read i dv g f k g' k'.
Proof.
  intros Hd Hp Hk. split; [done|]. destruct (peek_shape _ _ _ _ _ Hp) as (En & Es & Em & Ef).
  assert (f' = f) as ->.
  { destruct Hp as (_ & _ & Ek). destruct Hk as [[_ [[Hf' _] _] _ _] _]. destruct Hd as [[[_ [[Hf _] _] _ _] _] _].
    rewrite Ek in Hf'. cbn in Hf'. rewrite Ef, Hf in Hf'. by injection Hf'. }
  split; [done|by rewrite Em; apply Hd|rewrite Es; apply Hd|rewrite Es; apply Hd| | |].
  - intros log Hl. rewrite (peek_nd _ _ _ _ _ _ _ Hp), En. rewrite Es in Hl. by apply (df_full _ _ _ _ _ Hd).
  - intros j Hj. rewrite (peek_dent _ _ _ _ _ _ _ Hp). rewrite Es in Hj. by apply (df_names _ _ _ _ _ Hd).
  - rewrite En. apply Hd.
Qed.
Lemma dir_read_trans i dv g f k g1 k1 g2 k2 :
  dir_read i dv g f k g1 k1 -> dir_read i dv g1 f k1 g2 k2 -> dir_read i dv g f k g2 k2.
Proof. intros [H1 _] [H2 Hd]. split; [by eapply peek_trans|done]. Qed.
Lemma dir_read_refl i dv g f k : dir_file k i g f dv -> dir_read i dv g f k g k.
Proof. intros Hd. split; [apply peek_refl; apply Hd|done]. Qed.
Lemma dir_read_blk i dv g f k s' :
  dir_file k i g f dv -> bl_same (k_blk k) s' -> dir_read i dv g f k g (with_blk s' k).
Proof.
  intros Hd Hs. pose proof (df_ok _ _ _ _ _ Hd) as [Hi Hc]. eapply dir_read_peek; [done|apply peek_read; [apply Hi|done]|].
  destruct (file_inv_same _ _ _ _ _ _ Hi Hs) as [Hk2 Hnd]. split; [done|].
  intros Hv. destruct (Hc Hv) as [Hlc Hpc]. split; [done|]. rewrite Hpc. symmetry. apply Hnd, Hlc.
Qed.

(** Block [log] of the directory is held in buffer [bb]. *)
Definition held (i : nat) (dv : nat) (log : Z) g f k (bb : nat) k' : Prop :=
  exists g1 k1, dir_read i dv g f k g1 k1 /\ bmap_phys (fnat g1) = nd k g dv (data_key (fnat g) log) /\
    k' = with_blk (k_blk k') k1 /\
    bl_edit dv (bmap_phys (fnat g1)) (dsk k dv (bmap_phys (fnat g1))) (k_blk k1) bb (k_blk k').

Lemma dir_block_ok i dv log g f k :
  dir_file k i g f dv -> 0 <= log < size g / BLK_SIZE ->
  wp (dir_block i log) (held i dv log g f k)
    (fun e k' => layer_err (S := S) e /\ exists g', dir_read i dv g f k g' k') k.
Proof.
  intros Hd Hl. pose proof (df_ok _ _ _ _ _ Hd) as Hk. pose proof (df_log _ _ _ _ _ _ Hd Hl) as Hlog.
  unfold dir_block. apply wp_bind.
  pose proof (nat_bmap_ok i dv log false g f k Hk Hlog) as Hb.
  pose proof (nat_bmap_errs (layer_err (S := S)) (fun _ H => H) false ltac:(done) k i g f dv log (proj1 Hk) Hlog) as He.
  unfold wp in *. unfold wlp in He. destruct (nat_bmap i log false k) as [u k1|e k1|]; [| |done].
  2: { destruct Hb as (_ & g' & f' & St & Hca & _ & Hs). destruct (Hs eq_refl) as (-> & E & B). split; [done|].
    exists g. eapply dir_read_peek; [done|rewrite E; apply peek_read; [apply Hk|done]|]. by split; [apply St|]. }
  destruct Hb as (g1 & f1 & St & Hca & Hph & _ & Hs). destruct (Hs eq_refl) as (Eg & B & Ek).
  assert (Hr : dir_read i dv g f k g1 k1) by (eapply dir_read_peek; [done|by split; [eauto|]|by split; [apply St|]]).
  pose proof Hr as [Hp Hd1]. pose proof (df_ok _ _ _ _ _ Hd1) as Hk1.
  apply wp_bind, (wp_get_fso i g1); [apply Hk1|]. apply wp_bind, (wp_get_dev (f_fs g1) f dv); [apply Hk1..|]. apply wp_blk.
  eapply wp_mono; [apply wp_fails; [apply read_edit; apply Hk1|apply (fails_bl_read (layer_err (S := S)) (fun _ H => H))]| |].
  - intros bb s' Hed. exists g1, k1. split; [done|]. split; [rewrite Hph; by eapply peek_nd|]. split; [done|].
    unfold dsk at 1. destruct B as (_ & Ed & _). by rewrite <- (Ed dv).
  - intros e s' [[_ Hsm] He']. split; [done|]. exists g1. eapply dir_read_trans; [done|]. by apply dir_read_blk.
Qed.

Lemma held_data i dv log g f k bb k' :
  held i dv log g f k bb k' -> bl_data bb (k_blk k') = dsk k dv (nd k g dv (data_key (fnat g) log)).
Proof. intros (g1 & k1 & _ & <- & _ & He). by eapply edit_data. Qed.
Lemma held_put i dv log g f k bb k' :
  held i dv log g f k bb k' ->
  wp (blk (bl_put bb)) (fun _ k2 => exists g', dir_read i dv g f k g' k2) (fun _ _ => False) k'.
Proof.
  intros (g1 & k1 & Hr & Hph & Ek & He). apply wp_blk. eapply wp_mono; [by eapply put_edit| |done].
  intros [] s2 Hu. exists g1. eapply dir_read_trans; [done|].
  replace (with_blk s2 k') with (with_blk s2 k1) by (rewrite Ek; done). apply dir_read_blk; [apply Hr|].
  destruct Hr as [[_ [(_ & Ed & _) _]] _]. eapply bl_upd_same. unfold dsk in Hu. by rewrite <- (Ed dv) in Hu.
Qed.
Lemma held_trans i dv log g f k g1 k1 bb k' :
  dir_read i dv g f k g1 k1 -> held i dv log g1 f k1 bb k' -> held i dv log g f k bb k'.
Proof.
  intros Hr (g2 & k2 & Hr2 & Hph & Ek & He). exists g2, k2. split; [by eapply dir_read_trans|].
  pose proof Hr as [Hp _]. split; [|split; [done|]].
  - rewrite Hph, (peek_nd _ _ _ _ _ _ _ Hp). destruct (peek_shape _ _ _ _ _ Hp) as (-> & _). done.
  - destruct Hp as [_ [(_ & Ed & _) _]]. unfold dsk in He at 1. by rewrite (Ed dv) in He.
Qed.

(** ** Searching *)

(** No entry before the [m]th has the name; the [j]th is the first that has it. *)
Definition unnamed name k g (dv : nat) (m : Z) : Prop := forall j, 0 <= j < m -> ~ named name (dent k g dv j).
Definition first_at name k g (dv : nat) (j : Z) : Prop :=
  0 <= j < size g / 32 /\ named name (dent k g dv j) /\ unnamed name k g dv j.

Lemma find_name_some name k g dv j :
  first_at name k g dv j -> find_name name (dir_view k g dv) = Some (Z.to_nat j, dent k g dv j).
Proof.
  intros (Hj & Hn & Hu). apply list_find_Some. split; [apply dir_view_lookup; split; [lia|f_equal; lia]|]. split; [done|].
  intros m s [Hm ->]%dir_view_lookup Hlt. apply Hu. lia.
Qed.
Lemma find_name_none name k g dv : unnamed name k g dv (size g / 32) -> find_name name (dir_view k g dv) = None.
Proof.
  intros Hu. apply list_find_None, Forall_lookup_2. intros m s [Hm ->]%dir_view_lookup. apply Hu. lia.
Qed.

Lemma unnamed_peek name i g k g' k' dv m : peek i g k g' k' -> unnamed name k g dv m -> unnamed name k' g' dv m.
Proof. intros Hp Hu j Hj. rewrite (peek_dent _ _ _ _ _ _ _ Hp). by apply Hu. Qed.

(** A scan of block [log], in terms of the entries of the directory. *)
Lemma scan_block k i g f dv log name :
  dir_file k i g f dv -> 0 <= log < size g / BLK_SIZE -> unnamed name k g dv (16 * log) ->
  let b := dsk k dv (nd k g dv (data_key (fnat g) log)) in
  match find_de 16 b name with
  | Some off => exists j, first_at name k g dv j /\ j / 16 = log /\ off = 32 * (j mod 16)
  | None => unnamed name k g dv (16 * (log + 1))
  end.
Proof.
  intros Hd Hl Hu b. pose proof (find_de_spec 16 b name ltac:(lia)) as Hs.
  assert (Hb : forall j, 0 <= j < 16 -> named name (dent k g dv (16 * log + j)) <-> entry_is b j name).
  { intros j Hj. by rewrite (df_entry _ _ _ _ _ _ _ Hd Hl Hj). }
  assert (Hup : forall m, 0 <= m <= 16 -> (forall j, 0 <= j < m -> ~ entry_is b j name) -> unnamed name k g dv (16 * log + m)).
  { intros m Hm Hno j Hj. destruct (decide (j < 16 * log)); [apply Hu; lia|].
    replace j with (16 * log + (j - 16 * log)) by lia. rewrite Hb by lia. apply Hno. lia. }
  destruct (find_de 16 b name) as [off|].
  - destruct Hs as (j & Hj & -> & He & Hno). exists (16 * log + j).
    split; [|unfold de_off; replace (16 * log + j) with (j + log * 16) by lia; rewrite Z.div_add, Z.mod_add, Z.div_small, Z.mod_small by lia; lia].
    split; [rewrite (df_slots _ _ _ _ _ Hd); lia|]. split; [by apply Hb|]. apply Hup; [lia|]. intros m Hm. apply Hno. lia.
  - replace (16 * (log + 1)) with (16 * log + 16) by lia. apply Hup; [lia|]. intros m Hm. apply Hs. lia.
Qed.

Lemma find_loop_ok n i dv log name g f k :
  dir_file k i g f dv -> 0 <= log -> log + Z.of_nat n = size g / BLK_SIZE -> unnamed name k g dv (16 * log) ->
  wp (find_loop n i log name)
    (fun p k' => exists j, first_at name k g dv j /\ held i dv (j / 16) g f k p.1 k' /\ p.2 = 32 * (j mod 16))
    (fun e k' => (exists g', dir_read i dv g f k g' k') /\
       (e = ENOENT /\ unnamed name k g dv (size g / 32) \/ layer_err (S := S) e)) k.
Proof.
  revert log g k. induction n as [|n IH]; intros log g k Hd Hl Hn Hu; cbn [find_loop].
  { split; [exists g; by apply dir_read_refl|]. left. split; [done|]. rewrite (df_slots _ _ _ _ _ Hd). by replace (size g / BLK_SIZE) with log by lia. }
  eapply wp_seq; [by apply (dir_block_ok i dv log g f k Hd); lia| |by intros e k' [? ?]; auto].
  intros bb k1 Hh. apply wp_bind, wp_gets. rewrite (held_data _ _ _ _ _ _ _ _ Hh).
  pose proof (scan_block k i g f dv log name Hd ltac:(lia) Hu) as Hs. cbn zeta in Hs.
  destruct (find_de 16 _ name) as [off|].
  - destruct Hs as (j & Hj & <- & ->). apply wp_ret. by exists j.
  - eapply wp_seq; [by eapply held_put| |done]. intros [] k2 (g2 & Hr). pose proof Hr as [Hp Hd2].
    destruct (peek_shape _ _ _ _ _ Hp) as (_ & Es & _).
    eapply wp_mono; [apply (IH (log + 1) g2 k2); [done|lia|rewrite Es; lia|by eapply unnamed_peek]| |].
    + intros p k3 (j & (Hj & Hnm & Hun) & Hh3 & Hoff). exists j. rewrite (peek_dent _ _ _ _ _ _ _ Hp), Es in *. split.
      * split; [done|]. split; [done|]. intros m Hm. rewrite <- (peek_dent _ _ _ _ _ _ _ Hp). by apply Hun.
      * split; [by eapply held_trans|done].
    + intros e k3 [(g3 & Hr3) He]. split; [exists g3; by eapply dir_read_trans|]. destruct He as [[-> Hno]|]; [left|by right].
      split; [done|]. intros m Hm. rewrite <- (peek_dent _ _ _ _ _ _ _ Hp). apply Hno. by rewrite Es.
Qed.

Definition accepted f : Prop := exists t, type f = Some t /\ type_accepts t.

Lemma perm_run k i g f dv m : file_ok k i g f dv -> accepted f -> may k g f m -> perm i m k = Ret tt k.
Proof. intros Hk Ht Hm. unfold perm. rewrite gets_bind. by eapply granted_run. Qed.

Lemma find_entry_ok i dv name g f k :
  dir_file k i g f dv -> accepted f -> may k g f X_OK ->
  wp (find_entry i name)
    (fun p k' => exists j, first_at name k g dv j /\ held i dv (j / 16) g f k p.1 k' /\ p.2 = 32 * (j mod 16))
    (fun e k' => (exists g', dir_read i dv g f k g' k') /\
       (e = ENOENT /\ unnamed name k g dv (size g / 32) \/ layer_err (S := S) e)) k.
Proof.
  intros Hd Ht Hm. pose proof (df_ok _ _ _ _ _ Hd) as Hk. apply wp_bind, (wp_get_fso i g); [apply Hk|].
  rewrite (df_dir _ _ _ _ _ Hd). cbn [negb]. apply wp_bind. unfold wp at 1. rewrite (perm_run _ _ _ _ _ _ Hk Ht Hm).
  apply find_loop_ok; [done|lia| |intros j Hj; lia]. pose proof (df_size _ _ _ _ _ Hd).
  rewrite Z2Nat.id; [done|]. apply Z.div_pos; unfold BLK_SIZE; lia.
Qed.

(** ** Emptiness *)

(** The entries before the [m]th are free. *)
Definition empty_to k g (dv : nat) (m : Z) : Prop := forall j, 0 <= j < m -> is_free (dent k g dv j).

Lemma empty_loop_ok n i dv log g f k :
  dir_file k i g f dv -> 0 <= log -> log + Z.of_nat n = size g / BLK_SIZE -> empty_to k g dv (16 * log) ->
  wp (empty_loop n i log)
    (fun _ k' => (exists g', dir_read i dv g f k g' k') /\ empty_to k g dv (size g / 32))
    (fun e k' => (exists g', dir_read i dv g f k g' k') /\
       (e = ENOTEMPTY /\ ~ empty_to k g dv (size g / 32) \/ layer_err (S := S) e)) k.
Proof.
  revert log g k. induction n as [|n IH]; intros log g k Hd Hl Hn Hu; cbn [empty_loop].
  { apply wp_ret. split; [exists g; by apply dir_read_refl|]. rewrite (df_slots _ _ _ _ _ Hd). by replace (size g / BLK_SIZE) with log by lia. }
  eapply wp_seq; [by apply (dir_block_ok i dv log g f k Hd); lia| |by intros e k' [? ?]; auto].
  intros bb k1 Hh. apply wp_bind, wp_gets. rewrite (held_data _ _ _ _ _ _ _ _ Hh).
  eapply wp_seq; [by eapply held_put| |done]. intros [] k2 (g2 & Hr). pose proof Hr as [Hp Hd2].
  destruct (peek_shape _ _ _ _ _ Hp) as (_ & Es & _). set (b := dsk k dv _).
  assert (Hb : forall j, 0 <= j < 16 -> is_free (dent k g dv (16 * log + j)) <-> entry_first b j = 0).
  { intros j Hj. rewrite (df_entry _ _ _ _ _ log j Hd) by lia. done. }
  pose proof (find_used_spec 16 b ltac:(lia)) as Hs. destruct (find_used 16 b).
  - split; [by exists g2|]. left. split; [done|]. intros He. destruct (proj1 Hs eq_refl) as (j & Hj & Hf).
    apply Hf, Hb; [lia|]. apply He. rewrite (df_slots _ _ _ _ _ Hd). lia.
  - eapply wp_mono; [apply (IH (log + 1) g2 k2); [done|lia|rewrite Es; lia|]| |].
    + intros j Hj. rewrite (peek_dent _ _ _ _ _ _ _ Hp). destruct (decide (j < 16 * log)); [apply Hu; lia|].
      replace j with (16 * log + (j - 16 * log)) by lia. apply Hb; [lia|].
      destruct (decide (entry_first b (j - 16 * log) = 0)) as [|Hne]; [done|]. exfalso.
      enough (false = true) by done. apply Hs. exists (j - 16 * log). split; [lia|done].
    + intros [] k3 [(g3 & Hr3) He]. split; [exists g3; by eapply dir_read_trans|]. intros j Hj.
      rewrite <- (peek_dent _ _ _ _ _ _ _ Hp). apply He. by rewrite Es.
    + intros e k3 [(g3 & Hr3) He]. split; [exists g3; by eapply dir_read_trans|]. destruct He as [[-> Hno]|]; [left|by right].
      split; [done|]. intros He. apply Hno. intros j Hj. rewrite (peek_dent _ _ _ _ _ _ _ Hp). apply He. by rewrite <- Es.
Qed.

(** * Adding a name *)

(** The first free entry before the [m]th, as the block and offset that
    [scan_loop] remembers. *)
Definition free_at k g (dv : nat) (m : Z) (o : option (Z * Z)) : Prop :=
  match o with
  | Some (nr, off) => exists j, 0 <= j < m /\ is_free (dent k g dv j) /\ (forall j', 0 <= j' < j -> ~ is_free (dent k g dv j')) /\
      nr = nd k g dv (data_key (fnat g) (j / 16)) /\ off = 32 * (j mod 16)
  | None => forall j, 0 <= j < m -> ~ is_free (dent k g dv j)
  end.

Lemma free_at_peek i g k g' k' dv m o : peek i g k g' k' -> free_at k' g' dv m o <-> free_at k g dv m o.
Proof.
  intros Hp. destruct (peek_shape _ _ _ _ _ Hp) as (En & _).
  assert (Hk : forall log, data_key (fnat g') log = data_key (fnat g) log) by (intros; rewrite En; done).
  destruct o as [[nr off]|]; cbn [free_at].
  - f_equiv. intros j. rewrite (peek_dent _ _ _ _ _ _ _ Hp), Hk, (peek_nd _ _ _ _ _ _ _ Hp).
    split; intros (? & ? & Hb & ?); (split; [done|]; split; [done|]; split; [|done]); intros j' Hj';
      specialize (Hb j' Hj'); by rewrite (peek_dent _ _ _ _ _ _ _ Hp) in *.
  - split; intros Hb j Hj; specialize (Hb j Hj); by rewrite (peek_dent _ _ _ _ _ _ _ Hp) in *.
Qed.

(** One block scanned for a free entry. *)
Lemma scan_free k i g f dv log o :
  dir_file k i g f dv -> 0 <= log < size g / BLK_SIZE -> free_at k g dv (16 * log) o ->
  let b := nd k g dv (data_key (fnat g) log) in
  free_at k g dv (16 * (log + 1))
    (match o with
     | Some _ => o
     | None => match find_free 16 (dsk k dv b) with Some off => if b =? 0 then None else Some (b, off) | None => None end
     end).
Proof.
  intros Hd Hl Ho b. destruct o as [[nr off]|].
  { destruct Ho as (j & Hj & Hf). exists j. split; [lia|done]. }
  rewrite (proj2 (Z.eqb_neq b 0)) by (by apply (df_full _ _ _ _ _ Hd)).
  assert (Hb : forall j, 0 <= j < 16 -> is_free (dent k g dv (16 * log + j)) <-> entry_first (dsk k dv b) j = 0).
  { intros j Hj. rewrite (df_entry _ _ _ _ _ log j Hd) by lia. done. }
  assert (Hup : forall m, 0 <= m <= 16 -> (forall j, 0 <= j < m -> entry_first (dsk k dv b) j <> 0) ->
    forall j, 0 <= j < 16 * log + m -> ~ is_free (dent k g dv j)).
  { intros m Hm Hno j Hj. destruct (decide (j < 16 * log)); [apply Ho; lia|].
    replace j with (16 * log + (j - 16 * log)) by lia. rewrite Hb by lia. apply Hno. lia. }
  pose proof (find_free_spec 16 (dsk k dv b) ltac:(lia)) as Hs. destruct (find_free 16 _) as [off|].
  - destruct Hs as (j & Hj & -> & Hf & Hno). exists (16 * log + j). split; [lia|]. split; [by apply Hb|].
    split; [apply Hup; [lia|]; intros m Hm; apply Hno; lia|].
    replace (16 * log + j) with (j + log * 16) by lia. rewrite Z.div_add, Z.mod_add, Z.div_small, Z.mod_small by lia. done.
  - replace (16 * (log + 1)) with (16 * log + 16) by lia. intros j. apply Hup; [lia|]. intros m Hm. apply Hs. lia.
Qed.

Lemma scan_loop_ok n i dv log name o g f k :
  dir_file k i g f dv -> 0 <= log -> log + Z.of_nat n = size g / BLK_SIZE ->
  unnamed name k g dv (16 * log) -> free_at k g dv (16 * log) o ->
  wp (scan_loop n i log name o)
    (fun o' k' => (exists g', dir_read i dv g f k g' k') /\ unnamed name k g dv (size g / 32) /\ free_at k g dv (size g / 32) o')
    (fun e k' => (exists g', dir_read i dv g f k g' k') /\
       (e = EEXIST /\ (exists j, first_at name k g dv j) \/ layer_err (S := S) e)) k.
Proof.
  revert log o g k. induction n as [|n IH]; intros log o g k Hd Hl Hn Hu Ho; cbn [scan_loop].
  { apply wp_ret. split; [exists g; by apply dir_read_refl|]. rewrite (df_slots _ _ _ _ _ Hd). by replace (size g / BLK_SIZE) with log by lia. }
  eapply wp_seq; [by apply (dir_block_ok i dv log g f k Hd); lia| |by intros e k' [? ?]; auto].
  intros bb k1 Hh. apply wp_bind, wp_gets. rewrite (held_data _ _ _ _ _ _ _ _ Hh).
  pose proof Hh as (g1 & k0 & [_ Hd1] & Hph & Ek & _). apply wp_bind, (wp_get_fso i g1); [rewrite Ek; apply Hd1|].
  rewrite Hph. pose proof (scan_block k i g f dv log name Hd ltac:(lia) Hu) as Hs. cbn zeta in Hs.
  destruct (find_de 16 _ name) as [off|].
  - destruct Hs as (j & Hj & _). eapply wp_seq; [by eapply held_put| |done]. intros [] k2 Hr. split; [done|]. left. eauto.
  - pose proof (scan_free k i g f dv log o Hd ltac:(lia) Ho) as Hf. cbn zeta in Hf |- *.
    match type of Hf with free_at _ _ _ _ ?x => set (o2 := x) in * end. clearbody o2.
    eapply wp_seq; [by eapply held_put| |done]. intros [] k2 (g2 & Hr). pose proof Hr as [Hp Hd2].
    destruct (peek_shape _ _ _ _ _ Hp) as (_ & Es & _).
    eapply wp_mono; [apply (IH (log + 1) o2 g2 k2); [done|lia|rewrite Es; lia|by eapply unnamed_peek|exact (proj2 (free_at_peek _ _ _ _ _ _ _ _ Hp) Hf)]| |].
    + rewrite Es. intros o' k3 [(g3 & Hr3) [Hu3 Hf3]]. split; [exists g3; by eapply dir_read_trans|]. split; [|exact (proj1 (free_at_peek _ _ _ _ _ _ _ _ Hp) Hf3)].
      intros m Hm. rewrite <- (peek_dent _ _ _ _ _ _ _ Hp). by apply Hu3.
    + intros e k3 [(g3 & Hr3) He]. split; [exists g3; by eapply dir_read_trans|]. destruct He as [[-> (j & Hj & Hnm & Hun)]|]; [left|by right].
      split; [done|]. exists j. rewrite Es, (peek_dent _ _ _ _ _ _ _ Hp) in *. split; [done|]. split; [done|].
      intros m Hm. rewrite <- (peek_dent _ _ _ _ _ _ _ Hp). by apply Hun.
Qed.

(** ** Writing an entry *)

Lemma dent_bytes k g dv j c :
  length c = 32%nat -> (forall o, in_range (32 * j) 32 o -> file_byte k g dv o = rd8 c (o - 32 * j)) ->
  dent k g dv j = (cstr c, get32 c 28).
Proof.
  intros Hl Hc. unfold dent. change 32 with (Z.of_nat 32) at 2 4. rewrite <- Hl. rewrite file_bytes_buf; [done|]. by rewrite Hl.
Qed.

Lemma dir_covers k i g f dv o : dir_file k i g f dv -> 0 <= o < NAT_DIR_SIZE_MAX -> log_ok (fnat g) (o / BLK_SIZE).
Proof. intros Hd. apply (df_covers _ _ _ _ _ Hd). Qed.

(** A directory stays one when it is written to and keeps its size. *)
Lemma dir_file_wstep k i g f dv P g' f' k' :
  dir_file k i g f dv -> wstep i dv P g f k g' f' k' -> size g' = size g ->
  (forall j, 0 <= j < size g / 32 -> dent k' g' dv j = dent k g dv j \/ Z.of_nat (length (dent k' g' dv j).1) <= 27) ->
  dir_file k' i g' f' dv.
Proof.
  intros Hd W Es Hn. pose proof (ws_g _ _ _ _ _ _ _ _ _ W) as Eg. pose proof (ws_shape _ _ _ _ _ _ _ _ _ W) as Hsh.
  split; [apply W|by rewrite Eg; apply Hd|rewrite Es; apply Hd|rewrite Es; apply Hd| | |].
  - intros log Hl. rewrite Es in Hl. rewrite (data_key_shape _ _ _ Hsh), (ws_node _ _ _ _ _ _ _ _ _ W).
    + by apply (df_full _ _ _ _ _ Hd).
    + by apply (df_log _ _ _ _ _ _ Hd).
    + by apply (df_full _ _ _ _ _ Hd).
  - intros j Hj. rewrite Es in Hj. destruct (Hn j Hj) as [->|]; [|done]. by apply (df_names _ _ _ _ _ Hd).
  - eapply covers_shape; [done|apply Hd].
Qed.

(** A step that writes no byte of the file. *)
Lemma dir_quiet k i g f dv g' f' k' :
  dir_file k i g f dv -> wstep i dv (fun _ => False) g f k g' f' k' -> size g' = size g ->
  dir_file k' i g' f' dv /\ dir_view k' g' dv = dir_view k g dv.
Proof.
  intros Hd W Es. assert (Hb : forall o, 0 <= o < size g -> file_byte k' g' dv o = file_byte k g dv o).
  { intros o Ho. apply (ws_byte _ _ _ _ _ _ _ _ _ W); [|tauto]. eapply dir_covers; [done|]. pose proof (df_size _ _ _ _ _ Hd). lia. }
  split; [|by apply dir_view_same]. eapply dir_file_wstep; [done..|]. intros j Hj. left. apply dent_ext. intros o Ho. apply Hb.
  Z.div_mod_to_equations; lia.
Qed.

Lemma wstep_then i dv P g1 f1 k1 g2 f2 k2 g3 f3 k3 :
  wstep i dv (fun _ => False) g1 f1 k1 g2 f2 k2 -> wstep i dv P g2 f2 k2 g3 f3 k3 -> wstep i dv P g1 f1 k1 g3 f3 k3.
Proof. intros W1 W2. eapply wstep_weaken; [|by eapply wstep_trans]. cbn. tauto. Qed.

Lemma peek_wstep i dv g f k g' k' :
  dir_file k i g f dv -> dir_read i dv g f k g' k' -> wstep i dv (fun _ => False) g f k g' f k'.
Proof.
  intros Hd [[(v & l & p & ->) [B E]] Hd']. pose proof (df_ok _ _ _ _ _ Hd) as [Hi Hc].
  assert (Hl : log_ok (fnat g) 0) by (apply (dir_covers _ _ _ _ _ 0 Hd); unfold NAT_DIR_SIZE_MAX; lia).
  destruct (file_step_read _ _ _ _ _ 0 _ Hi Hl B) as [St1 _].
  destruct (dir_read_blk i dv g f k _ Hd B) as [_ Hd1]. pose proof (df_ok _ _ _ _ _ Hd1) as [Hi1 Hc1].
  pose proof (file_step_cache i dv 0 g f _ v l p Hi1) as St2.
  replace (with_fso _ (with_blk (k_blk k') k)) with k' in St2 by exact E.
  pose proof (df_ok _ _ _ _ _ Hd') as [_ Hc2].
  eapply wstep_then; by eapply wstep_grow.
Qed.

(** Entry [j] overwritten with the 32 bytes [c]. *)
Lemma slot_written k i g f dv j c s' :
  dir_file k i g f dv -> 0 <= j < size g / 32 -> is_bytes c -> length c = 32%nat -> Z.of_nat (length (cstr c)) <= 27 ->
  let b := nd k g dv (data_key (fnat g) (j / 16)) in
  bl_upd dv b (mem_write (dsk k dv b) (32 * (j mod 16)) c) (k_blk k) s' ->
  wstep i dv (fun _ => True) g f k g f (with_blk s' k) /\ dir_file (with_blk s' k) i g f dv /\
  dir_view (with_blk s' k) g dv = <[Z.to_nat j := (cstr c, get32 c 28)]> (dir_view k g dv).
Proof.
  intros Hd Hj Hc Hl Hn b Hu. assert (Hlog : 0 <= j / 16 < size g / BLK_SIZE).
  { rewrite (df_slots _ _ _ _ _ Hd) in Hj. Z.div_mod_to_equations; lia. }
  pose proof (Z.mod_pos_bound j 16 ltac:(lia)) as Hm.
  destruct (wstep_data i dv g f k (j / 16) (32 * (j mod 16)) c s') as [W B];
    [apply Hd|by apply (df_log _ _ _ _ _ _ Hd)|done|lia|rewrite Hl; unfold BLK_SIZE; lia|by apply (df_full _ _ _ _ _ Hd)|done|].
  assert (Hch : forall o, chunk (j / 16) (32 * (j mod 16)) (Z.of_nat (length c)) o <-> in_range (32 * j) 32 o).
  { intros o. rewrite Hl. unfold chunk, in_range, BLK_SIZE. change (Z.of_nat 32) with 32.
    split; [intros [E ?]|intros ?; split]; Z.div_mod_to_equations; lia. }
  assert (Hnew : dent (with_blk s' k) g dv j = (cstr c, get32 c 28)).
  { apply dent_bytes; [done|]. intros o Ho. rewrite B by (by apply Hch). f_equal.
    unfold in_range, BLK_SIZE in *. Z.div_mod_to_equations; lia. }
  assert (Hold : forall j', 0 <= j' < size g / 32 -> j' <> j -> dent (with_blk s' k) g dv j' = dent k g dv j').
  { intros j' Hj' Hne. apply dent_ext. intros o Ho. apply (ws_byte _ _ _ _ _ _ _ _ _ W).
    - eapply dir_covers; [done|]. pose proof (df_size _ _ _ _ _ Hd). Z.div_mod_to_equations; lia.
    - rewrite Hch. unfold in_range. lia. }
  split; [by eapply wstep_weaken; [|exact W]|]. split.
  - eapply dir_file_wstep; [done|exact W|done|]. intros j' Hj'. destruct (decide (j' = j)) as [->|]; [right; by rewrite Hnew|left; auto].
  - apply list_eq. intros m. destruct (decide (m = Z.to_nat j)) as [->|Hne].
    + rewrite list_lookup_insert_eq by (unfold dir_view; rewrite length_fmap, length_seqZ; lia).
      apply dir_view_lookup. split; [lia|]. by rewrite Z2Nat.id, Hnew by lia.
    + rewrite list_lookup_insert_ne by done. apply option_eq. intros x. rewrite !dir_view_lookup.
      destruct (decide (Z.of_nat m < size g / 32)); [|tauto]. rewrite Hold by lia. done.
Qed.

(** The end of [new_entry]: the times, the entry, and the buffer released. *)
Lemma entry_tail_ok i dv b d off name x g k bb k' :
  k_fso k !! i = Some g -> k' = with_blk (k_blk k') k -> bl_edit dv b d (k_blk k) bb (k_blk k') ->
  bl_range (k_blk k) dv b -> bytes_ok BLK_SIZE (de_put off name x d) ->
  wp (t <~ gets k_time;;
      upd_fso i (fun g => set_dirty true (set_mtime t g));;;
      blk (bl_modify bb (de_put off name x));;;
      blk (bl_put bb))
    (fun _ k2 => exists s', bl_upd dv b (de_put off name x d) (k_blk k) s' /\
       k2 = with_blk s' (with_fso (<[i := set_dirty true (set_mtime (k_time k) g)]> (k_fso k)) k))
    (fun _ _ => False) k'.
Proof.
  intros Hg Ek He Hr Hb. apply wp_bind, wp_gets, wp_bind, (wp_upd_fso i g); [by rewrite Ek|].
  apply wp_bind, wp_blk. cbn [k_blk with_fso]. eapply wp_mono; [by eapply modify_edit| |done]. intros [] s1 He1. apply wp_blk.
  eapply wp_mono; [by eapply put_edit| |done]. intros [] s2 Hu. exists s2. split; [done|]. rewrite Ek. done.
Qed.

Definition is_name (name : list Z) : Prop :=
  name <> [] /\ Z.of_nat (length name) <= NAT_NAME_MAX /\ Forall (fun c => 0 < c < 256) name.

Lemma is_name_bytes name : is_name name -> is_bytes name /\ Forall (fun c => c <> 0) name.
Proof. intros (_ & _ & Hf). split; (eapply Forall_impl; [exact Hf|]); intros c Hc; unfold is_byte; cbn in Hc; lia. Qed.

(** What [new_entry] did: the entries as [add_entry] has them; blocks in use
    that are not the directory's are as before. *)
Definition entry_added (i : nat) (dv : nat) name x g f k k' : Prop :=
  exists g' f', wstep i dv (fun _ => True) g f k g' f' k' /\ dir_file k' i g' f' dv /\
    dir_view k' g' dv = add_entry name x (dir_view k g dv).

(** In the place of a free entry. *)
Lemma reuse_entry k i g f dv name x nr off s' :
  dir_file k i g f dv -> is_name name -> 0 <= x < 2 ^ 32 -> free_at k g dv (size g / 32) (Some (nr, off)) ->
  bl_upd dv nr (de_put off name x (dsk k dv nr)) (k_blk k) s' ->
  entry_added i dv name x g f k
    (with_blk s' (with_fso (<[i := set_dirty true (set_mtime (k_time k) g)]> (k_fso k)) k)).
Proof.
  intros Hd Hname Hx (j & Hj & Hfree & Hbef & -> & ->) Hu. destruct (is_name_bytes name Hname) as [Hbn Hnz].
  pose proof Hname as (_ & Hlen & _). unfold NAT_NAME_MAX in Hlen.
  set (g2 := set_dirty true (set_mtime (k_time k) g)). set (k2 := with_fso (<[i := g2]> (k_fso k)) k).
  assert (W : wstep i dv (fun _ => False) g f k g2 f k2) by (apply wstep_meta; [apply Hd|done|by destruct g]).
  destruct (dir_quiet _ _ _ _ _ _ _ _ Hd W eq_refl) as [Hd2 Hv2].
  destruct (slot_written k2 i g2 f dv j (de_bytes name x) s') as (W2 & Hd3 & Hv3);
    [done|done|by apply is_bytes_de|apply length_de_bytes; lia|rewrite cstr_de_bytes by (done || lia); lia|done|].
  exists g2, f. split; [by eapply wstep_then|]. split; [done|].
  rewrite Hv3, Hv2, cstr_de_bytes, get32_de_bytes, u32_small by (done || lia). unfold add_entry.
  assert (list_find is_free (dir_view k g dv) = Some (Z.to_nat j, dent k g dv j)) as ->; [|done].
  apply list_find_Some. split; [apply dir_view_lookup; split; [lia|f_equal; lia]|]. split; [done|].
  intros m s [Hm ->]%dir_view_lookup Hlt. apply Hbef. lia.
Qed.

(** In a new block. *)
Definition new_block (name : list Z) (x : Z) : list Z := de_put 0 name x (zeros BLK_SIZE).

Lemma new_block_app name x : is_name name -> new_block name x = de_bytes name x ++ zeros 480.
Proof.
  intros (_ & Hlen & _). unfold NAT_NAME_MAX in Hlen. unfold new_block, de_put, mem_write. cbn [Z.to_nat take app Nat.add].
  rewrite length_de_bytes by lia. done.
Qed.
Lemma new_block_ok name x : is_name name -> bytes_ok BLK_SIZE (new_block name x).
Proof.
  intros Hn. rewrite new_block_app by done. destruct (is_name_bytes _ Hn) as [Hb _]. destruct Hn as (_ & Hlen & _). unfold NAT_NAME_MAX in Hlen.
  split; [rewrite length_app, length_de_bytes by lia; done|]. apply Forall_app. split; [by apply is_bytes_de|by apply Forall_replicate].
Qed.
Lemma mem_write_whole b c : bytes_ok BLK_SIZE b -> bytes_ok BLK_SIZE c -> mem_write b 0 c = c.
Proof. intros [Hb _] [Hc _]. unfold mem_write. cbn. rewrite drop_ge by lia. apply app_nil_r. Qed.

(** The entries of the new block. *)
Lemma new_block_dent k g dv n name x :
  is_name name -> 0 <= x < 2 ^ 32 ->
  (forall o, in_range (32 * n) 512 o -> file_byte k g dv o = rd8 (new_block name x) (o - 32 * n)) ->
  dent k g dv <$> seqZ n 16 = (name, x) :: replicate 15 ([], 0).
Proof.
  intros Hname Hx Hb. rewrite new_block_app in Hb by done. destruct (is_name_bytes name Hname) as [Hbn Hnz].
  destruct Hname as (_ & Hlen & _). unfold NAT_NAME_MAX in Hlen.
  assert (Hl : Z.of_nat (length (de_bytes name x)) = 32) by (rewrite length_de_bytes; lia).
  rewrite (seqZ_cons n 16) by lia. rewrite fmap_cons. f_equal.
  - rewrite (dent_bytes k g dv n (de_bytes name x)); [by rewrite cstr_de_bytes, get32_de_bytes, u32_small by (done || lia)|lia|].
    intros o Ho. unfold in_range in *. rewrite Hb by lia. rewrite rd8_app by lia. by rewrite decide_True by lia.
  - symmetry. apply replicate_as_Forall. split; [by rewrite length_fmap, length_seqZ|].
    apply Forall_fmap, Forall_forall. intros j Hj%elem_of_seqZ. cbn.
    rewrite (dent_bytes k g dv j (zeros 32)); [by rewrite cstr_zeros, get32_zeros|done|].
    intros o Ho. unfold in_range in *. rewrite Hb by lia. rewrite rd8_app by lia. rewrite decide_False by lia. by rewrite !rd8_zeros.
Qed.

Lemma grow_entry k i g f dv name x t s' :
  dir_file k i g f dv -> is_name name -> 0 <= x < 2 ^ 32 -> free_at k g dv (size g / 32) None ->
  size g + BLK_SIZE <= NAT_DIR_SIZE_MAX ->
  let b := nd k g dv (data_key (fnat g) (size g / BLK_SIZE)) in
  b <> 0 -> bl_upd dv b (new_block name x) (k_blk k) s' ->
  entry_added i dv name x g f k (with_blk s' (with_fso (<[i :=
    set_dirty true (set_mtime t (set_dirty true (set_size (size g + BLK_SIZE) g)))]> (k_fso k)) k)).
Proof.
  intros Hd Hname Hx Hfree Hmax b Hb Hu. pose proof (new_block_ok name x Hname) as Hc.
  pose proof (df_size _ _ _ _ _ Hd) as Hsz. pose proof (df_blocks _ _ _ _ _ Hd) as Hmod. pose proof (df_ok _ _ _ _ _ Hd) as Hk.
  set (g2 := set_dirty true _). set (k2 := with_fso (<[i := g2]> (k_fso k)) k). set (n := size g / BLK_SIZE).
  assert (Hlog : log_ok (fnat g) n).
  { unfold n. apply (dir_covers _ _ _ _ _ _ Hd). unfold BLK_SIZE in Hmax. lia. }
  assert (W1 : wstep i dv (fun _ => False) g f k g2 f k2) by (apply wstep_meta; [done|done|by destruct g]).
  destruct (wstep_data i dv g2 f k2 n 0 (new_block name x) s') as [W2 B2];
    [apply W1|done|apply Hc|lia|destruct Hc; lia|done|by rewrite mem_write_whole by (done || apply bl_disk_ok, Hk)|].
  set (k3 := with_blk s' k2) in *. pose proof (wstep_then _ _ _ _ _ _ _ _ _ _ _ _ W1 W2) as W.
  assert (Hch : forall o, chunk n 0 (Z.of_nat (length (new_block name x))) o <-> in_range (size g) 512 o).
  { intros o. rewrite (proj1 Hc). unfold n, chunk, in_range, BLK_SIZE in *. split; [intros [E ?]|intros ?; split]; Z.div_mod_to_equations; lia. }
  assert (Hold : forall j, 0 <= j < size g / 32 -> dent k3 g2 dv j = dent k g dv j).
  { intros j Hj. apply dent_ext. intros o Ho. apply (ws_byte _ _ _ _ _ _ _ _ _ W).
    - eapply dir_covers; [done|]. Z.div_mod_to_equations; lia.
    - rewrite Hch. unfold in_range. Z.div_mod_to_equations; lia. }
  assert (Hnew : dent k3 g2 dv <$> seqZ (size g / 32) 16 = (name, x) :: replicate 15 ([], 0)).
  { apply new_block_dent; [done|done|]. assert (32 * (size g / 32) = size g) as -> by (unfold BLK_SIZE in Hmod; Z.div_mod_to_equations; lia).
    intros o Ho. rewrite B2 by (by apply Hch). f_equal. unfold in_range, BLK_SIZE in *. Z.div_mod_to_equations; lia. }
  assert (Hs2 : size g2 / 32 = size g / 32 + 16) by (cbn; unfold BLK_SIZE in *; Z.div_mod_to_equations; lia).
  assert (Hv : dir_view k3 g2 dv = dir_view k g dv ++ (name, x) :: replicate 15 ([], 0)).
  { unfold dir_view. rewrite Hs2, seqZ_app, fmap_app by (try apply Z.div_pos; lia). rewrite Z.add_0_l, Hnew. f_equal.
    apply list_fmap_ext. intros m j Hj%list_elem_of_lookup_2%elem_of_seqZ. apply Hold. lia. }
  exists g2, f. split; [by eapply wstep_weaken; [|exact W]|]. split.
  - split; [apply W2|apply Hd|cbn; unfold NAT_DIR_SIZE_MAX, BLK_SIZE in *; lia|cbn; unfold BLK_SIZE in *; Z.div_mod_to_equations; lia| | |apply Hd].
    + intros log Hl. change (data_key (fnat g2) log) with (data_key (fnat g) log).
      assert (nd k g dv (data_key (fnat g) log) <> 0 /\ log_ok (fnat g) log) as [Hnz Hlo].
      { destruct (decide (log = n)) as [->|Hne]; [done|].
        assert (0 <= log < size g / BLK_SIZE) by (unfold n in Hne; cbn in Hl; unfold BLK_SIZE in *; Z.div_mod_to_equations; lia).
        split; [by apply (df_full _ _ _ _ _ Hd)|by apply (df_log _ _ _ _ _ _ Hd)]. }
      rewrite (ws_node _ _ _ _ _ _ _ _ _ W); [exact Hnz|apply Hlo|exact Hnz].
    + intros j Hj. destruct (decide (j < size g / 32)); [rewrite Hold by lia; apply (df_names _ _ _ _ _ Hd); lia|].
      assert (dent k3 g2 dv j ∈ (name, x) :: replicate 15 ([], 0)) as Hin.
      { rewrite <- Hnew. apply list_elem_of_fmap. exists j. split; [done|]. apply elem_of_seqZ. lia. }
      apply elem_of_cons in Hin as [->|Hin]; [apply Hname|]. by apply elem_of_replicate in Hin as [-> _].
  - rewrite Hv. unfold add_entry.
    assert (list_find is_free (dir_view k g dv) = None) as ->; [|done].
    apply list_find_None, Forall_lookup_2. intros m s [Hm ->]%dir_view_lookup. apply Hfree. lia.
Qed.

(** ** The whole operation *)

(** The directory as it was, but for blocks added to it beyond its end. *)
Definition entries_kept (i : nat) (dv : nat) g f k k' : Prop :=
  exists g' f', wstep i dv (fun _ => False) g f k g' f' k' /\ dir_file k' i g' f' dv /\
    dir_view k' g' dv = dir_view k g dv.

Lemma entries_kept_read i dv g f k g' k' : dir_file k i g f dv -> dir_read i dv g f k g' k' -> entries_kept i dv g f k k'.
Proof. intros Hd Hr. exists g', f. split; [by apply peek_wstep|]. split; [apply Hr|]. eapply peek_view, Hr. Qed.
Lemma entry_added_read i dv name x g f k g1 k1 k' :
  dir_file k i g f dv -> dir_read i dv g f k g1 k1 -> entry_added i dv name x g1 f k1 k' -> entry_added i dv name x g f k k'.
Proof.
  intros Hd Hr (g' & f' & W & Hd' & Hv). exists g', f'. split; [eapply wstep_then; [by apply peek_wstep|done]|]. split; [done|].
  rewrite Hv. f_equal. eapply peek_view, Hr.
Qed.

(** The blocks of a directory after [nat_bmap] with [alloc]. *)
Lemma entry_added_grown i dv log name x g f k g1 f1 k1 k' :
  dir_file k i g f dv -> file_step i dv log g f k g1 f1 k1 -> cache_ok k1 g1 dv ->
  entry_added i dv name x g1 f1 k1 k' -> entry_added i dv name x g f k k'.
Proof.
  intros Hd St Hc (g' & f' & W & Hd' & Hv). assert (W1 : wstep i dv (fun _ => False) g f k g1 f1 k1) by (eapply wstep_grow; [apply Hd|done|done]).
  exists g', f'. split; [by eapply wstep_then|]. split; [done|]. rewrite Hv. f_equal.
  eapply dir_quiet; [done|done|]. by rewrite (st_g _ _ _ _ _ _ _ _ _ St).
Qed.

(** Why [new_entry] may fail. *)
Definition new_entry_err name k g (dv : nat) (e : Z) : Prop :=
  e = EEXIST /\ is_Some (find_name name (dir_view k g dv)) \/
  (find_name name (dir_view k g dv) = None /\ Forall (fun s => ~ is_free s) (dir_view k g dv) /\
    (e = EFBIG /\ NAT_DIR_SIZE_MAX < size g + BLK_SIZE \/ e = ENOSPC)) \/
  layer_err (S := S) e.

Lemma free_at_none k g dv : free_at k g dv (size g / 32) None -> Forall (fun s => ~ is_free s) (dir_view k g dv).
Proof. intros Hf. apply Forall_lookup_2. intros m s [Hm ->]%dir_view_lookup. apply Hf. lia. Qed.

(** The entry in a new block: [nat_bmap] with [alloc], [blk_get] and the rest. *)
Lemma new_block_entry_ok i dv name x g f k :
  dir_file k i g f dv -> is_name name -> 0 <= x < 2 ^ 32 -> free_at k g dv (size g / 32) None ->
  size g + BLK_SIZE <= NAT_DIR_SIZE_MAX ->
  wp (' (bb, off) <~
        (nat_bmap i (u32 (size g / BLK_SIZE)) true;;;
         g <~ get_fso i;;
         d <~ get_dev (f_fs g);;
         bb <~ blk (bl_get d (bmap_phys (fnat g)));;
         blk (bl_fill bb (zeros BLK_SIZE));;;
         upd_fso i (fun g => set_dirty true (set_size (u64 (size g + BLK_SIZE)) g));;;
         ret (bb, 0));;
      t <~ gets k_time;;
      upd_fso i (fun g => set_dirty true (set_mtime t g));;;
      blk (bl_modify bb (de_put off name x));;;
      blk (bl_put bb))
    (fun _ k' => entry_added i dv name x g f k k')
    (fun e k' => entries_kept i dv g f k k' /\ (e = ENOSPC \/ layer_err (S := S) e)) k.
Proof.
  intros Hd Hname Hx Hfree Hmax. pose proof (df_size _ _ _ _ _ Hd) as Hsz. pose proof (df_ok _ _ _ _ _ Hd) as Hk.
  assert (Hlog : log_ok (fnat g) (size g / BLK_SIZE)) by (apply (dir_covers _ _ _ _ _ _ Hd); unfold BLK_SIZE in Hmax; lia).
  rewrite u32_small by apply Hlog. set (log := size g / BLK_SIZE) in *.
  pose proof (nat_bmap_ok i dv log true g f k Hk Hlog) as Hb.
  pose proof (nat_bmap_errs (fun e => e = ENOSPC \/ layer_err (S := S) e) (fun _ H => or_intror H) true (fun _ => or_introl eq_refl) k i g f dv log (proj1 Hk) Hlog) as He.
  apply wp_bind, wp_bind. unfold wp in *. unfold wlp in He. destruct (nat_bmap i log true k) as [u k1|e k1|]; [| |done].
  2: { destruct Hb as (_ & g1 & f1 & St & Hca & _). split; [|done]. exists g1, f1.
    assert (W : wstep i dv (fun _ => False) g f k g1 f1 k1) by (eapply wstep_grow; [apply Hk|done|done]). split; [done|].
    eapply dir_quiet; [done|done|]. by rewrite (st_g _ _ _ _ _ _ _ _ _ St). }
  destruct Hb as (g1 & f1 & St & Hca & Hph & Hnz & _). specialize (Hnz eq_refl).
  assert (W : wstep i dv (fun _ => False) g f k g1 f1 k1) by (eapply wstep_grow; [apply Hk|done|done]).
  assert (Es : size g1 = size g) by (by rewrite (st_g _ _ _ _ _ _ _ _ _ St)).
  destruct (dir_quiet _ _ _ _ _ _ _ _ Hd W Es) as [Hd1 Hv1]. pose proof (df_ok _ _ _ _ _ Hd1) as Hk1.
  pose proof (data_key_shape _ _ log (st_shape _ _ _ _ _ _ _ _ _ St)) as Ekey. rewrite <- Ekey in Hph.
  assert (Hrg : bl_range (k_blk k1) dv (bmap_phys (fnat g1))).
  { rewrite Hph in *. apply (data_blk_facts k1 i g1 f1 dv log (proj1 Hk1)); [|done]. by apply (log_ok_shape (fnat g)); [apply St|]. }
  apply wp_bind, (wp_get_fso i g1); [apply Hk1|]. apply wp_bind, (wp_get_dev (f_fs g1) f1 dv); [apply Hk1..|].
  apply wp_bind, wp_blk. eapply wp_mono; [apply (get_edit (k_blk k1) dv _ (zeros BLK_SIZE)); [apply Hk1..|done|by apply bytes_ok_zeros]| |done].
  intros bb s1 [_ Hw]. apply wp_bind, wp_blk. eapply wp_mono; [exact Hw| |done]. intros [] s2 Hed.
  apply wp_bind, (wp_upd_fso i g1); [apply Hk1|]. apply wp_ret.
  rewrite u64_small by (rewrite Es; unfold NAT_DIR_SIZE_MAX, BLK_SIZE in *; lia).
  set (g2 := set_dirty true _). set (k2 := with_fso (<[i := g2]> (k_fso k1)) k1).
  eapply wp_mono; [apply (entry_tail_ok i dv (bmap_phys (fnat g1)) (zeros BLK_SIZE) 0 name x g2 k2 bb); [apply lookup_insert_eq|done|done|done|by apply new_block_ok]| |done].
  intros [] k3 (s' & Hu & ->). eapply entry_added_grown; [done|exact St|done|].
  unfold k2. cbn [k_fso k_time with_fso]. rewrite insert_insert_eq.
  apply (grow_entry k1 i g1 f1 dv name x (k_time k1) s'); [done|done|done| |by rewrite Es|rewrite Es; fold log; by rewrite <- Hph|rewrite Es; fold log; by rewrite <- Hph].
  intros j Hj. rewrite Es in Hj.
  assert (dir_view k1 g1 dv !! Z.to_nat j = Some (dent k g dv j)) as Hl by (rewrite Hv1; apply dir_view_lookup; split; [lia|f_equal; lia]).
  apply dir_view_lookup in Hl as [_ Hl]. rewrite Z2Nat.id in Hl by lia. rewrite <- Hl. apply Hfree, Hj.
Qed.

Lemma new_entry_ok i dv name x g f k :
  dir_file k i g f dv -> accepted f -> may k g f (Z.lor X_OK W_OK) -> is_name name -> 0 <= x < 2 ^ 32 ->
  wp (new_entry i name x)
    (fun _ k' => find_name name (dir_view k g dv) = None /\ entry_added i dv name x g f k k')
    (fun e k' => entries_kept i dv g f k k' /\ new_entry_err name k g dv e) k.
Proof.
  intros Hd Ht Hm Hname Hx. pose proof (df_ok _ _ _ _ _ Hd) as Hk. pose proof Hname as (Hne & Hlen & _).
  apply wp_bind, (wp_get_fso i g); [apply Hk|]. rewrite (df_dir _ _ _ _ _ Hd), bool_decide_eq_false_2 by done. cbn [negb].
  apply wp_bind. unfold wp at 1. rewrite (perm_run _ _ _ _ _ _ Hk Ht Hm), (proj2 (Z.ltb_ge _ _)) by done.
  assert (Hbl : 0 + Z.of_nat (Z.to_nat (size g / BLK_SIZE)) = size g / BLK_SIZE).
  { pose proof (df_size _ _ _ _ _ Hd). rewrite Z2Nat.id; [done|]. apply Z.div_pos; unfold BLK_SIZE; lia. }
  eapply wp_seq; [apply (scan_loop_ok _ i dv 0 name None g f k Hd); [lia|done|intros j Hj; lia|intros j Hj; lia]| |].
  2: { intros e k' [(g' & Hr) He]. split; [by eapply entries_kept_read|]. destruct He as [[-> (j & Hj)]|]; [left|by right; right].
    split; [done|]. rewrite (find_name_some _ _ _ _ _ Hj). done. }
  intros o k1 [(g1 & Hr) [Hu Hf]]. pose proof Hr as [Hp Hd1]. destruct (peek_shape _ _ _ _ _ Hp) as (_ & Es & _ & Ef).
  pose proof (df_ok _ _ _ _ _ Hd1) as Hk1. pose proof (find_name_none _ _ _ _ Hu) as Hnone.
  apply (free_at_peek _ _ _ _ _ _ _ _ Hp) in Hf. rewrite <- Es in Hf. rewrite (u32_small x) by done. destruct o as [[nr off]|].
  - apply wp_bind, wp_bind. rewrite <- Ef. apply (wp_get_dev (f_fs g1) f dv); [apply Hk1..|].
    apply wp_bind, wp_blk. eapply wp_mono; [apply wp_fails; [apply read_edit; apply Hk1|apply (fails_bl_read (layer_err (S := S)) (fun _ H => H))]| |].
    2: { intros e s' [[_ Hsm] He]. split; [|by right; right]. eapply entries_kept_read; [done|]. eapply dir_read_trans; [done|]. by apply dir_read_blk. }
    intros bb s1 Hed. apply wp_ret. pose proof Hf as (j & Hj & _ & _ & Hnr & Hoff).
    assert (Hl : 0 <= j / 16 < size g1 / BLK_SIZE) by (rewrite (df_slots _ _ _ _ _ Hd1) in Hj; Z.div_mod_to_equations; lia).
    pose proof (Z.mod_pos_bound j 16 ltac:(lia)) as Hmod.
    eapply wp_mono; [apply (entry_tail_ok i dv nr (dsk k1 dv nr) off name x g1 k1 bb); [apply Hk1|done|done| |]| |done].
    + rewrite Hnr. apply (data_blk_facts k1 i g1 f dv (j / 16) (proj1 Hk1)); [by apply (df_log _ _ _ _ _ _ Hd1)|by apply (df_full _ _ _ _ _ Hd1)].
    + unfold de_put. unfold NAT_NAME_MAX in Hlen. apply bytes_ok_mem_write; [apply bl_disk_ok, Hk1|by apply is_bytes_de, is_name_bytes|lia|].
      rewrite length_de_bytes by lia. unfold BLK_SIZE. lia.
    + intros [] k2 (s' & Hup & ->). split; [done|]. eapply entry_added_read; [done|done|]. by eapply reuse_entry.
  - rewrite <- Es. destruct (Z.ltb_spec NAT_DIR_SIZE_MAX (size g1 + BLK_SIZE)) as [Hbig|Hfit].
    + split; [by eapply entries_kept_read|]. right. left. split; [done|]. rewrite Es in *.
      split; [|by left]. apply free_at_none, (free_at_peek _ _ _ _ _ _ _ _ Hp), Hf.
    + eapply wp_mono; [by apply (new_block_entry_ok i dv name x g1 f k1)| |].
      * intros [] k2 Ha. split; [done|]. by eapply entry_added_read.
      * intros e k2 [(g2 & f2 & W & Hd2 & Hv2) He]. split.
        -- exists g2, f2. split; [eapply wstep_then; [by apply peek_wstep|done]|]. split; [done|]. rewrite Hv2. eapply peek_view, Hp.
        -- destruct He as [->|]; [right; left|by right; right]. split; [done|]. split; [|by right].
           apply free_at_none. rewrite <- Es. apply (free_at_peek _ _ _ _ _ _ _ _ Hp), Hf.
Qed.
End ops.
