(* ===== verification/NatDirProps.v ===== *)
(** The contract of natfs directories: what searching, adding, removing and the
    emptiness test promise to the operations on names, stated on the list of
    entries. *)

From S2P Require Import Prelude BlockDev BlockIface Kern Frame NatBam NatBamOk NatBmap NatTree NatBmapOk Vfs VfsOk NatRw NatRwOk NatWriteOk NatFile NatFso NatDir NatDirView NatDirOk.

(** * Lists of entries *)

Lemma find_name_named name l j s : find_name name l = Some (j, s) -> l !! j = Some s /\ named name s.
Proof. intros (? & ? & _)%list_find_Some. done. Qed.

(** In a directory without duplicates any entry with the name is the one found. *)
Lemma find_name_unique name l j s :
  unique l -> l !! j = Some s -> named name s -> find_name name l = Some (j, s).
Proof.
  intros Hu Hj Hn. destruct (find_name name l) as [[j' s']|] eqn:E.
  - apply find_name_named in E as [Hj' Hn']. assert (j' = j) as ->; [|by rewrite Hj in Hj'; injection Hj' as ->].
    eapply Hu; [done|done|apply Hn'|]. destruct Hn as [? <-], Hn' as [? ->]. done.
  - apply list_find_None in E. by eapply Forall_lookup_1 in E.
Qed.

Lemma named_none name l j s : find_name name l = None -> l !! j = Some s -> ~ named name s.
Proof. intros E%list_find_None Hj. by eapply Forall_lookup_1 in E. Qed.

Lemma add_entry_lookup name x l j s :
  add_entry name x l !! j = Some s -> s = (name, x) \/ l !! j = Some s \/ is_free s.
Proof.
  unfold add_entry. destruct (list_find is_free l) as [[m t]|].
  - intros [(_ & <- & _)|(_ & ?)]%list_lookup_insert_Some; auto.
  - intros [?|[_ Hs]]%lookup_app_Some; [auto|]. apply list_elem_of_lookup_2, elem_of_cons in Hs as [->|Hs]; [auto|].
    apply elem_of_replicate in Hs as [-> _]. by right; right.
Qed.
(** The place of the new entry. *)
Definition add_index (l : list dslot) : nat := match list_find is_free l with Some (j, _) => j | None => length l end.
Lemma add_entry_new name x l : add_entry name x l !! add_index l = Some (name, x).
Proof.
  unfold add_entry, add_index. destruct (list_find is_free l) as [[j s]|] eqn:E.
  - apply list_find_Some in E as (Hj & _). apply list_lookup_insert_eq. by eapply lookup_lt_Some.
  - rewrite lookup_app_r, Nat.sub_diag by done. done.
Qed.
(** A used entry keeps its place. *)
Lemma add_entry_old name x l j s : l !! j = Some s -> ~ is_free s -> add_entry name x l !! j = Some s.
Proof.
  intros Hj Hf. unfold add_entry. destruct (list_find is_free l) as [[m t]|] eqn:E.
  - apply list_find_Some in E as (Hm & Ht & _). rewrite list_lookup_insert_ne; [done|]. intros ->. congruence.
  - rewrite lookup_app_l; [done|]. by eapply lookup_lt_Some.
Qed.

Lemma add_entry_unique name x l : unique l -> find_name name l = None -> unique (add_entry name x l).
Proof.
  intros Hu Hn. assert (Hold : forall j s, add_entry name x l !! j = Some s -> s.2 <> 0 -> j <> add_index l -> l !! j = Some s).
  { intros j s. unfold add_entry, add_index. destruct (list_find is_free l) as [[m t]|].
    - intros Hj _ Hne. by rewrite list_lookup_insert_ne in Hj.
    - intros [?|[Hge Hs]]%lookup_app_Some Hs0 Hne; [done|]. rewrite lookup_cons_ne_0 in Hs by (unfold dslot in *; lia).
      by apply lookup_replicate in Hs as [-> _]. }
  intros j1 j2 s1 s2 H1 H2 Hs1 [Hs2 E2].
  destruct (decide (j1 = add_index l)) as [->|N1], (decide (j2 = add_index l)) as [->|N2]; [done| | |].
  - rewrite add_entry_new in H1. injection H1 as <-. exfalso. by apply (named_none name l j2 s2 Hn); [apply Hold|].
  - rewrite add_entry_new in H2. injection H2 as <-. exfalso. apply (named_none name l j1 s1 Hn); [by apply Hold|]. by split.
  - eapply Hu; [by apply Hold|by apply Hold|done|done].
Qed.
Lemma del_entry_unique j l : unique l -> unique (del_entry j l).
Proof.
  intros Hu j1 j2 s1 s2 [(_ & <- & _)|(_ & H1)]%list_lookup_insert_Some [(_ & <- & _)|(_ & H2)]%list_lookup_insert_Some Hs1 [Hs2 E]; try done.
  by eapply Hu.
Qed.

Lemma find_name_add name x l : unique l -> find_name name l = None -> x <> 0 -> find_name name (add_entry name x l) = Some (add_index l, (name, x)).
Proof. intros Hu Hn Hx. apply find_name_unique; [by apply add_entry_unique|apply add_entry_new|done]. Qed.
(** Other names are not affected. *)
Lemma find_name_add_ne name name' x l :
  unique l -> find_name name l = None -> name' <> name -> find_name name' (add_entry name x l) = find_name name' l.
Proof.
  intros Hu Hn Hne. destruct (find_name name' l) as [[j s]|] eqn:E.
  - apply find_name_named in E as [Hj Hs]. apply find_name_unique; [by apply add_entry_unique| |done]. apply add_entry_old; [done|apply Hs].
  - apply list_find_None, Forall_lookup_2. intros j s Hj Hs. destruct (add_entry_lookup _ _ _ _ _ Hj) as [->|[Hl|Hf]].
    + by destruct Hs as [_ <-].
    + by eapply named_none.
    + by destruct Hs.
Qed.
Lemma find_name_del name l j s : unique l -> find_name name l = Some (j, s) -> find_name name (del_entry j l) = None.
Proof.
  intros Hu E. apply list_find_None, Forall_lookup_2. intros j' s' [(_ & <- & _)|(Hne & Hl)]%list_lookup_insert_Some Hs'; [by destruct Hs'|].
  pose proof (find_name_unique name l j' s' Hu Hl Hs'). congruence.
Qed.
Lemma find_name_del_ne name name' l j s :
  unique l -> find_name name l = Some (j, s) -> name' <> name -> find_name name' (del_entry j l) = find_name name' l.
Proof.
  intros Hu E Hne. apply find_name_named in E as [Hj Hs]. destruct (find_name name' l) as [[j' s']|] eqn:E'.
  - apply find_name_named in E' as [Hj' Hs']. apply find_name_unique; [by apply del_entry_unique| |done].
    unfold del_entry. rewrite list_lookup_insert_ne; [done|]. intros ->. rewrite Hj in Hj'. injection Hj' as <-.
    destruct Hs as [_ <-], Hs' as [_ <-]. done.
  - apply list_find_None, Forall_lookup_2. intros m s' [(_ & <- & _)|(_ & Hl)]%list_lookup_insert_Some Hs'; [by destruct Hs'|].
    by eapply named_none.
Qed.

Section props.
Context {S : Type} `{HS : BlockLayerOk S} `{FsLow S}.
Implicit Types (k : kern S) (f : fs) (g : fso).

Abbreviation nd k g dv := (node (dsk k dv) (fnat g)).

(** The entry found: its block is held in [p.1] and the entry is at [p.2]. *)
Definition entry_found (i : nat) (dv : nat) name g f k (p : nat * Z) k' : Prop :=
  exists j x, find_name name (dir_view k g dv) = Some (j, (name, x)) /\
    held i dv (Z.of_nat j / 16) g f k p.1 k' /\ p.2 = 32 * (Z.of_nat j mod 16) /\
    de_first (bl_data p.1 (k_blk k')) p.2 = x /\ de_name (bl_data p.1 (k_blk k')) p.2 = name.

Lemma first_at_found i dv name g f k p k' j :
  dir_file k i g f dv -> first_at name k g dv j -> held i dv (j / 16) g f k p.1 k' -> p.2 = 32 * (j mod 16) ->
  entry_found i dv name g f k p k'.
Proof.
  intros Hd Hf Hh Hp. pose proof Hf as (Hj & Hn & _). exists (Z.to_nat j), (dent k g dv j).2.
  pose proof (Z.mod_pos_bound j 16 ltac:(lia)) as Hm.
  assert (Hl : 0 <= j / 16 < size g / BLK_SIZE) by (rewrite (df_slots _ _ _ _ _ Hd) in Hj; Z.div_mod_to_equations; lia).
  pose proof (df_entry k i g f dv (j / 16) (j mod 16) Hd Hl Hm) as He. cbn zeta in He.
  rewrite <- (Z.div_mod j 16) in He by lia. rewrite (held_data _ _ _ _ _ _ _ _ Hh), Hp, Z2Nat.id by lia.
  rewrite (find_name_some _ _ _ _ _ Hf). destruct Hn as [_ Hn]. rewrite He in Hn |- *. cbn [fst snd] in *.
  unfold entry_name, entry_first, de_off in *. split_and!; [by rewrite Hn|done..].
Qed.

Lemma find_entry_core i dv name g f k :
  dir_file k i g f dv -> accepted f -> may k g f X_OK ->
  wp (find_entry i name) (entry_found i dv name g f k)
    (fun e k' => (exists g', dir_read i dv g f k g' k') /\
       (e = ENOENT /\ find_name name (dir_view k g dv) = None \/ layer_err (S := S) e)) k.
Proof.
  intros Hd Ht Hm. eapply wp_mono; [by apply (find_entry_ok i dv name g f k)| |].
  - intros p k' (j & Hf & Hh & Hp). by eapply first_at_found.
  - intros e k' [Hr [[-> Hu]|He]]; (split; [done|]); [left|by right]. split; [done|by apply find_name_none].
Qed.

(** Searching a directory finds the first entry in use with the name and
    returns it with its block held; it fails with ENOENT exactly when there is no
    such entry, or with an error of the block layer, and then holds nothing.  The
    directory, the disk and the kernel's tables are only read. *)
Theorem find_entry_spec i dv name g f k :
  dir_file k i g f dv -> accepted f -> may k g f X_OK ->
  wp (find_entry i name) (entry_found i dv name g f k)
    (fun e k' => (exists g', dir_read i dv g f k g' k') /\
       (e = ENOENT /\ find_name name (dir_view k g dv) = None \/ layer_err (S := S) e)) k.
Proof. apply find_entry_core. Qed.

(** C15. Adding a name: it is put into the first free entry, or into the first of a
    new block when there is none, every other entry stays as it is and no name
    becomes a duplicate; blocks of other files keep their contents.  It fails with
    EEXIST exactly when the name is there, with EFBIG or ENOSPC only when every
    entry is taken, or with an error of the block layer, and then the entries are
    as before. *)
Theorem new_entry_spec i dv name x g f k :
  dir_file k i g f dv -> accepted f -> may k g f (Z.lor X_OK W_OK) -> is_name name -> 0 <= x < 2 ^ 32 ->
  wp (new_entry i name x)
    (fun _ k' => find_name name (dir_view k g dv) = None /\
       (unique (dir_view k g dv) -> unique (add_entry name x (dir_view k g dv))) /\ entry_added i dv name x g f k k')
    (fun e k' => entries_kept i dv g f k k' /\ new_entry_err name k g dv e) k.
Proof.
  intros Hd Ht Hm Hn Hx. eapply wp_mono; [by apply (new_entry_ok i dv name x g f k)| |done].
  intros [] k' [Hf Ha]. split; [done|]. split; [|done]. intros Hu. by apply add_entry_unique.
Qed.

(** What was added is found: after a successful [new_entry] a search for the
    name ends at an entry with the number that was given, and a search for any
    other name ends as it would have before, unless the block layer fails. *)
Theorem new_entry_find i dv name x g f k name' :
  dir_file k i g f dv -> accepted f -> may k g f (Z.lor X_OK W_OK) -> is_name name -> 0 < x < 2 ^ 32 ->
  unique (dir_view k g dv) ->
  let expect := if decide (name' = name) then Some x else snd <$> (snd <$> find_name name' (dir_view k g dv)) in
  wp (new_entry i name x;;; attempt (find_entry i name'))
    (fun r k' => match r with
       | inr p => Some (de_first (bl_data p.1 (k_blk k')) p.2) = expect
       | inl e => e = ENOENT /\ expect = None \/ layer_err (S := S) e
       end)
    (fun e _ => new_entry_err name k g dv e) k.
Proof.
  intros Hd Ht Hm Hn Hx Hu expect. eapply wp_seq; [apply (new_entry_ok i dv name x g f k); done || lia| |by intros ?? []].
  intros [] k1 [Hnone (g1 & f1 & W & Hd1 & Hv)].
  assert (Hexp : snd <$> (snd <$> find_name name' (dir_view k1 g1 dv)) = expect).
  { rewrite Hv. unfold expect. destruct (decide (name' = name)) as [->|Hne].
    - by rewrite find_name_add by (done || lia).
    - by rewrite find_name_add_ne. }
  assert (Hm1 : may k1 g1 f1 X_OK).
  { apply (may_wstep k i g f dv _ g1 f1 k1 X_OK W). destruct Hm as [Hm1 Hm2]. split; [done|]. destruct Hm2 as [|Hm2]; [by left|right].
    intros b Hb Hxb. apply Hm2; [done|]. change (Z.lor X_OK W_OK) with (Z.lor X_OK W_OK). by rewrite Z.lor_spec, Hxb. }
  assert (Ht1 : accepted f1) by (unfold accepted; rewrite (ws_f _ _ _ _ _ _ _ _ _ W); exact Ht).
  apply wp_attempt. eapply wp_mono; [by apply (find_entry_core i dv name' g1 f1 k1)| |].
  - intros p k2 (j & y & Hf & _ & _ & Hy & _). rewrite <- Hexp, Hf, Hy. done.
  - intros e k2 [_ [[-> Hf]|He]]; [left|by right]. rewrite <- Hexp, Hf. done.
Qed.

(** ** Removing a name *)

(** The held entry [j] cleared and its block released. *)
Lemma clear_held_ok i dv j g f k p k' :
  dir_file k i g f dv -> 0 <= j < size g / 32 -> held i dv (j / 16) g f k p.1 k' -> p.2 = 32 * (j mod 16) ->
  wp (clear_de p;;; blk (bl_put p.1))
    (fun _ k2 => exists g', wstep i dv (fun _ => True) g f k g' f k2 /\ dir_file k2 i g' f dv /\
       dir_view k2 g' dv = del_entry (Z.to_nat j) (dir_view k g dv))
    (fun _ _ => False) k'.
Proof.
  intros Hd Hj (g1 & k1 & Hr & Hph & Ek & He) Hp. pose proof Hr as [Hpk Hd1]. pose proof (df_ok _ _ _ _ _ Hd1) as Hk1.
  destruct (peek_shape _ _ _ _ _ Hpk) as (En & Es & _).
  assert (Hl : 0 <= j / 16 < size g1 / BLK_SIZE) by (rewrite Es; rewrite (df_slots _ _ _ _ _ Hd) in Hj; Z.div_mod_to_equations; lia).
  pose proof (Z.mod_pos_bound j 16 ltac:(lia)) as Hm.
  assert (Hnd : nd k1 g1 dv (data_key (fnat g1) (j / 16)) = bmap_phys (fnat g1)).
  { rewrite Hph, (peek_nd _ _ _ _ _ _ _ Hpk), En. done. }
  assert (Hds : dsk k1 dv (bmap_phys (fnat g1)) = dsk k dv (bmap_phys (fnat g1))) by (destruct Hpk as [_ [(_ & Ed & _) _]]; apply Ed).
  rewrite <- Hds in He. unfold clear_de. apply wp_bind, wp_blk.
  eapply wp_mono; [apply (modify_edit _ _ _ _ _ _ (de_clear p.2) He)| |done].
  - rewrite <- Hnd. apply (data_blk_facts k1 i g1 f dv (j / 16) (proj1 Hk1)); [by apply (df_log _ _ _ _ _ _ Hd1)|by apply (df_full _ _ _ _ _ Hd1)].
  - unfold de_clear. rewrite Hp. apply bytes_ok_mem_write; [apply bl_disk_ok, Hk1|by apply Forall_replicate|lia|]. change (Z.of_nat (length (zeros 32))) with 32. unfold BLK_SIZE. lia.
  - intros [] s2 He2. apply wp_blk. eapply wp_mono; [by eapply put_edit| |done]. intros [] s3 Hu.
    replace (with_blk s3 (with_blk s2 k')) with (with_blk s3 k1) by (rewrite Ek; done).
    destruct (slot_written k1 i g1 f dv j (zeros 32) s3) as (W & Hd2 & Hv);
      [done|by rewrite Es|by apply Forall_replicate|done|by rewrite cstr_zeros|rewrite Hnd; unfold de_clear in Hu; by rewrite Hp in Hu|].
    exists g1. split; [eapply wstep_then; [by apply peek_wstep|done]|]. split; [done|].
    rewrite Hv, (peek_view _ _ _ _ _ _ Hpk). done.
Qed.

(** C28. Removing a name as [nat_unlink], [nat_rmdir] and [nat_rename] do it, by
    [find_entry], the entry cleared and its block released: the entry is free
    afterwards, a search for the name finds nothing, and every other name is found
    as before.  Blocks of other files keep their contents. *)
Theorem remove_entry_spec i dv name g f k :
  dir_file k i g f dv -> accepted f -> may k g f X_OK -> unique (dir_view k g dv) ->
  wp (p <~ find_entry i name;; clear_de p;;; blk (bl_put p.1))
    (fun _ k' => exists g' j x, find_name name (dir_view k g dv) = Some (j, (name, x)) /\
       wstep i dv (fun _ => True) g f k g' f k' /\ dir_file k' i g' f dv /\
       dir_view k' g' dv = del_entry j (dir_view k g dv) /\ unique (dir_view k' g' dv) /\
       forall name', find_name name' (dir_view k' g' dv) =
         if decide (name' = name) then None else find_name name' (dir_view k g dv))
    (fun e k' => (exists g', dir_read i dv g f k g' k') /\
       (e = ENOENT /\ find_name name (dir_view k g dv) = None \/ layer_err (S := S) e)) k.
Proof.
  intros Hd Ht Hm Hu. eapply wp_seq; [by apply (find_entry_core i dv name g f k)| |done].
  intros p k1 (j & x & Hf & Hh & Hp & _). pose proof (find_name_named _ _ _ _ Hf) as [[Hj _]%dir_view_lookup _].
  eapply wp_mono; [apply (clear_held_ok i dv (Z.of_nat j) g f k p k1); [done|lia|done|done]| |done].
  intros [] k2 (g2 & W & Hd2 & Hv). rewrite Nat2Z.id in Hv. exists g2, j, x. split; [done|]. split; [done|]. split; [done|]. split; [done|].
  rewrite Hv. split; [by apply del_entry_unique|]. intros name'. destruct (decide (name' = name)) as [->|Hne].
  - by eapply find_name_del.
  - by eapply find_name_del_ne.
Qed.

(** The emptiness test that [nat_rmdir] and [nat_rename] rely on succeeds
    exactly when every entry of the directory is free, fails with ENOTEMPTY exactly
    when one is in use, or with an error of the block layer, and changes nothing. *)
Theorem is_empty_spec i dv g f k :
  dir_file k i g f dv ->
  wp (is_empty i)
    (fun _ k' => (exists g', dir_read i dv g f k g' k') /\ Forall is_free (dir_view k g dv))
    (fun e k' => (exists g', dir_read i dv g f k g' k') /\
       (e = ENOTEMPTY /\ Exists (fun s => ~ is_free s) (dir_view k g dv) \/ layer_err (S := S) e)) k.
Proof.
  intros Hd. pose proof (df_ok _ _ _ _ _ Hd) as Hk. apply wp_bind, (wp_get_fso i g); [apply Hk|].
  rewrite (df_dir _ _ _ _ _ Hd). cbn [negb]. pose proof (df_size _ _ _ _ _ Hd).
  assert (Hall : Forall is_free (dir_view k g dv) <-> empty_to k g dv (size g / 32)).
  { rewrite Forall_lookup. split.
    - intros Hf j Hj. apply (Hf (Z.to_nat j)), dir_view_lookup. split; [lia|f_equal; lia].
    - intros He m s [Hm ->]%dir_view_lookup. apply He. lia. }
  eapply wp_mono; [apply (empty_loop_ok _ i dv 0 g f k Hd); [lia| |intros j Hj; lia]| |].
  - rewrite Z2Nat.id; [done|]. apply Z.div_pos; unfold BLK_SIZE; lia.
  - intros [] k' [Hr He]. split; [done|]. by apply Hall.
  - intros e k' [Hr [[-> Hno]|He]]; (split; [done|]); [left|by right]. split; [done|].
    apply not_Forall_Exists; [apply _|]. by rewrite Hall.
Qed.
End props.
