(* ===== verification/FsPath.v ===== *)
(** Path names (kern/fs/main.c: fs_fqname, fs_pathfs): normalisation of a path
    against the current directory and the choice of the mounted file system.

    A string is the list of its characters without the terminating NUL. *)

From S2P Require Import Prelude BlockDev BlockIface Kern NatDir.

Definition PATH_MAX : Z := 256.

(** * fs_fqname *)

(** Leading slashes skipped. *)
Fixpoint skip_slashes (p : list Z) : list Z :=
  match p with c :: p' => if c =? SLASH then skip_slashes p' else p | [] => [] end.

(** The part of [src] up to the next slash or to the end, and the rest from the
    slash on. *)
Fixpoint span_name (p : list Z) : list Z * list Z :=
  match p with
  | [] => ([], [])
  | c :: p' => if c =? SLASH then ([], p) else let '(a, b) := span_name p' in (c :: a, b)
  end.

(** [strrchr (buf, '/')]: the characters before the last slash. *)
Fixpoint before_last_slash (p : list Z) : option (list Z) :=
  match p with
  | [] => None
  | c :: p' =>
    match before_last_slash p' with
    | Some q => Some (c :: q)
    | None => if c =? SLASH then Some [] else None
    end
  end.

(** The loop of [fs_fqname]; a round consumes at least one character of [src]. *)
Fixpoint fq_loop (fuel : nat) (src dst : list Z) : Z + list Z :=
  match src with
  | [] => inr dst
  | _ :: _ =>
    match fuel with
    | O => inl ENAMETOOLONG
    | S fuel' =>
      let '(name, rest) := span_name (skip_slashes src) in
      if bool_decide (name = []) || bool_decide (name = [DOT]) then fq_loop fuel' rest dst
      else if bool_decide (name = [DOT; DOT]) then
        match before_last_slash dst with
        | None => fq_loop fuel' rest dst
        | Some prev => fq_loop fuel' rest prev
        end
      else if PATH_MAX <=? Z.of_nat (length dst) + Z.of_nat (length name) + 1 then inl ENAMETOOLONG
      else fq_loop fuel' rest (dst ++ SLASH :: name)
    end
  end.

Definition DEV_TTY : list Z := [47; 100; 101; 118; 47; 116; 116; 121].

Definition fqname (cwd tty path : list Z) : Z + list Z :=
  let '(src, dst) :=
    match path with
    | c :: p => if c =? SLASH then (p, []) else (path, if bool_decide (cwd !! 1%nat = None) then [] else cwd)
    | [] => ([], if bool_decide (cwd !! 1%nat = None) then [] else cwd)
    end in
  match fq_loop (length src) src dst with
  | inl e => inl e
  | inr buf =>
    let buf := if bool_decide (buf = []) then [SLASH] else buf in
    inr (if bool_decide (buf = DEV_TTY) && negb (bool_decide (tty = [])) then tty else buf)
  end.

(** * fs_pathfs *)

(** The prefix of a mounted file system covers a path. *)
Definition covers_path (f : fs) (path : list Z) : bool :=
  in_use f && bool_decide (take (length (prefix f)) path = prefix f) &&
  match path !! length (prefix f) with None => true | Some c => c =? SLASH end.

(** The loop over [fs_fs] from slot [i] on; [best] is [f] and [l]. *)
Fixpoint pathfs_loop (n : nat) (i : nat) (fss : gmap nat fs) (path : list Z) (best : option nat * nat)
    : option nat * nat :=
  match n with
  | O => best
  | S n' =>
    let best :=
      match fss !! i with
      | None => best
      | Some f =>
        if covers_path f path && (best.2 <=? length (prefix f))%nat then (Some i, length (prefix f)) else best
      end in
    pathfs_loop n' (S i) fss path best
  end.

Definition pathfs (fss : gmap nat fs) (path : list Z) : option (nat * list Z) :=
  match pathfs_loop FS_MAXFS 0 fss path (None, 0%nat) with
  | (None, _) => None
  | (Some i, l) => Some (i, skip_slashes (drop l path))
  end.

Section ops.
Context {S : Type}.

Definition fs_fqname (path : list Z) : M (kern S) (list Z) :=
  c <~ gets k_curr;;
  match fqname (cwd c) (tty c) path with inl e => fail e | inr p => ret p end.

(** [prefix_l] is returned as the rest of the path from it on. *)
Definition fs_pathfs (path : list Z) : M (kern S) (nat * list Z) :=
  m <~ gets k_fs;;
  match pathfs m path with None => fail ENOENT | Some r => ret r end.
End ops.

(** * Normal forms *)

(** A component of a path: not empty, no slash, neither [.] nor [..]. *)
Definition comp_ok (c : list Z) : Prop := c <> [] /\ Forall (fun x => x <> SLASH) c /\ c <> [DOT] /\ c <> [DOT; DOT].
Definition join (cs : list (list Z)) : list Z := cs ≫= (fun c => SLASH :: c).

(** The directory [cs] followed by one name. *)
Definition walk1 (cs : list (list Z)) (name : list Z) : list (list Z) :=
  if bool_decide (name = []) || bool_decide (name = [DOT]) then cs
  else if bool_decide (name = [DOT; DOT]) then take (length cs - 1) cs
  else cs ++ [name].

(** The names between the slashes of a path, empty ones included. *)
Fixpoint pieces (p : list Z) : list (list Z) :=
  match p with
  | [] => [[]]
  | c :: p' =>
    if c =? SLASH then [] :: pieces p'
    else match pieces p' with a :: l => (c :: a) :: l | [] => [[c]] end
  end.

(** The walk, which gives up at the first name that makes the path too long. *)
Fixpoint resolve (cs : list (list Z)) (l : list (list Z)) : option (list (list Z)) :=
  match l with
  | [] => Some cs
  | n :: l' =>
    if Z.of_nat (length (join (walk1 cs n))) <? PATH_MAX then resolve (walk1 cs n) l' else None
  end.

(** A directory as an absolute path. *)
Definition render (cs : list (list Z)) : list Z := if bool_decide (cs = []) then [SLASH] else join cs.

Lemma join_app cs c : join (cs ++ [c]) = join cs ++ SLASH :: c.
Proof. unfold join. rewrite bind_app. cbn. by rewrite app_nil_r. Qed.

Lemma span_name_spec p a b :
  span_name p = (a, b) -> p = a ++ b /\ Forall (fun x => x <> SLASH) a /\ (b = [] \/ exists b', b = SLASH :: b').
Proof.
  revert a b. induction p as [|c p IH]; intros a b E; cbn in E; simplify_eq; [by auto|].
  destruct (Z.eqb_spec c SLASH) as [->|Hc]; simplify_eq; [by eauto|].
  destruct (span_name p) as [a' b'] eqn:E'. simplify_eq. destruct (IH a' b eq_refl) as (-> & Ha & Hb).
  split; [done|]. split; [by constructor|done].
Qed.

Lemma skip_slashes_length p : (length (skip_slashes p) <= length p)%nat.
Proof. induction p as [|c p IH]; cbn; [done|]. destruct (_ =? _); cbn; lia. Qed.

(** A round of the loops consumes something. *)
Lemma round_shrinks c p a b : span_name (skip_slashes (c :: p)) = (a, b) -> (length b <= length p)%nat.
Proof.
  cbn. destruct (Z.eqb_spec c SLASH) as [->|Hc].
  - intros (E & _ & _)%span_name_spec. pose proof (skip_slashes_length p) as Hl. rewrite E, length_app in Hl. lia.
  - cbn. rewrite (proj2 (Z.eqb_neq _ _) Hc). destruct (span_name p) as [a' b'] eqn:E'.
    intros E. simplify_eq. apply span_name_spec in E' as (-> & _). rewrite length_app. lia.
Qed.

(** The last slash of a normal form is the one before its last component. *)
Lemma before_last_noslash c : Forall (fun x => x <> SLASH) c -> before_last_slash c = None.
Proof.
  induction 1 as [|x l Hx _ IH]; [done|]. cbn. rewrite IH. destruct (Z.eqb_spec x SLASH); done.
Qed.

Lemma before_last_app p c : Forall (fun x => x <> SLASH) c -> before_last_slash (p ++ SLASH :: c) = Some p.
Proof.
  intros Hc. induction p as [|x p IH]; cbn.
  - by rewrite before_last_noslash.
  - by rewrite IH.
Qed.

Lemma before_last_join cs :
  Forall comp_ok cs ->
  before_last_slash (join cs) = match cs with [] => None | _ => Some (join (take (length cs - 1) cs)) end.
Proof.
  destruct cs as [|c cs] using rev_ind; [done|]. intros [_ Hc]%Forall_app. inversion Hc as [|? ? (_ & Hs & _) _]. subst.
  rewrite join_app, before_last_app by done. rewrite length_app. cbn [length].
  rewrite Nat.add_sub, take_app_length. by destruct cs.
Qed.

Lemma walk1_ok cs name : Forall comp_ok cs -> Forall (fun x => x <> SLASH) name -> Forall comp_ok (walk1 cs name).
Proof.
  intros Hc Hn. unfold walk1. destruct (bool_decide_reflect (name = [])); [done|].
  destruct (bool_decide_reflect (name = [DOT])); [done|]. cbn [orb].
  destruct (bool_decide_reflect (name = [DOT; DOT])); [by apply Forall_take|].
  apply Forall_app. split; [done|]. by repeat constructor.
Qed.

Lemma length_join_pop cs : (length (join (take (length cs - 1) cs)) <= length (join cs))%nat.
Proof.
  destruct cs as [|c cs] using rev_ind; [done|]. rewrite length_app. cbn [length].
  rewrite Nat.add_sub, take_app_length, join_app, length_app. lia.
Qed.

Definition fits (cs : list (list Z)) : Prop := Z.of_nat (length (join cs)) < PATH_MAX.

Lemma pieces_span p a b :
  span_name p = (a, b) -> pieces p = a :: match b with [] => [] | _ :: b' => pieces b' end.
Proof.
  revert a b. induction p as [|c p IH]; intros a b E; cbn in E |- *; simplify_eq; [done|].
  destruct (c =? SLASH); simplify_eq; [done|]. destruct (span_name p) as [a' b'] eqn:E'. simplify_eq.
  by rewrite (IH a' b eq_refl).
Qed.

Lemma resolve_nil_piece cs l : fits cs -> resolve cs ([] :: l) = resolve cs l.
Proof. intros Hf. cbn [resolve]. change (walk1 cs []) with cs. by rewrite (proj2 (Z.ltb_lt _ _) Hf). Qed.

Lemma resolve_skip cs p : fits cs -> resolve cs (pieces (skip_slashes p)) = resolve cs (pieces p).
Proof.
  intros Hf. induction p as [|c p IH]; [done|]. cbn [skip_slashes].
  destruct (Z.eqb_spec c SLASH) as [->|]; [|done]. by rewrite IH, <- (resolve_nil_piece cs (pieces p) Hf).
Qed.

(** One round: the name taken off, and the pieces that are left. *)
Lemma resolve_round cs p name rest :
  fits cs -> span_name (skip_slashes p) = (name, rest) ->
  resolve cs (pieces p) = if Z.of_nat (length (join (walk1 cs name))) <? PATH_MAX
    then resolve (walk1 cs name) (pieces rest) else None.
Proof.
  intros Hf E. rewrite <- resolve_skip by done. rewrite (pieces_span _ _ _ E). cbn [resolve].
  destruct (Z.ltb_spec (Z.of_nat (length (join (walk1 cs name)))) PATH_MAX) as [Hw|]; [|done].
  apply span_name_spec in E as (_ & _ & [->|[b' ->]]).
  - by rewrite <- (resolve_nil_piece _ [] Hw).
  - by rewrite <- (resolve_nil_piece _ (pieces b') Hw).
Qed.

Lemma resolve_ok cs l cs' :
  Forall comp_ok cs -> fits cs -> Forall (Forall (fun x => x <> SLASH)) l -> resolve cs l = Some cs' ->
  Forall comp_ok cs' /\ fits cs'.
Proof.
  revert cs. induction l as [|n l IH]; intros cs Hc Hf Hl E; cbn in E; [by simplify_eq|].
  inversion Hl. subst. destruct (Z.ltb_spec (Z.of_nat (length (join (walk1 cs n)))) PATH_MAX); [|done].
  apply (IH (walk1 cs n)); [by apply walk1_ok|done|done|done].
Qed.

Lemma pieces_noslash p : Forall (Forall (fun x => x <> SLASH)) (pieces p).
Proof.
  induction p as [|c p IH]; cbn; [by repeat constructor|]. destruct (Z.eqb_spec c SLASH); [by constructor|].
  destruct (pieces p); inversion IH; repeat constructor; done.
Qed.

(** The loop computes the walk. *)
Lemma fq_loop_spec fuel src cs :
  Forall comp_ok cs -> fits cs -> (length src <= fuel)%nat ->
  fq_loop fuel src (join cs) =
    match resolve cs (pieces src) with Some cs' => inr (join cs') | None => inl ENAMETOOLONG end.
Proof.
  revert src cs. induction fuel as [|fuel IH]; intros src cs Hc Hl Hf.
  { destruct src; [|cbn in Hf; lia]. cbn [fq_loop pieces]. by rewrite (resolve_nil_piece cs [] Hl). }
  destruct src as [|x src]; [cbn [fq_loop pieces]; by rewrite (resolve_nil_piece cs [] Hl)|].
  destruct (span_name (skip_slashes (x :: src))) as [name rest] eqn:E.
  rewrite (resolve_round _ _ _ _ Hl E). cbn [fq_loop]. rewrite E.
  pose proof (round_shrinks _ _ _ _ E) as Hr. cbn in Hf.
  apply span_name_spec in E as (_ & Hn & _). pose proof (walk1_ok cs name Hc Hn) as Hw. unfold walk1 in *.
  destruct (bool_decide (name = []) || bool_decide (name = [DOT])).
  { rewrite (proj2 (Z.ltb_lt _ _) Hl). apply IH; [done|done|lia]. }
  destruct (bool_decide_reflect (name = [DOT; DOT])).
  - rewrite before_last_join by done. pose proof (length_join_pop cs) as Hp. unfold fits in Hl.
    rewrite (proj2 (Z.ltb_lt _ _)) by lia. destruct cs as [|c cs]; apply IH; (done || unfold fits; lia).
  - rewrite join_app, length_app. cbn [length].
    destruct (Z.leb_spec PATH_MAX (Z.of_nat (length (join cs)) + Z.of_nat (length name) + 1)).
    + by rewrite (proj2 (Z.ltb_ge _ _)) by lia.
    + rewrite (proj2 (Z.ltb_lt _ _)), <- join_app by lia. apply IH; [done| |lia].
      unfold fits. rewrite join_app, length_app. cbn [length]. lia.
Qed.

(** A normal path: [/], or components that name something, each after a slash. *)
Definition normal (p : list Z) : Prop :=
  (p = [SLASH] \/ exists cs, cs <> [] /\ Forall comp_ok cs /\ p = join cs) /\ Z.of_nat (length p) < PATH_MAX.

(** An absolute path is resolved from the root, any other from the current directory. *)
Definition origin (cs : list (list Z)) (path : list Z) : list (list Z) :=
  match path with c :: _ => if c =? SLASH then [] else cs | [] => cs end.

(** The controlling terminal replaces [/dev/tty], when there is one. *)
Definition redirect_tty (tty p : list Z) : list Z :=
  if bool_decide (p = DEV_TTY) && negb (bool_decide (tty = [])) then tty else p.

Lemma join_nil cs : join cs = [] <-> cs = [].
Proof. destruct cs; [done|]. split; done. Qed.

Lemma render_cwd cs :
  Forall comp_ok cs -> (if bool_decide (render cs !! 1%nat = None) then [] else render cs) = join cs.
Proof.
  unfold render. destruct cs as [|c cs]; [done|]. intros Hc. inversion Hc as [|? ? [Hn _] _]. subst.
  destruct c; done.
Qed.

Lemma fits_nil : fits [].
Proof. done. Qed.

Lemma fqname_resolves_aux cs tty path :
  Forall comp_ok cs -> fits cs ->
  fqname (render cs) tty path =
    match resolve (origin cs path) (pieces path) with
    | Some cs' => inr (redirect_tty tty (render cs'))
    | None => inl ENAMETOOLONG
    end.
Proof.
  intros Hc Hf. unfold fqname. rewrite render_cwd by done.
  assert (Hfin : forall l cs', fits l -> Forall comp_ok l ->
    match fq_loop (length cs') cs' (join l) with
    | inl e => inl e
    | inr buf => let buf := if bool_decide (buf = []) then [SLASH] else buf in
        inr (if bool_decide (buf = DEV_TTY) && negb (bool_decide (tty = [])) then tty else buf)
    end = match resolve l (pieces cs') with
          | Some cs' => inr (redirect_tty tty (render cs')) | None => inl ENAMETOOLONG end).
  { intros l p Hl Hok. rewrite fq_loop_spec by done. destruct (resolve l (pieces p)) as [r|]; [|done].
    cbn zeta. unfold redirect_tty, render. by rewrite (bool_decide_ext _ _ (join_nil r)). }
  destruct path as [|c p]; [by apply Hfin|]. cbn [origin]. destruct (Z.eqb_spec c SLASH) as [->|]; [|by apply Hfin].
  cbn [pieces]. rewrite Z.eqb_refl, (resolve_nil_piece [] _ fits_nil).
  exact (Hfin [] p fits_nil (Forall_nil_2 _)).
Qed.

(** C36. [fs_fqname] resolves a path name by name: from the root for an absolute
    path and from the current directory for any other, an empty name and [.] stay
    where they are, [..] goes to the parent (or stays at the root), another name
    goes down, and the result is the directory reached, with [/dev/tty] replaced by
    the controlling terminal; it fails, with ENAMETOOLONG, exactly when some step
    makes the name reach PATH_MAX. *)
Theorem fqname_resolves cs tty path :
  Forall comp_ok cs -> fits cs ->
  fqname (render cs) tty path =
    match resolve (origin cs path) (pieces path) with
    | Some cs' => inr (redirect_tty tty (render cs'))
    | None => inl ENAMETOOLONG
    end.
Proof. apply fqname_resolves_aux. Qed.

Lemma normal_render p : normal p <-> exists cs, p = render cs /\ Forall comp_ok cs /\ fits cs.
Proof.
  unfold normal, render, fits. split.
  - intros [[->|(cs & Hne & Hc & ->)] Hl]; [by exists []|]. exists cs. by rewrite bool_decide_false.
  - intros (cs & -> & Hc & Hf). destruct (bool_decide_reflect (cs = [])) as [->|]; [|by eauto 6].
    split; [by left|done].
Qed.

(** The name [fs_fqname] produces is in normal form: it starts with a slash,
    has no empty, [.] or [..] component and fits in PATH_MAX, whatever the path
    given. *)
Theorem fqname_normal cwd tty path p :
  normal cwd -> tty = [] \/ normal tty -> fqname cwd tty path = inr p -> normal p.
Proof.
  intros (cs & -> & Hc & Hf)%normal_render Ht. rewrite fqname_resolves_aux by done.
  destruct (resolve _ _) as [cs'|] eqn:E; [|done]. intros [= <-].
  assert (normal (render cs')) as Hn.
  { apply normal_render. exists cs'. split; [done|]. apply (resolve_ok (origin cs path) (pieces path)); [| | |done].
    - unfold origin. destruct path as [|c ?]; [done|]. by destruct (c =? SLASH).
    - unfold origin. destruct path as [|c ?]; [done|]. by destruct (c =? SLASH).
    - apply pieces_noslash. }
  unfold redirect_tty. destruct (bool_decide (_ = DEV_TTY)); cbn [andb]; [|done].
  destruct (bool_decide_reflect (tty = [])); cbn [negb]; [done|]. by destruct Ht.
Qed.

(** ** Fixed points *)

Lemma join_cons c cs : join (c :: cs) = SLASH :: c ++ join cs.
Proof. done. Qed.

Lemma length_join_app cs cs' : length (join (cs ++ cs')) = (length (join cs) + length (join cs'))%nat.
Proof. unfold join. by rewrite bind_app, length_app. Qed.

Lemma pieces_comp c p : Forall (fun x => x <> SLASH) c -> pieces (c ++ SLASH :: p) = c :: pieces p.
Proof.
  induction 1 as [|x c Hx _ IH]; cbn; [done|]. by rewrite (proj2 (Z.eqb_neq _ _) Hx), IH.
Qed.

Lemma pieces_last c : Forall (fun x => x <> SLASH) c -> pieces c = [c].
Proof. induction 1 as [|x c Hx _ IH]; cbn; [done|]. by rewrite (proj2 (Z.eqb_neq _ _) Hx), IH. Qed.

Lemma pieces_join cs : Forall comp_ok cs -> cs <> [] -> pieces (join cs) = [] :: cs.
Proof.
  induction 1 as [|c cs (_ & Hs & _) Hcs IH]; [done|]. intros _. rewrite join_cons. cbn [pieces]. rewrite Z.eqb_refl.
  f_equal. destruct cs as [|d cs]; [by rewrite app_nil_r, pieces_last|].
  rewrite join_cons in IH |- *. rewrite pieces_comp by done. specialize (IH ltac:(done)).
  cbn [pieces] in IH. rewrite Z.eqb_refl in IH. by injection IH as ->.
Qed.

Lemma resolve_down ds cs :
  Forall comp_ok cs -> fits (ds ++ cs) -> resolve ds cs = Some (ds ++ cs).
Proof.
  intros Hc. revert ds. induction Hc as [|c cs (H1 & _ & H2 & H3) _ IH]; intros ds Hf; [by rewrite app_nil_r|].
  cbn [resolve]. unfold walk1. rewrite !bool_decide_false by done. cbn [orb].
  assert (ds ++ c :: cs = (ds ++ [c]) ++ cs) as E by by rewrite <- app_assoc. rewrite E in *.
  rewrite (proj2 (Z.ltb_lt _ _)); [by apply IH|]. unfold fits in Hf. rewrite length_join_app in Hf. lia.
Qed.

Lemma resolve_render cs : Forall comp_ok cs -> fits cs -> resolve [] (pieces (render cs)) = Some cs.
Proof.
  intros Hc Hf. unfold render. destruct (bool_decide_reflect (cs = [])) as [->|Hne]; [done|].
  rewrite pieces_join, (resolve_nil_piece [] cs fits_nil) by done. by apply (resolve_down []).
Qed.

Lemma origin_render ds cs : origin ds (render cs) = [].
Proof. by destruct cs. Qed.

(** Normal paths are fixed points of [fs_fqname], so that resolving a
    resolved name again gives the same name (the name of the controlling terminal
    apart). *)
Theorem fqname_idempotent cwd tty p :
  normal cwd -> normal p -> tty = [] \/ p <> DEV_TTY -> fqname cwd tty p = inr p.
Proof.
  intros (ds & -> & Hd & Hfd)%normal_render (cs & -> & Hc & Hf)%normal_render Ht.
  rewrite fqname_resolves_aux, origin_render, resolve_render by done. unfold redirect_tty.
  destruct Ht as [->|Hne]; [by rewrite andb_false_r|]. by rewrite bool_decide_false.
Qed.

(** ** The file system of a path *)

Lemma pathfs_loop_spec N n i fss path best :
  (i + n <= N)%nat ->
  (forall j, best.1 = Some j -> exists f, (j < N)%nat /\ fss !! j = Some f /\ covers_path f path = true /\ length (prefix f) = best.2) ->
  (best.1 = None -> best.2 = 0%nat) ->
  let r := pathfs_loop n i fss path best in
  (forall j, r.1 = Some j -> exists f, (j < N)%nat /\ fss !! j = Some f /\ covers_path f path = true /\ length (prefix f) = r.2) /\
  (best.2 <= r.2)%nat /\ (best.1 <> None -> r.1 <> None) /\
  (forall j f, (i <= j < i + n)%nat -> fss !! j = Some f -> covers_path f path = true ->
     r.1 <> None /\ (length (prefix f) <= r.2)%nat).
Proof.
  revert i best. induction n as [|n IH]; intros i best HN Hb Hn; cbn [pathfs_loop].
  { split; [done|]. split; [done|]. split; [done|]. intros; lia. }
  set (best' := match fss !! i with None => best | Some f => _ end).
  assert (Hb' : forall j, best'.1 = Some j -> exists f, (j < N)%nat /\ fss !! j = Some f /\ covers_path f path = true /\ length (prefix f) = best'.2).
  { unfold best'. intros j. destruct (fss !! i) as [f|] eqn:E; [|apply Hb].
    destruct (covers_path f path) eqn:Ec; [|apply Hb]. destruct (Nat.leb_spec best.2 (length (prefix f))); [|apply Hb].
    cbn. intros [= <-]. exists f. split; [lia|done]. }
  assert (Hup : (best.2 <= best'.2)%nat /\ (best.1 <> None -> best'.1 <> None) /\ (best'.1 = None -> best'.2 = 0%nat)).
  { unfold best'. destruct (fss !! i) as [f|]; [|done]. destruct (covers_path f path); [|done].
    destruct (Nat.leb_spec best.2 (length (prefix f))); cbn [andb]; [|done]. cbn. done. }
  destruct Hup as (U1 & U2 & U3). destruct (IH (S i) best' ltac:(lia) Hb' U3) as (R1 & R2 & R3 & R4).
  split; [done|]. split; [lia|]. split; [by auto|]. intros j f Hj Hf Hc.
  destruct (decide (j = i)) as [->|Hne]; [|apply (R4 j f); [lia|done|done]].
  assert (best'.1 <> None /\ (length (prefix f) <= best'.2)%nat) as [Q1 Q2].
  { unfold best'. rewrite Hf, Hc. destruct (Nat.leb_spec best.2 (length (prefix f))) as [|Hlt]; cbn [andb]; [done|].
    split; [|lia]. intros E. specialize (Hn E). lia. }
  split; [by apply R3|lia].
Qed.

Lemma pathfs_choice fss path :
  match pathfs fss path with
  | Some (i, rest) =>
    exists f, (i < FS_MAXFS)%nat /\ fss !! i = Some f /\ covers_path f path = true /\
      rest = skip_slashes (drop (length (prefix f)) path) /\
      (forall j f', (j < FS_MAXFS)%nat -> fss !! j = Some f' -> covers_path f' path = true ->
         (length (prefix f') <= length (prefix f))%nat)
  | None => forall j f', (j < FS_MAXFS)%nat -> fss !! j = Some f' -> covers_path f' path = false
  end.
Proof.
  unfold pathfs. destruct (pathfs_loop_spec FS_MAXFS FS_MAXFS 0 fss path (None, 0%nat)) as (R1 & _ & _ & R4); [done|done|done|].
  destruct (pathfs_loop FS_MAXFS 0 fss path (None, 0%nat)) as [[i|] l]; cbn [fst snd] in *.
  - destruct (R1 i eq_refl) as (f & Hi & Hf & Hc & Hl). exists f. split; [done|]. split; [done|]. split; [done|]. split; [by rewrite Hl|].
    intros j f' Hj Hf' Hc'. destruct (R4 j f') as [_ H]; [lia|done|done|]. lia.
  - intros j f' Hj Hf'. apply not_true_is_false. intros Hc. destruct (R4 j f') as [? _]; [lia|done|done|done].
Qed.

(** [fs_pathfs] picks, among the mounted file systems whose prefix covers the
    path at a component boundary, one with the longest prefix, and hands on the
    rest of the path without leading slashes; it fails only when no mounted file
    system covers the path. *)
Theorem pathfs_longest fss path :
  match pathfs fss path with
  | Some (i, rest) =>
    exists f, (i < FS_MAXFS)%nat /\ fss !! i = Some f /\ covers_path f path = true /\
      rest = skip_slashes (drop (length (prefix f)) path) /\
      (forall j f', (j < FS_MAXFS)%nat -> fss !! j = Some f' -> covers_path f' path = true ->
         (length (prefix f') <= length (prefix f))%nat)
  | None => forall j f', (j < FS_MAXFS)%nat -> fss !! j = Some f' -> covers_path f' path = false
  end.
Proof. apply pathfs_choice. Qed.
