(* ===== verification/FsMount.v ===== *)
(** Mounting (kern/fs/mount.c) and name parsing (kern/fs/main.c: fs_parsename4,
    fs_parsename, fs_lookup).

    A removable file system is mounted on first use ([fs_activate]) and, when it
    has been idle for FS_UDELAY seconds, unmounted by a deferred call
    ([fs_clock], [fs_dumount]). *)

From S2P Require Import Prelude BlockDev BlockIface Kern Vfs FsPath.

Definition EMOUNTED : Z := 37.
Definition FS_UDELAY : Z := 5.

(** What the mount code calls of kern/block.c besides the buffers. *)
Class BlockDevices (S : Type) := {
  bd_name : nat -> S -> option string;
  bd_find : string -> M S nat;
  bd_open : nat -> M S unit;
  bd_close : nat -> M S unit;
  (** [blk_syncdev (dev, SYNC_WRITE | SYNC_INVALIDATE)] *)
  bd_flush : nat -> M S unit;
}.

(** The entry points of [struct fstype] that take names and file systems. *)
Class FsNames (S : Type) := {
  ft_mount : nat -> nat -> M (kern S) unit;
  ft_umount : nat -> nat -> M (kern S) unit;
  ft_lookup : nat -> nat -> list Z -> M (kern S) nat;
  ft_creat : nat -> nat -> list Z -> Z -> Z -> M (kern S) nat;
  ft_link : nat -> nat -> list Z -> M (kern S) unit;
  ft_unlink : nat -> nat -> list Z -> M (kern S) unit;
  ft_rename : nat -> nat -> list Z -> list Z -> M (kern S) unit;
  ft_chdir : nat -> nat -> list Z -> M (kern S) unit;
  ft_mkdir : nat -> nat -> list Z -> Z -> M (kern S) unit;
  ft_rmdir : nat -> nat -> list Z -> M (kern S) unit;
}.

(** [memset (fs, 0, sizeof *fs)], then the prefix and the device. *)
Definition zero_fs (p : list Z) (d : option nat) (t : option nat) : fs :=
  Fs p false false false false false false 0 t d (FsNat 0 0 0 0 0 0 (zeros BLK_SIZE) 0 false 0 0).

Definition set_type (t : option nat) (f : fs) : fs :=
  Fs (prefix f) (removable f) (read_only f) (no_atime f) (insecure f) (active f) (in_use f)
    (unmount_time f) t (dev f) (nat_ f).
Definition set_dev (d : option nat) (f : fs) : fs :=
  Fs (prefix f) (removable f) (read_only f) (no_atime f) (insecure f) (active f) (in_use f)
    (unmount_time f) (type f) d (nat_ f).
(** The flags of [fs_mount]: 1 read-only, 2 no access times, 4 removable, 8 insecure. *)
Definition set_flags (flags : Z) (f : fs) : fs :=
  Fs (prefix f) (removable f || Z.testbit flags 2) (read_only f || Z.testbit flags 0)
    (no_atime f || Z.testbit flags 1) (insecure f || Z.testbit flags 3) (active f) true
    (unmount_time f) (type f) (dev f) (nat_ f).

Section ops.
Context {S : Type} `{FsLow S, FsNames S, BlockDevices S}.

(** [f] uses the prefix or the device. *)
Definition clashes (k : kern S) (pfx : list Z) (bdev_name : string) (f : fs) : bool :=
  in_use f &&
  (bool_decide (prefix f = pfx) ||
   match dev f with
   | Some d => bool_decide (bd_name d (k_blk k) = Some bdev_name)
   | None => false
   end).

Fixpoint mounted_loop (n i : nat) (pfx : list Z) (bdev_name : string) : M (kern S) unit :=
  match n with
  | O => ret tt
  | Datatypes.S n' =>
    f <~ get_fs i;;
    c <~ gets (fun k => clashes k pfx bdev_name f);;
    if c : bool then fail EMOUNTED else mounted_loop n' (Datatypes.S i) pfx bdev_name
  end.

(** The first slot that satisfies [p]. *)
Fixpoint fs_slot (n i : nat) (p : fs -> bool) : M (kern S) (option nat) :=
  match n with
  | O => ret None
  | Datatypes.S n' => f <~ get_fs i;; if p f then ret (Some i) else fs_slot n' (Datatypes.S i) p
  end.

Definition nodev : string := "nodev".

Definition fs_mount (pfx : list Z) (bdev_name : string) (fstype : list Z) (flags : Z) : M (kern S) unit :=
  mounted_loop FS_MAXFS 0 pfx bdev_name;;;
  o <~ fs_slot FS_MAXFS 0 (fun f => negb (in_use f));;
  match o with
  | None => fail ENOMEM
  | Some i =>
    upd_fs i (fun _ => zero_fs pfx None None);;;
    (if String.eqb bdev_name nodev then ret tt
     else d <~ blk (bd_find bdev_name);; upd_fs i (set_dev (Some d)));;;
    t <~ fs_find fstype;;
    upd_fs i (set_type (Some t));;;
    f <~ get_fs i;;
    match dev f with Some d => blk (bd_open d) | None => ret tt end;;;
    upd_fs i (set_flags flags);;;
    f <~ get_fs i;;
    if removable f then ret tt
    else
      r <~ attempt (ft_mount t i);;
      match r with
      | inl e =>
        upd_fs i (set_in_use false);;;
        (match dev f with Some d => status (blk (bd_close d));;; ret tt | None => ret tt end);;;
        fail e
      | inr _ => upd_fs i (set_active true)
      end
  end.

(** Some object of file system [fsi] is in use. *)
Fixpoint fs_busy (n j fsi : nat) : M (kern S) bool :=
  match n with
  | O => ret false
  | Datatypes.S n' =>
    p <~ get_fso j;;
    if negb (refcnt p =? 0) && (f_fs p =? fsi)%nat then ret true else fs_busy n' (Datatypes.S j) fsi
  end.

Definition fs_umount (pfx : list Z) : M (kern S) unit :=
  o <~ fs_slot FS_MAXFS 0 (fun f => in_use f && bool_decide (prefix f = pfx));;
  match o with
  | None => fail ENOENT
  | Some i =>
    high <~ gets fs_fso_high;;
    b <~ fs_busy (Z.to_nat high) 0 i;;
    if b : bool then fail EBUSY
    else
      f <~ get_fs i;;
      err <~ (if active f then t <~ deref (type f);; status (ft_umount t i) else ret 0);;
      err <~ match dev f with
             | Some d => e <~ status (blk (bd_close d));; ret (if err =? 0 then e else err)
             | None => ret err
             end;;
      upd_fs i (set_in_use false);;;
      if err =? 0 then ret tt else fail err
  end.

Definition fs_sched_unmount (i : nat) : M (kern S) unit :=
  f <~ get_fs i;;
  if negb (removable f) then panic "fs_sched_unount: !fs->removable"
  else t <~ gets k_uptime;; upd_fs i (set_unmount_time (t + FS_UDELAY)).

(** [blk_syncdev] of [fs->dev]; without a device no buffer is concerned. *)
Definition fs_flush (i : nat) : M (kern S) unit :=
  f <~ get_fs i;;
  match dev f with Some d => status (blk (bd_flush d));;; ret tt | None => ret tt end.

Definition fs_activate (i : nat) : M (kern S) unit :=
  f <~ get_fs i;;
  if negb (removable f) then ret tt
  else if active f then fs_sched_unmount i
  else
    t <~ deref (type f);;
    r <~ attempt (ft_mount t i);;
    match r with
    | inl e => fs_flush i;;; fail e
    | inr _ => upd_fs i (set_active true);;; fs_sched_unmount i
    end.

(** The deferred call. *)
Definition fs_dumount (i : nat) : M (kern S) unit :=
  f <~ get_fs i;;
  if negb (active f) then ret tt
  else
    high <~ gets fs_fso_high;;
    b <~ fs_busy (Z.to_nat high) 0 i;;
    if b : bool then fs_sched_unmount i
    else
      t <~ deref (type f);;
      status (ft_umount t i);;;
      upd_fs i (set_active false);;;
      fs_flush i.

Fixpoint clock_loop (n i : nat) (t : Z) : M (kern S) unit :=
  match n with
  | O => ret tt
  | Datatypes.S n' =>
    f <~ get_fs i;;
    (if negb (in_use f) || negb (removable f) || negb (active f) then ret tt
     else if (unmount_time f =? 0) || (t <? unmount_time f) then ret tt
     else
       upd_fs i (set_unmount_time 0);;;
       modify (fun k => with_deferred (k_deferred k ++ [i]) k));;;
    clock_loop n' (Datatypes.S i) t
  end.

Definition fs_clock : M (kern S) unit := t <~ gets k_uptime;; clock_loop FS_MAXFS 0 t.

(** ** Names *)

(** The file system, the name within it and the full name. *)
Definition fs_parsename4 (path : list Z) : M (kern S) (nat * list Z * list Z) :=
  fq <~ fs_fqname path;;
  ' (i, rest) <~ fs_pathfs fq;;
  fs_activate i;;;
  ret (i, rest, fq).

Definition fs_parsename (path : list Z) : M (kern S) (nat * list Z) :=
  ' (i, rest, _) <~ fs_parsename4 path;; ret (i, rest).

(** [fs->type] of a parsed name. *)
Definition type_of (i : nat) : M (kern S) nat := f <~ get_fs i;; deref (type f).

Definition fs_lookup (path : list Z) : M (kern S) nat :=
  ' (i, dname) <~ fs_parsename path;;
  t <~ type_of i;;
  ft_lookup t i dname.
End ops.
