(* ===== verification/FsMountOk.v ===== *)
(** Invariants of the mount table (kern/fs/mount.c).

    [mounts_ok]: the file systems in use have distinct prefixes and distinct
    devices, and each is active unless it is removable; [mounts_but G] leaves out the
    [active] flags of the slots [G], which a deferred unmount that comes too late may
    clear.  The operations of mount.c preserve it whatever the file-system type, as long as the type's
    [mount] and [umount] leave the table's own fields alone ([FsNamesOk]) and
    [blk_find] finds a device of the name it is given ([BlockDevicesOk]). *)

From S2P Require Import Prelude BlockDev BlockIface Kern Frame Vfs FsPath FsMount.

(** What mount.c owns of a slot. *)
Definition mount_id (f : fs) := (prefix f, removable f, active f, in_use f, type f, dev f).

Section defs.
Context {S : Type}.
Implicit Types (k : kern S).

Definition same_table k k' : Prop :=
  forall i, mount_id <$> (k_fs k' !! i) = mount_id <$> (k_fs k !! i).
Definition same_deferred k k' : Prop := k_deferred k' = k_deferred k.
Definition same_mounts k k' : Prop := same_table k k' /\ same_deferred k k'.

(** The table, but for the [active] flags of the slots [G]. *)
Definition mounts_but (G : gset nat) k : Prop :=
  (forall i f, (i < FS_MAXFS)%nat -> k_fs k !! i = Some f -> in_use f = true ->
     i ∈ G \/ removable f = true \/ active f = true) /\
  (forall i j f g, (i < FS_MAXFS)%nat -> (j < FS_MAXFS)%nat -> i <> j ->
     k_fs k !! i = Some f -> k_fs k !! j = Some g -> in_use f = true -> in_use g = true ->
     prefix f <> prefix g /\ (dev f = dev g -> dev f = None)).
End defs.
Notation mounts_ok := (mounts_but ∅).

#[export] Instance same_table_preorder {S} : PreOrder (same_table (S := S)).
Proof. split; [done|]. intros k1 k2 k3 H1 H2 i. by rewrite H2, H1. Qed.
#[export] Instance same_deferred_preorder {S} : PreOrder (same_deferred (S := S)).
Proof. split; [done|]. intros k1 k2 k3 H1 H2. unfold same_deferred in *. congruence. Qed.
#[export] Instance same_mounts_preorder {S} : PreOrder (same_mounts (S := S)).
Proof. split; [done|]. intros k1 k2 k3 [? ?] [? ?]. split; by etransitivity. Qed.

Lemma keeps_same_table {S A} (m : M (kern S) A) : keeps same_mounts m -> keeps same_table m.
Proof. intros Hm k. eapply wlp_mono; [apply Hm|by intros ? ? []..]. Qed.
Lemma keeps_same_deferred {S A} (m : M (kern S) A) : keeps same_mounts m -> keeps same_deferred m.
Proof. intros Hm k. eapply wlp_mono; [apply Hm|by intros ? ? []..]. Qed.

Class FsNamesOk (S : Type) `{FsNames S} := {
  ft_mount_keeps : forall t i, keeps same_mounts (ft_mount t i);
  ft_umount_keeps : forall t i, keeps same_mounts (ft_umount t i);
}.
Class BlockDevicesOk (S : Type) `{BlockDevices S} := {
  bd_find_ok : forall n s, wlp (bd_find n) (fun d s' => s' = s /\ bd_name d s = Some n) (fun _ s' => s' = s) s;
}.

Section table.
Context {S : Type} {G : gset nat}.
Implicit Types (k : kern S).

Lemma same_table_lookup k k' i f :
  same_table k k' -> k_fs k' !! i = Some f -> exists g, k_fs k !! i = Some g /\ mount_id g = mount_id f.
Proof.
  intros H E. specialize (H i). rewrite E in H. destruct (k_fs k !! i) as [g|]; [|done].
  apply (inj Some) in H. by exists g.
Qed.

Lemma mounts_ok_same k k' : same_table k k' -> mounts_but G k -> mounts_but G k'.
Proof.
  intros Hs [H1 H2]. split.
  - intros i f Hi (g & Hg & E)%(same_table_lookup _ _ _ _ Hs). injection E as E1 E2 E3 E4 E5 E6.
    rewrite <- E2, <- E3, <- E4. by apply (H1 i).
  - intros i j f g Hi Hj Hne (f' & Hf & Ef)%(same_table_lookup _ _ _ _ Hs) (g' & Hg & Eg)%(same_table_lookup _ _ _ _ Hs).
    injection Ef as E1 E2 E3 E4 E5 E6. injection Eg as G1 G2 G3 G4 G5 G6.
    rewrite <- E1, <- E4, <- E6, <- G1, <- G4, <- G6. by apply (H2 i j).
Qed.

(** A slot taken out of use, or changed where mount.c does not look. *)
Lemma mounts_ok_unused k i g :
  in_use g = false -> mounts_but G k -> mounts_but G (with_fs (<[i := g]> (k_fs k)) k).
Proof.
  intros Hg [H1 H2]. split; cbn.
  - intros j f Hj [[-> <-]|[Hne Hf]]%lookup_insert_Some Hu; [congruence|eauto].
  - intros j1 j2 f1 f2 L1 L2 Hn [[-> <-]|[Hne1 Hf1]]%lookup_insert_Some [[-> <-]|[Hne2 Hf2]]%lookup_insert_Some U1 U2;
      try congruence. eauto.
Qed.

(** A slot put into use under a new prefix and a new device. *)
Lemma mounts_ok_used k i g :
  removable g = true \/ active g = true ->
  (forall j f, (j < FS_MAXFS)%nat -> j <> i -> k_fs k !! j = Some f -> in_use f = true ->
     prefix f <> prefix g /\ (dev f = dev g -> dev f = None)) ->
  mounts_but G k -> mounts_but G (with_fs (<[i := g]> (k_fs k)) k).
Proof.
  intros Hra Hnew [H1 H2]. split; cbn.
  - intros j f Hj [[-> <-]|[Hne Hf]]%lookup_insert_Some Hu; [by right|eauto].
  - intros j1 j2 f1 f2 L1 L2 Hn [[-> <-]|[Hne1 Hf1]]%lookup_insert_Some [[-> <-]|[Hne2 Hf2]]%lookup_insert_Some U1 U2;
      try done; [| |eauto].
    + destruct (Hnew j2 f2 L2 ltac:(done) Hf2 U2) as [Hp Hd]. split; [congruence|]. intros E. rewrite E. apply Hd. congruence.
    + destruct (Hnew j1 f1 L1 ltac:(done) Hf1 U1) as [Hp Hd]. done.
Qed.

(** The [active] flag set, or cleared where it does not matter. *)
Lemma mounts_ok_active k i f v :
  k_fs k !! i = Some f -> i ∈ G \/ v = true \/ removable f = true \/ in_use f = false ->
  mounts_but G k -> mounts_but G (with_fs (<[i := set_active v f]> (k_fs k)) k).
Proof.
  intros Hf Hv [H1 H2]. split; cbn.
  - intros j g Hj [[-> <-]|[Hne Hg]]%lookup_insert_Some Hu; [|eauto]. cbn in *. destruct Hv as [?|[->|[->|?]]]; [by left|by right; right|by right; left|congruence].
  - intros j1 j2 f1 f2 L1 L2 Hn Hf1 Hf2 U1 U2.
    assert (forall j g, (<[i := set_active v f]> (k_fs k)) !! j = Some g -> exists g', k_fs k !! j = Some g' /\
      in_use g' = in_use g /\ prefix g' = prefix g /\ dev g' = dev g) as Hl.
    { intros j g [[-> <-]|[_ Hg]]%lookup_insert_Some; eauto. }
    destruct (Hl _ _ Hf1) as (g1 & G1 & A1 & B1 & C1), (Hl _ _ Hf2) as (g2 & G2 & A2 & B2 & C2).
    rewrite <- B1, <- B2, <- C1, <- C2. apply (H2 j1 j2); congruence.
Qed.

Lemma mounts_ok_blk k b : mounts_but G (with_blk b k) <-> mounts_but G k.
Proof. done. Qed.

Lemma same_table_blk k b : same_table k (with_blk b k).
Proof. done. Qed.
Lemma same_table_upd k i f g :
  k_fs k !! i = Some f -> mount_id g = mount_id f -> same_table k (with_fs (<[i := g]> (k_fs k)) k).
Proof.
  intros Hf Hg j. cbn. destruct (decide (j = i)) as [->|Hne].
  - rewrite lookup_insert_eq, Hf. cbn. by rewrite Hg.
  - by rewrite lookup_insert_ne.
Qed.
End table.

Section ok.
Context {S : Type} `{FsLow S, FsNames S, BlockDevices S, !FsNamesOk S, !BlockDevicesOk S} {G : gset nat}.
Implicit Types (k : kern S).

Lemma mounted_loop_ok n i pfx bn k :
  wlp (mounted_loop n i pfx bn)
    (fun _ k' => k' = k /\ forall j f, (i <= j < i + n)%nat -> k_fs k !! j = Some f -> clashes k pfx bn f = false)
    (fun e k' => k' = k /\ e = EMOUNTED /\
       exists j f, (i <= j < i + n)%nat /\ k_fs k !! j = Some f /\ clashes k pfx bn f = true) k.
Proof.
  revert i. induction n as [|n IH]; intros i; cbn [mounted_loop].
  { apply wlp_ret. split; [done|]. intros; lia. }
  apply wlp_bind, wlp_get_fs. intros f Hf. apply wlp_bind, wlp_gets.
  destruct (clashes k pfx bn f) eqn:Ec.
  - apply wlp_fail. split; [done|]. split; [done|]. exists i, f. split; [lia|done].
  - eapply wlp_mono; [apply IH| |].
    + cbn. intros _ k' [-> Hc]. split; [done|]. intros j g Hj Hg.
      destruct (decide (j = i)) as [->|]; [congruence|]. apply (Hc j); [lia|done].
    + cbn. intros e k' (-> & -> & j & g & Hj & Hg). split; [done|]. split; [done|]. exists j, g. split; [lia|done].
Qed.

Lemma fs_slot_ok n i p k :
  wlp (fs_slot n i p)
    (fun o k' => k' = k /\ match o with
       | Some j => (i <= j < i + n)%nat /\ exists f, k_fs k !! j = Some f /\ p f = true
       | None => forall j f, (i <= j < i + n)%nat -> k_fs k !! j = Some f -> p f = false end)
    (fun _ _ => False) k.
Proof.
  revert i. induction n as [|n IH]; intros i; cbn [fs_slot].
  { apply wlp_ret. split; [done|]. intros; lia. }
  apply wlp_bind, wlp_get_fs. intros f Hf. destruct (p f) eqn:Ep.
  - apply wlp_ret. split; [done|]. split; [lia|]. by exists f.
  - eapply wlp_mono; [apply IH| |done]. cbn. intros [j|] k' [-> Ho]; (split; [done|]).
    + destruct Ho as [Hj Ho]. split; [lia|done].
    + intros j g Hj Hg. destruct (decide (j = i)) as [->|]; [congruence|]. apply (Ho j); [lia|done].
Qed.

Lemma fs_find_keeps name : keeps (S := kern S) eq (fs_find name).
Proof. unfold fs_find. keeps. Qed.

Lemma clashes_false k pfx bn f :
  clashes k pfx bn f = false -> in_use f = true ->
  prefix f <> pfx /\ forall d, dev f = Some d -> bd_name d (k_blk k) <> Some bn.
Proof.
  unfold clashes. intros Hc Hu. rewrite Hu in Hc. cbn [andb] in Hc. apply orb_false_iff in Hc as [Hp Hd].
  split; [by apply bool_decide_eq_false in Hp|]. intros d Ed. rewrite Ed in Hd. by apply bool_decide_eq_false in Hd.
Qed.

(** The device part of [fs_mount]: none, or a device of the name given. *)
Lemma mount_dev_ok i bn k :
  wlp (if String.eqb bn nodev then ret tt else d <~ blk (bd_find bn);; upd_fs i (set_dev (Some d)))
    (fun _ k' => (k' = k /\ bn = nodev) \/ exists f d, k_fs k !! i = Some f /\ bd_name d (k_blk k) = Some bn /\
        k' = with_fs (<[i := set_dev (Some d) f]> (k_fs k)) k)
    (fun _ k' => k' = k) k.
Proof.
  destruct (String.eqb_spec bn nodev) as [->|Hne]; [apply wlp_ret; by left|].
  apply wlp_bind, wlp_blk. eapply wlp_mono; [apply bd_find_ok| |].
  - cbn. intros d s [-> Hd]. apply wlp_upd_fs. cbn. intros f Hf. right. exists f, d. split; [done|]. split; [done|].
    by destruct k.
  - cbn. intros e s ->. by destruct k.
Qed.

(** ** Mounting *)

(** Slot [i] prepared by [fs_mount], not in use yet. *)
Definition prepared k (i : nat) pfx (bn : string) f : Prop :=
  prefix f = pfx /\ in_use f = false /\ removable f = false /\ active f = false /\
  (dev f = None \/ exists d, dev f = Some d /\ bd_name d (k_blk k) = Some bn).

(** [fs_mount] up to the [in_use] flag: the other slots are as they were, and slot
    [i] is ready to be put into use. *)
Definition ready k (i : nat) pfx (bn : string) f k' : Prop :=
  k_fs k' = <[i := f]> (k_fs k) /\ prepared k i pfx bn f.

Lemma ready_ok k i pfx bn f k' : ready k i pfx bn f k' -> mounts_but G k -> mounts_but G k'.
Proof.
  intros [Hk (_ & Hu & _)] Hm. apply (mounts_ok_unused k i f Hu) in Hm. unfold mounts_but. by rewrite Hk.
Qed.

(** The slot put into use: removable, or else active once its type has mounted it. *)
Lemma ready_used k i pfx bn f g k' k2 :
  mounts_but G k -> (forall j f, (j < FS_MAXFS)%nat -> k_fs k !! j = Some f -> clashes k pfx bn f = false) ->
  ready k i pfx bn f k' -> prefix g = pfx -> dev g = dev f -> removable g = true \/ active g = true ->
  k_fs k2 = <[i := g]> (k_fs k) -> mounts_but G k2.
Proof.
  intros Hm Hc [_ (_ & _ & _ & _ & Hd)] Hp Hg Hra Hk2.
  assert (mounts_but G (with_fs (<[i := g]> (k_fs k)) k)) as Hu.
  { apply mounts_ok_used; [done| |done]. intros j h Hj Hne Hh Hhu.
    destruct (clashes_false k pfx bn h (Hc j h Hj Hh) Hhu) as [Hpn Hdn]. split; [congruence|].
    intros E. rewrite Hg in E. destruct Hd as [Hd|(d & Hd & Hn)]; [congruence|].
    rewrite Hd in E. by destruct (Hdn d E). }
  unfold mounts_but in *. by rewrite Hk2.
Qed.

Lemma same_insert k k' i g m :
  k_fs k = <[i := g]> m -> same_table k k' -> exists g', k_fs k' !! i = Some g' /\ mount_id g' = mount_id g.
Proof.
  intros Hk Hs. specialize (Hs i). rewrite Hk, lookup_insert_eq in Hs.
  destruct (k_fs k' !! i) as [g'|]; [|done]. apply (inj Some) in Hs. by exists g'.
Qed.

(** The last part: the type's [mount] runs on the slot [g] in use. *)
Lemma mount_type_ok t i f g pfx bn k k1 k2 :
  mounts_but G k -> (forall j f, (j < FS_MAXFS)%nat -> k_fs k !! j = Some f -> clashes k pfx bn f = false) ->
  ready k i pfx bn f k1 -> prefix g = pfx -> dev g = dev f -> k_fs k2 = <[i := g]> (k_fs k) ->
  wlp (if removable g then ret tt
       else
         r <~ attempt (ft_mount t i);;
         match r with
         | inl e =>
           upd_fs i (set_in_use false);;;
           (match dev g with Some d => status (blk (bd_close d));;; ret tt | None => ret tt end);;;
           fail e
         | inr _ => upd_fs i (set_active true)
         end) (fun _ => mounts_but G) (fun _ => mounts_but G) k2.
Proof.
  intros Hm Hc R Hp Hd Hk2. destruct (removable g) eqn:Er.
  { apply wlp_ret. eapply (ready_used k i pfx bn f g k1); eauto. }
  apply wlp_bind, wlp_attempt. eapply wlp_keeps; [apply keeps_same_table, ft_mount_keeps| |].
  - intros _ k3 Hs. apply wlp_upd_fs. intros g3 Hg3. pose proof (same_insert _ _ _ _ _ Hk2 Hs) as (g' & Eg & Hid).
    rewrite Hg3 in Eg. injection Eg as <-. injection Hid as I1 I2 I3 I4 I5 I6.
    apply (mounts_ok_same (with_fs (<[i := set_active true g]> (k_fs k)) k)).
    + intros j. cbn. destruct (decide (j = i)) as [->|Hne].
      * rewrite !lookup_insert_eq. cbn. unfold mount_id. cbn. by rewrite I1, I2, I4, I5, I6.
      * rewrite !lookup_insert_ne by done. rewrite (Hs j), Hk2. by rewrite lookup_insert_ne.
    + eapply (ready_used k i pfx bn f (set_active true g) k1); eauto.
  - intros e k3 Hs. apply wlp_bind, wlp_upd_fs. intros g3 Hg3.
    assert (mounts_but G (with_fs (<[i := set_in_use false g3]> (k_fs k3)) k3)) as Hm3.
    { apply (mounts_ok_same (with_fs (<[i := set_in_use false g3]> (k_fs k)) k)); [|by apply mounts_ok_unused].
      intros j. cbn. destruct (decide (j = i)) as [->|Hne]; [by rewrite !lookup_insert_eq|].
      rewrite !lookup_insert_ne by done. rewrite (Hs j), Hk2. by rewrite lookup_insert_ne. }
    apply wlp_bind. destruct (dev g) as [d|]; [|by apply wlp_ret, wlp_fail].
    apply wlp_bind, wlp_status, wlp_blk. unfold wlp. by destruct (bd_close d _).
Qed.

Lemma fs_mount_ok pfx bn fst flags k :
  mounts_but G k -> wlp (fs_mount pfx bn fst flags) (fun _ => mounts_but G) (fun _ => mounts_but G) k.
Proof.
  intros Hm. unfold fs_mount. apply wlp_bind. eapply wlp_mono; [apply mounted_loop_ok| |by intros e k' (-> & _)].
  cbn beta. intros _ k0 [-> Hc]. assert (forall j f, (j < FS_MAXFS)%nat -> k_fs k !! j = Some f -> clashes k pfx bn f = false) as Hc'
    by (intros; apply (Hc j); [lia|done]). clear Hc.
  apply wlp_bind. eapply wlp_mono; [apply fs_slot_ok| |done]. cbn beta. intros [i|] k0 [-> Hi]; [|by apply wlp_fail].
  apply wlp_bind, wlp_upd_fs. intros f0 _. apply wlp_bind.
  set (k1 := with_fs _ k).
  assert (ready k i pfx bn (zero_fs pfx None None) k1) as R1 by (split; [done|]; split_and!; [done..|by left]).
  eapply wlp_mono; [apply mount_dev_ok| |by intros e k' ->; apply (ready_ok _ _ _ _ _ _ R1)].
  cbn beta. intros _ k2 Hk2. assert (exists f2, ready k i pfx bn f2 k2) as [f2 R2].
  { destruct Hk2 as [[-> _]|(f & d & Hf & Hd & ->)]; [by eauto|].
    unfold k1 in Hf. cbn in Hf. rewrite lookup_insert_eq in Hf. injection Hf as <-.
    eexists. split; [cbn; by rewrite insert_insert_eq|]. split_and!; [done..|]. right. by exists d. }
  clear Hk2 R1 k1. apply wlp_bind. eapply wlp_keeps; [apply fs_find_keeps| |intros e k' <-; by apply (ready_ok _ _ _ _ _ _ R2)].
  intros t k' <-. apply wlp_bind, wlp_upd_fs. intros f3 Hf3. pose proof R2 as [Hk2 (P1 & P2 & P3 & P4 & P5)].
  rewrite Hk2, lookup_insert_eq in Hf3. injection Hf3 as <-. rewrite Hk2, insert_insert_eq.
  set (g := set_type (Some t) f2). set (k3 := with_fs _ k2).
  assert (ready k i pfx bn g k3) as R3 by (split; [done|by split_and!]). apply wlp_bind, wlp_get_fs. intros f3 Hf3.
  unfold k3 in Hf3. cbn in Hf3. rewrite lookup_insert_eq in Hf3. injection Hf3 as <-.
  apply wlp_bind. eapply (wlp_mono _ (fun _ k4 => k_fs k4 = k_fs k3) _ (fun _ k4 => k_fs k4 = k_fs k3)).
  { destruct (dev g) as [d|]; [|by apply wlp_ret]. apply wlp_blk. unfold wlp. by destruct (bd_open d _). }
  2: { intros e k4 E4. apply (mounts_ok_same k3); [intros j; by rewrite E4|]. by apply (ready_ok _ _ _ _ _ _ R3). }
  intros _ k4 E4. apply wlp_bind, wlp_upd_fs. intros f4 Hf4. rewrite E4 in Hf4. unfold k3 in Hf4. cbn in Hf4.
  rewrite lookup_insert_eq in Hf4. injection Hf4 as <-. apply wlp_bind, wlp_get_fs. cbn [k_fs with_fs]. intros f5 Hf5.
  rewrite lookup_insert_eq in Hf5. injection Hf5 as <-.
  eapply (mount_type_ok t i g (set_flags flags g) pfx bn k k3); [done|done|done|done|done|].
  cbn [k_fs with_fs]. rewrite E4. unfold k3. cbn [k_fs with_fs]. by rewrite insert_insert_eq.
Qed.

(** ** Unmounting *)

Lemma fs_busy_ok n j fsi k :
  wlp (fs_busy n j fsi)
    (fun b k' => k' = k /\ if b : bool then exists m p, (j <= m < j + n)%nat /\ k_fso k !! m = Some p /\ refcnt p <> 0 /\ f_fs p = fsi
                 else forall m p, (j <= m < j + n)%nat -> k_fso k !! m = Some p -> f_fs p = fsi -> refcnt p = 0)
    (fun _ _ => False) k.
Proof.
  revert j. induction n as [|n IH]; intros j; cbn [fs_busy]; [apply wlp_ret; split; [done|]; intros; lia|].
  apply wlp_bind, wlp_get_fso. intros p Hp. destruct (Z.eqb_spec (refcnt p) 0) as [Hr|Hr]; cbn [negb andb];
    [|destruct (Nat.eqb_spec (f_fs p) fsi) as [Hf|Hf]].
  2: { apply wlp_ret. split; [done|]. exists j, p. split; [lia|done]. }
  all: eapply wlp_mono; [apply IH| |done]; cbn beta; intros [] k' [-> Hb]; (split; [done|]).
  all: try (destruct Hb as (m & q & Hm & Hq); exists m, q; split; [lia|done]).
  all: intros m q Hm Hq Hf'; destruct (decide (m = j)) as [->|]; [congruence|apply (Hb m); [lia|done|done]].
Qed.

Lemma blk_table {A} (m : M S A) : keeps same_mounts (blk m).
Proof. by apply keeps_blk. Qed.
Lemma blk_deferred {A} (m : M S A) : keeps same_deferred (blk m).
Proof. by apply keeps_blk. Qed.
Lemma upd_fs_deferred i h : keeps (S := kern S) same_deferred (upd_fs i h).
Proof. by apply keeps_upd_fs. Qed.

Lemma fs_umount_ok pfx k :
  mounts_but G k -> wlp (fs_umount pfx) (fun _ => mounts_but G) (fun _ => mounts_but G) k.
Proof.
  intros Hm. unfold fs_umount. apply wlp_bind. eapply wlp_mono; [apply fs_slot_ok| |done].
  cbn beta. intros [i|] k0 [-> _]; [|by apply wlp_fail]. apply wlp_bind, wlp_gets, wlp_bind.
  eapply wlp_mono; [apply fs_busy_ok| |done]. cbn beta. intros [] k0 [-> _]; [by apply wlp_fail|].
  apply wlp_bind, wlp_get_fs. intros f Hf. apply wlp_bind.
  eapply (wlp_keeps same_table); [|intros err k1 Hs1|by intros e k1 Hs1; apply (mounts_ok_same k)].
  { destruct (active f); [|keeps]. keeps. apply keeps_same_table, ft_umount_keeps. }
  apply wlp_bind. eapply (wlp_keeps same_table); [|intros err' k2 Hs2|by intros e k2 Hs2; apply (mounts_ok_same k1), (mounts_ok_same k)].
  { destruct (dev f); keeps. apply keeps_same_table, blk_table. }
  apply wlp_bind, wlp_upd_fs. intros g Hg.
  assert (mounts_but G (with_fs (<[i := set_in_use false g]> (k_fs k2)) k2)) by (apply mounts_ok_unused; [done|]; by apply (mounts_ok_same k1), (mounts_ok_same k)).
  by destruct (err' =? 0).
Qed.

(** ** Activation and the clock *)

Lemma fs_sched_table i : keeps (S := kern S) same_table (fs_sched_unmount i).
Proof.
  unfold fs_sched_unmount. keeps. apply keeps_upd_fs. intros k f Hf. by apply same_table_upd with (f := f).
Qed.
Lemma fs_flush_table i : keeps (S := kern S) same_table (fs_flush i).
Proof. unfold fs_flush. keeps. apply keeps_same_table, blk_table. Qed.

Lemma fs_activate_ok i k :
  mounts_but G k -> wlp (fs_activate i) (fun _ => mounts_but G) (fun _ => mounts_but G) k.
Proof.
  intros Hm. unfold fs_activate. apply wlp_bind, wlp_get_fs. intros f Hf.
  destruct (removable f); cbn [negb]; [|by apply wlp_ret]. destruct (active f).
  { eapply wlp_keeps; [apply fs_sched_table|intros; by apply (mounts_ok_same k)..]. }
  apply wlp_bind, wlp_deref. intros t _. apply wlp_bind, wlp_attempt.
  eapply wlp_keeps; [apply keeps_same_table, ft_mount_keeps| |].
  - intros _ k1 Hs. apply wlp_bind, wlp_upd_fs. intros g Hg.
    eapply wlp_keeps; [apply fs_sched_table|..]; intros a k2 Hs2; (eapply mounts_ok_same; [exact Hs2|]);
      (apply mounts_ok_active; [done|by right; left|by apply (mounts_ok_same k)]).
  - intros e k1 Hs. apply wlp_bind. eapply wlp_keeps; [apply fs_flush_table|..]; intros a k2 Hs2;
      [apply wlp_fail|]; by apply (mounts_ok_same k1), (mounts_ok_same k).
Qed.

Lemma fs_dumount_ok i k :
  i ∈ G \/ (forall f, k_fs k !! i = Some f -> removable f = true \/ in_use f = false) ->
  mounts_but G k -> wlp (fs_dumount i) (fun _ => mounts_but G) (fun _ => mounts_but G) k.
Proof.
  intros Hr Hm. unfold fs_dumount. apply wlp_bind, wlp_get_fs. intros f Hf.
  destruct (active f); cbn [negb]; [|by apply wlp_ret]. apply wlp_bind, wlp_gets, wlp_bind.
  eapply wlp_mono; [apply fs_busy_ok| |done]. cbn beta. intros [] k0 [-> _].
  { eapply wlp_keeps; [apply fs_sched_table|intros; by apply (mounts_ok_same k)..]. }
  apply wlp_bind, wlp_deref. intros t _. apply wlp_bind, wlp_status.
  assert (forall k1, same_table k k1 ->
    wlp (upd_fs i (set_active false);;; fs_flush i) (fun _ => mounts_but G) (fun _ => mounts_but G) k1) as Hend.
  { intros k1 Hs. apply wlp_bind, wlp_upd_fs. intros g Hg.
    assert (mounts_but G (with_fs (<[i := set_active false g]> (k_fs k1)) k1)) as Hm1.
    { apply mounts_ok_active; [done| |by apply (mounts_ok_same k)].
      destruct (same_table_lookup _ _ _ _ Hs Hg) as (g' & Hg' & E). injection E as I1 I2 I3 I4 I5 I6.
      destruct Hr as [Hr|Hr]; [by left|right; right]. rewrite <- I2, <- I4. by apply Hr. }
    eapply wlp_keeps; [apply fs_flush_table|..]; intros b k2 Hs2; by eapply mounts_ok_same. }
  eapply wlp_keeps; [apply keeps_same_table, ft_umount_keeps|..]; intros a k1 Hs; by apply Hend.
Qed.

(** The deferred calls concern file systems that are removable, or no longer in
    use, or the slots [G]. *)
Definition deferred_ok k : Prop :=
  Forall (fun i => i ∈ G \/ forall f, k_fs k !! i = Some f -> removable f = true \/ in_use f = false) (k_deferred k).
Definition mount_inv k : Prop := mounts_but G k /\ deferred_ok k.

Lemma deferred_ok_same k k' : same_table k k' -> same_deferred k k' -> deferred_ok k -> deferred_ok k'.
Proof.
  intros Hs Hd H'. unfold deferred_ok. rewrite Hd. eapply Forall_impl; [exact H'|]. cbn. intros i [Hi|Hi]; [by left|right]. intros f Hf.
  destruct (same_table_lookup _ _ _ _ Hs Hf) as (g & Hg & E). injection E as I1 I2 I3 I4 I5 I6. rewrite <- I2, <- I4. eauto.
Qed.

Lemma clock_loop_ok n i t k : mount_inv k -> wlp (clock_loop n i t) (fun _ => mount_inv) (fun _ => mount_inv) k.
Proof.
  revert i k. induction n as [|n IH]; intros i k Hk; cbn [clock_loop]; [by apply wlp_ret|].
  apply wlp_bind, wlp_get_fs. intros f Hf. apply wlp_bind.
  destruct (negb (in_use f) || negb (removable f) || negb (active f)) eqn:E1; [by apply wlp_ret, IH|].
  destruct ((unmount_time f =? 0) || (t <? unmount_time f)); [by apply wlp_ret, IH|].
  apply wlp_bind, wlp_upd_fs. intros g Hg. rewrite Hf in Hg. injection Hg as <-. apply wlp_modify, IH.
  destruct Hk as [Hm Hd]. set (k1 := with_fs _ k).
  assert (same_table k k1) as Hs by by apply same_table_upd with (f := f).
  split; [apply (mounts_ok_same k1); [done|]; by apply (mounts_ok_same k)|].
  unfold deferred_ok. cbn [k_deferred with_deferred]. apply Forall_app. split; [by apply (deferred_ok_same k k1)|].
  constructor; [|done]. cbn. right. intros g [[_ <-]|[? _]]%lookup_insert_Some; [|done]. left. cbn.
  destruct (in_use f), (removable f); done.
Qed.

(** How an operation that does not stop ends. *)
Definition returns {A} (m : M (kern S) A) k k' : Prop := (exists a, m k = Ret a k') \/ (exists e, m k = Err e k').

Lemma wlp_returns {A} (m : M (kern S) A) (Q : kern S -> Prop) k k' :
  wlp m (fun _ => Q) (fun _ => Q) k -> returns m k k' -> Q k'.
Proof. unfold wlp. intros H' [[a E]|[e E]]; by rewrite E in H'. Qed.

Hint Resolve blk_deferred upd_fs_deferred : keeps.

Lemma fs_mount_deferred pfx bn fst flags : keeps same_deferred (fs_mount pfx bn fst flags).
Proof.
  unfold fs_mount, fs_find. generalize FS_MAXFS. intros n. assert (forall i, keeps same_deferred (mounted_loop n i pfx bn)).
  { induction n; intros i; cbn [mounted_loop]; keeps. }
  assert (forall i p, keeps (S := kern S) same_deferred (fs_slot n i p)).
  { clear. induction n; intros i p; cbn [fs_slot]; keeps. }
  keeps; apply keeps_same_deferred, ft_mount_keeps.
Qed.

Lemma fs_umount_deferred pfx k : deferred_ok k -> wlp (fs_umount pfx) (fun _ => deferred_ok) (fun _ => deferred_ok) k.
Proof.
  intros Hm. unfold fs_umount. apply wlp_bind. eapply wlp_mono; [apply fs_slot_ok| |done].
  cbn beta. intros [i|] k0 [-> _]; [|by apply wlp_fail]. apply wlp_bind, wlp_gets, wlp_bind.
  eapply wlp_mono; [apply fs_busy_ok| |done]. cbn beta. intros [] k0 [-> _]; [by apply wlp_fail|].
  apply wlp_bind, wlp_get_fs. intros f Hf. apply wlp_bind.
  eapply (wlp_keeps same_mounts); [|intros err k1 [Hs1 Hd1]|by intros e k1 [Hs1 Hd1]; apply (deferred_ok_same k)].
  { destruct (active f); [|keeps]. keeps. apply ft_umount_keeps. }
  apply wlp_bind. eapply (wlp_keeps same_mounts); [|intros err' k2 [Hs2 Hd2]|by intros e k2 [Hs2 Hd2]; apply (deferred_ok_same k1), (deferred_ok_same k)].
  { destruct (dev f); keeps. apply blk_table. }
  apply wlp_bind, wlp_upd_fs. intros g Hg.
  assert (deferred_ok (with_fs (<[i := set_in_use false g]> (k_fs k2)) k2)) as Hd.
  { apply (deferred_ok_same k k2) in Hm; [|by etransitivity..]. eapply Forall_impl; [exact Hm|]. cbn.
    intros j [Hj|Hj]; [by left|right]. intros h [[-> <-]|[_ Hh]]%lookup_insert_Some; [by right|eauto]. }
  by destruct (err' =? 0).
Qed.

(** Activation changes neither the deferred calls nor the fields they depend on. *)
Definition use_id (f : fs) := (removable f, in_use f).
Definition same_use k k' : Prop :=
  (forall i, use_id <$> (k_fs k' !! i) = use_id <$> (k_fs k !! i)) /\ same_deferred k k'.
#[local] Instance same_use_preorder : PreOrder same_use.
Proof.
  split; [done|]. intros k1 k2 k3 [H1' D1] [H2' D2]. split; [|by etransitivity]. intros i. by rewrite H2', H1'.
Qed.

Lemma keeps_same_use {A} (m : M (kern S) A) : keeps same_mounts m -> keeps same_use m.
Proof.
  intros Hm k. eapply wlp_mono; [apply Hm|..]; intros ? k' [Hs Hd]; (split; [|done]); intros i; specialize (Hs i);
    destruct (k_fs k' !! i) as [f|], (k_fs k !! i) as [g|]; try done; cbn in *; apply (inj Some) in Hs;
    injection Hs as I1 I2 I3 I4 I5 I6; unfold use_id; by rewrite I2, I4.
Qed.
Lemma blk_use {A} (m : M S A) : keeps same_use (blk m).
Proof. by apply keeps_blk. Qed.
Lemma upd_fs_use i h : (forall f, use_id (h f) = use_id f) -> keeps same_use (upd_fs i h).
Proof.
  intros Hh. apply keeps_upd_fs. intros k f Hf. split; [|done]. intros j. cbn.
  destruct (decide (j = i)) as [->|]; [rewrite lookup_insert_eq, Hf; cbn; by rewrite Hh|by rewrite lookup_insert_ne].
Qed.
Lemma fs_busy_keeps R `{!PreOrder R} n j i : keeps (S := kern S) R (fs_busy n j i).
Proof. revert j. induction n; intros j; cbn [fs_busy]; keeps. Qed.
Lemma fs_sched_use i : keeps same_use (fs_sched_unmount i).
Proof. unfold fs_sched_unmount. keeps. by apply upd_fs_use. Qed.

Hint Resolve blk_use fs_busy_keeps fs_sched_use : keeps.

Lemma fs_activate_use i : keeps same_use (fs_activate i).
Proof.
  unfold fs_activate, fs_flush. keeps; [apply keeps_same_use, ft_mount_keeps|]. by apply upd_fs_use.
Qed.
Lemma fs_dumount_use i : keeps same_use (fs_dumount i).
Proof.
  unfold fs_dumount, fs_flush. keeps; [apply keeps_same_use, ft_umount_keeps|]. by apply upd_fs_use.
Qed.

Lemma deferred_ok_use k k' : same_use k k' -> deferred_ok k -> deferred_ok k'.
Proof.
  intros [Hs Hd] H'. unfold deferred_ok. rewrite Hd. eapply Forall_impl; [exact H'|]. cbn. intros i [Hi|Hi]; [by left|right]. intros f Hf.
  specialize (Hs i). rewrite Hf in Hs. destruct (k_fs k !! i) as [g|]; [|done]. cbn in Hs. apply (inj Some) in Hs.
  injection Hs as -> ->. by apply Hi.
Qed.

Lemma keeps_deferred_ok {A} (m : M (kern S) A) k :
  keeps same_use m -> deferred_ok k -> wlp m (fun _ => deferred_ok) (fun _ => deferred_ok) k.
Proof. intros Hm Hd. eapply wlp_keeps; [exact Hm|..]; intros; by eapply deferred_ok_use. Qed.

End ok.

(** ** Every history of the mount table *)

Section history.
Context {S : Type} `{FsLow S, FsNames S, BlockDevices S, !FsNamesOk S, !BlockDevicesOk S}.
Implicit Types (k : kern S) (G : gset nat).

(** The operations, in any order.  [G] collects the slots whose deferred unmount
    was pending when a file system was mounted: [fs_mount] takes any slot that is
    not in use and does not take back the call. *)
Inductive mount_step : kern S * gset nat -> kern S * gset nat -> Prop :=
| step_mount k k' G pfx bn fst flags :
    returns (fs_mount pfx bn fst flags) k k' -> mount_step (k, G) (k', G ∪ list_to_set (k_deferred k))
| step_umount k k' G pfx : returns (fs_umount pfx) k k' -> mount_step (k, G) (k', G)
| step_activate k k' G i : returns (fs_activate i) k k' -> mount_step (k, G) (k', G)
| step_clock k k' G : returns fs_clock k k' -> mount_step (k, G) (k', G)
| step_rundp k k' G i q : k_deferred k = i :: q -> returns (fs_dumount i) (with_deferred q k) k' -> mount_step (k, G) (k', G).

Lemma mounts_weaken G G' k : G ⊆ G' -> mounts_but G k -> mounts_but G' k.
Proof. intros Hs [H1' H2']. split; [|done]. intros i f Hi Hf Hu. destruct (H1' i f Hi Hf Hu); [left; set_solver|by right]. Qed.

Lemma mount_step_ok st st' : mount_inv (G := st.2) st.1 -> mount_step st st' -> mount_inv (G := st'.2) st'.1.
Proof.
  intros [Hm Hd]. destruct 1 as [k k' G pfx bn fst flags Hr|k k' G pfx Hr|k k' G i Hr|k k' G Hr|k k' G i q Hq Hr]; cbn [Datatypes.fst snd] in *.
  - split; [apply (mounts_weaken G); [set_solver|]; by eapply wlp_returns, Hr; apply fs_mount_ok|].
    assert (same_deferred k k') as Hs by (eapply wlp_returns, Hr; apply fs_mount_deferred).
    unfold deferred_ok. rewrite Hs. apply Forall_forall. intros i Hi. left. set_solver.
  - split; (eapply wlp_returns, Hr); [by apply fs_umount_ok|by apply fs_umount_deferred].
  - split; (eapply wlp_returns, Hr); [by apply fs_activate_ok|]. apply keeps_deferred_ok; [apply fs_activate_use|done].
  - eapply wlp_returns, Hr. apply wlp_bind, wlp_gets. by apply clock_loop_ok.
  - unfold deferred_ok in Hd. rewrite Hq in Hd. inversion Hd as [|? ? Hi Hd']. subst.
    split; (eapply wlp_returns, Hr); [by apply fs_dumount_ok|]. by apply keeps_deferred_ok; [apply fs_dumount_use|].
Qed.

(** C11. The mount table stays consistent in every history of mounts, unmounts,
    activations, clock ticks and deferred unmounts that starts in a consistent
    table: the file systems in use have distinct prefixes and distinct devices,
    and one that is not removable is active, except in the slots [G] whose
    deferred unmount was pending when some file system was mounted. *)
Theorem mount_table_consistent k k' G :
  mount_inv (G := ∅) k -> rtc mount_step (k, ∅) (k', G) ->
  (forall i f, (i < FS_MAXFS)%nat -> k_fs k' !! i = Some f -> in_use f = true -> i ∉ G -> removable f = true \/ active f = true) /\
  (forall i j f g, (i < FS_MAXFS)%nat -> (j < FS_MAXFS)%nat -> i <> j ->
     k_fs k' !! i = Some f -> k_fs k' !! j = Some g -> in_use f = true -> in_use g = true ->
     prefix f <> prefix g /\ (dev f = dev g -> dev f = None)).
Proof.
  intros Hk Hr. assert (mount_inv (G := G) k') as [[H1' H2'] _].
  { change (mount_inv (G := (k', G).2) (k', G).1). change (mount_inv (G := (k, ∅ : gset nat).2) (k, ∅ : gset nat).1) in Hk. revert Hk.
    induction Hr as [|st st1 st2 Hs _ IH]; [done|]. intros Hk. apply IH. by eapply mount_step_ok. }
  split; [|exact H2']. intros i f Hi Hf Hu Hn. by destruct (H1' i f Hi Hf Hu).
Qed.
End history.

Section busy.
Context {S : Type} `{FsLow S, FsNames S, BlockDevices S, !FsNamesOk S, !BlockDevicesOk S}.
Implicit Types (k : kern S).

(** ** Busy file systems *)

(** Some object of the file system in slot [i] is in use. *)
Definition busy k (i : nat) : Prop :=
  exists j p, (j < Z.to_nat (fs_fso_high k))%nat /\ k_fso k !! j = Some p /\ refcnt p <> 0 /\ f_fs p = i.

(** The tables are arrays: every slot below their bounds exists. *)
Definition tables k : Prop :=
  (forall i, (i < FS_MAXFS)%nat -> is_Some (k_fs k !! i)) /\
  (forall j, (j < Z.to_nat (fs_fso_high k))%nat -> is_Some (k_fso k !! j)).

Lemma fs_slot_run n i p k :
  (forall j, (i <= j < i + n)%nat -> is_Some (k_fs k !! j)) -> exists o, fs_slot n i p k = Ret o k.
Proof.
  revert i. induction n as [|n IH]; intros i Hi; cbn [fs_slot]; [by eexists|].
  destruct (Hi i ltac:(lia)) as [f Hf]. unfold bind, get_fs, bind. cbn. rewrite Hf. cbn. destruct (p f); [by eexists|].
  apply IH. intros j Hj. apply Hi. lia.
Qed.
Lemma fs_busy_run n j i k :
  (forall m, (j <= m < j + n)%nat -> is_Some (k_fso k !! m)) -> exists b, fs_busy n j i k = Ret b k.
Proof.
  revert j. induction n as [|n IH]; intros j Hj; cbn [fs_busy]; [by eexists|].
  destruct (Hj j ltac:(lia)) as [f Hf]. unfold bind, get_fso, bind. cbn. rewrite Hf. cbn.
  destruct (negb (refcnt f =? 0) && (f_fs f =? i)%nat); [by eexists|]. apply IH. intros m Hm. apply Hj. lia.
Qed.

Lemma fs_busy_true i k :
  tables k -> busy k i -> fs_busy (Z.to_nat (fs_fso_high k)) 0 i k = Ret true k.
Proof.
  intros [_ Ht] (j & p & Hj & Hp & Hr & Hf).
  destruct (fs_busy_run (Z.to_nat (fs_fso_high k)) 0 i k) as [b E]; [intros m Hm; apply Ht; lia|].
  pose proof (wlp_Ret _ _ _ _ _ _ (fs_busy_ok _ 0 i k) E) as [_ Hb]. rewrite E.
  destruct b; [done|]. destruct Hr. apply (Hb j p); [lia|done|done].
Qed.

(** The slot of a prefix. *)
Lemma umount_slot k i f :
  tables k -> mounts_ok k -> (i < FS_MAXFS)%nat -> k_fs k !! i = Some f -> in_use f = true ->
  fs_slot FS_MAXFS 0 (fun g => in_use g && bool_decide (prefix g = prefix f)) k = Ret (Some i) k.
Proof.
  intros [Ht _] [_ Hm] Hi Hf Hu.
  destruct (fs_slot_run FS_MAXFS 0 (fun g => in_use g && bool_decide (prefix g = prefix f)) k) as [o E]; [intros j Hj; apply Ht; lia|].
  pose proof (wlp_Ret _ _ _ _ _ _ (fs_slot_ok _ 0 _ k) E) as [_ Ho]. rewrite E. destruct o as [j|].
  - destruct Ho as (Hj & g & Hg & Eg). apply andb_true_iff in Eg as [Ug Pg]. apply bool_decide_eq_true in Pg.
    destruct (decide (j = i)) as [->|Hne]; [done|].
    destruct (Hm j i g f ltac:(lia) Hi Hne Hg Hf Ug Hu) as [Hp' _]. congruence.
  - specialize (Ho i f ltac:(lia) Hf). rewrite Hu, bool_decide_true in Ho; done.
Qed.

(** A file system with an object in use is not unmounted: [fs_umount]
    returns EBUSY and changes nothing, and the deferred unmount of a removable one
    only asks for another attempt FS_UDELAY seconds later. *)
Theorem busy_not_unmounted k i f :
  tables k -> mounts_ok k -> (i < FS_MAXFS)%nat -> k_fs k !! i = Some f -> in_use f = true -> busy k i ->
  fs_umount (prefix f) k = Err EBUSY k /\
  (active f = true -> removable f = true ->
     fs_dumount i k = Ret tt (with_fs (<[i := set_unmount_time (k_uptime k + FS_UDELAY) f]> (k_fs k)) k)).
Proof.
  intros Ht Hm Hi Hf Hu Hb. pose proof (fs_busy_true i k Ht Hb) as E. split.
  - unfold fs_umount. rewrite (bind_run _ _ _ _ _ (umount_slot k i f Ht Hm Hi Hf Hu)), gets_bind.
    by rewrite (bind_run _ _ _ _ _ E).
  - intros Ha Hr. assert (get_fs i k = Ret f k) as G by (unfold get_fs, bind; cbn; by rewrite Hf).
    unfold fs_dumount. rewrite (bind_run _ _ _ _ _ G), Ha. cbn [negb]. rewrite gets_bind, (bind_run _ _ _ _ _ E).
    unfold fs_sched_unmount. rewrite (bind_run _ _ _ _ _ G), Hr. cbn [negb]. rewrite gets_bind.
    unfold upd_fs. by rewrite (bind_run _ _ _ _ _ G).
Qed.

(** An unmounted file system that was active keeps its [active] flag: a
    deferred unmount queued by the clock before [fs_umount] ran then unmounts it a
    second time, on a device that is already closed. *)
Theorem umount_keeps_active k i f t k1 s2 :
  tables k -> mounts_ok k -> (i < FS_MAXFS)%nat -> k_fs k !! i = Some f -> in_use f = true -> active f = true ->
  type f = Some t -> fs_busy (Z.to_nat (fs_fso_high k)) 0 i k = Ret false k ->
  ft_umount t i k = Ret tt k1 -> (forall d, dev f = Some d -> bd_close d (k_blk k1) = Ret tt s2) ->
  exists k2 g, fs_umount (prefix f) k = Ret tt k2 /\ k_fs k2 !! i = Some g /\ in_use g = false /\ active g = true /\
    (k_fso k1 = k_fso k -> fs_fso_high k1 = fs_fso_high k -> forall e k3, status (ft_umount t i) k2 = Ret e k3 ->
     fs_dumount i k2 = (upd_fs i (set_active false);;; fs_flush i) k3).
Proof.
  intros Ht Hm Hi Hf Hu Ha Hty Eb Em Ec.
  assert (get_fs i k = Ret f k) as G by (unfold get_fs, bind; cbn; by rewrite Hf).
  pose proof (wlp_Ret _ _ _ _ _ _ (ft_umount_keeps t i k) Em) as [Hs _].
  assert (exists g, k_fs k1 !! i = Some g /\ mount_id g = mount_id f) as (g & Hg & Eg).
  { specialize (Hs i). rewrite Hf in Hs. destruct (k_fs k1 !! i) as [g|]; [|done]. apply (inj Some) in Hs. by exists g. }
  injection Eg as I1 I2 I3 I4 I5 I6.
  assert (forall k2, k_fs k2 = k_fs k1 -> upd_fs i (set_in_use false) k2 = Ret tt (with_fs (<[i := set_in_use false g]> (k_fs k1)) k2)) as U.
  { intros k2 E2. assert (get_fs i k2 = Ret g k2) as G2 by (unfold get_fs, bind; cbn; by rewrite E2, Hg).
    unfold upd_fs. rewrite (bind_run _ _ _ _ _ G2). unfold modify. by rewrite E2. }
  set (b2 := match dev f with Some _ => s2 | None => k_blk k1 end).
  set (k2 := with_fs (<[i := set_in_use false g]> (k_fs k1)) (with_blk b2 k1)).
  exists k2, (set_in_use false g). split; [|split; [apply lookup_insert_eq|split; [done|split; [cbn; congruence|]]]].
  - unfold fs_umount. rewrite (bind_run _ _ _ _ _ (umount_slot k i f Ht Hm Hi Hf Hu)), gets_bind.
    rewrite (bind_run _ _ _ _ _ Eb), (bind_run _ _ _ _ _ G), Ha, Hty.
    assert ((t' <~ deref (Some t);; status (ft_umount t' i)) k = Ret 0 k1) as E1 by (cbn; unfold bind, status; cbn; by rewrite Em).
    rewrite (bind_run _ _ _ _ _ E1). unfold k2, b2. destruct (dev f) as [d|].
    + assert (forall A (h : Z -> M (kern S) A), bind (status (blk (bd_close d))) h k1 = h 0 (with_blk s2 k1)) as E2.
      { intros A h. unfold bind, status, blk, zoom. by rewrite (Ec d eq_refl). }
      unfold bind at 1. rewrite E2. cbn. by rewrite (bind_run _ _ _ _ _ (U (with_blk s2 k1) eq_refl)).
    + rewrite ret_bind. rewrite (bind_run _ _ _ _ _ (U k1 eq_refl)). by destruct k1.
  - intros F1 F2 e k3 E3. assert (get_fs i k2 = Ret (set_in_use false g) k2) as G2.
    { unfold get_fs, bind. cbn. by rewrite lookup_insert_eq. }
    unfold fs_dumount. rewrite (bind_run _ _ _ _ _ G2). cbn [active set_in_use]. rewrite I3, Ha. cbn [negb].
    rewrite gets_bind. assert (fs_busy (Z.to_nat (fs_fso_high k2)) 0 i k2 = Ret false k2) as B2.
    { destruct (fs_busy_run (Z.to_nat (fs_fso_high k2)) 0 i k2) as [b E2].
      { intros m Hmm. cbn. rewrite F1. apply Ht. cbn in Hmm. rewrite F2 in Hmm. lia. }
      rewrite E2. destruct b; [|done].
      pose proof (wlp_Ret _ _ _ _ _ _ (fs_busy_ok _ 0 i k2) E2) as [_ (m & p & Hmm & Hp & Hr & Hfp)].
      pose proof (wlp_Ret _ _ _ _ _ _ (fs_busy_ok _ 0 i k) Eb) as [_ Hnb]. destruct Hr.
      apply (Hnb m p); [cbn in Hmm; rewrite F2 in Hmm; lia|cbn in Hp; by rewrite F1 in Hp|done]. }
    rewrite (bind_run _ _ _ _ _ B2). cbn [type set_in_use]. rewrite I5, Hty. cbn [deref]. rewrite ret_bind.
    by rewrite (bind_run _ _ _ _ _ E3).
Qed.
End busy.
