(* ===== verification/FsMisc.v ===== *)
(** Operations on names (kern/fs/misc.c) and the notification of directory
    changes (kern/fs/main.c: fs_notify). *)

From S2P Require Import Prelude BlockDev BlockIface Kern Vfs FsPath FsMount.

Definition set_cwd (c : list Z) (t : task) : task :=
  Task (ruid t) (rgid t) (euid t) (egid t) c (tty t) (slot t) (signal_pending t) (unseen_events t) (stopped t).

Section ops.
Context {S : Type} `{FsLow S, FsNames S, BlockDevices S}.

(** ** Notification *)

(** [task[i]]: its current directory and [ocwd]. *)
Definition task_at (k : kern S) (i : nat) : option (list Z * bool) :=
  match k_tasks k !! i with
  | Some (Some (c, o)) => Some (if (i =? slot (k_curr k))%nat then cwd (k_curr k) else c, o)
  | _ => None
  end.

(** The comparison of [t->cwd] with the [p - pathname] characters [dir]: as
    [dir] holds no NUL, equal bytes and then a NUL mean equal strings. *)
Definition watches (dir : list Z) (o : option (list Z * bool)) : bool :=
  match o with Some (c, true) => bool_decide (c = dir) | _ => false end.

Fixpoint notify_loop (n i : nat) (dir : list Z) : M (kern S) unit :=
  match n with
  | O => ret tt
  | Datatypes.S n' =>
    o <~ gets (fun k => task_at k i);;
    (if watches dir o then modify (fun k => with_events (k_events k ++ [i]) k) else ret tt);;;
    notify_loop n' (Datatypes.S i) dir
  end.

Definition fs_notify (path : list Z) : M (kern S) unit :=
  match before_last_slash path with
  | None => panic "fs_notify: !p"
  | Some dir => n <~ gets (fun k => length (k_tasks k));; notify_loop n 0 dir
  end.

(** ** Operations *)

Definition fs_creat (path : list Z) (mode rdev : Z) : M (kern S) nat :=
  c <~ gets k_curr;;
  if negb (euid c =? 0) && negb (S_ISREG mode) && negb (S_ISFIFO mode) then fail EPERM
  else
    ' (i, dname, fq) <~ fs_parsename4 path;;
    t <~ type_of i;;
    j <~ ft_creat t i dname mode rdev;;
    fs_notify fq;;;
    ret j.

Definition fs_access (path : list Z) (mode : Z) : M (kern S) unit :=
  j <~ fs_lookup path;;
  c <~ gets k_curr;;
  r <~ attempt (fs_chk_perm j mode (ruid c) (rgid c));;
  fs_putfso (Some j);;;
  match r with inl e => fail e | inr _ => ret tt end.

Definition fs_link (oldname newname : list Z) : M (kern S) unit :=
  ' (fs2, path1, fq1) <~ fs_parsename4 oldname;;
  ' (fs1, path2, fq2) <~ fs_parsename4 newname;;
  if negb (fs1 =? fs2)%nat then fail EXDEV
  else
    t <~ type_of fs1;;
    j <~ ft_lookup t fs1 path1;;
    c <~ gets k_curr;;
    f <~ get_fso j;;
    if negb (euid c =? 0) && negb (uid f =? euid c) then fs_putfso (Some j);;; fail EACCES
    else
      r <~ attempt (ft_link t j path2);;
      fs_putfso (Some j);;;
      match r with
      | inl e => fail e
      | inr _ => fs_notify fq1;;; fs_notify fq2
      end.

Definition fs_unlink (path : list Z) : M (kern S) unit :=
  ' (i, dname, fq) <~ fs_parsename4 path;;
  t <~ type_of i;;
  ft_unlink t i dname;;;
  fs_notify fq.

Definition fs_rename (oldname newname : list Z) : M (kern S) unit :=
  ' (fs1, path1, fq1) <~ fs_parsename4 oldname;;
  ' (fs2, path2, fq2) <~ fs_parsename4 newname;;
  if negb (fs1 =? fs2)%nat then fail EXDEV
  else
    t <~ type_of fs1;;
    ft_rename t fs1 path1 path2;;;
    fs_notify fq1;;;
    fs_notify fq2.

Definition fs_chdir (path : list Z) : M (kern S) unit :=
  fq <~ fs_fqname path;;
  if PATH_MAX <=? Z.of_nat (length fq) then fail ENAMETOOLONG
  else
    ' (i, dname) <~ fs_parsename path;;
    t <~ type_of i;;
    ft_chdir t i dname;;;
    modify (fun k => with_curr (set_cwd fq (k_curr k)) k).

Definition fs_mkdir (path : list Z) (mode : Z) : M (kern S) unit :=
  ' (i, dname, fq) <~ fs_parsename4 path;;
  t <~ type_of i;;
  ft_mkdir t i dname mode;;;
  fs_notify fq.

Definition fs_rmdir (path : list Z) : M (kern S) unit :=
  ' (i, dname, fq) <~ fs_parsename4 path;;
  t <~ type_of i;;
  ft_rmdir t i dname;;;
  fs_notify fq.
End ops.
