(* ===== verification/FsMiscOk.v ===== *)
(** Correctness of name parsing (fs_parsename4) and of the notification of
    directory changes (fs_notify). *)

From S2P Require Import Prelude BlockDev BlockIface Kern Frame Vfs NatDir FsPath FsMount FsMountOk FsMisc.

Section ok.
Context {S : Type} `{FsLow S, FsNames S, BlockDevices S, !FsNamesOk S, !BlockDevicesOk S}.
Implicit Types (k : kern S).

(** ** Parsing *)

Lemma get_fs_run i f k : k_fs k !! i = Some f -> get_fs i k = Ret f k.
Proof. intros Hf. unfold get_fs, bind. cbn. by rewrite Hf. Qed.
Lemma upd_fs_run i f h k : k_fs k !! i = Some f -> upd_fs i h k = Ret tt (with_fs (<[i := h f]> (k_fs k)) k).
Proof. intros Hf. unfold upd_fs. by rewrite (bind_run _ _ _ _ _ (get_fs_run i f k Hf)). Qed.
Lemma fail_bind {A B} e (h : A -> M (kern S) B) k : bind (fail e) h k = Err e k.
Proof. done. Qed.

Lemma sched_unmount_run i f k :
  k_fs k !! i = Some f -> removable f = true ->
  fs_sched_unmount i k = Ret tt (with_fs (<[i := set_unmount_time (k_uptime k + FS_UDELAY) f]> (k_fs k)) k).
Proof.
  intros Hf Hr. unfold fs_sched_unmount. rewrite (bind_run _ _ _ _ _ (get_fs_run i f k Hf)), Hr. cbn [negb].
  rewrite gets_bind. by apply upd_fs_run.
Qed.

(** What [fs_activate] leaves: the file system as it is, or active with its idle
    time started again. *)
Lemma activate_run i f t k :
  k_fs k !! i = Some f -> type f = Some t -> in_use f = true -> (removable f = true \/ active f = true) ->
  match (if removable f && negb (active f) then ft_mount t i k else Ret tt k) with
  | Ret _ k1 => exists g k2, fs_activate i k = Ret tt k2 /\ k_fs k2 !! i = Some g /\ in_use g = true /\ active g = true /\
      prefix g = prefix f /\ type g = type f /\ dev g = dev f /\ (removable f = false -> k2 = k) /\
      (removable f = true -> unmount_time g = k_uptime k1 + FS_UDELAY)
  | Err e k1 => forall k2, fs_flush i k1 = Ret tt k2 -> fs_activate i k = Err e k2
  | Halt h => fs_activate i k = Halt h
  end.
Proof.
  intros Hf Ht Hu Hra. unfold fs_activate. rewrite (bind_run _ _ _ _ _ (get_fs_run i f k Hf)).
  destruct (removable f) eqn:Er; cbn [negb andb].
  2: { destruct Hra; [done|]. by exists f, k. }
  destruct (active f) eqn:Ea; cbn [negb].
  { eexists _, _. split; [by apply sched_unmount_run|]. split; [apply lookup_insert_eq|done]. }
  rewrite Ht. cbn [deref]. rewrite ret_bind.
  destruct (ft_mount t i k) as [[] k1|e k1|h] eqn:Em; [|intros k2 E2|by unfold bind, attempt; rewrite Em].
  2: { rewrite (bind_run _ _ k (inl e) k1) by (unfold attempt; by rewrite Em). by rewrite (bind_run _ _ _ _ _ E2). }
  rewrite (bind_run _ _ k (inr tt) k1) by (unfold attempt; by rewrite Em).
  pose proof (wlp_Ret _ _ _ _ _ _ (ft_mount_keeps t i k) Em) as [Hs _]. specialize (Hs i). rewrite Hf in Hs.
  destruct (k_fs k1 !! i) as [g|] eqn:Hg; [|done]. apply (inj Some) in Hs. injection Hs as I1 I2 I3 I4 I5 I6.
  eexists _, _. split.
  { rewrite (bind_run _ _ _ _ _ (upd_fs_run i g _ k1 Hg)). eapply sched_unmount_run; [apply lookup_insert_eq|cbn; congruence]. }
  split; [apply lookup_insert_eq|]. cbn. split_and!; congruence.
Qed.

(** [fs_parsename4] names the file system with the longest prefix that
    covers the normalised path, and leaves it in use and active, mounting it and
    restarting its idle time when it is removable; without such a file system, or
    when the path is too long, it fails and changes nothing. *)
Theorem parsename_active k path fq i rest f t :
  mounts_ok k -> fqname (cwd (k_curr k)) (tty (k_curr k)) path = inr fq -> pathfs (k_fs k) fq = Some (i, rest) ->
  k_fs k !! i = Some f -> type f = Some t ->
  match (if removable f && negb (active f) then ft_mount t i k else Ret tt k) with
  | Ret _ k1 => exists g k2, fs_parsename4 path k = Ret (i, rest, fq) k2 /\ k_fs k2 !! i = Some g /\
      in_use g = true /\ active g = true /\ prefix g = prefix f /\ type g = type f /\ dev g = dev f /\
      (removable f = false -> k2 = k) /\ (removable f = true -> unmount_time g = k_uptime k1 + FS_UDELAY)
  | Err e k1 => forall k2, fs_flush i k1 = Ret tt k2 -> fs_parsename4 path k = Err e k2
  | Halt h => fs_parsename4 path k = Halt h
  end.
Proof.
  intros [Hm _] Hq Hp Hf Ht. pose proof (pathfs_choice (k_fs k) fq) as Hl. rewrite Hp in Hl.
  destruct Hl as (f' & Hi & Hf' & Hc & _). rewrite Hf in Hf'. injection Hf' as <-.
  assert (in_use f = true) as Hu by (unfold covers_path in Hc; by destruct (in_use f)).
  assert (removable f = true \/ active f = true) as Hra.
  { destruct (Hm i f Hi Hf Hu) as [Hx|Hx]; [destruct (not_elem_of_empty (C := gset nat) i Hx)|exact Hx]. }
  pose proof (activate_run i f t k Hf Ht Hu Hra) as Ha.
  assert (forall r, fs_activate i k = r -> fs_parsename4 path k =
    match r with Ret _ k2 => Ret (i, rest, fq) k2 | Err e k2 => Err e k2 | Halt h => Halt h end) as E.
  { intros r <-. assert (fs_fqname path k = Ret fq k) as E1 by (unfold fs_fqname; rewrite gets_bind; by rewrite Hq).
    assert (fs_pathfs fq k = Ret (i, rest) k) as E2 by (unfold fs_pathfs; rewrite gets_bind; by rewrite Hp).
    unfold fs_parsename4. rewrite (bind_run _ _ _ _ _ E1), (bind_run _ _ _ _ _ E2). unfold bind, ret.
    by destruct (fs_activate i k). }
  destruct (if removable f && negb (active f) then ft_mount t i k else Ret tt k) as [u k1|e k1|h].
  - destruct Ha as (g & k2 & Ea & Hg). exists g, k2. exact (conj (E _ Ea) Hg).
  - intros k2 E2. exact (E _ (Ha k2 E2)).
  - exact (E _ Ha).
Qed.

(** ** Notification *)

Lemma filter_none {A} (P : A -> Prop) `{!forall x, Decision (P x)} l : (forall x, ~ P x) -> filter P l = [].
Proof. intros Hn. induction l as [|x l IH]; [done|]. by rewrite filter_cons_False. Qed.

Lemma notify_loop_run n i dir k :
  notify_loop n i dir k =
    Ret tt (with_events (k_events k ++ filter (fun j => watches dir (task_at k j)) (seq i n)) k).
Proof.
  revert i k. induction n as [|n IH]; intros i k; cbn [notify_loop seq].
  { rewrite filter_nil, app_nil_r. by destruct k. }
  rewrite gets_bind, filter_cons. case_decide as E; destruct (watches dir (task_at k i)); try done.
  - rewrite modify_bind, IH. f_equal.
    change (task_at (with_events (k_events k ++ [i]) k)) with (task_at k). destruct k. cbn. by rewrite <- app_assoc.
  - rewrite ret_bind. apply IH.
Qed.

(** A change of the name [c] in the directory [cs] sends one event to each
    task that asked for them and whose current directory is [cs], in the order of
    the task table, and to no other task. *)
Theorem notify_watchers k cs c :
  Forall comp_ok (cs ++ [c]) ->
  fs_notify (render (cs ++ [c])) k =
    Ret tt (with_events (k_events k ++ filter (fun j => task_at k j = Some (join cs, true)) (seq 0 (length (k_tasks k)))) k).
Proof.
  intros Hc. unfold fs_notify, render. rewrite bool_decide_false by (by destruct cs). rewrite join_app.
  apply Forall_app in Hc as [_ Hc]. inversion Hc as [|? ? (_ & Hs & _) _]. subst.
  rewrite before_last_app by done. rewrite gets_bind, notify_loop_run. do 3 f_equal.
  apply list_filter_iff. intros j. unfold watches. destruct (task_at k j) as [[d []]|]; [|naive_solver..].
  rewrite bool_decide_spec. naive_solver.
Qed.

(** A task whose current directory is the root is never told of a change
    there: the directory part of such a name is empty, and no current directory
    is. *)
Theorem notify_root_missed k c :
  comp_ok c -> (forall j d o, task_at k j = Some (d, o) -> normal d) ->
  fs_notify (SLASH :: c) k = Ret tt k.
Proof.
  intros (_ & Hs & _) Hn. unfold fs_notify. change (SLASH :: c) with ([] ++ SLASH :: c). rewrite (before_last_app [] c Hs), gets_bind, notify_loop_run.
  replace (filter _ _) with (@nil nat); [by rewrite app_nil_r; destruct k|].
  symmetry. apply filter_none. intros j. unfold watches.
  destruct (task_at k j) as [[d []]|] eqn:E; [|naive_solver..]. rewrite bool_decide_spec. intros ->.
  destruct (Hn _ _ _ E) as [[?|(cs & Hne & _ & Hj)] _]; [done|]. by destruct cs.
Qed.
End ok.
