(* ===== verification/Fdesc.v ===== *)
(** Open files and file descriptors (kern/fs/fdesc.c; fs_newtask and fs_clean of
    kern/fs/main.c; fs_revoke of kern/fs/misc.c).

    An open file ([struct fs_file]) is shared by the descriptors that refer to
    it and counts them; it holds one reference to its file object and is counted
    there as a reader, a writer or both. *)

From S2P Require Import Prelude BlockDev BlockIface Kern Vfs FsPath FsMount FsMisc.

Definition FS_MAXFILE : nat := 256.
Definition OPEN_MAX : nat := 64.
Definition O_DIRECTION : Z := 7.
Definition O_RDONLY : Z := 0.
Definition O_WRONLY : Z := 1.
Definition O_RDWR : Z := 2.
Definition O_NOIO : Z := 3.

(** [struct fs_file] and [struct fs_desc]. *)
Record fs_file := FsFile { fl_refcnt : Z; fl_fso : option nat; fl_offset : Z; fl_omode : Z }.
Record fs_desc := FsDesc { d_file : option nat; close_on_exec : Z }.

(** The file tables over the kernel state: [fs_file], and of every slot of [task]
    the array [file_desc] (empty for a slot without a task) and [tty]; of the
    current task also [multipoll]. *)
Record proc (S : Type) := Proc {
  p_kern : kern S;
  p_file : list fs_file;
  p_desc : list (list fs_desc);
  p_tty : list (list Z);
  p_multipoll : Z
}.
Arguments Proc {S}. Arguments p_kern {S}. Arguments p_file {S}. Arguments p_desc {S}.
Arguments p_tty {S}. Arguments p_multipoll {S}.

Definition set_fl_refcnt (v : Z) (f : fs_file) : fs_file := FsFile v (fl_fso f) (fl_offset f) (fl_omode f).
Definition set_fl_omode (v : Z) (f : fs_file) : fs_file := FsFile (fl_refcnt f) (fl_fso f) (fl_offset f) v.
Definition no_desc : fs_desc := FsDesc None 0.

(** The [switch (omode & 7)] of fs_getfile, fs_putfile and fs_fdaccess. *)
Definition reads (omode : Z) : bool :=
  (Z.land omode 7 =? O_RDONLY) || (Z.land omode 7 =? O_RDWR).
Definition writes (omode : Z) : bool :=
  (Z.land omode 7 =? O_WRONLY) || (Z.land omode 7 =? O_RDWR).
(** The counts of a file object changed by [s] for a file of mode [omode]. *)
Definition count_open (s omode : Z) (g : fso) : fso :=
  set_counts (if reads omode then reader_count g + s else reader_count g)
    (if writes omode then writer_count g + s else writer_count g) g.

Section ops.
Context {S : Type} `{FsLow S, FsNames S, BlockDevices S}.
Implicit Types (p : proc S).

Definition with_kern (k : kern S) p : proc S := Proc k (p_file p) (p_desc p) (p_tty p) (p_multipoll p).
Definition with_file (l : list fs_file) p : proc S := Proc (p_kern p) l (p_desc p) (p_tty p) (p_multipoll p).
Definition with_desc (l : list (list fs_desc)) p : proc S := Proc (p_kern p) (p_file p) l (p_tty p) (p_multipoll p).
Definition with_tty (l : list (list Z)) p : proc S := Proc (p_kern p) (p_file p) (p_desc p) l (p_multipoll p).
Definition with_multipoll (v : Z) p : proc S := Proc (p_kern p) (p_file p) (p_desc p) (p_tty p) v.

Definition kern_ {A} (m : M (kern S) A) : M (proc S) A := zoom p_kern with_kern m.

Definition get_file (i : nat) : M (proc S) fs_file := o <~ gets (fun p => p_file p !! i);; deref o.
Definition upd_file (i : nat) (h : fs_file -> fs_file) : M (proc S) unit :=
  f <~ get_file i;; modify (fun p => with_file (<[i := h f]> (p_file p)) p).

(** The index of [curr] and [curr->file_desc]. *)
Definition cur p : nat := slot (k_curr (p_kern p)).
Definition curr_desc : M (proc S) (list fs_desc) := o <~ gets (fun p => p_desc p !! cur p);; deref o.
Definition put_desc (fd : nat) (d : fs_desc) : M (proc S) unit :=
  row <~ curr_desc;;
  modify (fun p => with_desc (<[cur p := <[fd := d]> row]> (p_desc p)) p).

(** The first element that satisfies [q]. *)
Fixpoint find_at {A} (q : A -> bool) (l : list A) (i : nat) : option nat :=
  match l with
  | [] => None
  | x :: l' => if q x then Some i else find_at q l' (Datatypes.S i)
  end.

Definition fs_getfile (o : option nat) (omode : Z) : M (proc S) nat :=
  l <~ gets p_file;;
  match find_at (fun f => fl_refcnt f =? 0) l 0 with
  | None => fail ENFILE
  | Some i =>
    upd_file i (fun _ => FsFile 1 o 0 omode);;;
    (match o with Some j => kern_ (upd_fso j (count_open 1 omode)) | None => ret tt end);;;
    ret i
  end.

Definition fs_putfile (i : nat) : M (proc S) unit :=
  f <~ get_file i;;
  if fl_refcnt f =? 0 then panic "fdesc.c: fs_putfile: !file->refcnt"
  else if fl_refcnt f =? 1 then
    (if reads (fl_omode f) || writes (fl_omode f) then
       j <~ deref (fl_fso f);; kern_ (upd_fso j (count_open (-1) (fl_omode f)))
     else ret tt);;;
    r <~ attempt (kern_ (fs_putfso (fl_fso f)));;
    upd_file i (fun f => set_fl_refcnt (fl_refcnt f - 1) f);;;
    match r with inl e => fail e | inr _ => ret tt end
  else upd_file i (fun f => set_fl_refcnt (fl_refcnt f - 1) f).

Definition fs_getfd (file : nat) : M (proc S) nat :=
  row <~ curr_desc;;
  match find_at (fun d => bool_decide (d_file d = None)) row 0 with
  | None => fail EMFILE
  | Some fd => put_desc fd (FsDesc (Some file) 0);;; ret fd
  end.

(** [curr->file_desc[fd].file], with the checks of fs_putfd and fs_fdaccess. *)
Definition fd_file (fd : Z) : M (proc S) nat :=
  if Z.of_nat OPEN_MAX <=? fd then fail EBADF
  else
    row <~ curr_desc;;
    d <~ deref (row !! Z.to_nat fd);;
    match d_file d with None => fail EBADF | Some i => ret i end.

Definition fs_putfd (fd : Z) : M (proc S) unit :=
  i <~ fd_file fd;;
  status (fs_putfile i);;;
  put_desc (Z.to_nat fd) no_desc.

Definition fs_fdaccess (fd mode : Z) : M (proc S) unit :=
  i <~ fd_file fd;;
  f <~ get_file i;;
  if negb (Z.land mode R_OK =? 0) && negb (reads (fl_omode f)) then fail EBADF
  else if negb (Z.land mode W_OK =? 0) && negb (writes (fl_omode f)) then fail EBADF
  else if negb (Z.land mode X_OK =? 0) then fail EINVAL
  else
    match fl_fso f with
    | None => ret tt
    | Some j => c <~ gets (fun p => k_curr (p_kern p));; kern_ (fs_chk_perm j mode (euid c) (egid c))
    end.

(** ** Tasks *)

Fixpoint ref_files (l : list fs_desc) : M (proc S) unit :=
  match l with
  | [] => ret tt
  | d :: l' =>
    (match d_file d with
     | Some i => upd_file i (fun f => set_fl_refcnt (fl_refcnt f + 1) f)
     | None => ret tt
     end);;;
    ref_files l'
  end.

(** [fs_newtask (task[t])]: the new task shares the open files of the current one. *)
Definition fs_newtask (t : nat) : M (proc S) unit :=
  row <~ curr_desc;;
  modify (fun p => with_desc (<[t := row]> (p_desc p)) p);;;
  c <~ gets (fun p => k_curr (p_kern p));;
  modify (fun p => with_tty (<[t := tty c]> (p_tty p)) p);;;
  o <~ gets (fun p => task_at (p_kern p) (cur p));;
  let ocwd := match o with Some (_, b) => b | None => false end in
  modify (fun p => with_kern (with_tasks (<[t := Some (cwd c, ocwd)]> (k_tasks (p_kern p))) (p_kern p)) p);;;
  ref_files row.

Fixpoint clean_loop (n fd : nat) : M (proc S) unit :=
  match n with
  | O => ret tt
  | Datatypes.S n' =>
    row <~ curr_desc;;
    d <~ deref (row !! fd);;
    (match d_file d with Some _ => status (fs_putfd (Z.of_nat fd));;; ret tt | None => ret tt end);;;
    clean_loop n' (Datatypes.S fd)
  end.

Definition fs_clean : M (proc S) unit :=
  modify (with_multipoll 0);;;
  clean_loop OPEN_MAX 0.

(** ** Revocation *)

(** The files of object [j] that some descriptor of [l] refers to lose their
    access mode. *)
Definition revoke_mode (omode : Z) : Z := Z.lor (Z.land omode (Z.lnot O_DIRECTION)) O_NOIO.
Fixpoint revoke_descs (l : list fs_desc) (j : nat) : M (proc S) unit :=
  match l with
  | [] => ret tt
  | d :: l' =>
    (match d_file d with
     | Some i =>
       f <~ get_file i;;
       if bool_decide (fl_fso f = Some j) then upd_file i (fun f => set_fl_omode (revoke_mode (fl_omode f)) f)
       else ret tt
     | None => ret tt
     end);;;
    revoke_descs l' j
  end.
Fixpoint revoke_tasks (l : list (list fs_desc)) (j : nat) : M (proc S) unit :=
  match l with
  | [] => ret tt
  | row :: l' => revoke_descs row j;;; revoke_tasks l' j
  end.

Definition fs_revoke (path : list Z) : M (proc S) unit :=
  j <~ kern_ (fs_lookup path);;
  g <~ kern_ (get_fso j);;
  c <~ gets (fun p => k_curr (p_kern p));;
  if negb (euid c =? 0) && negb (euid c =? uid g) then kern_ (fs_putfso (Some j));;; fail EACCES
  else
    l <~ gets p_desc;;
    revoke_tasks l j;;;
    kern_ (fs_putfso (Some j)).
End ops.
