(* ===== verification/FdescOk.v ===== *)
(** Reference counts of open files and reader and writer counts of file objects
    (kern/fs/fdesc.c).

    [refs_ok pend p]: the count of every open file is the number of descriptors,
    of any task, that refer to it, plus the references [pend] a system call in
    progress holds.  [counts_ok p]: the reader and writer counts of a file object
    are the numbers of open files that can read and write it. *)

From S2P Require Import Prelude BlockDev BlockIface Kern Frame Vfs FsPath FsMount FsMisc Fdesc.

(** * Counting *)

Definition refers (j : nat) (d : fs_desc) : bool := bool_decide (d_file d = Some j).
Definition nrefs (j : nat) (rows : list (list fs_desc)) : Z := zcount (refers j) (concat rows).
(** An open file of object [j] whose mode satisfies [q]. *)
Definition opens (q : Z -> bool) (j : nat) (f : fs_file) : bool :=
  negb (fl_refcnt f =? 0) && bool_decide (fl_fso f = Some j) && q (fl_omode f).

Lemma find_at_some {A} (q : A -> bool) l n i :
  find_at q l n = Some i -> exists x, l !! (i - n)%nat = Some x /\ q x = true /\ (n <= i)%nat.
Proof.
  revert n. induction l as [|x l IH]; intros n E; cbn in E; [done|]. destruct (q x) eqn:Q; simplify_eq.
  - exists x. by rewrite Nat.sub_diag.
  - destruct (IH _ E) as (y & Hy & Q' & Hn). exists y. split_and!; [|done|lia].
    replace (i - n)%nat with (Datatypes.S (i - Datatypes.S n)) by lia. done.
Qed.

(** * Invariants *)

Section defs.
Context {S : Type}.
Implicit Types (p : proc S) (pend : nat -> Z).

Record refs_ok pend p : Prop := RefsOk {
  ro_refs : forall j f, p_file p !! j = Some f -> fl_refcnt f = nrefs j (p_desc p) + pend j;
  ro_valid : forall d j, d ∈ concat (p_desc p) -> d_file d = Some j -> (j < length (p_file p))%nat
}.

Definition counts_ok p : Prop :=
  forall j g, k_fso (p_kern p) !! j = Some g ->
    reader_count g = zcount (opens reads j) (p_file p) /\ writer_count g = zcount (opens writes j) (p_file p).

Definition plus pend (i : nat) (v : Z) : nat -> Z := fun j => if (j =? i)%nat then pend j + v else pend j.

(** What releasing a file object leaves alone. *)
Definition fso_counts (g : fso) := (reader_count g, writer_count g).
Definition fso_frame (k k' : kern S) : Prop :=
  k_curr k' = k_curr k /\ forall j, fso_counts <$> (k_fso k' !! j) = fso_counts <$> (k_fso k !! j).
End defs.

#[export] Instance fso_frame_preorder {S} : PreOrder (fso_frame (S := S)).
Proof. split; [done|]. intros k1 k2 k3 [C1 H1] [C2 H2]. split; [congruence|]. intros j. by rewrite H2, H1. Qed.

Class FsLowOk (S : Type) `{FsLow S} := {
  ft_putfso_keeps : forall t i, keeps fso_frame (ft_putfso t i);
}.

Section ok.
Context {S : Type} `{FsLow S, FsNames S, BlockDevices S, !FsLowOk S}.
Implicit Types (p : proc S) (pend : nat -> Z) (k : kern S).

Lemma upd_fso_frame i h : (forall g, fso_counts (h g) = fso_counts g) -> keeps (S := kern S) fso_frame (upd_fso i h).
Proof.
  intros Hh. apply keeps_upd_fso. intros k f Hf. split; [done|]. intros j. cbn.
  destruct (decide (j = i)) as [->|]; [rewrite lookup_insert_eq, Hf; cbn; by rewrite Hh|by rewrite lookup_insert_ne].
Qed.

Lemma fs_putfso_frame o : keeps (S := kern S) fso_frame (fs_putfso o).
Proof.
  unfold fs_putfso. destruct o as [i|]; [|keeps]. keeps; [apply ft_putfso_keeps|by apply upd_fso_frame..].
Qed.

(** ** Accesses *)

Lemma wlp_get_file i (Q : fs_file -> proc S -> Prop) E p :
  (forall f, p_file p !! i = Some f -> Q f p) -> wlp (get_file i) Q E p.
Proof. intros HQ. apply wlp_bind, wlp_gets, wlp_deref, HQ. Qed.
Lemma wlp_upd_file i h (Q : unit -> proc S -> Prop) E p :
  (forall f, p_file p !! i = Some f -> Q tt (with_file (<[i := h f]> (p_file p)) p)) -> wlp (upd_file i h) Q E p.
Proof. intros HQ. apply wlp_bind, wlp_get_file. intros f Hf. apply wlp_modify. auto. Qed.
Lemma wlp_curr_desc (Q : list fs_desc -> proc S -> Prop) E p :
  (forall row, p_desc p !! cur p = Some row -> Q row p) -> wlp curr_desc Q E p.
Proof. intros HQ. apply wlp_bind, wlp_gets, wlp_deref, HQ. Qed.
Lemma wlp_put_desc fd d (Q : unit -> proc S -> Prop) E p :
  (forall row, p_desc p !! cur p = Some row -> Q tt (with_desc (<[cur p := <[fd := d]> row]> (p_desc p)) p)) ->
  wlp (put_desc fd d) Q E p.
Proof. intros HQ. apply wlp_bind, wlp_curr_desc. intros row Hr. apply wlp_modify. auto. Qed.
Lemma wlp_kern {A} (m : M (kern S) A) (Q : A -> proc S -> Prop) E p :
  wlp m (fun a k => Q a (with_kern k p)) (fun e k => E e (with_kern k p)) (p_kern p) -> wlp (kern_ m) Q E p.
Proof. unfold wlp, kern_, zoom. by destruct (m (p_kern p)). Qed.

(** ** Reference counts *)

Lemma refs_ok_kern pend p k : refs_ok pend p -> refs_ok pend (with_kern k p).
Proof. by intros [H1' H2']. Qed.

Lemma refs_ok_ext pend pend' p : (forall j, pend j = pend' j) -> refs_ok pend p -> refs_ok pend' p.
Proof. intros He [H1' H2']. split; [|done]. intros j f Hf. rewrite <- He. by apply H1'. Qed.

(** A file whose count changes with the references pending on it. *)
Lemma refs_ok_file pend p i f v g :
  refs_ok pend p -> p_file p !! i = Some f -> fl_refcnt g = fl_refcnt f + v ->
  refs_ok (plus pend i v) (with_file (<[i := g]> (p_file p)) p).
Proof.
  intros [H1' H3'] Hf Hg. split; cbn [p_file p_desc with_file].
  - intros j h [(-> & <- & _)|[Hne Hh]]%list_lookup_insert_Some; unfold plus.
    + rewrite Nat.eqb_refl. rewrite Hg, (H1' _ _ Hf). lia.
    + rewrite (proj2 (Nat.eqb_neq j i)) by done. by apply H1'.
  - intros d j. rewrite length_insert. apply H3'.
Qed.

Lemma elem_of_insert {A} (l : list A) i x y : x ∈ <[i := y]> l -> x = y \/ x ∈ l.
Proof.
  intros [j Hj]%list_elem_of_lookup. apply list_lookup_insert_Some in Hj as [(_ & <- & _)|[_ Hj]]; [by left|].
  right. by eapply list_elem_of_lookup_2.
Qed.
Lemma elem_of_concat_insert {A} (l : list (list A)) i x r :
  x ∈ concat (<[i := r]> l) -> x ∈ r \/ x ∈ concat l.
Proof.
  rewrite !list_elem_of_In, !in_concat. intros (r' & Hr & Hx). apply list_elem_of_In in Hr.
  apply elem_of_insert in Hr as [->|Hr]; [by left|]. right. exists r'. by rewrite <- list_elem_of_In.
Qed.
Lemma elem_of_row p t (row : list fs_desc) d : p_desc p !! t = Some row -> d ∈ row -> d ∈ concat (p_desc p).
Proof.
  intros Hr Hd. rewrite list_elem_of_In, in_concat. exists row. rewrite <- !list_elem_of_In.
  split; [by eapply list_elem_of_lookup_2|done].
Qed.

(** A descriptor replaced: the references move between it and [pend]. *)
Lemma refs_ok_desc pend p t row fd d d' pend' :
  refs_ok pend p -> p_desc p !! t = Some row -> row !! fd = Some d ->
  (forall j, d_file d' = Some j -> (j < length (p_file p))%nat) ->
  (forall j, pend' j = pend j + b2z (refers j d) - b2z (refers j d')) ->
  refs_ok pend' (with_desc (<[t := <[fd := d']> row]> (p_desc p)) p).
Proof.
  intros [H1' H3'] Hr Hd Hv Hp. split; cbn [p_file p_desc with_desc].
  - intros j f Hf. rewrite (H1' _ _ Hf), Hp. unfold nrefs.
    rewrite (zcount_concat_insert _ _ _ _ _ Hr), (zcount_insert _ _ _ _ _ Hd). lia.
  - intros e j [[->|He]%elem_of_insert|He]%elem_of_concat_insert Hj; [by apply Hv| |by eapply H3'].
    eapply H3'; [|done]. by eapply elem_of_row.
Qed.

Lemma fs_getfile_refs o omode pend p :
  refs_ok pend p -> (forall j, 0 <= pend j) ->
  wlp (fs_getfile o omode)
    (fun i p' => refs_ok (plus pend i 1) p' /\ p_desc p' = p_desc p /\ nrefs i (p_desc p) = 0 /\ pend i = 0)
    (fun e p' => p' = p /\ e = ENFILE) p.
Proof.
  intros Hr Hp. unfold fs_getfile. apply wlp_bind, wlp_gets. destruct (find_at _ _ 0) as [i|] eqn:E; [|by apply wlp_fail].
  apply find_at_some in E as (f & Hf & E%Z.eqb_eq & _). rewrite Nat.sub_0_r in Hf.
  apply wlp_bind, wlp_upd_file. intros f' Hf'. rewrite Hf in Hf'. injection Hf' as <-.
  assert (refs_ok (plus pend i 1) (with_file (<[i := FsFile 1 o 0 omode]> (p_file p)) p)) as Hr1.
  { eapply refs_ok_file; [done|done|]. rewrite E. done. }
  pose proof (ro_refs _ _ Hr i f Hf) as Hz. rewrite E in Hz. specialize (Hp i). pose proof (zcount_nonneg (refers i) (concat (p_desc p))).
  unfold nrefs in Hz. apply wlp_bind. destruct o as [j|].
  - apply wlp_kern, wlp_upd_fso. intros g Hg. apply wlp_ret. split; [by apply refs_ok_kern|]. split; [done|].
    unfold nrefs. lia.
  - apply wlp_ret, wlp_ret. split; [done|]. split; [done|]. unfold nrefs. lia.
Qed.

Lemma fs_putfile_refs i pend p :
  refs_ok pend p ->
  wlp (fs_putfile i)
    (fun _ p' => refs_ok (plus pend i (-1)) p' /\ p_desc p' = p_desc p /\ cur p' = cur p /\ length (p_file p') = length (p_file p))
    (fun _ p' => refs_ok (plus pend i (-1)) p' /\ p_desc p' = p_desc p /\ cur p' = cur p /\ length (p_file p') = length (p_file p)) p.
Proof.
  intros Hr. assert (forall p1 (Q : unit -> proc S -> Prop) E, refs_ok pend p1 -> p_desc p1 = p_desc p -> cur p1 = cur p -> length (p_file p1) = length (p_file p) ->
    (forall p2, refs_ok (plus pend i (-1)) p2 /\ p_desc p2 = p_desc p /\ cur p2 = cur p /\ length (p_file p2) = length (p_file p) -> Q tt p2) ->
    wlp (upd_file i (fun f => set_fl_refcnt (fl_refcnt f - 1) f)) Q E p1) as Hdec.
  { intros p1 Q E Hr1 Hd Hc Hl HQ. apply wlp_upd_file. intros f Hf. apply HQ. cbn. rewrite length_insert.
    split; [|done]. eapply refs_ok_file; [done|done|]. cbn. lia. }
  unfold fs_putfile. apply wlp_bind, wlp_get_file. intros f Hf. destruct (fl_refcnt f =? 0); [done|].
  destruct (fl_refcnt f =? 1); [|by apply Hdec]. apply wlp_bind.
  eapply (wlp_mono _ (fun _ p1 => exists k, p1 = with_kern k p /\ k_curr k = k_curr (p_kern p)) _ (fun _ _ => False)); [| |done].
  { destruct (_ || _); [|apply wlp_ret; exists (p_kern p); by destruct p]. apply wlp_bind, wlp_deref. intros j _.
    apply wlp_kern, wlp_upd_fso. intros g _. by eexists. }
  cbn beta. intros _ p1 (k1 & -> & Hk1). apply wlp_bind, wlp_attempt, wlp_kern.
  eapply wlp_keeps; [apply fs_putfso_frame|..]; intros a k2 [Hc2 _]; apply wlp_bind; (apply Hdec; [by do 2 apply refs_ok_kern|done| |done|done]);
    unfold cur; cbn; by rewrite Hc2, <- Hk1.
Qed.

Lemma plus_eq pend i v : plus pend i v i = pend i + v.
Proof. unfold plus. by rewrite Nat.eqb_refl. Qed.
Lemma refers_none j d : d_file d = None -> refers j d = false.
Proof. intros Hd. unfold refers. by rewrite Hd, bool_decide_false. Qed.
Lemma plus_refers pend i d j :
  d_file d = Some i -> plus pend i (-1) j + b2z (refers j d) = pend j.
Proof.
  intros Hd. unfold plus, refers. rewrite Hd. destruct (Nat.eqb_spec j i) as [->|Hne].
  - rewrite bool_decide_true by done. cbn. lia.
  - rewrite bool_decide_false by congruence. cbn. lia.
Qed.

Lemma fs_getfd_refs i pend p :
  refs_ok pend p -> (i < length (p_file p))%nat ->
  wlp (fs_getfd i) (fun _ p' => refs_ok (plus pend i (-1)) p') (fun e p' => p' = p /\ e = EMFILE) p.
Proof.
  intros Hr Hi. unfold fs_getfd. apply wlp_bind, wlp_curr_desc. intros row Hrow.
  destruct (find_at _ row 0) as [fd|] eqn:E; [|by apply wlp_fail].
  apply find_at_some in E as (d & Hd & Hn%bool_decide_eq_true & _). rewrite Nat.sub_0_r in Hd.
  apply wlp_bind, wlp_put_desc. intros row' Hrow'. rewrite Hrow in Hrow'. injection Hrow' as <-. apply wlp_ret.
  eapply refs_ok_desc; [done|done|done|by intros j [= <-]|]. intros j.
  rewrite <- (plus_refers pend i (FsDesc (Some i) 0) j eq_refl). rewrite (refers_none j d Hn). cbn. lia.
Qed.

Lemma wlp_fd_file fd (Q : nat -> proc S -> Prop) E p :
  (forall row d i, p_desc p !! cur p = Some row -> row !! Z.to_nat fd = Some d -> d_file d = Some i -> Q i p) ->
  E EBADF p -> wlp (fd_file fd) Q E p.
Proof.
  intros HQ HE. unfold fd_file. destruct (_ <=? _); [by apply wlp_fail|]. apply wlp_bind, wlp_curr_desc. intros row Hr.
  apply wlp_bind, wlp_deref. intros d Hd. destruct (d_file d) as [i|] eqn:Ei; [by apply wlp_ret; eapply HQ|by apply wlp_fail].
Qed.

Lemma fs_putfd_refs fd pend p :
  refs_ok pend p ->
  wlp (fs_putfd fd) (fun _ p' => refs_ok pend p' /\ cur p' = cur p) (fun e p' => p' = p /\ e = EBADF) p.
Proof.
  intros Hr. unfold fs_putfd. apply wlp_bind, wlp_fd_file; [|done]. intros row d i Hrow Hd Hi.
  apply wlp_bind, wlp_status. assert (forall p1,
    refs_ok (plus pend i (-1)) p1 /\ p_desc p1 = p_desc p /\ cur p1 = cur p /\ length (p_file p1) = length (p_file p) ->
    wlp (put_desc (Z.to_nat fd) no_desc) (fun _ p' => refs_ok pend p' /\ cur p' = cur p) (fun e p' => p' = p /\ e = EBADF) p1) as Hend.
  { intros p1 (Hr1 & Hd1 & Hc1 & Hl1). apply wlp_put_desc. intros row' Hrow'. rewrite Hd1, Hc1, Hrow in Hrow'. injection Hrow' as <-.
    split; [|done]. eapply refs_ok_desc; [done|by rewrite Hd1, Hc1|done|done|]. intros j.
    rewrite <- (plus_refers pend i d j Hi), (refers_none j no_desc eq_refl). cbn. lia. }
  eapply wlp_mono; [by apply fs_putfile_refs|intros a; apply Hend|intros e; apply Hend].
Qed.

Lemma ref_files_refs row pend p :
  refs_ok pend p -> wlp (ref_files row) (fun _ p' => refs_ok (fun j => pend j + zcount (refers j) row) p') (fun _ _ => False) p.
Proof.
  revert pend p. induction row as [|d row IH]; intros pend p Hr; cbn [ref_files].
  { apply wlp_ret. eapply refs_ok_ext; [|done]. intros j. cbn. lia. }
  apply wlp_bind. destruct (d_file d) as [i|] eqn:Ei.
  - apply wlp_upd_file. intros f Hf. eapply wlp_mono; [eapply IH, (refs_ok_file pend p i f 1); [done|done|done]| |done].
    cbn beta. intros _ p'. apply refs_ok_ext. intros j. cbn. unfold plus, refers. rewrite Ei.
    destruct (Nat.eqb_spec j i) as [->|]; [rewrite bool_decide_true by done|rewrite bool_decide_false by congruence]; cbn; lia.
  - apply wlp_ret. eapply wlp_mono; [by eapply IH| |done]. cbn beta. intros _ p'. apply refs_ok_ext. intros j. cbn.
    rewrite (refers_none j d Ei). cbn. lia.
Qed.

Lemma fs_newtask_refs t pend p :
  refs_ok pend p -> p_desc p !! t = Some [] ->
  wlp (fs_newtask t) (fun _ p' => refs_ok pend p') (fun _ _ => False) p.
Proof.
  intros Hr Ht. unfold fs_newtask. apply wlp_bind, wlp_curr_desc. intros row Hrow.
  do 2 (apply wlp_bind, wlp_modify; apply wlp_bind, wlp_gets). cbv zeta. apply wlp_bind, wlp_modify.
  eapply wlp_mono; [apply (ref_files_refs row (fun j => pend j - zcount (refers j) row))| |done].
  - destruct Hr as [H1' H3']. split; cbn [p_file p_desc with_kern with_tty with_desc].
    + intros j f Hf. rewrite (H1' _ _ Hf). unfold nrefs. rewrite (zcount_concat_insert _ _ _ _ _ Ht). cbn. lia.
    + intros d j [Hd|Hd]%elem_of_concat_insert; [|by apply H3']. apply H3'. by eapply elem_of_row.
  - cbn beta. intros _ p'. apply refs_ok_ext. intros j. lia.
Qed.

Lemma clean_loop_refs n fd pend p :
  refs_ok pend p -> wlp (clean_loop n fd) (fun _ p' => refs_ok pend p') (fun _ p' => refs_ok pend p') p.
Proof.
  revert fd p. induction n as [|n IH]; intros fd p Hr; cbn [clean_loop]; [by apply wlp_ret|].
  apply wlp_bind, wlp_curr_desc. intros row _. apply wlp_bind, wlp_deref. intros d _. apply wlp_bind.
  destruct (d_file d); [|by apply wlp_ret, IH]. apply wlp_bind, wlp_status.
  eapply wlp_mono; [by apply fs_putfd_refs| |].
  - cbn beta. intros _ p1 [Hr1 _]. by apply wlp_ret, IH.
  - cbn beta. intros e p1 [-> _]. by apply wlp_ret, IH.
Qed.

Lemma revoke_descs_refs l j pend p :
  refs_ok pend p -> wlp (revoke_descs l j) (fun _ p' => refs_ok pend p') (fun _ _ => False) p.
Proof.
  revert p. induction l as [|d l IH]; intros p Hr; cbn [revoke_descs]; [by apply wlp_ret|]. apply wlp_bind.
  destruct (d_file d) as [i|]; [|by apply wlp_ret, IH]. apply wlp_bind, wlp_get_file. intros f Hf.
  destruct (bool_decide _); [|by apply wlp_ret, IH]. apply wlp_upd_file. intros f' Hf'. apply IH.
  eapply (refs_ok_ext (plus pend i 0)); [intros m; unfold plus; destruct (_ =? _)%nat; lia|].
  eapply refs_ok_file; [done|done|]. cbn. lia.
Qed.
Lemma revoke_tasks_refs l j pend p :
  refs_ok pend p -> wlp (revoke_tasks l j) (fun _ p' => refs_ok pend p') (fun _ _ => False) p.
Proof.
  revert p. induction l as [|r l IH]; intros p Hr; cbn [revoke_tasks]; [by apply wlp_ret|].
  apply wlp_bind. eapply wlp_mono; [by apply revoke_descs_refs|intros a; apply IH|done].
Qed.

Lemma kern_refs {A} (m : M (kern S) A) pend p :
  refs_ok pend p -> wlp (kern_ m) (fun _ p' => refs_ok pend p') (fun _ p' => refs_ok pend p') p.
Proof. intros Hr. apply wlp_kern. unfold wlp. destruct (m (p_kern p)); [by apply refs_ok_kern..|done]. Qed.

Lemma fs_revoke_refs path pend p :
  refs_ok pend p -> wlp (fs_revoke path) (fun _ p' => refs_ok pend p') (fun _ p' => refs_ok pend p') p.
Proof.
  intros Hr. unfold fs_revoke. apply wlp_bind. eapply wlp_mono; [by apply kern_refs|cbn beta; intros j p1 Hr1|done].
  apply wlp_bind. eapply wlp_mono; [by apply kern_refs|cbn beta; intros g p2 Hr2|done]. apply wlp_bind, wlp_gets.
  destruct (_ && _).
  - apply wlp_bind. eapply wlp_mono; [by apply kern_refs|cbn beta; intros _ p3 Hr3|done]. by apply wlp_fail.
  - apply wlp_bind, wlp_gets, wlp_bind. eapply wlp_mono; [by apply revoke_tasks_refs| |done].
    cbn beta. intros _ p3 Hr3. by apply kern_refs.
Qed.

(** ** Every history of the file tables *)

(** A state with the references that system calls in progress hold.  A system
    call gets a file with [fs_getfile], and either gives its reference to a
    descriptor with [fs_getfd] or releases it with [fs_putfile]. *)
Definition fd_state : Type := (nat -> Z) * proc S.
Inductive fd_step : fd_state -> fd_state -> Prop :=
| step_getfile o omode pend p i p' : fs_getfile o omode p = Ret i p' -> fd_step (pend, p) (plus pend i 1, p')
| step_getfile_err o omode pend p e p' : fs_getfile o omode p = Err e p' -> fd_step (pend, p) (pend, p')
| step_putfile i pend p r p' : 1 <= pend i -> (fs_putfile i p = Ret tt p' \/ fs_putfile i p = Err r p') ->
    fd_step (pend, p) (plus pend i (-1), p')
| step_getfd i pend p fd p' : 1 <= pend i -> (i < length (p_file p))%nat -> fs_getfd i p = Ret fd p' ->
    fd_step (pend, p) (plus pend i (-1), p')
| step_getfd_err i pend p e p' : (i < length (p_file p))%nat -> fs_getfd i p = Err e p' -> fd_step (pend, p) (pend, p')
| step_putfd fd pend p r p' : (fs_putfd fd p = Ret tt p' \/ fs_putfd fd p = Err r p') -> fd_step (pend, p) (pend, p')
| step_newtask t pend p p' : p_desc p !! t = Some [] -> fs_newtask t p = Ret tt p' -> fd_step (pend, p) (pend, p')
| step_clean pend p r p' : (fs_clean p = Ret tt p' \/ fs_clean p = Err r p') -> fd_step (pend, p) (pend, p')
| step_revoke path pend p r p' : (fs_revoke path p = Ret tt p' \/ fs_revoke path p = Err r p') -> fd_step (pend, p) (pend, p')
| step_kern {A} (m : M (kern S) A) pend p r p' : (exists a, kern_ m p = Ret a p') \/ kern_ m p = Err r p' -> fd_step (pend, p) (pend, p').

Definition fd_inv (s : fd_state) : Prop := refs_ok s.1 s.2 /\ forall j, 0 <= s.1 j.

Lemma plus_nonneg pend i v : (forall j, 0 <= pend j) -> 0 <= pend i + v -> forall j, 0 <= plus pend i v j.
Proof. intros Hp Hi j. unfold plus. destruct (Nat.eqb_spec j i) as [->|]; [done|apply Hp]. Qed.

Lemma wlp_either {A} (m : M (proc S) A) (Q : proc S -> Prop) a e p p' :
  wlp m (fun _ => Q) (fun _ => Q) p -> m p = Ret a p' \/ m p = Err e p' -> Q p'.
Proof. unfold wlp. intros H' [E|E]; by rewrite E in H'. Qed.

Lemma fd_step_ok s s' : fd_inv s -> fd_step s s' -> fd_inv s'.
Proof.
  intros [Hr Hp] Hs. destruct Hs; cbn [fst snd] in *.
  - eapply wlp_Ret in H2; [|by apply fs_getfile_refs]. destruct H2 as (? & _). split; [done|].
    apply plus_nonneg; [done|]. specialize (Hp i). cbn [fst]. lia.
  - eapply wlp_Err in H2; [|by apply fs_getfile_refs]. by destruct H2 as [-> _].
  - assert (refs_ok (plus pend i (-1)) p') as Hr'.
    { eapply wlp_either; [|done]. eapply wlp_mono; [by apply fs_putfile_refs|by intros ? ? [? _]..]. }
    split; [done|]. cbn. apply plus_nonneg; [done|lia].
  - eapply wlp_Ret in H4; [|by apply fs_getfd_refs]. split; [done|]. cbn. apply plus_nonneg; [done|lia].
  - eapply wlp_Err in H3; [|by apply fs_getfd_refs]. by destruct H3 as [-> _].
  - split; [|done]. eapply wlp_either; [|done]. eapply wlp_mono; [by apply fs_putfd_refs|by intros ? ? [? _]|by intros ? ? [-> _]].
  - split; [|done]. eapply wlp_Ret in H3; [|by apply fs_newtask_refs]. done.
  - split; [|done]. eapply wlp_either; [|done]. unfold fs_clean. apply wlp_bind, wlp_modify, clean_loop_refs. by destruct Hr.
  - split; [|done]. eapply wlp_either; [|done]. by apply fs_revoke_refs.
  - split; [|done]. cbn. pose proof (kern_refs m pend p Hr) as Hk. unfold wlp in Hk. destruct H2 as [[a E]|E]; by rewrite E in Hk.
Qed.

(** C12. In every history of the file tables, over opens, closes, descriptor
    allocations, forks, exits, revocations and any other kernel activity, the
    reference count of an open file is the number of descriptors of all tasks that
    refer to it plus the references system calls in progress hold; every
    descriptor refers to a file that is in use, and [fs_getfile] hands out only
    files nothing refers to. *)
Theorem open_files_counted s s' :
  fd_inv s -> rtc fd_step s s' ->
  (forall j f, p_file s'.2 !! j = Some f -> fl_refcnt f = nrefs j (p_desc s'.2) + s'.1 j) /\
  (forall d j, d ∈ concat (p_desc s'.2) -> d_file d = Some j -> exists f, p_file s'.2 !! j = Some f /\ 1 <= fl_refcnt f) /\
  (forall o omode i p', fs_getfile o omode s'.2 = Ret i p' -> nrefs i (p_desc s'.2) = 0 /\ s'.1 i = 0).
Proof.
  intros Hi Hr. assert (fd_inv s') as [Hr' Hp'].
  { induction Hr as [|s1 s2 s3 Hs _ IH]; [done|]. apply IH. by eapply fd_step_ok. }
  split; [apply Hr'|]. split.
  - intros d j Hd Hj. destruct (lookup_lt_is_Some_2 (p_file s'.2) j) as [f Hf]; [by eapply ro_valid|].
    exists f. split; [done|]. rewrite (ro_refs _ _ Hr' j f Hf). specialize (Hp' j).
    destruct (Z.eq_dec (nrefs j (p_desc s'.2)) 0) as [Hz|Hz].
    + pose proof (zcount_zero _ _ d Hz Hd) as Hn. unfold refers in Hn. by rewrite Hj, bool_decide_true in Hn.
    + pose proof (zcount_nonneg (refers j) (concat (p_desc s'.2))). unfold nrefs in *. lia.
  - intros o omode i p' E. eapply wlp_Ret in E; [|by apply fs_getfile_refs]. by destruct E as (_ & _ & ? & ?).
Qed.

(** ** Reader and writer counts *)

Lemma opens_closed q j f : fl_refcnt f = 0 -> opens q j f = false.
Proof. intros Hf. unfold opens. by rewrite Hf. Qed.

Lemma counts_ok_insert p i f h k :
  counts_ok p -> p_file p !! i = Some f ->
  (forall j g, k_fso k !! j = Some g -> exists g0, k_fso (p_kern p) !! j = Some g0 /\
     reader_count g = reader_count g0 - b2z (opens reads j f) + b2z (opens reads j h) /\
     writer_count g = writer_count g0 - b2z (opens writes j f) + b2z (opens writes j h)) ->
  counts_ok (with_file (<[i := h]> (p_file p)) (with_kern k p)).
Proof.
  intros Hc Hf Hk j g Hg. cbn in *. destruct (Hk j g Hg) as (g0 & Hg0 & Hr & Hw). destruct (Hc j g0 Hg0) as [Hr0 Hw0].
  rewrite !(zcount_insert _ _ _ _ _ Hf). lia.
Qed.

Lemma count_open_reads s m g : reader_count (count_open s m g) = reader_count g + b2z (reads m) * s.
Proof. unfold count_open. cbn. destruct (reads m); cbn; lia. Qed.
Lemma count_open_writes s m g : writer_count (count_open s m g) = writer_count g + b2z (writes m) * s.
Proof. unfold count_open. cbn. destruct (writes m); cbn; lia. Qed.

Lemma fs_getfile_counts o omode p :
  counts_ok p -> wlp (fs_getfile o omode) (fun _ => counts_ok) (fun _ => counts_ok) p.
Proof.
  intros Hc. unfold fs_getfile. apply wlp_bind, wlp_gets. destruct (find_at _ _ 0) as [i|] eqn:E; [|by apply wlp_fail].
  apply find_at_some in E as (f & Hf & E%Z.eqb_eq & _). rewrite Nat.sub_0_r in Hf.
  apply wlp_bind, wlp_upd_file. intros f' Hf'. rewrite Hf in Hf'. injection Hf' as <-. apply wlp_bind. destruct o as [j|].
  - apply wlp_kern, wlp_upd_fso. intros g Hg. apply wlp_ret.
    refine (counts_ok_insert p i f (FsFile 1 (Some j) 0 omode) _ Hc Hf _). intros m g' Hm. cbn in Hm, Hg.
    rewrite !(opens_closed _ _ f E). unfold opens. cbn [fl_refcnt fl_fso fl_omode]. change (negb (1 =? 0)) with true.
    apply lookup_insert_Some in Hm as [[-> <-]|[Hne Hm]].
    + exists g. rewrite bool_decide_true by done. rewrite count_open_reads, count_open_writes. cbn. split; [done|]. lia.
    + exists g'. rewrite bool_decide_false by congruence. cbn. split; [done|]. lia.
  - apply wlp_ret, wlp_ret.
    refine (counts_ok_insert p i f (FsFile 1 None 0 omode) (p_kern p) Hc Hf _). intros m g' Hm. exists g'.
    rewrite !(opens_closed _ _ f E). unfold opens. cbn [fl_fso]. rewrite bool_decide_false by done. rewrite andb_false_r. cbn. split; [done|lia].
Qed.

Lemma fs_putfile_counts i p :
  counts_ok p -> wlp (fs_putfile i) (fun _ => counts_ok) (fun _ => counts_ok) p.
Proof.
  intros Hc. unfold fs_putfile. apply wlp_bind, wlp_get_file. intros f Hf. destruct (Z.eqb_spec (fl_refcnt f) 0) as [|Hz]; [done|].
  destruct (Z.eqb_spec (fl_refcnt f) 1) as [E1|E1].
  2: { apply wlp_upd_file. intros f' Hf'. rewrite Hf in Hf'. injection Hf' as <-.
    refine (counts_ok_insert p i f _ (p_kern p) Hc Hf _). intros m g Hm. exists g. unfold opens. cbn.
    rewrite (proj2 (Z.eqb_neq _ _) Hz), (proj2 (Z.eqb_neq (fl_refcnt f - 1) 0)) by lia. cbn. split; [done|lia]. }
  apply wlp_bind.
  eapply (wlp_mono _ (fun _ p1 => exists k, p1 = with_kern k p /\ forall j g, k_fso k !! j = Some g ->
    exists g0, k_fso (p_kern p) !! j = Some g0 /\ reader_count g = reader_count g0 - b2z (opens reads j f) /\
      writer_count g = writer_count g0 - b2z (opens writes j f)) _ (fun _ _ => False)); [| |done].
  { assert (forall q j, opens q j f = bool_decide (fl_fso f = Some j) && q (fl_omode f)) as Ho.
    { intros q j. unfold opens. by rewrite (proj2 (Z.eqb_neq _ _) Hz). }
    destruct (reads (fl_omode f) || writes (fl_omode f)) eqn:Erw.
    - apply wlp_bind, wlp_deref. intros j Hj. apply wlp_kern, wlp_upd_fso. intros g Hg. eexists. split; [done|].
      cbn. intros m g' [[-> <-]|[Hne Hm]]%lookup_insert_Some; rewrite !Ho, Hj.
      + exists g. rewrite bool_decide_true by done. rewrite count_open_reads, count_open_writes. cbn. split; [done|lia].
      + exists g'. rewrite bool_decide_false by congruence. cbn. split; [done|lia].
    - apply wlp_ret. exists (p_kern p). split; [by destruct p|]. intros m g Hm. exists g. rewrite !Ho.
      apply orb_false_iff in Erw as [-> ->]. rewrite andb_false_r. cbn. split; [done|lia]. }
  cbn beta. intros _ p1 (k1 & -> & Hk1). apply wlp_bind, wlp_attempt, wlp_kern.
  assert (forall k2 (r : Z + unit), fso_frame k1 k2 ->
    wlp (upd_file i (fun f => set_fl_refcnt (fl_refcnt f - 1) f);;; match r with inl e => fail e | inr _ => ret tt end)
      (fun _ => counts_ok) (fun _ => counts_ok) (with_kern k2 (with_kern k1 p))) as Hend.
  { intros k2 r [_ Hs]. apply wlp_bind, wlp_upd_file. cbn. intros f' Hf'. rewrite Hf in Hf'. injection Hf' as <-.
    assert (counts_ok (with_file (<[i := set_fl_refcnt (fl_refcnt f - 1) f]> (p_file p)) (with_kern k2 p))) as Hc2; [|by destruct r].
    apply (counts_ok_insert p i f _ k2 Hc Hf). intros j g Hg. specialize (Hs j). rewrite Hg in Hs.
    destruct (k_fso k1 !! j) as [g1|] eqn:Hg1; [|done]. cbn in Hs. injection Hs as Hr Hw.
    destruct (Hk1 j g1 Hg1) as (g0 & Hg0 & Hr0 & Hw0). exists g0. split; [done|].
    rewrite !(opens_closed _ _ (set_fl_refcnt _ f)) by (cbn; lia). cbn. lia. }
  eapply wlp_keeps; [apply fs_putfso_frame|..]; intros a k2 Hk2; [exact (Hend k2 (inr a) Hk2)|exact (Hend k2 (inl a) Hk2)].
Qed.

(** The reader and writer counts of every file object are the numbers of
    open files that can read and write it, and [fs_getfile] and [fs_putfile] keep
    them so, whether they succeed or fail. *)
Theorem file_counts_kept p :
  counts_ok p ->
  (forall o omode r p', (fs_getfile o omode p = Ret r p' \/ exists e, fs_getfile o omode p = Err e p') -> counts_ok p') /\
  (forall i p', (fs_putfile i p = Ret tt p' \/ exists e, fs_putfile i p = Err e p') -> counts_ok p').
Proof.
  intros Hc. split.
  - intros o omode r p' Hr. pose proof (fs_getfile_counts o omode p Hc) as W. unfold wlp in W.
    destruct Hr as [E|[e E]]; by rewrite E in W.
  - intros i p' Hr. pose proof (fs_putfile_counts i p Hc) as W. unfold wlp in W.
    destruct Hr as [E|[e E]]; by rewrite E in W.
Qed.

Lemma revoke_mode_noio m : Z.land (revoke_mode m) 7 = O_NOIO.
Proof.
  unfold revoke_mode, O_DIRECTION, O_NOIO. apply Z.bits_inj'. intros n Hn.
  rewrite Z.land_spec, Z.lor_spec, Z.land_spec, Z.lnot_spec by done.
  destruct (Z.lt_ge_cases n 3) as [Hl|Hl].
  - assert (n = 0 \/ n = 1 \/ n = 2) as [->|[->| ->]] by lia; cbn; by rewrite ?orb_true_r, ?andb_false_r.
  - by rewrite (testbit_above 3 7 n), (testbit_above 3 3 n), andb_false_r by lia.
Qed.

(** A revoked file that is closed stays counted: once [fs_revoke] has cleared
    its access mode, the last [fs_putfile] releases the object without decrementing
    its reader and writer counts, although no open file accounts for them. *)
Theorem revoked_stays_counted p i f j g :
  p_file p !! i = Some f -> fl_refcnt f = 1 -> fl_fso f = Some j -> fl_omode f = revoke_mode (fl_omode f) ->
  k_fso (p_kern p) !! j = Some g -> 1 < refcnt g ->
  exists p' g', fs_putfile i p = Ret tt p' /\ k_fso (p_kern p') !! j = Some g' /\
    reader_count g' = reader_count g /\ writer_count g' = writer_count g /\
    p_file p' !! i = Some (set_fl_refcnt 0 f).
Proof.
  intros Hf H1' Hj Hm Hg Hr. pose proof (revoke_mode_noio (fl_omode f)) as Hn. rewrite <- Hm in Hn.
  assert (reads (fl_omode f) = false /\ writes (fl_omode f) = false) as [R W] by (unfold reads, writes; by rewrite Hn).
  set (k' := with_fso (<[j := set_refcnt (refcnt g - 1) g]> (k_fso (p_kern p))) (p_kern p)).
  assert (fs_putfso (Some j) (p_kern p) = Ret tt k') as Ep.
  { unfold fs_putfso, upd_fso, get_fso, bind. cbn. rewrite Hg. cbn. rewrite (proj2 (Z.eqb_neq (refcnt g) 0)) by lia.
    rewrite (proj2 (Z.eqb_neq (refcnt g) 1)) by lia. cbn. by rewrite Hg. }
  exists (with_file (<[i := set_fl_refcnt 0 f]> (p_file p)) (with_kern k' p)), (set_refcnt (refcnt g - 1) g).
  split; [|split; [apply lookup_insert_eq|split; [done|split; [done|]]]].
  - assert (forall q : proc S, p_file q = p_file p -> get_file i q = Ret f q) as G by (intros q Hq; unfold get_file, bind; cbn; by rewrite Hq, Hf).
    unfold fs_putfile. rewrite (bind_run _ _ _ _ _ (G p eq_refl)), H1', R, W. cbn [Z.eqb Pos.eqb orb]. rewrite ret_bind.
    assert (attempt (kern_ (fs_putfso (fl_fso f))) p = Ret (inr tt) (with_kern k' p)) as Ea.
    { unfold attempt, kern_, zoom. by rewrite Hj, Ep. }
    rewrite (bind_run _ _ _ _ _ Ea). unfold upd_file. unfold bind at 1. rewrite (bind_run _ _ _ _ _ (G (with_kern k' p) eq_refl)).
    unfold modify, ret. by rewrite H1'.
  - cbn. apply list_lookup_insert_eq. by eapply lookup_lt_Some.
Qed.
End ok.
