(* ===== verification/NatType.v ===== *)
(** natfs as a file-system type: the instance of the interfaces of the
    file-system independent layer, and the laws they ask for.  The buffer cache
    is the instance of the device operations that mounting uses. *)

From S2P Require Import Prelude BlockDev BlockIface BlockCache Kern Frame NatBam NatBmap Vfs Pipe NatRw NatFso NatMount NatDir FsPath FsMount FsMountOk FsMisc Fdesc FdescOk.

Section names.
Context {S : Type} `{BlockLayer S}.

(** [fstype] of kern/fs/nat/main.c; of the names of a pipe nothing is
    implemented, and the entry points fail with ENOSYS. *)
#[export] Instance nat_names : FsNames S := {
  ft_mount t i := on_type t (nat_mount i) (fail ENOSYS);
  ft_umount t i := on_type t (nat_umount i) (fail ENOSYS);
  ft_lookup t i p := on_type t (nat_lookup i p) (fail ENOSYS);
  ft_creat t i p mode rdev := on_type t (nat_creat i p mode rdev) (fail ENOSYS);
  ft_link t j p := on_type t (nat_link j p) (fail ENOSYS);
  ft_unlink t i p := on_type t (nat_unlink i p) (fail ENOSYS);
  ft_rename t i p q := on_type t (nat_rename i p q) (fail ENOSYS);
  ft_chdir t i p := on_type t (nat_chdir i p) (fail ENOSYS);
  ft_mkdir t i p mode := on_type t (nat_mkdir i p mode) (fail ENOSYS);
  ft_rmdir t i p := on_type t (nat_rmdir i p) (fail ENOSYS);
}.

(** ** Frame conditions *)

(** A relation between states that natfs cannot break: it does not look at the
    block layer, at [fs->nat], or at what natfs changes of a file object. *)
Record nat_frame (R : kern S -> kern S -> Prop) : Prop := NatFrame {
  nf_pre : PreOrder R;
  nf_blk : forall k b, R k (with_blk b k);
  nf_nat : forall k i f n, k_fs k !! i = Some f -> R k (with_fs (<[i := set_nat n f]> (k_fs k)) k);
  nf_fso : forall k i f g, k_fso k !! i = Some f -> fso_counts g = fso_counts f -> R k (with_fso (<[i := g]> (k_fso k)) k)
}.

Section frame.
Context (R : kern S -> kern S -> Prop) (HR : nat_frame R).

#[local] Instance nf_preorder : PreOrder R := nf_pre R HR.

Lemma nf_keeps_blk {A} (m : M S A) : keeps R (blk m).
Proof. apply keeps_blk, HR. Qed.
Lemma nf_keeps_nat i h : keeps R (upd_nat i h).
Proof. apply keeps_upd_fs. intros k f. apply HR. Qed.
Lemma nf_keeps_fso i h : (forall g, fso_counts (h g) = fso_counts g) -> keeps R (upd_fso i h).
Proof. intros Hh. apply keeps_upd_fso. intros k f Hf. by eapply nf_fso. Qed.
Lemma nf_keeps_fnat i h : keeps R (upd_fnat i h).
Proof. by apply nf_keeps_fso. Qed.
Lemma nf_get_dev i : keeps R (get_dev i).
Proof. unfold get_dev. keeps. Qed.
Lemma nf_get_nat i : keeps R (get_nat i).
Proof. unfold get_nat. keeps. Qed.

Hint Resolve nf_keeps_blk nf_keeps_nat nf_keeps_fnat nf_get_dev nf_get_nat : keeps.

Lemma nf_sync_bam i : keeps R (nat_sync_bam i).
Proof. unfold nat_sync_bam. keeps. Qed.
Hint Resolve nf_sync_bam : keeps.
Lemma nf_switch_bam i nr : keeps R (nat_switch_bam i nr).
Proof. unfold nat_switch_bam. keeps. Qed.
Hint Resolve nf_switch_bam : keeps.
Lemma nf_bfree i nr : keeps R (nat_bfree i nr).
Proof. unfold nat_bfree, nat_write_bam. keeps. Qed.
Hint Resolve nf_bfree : keeps.

Lemma nf_trunc_entries sub fsi bb n err :
  (forall e, keeps R (sub e)) -> keeps R (trunc_entries sub fsi bb n err).
Proof. intros Hs. revert err. induction n as [|n IH]; intros err; cbn [trunc_entries]; keeps. Qed.
Lemma nf_trunc_indir fsi indl bn : keeps R (nat_trunc_indir fsi indl bn).
Proof.
  revert bn. induction indl as [|indl IH]; intros bn; cbn [nat_trunc_indir]; keeps; apply nf_trunc_entries; [intros e; keeps|done].
Qed.
Hint Resolve nf_trunc_indir : keeps.
Lemma nf_trunc_loop i n : keeps R (trunc_loop i n).
Proof. induction n as [|n IH]; cbn [trunc_loop]; keeps. Qed.
Hint Resolve nf_trunc_loop : keeps.
Lemma nf_trunc i : keeps R (nat_trunc i).
Proof. unfold nat_trunc. keeps. by apply nf_keeps_fso. Qed.
Hint Resolve nf_trunc : keeps.
Lemma nf_syncfso i : keeps R (nat_syncfso i).
Proof. unfold nat_syncfso. keeps. by apply nf_keeps_fso. Qed.
Hint Resolve nf_syncfso : keeps.
Lemma nf_putfso i : keeps R (nat_putfso i).
Proof. unfold nat_putfso. keeps. Qed.
Lemma nf_mount i : keeps R (nat_mount i).
Proof. unfold nat_mount. keeps. Qed.
Lemma nf_umount i : keeps R (nat_umount i).
Proof. unfold nat_umount. keeps. Qed.
End frame.

Lemma same_mounts_frame : nat_frame same_mounts.
Proof.
  split; [apply _|done| |done]. intros k i f n Hf. split; [|done]. by apply same_table_upd with (f := f).
Qed.
Lemma fso_frame_frame : nat_frame fso_frame.
Proof.
  split; [apply _|done|done|]. intros k i f g Hf Hg. split; [done|]. intros j. cbn.
  destruct (decide (j = i)) as [->|]; [rewrite lookup_insert_eq, Hf; cbn; by rewrite Hg|by rewrite lookup_insert_ne].
Qed.

Lemma keeps_on_type {A} R `{!PreOrder R} t (n p : M (kern S) A) : keeps R n -> keeps R p -> keeps R (on_type t n p).
Proof. intros Hn Hp. unfold on_type. keeps. Qed.

#[export] Instance nat_names_ok : FsNamesOk S.
Proof.
  split; intros t i; cbn; apply keeps_on_type; try apply _; try (apply keeps_fail; apply _).
  - apply nf_mount, same_mounts_frame.
  - apply nf_umount, same_mounts_frame.
Qed.

#[export] Instance nat_low_ok : FsLowOk S.
Proof.
  split. intros t i. cbn. apply keeps_on_type; [apply _|apply nf_putfso, fso_frame_frame|].
  unfold pipe_putfso, upd_pipe. by apply upd_fso_frame.
Qed.
End names.

(** * Devices *)

Section devices.
Context {D : Type} `{BlockDriver D}.

#[export] Instance cache_devices : BlockDevices (cache D) := {
  bd_name d c := d_name <$> (bdevs c !! d);
  bd_find := blk_find;
  bd_open := blk_open;
  bd_close := blk_close;
  bd_flush d := blk_syncdev d (Z.lor SYNC_WRITE SYNC_INVALIDATE);
}.

Lemma find_slot_some (p : option nat -> bool) l i : find_slot p l = Some i -> exists x, l !! i = Some x /\ p x = true.
Proof.
  unfold find_slot. intros E. apply fmap_Some in E as ([j x] & Hl & ->). apply list_find_Some in Hl as (Hx & Hp & _).
  by exists x.
Qed.

#[export] Instance cache_devices_ok : BlockDevicesOk (cache D).
Proof.
  split. intros n c. cbn. unfold blk_find. apply wlp_bind, wlp_gets. unfold id.
  destruct (find_slot _ _) as [i|] eqn:E; [|by apply wlp_fail].
  apply find_slot_some in E as (x & Hx & Hn). rewrite Hx. destruct x as [d|]; [|done]. apply wlp_ret. split; [done|].
  unfold dev_named in Hn. destruct (bdevs c !! d) as [o|]; [|done]. apply bool_decide_eq_true in Hn. cbn. by rewrite Hn.
Qed.
End devices.
