(* ===== verification/FsSys.v ===== *)
(** The file system calls (kern/fs/syscall.c; sys_pipe of kern/fs/pipe.c; nat_ioctl of
    kern/fs/nat/main.c) over the file tables of Fdesc.v.

    What a call gets from user memory is an argument: a string is [inr] with its
    characters or [inl] with the error of [usa], and the results of [uga] and [tucpy]
    are error codes.  [uerr (err); return -1;] is the error [err]; the number a call
    returns has the width of its type.  A call that waits ends there, and [rw_end] is
    what [sys__read] and [sys__write] do when the operation of the file has ended.
    [sys__poll] is in Poll.v. *)

From S2P Require Import Prelude BlockDev BlockIface BlockCache NatBam NatBamOk NatBmap NatTree NatBmapOk Kern Frame Vfs VfsOk Pipe NatRw NatRwOk NatWriteOk NatFile NatFso NatMount NatDir FsPath FsMount FsMisc Fdesc FdescOk NatType.

(** The entry points of [struct fstype] on the data of a file.  [ft_readdir] gives
    nothing when it returns 0 without an entry; [ft_ioctl] gets what the argument
    points to or the error of reading it, and the error of storing the result. *)
Class FsData (S : Type) := {
  ft_read : nat -> nat -> bool -> Z -> Z -> M (kern S) (progress (list Z));
  ft_write : nat -> nat -> bool -> Z -> list Z -> M (kern S) (progress Z);
  ft_trunc : nat -> nat -> M (kern S) unit;
  ft_readdir : nat -> nat -> Z -> M (kern S) (option (Z * list Z));
  ft_ioctl : nat -> nat -> Z -> (Z + list Z) -> Z -> M (kern S) (list Z);
  ft_statfs : nat -> nat -> M (kern S) (Z * Z);
  ft_ttyname : nat -> option (nat -> M (kern S) (list Z));
}.
(** The place of a device in [blk_dev]. *)
Class DevTable (S : Type) := { dt_slot : nat -> S -> option nat }.

Definition O_TRUNC : Z := 0x200.
Definition O_APPEND : Z := 0x400.
Definition O_NONBLOCK : Z := 0x1000.
Definition O_NDELAY : Z := O_NONBLOCK.
Definition F_GETFD : Z := 1.
Definition F_SETFD : Z := 2.
Definition F_DUPFD : Z := 3.
Definition F_GETFL : Z := 4.
Definition F_SETFL : Z := 5.
Definition SEEK_SET : Z := 0.
Definition SEEK_CUR : Z := 1.
Definition SEEK_END : Z := 2.
Definition S_ISUID : Z := 0x800.
Definition S_ISGID : Z := 0x400.
Definition FIOCBMAP : Z := 0xff01.
Definition FIOCXSTAT : Z := 0xff02.
Definition MTAB_SIZE : Z := 256 + 2 * 64 + 8.
Definition makedev (maj min : Z) : Z := Z.lor (u32 (Z.shiftl maj 16)) (u32 min).
(** [pipe_fs] is not in the table [fs_fs]; its place here is behind it. *)
Definition PIPE_FS : nat := FS_MAXFS.

(** [struct stat], [struct fxstat] and [struct _mtab]. *)
Record stat := Stat {
  st_ino : Z; st_dev : Z; st_rdev : Z; st_mode : Z; st_nlink : Z; st_uid : Z; st_gid : Z;
  st_size : Z; st_blksize : Z; st_blocks : Z; st_atime : Z; st_ctime : Z; st_mtime : Z
}.
Record fxstat := Fxstat { x_refcnt : Z; x_state : Z }.
Record mtab := Mtab { m_prefix : list Z; m_device : string; m_fstype : list Z; m_flags : Z; m_mounted : bool }.

Definition set_fl_offset (v : Z) (f : fs_file) : fs_file := FsFile (fl_refcnt f) (fl_fso f) v (fl_omode f).
Definition set_tty (v : list Z) (t : task) : task :=
  Task (ruid t) (rgid t) (euid t) (egid t) (cwd t) v (slot t) (signal_pending t) (unseen_events t) (stopped t).
Definition ndelay (f : fs_file) : bool := negb (Z.land (fl_omode f) O_NDELAY =? 0).

Section ops.
Context {S : Type} `{FsLow S, FsNames S, BlockDevices S, FsData S, DevTable S}.
Implicit Types (p : proc S).

Definition from_user {A} (s : Z + A) : M (proc S) A := match s with inl e => fail e | inr a => ret a end.
Definition user_ok (e : Z) : M (proc S) unit := if e =? 0 then ret tt else fail e.
Definition curr_task : M (proc S) task := gets (fun p => k_curr (p_kern p)).
Definition drop_fso (j : nat) : M (proc S) unit := _ <~ status (kern_ (fs_putfso (Some j)));; ret tt.

(** [curr->file_desc[fd].file] and its file object, of a descriptor that was checked. *)
Definition desc_file (fd : Z) : M (proc S) nat :=
  row <~ curr_desc;; d <~ deref (row !! Z.to_nat (u32 fd));; deref (d_file d).
Definition desc_fso (fd : Z) : M (proc S) nat := i <~ desc_file fd;; f <~ get_file i;; deref (fl_fso f).
Definition fso_type (j : nat) : M (kern S) nat := g <~ get_fso j;; f <~ get_fs (f_fs g);; deref (type f).

(** * Names *)

Definition sys_getcwd (len copied : Z) : M (proc S) (list Z) :=
  c <~ curr_task;;
  if len <=? Z.of_nat (length (cwd c)) then fail ENAMETOOLONG
  else user_ok copied;;; ret (cwd c).

Definition sys__chdir (path : Z + list Z) (flags : Z) : M (proc S) unit :=
  path <~ from_user path;;
  kern_ (fs_chdir path);;;
  kern_ (modify (fun k => with_tasks (alter (fmap (fun t => (t.1, negb (flags =? 0)))) (slot (k_curr k)) (k_tasks k)) k)).

Definition sys__mkdir (path : Z + list Z) (mode : Z) : M (proc S) unit :=
  path <~ from_user path;; kern_ (fs_mkdir path mode).
Definition sys_rmdir (path : Z + list Z) : M (proc S) unit :=
  path <~ from_user path;; kern_ (fs_rmdir path).
Definition sys_access (path : Z + list Z) (mode : Z) : M (proc S) unit :=
  path <~ from_user path;; kern_ (fs_access path mode).
Definition sys__mknod (path : Z + list Z) (mode rdev : Z) : M (proc S) unit :=
  path <~ from_user path;; j <~ kern_ (fs_creat path mode rdev);; drop_fso j.
Definition sys_unlink (path : Z + list Z) : M (proc S) unit :=
  path <~ from_user path;; kern_ (fs_unlink path).
Definition sys_link (oldname newname : Z + list Z) : M (proc S) unit :=
  oldname <~ from_user oldname;; newname <~ from_user newname;; kern_ (fs_link oldname newname).
Definition sys_rename (oldname newname : Z + list Z) : M (proc S) unit :=
  oldname <~ from_user oldname;; newname <~ from_user newname;; kern_ (fs_rename oldname newname).
Definition sys_revoke (path : Z + list Z) : M (proc S) unit :=
  path <~ from_user path;; fs_revoke path.

(** * Open files *)

(** The [switch (mode & 7)] of [sys__open]. *)
Definition open_perm (j : nat) (mode : Z) : M (proc S) unit :=
  c <~ curr_task;;
  let m := Z.land mode 7 in
  if m =? O_RDONLY then kern_ (fs_chk_perm j R_OK (euid c) (egid c))
  else if m =? O_WRONLY then kern_ (fs_chk_perm j W_OK (euid c) (egid c))
  else if m =? O_RDWR then kern_ (fs_chk_perm j (Z.lor R_OK W_OK) (euid c) (egid c))
  else if m =? O_NOIO then ret tt
  else fail EINVAL.
Definition open_trunc (j : nat) (mode : Z) : M (proc S) unit :=
  if negb (Z.land mode O_TRUNC =? 0) then
    c <~ curr_task;;
    kern_ (fs_chk_perm j W_OK (euid c) (egid c));;;
    kern_ (t <~ fso_type j;; ft_trunc t j)
  else ret tt.
(** The file object is released when [m] fails. *)
Definition or_drop {A} (j : nat) (m : M (proc S) A) : M (proc S) A :=
  r <~ attempt m;; match r with inl e => drop_fso j;;; fail e | inr a => ret a end.
Definition sys__open (path : Z + list Z) (mode : Z) : M (proc S) Z :=
  path <~ from_user path;;
  j <~ kern_ (fs_lookup path);;
  or_drop j (open_perm j mode);;;
  or_drop j (open_trunc j mode);;;
  i <~ or_drop j (fs_getfile (Some j) mode);;
  r <~ attempt (fs_getfd i);;
  match r with
  | inl e => status (fs_putfile i);;; fail e
  | inr fd => ret (Z.of_nat fd)
  end.

Definition sys_close (fd : Z) : M (proc S) unit := fs_putfd (u32 fd).

(** The end of [sys__read] and [sys__write]: [count] is [rq.count]. *)
Definition rw_end (fd count : Z) : M (proc S) Z :=
  i <~ desc_file fd;;
  f <~ get_file i;;
  j <~ deref (fl_fso f);;
  g <~ kern_ (get_fso j);;
  (if no_seek g then ret tt else upd_file i (fun f => set_fl_offset (u64 (fl_offset f + count)) f));;;
  ret (s32 count).
Definition sys__read (fd checked cnt : Z) : M (proc S) (progress (Z * list Z)) :=
  fs_fdaccess (u32 fd) R_OK;;;
  user_ok checked;;;
  i <~ desc_file fd;;
  f <~ get_file i;;
  j <~ deref (fl_fso f);;
  r <~ kern_ (t <~ fso_type j;; ft_read t j (ndelay f) (fl_offset f) cnt);;
  match r with
  | Done data => n <~ rw_end fd (Z.of_nat (length data));; ret (Done (n, data))
  | Wait => ret Wait
  end.
Definition sys__write (fd checked : Z) (buf : list Z) : M (proc S) (progress Z) :=
  fs_fdaccess (u32 fd) W_OK;;;
  user_ok checked;;;
  i <~ desc_file fd;;
  f <~ get_file i;;
  j <~ deref (fl_fso f);;
  g <~ kern_ (get_fso j);;
  let off := if negb (Z.land (fl_omode f) O_APPEND =? 0) then size g else fl_offset f in
  r <~ kern_ (t <~ fso_type j;; ft_write t j (ndelay f) off buf);;
  match r with
  | Done n => n <~ rw_end fd n;; ret (Done n)
  | Wait => ret Wait
  end.

Definition sys_lseek (fd off mode : Z) : M (proc S) Z :=
  fs_fdaccess (u32 fd) 0;;;
  i <~ desc_file fd;;
  f <~ get_file i;;
  j <~ deref (fl_fso f);;
  g <~ kern_ (get_fso j);;
  if no_seek g then fail ESPIPE
  else
    v <~ (if mode =? SEEK_SET then ret (u64 off)
          else if mode =? SEEK_CUR then ret (u64 (fl_offset f + off))
          else if mode =? SEEK_END then ret (u64 (size g + off))
          else fail EINVAL);;
    upd_file i (set_fl_offset v);;;
    ret (s64 v).

(** F_DUPFD: the first descriptor from [arg] on that is not in use; a negative [arg]
    leads in front of the array. *)
Definition dup_fd (i : nat) (arg : Z) : M (proc S) Z :=
  if s32 arg <? 0 then halted Undefined
  else
    row <~ curr_desc;;
    match find_at (fun d => bool_decide (d_file d = None)) (drop (Z.to_nat (s32 arg)) row) (Z.to_nat (s32 arg)) with
    | None => fail EMFILE
    | Some n =>
      d <~ deref (row !! n);;
      put_desc n (FsDesc (Some i) (close_on_exec d));;;
      upd_file i (fun f => set_fl_refcnt (fl_refcnt f + 1) f);;;
      ret (Z.of_nat n)
    end.
Definition FL_MASK : Z := Z.lor O_APPEND O_NONBLOCK.
Definition sys_fcntl (fd cmd arg : Z) : M (proc S) Z :=
  fs_fdaccess (u32 fd) 0;;;
  row <~ curr_desc;;
  d <~ deref (row !! Z.to_nat (u32 fd));;
  i <~ deref (d_file d);;
  if cmd =? F_GETFD then ret (close_on_exec d)
  else if cmd =? F_SETFD then put_desc (Z.to_nat (u32 fd)) (FsDesc (Some i) (s32 arg));;; ret 0
  else if cmd =? F_DUPFD then dup_fd i arg
  else if cmd =? F_GETFL then f <~ get_file i;; ret (fl_omode f)
  else if cmd =? F_SETFL then
    upd_file i (fun f => set_fl_omode (Z.lor (Z.land (fl_omode f) (Z.lnot FL_MASK)) (Z.land arg FL_MASK)) f);;; ret 0
  else fail EINVAL.

Definition sys_fstat (fd checked : Z) : M (proc S) stat :=
  fs_fdaccess (u32 fd) 0;;;
  user_ok checked;;;
  j <~ desc_fso fd;;
  g <~ kern_ (get_fso j);;
  f <~ kern_ (get_fs (f_fs g));;
  dv <~ gets (fun p => match dev f with
                       | Some d => match dt_slot d (k_blk (p_kern p)) with Some i => makedev 1 (Z.of_nat i + 9) | None => 0 end
                       | None => 0
                       end);;
  ret (Stat (index g) dv (rdev g) (mode g) (nlink g) (uid g) (gid g) (size g) BLK_SIZE (blocks g) (atime g) (ctime g) (mtime g)).

Definition sys_fchmod (fd md : Z) : M (proc S) unit :=
  fs_fdaccess (u32 fd) 0;;;
  j <~ desc_fso fd;;
  g <~ kern_ (get_fso j);;
  f <~ kern_ (get_fs (f_fs g));;
  c <~ curr_task;;
  if negb (insecure f) && negb (euid c =? 0) && negb (uid g =? euid c) then fail EACCES
  else if read_only f then fail EROFS
  else
    t <~ gets (fun p => k_time (p_kern p));;
    kern_ (upd_fso j (fun g => set_dirty true (set_ctime t (set_mode (Z.lor (Z.land (mode g) (Z.lnot S_IRIGHTS)) (Z.land md S_IRIGHTS)) g)))).
Definition sys_fchown (fd u gi : Z) : M (proc S) unit :=
  fs_fdaccess (u32 fd) 0;;;
  j <~ desc_fso fd;;
  g <~ kern_ (get_fso j);;
  f <~ kern_ (get_fs (f_fs g));;
  c <~ curr_task;;
  if negb (euid c =? 0) then fail EACCES
  else if read_only f then fail EROFS
  else
    t <~ gets (fun p => k_time (p_kern p));;
    kern_ (upd_fso j (fun g => set_dirty true (set_ctime t (set_owner u gi (set_mode (Z.land (mode g) (Z.lnot (Z.lor S_ISUID S_ISGID))) g))))).

Definition sys_ttyname_r (fd maxlen copied : Z) : M (proc S) (list Z) :=
  fs_fdaccess (u32 fd) 0;;;
  j <~ desc_fso fd;;
  t <~ kern_ (fso_type j);;
  match ft_ttyname t with
  | None => fail ENOTTY
  | Some ttyname =>
    s <~ kern_ (ttyname j);;
    if maxlen <? Z.of_nat (length s) + 1 then fail ENOMEM
    else user_ok copied;;; ret s
  end.

(** [de->d_ino] and [de->d_name].  An entry that the file system did not fill in is
    what was on the stack. *)
Definition sys__readdir (fd checked idx : Z) : M (proc S) (Z * option (list Z)) :=
  fs_fdaccess (u32 fd) R_OK;;;
  user_ok checked;;;
  j <~ desc_fso fd;;
  g <~ kern_ (get_fso j);;
  if negb (S_ISDIR (mode g)) then fail ENOTDIR
  else
    r <~ kern_ (t <~ fso_type j;; ft_readdir t j idx);;
    match r with
    | None => halted Undefined
    | Some (ino, name) => ret (ino, if ino =? 0 then None else Some name)
    end.

(** FIOCXSTAT gives the error as the result of the call. *)
Definition sys_ioctl (fd cmd : Z) (arg : Z + list Z) (copied : Z) : M (proc S) (Z * (fxstat + list Z)) :=
  fs_fdaccess (u32 fd) 0;;;
  j <~ desc_fso fd;;
  if cmd =? FIOCXSTAT then
    c <~ curr_task;;
    if negb (euid c =? 0) then ret (EPERM, inr [])
    else g <~ kern_ (get_fso j);; user_ok copied;;; ret (0, inl (Fxstat (refcnt g) (state g)))
  else
    b <~ kern_ (t <~ fso_type j;; ft_ioctl t j cmd arg copied);;
    ret (0, inr b).

(** * File systems *)

Definition sys__mount (pfx : Z + list Z) (dev : Z + string) (type : Z + list Z) (ro : Z) : M (proc S) unit :=
  pfx <~ from_user pfx;; dev <~ from_user dev;; type <~ from_user type;; kern_ (fs_mount pfx dev type ro).
Definition sys__umount (pfx : Z + list Z) : M (proc S) unit :=
  pfx <~ from_user pfx;; kern_ (fs_umount pfx).
Definition sys__statfs (path : Z + list Z) (copied : Z) : M (proc S) (Z * Z) :=
  path <~ from_user path;;
  j <~ kern_ (fs_lookup path);;
  r <~ attempt (kern_ (g <~ get_fso j;; t <~ fso_type j;; ft_statfs t (f_fs g)));;
  drop_fso j;;;
  match r with
  | inl e => fail e
  | inr st => user_ok copied;;; ret st
  end.

Definition mtab_of (f : fs) : M (proc S) mtab :=
  if in_use f then
    dn <~ gets (fun p => match dev f with Some d => bd_name d (k_blk (p_kern p)) | None => Some nodev end);;
    dn <~ deref dn;;
    t <~ deref (type f);;
    ret (Mtab (prefix f) dn (ft_name t)
      (Z.lor (if read_only f then 1 else 0) (Z.lor (if no_atime f then 2 else 0)
        (Z.lor (if removable f then 4 else 0) (if insecure f then 8 else 0)))) true)
  else ret (Mtab [] EmptyString [] 0 false).
(** [copied]: the result of [tucpy] for each entry. *)
Fixpoint mtab_loop (n i : nat) (copied : nat -> Z) : M (proc S) (list mtab) :=
  match n with
  | O => ret []
  | Datatypes.S n' =>
    f <~ kern_ (get_fs i);;
    m <~ mtab_of f;;
    user_ok (copied i);;;
    l <~ mtab_loop n' (Datatypes.S i) copied;;
    ret (m :: l)
  end.
Definition sys__mtab (len : Z) (copied : nat -> Z) : M (proc S) (list mtab) :=
  if u64 len <? MTAB_SIZE * Z.of_nat FS_MAXFS then fail EINVAL
  else mtab_loop FS_MAXFS 0 copied.

Definition sys__ctty (path : Z + list Z) : M (proc S) unit :=
  path <~ from_user path;;
  kern_ (modify (fun k => with_curr (set_tty path (k_curr k)) k)).

Fixpoint active_count (n i : nat) : M (kern S) Z :=
  match n with
  | O => ret 0
  | Datatypes.S n' =>
    f <~ get_fs i;;
    c <~ active_count n' (Datatypes.S i);;
    ret (if in_use f && removable f && active f then c + 1 else c)
  end.
Definition sys__rfsactive : M (proc S) Z := kern_ (active_count FS_MAXFS 0).

(** * Pipes *)

(** The two descriptors; [copied] is the result of [tucpy]. *)
Definition sys_pipe (copied : Z) : M (proc S) (Z * Z) :=
  j <~ kern_ (fs_getfso PIPE_FS INO_NONE);;
  kern_ (upd_fso j (fun g => set_refcnt (refcnt g + 1) g));;;
  r0 <~ attempt (fs_getfile (Some j) O_RDONLY);;
  match r0 with
  | inl e => drop_fso j;;; drop_fso j;;; fail e
  | inr file0 =>
    r1 <~ attempt (fs_getfile (Some j) O_WRONLY);;
    match r1 with
    | inl e => status (fs_putfile file0);;; drop_fso j;;; fail e
    | inr file1 =>
      d0 <~ attempt (fs_getfd file0);;
      match d0 with
      | inl e => status (fs_putfile file0);;; status (fs_putfile file1);;; fail e
      | inr fd0 =>
        d1 <~ attempt (fs_getfd file1);;
        match d1 with
        | inl e => status (fs_putfd (Z.of_nat fd0));;; status (fs_putfile file1);;; fail e
        | inr fd1 =>
          if copied =? 0 then ret (Z.of_nat fd0, Z.of_nat fd1)
          else status (fs_putfd (Z.of_nat fd0));;; status (fs_putfd (Z.of_nat fd1));;; fail copied
        end
      end
    end
  end.
End ops.

(** * natfs and pipes *)

Section natfs.
Context {S : Type} `{BlockLayer S}.

Definition nat_ioctl (i : nat) (cmd : Z) (arg : Z + list Z) (copied : Z) : M (kern S) (list Z) :=
  if negb (cmd =? FIOCBMAP) then fail ENOTTY
  else
    c <~ gets k_curr;;
    fs_chk_perm i R_OK (euid c) (egid c);;;
    b <~ match arg with inl e => fail e | inr b => ret (get32 b 0) end;;
    nat_bmap i b false;;;
    g <~ get_fso i;;
    if copied =? 0 then ret (le32 (bmap_phys (fnat g))) else fail copied.

(** A pipe has no directory and is not truncated; the bytes a write has left are not
    counted. *)
#[export] Instance nat_data : FsData S := {
  ft_read t i nd off n := on_type t (d <~ nat_read i off n;; ret (Done d)) (pipe_read i n nd);
  ft_write t i nd off buf := on_type t (nat_write i off buf;;; ret (Done (Z.of_nat (length buf))))
    (r <~ pipe_write i buf nd;;
     match r.2 with Done _ => ret (Done (Z.of_nat (length buf) - Z.of_nat (length r.1))) | Wait => ret Wait end);
  ft_trunc t i := on_type t (nat_trunc i) (fail ENOSYS);
  ft_readdir t i idx := on_type t (nat_readdir i idx) (fail ENOSYS);
  ft_ioctl t i cmd arg copied := on_type t (nat_ioctl i cmd arg copied) (fail ENOTTY);
  ft_statfs t i := on_type t (nat_statfs i) (ret (0, 0));
  ft_ttyname t := None;
}.
End natfs.
#[export] Instance cache_dev_table {D} : DevTable (cache D) := { dt_slot d c := find_slot (fun o => bool_decide (o = Some d)) (blk_dev c) }.

(** * The open files are counted *)

(** The references that a call in progress holds: one for each element of [l]. *)
Definition held (l : list nat) (j : nat) : Z := zcount (Nat.eqb j) l.

Section counted.
Context {S : Type} `{FsLow S, FsNames S, BlockDevices S, FsData S, DevTable S, !FsLowOk S}.
Implicit Types (p : proc S) (l : list nat).

Definition hold l p : Prop := refs_ok (held l) p /\ Forall (fun i => (i < length (p_file p))%nat) l.
Lemma held_nonneg l j : 0 <= held l j.
Proof. apply zcount_nonneg. Qed.
Lemma hold_perm l l' p : l ≡ₚ l' -> hold l p -> hold l' p.
Proof.
  intros Hl [Hr Hf]. split; [|by rewrite <- Hl]. eapply refs_ok_ext; [|done]. intros j. unfold held. clear -Hl. induction Hl; cbn; lia.
Qed.
Lemma held_cons i l j : held (i :: l) j = plus (held l) i 1 j.
Proof. unfold held, plus. cbn. destruct (Nat.eqb_spec j i) as [->|]; cbn; lia. Qed.
Lemma held_drop i l j : plus (held (i :: l)) i (-1) j = held l j.
Proof. unfold plus. rewrite held_cons. unfold plus. destruct (j =? i)%nat; lia. Qed.

(** ** The table keeps its size *)

Definition same_len p p' : Prop := length (p_file p') = length (p_file p).
#[local] Instance same_len_pre : PreOrder same_len.
Proof. split; [done|]. intros p1 p2 p3 E1 E2. unfold same_len in *. lia. Qed.
Lemma len_kern {A} (m : M (kern S) A) : keeps same_len (kern_ m).
Proof. intros p. apply wlp_kern. unfold wlp. by destruct (m (p_kern p)). Qed.
Lemma len_upd_file i h : keeps same_len (upd_file i h).
Proof. intros p. apply wlp_upd_file. intros f _. unfold same_len. cbn. by rewrite length_insert. Qed.
Lemma len_put_desc fd d : keeps same_len (put_desc fd d).
Proof. intros p. by apply wlp_put_desc. Qed.
#[local] Hint Resolve len_kern len_upd_file len_put_desc : keeps.
Lemma len_getfile o m : keeps same_len (fs_getfile o m).
Proof. unfold fs_getfile. keeps. Qed.
Lemma len_putfile i : keeps same_len (fs_putfile i).
Proof. unfold fs_putfile, get_file, panic. keeps. Qed.
#[local] Hint Resolve len_putfile : keeps.
Lemma len_getfd i : keeps same_len (fs_getfd i).
Proof. unfold fs_getfd, curr_desc. keeps. Qed.
Lemma len_putfd fd : keeps same_len (fs_putfd fd).
Proof. unfold fs_putfd, fd_file, curr_desc. keeps. Qed.

Lemma wlp_both {A} (m : M (proc S) A) Q E R p : wlp m Q E p -> keeps R m -> wlp m (fun a p' => Q a p' /\ R p p') (fun e p' => E e p' /\ R p p') p.
Proof. unfold wlp. intros Hm Hk. specialize (Hk p). unfold wlp in Hk. by destruct (m p). Qed.

(** ** Steps of a call *)

Lemma hold_kern {A} (m : M (kern S) A) l p : hold l p -> wlp (kern_ m) (fun _ => hold l) (fun _ => hold l) p.
Proof. intros [Hr Hf]. apply wlp_kern. unfold wlp. destruct (m (p_kern p)); [by split; [apply refs_ok_kern|]..|done]. Qed.
Lemma hold_getfile o m l p : hold l p -> wlp (fs_getfile o m) (fun i => hold (i :: l)) (fun _ => hold l) p.
Proof.
  intros [Hr Hf]. assert (Hb : wlp (fs_getfile o m) (fun i p' => (i < length (p_file p'))%nat) (fun _ _ => True) p).
  { unfold fs_getfile. apply wlp_bind, wlp_gets. destruct (find_at _ _ 0) as [i|] eqn:E; [|by apply wlp_fail]. apply find_at_some in E as (f & Hi & _). rewrite Nat.sub_0_r in Hi. apply lookup_lt_Some in Hi.
    apply wlp_bind, wlp_upd_file. intros f' _. apply wlp_bind. destruct o; [apply wlp_kern, wlp_upd_fso; intros g _|apply wlp_ret]; apply wlp_ret; cbn; by rewrite length_insert. }
  pose proof (wlp_both _ _ _ _ _ (fs_getfile_refs o m (held l) p Hr (held_nonneg l)) (len_getfile o m)) as W. unfold wlp in *. destruct (fs_getfile o m p) as [i p'|e p'|]; [|by destruct W as [[-> _] _]|done].
  destruct W as [(Hr' & _) Hl]. split; [eapply refs_ok_ext; [|done]; intros j; symmetry; apply held_cons|]. constructor; [done|]. unfold same_len in Hl. by rewrite Hl.
Qed.
Lemma hold_putfile i l p : hold (i :: l) p -> wlp (status (fs_putfile i)) (fun _ => hold l) (fun _ _ => False) p.
Proof.
  intros [Hr Hf]. inversion_clear Hf as [|? ? _ Hf']. apply wlp_status. assert (Hd : forall p', refs_ok (plus (held (i :: l)) i (-1)) p' /\ p_desc p' = p_desc p /\ cur p' = cur p /\ length (p_file p') = length (p_file p) -> hold l p').
  { intros p' (Hr' & _ & _ & Hl). split; [eapply refs_ok_ext; [|done]; apply held_drop|by rewrite Hl]. }
  eapply wlp_mono; [by apply fs_putfile_refs|intros [] p'; apply Hd|intros e p'; apply Hd].
Qed.
Lemma hold_getfd i l p : hold (i :: l) p -> wlp (fs_getfd i) (fun _ => hold l) (fun _ => hold (i :: l)) p.
Proof.
  intros [Hr Hf]. pose proof (Forall_inv Hf) as Hi. pose proof (wlp_both _ _ _ _ _ (fs_getfd_refs i (held (i :: l)) p Hr Hi) (len_getfd i)) as W. unfold wlp in *.
  destruct (fs_getfd i p) as [fd p'|e p'|]; [|by destruct W as [[-> _] _]|done]. destruct W as [Hr' Hl]. unfold same_len in Hl. split; [eapply refs_ok_ext; [|done]; apply held_drop|]. rewrite Hl. by apply Forall_inv_tail in Hf.
Qed.
Lemma hold_putfd fd l p : hold l p -> wlp (fs_putfd fd) (fun _ => hold l) (fun _ => hold l) p.
Proof.
  intros [Hr Hf]. eapply wlp_mono; [apply (wlp_both _ _ _ _ _ (fs_putfd_refs fd (held l) p Hr) (len_putfd fd))| |]; cbv beta.
  - intros [] p' [[Hr' _] Hl]. unfold same_len in Hl. split; [done|by rewrite Hl].
  - intros e p' [[-> _] _]. done.
Qed.

(** ** Whole calls *)

Definition stays p p' : Prop := hold [] p -> hold [] p'.
#[local] Instance stays_pre : PreOrder stays.
Proof. split; [by intros p Hp|]. intros p1 p2 p3 H1' H2' Hp. auto. Qed.
Lemma wlp_stays {A} (m : M (proc S) A) : (forall p, hold [] p -> wlp m (fun _ => hold []) (fun _ => hold []) p) -> keeps stays m.
Proof. intros Hm p. specialize (Hm p). unfold wlp, stays in *. destruct (m p); auto. Qed.
Lemma stays_wlp {A} (m : M (proc S) A) p : keeps stays m -> hold [] p -> wlp m (fun _ => hold []) (fun _ => hold []) p.
Proof. intros Hm Hp. specialize (Hm p). unfold wlp, stays in *. destruct (m p); auto. Qed.
Lemma stays_kern {A} (m : M (kern S) A) : keeps stays (kern_ m).
Proof. apply wlp_stays. intros p Hp. by apply hold_kern. Qed.
Lemma stays_upd_file i h : (forall f, fl_refcnt (h f) = fl_refcnt f) -> keeps stays (upd_file i h).
Proof.
  intros Hh. apply wlp_stays. intros p [Hr _]. apply wlp_upd_file. intros f Hf. split; [|done].
  eapply (refs_ok_ext (plus (held []) i 0)); [intros j; unfold plus; destruct (_ =? _)%nat; cbn; lia|]. eapply refs_ok_file; [done|done|]. rewrite Hh. lia.
Qed.
Lemma stays_putfd fd : keeps stays (fs_putfd fd).
Proof. apply wlp_stays. intros p Hp. by apply hold_putfd. Qed.
Lemma stays_revoke path : keeps stays (fs_revoke path).
Proof. apply wlp_stays. intros p [Hr _]. eapply wlp_mono; [by apply fs_revoke_refs|by split..]. Qed.
Lemma stays_get_file i : keeps stays (get_file i).
Proof. unfold get_file. keeps. Qed.
Lemma stays_curr_desc : keeps stays (curr_desc (S := S)).
Proof. unfold curr_desc. keeps. Qed.
#[local] Hint Resolve stays_kern stays_putfd stays_revoke stays_get_file stays_curr_desc : keeps.
Lemma stays_fdaccess fd m : keeps stays (fs_fdaccess fd m).
Proof. unfold fs_fdaccess, fd_file. keeps. Qed.
Lemma stays_desc_file fd : keeps stays (desc_file fd).
Proof. unfold desc_file. keeps. Qed.
Lemma stays_user_ok e : keeps stays (user_ok e).
Proof. unfold user_ok. keeps. Qed.
Lemma stays_from_user {A} (s : Z + A) : keeps stays (from_user s).
Proof. unfold from_user. keeps. Qed.
Lemma stays_drop_fso j : keeps stays (drop_fso j).
Proof. unfold drop_fso. keeps. Qed.
#[local] Hint Resolve stays_fdaccess stays_desc_file stays_user_ok stays_from_user stays_drop_fso : keeps.
Lemma stays_desc_fso fd : keeps stays (desc_fso fd).
Proof. unfold desc_fso. keeps. Qed.
Lemma stays_rw_end fd n : keeps stays (rw_end fd n).
Proof. unfold rw_end. keeps. by apply stays_upd_file. Qed.
#[local] Hint Resolve stays_desc_fso stays_rw_end : keeps.

(** A descriptor that keeps its file. *)
Lemma stays_put_same p row d fd i e : p_desc p !! cur p = Some row -> row !! fd = Some d -> d_file d = Some i -> hold [] p ->
  wlp (put_desc fd (FsDesc (Some i) e)) (fun _ => hold []) (fun _ => hold []) p.
Proof.
  intros Hrow Hd Hi [Hr _]. apply wlp_put_desc. intros row' Hrow'. rewrite Hrow in Hrow'. injection Hrow' as <-. split; [|done].
  eapply refs_ok_desc; [done|done|done| |].
  - intros j [= <-]. eapply ro_valid; [done| |done]. eapply elem_of_row; [done|]. by eapply list_elem_of_lookup_2.
  - intros j. unfold refers. rewrite Hi. cbn. lia.
Qed.
Lemma dup_ok i arg p row d fd : p_desc p !! cur p = Some row -> row !! fd = Some d -> d_file d = Some i -> hold [] p ->
  wlp (dup_fd i arg) (fun _ => hold []) (fun _ => hold []) p.
Proof.
  intros Hrow Hd Hi [Hr Hf]. unfold dup_fd. destruct (s32 arg <? 0); [done|]. apply wlp_bind, wlp_curr_desc. intros row' Hrow'. rewrite Hrow in Hrow'. injection Hrow' as <-.
  destruct (find_at _ _ _) as [n|] eqn:E; [|by apply wlp_fail]. apply wlp_bind, wlp_deref. intros d' Hd'. apply find_at_some in E as (x & Hx & Hn%bool_decide_eq_true & Hge).
  rewrite lookup_drop in Hx. replace (Z.to_nat (s32 arg) + (n - Z.to_nat (s32 arg)))%nat with n in Hx by lia. rewrite Hx in Hd'. injection Hd' as <-.
  apply wlp_bind, wlp_put_desc. intros row' Hrow'. rewrite Hrow in Hrow'. injection Hrow' as <-. apply wlp_bind, wlp_upd_file. cbn [p_file with_desc]. intros f Ef. apply wlp_ret. split; [|done].
  set (p1 := with_desc _ p). assert (Hr1 : refs_ok (plus (held []) i (-1)) p1).
  { eapply refs_ok_desc; [done|done|done|by intros j [= <-]; apply lookup_lt_Some in Ef|]. intros j. rewrite <- (plus_refers (held []) i (FsDesc (Some i) 0) j eq_refl). rewrite (refers_none j x Hn).
    assert (Hrf : refers j (FsDesc (Some i) (close_on_exec x)) = refers j (FsDesc (Some i) 0)) by done. rewrite Hrf. cbn [b2z]. lia. }
  eapply (refs_ok_ext (plus (plus (held []) i (-1)) i 1)); [intros j; unfold plus; destruct (j =? i)%nat; lia|]. by eapply (refs_ok_file _ p1 i f 1).
Qed.
Lemma stays_fcntl fd cmd arg : keeps stays (sys_fcntl fd cmd arg).
Proof.
  unfold sys_fcntl. apply keeps_bind; [apply _|apply stays_fdaccess|intros _]. apply wlp_stays. intros p Hp.
  apply wlp_bind, wlp_curr_desc. intros row Hrow. apply wlp_bind, wlp_deref. intros d Hd. apply wlp_bind, wlp_deref. intros i Hi.
  repeat case_match; try by apply wlp_ret + apply wlp_fail.
  - apply wlp_bind. eapply wlp_mono; [by eapply stays_put_same| |done]. cbv beta. intros _ p' Hp'. by apply wlp_ret.
  - by eapply dup_ok.
  - apply wlp_bind, wlp_get_file. intros f _. by apply wlp_ret.
  - apply wlp_bind. eapply wlp_mono; [apply stays_wlp; [by apply stays_upd_file|done]| |done]. cbv beta. intros _ p' Hp'. by apply wlp_ret.
Qed.

Lemma wlp_then {A B} (m : M (proc S) A) (h : A -> M (proc S) B) (Q : A -> proc S -> Prop) (E : Z -> proc S -> Prop) (R : B -> proc S -> Prop) F p :
  wlp m Q E p -> (forall a p', Q a p' -> wlp (h a) R F p') -> (forall e p', E e p' -> F e p') -> wlp (bind m h) R F p.
Proof. intros Hm Hh HE. apply wlp_bind. eapply wlp_mono; [exact Hm|exact Hh|exact HE]. Qed.
Lemma wlp_caught {A B} (m : M (proc S) A) (h : Z + A -> M (proc S) B) (Q : A -> proc S -> Prop) (E : Z -> proc S -> Prop) (R : B -> proc S -> Prop) F p :
  wlp m Q E p -> (forall a p', Q a p' -> wlp (h (inr a)) R F p') -> (forall e p', E e p' -> wlp (h (inl e)) R F p') -> wlp (bind (attempt m) h) R F p.
Proof. intros Hm Hh HE. apply wlp_bind, wlp_attempt. eapply wlp_mono; [exact Hm|exact Hh|exact HE]. Qed.

Lemma hold_drop_fso j l p : hold l p -> wlp (drop_fso j) (fun _ => hold l) (fun _ _ => False) p.
Proof. intros Hp. unfold drop_fso. apply wlp_bind, wlp_status. eapply wlp_mono; [by apply hold_kern| |]; intros ? p1 Hp1; by apply wlp_ret. Qed.
Lemma hold_putfd_st fd l p : hold l p -> wlp (status (fs_putfd fd)) (fun _ => hold l) (fun _ _ => False) p.
Proof. intros Hp. apply wlp_status. by apply hold_putfd. Qed.
Lemma stays_or_drop {A} j (m : M (proc S) A) : keeps stays m -> keeps stays (or_drop j m).
Proof. intros Hm. unfold or_drop. keeps. Qed.
(** The step [L] from the references held before it. *)
Ltac holds L := eapply L; cbv beta in *; eassumption.

Lemma stays_open path mode : keeps stays (sys__open path mode).
Proof.
  unfold sys__open. apply keeps_bind; [apply _|apply stays_from_user|intros n]. apply keeps_bind; [apply _|apply stays_kern|intros j].
  apply keeps_bind; [apply _|apply stays_or_drop; unfold open_perm, curr_task; keeps|intros _]. apply keeps_bind; [apply _|apply stays_or_drop; unfold open_trunc, curr_task; keeps|intros _].
  apply wlp_stays. intros p Hp. eapply (wlp_then _ _ (fun i => hold [i]) (fun _ => hold [])); [| |done].
  - unfold or_drop. eapply wlp_caught; [holds hold_getfile|intros i p1 Hi; apply wlp_ret; exact Hi|]. intros e p1 Hp1. eapply wlp_then; [holds hold_drop_fso| |intros ? ? []]. intros ? p2 Hp2. apply wlp_fail; exact Hp2.
  - intros i p1 Hi. eapply wlp_caught; [holds hold_getfd|intros fd p2 Hp2; apply wlp_ret; exact Hp2|]. intros e p2 Hp2. eapply wlp_then; [holds hold_putfile| |intros ? ? []]. intros ? p3 Hp3. apply wlp_fail; exact Hp3.
Qed.
Lemma stays_pipe copied : keeps stays (sys_pipe copied).
Proof.
  unfold sys_pipe. apply keeps_bind; [apply _|apply stays_kern|intros j]. apply keeps_bind; [apply _|apply stays_kern|intros _]. apply wlp_stays. intros p Hp.
  eapply wlp_caught; [holds hold_getfile| |].
  2: { intros e p1 Hp1. eapply wlp_then; [holds hold_drop_fso| |intros ? ? []]. intros ? p2 Hp2. eapply wlp_then; [holds hold_drop_fso| |intros ? ? []]. intros ? p3 Hp3. apply wlp_fail; exact Hp3. }
  intros f0 p1 Hp1. eapply wlp_caught; [holds hold_getfile| |].
  2: { intros e p2 Hp2. eapply wlp_then; [holds hold_putfile| |intros ? ? []]. intros ? p3 Hp3. eapply wlp_then; [holds hold_drop_fso| |intros ? ? []]. intros ? p4 Hp4. apply wlp_fail; exact Hp4. }
  intros f1 p2 Hp2. apply (hold_perm _ [f0; f1]) in Hp2; [|constructor]. eapply wlp_caught; [holds hold_getfd| |].
  2: { intros e p3 Hp3. eapply wlp_then; [holds hold_putfile| |]; [|intros ? ? []]. intros ? p4 Hp4. eapply wlp_then; [holds hold_putfile| |intros ? ? []]. intros ? p5 Hp5. apply wlp_fail; exact Hp5. }
  intros fd0 p3 Hp3. eapply wlp_caught; [holds hold_getfd| |].
  - intros fd1 p4 Hp4. destruct (copied =? 0); [by apply wlp_ret|]. eapply wlp_then; [holds hold_putfd_st| |intros ? ? []]. intros ? p5 Hp5. eapply wlp_then; [holds hold_putfd_st| |intros ? ? []]. intros ? p6 Hp6. apply wlp_fail; exact Hp6.
  - intros e p4 Hp4. eapply wlp_then; [holds hold_putfd_st| |]; [|intros ? ? []]. intros ? p5 Hp5. eapply wlp_then; [holds hold_putfile| |intros ? ? []]. intros ? p6 Hp6. apply wlp_fail; exact Hp6.
Qed.

(** ** Histories *)

Inductive call :=
| CGetcwd (len copied : Z)
| CChdir (path : Z + list Z) (flags : Z)
| CMkdir (path : Z + list Z) (mode : Z)
| CRmdir (path : Z + list Z)
| CAccess (path : Z + list Z) (mode : Z)
| CMknod (path : Z + list Z) (mode rdev : Z)
| CUnlink (path : Z + list Z)
| CLink (oldname newname : Z + list Z)
| CRename (oldname newname : Z + list Z)
| CRevoke (path : Z + list Z)
| COpen (path : Z + list Z) (mode : Z)
| CClose (fd : Z)
| CRead (fd checked cnt : Z)
| CWrite (fd checked : Z) (buf : list Z)
| CRwEnd (fd count : Z)
| CLseek (fd off mode : Z)
| CFcntl (fd cmd arg : Z)
| CFstat (fd checked : Z)
| CFchmod (fd mode : Z)
| CFchown (fd u g : Z)
| CTtyname (fd maxlen copied : Z)
| CReaddir (fd checked idx : Z)
| CIoctl (fd cmd : Z) (arg : Z + list Z) (copied : Z)
| CMount (pfx : Z + list Z) (dev : Z + string) (type : Z + list Z) (ro : Z)
| CUmount (pfx : Z + list Z)
| CStatfs (path : Z + list Z) (copied : Z)
| CMtab (len : Z) (copied : nat -> Z)
| CCtty (path : Z + list Z)
| CRfsactive
| CPipe (copied : Z).
Definition run_call (c : call) : M (proc S) unit :=
  match c with
  | CGetcwd len copied => sys_getcwd len copied;;; ret tt
  | CChdir path flags => sys__chdir path flags
  | CMkdir path mode => sys__mkdir path mode
  | CRmdir path => sys_rmdir path
  | CAccess path mode => sys_access path mode
  | CMknod path mode rdev => sys__mknod path mode rdev
  | CUnlink path => sys_unlink path
  | CLink oldname newname => sys_link oldname newname
  | CRename oldname newname => sys_rename oldname newname
  | CRevoke path => sys_revoke path
  | COpen path mode => sys__open path mode;;; ret tt
  | CClose fd => sys_close fd
  | CRead fd checked cnt => sys__read fd checked cnt;;; ret tt
  | CWrite fd checked buf => sys__write fd checked buf;;; ret tt
  | CRwEnd fd count => rw_end fd count;;; ret tt
  | CLseek fd off mode => sys_lseek fd off mode;;; ret tt
  | CFcntl fd cmd arg => sys_fcntl fd cmd arg;;; ret tt
  | CFstat fd checked => sys_fstat fd checked;;; ret tt
  | CFchmod fd mode => sys_fchmod fd mode
  | CFchown fd u g => sys_fchown fd u g
  | CTtyname fd maxlen copied => sys_ttyname_r fd maxlen copied;;; ret tt
  | CReaddir fd checked idx => sys__readdir fd checked idx;;; ret tt
  | CIoctl fd cmd arg copied => sys_ioctl fd cmd arg copied;;; ret tt
  | CMount pfx dev type ro => sys__mount pfx dev type ro
  | CUmount pfx => sys__umount pfx
  | CStatfs path copied => sys__statfs path copied;;; ret tt
  | CMtab len copied => sys__mtab len copied;;; ret tt
  | CCtty path => sys__ctty path
  | CRfsactive => sys__rfsactive;;; ret tt
  | CPipe copied => sys_pipe copied;;; ret tt
  end.
Lemma stays_mtab n i copied : keeps stays (mtab_loop n i copied).
Proof. revert i. induction n as [|n IH]; intros i; cbn [mtab_loop]; [keeps|]. unfold mtab_of. keeps. Qed.
#[local] Hint Resolve stays_open stays_pipe stays_fcntl stays_mtab : keeps.
Lemma stays_call c : keeps stays (run_call c).
Proof.
  destruct c; cbn [run_call]; unfold sys_getcwd, sys__chdir, sys__mkdir, sys_rmdir, sys_access, sys__mknod, sys_unlink, sys_link, sys_rename, sys_revoke, sys_close, sys__read, sys__write, sys_lseek,
    sys_fstat, sys_fchmod, sys_fchown, sys_ttyname_r, sys__readdir, sys_ioctl, sys__mount, sys__umount, sys__statfs, sys__mtab, sys__ctty, sys__rfsactive, curr_task; keeps.
  all: by apply stays_upd_file.
Qed.

(** A step of the system: a call of the current task, whether it succeeds or not; a
    new task that shares its files; its exit; the end of a task without files; or anything else the kernel does, a
    switch to another task included. *)
Inductive sys_step : proc S -> proc S -> Prop :=
| sys_call c p p' : run_call c p = Ret tt p' \/ (exists e, run_call c p = Err e p') -> sys_step p p'
| sys_fork t p p' : p_desc p !! t = Some [] -> fs_newtask t p = Ret tt p' -> sys_step p p'
| sys_exit p p' : fs_clean p = Ret tt p' -> sys_step p p'
| sys_gone t row p : p_desc p !! t = Some row -> Forall (fun d => d_file d = None) row -> sys_step p (with_desc (<[t := []]> (p_desc p)) p)
| sys_other {A} (m : M (kern S) A) p p' : (exists a, kern_ m p = Ret a p') \/ (exists e, kern_ m p = Err e p') -> sys_step p p'.
Lemma keeps_ends {A} (R : proc S -> proc S -> Prop) (m : M (proc S) A) p p' : keeps R m -> (exists a, m p = Ret a p') \/ (exists e, m p = Err e p') -> R p p'.
Proof. intros Hm Hr. specialize (Hm p). unfold wlp in Hm. destruct Hr as [[a E]|[e E]]; by rewrite E in Hm. Qed.
Lemma sys_step_ok p p' : sys_step p p' -> stays p p'.
Proof.
  intros Hs. destruct Hs as [c p p' Hr|t p p' Ht E|p p' E|t row p Ht Hn|A m p p' Hr].
  - eapply keeps_ends; [apply (stays_call c)|]. destruct Hr; eauto.
  - intros [Hr _]. eapply wlp_Ret in E; [|by apply fs_newtask_refs]. by split.
  - intros [Hr _]. split; [|done]. eapply wlp_Ret in E; [|apply wlp_bind, wlp_modify, clean_loop_refs; by destruct Hr]. done.
  - intros [[H1' H2'] _]. split; [|done]. split; cbn [p_file p_desc with_desc].
    + intros j f Hf. rewrite (H1' j f Hf). unfold nrefs. rewrite (zcount_concat_insert _ _ _ _ _ Ht). assert (E : zcount (refers j) row = 0); [|cbn; lia].
      clear -Hn. induction Hn as [|d row Hd _ IH]; [done|]. cbn. by rewrite IH, (refers_none j d Hd).
    + intros d j [Hd|Hd]%elem_of_concat_insert; [by apply not_elem_of_nil in Hd|by apply H2'].
  - eapply keeps_ends; [apply (stays_kern m)|done].
Qed.

(** C13. Whatever file system calls the tasks make, successful or not, with forks, exits
    and anything else in between: after each call the count of every open file is
    the number of descriptors of all tasks that refer to it.  So no call loses an open
    file (one that nothing refers to is free), no descriptor refers to a file that is
    free. *)
Theorem calls_count_files p p' :
  refs_ok (fun _ => 0) p -> rtc sys_step p p' ->
  (forall j f, p_file p' !! j = Some f -> fl_refcnt f = nrefs j (p_desc p')) /\
  (forall d j, d ∈ concat (p_desc p') -> d_file d = Some j -> exists f, p_file p' !! j = Some f /\ 1 <= fl_refcnt f).
Proof.
  intros Hr Hs. assert (Hh : hold [] p') by (assert (hold [] p) as Hp by (by split); clear Hr; induction Hs as [|p1 p2 p3 H12 _ IH]; [done|]; apply IH; by apply (sys_step_ok p1 p2)).
  destruct Hh as [Hr' _]. assert (He : forall j f, p_file p' !! j = Some f -> fl_refcnt f = nrefs j (p_desc p')) by (intros j f Hf; rewrite (ro_refs _ _ Hr' j f Hf); cbn; lia).
  split; [done|]. intros d j Hd Hj. destruct (lookup_lt_is_Some_2 (p_file p') j) as [f Hf]; [by eapply ro_valid|]. exists f. split; [done|]. rewrite (He j f Hf). unfold nrefs.
  pose proof (zcount_nonneg (refers j) (concat (p_desc p'))). destruct (Z.eq_dec (zcount (refers j) (concat (p_desc p'))) 0) as [Hz|]; [|lia].
  pose proof (zcount_zero _ _ d Hz Hd) as Hn. unfold refers in Hn. by rewrite Hj, bool_decide_true in Hn.
Qed.
End counted.

(** * Reading and writing through a descriptor *)

(** Descriptor [fd] of the current task is open as file [i] on the object [j]. *)
Record desc_open {S} (p : proc S) (fd : Z) (i : nat) (fl : fs_file) (j : nat) : Prop := DescOpen {
  do_fd : 0 <= fd < Z.of_nat OPEN_MAX;
  do_desc : exists row d, p_desc p !! cur p = Some row /\ row !! Z.to_nat fd = Some d /\ d_file d = Some i;
  do_file : p_file p !! i = Some fl;
  do_fso : fl_fso fl = Some j
}.

Section fd.
Context {S : Type} `{HS : BlockLayerOk S}.
Implicit Types (p : proc S) (k : kern S) (g : fso) (f : fs).

Lemma open_kern p fd i fl j k : k_curr k = k_curr (p_kern p) -> desc_open p fd i fl j -> desc_open (with_kern k p) fd i fl j.
Proof. intros Hc [Hfd Hd Hf Hj]. split; [done| |done|done]. unfold cur in *. cbn [p_kern with_kern p_desc]. by rewrite Hc. Qed.
Lemma open_file p fd i fl j fl' : fl_fso fl' = fl_fso fl -> desc_open p fd i fl j -> desc_open (with_file (<[i := fl']> (p_file p)) p) fd i fl' j.
Proof. intros He [Hfd Hd Hf Hj]. split; [done|exact Hd| |by rewrite He]. cbn. apply list_lookup_insert_eq. by eapply lookup_lt_Some. Qed.
Lemma open_u32 p fd i fl j : desc_open p fd i fl j -> u32 fd = fd.
Proof. intros Ho. pose proof (do_fd _ _ _ _ _ Ho). apply u32_small. unfold OPEN_MAX in *. lia. Qed.
Lemma desc_file_run p fd i fl j : desc_open p fd i fl j -> desc_file fd p = Ret i p.
Proof.
  intros Ho. destruct (do_desc _ _ _ _ _ Ho) as (row & d & Hrow & Hd & Hi). unfold desc_file, curr_desc. rewrite (open_u32 _ _ _ _ _ Ho). unfold bind, gets, deref, ret. rewrite Hrow. cbn. rewrite Hd. cbn. by rewrite Hi.
Qed.
Lemma get_file_run p fd i fl j : desc_open p fd i fl j -> get_file i p = Ret fl p.
Proof. intros Ho. unfold get_file, bind, gets. by rewrite (do_file _ _ _ _ _ Ho). Qed.
Lemma kern_run {A} (m : M (kern S) A) a p : m (p_kern p) = Ret a (p_kern p) -> kern_ m p = Ret a p.
Proof. intros E. unfold kern_, zoom. rewrite E. by destruct p. Qed.
Lemma fso_known j g k : k_fso k !! j = Some g -> get_fso j k = Ret g k.
Proof. intros E. unfold get_fso, bind, gets. by rewrite E. Qed.

Lemma fdaccess_run p fd i fl j g f dv m :
  desc_open p fd i fl j -> reg_file (p_kern p) j g f dv -> may (p_kern p) g f m -> Z.land m X_OK = 0 ->
  (Z.land m R_OK <> 0 -> reads (fl_omode fl) = true) -> (Z.land m W_OK <> 0 -> writes (fl_omode fl) = true) ->
  fs_fdaccess (u32 fd) m p = Ret tt p.
Proof.
  intros Ho Hk Hm Hx Hr Hw. destruct (do_desc _ _ _ _ _ Ho) as (row & d & Hrow & Hd & Hi). rewrite (open_u32 _ _ _ _ _ Ho).
  assert (E1 : fd_file fd p = Ret i p).
  { unfold fd_file. rewrite (proj2 (Z.leb_gt _ _)) by apply Ho. unfold curr_desc, bind, gets, deref, ret. rewrite Hrow. cbn. rewrite Hd. cbn. by rewrite Hi. }
  unfold fs_fdaccess. rewrite (bind_run _ _ _ _ _ E1), (bind_run _ _ _ _ _ (get_file_run _ _ _ _ _ Ho)).
  destruct (Z.eqb_spec (Z.land m R_OK) 0) as [Ez|Ez]; cbn [negb andb]; [|rewrite (Hr Ez); cbn [negb]];
  (destruct (Z.eqb_spec (Z.land m W_OK) 0) as [Ew|Ew]; cbn [negb andb]; [|rewrite (Hw Ew); cbn [negb]]); rewrite Hx; cbn [negb Z.eqb]; rewrite (do_fso _ _ _ _ _ Ho), gets_bind; apply kern_run; by eapply may_run.
Qed.

(** The end of a transfer moves the position of the file. *)
Lemma rw_end_run p fd i fl j g n :
  desc_open p fd i fl j -> k_fso (p_kern p) !! j = Some g -> no_seek g = false ->
  rw_end fd n p = Ret (s32 n) (with_file (<[i := set_fl_offset (u64 (fl_offset fl + n)) fl]> (p_file p)) p).
Proof.
  intros Ho Hg Hns. unfold rw_end. rewrite (bind_run _ _ _ _ _ (desc_file_run _ _ _ _ _ Ho)), (bind_run _ _ _ _ _ (get_file_run _ _ _ _ _ Ho)). rewrite (do_fso _ _ _ _ _ Ho). cbn [deref]. rewrite ret_bind.
  rewrite (bind_run _ _ _ _ _ (kern_run _ _ _ (fso_known j g _ Hg))), Hns.
  assert (E : upd_file i (fun f : fs_file => set_fl_offset (u64 (fl_offset f + n)) f) p = Ret tt (with_file (<[i := set_fl_offset (u64 (fl_offset fl + n)) fl]> (p_file p)) p)).
  { unfold upd_file. by rewrite (bind_run _ _ _ _ _ (get_file_run _ _ _ _ _ Ho)). }
  by rewrite (bind_run _ _ _ _ _ E).
Qed.

Lemma wp_kern {A} (m : M (kern S) A) (Q : A -> proc S -> Prop) E p :
  wp m (fun a k => Q a (with_kern k p)) (fun e k => E e (with_kern k p)) (p_kern p) -> wp (kern_ m) Q E p.
Proof. unfold wp, kern_, zoom. by destruct (m (p_kern p)). Qed.

(** A regular file of natfs with a position. *)
Record nat_open p fd i fl j g f dv : Prop := NatOpen {
  no_open : desc_open p fd i fl j;
  no_file : reg_file (p_kern p) j g f dv;
  no_type : type f = Some NATFS;
  no_noseek : no_seek g = false;
  no_off : 0 <= fl_offset fl
}.
Lemma nat_type_run p fd i fl j g f dv : nat_open p fd i fl j g f dv -> fso_type j (p_kern p) = Ret NATFS (p_kern p).
Proof.
  intros [_ Hk Ht _ _]. pose proof (rf_ok _ _ _ _ _ Hk) as [Hi _]. unfold fso_type. rewrite (bind_run _ _ _ _ _ (fso_known j g _ (fo_fso _ _ _ _ _ Hi))).
  unfold get_fs, bind, gets. rewrite (bo_fs _ _ _ _ (fi_bam _ _ _ _ (fo_fs _ _ _ _ _ Hi))). cbn. by rewrite Ht.
Qed.

(** Where a write through [fl] begins. *)
Definition write_at (fl : fs_file) g : Z := if negb (Z.land (fl_omode fl) O_APPEND =? 0) then size g else fl_offset fl.
Definition moved (i : nat) (fl : fs_file) (n : Z) k p : proc S := with_file (<[i := set_fl_offset (u64 (fl_offset fl + n)) fl]> (p_file p)) (with_kern k p).

Lemma sys_write_ok p fd i fl j g f dv buf :
  nat_open p fd i fl j g f dv -> writes (fl_omode fl) = true -> may (p_kern p) g f W_OK -> is_bytes buf ->
  write_at fl g + Z.of_nat (length buf) < NAT_FILE_SIZE_MAX ->
  wp (sys__write fd 0 buf)
    (fun r p' => r = Done (Z.of_nat (length buf)) /\ exists g' f' k',
      written j dv (write_at fl g) buf (Z.of_nat (length buf)) g f (p_kern p) g' f' k' /\
      size g' = new_size g (write_at fl g) (Z.of_nat (length buf)) /\ p' = moved i fl (Z.of_nat (length buf)) k' p)
    (fun e p' => e <> 0 /\ exists k', p' = with_kern k' p) p.
Proof.
  intros Hn Hw Hm Hb Hmax. pose proof Hn as [Ho Hk Ht Hns Hoff]. pose proof (rf_size _ _ _ _ _ Hk) as Hsz.
  assert (Hfso : k_fso (p_kern p) !! j = Some g) by (destruct (rf_ok _ _ _ _ _ Hk) as [Hi _]; apply Hi).
  unfold sys__write. eapply wp_known; [by eapply (fdaccess_run p fd i fl j g f dv W_OK)|]. eapply wp_known; [reflexivity|].
  eapply wp_known; [by eapply desc_file_run|]. eapply wp_known; [by eapply get_file_run|]. rewrite (do_fso _ _ _ _ _ Ho). eapply wp_known; [reflexivity|].
  eapply wp_known; [by apply kern_run, fso_known|]. cbv zeta. fold (write_at fl g).
  apply wp_bind, wp_kern. eapply wp_known; [by eapply nat_type_run|]. cbn [ft_write nat_data on_type NATFS Nat.eqb].
  assert (0 <= write_at fl g) by (unfold write_at; destruct (negb _); lia).
  eapply wp_seq; [by apply (nat_write_core j dv (write_at fl g) buf g f)| |].
  - cbv beta. intros [] k' (g' & f' & W & Hs). apply wp_ret. pose proof W as [W1 _]. pose proof (ws_k _ _ _ _ _ _ _ _ _ W1) as Ek. pose proof (ws_g _ _ _ _ _ _ _ _ _ W1) as Eg.
    assert (Ho' : desc_open (with_kern k' p) fd i fl j) by (apply open_kern; [rewrite Ek; done|done]).
    eapply wp_known; [apply (rw_end_run _ fd i fl j g'); [done|cbn; rewrite Ek; cbn; apply lookup_insert_eq|by rewrite Eg]|]. apply wp_ret. split.
    + f_equal. unfold NAT_FILE_SIZE_MAX in Hmax. unfold s32. rewrite u32_small by lia. by rewrite (proj2 (Z.ltb_lt _ _)) by lia.
    + by exists g', f', k'.
  - cbv beta. intros e k' [He _]. split; [done|by exists k'].
Qed.

Lemma may_nothing k g f : may k g f 0.
Proof. split; [done|]. right. intros b Hb. by rewrite Z.testbit_0_l. Qed.
Lemma lseek_run p fd i fl j g f dv off :
  nat_open p fd i fl j g f dv ->
  sys_lseek fd off SEEK_SET p = Ret (s64 (u64 off)) (with_file (<[i := set_fl_offset (u64 off) fl]> (p_file p)) p).
Proof.
  intros [Ho Hk Ht Hns Hoff]. assert (Hfso : k_fso (p_kern p) !! j = Some g) by (destruct (rf_ok _ _ _ _ _ Hk) as [Hi _]; apply Hi). unfold sys_lseek.
  rewrite (bind_run _ _ _ _ _ (fdaccess_run p fd i fl j g f dv 0 Ho Hk (may_nothing _ _ _) eq_refl ltac:(done) ltac:(done))).
  rewrite (bind_run _ _ _ _ _ (desc_file_run _ _ _ _ _ Ho)), (bind_run _ _ _ _ _ (get_file_run _ _ _ _ _ Ho)). rewrite (do_fso _ _ _ _ _ Ho). cbn [deref]. rewrite ret_bind.
  rewrite (bind_run _ _ _ _ _ (kern_run _ _ _ (fso_known j g _ Hfso))), Hns. cbn [Z.eqb SEEK_SET]. rewrite ret_bind. unfold upd_file, bind at 1. by rewrite (bind_run _ _ _ _ _ (get_file_run _ _ _ _ _ Ho)).
Qed.
Lemma nat_open_file p fd i fl j g f dv v : 0 <= v -> nat_open p fd i fl j g f dv -> nat_open (with_file (<[i := set_fl_offset v fl]> (p_file p)) p) fd i (set_fl_offset v fl) j g f dv.
Proof. intros Hv [Ho Hk Ht Hns Hoff]. split; [by apply (open_file p fd i fl)|done|done|done|done]. Qed.
Lemma nat_open_kern p fd i fl j g f dv P g' f' k' :
  nat_open p fd i fl j g f dv -> wstep j dv P g f (p_kern p) g' f' k' -> reg_file k' j g' f' dv -> nat_open (with_kern k' p) fd i fl j g' f' dv.
Proof.
  intros [Ho Hk Ht Hns Hoff] W Hk'. split; [apply open_kern; [rewrite (ws_k _ _ _ _ _ _ _ _ _ W); done|done]|done| | |done].
  - by rewrite (ws_f _ _ _ _ _ _ _ _ _ W).
  - by rewrite (ws_g _ _ _ _ _ _ _ _ _ W).
Qed.
Lemma s32_len (n : Z) : 0 <= n < 2 ^ 31 -> s32 n = n.
Proof. intros Hn. unfold s32. rewrite u32_small by lia. by rewrite (proj2 (Z.ltb_lt _ _)) by lia. Qed.

(** A read through a descriptor: [Q] is what the file system gives. *)
Lemma sys_read_ok p fd i fl j g f dv cnt (Q : list Z -> kern S -> Prop) :
  nat_open p fd i fl j g f dv -> reads (fl_omode fl) = true -> may (p_kern p) g f R_OK ->
  wp (nat_read j (fl_offset fl) cnt) (fun d k' => Q d k' /\ read_frame j dv g (p_kern p) k') (fun e _ => e <> 0) (p_kern p) ->
  wp (sys__read fd 0 cnt)
    (fun r p' => exists d k', r = Done (s32 (Z.of_nat (length d)), d) /\ Q d k' /\ p' = moved i fl (Z.of_nat (length d)) k' p)
    (fun e _ => e <> 0) p.
Proof.
  intros Hn Hr Hm HQ. pose proof Hn as [Ho Hk Ht Hns Hoff]. unfold sys__read. eapply wp_known; [by eapply (fdaccess_run p fd i fl j g f dv R_OK)|]. eapply wp_known; [reflexivity|].
  eapply wp_known; [by eapply desc_file_run|]. eapply wp_known; [by eapply get_file_run|]. rewrite (do_fso _ _ _ _ _ Ho). eapply wp_known; [reflexivity|].
  apply wp_bind, wp_kern. eapply wp_known; [by eapply nat_type_run|]. cbn [ft_read nat_data on_type NATFS Nat.eqb].
  eapply wp_seq; [exact HQ| |done]. cbv beta. intros d k' [Hd (g' & f' & _ & Eg & _ & _ & _ & _ & Ek)]. apply wp_ret.
  eapply wp_known; [apply (rw_end_run _ fd i fl j g'); [apply open_kern; [by rewrite Ek|done]|cbn; rewrite Ek; cbn; apply lookup_insert_eq|by rewrite Eg]|]. apply wp_ret. by exists d, k'.
Qed.

(** C14. Through a descriptor that is open for reading and writing a regular file of
    natfs: what [write] stores is what [read] gives after [lseek] back to the position
    where it began.  The number of bytes is returned, the position ends behind them, and
    the descriptors stay as they are; otherwise a call gives an error. *)
Theorem fd_write_read p fd i fl j g f dv buf :
  nat_open p fd i fl j g f dv -> Z.land (fl_omode fl) 7 = O_RDWR -> Z.land (fl_omode fl) O_APPEND = 0 ->
  may (p_kern p) g f W_OK -> may (p_kern p) g f R_OK -> is_bytes buf -> fl_offset fl + Z.of_nat (length buf) < NAT_FILE_SIZE_MAX ->
  wp (sys__write fd 0 buf;;; sys_lseek fd (fl_offset fl) SEEK_SET;;; sys__read fd 0 (Z.of_nat (length buf)))
    (fun r p' => r = Done (Z.of_nat (length buf), buf) /\ p_desc p' = p_desc p /\
      p_file p' !! i = Some (set_fl_offset (fl_offset fl + Z.of_nat (length buf)) fl))
    (fun e _ => e <> 0) p.
Proof.
  intros Hn Hrw Hap Hw Hr Hb Hmax. pose proof Hn as [Ho Hk Ht Hns Hoff]. assert (Hat : write_at fl g = fl_offset fl) by (unfold write_at; by rewrite Hap).
  assert (reads (fl_omode fl) = true /\ writes (fl_omode fl) = true) as [Hrd Hwr] by (unfold reads, writes; by rewrite Hrw).
  eapply wp_seq; [apply (sys_write_ok p fd i fl j g f dv buf Hn Hwr Hw Hb); by rewrite Hat| |by intros e p' [He _]].
  cbv beta. intros r p1 (_ & g1 & f1 & k1 & W & Hs & ->). rewrite Hat in W, Hs. unfold NAT_FILE_SIZE_MAX in Hmax. unfold moved. rewrite u64_small by lia.
  destruct (nat_read_back j dv (fl_offset fl) buf g f (p_kern p) g1 f1 k1 Hk Hr Hoff Hmax W Hs) as [Hk1 Hread]. pose proof W as [W1 _].
  set (p1 := with_kern k1 p). assert (Hn1 : nat_open p1 fd i fl j g1 f1 dv) by (by eapply nat_open_kern).
  set (p2 := with_file (<[i := set_fl_offset (fl_offset fl + Z.of_nat (length buf)) fl]> (p_file p1)) p1).
  assert (Hn2 : nat_open p2 fd i (set_fl_offset (fl_offset fl + Z.of_nat (length buf)) fl) j g1 f1 dv) by (apply nat_open_file; [lia|done]).
  eapply wp_known; [exact (lseek_run p2 fd i _ j g1 f1 dv (fl_offset fl) Hn2)|]. rewrite u64_small by lia.
  set (p3 := with_file _ p2). assert (Hn3 : nat_open p3 fd i (set_fl_offset (fl_offset fl) fl) j g1 f1 dv).
  { exact (nat_open_file p2 fd i _ j g1 f1 dv (fl_offset fl) Hoff Hn2). }
  eapply wp_mono; [apply (sys_read_ok p3 fd i _ j g1 f1 dv _ (fun d _ => d = buf) Hn3 Hrd); [by eapply may_wstep|exact Hread]| |done].
  cbv beta. intros r' p' (d & k' & -> & -> & ->). split; [by rewrite s32_len by lia|]. split; [done|]. unfold moved. cbn [p_file with_file with_kern p3 p2 p1 set_fl_offset fl_offset].
  rewrite u64_small by lia. rewrite list_lookup_insert_eq; [done|]. rewrite !length_insert. apply lookup_lt_Some with fl. apply Ho.
Qed.

(** What a user task can do: [fcntl] with F_DUPFD and a negative number reads in front
    of the array of descriptors. *)
Theorem dup_negative_undefined p fd i fl j g f dv arg :
  nat_open p fd i fl j g f dv -> - 2 ^ 31 <= arg < 0 -> sys_fcntl fd F_DUPFD arg p = Halt Undefined.
Proof.
  intros [Ho Hk _ _ _] Ha. unfold sys_fcntl. rewrite (bind_run _ _ _ _ _ (fdaccess_run p fd i fl j g f dv 0 Ho Hk (may_nothing _ _ _) eq_refl ltac:(done) ltac:(done))).
  destruct (do_desc _ _ _ _ _ Ho) as (row & d & Hrow & Hd & Hi). rewrite (open_u32 _ _ _ _ _ Ho).
  assert (E : curr_desc p = Ret row p) by (unfold curr_desc, bind, gets; by rewrite Hrow). rewrite (bind_run _ _ _ _ _ E), Hd. cbn [deref]. rewrite ret_bind, Hi. cbn [deref]. rewrite ret_bind.
  cbn [Z.eqb Pos.eqb F_DUPFD F_GETFD F_SETFD]. unfold dup_fd. assert (s32 arg < 0) as Hs by (unfold s32, u32; destruct (Z.ltb_spec (arg mod 2 ^ 32) (2 ^ 31)); Z.div_mod_to_equations; lia).
  by rewrite (proj2 (Z.ltb_lt _ _) Hs).
Qed.
End fd.
