(* ===== verification/NatDemo.v ===== *)
(** A small formatted disk: a ramdisk of 16 blocks behind the buffer cache, with
    two files, and the kernel state in which it is mounted.  The theorems on
    natfs are applied to it. *)

From S2P Require Import Prelude BlockDev BlockIface BlockCache BlockCacheOk BlockCacheProps Kern Frame NatBam NatBamOk NatStatfs NatBmap NatTree NatBmapOk Vfs VfsOk NatRw NatRwOk NatWriteOk NatFile NatFso NatMount NatDir NatDirView NatDirOk NatDirProps.

(** * The disk *)

(** Block 1 is the superblock, block 2 the allocation map, block 3 the header of
    the root directory and block 4 its entries; blocks 5 and 7 are the headers of
    the files [a] and [b], blocks 6 and 8 their data. *)
Definition demo_super : list Z :=
  NAT_MAGIC ++ le32 2 ++ le32 1 ++ le32 3 ++ le32 13 ++ le32 3 ++ [110; 3; 0; 0] ++ zeros 480.
Definition demo_bam : list Z := [255; 1] ++ replicate 510 255.
Definition one_block (b : Z) : list Z := b :: replicate 113 0.
Definition demo_header (mode size b : Z) : list Z :=
  encode (NatHeader 1000 1000 1000 7 7 size mode 1 2 0 110 3 (one_block b)).
Definition demo_entries : list Z := de_put 32 [98] 7 (de_put 0 [97] 5 (zeros 512)).
Definition demo_data (l : list Z) : list Z := l ++ zeros (512 - Z.of_nat (length l)).
Definition demo_image : list Z :=
  zeros 512 ++ demo_super ++ demo_bam ++ demo_header 0x31ed 512 4 ++ demo_entries ++
  demo_header 0x1a4 5 6 ++ demo_data [104; 101; 108; 108; 111] ++
  demo_header 0x1a4 3 8 ++ demo_data [120; 121; 122] ++ zeros (7 * 512).
Definition nat_units : gmap nat rd_unit := {[ 0%nat := RdUnit (RdLive demo_image) 16 ]}.

Lemma nat_units_wf : rd_wf nat_units.
Proof.
  apply map_Forall_singleton. unfold rd_wf_unit. cbn [u_image u_size]. split; [|lia]. split; [by vm_compute|].
  assert (forallb (fun x => (0 <=? x) && (x <? 256)) demo_image = true) as E by (by vm_compute).
  rewrite forallb_forall in E. apply Forall_forall. intros x Hx%list_elem_of_In%E. unfold is_byte. lia.
Qed.

Definition demo_blocks (n : nat) : cache (gmap nat rd_unit) :=
  match blk_init_n n true (Cache ∅ ∅ [] 0 (Some 0%nat :: replicate 7 None) {[ 0%nat := Bdev "rd0" 1 0 0 0 ]} nat_units) with
  | Ret _ c => c
  | _ => demo_cache0
  end.

Lemma demo_blocks_ok n :
  cinv (demo_blocks n) /\ blk_count (demo_blocks n) = n /\ pins (demo_blocks n) = ∅ /\
  has_dev (demo_blocks n) 0 /\ drv (demo_blocks n) = nat_units /\
  forall nr, vdisk (demo_blocks n) 0 nr = rd_block nat_units 0 nr.
Proof.
  pose proof (blk_init_n_law n (Cache ∅ ∅ [] 0 (Some 0%nat :: replicate 7 None) {[ 0%nat := Bdev "rd0" 1 0 0 0 ]} nat_units) nat_units_wf) as H.
  unfold wp in H. unfold demo_blocks. destruct (blk_init_n n true _) as [u c|e c|h]; [|done..].
  destruct H as (H1 & H2 & H3 & H4 & H5 & H6). split_and!; try done. unfold has_dev. by rewrite H4.
Qed.

#[local] Opaque demo_blocks.

(** * The kernel *)

Definition demo_nat : fs_nat := FsNat 2 1 3 13 3 3 (zeros 512) 0 false 110 3.
Definition demo_fs : fs := Fs [] false false false false true true 0 (Some NATFS) (Some 0%nat) demo_nat.
Definition demo_file (ino size b : Z) : fso :=
  Fso false 1 true 0 ino 1 7 7 1000 1000 1000 2 0x1a4 size 0 1 0 None 0 6
    (FsoNat false 0 0 (one_block b) 110 3) no_pipe.
Definition demo_dir : fso :=
  Fso false 1 false 0 3 1 7 7 1000 1000 1000 2 0x31ed 512 0 0 0 None 0 6
    (FsoNat false 0 0 (one_block 4) 110 3) no_pipe.
Definition demo_task : task := Task 7 7 7 7 [47] [] 0 false false false.
Definition empty_fs : fs := Fs [] false false false false false false 0 None None (FsNat 0 0 0 0 0 0 (zeros 512) 0 false 0 0).
Definition demo_kern : kern (cache (gmap nat rd_unit)) :=
  Kern (demo_blocks 8)
    (<[0%nat := demo_fs]> (list_to_map ((fun i => (i, empty_fs)) <$> seq 1 15)))
    {[ 0%nat := demo_file 5 5 6; 1%nat := demo_file 7 3 8; 2%nat := demo_dir ]} 3
    demo_task 5000 100 0 [] [] [Some NATFS] [Some ([47], false)] [] [] [] 0.

Definition demo_disk (nr : Z) : list Z := rd_block nat_units 0 nr.

Lemma demo_dsk nr : dsk demo_kern 0 nr = demo_disk nr.
Proof. apply (demo_blocks_ok 8). Qed.

Lemma demo_range nr : 0 <= nr < 16 -> bl_range (k_blk demo_kern) 0 nr.
Proof.
  intros Hn. change (rd_range (drv (demo_blocks 8)) 0 nr). destruct (demo_blocks_ok 8) as (_ & _ & _ & _ & -> & _).
  unfold rd_range, rd_get, nat_units. rewrite lookup_singleton_eq. exact Hn.
Qed.

Lemma demo_room n : (n <= 8)%nat -> room n (k_blk demo_kern).
Proof.
  intros Hn. destruct (demo_blocks_ok 8) as (_ & H2 & H3 & _).
  unfold room. change (bl_pins (k_blk demo_kern)) with (pins (demo_blocks 8)).
  change (bl_count (k_blk demo_kern)) with (blk_count (demo_blocks 8)). by rewrite H2, H3.
Qed.

Lemma demo_bam_ok : bam_ok demo_kern 0 demo_fs 0.
Proof.
  destruct (demo_blocks_ok 8) as (H1 & H2 & H3 & H4 & H5 & H6).
  split; [reflexivity|reflexivity|exact H1|exact H4| |apply demo_room; lia| | | |by left|by intros [=]|by intros _ []].
  - change (pins_valid (pins (demo_blocks 8))). by rewrite H3.
  - split; cbn; unfold BPB; lia.
  - intros nr Hn. apply demo_range. unfold in_bam in Hn. cbn in Hn. lia.
  - by apply bytes_ok_zeros.
Qed.

(** The bits of the allocation map. *)
Definition demo_used (nr : Z) : bool := bit_of demo_bam nr.
Lemma demo_map : demo_disk 2 = demo_bam.
Proof. by vm_compute. Qed.
Lemma demo_is_used nr : 0 <= nr < 4096 -> is_used demo_kern demo_fs 0 nr = demo_used nr.
Proof.
  intros Hn. unfold is_used, used, lbam. cbn [nat_ demo_fs bam_curr demo_nat bam_block].
  unfold BPB. rewrite Z.div_small, Z.mod_small by lia. change (0 =? 2 + 0) with false. cbn [negb].
  rewrite demo_dsk. change (2 + 0) with 2. by rewrite demo_map.
Qed.

Lemma demo_free nr : 0 <= nr < 4096 -> demo_used nr = false -> 9 <= nr < 16.
Proof.
  intros Hn. assert (forallb (fun n => demo_used n || ((9 <=? n) && (n <? 16))) (seqZ 0 4096) = true) as E by (by vm_compute).
  rewrite forallb_forall in E. specialize (E nr). rewrite <- list_elem_of_In, elem_of_seqZ in E. specialize (E ltac:(lia)).
  intros Hu. rewrite Hu in E. cbn in E. lia.
Qed.

Lemma demo_fs_inv : fs_inv demo_kern 0 demo_fs 0.
Proof.
  split; [apply demo_bam_ok|cbn; lia|]. intros nr Hm Hu. unfold mapped_blk in Hm. cbn in Hm. unfold BPB in Hm.
  rewrite demo_is_used in Hu by lia. apply demo_free in Hu; [|lia]. split; [cbn; lia|]. apply demo_range. lia.
Qed.

(** ** Files of one block *)

Lemma slot_one b j v l p : 0 <= j -> slot (FsoNat v l p (one_block b) 110 3) j = if j =? 0 then b else 0.
Proof.
  intros Hj. unfold slot. cbn [bmap]. destruct (Z.eqb_spec j 0) as [->|Hne]; [done|].
  unfold one_block. rewrite lookup_cons_ne_0 by lia. destruct (replicate 113 0 !! pred (Z.to_nat j)) eqn:E; [|done].
  by apply lookup_replicate in E as [-> _].
Qed.

Lemma inode_one dk b d q v l p : 0 <= q -> inode dk (FsoNat v l p (one_block b) 110 3) d q = 0.
Proof.
  intros Hq. revert q Hq. induction d as [|d IH]; intros q Hq; cbn [inode].
  - cbn [ndirblks]. rewrite slot_one by lia. by rewrite (proj2 (Z.eqb_neq (110 + q) 0)) by lia.
  - rewrite IH by (apply Z.div_pos; lia). done.
Qed.

Lemma node_one dk b a v l p :
  kvalid (FsoNat v l p (one_block b) 110 3) a -> node dk (FsoNat v l p (one_block b) 110 3) a <> 0 ->
  a = KDir 0 /\ node dk (FsoNat v l p (one_block b) 110 3) a = b.
Proof.
  destruct a as [j|d q]; cbn [kvalid node ndirblks].
  - intros Hj. rewrite slot_one by lia. destruct (Z.eqb_spec j 0) as [->|]; [done|]. done.
  - intros (_ & Hq & _). by rewrite inode_one.
Qed.

Lemma demo_file_ok i g b :
  k_fso demo_kern !! i = Some g -> f_fs g = 0%nat -> fnat g = FsoNat false 0 0 (one_block b) 110 3 ->
  3 <= b < 16 -> demo_used b = true -> file_ok demo_kern i g demo_fs 0.
Proof.
  intros Hg Hf Hn Hb Hu. split; [|intros Hv; by rewrite Hn in Hv].
  destruct (demo_blocks_ok 8) as (H1 & H2 & H3 & H4 & H5 & H6). split; [done|rewrite Hf; apply demo_fs_inv| |].
  - apply demo_room. lia.
  - rewrite Hn. split.
    + split; cbn; [done| |unfold NBMAP; lia|lia]. constructor; [lia|]. apply Forall_replicate. lia.
    + intros x y Hx Hy Hnx E. destruct (node_one _ _ _ _ _ _ Hx Hnx) as [-> _].
      rewrite E in Hnx. by destruct (node_one _ _ _ _ _ _ Hy Hnx) as [-> _].
    + intros x Hx Hnx. destruct (node_one _ _ _ _ _ _ Hx Hnx) as [_ ->].
      split; [cbn; lia|]. split; [unfold mapped_blk, BPB; cbn; lia|]. split; [rewrite demo_is_used by lia; done|by apply demo_range; lia].
Qed.

Lemma demo_a_ok : file_ok demo_kern 0 (demo_file 5 5 6) demo_fs 0.
Proof. by apply (demo_file_ok 0 _ 6). Qed.
Lemma demo_b_ok : file_ok demo_kern 1 (demo_file 7 3 8) demo_fs 0.
Proof. by apply (demo_file_ok 1 _ 8). Qed.
Lemma demo_dir_ok : file_ok demo_kern 2 demo_dir demo_fs 0.
Proof. by apply (demo_file_ok 2 _ 4). Qed.

Lemma demo_type : type_accepts (S := cache (gmap nat rd_unit)) NATFS.
Proof. done. Qed.

Lemma demo_reg : reg_file demo_kern 0 (demo_file 5 5 6) demo_fs 0.
Proof.
  split; [apply demo_a_ok|done| |cbn; lia|by apply covers_mkfs]. exists NATFS. split; [done|apply demo_type].
Qed.

Lemma demo_may m : 0 <= m <= 6 -> Z.testbit m 0 = false -> may demo_kern (demo_file 5 5 6) demo_fs m.
Proof.
  intros Hm H0. split; [done|]. right. intros b Hb Ht.
  assert (b = 0 \/ b = 1 \/ b = 2) as [->|[->| ->]] by lia; [congruence|by vm_compute..].
Qed.

(** * The theorems on this disk *)

Lemma nat_balloc_spec_witness :
  wp (nat_balloc 0) (fun bn _ => 9 <= bn < 16) (fun _ _ => True) demo_kern.
Proof.
  eapply wp_mono; [apply (nat_balloc_spec 0 0 demo_fs demo_kern demo_bam_ok)| |done].
  intros bn k' (Hm & _ & Hu & _). unfold mapped_blk, BPB in Hm. cbn in Hm. rewrite demo_is_used in Hu by lia.
  apply demo_free; [lia|done].
Defined.

Lemma nat_bfree_spec_witness :
  wp (nat_bfree 0 6;;; nat_read_bam 0 6) (fun b _ => b = false) (fun e _ => e <> 0) demo_kern.
Proof.
  eapply wp_mono; [apply (nat_bfree_spec 0 0 demo_fs demo_kern 6 demo_bam_ok)| |].
  - unfold mapped_blk, BPB. cbn. lia.
  - by intros b k' [Hb _].
  - by intros e k' [He _].
Defined.

Lemma fs_chk_perm_spec_witness :
  fs_chk_perm 0 (Z.lor R_OK W_OK) 7 7 demo_kern = Ret tt demo_kern /\
  fs_chk_perm 0 W_OK 8 8 demo_kern = Err EACCES demo_kern.
Proof.
  split.
  - apply (fs_chk_perm_spec 0 (Z.lor R_OK W_OK) 7 7 demo_kern (demo_file 5 5 6) demo_fs NATFS); [reflexivity..|apply demo_type|].
    split; [done|]. right. intros b Hb Ht. assert (b = 0 \/ b = 1 \/ b = 2) as [->|[->| ->]] by lia; by vm_compute in Ht |- *.
  - apply (fs_chk_perm_spec 0 W_OK 8 8 demo_kern (demo_file 5 5 6) demo_fs NATFS); [reflexivity..|apply demo_type|].
    intros [_ [Hu|Hb]]; [done|]. specialize (Hb 1 ltac:(lia) eq_refl). by vm_compute in Hb.
Defined.

Lemma demo_byte o : 0 <= o < 512 -> file_byte demo_kern (demo_file 5 5 6) 0 o = rd8 (demo_disk 6) o.
Proof.
  intros Ho. unfold file_byte. unfold BLK_SIZE. rewrite Z.div_small, Z.mod_small by lia.
  change (node (dsk demo_kern 0) (fnat (demo_file 5 5 6)) (data_key (fnat (demo_file 5 5 6)) 0)) with 6. cbn [Z.eqb].
  by rewrite demo_dsk.
Qed.

Lemma nat_read_spec_witness :
  wp (nat_read 0 1 3) (fun d _ => d = [101; 108; 108]) (fun e _ => e <> 0) demo_kern.
Proof.
  eapply wp_mono; [apply (nat_read_spec 0 0 1 3 (demo_file 5 5 6) demo_fs demo_kern demo_reg); [by apply demo_may|lia..]| |by intros e k' [He _]].
  intros d k' [-> _]. change (Z.max 0 (Z.min 3 (size (demo_file 5 5 6) - 1))) with 3. unfold file_bytes.
  change (seqZ 1 3) with [1; 2; 3]. cbn [fmap list_fmap]. rewrite !demo_byte by lia. by vm_compute.
Defined.

Lemma nat_write_spec_witness :
  wp (nat_write 0 3 [1; 2; 3])
    (fun _ k' => exists g', k_fso k' !! 0%nat = Some g' /\ size g' = 6 /\ file_byte k' g' 0 4 = 2 /\ file_byte k' g' 0 0 = 104)
    (fun e _ => e <> 0) demo_kern.
Proof.
  eapply wp_mono; [apply (nat_write_spec 0 0 3 [1; 2; 3] (demo_file 5 5 6) demo_fs demo_kern demo_reg)| |by intros e k' [He _]].
  - by apply demo_may.
  - by repeat constructor.
  - lia.
  - unfold NAT_FILE_SIZE_MAX. cbn. lia.
  - intros _ k' (g' & f' & [W B] & Hs). exists g'. split; [apply (ws_ok _ _ _ _ _ _ _ _ _ W)|]. split; [done|]. split.
    + rewrite B by (unfold in_range; cbn; lia). done.
    + rewrite (ws_byte _ _ _ _ _ _ _ _ _ W), demo_byte; [by vm_compute|lia| |unfold in_range; lia].
      apply (rf_covers _ _ _ _ _ demo_reg). unfold NAT_FILE_SIZE_MAX. lia.
Defined.

Lemma nat_write_read_witness :
  wp (nat_write 0 600 [1; 2; 3];;; nat_read 0 600 3) (fun d _ => d = [1; 2; 3]) (fun e _ => e <> 0) demo_kern.
Proof.
  apply (nat_write_read 0 0 600 [1; 2; 3] (demo_file 5 5 6) demo_fs demo_kern demo_reg);
    [by apply demo_may|by apply demo_may|by repeat constructor|lia|unfold NAT_FILE_SIZE_MAX; cbn; lia].
Defined.

(** The files share no block. *)
Lemma demo_file_blk i g b nr :
  fnat g = FsoNat false 0 0 (one_block b) 110 3 -> file_blk demo_kern g 0 nr -> k_fso demo_kern !! i = Some g -> nr = b.
Proof.
  intros Hn [Hz (a & Ha & E)] _. rewrite Hn in *. subst nr. by destruct (node_one _ _ _ _ _ _ Ha Hz) as [_ ->].
Qed.

Lemma nat_write_other_file_witness :
  let same k' := k_fso k' !! 1%nat = Some (demo_file 7 3 8) /\ file_byte k' (demo_file 7 3 8) 0 1 = 121 in
  wp (nat_write 0 600 [1; 2; 3]) (fun _ k' => same k') (fun _ k' => same k') demo_kern.
Proof.
  intros same.
  assert (Hlog : log_ok (fnat (demo_file 7 3 8)) (1 / BLK_SIZE)).
  { assert (covers (fnat (demo_file 7 3 8)) NAT_FILE_SIZE_MAX) as Hc by by apply covers_mkfs. apply Hc. unfold NAT_FILE_SIZE_MAX. lia. }
  assert (Hb : file_byte demo_kern (demo_file 7 3 8) 0 1 = 121).
  { unfold file_byte. change (1 / BLK_SIZE) with 0. change (1 mod BLK_SIZE) with 1.
    change (node (dsk demo_kern 0) (fnat (demo_file 7 3 8)) (data_key (fnat (demo_file 7 3 8)) 0)) with 8. cbn [Z.eqb].
    rewrite demo_dsk. by vm_compute. }
  assert (Hd : forall nr, file_blk demo_kern (demo_file 7 3 8) 0 nr -> ~ file_blk demo_kern (demo_file 5 5 6) 0 nr).
  { intros nr H1 H2. apply (demo_file_blk 1 _ 8) in H1; [|reflexivity..]. apply (demo_file_blk 0 _ 6) in H2; [|reflexivity..]. lia. }
  eapply wp_mono; [apply (nat_write_other_file 0 0 600 [1; 2; 3] (demo_file 5 5 6) demo_fs demo_kern 1 (demo_file 7 3 8) demo_reg)|..].
  - by apply demo_may.
  - by repeat constructor.
  - lia.
  - unfold NAT_FILE_SIZE_MAX. cbn. lia.
  - apply demo_b_ok.
  - done.
  - exact Hd.
  - intros _ k' [H1 H2]. split; [exact H1|]. rewrite H2 by exact Hlog. exact Hb.
  - intros _ k' [H1 H2]. split; [exact H1|]. rewrite H2 by exact Hlog. exact Hb.
Defined.

Lemma nat_bmap_spec_witness :
  wp (nat_bmap 0 200 true) (fun _ => bmap_post 0 0 200 true (demo_file 5 5 6) demo_fs demo_kern)
    (bmap_fail 0 0 200 true (demo_file 5 5 6) demo_fs demo_kern) demo_kern /\
  nat_bmap 0 (2 ^ 31) true demo_kern = Err EFBIG demo_kern.
Proof.
  split.
  - apply (nat_bmap_spec 0 0 200 true (demo_file 5 5 6) demo_fs demo_kern demo_a_ok); [lia|cbn; lia|].
    split; [lia|]. change (data_key (fnat (demo_file 5 5 6)) 200) with (KInd 3 200). split; [done|]. split; [lia|]. by vm_compute.
  - apply (nat_bmap_spec 0 0 (2 ^ 31) true (demo_file 5 5 6) demo_fs demo_kern demo_a_ok); [lia|cbn; lia|].
    intros [_ (_ & _ & Hb)]. by vm_compute in Hb.
Defined.

Lemma nat_statfs_counts_free_witness :
  wp (nat_statfs 0) (fun r _ => r = (13, 7)) (fun e _ => e <> 0) demo_kern.
Proof.
  assert (free_count demo_kern demo_fs 0 4096 = 7) as Hf.
  { unfold free_count. rewrite (zsum_ext _ _ (fun nr => Z.b2z (negb (demo_used nr)))); [by vm_compute|].
    intros x Hx. rewrite demo_is_used; [done|lia]. }
  eapply wp_mono; [apply (nat_statfs_counts_free 0 0 demo_fs demo_kern demo_bam_ok)| |by intros e k' [[He _] _]].
  intros r k' [-> _]. change (Z.to_nat (bam_size (nat_ demo_fs) * BPB)) with 4096%nat. by rewrite Hf.
Defined.

Lemma nat_syncfso_reload_witness :
  wp (nat_syncfso 0;;; modify (fun k => with_fso (<[9%nat := new_fso 0 5]> (k_fso k)) k);;; nat_getfso 9)
    (fun _ k' => exists g', k_fso k' !! 9%nat = Some g' /\ meta g' = meta (demo_file 5 5 6) /\ rdev g' = 0)
    (fun e _ => e <> 0) demo_kern.
Proof.
  apply (nat_syncfso_reload 0 9 0 (demo_file 5 5 6) demo_fs demo_kern);
    [reflexivity|apply demo_bam_ok|intros [_ Hb]; cbn in Hb; lia|by apply demo_range|reflexivity|reflexivity| |lia].
  split; cbn; try lia; [done|]. constructor; [lia|]. apply Forall_replicate. lia.
Defined.

Lemma nat_remount_witness :
  wp (nat_umount 0;;; nat_mount 0)
    (fun _ k' => exists f', bam_ok k' 0 f' 0 /\ is_used k' f' 0 8 = true /\ is_used k' f' 0 9 = false)
    (fun e _ => e <> 0) demo_kern.
Proof.
  eapply wp_mono; [apply (nat_remount demo_kern 0 demo_fs 0 demo_bam_ok)| |done].
  - split; [|split]; rewrite ?demo_dsk; [by vm_compute..|cbn; lia].
  - by apply demo_range.
  - reflexivity.
  - intros _ k' (f' & H1 & _ & H2 & _). exists f'. split; [done|].
    rewrite !H2, !demo_is_used by (unfold mapped_blk, BPB; cbn; lia). by vm_compute.
Defined.

(** * The root directory, with two names in it *)

Definition demo_ents : list dslot := ([97], 5) :: ([98], 7) :: replicate 14 ([], 0).

Lemma demo_dir_node : node (dsk demo_kern 0) (fnat demo_dir) (data_key (fnat demo_dir) 0) = 4.
Proof. done. Qed.
Lemma demo_dent j : 0 <= j < 16 -> dent demo_kern demo_dir 0 j = (cstr (mem_read demo_entries (32 * j) 32), get32 (mem_read demo_entries (32 * j) 32) 28).
Proof.
  intros Hj. unfold dent. replace (32 * j) with (32 * (16 * 0 + j)) by lia.
  rewrite (dent_block demo_kern demo_dir 0 0 j); [|apply demo_dir_ok|done|by rewrite demo_dir_node].
  rewrite demo_dir_node, demo_dsk. replace (demo_disk 4) with demo_entries by (by vm_compute). by replace (16 * 0 + j) with j by lia.
Qed.
Lemma demo_view : dir_view demo_kern demo_dir 0 = demo_ents.
Proof.
  unfold dir_view. change (size demo_dir / 32) with 16.
  rewrite (list_fmap_ext _ (fun j => (cstr (mem_read demo_entries (32 * j) 32), get32 (mem_read demo_entries (32 * j) 32) 28))).
  - by vm_compute.
  - intros n j Hj%list_elem_of_lookup_2%elem_of_seqZ. apply demo_dent. lia.
Qed.

Lemma demo_dir_file : dir_file demo_kern 2 demo_dir demo_fs 0.
Proof.
  split; [apply demo_dir_ok|done|done|done| | |eapply covers_mono; [|by apply covers_mkfs]; done].
  - intros log Hl. assert (log = 0) as -> by (change (size demo_dir / BLK_SIZE) with 1 in Hl; lia). by rewrite demo_dir_node.
  - intros j Hj. change (size demo_dir / 32) with 16 in Hj.
    pose proof (proj2 (dir_view_lookup demo_kern demo_dir 0 (Z.to_nat j) (dent demo_kern demo_dir 0 j))) as Hv.
    rewrite demo_view in Hv. rewrite Z2Nat.id in Hv by lia. specialize (Hv (conj (proj2 Hj) eq_refl)).
    apply list_elem_of_lookup_2 in Hv. repeat apply elem_of_cons in Hv as [->|Hv]; try (cbn; lia).
    by apply not_elem_of_nil in Hv.
Qed.
Lemma demo_accepted : accepted (S := cache (gmap nat rd_unit)) demo_fs.
Proof. exists NATFS. split; [done|apply demo_type]. Qed.
Lemma demo_dir_may m : 0 <= m < 8 -> may demo_kern demo_dir demo_fs m.
Proof.
  intros Hm. split; [done|]. right. intros b Hb _.
  assert (b = 0 \/ b = 1 \/ b = 2) as [->|[->| ->]] by lia; by vm_compute.
Qed.
Lemma demo_unique : unique (dir_view demo_kern demo_dir 0).
Proof.
  rewrite demo_view. intros j1 j2 s1 s2 H1 H2 Hs [Hs2 E].
  assert (Hc : forall j s, demo_ents !! j = Some s -> s.2 <> 0 -> j = 0%nat /\ s.1 = [97] \/ j = 1%nat /\ s.1 = [98]).
  { intros [|[|j]] s Hj Hn; [left; by injection Hj as <-|right; by injection Hj as <-|].
    change (replicate 14 (([], 0) : dslot) !! j = Some s) in Hj. by apply lookup_replicate in Hj as [-> _]. }
  destruct (Hc _ _ H1 Hs) as [[-> E1]|[-> E1]], (Hc _ _ H2 Hs2) as [[-> E2]|[-> E2]]; congruence.
Qed.
Lemma demo_name c : 0 < c < 256 -> is_name [c].
Proof. intros Hc. split; [done|]. split; [done|]. constructor; [done|constructor]. Qed.

Lemma find_entry_spec_witness :
  wp (find_entry 2 [98]) (fun p k' => de_first (bl_data p.1 (k_blk k')) p.2 = 7)
    (fun e _ => layer_err (S := cache (gmap nat rd_unit)) e) demo_kern.
Proof.
  eapply wp_mono; [apply (find_entry_spec 2 0 [98] demo_dir demo_fs demo_kern demo_dir_file demo_accepted); by apply demo_dir_may| |].
  - intros p k' (j & x & Hf & _ & _ & Hx & _). rewrite demo_view in Hf. by injection Hf as <- <-.
  - intros e k' [_ [[_ Hf]|He]]; [|done]. by rewrite demo_view in Hf.
Defined.

Lemma new_entry_spec_witness :
  wp (new_entry 2 [99] 9)
    (fun _ k' => exists g', dir_view k' g' 0 = ([97], 5) :: ([98], 7) :: ([99], 9) :: replicate 13 ([], 0))
    (fun e _ => layer_err (S := cache (gmap nat rd_unit)) e) demo_kern.
Proof.
  eapply wp_mono; [apply (new_entry_spec 2 0 [99] 9 demo_dir demo_fs demo_kern demo_dir_file demo_accepted);
    [by apply demo_dir_may|by apply demo_name|lia]| |].
  - intros [] k' (_ & _ & g' & f' & _ & _ & Hv). exists g'. by rewrite Hv, demo_view.
  - intros e k' [_ [[_ Hf]|[[_ [Hf _]]|He]]]; [by rewrite demo_view in Hf; destruct Hf| |done].
    rewrite demo_view in Hf. do 2 apply Forall_inv_tail in Hf. by apply Forall_inv in Hf.
Defined.

Lemma new_entry_find_witness :
  wp (new_entry 2 [99] 9;;; attempt (find_entry 2 [99]))
    (fun r k' => match r with inr p => de_first (bl_data p.1 (k_blk k')) p.2 = 9 | inl e => layer_err (S := cache (gmap nat rd_unit)) e end)
    (fun e _ => layer_err (S := cache (gmap nat rd_unit)) e) demo_kern.
Proof.
  eapply wp_mono; [apply (new_entry_find 2 0 [99] 9 demo_dir demo_fs demo_kern [99] demo_dir_file demo_accepted);
    [by apply demo_dir_may|by apply demo_name|lia|apply demo_unique]| |].
  - intros [e|p] k'; rewrite decide_True by done; [intros [[_ ?]|?]; done|]. by intros [= Hx].
  - intros e k' [[_ Hf]|[[_ [Hf _]]|He]]; [by rewrite demo_view in Hf; destruct Hf| |done].
    rewrite demo_view in Hf. do 2 apply Forall_inv_tail in Hf. by apply Forall_inv in Hf.
Defined.

Lemma remove_entry_spec_witness :
  wp (p <~ find_entry 2 [97];; clear_de p;;; blk (bl_put p.1))
    (fun _ k' => exists g', dir_view k' g' 0 = ([], 0) :: ([98], 7) :: replicate 14 ([], 0))
    (fun e _ => layer_err (S := cache (gmap nat rd_unit)) e) demo_kern.
Proof.
  eapply wp_mono; [apply (remove_entry_spec 2 0 [97] demo_dir demo_fs demo_kern demo_dir_file demo_accepted);
    [by apply demo_dir_may|apply demo_unique]| |].
  - intros [] k' (g' & j & x & Hf & _ & _ & Hv & _). exists g'. rewrite Hv. rewrite demo_view in Hf |- *. by injection Hf as <- <-.
  - intros e k' [_ [[_ Hf]|He]]; [|done]. by rewrite demo_view in Hf.
Defined.

Lemma is_empty_spec_witness :
  wp (is_empty 2) (fun _ _ => False) (fun e _ => e = ENOTEMPTY \/ layer_err (S := cache (gmap nat rd_unit)) e) demo_kern.
Proof.
  eapply wp_mono; [apply (is_empty_spec 2 0 demo_dir demo_fs demo_kern demo_dir_file)| |].
  - intros [] k' [_ Hf]. rewrite demo_view in Hf. by apply Forall_inv in Hf.
  - intros e k' [_ [[-> _]|He]]; [by left|by right].
Defined.
