(* ===== verification/Bfs.v ===== *)
(** The boot file system (kern/fs/bfs/bfs.c): a read-only chain of files in
    consecutive blocks, each behind a block with its header.

    The time of mounting, kept in the union inside of [struct fs], is the result of
    [bfs_mount] and an argument of [bfs_getfso].  A disk may hold a chain of headers
    that does not end; the fuel of a walk is an argument, and one round for each
    header is enough.  [size_t] and [unsigned long] have 64 bits, as on the amd64. *)

From S2P Require Import Prelude BlockDev BlockIface BlockCache BlockCacheOk BlockCacheProps Kern Frame NatBam NatBamOk Vfs NatRw NatRwOk NatDir NatDemo.

Definition BFS_FIRST : Z := 128.
Definition BFS_D_SIZE : Z := 32.
Definition BFS_D_PER_BLOCK : Z := BLK_SIZE / BFS_D_SIZE.

(** [struct bfs_head] at the start of a block; a name ends inside of the block. *)
Definition h_mode (b : list Z) : Z := get32 b 0.
Definition h_size (b : list Z) : Z := get32 b 4.
Definition h_next (b : list Z) : Z := get32 b 8.
Definition h_name (b : list Z) : list Z := cstr (drop 12 b).

Definition set_read_only (v : bool) (f : fs) : fs :=
  Fs (prefix f) (removable f) v (no_atime f) (insecure f) (active f) (in_use f) (unmount_time f) (type f) (dev f) (nat_ f).

Section ops.
Context {S : Type} `{BlockLayer S} `{FsLow S}.

Definition bfs_mount (fsi : nat) : M (kern S) Z :=
  t <~ gets k_time;;
  upd_fs fsi (set_read_only true);;;
  ret t.
Definition bfs_umount : M (kern S) unit := ret tt.

(** The loop of [bfs_lookup]: the block of the first header with the name. *)
Fixpoint bfs_find (fuel : nat) (fsi : nat) (name : list Z) (i : Z) : M (kern S) Z :=
  match fuel with
  | O => halted Undefined
  | Datatypes.S fuel' =>
    d <~ get_dev fsi;;
    b <~ blk (bl_read d i);;
    h <~ gets (fun k => bl_data b (k_blk k));;
    if bool_decide (h_name h = name) then blk (bl_put b);;; ret i
    else
      blk (bl_put b);;;
      if h_next h =? 0 then fail ENOENT else bfs_find fuel' fsi name (h_next h)
  end.
Definition bfs_lookup (fuel : nat) (fsi : nat) (name : list Z) : M (kern S) nat :=
  i <~ bfs_find fuel fsi name BFS_FIRST;;
  fs_getfso fsi i.

Definition bfs_creat : M (kern S) unit := fail EROFS.

Definition bfs_getfso (f : nat) (mount_time : Z) : M (kern S) unit :=
  g <~ get_fso f;;
  d <~ get_dev (f_fs g);;
  b <~ blk (bl_read d (index g));;
  h <~ gets (fun k => bl_data b (k_blk k));;
  fs_state f (Z.lor R_OK W_OK);;;
  upd_fso f (fun g => set_times mount_time mount_time mount_time (set_mode (h_mode h) (set_size (h_size h)
    (set_blocks (u32 (u32 (h_size h + BLK_SIZE - 1) / BLK_SIZE + 1)) (set_nlink 1 g)))));;;
  blk (bl_put b).
Definition bfs_putfso : M (kern S) unit := ret tt.
Definition bfs_syncfso : M (kern S) unit := ret tt.

(** [de->name] and [de->index]. *)
Definition bfs_readdir (dir : nat) (index_ : Z) : M (kern S) (list Z * Z) :=
  if index_ <? 0 then fail EINVAL
  else
    g <~ get_fso dir;;
    if size g <=? index_ * BFS_D_SIZE then fail ENOENT
    else
      d <~ get_dev (f_fs g);;
      bd <~ blk (blk_pread d (u32 (index g + 1 + index_ / BFS_D_PER_BLOCK)) ((index_ mod BFS_D_PER_BLOCK) * BFS_D_SIZE) BFS_D_SIZE);;
      ret (cstr bd, INO_NONE).

Definition bfs_ioctl : M (kern S) unit := fail ENOTTY.

Fixpoint bfs_read_loop (fuel : nat) (f : nat) (off count : Z) : M (kern S) (list Z) :=
  if count =? 0 then ret []
  else
    match fuel with
    | O => halted Undefined
    | Datatypes.S fuel' =>
      let l := rw_len off count in
      g <~ get_fso f;;
      d <~ get_dev (f_fs g);;
      data <~ blk (blk_pread d (u32 (index g + 1 + off / BLK_SIZE)) (off mod BLK_SIZE) l);;
      rest <~ bfs_read_loop fuel' f (u64 (off + l)) (count - l);;
      ret (data ++ rest)
    end.
Definition bfs_read (f : nat) (off count : Z) : M (kern S) (list Z) :=
  g <~ get_fso f;;
  if size g <=? off then ret []
  else
    let count := if size g <? u64 (off + count) then u64 (size g - off) else count in
    bfs_read_loop (rw_fuel count) f off count.

Definition bfs_write : M (kern S) unit := fail EROFS.
Definition bfs_trunc : M (kern S) unit := fail EROFS.
Definition bfs_chk_perm : M (kern S) unit := ret tt.
Definition bfs_link : M (kern S) unit := fail EROFS.
Definition bfs_unlink : M (kern S) unit := fail EROFS.
Definition bfs_rename : M (kern S) unit := fail EROFS.

(** [st->blk_total]; the buffer of the last header is not given back. *)
Fixpoint bfs_last (fuel : nat) (fsi : nat) (i : Z) : M (kern S) Z :=
  match fuel with
  | O => halted Undefined
  | Datatypes.S fuel' =>
    d <~ get_dev fsi;;
    b <~ blk (bl_read d i);;
    h <~ gets (fun k => bl_data b (k_blk k));;
    if h_next h =? 0 then ret (u32 (i + u32 (h_size h + 511) / 512))
    else
      blk (bl_put b);;;
      bfs_last fuel' fsi (h_next h)
  end.
Definition bfs_statfs (fuel : nat) (fsi : nat) : M (kern S) (Z * Z) :=
  i <~ bfs_last fuel fsi BFS_FIRST;; ret (i, 0).
Definition bfs_sync : M (kern S) unit := ret tt.

Definition bfs_chdir (fuel : nat) (fsi : nat) (name : list Z) : M (kern S) unit :=
  f <~ bfs_lookup fuel fsi name;;
  g <~ get_fso f;;
  status (fs_putfso (Some f));;;
  if negb (S_ISDIR (mode g)) then fail ENOTDIR else ret tt.
Definition bfs_mkdir : M (kern S) unit := fail EROFS.
Definition bfs_rmdir : M (kern S) unit := fail EROFS.
End ops.

Section ok.
Context {S : Type} `{HS : BlockLayerOk S} `{FsLow S}.
Implicit Types (k : kern S).

(** The file system [fsi] is on device [dv], and a buffer can be had. *)
Record vol_ok k (fsi : nat) (dv : nat) : Prop := VolOk {
  vo_fs : exists f, k_fs k !! fsi = Some f /\ dev f = Some dv;
  vo_inv : bl_inv (k_blk k);
  vo_dev : bl_dev (k_blk k) dv;
  vo_pins : pins_valid (bl_pins (k_blk k));
  vo_room : room 1 (k_blk k)
}.
(** Nothing has changed but what is cached. *)
Definition only_cached k k' : Prop := exists s', bl_same (k_blk k) s' /\ k' = with_blk s' k.

Lemma cached_refl k : bl_inv (k_blk k) -> only_cached k k.
Proof. intros Hi. exists (k_blk k). split; [by apply bl_same_refl|by destruct k]. Qed.
Lemma cached_trans k1 k2 k3 : only_cached k1 k2 -> only_cached k2 k3 -> only_cached k1 k3.
Proof. intros (s2 & B2 & ->) (s3 & B3 & ->). exists s3. split; [by eapply bl_same_trans|done]. Qed.
Lemma cached_vol k k' fsi dv : only_cached k k' -> vol_ok k fsi dv -> vol_ok k' fsi dv.
Proof.
  intros (s' & B & ->) [Hf Hi Hd Hp Hr]. pose proof B as (Hi' & _ & _ & Hd' & _ & Hp'). split; cbn; [done|done|by apply Hd'|by rewrite Hp'|by eapply room_same].
Qed.
Lemma cached_dsk k k' dv nr : only_cached k k' -> dsk k' dv nr = dsk k dv nr.
Proof. intros (s' & (_ & Hd & _) & ->). apply Hd. Qed.
Lemma vol_get_dev k fsi dv (Q : nat -> kern S -> Prop) E : vol_ok k fsi dv -> Q dv k -> wp (get_dev fsi) Q E k.
Proof. intros Hv HQ. destruct (vo_fs _ _ _ Hv) as (f & Ef & Ed). by eapply wp_get_dev. Qed.

(** A header is read into a buffer. *)
Lemma header_wp {B} k fsi dv i (use : nat -> list Z -> M (kern S) B) Q E :
  vol_ok k fsi dv ->
  (forall b s1, bl_edit dv i (dsk k dv i) (k_blk k) b s1 -> wp (use b (dsk k dv i)) Q E (with_blk s1 k)) ->
  (forall e s', bl_read dv i (k_blk k) = Err e s' -> e <> 0 -> only_cached k (with_blk s' k) -> E e (with_blk s' k)) ->
  wp (d <~ get_dev fsi;; b <~ blk (bl_read d i);; h <~ gets (fun k => bl_data b (k_blk k));; use b h) Q E k.
Proof.
  intros Hv Huse He. pose proof Hv as [_ Hi Hd Hp Hr]. apply wp_bind, (vol_get_dev k fsi dv); [done|]. apply wp_bind, wp_blk. eapply wp_mono; [apply wp_run; by apply read_edit| |].
  - intros b s1 [_ Hed]. apply wp_bind, wp_gets. cbn [k_blk with_blk]. rewrite (edit_data _ _ _ _ _ _ Hed). by apply Huse.
  - intros e s1 (Er & Hne & Hs). apply He; [done|done|]. by exists s1.
Qed.
(** ... and given back. *)
Lemma put_wp {B} k dv i b s1 (use : M (kern S) B) Q E :
  bl_edit dv i (dsk k dv i) (k_blk k) b s1 -> (forall k', only_cached k k' -> wp use Q E k') -> wp (blk (bl_put b);;; use) Q E (with_blk s1 k).
Proof.
  intros Hed Huse. apply wp_bind, wp_blk. cbn [k_blk with_blk]. eapply wp_mono; [by eapply put_edit| |done]. intros [] s2 Hu. apply Huse. exists s2. split; [by eapply bl_upd_same|]. done.
Qed.

(** * The chain of headers *)

Inductive chain (dk : Z -> list Z) : Z -> list Z -> Prop :=
| chain_last i : h_next (dk i) = 0 -> chain dk i [i]
| chain_next i l : h_next (dk i) <> 0 -> chain dk (h_next (dk i)) l -> chain dk i (i :: l).
Lemma chain_ext dk dk' i l : (forall n, dk' n = dk n) -> chain dk i l -> chain dk' i l.
Proof. intros He. induction 1 as [i Hn|i l Hn Hc IH]; [constructor|constructor]; rewrite He; done. Qed.
(** The first header of [l] with the name is at [j]. *)
Definition first_named (dk : Z -> list Z) (name l : list Z) (j : Z) : Prop :=
  exists l1 l2, l = l1 ++ j :: l2 /\ h_name (dk j) = name /\ forall x, x ∈ l1 -> h_name (dk x) <> name.

(** The device has failed to read one of the blocks [l]. *)
Definition read_failed k (dv : nat) (l : list Z) (e : Z) : Prop :=
  e <> 0 /\ exists x k1 s2, x ∈ l /\ only_cached k k1 /\ bl_read dv x (k_blk k1) = Err e s2.
Lemma failed_later k k1 dv x l e : only_cached k k1 -> read_failed k1 dv l e -> read_failed k dv (x :: l) e.
Proof. intros Hc (Hne & y & k2 & s2 & Hy & Hc2 & Er). split; [done|]. exists y, k2, s2. split; [by apply list_elem_of_further|]. split; [by eapply cached_trans|done]. Qed.
Lemma failed_here k dv x l e s' : bl_inv (k_blk k) -> e <> 0 -> bl_read dv x (k_blk k) = Err e s' -> x ∈ l -> read_failed k dv l e.
Proof. intros Hi Hne Er Hx. split; [done|]. exists x, k, s'. split; [done|]. split; [by apply cached_refl|done]. Qed.

(** C35. Looking up a name of a boot file system whose chain of headers ends finds the
    first header with the name; when there is none the error is ENOENT, and any other
    error is that of the device.  The disk stays as it is, and a round for each header
    is enough. *)
Theorem bfs_find_spec fuel fsi dv name i l k :
  vol_ok k fsi dv -> chain (dsk k dv) i l -> (length l <= fuel)%nat ->
  wp (bfs_find fuel fsi name i)
    (fun j k' => first_named (dsk k dv) name l j /\ only_cached k k')
    (fun e k' => only_cached k k' /\ (e = ENOENT /\ (forall x, x ∈ l -> h_name (dsk k dv x) <> name) \/ read_failed k dv l e)) k.
Proof.
  revert i l k. induction fuel as [|fuel IH]; intros i l k Hv Hc Hf; [inversion Hc; subst; cbn in Hf; lia|]. cbn [bfs_find].
  assert (Hil : i ∈ l) by (inversion Hc; by left).
  apply (header_wp k fsi dv i (fun b h => if bool_decide (h_name h = name) then blk (bl_put b);;; ret i else blk (bl_put b);;; if h_next h =? 0 then fail ENOENT else bfs_find fuel fsi name (h_next h))); [done| |].
  2: { intros e s' Er Hne Hk. split; [done|]. right. eapply failed_here; [apply Hv|done|done|done]. }
  intros b s1 Hed. case_bool_decide as Hn.
  - eapply put_wp; [done|]. intros k' Hk. apply wp_ret. split; [|done]. inversion Hc; subst; [exists [], []|exists [], l0]; (split; [done|]); (split; [done|]); intros x Hx; by apply not_elem_of_nil in Hx.
  - eapply put_wp; [done|]. intros k' Hk. inversion Hc as [j Hz|j l' Hz Hc']; subst.
    + rewrite (proj2 (Z.eqb_eq _ _)) by done. apply wp_fail. split; [done|]. left. split; [done|]. intros x Hx. apply list_elem_of_singleton in Hx as ->. done.
    + rewrite (proj2 (Z.eqb_neq _ _)) by done. cbn [length] in Hf.
      eapply wp_mono; [apply (IH _ l' k'); [by eapply cached_vol|eapply chain_ext; [|exact Hc']; intros n; by apply cached_dsk|lia]| |]; cbv beta.
      * intros j' k2 [(l1 & l2 & -> & Ej & Hne) Hk2]. split; [|by eapply cached_trans]. exists (i :: l1), l2. split; [done|]. rewrite (cached_dsk _ _ _ _ Hk) in Ej. split; [done|].
        intros x Hx. apply elem_of_cons in Hx as [->|Hx]; [done|]. rewrite <- (cached_dsk _ _ _ _ Hk). by apply Hne.
      * intros e k2 [Hk2 Hr]. split; [by eapply cached_trans|]. destruct Hr as [[-> Hne]|Hr]; [left|right; by eapply failed_later]. split; [done|].
        intros x Hx. apply elem_of_cons in Hx as [->|Hx]; [done|]. rewrite <- (cached_dsk _ _ _ _ Hk). by apply Hne.
Qed.

(** * Reading *)

(** The bytes of the file whose header is in block [ino]. *)
Definition bfs_byte k (dv : nat) (ino o : Z) : Z := rd8 (dsk k dv (ino + 1 + o / BLK_SIZE)) (o mod BLK_SIZE).
Definition bfs_bytes k (dv : nat) (ino off count : Z) : list Z := bfs_byte k dv ino <$> seqZ off count.
Lemma bfs_bytes_block k dv ino off count :
  0 < count -> bl_inv (k_blk k) ->
  mem_read (dsk k dv (ino + 1 + off / BLK_SIZE)) (off mod BLK_SIZE) (rw_len off count) = bfs_bytes k dv ino off (rw_len off count).
Proof.
  intros Hc Hi. pose proof (rw_len_bounds off count Hc) as [Hl Hb]. pose proof (Z.mod_pos_bound off BLK_SIZE ltac:(unfold BLK_SIZE; lia)) as Hm.
  destruct (bl_disk_ok (k_blk k) dv (ino + 1 + off / BLK_SIZE) Hi) as [Hdl _]. fold (dsk k dv (ino + 1 + off / BLK_SIZE)) in Hdl.
  assert (Hlr : Z.of_nat (length (mem_read (dsk k dv (ino + 1 + off / BLK_SIZE)) (off mod BLK_SIZE) (rw_len off count))) = rw_len off count) by (apply length_mem_read; lia).
  apply list_eq. intros j. unfold bfs_bytes. rewrite list_lookup_fmap. destruct (decide (Z.of_nat j < rw_len off count)) as [Hj|Hj].
  - rewrite lookup_seqZ_lt by done. cbn. unfold bfs_byte. destruct (rw_len_block off count (off + Z.of_nat j)) as [-> ->]; [done|lia|].
    unfold mem_read, rd8. rewrite lookup_take_lt, lookup_drop by lia. replace (Z.to_nat (off mod BLK_SIZE + (off + Z.of_nat j - off))) with (Z.to_nat (off mod BLK_SIZE) + j)%nat by lia.
    destruct (lookup_lt_is_Some_2 (dsk k dv (ino + 1 + off / BLK_SIZE)) (Z.to_nat (off mod BLK_SIZE) + j)) as [x Hx]; [lia|]. by rewrite Hx.
  - rewrite lookup_seqZ_ge by lia. apply lookup_ge_None_2. lia.
Qed.
Lemma bfs_bytes_ext k k' dv ino off n : only_cached k k' -> bfs_bytes k' dv ino off n = bfs_bytes k dv ino off n.
Proof. intros Hk. unfold bfs_bytes. apply list_fmap_ext. intros j o _. unfold bfs_byte. by rewrite (cached_dsk _ _ _ _ Hk). Qed.
Lemma bfs_bytes_app k dv ino off n m : 0 <= n -> 0 <= m -> bfs_bytes k dv ino off (n + m) = bfs_bytes k dv ino off n ++ bfs_bytes k dv ino (off + n) m.
Proof. intros. unfold bfs_bytes. rewrite seqZ_app by done. apply fmap_app. Qed.

Lemma bfs_loop_ok fuel f dv off count g k :
  k_fso k !! f = Some g -> vol_ok k (f_fs g) dv -> 0 <= off -> 0 <= count -> 0 <= index g -> index g + 1 + (off + count) / BLK_SIZE < 2 ^ 32 -> off + count < 2 ^ 41 -> rounds fuel off count ->
  wp (bfs_read_loop fuel f off count) (fun d k' => d = bfs_bytes k dv (index g) off count /\ only_cached k k') (fun e k' => e <> 0 /\ only_cached k k') k.
Proof.
  revert off count k. induction fuel as [|fuel IH]; intros off count k Hg Hv Ho Hc Hix Hbl Hmax Hr; cbn [bfs_read_loop];
    (destruct (Z.eqb_spec count 0) as [->|Hne]; [apply wp_ret; split; [done|]; apply cached_refl, Hv|]); [by apply rounds_zero in Hr; [|lia]|].
  pose proof (rw_len_bounds off count ltac:(lia)) as [Hl Hb]. set (l := rw_len off count) in *.
  apply wp_bind, (wp_get_fso f g); [done|]. apply wp_bind, (vol_get_dev k _ dv); [done|].
  assert (Hblk : 0 <= index g + 1 + off / BLK_SIZE < 2 ^ 32).
  { assert (off / BLK_SIZE <= (off + count) / BLK_SIZE) by (apply Z.div_le_mono; unfold BLK_SIZE; lia). assert (0 <= off / BLK_SIZE) by (apply Z.div_pos; unfold BLK_SIZE; lia). lia. }
  rewrite (u32_small (index g + 1 + _)), u64_small by lia. pose proof Hv as [_ Hi Hd Hp Hrm].
  apply wp_bind, wp_blk. eapply wp_mono; [by apply blk_pread_ok| |intros e s1 [Hne1 Hs]; split; [done|by exists s1]]. intros d s1 [-> Hs]. cbv beta.
  assert (Hk : only_cached k (with_blk s1 k)) by (by exists s1).
  change (bl_disk (k_blk k) dv (index g + 1 + off / BLK_SIZE)) with (dsk k dv (index g + 1 + off / BLK_SIZE)). unfold l. rewrite bfs_bytes_block by (done || lia). fold l.
  eapply wp_seq; [apply (IH (off + l) (count - l) (with_blk s1 k)); [done|by eapply cached_vol|lia|lia|done|by replace (off + l + (count - l)) with (off + count) by lia|lia|by apply rounds_step; [lia|]]| |].
  - intros rest k2 [-> Hk2]. apply wp_ret. split; [|by eapply cached_trans]. rewrite (bfs_bytes_ext _ _ _ _ _ _ Hk), <- bfs_bytes_app by lia. f_equal. lia.
  - intros e k2 [Hne2 Hk2]. split; [done|by eapply cached_trans].
Qed.

(** C34. A read of a file of a boot file system gives the bytes behind its header, as
    many as were asked for up to the end of the file, and nothing from its end on; it
    changes neither the disk nor the kernel's tables. *)
Theorem bfs_read_spec f dv off count g k :
  k_fso k !! f = Some g -> vol_ok k (f_fs g) dv -> 0 <= off -> 0 <= count -> off + count < 2 ^ 64 ->
  0 <= size g < 2 ^ 32 -> 0 <= index g -> index g + 1 + size g / BLK_SIZE < 2 ^ 32 ->
  wp (bfs_read f off count)
    (fun d k' => d = bfs_bytes k dv (index g) off (Z.max 0 (Z.min count (size g - off))) /\ only_cached k k')
    (fun e k' => e <> 0 /\ only_cached k k') k.
Proof.
  intros Hg Hv Ho Hc Hmax Hsz Hix Hbl. unfold bfs_read. apply wp_bind, (wp_get_fso f g); [done|]. destruct (Z.leb_spec (size g) off) as [Hend|Hin].
  { apply wp_ret. split; [|apply cached_refl, Hv]. by replace (Z.max 0 (Z.min count (size g - off))) with 0 by lia. }
  rewrite u64_small, (u64_small (size g - off)) by lia. set (n := if size g <? off + count then size g - off else count).
  assert (Hn : n = Z.max 0 (Z.min count (size g - off))) by (unfold n; destruct (Z.ltb_spec (size g) (off + count)); lia).
  rewrite <- Hn. cbv zeta. apply bfs_loop_ok; [done|done|lia|lia|done| |lia|apply rounds_fuel; lia].
  assert ((off + n) / BLK_SIZE <= size g / BLK_SIZE) by (apply Z.div_le_mono; unfold BLK_SIZE; lia). lia.
Qed.

(** * What is left behind *)

(** [bfs_statfs] keeps the buffer of the last header: every call that succeeds leaves a
    reference to it, so that the buffer is never used again. *)
Theorem bfs_statfs_keeps_buffer fuel fsi dv l k :
  vol_ok k fsi dv -> chain (dsk k dv) BFS_FIRST l -> (length l <= fuel)%nat ->
  wp (bfs_statfs fuel fsi)
    (fun _ k' => exists b x, last l = Some x /\ bl_pins (k_blk k') = <[b := Pin (pin_cnt (bl_pins (k_blk k) !! b) + 1) dv x true]> (bl_pins (k_blk k)))
    (fun e k' => read_failed k dv l e /\ only_cached k k') k.
Proof.
  intros Hv Hc Hf. unfold bfs_statfs. eapply (wp_seq _ _ (fun _ k' => exists b x, last l = Some x /\ bl_pins (k_blk k') = <[b := Pin (pin_cnt (bl_pins (k_blk k) !! b) + 1) dv x true]> (bl_pins (k_blk k)))
    (fun e k' => read_failed k dv l e /\ only_cached k k')); [|by intros n k' Hp; apply wp_ret|done].
  revert k l Hv Hc Hf. generalize BFS_FIRST. induction fuel as [|fuel IH]; intros i k l Hv Hc Hf; [inversion Hc; subst; cbn in Hf; lia|]. cbn [bfs_last].
  apply (header_wp k fsi dv i (fun b h => if h_next h =? 0 then ret (u32 (i + u32 (h_size h + 511) / 512)) else blk (bl_put b);;; bfs_last fuel fsi (h_next h))); [done| |].
  2: { intros e s' Er Hne Hk. split; [|done]. eapply failed_here; [apply Hv|done|done|inversion Hc; by left]. }
  intros b s1 Hed. inversion Hc as [j Hz|j l' Hz Hc']; subst.
  - rewrite (proj2 (Z.eqb_eq _ _)) by done. apply wp_ret. exists b, i. split; [done|]. cbn. apply Hed.
  - rewrite (proj2 (Z.eqb_neq _ _)) by done. eapply put_wp; [done|]. intros k' Hk. cbn [length] in Hf.
    eapply wp_mono; [apply (IH _ k' l'); [by eapply cached_vol|eapply chain_ext; [|exact Hc']; intros n; by apply cached_dsk|lia]| |]; cbv beta.
    + intros n k2 (b2 & x & Hx & Hp). exists b2, x. split; [destruct l'; [done|exact Hx]|]. destruct Hk as (s' & (_ & _ & _ & _ & _ & Hps) & ->). cbn in Hp. by rewrite Hps in Hp.
    + intros e k2 [Hr Hk2]. split; [by eapply failed_later|by eapply cached_trans].
Qed.
End ok.

(** * A small boot disk *)

(** Block 128 is the header of the root directory and block 129 its only entry; block
    130 is the header of the file [a] and block 131 its data. *)
Definition boot_head (mode size next : Z) (name : list Z) : list Z :=
  le32 mode ++ le32 size ++ le32 next ++ name ++ zeros (500 - Z.of_nat (length name)).
Definition boot_image : list Z :=
  zeros (128 * 512) ++ boot_head 0x31ed 32 130 [] ++ demo_data [97] ++ boot_head 0x1a4 3 0 [97] ++ demo_data [120; 121; 122].
Definition boot_units : gmap nat rd_unit := {[ 0%nat := RdUnit (RdLive boot_image) 132 ]}.
Lemma boot_units_wf : rd_wf boot_units.
Proof.
  apply map_Forall_singleton. unfold rd_wf_unit. cbn [u_image u_size]. split; [|lia]. split; [by vm_compute|].
  assert (forallb (fun x => (0 <=? x) && (x <? 256)) boot_image = true) as E by (by vm_compute).
  rewrite forallb_forall in E. apply Forall_forall. intros x Hx%list_elem_of_In%E. unfold is_byte. lia.
Qed.
Definition boot_cache : cache (gmap nat rd_unit) := Cache ∅ ∅ [] 0 (Some 0%nat :: replicate 7 None) {[ 0%nat := Bdev "rd0" 1 0 0 0 ]} boot_units.
Definition boot_blocks : cache (gmap nat rd_unit) := match blk_init_n 4 true boot_cache with Ret _ c => c | _ => demo_cache0 end.
Lemma boot_blocks_ok :
  cinv boot_blocks /\ blk_count boot_blocks = 4%nat /\ pins boot_blocks = ∅ /\ has_dev boot_blocks 0 /\
  forall nr, vdisk boot_blocks 0 nr = rd_block boot_units 0 nr.
Proof.
  pose proof (blk_init_n_law 4 boot_cache boot_units_wf) as H. unfold wp in H. unfold boot_blocks. destruct (blk_init_n 4 true boot_cache) as [u c|e c|h]; [|done..].
  destruct H as (H1 & H2 & H3 & H4 & H5 & H6). split_and!; try done. unfold has_dev. by rewrite H4.
Qed.
#[local] Opaque boot_blocks.

Definition boot_fs : fs := Fs [] false true false false true true 0 (Some 1%nat) (Some 0%nat) (FsNat 0 0 0 0 0 0 [] 0 false 0 0).
Definition boot_file : fso := Fso false 1 false 0 130 1 0 0 1000 1000 1000 2 0x1a4 3 0 1 0 None 0 6 (FsoNat false 0 0 [] 0 0) no_pipe.
Definition boot_kern : kern (cache (gmap nat rd_unit)) :=
  Kern boot_blocks {[ 0%nat := boot_fs ]} {[ 0%nat := boot_file ]} 1 demo_task 5000 100 0 [] [] [None; Some 1%nat] [] [] [] [] 0.
Lemma boot_dsk nr : dsk boot_kern 0 nr = rd_block boot_units 0 nr.
Proof. apply boot_blocks_ok. Qed.
Lemma boot_vol : vol_ok boot_kern 0 0.
Proof.
  destruct boot_blocks_ok as (H1 & H2 & H3 & H4 & _). split; [by exists boot_fs|exact H1|exact H4| |].
  - change (pins_valid (pins boot_blocks)). by rewrite H3.
  - unfold room. change (bl_pins (k_blk boot_kern)) with (pins boot_blocks). change (bl_count (k_blk boot_kern)) with (blk_count boot_blocks). rewrite H2, H3. rewrite map_size_empty. lia.
Qed.
Lemma boot_chain : chain (dsk boot_kern 0) 128 [128; 130].
Proof.
  apply (chain_ext (rd_block boot_units 0)); [apply boot_dsk|]. assert (E1 : h_next (rd_block boot_units 0 128) = 130) by (by vm_compute). assert (E2 : h_next (rd_block boot_units 0 130) = 0) by (by vm_compute).
  apply chain_next; rewrite E1; [done|]. by apply chain_last.
Qed.
Lemma bfs_find_spec_witness :
  wp (bfs_find 2 0 [97] 128) (fun j _ => first_named (dsk boot_kern 0) [97] [128; 130] j)
    (fun e _ => e = ENOENT /\ (forall x, x ∈ [128; 130] -> h_name (dsk boot_kern 0 x) <> [97]) \/ read_failed boot_kern 0 [128; 130] e) boot_kern.
Proof.
  eapply wp_mono; [apply (bfs_find_spec 2 0 0 [97] 128 [128; 130] boot_kern boot_vol boot_chain); cbn; lia| |].
  - intros j k' [Hj _]. exact Hj.
  - intros e k' [_ He]. exact He.
Defined.
Lemma bfs_read_spec_witness : wp (bfs_read 0 1 10) (fun d _ => d = [121; 122]) (fun e _ => e <> 0) boot_kern.
Proof.
  eapply wp_mono; [apply (bfs_read_spec 0 0 1 10 boot_file boot_kern eq_refl boot_vol); [lia..|cbn; lia|cbn; lia|by vm_compute]| |by intros e k' [He _]].
  intros d k' [-> _]. change (Z.max 0 (Z.min 10 (size boot_file - 1))) with 2. unfold bfs_bytes. change (seqZ 1 2) with [1; 2]. cbn [fmap list_fmap]. unfold bfs_byte. rewrite !boot_dsk. by vm_compute.
Defined.
