(* ===== verification/DevFs.v ===== *)
(** The device file system (kern/fs/devfs/devfs.c) and the table of character devices
    (kern/cio.c).

    The drivers of character devices and the console are the class [CharDrivers] over
    a state of their own, and the drivers of block devices and their table the class
    [RawDevices]; [fs_getfso], which finds or makes a file object for a number and calls
    back [devfs_getfso], is an argument of [devfs_lookup].  What a request gets from
    user memory is an argument, as in FsSys.v.  Physical memory is a function from
    addresses to bytes; [size_t] and [unsigned long] have 64 bits, as on the amd64. *)

From S2P Require Import Prelude BlockDev BlockIface BlockCache BlockCacheOk BlockCacheProps Kern Frame NatBamOk Vfs NatRw NatRwOk FsMount NatType NatDemo FsSys Bfs.

Definition CIO_MAXDEV : nat := 64.
Definition ROOT_INDEX : Z := 1.
Definition NULL_INDEX : Z := 2.
Definition ZERO_INDEX : Z := 3.
Definition TTY_INDEX : Z := 4.
Definition MEM_INDEX : Z := 5.
Definition CON_INDEX : Z := 6.
Definition PTY_INDEX : Z := 7.
Definition RDIR_INDEX : Z := 8.
Definition BDEV_INDEX : Z := 9.
Definition CDEV_INDEX : Z := BDEV_INDEX + Z.of_nat BLK_MAXDEV.
Definition RDEV_INDEX : Z := CDEV_INDEX + Z.of_nat CIO_MAXDEV.
Definition MAX_INDEX : Z := RDEV_INDEX + Z.of_nat BLK_MAXDEV.
Definition PAGE_SIZE : Z := 4096.
Definition PGF_KERN : Z := 0x403.
Definition PAGE_VMASK : Z := 0x7ffffffffffff000.

(** [null], [zero], [mem], [console], [tty], [pty], [rdsk] and [rdsk/]. *)
Definition n_null : list Z := [110; 117; 108; 108].
Definition n_zero : list Z := [122; 101; 114; 111].
Definition n_mem : list Z := [109; 101; 109].
Definition n_console : list Z := [99; 111; 110; 115; 111; 108; 101].
Definition n_tty : list Z := [116; 116; 121].
Definition n_pty : list Z := [112; 116; 121].
Definition n_rdsk : list Z := [114; 100; 115; 107].
Definition n_rdsk_dir : list Z := n_rdsk ++ [47].

(** [struct devfs_stat] and [struct cdev]; a device is its number. *)
Record devfs_stat := DevStat { s_mode : Z; s_uid : Z; s_gid : Z }.
Record cdev := Cdev { c_name : list Z; c_no_seek : bool; c_fso : option nat; c_state : Z; c_refcnt : Z }.

(** The operations of [struct cdev] and of the console. *)
Class CharDrivers (X : Type) := {
  cd_open : nat -> M X unit;
  cd_close : nat -> M X unit;
  cd_read : nat -> bool -> Z -> Z -> M X (list Z);
  cd_write : nat -> bool -> Z -> list Z -> M X Z;
  cd_ioctl : nat -> Z -> (Z + list Z) -> Z -> M X (list Z);
  (** Width, height and flags of [con_con]. *)
  con_con : X -> option (Z * Z * Z);
  con_gotoxy : Z -> Z -> M X unit;
  con_puta : Z -> Z -> Z -> Z -> M X unit;
  con_disable : M X unit;
  con_mute : M X unit;
  con_putchar : Z -> M X unit;
}.
(** [blk_dev], and the operations of [struct bdev] that do not go through the cache,
    with the counters of the device. *)
Class RawDevices (S : Type) := {
  rw_dev : nat -> S -> option nat;
  rw_read : nat -> Z -> M S (list Z);
  rw_write : nat -> Z -> list Z -> M S unit;
  rw_ioctl : nat -> Z -> (Z + list Z) -> Z -> M S (list Z);
}.

Record devs (S X : Type) := Devs {
  v_kern : kern S;
  cio_dev : list (option nat);
  v_cdev : gmap nat cdev;
  v_stat : list devfs_stat;
  devfs_mounted : bool;
  v_mem : Z -> Z;
  v_tmp : Z;   (** [pg_tab[PAGE_TMP]] *)
  v_drv : X
}.
Arguments Devs {S X}. Arguments v_kern {S X}. Arguments cio_dev {S X}. Arguments v_cdev {S X}. Arguments v_stat {S X}.
Arguments devfs_mounted {S X}. Arguments v_mem {S X}. Arguments v_tmp {S X}. Arguments v_drv {S X}.

(** A request for the console: its arguments, or what cannot be read of them. *)
Inductive con_req :=
| CIOGINFO
| CIOGOTO (x y : Z)
| CIOPUTA (data : Z + list Z) (x y : Z)
| CIODISABLE
| CIOMUTE
| CIO_OTHER.

(** The first of [n] places from [i] on whose name is [name]. *)
Fixpoint dev_find (names : nat -> option (list Z)) (n i : nat) (name : list Z) : option nat :=
  match n with
  | O => None
  | S n' => if bool_decide (names i = Some name) then Some i else dev_find names n' (S i) name
  end.
Definition chars (s : string) : list Z := (fun a => Z.of_N (Ascii.N_of_ascii a)) <$> String.list_ascii_of_string s.
(** The place of a file in the part of the numbers from [base] on that has [n] places. *)
Definition dev_place (base : Z) (n : nat) (ino : Z) : option nat :=
  if (base <=? ino) && (ino <? base + Z.of_nat n) then Some (Z.to_nat (ino - base)) else None.

Section ops.
Context {S X : Type} `{BlockLayer S, FsLow S, BlockDevices S, RawDevices S, CharDrivers X}.
Notation D := (devs S X).

Definition with_kern (k : kern S) (v : D) : D := Devs k (cio_dev v) (v_cdev v) (v_stat v) (devfs_mounted v) (v_mem v) (v_tmp v) (v_drv v).
Definition with_cio (l : list (option nat)) (v : D) : D := Devs (v_kern v) l (v_cdev v) (v_stat v) (devfs_mounted v) (v_mem v) (v_tmp v) (v_drv v).
Definition with_cdev (m : gmap nat cdev) (v : D) : D := Devs (v_kern v) (cio_dev v) m (v_stat v) (devfs_mounted v) (v_mem v) (v_tmp v) (v_drv v).
Definition with_stat (l : list devfs_stat) (v : D) : D := Devs (v_kern v) (cio_dev v) (v_cdev v) l (devfs_mounted v) (v_mem v) (v_tmp v) (v_drv v).
Definition with_mounted (b : bool) (v : D) : D := Devs (v_kern v) (cio_dev v) (v_cdev v) (v_stat v) b (v_mem v) (v_tmp v) (v_drv v).
Definition with_mem (f : Z -> Z) (v : D) : D := Devs (v_kern v) (cio_dev v) (v_cdev v) (v_stat v) (devfs_mounted v) f (v_tmp v) (v_drv v).
Definition with_tmp (e : Z) (v : D) : D := Devs (v_kern v) (cio_dev v) (v_cdev v) (v_stat v) (devfs_mounted v) (v_mem v) e (v_drv v).
Definition with_drv (x : X) (v : D) : D := Devs (v_kern v) (cio_dev v) (v_cdev v) (v_stat v) (devfs_mounted v) (v_mem v) (v_tmp v) x.

Definition inkern {A} (m : M (kern S) A) : M D A := zoom v_kern with_kern m.
Definition indrv {A} (m : M X A) : M D A := zoom v_drv with_drv m.
Definition get_cdev (c : nat) : M D cdev := o <~ gets (fun v => v_cdev v !! c);; deref o.
Definition upd_cdev (c : nat) (h : cdev -> cdev) : M D unit := d <~ get_cdev c;; modify (fun v => with_cdev (<[c := h d]> (v_cdev v)) v).
Definition set_c_fso (o : option nat) (c : cdev) : cdev := Cdev (c_name c) (c_no_seek c) o (c_state c) (c_refcnt c).
Definition set_c_state (n : Z) (c : cdev) : cdev := Cdev (c_name c) (c_no_seek c) (c_fso c) n (c_refcnt c).
Definition set_c_refcnt (n : Z) (c : cdev) : cdev := Cdev (c_name c) (c_no_seek c) (c_fso c) (c_state c) n.

(** * Character devices (kern/cio.c) *)

Definition cio_install (c : nat) : M D unit :=
  l <~ gets cio_dev;;
  if existsb (fun o => bool_decide (o = Some c)) l then panic "cio_install: device already installed"
  else
    match find_slot (fun o => bool_decide (o = None)) l with
    | Some i => modify (with_cio (<[i := Some c]> l))
    | None => fail ENOMEM
    end.
Definition cio_uinstall (c : nat) : M D unit :=
  l <~ gets cio_dev;;
  match find_slot (fun o => bool_decide (o = Some c)) l with
  | Some i => modify (with_cio (<[i := None]> l))
  | None => panic "cio_install: device not installed"
  end.
(** The name of the device in a place of [cio_dev]. *)
Definition cname (v : D) (i : nat) : option (list Z) := o ← cio_dev v !! i; c ← o; c_name <$> v_cdev v !! c.
Definition cio_find (name : list Z) : M D nat :=
  o <~ gets (fun v => i ← dev_find (cname v) CIO_MAXDEV 0 name; o ← cio_dev v !! i; o);;
  match o with Some c => ret c | None => fail ENODEV end.
Definition cio_open (c : nat) : M D unit :=
  upd_cdev c (fun d => set_c_refcnt (c_refcnt d + 1) d);;;
  d <~ get_cdev c;;
  if c_refcnt d =? 1 then
    r <~ attempt (indrv (cd_open c));;
    match r with
    | inl e => upd_cdev c (fun d => set_c_refcnt (c_refcnt d - 1) d);;; fail e
    | inr _ => ret tt
    end
  else ret tt.
Definition cio_close (c : nat) : M D unit :=
  d <~ get_cdev c;;
  if c_refcnt d =? 0 then panic "cio_close: device not open"
  else if c_refcnt d =? 1 then
    r <~ attempt (indrv (cd_close c));;
    upd_cdev c (fun d => set_c_refcnt (c_refcnt d - 1) d);;;
    match r with inl e => fail e | inr _ => ret tt end
  else upd_cdev c (fun d => set_c_refcnt (c_refcnt d - 1) d).
Definition cio_state (c : nat) (st : Z) : M D unit :=
  upd_cdev c (set_c_state st);;;
  d <~ get_cdev c;;
  match c_fso d with Some f => inkern (fs_state f st) | None => ret tt end.
Definition cio_setstate (c : nat) (st : Z) : M D unit := d <~ get_cdev c;; cio_state c (Z.lor (c_state d) st).
Definition cio_clrstate (c : nat) (st : Z) : M D unit := d <~ get_cdev c;; cio_state c (Z.land (c_state d) (Z.lnot st)).

(** * Names *)

(** [devfs_init] without the installation of the type. *)
Definition devfs_stat0 : list devfs_stat :=
  let dir := DevStat (Z.lor S_IFDIR 0x1ed) 0 0 in
  let all := DevStat (Z.lor S_IFCHR 0x1b6) 0 0 in
  let own := DevStat (Z.lor S_IFCHR 0x180) 0 0 in
  let none := DevStat 0 0 0 in
  [none; dir; all; all; none; own; own; none; dir] ++ replicate BLK_MAXDEV (DevStat (Z.lor S_IFBLK 0x180) 0 0)
    ++ replicate CIO_MAXDEV own ++ replicate BLK_MAXDEV own.
Definition devfs_init : M D unit := modify (with_stat devfs_stat0).

Definition devfs_mount : M D unit :=
  b <~ gets devfs_mounted;; if b : bool then fail EBUSY else modify (with_mounted true).
Definition devfs_umount : M D unit := modify (with_mounted false).

Definition bname (v : D) (i : nat) : option (list Z) := d ← rw_dev i (k_blk (v_kern v)); chars <$> bd_name d (k_blk (v_kern v)).
Definition devfs_lookup (getfso : Z -> M D nat) (name : list Z) : M D nat :=
  if bool_decide (name = []) then getfso ROOT_INDEX
  else if bool_decide (name = n_null) then getfso NULL_INDEX
  else if bool_decide (name = n_zero) then getfso ZERO_INDEX
  else if bool_decide (name = n_mem) then getfso MEM_INDEX
  else if bool_decide (name = n_console) then getfso CON_INDEX
  else if bool_decide (name = n_tty) then fail ENOENT
  else if bool_decide (name = n_pty) then fail ENOENT
  else if bool_decide (name = n_rdsk) then getfso RDIR_INDEX
  else if bool_decide (take 5 name = n_rdsk_dir) then
    o <~ gets (fun v => dev_find (bname v) BLK_MAXDEV 0 (drop 5 name));;
    match o with Some i => getfso (Z.of_nat i + RDEV_INDEX) | None => fail ENOENT end
  else
    o <~ gets (fun v => dev_find (bname v) BLK_MAXDEV 0 name);;
    match o with
    | Some i => getfso (Z.of_nat i + BDEV_INDEX)
    | None =>
      o <~ gets (fun v => dev_find (cname v) CIO_MAXDEV 0 name);;
      match o with Some i => getfso (Z.of_nat i + CDEV_INDEX) | None => fail ENOENT end
    end.
Definition devfs_creat : M D unit := fail EPERM.

(** [de->index] and [de->name]; a name is not stored when [de->index] is 0. *)
Definition slot_entry (o : option (list Z)) (ino : Z) : Z * list Z := match o with Some n => (ino, n) | None => (0, []) end.
Definition devfs_rdsk_readdir (idx : Z) : M D (Z * list Z) :=
  if idx =? 0 then ret (RDIR_INDEX, [46])
  else if idx =? 1 then ret (ROOT_INDEX, [46; 46])
  else if idx - 2 <? Z.of_nat BLK_MAXDEV then
    o <~ gets (fun v => bname v (Z.to_nat (idx - 2)));; ret (slot_entry o (RDEV_INDEX + (idx - 2)))
  else fail ENOENT.
Definition devfs_readdir (dir : nat) (idx : Z) : M D (Z * list Z) :=
  if idx <? 0 then fail EINVAL
  else
    g <~ inkern (get_fso dir);;
    if index g =? RDIR_INDEX then devfs_rdsk_readdir idx
    else if idx =? 0 then ret (ROOT_INDEX, [46])
    else if idx =? 1 then ret (ROOT_INDEX, [46; 46])
    else if idx =? NULL_INDEX then ret (idx, n_null)
    else if idx =? ZERO_INDEX then ret (idx, n_zero)
    else if idx =? MEM_INDEX then ret (idx, n_mem)
    else if idx =? CON_INDEX then ret (idx, n_console)
    else if idx =? TTY_INDEX then
      c <~ gets (fun v => k_curr (v_kern v));; ret (if bool_decide (tty c = []) then (0, []) else (idx, n_tty))
    else if idx =? PTY_INDEX then ret (PTY_INDEX, n_pty)
    else if idx =? RDIR_INDEX then ret (RDIR_INDEX, n_rdsk)
    else
      match dev_place BDEV_INDEX BLK_MAXDEV idx, dev_place CDEV_INDEX CIO_MAXDEV idx with
      | Some i, _ => o <~ gets (fun v => bname v i);; ret (slot_entry o idx)
      | None, Some i => o <~ gets (fun v => cname v i);; ret (slot_entry o idx)
      | None, None => fail ENOENT
      end.

(** * File objects *)

(** [nlink] and the three times. *)
Definition stamp (f : nat) : M D unit := t <~ gets (fun v => k_time (v_kern v));; inkern (upd_fso f (fun g => set_times t t t (set_nlink 1 g))).
Definition bdev_at (i : nat) : M D nat := o <~ gets (fun v => rw_dev i (k_blk (v_kern v)));; deref o.
Definition cdev_at (i : nat) : M D nat := o <~ gets (fun v => cio_dev v !! i);; o <~ deref o;; deref o.
Definition devfs_getfso (f : nat) : M D unit :=
  inkern (fs_state f (Z.lor R_OK W_OK));;;
  g <~ inkern (get_fso f);;
  st <~ gets (fun v => v_stat v !! Z.to_nat (index g));;
  st <~ deref st;;
  inkern (upd_fso f (fun g => set_owner (s_uid st) (s_gid st) (set_mode (s_mode st) g)));;;
  (if index g =? ROOT_INDEX then ret tt else inkern (upd_fso f (set_rdev (makedev 1 (index g)))));;;
  let ino := index g in
  if (ino =? ROOT_INDEX) || (ino =? RDIR_INDEX) then stamp f
  else if (ino =? NULL_INDEX) || (ino =? ZERO_INDEX) || (ino =? CON_INDEX) then inkern (upd_fso f (set_no_seek true));;; stamp f
  else if ino =? MEM_INDEX then inkern (upd_fso f (set_no_seek false));;; stamp f
  else
    match dev_place BDEV_INDEX BLK_MAXDEV ino, dev_place RDEV_INDEX BLK_MAXDEV ino, dev_place CDEV_INDEX CIO_MAXDEV ino with
    | Some i, _, _ => d <~ bdev_at i;; inkern (blk (bd_open d));;; stamp f
    | None, Some i, _ => d <~ bdev_at i;; inkern (blk (bd_open d));;; stamp f
    | None, None, Some i =>
      c <~ cdev_at i;;
      cd <~ get_cdev c;;
      inkern (upd_fso f (set_state (c_state cd)));;;
      upd_cdev c (set_c_fso (Some f));;;
      cio_open c;;;
      cd <~ get_cdev c;;
      inkern (upd_fso f (set_no_seek (c_no_seek cd)));;;
      stamp f
    | None, None, None => panic "devfs_getfso: bad f->index"
    end.
Definition devfs_putfso (f : nat) : M D unit :=
  g <~ inkern (get_fso f);;
  let ino := index g in
  match dev_place BDEV_INDEX BLK_MAXDEV ino, dev_place RDEV_INDEX BLK_MAXDEV ino, dev_place CDEV_INDEX CIO_MAXDEV ino with
  | Some i, _, _ => d <~ bdev_at i;; _ <~ status (inkern (blk (bd_close d)));; ret tt
  | None, Some i, _ => d <~ bdev_at i;; _ <~ status (inkern (blk (bd_close d)));; ret tt
  | None, None, Some i => c <~ cdev_at i;; status (cio_close c);;; upd_cdev c (set_c_fso None)
  | None, None, None => ret tt
  end;;;
  modify (fun v => with_stat (<[Z.to_nat ino := DevStat (mode g) (uid g) (gid g)]> (v_stat v)) v).
Definition devfs_syncfso : M D unit := ret tt.

(** * Requests *)

(** [checked]: the result of [uga] for the request; the result is what CIOGINFO
    stores. *)
Fixpoint puta_loop (data : list Z) (x y : Z) : M D unit :=
  match data with
  | c :: a :: data' => indrv (con_puta x y c a);;; puta_loop data' (x + 1) y
  | _ => ret tt
  end.
Definition devfs_con_ioctl (req : con_req) (checked : Z) : M D (list Z) :=
  o <~ gets (fun v => con_con (v_drv v));;
  c <~ gets (fun v => k_curr (v_kern v));;
  let ok := (if checked =? 0 then ret tt else fail checked : M D unit) in
  match o with
  | None => fail ENODEV
  | Some (w, h, flags) =>
    match req with
    | CIOGINFO => ok;;; ret [flags; w; h]
    | CIOGOTO x y => ok;;; indrv (con_gotoxy x y);;; ret []
    | CIOPUTA data x y => ok;;; match data with inl e => fail e | inr l => puta_loop l x y;;; ret [] end
    | CIODISABLE => if negb (euid c =? 0) then fail EPERM else indrv con_disable;;; ret []
    | CIOMUTE => if negb (euid c =? 0) then fail EPERM else indrv con_mute;;; ret []
    | CIO_OTHER => fail ENOTTY
    end
  end.
Definition devfs_ioctl (f : nat) (cmd : Z) (req : con_req) (arg : Z + list Z) (copied : Z) : M D (list Z) :=
  g <~ inkern (get_fso f);;
  c <~ gets (fun v => k_curr (v_kern v));;
  let perm := inkern (fs_chk_perm f (Z.lor R_OK W_OK) (euid c) (egid c)) in
  if index g =? CON_INDEX then devfs_con_ioctl req copied
  else
    match dev_place BDEV_INDEX BLK_MAXDEV (index g), dev_place RDEV_INDEX BLK_MAXDEV (index g), dev_place CDEV_INDEX CIO_MAXDEV (index g) with
    | Some i, _, _ => perm;;; d <~ bdev_at i;; inkern (blk (rw_ioctl d cmd arg copied))
    | None, Some i, _ => perm;;; d <~ bdev_at i;; inkern (blk (rw_ioctl d cmd arg copied))
    | None, None, Some i => perm;;; c <~ cdev_at i;; indrv (cd_ioctl c cmd arg copied)
    | None, None, None => fail ENOTTY
    end.

(** * Data *)

(** /dev/mem: [PAGE_TMP] is mapped to one page after the other. *)
Definition devfs_mem_stmp (off : Z) : M D unit := modify (with_tmp (Z.lor (Z.land off PAGE_VMASK) PGF_KERN)).
(** The byte at an offset inside of [PAGE_TMP]. *)
Definition tmp_addr (v : D) (o : Z) : Z := Z.land (v_tmp v) PAGE_VMASK + o.
Definition mem_len (off left : Z) : Z := let poff := off mod PAGE_SIZE in if PAGE_SIZE <? left + poff then PAGE_SIZE - poff else left.
Definition mem_fuel (count : Z) : nat := Z.to_nat (count / PAGE_SIZE + 2).
Fixpoint mem_read_loop (fuel : nat) (off left : Z) : M D (list Z) :=
  if left =? 0 then devfs_mem_stmp 0;;; ret []
  else
    match fuel with
    | O => halted Undefined
    | Datatypes.S fuel' =>
      devfs_mem_stmp off;;;
      data <~ gets (fun v => (fun o => v_mem v (tmp_addr v o)) <$> seqZ (off mod PAGE_SIZE) (mem_len off left));;
      rest <~ mem_read_loop fuel' (u64 (off + mem_len off left)) (left - mem_len off left);;
      ret (data ++ rest)
    end.
Definition devfs_mem_read (off count : Z) : M D (list Z) := mem_read_loop (mem_fuel count) off count.
Definition mem_store (a : Z) (buf : list Z) (m : Z -> Z) : Z -> Z :=
  fun x => if (a <=? x) && (x <? a + Z.of_nat (length buf)) then rd8 buf (x - a) else m x.
Fixpoint mem_write_loop (fuel : nat) (off : Z) (buf : list Z) : M D unit :=
  let left := Z.of_nat (length buf) in
  if left =? 0 then devfs_mem_stmp 0
  else
    match fuel with
    | O => halted Undefined
    | Datatypes.S fuel' =>
      let l := mem_len off left in
      devfs_mem_stmp off;;;
      modify (fun v => with_mem (mem_store (tmp_addr v (off mod PAGE_SIZE)) (take (Z.to_nat l) buf) (v_mem v)) v);;;
      mem_write_loop fuel' (u64 (off + l)) (drop (Z.to_nat l) buf)
    end.
Definition devfs_mem_write (off : Z) (buf : list Z) : M D unit := mem_write_loop (mem_fuel (Z.of_nat (length buf))) off buf.

(** A block device through the cache ... *)
Fixpoint bdev_read (fuel : nat) (d : nat) (off count : Z) : M (kern S) (list Z) :=
  if count =? 0 then ret []
  else
    match fuel with
    | O => halted Undefined
    | Datatypes.S fuel' =>
      let l := rw_len off count in
      data <~ blk (blk_pread d (u32 (off / BLK_SIZE)) (off mod BLK_SIZE) l);;
      rest <~ bdev_read fuel' d (u64 (off + l)) (count - l);;
      ret (data ++ rest)
    end.
Fixpoint bdev_write (fuel : nat) (d : nat) (off : Z) (buf : list Z) : M (kern S) unit :=
  let count := Z.of_nat (length buf) in
  if count =? 0 then ret tt
  else
    match fuel with
    | O => halted Undefined
    | Datatypes.S fuel' =>
      let l := rw_len off count in
      blk (blk_pwrite d (u32 (off / BLK_SIZE)) (off mod BLK_SIZE) (take (Z.to_nat l) buf));;;
      bdev_write fuel' d (u64 (off + l)) (drop (Z.to_nat l) buf)
    end.
(** ... and past it. *)
Fixpoint raw_read (fuel : nat) (d : nat) (off count : Z) : M (kern S) (list Z) :=
  if count =? 0 then ret []
  else
    match fuel with
    | O => halted Undefined
    | Datatypes.S fuel' =>
      let l := rw_len off count in
      b <~ blk (rw_read d (u32 (off / BLK_SIZE)));;
      let data := if l =? BLK_SIZE then b else mem_read b (off mod BLK_SIZE) l in
      rest <~ raw_read fuel' d (u64 (off + l)) (count - l);;
      ret (data ++ rest)
    end.
Fixpoint raw_write (fuel : nat) (d : nat) (off : Z) (buf : list Z) : M (kern S) unit :=
  let count := Z.of_nat (length buf) in
  if count =? 0 then ret tt
  else
    match fuel with
    | O => halted Undefined
    | Datatypes.S fuel' =>
      let l := rw_len off count in
      (if l =? BLK_SIZE then blk (rw_write d (u32 (off / BLK_SIZE)) (take (Z.to_nat l) buf))
       else
         b <~ blk (rw_read d (u32 (off / BLK_SIZE)));;
         blk (rw_write d (u32 (off / BLK_SIZE)) (mem_write b (off mod BLK_SIZE) (take (Z.to_nat l) buf))));;;
      raw_write fuel' d (u64 (off + l)) (drop (Z.to_nat l) buf)
    end.

Definition devfs_read (f : nat) (nd : bool) (off count : Z) : M D (list Z) :=
  g <~ inkern (get_fso f);;
  let ino := index g in
  if ino =? NULL_INDEX then ret []
  else if ino =? ZERO_INDEX then ret (zeros count)
  else if ino =? MEM_INDEX then devfs_mem_read off count
  else if ino =? CON_INDEX then fail ENOSYS
  else if ino =? ROOT_INDEX then fail EISDIR
  else
    match dev_place BDEV_INDEX BLK_MAXDEV ino, dev_place CDEV_INDEX CIO_MAXDEV ino, dev_place RDEV_INDEX BLK_MAXDEV ino with
    | Some i, _, _ => d <~ bdev_at i;; inkern (bdev_read (rw_fuel count) d off count)
    | None, Some i, _ => c <~ cdev_at i;; indrv (cd_read c nd off count)
    | None, None, Some i => d <~ bdev_at i;; inkern (raw_read (rw_fuel count) d off count)
    | None, None, None => panic "devfs_read: bad req->fso->index"
    end.
Fixpoint putchars (l : list Z) : M D unit := match l with [] => ret tt | c :: l' => indrv (con_putchar c);;; putchars l' end.
Definition devfs_cwrite (buf : list Z) (checked : Z) : M D Z :=
  if checked =? 0 then putchars buf;;; ret (Z.of_nat (length buf)) else fail checked.
Definition devfs_write (f : nat) (nd : bool) (off : Z) (buf : list Z) (checked : Z) : M D Z :=
  g <~ inkern (get_fso f);;
  let ino := index g in
  let count := Z.of_nat (length buf) in
  if (ino =? NULL_INDEX) || (ino =? ZERO_INDEX) then ret count
  else if ino =? MEM_INDEX then devfs_mem_write off buf;;; ret count
  else if ino =? CON_INDEX then devfs_cwrite buf checked
  else if ino =? ROOT_INDEX then fail EISDIR
  else
    match dev_place BDEV_INDEX BLK_MAXDEV ino, dev_place CDEV_INDEX CIO_MAXDEV ino, dev_place RDEV_INDEX BLK_MAXDEV ino with
    | Some i, _, _ => d <~ bdev_at i;; inkern (bdev_write (rw_fuel count) d off buf);;; ret count
    | None, Some i, _ => c <~ cdev_at i;; indrv (cd_write c nd off buf)
    | None, None, Some i => d <~ bdev_at i;; inkern (raw_write (rw_fuel count) d off buf);;; ret count
    | None, None, None => panic "devfs_write: bad req->fso->index"
    end.

Definition devfs_trunc : M D unit := ret tt.
Definition devfs_chk_perm : M D unit := ret tt.
Definition devfs_link : M D unit := fail EPERM.
Definition devfs_unlink : M D unit := fail EPERM.
Definition devfs_rename : M D unit := fail EPERM.
Definition devfs_sync : M D unit := ret tt.
Definition devfs_chdir (name : list Z) : M D unit :=
  if bool_decide (name = []) || bool_decide (name = n_rdsk) then ret tt else fail ENOENT.
Definition devfs_mkdir : M D unit := fail EPERM.
Definition devfs_rmdir : M D unit := fail EPERM.
Definition devfs_statfs : M D (Z * Z) := ret (0, 0).
End ops.

(** * Block devices *)

Section bdev.
Context {S : Type} `{HS : BlockLayerOk S}.
Implicit Types k : kern S.

(** Device [d] exists, and a buffer can be had. *)
Record bdev_ok k (d : nat) : Prop := BdevOk {
  bo_inv : bl_inv (k_blk k);
  bo_dev : bl_dev (k_blk k) d;
  bo_pins : pins_valid (bl_pins (k_blk k));
  bo_room : room 1 (k_blk k)
}.
Definition dev_byte k (d : nat) (o : Z) : Z := rd8 (dsk k d (o / BLK_SIZE)) (o mod BLK_SIZE).
Definition dev_bytes k (d : nat) (off n : Z) : list Z := dev_byte k d <$> seqZ off n.
Lemma dev_bytes_bfs k d off n : dev_bytes k d off n = bfs_bytes k d (-1) off n.
Proof. unfold dev_bytes, bfs_bytes. apply list_fmap_ext. intros j o _. unfold dev_byte, bfs_byte. by replace (-1 + 1 + o / BLK_SIZE) with (o / BLK_SIZE) by lia. Qed.
Lemma bdev_cached k k' d : only_cached k k' -> bdev_ok k d -> bdev_ok k' d.
Proof. intros (s' & B & ->) [Hi Hd Hp Hr]. pose proof B as (Hi' & _ & _ & Hd' & _ & Hp'). split; cbn; [done|by apply Hd'|by rewrite Hp'|by eapply room_same]. Qed.

Lemma bdev_read_ok fuel d off count k :
  bdev_ok k d -> 0 <= off -> 0 <= count -> off + count < 2 ^ 41 -> rounds fuel off count ->
  wp (bdev_read fuel d off count) (fun dt k' => dt = dev_bytes k d off count /\ only_cached k k') (fun e k' => e <> 0 /\ only_cached k k') k.
Proof.
  revert off count k. induction fuel as [|fuel IH]; intros off count k Hk Ho Hc Hmax Hr; cbn [bdev_read];
    (destruct (Z.eqb_spec count 0) as [->|Hne]; [apply wp_ret; split; [done|]; apply cached_refl, Hk|]); [by apply rounds_zero in Hr; [|lia]|].
  pose proof (rw_len_bounds off count ltac:(lia)) as [Hl Hb]. set (l := rw_len off count) in *.
  assert (Hblk : 0 <= off / BLK_SIZE < 2 ^ 32) by (unfold BLK_SIZE; split; [apply Z.div_pos|apply Z.div_lt_upper_bound]; lia).
  rewrite u32_small, u64_small by lia. pose proof Hk as [Hi Hd Hp Hrm].
  apply wp_bind, wp_blk. eapply wp_mono; [by apply blk_pread_ok| |intros e s1 [Hne1 Hs]; split; [done|by exists s1]]. intros dt s1 [-> Hs]. cbv beta.
  assert (Hc1 : only_cached k (with_blk s1 k)) by (by exists s1).
  assert (E : mem_read (bl_disk (k_blk k) d (off / BLK_SIZE)) (off mod BLK_SIZE) l = dev_bytes k d off l).
  { rewrite dev_bytes_bfs. unfold l. rewrite <- (bfs_bytes_block k d (-1) off count) by (done || lia). by replace (-1 + 1 + off / BLK_SIZE) with (off / BLK_SIZE) by lia. }
  rewrite E. eapply wp_seq; [apply (IH (off + l) (count - l) (with_blk s1 k)); [by eapply bdev_cached|lia|lia|lia|by apply rounds_step; [lia|]]| |].
  - intros rest k2 [-> Hk2]. apply wp_ret. split; [|by eapply cached_trans]. rewrite !dev_bytes_bfs, (bfs_bytes_ext _ _ _ _ _ _ Hc1), <- bfs_bytes_app by lia. f_equal. lia.
  - intros e k2 [Hne2 Hk2]. split; [done|by eapply cached_trans].
Qed.

(** The first [n] bytes of [buf] are at [off], and nothing else has changed. *)
Record stored k (d : nat) (off : Z) (buf : list Z) (n : Z) k' : Prop := Stored {
  so_ok : bdev_ok k' d;
  so_rest : k' = with_blk (k_blk k') k;
  so_range : forall nr, bl_range (k_blk k) d nr -> bl_range (k_blk k') d nr;
  so_other : forall d' nr, d' <> d -> dsk k' d' nr = dsk k d' nr;
  so_byte : forall o, dev_byte k' d o = if decide (off <= o < off + n) then rd8 buf (o - off) else dev_byte k d o
}.
Lemma stored_none k d off buf k' : bdev_ok k d -> only_cached k k' -> stored k d off buf 0 k'.
Proof.
  intros Hk Hc. split; [by eapply bdev_cached| | | |]; destruct Hc as (s' & (_ & Hd & Hr & _) & ->); [done|by intros nr; apply Hr|intros d' nr _; apply Hd|].
  intros o. rewrite decide_False by lia. unfold dev_byte. f_equal. apply Hd.
Qed.
(** One block. *)
Lemma stored_block k d off buf s' :
  bdev_ok k d -> 0 <= off -> 0 < Z.of_nat (length buf) ->
  bl_upd d (off / BLK_SIZE) (mem_write (dsk k d (off / BLK_SIZE)) (off mod BLK_SIZE) (take (Z.to_nat (rw_len off (Z.of_nat (length buf)))) buf)) (k_blk k) s' ->
  stored k d off buf (rw_len off (Z.of_nat (length buf))) (with_blk s' k).
Proof.
  intros Hk Ho Hc (Hi' & Hd & Hr & Hdv & Hct & Hp). pose proof (rw_len_bounds off _ Hc) as [Hl Hb]. set (l := rw_len off _) in *. pose proof Hk as [Hi Hdev Hpv Hrm].
  assert (Hlt : Z.of_nat (length (take (Z.to_nat l) buf)) = l) by (rewrite length_take; lia).
  split; [split; cbn; [done|by apply Hdv|by rewrite Hp|]|done|intros nr; apply Hr| |].
  - unfold room in *. by rewrite Hp, Hct.
  - intros d' nr Hne. unfold dsk. cbn. rewrite Hd. apply disk_upd_ne. by left.
  - intros o. unfold dev_byte. unfold dsk at 1. cbn. rewrite Hd. pose proof (Z.mod_pos_bound o BLK_SIZE ltac:(unfold BLK_SIZE; lia)) as Hm. pose proof (Z.mod_pos_bound off BLK_SIZE ltac:(unfold BLK_SIZE; lia)) as Hmo.
    destruct (decide (o / BLK_SIZE = off / BLK_SIZE)) as [Eb|Hne].
    + rewrite Eb, disk_upd_eq. destruct (bl_disk_ok (k_blk k) d (off / BLK_SIZE) Hi) as [Hdl _]. fold (dsk k d (off / BLK_SIZE)) in Hdl. rewrite rd8_mem_write by lia. rewrite Hlt.
      pose proof (Z_div_mod_eq_full o BLK_SIZE). pose proof (Z_div_mod_eq_full off BLK_SIZE). rewrite Eb in *.
      destruct (decide (off mod BLK_SIZE <= o mod BLK_SIZE < off mod BLK_SIZE + l)); [rewrite decide_True by lia|by rewrite decide_False by lia].
      rewrite rd8_take by lia. f_equal. lia.
    + rewrite disk_upd_ne by (by right). rewrite decide_False; [done|]. intros Ho'. apply Hne. by apply (rw_len_block off (Z.of_nat (length buf)) o Hc).
Qed.
Lemma stored_app k d off buf l k1 n k' :
  0 <= l -> 0 <= n -> stored k d off buf l k1 -> stored k1 d (off + l) (drop (Z.to_nat l) buf) n k' -> stored k d off buf (l + n) k'.
Proof.
  intros Hl Hn [H1 H2 H3 H4 H5] [G1 G2 G3 G4 G5]. split; [done| |auto| |].
  - rewrite G2, H2. done.
  - intros d' nr Hne. by rewrite G4, H4.
  - intros o. rewrite G5, H5. destruct (decide (off + l <= o < off + l + n)) as [Hin|Hout].
    + rewrite decide_True by lia. rewrite rd8_drop by lia. f_equal. lia.
    + destruct (decide (off <= o < off + l)); [by rewrite decide_True by lia|by rewrite decide_False by lia].
Qed.
Lemma bdev_write_ok fuel d off buf k :
  bdev_ok k d -> is_bytes buf -> 0 <= off -> off + Z.of_nat (length buf) < 2 ^ 41 -> rounds fuel off (Z.of_nat (length buf)) ->
  (forall nr, off / BLK_SIZE <= nr <= (off + Z.of_nat (length buf) - 1) / BLK_SIZE -> bl_range (k_blk k) d nr) ->
  wp (bdev_write fuel d off buf) (fun _ k' => stored k d off buf (Z.of_nat (length buf)) k')
    (fun e k' => e <> 0 /\ exists n, 0 <= n <= Z.of_nat (length buf) /\ stored k d off buf n k') k.
Proof.
  revert off buf k. induction fuel as [|fuel IH]; intros off buf k Hk Hby Ho Hmax Hr Hrg; cbn [bdev_write];
    (destruct (Z.eqb_spec (Z.of_nat (length buf)) 0) as [E0|Hne]; [rewrite E0; apply wp_ret, stored_none; [done|apply cached_refl, Hk]|]); [by apply rounds_zero in Hr; [|lia]|].
  pose proof (rw_len_bounds off (Z.of_nat (length buf)) ltac:(lia)) as [Hl Hb]. pose proof (stored_block k d off buf) as Hsb. set (l := rw_len off (Z.of_nat (length buf))) in *.
  assert (Hblk : 0 <= off / BLK_SIZE < 2 ^ 32) by (unfold BLK_SIZE; split; [apply Z.div_pos|apply Z.div_lt_upper_bound]; lia).
  rewrite u32_small, u64_small by lia. pose proof Hk as [Hi Hd Hp Hrm]. assert (Hlt : Z.of_nat (length (take (Z.to_nat l) buf)) = l) by (rewrite length_take; lia).
  apply wp_bind, wp_blk. eapply wp_mono; [apply blk_pwrite_part_ok; [done|done|done|done|by apply Forall_take|apply Z.mod_pos_bound; unfold BLK_SIZE; lia|lia|apply Hrg; split; [lia|apply Z.div_le_mono; unfold BLK_SIZE; lia]]| |].
  2: { intros e s1 [Hne1 Hs]. split; [done|]. exists 0. split; [lia|]. apply stored_none; [done|by exists s1]. }
  intros [] s1 Hu. specialize (Hsb s1 Hk Ho ltac:(lia) Hu). assert (Hln : Z.of_nat (length (drop (Z.to_nat l) buf)) = Z.of_nat (length buf) - l) by (rewrite length_drop; lia).
  eapply wp_mono; [apply (IH (off + l) (drop (Z.to_nat l) buf) (with_blk s1 k)); [apply Hsb|by apply Forall_drop|lia|lia| |]| |]; cbv beta.
  - rewrite Hln. apply rounds_step; [lia|done].
  - intros nr Hnr. apply (so_range _ _ _ _ _ _ Hsb), Hrg. rewrite Hln in Hnr. replace (off + l + (Z.of_nat (length buf) - l) - 1) with (off + Z.of_nat (length buf) - 1) in Hnr by lia.
    assert (off / BLK_SIZE <= (off + l) / BLK_SIZE) by (apply Z.div_le_mono; unfold BLK_SIZE; lia). lia.
  - intros [] k' Hs'. rewrite Hln in Hs'. replace (Z.of_nat (length buf)) with (l + (Z.of_nat (length buf) - l)) at 1 by lia. eapply stored_app; [lia|lia|done|done].
  - intros e k' [He (n & Hn & Hs')]. split; [done|]. exists (l + n). split; [lia|]. eapply stored_app; [lia|lia|done|done].
Qed.
End bdev.

Section ends.
Context {S X : Type} `{BlockLayer S, RawDevices S, CharDrivers X}.
Implicit Types (k : kern S) (v : devs S X).

(** A driver whose operations return. *)
Definition driver_ends (d : nat) : Prop :=
  forall nr (s : S), wp (rw_read d nr) (fun _ _ => True) (fun _ _ => True) s /\ forall b, wp (rw_write d nr b) (fun _ _ => True) (fun _ _ => True) s.
Lemma raw_read_ends fuel d off count k :
  driver_ends d -> 0 <= off -> 0 <= count -> off + count < 2 ^ 64 -> rounds fuel off count -> wp (raw_read fuel d off count) (fun _ _ => True) (fun _ _ => True) k.
Proof.
  intros Hd. revert off count k. induction fuel as [|fuel IH]; intros off count k Ho Hc Hmax Hr; cbn [raw_read]; (destruct (Z.eqb_spec count 0) as [->|Hne]; [done|]); [by apply rounds_zero in Hr; [|lia]|].
  pose proof (rw_len_bounds off count ltac:(lia)) as [Hl _]. rewrite u64_small by lia. apply wp_bind, wp_blk. eapply wp_mono; [apply Hd| |done]. intros b s1 _.
  eapply wp_seq; [apply IH; [lia|lia|lia|by apply rounds_step; [lia|]]|done|done].
Qed.
Lemma raw_write_ends fuel d off buf k :
  driver_ends d -> 0 <= off -> off + Z.of_nat (length buf) < 2 ^ 64 -> rounds fuel off (Z.of_nat (length buf)) -> wp (raw_write fuel d off buf) (fun _ _ => True) (fun _ _ => True) k.
Proof.
  intros Hd. revert off buf k. induction fuel as [|fuel IH]; intros off buf k Ho Hmax Hr; cbn [raw_write]; (destruct (Z.eqb_spec (Z.of_nat (length buf)) 0) as [E0|Hne]; [done|]); [by apply rounds_zero in Hr; [|lia]|].
  pose proof (rw_len_bounds off (Z.of_nat (length buf)) ltac:(lia)) as [Hl _]. rewrite u64_small by lia. set (l := rw_len off _) in *. assert (Hln : Z.of_nat (length (drop (Z.to_nat l) buf)) = Z.of_nat (length buf) - l) by (rewrite length_drop; lia).
  eapply (wp_seq _ _ (fun _ _ => True) (fun _ _ => True)); [|intros [] k1 _; apply IH; rewrite ?Hln; [lia|lia|by apply rounds_step; [lia|]]|done].
  destruct (l =? BLK_SIZE); [apply wp_blk; apply Hd|]. apply wp_bind, wp_blk. eapply wp_mono; [apply Hd| |done]. intros b s1 _. apply wp_blk. apply Hd.
Qed.

(** ** Memory *)

Lemma page_base off : 0 <= off < 2 ^ 63 -> Z.land (Z.lor (Z.land off PAGE_VMASK) PGF_KERN) PAGE_VMASK = off - off mod PAGE_SIZE.
Proof.
  intros Ho. assert (E : PAGE_VMASK = Z.ldiff (Z.ones 63) (Z.ones 12)) by reflexivity. rewrite Z.land_lor_distr_l. change (Z.land PGF_KERN PAGE_VMASK) with 0. rewrite Z.lor_0_r.
  rewrite <- Z.land_assoc, Z.land_diag, E. rewrite Z.ldiff_land, Z.land_assoc, <- Z.ldiff_land. rewrite Z.land_ones, Z.mod_small by lia. rewrite Z.ldiff_ones_r, Z.shiftl_mul_pow2, Z.shiftr_div_pow2 by lia.
  unfold PAGE_SIZE. change (2 ^ 12) with 4096. pose proof (Z_div_mod_eq_full off 4096). lia.
Qed.
Lemma tmp_addr_at off v o : 0 <= off < 2 ^ 63 -> tmp_addr (with_tmp (Z.lor (Z.land off PAGE_VMASK) PGF_KERN) v) (off mod PAGE_SIZE + o) = off + o.
Proof. intros Ho. unfold tmp_addr. cbn [v_tmp with_tmp]. rewrite page_base by done. lia. Qed.
Lemma mem_len_bounds off left : 0 < left -> 0 < mem_len off left <= left.
Proof. intros Hl. unfold mem_len, PAGE_SIZE. pose proof (Z.mod_pos_bound off 4096 ltac:(lia)). destruct (Z.ltb_spec 4096 (left + off mod 4096)); lia. Qed.
(** The rounds left are enough. *)
Definition pages (fuel : nat) (off left : Z) : Prop := left = 0 \/ off mod PAGE_SIZE = 0 /\ left < Z.of_nat fuel * PAGE_SIZE \/ left < (Z.of_nat fuel - 1) * PAGE_SIZE.
Lemma pages_fuel off left : 0 <= left -> pages (mem_fuel left) off left.
Proof. intros Hl. right. right. unfold mem_fuel, PAGE_SIZE. rewrite Z2Nat.id by (apply Z.add_nonneg_nonneg; [apply Z.div_pos|]; lia). Z.div_mod_to_equations; lia. Qed.
Lemma pages_step fuel off left : 0 < left -> pages (Datatypes.S fuel) off left -> pages fuel (off + mem_len off left) (left - mem_len off left).
Proof.
  intros Hl Hp. unfold pages, mem_len, PAGE_SIZE in *. pose proof (Z.mod_pos_bound off 4096 ltac:(lia)) as Hm. destruct (Z.ltb_spec 4096 (left + off mod 4096)) as [Hlt|]; [|left; lia]. right. left.
  split; [Z.div_mod_to_equations; lia|]. destruct Hp as [?|[[Ha Hb]|Hb]]; lia.
Qed.

(** A read of /dev/mem gives the bytes of physical memory; afterwards [PAGE_TMP] maps
    the first page. *)
Lemma mem_read_run fuel off left v :
  0 <= off -> 0 <= left -> off + left < 2 ^ 63 -> pages fuel off left -> mem_read_loop fuel off left v = Ret (v_mem v <$> seqZ off left) (with_tmp PGF_KERN v).
Proof.
  revert off left v. induction fuel as [|fuel IH]; intros off left v Ho Hl Hmax Hp; cbn [mem_read_loop]; (destruct (Z.eqb_spec left 0) as [->|Hne]; [done|]); [destruct Hp as [?|[[_ ?]|?]]; unfold PAGE_SIZE in *; lia|].
  pose proof (mem_len_bounds off left ltac:(lia)) as Hml. rewrite u64_small by lia. unfold devfs_mem_stmp. rewrite modify_bind, gets_bind. set (v1 := with_tmp _ v).
  rewrite (bind_run _ _ _ _ _ (IH (off + mem_len off left) (left - mem_len off left) v1 ltac:(lia) ltac:(lia) ltac:(lia) ltac:(apply pages_step; [lia|done]))). unfold ret. f_equal.
  assert (El : seqZ off left = seqZ off (mem_len off left) ++ seqZ (off + mem_len off left) (left - mem_len off left)) by (rewrite <- seqZ_app by lia; f_equal; lia).
  rewrite El, fmap_app. f_equal.
  replace (seqZ (off mod PAGE_SIZE) (mem_len off left)) with ((fun o => off mod PAGE_SIZE + (o - off)) <$> seqZ off (mem_len off left)).
  - rewrite <- list_fmap_compose. apply list_fmap_ext. intros j o _. unfold compose, v1. rewrite tmp_addr_at by lia. cbn. f_equal. lia.
  - apply list_eq. intros j. rewrite list_lookup_fmap. destruct (decide (Z.of_nat j < mem_len off left)); [rewrite !lookup_seqZ_lt by done; cbn; f_equal; lia|by rewrite !lookup_seqZ_ge by lia].
Qed.
(** A write stores its bytes there. *)
Lemma mem_write_run fuel off buf v :
  0 <= off -> off + Z.of_nat (length buf) < 2 ^ 63 -> pages fuel off (Z.of_nat (length buf)) ->
  exists m, mem_write_loop fuel off buf v = Ret tt (with_tmp PGF_KERN (with_mem m v)) /\ forall a, m a = mem_store off buf (v_mem v) a.
Proof.
  revert off buf v. induction fuel as [|fuel IH]; intros off buf v Ho Hmax Hp; cbn [mem_write_loop]; (destruct (Z.eqb_spec (Z.of_nat (length buf)) 0) as [E0|Hne];
    [exists (v_mem v); split; [by destruct v|]; intros a; unfold mem_store; destruct (Z.leb_spec off a), (Z.ltb_spec a (off + Z.of_nat (length buf))); cbn; (done || lia)|]); [destruct Hp as [?|[[_ ?]|?]]; unfold PAGE_SIZE in *; lia|].
  pose proof (mem_len_bounds off (Z.of_nat (length buf)) ltac:(lia)) as Hml. rewrite u64_small by lia. pose proof (pages_step fuel off (Z.of_nat (length buf)) ltac:(lia) Hp) as Hp'. set (l := mem_len off _) in *. unfold devfs_mem_stmp. rewrite !modify_bind. set (v1 := with_mem _ _).
  assert (Hln : Z.of_nat (length (drop (Z.to_nat l) buf)) = Z.of_nat (length buf) - l) by (rewrite length_drop; lia).
  destruct (IH (off + l) (drop (Z.to_nat l) buf) v1 ltac:(lia) ltac:(lia) ltac:(by rewrite Hln)) as (m & E & Hm). exists m. split; [exact E|]. intros a. rewrite Hm. unfold v1. cbn [v_mem with_mem with_tmp].
  replace (tmp_addr _ (off mod PAGE_SIZE)) with off by (rewrite <- (Z.add_0_r (off mod PAGE_SIZE)), tmp_addr_at by lia; lia).
  unfold mem_store. rewrite Hln. assert (Hlt : Z.of_nat (length (take (Z.to_nat l) buf)) = l) by (rewrite length_take; lia). rewrite Hlt.
  destruct (Z.leb_spec (off + l) a), (Z.ltb_spec a (off + l + (Z.of_nat (length buf) - l))), (Z.leb_spec off a), (Z.ltb_spec a (off + l)), (Z.ltb_spec a (off + Z.of_nat (length buf))); cbn [andb]; try lia; try done.
  - rewrite rd8_drop by lia. f_equal. lia.
  - rewrite rd8_take by lia. done.
Qed.
End ends.

Section files.
Context {S X : Type} `{HS : BlockLayerOk S, FsLow S, BlockDevices S, RawDevices S, CharDrivers X}.
Implicit Types (v : devs S X) (g : fso).

Lemma inkern_run {A} (m : M (kern S) A) a v : m (v_kern v) = Ret a (v_kern v) -> inkern m v = Ret a v.
Proof. intros E. unfold inkern, zoom. rewrite E. by destruct v. Qed.
Lemma wp_inkern {A} (m : M (kern S) A) (Q : A -> devs S X -> Prop) E v :
  wp m (fun a k => Q a (with_kern k v)) (fun e k => E e (with_kern k v)) (v_kern v) -> wp (inkern m) Q E v.
Proof. apply wp_zoom. Qed.
Lemma index_run v f g : k_fso (v_kern v) !! f = Some g -> inkern (get_fso f) v = Ret g v.
Proof. intros E. by apply inkern_run, fso_known. Qed.
Lemma dev_place_in base (n i : nat) : (i < n)%nat -> dev_place base n (base + Z.of_nat i) = Some i.
Proof.
  intros Hi. unfold dev_place. rewrite (proj2 (Z.leb_le _ _)), (proj2 (Z.ltb_lt _ _)) by lia. cbn [andb]. f_equal. lia.
Qed.
Lemma dev_place_out base n ino : ino < base \/ base + Z.of_nat n <= ino -> dev_place base n ino = None.
Proof. intros Ho. unfold dev_place. destruct (Z.leb_spec base ino), (Z.ltb_spec ino (base + Z.of_nat n)); cbn; try done; lia. Qed.
Lemma dev_place_some base n ino i : dev_place base n ino = Some i -> ino = base + Z.of_nat i /\ (i < n)%nat.
Proof. unfold dev_place. destruct (Z.leb_spec base ino), (Z.ltb_spec ino (base + Z.of_nat n)); cbn; [intros [= <-]; lia|done..]. Qed.

(** C33. The file of a block device: a read gives the bytes of the device and changes
    nothing but what is cached; a write stores its bytes at its place and leaves every
    other byte of every device as it was, and when it fails it has stored the first few
    of them. *)
Theorem bdev_file_spec v f g (i : nat) d nd off count buf checked :
  k_fso (v_kern v) !! f = Some g -> index g = BDEV_INDEX + Z.of_nat i -> (i < BLK_MAXDEV)%nat -> rw_dev i (k_blk (v_kern v)) = Some d -> bdev_ok (v_kern v) d ->
  0 <= off -> 0 <= count -> off + count < 2 ^ 41 -> is_bytes buf -> off + Z.of_nat (length buf) < 2 ^ 41 ->
  (forall nr, off / BLK_SIZE <= nr <= (off + Z.of_nat (length buf) - 1) / BLK_SIZE -> bl_range (k_blk (v_kern v)) d nr) ->
  wp (devfs_read f nd off count)
    (fun dt v' => dt = dev_bytes (v_kern v) d off count /\ exists k', only_cached (v_kern v) k' /\ v' = with_kern k' v)
    (fun e v' => e <> 0 /\ exists k', only_cached (v_kern v) k' /\ v' = with_kern k' v) v /\
  wp (devfs_write f nd off buf checked)
    (fun n v' => n = Z.of_nat (length buf) /\ exists k', stored (v_kern v) d off buf n k' /\ v' = with_kern k' v)
    (fun e v' => e <> 0 /\ exists n k', 0 <= n <= Z.of_nat (length buf) /\ stored (v_kern v) d off buf n k' /\ v' = with_kern k' v) v.
Proof.
  intros Hf Hix Hi Hd Hk Ho Hc Hmax Hb Hmax' Hrg. assert (Hat : bdev_at i v = Ret d v) by (unfold bdev_at; by rewrite gets_bind, Hd).
  assert (Hne : forall c, In c [NULL_INDEX; ZERO_INDEX; MEM_INDEX; CON_INDEX; ROOT_INDEX] -> (index g =? c) = false).
  { intros c Hin. apply Z.eqb_neq. rewrite Hix. unfold NULL_INDEX, ZERO_INDEX, MEM_INDEX, CON_INDEX, ROOT_INDEX, BDEV_INDEX in *. cbn in Hin. lia. }
  split.
  - unfold devfs_read. eapply wp_known; [by apply index_run|]. cbv zeta. rewrite !Hne by (cbn; tauto). rewrite Hix, dev_place_in by done. eapply wp_known; [exact Hat|]. apply wp_inkern.
    eapply wp_mono; [apply bdev_read_ok; [done|done|done|done|by apply rounds_fuel]| |]; cbv beta; [intros dt k' [-> Hk']|intros e k' [He Hk']]; (split; [done|]); by exists k'.
  - unfold devfs_write. eapply wp_known; [by apply index_run|]. cbv zeta. rewrite !Hne by (cbn; tauto). cbn [orb]. rewrite Hix, dev_place_in by done. eapply wp_known; [exact Hat|]. apply wp_bind, wp_inkern.
    eapply wp_mono; [apply bdev_write_ok; [done|done|done|done|apply rounds_fuel; lia|done]| |]; cbv beta; [intros [] k' Hk'|intros e k' [He (n & Hn & Hk')]].
    + apply wp_ret. split; [done|]. by exists k'.
    + split; [done|]. by exists n, k'.
Qed.

(** * Names *)

Definition fixed_names : list (list Z) := [[]; n_null; n_zero; n_mem; n_console; n_tty; n_pty; n_rdsk].
(** The drivers have chosen different names, and none that devfs uses. *)
Record names_ok v : Prop := NamesOk {
  na_b : forall i j n, bname v i = Some n -> bname v j = Some n -> i = j;
  na_c : forall i j n, cname v i = Some n -> cname v j = Some n -> i = j;
  na_bc : forall i j n, bname v i = Some n -> cname v j <> Some n;
  na_fixed : forall i n, bname v i = Some n \/ cname v i = Some n -> n ∉ fixed_names /\ take 5 n <> n_rdsk_dir
}.
Lemma dev_find_first names n name i j : names (i + j)%nat = Some name -> (j < n)%nat -> (forall m, names m = Some name -> m = (i + j)%nat) -> dev_find names n i name = Some (i + j)%nat.
Proof.
  revert i j. induction n as [|n IH]; intros i j Hj Hn Hu; [lia|]. cbn [dev_find]. case_bool_decide as E; [f_equal; by apply Hu|].
  destruct j as [|j]; [by rewrite Nat.add_0_r in Hj|]. replace (i + Datatypes.S j)%nat with (Datatypes.S i + j)%nat in * by lia. apply IH; [done|lia|done].
Qed.
Lemma dev_find_none names n name i : (forall m, names m <> Some name) -> dev_find names n i name = None.
Proof. intros Hu. revert i. induction n as [|n IH]; intros i; [done|]. cbn [dev_find]. rewrite bool_decide_eq_false_2 by apply Hu. apply IH. Qed.

(** What [devfs_lookup] does with a name that is not one of its own. *)
Lemma lookup_device v getfso n :
  n ∉ fixed_names -> take 5 n <> n_rdsk_dir ->
  devfs_lookup getfso n v =
    match dev_find (bname v) BLK_MAXDEV 0 n with
    | Some i => getfso (Z.of_nat i + BDEV_INDEX) v
    | None => match dev_find (cname v) CIO_MAXDEV 0 n with Some i => getfso (Z.of_nat i + CDEV_INDEX) v | None => Err ENOENT v end
    end.
Proof.
  intros Hn Ht. unfold devfs_lookup. assert (Hne : forall m, m ∈ fixed_names -> bool_decide (n = m) = false) by (intros m Hm; apply bool_decide_eq_false_2; congruence).
  rewrite !Hne by (unfold fixed_names; set_solver). rewrite (bool_decide_eq_false_2 (n = [])) by (intros ->; apply Hn; by left). rewrite (bool_decide_eq_false_2 (take 5 n = n_rdsk_dir)) by exact Ht. cbv iota. rewrite gets_bind. destruct (dev_find (bname v) BLK_MAXDEV 0 n); [done|]. rewrite gets_bind. by destruct (dev_find (cname v) CIO_MAXDEV 0 n).
Qed.
Lemma lookup_bdev v getfso n (i : nat) : names_ok v -> (i < BLK_MAXDEV)%nat -> bname v i = Some n -> devfs_lookup getfso n v = getfso (BDEV_INDEX + Z.of_nat i) v.
Proof.
  intros Hv Hi Hb. destruct (na_fixed _ Hv i n (or_introl Hb)) as [Hf Ht]. rewrite lookup_device by done. rewrite (dev_find_first (bname v) BLK_MAXDEV n 0 i); [by rewrite Z.add_comm|done|done|]. intros m Hm. by apply (na_b _ Hv m i n).
Qed.
Lemma lookup_cdev v getfso n (i : nat) : names_ok v -> (i < CIO_MAXDEV)%nat -> cname v i = Some n -> devfs_lookup getfso n v = getfso (CDEV_INDEX + Z.of_nat i) v.
Proof.
  intros Hv Hi Hc. destruct (na_fixed _ Hv i n (or_intror Hc)) as [Hf Ht]. rewrite lookup_device by done. rewrite dev_find_none by (intros m Hm; by apply (na_bc _ Hv m i n)).
  rewrite (dev_find_first (cname v) CIO_MAXDEV n 0 i); [by rewrite Z.add_comm|done|done|]. intros m Hm. by apply (na_c _ Hv m i n).
Qed.
Lemma lookup_rdev v getfso n (i : nat) : names_ok v -> (i < BLK_MAXDEV)%nat -> bname v i = Some n -> devfs_lookup getfso (n_rdsk_dir ++ n) v = getfso (RDEV_INDEX + Z.of_nat i) v.
Proof.
  intros Hv Hi Hb. unfold devfs_lookup. cbn [n_rdsk_dir n_rdsk app take drop]. repeat (rewrite bool_decide_eq_false_2 by done). rewrite bool_decide_eq_true_2 by done. cbv iota.
  rewrite gets_bind, (dev_find_first (bname v) BLK_MAXDEV n 0 i); [by rewrite Z.add_comm|done|done|]. intros m Hm. by apply (na_b _ Hv m i n).
Qed.

(** Every name that a directory of devices lists, other than [.], [..], [tty] and
    [pty], leads back to the file it was listed for when it is looked up; this holds
    for the files of the root directory and for those of the directory [rdsk]. *)
Theorem dev_names_found v getfso dir g idx ino n :
  names_ok v -> k_fso (v_kern v) !! dir = Some g -> 2 <= idx -> devfs_readdir dir idx v = Ret (ino, n) v -> ino <> 0 ->
  (index g = ROOT_INDEX -> idx <> TTY_INDEX -> idx <> PTY_INDEX -> devfs_lookup getfso n v = getfso ino v) /\
  (index g = RDIR_INDEX -> devfs_lookup getfso (n_rdsk_dir ++ n) v = getfso ino v).
Proof.
  intros Hv Hg Hidx E Hino. revert E. unfold devfs_readdir. rewrite (proj2 (Z.ltb_ge _ _)) by lia. rewrite (bind_run _ _ _ _ _ (index_run v dir g Hg)). split.
  - intros Hr Htty Hpty. revert E. rewrite Hr. change (ROOT_INDEX =? RDIR_INDEX) with false. cbv iota.
    rewrite (proj2 (Z.eqb_neq idx 0)), (proj2 (Z.eqb_neq idx 1)) by lia. rewrite (proj2 (Z.eqb_neq idx TTY_INDEX)), (proj2 (Z.eqb_neq idx PTY_INDEX)) by done.
    repeat (match goal with |- context [idx =? ?c] => destruct (Z.eqb_spec idx c) as [->|?] end; [intros [= <- <-]; done|]).
    destruct (dev_place BDEV_INDEX BLK_MAXDEV idx) as [i|] eqn:Eb.
    + apply dev_place_some in Eb as [-> Hi]. cbv iota. rewrite gets_bind. unfold slot_entry, ret. destruct (bname v i) as [n'|] eqn:En; intros [= <- <-]; [|done]. by apply lookup_bdev.
    + destruct (dev_place CDEV_INDEX CIO_MAXDEV idx) as [i|] eqn:Ec; [|done]. apply dev_place_some in Ec as [-> Hi]. cbv iota. rewrite gets_bind. unfold slot_entry, ret. destruct (cname v i) as [n'|] eqn:En; intros [= <- <-]; [|done]. by apply lookup_cdev.
  - intros Hr. revert E. rewrite Hr. change (RDIR_INDEX =? RDIR_INDEX) with true. cbv iota. unfold devfs_rdsk_readdir. rewrite !(proj2 (Z.eqb_neq idx _)) by lia.
    destruct (Z.ltb_spec (idx - 2) (Z.of_nat BLK_MAXDEV)) as [Hlt|]; [|done]. rewrite gets_bind. unfold slot_entry, ret. destruct (bname v (Z.to_nat (idx - 2))) as [n'|] eqn:En; intros [= <- <-]; [|done].
    rewrite (lookup_rdev v getfso n' (Z.to_nat (idx - 2)) Hv) by (done || lia). f_equal. lia.
Qed.

(** * What goes wrong *)

(** The names [tty] and [pty] are listed and cannot be opened. *)
Theorem dev_pty_not_found v getfso dir g :
  k_fso (v_kern v) !! dir = Some g -> index g = ROOT_INDEX ->
  devfs_readdir dir PTY_INDEX v = Ret (PTY_INDEX, n_pty) v /\ devfs_lookup getfso n_pty v = Err ENOENT v.
Proof. intros Hg Hr. split; [|done]. unfold devfs_readdir. cbn [Z.ltb PTY_INDEX Z.compare]. rewrite (bind_run _ _ _ _ _ (index_run v dir g Hg)), Hr. done. Qed.
(** A read or a write of the directory [rdsk] stops the kernel. *)
Theorem dev_rdsk_panics v f g nd off count buf checked :
  k_fso (v_kern v) !! f = Some g -> index g = RDIR_INDEX ->
  (exists msg, devfs_read f nd off count v = Halt (KPanic msg)) /\ (exists msg, devfs_write f nd off buf checked v = Halt (KPanic msg)).
Proof. intros Hg Hr. split; [unfold devfs_read|unfold devfs_write]; rewrite (bind_run _ _ _ _ _ (index_run v f g Hg)), Hr; by eexists. Qed.

Definition set_fobj (f : nat) g v : devs S X := with_kern (with_fso (<[f := g]> (k_fso (v_kern v))) (v_kern v)) v.
Lemma upd_fobj_run f g h v : k_fso (v_kern v) !! f = Some g -> inkern (upd_fso f h) v = Ret tt (set_fobj f (h g) v).
Proof. intros E. unfold inkern, zoom, upd_fso. by rewrite (bind_run _ _ _ _ _ (fso_known f g _ E)). Qed.
Lemma set_fobj_eq f g v : k_fso (v_kern (set_fobj f g v)) !! f = Some g.
Proof. apply lookup_insert_eq. Qed.
Lemma get_cdev_run c cd v : v_cdev v !! c = Some cd -> get_cdev c v = Ret cd v.
Proof. intros E. unfold get_cdev. by rewrite gets_bind, E. Qed.
Lemma upd_cdev_run c cd h v : v_cdev v !! c = Some cd -> upd_cdev c h v = Ret tt (with_cdev (<[c := h cd]> (v_cdev v)) v).
Proof. intros E. unfold upd_cdev. by rewrite (bind_run _ _ _ _ _ (get_cdev_run c cd v E)). Qed.

(** A driver that refuses to be opened: the device goes on referring to the file object
    that was to be made, which [fs_getfso] then frees. *)
Theorem dev_open_failed_dangles v f g (i c : nat) cd st e x' :
  k_fso (v_kern v) !! f = Some g -> index g = CDEV_INDEX + Z.of_nat i -> (i < CIO_MAXDEV)%nat -> state g = Z.lor R_OK W_OK -> v_stat v !! Z.to_nat (index g) = Some st ->
  cio_dev v !! i = Some (Some c) -> v_cdev v !! c = Some cd -> c_refcnt cd = 0 -> cd_open c (v_drv v) = Err e x' ->
  exists v' cd', devfs_getfso f v = Err e v' /\ v_cdev v' !! c = Some cd' /\ c_fso cd' = Some f.
Proof.
  intros Hf Hix Hi Hs Hst Hcd Hc Hr Ho. unfold devfs_getfso.
  assert (E0 : inkern (fs_state f (Z.lor R_OK W_OK)) v = Ret tt v) by (apply inkern_run; unfold fs_state; rewrite (bind_run _ _ _ _ _ (fso_known f g _ Hf)), Hs; done).
  rewrite (bind_run _ _ _ _ _ E0), (bind_run _ _ _ _ _ (index_run v f g Hf)), gets_bind, Hst. cbn [deref]. rewrite ret_bind.
  rewrite (bind_run _ _ _ _ _ (upd_fobj_run f g _ v Hf)). set (g1 := set_owner _ _ _). set (v1 := set_fobj f g1 v).
  assert (Hne : forall n, n < CDEV_INDEX -> (index g =? n) = false) by (intros n Hn; apply Z.eqb_neq; lia).
  rewrite !Hne by (unfold CDEV_INDEX, BDEV_INDEX, ROOT_INDEX, BLK_MAXDEV; lia). rewrite (bind_run _ _ _ _ _ (upd_fobj_run f g1 _ v1 (set_fobj_eq f g1 v))). set (g2 := set_rdev _ g1). set (v2 := set_fobj f g2 v1).
  cbv zeta. rewrite !Hne by (unfold CDEV_INDEX, BDEV_INDEX, BLK_MAXDEV, RDIR_INDEX, NULL_INDEX, ZERO_INDEX, CON_INDEX, MEM_INDEX; lia). cbn [orb].
  rewrite Hix. rewrite (dev_place_out BDEV_INDEX), (dev_place_out RDEV_INDEX), (dev_place_in CDEV_INDEX) by (done || unfold RDEV_INDEX, CDEV_INDEX in *; lia).
  assert (Ec : cdev_at i v2 = Ret c v2) by (unfold cdev_at; rewrite gets_bind; cbn [v2 v1 set_fobj with_kern cio_dev]; by rewrite Hcd).
  rewrite (bind_run _ _ _ _ _ Ec), (bind_run _ _ _ _ _ (get_cdev_run c cd v2 Hc)), (bind_run _ _ _ _ _ (upd_fobj_run f g2 _ v2 (set_fobj_eq f g2 v1))).
  set (v3 := set_fobj f _ v2). assert (Hc3 : v_cdev v3 !! c = Some cd) by exact Hc. rewrite (bind_run _ _ _ _ _ (upd_cdev_run c cd _ v3 Hc3)).
  set (cd1 := set_c_fso (Some f) cd). set (v4 := with_cdev _ v3). assert (Hc4 : v_cdev v4 !! c = Some cd1) by apply lookup_insert_eq.
  set (cd2 := set_c_refcnt (c_refcnt cd1 + 1) cd1). set (v5 := with_cdev (<[c := cd2]> (v_cdev v4)) v4). assert (Hc5 : v_cdev v5 !! c = Some cd2) by apply lookup_insert_eq.
  set (v6 := with_drv x' v5). assert (Hc6 : v_cdev v6 !! c = Some cd2) by exact Hc5. set (v7 := with_cdev (<[c := set_c_refcnt (c_refcnt cd2 - 1) cd2]> (v_cdev v6)) v6).
  assert (Eo : cio_open c v4 = Err e v7).
  { unfold cio_open. rewrite (bind_run _ _ _ _ _ (upd_cdev_run c cd1 _ v4 Hc4)). fold cd2. fold v5. rewrite (bind_run _ _ _ _ _ (get_cdev_run c cd2 v5 Hc5)).
    assert (c_refcnt cd2 = 1) as -> by (cbn; lia). cbn [Z.eqb Pos.eqb]. assert (Ea : attempt (indrv (cd_open c)) v5 = Ret (inl e) v6) by (unfold attempt, indrv, zoom; cbn [v_drv v5 v4 v3 v2 v1 with_cdev set_fobj with_kern]; by rewrite Ho).
    rewrite (bind_run _ _ _ _ _ Ea), (bind_run _ _ _ _ _ (upd_cdev_run c cd2 _ v6 Hc6)). done. }
  exists v7. eexists. split; [unfold bind; by rewrite Eo|]. split; [apply lookup_insert_eq|done].
Qed.
End files.

(** * The devices of the buffer cache *)

Section cache.
Context {D : Type} `{BlockDriver D}.
Definition raw_read_dev (d : nat) (nr : Z) : M (cache D) (list Z) :=
  c <~ gets id;;
  let '(err, data, d') := drv_read d nr (zeros BLK_SIZE) (drv c) in
  modify (BlockCache.with_drv d');;;
  if negb (err =? 0) then upd_dev d count_error;;; fail err else upd_dev d count_read;;; ret data.
Definition raw_write_dev (d : nat) (nr : Z) (data : list Z) : M (cache D) unit :=
  c <~ gets id;;
  let '(err, d') := drv_write d nr data (drv c) in
  modify (BlockCache.with_drv d');;;
  if negb (err =? 0) then upd_dev d count_error;;; fail err else upd_dev d count_write.
(** The requests of the drivers are an argument. *)
Definition cache_raw (ioctl : nat -> Z -> (Z + list Z) -> Z -> M (cache D) (list Z)) : RawDevices (cache D) := {|
  rw_dev i c := o ← blk_dev c !! i; o;
  rw_read := raw_read_dev;
  rw_write := raw_write_dev;
  rw_ioctl := ioctl
|}.
End cache.

(** * The devices of a small system *)

#[local] Instance demo_raw : RawDevices (cache (gmap nat rd_unit)) := cache_raw (fun _ _ _ _ => fail ENOTTY).
(** No character device does anything, and there is no console. *)
#[local] Instance demo_drivers : CharDrivers unit := {|
  cd_open _ := ret tt; cd_close _ := ret tt; cd_read _ _ _ _ := ret []; cd_write _ _ _ _ := ret 0; cd_ioctl _ _ _ _ := fail ENOTTY;
  con_con _ := None; con_gotoxy _ _ := ret tt; con_puta _ _ _ _ := ret tt; con_disable := ret tt; con_mute := ret tt; con_putchar _ := ret tt
|}.
(** File object 0 is the disk [rd0], file object 1 the root directory; [kbd] is a
    character device. *)
Definition dev_file (ino : Z) : fso := Fso false 1 false 0 ino 1 0 0 0 0 0 0 0 0 0 0 0 None 0 6 (FsoNat false 0 0 [] 0 0) no_pipe.
Definition demo_devs : devs (cache (gmap nat rd_unit)) unit :=
  Devs (with_fso {[ 0%nat := dev_file BDEV_INDEX; 1%nat := dev_file ROOT_INDEX ]} demo_kern)
    (Some 0%nat :: replicate 63 None) {[ 0%nat := Cdev [107; 98; 100] true None 0 0 ]} devfs_stat0 true (fun _ => 0) 0 tt.
Lemma demo_table : blk_dev (demo_blocks 8) = Some 0%nat :: replicate 7 None /\ d_name <$> (bdevs (demo_blocks 8) !! 0%nat) = Some "rd0"%string.
Proof. split; by vm_compute. Qed.
#[local] Opaque demo_blocks.
Lemma demo_devs_dsk nr : dsk (v_kern demo_devs) 0 nr = demo_disk nr.
Proof. exact (demo_dsk nr). Qed.
Lemma demo_bdev : bdev_ok (v_kern demo_devs) 0.
Proof. destruct demo_bam_ok. by split. Qed.
Lemma bdev_file_spec_witness :
  wp (devfs_read 0 false 3072 5) (fun dt _ => dt = [104; 101; 108; 108; 111]) (fun e _ => e <> 0) demo_devs /\
  wp (devfs_write 0 false 3073 [1; 2; 3] 0) (fun n v' => n = 3 /\ forall o, dev_byte (v_kern v') 0 o = if decide (3073 <= o < 3076) then rd8 [1; 2; 3] (o - 3073) else dev_byte (v_kern demo_devs) 0 o)
    (fun e _ => e <> 0) demo_devs.
Proof.
  assert (Hd : rw_dev 0 (k_blk (v_kern demo_devs)) = Some 0%nat) by (cbn [rw_dev demo_raw cache_raw]; change (k_blk (v_kern demo_devs)) with (demo_blocks 8); by rewrite (proj1 demo_table)).
  split.
  - destruct (bdev_file_spec demo_devs 0 (dev_file BDEV_INDEX) 0 0 false 3072 5 [] 0 eq_refl eq_refl ltac:(unfold BLK_MAXDEV; lia) Hd demo_bdev ltac:(lia) ltac:(lia) ltac:(lia) ltac:(constructor) ltac:(cbn; lia)) as [Hr _].
    { intros nr Hnr. apply demo_range. unfold BLK_SIZE in Hnr. cbn [length Z.of_nat Pos.of_succ_nat Pos.succ] in Hnr. Z.div_mod_to_equations; lia. }
    eapply wp_mono; [exact Hr| |by intros e v' [He _]]. intros dt v' [-> _]. unfold dev_bytes. change (seqZ 3072 5) with [3072; 3073; 3074; 3075; 3076]. cbn [fmap list_fmap]. unfold dev_byte.
    rewrite !demo_devs_dsk. by vm_compute.
  - destruct (bdev_file_spec demo_devs 0 (dev_file BDEV_INDEX) 0 0 false 3073 0 [1; 2; 3] 0 eq_refl eq_refl ltac:(unfold BLK_MAXDEV; lia) Hd demo_bdev ltac:(lia) ltac:(lia) ltac:(lia) ltac:(repeat constructor; lia) ltac:(cbn; lia)) as [_ Hw].
    { intros nr Hnr. apply demo_range. unfold BLK_SIZE in Hnr. cbn [length Z.of_nat Pos.of_succ_nat Pos.succ] in Hnr. Z.div_mod_to_equations; lia. }
    eapply wp_mono; [exact Hw| |by intros e v' [He _]]. intros n v' [-> (k' & Hs & ->)]. split; [done|]. apply Hs.
Defined.

Lemma demo_bname i n : bname demo_devs i = Some n -> i = 0%nat /\ n = [114; 100; 48].
Proof.
  unfold bname. cbn [rw_dev demo_raw cache_raw bd_name cache_devices]. change (k_blk (v_kern demo_devs)) with (demo_blocks 8). rewrite (proj1 demo_table).
  destruct i as [|i]; cbn [lookup list_lookup mbind option_bind]; [rewrite (proj2 demo_table); by intros [= <-]|].
  destruct ((replicate 7 None : list (option nat)) !! i) as [o|] eqn:E; [|done]. apply lookup_replicate in E as [-> _]. done.
Qed.
Lemma demo_cname i n : cname demo_devs i = Some n -> i = 0%nat /\ n = [107; 98; 100].
Proof.
  unfold cname. cbn [cio_dev demo_devs]. destruct i as [|i]; cbn [lookup list_lookup mbind option_bind]; [by intros [= <-]|].
  destruct ((replicate 63 None : list (option nat)) !! i) as [o|] eqn:E; [|done]. apply lookup_replicate in E as [-> _]. done.
Qed.
Lemma demo_names : names_ok demo_devs.
Proof.
  split.
  - intros i j n [-> _]%demo_bname [-> _]%demo_bname. done.
  - intros i j n [-> _]%demo_cname [-> _]%demo_cname. done.
  - intros i j n [_ ->]%demo_bname [_ Hc]%demo_cname. done.
  - intros i n [[_ ->]%demo_bname|[_ ->]%demo_cname]; (split; [unfold fixed_names; set_solver|done]).
Qed.
Lemma dev_names_found_witness :
  devfs_readdir 1 BDEV_INDEX demo_devs = Ret (BDEV_INDEX, [114; 100; 48]) demo_devs /\
  devfs_lookup (fun n => ret (Z.to_nat n)) [114; 100; 48] demo_devs = Ret 9%nat demo_devs.
Proof.
  assert (E : devfs_readdir 1 BDEV_INDEX demo_devs = Ret (BDEV_INDEX, [114; 100; 48]) demo_devs) by (by vm_compute).
  split; [exact E|].
  destruct (dev_names_found demo_devs (fun n => ret (Z.to_nat n)) 1 (dev_file ROOT_INDEX) BDEV_INDEX BDEV_INDEX [114; 100; 48] demo_names eq_refl ltac:(unfold BDEV_INDEX; lia) E ltac:(done)) as [H _].
  apply H; done.
Defined.
