(* ===== verification/FsDemo.v ===== *)
(** The theorems on names, mounts, descriptors and pipes, applied to the small
    system of NatDemo.v. *)

From S2P Require Import Prelude BlockDev BlockIface BlockCache BlockCacheOk BlockCacheProps Kern Frame Vfs Pipe PipeOk NatFso NatMount NatDir FsPath FsMount FsMountOk FsMisc FsMiscOk Fdesc FdescOk NatType FsSys NatRw NatFile NatDemo.

(** * Names *)

(** [/a/b] and the path [../c//./d]. *)
Definition demo_cwd : list (list Z) := [[97]; [98]].
Definition demo_path : list Z := [46; 46; 47; 99; 47; 47; 46; 47; 100].

Lemma demo_comp c : comp_ok [c] <-> c <> SLASH /\ c <> DOT.
Proof.
  unfold comp_ok. split.
  - intros (_ & Hs & Hd & _). inversion Hs. subst. split; congruence.
  - intros [Hs Hd]. split_and!; [done|by repeat constructor|congruence|done].
Qed.
Lemma demo_cwd_ok : Forall comp_ok demo_cwd.
Proof. repeat (apply Forall_cons_2; [by apply demo_comp|]); by apply Forall_nil_2. Qed.

Lemma fqname_resolves_witness : fqname (render demo_cwd) [] demo_path = inr [47; 97; 47; 99; 47; 100].
Proof. rewrite (fqname_resolves demo_cwd [] demo_path demo_cwd_ok); [by vm_compute|done]. Defined.

Lemma demo_normal : normal (render demo_cwd).
Proof. apply normal_render. exists demo_cwd. split; [done|]. split; [apply demo_cwd_ok|done]. Qed.

Lemma fqname_normal_witness : normal [47; 97; 47; 99; 47; 100].
Proof. apply (fqname_normal (render demo_cwd) [] demo_path); [apply demo_normal|by left|by vm_compute]. Defined.

Lemma fqname_idempotent_witness : fqname [47] [] (render demo_cwd) = inr (render demo_cwd).
Proof.
  apply (fqname_idempotent [47] [] (render demo_cwd)); [|apply demo_normal|by left].
  split; [by left|done].
Defined.

(** * Mounts *)

Lemma demo_slots i f : k_fs demo_kern !! i = Some f -> (i = 0%nat /\ f = demo_fs) \/ f = empty_fs.
Proof.
  cbn [k_fs demo_kern]. intros [[<- <-]|[_ Hf]]%lookup_insert_Some; [by left|right].
  apply elem_of_list_to_map_2 in Hf. apply list_elem_of_fmap in Hf as (j & [= -> ->] & _). done.
Qed.

Lemma demo_mounts : mounts_ok demo_kern.
Proof.
  split.
  - intros i f _ [[-> ->]| ->]%demo_slots; by auto.
  - intros i j f g _ _ Hne [[-> ->]| ->]%demo_slots [[-> ->]| ->]%demo_slots; done.
Qed.

Lemma demo_tables : tables demo_kern.
Proof.
  split.
  - intros i Hi. assert (forallb (fun j => bool_decide (is_Some (k_fs demo_kern !! j))) (seq 0 16) = true) as E by (by vm_compute).
    rewrite forallb_forall in E. specialize (E i). rewrite <- list_elem_of_In, elem_of_seq in E.
    specialize (E ltac:(unfold FS_MAXFS in Hi; lia)). by apply bool_decide_eq_true in E.
  - intros j Hj. cbn in Hj. destruct j as [|[|[|j]]]; [by eexists..|lia].
Qed.

(** The file system unmounted while no object is in use. *)
Definition demo_idle : kern (cache (gmap nat rd_unit)) := with_high 0 demo_kern.
Definition state_of {A} (r : outcome (kern (cache (gmap nat rd_unit))) A) : kern (cache (gmap nat rd_unit)) :=
  match r with Ret _ k | Err _ k => k | Halt _ => demo_idle end.
Definition demo_gone : kern (cache (gmap nat rd_unit)) := state_of (fs_umount [] demo_idle).

(** The file system is removable and due to be unmounted; the clock asks for
    that, but before the deferred call runs the file system is unmounted and the
    device mounted for good in the same slot. *)
Definition demo_due : kern (cache (gmap nat rd_unit)) :=
  with_fs (<[0%nat := Fs [] true false false false true true 50 (Some NATFS) (Some 0%nat) demo_nat]> (k_fs demo_idle)) demo_idle.
Definition demo_ticked : kern (cache (gmap nat rd_unit)) := state_of (fs_clock demo_due).
Definition demo_unmounted : kern (cache (gmap nat rd_unit)) := state_of (fs_umount [] demo_ticked).
Definition demo_remounted : kern (cache (gmap nat rd_unit)) := state_of (fs_mount [] "rd0" (ft_name NATFS) 0 demo_unmounted).
Definition demo_late : kern (cache (gmap nat rd_unit)) := state_of (fs_dumount 0 (with_deferred [] demo_remounted)).

Definition slot0 (k : kern (cache (gmap nat rd_unit))) : option (bool * bool * bool) :=
  (fun f => (in_use f, removable f, active f)) <$> k_fs k !! 0%nat.
(** The deferred call unmounts the new file system: it is fixed, in use and not
    active, and no later operation mounts it again. *)
Theorem late_unmount_deactivates :
  slot0 demo_due = Some (true, true, true) /\ k_deferred demo_ticked = [0%nat] /\ slot0 demo_unmounted = Some (false, true, true) /\
  slot0 demo_remounted = Some (true, false, true) /\ slot0 demo_late = Some (true, false, false).
Proof. split_and!; vm_compute; reflexivity. Qed.

Lemma demo_due_inv : mount_inv (G := ∅) demo_due.
Proof.
  assert (forall i f, k_fs demo_due !! i = Some f -> (i = 0%nat /\ in_use f = true /\ removable f = true) \/ f = empty_fs) as Hs.
  { intros i f. cbn [k_fs demo_due with_fs]. intros [[<- <-]|[Hne Hf]]%lookup_insert_Some; [by left|right].
    change (k_fs demo_kern !! i = Some f) in Hf. by destruct (demo_slots i f Hf) as [[-> _]|]. }
  split; [split|constructor].
  - intros i f _ [(-> & _ & Hr)| ->]%Hs; [by right; left|done].
  - intros i j f g _ _ Hne [(-> & _)| ->]%Hs [(-> & _)| ->]%Hs; done.
Qed.
Lemma mount_table_consistent_witness :
  (forall i f, (i < FS_MAXFS)%nat -> k_fs demo_late !! i = Some f -> in_use f = true -> i ∉ ({[0%nat]} : gset nat) -> removable f = true \/ active f = true) /\
  (forall i j f g, (i < FS_MAXFS)%nat -> (j < FS_MAXFS)%nat -> i <> j ->
     k_fs demo_late !! i = Some f -> k_fs demo_late !! j = Some g -> in_use f = true -> in_use g = true ->
     prefix f <> prefix g /\ (dev f = dev g -> dev f = None)).
Proof.
  apply (mount_table_consistent demo_due demo_late {[0%nat]}); [exact demo_due_inv|].
  eapply rtc_l; [apply (step_clock _ demo_ticked); left; exists tt; vm_compute; reflexivity|].
  eapply rtc_l; [apply (step_umount _ demo_unmounted _ []); left; exists tt; vm_compute; reflexivity|].
  eapply rtc_l; [apply (step_mount _ demo_remounted _ [] "rd0" (ft_name NATFS) 0); left; exists tt; vm_compute; reflexivity|].
  replace (∅ ∪ list_to_set (k_deferred demo_unmounted)) with ({[0%nat]} : gset nat) by (vm_compute; reflexivity).
  apply rtc_once. apply (step_rundp _ _ _ 0 []); [vm_compute; reflexivity|]. left. exists tt. vm_compute. reflexivity.
Defined.

Lemma busy_not_unmounted_witness : fs_umount [] demo_kern = Err EBUSY demo_kern.
Proof.
  apply (busy_not_unmounted demo_kern 0 demo_fs demo_tables demo_mounts); [unfold FS_MAXFS; lia|reflexivity|reflexivity|].
  exists 0%nat, (demo_file 5 5 6). split_and!; [cbn; lia|reflexivity|done|reflexivity].
Defined.

Definition demo_umounted : kern (cache (gmap nat rd_unit)) := state_of (ft_umount NATFS 0 demo_idle).
Definition demo_closed : cache (gmap nat rd_unit) :=
  match bd_close 0 (k_blk demo_umounted) with Ret _ s => s | _ => k_blk demo_umounted end.

Lemma umount_keeps_active_witness :
  exists k2 g, fs_umount [] demo_idle = Ret tt k2 /\ k_fs k2 !! 0%nat = Some g /\ in_use g = false /\ active g = true.
Proof.
  destruct (umount_keeps_active demo_idle 0 demo_fs NATFS demo_umounted demo_closed) as (k2 & g & E & Hg & Hu & Ha & _);
    [split; [apply demo_tables|cbn; lia]|exact demo_mounts|unfold FS_MAXFS; lia|reflexivity|reflexivity|reflexivity|reflexivity|reflexivity
    |by vm_compute|intros d [= <-]; by vm_compute|].
  exists k2, g. exact (conj E (conj Hg (conj Hu Ha))).
Defined.

Lemma parsename_active_witness :
  exists g k2, fs_parsename4 [97] demo_kern = Ret (0%nat, [97], [47; 97]) k2 /\ k_fs k2 !! 0%nat = Some g /\ active g = true.
Proof.
  pose proof (parsename_active demo_kern [97] [47; 97] 0 [97] demo_fs NATFS demo_mounts) as H.
  destruct H as (g & k2 & E & Hg & _ & Ha & _); [by vm_compute..|reflexivity|reflexivity|]. exists g, k2. exact (conj E (conj Hg Ha)).
Defined.

(** ** Notification *)

Definition demo_watch : kern (cache (gmap nat rd_unit)) :=
  with_tasks [Some ([47], true); None; Some ([47; 97], true); Some ([47; 97], false)] demo_kern.

Lemma notify_watchers_witness : fs_notify [47; 97; 47; 99] demo_watch = Ret tt (with_events [2%nat] demo_watch).
Proof.
  etransitivity; [apply (notify_watchers demo_watch [[97]] [99])|].
  - repeat (apply Forall_cons_2; [by apply demo_comp|]); by apply Forall_nil_2.
  - assert (filter (fun j => task_at demo_watch j = Some (join [[97]], true)) (seq 0 (length (k_tasks demo_watch))) = [2%nat]) as ->
      by (by vm_compute). reflexivity.
Defined.

Lemma notify_root_missed_witness : fs_notify [47; 99] demo_watch = Ret tt demo_watch.
Proof.
  apply (notify_root_missed demo_watch [99]); [by apply demo_comp|].
  intros j d o. unfold task_at, demo_watch. cbn [k_tasks with_tasks k_curr demo_kern].
  assert (normal [47]) by (split; [by left|done]).
  assert (normal [47; 97]) by (apply normal_render; exists [[97]]; split; [done|split; [repeat (apply Forall_cons_2; [by apply demo_comp|]); by apply Forall_nil_2|done]]).
  destruct j as [|[|[|[|j]]]]; cbn; intros [=]; subst; done.
Defined.

(** * Descriptors *)

Definition free_file : fs_file := FsFile 0 None 0 0.
(** Two tasks share an open file; the second file table entry is free. *)
Definition demo_proc : proc (cache (gmap nat rd_unit)) :=
  Proc demo_kern [FsFile 2 (Some 0%nat) 0 O_RDONLY; free_file]
    [FsDesc (Some 0%nat) 0 :: replicate 63 no_desc; FsDesc (Some 0%nat) 0 :: replicate 63 no_desc; []]
    [[]; []; []] 0.

Lemma demo_refs : fd_inv (fun _ => 0, demo_proc).
Proof.
  split; [|done]. split.
  - intros [|[|j]] f E; cbn in E; simplify_eq; by vm_compute.
  - intros d j Hd Hj. assert (forallb (fun d => match d_file d with Some j => (j <? 2)%nat | None => true end) (concat (p_desc demo_proc)) = true) as E by (by vm_compute).
    rewrite forallb_forall in E. apply list_elem_of_In in Hd. specialize (E d Hd). rewrite Hj in E. by apply Nat.ltb_lt in E.
Qed.

Definition demo_opened : proc (cache (gmap nat rd_unit)) :=
  match fs_getfile (Some 1%nat) O_RDWR demo_proc with Ret _ p => p | _ => demo_proc end.

Lemma open_files_counted_witness :
  exists f, p_file demo_opened !! 0%nat = Some f /\ fl_refcnt f = nrefs 0 (p_desc demo_opened) + 0.
Proof.
  destruct (open_files_counted (fun _ => 0, demo_proc) (plus (fun _ => 0) 1 1, demo_opened) demo_refs) as (H & _).
  - apply rtc_once, (step_getfile (Some 1%nat) O_RDWR). by vm_compute.
  - exists (FsFile 2 (Some 0%nat) 0 O_RDONLY). split; [by vm_compute|]. apply (H 0%nat). by vm_compute.
Defined.

Definition demo_counts_proc : proc (cache (gmap nat rd_unit)) :=
  Proc (with_fso {[ 0%nat := set_counts 1 0 (demo_file 5 5 6); 1%nat := set_counts 0 0 (demo_file 7 3 8) ]} demo_kern)
    [FsFile 2 (Some 0%nat) 0 O_RDONLY; free_file] [] [] 0.

Lemma demo_counts : counts_ok demo_counts_proc.
Proof.
  intros j g. cbn [k_fso with_fso p_kern demo_counts_proc].
  intros [[<- <-]|[_ [<- <-]%lookup_singleton_Some]]%lookup_insert_Some; by vm_compute.
Qed.

Definition demo_counts_opened : proc (cache (gmap nat rd_unit)) :=
  match fs_getfile (Some 1%nat) O_RDWR demo_counts_proc with Ret _ p => p | _ => demo_counts_proc end.

Lemma file_counts_kept_witness : counts_ok demo_counts_opened.
Proof.
  destruct (file_counts_kept demo_counts_proc demo_counts) as [H _].
  apply (H (Some 1%nat) O_RDWR 1%nat demo_counts_opened). left. by vm_compute.
Defined.

(** A file open for reading that was revoked, on an object with another reference. *)
Definition demo_revoked : proc (cache (gmap nat rd_unit)) :=
  Proc (with_fso {[ 0%nat := set_refcnt 2 (demo_file 5 5 6) ]} demo_kern)
    [FsFile 1 (Some 0%nat) 0 (revoke_mode O_RDONLY)] [] [] 0.

Lemma revoked_stays_counted_witness :
  exists p' g', fs_putfile 0 demo_revoked = Ret tt p' /\ k_fso (p_kern p') !! 0%nat = Some g' /\ reader_count g' = 1.
Proof.
  destruct (revoked_stays_counted demo_revoked 0 (FsFile 1 (Some 0%nat) 0 (revoke_mode O_RDONLY)) 0 (set_refcnt 2 (demo_file 5 5 6)))
    as (p' & g' & E & Hg & Hr & _); [reflexivity..|cbn; lia|].
  exists p', g'. exact (conj E (conj Hg Hr)).
Defined.

(** * System calls *)

(** One task has the file open for reading and writing, at position 600. *)
Definition demo_rw : fs_file := FsFile 1 (Some 0%nat) 600 O_RDWR.
Definition demo_calls : proc (cache (gmap nat rd_unit)) :=
  Proc demo_kern [demo_rw; free_file] [FsDesc (Some 0%nat) 0 :: replicate 63 no_desc; []] [[]; []] 0.
Definition after {A} (m : M (proc (cache (gmap nat rd_unit))) A) (p : proc (cache (gmap nat rd_unit))) : proc (cache (gmap nat rd_unit)) :=
  match m p with Ret _ p' | Err _ p' => p' | Halt _ => p end.
Lemma demo_calls_refs : refs_ok (fun _ => 0) demo_calls.
Proof.
  split.
  - intros [|[|j]] f E; cbn in E; simplify_eq; by vm_compute.
  - intros d j Hd Hj. assert (forallb (fun d => match d_file d with Some j => (j <? 2)%nat | None => true end) (concat (p_desc demo_calls)) = true) as E by (by vm_compute).
    rewrite forallb_forall in E. apply list_elem_of_In in Hd. specialize (E d Hd). rewrite Hj in E. by apply Nat.ltb_lt in E.
Qed.

(** The descriptor is duplicated, and a child gets both. *)
Definition demo_duped : proc (cache (gmap nat rd_unit)) := after (run_call (CFcntl 0 F_DUPFD 5)) demo_calls.
Definition demo_forked : proc (cache (gmap nat rd_unit)) := after (fs_newtask 1) demo_duped.
Lemma calls_count_files_witness :
  exists f, p_file demo_forked !! 0%nat = Some f /\ fl_refcnt f = 4 /\ fl_refcnt f = nrefs 0 (p_desc demo_forked).
Proof.
  destruct (calls_count_files demo_calls demo_forked demo_calls_refs) as [Hc _].
  - eapply rtc_l; [apply (sys_call (CFcntl 0 F_DUPFD 5) demo_calls demo_duped); left; by vm_compute|].
    apply rtc_once, (sys_fork 1); [by vm_compute|by vm_compute].
  - exists (FsFile 4 (Some 0%nat) 600 O_RDWR). split; [by vm_compute|]. split; [reflexivity|]. apply (Hc 0%nat). by vm_compute.
Defined.

Lemma demo_open : nat_open demo_calls 0 0 demo_rw 0 (demo_file 5 5 6) demo_fs 0.
Proof.
  split; [|exact demo_reg|reflexivity|reflexivity|cbn; lia]. split; [unfold OPEN_MAX; lia| |reflexivity|reflexivity].
  eexists _, _. split; [reflexivity|]. by split.
Qed.
Lemma fd_write_read_witness :
  wp (sys__write 0 0 [1; 2; 3];;; sys_lseek 0 600 SEEK_SET;;; sys__read 0 0 3)
    (fun r p' => r = Done (3, [1; 2; 3]) /\ p_desc p' = p_desc demo_calls /\ p_file p' !! 0%nat = Some (FsFile 1 (Some 0%nat) 603 O_RDWR))
    (fun e _ => e <> 0) demo_calls.
Proof.
  apply (fd_write_read demo_calls 0 0 demo_rw 0 (demo_file 5 5 6) demo_fs 0 [1; 2; 3] demo_open);
    [reflexivity|reflexivity|by apply demo_may|by apply demo_may|by repeat constructor|unfold NAT_FILE_SIZE_MAX; cbn; lia].
Defined.

(** * Pipes *)

Definition demo_pipe (rd : list nat) : fso :=
  Fso true 2 false 16 0 0 7 7 0 0 0 0 0x1180 0 0 1 1 None 0 2
    (FsoNat false 0 0 [] 0 0) (FsoPipe rd [] 8000 8000 (zeros PIPE_BUF)).
Definition demo_pipes (rd : list nat) : kern (cache (gmap nat rd_unit)) :=
  with_fso {[ 4%nat := demo_pipe rd ]} demo_kern.

Lemma demo_ring rd : ring_ok (demo_pipe rd).
Proof. split; cbn [size fpipe demo_pipe read_p write_p pbuf]; [unfold PIPE_BUF; lia..|by vm_compute|by vm_compute]. Qed.

Definition demo_written : kern (cache (gmap nat rd_unit)) :=
  state_of (pipe_write_on 4 (replicate 300 7) false (demo_pipes [])).

Lemma pipe_fifo_witness :
  exists f', k_fso demo_written !! 4%nat = Some f' /\ contents f' = replicate 300 7.
Proof.
  destruct (pipe_fifo 4 (demo_pipe []) (demo_pipes []) [In (replicate 300 7)] demo_written) as (f' & Hf & _ & E).
  - apply lookup_singleton_eq.
  - apply demo_ring.
  - eapply pr_step; [|apply pr_nil]. refine (ps_write 4 (demo_pipes []) (replicate 300 7) false (demo_pipe []) ([], Done tt) _ _ _); [apply lookup_singleton_eq|].
    by vm_compute.
  - exists f'. split; [exact Hf|]. symmetry. exact E.
Defined.

Lemma pipe_write_spec_witness :
  write_result 4 (demo_pipe []) (replicate 300 7) false (demo_pipes []) (pipe_write 4 (replicate 300 7) false (demo_pipes [])).
Proof. apply (pipe_write_spec 4 (demo_pipe []) (replicate 300 7) false (demo_pipes [])); [apply lookup_singleton_eq|apply demo_ring|done]. Defined.

Lemma pipe_nodelay_lost_wakeup_witness :
  exists k' f' rest, pipe_write 4 (replicate 9000 7) true (demo_pipes [3%nat]) = Ret (rest, Done tt) k' /\
    k_fso k' !! 4%nat = Some f' /\ size f' = PIPE_BUF /\ pq_readers (fpipe f') = [3%nat] /\ k_resumed k' = [].
Proof.
  destruct (pipe_nodelay_lost_wakeup 4 (demo_pipe [3%nat]) (replicate 9000 7) (demo_pipes [3%nat])) as (k' & f' & E & Hf & Hs & Hq & Hr & _).
  - apply lookup_singleton_eq.
  - apply demo_ring.
  - reflexivity.
  - done.
  - done.
  - by vm_compute.
  - exists k', f', (drop (Z.to_nat PIPE_BUF) (replicate 9000 7)). exact (conj E (conj Hf (conj Hs (conj Hq Hr)))).
Defined.
