(* ===== verification/Tasks.v ===== *)
(** Tasks, task queues, the scheduler, signals, events and alarms (kern/task.c,
    kern/sched.c, kern/signal.c, kern/event.c, kern/fork.c, kern/clock.c and the
    system calls of kern/syscall.c over them).

    A [struct task *] is the index of its slot in [task]: [task_getslot] places
    slot [i] at a fixed address.  A [struct task_queue *] is an index into the
    list of queues; the first [NREADY] of them are [ready_queue].  A context
    switch sets [curr]; a function that waits ends at the switch, and what it
    does when it runs again is a definition of its own.  [idle] holds the local
    [prev] of a [sched] that waits for an interrupt with no task to run. *)

From S2P Require Import Prelude.

Definition EAGAIN : Z := 15.
Definition ECHILD : Z := 6.
Definition ESRCH : Z := 29.

Definition TASK_MAX : nat := 64.
Definition PID_RESTART : Z := 1024.
Definition PID_MAX : Z := 16383.
Definition WAIT_NOINTR : Z := 1.
Definition WAIT_INTR : Z := 2.
Definition TASK_PRIO_USER : Z := 32.
Definition TASK_PRIO_LOW : Z := 63.
Definition NREADY : nat := 64.
Definition TIME_SLICE : Z := 10.
Definition TIME_SLICE_MAX : Z := 50.
Definition EVT_MAX : Z := 256.
Definition SIGMAX : Z := 32.
Definition CLOCK_HZ : Z := 250.

Definition INT_MAX : Z := 2 ^ 31 - 1.

Definition SIG_DFL : Z := 0.
Definition SIG_IGN : Z := 1.

Definition SIGQUIT : Z := 3.
Definition SIGILL : Z := 4.
Definition SIGTRAP : Z := 5.
Definition SIGABRT : Z := 6.
Definition SIGBUS : Z := 7.
Definition SIGFPE : Z := 8.
Definition SIGKILL : Z := 9.
Definition SIGSTOP : Z := 10.
Definition SIGSEGV : Z := 11.
Definition SIGCONT : Z := 12.
Definition SIGALRM : Z := 14.
Definition SIGCHLD : Z := 18.
Definition SIGEVT : Z := 29.
Definition SIGSTK : Z := 31.
Definition SIGOOM : Z := 32.

Definition E_WINGUI : Z := 1.
Definition E_SIGNAL : Z := 2.
Definition WIN_E_PTR_MOVE : Z := 3.

(** * Data *)

(** [struct event]; the union starts with [sig] or [win.type], then [win.more]. *)
Record event := Event { e_type : Z; e_proc : Z; e_data : Z; e_sig : Z; e_more : Z; e_win : list Z }.
Definition event0 : event := Event 0 0 0 0 0 [].

Record task_queue := TaskQueue { q_first : option nat; q_last : option nat }.

Record links := Links { queue : option nat; prev : option nat; next : option nat }.
Definition unlinked : links := Links None None None.

Record creds := Creds { euid : Z; egid : Z; ruid : Z; rgid : Z }.
Record running := Running {
  time_slice : Z; priority : Z; paused : Z; stopped : bool; exited : bool; exit_status : Z
}.
Record signals := Signals {
  signal_received : list bool; signal_handler : list Z; signal_use_event : list bool; signal_pending : bool
}.
Record events := Events {
  event_ : list event; unseen_events : Z; event_count : Z; event_high : Z; first_event : Z; last_event : Z
}.
Record execs := Execs { exec_name : list Z; exec_arg : list Z; exec : bool }.
Record alarms := Alarms { alarm_repeat : Z; alarm_ticks : Z; alarm : Z }.

Record task := Task {
  t_links : links;
  parent : option nat;
  t_creds : creds;
  pid : Z;
  t_exec : execs;
  t_run : running;
  t_sig : signals;
  t_ev : events;
  t_alarm : alarms;
  cputime_cnt : Z; cputime : Z
}.

(** A slot after [memset (ts, 0, sizeof *ts)]. *)
Definition task0 : task :=
  Task unlinked None (Creds 0 0 0 0) 0 (Execs [] [] false) (Running 0 0 0 false false 0)
    (Signals (replicate 33 false) (replicate 33 SIG_DFL) (replicate 33 false) false)
    (Events (replicate 256 event0) 0 0 0 0 0) (Alarms 0 0 0) 0 0.

Record sys (X : Type) := Sys {
  tasks : list (option task);       (** [task] *)
  queues : list task_queue;
  curr : option nat;
  idle : option nat;
  init : nat;
  task_pcount : Z; task_count : Z;
  resched : bool;
  switch_cnt : Z; switch_freq : Z;
  last_pid : Z;                     (** [last] of [newpid] *)
  time : Z; ticks : Z; uptime : Z; upticks : Z;
  alarm_t : Z * Z;                  (** [alarm_time], [alarm_ticks] *)
  k_cputime_cnt : Z; k_cputime : Z;
  env : X                           (** memory, file tables and windows of the tasks *)
}.
Arguments Sys {X}.
Arguments tasks {X}.
Arguments queues {X}.
Arguments curr {X}.
Arguments idle {X}.
Arguments init {X}.
Arguments task_pcount {X}.
Arguments task_count {X}.
Arguments resched {X}.
Arguments switch_cnt {X}.
Arguments switch_freq {X}.
Arguments last_pid {X}.
Arguments time {X}.
Arguments ticks {X}.
Arguments uptime {X}.
Arguments upticks {X}.
Arguments alarm_t {X}.
Arguments k_cputime_cnt {X}.
Arguments k_cputime {X}.
Arguments env {X}.

(** What the task code asks of memory management, files and windows, for the
    current task: each call gives a return code.  Where such a call comes back to
    this component (closing a pipe resumes its readers, a clock handler sends an
    event), it does so by an operation of its own. *)
Class TaskEnv (X : Type) := {
  pg_adget : option nat -> X -> Z * X;              (** of the pages of all slots *)
  pg_atmem_slot : nat -> option nat -> X -> Z * X;  (** [pg_atmem] of the pages of a slot *)
  pg_dtmem_slot : nat -> option nat -> X -> X;
  pg_newdir : nat -> option nat -> X -> Z * X;
  env_newtask : nat -> option nat -> X -> X;        (** [win_newtask], [fs_newtask] *)
  env_fqname : list Z -> option nat -> X -> Z + list Z;   (** [fs_fqname] *)
  copy_pages : nat -> option nat -> X -> Z * X;
  env_clean : option nat -> X -> X;                 (** [win_detach], [uclean], [fs_clean] *)
  dump_core : Z -> option nat -> X -> Z * X;
  red_zone : option nat -> X -> X;                  (** [ureg->rsp -= 128] *)
  tucpy_stack : Z -> option nat -> X -> Z * X;      (** [ureg->rsp -= sizeof v], [tucpy] of [v] there *)
  set_entry : option nat -> X -> X;                 (** [ureg->rip = curr->signal_entry] *)
  tucpy_user : option nat -> X -> Z * X;            (** [tucpy] of a result *)
  uga_user : option nat -> X -> Z * X;              (** [uga] of an argument *)
  exec_close : option nat -> X -> X;                (** [fs_putfd] of [close_on_exec] *)
  exec_clean : option nat -> X -> X;                (** [win_clean], [uclean] *)
  (** the new image, by the credentials and the name of the task; the owners it runs as *)
  exec_load : creds -> execs -> option nat -> X -> (Z + option Z * option Z) * X;
  clock_procs : option nat -> X -> X                (** the clock handlers, [win_clock], [fs_clock] *)
}.

(** ** Field updates *)

Definition set_links l (t : task) :=
  Task l (parent t) (t_creds t) (pid t) (t_exec t) (t_run t) (t_sig t) (t_ev t) (t_alarm t) (cputime_cnt t) (cputime t).
Definition set_parent p (t : task) :=
  Task (t_links t) p (t_creds t) (pid t) (t_exec t) (t_run t) (t_sig t) (t_ev t) (t_alarm t) (cputime_cnt t) (cputime t).
Definition set_pid p (t : task) :=
  Task (t_links t) (parent t) (t_creds t) p (t_exec t) (t_run t) (t_sig t) (t_ev t) (t_alarm t) (cputime_cnt t) (cputime t).
Definition set_exec x (t : task) :=
  Task (t_links t) (parent t) (t_creds t) (pid t) x (t_run t) (t_sig t) (t_ev t) (t_alarm t) (cputime_cnt t) (cputime t).
Definition set_creds c (t : task) :=
  Task (t_links t) (parent t) c (pid t) (t_exec t) (t_run t) (t_sig t) (t_ev t) (t_alarm t) (cputime_cnt t) (cputime t).
Definition set_run r (t : task) :=
  Task (t_links t) (parent t) (t_creds t) (pid t) (t_exec t) r (t_sig t) (t_ev t) (t_alarm t) (cputime_cnt t) (cputime t).
Definition set_sig g (t : task) :=
  Task (t_links t) (parent t) (t_creds t) (pid t) (t_exec t) (t_run t) g (t_ev t) (t_alarm t) (cputime_cnt t) (cputime t).
Definition set_ev e (t : task) :=
  Task (t_links t) (parent t) (t_creds t) (pid t) (t_exec t) (t_run t) (t_sig t) e (t_alarm t) (cputime_cnt t) (cputime t).
Definition set_alarms a (t : task) :=
  Task (t_links t) (parent t) (t_creds t) (pid t) (t_exec t) (t_run t) (t_sig t) (t_ev t) a (cputime_cnt t) (cputime t).
Definition set_cputime n c (t : task) :=
  Task (t_links t) (parent t) (t_creds t) (pid t) (t_exec t) (t_run t) (t_sig t) (t_ev t) (t_alarm t) n c.

Definition set_time_slice v t :=
  let r := t_run t in set_run (Running v (priority r) (paused r) (stopped r) (exited r) (exit_status r)) t.
Definition set_priority v t :=
  let r := t_run t in set_run (Running (time_slice r) v (paused r) (stopped r) (exited r) (exit_status r)) t.
Definition set_paused v t :=
  let r := t_run t in set_run (Running (time_slice r) (priority r) v (stopped r) (exited r) (exit_status r)) t.
Definition set_stopped v t :=
  let r := t_run t in set_run (Running (time_slice r) (priority r) (paused r) v (exited r) (exit_status r)) t.
Definition set_exited v t :=
  let r := t_run t in set_run (Running (time_slice r) (priority r) (paused r) (stopped r) true v) t.

Definition set_queue v t := let l := t_links t in set_links (Links v (prev l) (next l)) t.
Definition set_prev v t := let l := t_links t in set_links (Links (queue l) v (next l)) t.
Definition set_next v t := let l := t_links t in set_links (Links (queue l) (prev l) v) t.

Definition set_received sig v t :=
  let g := t_sig t in
  set_sig (Signals (<[Z.to_nat (sig - 1) := v]> (signal_received g)) (signal_handler g) (signal_use_event g) (signal_pending g)) t.
Definition set_handler sig v t :=
  let g := t_sig t in
  set_sig (Signals (signal_received g) (<[Z.to_nat (sig - 1) := v]> (signal_handler g)) (signal_use_event g) (signal_pending g)) t.
Definition set_use_event sig v t :=
  let g := t_sig t in
  set_sig (Signals (signal_received g) (signal_handler g) (<[Z.to_nat (sig - 1) := v]> (signal_use_event g)) (signal_pending g)) t.
Definition set_pending v t :=
  let g := t_sig t in
  set_sig (Signals (signal_received g) (signal_handler g) (signal_use_event g) v) t.
Definition set_unseen v t :=
  let e := t_ev t in
  set_ev (Events (event_ e) v (event_count e) (event_high e) (first_event e) (last_event e)) t.

Definition handler (t : task) (sig : Z) : Z := default SIG_DFL (signal_handler (t_sig t) !! Z.to_nat (sig - 1)).
Definition received (t : task) (sig : Z) : bool := default false (signal_received (t_sig t) !! Z.to_nat (sig - 1)).
Definition use_event (t : task) (sig : Z) : bool := default false (signal_use_event (t_sig t) !! Z.to_nat (sig - 1)).

Section fields.
Context {X : Type}.
Implicit Types s : sys X.

Definition with_tasks v s := Sys v (queues s) (curr s) (idle s) (init s) (task_pcount s) (task_count s) (resched s) (switch_cnt s) (switch_freq s) (last_pid s) (time s) (ticks s) (uptime s) (upticks s) (alarm_t s) (k_cputime_cnt s) (k_cputime s) (env s).
Definition with_queues v s := Sys (tasks s) v (curr s) (idle s) (init s) (task_pcount s) (task_count s) (resched s) (switch_cnt s) (switch_freq s) (last_pid s) (time s) (ticks s) (uptime s) (upticks s) (alarm_t s) (k_cputime_cnt s) (k_cputime s) (env s).
Definition with_curr v w s := Sys (tasks s) (queues s) v w (init s) (task_pcount s) (task_count s) (resched s) (switch_cnt s) (switch_freq s) (last_pid s) (time s) (ticks s) (uptime s) (upticks s) (alarm_t s) (k_cputime_cnt s) (k_cputime s) (env s).
Definition with_init v s := Sys (tasks s) (queues s) (curr s) (idle s) v (task_pcount s) (task_count s) (resched s) (switch_cnt s) (switch_freq s) (last_pid s) (time s) (ticks s) (uptime s) (upticks s) (alarm_t s) (k_cputime_cnt s) (k_cputime s) (env s).
Definition with_pcount v s := Sys (tasks s) (queues s) (curr s) (idle s) (init s) v (task_count s) (resched s) (switch_cnt s) (switch_freq s) (last_pid s) (time s) (ticks s) (uptime s) (upticks s) (alarm_t s) (k_cputime_cnt s) (k_cputime s) (env s).
Definition with_count v s := Sys (tasks s) (queues s) (curr s) (idle s) (init s) (task_pcount s) v (resched s) (switch_cnt s) (switch_freq s) (last_pid s) (time s) (ticks s) (uptime s) (upticks s) (alarm_t s) (k_cputime_cnt s) (k_cputime s) (env s).
Definition with_resched v s := Sys (tasks s) (queues s) (curr s) (idle s) (init s) (task_pcount s) (task_count s) v (switch_cnt s) (switch_freq s) (last_pid s) (time s) (ticks s) (uptime s) (upticks s) (alarm_t s) (k_cputime_cnt s) (k_cputime s) (env s).
Definition with_switch v w s := Sys (tasks s) (queues s) (curr s) (idle s) (init s) (task_pcount s) (task_count s) (resched s) v w (last_pid s) (time s) (ticks s) (uptime s) (upticks s) (alarm_t s) (k_cputime_cnt s) (k_cputime s) (env s).
Definition with_pid v s := Sys (tasks s) (queues s) (curr s) (idle s) (init s) (task_pcount s) (task_count s) (resched s) (switch_cnt s) (switch_freq s) v (time s) (ticks s) (uptime s) (upticks s) (alarm_t s) (k_cputime_cnt s) (k_cputime s) (env s).
Definition with_time v w s := Sys (tasks s) (queues s) (curr s) (idle s) (init s) (task_pcount s) (task_count s) (resched s) (switch_cnt s) (switch_freq s) (last_pid s) v w (uptime s) (upticks s) (alarm_t s) (k_cputime_cnt s) (k_cputime s) (env s).
Definition with_uptime v w s := Sys (tasks s) (queues s) (curr s) (idle s) (init s) (task_pcount s) (task_count s) (resched s) (switch_cnt s) (switch_freq s) (last_pid s) (time s) (ticks s) v w (alarm_t s) (k_cputime_cnt s) (k_cputime s) (env s).
Definition with_alarm v s := Sys (tasks s) (queues s) (curr s) (idle s) (init s) (task_pcount s) (task_count s) (resched s) (switch_cnt s) (switch_freq s) (last_pid s) (time s) (ticks s) (uptime s) (upticks s) v (k_cputime_cnt s) (k_cputime s) (env s).
Definition with_cputime v w s := Sys (tasks s) (queues s) (curr s) (idle s) (init s) (task_pcount s) (task_count s) (resched s) (switch_cnt s) (switch_freq s) (last_pid s) (time s) (ticks s) (uptime s) (upticks s) (alarm_t s) v w (env s).
Definition with_env (v : X) s := Sys (tasks s) (queues s) (curr s) (idle s) (init s) (task_pcount s) (task_count s) (resched s) (switch_cnt s) (switch_freq s) (last_pid s) (time s) (ticks s) (uptime s) (upticks s) (alarm_t s) (k_cputime_cnt s) (k_cputime s) v.

Definition task_at (t : nat) s : option task := tasks s !! t ≫= id.
Definition get_task (t : nat) : M (sys X) task := o <~ gets (task_at t);; deref o.
Definition task_upd (t : nat) (f : task -> task) s := with_tasks (alter (option_map f) t (tasks s)) s.
Definition upd_task (t : nat) (f : task -> task) : M (sys X) unit := modify (task_upd t f).
Definition get_queue (q : nat) : M (sys X) task_queue := o <~ gets (fun s => queues s !! q);; deref o.
Definition queue_put (q : nat) (v : task_queue) s := with_queues (<[q := v]> (queues s)) s.
Definition put_queue (q : nat) (v : task_queue) : M (sys X) unit := modify (queue_put q v).
Definition get_curr : M (sys X) nat := o <~ gets curr;; deref o.
Definition modify_env (f : option nat -> X -> X) : M (sys X) unit := modify (fun s => with_env (f (curr s) (env s)) s).
(** A call of the environment: its return code is the error. *)
Definition env_call (f : option nat -> X -> Z * X) : M (sys X) unit := fun s =>
  let '(e, x) := f (curr s) (env s) in
  if e =? 0 then Ret tt (with_env x s) else Err e (with_env x s).
End fields.

(** How a call that may wait ends: [Done], or [Wait] when the task waits and
    another one runs, if any can. *)
Inductive progress (A : Type) := Done (a : A) | Wait.
Arguments Done {A} a.
Arguments Wait {A}.

(** * Task queues (kern/task.c) *)

Section ops.
Context {X : Type} `{TaskEnv X}.

Definition task_qinit (q : nat) : M (sys X) unit := put_queue q (TaskQueue None None).

Definition task_insert (q t : nat) : M (sys X) unit :=
  c <~ get_task t;;
  match queue (t_links c) with
  | Some _ => panic "task_insert: task->queue"
  | None =>
    tq <~ get_queue q;;
    match q_first tq with
    | None =>
      put_queue q (TaskQueue (Some t) (Some t));;;
      upd_task t (set_links (Links (Some q) None None))
    | Some _ =>
      upd_task t (set_links (Links (Some q) (q_last tq) None));;;
      l <~ deref (q_last tq);;
      upd_task l (set_next (Some t));;;
      put_queue q (TaskQueue (q_first tq) (Some t))
    end
  end.

Definition task_dequeue (q : nat) : M (sys X) (option nat) :=
  tq <~ get_queue q;;
  match q_first tq with
  | None => ret None
  | Some t =>
    c <~ get_task t;;
    let n := next (t_links c) in
    put_queue q (TaskQueue n (match n with Some _ => q_last tq | None => None end));;;
    (match n with Some n => upd_task n (set_prev None) | None => ret tt end);;;
    upd_task t (set_links unlinked);;;
    ret (Some t)
  end.

Definition task_remove (t : nat) : M (sys X) unit :=
  c <~ get_task t;;
  let l := t_links c in
  match queue l with
  | None => panic "task_remove: !tq"
  | Some q =>
    tq <~ get_queue q;;
    if bool_decide (q_first tq = Some t) then
      if bool_decide (q_last tq = Some t) then
        upd_task t (set_links unlinked);;;
        put_queue q (TaskQueue None None)
      else
        put_queue q (TaskQueue (next l) (q_last tq));;;
        n <~ deref (next l);;
        upd_task n (set_prev None);;;
        upd_task t (set_links unlinked)
    else if bool_decide (q_last tq = Some t) then
      put_queue q (TaskQueue (q_first tq) (prev l));;;
      p <~ deref (prev l);;
      upd_task p (set_next None);;;
      upd_task t (set_links unlinked)
    else
      p <~ deref (prev l);;
      upd_task p (set_next (next l));;;
      n <~ deref (next l);;
      upd_task n (set_prev (prev l));;;
      upd_task t (set_links unlinked)
  end.

(** * Scheduling (kern/sched.c) *)

(** [sched] up to the loop that waits for a task to run: [None] when the
    current task goes on running, the local [prev] otherwise. *)
Definition sched_leave : M (sys X) (option nat) :=
  modify (with_resched false);;;
  me <~ get_curr;;
  c <~ get_task me;;
  n <~ gets (fun s => (task_pcount s, task_count s));;
  if (n.1 + 1 =? n.2) && (paused (t_run c) =? 0) && negb (exited (t_run c)) then
    upd_task me (set_time_slice TIME_SLICE);;;
    ret None
  else
    modify (with_curr None None);;;
    (if negb (exited (t_run c)) && (paused (t_run c) =? 0)
     then task_insert (Z.to_nat (priority (t_run c))) me else ret tt);;;
    ret (Some me).

(** The search of the ready queues from [q] on, [n] of them left. *)
Fixpoint dequeue_ready (n q : nat) : M (sys X) (option nat) :=
  match n with
  | O => ret None
  | S n' =>
    t <~ task_dequeue q;;
    match t with
    | Some t => ret (Some t)
    | None => dequeue_ready n' (S q)
    end
  end.

(** The [for (;;)] loop: a task that has used up more than its share gets
    another one and goes to the end of its queue. *)
Fixpoint pick_loop (fuel : nat) : M (sys X) nat :=
  match fuel with
  | O => halted Undefined
  | S fuel' =>
    o <~ dequeue_ready NREADY 0;;
    match o with
    | None => panic "sched: next == NULL"
    | Some t =>
      c <~ get_task t;;
      let ts := time_slice (t_run c) + TIME_SLICE in
      let ts := if TIME_SLICE_MAX <? ts then TIME_SLICE_MAX else ts in
      upd_task t (set_time_slice ts);;;
      if ts <? 0 then
        task_insert (Z.to_nat (priority (t_run c))) t;;;
        pick_loop fuel'
      else if exited (t_run c) || negb (paused (t_run c) =? 0) then
        panic "sched: next->exited || next->paused"
      else ret t
    end
  end.

(** Enough rounds: each one raises the time slice of a ready task by
    [TIME_SLICE] or ends the loop. *)
Definition debt (o : option task) : nat :=
  match o with Some c => Z.to_nat (- time_slice (t_run c)) | None => O end.
Definition pick_fuel (ts : list (option task)) : nat := S (sum_list_with debt ts).

(** [switch_stack (prev, next)], or [curr = next] when they are the same. *)
Definition switch_to (prev next : nat) : M (sys X) unit :=
  modify (fun s =>
    with_curr (Some next) None
      (if (prev =? next)%nat then s else with_switch (switch_cnt s + 1) (switch_freq s) s)).

(** The rest of [sched], with [while (task_count == task_pcount) hlt]: no task
    can run until an interrupt resumes one. *)
Definition sched_pick (prev : nat) : M (sys X) unit :=
  n <~ gets (fun s => (task_count s, task_pcount s));;
  if n.1 =? n.2 then modify (with_curr None (Some prev))
  else
    f <~ gets (fun s => pick_fuel (tasks s));;
    t <~ pick_loop f;;
    switch_to prev t.

Definition sched : M (sys X) unit :=
  p <~ sched_leave;;
  match p with None => ret tt | Some p => sched_pick p end.

(** * Suspending and resuming (kern/task.c) *)

Definition task_suspend (q : option nat) (type : Z) : M (sys X) unit :=
  me <~ get_curr;;
  c <~ get_task me;;
  if negb (paused (t_run c) =? 0) then panic "task_suspend: curr->paused"
  else if match q with Some q => (q <? NREADY)%nat | None => false end then panic "task_suspend: tq == &ready_queue"
  else if negb (type =? WAIT_INTR) && negb (type =? WAIT_NOINTR) then panic "task_suspend: bad type"
  else if (signal_pending (t_sig c) || negb (unseen_events (t_ev c) =? 0)) && negb (stopped (t_run c)) && (type =? WAIT_INTR) then
    upd_task me (set_unseen 0);;;
    fail EINTR
  else
    upd_task me (set_paused type);;;
    modify (fun s => with_pcount (task_pcount s + 1) s);;;
    (match q with Some q => task_insert q me | None => ret tt end);;;
    sched.

Definition task_resume (t : nat) : M (sys X) unit :=
  c <~ get_task t;;
  if exited (t_run c) then panic "task_resume: task->exited"
  else if paused (t_run c) =? 0 then ret tt
  else
    upd_task t (fun c => set_paused 0 (set_time_slice TIME_SLICE c));;;
    modify (fun s => with_pcount (task_pcount s - 1) s);;;
    n <~ gets task_pcount;;
    if n <? 0 then panic "task_resume: task_pcount < 0"
    else
      (match queue (t_links c) with Some _ => task_remove t | None => ret tt end);;;
      o <~ gets curr;;
      (if bool_decide (o = Some t) then ret tt
       else task_insert (Z.to_nat (priority (t_run c))) t);;;
      match o with
      | None => ret tt
      | Some me =>
        d <~ get_task me;;
        if priority (t_run c) <? priority (t_run d) then modify (with_resched true) else ret tt
      end.

Definition task_set_prio (prio : Z) : M (sys X) unit :=
  if (prio <? 0) || (TASK_PRIO_LOW <? prio) then panic "task_set_prio: bad prio"
  else me <~ get_curr;; upd_task me (set_priority prio).

Definition sys_nice (inc : Z) : M (sys X) Z :=
  me <~ get_curr;;
  c <~ get_task me;;
  let old := priority (t_run c) in
  if (inc <? 0) && negb (euid (t_creds c) =? 0) then fail EPERM
  else
    let prio := old + inc in
    if (INT_MAX <? prio) || (prio <? - INT_MAX - 1) then halted Undefined else
    task_set_prio (if TASK_PRIO_LOW <? prio then TASK_PRIO_LOW else if prio <? 0 then 0 else prio);;;
    ret old.

(** * Signals (kern/signal.c) and events (kern/event.c) *)

Definition signal_send_k (p : nat) (sig : Z) : M (sys X) unit :=
  if (sig <? 0) || (SIGMAX <? sig) then fail EINVAL
  else if sig =? 0 then ret tt
  else
    c <~ get_task p;;
    if exited (t_run c) || (handler c sig =? SIG_IGN) then ret tt
    else
      (if (sig =? SIGCONT) || (sig =? SIGKILL) then
         upd_task p (set_stopped false);;;
         if paused (t_run c) =? WAIT_INTR then task_resume p else ret tt
       else ret tt);;;
      (if sig =? SIGSTOP then upd_task p (set_stopped true) else ret tt);;;
      upd_task p (fun c => set_pending true (set_received sig true c));;;
      c <~ get_task p;;
      if paused (t_run c) =? WAIT_INTR then task_resume p else ret tt.

Definition signal_send (p : nat) (sig : Z) : M (sys X) unit :=
  me <~ get_curr;;
  c <~ get_task me;;
  d <~ get_task p;;
  if negb (euid (t_creds c) =? 0) && negb (euid (t_creds c) =? euid (t_creds d)) then fail EPERM
  else signal_send_k p sig.

Definition signal_fatal (p : nat) (sig : Z) : M (sys X) unit :=
  if (sig <? 0) || (SIGMAX <? sig) then fail EINVAL
  else if sig =? 0 then ret tt
  else
    c <~ get_task p;;
    (if handler c sig =? SIG_IGN then upd_task p (set_handler sig SIG_DFL) else ret tt);;;
    signal_send_k p sig.

Definition signal_raise (sig : Z) : M (sys X) unit :=
  o <~ gets curr;;
  match o with None => panic "signal_raise: !curr" | Some me => signal_send_k me sig end.

Definition signal_raise_fatal (sig : Z) : M (sys X) unit :=
  o <~ gets curr;;
  match o with None => panic "signal_raise_fatal: !curr" | Some me => signal_fatal me sig end.

(** A place outside of [event] is undefined behaviour. *)
Definition send_event (t : nat) (e : event) : M (sys X) unit :=
  c <~ get_task t;;
  let v := t_ev c in
  if EVT_MAX <=? event_count v then fail EAGAIN
  else
    let cnt := event_count v + 1 in
    let i := (last_event v + 1) mod EVT_MAX in
    if (i <? 0) || (EVT_MAX <=? i) then halted Undefined
    else
      upd_task t (set_ev (Events (<[Z.to_nat i := e]> (event_ v)) (unseen_events v + 1) cnt
        (if event_high v <? cnt then cnt else event_high v) (first_event v) i));;;
      status (signal_send_k t SIGEVT);;;
      ret tt.

(** * Task slots, creation and exit (kern/task.c, kern/fork.c) *)

Definition pid_used (l : Z) (o : option task) : bool :=
  match o with Some c => pid c =? l | None => false end.

Fixpoint newpid_loop (fuel : nat) : M (sys X) Z :=
  match fuel with
  | O => halted Undefined
  | S fuel' =>
    modify (fun s => with_pid (if PID_MAX <? last_pid s + 1 then PID_RESTART else last_pid s + 1) s);;;
    l <~ gets last_pid;;
    u <~ gets (fun s => existsb (pid_used l) (tasks s));;
    if u : bool then newpid_loop fuel' else ret l
  end.

(** At most [TASK_MAX] numbers are taken, so that one of any [TASK_MAX + 1] in
    a row is free. *)
Definition newpid : M (sys X) Z := newpid_loop (S TASK_MAX).

Fixpoint free_slot (n i : nat) : M (sys X) (option nat) :=
  match n with
  | O => ret None
  | S n' =>
    o <~ gets (task_at i);;
    match o with None => ret (Some i) | Some _ => free_slot n' (S i) end
  end.

Definition task_getslot : M (sys X) nat :=
  o <~ free_slot TASK_MAX 0;;
  match o with
  | None => fail EAGAIN
  | Some i =>
    env_call (pg_atmem_slot i);;;
    modify (fun s => with_tasks (<[i := Some task0]> (tasks s)) s);;;
    ret i
  end.

Definition task_putslot (i : nat) : M (sys X) unit :=
  modify (fun s => with_tasks (<[i := None]> (tasks s)) s);;;
  modify_env (pg_dtmem_slot i).

(** What [task_creat] keeps of the signals of its parent: only [SIG_IGN]. *)
Definition creat_signals (g : signals) : signals :=
  let dfl h := if h =? SIG_IGN then h else SIG_DFL in
  Signals (zip_with (fun h r => if h =? SIG_IGN then r else false) (take 32 (signal_handler g)) (signal_received g)
             ++ drop 32 (signal_received g))
    (map dfl (take 32 (signal_handler g)) ++ drop 32 (signal_handler g))
    (signal_use_event g) false.

Definition task_creat (name arg : list Z) : M (sys X) Z :=
  fqn <~ gets (fun s => env_fqname name (curr s) (env s));;
  match fqn with
  | inl e => fail e
  | inr fqn =>
    i <~ task_getslot;;
    me <~ get_curr;;
    c <~ get_task me;;
    upd_task i (fun _ => c);;;
    l <~ newpid;;
    upd_task i (fun p =>
      let v := t_ev p in
      set_ev (Events (event_ v) 0 0 (event_high v) 0 (-1))
        (set_alarms (Alarms 0 (alarm_ticks (t_alarm p)) 0)
          (set_time_slice (-1) (set_pid l (set_parent (Some me) p)))));;;
    r <~ attempt (env_call (pg_newdir i));;
    match r with
    | inl e => task_putslot i;;; fail e
    | inr _ =>
      upd_task i (fun p => set_exec (Execs fqn arg (exec (t_exec p))) p);;;
      modify_env (env_newtask i);;;
      upd_task i (fun p => set_sig (creat_signals (t_sig p)) p);;;
      p <~ get_task i;;
      task_insert (Z.to_nat (priority (t_run p))) i;;;
      modify (fun s => with_count (task_count s + 1) s);;;
      ret l
    end
  end.

Definition fork_copy (me : nat) (l : Z) (c t : task) : task :=
  let r := t_run t in
  let v := t_ev t in
  let g := t_sig c in
  Task (t_links t) (Some me) (t_creds c) l (Execs (exec_name (t_exec c)) (exec_arg (t_exec t)) (exec (t_exec t)))
    (Running (time_slice r) (priority (t_run c)) (paused r) (stopped r) (exited r) (exit_status r))
    (Signals (take 32 (signal_received g) ++ drop 32 (signal_received (t_sig t)))
       (take 32 (signal_handler g) ++ drop 32 (signal_handler (t_sig t)))
       (take 32 (signal_use_event g) ++ drop 32 (signal_use_event (t_sig t))) (signal_pending g))
    (Events (event_ v) (unseen_events v) (event_count v) (event_high (t_ev c)) (first_event v) (last_event v))
    (t_alarm t) (cputime_cnt t) (cputime t).

Definition do_fork : M (sys X) Z :=
  i <~ task_getslot;;
  modify (fun s => with_count (task_count s + 1) s);;;
  t <~ get_task i;;
  task_insert (Z.to_nat (priority (t_run t))) i;;;
  me <~ get_curr;;
  l <~ newpid;;
  c <~ get_task me;;
  upd_task i (fork_copy me l c);;;
  modify_env (env_newtask i);;;
  r <~ attempt (env_call (copy_pages i));;
  match r with
  | inl e => status (signal_fatal i SIGOOM);;; fail e
  | inr _ => ret l
  end.

(** The children of [me] in the slots from [i] on, [n] of them left, go to [init]. *)
Fixpoint orphan_loop (n i : nat) (me : nat) : M (sys X) unit :=
  match n with
  | O => ret tt
  | S n' =>
    o <~ gets (task_at i);;
    (match o with
     | Some c =>
       if bool_decide (parent c = Some me) then
         ini <~ gets init;;
         upd_task i (set_parent (Some ini));;;
         if exited (t_run c) then status (signal_send_k ini SIGCHLD);;; ret tt else ret tt
       else ret tt
     | None => ret tt
     end);;;
    orphan_loop n' (S i) me
  end.

(** [task_exit] does not return to its caller, except when the task has already
    exited. *)
Definition task_exit (st : Z) : M (sys X) unit :=
  me <~ get_curr;;
  c <~ get_task me;;
  if exited (t_run c) then ret tt
  else
    ini <~ gets init;;
    if (me =? ini)%nat then panic "init exited"
    else
      modify_env env_clean;;;
      orphan_loop TASK_MAX 0 me;;;
      c <~ get_task me;;
      pa <~ deref (parent c);;
      p <~ get_task pa;;
      (if handler p SIGCHLD =? SIG_IGN then
         upd_task me (set_parent (Some ini));;;
         status (signal_send_k ini SIGCHLD)
       else status (signal_send_k pa SIGCHLD));;;
      modify (fun s => with_count (task_count s - 1) s);;;
      n <~ gets task_count;;
      if n <? 0 then panic "task_exit: task_count < 0"
      else
        upd_task me (set_exited st);;;
        sched.

Definition or_panic {A} (m : M (sys X) A) (msg : string) : M (sys X) A :=
  r <~ attempt m;;
  match r with inl _ => panic msg | inr a => ret a end.

Definition init_signals (g : signals) : signals :=
  Signals (signal_received g) (<[Z.to_nat (SIGCONT - 1) := SIG_DFL]> (replicate 32 SIG_IGN ++ drop 32 (signal_handler g)))
    (signal_use_event g) (signal_pending g).

(** The state before [task_init], with [n] queues besides the ready queues. *)
Definition boot_state (n : nat) (x : X) : sys X :=
  Sys (replicate TASK_MAX None) (replicate (NREADY + n) (TaskQueue None None)) None None 0%nat 0 0
    false 0 0 0 1 0 0 0 (0, 0) 0 0 x.

Fixpoint init_queues (n i : nat) : M (sys X) unit :=
  match n with
  | O => ret tt
  | S n' => task_qinit i;;; init_queues n' (S i)
  end.

Definition task_init : M (sys X) unit :=
  modify (with_tasks (replicate TASK_MAX None));;;
  or_panic (env_call pg_adget) "task_init: pg_adget failed";;;
  init_queues NREADY 0;;;
  i <~ or_panic task_getslot "task_init: getslot failed";;
  modify (fun s => with_curr (Some i) None (with_init i s));;;
  upd_task i (fun t =>
    let v := t_ev t in
    set_parent (Some i) (set_ev (Events (event_ v) (unseen_events v) (event_count v) (event_high v) (first_event v) (-1))
      (set_priority TASK_PRIO_USER t)));;;
  l <~ newpid;;
  upd_task i (set_pid l);;;
  or_panic (env_call (pg_newdir i)) "task_init: pg_newdir failed";;;
  upd_task i (fun t => set_sig (init_signals (t_sig t)) t);;;
  modify (fun s => with_count 1 (with_pcount 0 s)).
End ops.
