(* ===== verification/TaskSys.v ===== *)
(** System calls and interrupts over the tasks: waiting for children, handlers,
    delivery of signals on the way to user mode, the event queue of a task,
    alarms and the clock interrupt (kern/syscall.c, kern/signal.c, kern/exec.c,
    kern/clock.c, intr_leave of kern/mach-amd64-pc/intr.c). *)

From S2P Require Import Prelude Tasks.

(** The static queues [tq] of [sys___xwait] and [sys__evt_wait]. *)
Definition WAITQ : nat := 64.
Definition EVTQ : nat := 65.

Section ops.
Context {X : Type} `{TaskEnv X}.

(** * Children *)

Fixpoint adopt_exited (n i : nat) (me ini : nat) : M (sys X) unit :=
  match n with
  | O => ret tt
  | S n' =>
    o <~ gets (task_at i);;
    (match o with
     | Some c =>
       if bool_decide (parent c = Some me) && exited (t_run c) then
         upd_task i (set_parent (Some ini));;;
         status (signal_send_k ini SIGCHLD);;; ret tt
       else ret tt
     | None => ret tt
     end);;;
    adopt_exited n' (S i) me ini
  end.

Fixpoint raise_exited (n i : nat) (me : nat) : M (sys X) unit :=
  match n with
  | O => ret tt
  | S n' =>
    o <~ gets (task_at i);;
    (match o with
     | Some c =>
       if bool_decide (parent c = Some me) && exited (t_run c) then status (signal_raise SIGCHLD);;; ret tt
       else ret tt
     | None => ret tt
     end);;;
    raise_exited n' (S i) me
  end.

Definition setup_chld (h : Z) : M (sys X) unit :=
  me <~ get_curr;;
  ini <~ gets init;;
  if h =? SIG_IGN then if (me =? ini)%nat then ret tt else adopt_exited TASK_MAX 0 me ini
  else if h =? SIG_DFL then ret tt
  else raise_exited TASK_MAX 0 me.

(** [signal_handler[sig - 1]] is outside of the array for [sig = 0]. *)
Definition sys_signal (sig h : Z) : M (sys X) Z :=
  if (sig <? 0) || (SIGMAX <? sig) then fail EINVAL
  else if ((sig =? SIGKILL) || (sig =? SIGSTOP)) && negb (h =? SIG_DFL) then fail EINVAL
  else
    let h := if (sig =? SIGEVT) && (h =? SIG_IGN) then SIG_DFL else h in
    let h := if (sig =? SIGCONT) && (h =? SIG_IGN) then SIG_DFL else h in
    if sig =? 0 then halted Undefined
    else
      me <~ get_curr;;
      c <~ get_task me;;
      upd_task me (fun c => set_use_event sig false (set_handler sig h c));;;
      (if sig =? SIGCHLD then setup_chld h else ret tt);;;
      ret (handler c sig).

Definition sys_evt_signal (sig h : Z) : M (sys X) unit :=
  if (sig <? 1) || (SIGMAX <? sig) then fail EINVAL
  else if ((sig =? SIGKILL) || (sig =? SIGSTOP)) && negb (h =? SIG_DFL) then ret tt
  else
    let h := if (sig =? SIGCONT) && (h =? SIG_IGN) then SIG_DFL else h in
    me <~ get_curr;;
    upd_task me (fun c => set_use_event sig true (set_handler sig h c));;;
    if sig =? SIGCHLD then setup_chld h else ret tt.

(** The loop of [sys___xwait]: a child that has exited, if any, and whether
    there is a child at all. *)
Fixpoint find_child (n i : nat) (me : nat) (want : Z) (exist : bool) : M (sys X) (option nat * bool) :=
  match n with
  | O => ret (None, exist)
  | S n' =>
    o <~ gets (task_at i);;
    match o with
    | Some c =>
      if negb (bool_decide (parent c = Some me)) || ((0 <? want) && negb (pid c =? want))
      then find_child n' (S i) me want exist
      else if exited (t_run c) then ret (Some i, true)
      else find_child n' (S i) me want true
    | None => find_child n' (S i) me want exist
    end
  end.

(** The status of a reaped child: its name, exit status and number.  [None]:
    no child has exited yet ([WNOHANG]). *)
Definition sys___xwait (want : Z) (nohang : bool) : M (sys X) (progress (option (list Z * Z * Z))) :=
  me <~ get_curr;;
  r <~ find_child TASK_MAX 0 me want false;;
  match r with
  | (Some i, _) =>
    c <~ get_task i;;
    env_call tucpy_user;;;
    task_putslot i;;;
    ret (Done (Some (exec_name (t_exec c), exit_status (t_run c), pid c)))
  | (None, true) =>
    if nohang then env_call tucpy_user;;; ret (Done None)
    else
      e <~ attempt (task_suspend (Some WAITQ) WAIT_INTR);;
      match e with
      | inl _ => fail EINTR
      | inr _ => ret Wait
      end
  | (None, false) => fail ECHILD
  end.

(** * Delivery of signals *)

Definition dumps_core (i : Z) : bool :=
  existsb (Z.eqb i) [SIGQUIT; SIGILL; SIGTRAP; SIGABRT; SIGBUS; SIGFPE; SIGSEGV; SIGSTK; SIGOOM].

(** [true]: the task has exited, and the call does not return. *)
Definition signal_default (i : Z) : M (sys X) bool :=
  if existsb (Z.eqb i) [SIGSTOP; SIGCONT; SIGCHLD; SIGEVT] then ret false
  else if dumps_core i then
    e <~ status (env_call (dump_core (Z.lor i 128)));;
    task_exit (if e =? 0 then Z.lor i 128 else i);;;
    ret true
  else task_exit i;;; ret true.

Definition upush (v : Z) : M (sys X) unit :=
  e <~ status (env_call (tucpy_stack v));;
  if e =? 0 then ret tt else status (signal_raise SIGSTK);;; ret tt.

(** The amd64 version; [rip] is the interrupted address. *)
Definition signal_push (rip nr : Z) : M (sys X) unit :=
  modify_env red_zone;;;
  upush rip;;;
  upush nr;;;
  me <~ get_curr;;
  c <~ get_task me;;
  upush (handler c nr);;;
  modify_env set_entry.

Definition signal_dispatch (rip nr : Z) : M (sys X) unit :=
  me <~ get_curr;;
  c <~ get_task me;;
  (if use_event c nr
   then status (send_event me (Event E_SIGNAL (handler c nr) 0 nr 0 []));;; ret tt
   else signal_push rip nr);;;
  upd_task me (set_handler nr SIG_DFL).

(** The [for] loop of [signal_handle], [n] signals left; [true] as for
    [signal_default]. *)
Fixpoint handle_loop (n : nat) (rip i : Z) : M (sys X) bool :=
  match n with
  | O => ret false
  | S n' =>
    me <~ get_curr;;
    c <~ get_task me;;
    if received c i then
      upd_task me (set_received i false);;;
      gone <~ (if handler c i =? SIG_IGN then ret false
               else if handler c i =? SIG_DFL then signal_default i
               else signal_dispatch rip i;;; ret false);;
      if gone : bool then ret true else handle_loop n' rip (i + 1)
    else handle_loop n' rip (i + 1)
  end.

Fixpoint handle_rounds (fuel : nat) (rip : Z) : M (sys X) bool :=
  me <~ get_curr;;
  c <~ get_task me;;
  if negb (signal_pending (t_sig c)) then ret false
  else
    match fuel with
    | O => halted Undefined
    | S fuel' =>
      upd_task me (set_pending false);;;
      gone <~ handle_loop (Z.to_nat SIGMAX) rip 1;;
      if gone : bool then ret true else handle_rounds fuel' rip
    end.

(** A round that leaves a signal pending has called a handler, and a handler is
    called once: there are at most as many further rounds as handlers. *)
Definition signal_handle (rip : Z) : M (sys X) bool :=
  me <~ get_curr;;
  c <~ get_task me;;
  handle_rounds (S (length (signal_handler (t_sig c)))) rip.

(** * Programs *)

Definition task_exec (name arg : list Z) : M (sys X) unit :=
  fqn <~ gets (fun s => env_fqname name (curr s) (env s));;
  match fqn with
  | inl e => fail e
  | inr fqn => me <~ get_curr;; upd_task me (set_exec (Execs fqn arg true))
  end.

Definition exec_handlers (g : signals) : signals :=
  Signals (signal_received g)
    (map (fun h => if h =? SIG_IGN then h else SIG_DFL) (take 32 (signal_handler g)) ++ drop 32 (signal_handler g))
    (signal_use_event g) (signal_pending g).

Definition do_exec : M (sys X) unit :=
  me <~ get_curr;;
  upd_task me (fun c =>
    set_sig (exec_handlers (t_sig c)) (set_exec (Execs (exec_name (t_exec c)) (exec_arg (t_exec c)) false) c));;;
  modify_env exec_close;;;
  upd_task me (fun c => set_alarms (Alarms 0 (alarm_ticks (t_alarm c)) 0) c);;;
  modify_env exec_clean;;;
  upd_task me (fun c => let v := t_ev c in set_ev (Events (event_ v) (unseen_events v) 0 0 0 (-1)) c);;;
  c <~ get_task me;;
  r <~ gets (fun s => exec_load (t_creds c) (t_exec c) (curr s) (env s));;
  modify (with_env r.2);;;
  match r.1 with
  | inl e => fail e
  | inr (u, g) =>
    upd_task me (fun c =>
      let k := t_creds c in
      set_creds (Creds (default (euid k) u) (default (egid k) g) (ruid k) (rgid k)) c)
  end.

(** * The event queue *)

Definition sys_evt_count : M (sys X) Z :=
  me <~ get_curr;;
  upd_task me (set_unseen 0);;;
  c <~ get_task me;;
  ret (event_count (t_ev c)).

(** A further pointer motion among the [cnt] events from [i] on. *)
Fixpoint more_motion (cnt : nat) (i : Z) (l : list event) : bool :=
  match cnt with
  | O => false
  | S cnt' =>
    match l !! Z.to_nat i with
    | Some e => (e_sig e =? WIN_E_PTR_MOVE) || more_motion cnt' ((i + 1) mod EVT_MAX) l
    | None => more_motion cnt' ((i + 1) mod EVT_MAX) l
    end
  end.

Definition set_more (e : event) : event := Event (e_type e) (e_proc e) (e_data e) (e_sig e) 1 (e_win e).

(** [sys__evt_wait] when there is an event. *)
Definition evt_take (me : nat) : M (sys X) event :=
  c <~ get_task me;;
  let v := t_ev c in
  e <~ deref (event_ v !! Z.to_nat (first_event v));;
  let mv := (e_type e =? E_WINGUI) && (e_sig e =? WIN_E_PTR_MOVE) &&
    more_motion (Z.to_nat (event_count v - 1)) ((first_event v + 1) mod EVT_MAX) (event_ v) in
  let e := if mv then set_more e else e in
  let l := <[Z.to_nat (first_event v) := e]> (event_ v) in
  upd_task me (set_ev (Events l (unseen_events v) (event_count v) (event_high v) (first_event v) (last_event v)));;;
  env_call tucpy_user;;;
  upd_task me (set_ev (Events l 0 (event_count v - 1) (event_high v) ((first_event v + 1) mod EVT_MAX) (last_event v)));;;
  ret e.

(** The loop that waits for an event; [task_suspend] returns at once at most
    one time, when it clears [unseen_events]. *)
Fixpoint evt_wait (fuel : nat) : M (sys X) (progress event) :=
  me <~ get_curr;;
  c <~ get_task me;;
  if negb (event_count (t_ev c) =? 0) then e <~ evt_take me;; ret (Done e)
  else if signal_pending (t_sig c) then fail EINTR
  else
    match fuel with
    | O => halted Undefined
    | S fuel' =>
      r <~ attempt (task_suspend (Some EVTQ) WAIT_INTR);;
      match r with
      | inl _ => evt_wait fuel'
      | inr _ => ret Wait
      end
    end.
Definition sys__evt_wait : M (sys X) (progress event) := evt_wait 2.

(** * The clock *)

Definition set_alarm (tm tc : Z) : M (sys X) unit :=
  modify (fun s =>
    let '(at_, ac) := alarm_t s in
    if (at_ =? 0) || (tm <? at_) || ((tm =? at_) && (tc <? ac)) then with_alarm (tm, tc) s else s).

Definition chk_alarm (p : nat) : M (sys X) unit :=
  c <~ get_task p;;
  let a := t_alarm c in
  if alarm a =? 0 then ret tt
  else
    now <~ gets (fun s => (time s, ticks s));;
    let '(tm, tc) := now in
    if ((alarm a =? tm) && (alarm_ticks a <=? tc)) || (alarm a <? tm) then
      status (signal_send_k p SIGALRM);;;
      if alarm_repeat a =? 0 then upd_task p (set_alarms (Alarms 0 (alarm_ticks a) 0))
      else
        let tk := u32 (tc + alarm_repeat a) in
        let '(at_, ac) := if CLOCK_HZ <=? tk then (tm + tk / CLOCK_HZ, tk mod CLOCK_HZ) else (tm, tk) in
        upd_task p (set_alarms (Alarms (alarm_repeat a) ac at_));;;
        set_alarm at_ ac
    else set_alarm (alarm a) (alarm_ticks a).

Fixpoint chk_alarms (n i : nat) : M (sys X) unit :=
  match n with
  | O => ret tt
  | S n' =>
    o <~ gets (task_at i);;
    (match o with Some _ => chk_alarm i | None => ret tt end);;;
    chk_alarms n' (S i)
  end.

Definition sample_cputime (c : task) : task := set_cputime 0 (cputime_cnt c) c.

Definition clock_second (s : sys X) : sys X :=
  if CLOCK_HZ <=? upticks s + 1 then
    with_uptime (uptime s + 1) 0
      (with_cputime 0 (k_cputime_cnt s)
        (with_switch 0 (switch_cnt s)
          (with_tasks (map (option_map sample_cputime) (tasks s)) s)))
  else with_uptime (uptime s) (upticks s + 1) s.

Definition clock_tick (s : sys X) : sys X :=
  if CLOCK_HZ <=? ticks s + 1 then with_time (time s + 1) 0 s else with_time (time s) (ticks s + 1) s.

Definition clock_intr : M (sys X) unit :=
  o <~ gets curr;;
  (match o with
   | Some me =>
     upd_task me (fun c => set_cputime (cputime_cnt c + 1) (cputime c) c);;;
     modify (fun s => with_cputime (k_cputime_cnt s + 1) (k_cputime s) s)
   | None => ret tt
   end);;;
  modify clock_second;;;
  modify clock_tick;;;
  (match o with
   | Some me =>
     upd_task me (fun c => set_time_slice (time_slice (t_run c) - 1) c);;;
     c <~ get_task me;;
     if time_slice (t_run c) <? 0 then modify (with_resched true) else ret tt
   | None => ret tt
   end);;;
  now <~ gets (fun s => (alarm_t s, time s, ticks s));;
  let '(at_, ac, tm, tc) := now in
  (if negb (at_ =? 0) && (((at_ =? tm) && (ac <=? tc)) || (at_ <? tm)) then
     modify (fun s => with_alarm (0, ac) s);;;
     chk_alarms TASK_MAX 0
   else ret tt);;;
  modify_env clock_procs.

Definition sys_alarm (delay : Z) : M (sys X) Z :=
  me <~ get_curr;;
  c <~ get_task me;;
  now <~ gets (fun s => (time s, ticks s));;
  let '(tm, tc) := now in
  let a := t_alarm c in
  let r := if alarm a =? 0 then 0 else u32 (alarm a - tm) in
  if delay =? 0 then upd_task me (set_alarms (Alarms (alarm_repeat a) 0 0));;; ret r
  else
    upd_task me (set_alarms (Alarms (alarm_repeat a) tc (tm + delay)));;;
    set_alarm (tm + delay) tc;;;
    ret r.

Definition sys_ualarm (u_delay : Z) (repeat : bool) : M (sys X) Z :=
  if 1000000 <? u_delay then fail EINVAL
  else
    me <~ get_curr;;
    c <~ get_task me;;
    now <~ gets (fun s => (time s, ticks s));;
    let '(tm, tc) := now in
    let a := t_alarm c in
    let r := if alarm a =? 0 then 0 else u32 (alarm_ticks a - tc + (alarm a - tm) * 1000000) in
    if u_delay =? 0 then upd_task me (set_alarms (Alarms (alarm_repeat a) 0 0));;; ret r
    else
      let rep := if repeat then (u_delay * CLOCK_HZ + CLOCK_HZ - 1) / 1000000 else 0 in
      let tk := u32 (tc + u_delay * CLOCK_HZ / 1000000) in
      let '(at_, ac) := if CLOCK_HZ <=? tk then (tm + tk / CLOCK_HZ, tk mod CLOCK_HZ) else (tm, tk) in
      upd_task me (set_alarms (Alarms rep ac at_));;;
      set_alarm at_ ac;;;
      ret r.

(** [tv]: the time the argument points to, [None] for NULL. *)
Definition sys_settimeofday (tv : option (Z * Z)) : M (sys X) unit :=
  match tv with
  | None => ret tt
  | Some (tv_sec, tv_usec) =>
    env_call uga_user;;;
    modify (with_time tv_sec (u32 (u32 (tv_usec * CLOCK_HZ) / 1000000)))
  end.
End ops.
