(* ===== verification/TaskQueueOk.v ===== *)
(** Task queues as lists (task_insert, task_dequeue and task_remove of
    kern/task.c).

    [queued lk qs Q]: the queues [qs] and the links [lk] of the tasks represent
    the lists [Q]; a task is on the queue its [queue] field names and on no
    other, and a task on no queue has cleared links. *)

From S2P Require Import Prelude Frame Tasks.

(** * Segments *)

Definition head_or (l : list nat) (n : option nat) : option nat :=
  match l with [] => n | t :: _ => Some t end.
Definition last_or (l : list nat) (p : option nat) : option nat :=
  match last l with Some t => Some t | None => p end.

(** The tasks [l] of queue [q], in this order, after [p] and before [n]. *)
Fixpoint dseg (lk : nat -> option links) (q : nat) (p : option nat) (l : list nat) (n : option nat) : Prop :=
  match l with
  | [] => True
  | t :: l' => lk t = Some (Links (Some q) p (head_or l' n)) /\ dseg lk q (Some t) l' n
  end.

Record queued (lk : nat -> option links) (qs : list task_queue) (Q : list (list nat)) : Prop := Queued {
  qd_len : length Q = length qs;
  qd_ends : forall q l, Q !! q = Some l -> qs !! q = Some (TaskQueue (head l) (last l));
  qd_seg : forall q l, Q !! q = Some l -> dseg lk q None l None /\ NoDup l;
  qd_links : forall t k, lk t = Some k ->
    match queue k with Some q => exists l, Q !! q = Some l /\ t ∈ l | None => k = unlinked end
}.

Section seg.
Implicit Types (lk : nat -> option links) (l : list nat).

Lemma dseg_app lk q p l1 l2 n :
  dseg lk q p (l1 ++ l2) n <-> dseg lk q p l1 (head_or l2 n) /\ dseg lk q (last_or l1 p) l2 n.
Proof.
  revert p. induction l1 as [|t l1 IH]; intros p; cbn; [naive_solver|].
  rewrite IH. assert (last_or l1 (Some t) = last_or (t :: l1) p) as -> by (unfold last_or; rewrite last_cons; by destruct (last l1)).
  assert (head_or (l1 ++ l2) n = head_or l1 (head_or l2 n)) as -> by (by destruct l1). tauto.
Qed.
Lemma dseg_ext lk lk' q p l n : (forall t, t ∈ l -> lk' t = lk t) -> dseg lk q p l n -> dseg lk' q p l n.
Proof.
  revert p. induction l as [|t l IH]; intros p Hx; cbn; [done|]. intros [Ht Hl].
  split; [by rewrite Hx by set_solver|]. apply IH; [|done]. set_solver.
Qed.
Lemma dseg_mem lk q p l n t : dseg lk q p l n -> t ∈ l -> exists k, lk t = Some k /\ queue k = Some q.
Proof.
  revert p. induction l as [|x l IH]; intros p Hl Ht; [by apply not_elem_of_nil in Ht|].
  destruct Hl as [Hx Hl]. apply elem_of_cons in Ht as [->|Ht]; eauto.
Qed.
Lemma last_or_snoc l t p : last_or (l ++ [t]) p = Some t.
Proof. unfold last_or. by rewrite last_snoc. Qed.
Lemma last_or_None l : last_or l None = last l.
Proof. unfold last_or. by destruct (last l). Qed.

Lemma head_mid (l1 l2 : list nat) t : head (l1 ++ l2) = Some t -> l1 <> [] -> t ∈ l1.
Proof. destruct l1 as [|x l1]; [done|]. cbn. intros [= ->] _. apply list_elem_of_here. Qed.

(** The links after task [t] between [p] and [n] has left its queue. *)
Definition unlink lk (t : nat) (p n : option nat) (u : nat) : option links :=
  if decide (u = t) then Some unlinked
  else if decide (Some u = p) then (fun k => Links (queue k) (prev k) n) <$> lk u
  else if decide (Some u = n) then (fun k => Links (queue k) p (next k)) <$> lk u
  else lk u.

Lemma dseg_unlink lk q l1 t l2 :
  dseg lk q None (l1 ++ t :: l2) None -> NoDup (l1 ++ t :: l2) ->
  dseg (unlink lk t (last l1) (head l2)) q None (l1 ++ l2) None.
Proof.
  intros Hd Hn. apply dseg_app in Hd as [H1 [Ht H2]]. apply NoDup_app in Hn as (Hn1 & Hn12 & [Ht2 Hn2]%NoDup_cons).
  assert (forall u, u ∈ l1 -> u <> t /\ u ∉ l2) as Hdis by (intros u Hu; specialize (Hn12 u Hu); set_solver).
  apply dseg_app. split.
  - destruct l1 as [|x l1 _] using rev_ind; [done|]. rewrite last_snoc.
    apply NoDup_app in Hn1 as (_ & Hnx & _). apply dseg_app in H1 as [H1 [Hx _]]. apply dseg_app. split.
    + eapply dseg_ext; [|exact H1]. intros u Hu. destruct (Hdis u) as [Hut Hu2]; [set_solver|]. unfold unlink.
      rewrite !decide_False; [done| |intros [= ->]; set_solver|done]. intros Hh. destruct l2; simplify_eq/=; set_solver.
    + cbn. split; [|done]. destruct (Hdis x) as [Hxt _]; [set_solver|]. unfold unlink. rewrite decide_False, decide_True by done.
      rewrite Hx. by destruct l2.
  - destruct l2 as [|y l2]; [done|]. cbn in H2 |- *. destruct H2 as [Hy H2]. apply NoDup_cons in Hn2 as [Hy2 _].
    assert (Some y <> last l1) as Hyl. { intros E. symmetry in E. apply last_Some_elem_of in E. destruct (Hdis y E). set_solver. }
    split.
    + unfold unlink. rewrite decide_False, decide_False, decide_True; [|done|done|set_solver]. rewrite Hy. cbn. by rewrite last_or_None.
    + eapply dseg_ext; [|exact H2]. intros u Hu. unfold unlink.
      rewrite !decide_False; [done|set_solver| |set_solver].
      intros E. symmetry in E. apply last_Some_elem_of in E. destruct (Hdis u E). set_solver.
Qed.

(** One queue changes from [l] to [l']; a task that joins it was on none and a
    task that leaves it has cleared links. *)
Lemma queued_change lk lk' qs Q q l l' :
  queued lk qs Q -> Q !! q = Some l ->
  (forall t, t ∉ l -> t ∉ l' -> lk' t = lk t) ->
  (forall t, t ∈ l' -> t ∉ l -> lk t = Some unlinked) ->
  (forall t, t ∈ l -> t ∉ l' -> lk' t = Some unlinked) ->
  dseg lk' q None l' None -> NoDup l' ->
  queued lk' (<[q := TaskQueue (head l') (last l')]> qs) (<[q := l']> Q).
Proof.
  intros [Hn He Hs Hk] Hq Hout Hin Hleft Hseg Hdup. pose proof (lookup_lt_Some _ _ _ Hq) as Hlt.
  assert (forall q2 l2 t, Q !! q2 = Some l2 -> q2 <> q -> t ∈ l2 -> lk' t = lk t) as Hother.
  { intros q2 l2 t H2 Hne Ht. destruct (Hs _ _ H2) as [Hd _]. destruct (dseg_mem _ _ _ _ _ _ Hd Ht) as (k & Ek & Qk).
    apply Hout; intros Hm.
    - destruct (Hs _ _ Hq) as [Hd' _]. destruct (dseg_mem _ _ _ _ _ _ Hd' Hm) as (k' & Ek' & Qk'). congruence.
    - destruct (decide (t ∈ l)) as [Hl|Hl]; [|by rewrite (Hin t Hm Hl) in Ek; simplify_eq].
      destruct (Hs _ _ Hq) as [Hd' _]. destruct (dseg_mem _ _ _ _ _ _ Hd' Hl) as (k' & Ek' & Qk'). congruence. }
  split.
  - by rewrite !length_insert.
  - intros q2 l2 H2. destruct (decide (q2 = q)) as [->|Hne].
    + rewrite list_lookup_insert_eq in H2 by done. simplify_eq. apply list_lookup_insert_eq. lia.
    + rewrite list_lookup_insert_ne in H2 by done. rewrite list_lookup_insert_ne by done. eauto.
  - intros q2 l2 H2. destruct (decide (q2 = q)) as [->|Hne].
    + rewrite list_lookup_insert_eq in H2 by done. by simplify_eq.
    + rewrite list_lookup_insert_ne in H2 by done. destruct (Hs _ _ H2) as [Hd Hnd]. split; [|done].
      eapply dseg_ext; [|exact Hd]. intros t Ht. eapply Hother; eauto.
  - intros t k Ek. destruct (decide (t ∈ l')) as [Hl'|Hl'].
    { destruct (dseg_mem _ _ _ _ _ _ Hseg Hl') as (k' & Ek' & Qk). simplify_eq. rewrite Qk. exists l'.
      by rewrite list_lookup_insert_eq. }
    destruct (decide (t ∈ l)) as [Hl|Hl]; [by rewrite (Hleft t Hl Hl') in Ek; simplify_eq|].
    rewrite (Hout t Hl Hl') in Ek. specialize (Hk _ _ Ek). destruct (queue k) as [q2|]; [|done].
    destruct Hk as (l2 & H2 & Ht). exists l2. split; [|done]. rewrite list_lookup_insert_ne; [done|]. congruence.
Qed.
End seg.

(** * The operations *)

Section ops.
Context {X : Type} `{TaskEnv X}.
Implicit Types s : sys X.

Definition lk s (t : nat) : option links := t_links <$> task_at t s.

(** A step that changes only links and queues. *)
Definition same_body s s' : Prop :=
  s' = with_tasks (tasks s') (with_queues (queues s') s) /\
  length (tasks s') = length (tasks s) /\
  forall t, set_links unlinked <$> task_at t s' = set_links unlinked <$> task_at t s.

Global Instance same_body_preorder : PreOrder same_body.
Proof.
  split.
  - intros s. by destruct s.
  - intros s1 s2 s3 (E1 & L1 & B1) (E2 & L2 & B2). split_and!; [|congruence|intros t; by rewrite B2, B1].
    rewrite E2, E1. done.
Qed.

Lemma task_at_upd s t f u :
  task_at u (task_upd t f s) = if decide (u = t) then f <$> task_at t s else task_at u s.
Proof.
  unfold task_at. cbn. destruct (decide (u = t)) as [->|Hne].
  - rewrite list_lookup_alter_eq. by destruct (tasks s !! t) as [[]|].
  - by rewrite list_lookup_alter_ne.
Qed.
Lemma lk_upd s t f u :
  lk (task_upd t f s) u
  = if decide (u = t) then (fun c => t_links (f c)) <$> task_at t s else lk s u.
Proof. unfold lk. rewrite task_at_upd. case_decide; [|done]. by destruct (task_at t s). Qed.

Lemma task_at_put s q v u : task_at u (queue_put q v s) = task_at u s.
Proof. done. Qed.
Lemma lk_put s q v u : lk (queue_put q v s) u = lk s u.
Proof. done. Qed.
Lemma queues_upd s t f : queues (task_upd t f s) = queues s.
Proof. done. Qed.

Lemma same_body_upd s t f :
  (forall c, set_links unlinked (f c) = set_links unlinked c) ->
  same_body s (task_upd t f s).
Proof.
  intros Hf. split_and!; [done|apply length_alter|]. intros u. rewrite task_at_upd. case_decide; [subst|done].
  destruct (task_at t s); cbn; by rewrite ?Hf.
Qed.
Lemma same_body_put s q v : same_body s (queue_put q v s).
Proof. by split_and!. Qed.
Lemma keeps_links t f : (forall c, set_links unlinked (f c) = set_links unlinked c) -> keeps same_body (upd_task (X := X) t f).
Proof. intros Hf s. by apply same_body_upd. Qed.
Lemma keeps_put q v : keeps same_body (put_queue (X := X) q v).
Proof. intros s. apply same_body_put. Qed.
Lemma keeps_get_task R `{!PreOrder R} t : keeps R (get_task (X := X) t).
Proof. unfold get_task. keeps. Qed.
Lemma keeps_get_queue R `{!PreOrder R} q : keeps R (get_queue (X := X) q).
Proof. unfold get_queue. keeps. Qed.
#[local] Hint Resolve keeps_put keeps_get_task keeps_get_queue : keeps.
#[local] Hint Extern 1 (keeps same_body (upd_task _ _)) => (apply keeps_links; done) : keeps.

Lemma task_insert_body q t : keeps same_body (task_insert (X := X) q t).
Proof. unfold task_insert. keeps. Qed.
Lemma task_dequeue_body q : keeps same_body (task_dequeue (X := X) q).
Proof. unfold task_dequeue. keeps. Qed.
Lemma task_remove_body t : keeps same_body (task_remove (X := X) t).
Proof. unfold task_remove. keeps. Qed.

Lemma get_task_run s t c B (k : task -> M (sys X) B) : task_at t s = Some c -> bind (get_task t) k s = k c s.
Proof. intros E. unfold get_task, bind, gets, deref, ret. by rewrite E. Qed.
Lemma get_queue_run s q v B (k : task_queue -> M (sys X) B) : queues s !! q = Some v -> bind (get_queue q) k s = k v s.
Proof. intros E. unfold get_queue, bind, gets, deref, ret. by rewrite E. Qed.
Lemma lk_task s t k : lk s t = Some k -> exists c, task_at t s = Some c /\ t_links c = k.
Proof. unfold lk. destruct (task_at t s); intros; simplify_eq/=. eauto. Qed.

Lemma task_insert_ok s Q q t c l :
  queued (lk s) (queues s) Q -> task_at t s = Some c -> queue (t_links c) = None -> Q !! q = Some l ->
  exists s', task_insert q t s = Ret tt s' /\ queued (lk s') (queues s') (<[q := l ++ [t]]> Q) /\ same_body s s'.
Proof.
  intros HQ Ht Hc Hl. pose proof (qd_ends _ _ _ HQ _ _ Hl) as He. destruct (qd_seg _ _ _ HQ _ _ Hl) as [Hd Hn].
  assert (lk s t = Some unlinked) as Hlk.
  { unfold lk. rewrite Ht. cbn. pose proof (qd_links _ _ _ HQ t (t_links c)) as Hk. unfold lk in Hk.
    rewrite Ht, Hc in Hk. cbn in Hk. by rewrite Hk. }
  assert (t ∉ l) as Hnot.
  { intros Hin. destruct (dseg_mem _ _ _ _ _ _ Hd Hin) as (k & Ek & Qk). by simplify_eq. }
  assert (forall s', task_insert q t s = Ret tt s' -> same_body s s') as Hb.
  { intros s' E. pose proof (task_insert_body q t s) as Hw. unfold wlp in Hw. by rewrite E in Hw. }
  assert (NoDup (l ++ [t])) as Hn' by (apply NoDup_app; split_and!; [done|set_solver|apply NoDup_singleton]).
  enough (exists s', task_insert q t s = Ret tt s' /\ dseg (lk s') q None (l ++ [t]) None /\
    queues s' = <[q := TaskQueue (head (l ++ [t])) (last (l ++ [t]))]> (queues s) /\
    forall u, u ∉ l -> u ∉ l ++ [t] -> lk s' u = lk s u) as (s' & E & Hd' & Eq & Ho).
  { exists s'. split_and!; [done| |by apply Hb]. rewrite Eq. eapply queued_change; eauto; [|set_solver].
    intros u Hu Hu'. assert (u = t) as -> by set_solver. done. }
  unfold task_insert. rewrite (get_task_run _ _ _ _ _ Ht), Hc, (get_queue_run _ _ _ _ _ He). cbn [q_first].
  destruct l as [|x l _] using rev_ind.
  - cbn [head]. unfold upd_task, put_queue. rewrite modify_bind. eexists. split; [reflexivity|]. split_and!; [cbn; split; [|done]|done|].
    + rewrite lk_upd, decide_True, task_at_put, Ht by done. done.
    + intros u Hu Hu'. rewrite lk_upd, decide_False by set_solver. done.
  - destruct (head (l ++ [x])) eqn:Hh; [|by destruct l]. rewrite last_snoc. cbn [q_last deref]. cbn beta iota.
    apply dseg_app in Hd as [Hd [Hx _]]. cbn in Hx, Hd.
    unfold upd_task, put_queue. rewrite !modify_bind, ret_bind, modify_bind. eexists. split; [reflexivity|]. rewrite last_snoc.
    assert (forall u, lk (task_upd x (set_next (Some t)) (task_upd t (set_links (Links (Some q) (Some x) None)) s)) u
      = if decide (u = x) then Some (Links (Some q) (last_or l None) (Some t))
        else if decide (u = t) then Some (Links (Some q) (Some x) None) else lk s u) as Hlk'.
    { intros u. rewrite lk_upd. case_decide; [subst u|].
      - rewrite task_at_upd, decide_False by set_solver. destruct (lk_task _ _ _ Hx) as (cx & Ex & Lx). rewrite Ex. cbn.
        by rewrite Lx.
      - rewrite lk_upd. case_decide; [subst|done]. by rewrite Ht. }
    apply NoDup_app in Hn as (Hnl & Hnx & _).
    split_and!.
    + apply dseg_app. split; [|cbn; split; [|done]].
      * apply dseg_app. split; [|cbn; split; [|done]].
        -- eapply dseg_ext; [|exact Hd]. intros u Hu. cbn. fold (lk s u). etransitivity; [apply Hlk'|].
           rewrite !decide_False by set_solver. done.
        -- etransitivity; [apply Hlk'|]. by rewrite decide_True.
      * etransitivity; [apply Hlk'|]. rewrite last_or_snoc, decide_False, decide_True by set_solver. done.
    + cbn. rewrite ?last_snoc, <- Hh. f_equal. f_equal. by destruct l.
    + intros u Hu Hu'. etransitivity; [apply Hlk'|]. rewrite !decide_False by set_solver. done.
Qed.

(** A queue loses one task when the links become [unlink]. *)
Lemma queued_unlink s s' Q q l1 t l2 :
  queued (lk s) (queues s) Q -> Q !! q = Some (l1 ++ t :: l2) ->
  (forall u, lk s' u = unlink (lk s) t (last l1) (head l2) u) ->
  queues s' = <[q := TaskQueue (head (l1 ++ l2)) (last (l1 ++ l2))]> (queues s) ->
  queued (lk s') (queues s') (<[q := l1 ++ l2]> Q).
Proof.
  intros HQ Hl Hu ->. destruct (qd_seg _ _ _ HQ _ _ Hl) as [Hd Hn].
  pose proof (dseg_unlink _ _ _ _ _ Hd Hn) as Hd'.
  assert (forall u, u ∉ l1 ++ t :: l2 -> unlink (lk s) t (last l1) (head l2) u = lk s u) as Ho.
  { intros u Hnot. unfold unlink. rewrite !decide_False; [done| | |set_solver].
    - intros E. destruct l2; simplify_eq/=; set_solver.
    - intros E. symmetry in E. apply last_Some_elem_of in E. set_solver. }
  eapply queued_change; [done|done| | | | |].
  - intros u Hnot _. rewrite Hu. by apply Ho.
  - set_solver.
  - intros u Hin Hnot. assert (u = t) as -> by set_solver. rewrite Hu. unfold unlink. by rewrite decide_True.
  - eapply dseg_ext; [|exact Hd']. intros u _. apply Hu.
  - apply NoDup_app in Hn as (Hn1 & Hn2 & [_ Hn3]%NoDup_cons). apply NoDup_app. split_and!; [done| |done]. set_solver.
Qed.

Lemma dseg_at s q l1 t l2 :
  dseg (lk s) q None (l1 ++ t :: l2) None ->
  exists c, task_at t s = Some c /\ t_links c = Links (Some q) (last l1) (head l2).
Proof.
  intros [_ [Ht _]]%dseg_app. apply lk_task in Ht as (c & Ec & El). exists c. split; [done|].
  rewrite El, last_or_None. by destruct l2.
Qed.

Lemma task_dequeue_empty s Q q : queued (lk s) (queues s) Q -> Q !! q = Some [] -> task_dequeue q s = Ret None s.
Proof.
  intros HQ Hl. unfold task_dequeue. by rewrite (get_queue_run _ _ _ _ _ (qd_ends _ _ _ HQ _ _ Hl)).
Qed.

Lemma task_dequeue_ok s Q q t l :
  queued (lk s) (queues s) Q -> Q !! q = Some (t :: l) ->
  exists s', task_dequeue q s = Ret (Some t) s' /\ queued (lk s') (queues s') (<[q := l]> Q) /\ same_body s s'.
Proof.
  intros HQ Hl. destruct (qd_seg _ _ _ HQ _ _ Hl) as [Hd Hn].
  destruct (dseg_at _ _ [] _ _ Hd) as (c & Hc & Lc).
  enough (exists s', task_dequeue q s = Ret (Some t) s' /\ (forall u, lk s' u = unlink (lk s) t None (head l) u) /\
    queues s' = <[q := TaskQueue (head l) (last l)]> (queues s)) as (s' & E & Hu & Eq).
  { exists s'. split_and!; [done| |].
    - by apply (queued_unlink s s' Q q [] t l).
    - pose proof (task_dequeue_body q s) as Hw. unfold wlp in Hw. by rewrite E in Hw. }
  unfold task_dequeue. rewrite (get_queue_run _ _ _ _ _ (qd_ends _ _ _ HQ _ _ Hl)). cbn [q_first head q_last].
  rewrite (get_task_run _ _ _ _ _ Hc), Lc. apply NoDup_cons in Hn as [Htl Hn].
  unfold put_queue, upd_task. rewrite modify_bind. cbn [next]. destruct l as [|n l]; cbn [head].
  - rewrite ret_bind, modify_bind. eexists. split_and!; [reflexivity| |done]. intros u. rewrite lk_upd, lk_put, task_at_put, Hc.
    done.
  - destruct Hd as [_ [Hy _]]. apply lk_task in Hy as (cn & Hcn & Ln).
    rewrite !modify_bind. eexists. split_and!; [reflexivity| |done]. intros u. unfold unlink.
    rewrite lk_upd, task_at_upd, lk_upd, !task_at_put, lk_put, Hcn, Hc, (decide_False (P := t = n)) by set_solver.
    repeat case_decide; subst; simplify_eq; try done. unfold lk. by rewrite Hcn.
Qed.

Lemma task_remove_ok s Q q l1 t l2 :
  queued (lk s) (queues s) Q -> Q !! q = Some (l1 ++ t :: l2) ->
  exists s', task_remove t s = Ret tt s' /\ queued (lk s') (queues s') (<[q := l1 ++ l2]> Q) /\ same_body s s'.
Proof.
  intros HQ Hl. destruct (qd_seg _ _ _ HQ _ _ Hl) as [Hd Hn].
  destruct (dseg_at _ _ _ _ _ Hd) as (c & Hc & Lc).
  enough (exists s', task_remove t s = Ret tt s' /\ (forall u, lk s' u = unlink (lk s) t (last l1) (head l2) u) /\
    queues s' = <[q := TaskQueue (head (l1 ++ l2)) (last (l1 ++ l2))]> (queues s)) as (s' & E & Hu & Eq).
  { exists s'. split_and!; [done| |].
    - by apply (queued_unlink s s' Q q l1 t l2).
    - pose proof (task_remove_body t s) as Hw. unfold wlp in Hw. by rewrite E in Hw. }
  apply NoDup_app in Hn as (_ & Hn1 & [Hn2 _]%NoDup_cons).
  apply dseg_app in Hd as [Hd1 [_ Hd2]].
  unfold task_remove. rewrite (get_task_run _ _ _ _ _ Hc), Lc. cbn [queue].
  rewrite (get_queue_run _ _ _ _ _ (qd_ends _ _ _ HQ _ _ Hl)). cbn [q_first q_last prev next].
  unfold upd_task, put_queue.
  assert (forall x, last l1 = Some x -> x <> t /\ exists cx, task_at x s = Some cx) as Hp.
  { intros x E%last_Some_elem_of. split; [intros ->; set_solver|].
    destruct (dseg_mem _ _ _ _ _ _ Hd1 E) as (k & (cx & ? & _)%lk_task & _). eauto. }
  assert (forall y, head l2 = Some y -> y <> t /\ exists cy, task_at y s = Some cy) as Hy.
  { intros y E. destruct l2 as [|y' l2]; simplify_eq/=. split; [set_solver|].
    destruct Hd2 as [(cy & ? & _)%lk_task _]. eauto. }
  assert (forall x, last l1 = Some x -> head l2 = Some x -> False) as Hpy.
  { intros x E%last_Some_elem_of E2. apply (Hn1 x E). destruct l2; simplify_eq/=. set_solver. }
  assert (l1 <> [] -> head (l1 ++ t :: l2) <> Some t) as Hh.
  { intros Hne E%head_mid; [|done]. by apply (Hn1 t E), list_elem_of_here. }
  assert (l2 <> [] -> last (l1 ++ t :: l2) <> Some t) as Hla.
  { intros Hne E. destruct l2; [done|]. rewrite last_app_cons, last_cons_cons in E. by apply last_Some_elem_of in E. }
  destruct l1 as [|x l1 _] using rev_ind; destruct l2 as [|y l2].
  - rewrite !bool_decide_true by done. rewrite modify_bind. eexists. split_and!; [reflexivity| |done].
    intros u. rewrite lk_put, lk_upd, Hc. done.
  - rewrite bool_decide_true, bool_decide_false by auto.
    destruct (Hy y eq_refl) as (Hyt & cy & Ey). rewrite modify_bind. cbn [head deref]. rewrite ret_bind, modify_bind.
    eexists. split_and!; [reflexivity| |done]. intros u. unfold unlink. rewrite !lk_upd, task_at_upd, !task_at_put, lk_put, Hc, Ey.
    repeat case_decide; simplify_eq; try done. unfold lk. by rewrite Ey.
  - destruct (Hp x) as (Hxt & cx & Ex); [apply last_snoc|].
    rewrite bool_decide_false, bool_decide_true; [|by rewrite last_snoc|apply Hh; by destruct l1].
    rewrite modify_bind, last_snoc. cbn [head deref]. rewrite ret_bind, modify_bind.
    eexists. split_and!; [reflexivity| |cbn; rewrite app_nil_r, last_snoc; f_equal; f_equal; by destruct l1].
    intros u. unfold unlink. rewrite !lk_upd, task_at_upd, !task_at_put, lk_put, Hc, Ex.
    repeat case_decide; simplify_eq; try done. unfold lk. by rewrite Ex.
  - destruct (Hp x) as (Hxt & cx & Ex); [apply last_snoc|]. destruct (Hy y eq_refl) as (Hyt & cy & Ey).
    assert (x <> y) as Hxy by (intros ->; eapply Hpy; [apply last_snoc|done]).
    rewrite !bool_decide_false by (auto; apply Hh; by destruct l1).
    rewrite last_snoc. cbn [head deref]. rewrite ret_bind, modify_bind, ret_bind, modify_bind.
    eexists. split_and!; [reflexivity| |].
    + intros u. unfold unlink. rewrite !lk_upd, !task_at_upd, Hc, Ex, Ey.
      repeat case_decide; simplify_eq; try done; unfold lk; by rewrite ?Ex, ?Ey.
    + cbn. rewrite !last_app_cons. symmetry. rewrite list_insert_id; [done|]. rewrite (qd_ends _ _ _ HQ _ _ Hl). f_equal. f_equal.
      * by destruct l1.
      * by rewrite last_app_cons.
Qed.
End ops.
