(* ===== verification/TaskOk.v ===== *)
(** The scheduler keeps its books: every task that can run is in a ready queue
    or is the current one, every other queue holds tasks that wait, and the two
    counters are the numbers of tasks that live and that wait (kern/task.c,
    kern/sched.c).

    [placed s Q H]: the queues are the lists [Q], and every runnable task except
    those of [H] is in a ready queue.  [H] holds the current task and, inside an
    operation, a task that is between two queues. *)

From S2P Require Import Prelude Frame Tasks TaskQueueOk.

Definition runnable (c : task) : bool := negb (exited (t_run c)) && (paused (t_run c) =? 0).
Definition live (o : option task) : bool := match o with Some c => negb (exited (t_run c)) | None => false end.
Definition asleep (o : option task) : bool := match o with Some c => negb (paused (t_run c) =? 0) | None => false end.

(** What a task on queue [q] is like.  Its priority can be worse than that of
    its ready queue: [do_fork] puts a new task on queue 0. *)
Definition good_place (q : nat) (c : task) : Prop :=
  if (q <? NREADY)%nat then runnable c = true /\ Z.of_nat q <= priority (t_run c) else paused (t_run c) <> 0.

(** What the scheduler reads of a task besides its links. *)
Definition view (c : task) : Z * Z * bool := (priority (t_run c), paused (t_run c), exited (t_run c)).

Section defs.
Context {X : Type}.
Implicit Types s : sys X.

Record placed s (Q : list (list nat)) (H : list nat) : Prop := Placed {
  pl_queued : queued (lk s) (queues s) Q;
  pl_len : length (tasks s) = TASK_MAX;
  pl_nq : (NREADY <= length (queues s))%nat;
  pl_hole : forall t, t ∈ H -> lk s t = Some unlinked;
  pl_prio : forall t c, task_at t s = Some c -> 0 <= priority (t_run c) <= TASK_PRIO_LOW;
  pl_exit : forall t c, task_at t s = Some c -> exited (t_run c) = true ->
    paused (t_run c) = 0 /\ queue (t_links c) = None;
  pl_queue : forall t c q, task_at t s = Some c -> queue (t_links c) = Some q -> good_place q c;
  pl_run : forall t c, task_at t s = Some c -> t ∉ H -> runnable c = true -> exists q, queue (t_links c) = Some q
}.

Definition counted s : Prop :=
  task_pcount s = zcount asleep (tasks s) /\ task_count s = zcount live (tasks s).

Definition current s : list nat := match curr s with Some me => [me] | None => [] end.

Record sched_ok s : Prop := SchedOk {
  sk_placed : exists Q, placed s Q (current s);
  sk_counted : counted s;
  sk_curr : forall me, curr s = Some me -> exists c, task_at me s = Some c /\ runnable c = true;
  sk_idle : curr s = None -> exists p, idle s = Some p
}.

(** A step that leaves alone what the scheduler reads. *)
Definition same_sched s s' : Prop :=
  queues s' = queues s /\ length (tasks s') = length (tasks s) /\
  curr s' = curr s /\ idle s' = idle s /\ task_pcount s' = task_pcount s /\ task_count s' = task_count s /\
  forall t, (fun c => (t_links c, view c)) <$> task_at t s' = (fun c => (t_links c, view c)) <$> task_at t s.

Global Instance same_sched_preorder : PreOrder same_sched.
Proof.
  split; [intros s; repeat split|]. intros s1 s2 s3 (?&?&?&?&?&?&E1) (?&?&?&?&?&?&E2).
  split_and!; congruence.
Qed.
End defs.

Section counting.
Context {X : Type}.
Implicit Types s : sys X.

Lemma zcount_ext {A} (q : A -> bool) l l' :
  length l = length l' -> (forall i x y, l !! i = Some x -> l' !! i = Some y -> q x = q y) -> zcount q l = zcount q l'.
Proof.
  revert l'. induction l as [|x l IH]; intros [|y l'] Hn Hx; cbn in Hn; try done. cbn.
  rewrite (Hx 0%nat x y), (IH l'); [done|lia| |done|done]. intros i. apply (Hx (S i)).
Qed.
Lemma zcount_view s s' (q : option task -> bool) :
  (forall c c', view c = view c' -> q (Some c) = q (Some c')) ->
  length (tasks s') = length (tasks s) -> (forall t, view <$> task_at t s' = view <$> task_at t s) ->
  zcount q (tasks s') = zcount q (tasks s).
Proof.
  intros Hq Hn Hv. apply zcount_ext; [done|]. intros i x y Hx Hy. specialize (Hv i). unfold task_at in Hv.
  rewrite Hx, Hy in Hv. cbn in Hv. destruct x, y; simplify_eq/=; [|done]. apply Hq. unfold view. congruence.
Qed.
Lemma asleep_view c c' : view c = view c' -> asleep (Some c) = asleep (Some c').
Proof. unfold view. intros [=]. cbn. congruence. Qed.
Lemma live_view c c' : view c = view c' -> live (Some c) = live (Some c').
Proof. unfold view. intros [=]. cbn. congruence. Qed.

Lemma task_at_lookup s t c : task_at t s = Some c -> tasks s !! t = Some (Some c).
Proof. unfold task_at. destruct (tasks s !! t) as [[]|]; intros; by simplify_eq/=. Qed.
Lemma zcount_upd s (q : option task -> bool) t c f :
  task_at t s = Some c ->
  zcount q (tasks (task_upd t f s)) = zcount q (tasks s) - b2z (q (Some c)) + b2z (q (Some (f c))).
Proof.
  intros E%task_at_lookup. cbn. assert (alter (option_map f) t (tasks s) = <[t := Some (f c)]> (tasks s)) as ->.
  { apply list_eq. intros i. destruct (decide (i = t)) as [->|Hne].
    - rewrite list_lookup_alter_eq, E, list_lookup_insert_eq by (by eapply lookup_lt_Some). done.
    - by rewrite list_lookup_alter_ne, list_lookup_insert_ne. }
  by apply zcount_insert.
Qed.
Lemma counted_same s s' :
  task_pcount s' = task_pcount s -> task_count s' = task_count s ->
  length (tasks s') = length (tasks s) -> (forall t, view <$> task_at t s' = view <$> task_at t s) ->
  counted s -> counted s'.
Proof.
  intros Ep Ec Hn Hv [Hp Hl]. unfold counted. rewrite Ep, Ec, Hp, Hl.
  by rewrite (zcount_view s s' asleep asleep_view Hn Hv), (zcount_view s s' live live_view Hn Hv).
Qed.
End counting.

(** * Moving a task between queues *)

Definition member (Q : list (list nat)) (q u : nat) : Prop := exists l, Q !! q = Some l /\ u ∈ l.

Lemma queued_member lk qs Q u k q : queued lk qs Q -> lk u = Some k -> queue k = Some q <-> member Q q u.
Proof.
  intros HQ Ek. split.
  - intros Eq. pose proof (qd_links _ _ _ HQ _ _ Ek) as Hk. by rewrite Eq in Hk.
  - intros (l & Hl & Hu). destruct (qd_seg _ _ _ HQ _ _ Hl) as [Hd _].
    destruct (dseg_mem _ _ _ _ _ _ Hd Hu) as (k' & Ek' & Eq). by simplify_eq.
Qed.
Lemma queued_none lk qs Q u k : queued lk qs Q -> lk u = Some k -> k = unlinked <-> forall q, ~ member Q q u.
Proof.
  intros HQ Ek. split.
  - intros -> q Hm. by apply (queued_member _ _ _ _ _ _ HQ Ek) in Hm.
  - intros Hn. pose proof (qd_links _ _ _ HQ _ _ Ek) as Hk. destruct (queue k) as [q|]; [|done].
    by destruct (Hn q).
Qed.

Section move.
Context {X : Type} `{TaskEnv X}.
Implicit Types s : sys X.

Lemma same_body_task s s' t c' :
  same_body s s' -> task_at t s' = Some c' ->
  exists c, task_at t s = Some c /\ set_links unlinked c' = set_links unlinked c.
Proof.
  intros (_ & _ & Hb) E. specialize (Hb t). rewrite E in Hb. destruct (task_at t s) as [c|]; [|done].
  exists c. split; [done|]. by apply (inj Some) in Hb.
Qed.
Lemma same_body_run c c' : set_links unlinked c' = set_links unlinked c -> t_run c' = t_run c.
Proof. intros E. apply (f_equal t_run) in E. done. Qed.
Lemma same_body_view s s' t : same_body s s' -> view <$> task_at t s' = view <$> task_at t s.
Proof.
  intros (_ & _ & Hb). specialize (Hb t). destruct (task_at t s') as [c'|], (task_at t s) as [c|]; try done.
  apply (inj Some) in Hb. cbn. unfold view. by rewrite (same_body_run _ _ Hb).
Qed.
Lemma same_body_counted s s' : same_body s s' -> counted s -> counted s'.
Proof.
  intros Hb. pose proof Hb as (E & Hn & _). apply counted_same; [by rewrite E|by rewrite E|done|].
  intros t. by apply same_body_view.
Qed.
Lemma same_body_curr s s' : same_body s s' -> curr s' = curr s /\ idle s' = idle s /\ init s' = init s.
Proof. intros (E & _). by rewrite E. Qed.

Lemma good_place_body q c c' : set_links unlinked c' = set_links unlinked c -> good_place q c -> good_place q c'.
Proof. intros E%same_body_run. unfold good_place, runnable. by rewrite E. Qed.

(** Only task [t] changes, its fields and its place. *)
Definition same_others t s s' : Prop :=
  length (tasks s') = length (tasks s) /\
  forall u, u <> t -> set_links unlinked <$> task_at u s' = set_links unlinked <$> task_at u s.

Lemma same_body_others t s s' : same_body s s' -> same_others t s s'.
Proof. intros (_ & Hn & Hb). split; auto. Qed.

(** What [placed] asks of task [t], in terms of the lists. *)
Record fits (t : nat) (Q : list (list nat)) (Hs : list nat) (c : task) : Prop := Fits {
  ft_prio : 0 <= priority (t_run c) <= TASK_PRIO_LOW;
  ft_exit : exited (t_run c) = true -> paused (t_run c) = 0 /\ forall q, ~ member Q q t;
  ft_hole : t ∈ Hs -> forall q, ~ member Q q t;
  ft_queue : forall q, member Q q t -> good_place q c;
  ft_run : t ∉ Hs -> runnable c = true -> exists q, member Q q t
}.

Lemma placed_fits s Q Hs t c : placed s Q Hs -> task_at t s = Some c -> fits t Q Hs c.
Proof.
  intros [HQ Hlen Hnq Hho Hpr Hex Hqu Hru] Ec. assert (lk s t = Some (t_links c)) as El by (unfold lk; by rewrite Ec).
  split.
  - eauto.
  - intros Hx. destruct (Hex t c Ec Hx) as [Hz Hq]. split; [done|]. intros q Hm.
    apply (queued_member _ _ _ _ _ _ HQ El) in Hm. congruence.
  - intros Hin. specialize (Hho t Hin). by apply (queued_none _ _ _ _ _ HQ Hho).
  - intros q Hm. apply (queued_member _ _ _ _ _ _ HQ El) in Hm. eauto.
  - intros Hnot Hr. destruct (Hru t c Ec Hnot Hr) as [q Hq]. exists q. by apply (queued_member _ _ _ _ _ _ HQ El).
Qed.

Lemma placed_intro s Q Hs :
  queued (lk s) (queues s) Q -> length (tasks s) = TASK_MAX -> (NREADY <= length (queues s))%nat ->
  (forall t, t ∈ Hs -> is_Some (task_at t s)) ->
  (forall t c, task_at t s = Some c -> fits t Q Hs c) -> placed s Q Hs.
Proof.
  intros HQ Hlen Hnq Hin Hf.
  assert (forall t c, task_at t s = Some c -> lk s t = Some (t_links c)) as Hlk by (intros t c E; unfold lk; by rewrite E).
  split; try done.
  - intros t Ht. destruct (Hin t Ht) as [c Ec]. rewrite (Hlk _ _ Ec). f_equal.
    apply (queued_none _ _ _ _ _ HQ (Hlk _ _ Ec)), (ft_hole _ _ _ _ (Hf t c Ec) Ht).
  - intros t c Ec. apply (Hf t c Ec).
  - intros t c Ec Hx. destruct (ft_exit _ _ _ _ (Hf t c Ec) Hx) as [Hz Hn]. split; [done|].
    by rewrite (proj2 (queued_none _ _ _ _ _ HQ (Hlk _ _ Ec)) Hn).
  - intros t c q Ec Eq. apply (queued_member _ _ _ _ _ _ HQ (Hlk _ _ Ec)) in Eq. by apply (Hf t c Ec).
  - intros t c Ec Hnot Hr. destruct (ft_run _ _ _ _ (Hf t c Ec) Hnot Hr) as [q Hq]. exists q.
    by apply (queued_member _ _ _ _ _ _ HQ (Hlk _ _ Ec)).
Qed.

Lemma fits_other t u c c' Q Q' Hs Hs' :
  fits u Q Hs c -> set_links unlinked c' = set_links unlinked c -> u <> t ->
  (forall v q, v <> t -> member Q' q v <-> member Q q v) -> (forall v, v <> t -> v ∈ Hs' <-> v ∈ Hs) -> fits u Q' Hs' c'.
Proof.
  intros [Hp Hx Hh Hq Hr] Hb Hne Hm HH. pose proof (same_body_run _ _ Hb) as Er. split.
  - by rewrite Er.
  - rewrite Er. intros E. destruct (Hx E) as [Hz Hn]. split; [done|]. intros q. rewrite Hm by done. auto.
  - rewrite HH by done. intros Hin q. rewrite Hm by done. auto.
  - intros q. rewrite Hm by done. intros Hq'. eapply good_place_body; eauto.
  - rewrite HH by done. unfold runnable in *. rewrite Er. intros Hnot Hr'. destruct (Hr Hnot Hr') as [q Hq']. exists q. by apply Hm.
Qed.

Lemma placed_move s s' Q Q' Hs Hs' t :
  placed s Q Hs -> same_others t s s' -> queued (lk s') (queues s') Q' -> length Q' = length Q ->
  (forall u q, u <> t -> member Q' q u <-> member Q q u) ->
  (forall u, u <> t -> u ∈ Hs' <-> u ∈ Hs) ->
  (t ∈ Hs' -> is_Some (task_at t s')) ->
  (forall c, task_at t s' = Some c -> fits t Q' Hs' c) ->
  placed s' Q' Hs'.
Proof.
  intros Hp [Hn Hb] HQ' HlQ Hm HH Hts Ht. apply placed_intro; [done| | | |].
  - rewrite Hn. apply Hp.
  - rewrite <- (qd_len _ _ _ HQ'), HlQ, (qd_len _ _ _ (pl_queued _ _ _ Hp)). apply Hp.
  - intros u Hu. destruct (decide (u = t)) as [->|Hne]; [auto|]. apply HH in Hu; [|done].
    pose proof (pl_hole _ _ _ Hp u Hu) as Hl. unfold lk in Hl. specialize (Hb u Hne).
    destruct (task_at u s) as [c|]; [|done]. destruct (task_at u s'); [eauto|done].
  - intros u c' Ec'. destruct (decide (u = t)) as [->|Hne]; [auto|]. specialize (Hb u Hne). rewrite Ec' in Hb.
    destruct (task_at u s) as [c|] eqn:Ec; [|done]. apply (inj Some) in Hb.
    by apply (fits_other t u c c' Q Q' Hs Hs' (placed_fits _ _ _ _ _ Hp Ec)).
Qed.

Lemma member_insert_eq (Q : list (list nat)) q l u : (q < length Q)%nat -> member (<[q := l]> Q) q u <-> u ∈ l.
Proof. intros Hq. unfold member. rewrite list_lookup_insert_eq by done. naive_solver. Qed.
Lemma member_insert_ne (Q : list (list nat)) q q' l u : q <> q' -> member (<[q := l]> Q) q' u <-> member Q q' u.
Proof. intros Hq. unfold member. by rewrite list_lookup_insert_ne. Qed.
(** A queue changes by task [t] only: the others are where they were. *)
Lemma member_other (Q : list (list nat)) q l l' t u q' :
  Q !! q = Some l -> (forall v, v <> t -> v ∈ l' <-> v ∈ l) -> u <> t -> member (<[q := l']> Q) q' u <-> member Q q' u.
Proof.
  intros Hl Hv Hu. destruct (decide (q = q')) as [<-|Hne]; [|by apply member_insert_ne].
  rewrite member_insert_eq by (by eapply lookup_lt_Some). rewrite Hv by done. unfold member. rewrite Hl. naive_solver.
Qed.
(** A task is on one queue only. *)
Lemma member_unique lk qs Q q q' t : queued lk qs Q -> member Q q t -> member Q q' t -> q = q'.
Proof.
  intros HQ (l & Hl & Ht) Hm. destruct (qd_seg _ _ _ HQ _ _ Hl) as [Hd _].
  destruct (dseg_mem _ _ _ _ _ _ Hd Ht) as (k & Ek & Eq).
  apply (queued_member _ _ _ _ _ _ HQ Ek) in Hm. congruence.
Qed.

Lemma placed_insert s Q Hs q t c l :
  placed s Q (t :: Hs) -> t ∉ Hs -> task_at t s = Some c -> exited (t_run c) = false -> good_place q c -> Q !! q = Some l ->
  exists s', task_insert q t s = Ret tt s' /\ same_body s s' /\ placed s' (<[q := l ++ [t]]> Q) Hs.
Proof.
  intros Hp Hnot Ec Hx Hg Hl. pose proof (pl_hole _ _ _ Hp t (list_elem_of_here _ _)) as Hlk.
  assert (queue (t_links c) = None) as Hq. { unfold lk in Hlk. rewrite Ec in Hlk. apply (inj Some) in Hlk. by rewrite Hlk. }
  destruct (task_insert_ok s Q q t c l (pl_queued _ _ _ Hp) Ec Hq Hl) as (s' & E & HQ' & Hb).
  exists s'. split_and!; [done|done|].
  assert (forall q', member (<[q := l ++ [t]]> Q) q' t <-> q' = q) as Hm.
  { intros q'. destruct (decide (q = q')) as [<-|Hne].
    - rewrite member_insert_eq by (by eapply lookup_lt_Some). set_solver.
    - rewrite member_insert_ne by done. split; [|congruence]. intros Hm.
      by apply (queued_none _ _ _ _ _ (pl_queued _ _ _ Hp) Hlk) in Hm. }
  eapply (placed_move s s' Q); eauto; [by apply same_body_others|apply length_insert| |set_solver|done|].
  - intros u q' Hu. eapply member_other; [done| |done]. set_solver.
  - intros c' Ec'. destruct (same_body_task _ _ _ _ Hb Ec') as (c1 & Ec1 & Eb). assert (c1 = c) as -> by congruence.
    pose proof (same_body_run _ _ Eb) as Er. pose proof (placed_fits _ _ _ _ _ Hp Ec) as Hf. split.
    + rewrite Er. apply Hf.
    + rewrite Er. congruence.
    + done.
    + intros q' ->%Hm. by eapply good_place_body.
    + intros _ _. exists q. by apply Hm.
Qed.

Lemma placed_take s s' Q Hs q l1 t l2 :
  placed s Q Hs -> Q !! q = Some (l1 ++ t :: l2) -> queued (lk s') (queues s') (<[q := l1 ++ l2]> Q) -> same_others t s s' ->
  is_Some (task_at t s') ->
  (forall c, task_at t s' = Some c -> 0 <= priority (t_run c) <= TASK_PRIO_LOW /\ (exited (t_run c) = true -> paused (t_run c) = 0)) ->
  placed s' (<[q := l1 ++ l2]> Q) (t :: Hs) /\ t ∉ Hs.
Proof.
  intros Hp Hl HQ' Hb Hsome Hf. pose proof (pl_queued _ _ _ Hp) as HQ.
  destruct (qd_seg _ _ _ HQ _ _ Hl) as [Hd Hn]. destruct (dseg_at _ _ _ _ _ Hd) as (c & Ec & Lc).
  apply NoDup_app in Hn as (_ & Hn1 & [Hn2 _]%NoDup_cons).
  assert (member Q q t) as Hqt by (exists (l1 ++ t :: l2); split; [done|]; set_solver).
  split.
  - assert (forall q', ~ member (<[q := l1 ++ l2]> Q) q' t) as Hno.
    { intros q' Hm. destruct (decide (q = q')) as [<-|Hne].
      - rewrite member_insert_eq in Hm by (by eapply lookup_lt_Some). apply elem_of_app in Hm as [Hm|Hm]; [|done].
        apply (Hn1 t Hm), list_elem_of_here.
      - rewrite member_insert_ne in Hm by done. by apply Hne, (member_unique _ _ _ _ _ _ HQ Hqt). }
    eapply (placed_move s s' Q); eauto; [by rewrite length_insert| |set_solver|].
    + intros u q' Hu. eapply member_other; [done| |done]. set_solver.
    + intros c' Ec'. destruct (Hf c' Ec') as [Hpr Hx]. split; [done|auto|done|intros q' Hm; by destruct (Hno q')|].
      intros Ht. set_solver.
  - intros Ht. specialize (pl_hole _ _ _ Hp t Ht). unfold lk. rewrite Ec. cbn. by rewrite Lc.
Qed.

Lemma placed_take_same s s' Q Hs q l1 t l2 :
  placed s Q Hs -> Q !! q = Some (l1 ++ t :: l2) -> queued (lk s') (queues s') (<[q := l1 ++ l2]> Q) -> same_body s s' ->
  placed s' (<[q := l1 ++ l2]> Q) (t :: Hs) /\ t ∉ Hs.
Proof.
  intros Hp Hl HQ' Hb. destruct (qd_seg _ _ _ (pl_queued _ _ _ Hp) _ _ Hl) as [Hd _]. destruct (dseg_at _ _ _ _ _ Hd) as (c & Ec & _).
  apply (placed_take s s' Q Hs q l1 t l2); [done|done|done|by apply same_body_others| |].
  - destruct Hb as (_ & _ & Hb). specialize (Hb t). rewrite Ec in Hb. destruct (task_at t s'); [eauto|done].
  - intros c' Ec'. destruct (same_body_task _ _ _ _ Hb Ec') as (c1 & Ec1 & ->%same_body_run).
    destruct (placed_fits _ _ _ _ _ Hp Ec1) as [Hpr Hx _ _ _]. naive_solver.
Qed.
Lemma placed_dequeue s Q Hs q t l :
  placed s Q Hs -> Q !! q = Some (t :: l) ->
  exists s', task_dequeue q s = Ret (Some t) s' /\ same_body s s' /\ placed s' (<[q := l]> Q) (t :: Hs) /\ t ∉ Hs.
Proof.
  intros Hp Hl. destruct (task_dequeue_ok s Q q t l (pl_queued _ _ _ Hp) Hl) as (s' & E & HQ' & Hb).
  exists s'. split_and!; [done|done|by apply (placed_take_same s s' Q Hs q [] t l)..].
Qed.

(** * Changing a task in place *)

Lemma placed_same s s' Q Hs : same_sched s s' -> placed s Q Hs -> placed s' Q Hs.
Proof.
  intros (Eq & Hn & _ & _ & _ & _ & Hv) [HQ Hlen Hnq Hho Hpr Hex Hqu Hru].
  assert (forall t, lk s' t = lk s t) as Hlk.
  { intros t. specialize (Hv t). unfold lk. destruct (task_at t s'), (task_at t s); cbn in *; congruence. }
  assert (forall t c', task_at t s' = Some c' -> exists c, task_at t s = Some c /\ t_links c' = t_links c /\ view c' = view c) as Ht.
  { intros t c' E. specialize (Hv t). rewrite E in Hv. destruct (task_at t s) as [c|]; [|done]. exists c. cbn in Hv. split_and!; congruence. }
  assert (forall c c', view c' = view c -> priority (t_run c') = priority (t_run c) /\ paused (t_run c') = paused (t_run c) /\
    exited (t_run c') = exited (t_run c)) as Hvw by (unfold view; intros c c' [=]; done).
  split.
  - rewrite Eq. destruct HQ as [H1 H2 H3 H4]. split; [done|done| |].
    + intros q l Hl. destruct (H3 q l Hl) as [Hd Hn']. split; [|done]. eapply dseg_ext; [|exact Hd]. intros; apply Hlk.
    + intros t k. rewrite Hlk. apply H4.
  - congruence.
  - by rewrite Eq.
  - intros t. rewrite Hlk. apply Hho.
  - intros t c' E. destruct (Ht t c' E) as (c & Ec & _ & (-> & _ & _)%Hvw). eauto.
  - intros t c' E Ex. destruct (Ht t c' E) as (c & Ec & -> & (_ & Ep & Ee)%Hvw). rewrite Ee in Ex. rewrite Ep. eauto.
  - intros t c' q E Eq'. destruct (Ht t c' E) as (c & Ec & El & (Er & Ep & Ee)%Hvw). rewrite El in Eq'.
    specialize (Hqu t c q Ec Eq'). unfold good_place, runnable in *. by rewrite Er, Ep, Ee.
  - intros t c' E Hnot Hr. destruct (Ht t c' E) as (c & Ec & -> & (_ & Ep & Ee)%Hvw).
    apply (Hru t c Ec Hnot). unfold runnable in *. by rewrite <- Ep, <- Ee.
Qed.

Lemma same_others_upd s t f : same_others t s (task_upd t f s).
Proof. split; [apply length_alter|]. intros u Hu. by rewrite task_at_upd, decide_False. Qed.
Lemma queued_upd s Q t f :
  (forall c, task_at t s = Some c -> t_links (f c) = t_links c) ->
  queued (lk s) (queues s) Q -> queued (lk (task_upd t f s)) (queues (task_upd t f s)) Q.
Proof.
  intros Hl [H1 H2 H3 H4]. assert (forall u, lk (task_upd t f s) u = lk s u) as Hlk.
  { intros u. rewrite lk_upd. case_decide; [subst|done]. unfold lk. destruct (task_at t s) as [c|]; [|done]. cbn. by rewrite Hl. }
  split; [done|done| |].
  - intros q l Hq. destruct (H3 q l Hq) as [Hd Hn']. split; [|done]. eapply dseg_ext; [|exact Hd]. intros; apply Hlk.
  - intros u k. rewrite Hlk. apply H4.
Qed.

(** A task changes without moving. *)
Lemma placed_set s Q Hs t c f :
  placed s Q Hs -> task_at t s = Some c -> t_links (f c) = t_links c ->
  0 <= priority (t_run (f c)) <= TASK_PRIO_LOW ->
  (exited (t_run (f c)) = true -> paused (t_run (f c)) = 0 /\ queue (t_links c) = None) ->
  (forall q, queue (t_links c) = Some q -> good_place q (f c)) ->
  (t ∉ Hs -> runnable (f c) = true -> exists q, queue (t_links c) = Some q) ->
  placed (task_upd t f s) Q Hs.
Proof.
  intros Hp Ec Hl Hpr Hx Hq Hr. pose proof (pl_queued _ _ _ Hp) as HQ.
  assert (lk s t = Some (t_links c)) as El by (unfold lk; by rewrite Ec).
  assert (forall q, member Q q t <-> queue (t_links c) = Some q) as Hm.
  { intros q. symmetry. by apply (queued_member _ _ _ _ _ _ HQ El). }
  assert (task_at t (task_upd t f s) = Some (f c)) as Et by (rewrite task_at_upd, decide_True by done; by rewrite Ec).
  eapply (placed_move s _ Q Q Hs Hs t); eauto; [apply same_others_upd|apply queued_upd; [|done]; congruence|].
  intros c' Ec'. assert (c' = f c) as -> by congruence. split; try done.
  - intros E. destruct (Hx E) as [Hz Hn]. split; [done|]. intros q. rewrite Hm. congruence.
  - intros Hin. exact (ft_hole _ _ _ _ (placed_fits _ _ _ _ _ Hp Ec) Hin).
  - intros q. rewrite Hm. auto.
  - intros Hnot Hr'. destruct (Hr Hnot Hr') as [q E]. exists q. by apply Hm.
Qed.
Lemma placed_upd s Q Hs t c f :
  placed s Q Hs -> t ∈ Hs -> task_at t s = Some c -> t_links (f c) = t_links c ->
  0 <= priority (t_run (f c)) <= TASK_PRIO_LOW -> (exited (t_run (f c)) = true -> paused (t_run (f c)) = 0) ->
  placed (task_upd t f s) Q Hs.
Proof.
  intros Hp Hin Ec Hl Hpr Hx. pose proof (pl_hole _ _ _ Hp t Hin) as Hun. unfold lk in Hun. rewrite Ec in Hun. apply (inj Some) in Hun.
  eapply placed_set; eauto; rewrite Hun; [|done|done]. auto.
Qed.

Lemma placed_add s Q Hs t : placed s Q Hs -> lk s t = Some unlinked -> placed s Q (t :: Hs).
Proof.
  intros [HQ Hlen Hnq Hho Hpr Hex Hqu Hru] Ht. split; try done.
  - intros u [->|Hu]%elem_of_cons; auto.
  - intros u c E Hnot. apply (Hru u c E). set_solver.
Qed.
Lemma placed_drop s Q Hs t c : placed s Q (t :: Hs) -> task_at t s = Some c -> runnable c = false -> placed s Q Hs.
Proof.
  intros [HQ Hlen Hnq Hho Hpr Hex Hqu Hru] Ec Hr. split; try done.
  - intros u Hu. apply Hho. by right.
  - intros u c' E Hnot Hr'. destruct (decide (u = t)) as [->|Hne]; [congruence|]. apply (Hru u c' E); [set_solver|done].
Qed.
Lemma placed_perm s Q Hs Hs' : (forall u, u ∈ Hs <-> u ∈ Hs') -> placed s Q Hs -> placed s Q Hs'.
Proof.
  intros HH [HQ Hlen Hnq Hho Hpr Hex Hqu Hru]. split; try done.
  - intros u Hu. apply Hho. by apply HH.
  - intros u c' E Hnot. apply (Hru u c' E). by rewrite HH.
Qed.
End move.
