(* ===== verification/TaskSched.v ===== *)
(** Choosing, suspending and resuming tasks (kern/sched.c, kern/task.c). *)

From S2P Require Import Prelude Frame Tasks TaskQueueOk TaskOk.

(** A task apart from its links and its time slice. *)
Definition calm (c : task) : task := set_time_slice 0 (set_links unlinked c).

Section sched.
Context {X : Type} `{TaskEnv X}.
Implicit Types s : sys X.

(** A step that changes only queues, links and time slices. *)
Definition same_calm s s' : Prop :=
  s' = with_tasks (tasks s') (with_queues (queues s') s) /\
  length (tasks s') = length (tasks s) /\
  forall t, calm <$> task_at t s' = calm <$> task_at t s.

Global Instance same_calm_preorder : PreOrder same_calm.
Proof.
  split.
  - intros s. by destruct s.
  - intros s1 s2 s3 (E1 & L1 & B1) (E2 & L2 & B2). split_and!; [|congruence|intros t; by rewrite B2, B1].
    rewrite E2, E1. done.
Qed.

Lemma same_body_calm s s' : same_body s s' -> same_calm s s'.
Proof.
  intros (E & L & Hb). split_and!; [done|done|]. intros t. specialize (Hb t).
  destruct (task_at t s') as [c'|], (task_at t s) as [c|]; try done. apply (inj Some) in Hb. cbn. unfold calm. by rewrite Hb.
Qed.
Lemma calm_slice s t v : same_calm s (task_upd t (set_time_slice v) s).
Proof.
  split_and!; [done|apply length_alter|]. intros u. rewrite task_at_upd. case_decide; [subst|done]. by destruct (task_at t s).
Qed.
Lemma calm_view c c' : calm c' = calm c -> view c' = view c.
Proof. intros E. pose proof (f_equal view E) as Ev. done. Qed.
Lemma same_calm_view s s' t : same_calm s s' -> view <$> task_at t s' = view <$> task_at t s.
Proof.
  intros (_ & _ & Hb). specialize (Hb t). destruct (task_at t s') as [c'|], (task_at t s) as [c|]; try done.
  apply (inj Some) in Hb. cbn. by rewrite (calm_view _ _ Hb).
Qed.
Lemma same_calm_counted s s' : same_calm s s' -> counted s -> counted s'.
Proof.
  intros Hb. pose proof Hb as (E & Hn & _). apply counted_same; [by rewrite E|by rewrite E|done|].
  intros t. by apply same_calm_view.
Qed.
Lemma same_calm_task s s' t c :
  same_calm s s' -> task_at t s = Some c -> exists c', task_at t s' = Some c' /\ calm c' = calm c.
Proof.
  intros (_ & _ & Hb) E. specialize (Hb t). rewrite E in Hb. destruct (task_at t s') as [c'|]; [|done].
  exists c'. split; [done|]. by apply (inj Some) in Hb.
Qed.
Lemma runnable_view c c' : view c' = view c -> runnable c' = runnable c.
Proof. unfold view, runnable. intros [= _ -> ->]. done. Qed.

Lemma placed_eq s s' Q Hs : tasks s' = tasks s -> queues s' = queues s -> placed s Q Hs -> placed s' Q Hs.
Proof.
  intros Et Eq [HQ Hlen Hnq Hho Hpr Hex Hqu Hru].
  assert (forall t, task_at t s' = task_at t s) as Ht by (intros t; unfold task_at; by rewrite Et).
  assert (forall t, lk s' t = lk s t) as Hlk by (intros t; unfold lk; by rewrite Ht).
  split; try (by setoid_rewrite Ht); try (by rewrite ?Et, ?Eq).
  - rewrite Eq. destruct HQ as [H1 H2 H3 H4]. split; [done|done| |].
    + intros q l Hl. destruct (H3 q l Hl) as [Hd Hn']. split; [|done]. eapply dseg_ext; [|exact Hd]. intros; apply Hlk.
    + intros t k. rewrite Hlk. apply H4.
  - intros t. rewrite Hlk. apply Hho.
Qed.
Lemma counted_eq s s' :
  tasks s' = tasks s -> task_pcount s' = task_pcount s -> task_count s' = task_count s -> counted s -> counted s'.
Proof. unfold counted. by intros -> -> ->. Qed.

(** * The choice of the next task *)

(** The ready queues before [q'] are empty. *)
Definition empty_below (Q : list (list nat)) (q q' : nat) : Prop := forall i, (q <= i < q')%nat -> Q !! i = Some [].

Lemma dequeue_ready_ok n q s Q Hs :
  placed s Q Hs -> (q + n = NREADY)%nat ->
  (dequeue_ready n q s = Ret None s /\ empty_below Q q NREADY) \/
  exists q' t l s', dequeue_ready n q s = Ret (Some t) s' /\ (q <= q' < NREADY)%nat /\ empty_below Q q q' /\
    Q !! q' = Some (t :: l) /\ same_body s s' /\ placed s' (<[q' := l]> Q) (t :: Hs) /\ t ∉ Hs.
Proof.
  intros Hp. revert q. induction n as [|n IH]; intros q Hn.
  - left. split; [done|]. intros i Hi. lia.
  - cbn [dequeue_ready]. pose proof (pl_nq _ _ _ Hp) as Hnq. rewrite <- (qd_len _ _ _ (pl_queued _ _ _ Hp)) in Hnq.
    destruct (lookup_lt_is_Some_2 Q q) as [l Hl]; [lia|]. destruct l as [|t l].
    + rewrite (bind_run _ _ _ _ _ (task_dequeue_empty s Q q (pl_queued _ _ _ Hp) Hl)).
      destruct (IH (S q)) as [[E He]|(q' & t & l & s' & E & Hq & He & R)]; [lia| |].
      * left. split; [done|]. intros i Hi. destruct (decide (i = q)) as [->|]; [done|]. apply He. lia.
      * right. exists q', t, l, s'. split; [done|]. split; [lia|]. split; [|done]. intros i Hi.
        destruct (decide (i = q)) as [->|]; [done|]. apply He. lia.
    + right. destruct (placed_dequeue s Q Hs q t l Hp Hl) as (s' & E & Hb & Hp' & Ht).
      exists q, t, l, s'. rewrite (bind_run _ _ _ _ _ E). split; [done|]. split; [lia|]. split; [intros i Hi; lia|]. done.
Qed.

(** Task [t] is chosen from ready queue [q]: no ready task is on a queue before it. *)
Definition first_ready s (q : nat) : Prop :=
  forall u c q', task_at u s = Some c -> queue (t_links c) = Some q' -> (q <= q')%nat.

Lemma empty_below_first s Q Hs q :
  placed s Q Hs -> empty_below Q 0 q -> first_ready s q.
Proof.
  intros Hp He u c q' Ec Eq. destruct (decide (q <= q')%nat) as [|Hlt]; [done|].
  assert (lk s u = Some (t_links c)) as El by (unfold lk; by rewrite Ec).
  apply (queued_member _ _ _ _ _ _ (pl_queued _ _ _ Hp) El) in Eq as (l & Hl & Hu).
  rewrite (He q') in Hl by lia. simplify_eq. by apply not_elem_of_nil in Hu.
Qed.

Lemma debt_upd s t c v :
  task_at t s = Some c -> (Z.to_nat (- v) < Z.to_nat (- time_slice (t_run c)))%nat ->
  (sum_list_with debt (tasks (task_upd t (set_time_slice v) s)) < sum_list_with debt (tasks s))%nat.
Proof.
  intros E%task_at_lookup Hv. cbn. revert t E. induction (tasks s) as [|o l IH]; intros [|t] E; simplify_eq/=; [lia|].
  specialize (IH t E). lia.
Qed.
Lemma debt_body s s' : same_body s s' -> sum_list_with debt (tasks s') = sum_list_with debt (tasks s).
Proof.
  intros (_ & Hn & Hb). assert (forall i, debt <$> tasks s' !! i = debt <$> tasks s !! i) as Hd.
  { intros i. specialize (Hb i). unfold task_at in Hb.
    destruct (tasks s' !! i) as [o'|] eqn:E', (tasks s !! i) as [o|] eqn:E; try done.
    - destruct o', o; try done. cbn in Hb |- *. apply (inj Some) in Hb. by rewrite (same_body_run _ _ Hb).
    - apply lookup_lt_Some in E'. apply lookup_ge_None in E. lia.
    - apply lookup_lt_Some in E. apply lookup_ge_None in E'. lia. }
  revert Hd. clear Hb. revert Hn. generalize (tasks s) as l. induction (tasks s') as [|o l' IH]; intros [|o1 l] Hn Hd; try done.
  cbn. specialize (Hd 0%nat) as Hd0. cbn in Hd0. apply (inj Some) in Hd0. rewrite Hd0. f_equal. apply IH; [by simplify_eq/=|].
  intros i. apply (Hd (S i)).
Qed.

Lemma ready_queue_at s Q Hs p :
  placed s Q Hs -> 0 <= p <= TASK_PRIO_LOW -> exists l, Q !! Z.to_nat p = Some l.
Proof.
  intros Hp Hr. apply lookup_lt_is_Some_2. rewrite (qd_len _ _ _ (pl_queued _ _ _ Hp)).
  pose proof (pl_nq _ _ _ Hp). unfold NREADY, TASK_PRIO_LOW in *. lia.
Qed.
Lemma good_place_own c : runnable c = true -> 0 <= priority (t_run c) <= TASK_PRIO_LOW -> good_place (Z.to_nat (priority (t_run c))) c.
Proof.
  intros Hr Hp. unfold good_place, NREADY, TASK_PRIO_LOW in *. rewrite (proj2 (Nat.ltb_lt _ _)) by lia. split; [done|lia].
Qed.

(** With a task that can run, the search finds one. *)
Lemma dequeue_ready_some s Q u d :
  placed s Q [] -> task_at u s = Some d -> runnable d = true ->
  exists q t l s' c, dequeue_ready NREADY 0 s = Ret (Some t) s' /\ same_body s s' /\ placed s' (<[q := l]> Q) [t] /\
    (q < NREADY)%nat /\ empty_below Q 0 q /\ task_at t s' = Some c /\ runnable c = true /\ Z.of_nat q <= priority (t_run c) /\
    Q !! q = Some (t :: l).
Proof.
  intros Hp Hd Hr.
  destruct (dequeue_ready_ok NREADY 0 s Q [] Hp) as [[_ He]|(q & t & l & s1 & E & Hq & He & Hl & Hb & Hp1 & _)]; [done| |].
  - exfalso. destruct (pl_run _ _ _ Hp u d Hd) as [q Hq]; [apply not_elem_of_nil|done|].
    pose proof (pl_queue _ _ _ Hp u d q Hd Hq) as Hg. assert (lk s u = Some (t_links d)) as El by (unfold lk; by rewrite Hd).
    apply (queued_member _ _ _ _ _ _ (pl_queued _ _ _ Hp) El) in Hq as (l & Hl & Hu).
    unfold good_place in Hg. destruct (Nat.ltb_spec q NREADY) as [Hlt|Hge].
    + rewrite (He q) in Hl by lia. simplify_eq. by apply not_elem_of_nil in Hu.
    + unfold runnable in Hr. apply andb_true_iff in Hr as [_ Hr]. by apply Z.eqb_eq in Hr.
  - destruct (qd_seg _ _ _ (pl_queued _ _ _ Hp) _ _ Hl) as [Hseg _]. destruct (dseg_at s q [] t l Hseg) as (c0 & Ec0 & Lc0).
    pose proof (pl_queue _ _ _ Hp t c0 q Ec0) as Hg. rewrite Lc0 in Hg. specialize (Hg eq_refl).
    unfold good_place in Hg. rewrite (proj2 (Nat.ltb_lt q NREADY)) in Hg by lia. destruct Hg as [Hrc Hpq].
    destruct Hb as (Hb1 & Hb2 & Hb3). specialize (Hb3 t) as Ht. rewrite Ec0 in Ht.
    destruct (task_at t s1) as [c|] eqn:Ec; [|done]. apply (inj Some), same_body_run in Ht.
    exists q, t, l, s1, c. unfold runnable in *. rewrite Ht. split_and!; try done. lia.
Qed.

Lemma placed_qlen s s' Q Q' Hs Hs' :
  placed s Q Hs -> placed s' Q' Hs' -> length Q' = length Q -> length (queues s') = length (queues s).
Proof.
  intros Hp Hp' E. by rewrite <- (qd_len _ _ _ (pl_queued _ _ _ Hp)), <- (qd_len _ _ _ (pl_queued _ _ _ Hp')).
Qed.

(** A task at the end of another queue. *)
Lemma member_moved (Q : list (list nat)) q t l p l' q' t' :
  Q !! q = Some (t :: l) -> <[q := l]> Q !! p = Some l' ->
  member (<[p := l' ++ [t]]> (<[q := l]> Q)) q' t' -> member Q q' t' \/ q' = p /\ t' = t.
Proof.
  intros Hq Hp (m & Hm & Ht). assert (forall q1 l1 t1, <[q := l]> Q !! q1 = Some l1 -> t1 ∈ l1 -> member Q q1 t1) as Hold.
  { intros q1 l1 t1 H1 Ht1. destruct (decide (q1 = q)) as [->|Hne].
    - rewrite list_lookup_insert_eq in H1 by (by eapply lookup_lt_Some). simplify_eq. exists (t :: l1). split; [done|by right].
    - rewrite list_lookup_insert_ne in H1 by done. by exists l1. }
  destruct (decide (q' = p)) as [->|Hne].
  - rewrite list_lookup_insert_eq in Hm by (by eapply lookup_lt_Some). simplify_eq.
    apply elem_of_app in Ht as [Ht| ->%list_elem_of_singleton]; [left; by eapply Hold|by right].
  - rewrite list_lookup_insert_ne in Hm by done. left. by eapply Hold.
Qed.

Lemma pick_loop_ok fuel s Q u d :
  placed s Q [] -> (sum_list_with debt (tasks s) < fuel)%nat -> task_at u s = Some d -> runnable d = true ->
  exists t q s' Q', pick_loop fuel s = Ret t s' /\ placed s' Q' [t] /\ same_calm s s' /\ length Q' = length Q /\
    first_ready s' q /\ (q < NREADY)%nat /\
    exists c, task_at t s' = Some c /\ runnable c = true /\ Z.of_nat q <= priority (t_run c) /\
      0 <= time_slice (t_run c) <= TIME_SLICE_MAX /\ (member Q q t \/ priority (t_run c) = Z.of_nat q).
Proof.
  revert s Q d. induction fuel as [|fuel IH]; intros s Q d Hp Hf Hd Hr; [lia|]. cbn [pick_loop].
  destruct (dequeue_ready_some s Q u d Hp Hd Hr) as (q & t & l & s1 & c & E & Hb & Hp1 & Hq & He & Ec & Hrc' & Hpq & HQ).
  rewrite (bind_run _ _ _ _ _ E).
  rewrite (get_task_run _ _ _ _ _ Ec).
  set (ts := if TIME_SLICE_MAX <? time_slice (t_run c) + TIME_SLICE then TIME_SLICE_MAX else time_slice (t_run c) + TIME_SLICE).
  unfold upd_task. rewrite modify_bind.
  set (s2 := task_upd t (set_time_slice ts) s1).
  assert (task_at t s2 = Some (set_time_slice ts c)) as Ec2 by (unfold s2; rewrite task_at_upd, decide_True by done; by rewrite Ec).
  assert (placed s2 (<[q := l]> Q) [t]) as Hp2.
  { eapply placed_upd; [exact Hp1|apply list_elem_of_here|exact Ec|done| |].
    - exact (pl_prio _ _ _ Hp1 t c Ec).
    - intros Hx. by apply (pl_exit _ _ _ Hp1 t c). }
  assert (same_calm s s2) as Hc2 by (transitivity s1; [by apply same_body_calm|apply calm_slice]).
  pose proof (pl_prio _ _ _ Hp1 t c Ec) as Hpr. destruct (Z.ltb_spec ts 0) as [Hts|Hts].
  - destruct (ready_queue_at s2 (<[q := l]> Q) [t] (priority (t_run c))) as [l' Hl']; [done|done|].
    destruct (placed_insert s2 _ [] (Z.to_nat (priority (t_run c))) t (set_time_slice ts c) l' Hp2) as (s3 & E3 & Hb3 & Hp3);
      [apply not_elem_of_nil|exact Ec2| | |exact Hl'|].
    + apply andb_true_iff in Hrc' as [Hx _]. apply negb_true_iff in Hx. exact Hx.
    + exact (good_place_own c Hrc' Hpr).
    + rewrite (bind_run _ _ _ _ _ E3). assert (same_calm s s3) as Hc3 by (transitivity s2; [done|by apply same_body_calm]).
      destruct (same_calm_task _ _ _ _ Hc3 Hd) as (d3 & Ed3 & Cd3).
      destruct (IH s3 _ d3 Hp3) as (t' & q' & s' & Q' & E' & Hp' & Hc' & HlQ & R); [|done|by rewrite (runnable_view _ _ (calm_view _ _ Cd3))|].
      * rewrite (debt_body _ _ Hb3). rewrite <- (debt_body _ _ Hb) in Hf. eapply Nat.lt_le_trans; [|apply le_S_n, Hf].
        apply (debt_upd _ _ _ _ Ec). unfold ts in *. destruct (Z.ltb_spec TIME_SLICE_MAX (time_slice (t_run c) + TIME_SLICE));
          unfold TIME_SLICE, TIME_SLICE_MAX in *; lia.
      * exists t', q', s', Q'. destruct R as (Hfr & Hnq & c' & Ec' & Hrc & Hqp & Hts' & Hown).
        split_and!; try done; [by transitivity s3|by rewrite HlQ, !length_insert|]. exists c'. split_and!; try done; try lia.
        destruct Hown as [Hm|]; [|by right]. apply (member_moved Q q t l _ l' q' t' HQ Hl') in Hm as [Hm|[-> ->]]; [by left|right].
        destruct (same_calm_task _ _ _ _ (same_body_calm _ _ Hb3) Ec2) as (c3 & Ec3 & C3). destruct (same_calm_task _ _ _ _ Hc' Ec3) as (c4 & Ec4 & C4).
        assert (c4 = c') as -> by congruence. apply calm_view in C3, C4. unfold view in C3, C4. cbn in C3.
        assert (priority (t_run c') = priority (t_run c)) as -> by congruence. lia.
  - unfold runnable in Hrc'. apply andb_true_iff in Hrc' as [Hx Hpz]. apply negb_true_iff in Hx. rewrite Hx, Hpz. cbn [negb orb].
    exists t, q, s2, (<[q := l]> Q). split_and!; try done; [by rewrite length_insert| |].
    + eapply empty_below_first; [exact Hp2|]. intros i Hi. rewrite list_lookup_insert_ne by lia. by apply He.
    + exists (set_time_slice ts c). unfold runnable. cbn [set_time_slice set_run t_run exited paused priority time_slice].
      rewrite Hx, Hpz. split_and!; try done.
      * unfold ts. destruct (Z.ltb_spec TIME_SLICE_MAX (time_slice (t_run c) + TIME_SLICE)); lia.
      * left. exists (t :: l). split; [done|left].
Qed.

(** * The scheduler *)

(** A task apart from its links, its time slice and whether it waits. *)
Definition still (c : task) : task := set_paused 0 (calm c).

(** A step that leaves alone what [g] keeps of the tasks, the clocks and the environment. *)
Definition same_upto {A} (g : task -> A) s s' : Prop :=
  length (tasks s') = length (tasks s) /\ length (queues s') = length (queues s) /\ init s' = init s /\ last_pid s' = last_pid s /\
  time s' = time s /\ ticks s' = ticks s /\ alarm_t s' = alarm_t s /\
  forall t, g <$> task_at t s' = g <$> task_at t s.
Global Instance same_upto_preorder {A} (g : task -> A) : PreOrder (same_upto g).
Proof.
  split; [intros s; repeat split|]. intros s1 s2 s3 (?&?&?&?&?&?&?&E1) (?&?&?&?&?&?&?&E2).
  split_and!; congruence.
Qed.
Lemma same_upto_mono {A B} (g : task -> A) (h : task -> B) s s' :
  (forall c c', g c' = g c -> h c' = h c) -> same_upto g s s' -> same_upto h s s'.
Proof.
  intros Hg (?&?&?&?&?&?&?&E). split_and!; try done. intros t. specialize (E t).
  destruct (task_at t s') as [c'|], (task_at t s) as [c|]; try done. cbn. f_equal. apply Hg. by apply (inj Some) in E.
Qed.
Lemma same_upto_task {A} (g : task -> A) s s' t c :
  same_upto g s s' -> task_at t s = Some c -> exists c', task_at t s' = Some c' /\ g c' = g c.
Proof.
  intros (_&_&_&_&_&_&_&E) Ec. specialize (E t). rewrite Ec in E. destruct (task_at t s') as [c'|]; [|done].
  exists c'. split; [done|]. by apply (inj Some) in E.
Qed.
Lemma same_upto_task' {A} (g : task -> A) s s' t c' :
  same_upto g s s' -> task_at t s' = Some c' -> exists c, task_at t s = Some c /\ g c' = g c.
Proof.
  intros (_&_&_&_&_&_&_&E) Ec. specialize (E t). rewrite Ec in E. destruct (task_at t s) as [c|]; [|done].
  exists c. split; [done|]. by apply (inj Some) in E.
Qed.
Lemma same_upto_upd {A} (g : task -> A) s t f : (forall c, g (f c) = g c) -> same_upto g s (task_upd t f s).
Proof.
  intros Hf. split_and!; try done; [apply length_alter|]. intros u. rewrite task_at_upd. case_decide; [subst|done].
  destruct (task_at t s); cbn; by rewrite ?Hf.
Qed.
Lemma same_calm_upto s s' : same_calm s s' -> length (queues s') = length (queues s) -> same_upto calm s s'.
Proof. intros (E & L & Hb) Hq. split_and!; try done; by rewrite E. Qed.

Abbreviation hushed := (same_upto calm).
Abbreviation quiet := (same_upto still).
Lemma hushed_quiet s s' : hushed s s' -> quiet s s'.
Proof. apply same_upto_mono. unfold still. by intros c c' ->. Qed.

Lemma zcount_diff {A} (p q : A -> bool) l : zcount p l <> zcount q l -> exists i x, l !! i = Some x /\ p x <> q x.
Proof.
  induction l as [|x l IH]; cbn; [done|]. intros Hne. destruct (decide (p x = q x)) as [E|E].
  - rewrite E in Hne. destruct IH as (i & y & Hi & Hy); [lia|]. by exists (S i), y.
  - by exists 0%nat, x.
Qed.
Lemma exists_runnable s Q Hs :
  placed s Q Hs -> counted s -> task_count s <> task_pcount s -> exists u d, task_at u s = Some d /\ runnable d = true.
Proof.
  intros Hp [Ep Ec] Hne. rewrite Ep, Ec in Hne. apply zcount_diff in Hne as (i & [d|] & Hi & Hd); [|done].
  assert (task_at i s = Some d) as Et by (unfold task_at; by rewrite Hi). exists i, d. split; [done|].
  cbn in Hd. unfold runnable. destruct (exited (t_run d)) eqn:Ex.
  - destruct (pl_exit _ _ _ Hp i d Et Ex) as [Hz _]. rewrite Hz in Hd. done.
  - cbn in Hd |- *. by destruct (paused (t_run d) =? 0).
Qed.

Lemma sched_pick_ok s Q prev :
  placed s Q [] -> counted s -> exists s', sched_pick prev s = Ret tt s' /\ sched_ok s' /\ hushed s s'.
Proof.
  intros Hp Hc. unfold sched_pick. rewrite gets_bind. cbn [fst snd].
  destruct (Z.eqb_spec (task_count s) (task_pcount s)) as [E|E].
  - eexists. split; [reflexivity|]. split; [|by repeat split]. split.
    + exists Q. by apply (placed_eq s).
    + by apply (counted_eq s).
    + done.
    + intros _. by exists prev.
  - destruct (exists_runnable _ _ _ Hp Hc E) as (u & d & Hd & Hr). rewrite gets_bind.
    destruct (pick_loop_ok (pick_fuel (tasks s)) s Q u d Hp) as (t & q & s1 & Q1 & E1 & Hp1 & Hcalm & HlQ & _ & _ & c & Ec & Hrc & _);
      [unfold pick_fuel; lia|done|done|].
    rewrite (bind_run _ _ _ _ _ E1). unfold switch_to, modify. eexists. split; [reflexivity|].
    assert (forall s', tasks s' = tasks s1 -> queues s' = queues s1 -> task_pcount s' = task_pcount s1 ->
      task_count s' = task_count s1 -> curr s' = Some t -> sched_ok s') as Hok.
    { intros s' Et Eq Ep Ecnt Ecu. split.
      - exists Q1. unfold current. rewrite Ecu. by apply (placed_eq s1).
      - apply (counted_eq s1); [done..|]. by apply (same_calm_counted s).
      - intros me Hme. exists c. unfold task_at. rewrite Et. split; [|done]. by simplify_eq.
      - by rewrite Ecu. }
    destruct (prev =? t)%nat; (split; [by apply Hok|]); (transitivity s1; [apply same_calm_upto; [done|by eapply placed_qlen]|by repeat split]).
Qed.

Lemma get_curr_run s me B (k : nat -> M (sys X) B) : curr s = Some me -> bind get_curr k s = k me s.
Proof. intros E. unfold get_curr, bind, gets, deref, ret. by rewrite E. Qed.

(** The current task is on no queue, or it waits. *)
Definition leaving (me : nat) (c : task) (Hs : list nat) : Prop := Hs = [me] \/ Hs = [] /\ runnable c = false.

Lemma sched_leave_ok s Q Hs me c :
  placed s Q Hs -> leaving me c Hs -> counted s -> curr s = Some me -> task_at me s = Some c ->
  exists r s', sched_leave s = Ret r s' /\ hushed s s' /\
    match r with None => sched_ok s' | Some p => p = me /\ exists Q', placed s' Q' [] /\ counted s' end.
Proof.
  intros Hp Hl Hc Hcu Ec. unfold sched_leave. rewrite modify_bind. set (s0 := with_resched false s).
  rewrite (get_curr_run s0 me) by done. rewrite (get_task_run s0 me c) by done. rewrite gets_bind. cbn [fst snd].
  assert (placed s0 Q Hs) as Hp0 by (by apply (placed_eq s)).
  assert (counted s0) as Hc0 by (by apply (counted_eq s)).
  destruct ((_ =? _) && (paused (t_run c) =? 0) && negb (exited (t_run c))) eqn:Hb.
  - unfold upd_task. rewrite modify_bind. eexists None, _. split; [reflexivity|].
    assert (task_at me (task_upd me (set_time_slice TIME_SLICE) s0) = Some (set_time_slice TIME_SLICE c)) as Et.
    { rewrite task_at_upd, decide_True by done. unfold task_at in Ec |- *. cbn. by rewrite Ec. }
    split; [transitivity s0; [by repeat split|by apply same_upto_upd]|].
    apply andb_true_iff in Hb as [[_ Hz]%andb_true_iff Hx].
    destruct Hl as [->|[-> Hl]]; [|unfold runnable in Hl; by rewrite Hx, Hz in Hl]. split.
    + exists Q. unfold current. cbn. rewrite Hcu. eapply placed_upd; [done|apply list_elem_of_here|done|done| |].
      * exact (pl_prio _ _ _ Hp me c Ec).
      * intros E. by apply (pl_exit _ _ _ Hp me c).
    + apply (same_calm_counted s0); [apply calm_slice|done].
    + intros me' E. assert (me' = me) as -> by (cbn in E; congruence). eexists. split; [exact Et|].
      unfold runnable. cbn. by rewrite Hx, Hz.
    + cbn. by rewrite Hcu.
  - rewrite modify_bind. set (s1 := with_curr None None s0).
    assert (placed s1 Q Hs) as Hp1 by (by apply (placed_eq s0)). assert (counted s1) as Hc1 by (by apply (counted_eq s0)).
    assert (hushed s s1) as Hq1 by (by repeat split).
    destruct (negb (exited (t_run c)) && (paused (t_run c) =? 0)) eqn:Hr.
    + destruct Hl as [->|[-> Hl]]; [|unfold runnable in Hl; congruence].
      pose proof (pl_prio _ _ _ Hp1 me c Ec) as Hpr. destruct (ready_queue_at s1 Q [me] _ Hp1 Hpr) as [l Hl].
      destruct (placed_insert s1 Q [] (Z.to_nat (priority (t_run c))) me c l Hp1) as (s2 & E2 & Hb2 & Hp2);
        [apply not_elem_of_nil|done| |by apply good_place_own|done|].
      * apply andb_true_iff in Hr as [Hx _]. by apply negb_true_iff in Hx.
      * rewrite (bind_run _ _ _ _ _ E2). eexists (Some me), s2. split; [reflexivity|]. split.
        -- transitivity s1; [done|]. apply same_calm_upto; [by apply same_body_calm|]. eapply placed_qlen; [exact Hp1|exact Hp2|apply length_insert].
        -- split; [done|]. eexists. split; [exact Hp2|]. by apply (same_body_counted s1).
    + rewrite ret_bind. eexists (Some me), s1. split; [reflexivity|]. split; [done|]. split; [done|].
      exists Q. split; [|done].
      destruct Hl as [->|[-> _]]; [by eapply placed_drop|done].
Qed.

Lemma sched_run s Q Hs me c :
  placed s Q Hs -> leaving me c Hs -> counted s -> curr s = Some me -> task_at me s = Some c ->
  exists s', sched s = Ret tt s' /\ sched_ok s' /\ hushed s s'.
Proof.
  intros Hp Hl Hc Hcu Ec. destruct (sched_leave_ok s Q Hs me c Hp Hl Hc Hcu Ec) as (r & s1 & E1 & Hq & Hr).
  unfold sched. rewrite (bind_run _ _ _ _ _ E1). destruct r as [p|].
  - destruct Hr as (-> & Q' & Hp' & Hc'). destruct (sched_pick_ok s1 Q' me Hp' Hc') as (s2 & E2 & Hok & Hq2).
    exists s2. split_and!; [done|done|]. by transitivity s1.
  - exists s1. by split_and!.
Qed.

(** * Suspending and resuming *)

Definition wait_queue s (q : option nat) : Prop :=
  match q with Some q => (NREADY <= q < length (queues s))%nat | None => True end.

Lemma sched_ok_curr s me :
  sched_ok s -> curr s = Some me ->
  exists Q c, placed s Q [me] /\ task_at me s = Some c /\ runnable c = true.
Proof.
  intros [[Q Hp] _ Hcu _] E. destruct (Hcu me E) as (c & Ec & Hr). unfold current in Hp. rewrite E in Hp. eauto.
Qed.
Lemma runnable_true c : runnable c = true -> exited (t_run c) = false /\ paused (t_run c) = 0.
Proof. unfold runnable. intros [Hx%negb_true_iff Hz%Z.eqb_eq]%andb_true_iff. done. Qed.

(** [task_suspend] returns at once exactly when a signal or an event is waiting
    for a task that is not stopped and may be interrupted. *)
Definition interrupted (c : task) (type : Z) : bool :=
  (signal_pending (t_sig c) || negb (unseen_events (t_ev c) =? 0)) && negb (stopped (t_run c)) && (type =? WAIT_INTR).

Lemma counted_upd s t c f :
  counted s -> task_at t s = Some c ->
  counted (with_pcount (task_pcount s - b2z (asleep (Some c)) + b2z (asleep (Some (f c))))
    (with_count (task_count s - b2z (live (Some c)) + b2z (live (Some (f c)))) (task_upd t f s))).
Proof.
  intros [Hp Hc] E. unfold counted. cbn [task_pcount task_count with_pcount with_count tasks].
  by rewrite (zcount_upd s asleep t c f E), (zcount_upd s live t c f E), Hp, Hc.
Qed.

Lemma task_suspend_ok s q type me c :
  sched_ok s -> curr s = Some me -> task_at me s = Some c -> wait_queue s q -> type = WAIT_INTR \/ type = WAIT_NOINTR ->
  if interrupted c type then task_suspend q type s = Err EINTR (task_upd me (set_unseen 0) s)
  else exists s', task_suspend q type s = Ret tt s' /\ sched_ok s' /\ hushed (task_upd me (set_paused type) s) s'.
Proof.
  intros Hok Hcu Ec Hq Hty. destruct (sched_ok_curr s me Hok Hcu) as (Q & c1 & Hp & Ec1 & Hr). assert (c1 = c) as -> by congruence.
  apply runnable_true in Hr as [Hx Hz]. unfold task_suspend. rewrite (get_curr_run s me), (get_task_run s me c) by done.
  rewrite Hz. cbn [Z.eqb negb].
  assert ((match q with Some q => (q <? NREADY)%nat | None => false end) = false) as ->.
  { destruct q; [|done]. cbn in Hq. apply Nat.ltb_ge. lia. }
  assert (negb (type =? WAIT_INTR) && negb (type =? WAIT_NOINTR) = false) as -> by (by destruct Hty as [-> | ->]).
  fold (interrupted c type). destruct (interrupted c type).
  { unfold upd_task. by rewrite modify_bind. }
  unfold upd_task. rewrite !modify_bind. set (s1 := with_pcount _ _).
  assert (type <> 0) as Hty0 by (destruct Hty as [-> | ->]; done).
  assert (task_at me s1 = Some (set_paused type c)) as E1.
  { transitivity (task_at me (task_upd me (set_paused type) s)); [done|]. rewrite task_at_upd, decide_True by done. by rewrite Ec. }
  assert (placed s1 Q [me]) as Hp1.
  { apply (placed_eq (task_upd me (set_paused type) s)); [done|done|].
    eapply placed_upd; [exact Hp|apply list_elem_of_here|exact Ec|done|exact (pl_prio _ _ _ Hp me c Ec)|].
    cbn. rewrite Hx. done. }
  assert (counted s1) as Hc1.
  { pose proof (counted_upd s me c (set_paused type) (sk_counted _ Hok) Ec) as [Ha Hb].
    assert (asleep (Some (set_paused type c)) = true) as Hs1 by (cbn; by apply negb_true_iff, Z.eqb_neq).
    assert (asleep (Some c) = false) as Hs0 by (cbn; by rewrite Hz).
    rewrite Hs1, Hs0 in Ha. cbn in Ha, Hb. unfold counted, s1. cbn. split; [|]; lia. }
  assert (hushed (task_upd me (set_paused type) s) s1) as Hq1 by (by repeat split).
  destruct q as [q|].
  - destruct (lookup_lt_is_Some_2 Q q) as [l Hl].
    { rewrite (qd_len _ _ _ (pl_queued _ _ _ Hp)). cbn in Hq. lia. }
    destruct (placed_insert s1 Q [] q me (set_paused type c) l Hp1) as (s2 & E2 & Hb2 & Hp2);
      [apply not_elem_of_nil|done|done| |done|].
    { unfold good_place. cbn in Hq. rewrite (proj2 (Nat.ltb_ge q NREADY)) by lia. done. }
    rewrite (bind_run _ _ _ _ _ E2).
    destruct (same_calm_task s1 s2 me (set_paused type c) (same_body_calm _ _ Hb2) E1) as (c2 & Ec2 & Cc2).
    destruct (same_body_curr _ _ Hb2) as (Hcu2 & _).
    destruct (sched_run s2 (<[q := l ++ [me]]> Q) [] me c2 Hp2) as (s3 & E3 & Hok3 & Hq3).
    + right. split; [done|]. rewrite (runnable_view _ _ (calm_view _ _ Cc2)). unfold runnable. cbn.
      rewrite (proj2 (Z.eqb_neq type 0)) by done. by destruct (exited (t_run c)).
    + by apply (same_body_counted s1).
    + by rewrite Hcu2.
    + done.
    + exists s3. split_and!; [done|done|]. transitivity s1; [done|]. transitivity s2; [|done].
      apply same_calm_upto; [by apply same_body_calm|]. eapply placed_qlen; [exact Hp1|exact Hp2|apply length_insert].
  - rewrite ret_bind. destruct (sched_run s1 Q [me] me _ Hp1 (or_introl eq_refl) Hc1 Hcu E1) as (s3 & E3 & Hok3 & Hq3).
    exists s3. split_and!; [done|done|]. by transitivity s1.
Qed.

(** Nothing changes but links, time slices and that tasks may stop waiting. *)
Definition wakes s s' : Prop :=
  quiet s s' /\ curr s' = curr s /\ idle s' = idle s /\
  forall u c c', task_at u s = Some c -> task_at u s' = Some c' -> paused (t_run c') = paused (t_run c) \/ paused (t_run c') = 0.
Global Instance wakes_preorder : PreOrder wakes.
Proof.
  split.
  - intros s. split; [reflexivity|]. split_and!; try done. intros u c c' E E'. left. congruence.
  - intros s1 s2 s3 (Q1 & C1 & I1 & P1) (Q2 & C2 & I2 & P2). split; [by transitivity s2|]. split_and!; try congruence.
    intros u c c' E E'. destruct (task_at u s2) as [c2|] eqn:E2.
    + destruct (P1 u c c2 E E2) as [H1|H1], (P2 u c2 c' E2 E') as [H2|H2]; rewrite ?H2, ?H1; auto.
    + destruct Q1 as (_&_&_&_&_&_&_&Q1). specialize (Q1 u). rewrite E, E2 in Q1. done.
Qed.
Lemma same_calm_wakes s s' : same_calm s s' -> length (queues s') = length (queues s) -> wakes s s'.
Proof.
  intros Hc Hl. split; [by apply hushed_quiet, same_calm_upto|]. pose proof Hc as (E & _ & Hb). split_and!; [by rewrite E|by rewrite E|].
  intros u c c' Ec Ec'. left. specialize (Hb u). rewrite Ec, Ec' in Hb. apply (inj Some) in Hb. apply calm_view in Hb.
  unfold view in Hb. congruence.
Qed.
Lemma wakes_resched s v : wakes s (with_resched v s).
Proof. split; [by repeat split|]. split_and!; try done. intros u c c' E E'. left. unfold task_at in *. cbn in *. congruence. Qed.

(** The task as [task_resume] leaves it, before it is moved. *)
Definition woken (c : task) : task := set_paused 0 (set_time_slice TIME_SLICE c).

Lemma wakes_woken s t n : wakes s (with_pcount n (task_upd t woken s)).
Proof.
  split; [by apply (same_upto_upd still)|]. split_and!; try done.
  intros u c c' E E'. change (task_at u (task_upd t woken s) = Some c') in E'. rewrite task_at_upd in E'.
  case_decide; [subst|left; congruence]. rewrite E in E'. right. by simplify_eq/=.
Qed.
Lemma wakes_task s s' u c : wakes s s' -> task_at u s = Some c -> exists c', task_at u s' = Some c' /\ still c' = still c.
Proof.
  intros [Hq _] E. by eapply same_upto_task.
Qed.
Lemma still_exited c c' : still c' = still c -> exited (t_run c') = exited (t_run c).
Proof. intros E. exact (f_equal (fun c => exited (t_run c)) E). Qed.
Lemma wakes_runnable s s' u c :
  wakes s s' -> task_at u s = Some c -> runnable c = true -> exists c', task_at u s' = Some c' /\ runnable c' = true.
Proof.
  intros Hw E [Hx Hz]%runnable_true. destruct (wakes_task _ _ _ _ Hw E) as (c' & E' & Hs). exists c'. split; [done|].
  destruct Hw as (_ & _ & _ & Hp). unfold runnable. rewrite (still_exited _ _ Hs), Hx.
  destruct (Hp u c c' E E') as [-> | ->]; by rewrite ?Hz.
Qed.
Lemma sched_ok_intro s s' Q :
  sched_ok s -> wakes s s' -> placed s' Q (current s) -> counted s' -> sched_ok s'.
Proof.
  intros Hok Hw Hp Hc. pose proof Hw as (_ & Hcu & Hid & _). split.
  - exists Q. unfold current in *. by rewrite Hcu.
  - done.
  - intros me E. rewrite Hcu in E. destruct (sk_curr _ Hok me E) as (c & Ec & Hr). by eapply wakes_runnable.
  - rewrite Hcu, Hid. apply Hok.
Qed.

Lemma resume_unqueue s Q Hs t c n :
  placed s Q Hs -> task_at t s = Some c -> exited (t_run c) = false -> paused (t_run c) <> 0 -> t ∉ Hs ->
  exists s' Q',
    (match queue (t_links c) with Some _ => task_remove t | None => ret tt end) (with_pcount n (task_upd t woken s)) = Ret tt s' /\
    placed s' Q' (t :: Hs) /\ same_body (with_pcount n (task_upd t woken s)) s' /\ length Q' = length Q.
Proof.
  intros Hp Ec Hx Hz Hnot. set (s1 := with_pcount n (task_upd t woken s)).
  assert (task_at t s1 = Some (woken c)) as E1.
  { transitivity (task_at t (task_upd t woken s)); [done|]. rewrite task_at_upd, decide_True by done. by rewrite Ec. }
  assert (queued (lk s1) (queues s1) Q) as HQ1 by exact (queued_upd s Q t woken ltac:(done) (pl_queued _ _ _ Hp)).
  assert (lk s t = Some (t_links c)) as El by (unfold lk; by rewrite Ec).
  assert (0 <= priority (t_run (woken c)) <= TASK_PRIO_LOW) as Hpr by (apply (pl_prio _ _ _ Hp t c Ec)).
  destruct (queue (t_links c)) as [q|] eqn:Eq.
  - apply (queued_member _ _ _ _ _ _ (pl_queued _ _ _ Hp) El) in Eq as (l & Hl & Ht).
    apply list_elem_of_split in Ht as (l1 & l2 & ->).
    destruct (task_remove_ok s1 Q q l1 t l2 HQ1 Hl) as (s' & E & HQ' & Hb). exists s', (<[q := l1 ++ l2]> Q).
    split_and!; [done| |done|apply length_insert].
    assert (exists c', task_at t s' = Some c' /\ t_run c' = t_run (woken c)) as (c' & Ec' & Er).
    { pose proof Hb as (_ & _ & Hb'). specialize (Hb' t). rewrite E1 in Hb'. destruct (task_at t s') as [c'|]; [|done].
      exists c'. split; [done|]. apply (inj Some) in Hb'. by apply same_body_run. }
    apply (placed_take s s' Q Hs q l1 t l2 Hp Hl HQ'); [|eauto|].
    + destruct Hb as (_ & Hn & Hb). destruct (same_others_upd s t woken) as [Hn' Hb']. split; [by etransitivity|].
      intros u Hu. etransitivity; [apply Hb|by apply Hb'].
    + intros c1 Ec1. assert (c1 = c') as -> by congruence. rewrite Er. split; [done|]. cbn. done.
  - exists s1, Q. split_and!; [done| |reflexivity|done].
    apply (placed_eq (task_upd t woken s)); [done|done|].
    assert (t_links c = unlinked) as Hun by (pose proof (qd_links _ _ _ (pl_queued _ _ _ Hp) t _ El) as Hk; by rewrite Eq in Hk).
    eapply placed_upd; [|apply list_elem_of_here|exact Ec|done|done|cbn; done].
    apply placed_add; [done|]. by rewrite El, Hun.
Qed.

Lemma task_resume_ok s t c :
  sched_ok s -> task_at t s = Some c -> exited (t_run c) = false ->
  exists s' c', task_resume t s = Ret tt s' /\ sched_ok s' /\ wakes s s' /\ task_at t s' = Some c' /\ paused (t_run c') = 0.
Proof.
  intros Hok Ec Hx. unfold task_resume. rewrite (get_task_run s t c) by done. rewrite Hx.
  destruct (Z.eqb_spec (paused (t_run c)) 0) as [Hz|Hz].
  { exists s, c. split_and!; try done; reflexivity. }
  destruct (sk_placed _ Hok) as [Q Hp]. set (Hs := current s) in *.
  assert (t ∉ Hs) as Hnot.
  { unfold Hs, current. destruct (curr s) as [me|] eqn:Ecu; [|apply not_elem_of_nil]. intros ->%list_elem_of_singleton.
    destruct (sk_curr _ Hok me Ecu) as (c' & Ec' & [_ Hz']%runnable_true). congruence. }
  unfold upd_task. rewrite !modify_bind. fold woken.
  change (fun c0 : task => set_paused 0 (set_time_slice TIME_SLICE c0)) with woken.
  set (n := task_pcount (task_upd t woken s) - 1).
  destruct (resume_unqueue s Q Hs t c n Hp Ec Hx Hz Hnot) as (s2 & Q2 & E2 & Hp2 & Hb2 & Hl2). set (s1 := with_pcount n (task_upd t woken s)) in *.
  pose proof (counted_upd s t c woken (sk_counted _ Hok) Ec) as [Ha Hb].
  assert (asleep (Some c) = true) as Hs1 by (cbn; by apply negb_true_iff, Z.eqb_neq).
  rewrite Hs1 in Ha. cbn in Ha, Hb. rewrite Hx in Hb. cbn in Hb.
  assert (counted s1) as Hc1. { unfold counted, s1, n. cbn. split; lia. }
  rewrite gets_bind. assert (task_pcount s1 <? 0 = false) as ->.
  { destruct Hc1 as [Hc1 _]. rewrite Hc1. apply Z.ltb_ge, zcount_nonneg. }
  rewrite (bind_run _ _ _ _ _ E2), gets_bind. destruct (same_body_curr _ _ Hb2) as (Hcu2 & Hid2 & _).
  rewrite Hcu2. change (curr s1) with (curr s).
  rewrite (bool_decide_false (curr s = Some t)).
  2: { intros E. apply Hnot. unfold Hs, current. rewrite E. apply list_elem_of_here. }
  assert (task_at t s1 = Some (woken c)) as E1.
  { transitivity (task_at t (task_upd t woken s)); [done|]. rewrite task_at_upd, decide_True by done. by rewrite Ec. }
  destruct (same_calm_task _ _ _ _ (same_body_calm _ _ Hb2) E1) as (c2 & Ec2 & Cc2). apply calm_view in Cc2.
  assert (priority (t_run c2) = priority (t_run c)) as Epr by (unfold view in Cc2; by injection Cc2).
  assert (runnable c2 = true) as Hr2. { rewrite (runnable_view _ _ Cc2). unfold runnable. cbn. by rewrite Hx. }
  pose proof (pl_prio _ _ _ Hp2 t c2 Ec2) as Hpr. destruct (ready_queue_at s2 Q2 _ _ Hp2 Hpr) as [l Hl].
  destruct (placed_insert s2 Q2 Hs (Z.to_nat (priority (t_run c2))) t c2 l Hp2 Hnot Ec2) as (s3 & E3 & Hb3 & Hp3);
    [by apply runnable_true|by apply good_place_own|done|].
  rewrite <- Epr, (bind_run _ _ _ _ _ E3).
  assert (wakes s s3) as Hw3.
  { transitivity s1; [apply wakes_woken|]. transitivity s2; (apply same_calm_wakes; [by apply same_body_calm|]).
    - exact (placed_qlen s s2 _ _ _ _ Hp Hp2 Hl2).
    - eapply placed_qlen; [exact Hp2|exact Hp3|apply length_insert]. }
  assert (counted s3) as Hc3 by (apply (same_body_counted s2); [done|]; by apply (same_body_counted s1)).
  pose proof (sched_ok_intro s s3 _ Hok Hw3 Hp3 Hc3) as Hok3.
  destruct (same_calm_task _ _ _ _ (same_body_calm _ _ Hb3) Ec2) as (c3 & Ec3 & Cc3).
  assert (paused (t_run c3) = 0) as Hz3.
  { apply calm_view in Cc3. rewrite <- (runnable_view _ _ Cc3) in Hr2. by apply runnable_true. }
  destruct (curr s) as [me|] eqn:Ecu; [|by exists s3, c3].
  destruct (sk_curr _ Hok me Ecu) as (d & Ed & Hrd). destruct (wakes_task _ _ _ _ Hw3 Ed) as (d3 & Ed3 & _).
  rewrite (get_task_run s3 me d3) by done.
  destruct (_ <? _); [|by exists s3, c3].
  exists (with_resched true s3), c3. split_and!; [done| | |done|done].
  - assert (wakes s (with_resched true s3)) as Hw4 by (transitivity s3; [done|apply wakes_resched]).
    apply (sched_ok_intro s _ (<[Z.to_nat (priority (t_run c2)) := l ++ [t]]> Q2) Hok Hw4).
    + by apply (placed_eq s3).
    + by apply (counted_eq s3).
  - transitivity s3; [done|apply wakes_resched].
Qed.
End sched.
Abbreviation hushed := (same_upto calm).
Abbreviation quiet := (same_upto still).
