(* ===== verification/TaskInv.v ===== *)
(** What every kernel operation on tasks keeps (kern/task.c, kern/signal.c,
    kern/event.c, kern/fork.c, kern/syscall.c).

    [family_ok]: the parent of a task is a task that has not exited.
    [attentive]: a task that waits and may be interrupted has no signal pending,
    unless it is stopped.  [pids_ok]: no two tasks have the same number.
    [alarms_ok]: the clock looks at the alarms no later than the first of them
    is due.  Together with [sched_ok] they are [sys_ok], and without
    [alarms_ok], for a clock that was set to a senseless time, [tasks_ok False]. *)

From S2P Require Import Prelude Frame Tasks TaskSys TaskQueueOk TaskOk TaskSched.

Section defs.
Context {X : Type}.
Implicit Types s : sys X.

Record family_ok s : Prop := FamilyOk {
  fo_init : exists c, task_at (init s) s = Some c /\ exited (t_run c) = false;
  fo_parent : forall t c, task_at t s = Some c ->
    exists p d, parent c = Some p /\ task_at p s = Some d /\ exited (t_run d) = false
}.

Definition heeds (c : task) : Prop :=
  paused (t_run c) = WAIT_INTR -> signal_pending (t_sig c) = true -> stopped (t_run c) = true.
Definition attentive s : Prop := forall t c, task_at t s = Some c -> heeds c.

Record pids_ok s : Prop := PidsOk {
  po_last : 0 <= last_pid s <= PID_MAX;
  po_unique : forall t u c d, task_at t s = Some c -> task_at u s = Some d -> pid c = pid d -> t = u
}.

Definition now s : Z * Z := (time s, ticks s).
(** [t1], [c1] is no later than [t2], [c2] (seconds and ticks). *)
Definition no_later (a b : Z * Z) : Prop := a.1 < b.1 \/ a.1 = b.1 /\ a.2 <= b.2.
Definition due (c : task) : Z * Z := (alarm (t_alarm c), alarm_ticks (t_alarm c)).
Definition covered (a : Z * Z) (c : task) : Prop := alarm (t_alarm c) <> 0 -> a.1 <> 0 /\ no_later a (due c).
Record alarms_ok s : Prop := AlarmsOk {
  al_now : 0 < time s /\ 0 <= ticks s < CLOCK_HZ;
  al_task : forall t c, task_at t s = Some c -> covered (alarm_t s) c /\ 0 <= alarm_repeat (t_alarm c) < 2 ^ 31
}.

(** The tasks are consistent; their alarms are while [P] holds ([settimeofday]
    stores any time its caller likes). *)
Record tasks_ok (P : Prop) s : Prop := SysOk {
  so_sched : sched_ok s;
  so_family : family_ok s;
  so_attentive : attentive s;
  so_pids : pids_ok s;
  so_alarms : P -> alarms_ok s
}.

(** What signals do not change of a task. *)
Definition kin (c : task) : option nat * Z * bool * alarms * creds :=
  (parent c, pid c, exited (t_run c), t_alarm c, t_creds c).
(** A step inside an operation: the same tasks, the same current task. *)
Definition steady s s' : Prop := same_upto kin s s' /\ curr s' = curr s /\ idle s' = idle s.
Global Instance steady_preorder : PreOrder steady.
Proof.
  split; [intros s; by split_and!|]. intros s1 s2 s3 (U1 & C1 & I1) (U2 & C2 & I2).
  split_and!; [by transitivity s2|congruence|congruence].
Qed.
End defs.
Arguments so_sched {X P} s.
Arguments so_family {X P} s.
Arguments so_attentive {X P} s.
Arguments so_pids {X P} s.
Arguments so_alarms {X P} s.
Notation sys_ok := (tasks_ok True).

Section basics.
Context {X : Type} `{TaskEnv X}.
Implicit Types s : sys X.

Lemma wakes_steady s s' : wakes s s' -> steady s s'.
Proof.
  intros (Hq & Hc & Hi & _). split_and!; [|done|done]. revert Hq. apply same_upto_mono.
  intros c c' E. exact (f_equal kin E).
Qed.
Lemma hushed_kin s s' : hushed s s' -> same_upto kin s s'.
Proof. apply same_upto_mono. intros c c' E. exact (f_equal kin E). Qed.

Lemma family_kin s s' : same_upto kin s s' -> family_ok s -> family_ok s'.
Proof.
  intros Hk [(c0 & E0 & X0) Hp]. pose proof Hk as (_&_&Ei&_). split.
  - rewrite Ei. destruct (same_upto_task _ _ _ _ _ Hk E0) as (c' & E' & K). exists c'. split; [done|]. unfold kin in K. congruence.
  - intros t c' E'. destruct (same_upto_task' _ _ _ _ _ Hk E') as (c & E & K). destruct (Hp t c E) as (p & d & Epa & Ed & Xd).
    destruct (same_upto_task _ _ _ _ _ Hk Ed) as (d' & Ed' & Kd). exists p, d'. unfold kin in *. split_and!; congruence.
Qed.

Lemma pids_kin s s' : same_upto kin s s' -> pids_ok s -> pids_ok s'.
Proof.
  intros Hk [Hl Hu]. pose proof Hk as (_&_&_&El&_). split; [by rewrite El|].
  intros t u c' d' Ec Ed Ep. destruct (same_upto_task' _ _ _ _ _ Hk Ec) as (c & Ec0 & K1).
  destruct (same_upto_task' _ _ _ _ _ Hk Ed) as (d & Ed0 & K2). apply (Hu t u c d Ec0 Ed0). unfold kin in *. congruence.
Qed.
Lemma alarms_kin s s' (P : Prop) : same_upto kin s s' -> (P -> alarms_ok s) -> P -> alarms_ok s'.
Proof.
  intros Hk HP [Hti Ha]%HP. pose proof Hk as (_&_&_&_&Etm&Eti&Ea&_). split; [by rewrite Etm, Eti|]. intros t c' E'.
  destruct (same_upto_task' _ _ _ _ _ Hk E') as (c & E & K).
  assert (t_alarm c' = t_alarm c) as Et by (unfold kin in K; congruence). specialize (Ha t c E).
  unfold covered, due in *. by rewrite Et, Ea.
Qed.

Lemma sched_ok_same s s' : same_sched s s' -> sched_ok s -> sched_ok s'.
Proof.
  intros Hs [[Q Hp] Hc Hcu Hid]. pose proof Hs as (Eq & Hn & Ecu & Eid & Epc & Ect & Hv). split.
  - exists Q. unfold current in *. rewrite Ecu. by apply (placed_same s).
  - apply (counted_same s); try done. intros t. specialize (Hv t).
    destruct (task_at t s'), (task_at t s); cbn in *; try done; congruence.
  - intros me. rewrite Ecu. intros E. destruct (Hcu me E) as (c & Ec & Hr). specialize (Hv me). rewrite Ec in Hv.
    destruct (task_at me s') as [c'|]; [|done]. exists c'. split; [done|]. rewrite (runnable_view c c'); [done|]. cbn in Hv. congruence.
  - by rewrite Ecu, Eid.
Qed.

(** An update of fields the scheduler does not read. *)
Definition minor (f : task -> task) : Prop :=
  forall c, (t_links (f c), view (f c)) = (t_links c, view c) /\ kin (f c) = kin c.
Lemma same_sched_upd s t f : (forall c, (t_links (f c), view (f c)) = (t_links c, view c)) -> same_sched s (task_upd t f s).
Proof.
  intros Hf. split_and!; try done; [apply length_alter|]. intros u. rewrite task_at_upd. case_decide; [subst|done].
  destruct (task_at t s) as [c|]; cbn; [|done]. by rewrite Hf.
Qed.
Lemma minor_steady s t f : minor f -> steady s (task_upd t f s).
Proof. intros Hf. split_and!; [|done|done]. apply same_upto_upd. intros c. apply Hf. Qed.
Lemma minor_ok s t f : minor f -> sched_ok s -> sched_ok (task_upd t f s).
Proof. intros Hf. apply sched_ok_same, same_sched_upd. intros c. apply Hf. Qed.

Lemma steady_task s s' t c : steady s s' -> task_at t s = Some c -> exists c', task_at t s' = Some c' /\ kin c' = kin c.
Proof. intros [Hk _]. by apply same_upto_task. Qed.
Lemma kin_exited c c' : kin c' = kin c -> exited (t_run c') = exited (t_run c).
Proof. unfold kin. congruence. Qed.

(** [attentive] up to task [p]. *)
Definition attentive_but p s : Prop := forall t c, t <> p -> task_at t s = Some c -> heeds c.
Lemma still_heeds c c' :
  still c' = still c -> paused (t_run c') = paused (t_run c) \/ paused (t_run c') = 0 -> heeds c -> heeds c'.
Proof.
  intros Hs Hp Hh E1 E2. pose proof (f_equal t_sig Hs) as Eg. pose proof (f_equal (fun c => stopped (t_run c)) Hs) as Es.
  cbn in Eg, Es. rewrite Es. destruct Hp as [Hp|Hp]; [|rewrite Hp in E1; done].
  apply Hh; congruence.
Qed.
Lemma calm_heeds c c' : calm c' = calm c -> heeds c -> heeds c'.
Proof.
  intros K. apply still_heeds; [unfold still; by rewrite K|left]. apply calm_view in K. unfold view in K. congruence.
Qed.
Lemma wakes_attentive p s s' : wakes s s' -> attentive_but p s -> attentive_but p s'.
Proof.
  intros Hw Ha t c' Hne E'. pose proof Hw as (Hq & _ & _ & Hp). destruct (same_upto_task' _ _ _ _ _ Hq E') as (c & E & Hs).
  eapply still_heeds; [exact Hs|by eapply Hp|by eapply Ha].
Qed.
Lemma upd_attentive p s f : attentive_but p s -> attentive_but p (task_upd p f s).
Proof. intros Ha t c Hne. rewrite task_at_upd, decide_False by done. by apply Ha. Qed.
Lemma attentive_intro p s c : attentive_but p s -> task_at p s = Some c -> heeds c -> attentive s.
Proof. intros Ha E Hh t d Ed. destruct (decide (t = p)) as [->|Hne]; [|by eapply Ha]. by assert (d = c) as -> by congruence. Qed.

(** * Signals *)

(** Resuming task [p] if it waits and may be interrupted. *)
Lemma resume_intr_ok s p c :
  sched_ok s -> task_at p s = Some c -> exited (t_run c) = false -> attentive_but p s ->
  exists s' c', (if paused (t_run c) =? WAIT_INTR then task_resume p else ret tt) s = Ret tt s' /\
    sched_ok s' /\ steady s s' /\ attentive_but p s' /\ task_at p s' = Some c' /\ paused (t_run c') <> WAIT_INTR /\
    stopped (t_run c') = stopped (t_run c).
Proof.
  intros Hok Ec Hx Ha. destruct (Z.eqb_spec (paused (t_run c)) WAIT_INTR) as [E|E].
  - destruct (task_resume_ok s p c Hok Ec Hx) as (s' & c' & Er & Hok' & Hw & Ec' & Hz). exists s', c'.
    split_and!; try done; [by apply wakes_steady|by eapply wakes_attentive|by rewrite Hz|].
    destruct (wakes_task _ _ _ _ Hw Ec) as (c1 & E1 & Hs). assert (c1 = c') as -> by congruence.
    exact (f_equal (fun c => stopped (t_run c)) Hs).
  - exists s, c. by split_and!.
Qed.

Lemma minor_stopped v : minor (set_stopped v).
Proof. done. Qed.
Lemma minor_signal sig v w : minor (fun c => set_pending v (set_received sig w c)).
Proof. done. Qed.
Lemma minor_handler sig v : minor (set_handler sig v).
Proof. done. Qed.

Lemma task_at_upd_eq s t f c : task_at t s = Some c -> task_at t (task_upd t f s) = Some (f c).
Proof. intros E. rewrite task_at_upd, decide_True by done. by rewrite E. Qed.

(** The state and the task after an update of minor fields of [p]. *)
Lemma minor_step s p c f :
  minor f -> sched_ok s -> attentive_but p s -> task_at p s = Some c -> exited (t_run c) = false ->
  sched_ok (task_upd p f s) /\ steady s (task_upd p f s) /\ attentive_but p (task_upd p f s) /\
  task_at p (task_upd p f s) = Some (f c) /\ exited (t_run (f c)) = false.
Proof.
  intros Hf Hok Ha Ec Hx. split_and!; [by apply minor_ok|by apply minor_steady|by apply upd_attentive|by apply task_at_upd_eq|].
  destruct (Hf c) as [_ K]. by rewrite (kin_exited _ _ K).
Qed.

Lemma signal_send_k_ok s p sig c :
  sched_ok s -> attentive s -> task_at p s = Some c ->
  wp (signal_send_k p sig) (fun _ s' => sched_ok s' /\ steady s s' /\ attentive s') (fun _ s' => s' = s) s.
Proof.
  intros Hok Ha Ec. unfold signal_send_k. destruct ((sig <? 0) || (SIGMAX <? sig)); [done|].
  destruct (sig =? 0); [by apply wp_ret|]. unfold wp. rewrite (get_task_run s p c) by done.
  destruct (exited (t_run c) || (handler c sig =? SIG_IGN)) eqn:Hig; [done|].
  apply orb_false_iff in Hig as [Hx _]. assert (attentive_but p s) as Hb by (intros t d _; apply Ha).
  set (m1 := if (sig =? SIGCONT) || (sig =? SIGKILL) then _ else _).
  assert (exists s1 c1, m1 s = Ret tt s1 /\ sched_ok s1 /\ steady s s1 /\ attentive_but p s1 /\ task_at p s1 = Some c1 /\
    exited (t_run c1) = false) as (s1 & c1 & E1 & Hok1 & St1 & Hb1 & Ec1 & Hx1).
  { subst m1. destruct ((sig =? SIGCONT) || (sig =? SIGKILL)).
    - destruct (minor_step s p c (set_stopped false) (minor_stopped _) Hok Hb Ec Hx) as (Hoka & Sta & Hba & Eca & Hxa).
      unfold upd_task. rewrite modify_bind.
      destruct (resume_intr_ok _ p (set_stopped false c) Hoka Eca Hxa Hba) as (s1 & c1 & E1 & Hok1 & St1 & Hb1 & Ec1 & _).
      exists s1, c1. split_and!; try done; [by etransitivity|].
      destruct (steady_task _ _ _ _ St1 Eca) as (c2 & Ec2 & K2). assert (c2 = c1) as -> by congruence. by rewrite (kin_exited _ _ K2).
    - exists s, c. by split_and!. }
  rewrite (bind_run _ _ _ _ _ E1).
  set (m2 := if sig =? SIGSTOP then _ else _).
  assert (exists s2 c2, m2 s1 = Ret tt s2 /\ sched_ok s2 /\ steady s1 s2 /\ attentive_but p s2 /\ task_at p s2 = Some c2 /\
    exited (t_run c2) = false) as (s2 & c2 & E2 & Hok2 & St2 & Hb2 & Ec2 & Hx2).
  { subst m2. destruct (sig =? SIGSTOP).
    - destruct (minor_step s1 p c1 (set_stopped true) (minor_stopped _) Hok1 Hb1 Ec1 Hx1) as (? & ? & ? & ? & ?).
      eexists _, _. by split_and!.
    - exists s1, c1. by split_and!. }
  rewrite (bind_run _ _ _ _ _ E2). unfold upd_task. rewrite modify_bind.
  destruct (minor_step s2 p c2 _ (minor_signal sig true true) Hok2 Hb2 Ec2 Hx2) as (Hok3 & St3 & Hb3 & Ec3 & Hx3).
  rewrite (get_task_run _ p _ _ _ Ec3).
  destruct (resume_intr_ok _ p _ Hok3 Ec3 Hx3 Hb3) as (s4 & c4 & E4 & Hok4 & St4 & Hb4 & Ec4 & Hp4 & _). rewrite E4.
  split_and!; [done| |].
  - transitivity s1; [done|]. transitivity s2; [done|]. by etransitivity.
  - eapply attentive_intro; [exact Hb4|exact Ec4|]. intros E. congruence.
Qed.
End basics.

(** * Operations on the tasks there are *)

Section ops.
Context {X : Type} `{TaskEnv X} {P : Prop}.
Implicit Types s : sys X.

Lemma sys_ok_steady s s' : tasks_ok P s -> sched_ok s' -> steady s s' -> attentive s' -> tasks_ok P s'.
Proof.
  intros [_ Hf _ Hp Hl] Hk [Hs _] Ha. split; [done|by apply (family_kin s)|done|by apply (pids_kin s)|by apply (alarms_kin s)].
Qed.

(** [sys_ok] reads tasks, queues, counters and who runs. *)
Lemma sys_ok_eq s s' :
  tasks s' = tasks s -> queues s' = queues s -> curr s' = curr s -> idle s' = idle s -> init s' = init s ->
  task_pcount s' = task_pcount s -> task_count s' = task_count s -> 0 <= last_pid s' <= PID_MAX -> alarm_t s' = alarm_t s ->
  now s' = now s -> tasks_ok P s -> tasks_ok P s'.
Proof.
  intros Et Eq Ec Ei En Ep Ek El Eal Eti [[[Q Hp] Hc Hcu Hid] [Hi Hf] Ha [Hl Hu] HP].
  assert (forall t, task_at t s' = task_at t s) as Ht by (intros t; unfold task_at; by rewrite Et).
  split; [split|split| |split|intros [Hti Hal]%HP; split].
  - exists Q. unfold current in *. rewrite Ec. by apply (placed_eq s).
  - by apply (counted_eq s).
  - intros me. rewrite Ec, Ht. auto.
  - by rewrite Ec, Ei.
  - rewrite En, Ht. done.
  - intros t c. setoid_rewrite Ht. apply Hf.
  - intros t c. rewrite Ht. apply Ha.
  - done.
  - intros t u c d. rewrite !Ht. apply Hu.
  - unfold now in Eti. injection Eti as -> ->. done.
  - intros t c. rewrite Ht, Eal. apply Hal.
Qed.

Lemma sys_curr s me : tasks_ok P s -> curr s = Some me -> exists c, task_at me s = Some c /\ runnable c = true.
Proof. intros Hok E. by apply (sk_curr _ (so_sched _ Hok)). Qed.

(** An update of one task that the scheduler does not read. *)
Lemma minor_sys s t f :
  (forall c, (t_links (f c), view (f c)) = (t_links c, view c)) ->
  (forall c, task_at t s = Some c -> kin (f c) = kin c /\ (heeds c -> heeds (f c))) ->
  tasks_ok P s -> tasks_ok P (task_upd t f s) /\ steady s (task_upd t f s).
Proof.
  intros Hf Hk [Hs Hfa Ha Hpi Hal]. assert (steady s (task_upd t f s)) as St.
  { split_and!; [|done|done]. split_and!; try done; [apply length_alter|]. intros u. rewrite task_at_upd.
    case_decide; [subst|done]. destruct (task_at t s) as [c|] eqn:E; [|done]. cbn. f_equal. by apply Hk. }
  split; [|done]. eapply sys_ok_steady; [by split|by apply (sched_ok_same s); [apply same_sched_upd|]|done|].
  intros u c E. rewrite task_at_upd in E. case_decide; [subst|by eapply Ha].
  destruct (task_at t s) as [c0|] eqn:E0; [|done]. cbn in E. simplify_eq. destruct (Hk _ eq_refl) as [_ Hh]. apply Hh. by eapply Ha.
Qed.

(** Signals, in the form the operations use. *)
Definition signals_ok (m : M (sys X) unit) : Prop :=
  forall s, tasks_ok P s -> wp m (fun _ s' => tasks_ok P s' /\ steady s s') (fun _ s' => tasks_ok P s' /\ steady s s') s.

Lemma send_k_sys s p sig c :
  tasks_ok P s -> task_at p s = Some c ->
  wp (signal_send_k p sig) (fun _ s' => tasks_ok P s' /\ steady s s') (fun _ s' => tasks_ok P s' /\ steady s s') s.
Proof.
  intros Hok Ec. eapply wp_mono; [apply (signal_send_k_ok s p sig c (so_sched _ Hok) (so_attentive _ Hok) Ec)| |].
  - cbn. intros _ s' (Hs & St & Ha). split; [by eapply sys_ok_steady|done].
  - cbn. intros _ s' ->. split; [done|reflexivity].
Qed.
Lemma wp_send_status s p sig c B (k : Z -> M (sys X) B) Q E :
  tasks_ok P s -> task_at p s = Some c ->
  (forall e s', tasks_ok P s' -> steady s s' -> wp (k e) Q E s') -> wp (bind (status (signal_send_k p sig)) k) Q E s.
Proof.
  intros Hok Ec Hk. apply wp_bind, wp_status. eapply wp_mono; [by apply (send_k_sys s p sig c)| |]; cbn; intros ? s' [? ?]; auto.
Qed.

Lemma signal_send_sys s me p sig c :
  tasks_ok P s -> curr s = Some me -> task_at p s = Some c ->
  wp (signal_send p sig) (fun _ s' => tasks_ok P s' /\ steady s s') (fun _ s' => tasks_ok P s' /\ steady s s') s.
Proof.
  intros Hok Hcu Ec. destruct (sys_curr s me Hok Hcu) as (d & Ed & _). unfold signal_send, wp.
  rewrite (get_curr_run s me), (get_task_run s me d), (get_task_run s p c) by done.
  destruct (negb _ && negb _); [split; [done|reflexivity]|]. by apply (send_k_sys s p sig c).
Qed.

Lemma signal_fatal_sys s p sig c :
  tasks_ok P s -> task_at p s = Some c ->
  wp (signal_fatal p sig) (fun _ s' => tasks_ok P s' /\ steady s s') (fun _ s' => tasks_ok P s' /\ steady s s') s.
Proof.
  intros Hok Ec. unfold signal_fatal. case_match; [split; [done|reflexivity]|]. case_match; [split; [done|reflexivity]|].
  unfold wp. rewrite (get_task_run s p c) by done. destruct (handler c sig =? SIG_IGN); [|rewrite ret_bind; by apply (send_k_sys s p sig c)].
  unfold upd_task. rewrite modify_bind.
  destruct (minor_sys s p (set_handler sig SIG_DFL)) as [Hok1 St1]; [done|by split|done|].
  pose proof (send_k_sys _ p sig _ Hok1 (task_at_upd_eq s p (set_handler sig SIG_DFL) c Ec)) as Hw. unfold wp in Hw.
  destruct (signal_send_k _ _ _); try done; destruct Hw as [? ?]; (split; [done|]); by etransitivity.
Qed.

(** The place of the next event is inside of the buffer. *)
Lemma event_place n : (((n + 1) mod EVT_MAX <? 0) || (EVT_MAX <=? (n + 1) mod EVT_MAX)) = false.
Proof. pose proof (Z.mod_pos_bound (n + 1) EVT_MAX ltac:(done)). apply orb_false_iff. split; [apply Z.ltb_ge|apply Z.leb_gt]; lia. Qed.
Lemma send_event_sys s t e c :
  tasks_ok P s -> task_at t s = Some c ->
  wp (send_event t e) (fun _ s' => tasks_ok P s' /\ steady s s') (fun _ s' => tasks_ok P s' /\ steady s s') s.
Proof.
  intros Hok Ec. unfold send_event, wp. rewrite (get_task_run s t c) by done. destruct (EVT_MAX <=? event_count _); [split; [done|reflexivity]|].
  rewrite event_place. unfold upd_task. rewrite modify_bind. set (v := Events _ _ _ _ _ _).
  destruct (minor_sys s t (set_ev v)) as [Hok1 St1]; [done|by split|done|].
  apply (wp_send_status _ t SIGEVT (set_ev v c)); [done|by apply task_at_upd_eq|].
  intros _ s2 Hok2 St2. apply wp_ret. split; [done|]. by etransitivity.
Qed.

(** * Waiting *)

Lemma sys_ok_hushed s s' : tasks_ok P s -> sched_ok s' -> hushed s s' -> tasks_ok P s'.
Proof.
  intros [_ Hf Ha Hp Hl] Hs Hh. pose proof (hushed_kin _ _ Hh) as Hk.
  split; [done|by apply (family_kin s)| |by apply (pids_kin s)|by apply (alarms_kin s)].
  intros t c' E'. destruct (same_upto_task' _ _ _ _ _ Hh E') as (c & E & K). eapply calm_heeds; [exact K|by eapply Ha].
Qed.

Lemma sched_sys s me : tasks_ok P s -> curr s = Some me -> exists s', sched s = Ret tt s' /\ tasks_ok P s' /\ hushed s s'.
Proof.
  intros Hok Hcu. destruct (sched_ok_curr s me (so_sched _ Hok) Hcu) as (Q & c & Hp & Ec & _).
  destruct (sched_run s Q [me] me c Hp (or_introl eq_refl) (sk_counted _ (so_sched _ Hok)) Hcu Ec) as (s' & E & Hs & Hh).
  exists s'. split_and!; [done|by eapply sys_ok_hushed|done].
Qed.

Lemma sched_pick_sys s prev : tasks_ok P s -> curr s = None -> exists s', sched_pick prev s = Ret tt s' /\ tasks_ok P s' /\ hushed s s'.
Proof.
  intros Hok Hcu. destruct (sk_placed _ (so_sched _ Hok)) as [Q Hp]. unfold current in Hp. rewrite Hcu in Hp.
  destruct (sched_pick_ok s Q prev Hp (sk_counted _ (so_sched _ Hok))) as (s' & E & Hs & Hh).
  exists s'. split_and!; [done|by eapply sys_ok_hushed|done].
Qed.

Lemma task_suspend_sys s q type me c :
  tasks_ok P s -> curr s = Some me -> task_at me s = Some c -> wait_queue s q -> type = WAIT_INTR \/ type = WAIT_NOINTR ->
  wp (task_suspend q type)
    (fun _ s' => tasks_ok P s' /\ same_upto kin s s' /\ interrupted c type = false)
    (fun e s' => e = EINTR /\ tasks_ok P s' /\ steady s s' /\ s' = task_upd me (set_unseen 0) s /\ interrupted c type = true) s.
Proof.
  intros Hok Hcu Ec Hq Hty. pose proof (task_suspend_ok s q type me c (so_sched _ Hok) Hcu Ec Hq Hty) as Hw. unfold wp.
  destruct (interrupted c type) eqn:Hi.
  - rewrite Hw. destruct (minor_sys s me (set_unseen 0)) as [Hok1 St1]; [done|by split|done|]. by split_and!.
  - destruct Hw as (s' & E & Hs & Hh). rewrite E. set (s1 := task_upd me (set_paused type) s) in *.
    assert (same_upto kin s s1) as Hk1 by (by apply same_upto_upd).
    assert (attentive s1) as Ha1.
    { intros t d Ed. unfold s1 in Ed. rewrite task_at_upd in Ed. case_decide; [subst|by eapply (so_attentive _ Hok)].
      rewrite Ec in Ed. cbn in Ed. simplify_eq. unfold heeds. cbn. intros -> Hsp. unfold interrupted in Hi.
      rewrite Hsp in Hi. cbn in Hi. by destruct (stopped (t_run c)). }
    assert (same_upto kin s1 s') as Hk2 by (by apply hushed_kin).
    assert (same_upto kin s s') as Hk by (by transitivity s1).
    split_and!; [|done|done]. split; [done|by apply (family_kin s), Hok| |by apply (pids_kin s), Hok|by apply (alarms_kin s); [|apply Hok]].
    + intros t c' E'. destruct (same_upto_task' _ _ _ _ _ Hh E') as (d & Ed & K). eapply calm_heeds; [exact K|by eapply Ha1].
Qed.

Lemma task_resume_sys s t c :
  tasks_ok P s -> task_at t s = Some c -> exited (t_run c) = false ->
  exists s', task_resume t s = Ret tt s' /\ tasks_ok P s' /\ steady s s'.
Proof.
  intros Hok Ec Hx. destruct (task_resume_ok s t c (so_sched _ Hok) Ec Hx) as (s' & c' & E & Hs & Hw & Ec' & Hz).
  exists s'. split_and!; [done| |by apply wakes_steady]. eapply sys_ok_steady; [done|done|by apply wakes_steady|].
  eapply attentive_intro; [eapply wakes_attentive; [exact Hw|]|exact Ec'|unfold heeds; by rewrite Hz].
  intros u d _. apply Hok.
Qed.

Lemma set_prio_sys s me c p :
  tasks_ok P s -> curr s = Some me -> task_at me s = Some c -> 0 <= p <= TASK_PRIO_LOW ->
  tasks_ok P (task_upd me (set_priority p) s).
Proof.
  intros Hok Hcu Ec Hp. destruct (sched_ok_curr s me (so_sched _ Hok) Hcu) as (Q & c1 & Hpl & Ec1 & Hr).
  assert (c1 = c) as -> by congruence. destruct Hok as [[_ Hc Hk Hid] Hf Ha Hpi Hal].
  assert (task_at me (task_upd me (set_priority p) s) = Some (set_priority p c)) as Em by (by apply task_at_upd_eq).
  assert (same_upto kin s (task_upd me (set_priority p) s)) as Hki by (by apply same_upto_upd).
  split; [split| | | |].
  - exists Q. unfold current. cbn. rewrite Hcu. eapply placed_upd; [exact Hpl|apply list_elem_of_here|exact Ec|done|done|].
    cbn. intros Hx. apply runnable_true in Hr as [Hx' _]. congruence.
  - destruct Hc as [Hcp Hcc]. unfold counted. rewrite (zcount_upd s asleep me c _ Ec), (zcount_upd s live me c _ Ec). cbn. lia.
  - intros me' E. assert (me' = me) as -> by (cbn in E; congruence). rewrite Em. eauto.
  - exact Hid.
  - by apply (family_kin s).
  - intros u d Ed. rewrite task_at_upd in Ed. case_decide; [subst|by eapply Ha]. rewrite Ec in Ed. cbn in Ed. simplify_eq.
    exact (Ha me c Ec).
  - by apply (pids_kin s).
  - by apply (alarms_kin s).
Qed.

Lemma sys_nice_sys s me c inc :
  tasks_ok P s -> curr s = Some me -> task_at me s = Some c -> - INT_MAX - 1 <= inc -> priority (t_run c) + inc <= INT_MAX ->
  wp (sys_nice inc) (fun _ => tasks_ok P) (fun _ s' => s' = s) s.
Proof.
  intros Hok Hcu Ec Hi Hi'.
  destruct (sk_placed _ (so_sched _ Hok)) as [Q Hp]. pose proof (pl_prio _ _ _ Hp me c Ec) as Hpr.
  unfold sys_nice, wp. rewrite (get_curr_run s me), (get_task_run s me c) by done. destruct (_ && _); [done|].
  rewrite (proj2 (orb_false_iff _ _)) by (split; apply Z.ltb_ge; lia).
  set (p := if TASK_PRIO_LOW <? _ then _ else _).
  assert (0 <= p <= TASK_PRIO_LOW) as Hp'.
  { unfold p. destruct (Z.ltb_spec TASK_PRIO_LOW (priority (t_run c) + inc)); [unfold TASK_PRIO_LOW; lia|].
    destruct (Z.ltb_spec (priority (t_run c) + inc) 0); unfold TASK_PRIO_LOW in *; lia. }
  assert (task_set_prio p s = Ret tt (task_upd me (set_priority p) s)) as E.
  { unfold task_set_prio. rewrite (proj2 (orb_false_iff _ _)) by (split; apply Z.ltb_ge; lia). by rewrite (get_curr_run s me). }
  rewrite (bind_run _ _ _ _ _ E). by apply (set_prio_sys s me c).
Qed.
End ops.
