(* ===== verification/TaskLife.v ===== *)
(** Creation, exit and reaping of tasks keep the books (kern/task.c,
    kern/fork.c, sys___xwait of kern/syscall.c). *)

From S2P Require Import Prelude Frame Tasks TaskSys TaskQueueOk TaskOk TaskSched TaskInv.

(** * Task numbers: [newpid] ends and gives a number no task has *)

Definition next_pid (l : Z) : Z := if PID_MAX <? l + 1 then PID_RESTART else l + 1.

(** The [k]th number [newpid] tries when the last one was [l]. *)
Definition cand (l : Z) (k : nat) : Z := Nat.iter k next_pid l.

Lemma next_pid_range l : 0 <= l <= PID_MAX -> 0 <= next_pid l <= PID_MAX.
Proof. unfold next_pid, PID_RESTART, PID_MAX. case_match; lia. Qed.
Lemma cand_range l k : 0 <= l <= PID_MAX -> 0 <= cand l k <= PID_MAX.
Proof. intros Hl. induction k as [|k IH]; [done|]. by apply next_pid_range. Qed.
Lemma cand_shift l k : cand (next_pid l) k = cand l (S k).
Proof. induction k as [|k IH]; [done|]. change (next_pid (cand (next_pid l) k) = next_pid (cand l (S k))). by rewrite IH. Qed.

(** As long as the numbers do not come around a second time they are distinct. *)
Lemma cand_eq l k :
  0 <= l <= PID_MAX -> Z.of_nat k <= PID_MAX - PID_RESTART ->
  cand l k = if l + Z.of_nat k <=? PID_MAX then l + Z.of_nat k else PID_RESTART + (l + Z.of_nat k - PID_MAX - 1).
Proof.
  intros Hl. induction k as [|k IH]; intros Hk.
  - cbn [cand Nat.iter]. rewrite (proj2 (Z.leb_le _ _)) by lia. cbn. lia.
  - change (cand l (S k)) with (next_pid (cand l k)). rewrite IH by lia. unfold next_pid, PID_RESTART, PID_MAX in *.
    destruct (Z.leb_spec (l + Z.of_nat k) 16383), (Z.leb_spec (l + Z.of_nat (S k)) 16383);
      match goal with |- context [?a <? ?b] => destruct (Z.ltb_spec a b) end; lia.
Qed.
Lemma cand_inj l j k :
  0 <= l <= PID_MAX -> (j <= S TASK_MAX)%nat -> (k <= S TASK_MAX)%nat -> cand l j = cand l k -> j = k.
Proof.
  intros Hl Hj Hk. unfold TASK_MAX in *. rewrite !cand_eq by (unfold PID_RESTART, PID_MAX in *; lia).
  unfold PID_RESTART, PID_MAX in *. repeat case_match; lia.
Qed.

Section newpid.
Context {X : Type}.
Implicit Types s : sys X.

Definition pid_free s (l : Z) : Prop := forall t c, task_at t s = Some c -> pid c <> l.

Lemma pid_used_free s l : existsb (pid_used l) (tasks s) = false <-> pid_free s l.
Proof.
  rewrite <- not_true_iff_false, existsb_exists. unfold pid_free, task_at. split.
  - intros Hn t c E Ep. apply Hn. exists (Some c). split; [|cbn; by apply Z.eqb_eq].
    apply list_elem_of_In, (list_elem_of_lookup_2 _ t). by destruct (tasks s !! t) as [[]|]; simplify_eq/=.
  - intros Hf ([c|] & Hin & E); [|done]. apply list_elem_of_In, list_elem_of_lookup in Hin as [t Ht].
    cbn in E. apply Z.eqb_eq in E. apply (Hf t c); [by rewrite Ht|done].
Qed.

Lemma newpid_loop_ok n s k :
  (k < n)%nat -> pid_free s (cand (last_pid s) (S k)) -> 0 <= last_pid s <= PID_MAX ->
  exists l, newpid_loop n s = Ret l (with_pid l s) /\ pid_free s l /\ 0 <= l <= PID_MAX.
Proof.
  revert s k. induction n as [|n IH]; intros s k Hk Hf Hr; [lia|]. cbn [newpid_loop]. rewrite modify_bind, gets_bind, gets_bind.
  fold (next_pid (last_pid s)). set (l := next_pid (last_pid s)). change (last_pid (with_pid l s)) with l.
  change (tasks (with_pid l s)) with (tasks s). assert (0 <= l <= PID_MAX) as Hl by (by apply next_pid_range).
  destruct (existsb (pid_used l) (tasks s)) eqn:Hu.
  - destruct k as [|k].
    { exfalso. apply (proj2 (pid_used_free s l)) in Hf. congruence. }
    destruct (IH (with_pid l s) k) as (l' & E & Hl'); [lia| |done|].
    + change (last_pid (with_pid l s)) with (next_pid (last_pid s)). rewrite cand_shift. exact Hf.
    + exists l'. split; [done|]. exact Hl'.
  - exists l. split_and!; [done|by apply pid_used_free|lia|lia].
Qed.

Lemma newpid_ok s :
  (length (tasks s) <= TASK_MAX)%nat -> 0 <= last_pid s <= PID_MAX ->
  exists l, newpid s = Ret l (with_pid l s) /\ pid_free s l /\ 0 <= l <= PID_MAX.
Proof.
  intros Hn Hr. set (L := map (fun k => cand (last_pid s) (S k)) (seq 0 (S TASK_MAX))).
  destruct (decide (Forall (fun l => existsb (pid_used l) (tasks s) = true) L)) as [Hall|Hex].
  - exfalso. assert (NoDup L) as Hd.
    { apply NoDup_fmap_2_strong; [|apply NoDup_seq]. intros j k Hj%elem_of_seq Hk%elem_of_seq E.
      apply cand_inj in E; unfold TASK_MAX in *; lia. }
    set (P := omap (fun o => pid <$> o) (tasks s)).
    assert (L ⊆ P) as Hs.
    { intros l Hl. rewrite Forall_forall in Hall. specialize (Hall l Hl).
      apply existsb_exists in Hall as ([c|] & Hin & E); [|done]. cbn in E. apply Z.eqb_eq in E.
      apply list_elem_of_omap. exists (Some c). split; [by apply list_elem_of_In|]. cbn. by rewrite E. }
    pose proof (submseteq_length _ _ (NoDup_submseteq _ _ Hd Hs)) as Hlen.
    assert (length P <= length (tasks s))%nat.
    { unfold P. clear. induction (tasks s) as [|[c|] l IH]; cbn; lia. }
    unfold L in Hlen. rewrite length_map, length_seq in Hlen. lia.
  - apply not_Forall_Exists in Hex; [|apply _]. apply Exists_exists in Hex as (l & Hl & Hf).
    apply not_true_iff_false, pid_used_free in Hf. apply list_elem_of_fmap in Hl as (k & -> & Hk%elem_of_seq).
    apply (newpid_loop_ok _ s k); [lia|done|done].
Qed.
End newpid.

(** * Creation and exit *)

Section new.
Context {X : Type} `{TaskEnv X} {P : Prop}.
Implicit Types s : sys X.

(** Slot [i] holds the task [c]. *)
Definition new_at (i : nat) (c : task) s : sys X := with_tasks (<[i := Some c]> (tasks s)) s.

Lemma upd_new i c f s : task_upd i f (new_at i c s) = new_at i (f c) s.
Proof.
  enough (alter (option_map f) i (<[i := Some c]> (tasks s)) = <[i := Some (f c)]> (tasks s)) as E
    by (unfold task_upd, new_at; cbn; by rewrite E).
  apply list_eq. intros j. destruct (decide (j = i)) as [->|Hne].
  - rewrite list_lookup_alter_eq. destruct (decide (i < length (tasks s))%nat).
    + by rewrite !list_lookup_insert_eq.
    + rewrite !lookup_ge_None_2; [done|by rewrite length_insert; lia..].
  - by rewrite list_lookup_alter_ne, !list_lookup_insert_ne.
Qed.
Lemma task_at_new i c s u :
  (i < length (tasks s))%nat -> task_at u (new_at i c s) = if decide (u = i) then Some c else task_at u s.
Proof.
  intros Hi. unfold task_at, new_at. cbn. case_decide; [subst; by rewrite list_lookup_insert_eq|by rewrite list_lookup_insert_ne].
Qed.

(** A free slot. *)
Definition slot_free s (i : nat) : Prop := (i < length (tasks s))%nat /\ task_at i s = None.
Lemma slot_free_lookup s i : slot_free s i -> tasks s !! i = Some None.
Proof.
  intros [Hi E]. destruct (lookup_lt_is_Some_2 (tasks s) i Hi) as [o Ho]. unfold task_at in E. rewrite Ho in E.
  by destruct o.
Qed.

Lemma queued_new s Q i c :
  queued (lk s) (queues s) Q -> slot_free s i -> t_links c = unlinked -> queued (lk (new_at i c s)) (queues s) Q.
Proof.
  intros [H1 H2 H3 H4] [Hi Hf] Hl.
  assert (forall u, lk (new_at i c s) u = if decide (u = i) then Some unlinked else lk s u) as Hlk.
  { intros u. unfold lk. rewrite task_at_new by done. case_decide; [|done]. cbn. by rewrite Hl. }
  split; [done|done| |].
  - intros q l Hq. destruct (H3 q l Hq) as [Hd Hn]. split; [|done]. eapply dseg_ext; [|exact Hd].
    intros t Ht. rewrite Hlk. case_decide; [subst|done]. destruct (dseg_mem _ _ _ _ _ _ Hd Ht) as (k & Ek & _).
    unfold lk in Ek. by rewrite Hf in Ek.
  - intros t k. rewrite Hlk. case_decide; [|apply H4]. intros [= <-]. done.
Qed.

Lemma placed_new s Q Hs i c :
  placed s Q Hs -> slot_free s i -> t_links c = unlinked -> 0 <= priority (t_run c) <= TASK_PRIO_LOW ->
  exited (t_run c) = false -> placed (new_at i c s) Q (i :: Hs).
Proof.
  intros Hp Hf Hl Hpr Hx. pose proof Hf as [Hi Hn]. pose proof (queued_new s Q i c (pl_queued _ _ _ Hp) Hf Hl) as HQ.
  assert (task_at i (new_at i c s) = Some c) as Ei by (rewrite task_at_new by done; by rewrite decide_True).
  assert (forall q, ~ member Q q i) as Hno.
  { assert (lk (new_at i c s) i = Some unlinked) as El by (unfold lk; rewrite Ei; cbn; by rewrite Hl).
    by apply (queued_none _ _ _ _ _ HQ El). }
  assert (same_others i s (new_at i c s)) as Hso.
  { split; [apply length_insert|]. intros u Hu. rewrite task_at_new by done. by rewrite decide_False. }
  apply (placed_move s (new_at i c s) Q Q Hs (i :: Hs) i Hp Hso HQ); [done|done|set_solver|eauto|].
  intros c' Ec'. assert (c' = c) as -> by congruence. split; [done|congruence|done| |set_solver].
  intros q Hq. by destruct (Hno q).
Qed.

Lemma counted_new s i c :
  counted s -> slot_free s i -> runnable c = true ->
  task_pcount s = zcount asleep (tasks (new_at i c s)) /\ task_count s + 1 = zcount live (tasks (new_at i c s)).
Proof.
  intros [Hp Hc] Hf%slot_free_lookup [Hx Hz]%runnable_true. unfold new_at. cbn.
  rewrite (zcount_insert asleep _ _ _ _ Hf), (zcount_insert live _ _ _ _ Hf). cbn. rewrite Hx, Hz. cbn. lia.
Qed.

Lemma free_slot_ok n i s :
  match free_slot n i s with
  | Ret (Some j) s' => s' = s /\ (i <= j < i + n)%nat /\ task_at j s = None
  | Ret None s' => s' = s
  | _ => False
  end.
Proof.
  revert i. induction n as [|n IH]; intros i; cbn [free_slot]; [done|]. rewrite gets_bind.
  destruct (task_at i s) eqn:E; [|cbn; split_and!; try done; lia]. specialize (IH (S i)).
  destruct (free_slot n (S i) s) as [[j|] s'|e s'|h]; try done. destruct IH as (-> & Hj & En). split_and!; [done|lia|lia|done].
Qed.

(** [task_getslot] fails without a change, or gives a cleared free slot. *)
Lemma task_getslot_ok s :
  length (tasks s) = TASK_MAX ->
  wp task_getslot (fun i s' => slot_free s i /\ exists x, s' = new_at i task0 (with_env x s))
    (fun _ s' => exists x, s' = with_env x s) s.
Proof.
  intros Hn. unfold task_getslot, wp. pose proof (free_slot_ok TASK_MAX 0 s) as Hf. unfold bind.
  destruct (free_slot TASK_MAX 0 s) as [[j|] s'|e s'|h]; try done.
  - destruct Hf as (-> & Hj & Ej). unfold env_call, gets. destruct (pg_atmem_slot j (curr s) (env s)) as [e x].
    destruct (e =? 0); cbn; [|eauto]. split; [|eauto]. split; [lia|done].
  - subst. exists (env s). by destruct s.
Qed.

(** A state with one more task than [s]. *)
Lemma sys_ok_new s s' i c p d :
  tasks_ok P s -> slot_free s i -> sched_ok s' -> init s' = init s -> 0 <= last_pid s' <= PID_MAX -> alarm_t s' = alarm_t s ->
  now s' = now s -> (forall u, u <> i -> calm <$> task_at u s' = calm <$> task_at u s) -> task_at i s' = Some c ->
  parent c = Some p -> task_at p s = Some d -> exited (t_run d) = false ->
  pid_free s (pid c) -> heeds c -> alarm (t_alarm c) = 0 -> alarm_repeat (t_alarm c) = 0 -> tasks_ok P s'.
Proof.
  intros [_ [(c0 & E0 & X0) Hp] Ha [_ Hu] HP] [_ Hf] Hs Hini Hl Ealt Eti Hcalm Ei Hpa Ed Xd Hpid Hh Hno Hrep.
  assert (forall u e, task_at u s = Some e -> exists e', task_at u s' = Some e' /\ calm e' = calm e) as Hold.
  { intros u e E. assert (u <> i) as Hne by congruence. specialize (Hcalm u Hne). rewrite E in Hcalm.
    destruct (task_at u s') as [e'|]; [|done]. exists e'. split; [done|]. by apply (inj Some) in Hcalm. }
  assert (forall u e', task_at u s' = Some e' -> u <> i -> exists e, task_at u s = Some e /\ calm e' = calm e) as Hnew.
  { intros u e' E Hne. specialize (Hcalm u Hne). rewrite E in Hcalm.
    destruct (task_at u s) as [e|]; [|done]. exists e. split; [done|]. by apply (inj Some) in Hcalm. }
  assert (forall e e', calm e' = calm e -> exited (t_run e') = exited (t_run e) /\ parent e' = parent e /\ pid e' = pid e /\
    t_alarm e' = t_alarm e) as Hk.
  { intros e e' K. pose proof (f_equal kin K) as Kk. unfold kin in Kk. cbn in Kk. split_and!; congruence. }
  split; [done|split| |split|intros [Hti Hal]%HP; split].
  - rewrite Hini. destruct (Hold _ _ E0) as (c0' & E0' & (Ex & _)%Hk). exists c0'. split; [done|congruence].
  - intros t e E. destruct (decide (t = i)) as [->|Hne].
    + assert (e = c) as -> by congruence. destruct (Hold _ _ Ed) as (d' & Ed' & (Ex & _)%Hk). exists p, d'. split_and!; congruence.
    + destruct (Hnew _ _ E Hne) as (e0 & Ee0 & (_ & Epa & _)%Hk). destruct (Hp t e0 Ee0) as (p' & d' & E1 & E2 & E3).
      destruct (Hold _ _ E2) as (d'' & E2' & (Ex & _)%Hk). exists p', d''. split_and!; congruence.
  - intros t e E. destruct (decide (t = i)) as [->|Hne]; [by assert (e = c) as -> by congruence|].
    destruct (Hnew _ _ E Hne) as (e0 & Ee0 & K). eapply calm_heeds; [exact K|by eapply Ha].
  - done.
  - assert (forall u e, task_at u s' = Some e -> u <> i -> pid e <> pid c) as Hfree.
    { intros u e E Hne. destruct (Hnew _ _ E Hne) as (e0 & Ee0 & (_ & _ & -> & _)%Hk). by eapply Hpid. }
    intros t u e1 e2 E1 E2 Ep. destruct (decide (t = i)) as [->|Ht], (decide (u = i)) as [->|Hu']; [done| | |].
    + assert (e1 = c) as -> by congruence. exfalso. by eapply (Hfree u).
    + assert (e2 = c) as -> by congruence. exfalso. by eapply (Hfree t).
    + destruct (Hnew _ _ E1 Ht) as (f1 & F1 & (_ & _ & P1 & _)%Hk), (Hnew _ _ E2 Hu') as (f2 & F2 & (_ & _ & P2 & _)%Hk).
      apply (Hu t u f1 f2); [done|done|congruence].
  - unfold now in Eti. injection Eti as -> ->. done.
  - intros t e E. destruct (decide (t = i)) as [->|Hne].
    + assert (e = c) as -> by congruence. split; [intros Hd; congruence|lia].
    + destruct (Hnew _ _ E Hne) as (e0 & Ee0 & (_ & _ & _ & Eal)%Hk). specialize (Hal t e0 Ee0).
      unfold covered, due in *. by rewrite Eal, Ealt.
Qed.

(** The new task is queued on ready queue [q] and counted. *)
Lemma insert_new s0 me cm i c q n :
  sched_ok s0 -> curr s0 = Some me -> task_at me s0 = Some cm -> slot_free s0 i -> t_links c = unlinked -> runnable c = true ->
  0 <= priority (t_run c) <= TASK_PRIO_LOW -> (q < NREADY)%nat -> Z.of_nat q <= priority (t_run c) ->
  exists s', task_insert q i (with_count n (new_at i c s0)) = Ret tt s' /\ same_body (with_count n (new_at i c s0)) s' /\
    sched_ok (with_count (task_count s0 + 1) s').
Proof.
  intros Hok Hcu Em Hf Hl Hr Hpr Hq Hqp. destruct (sched_ok_curr s0 me Hok Hcu) as (Q & c1 & Hp & Ec1 & Hr1).
  set (s1 := with_count n (new_at i c s0)). apply runnable_true in Hr as Hxz. destruct Hxz as [Hx Hz].
  assert (placed s1 Q (i :: [me])) as Hp1 by (apply (placed_eq (new_at i c s0)); [done|done|]; by apply placed_new).
  assert (i <> me) as Hne by (intros ->; destruct Hf; congruence).
  pose proof Hf as [Hi Hn]. assert (task_at i s1 = Some c) as Ei.
  { transitivity (task_at i (new_at i c s0)); [done|]. rewrite task_at_new by done. by rewrite decide_True. }
  destruct (lookup_lt_is_Some_2 Q q) as [l Hql].
  { rewrite (qd_len _ _ _ (pl_queued _ _ _ Hp)). pose proof (pl_nq _ _ _ Hp). lia. }
  destruct (placed_insert s1 Q [me] q i c l Hp1) as (s2 & E2 & Hb2 & Hp2);
    [by intros ?%list_elem_of_singleton|done|done| |done|].
  { unfold good_place. rewrite (proj2 (Nat.ltb_lt q NREADY)) by done. done. }
  exists s2. split_and!; [done|done|]. destruct (same_body_curr _ _ Hb2) as (Ecu & _).
  destruct (counted_new s0 i c (sk_counted _ Hok) Hf Hr) as [Ca Cb]. pose proof Hb2 as (Eb & Hlen & _).
  assert (forall u, view <$> task_at u s2 = view <$> task_at u s1) as Hv by (intros u; by apply same_body_view).
  split.
  - eexists. unfold current. cbn. rewrite Ecu. change (curr s1) with (curr s0). rewrite Hcu. by apply (placed_eq s2).
  - unfold counted. cbn [task_pcount task_count with_count tasks].
    rewrite (zcount_view s1 s2 asleep asleep_view Hlen Hv), (zcount_view s1 s2 live live_view Hlen Hv).
    rewrite Eb. change (task_pcount (with_tasks (tasks s2) (with_queues (queues s2) s1))) with (task_pcount s0). done.
  - intros me' E. cbn in E. rewrite Ecu in E. assert (me' = me) as -> by (cbn in E; congruence).
    specialize (Hv me). assert (task_at me s1 = Some c1) as Em1.
    { transitivity (task_at me (new_at i c s0)); [done|]. rewrite task_at_new, decide_False by done. done. }
    rewrite Em1 in Hv. change (task_at me (with_count (task_count s0 + 1) s2)) with (task_at me s2).
    destruct (task_at me s2) as [c2|]; [|done]. exists c2. split; [done|]. cbn in Hv. rewrite (runnable_view c1 c2); [done|]. congruence.
  - cbn. rewrite Ecu. cbn. by rewrite Hcu.
Qed.

Lemma with_env_ok s x : tasks_ok P s -> tasks_ok P (with_env x s).
Proof. intros Hok. apply (sys_ok_eq s); try done. apply Hok. Qed.
Lemma with_pid_ok s l : 0 <= l <= PID_MAX -> tasks_ok P s -> tasks_ok P (with_pid l s).
Proof. intros Hl Hok. by apply (sys_ok_eq s). Qed.
Lemma slots_len s : tasks_ok P s -> length (tasks s) = TASK_MAX.
Proof. intros [[[Q Hp] _ _ _] _ _ _ _]. apply Hp. Qed.

Lemma task_putslot_run i s :
  task_putslot i s =
    Ret tt (with_env (pg_dtmem_slot i (curr s) (env s)) (with_tasks (<[i := None]> (tasks s)) s)).
Proof. done. Qed.
(** [task_putslot] of a slot that was free before. *)
Lemma put_new s i c : slot_free s i -> with_tasks (<[i := None]> (tasks (new_at i c s))) (new_at i c s) = s.
Proof.
  intros Hf%slot_free_lookup. unfold new_at. cbn. rewrite list_insert_insert_eq, list_insert_id by done. by destruct s.
Qed.

Lemma task_creat_sys s me name arg :
  tasks_ok P s -> curr s = Some me ->
  wp (task_creat name arg)
    (fun l s' => tasks_ok P s' /\ pid_free s l /\ exists i c, slot_free s i /\ task_at i s' = Some c /\ pid c = l /\ parent c = Some me)
    (fun _ s' => tasks_ok P s') s.
Proof.
  intros Hok Hcu. destruct (sys_curr s me Hok Hcu) as (c & Ec & Hr). unfold task_creat, wp. rewrite gets_bind.
  destruct (env_fqname name (curr s) (env s)) as [e|fqn]; [done|].
  pose proof (task_getslot_ok s (slots_len _ Hok)) as Hg. unfold wp in Hg. unfold bind at 1.
  destruct task_getslot as [i s1|e s1|h]; [|destruct Hg as [x ->]; by apply with_env_ok|done].
  destruct Hg as (Hf & x & ->). set (s0 := with_env x s). assert (tasks_ok P s0) as Hok0 by (by apply with_env_ok).
  assert (slot_free s0 i) as Hf0 by done. assert (i <> me) as Hne by (intros ->; destruct Hf; congruence).
  assert (i < length (tasks s))%nat as Hi by apply Hf.
  rewrite (get_curr_run _ me) by done. rewrite (get_task_run _ me c).
  2: { rewrite task_at_new, decide_False by done. done. }
  unfold upd_task. rewrite modify_bind, upd_new.
  destruct (newpid_ok (new_at i c s0)) as (l & El & Hfree & Hl).
  { cbn. rewrite length_insert, (slots_len _ Hok). done. }
  { apply (so_pids _ Hok). }
  rewrite (bind_run _ _ _ _ _ El), modify_bind. change (with_pid l (new_at i c s0)) with (new_at i c (with_pid l s0)).
  rewrite upd_new. set (s2 := with_pid l s0). assert (tasks_ok P s2) as Hok2 by (by apply with_pid_ok). assert (slot_free s2 i) as Hf2 by done.
  set (c1 := set_ev _ _). unfold bind at 1, attempt, env_call. cbn [env curr new_at with_tasks].
  destruct (pg_newdir i (curr s2) (env s2)) as [e x2] eqn:Enew. destruct (Z.eqb_spec e 0) as [->|He].
  2: { change (with_env x2 (new_at i c1 s2)) with (new_at i c1 (with_env x2 s2)). rewrite (bind_run _ _ _ _ _ (task_putslot_run i _)).
       rewrite (put_new (with_env x2 s2) i c1) by done. by apply with_env_ok, with_env_ok. }
  change (with_env x2 (new_at i c1 s2)) with (new_at i c1 (with_env x2 s2)). rewrite modify_bind, upd_new.
  unfold modify_env. rewrite modify_bind.
  match goal with |- context [with_env ?y (new_at i ?c2 ?s3)] => change (with_env y (new_at i c2 s3)) with (new_at i c2 (with_env y s3)) end.
  rewrite modify_bind, upd_new. match goal with |- context [new_at i ?c3 ?s3] => set (cf := c3); set (sb := s3) end.
  assert (tasks_ok P sb) as Hokb by (by apply with_env_ok, with_env_ok). assert (slot_free sb i) as Hfb by done.
  assert (task_at i (new_at i cf sb) = Some cf) as Ei by (rewrite task_at_new by done; by rewrite decide_True).
  rewrite (get_task_run _ i cf) by done.
  destruct (sched_ok_curr s me (so_sched _ Hok) Hcu) as (Q & c' & Hp & Ec' & _). assert (c' = c) as -> by congruence.
  pose proof (pl_prio _ _ _ Hp me c Ec) as Hpr. pose proof (pl_hole _ _ _ Hp me (list_elem_of_here _ _)) as Hun.
  unfold lk in Hun. rewrite Ec in Hun. apply (inj Some) in Hun.
  destruct (insert_new sb me c i cf (Z.to_nat (priority (t_run cf))) (task_count sb)) as (s4 & E4 & Hb4 & Hs4); try done.
  { apply Hokb. } { unfold NREADY, TASK_PRIO_LOW in *. cbn. lia. } { cbn. lia. }
  change (with_count (task_count sb) (new_at i cf sb)) with (new_at i cf sb) in E4, Hb4.
  rewrite (bind_run _ _ _ _ _ E4), modify_bind. unfold ret.
  assert (task_count s4 = task_count sb) as Ecnt by (destruct Hb4 as (Eb & _); by rewrite Eb).
  rewrite Ecnt. destruct (same_body_calm _ _ Hb4) as (Eb & _ & Hcalm).
  destruct (same_calm_task _ _ _ _ (same_body_calm _ _ Hb4) Ei) as (cf' & Ef' & Kf).
  assert (parent cf' = Some me /\ pid cf' = l /\ t_alarm cf' = t_alarm cf) as (Hpa & Hpi & Hal).
  { pose proof (f_equal kin Kf) as Kk. unfold kin in Kk. cbn in Kk. split_and!; [|clear -Kk; congruence|cbn; clear -Kk; congruence]. clear -Kk. congruence. }
  split_and!.
  - eapply (sys_ok_new s _ i cf' me c Hok Hf Hs4); [by rewrite Eb|by rewrite Eb|by rewrite Eb|by rewrite Eb| |exact Ef'|done|done| | | | |].
    + intros u Hu. transitivity (calm <$> task_at u (new_at i cf sb)); [apply Hcalm|]. rewrite task_at_new, decide_False by done. done.
    + by apply runnable_true.
    + rewrite Hpi. intros t d Ed. apply (Hfree t). rewrite task_at_new by done. rewrite decide_False; [done|]. intros ->. destruct Hf. congruence.
    + eapply calm_heeds; [exact Kf|]. intros _ Hsp. done.
    + by rewrite Hal.
    + by rewrite Hal.
  - intros t d Ed. apply (Hfree t). rewrite task_at_new by done. rewrite decide_False; [done|]. intros ->. destruct Hf. congruence.
  - exists i, cf'. by split_and!.
Qed.

(** The priority of a task that does not run gets worse; nothing else the
    scheduler reads changes. *)
Lemma sched_ok_set s t c f :
  sched_ok s -> task_at t s = Some c -> curr s <> Some t -> t_links (f c) = t_links c ->
  paused (t_run (f c)) = paused (t_run c) -> exited (t_run (f c)) = exited (t_run c) ->
  priority (t_run c) <= priority (t_run (f c)) <= TASK_PRIO_LOW -> sched_ok (task_upd t f s).
Proof.
  intros [[Q Hp] [Ca Cb] Hk Hid] Ec Hne Hl Hz Hx Hpr. pose proof (pl_prio _ _ _ Hp t c Ec) as Hp0.
  assert (runnable (f c) = runnable c) as Hr by (unfold runnable; by rewrite Hz, Hx). split.
  - exists Q. change (current (task_upd t f s)) with (current s). apply (placed_set s Q _ t c f Hp Ec Hl); [lia| | |].
    + rewrite Hx, Hz. by apply (pl_exit _ _ _ Hp t c).
    + intros q Eq. pose proof (pl_queue _ _ _ Hp t c q Ec Eq) as Hg. unfold good_place in *. rewrite Hr, Hz.
      destruct (q <? NREADY)%nat; [|done]. destruct Hg. split; [done|lia].
    + rewrite Hr. by apply (pl_run _ _ _ Hp t c).
  - unfold counted. rewrite (zcount_upd s asleep t c f Ec), (zcount_upd s live t c f Ec). cbn. rewrite Hz, Hx. lia.
  - intros me E. change (curr s = Some me) in E. rewrite task_at_upd, decide_False by congruence. auto.
  - exact Hid.
Qed.

Lemma do_fork_sys s me :
  tasks_ok P s -> curr s = Some me ->
  wp do_fork (fun l s' => tasks_ok P s' /\ pid_free s l) (fun _ s' => tasks_ok P s') s.
Proof.
  intros Hok Hcu. destruct (sys_curr s me Hok Hcu) as (c & Ec & Hr). unfold do_fork, wp.
  pose proof (task_getslot_ok s (slots_len _ Hok)) as Hg. unfold wp in Hg. unfold bind at 1.
  destruct task_getslot as [i s1|e s1|h]; [|destruct Hg as [x ->]; by apply with_env_ok|done].
  destruct Hg as (Hf & x & ->). set (s0 := with_env x s). assert (tasks_ok P s0) as Hok0 by (by apply with_env_ok).
  assert (slot_free s0 i) as Hf0 by done. assert (i <> me) as Hne by (intros ->; destruct Hf; congruence).
  assert (i < length (tasks s))%nat as Hi by apply Hf. rewrite modify_bind.
  assert (task_at i (new_at i task0 s0) = Some task0) as Ei by (rewrite task_at_new by done; by rewrite decide_True).
  rewrite (get_task_run _ i task0) by exact Ei.
  destruct (insert_new s0 me c i task0 0 (task_count s0 + 1)) as (s1 & E1 & Hb1 & Hs1); try done; [apply Hok0|unfold NREADY; lia|].
  rewrite (bind_run _ _ _ _ _ E1).
  assert (with_count (task_count s0 + 1) s1 = s1) as Es1 by (destruct Hb1 as (Eb & _); by rewrite Eb). rewrite Es1 in Hs1.
  destruct (same_body_curr _ _ Hb1) as (Ecu1 & _). rewrite (get_curr_run s1 me) by (by rewrite Ecu1).
  pose proof Hb1 as (Eb1 & Hlen1 & _). destruct (same_body_calm _ _ Hb1) as (_ & _ & Hcalm1).
  destruct (newpid_ok s1) as (l & El & Hfree & Hl).
  { rewrite Hlen1. cbn. rewrite length_insert, (slots_len _ Hok). done. }
  { rewrite Eb1. apply (so_pids _ Hok). }
  rewrite (bind_run _ _ _ _ _ El). set (s2 := with_pid l s1).
  assert (forall u, u <> i -> calm <$> task_at u s2 = calm <$> task_at u s) as Hcalm2.
  { intros u Hu. etransitivity; [apply Hcalm1|]. change (calm <$> task_at u (new_at i task0 s0) = calm <$> task_at u s).
    rewrite task_at_new, decide_False by done. done. }
  assert (exists c2, task_at me s2 = Some c2 /\ calm c2 = calm c) as (c2 & Ec2 & Kc2).
  { specialize (Hcalm2 me ltac:(done)). rewrite Ec in Hcalm2. destruct (task_at me s2) as [c2|]; [|done].
    exists c2. split; [done|]. by apply (inj Some) in Hcalm2. }
  rewrite (get_task_run s2 me c2) by done. unfold upd_task. rewrite modify_bind.
  assert (exists ci, task_at i s1 = Some ci /\ set_links unlinked ci = set_links unlinked task0) as (ci & Eci & Kci).
  { destruct Hb1 as (_ & _ & Hb). specialize (Hb i). change (task_at i (with_count (task_count s0 + 1) (new_at i task0 s0))) with (task_at i (new_at i task0 s0)) in Hb.
    rewrite Ei in Hb. destruct (task_at i s1) as [ci|]; [|done]. exists ci. split; [done|]. by apply (inj Some) in Hb. }
  set (s3 := task_upd i (fork_copy me l c2) s2). set (cf := fork_copy me l c2 ci).
  pose proof (same_body_run _ _ Kci) as Eri. assert (task_at i s3 = Some cf) as Ei3 by (by apply task_at_upd_eq).
  destruct (sk_placed _ (so_sched _ Hok)) as [Q Hp]. pose proof (pl_prio _ _ _ Hp me c Ec) as Hpr.
  assert (priority (t_run c2) = priority (t_run c)) as Epr by (exact (f_equal (fun c => priority (t_run c)) Kc2)).
  assert (sched_ok s3) as Hs3.
  { apply (sched_ok_set s2 i ci); [|done| |done|done|done|].
    - apply (sched_ok_same s1); [by repeat split|done].
    - change (curr s1 <> Some i). rewrite Ecu1. change (curr s <> Some i). congruence.
    - rewrite Eri. cbn [fork_copy t_run priority task0]. rewrite Epr. exact Hpr. }
  assert (pid_free s l) as Hfs.
  { intros t d Ed E. assert (t <> i) as Hti by (intros ->; destruct Hf; congruence). specialize (Hcalm2 t Hti).
    change (task_at t s2) with (task_at t s1) in Hcalm2. rewrite Ed in Hcalm2. destruct (task_at t s1) as [d1|] eqn:Ed1; [|done].
    apply (Hfree t d1 Ed1). apply (inj Some) in Hcalm2. apply (f_equal pid) in Hcalm2. cbn in Hcalm2. congruence. }
  assert (tasks_ok P s3) as Hok3.
  { eapply (sys_ok_new s s3 i cf me c Hok Hf Hs3); [by cbn; rewrite Eb1|done|by cbn; rewrite Eb1|by unfold now; cbn; rewrite Eb1| |done|done|done|by apply runnable_true|done| | |].
    - intros u Hu. unfold s3. rewrite task_at_upd, decide_False by done. by apply Hcalm2.
    - intros E. exfalso. revert E. cbn. by rewrite Eri.
    - pose proof (f_equal t_alarm Kci) as Ea. cbn in Ea. cbn. by rewrite Ea.
    - pose proof (f_equal t_alarm Kci) as Ea. cbn in Ea. cbn. by rewrite Ea. }
  unfold modify_env. rewrite modify_bind. set (s4 := with_env _ s3). assert (tasks_ok P s4) as Hok4 by (by apply with_env_ok).
  unfold bind at 1, attempt, env_call. destruct (copy_pages i (curr s4) (env s4)) as [e x4]. destruct (e =? 0).
  - split; [by apply with_env_ok|done].
  - apply wp_bind, wp_status. eapply wp_mono; [apply (signal_fatal_sys (P := P) (with_env x4 s4) i SIGOOM cf); [by apply with_env_ok|done]| |];
      cbn; intros ? s5 [Hok5 _]; exact Hok5.
Qed.
End new.

(** * Exit *)

Section exit.
Context {X : Type} `{TaskEnv X} {P : Prop}.
Implicit Types s : sys X.

(** The same tasks and the same current task, except that children of [me] may
    have gone to [init]. *)
Definition fields (c : task) : Z * bool * alarms * creds := (pid c, exited (t_run c), t_alarm c, t_creds c).
Definition adopts me s s' : Prop :=
  same_upto fields s s' /\ curr s' = curr s /\ idle s' = idle s /\
  forall t c c', task_at t s = Some c -> task_at t s' = Some c' ->
    parent c' = parent c \/ parent c = Some me /\ parent c' = Some (init s).
Lemma steady_adopts me s s' : steady s s' -> adopts me s s'.
Proof.
  intros (Hk & Hc & Hi). split_and!; [|done|done|].
  - revert Hk. apply same_upto_mono. unfold kin, fields. congruence.
  - intros t c c' E E'. left. destruct (same_upto_task _ _ _ _ _ Hk E) as (c1 & E1 & K). unfold kin in K. congruence.
Qed.
Global Instance adopts_preorder me : PreOrder (adopts me).
Proof.
  split; [intros s; by apply steady_adopts|]. intros s1 s2 s3 (U1 & C1 & I1 & P1) (U2 & C2 & I2 & P2).
  split_and!; [by transitivity s2|congruence|congruence|]. intros t c c' E E'.
  destruct (same_upto_task _ _ _ _ _ U1 E) as (c2 & E2 & _). pose proof U1 as (_&_&Ei&_).
  destruct (P1 t c c2 E E2) as [H1|[H1 H1']], (P2 t c2 c' E2 E') as [H2|[H2 H2']].
  - left. congruence.
  - right. split; congruence.
  - right. split; congruence.
  - right. split; congruence.
Qed.

Lemma set_parent_sys s i c :
  tasks_ok P s -> task_at i s = Some c -> tasks_ok P (task_upd i (set_parent (Some (init s))) s).
Proof.
  intros [Hs [(c0 & E0 & X0) Hp] Ha [Hl Hu] HP] Ec. set (f := set_parent (Some (init s))). set (s' := task_upd i f s).
  assert (forall u e', task_at u s' = Some e' -> exists e, task_at u s = Some e /\ (e' = e \/ u = i /\ e' = f e)) as Ht.
  { intros u e' E. unfold s' in E. rewrite task_at_upd in E. case_decide; [subst|eauto]. rewrite Ec in E. simplify_eq/=. eauto. }
  assert (forall u e, task_at u s = Some e -> exists e', task_at u s' = Some e' /\ exited (t_run e') = exited (t_run e)) as Ht'.
  { intros u e E. unfold s'. rewrite task_at_upd. case_decide; [subst; rewrite E|]; eauto. }
  split; [apply (sched_ok_same s); [by apply same_sched_upd|done]|split| |split; [done|]|intros [Hti Hal]%HP; split; [done|]].
  - destruct (Ht' _ _ E0) as (e' & E' & Ex). exists e'. split; [done|congruence].
  - intros t e' E'. destruct (Ht t e' E') as (e & E & [->|[-> ->]]).
    + destruct (Hp t e E) as (p & d & E1 & E2 & E3). destruct (Ht' _ _ E2) as (d' & E2' & Ex). exists p, d'. split_and!; congruence.
    + destruct (Ht' _ _ E0) as (d' & E2' & Ex). exists (init s), d'. split_and!; [done|done|congruence].
  - intros t e' E'. destruct (Ht t e' E') as (e & E & [->|[-> ->]]); [by eapply Ha|]. exact (Ha i e E).
  - intros t u e1 e2 E1 E2 Ep. destruct (Ht _ _ E1) as (d1 & D1 & H1), (Ht _ _ E2) as (d2 & D2 & H2).
    apply (Hu t u d1 d2 D1 D2). destruct H1 as [->|[_ ->]], H2 as [->|[_ ->]]; exact Ep.
  - intros t e' E'. destruct (Ht t e' E') as (e & E & [->|[-> ->]]); [by eapply Hal|]. exact (Hal i e E).
Qed.
Lemma set_parent_adopts s i c me :
  task_at i s = Some c -> parent c = Some me -> adopts me s (task_upd i (set_parent (Some (init s))) s).
Proof.
  intros Ec Hpa. split_and!; [by apply same_upto_upd|done|done|]. intros t d d' E E'. rewrite task_at_upd in E'.
  case_decide; [subst|left; congruence]. right. rewrite Ec in E'. simplify_eq/=. split; congruence.
Qed.
Lemma init_task s : tasks_ok P s -> exists c, task_at (init s) s = Some c.
Proof. intros Hok. destruct (fo_init _ (so_family _ Hok)) as (c & E & _). eauto. Qed.

(** No task of the slots from [i] on, [n] of them, has parent [me]. *)
Definition orphaned s (i n me : nat) : Prop := forall t c, (i <= t < i + n)%nat -> task_at t s = Some c -> parent c <> Some me.
Lemma adopts_orphaned s s' i n me : me <> init s -> adopts me s s' -> orphaned s i n me -> orphaned s' i n me.
Proof.
  intros Hne (Hk & _ & _ & Hp) Ho t c' Ht E'. destruct (same_upto_task' _ _ _ _ _ Hk E') as (c & E & _).
  destruct (Hp t c c' E E') as [-> | [_ ->]]; [by eapply Ho|congruence].
Qed.
Lemma adopts_init s s' me : adopts me s s' -> init s' = init s.
Proof. intros [(_&_&E&_) _]. done. Qed.

Lemma orphan_loop_sys n i s me :
  tasks_ok P s -> me <> init s ->
  wp (orphan_loop n i me) (fun _ s' => tasks_ok P s' /\ adopts me s s' /\ orphaned s' i n me) (fun _ _ => False) s.
Proof.
  revert i s. induction n as [|n IH]; intros i s Hok Hne; cbn [orphan_loop].
  { apply wp_ret. split_and!; [done|reflexivity|]. intros t c Ht. lia. }
  apply wp_bind, wp_gets.
  apply (wp_seq _ _ (fun _ s' => tasks_ok P s' /\ adopts me s s' /\ orphaned s' i 1 me) (fun _ _ => False)); [| |done].
  - destruct (task_at i s) as [c|] eqn:Ec.
    + case_bool_decide as Hpa.
      * apply wp_bind, wp_gets. unfold upd_task. apply wp_bind. cbn [wp modify].
        pose proof (set_parent_sys s i c Hok Ec) as Hok1. pose proof (set_parent_adopts s i c me Ec Hpa) as Ad1.
        set (s1 := task_upd i (set_parent (Some (init s))) s) in *.
        assert (orphaned s1 i 1 me) as Ho1.
        { intros t d Ht Ed. assert (t = i) as -> by lia. unfold s1 in Ed. rewrite task_at_upd_eq with (c := c) in Ed by done.
          simplify_eq. cbn. congruence. }
        destruct (exited (t_run c)).
        -- destruct (init_task s1 Hok1) as [ci Eci]. change (init s1) with (init s) in Eci.
           apply (wp_send_status s1 (init s) SIGCHLD ci _ _ _ _ Hok1 Eci). intros _ s2 Hok2 St2. apply wp_ret.
           pose proof (steady_adopts me _ _ St2) as Ad2. split_and!; [done|by transitivity s1|].
           by apply (adopts_orphaned s1).
        -- apply wp_ret. by split_and!.
      * apply wp_ret. split_and!; [done|reflexivity|]. intros t d Ht Ed. assert (t = i) as -> by lia. congruence.
    + apply wp_ret. split_and!; [done|reflexivity|]. intros t d Ht Ed. assert (t = i) as -> by lia. congruence.
  - intros _ s1 (Hok1 & Ad1 & Ho1). assert (me <> init s1) as Hne1 by (by rewrite (adopts_init _ _ _ Ad1)).
    eapply wp_mono; [apply (IH (S i) s1 Hok1 Hne1)| |done]. intros _ s2 (Hok2 & Ad2 & Ho2).
    split_and!; [done|by transitivity s1|]. pose proof (adopts_orphaned _ _ _ _ _ Hne1 Ad2 Ho1) as Ho1'.
    intros t d Ht. destruct (decide (t = i)) as [->|]; [apply Ho1'; lia|apply Ho2; lia].
Qed.

(** The rest of [task_exit], once no task has parent [me]. *)
Lemma exit_sched s me c st :
  tasks_ok P s -> curr s = Some me -> me <> init s -> task_at me s = Some c -> orphaned s 0 TASK_MAX me ->
  exists s' c', 0 <= task_count s - 1 /\ sched (task_upd me (set_exited st) (with_count (task_count s - 1) s)) = Ret tt s' /\ tasks_ok P s' /\
    task_at me s' = Some c' /\ exited (t_run c') = true /\ exit_status (t_run c') = st /\ init s' = init s.
Proof.
  intros Hok Hcu Hne Ec Ho. destruct (sched_ok_curr s me (so_sched _ Hok) Hcu) as (Q & c1 & Hp & Ec1 & Hr).
  assert (c1 = c) as -> by congruence. apply runnable_true in Hr as [Hx Hz].
  set (s1 := task_upd me (set_exited st) (with_count (task_count s - 1) s)).
  pose proof (counted_upd s me c (set_exited st) (sk_counted _ (so_sched _ Hok)) Ec) as [Ca Cb].
  cbn in Ca, Cb. rewrite Hz in Ca. rewrite Hx in Cb. cbn in Ca, Cb.
  assert (counted s1) as Hc1 by (unfold counted; cbn; lia).
  assert (0 <= task_count s - 1) as Hpos by (destruct Hc1 as [_ Hc1]; cbn in Hc1; rewrite Hc1; apply zcount_nonneg).
  assert (placed s1 Q [me]) as Hp1.
  { eapply placed_upd; [by apply (placed_eq s)|apply list_elem_of_here|exact Ec|done|exact (pl_prio _ _ _ Hp me c Ec)|done]. }
  assert (task_at me s1 = Some (set_exited st c)) as E1 by (by apply task_at_upd_eq).
  destruct (sched_run s1 Q [me] me _ Hp1 (or_introl eq_refl) Hc1 Hcu E1) as (s' & E & Hs' & Hh).
  destruct (same_upto_task _ _ _ _ _ Hh E1) as (c' & Ec' & K).
  exists s', c'. pose proof (hushed_kin _ _ Hh) as Hk.
  assert (forall u e', task_at u s1 = Some e' -> exists e, task_at u s = Some e /\ (u <> me /\ e' = e \/ u = me /\ e' = set_exited st e)) as Ht.
  { intros u e' Ee. unfold s1 in Ee. rewrite task_at_upd in Ee. case_decide; [subst|eauto].
    change (task_at me (with_count (task_count s - 1) s)) with (task_at me s) in Ee. rewrite Ec in Ee. simplify_eq/=. eauto. }
  assert (forall u e, task_at u s = Some e -> u <> me -> task_at u s1 = Some e) as Ht'.
  { intros u e Ee Hu. unfold s1. rewrite task_at_upd, decide_False by done. done. }
  assert (family_ok s1) as Hf1.
  { destruct (so_family _ Hok) as [(c0 & E0 & X0) Hpa]. split.
    - exists c0. split; [|done]. by apply Ht'.
    - intros t e' Ee. destruct (Ht t e' Ee) as (e & Ee0 & Hcase). destruct (Hpa t e Ee0) as (p & d & P1 & P2 & P3).
      assert (p <> me) as Hpm. { intros ->. apply (Ho t e); [|done|done]. apply task_at_lookup, lookup_lt_Some in Ee0. rewrite (slots_len _ Hok) in Ee0. lia. }
      exists p, d. split_and!; [destruct Hcase as [[_ ->]|[_ ->]]; done|by apply Ht'|done]. }
  assert (attentive s1) as Ha1.
  { intros t e' Ee. destruct (Ht t e' Ee) as (e & Ee0 & [[_ ->]|[-> ->]]); [by eapply (so_attentive _ Hok)|exact (so_attentive _ Hok _ _ Ee0)]. }
  assert (pids_ok s1) as Hpi1.
  { destruct (so_pids _ Hok) as [Hl Hu]. split; [done|]. intros t u e1 e2 E1' E2' Ep.
    destruct (Ht _ _ E1') as (d1 & D1 & H1), (Ht _ _ E2') as (d2 & D2 & H2). apply (Hu t u d1 d2 D1 D2).
    destruct H1 as [[_ ->]|[_ ->]], H2 as [[_ ->]|[_ ->]]; exact Ep. }
  assert (P -> alarms_ok s1) as Hal1.
  { intros HP. pose proof (so_alarms _ Hok HP) as Hal. split; [apply Hal|]. intros t e' Ee. destruct (Ht t e' Ee) as (e & Ee0 & [[_ ->]|[-> ->]]); [by eapply Hal|exact (al_task _ Hal _ _ Ee0)]. }
  split_and!; [done|done| |done|exact (f_equal (fun c => exited (t_run c)) K)|exact (f_equal (fun c => exit_status (t_run c)) K)|
    by destruct Hh as (_&_&Ei&_)].
  split; [done|by apply (family_kin s1)| |by apply (pids_kin s1)|by apply (alarms_kin s1)].
  intros t e' Ee. destruct (same_upto_task' _ _ _ _ _ Hh Ee) as (e & Ee0 & Ke). eapply calm_heeds; [exact Ke|by eapply Ha1].
Qed.

(** [me] still runs, has no children, and [init] is the same. *)
Definition leaves me s s' : Prop :=
  curr s' = curr s /\ init s' = init s /\ is_Some (task_at me s') /\ orphaned s' 0 TASK_MAX me.
Lemma send_leaves s p sig c me :
  tasks_ok P s -> task_at p s = Some c -> is_Some (task_at me s) -> me <> init s -> orphaned s 0 TASK_MAX me ->
  exists e s', status (signal_send_k p sig) s = Ret e s' /\ tasks_ok P s' /\ leaves me s s'.
Proof.
  intros Hok Ep [d Ed] Hne Ho. pose proof (send_k_sys s p sig c Hok Ep) as Hw. unfold wp in Hw. unfold status.
  assert (forall s', steady s s' -> leaves me s s') as Hl.
  { intros s' St. pose proof St as (Hk & Cu & _). pose proof Hk as (_&_&Ei&_).
    destruct (same_upto_task _ _ _ _ _ Hk Ed) as (d' & Ed' & _). split_and!; [done|done|eauto|].
    by apply (adopts_orphaned s), Ho; [|apply steady_adopts]. }
  destruct (signal_send_k p sig s) as [[] s'|e s'|h]; [| |done]; destruct Hw as [Hok' St]; eexists _, s'; eauto.
Qed.

Lemma task_exit_sys s me st :
  tasks_ok P s -> curr s = Some me -> me <> init s ->
  exists s' c', task_exit st s = Ret tt s' /\ tasks_ok P s' /\ init s' = init s /\
    task_at me s' = Some c' /\ exited (t_run c') = true /\ exit_status (t_run c') = st.
Proof.
  intros Hok Hcu Hne. destruct (sys_curr s me Hok Hcu) as (c & Ec & Hr). apply runnable_true in Hr as [Hx _].
  unfold task_exit. rewrite (get_curr_run s me), (get_task_run s me c) by done. rewrite Hx, gets_bind.
  rewrite (proj2 (Nat.eqb_neq me (init s))) by done. unfold modify_env. rewrite modify_bind. set (s1 := with_env _ s).
  assert (tasks_ok P s1) as Hok1 by (by apply with_env_ok).
  pose proof (orphan_loop_sys TASK_MAX 0 s1 me Hok1 Hne) as Hw. unfold wp in Hw. unfold bind at 1.
  destruct (orphan_loop TASK_MAX 0 me s1) as [[] s2|e s2|h]; [|done|done]. destruct Hw as (Hok2 & Ad2 & Ho2).
  pose proof Ad2 as (U2 & Cu2 & _ & _). destruct (same_upto_task _ s1 s2 me c U2 Ec) as (c2 & Ec2 & _).
  rewrite (get_task_run s2 me c2) by done. destruct (fo_parent _ (so_family _ Hok2) me c2 Ec2) as (pa & p & Epa & Ep & Xp).
  rewrite Epa. cbn [deref]. rewrite ret_bind, (get_task_run s2 pa p) by done.
  pose proof (adopts_init _ _ _ Ad2) as Ei2. change (init s1) with (init s) in Ei2.
  set (m := if handler p SIGCHLD =? SIG_IGN then _ else _).
  assert (me <> init s2) as Hne2 by congruence. assert (curr s2 = Some me) as Hcu2 by (rewrite Cu2; exact Hcu).
  assert (exists e s3, m s2 = Ret e s3 /\ tasks_ok P s3 /\ leaves me s2 s3) as (e & s3 & E3 & Hok3 & Cu3 & In3 & [c3 Ec3] & Ho3).
  { subst m. destruct (handler p SIGCHLD =? SIG_IGN).
    - unfold upd_task. rewrite modify_bind. pose proof (set_parent_sys s2 me c2 Hok2 Ec2) as Hok2'. rewrite Ei2 in Hok2'.
      set (s2' := task_upd me (set_parent (Some (init s))) s2) in *.
      destruct (init_task s2' Hok2') as [ci Eci]. change (init s2') with (init s2) in Eci. rewrite Ei2 in Eci.
      destruct (send_leaves s2' (init s) SIGCHLD ci me) as (e & s3 & E3 & Hok3 & Hl3); try done.
      { exists (set_parent (Some (init s)) c2). by apply task_at_upd_eq. }
      { intros t d Ht Ed. unfold s2' in Ed. rewrite task_at_upd in Ed. case_decide; [subst|by eapply Ho2].
        rewrite Ec2 in Ed. simplify_eq/=. congruence. }
      exists e, s3. split_and!; [done|done|exact Hl3].
    - apply (send_leaves s2 pa SIGCHLD p me); done. }
  rewrite (bind_run _ _ _ _ _ E3), modify_bind, gets_bind. assert (me <> init s3) as Hne3 by congruence.
  destruct (exit_sched s3 me c3 st Hok3 ltac:(congruence) Hne3 Ec3 Ho3) as (s4 & c4 & Hpos & E4 & Hok4 & Ec4 & Hx4 & Hst & Ei4).
  change (task_count (with_count (task_count s3 - 1) s3)) with (task_count s3 - 1).
  rewrite (proj2 (Z.ltb_ge _ _)) by lia. unfold upd_task. rewrite modify_bind. exists s4, c4. split_and!; try done. congruence.
Qed.
End exit.

(** * Waiting for children *)

Section wait.
Context {X : Type} `{TaskEnv X} {P : Prop}.
Implicit Types s : sys X.

Definition cleared (i : nat) s : sys X := with_tasks (<[i := None]> (tasks s)) s.
Lemma task_at_cleared i s u : task_at u (cleared i s) = if decide (u = i) then None else task_at u s.
Proof.
  unfold task_at, cleared. cbn. case_decide; [subst|by rewrite list_lookup_insert_ne].
  destruct (decide (i < length (tasks s))%nat); [by rewrite list_lookup_insert_eq|].
  by rewrite lookup_ge_None_2 by (rewrite length_insert; lia).
Qed.

Lemma queued_cleared s Q i :
  queued (lk s) (queues s) Q -> (forall q, ~ member Q q i) -> queued (lk (cleared i s)) (queues s) Q.
Proof.
  intros [H1 H2 H3 H4] Hno.
  assert (forall u, lk (cleared i s) u = if decide (u = i) then None else lk s u) as Hlk.
  { intros u. unfold lk. rewrite task_at_cleared. by case_decide. }
  split; [done|done| |].
  - intros q l Hq. destruct (H3 q l Hq) as [Hd Hn]. split; [|done]. eapply dseg_ext; [|exact Hd].
    intros t Ht. rewrite Hlk, decide_False; [done|]. intros ->. apply (Hno q). by exists l.
  - intros t k. rewrite Hlk. case_decide; [done|]. apply H4.
Qed.

Lemma put_exited s i c :
  tasks_ok P s -> task_at i s = Some c -> exited (t_run c) = true -> tasks_ok P (cleared i s).
Proof.
  intros Hok Ec Hx. pose proof Hok as [[[Q Hp] [Ca Cb] Hk Hid] [(c0 & E0 & X0) Hpa] Ha [Hl Hu] HP].
  assert (curr s <> Some i) as Hcu.
  { intros E. destruct (Hk i E) as (d & Ed & [Hx' _]%runnable_true). congruence. }
  assert (init s <> i) as Hin by (intros E; rewrite E in E0; congruence).
  pose proof (placed_fits _ _ _ _ _ Hp Ec) as Hf. destruct (ft_exit _ _ _ _ Hf Hx) as [Hz Hno].
  assert (forall u e, task_at u (cleared i s) = Some e -> u <> i /\ task_at u s = Some e) as Ht.
  { intros u e E. rewrite task_at_cleared in E. by case_decide. }
  assert (forall u e, task_at u s = Some e -> u <> i -> task_at u (cleared i s) = Some e) as Ht'.
  { intros u e E Hne. by rewrite task_at_cleared, decide_False. }
  split; [split|split| |split; [done|]|intros [Hti Hal]%HP; split; [done|]].
  - exists Q. change (current (cleared i s)) with (current s).
    assert (i ∉ current s) as Hni by (unfold current; destruct (curr s); [intros ->%list_elem_of_singleton; congruence|apply not_elem_of_nil]).
    apply (placed_move s (cleared i s) Q Q (current s) (current s) i Hp).
    + split; [apply length_insert|]. intros u Hne. by rewrite task_at_cleared, decide_False.
    + exact (queued_cleared s Q i (pl_queued _ _ _ Hp) Hno).
    + reflexivity.
    + done.
    + done.
    + intros Hin'. by destruct (Hni Hin').
    + intros e Ee. rewrite task_at_cleared, decide_True in Ee by done. done.
  - unfold counted, cleared. cbn. apply task_at_lookup in Ec.
    rewrite (zcount_insert asleep _ _ _ _ Ec), (zcount_insert live _ _ _ _ Ec). cbn. rewrite Hx, Hz. cbn. lia.
  - intros me E. change (curr s = Some me) in E. destruct (Hk me E) as (d & Ed & Hr). exists d. split; [|done].
    apply Ht'; [done|congruence].
  - exact Hid.
  - exists c0. split; [|done]. by apply Ht'.
  - intros t e [Hne E]%Ht. destruct (Hpa t e E) as (p & d & P1 & P2 & P3). exists p, d. split_and!; [done| |done].
    apply Ht'; [done|]. congruence.
  - intros t e [Hne E]%Ht. by eapply Ha.
  - intros t u e1 e2 [_ E1]%Ht [_ E2]%Ht. by apply Hu.
  - intros t e [Hne E]%Ht. by eapply Hal.
Qed.

Lemma find_child_ok n i s me want exist :
  exists r, find_child n i me want exist s = Ret r s /\
    match r.1 with
    | Some j => exists c, task_at j s = Some c /\ parent c = Some me /\ exited (t_run c) = true /\ (0 < want -> pid c = want)
    | None => forall t c, (i <= t < i + n)%nat -> task_at t s = Some c -> parent c = Some me -> (0 < want -> pid c = want) ->
        exited (t_run c) = false /\ r.2 = true
    end /\ (exist = true -> r.2 = true).
Proof.
  revert i exist. induction n as [|n IH]; intros i exist; cbn [find_child].
  { exists (None, exist). split_and!; [done| |done]. intros t c Ht. lia. }
  rewrite gets_bind. destruct (task_at i s) as [c|] eqn:Ec.
  - destruct (negb _ || _) eqn:Hskip; [|destruct (exited (t_run c)) eqn:Hx].
    + destruct (IH (S i) exist) as (r & E & Hr & He). exists r. split_and!; [done| |done]. destruct r.1 as [j|]; [done|].
      intros t d Ht Ed Hpa Hw. destruct (decide (t = i)) as [->|]; [|eapply Hr; eauto; lia].
      exfalso. assert (d = c) as -> by congruence. rewrite bool_decide_true in Hskip by done. cbn in Hskip.
      apply andb_true_iff in Hskip as [Hlt%Z.ltb_lt Hnp%negb_true_iff%Z.eqb_neq]. auto.
    + exists (Some i, true). split_and!; [done| |done]. exists c. apply orb_false_iff in Hskip as [Hpa%negb_false_iff%bool_decide_eq_true Hw].
      split_and!; try done. intros Hlt. apply Z.ltb_lt in Hlt. rewrite Hlt in Hw. cbn in Hw. by apply negb_false_iff, Z.eqb_eq in Hw.
    + destruct (IH (S i) true) as (r & E & Hr & He). exists r. split_and!; [done| |auto]. destruct r.1 as [j|]; [done|].
      intros t d Ht Ed Hpa Hw. destruct (decide (t = i)) as [->|]; [|eapply Hr; eauto; lia].
      assert (d = c) as -> by congruence. auto.
  - destruct (IH (S i) exist) as (r & E & Hr & He). exists r. split_and!; [done| |done]. destruct r.1 as [j|]; [done|].
    intros t d Ht Ed Hpa Hw. destruct (decide (t = i)) as [->|]; [congruence|eapply Hr; eauto; lia].
Qed.

Lemma env_call_ok s (f : option nat -> X -> Z * X) : tasks_ok P s -> exists x, env_call f s = Ret tt (with_env x s) \/ exists e, env_call f s = Err e (with_env x s).
Proof. intros Hok. unfold env_call. destruct (f (curr s) (env s)) as [e x]. exists x. destruct (e =? 0); eauto. Qed.

Lemma xwait_sys s me want nohang :
  tasks_ok P s -> curr s = Some me -> (EVTQ < length (queues s))%nat ->
  wp (sys___xwait want nohang) (fun _ => tasks_ok P) (fun _ => tasks_ok P) s.
Proof.
  intros Hok Hcu Hq. destruct (sys_curr s me Hok Hcu) as (c & Ec & _). unfold sys___xwait, wp. rewrite (get_curr_run s me) by done.
  destruct (find_child_ok TASK_MAX 0 s me want false) as ([r b] & E & Hr & _). rewrite (bind_run _ _ _ _ _ E). cbn [fst] in Hr.
  destruct r as [j|].
  - destruct Hr as (cj & Ej & Hpa & Hx & _). rewrite (get_task_run s j cj) by done. unfold bind at 1.
    destruct (env_call_ok s tucpy_user Hok) as [x [E2|[e E2]]]; rewrite E2; [|by apply with_env_ok].
    rewrite (bind_run _ _ _ _ _ (task_putslot_run j _)). apply with_env_ok. change (tasks_ok P (cleared j (with_env x s))).
    apply (put_exited _ j cj); [by apply with_env_ok|done|done].
  - destruct b; [|done]. destruct nohang.
    + unfold bind. destruct (env_call_ok s tucpy_user Hok) as [x [E2|[e E2]]]; rewrite E2; by apply with_env_ok.
    + apply wp_bind, wp_attempt. eapply wp_mono; [apply (task_suspend_sys s (Some WAITQ) WAIT_INTR me c Hok Hcu Ec)| |].
      * cbn. unfold WAITQ, EVTQ, NREADY in *. lia.
      * by left.
      * cbn. intros _ s' (Hok' & _). done.
      * cbn. intros e s' (_ & Hok' & _). done.
Qed.
End wait.
