(* ===== verification/TaskSysOk.v ===== *)
(** System calls over tasks keep the books, and the delivery of signals ends
    (kern/syscall.c, kern/signal.c, kern/exec.c). *)

From S2P Require Import Prelude Frame Tasks TaskSys TaskQueueOk TaskOk TaskSched TaskInv TaskLife.

Section handlers.
Context {X : Type} `{TaskEnv X} {P : Prop}.
Implicit Types s : sys X.

(** A call by the current task that ends with it still running. *)
Definition stays s s' : Prop := tasks_ok P s' /\ curr s' = curr s /\ init s' = init s.
Lemma steady_stays s s' : tasks_ok P s' -> steady s s' -> stays s s'.
Proof. intros Hok ((_&_&Ei&_) & Ec & _). done. Qed.
Lemma stays_trans s1 s2 s3 : stays s1 s2 -> stays s2 s3 -> stays s1 s3.
Proof. intros (_ & C1 & I1) (Hok & C2 & I2). split_and!; [done|congruence..]. Qed.

Lemma adopt_exited_sys n i s me :
  tasks_ok P s -> wp (adopt_exited n i me (init s)) (fun _ s' => stays s s') (fun _ _ => False) s.
Proof.
  revert i s. induction n as [|n IH]; intros i s Hok; cbn [adopt_exited]; [by apply wp_ret|].
  apply wp_bind, wp_gets. apply (wp_seq _ _ (fun _ s' => stays s s') (fun _ _ => False)); [| |done].
  - destruct (task_at i s) as [c|] eqn:Ec; [|by apply wp_ret].
    destruct (bool_decide (parent c = Some me) && exited (t_run c)); [|by apply wp_ret].
    unfold upd_task. apply wp_bind. cbn [wp modify]. pose proof (set_parent_sys s i c Hok Ec) as Hok1.
    set (s1 := task_upd i (set_parent (Some (init s))) s) in *. destruct (init_task s1 Hok1) as [ci Eci].
    apply (wp_send_status s1 (init s) SIGCHLD ci _ _ _ _ Hok1 Eci). intros _ s2 Hok2 St2. apply wp_ret.
    apply (stays_trans s s1); [done|by apply steady_stays].
  - intros _ s1 St1. pose proof St1 as (Hok1 & _ & Ei). rewrite <- Ei.
    eapply wp_mono; [apply (IH (S i) s1 Hok1)| |done]. intros [] s2 St2. exact (stays_trans _ _ _ St1 St2).
Qed.

Lemma signal_raise_sys s me sig :
  tasks_ok P s -> curr s = Some me ->
  wp (signal_raise sig) (fun _ s' => tasks_ok P s' /\ steady s s') (fun _ s' => tasks_ok P s' /\ steady s s') s.
Proof.
  intros Hok Hcu. destruct (sys_curr s me Hok Hcu) as (c & Ec & _). unfold signal_raise. apply wp_bind, wp_gets. rewrite Hcu.
  by apply (send_k_sys s me sig c).
Qed.
Lemma wp_raise_status s me sig B (k : Z -> M (sys X) B) Q E :
  tasks_ok P s -> curr s = Some me ->
  (forall e s', tasks_ok P s' -> steady s s' -> wp (k e) Q E s') -> wp (bind (status (signal_raise sig)) k) Q E s.
Proof.
  intros Hok Hcu Hk. apply wp_bind, wp_status.
  eapply wp_mono; [by apply (signal_raise_sys s me sig)| |]; cbn; intros ? s' [? ?]; auto.
Qed.

Lemma raise_exited_sys n i s me :
  tasks_ok P s -> curr s = Some me -> wp (raise_exited n i me) (fun _ s' => stays s s') (fun _ _ => False) s.
Proof.
  revert i s. induction n as [|n IH]; intros i s Hok Hcu; cbn [raise_exited]; [by apply wp_ret|].
  apply wp_bind, wp_gets. apply (wp_seq _ _ (fun _ s' => stays s s') (fun _ _ => False)); [| |done].
  - destruct (task_at i s) as [c|]; [|by apply wp_ret].
    destruct (bool_decide (parent c = Some me) && exited (t_run c)); [|by apply wp_ret].
    apply (wp_raise_status s me SIGCHLD); [done|done|]. intros _ s2 Hok2 St2. apply wp_ret. by apply steady_stays.
  - intros _ s1 St1. pose proof St1 as (Hok1 & Ec1 & _). eapply wp_mono; [apply (IH (S i) s1 Hok1); congruence| |done].
    intros [] s2 St2. exact (stays_trans _ _ _ St1 St2).
Qed.

Lemma setup_chld_sys s me h :
  tasks_ok P s -> curr s = Some me -> wp (setup_chld h) (fun _ s' => stays s s') (fun _ _ => False) s.
Proof.
  intros Hok Hcu. unfold setup_chld, wp. rewrite (get_curr_run s me) by done. rewrite gets_bind.
  destruct (h =? SIG_IGN); [destruct (me =? init s)%nat; [done|by apply adopt_exited_sys]|].
  destruct (h =? SIG_DFL); [done|]. by apply raise_exited_sys.
Qed.

(** Changing a handler is no matter of the scheduler. *)
Lemma set_handler_sys s me sig v w :
  tasks_ok P s -> stays s (task_upd me (fun c => set_use_event sig w (set_handler sig v c)) s).
Proof.
  intros Hok. destruct (minor_sys (P := P) s me (fun c => set_use_event sig w (set_handler sig v c))) as [Hok1 St1]; [done|by split|done|].
  by apply steady_stays.
Qed.

Lemma sys_signal_sys s me sig h :
  tasks_ok P s -> curr s = Some me -> sig <> 0 ->
  wp (sys_signal sig h) (fun _ s' => stays s s') (fun _ s' => s' = s) s.
Proof.
  intros Hok Hcu Hs. destruct (sys_curr s me Hok Hcu) as (c & Ec & _). unfold sys_signal.
  destruct ((sig <? 0) || _); [done|]. destruct (_ && negb (h =? SIG_DFL)); [done|].
  rewrite (proj2 (Z.eqb_neq sig 0)) by done. set (h2 := if (sig =? SIGCONT) && _ then _ else _). clearbody h2.
  unfold wp. rewrite (get_curr_run s me), (get_task_run s me c) by done. unfold upd_task. rewrite modify_bind.
  pose proof (set_handler_sys s me sig h2 false Hok) as St1. set (s1 := task_upd _ _ s) in *. pose proof St1 as (Hok1 & Ec1 & _).
  destruct (sig =? SIGCHLD); [|rewrite ret_bind; exact St1].
  apply wp_bind. eapply wp_mono; [apply (setup_chld_sys s1 me h2 Hok1); congruence| |done].
  intros [] s2 St2. apply wp_ret. exact (stays_trans _ _ _ St1 St2).
Qed.

Lemma sys_evt_signal_sys s me sig h :
  tasks_ok P s -> curr s = Some me -> wp (sys_evt_signal sig h) (fun _ s' => stays s s') (fun _ s' => s' = s) s.
Proof.
  intros Hok Hcu. unfold sys_evt_signal. destruct ((sig <? 1) || _); [done|]. destruct (_ && negb (h =? SIG_DFL)); [by apply wp_ret|].
  set (h2 := if (sig =? SIGCONT) && _ then _ else _). clearbody h2. unfold wp. rewrite (get_curr_run s me) by done.
  unfold upd_task. rewrite modify_bind. pose proof (set_handler_sys s me sig h2 true Hok) as St1.
  set (s1 := task_upd _ _ s) in *. pose proof St1 as (Hok1 & Ec1 & _). destruct (sig =? SIGCHLD); [|exact St1].
  eapply wp_mono; [apply (setup_chld_sys s1 me h2 Hok1); congruence| |done]. intros [] s2 St2. exact (stays_trans _ _ _ St1 St2).
Qed.
End handlers.

(** * The delivery of signals ends *)

Section delivery.
Context {X : Type} `{TaskEnv X} {P : Prop}.
Implicit Types s : sys X.

Definition handlers (c : task) : list Z := signal_handler (t_sig c).
Definition same_handlers s s' : Prop := forall t, handlers <$> task_at t s' = handlers <$> task_at t s.
Global Instance same_handlers_preorder : PreOrder same_handlers.
Proof. split; [done|]. intros s1 s2 s3 E1 E2 t. by rewrite E2, E1. Qed.

Lemma keeps_handlers_upd t f : (forall c, handlers (f c) = handlers c) -> keeps same_handlers (upd_task (X := X) t f).
Proof.
  intros Hf s u. rewrite task_at_upd. case_decide; [subst|done]. destruct (task_at t s); cbn; by rewrite ?Hf.
Qed.
Lemma keeps_handlers_modify (h : sys X -> sys X) : (forall s, tasks (h s) = tasks s) -> keeps same_handlers (modify h).
Proof. intros Hh s t. unfold task_at. by rewrite Hh. Qed.
Lemma keeps_env_call R `{!PreOrder R} (f : option nat -> X -> Z * X) : (forall s x, R s (with_env x s)) -> keeps R (env_call f).
Proof. intros HR s. unfold wlp, env_call. destruct (f (curr s) (env s)) as [e x]. destruct (e =? 0); apply HR. Qed.
#[local] Hint Resolve keeps_get_task keeps_get_queue : keeps.
#[local] Hint Extern 1 (keeps same_handlers (upd_task _ _)) => (apply keeps_handlers_upd; done) : keeps.
#[local] Hint Extern 1 (keeps same_handlers (modify _)) => (apply keeps_handlers_modify; done) : keeps.
#[local] Hint Extern 1 (keeps same_handlers (put_queue _ _)) => (apply keeps_handlers_modify; done) : keeps.
#[local] Hint Extern 1 (keeps same_handlers (env_call _)) => (apply keeps_env_call; [typeclasses eauto|done]) : keeps.

Lemma task_insert_handlers q t : keeps same_handlers (task_insert (X := X) q t).
Proof. unfold task_insert. keeps. Qed.
Lemma task_remove_handlers t : keeps same_handlers (task_remove (X := X) t).
Proof. unfold task_remove. keeps. Qed.
#[local] Hint Resolve task_insert_handlers task_remove_handlers : keeps.
Lemma task_resume_handlers t : keeps same_handlers (task_resume (X := X) t).
Proof. unfold task_resume. keeps. Qed.
#[local] Hint Resolve task_resume_handlers : keeps.
Lemma signal_send_k_handlers p sig : keeps same_handlers (signal_send_k (X := X) p sig).
Proof. unfold signal_send_k. keeps. Qed.
#[local] Hint Resolve signal_send_k_handlers : keeps.
Lemma signal_raise_handlers sig : keeps same_handlers (signal_raise (X := X) sig).
Proof. unfold signal_raise. keeps. Qed.
#[local] Hint Resolve signal_raise_handlers : keeps.
Lemma send_event_handlers t e : keeps same_handlers (send_event (X := X) t e).
Proof. unfold send_event. keeps. Qed.
Lemma upush_handlers v : keeps same_handlers (upush (X := X) v).
Proof. unfold upush. keeps. Qed.
#[local] Hint Resolve send_event_handlers upush_handlers : keeps.
Lemma signal_push_handlers rip nr : keeps same_handlers (signal_push (X := X) rip nr).
Proof. unfold signal_push, get_curr, modify_env. keeps. Qed.

(** The handlers of a task that are functions of its program. *)
Definition user_handler (h : Z) : bool := negb (h =? SIG_DFL) && negb (h =? SIG_IGN).
Definition armed (c : task) : Z := zcount user_handler (handlers c).

Lemma wp_env_status s (f : option nat -> X -> Z * X) B (k : Z -> M (sys X) B) Q E :
  (forall e x, wp (k e) Q E (with_env x s)) -> wp (bind (status (env_call f)) k) Q E s.
Proof.
  intros Hk. apply wp_bind, wp_status. unfold wp at 1, env_call. destruct (f (curr s) (env s)) as [e x]. destruct (e =? 0); apply Hk.
Qed.
Lemma upush_sys s me v :
  tasks_ok P s -> curr s = Some me -> wp (upush v) (fun _ s' => tasks_ok P s' /\ steady s s') (fun _ _ => False) s.
Proof.
  intros Hok Hcu. unfold upush. apply wp_env_status. intros e x.
  assert (tasks_ok P (with_env x s)) as Hok1 by (by apply with_env_ok).
  assert (steady s (with_env x s)) as St1 by (by repeat split).
  destruct (e =? 0); [by apply wp_ret|]. apply (wp_raise_status (P := P) _ me SIGSTK); [done|done|].
  intros _ s2 Hok2 St2. apply wp_ret. split; [done|]. by transitivity (with_env x s).
Qed.
Lemma signal_push_sys s me rip nr :
  tasks_ok P s -> curr s = Some me -> wp (signal_push rip nr) (fun _ s' => tasks_ok P s' /\ steady s s') (fun _ _ => False) s.
Proof.
  intros Hok Hcu. unfold signal_push. apply wp_bind. cbn [wp modify_env modify]. set (s0 := with_env _ s).
  assert (tasks_ok P s0) as Hok0 by (by apply with_env_ok). assert (steady s s0) as St0 by (by repeat split).
  eapply wp_seq; [by apply (upush_sys s0 me)| |done]. cbn. intros _ s1 [Hok1 St1].
  assert (curr s1 = Some me) as Hcu1 by (destruct St1 as (_ & -> & _); done).
  eapply wp_seq; [by apply (upush_sys s1 me)| |done]. cbn. intros _ s2 [Hok2 St2].
  assert (curr s2 = Some me) as Hcu2 by (destruct St2 as (_ & -> & _); done).
  destruct (sys_curr s2 me Hok2 Hcu2) as (c & Ec & _). unfold wp. rewrite (get_curr_run s2 me), (get_task_run s2 me c) by done.
  change (wp (upush (handler c nr);;; modify_env set_entry) (fun _ s' => tasks_ok P s' /\ steady s s') (fun _ _ => False) s2).
  eapply wp_seq; [by apply (upush_sys s2 me)| |done]. cbn. intros _ s3 [Hok3 St3].
  split; [by apply with_env_ok|]. transitivity s0; [done|]. transitivity s1; [done|]. transitivity s2; [done|]. transitivity s3; [done|by repeat split].
Qed.

(** The end of a step of the delivery: the task goes on, with no more handlers
    than before, and a signal that came up meanwhile has used one up. *)
Definition goes_on (me : nat) (c : task) s s' : Prop :=
  tasks_ok P s' /\ curr s' = Some me /\ init s' = init s /\
  exists c', task_at me s' = Some c' /\ armed c' <= armed c /\
    (signal_pending (t_sig c') = true -> signal_pending (t_sig c) = true \/ armed c' < armed c).

Lemma goes_on_trans me c s c1 s1 s2 :
  tasks_ok P s1 -> curr s1 = Some me -> init s1 = init s -> task_at me s1 = Some c1 -> armed c1 <= armed c ->
  (signal_pending (t_sig c1) = true -> signal_pending (t_sig c) = true \/ armed c1 < armed c) ->
  goes_on me c1 s1 s2 -> goes_on me c s s2.
Proof.
  intros Hok1 Hcu1 Hi1 Ec1 Ha1 Hp1 (Hok2 & Hcu2 & Hi2 & c2 & Ec2 & Ha2 & Hp2). split_and!; [done|done|congruence|].
  exists c2. split_and!; [done|lia|]. intros Hs. destruct (Hp2 Hs) as [Hs1|]; [|right; lia]. destruct (Hp1 Hs1); [by left|right; lia].
Qed.

Lemma signal_dispatch_sys s me c rip nr :
  tasks_ok P s -> curr s = Some me -> task_at me s = Some c -> user_handler (handler c nr) = true ->
  wp (signal_dispatch rip nr) (fun _ s' => tasks_ok P s' /\ curr s' = Some me /\ init s' = init s /\
    exists c', task_at me s' = Some c' /\ armed c' < armed c) (fun _ _ => False) s.
Proof.
  intros Hok Hcu Ec Hu. unfold signal_dispatch, wp. rewrite (get_curr_run s me), (get_task_run s me c) by done.
  set (m := if use_event c nr then _ else _).
  assert (wp m (fun _ s' => (tasks_ok P s' /\ steady s s') /\ same_handlers s s') (fun _ _ => False) s) as Hm.
  { assert (keeps same_handlers m) as Hk by (subst m; destruct (use_event c nr); [keeps|apply signal_push_handlers]).
    assert (wp m (fun _ s' => tasks_ok P s' /\ steady s s') (fun _ _ => False) s) as Hw.
    { subst m. destruct (use_event c nr); [|by apply (signal_push_sys s me)].
      apply wp_bind, wp_status. eapply wp_mono; [by apply (send_event_sys (P := P) s me _ c)| |]; cbn; auto. }
    specialize (Hk s). unfold wp, wlp in *. by destruct (m s). }
  unfold wp in Hm. unfold bind. destruct (m s) as [[] s1|e s1|h]; [|done|done]. destruct Hm as [[Hok1 St1] Hh].
  destruct (steady_task _ _ _ _ St1 Ec) as (c1 & Ec1 & _). pose proof St1 as ((_&_&Ei&_) & Ecu & _).
  specialize (Hh me). rewrite Ec, Ec1 in Hh. apply (inj Some) in Hh.
  destruct (minor_sys (P := P) s1 me (set_handler nr SIG_DFL)) as [Hok2 St2]; [done|by split|done|].
  cbn [wp upd_task modify]. split_and!; [done|exact (eq_trans Ecu Hcu)|exact Ei|].
  exists (set_handler nr SIG_DFL c1). split; [by apply task_at_upd_eq|]. unfold handler in Hu. unfold armed, handlers in *. cbn.
  rewrite Hh. destruct (signal_handler (t_sig c) !! Z.to_nat (nr - 1)) as [h|] eqn:El; [|done]. cbn in Hu.
  rewrite (zcount_insert user_handler _ _ _ _ El), Hu. cbn. lia.
Qed.

(** What is known of [m] when it may also stop the kernel. *)
Definition wph {A} (K : halt -> Prop) (m : M (sys X) A) (Q : A -> sys X -> Prop) s : Prop :=
  match m s with Ret a s' => Q a s' | Err _ _ => False | Halt h => K h end.
Lemma wph_wp {A} K (m : M (sys X) A) Q s : wp m Q (fun _ _ => False) s -> wph K m Q s.
Proof. unfold wp, wph. by destruct (m s). Qed.
Lemma wph_bind {A B} K (m : M (sys X) A) (k : A -> M (sys X) B) Q s :
  wph K m (fun a s' => wph K (k a) Q s') s -> wph K (bind m k) Q s.
Proof. unfold wph, bind. by destruct (m s). Qed.
Lemma wph_mono {A} K K' (m : M (sys X) A) Q Q' s :
  wph K m Q s -> (forall a s', Q a s' -> Q' a s') -> (forall h, K h -> K' h) -> wph K' m Q' s.
Proof. unfold wph. destruct (m s); naive_solver. Qed.

(** Signal [i] ends a task that does nothing about it, with this status. *)
Definition deadly (i : Z) : bool := negb (existsb (Z.eqb i) [SIGSTOP; SIGCONT; SIGCHLD; SIGEVT]).
Definition died_of (i : Z) (c : task) : Prop :=
  deadly i = true /\ exited (t_run c) = true /\
  (exit_status (t_run c) = i \/ dumps_core i = true /\ exit_status (t_run c) = Z.lor i 128).
Definition killed (me : nat) s : Prop :=
  curr s <> Some me /\ exists c i, task_at me s = Some c /\ 1 <= i <= SIGMAX /\ died_of i c.
(** The death of [init] is the end of the system. *)
Definition init_dies (me : nat) s (h : halt) : Prop := me = init s /\ h = KPanic "init exited".

Lemma task_exit_init s c st :
  tasks_ok P s -> curr s = Some (init s) -> task_at (init s) s = Some c -> task_exit st s = Halt (KPanic "init exited").
Proof.
  intros Hok Hcu Ec. destruct (sys_curr s _ Hok Hcu) as (c1 & Ec1 & [Hx _]%runnable_true). assert (c1 = c) as -> by congruence.
  unfold task_exit. rewrite (get_curr_run s (init s)), (get_task_run s (init s) c) by done. rewrite Hx, gets_bind. by rewrite Nat.eqb_refl.
Qed.
Lemma exit_killed s me c i st :
  tasks_ok P s -> curr s = Some me -> task_at me s = Some c -> 1 <= i <= SIGMAX -> deadly i = true ->
  st = i \/ dumps_core i = true /\ st = Z.lor i 128 ->
  wph (init_dies me s) (task_exit st;;; ret true)
    (fun gone s' => tasks_ok P s' /\ init s' = init s /\ if gone : bool then killed me s' else False) s.
Proof.
  intros Hok Hcu Ec Hi Hd Hst. unfold wph, bind. destruct (decide (me = init s)) as [->|Hne]; [by rewrite (task_exit_init s c st)|].
  destruct (task_exit_sys s me st Hok Hcu Hne) as (s' & c' & E & Hok' & Hi' & Ec' & Hx & Es). rewrite E.
  split_and!; [done|done|split].
  - intros Hc. destruct (sys_curr s' me Hok' Hc) as (c1 & Ec1 & [Hx1 _]%runnable_true). congruence.
  - exists c', i. by rewrite <- Es in Hst.
Qed.
Lemma signal_default_sys s me c i :
  tasks_ok P s -> curr s = Some me -> task_at me s = Some c -> 1 <= i <= SIGMAX ->
  wph (init_dies me s) (signal_default i)
    (fun gone s' => tasks_ok P s' /\ init s' = init s /\ if gone : bool then killed me s' else s' = s) s.
Proof.
  intros Hok Hcu Ec Hi. unfold signal_default. destruct (existsb _ _) eqn:Hd; [by apply wph_wp, wp_ret|].
  assert (deadly i = true) as Hdl by (unfold deadly; by rewrite Hd).
  assert (forall x st, st = i \/ dumps_core i = true /\ st = Z.lor i 128 -> wph (init_dies me s) (task_exit st;;; ret true)
    (fun gone s' => tasks_ok P s' /\ init s' = init s /\ if gone : bool then killed me s' else s' = s) (with_env x s)) as He.
  { intros x st Hst. eapply wph_mono; [apply (exit_killed (with_env x s) me c i st); try done; by apply with_env_ok| |done].
    intros [] s' (? & ? & Hg); done. }
  destruct (dumps_core i) eqn:Hc.
  - unfold wph, bind at 1, status, env_call. destruct (dump_core (Z.lor i 128) (curr s) (env s)) as [e x].
    destruct (e =? 0) eqn:Ez; cbn [Z.eqb]; rewrite ?Ez; apply He; auto.
  - assert (s = with_env (env s) s) as Es by (by destruct s). pose proof (He (env s) i (or_introl eq_refl)) as He1. by rewrite <- Es in He1.
Qed.

Lemma handle_one s me c rip i :
  tasks_ok P s -> curr s = Some me -> task_at me s = Some c -> 1 <= i <= SIGMAX ->
  wph (init_dies me s) (if handler c i =? SIG_IGN then ret false else if handler c i =? SIG_DFL then signal_default i
              else signal_dispatch rip i;;; ret false)
    (fun gone s' => tasks_ok P s' /\ init s' = init s /\ if gone : bool then killed me s' else curr s' = Some me /\
      exists c', task_at me s' = Some c' /\ (s' = s \/ armed c' < armed c)) s.
Proof.
  intros Hok Hcu Ec Hi. destruct (handler c i =? SIG_IGN) eqn:Hig; [apply wph_wp, wp_ret; split_and!; eauto|].
  destruct (handler c i =? SIG_DFL) eqn:Hdf.
  - eapply wph_mono; [by apply (signal_default_sys s me c i)| |done]. cbn. intros gone s' (? & ? & Hg). split_and!; [done|done|].
    destruct gone; [done|]. subst s'. eauto.
  - apply wph_wp. eapply wp_seq; [apply (signal_dispatch_sys s me c rip i); [done|done|done|]| |done].
    + unfold user_handler. by rewrite Hig, Hdf.
    + intros [] s' (Hok' & Hcu' & Hi' & c' & Ec' & Ha'). apply wp_ret. split_and!; eauto.
Qed.

Lemma handle_loop_sys n rip i s me c :
  tasks_ok P s -> curr s = Some me -> task_at me s = Some c -> 1 <= i -> i + Z.of_nat n <= SIGMAX + 1 ->
  wph (init_dies me s) (handle_loop n rip i)
    (fun gone s' => tasks_ok P s' /\ init s' = init s /\ if gone : bool then killed me s' else goes_on me c s s') s.
Proof.
  revert i s c. induction n as [|n IH]; intros i s c Hok Hcu Ec Hi Hn; cbn [handle_loop].
  { apply wph_wp, wp_ret. split_and!; [done|done|]. split_and!; try done. exists c. by split_and!; [|lia|left]. }
  unfold wph. rewrite (get_curr_run s me), (get_task_run s me c) by done. destruct (received c i); [|apply IH; (done || lia)].
  unfold upd_task. rewrite modify_bind.
  destruct (minor_sys (P := P) s me (set_received i false)) as [Hok1 St1]; [done|by split|done|].
  set (s1 := task_upd me (set_received i false) s) in *. set (c1 := set_received i false c).
  assert (task_at me s1 = Some c1) as Ec1 by (by apply task_at_upd_eq).
  apply (wph_bind (init_dies me s)). eapply wph_mono; [apply (handle_one s1 me c1 rip i Hok1 Hcu Ec1); lia| |done].
  cbn. intros gone s2 (Hok2 & Hi2 & Hg). change (init s1) with (init s) in Hi2. destruct gone; [by apply wph_wp, wp_ret|].
  destruct Hg as (Hcu2 & c2 & Ec2 & Hcase). eapply wph_mono; [apply (IH (i + 1) s2 c2 Hok2 Hcu2 Ec2); lia| |unfold init_dies; by rewrite Hi2].
  cbn. intros gone' s3 (Hok3 & Hi3 & Hg3). split_and!; [done|congruence|]. destruct gone'; [done|].
  apply (goes_on_trans me c s c2 s2 s3); try done.
  - destruct Hcase as [-> | Hlt]; [|exact (Z.lt_le_incl _ _ Hlt)]. assert (c2 = c1) as -> by congruence. done.
  - intros Hp. destruct Hcase as [-> | Hlt]; [|by right]. assert (c2 = c1) as -> by congruence. left. exact Hp.
Qed.

(** The task is gone, or no signal is pending. *)
Definition handled (me : nat) s (gone : bool) s' : Prop :=
  tasks_ok P s' /\ init s' = init s /\
  if gone then killed me s' else curr s' = Some me /\ exists c', task_at me s' = Some c' /\ signal_pending (t_sig c') = false.
Lemma handle_rounds_run fuel rip s me c :
  tasks_ok P s -> curr s = Some me -> task_at me s = Some c -> armed c < Z.of_nat fuel ->
  wph (init_dies me s) (handle_rounds fuel rip) (handled me s) s.
Proof.
  revert s c. induction fuel as [|fuel IH]; intros s c Hok Hcu Ec Hf.
  { pose proof (zcount_nonneg user_handler (handlers c)). unfold armed in Hf. lia. }
  cbn [handle_rounds]. pose proof (handle_loop_sys (Z.to_nat SIGMAX) rip 1) as HL. revert HL.
  generalize (handle_loop (X := X) (Z.to_nat SIGMAX) rip 1) as m. intros m HL.
  unfold wph. rewrite (get_curr_run s me), (get_task_run s me c) by done.
  destruct (signal_pending (t_sig c)) eqn:Hp; cbn [negb]; [|split_and!; eauto].
  unfold upd_task. rewrite modify_bind.
  destruct (minor_sys (P := P) s me (set_pending false)) as [Hok1 St1]; [done|by split|done|].
  set (s1 := task_upd me (set_pending false) s) in *. set (c1 := set_pending false c).
  assert (task_at me s1 = Some c1) as Ec1 by (by apply task_at_upd_eq).
  apply (wph_bind (init_dies me s)). eapply wph_mono; [apply (HL s1 me c1 Hok1 Hcu Ec1); done| |done].
  intros gone s2 (Hok2 & Hi2 & Hg). change (init s1) with (init s) in Hi2. destruct gone; [by apply wph_wp, wp_ret|].
  destruct Hg as (_ & Hcu2 & _ & c2 & Ec2 & Ha2 & Hp2).
  assert (armed c1 = armed c) as Hac by done.
  destruct (signal_pending (t_sig c2)) eqn:Hs2.
  - destruct (Hp2 eq_refl) as [|Hlt]; [done|]. eapply wph_mono; [apply (IH s2 c2 Hok2 Hcu2 Ec2); lia| |unfold init_dies; by rewrite Hi2].
    intros g s3 (Hok3 & Hi3 & Hg3). split_and!; [done|congruence|done].
  - assert (handle_rounds fuel rip s2 = Ret false s2) as E.
    { destruct fuel; cbn [handle_rounds]; rewrite (get_curr_run s2 me), (get_task_run s2 me c2) by done; by rewrite Hs2. }
    unfold wph. rewrite E. split_and!; eauto.
Qed.

Lemma zcount_length {A} (q : A -> bool) l : zcount q l <= Z.of_nat (length l).
Proof. induction l as [|x l IH]; cbn [zcount length]; [done|]. destruct (q x); cbn; lia. Qed.

Lemma signal_handle_run rip s me c :
  tasks_ok P s -> curr s = Some me -> task_at me s = Some c ->
  wph (init_dies me s) (signal_handle rip) (handled me s) s.
Proof.
  intros Hok Hcu Ec. unfold signal_handle. remember (handle_rounds (X := X)) as m eqn:Em. unfold wph.
  rewrite (get_curr_run s me), (get_task_run s me c) by done. subst m.
  apply (handle_rounds_run _ rip s me c Hok Hcu Ec). pose proof (zcount_length user_handler (handlers c)). unfold armed, handlers in *. lia.
Qed.
End delivery.

(** * Programs and events *)

Section calls.
Context {X : Type} `{TaskEnv X} {P : Prop}.
Implicit Types s : sys X.
Local Notation stays := (stays (P := P)).

Lemma minor_stays s t f :
  (forall c, (t_links (f c), view (f c)) = (t_links c, view c)) ->
  (forall c, task_at t s = Some c -> kin (f c) = kin c /\ (heeds c -> heeds (f c))) -> tasks_ok P s -> stays s (task_upd t f s).
Proof. intros Hf Hk Hok. destruct (minor_sys (P := P) s t f Hf Hk Hok) as [? ?]. by apply steady_stays. Qed.

Lemma task_exec_sys s me name arg :
  tasks_ok P s -> curr s = Some me -> wp (task_exec name arg) (fun _ s' => stays s s') (fun _ s' => s' = s) s.
Proof.
  intros Hok Hcu. unfold task_exec. apply wp_bind, wp_gets. destruct (env_fqname name (curr s) (env s)) as [e|fqn]; [done|].
  unfold wp. rewrite (get_curr_run s me) by done. apply (minor_stays s me); [done|by split|done].
Qed.

(** [sys_ok] but for the alarms. *)
Record base_ok s : Prop := BaseOk {
  bo_sched : sched_ok s; bo_family : family_ok s; bo_attentive : attentive s; bo_pids : pids_ok s
}.
Lemma sys_base s : tasks_ok P s -> base_ok s.
Proof. by intros []. Qed.
Lemma base_sys s : base_ok s -> (P -> alarms_ok s) -> tasks_ok P s.
Proof. by intros []. Qed.
Lemma base_eq s s' :
  tasks s' = tasks s -> queues s' = queues s -> curr s' = curr s -> idle s' = idle s -> init s' = init s ->
  task_pcount s' = task_pcount s -> task_count s' = task_count s -> last_pid s' = last_pid s -> base_ok s -> base_ok s'.
Proof.
  intros Et Eq Ec Ei En Ep Ek El [Hs [Hi Hf] Ha [Hl Hu]].
  assert (forall t, task_at t s' = task_at t s) as Ht by (intros t; unfold task_at; by rewrite Et).
  split; [|split| |split].
  - revert Hs. apply sched_ok_same. split_and!; congruence.
  - by rewrite En, Ht.
  - intros t c. setoid_rewrite Ht. apply Hf.
  - intros t c. rewrite Ht. apply Ha.
  - by rewrite El.
  - intros t u c d. rewrite !Ht. apply Hu.
Qed.

(** An update of a task that touches nothing [base_ok] reads. *)
Lemma base_upd s me c f :
  base_ok s -> task_at me s = Some c -> (forall c, (t_links (f c), view (f c)) = (t_links c, view c)) ->
  parent (f c) = parent c -> pid (f c) = pid c -> stopped (t_run (f c)) = stopped (t_run c) ->
  signal_pending (t_sig (f c)) = signal_pending (t_sig c) -> base_ok (task_upd me f s).
Proof.
  intros [Hs [(c0 & E0 & X0) Hp] Ha [Hl Hu]] Ec Hf Hpa Hpi Hst Hsp. set (s' := task_upd me f s).
  assert (exited (t_run (f c)) = exited (t_run c) /\ paused (t_run (f c)) = paused (t_run c)) as [Hx Hz].
  { specialize (Hf c). unfold view in Hf. split; congruence. }
  assert (forall u e', task_at u s' = Some e' -> u <> me /\ task_at u s = Some e' \/ u = me /\ e' = f c) as Ht.
  { intros u e' E. unfold s' in E. rewrite task_at_upd in E. case_decide; [subst|by left]. rewrite Ec in E. simplify_eq/=. by right. }
  assert (forall u e, task_at u s = Some e -> exists e', task_at u s' = Some e' /\ exited (t_run e') = exited (t_run e)) as Ht'.
  { intros u e E. unfold s'. rewrite task_at_upd. case_decide; [subst|eauto]. assert (e = c) as -> by congruence. rewrite Ec. eauto. }
  split; [by apply (sched_ok_same s); [apply same_sched_upd|]|split| |split; [done|]].
  - destruct (Ht' _ _ E0) as (e' & E' & Ex). exists e'. split; [done|congruence].
  - intros t e' E'. assert (exists e, task_at t s = Some e /\ parent e' = parent e) as (e & E & Epa).
    { destruct (Ht t e' E') as [[_ E]|[-> ->]]; eauto. }
    destruct (Hp t e E) as (p & d & P1 & P2 & P3). destruct (Ht' _ _ P2) as (d' & P2' & Ex). exists p, d'. split_and!; congruence.
  - intros t e' E'. destruct (Ht t e' E') as [[_ E]|[-> ->]]; [by eapply Ha|]. unfold heeds. rewrite Hz, Hsp, Hst. exact (Ha me c Ec).
  - assert (forall t e', task_at t s' = Some e' -> exists e, task_at t s = Some e /\ pid e' = pid e) as Hpid.
    { intros t e' E'. destruct (Ht t e' E') as [[_ E]|[-> ->]]; eauto. }
    intros t u e1 e2 E1 E2 Ep. destruct (Hpid _ _ E1) as (d1 & D1 & P1), (Hpid _ _ E2) as (d2 & D2 & P2). apply (Hu t u d1 d2); congruence.
Qed.

Lemma quiet_task_sys s me c f :
  tasks_ok P s -> task_at me s = Some c -> (forall c, (t_links (f c), view (f c)) = (t_links c, view c)) ->
  parent (f c) = parent c -> pid (f c) = pid c -> stopped (t_run (f c)) = stopped (t_run c) ->
  signal_pending (t_sig (f c)) = signal_pending (t_sig c) ->
  (P -> covered (alarm_t s) (f c) /\ 0 <= alarm_repeat (t_alarm (f c)) < 2 ^ 31) -> tasks_ok P (task_upd me f s).
Proof.
  intros Hok Ec Hf Hpa Hpi Hst Hsp Hal0. apply base_sys; [by apply (base_upd s me c); [apply sys_base|..]|].
  intros HP. destruct (so_alarms _ Hok HP) as [Hti Hal]. split; [done|]. intros t e' E'. rewrite task_at_upd in E'.
  case_decide; [subst|by eapply Hal]. rewrite Ec in E'. simplify_eq/=. by apply Hal0.
Qed.

Lemma do_exec_sys s me :
  tasks_ok P s -> curr s = Some me -> wp do_exec (fun _ s' => tasks_ok P s') (fun _ s' => tasks_ok P s') s.
Proof.
  intros Hok Hcu. destruct (sys_curr s me Hok Hcu) as (c & Ec & _). unfold do_exec, wp. rewrite (get_curr_run s me) by done.
  unfold upd_task, modify_env. rewrite modify_bind. set (h := fun c => set_sig _ _).
  assert (tasks_ok P (task_upd me h s)) as Hok0 by (apply (minor_sys (P := P) s me h); [done|by split|done]).
  assert (task_at me (task_upd me h s) = Some (h c)) as E0 by (by apply task_at_upd_eq). revert E0 Hok0.
  generalize (h c) as c0, (task_upd me h s) as s0. clear h. intros c0 s0 E0 Hok0. rewrite modify_bind.
  set (s0' := with_env _ s0). assert (tasks_ok P s0') as Hok0' by (by apply with_env_ok). change (task_at me s0' = Some c0) in E0.
  clearbody s0'. rewrite modify_bind. set (f := fun c => set_alarms _ _).
  assert (tasks_ok P (task_upd me f s0')) as Hok1 by (by apply (quiet_task_sys s0' me c0)).
  assert (task_at me (task_upd me f s0') = Some (f c0)) as E1 by (by apply task_at_upd_eq). revert E1 Hok1.
  generalize (f c0) as c1, (task_upd me f s0') as s1. clear f. intros c1 s1 E1 Hok1. rewrite modify_bind.
  assert (tasks_ok P (with_env (exec_clean (curr s1) (env s1)) s1)) as Hok2 by (by apply with_env_ok).
  rewrite modify_bind. set (g := fun c => set_ev _ c). set (s2 := with_env _ s1) in *.
  assert (tasks_ok P (task_upd me g s2)) as Hok3 by (apply (minor_sys (P := P) s2 me g); [done|by split|done]).
  assert (task_at me (task_upd me g s2) = Some (g c1)) as E3 by (by apply task_at_upd_eq). revert E3 Hok3.
  generalize (g c1) as c3, (task_upd me g s2) as s3. intros c3 s3 E3 Hok3. rewrite (get_task_run s3 me c3), gets_bind, modify_bind by done.
  destruct (exec_load (t_creds c3) (t_exec c3) (curr s3) (env s3)) as [[e|[u w]] x]; cbn [fst snd]; [by apply with_env_ok|].
  apply (quiet_task_sys _ me c3); try done; [by apply with_env_ok|]. intros HP. exact (al_task _ (so_alarms _ Hok3 HP) me c3 E3).
Qed.

Lemma sys_evt_count_sys s me : tasks_ok P s -> curr s = Some me -> wp sys_evt_count (fun _ s' => stays s s') (fun _ _ => False) s.
Proof.
  intros Hok Hcu. destruct (sys_curr s me Hok Hcu) as (c & Ec & _). unfold sys_evt_count, wp. rewrite (get_curr_run s me) by done.
  unfold upd_task. rewrite modify_bind. rewrite (get_task_run _ me (set_unseen 0 c)) by (by apply task_at_upd_eq).
  apply (minor_stays s me); [done|by split|done].
Qed.

(** The queue of events of a task: [n] events from [first_event] on. *)
Definition events_wf (v : events) : Prop := length (event_ v) = Z.to_nat EVT_MAX /\ 0 <= first_event v < EVT_MAX.

Lemma evt_take_sys s me c :
  tasks_ok P s -> curr s = Some me -> task_at me s = Some c -> events_wf (t_ev c) ->
  wp (evt_take me) (fun _ s' => stays s s') (fun _ s' => stays s s') s.
Proof.
  intros Hok Hcu Ec [Hlen Hfi]. unfold evt_take, wp. rewrite (get_task_run s me c) by done.
  destruct (lookup_lt_is_Some_2 (event_ (t_ev c)) (Z.to_nat (first_event (t_ev c)))) as [e He]; [rewrite Hlen; lia|].
  rewrite He. cbn [deref]. rewrite ret_bind. unfold upd_task. rewrite modify_bind.
  match goal with |- context [task_upd me (set_ev ?v) s] => set (s1 := task_upd me (set_ev v) s) end.
  assert (stays s s1) as St1 by (apply (minor_stays s me); [done|by split|done]). clearbody s1.
  destruct (env_call_ok s1 tucpy_user (proj1 St1)) as (x & E2).
  assert (stays s (with_env x s1)) as St2 by (destruct St1 as (? & ? & ?); split_and!; [by apply with_env_ok|done|done]).
  unfold bind at 1. destruct E2 as [E2|[er E2]]; rewrite E2; [|exact St2]. rewrite modify_bind. apply (stays_trans _ _ _ St2).
  apply (minor_stays _ me); [done|by split|apply St2].
Qed.

Lemma evt_wait_sys s me c :
  tasks_ok P s -> curr s = Some me -> task_at me s = Some c -> events_wf (t_ev c) -> (EVTQ < length (queues s))%nat ->
  wp sys__evt_wait (fun _ => tasks_ok P) (fun _ => tasks_ok P) s.
Proof.
  intros Hok Hcu Ec Hwf Hq. assert (wait_queue s (Some EVTQ)) as Hwq by (cbn; unfold EVTQ, NREADY in *; lia).
  unfold sys__evt_wait. cbn [evt_wait]. unfold wp at 1. rewrite (get_curr_run s me), (get_task_run s me c) by done.
  destruct (negb (event_count (t_ev c) =? 0)) eqn:Hn.
  { apply wp_bind. eapply wp_mono; [by apply (evt_take_sys s me c)| |]; cbn; intros ? s' (? & _); done. }
  destruct (signal_pending (t_sig c)) eqn:Hsp; [done|].
  apply wp_bind, wp_attempt. eapply wp_mono; [apply (task_suspend_sys s (Some EVTQ) WAIT_INTR me c Hok Hcu Ec Hwq); by left| |].
  { cbn. intros _ s' (Hok' & _). exact Hok'. }
  cbn beta. intros e s1 (_ & Hok1 & St1 & Es1 & _). set (c1 := set_unseen 0 c).
  assert (task_at me s1 = Some c1) as Ec1 by (rewrite Es1; by apply task_at_upd_eq).
  assert (curr s1 = Some me) as Hcu1 by (destruct St1 as (_ & -> & _); done).
  assert (wait_queue s1 (Some EVTQ)) as Hwq1 by (rewrite Es1; exact Hwq). clear Es1.
  unfold wp at 1. rewrite (get_curr_run s1 me), (get_task_run s1 me c1) by done.
  change (event_count (t_ev c1)) with (event_count (t_ev c)). rewrite Hn. change (signal_pending (t_sig c1)) with (signal_pending (t_sig c)).
  rewrite Hsp. apply wp_bind, wp_attempt.
  eapply wp_mono; [apply (task_suspend_sys s1 (Some EVTQ) WAIT_INTR me c1 Hok1 Hcu1 Ec1 Hwq1); by left| |].
  { cbn. intros _ s' (Hok' & _). exact Hok'. }
  cbn beta. intros e' s2 (_ & _ & _ & _ & Hi). unfold interrupted in Hi. cbn in Hi. by rewrite Hsp in Hi.
Qed.
End calls.
