(* ===== verification/TaskClock.v ===== *)
(** Alarms: the clock interrupt misses none (kern/clock.c, sys_alarm and
    sys_ualarm of kern/syscall.c). *)

From S2P Require Import Prelude Frame Tasks TaskSys TaskQueueOk TaskOk TaskSched TaskInv TaskLife TaskSysOk.

Section alarms.
Context {X : Type} `{TaskEnv X}.
Implicit Types s : sys X.

Definition later (a b : Z * Z) : Prop := a.1 < b.1 \/ a.1 = b.1 /\ a.2 < b.2.
(** The alarm of the task, if it has one, is still to come. *)
Definition ahead (now : Z * Z) (c : task) : Prop := alarm (t_alarm c) <> 0 -> later now (due c).

(** * The next time the clock looks at the alarms *)

Definition sooner (a b : Z * Z) : Z * Z :=
  if (a.1 =? 0) || (b.1 <? a.1) || ((b.1 =? a.1) && (b.2 <? a.2)) then b else a.
Lemma set_alarm_run s tm tc : set_alarm tm tc s = Ret tt (with_alarm (sooner (alarm_t s) (tm, tc)) s).
Proof.
  unfold set_alarm, modify, sooner. destruct (alarm_t s) as [at_ ac] eqn:E. cbn [fst snd].
  case_match; [done|]. rewrite <- E. by destruct s.
Qed.
Lemma sooner_covers a b c : covered a c -> covered (sooner a b) c \/ b.1 = 0.
Proof.
  intros Hc. unfold sooner. case_match eqn:Hb; [|by left]. destruct (decide (b.1 = 0)) as [|Hb0]; [by right|left].
  intros Hd. destruct (Hc Hd) as [Ha Hn]. split; [done|]. unfold no_later in *.
  apply orb_true_iff in Hb as [[Hb%Z.eqb_eq|Hb%Z.ltb_lt]%orb_true_iff|[He%Z.eqb_eq Hl%Z.ltb_lt]%andb_true_iff]; [done|lia|lia].
Qed.
Lemma sooner_new a c : alarm (t_alarm c) <> 0 -> covered (sooner a (due c)) c.
Proof.
  intros Hd _. unfold sooner. case_match eqn:Hb; [split; [done|]; unfold no_later; lia|].
  apply orb_false_iff in Hb as [[Ha%Z.eqb_neq Hlt%Z.ltb_ge]%orb_false_iff Hand]. split; [done|]. unfold no_later.
  apply andb_false_iff in Hand as [He%Z.eqb_neq|Hl%Z.ltb_ge]; lia.
Qed.

(** The clock and the current task are the same; of the tasks other than [p]
    the alarms are; the clock looks at alarms no later. *)
Definition rings p s s' : Prop :=
  base_ok s' /\ now s' = now s /\ curr s' = curr s /\ init s' = init s /\ length (queues s') = length (queues s) /\
  (forall t, is_Some (task_at t s) -> is_Some (task_at t s')) /\
  (forall t d', t <> p -> task_at t s' = Some d' -> exists d, task_at t s = Some d /\ t_alarm d' = t_alarm d) /\
  (forall d, covered (alarm_t s) d -> covered (alarm_t s') d).

Lemma rings_refl p s : base_ok s -> rings p s s.
Proof. intros Hb. split_and!; try done. eauto. Qed.
Lemma rings_trans p s1 s2 s3 : rings p s1 s2 -> rings p s2 s3 -> rings p s1 s3.
Proof.
  intros (_ & ? & ? & ? & ? & T1 & A1 & C1) (? & ? & ? & ? & ? & T2 & A2 & C2). split_and!; try congruence; [auto| |auto].
  intros t d' Hne E. destruct (A2 t d' Hne E) as (d2 & E2 & ->). eauto.
Qed.
Lemma rings_steady p s s' : base_ok s' -> steady s s' -> rings p s s'.
Proof.
  intros Hb (Hk & Hc & _). pose proof Hk as (_&Hq&Hi&_&Htm&Htk&Ha&_).
  split_and!; try done; [unfold now; congruence| | |by rewrite Ha].
  - intros t [c E]. destruct (same_upto_task _ _ _ _ _ Hk E) as (c' & E' & _). eauto.
  - intros t d' _ E. destruct (same_upto_task' _ _ _ _ _ Hk E) as (d & Ed & K). exists d. split; [done|]. unfold kin in K. congruence.
Qed.
Lemma rings_upd p s c a :
  base_ok s -> task_at p s = Some c -> rings p s (task_upd p (set_alarms a) s).
Proof.
  intros Hb Ec. split_and!; try done; [by apply (base_upd s p c)| |].
  - intros t [d E]. rewrite task_at_upd. case_decide; [subst; rewrite E|]; eauto.
  - intros t d' Hne E. rewrite task_at_upd, decide_False in E by done. eauto.
Qed.
Lemma rings_alarm p s b : base_ok s -> b.1 <> 0 -> rings p s (with_alarm (sooner (alarm_t s) b) s).
Proof.
  intros Hb Hb0. split_and!; try done; [by apply (base_eq s)|eauto|]. intros d Hd. by destruct (sooner_covers _ b _ Hd).
Qed.

(** An alarm that is rung again comes at a later tick. *)
Definition again (tm tc rep : Z) : Z * Z :=
  let tk := u32 (tc + rep) in if CLOCK_HZ <=? tk then (tm + tk / CLOCK_HZ, tk mod CLOCK_HZ) else (tm, tk).
Lemma again_later tm tc rep :
  0 < tm -> 0 <= tc < CLOCK_HZ -> 0 < rep < 2 ^ 31 -> later (tm, tc) (again tm tc rep) /\ 0 < (again tm tc rep).1.
Proof.
  intros Htm Htc Hr. unfold again, CLOCK_HZ in *. rewrite u32_small by lia.
  destruct (Z.leb_spec 250 (tc + rep)); unfold later; cbn; [|lia].
  pose proof (Z.div_le_mono 250 (tc + rep) 250 ltac:(lia) ltac:(lia)) as Hd. change (250 / 250) with 1 in Hd. lia.
Qed.

Lemma chk_alarm_ok s p c :
  base_ok s -> task_at p s = Some c -> 0 < time s -> 0 <= ticks s < CLOCK_HZ -> 0 <= alarm_repeat (t_alarm c) < 2 ^ 31 ->
  exists s' c', chk_alarm p s = Ret tt s' /\ rings p s s' /\ task_at p s' = Some c' /\
    covered (alarm_t s') c' /\ ahead (now s) c' /\ 0 <= alarm_repeat (t_alarm c') < 2 ^ 31.
Proof.
  intros Hb Ec Htm Htc Hre. unfold chk_alarm. rewrite (get_task_run s p c) by done.
  destruct (Z.eqb_spec (alarm (t_alarm c)) 0) as [Hz|Hz].
  { exists s, c. split; [done|]. split; [by apply rings_refl|]. split; [done|]. split; [by intros ?|]. split; [by intros ?|done]. }
  rewrite gets_bind. destruct (((_ =? time s) && _) || _) eqn:Hexp.
  - pose proof (signal_send_k_ok s p SIGALRM c (bo_sched _ Hb) (bo_attentive _ Hb) Ec) as Hw.
    assert (exists e s1, status (signal_send_k p SIGALRM) s = Ret e s1 /\ base_ok s1 /\ steady s s1) as (e & s1 & E1 & Hb1 & St1).
    { unfold wp in Hw. unfold status. destruct (signal_send_k p SIGALRM s) as [[] s1|e s1|h]; [| |done].
      - destruct Hw as (Hs1 & St1 & Ha1). exists 0, s1. split_and!; [done| |done]. pose proof St1 as [Hk _].
        split; [done|by apply (family_kin s), Hb|done|by apply (pids_kin s), Hb].
      - subst. exists e, s. by split_and!. }
    rewrite (bind_run _ _ _ _ _ E1). destruct (steady_task _ _ _ _ St1 Ec) as (c1 & Ec1 & K1).
    pose proof (rings_steady p s s1 Hb1 St1) as R1.
    destruct (Z.eqb_spec (alarm_repeat (t_alarm c)) 0) as [Hr0|Hr0].
    + eexists _, _. split; [reflexivity|]. split; [eapply rings_trans; [exact R1|]; by apply (rings_upd p s1 c1)|].
      split; [by apply task_at_upd_eq|]. split; [by intros ?|]. split; [by intros ?|]. cbn. lia.
    + fold (again (time s) (ticks s) (alarm_repeat (t_alarm c))).
      destruct (again_later (time s) (ticks s) (alarm_repeat (t_alarm c)) Htm Htc ltac:(lia)) as [Hla Hpos].
      destruct (again (time s) (ticks s) (alarm_repeat (t_alarm c))) as [at_ ac]. unfold upd_task. rewrite modify_bind, set_alarm_run.
      set (a := Alarms (alarm_repeat (t_alarm c)) ac at_). set (s2 := task_upd p (set_alarms a) s1).
      assert (rings p s s2) as R2 by (eapply rings_trans; [exact R1|]; by apply (rings_upd p s1 c1)).
      assert (task_at p s2 = Some (set_alarms a c1)) as Ec2 by (by apply task_at_upd_eq).
      eexists _, _. split; [reflexivity|]. split; [eapply rings_trans; [exact R2|]; apply rings_alarm; [apply R2|cbn in *; lia]|].
      split; [exact Ec2|]. split; [apply (sooner_new _ (set_alarms a c1)); cbn in *; lia|]. split; [|done]. intros _. exact Hla.
  - rewrite set_alarm_run. eexists _, c. split; [reflexivity|]. split; [by apply rings_alarm|]. split; [exact Ec|].
    split; [by apply (sooner_new _ c)|]. split; [|done]. intros _. unfold later, now, due. cbn.
    apply orb_false_iff in Hexp as [Hand Hlt%Z.ltb_ge]. apply andb_false_iff in Hand as [He%Z.eqb_neq|Hl%Z.leb_gt]; lia.
Qed.

(** All alarms are in order: looked at in time, still to come. *)
Definition in_order s (a : Z * Z) (c : task) : Prop :=
  covered a c /\ ahead (now s) c /\ 0 <= alarm_repeat (t_alarm c) < 2 ^ 31.
Lemma in_order_alarm s a c c' : t_alarm c' = t_alarm c -> in_order s a c -> in_order s a c'.
Proof. unfold in_order, covered, ahead, due. by intros ->. Qed.

Lemma chk_alarms_ok n i s :
  base_ok s -> 0 < time s -> 0 <= ticks s < CLOCK_HZ -> (length (tasks s) <= i + n)%nat ->
  (forall t c, task_at t s = Some c -> 0 <= alarm_repeat (t_alarm c) < 2 ^ 31) ->
  (forall t c, (t < i)%nat -> task_at t s = Some c -> in_order s (alarm_t s) c) ->
  exists s', chk_alarms n i s = Ret tt s' /\ base_ok s' /\ now s' = now s /\ curr s' = curr s /\ init s' = init s /\
    length (queues s') = length (queues s) /\ forall t c, task_at t s' = Some c -> in_order s' (alarm_t s') c.
Proof.
  revert i s. induction n as [|n IH]; intros i s Hb Htm Htc Hlen Hre Hin; cbn [chk_alarms].
  { exists s. split_and!; try done. intros t c E. apply (Hin t); [|done]. apply task_at_lookup, lookup_lt_Some in E. lia. }
  rewrite gets_bind. set (m := match task_at i s with Some _ => chk_alarm i | None => ret tt end).
  assert (exists s1, m s = Ret tt s1 /\ rings i s s1 /\ forall c, task_at i s1 = Some c -> in_order s (alarm_t s1) c)
    as (s1 & E1 & R1 & Hi1).
  { subst m. destruct (task_at i s) as [c|] eqn:Ec.
    - destruct (chk_alarm_ok s i c Hb Ec Htm Htc (Hre i c Ec)) as (s1 & c1 & E1 & R1 & Ec1 & Hi1). exists s1.
      split_and!; [done|done|]. intros d Ed. assert (d = c1) as -> by congruence. done.
    - exists s. split_and!; [done|by apply rings_refl|]. intros c E. congruence. }
  rewrite (bind_run _ _ _ _ _ E1). destruct R1 as (Hb1 & Hn1 & Hc1 & Hini1 & Hq1 & T1 & A1 & C1).
  assert (time s1 = time s /\ ticks s1 = ticks s) as [Etm Etk] by (unfold now in Hn1; by injection Hn1).
  assert (length (tasks s1) = length (tasks s)) as Hl1.
  { destruct (sk_placed _ (bo_sched _ Hb)) as [Q Hp], (sk_placed _ (bo_sched _ Hb1)) as [Q1 Hp1].
    by rewrite (pl_len _ _ _ Hp), (pl_len _ _ _ Hp1). }
  destruct (IH (S i) s1) as (s2 & E2 & Hb2 & Hn2 & Hc2 & Hini2 & Hq2 & Hin2); [done|lia|lia|lia| | |].
  - intros t c E. destruct (decide (t = i)) as [->|Hne]; [by apply (Hi1 c)|]. destruct (A1 t c Hne E) as (d & Ed & ->). by eapply Hre.
  - intros t c Ht E. unfold in_order. rewrite Hn1. destruct (decide (t = i)) as [->|Hne]; [by apply (Hi1 c)|].
    destruct (A1 t c Hne E) as (d & Ed & Ea). apply (in_order_alarm s _ d c Ea).
    destruct (Hin t d ltac:(lia) Ed) as (Hcv & Hah & Hr). split; [by apply C1|]. split; [exact Hah|exact Hr].
  - exists s2. split_and!; try done; congruence.
Qed.

(** * The clock interrupt *)

Lemma clock_tick_now s :
  0 < time s -> 0 <= ticks s < CLOCK_HZ -> 0 < time (clock_tick s) /\ 0 <= ticks (clock_tick s) < CLOCK_HZ /\ later (now s) (now (clock_tick s)).
Proof.
  intros Htm Htk. unfold clock_tick, now, later, CLOCK_HZ in *. destruct (Z.leb_spec 250 (ticks s + 1)); cbn; lia.
Qed.

(** A step of the clock that touches counters of CPU time and time slices. *)
Lemma tick_task s t f :
  base_ok s -> (forall c, (t_links (f c), view (f c)) = (t_links c, view c) /\ kin (f c) = kin c /\ t_sig (f c) = t_sig c /\
    stopped (t_run (f c)) = stopped (t_run c)) -> base_ok (task_upd t f s) /\ steady s (task_upd t f s).
Proof.
  intros Hb Hf. assert (steady s (task_upd t f s)) as St by (split_and!; [|done|done]; apply same_upto_upd; intros c; apply Hf).
  split; [|done]. destruct (task_at t s) as [c|] eqn:Ec.
  - apply (base_upd s t c); [done|done|intros d; apply Hf|..]; destruct (Hf c) as (_ & K & Hs & Hst); unfold kin in K; congruence.
  - apply (base_eq s); try done. cbn. apply list_eq. intros i. destruct (decide (i = t)) as [->|Hne].
    + rewrite list_lookup_alter_eq. unfold task_at in Ec. by destruct (tasks s !! t) as [[]|].
    + by rewrite list_lookup_alter_ne.
Qed.
Lemma sample_base s : base_ok s -> base_ok (with_tasks (map (option_map sample_cputime) (tasks s)) s) /\
  steady s (with_tasks (map (option_map sample_cputime) (tasks s)) s).
Proof.
  intros Hb. set (s' := with_tasks _ s).
  assert (forall t, task_at t s' = sample_cputime <$> task_at t s) as Ht.
  { intros t. unfold task_at, s'. cbn. rewrite list_lookup_fmap. by destruct (tasks s !! t) as [[]|]. }
  assert (steady s s') as St.
  { split_and!; [|done|done]. split_and!; try done; [apply length_map|]. intros t. rewrite Ht. by destruct (task_at t s). }
  split; [|done]. destruct Hb as [Hs Hf Ha Hp]. pose proof St as [Hk _]. split; [|by apply (family_kin s)| |by apply (pids_kin s)].
  - revert Hs. apply sched_ok_same. split_and!; try done; [apply length_map|]. intros t. rewrite Ht. by destruct (task_at t s).
  - intros t c' E. rewrite Ht in E. destruct (task_at t s) as [c|] eqn:Ec; [|done]. simplify_eq/=. exact (Ha t c Ec).
Qed.

(** Before the clock looks at the alarms nothing happens to them. *)
Definition runs_on s s' : Prop :=
  base_ok s' /\ curr s' = curr s /\ init s' = init s /\ length (queues s') = length (queues s) /\ alarm_t s' = alarm_t s /\
  forall t c', task_at t s' = Some c' -> exists c, task_at t s = Some c /\ t_alarm c' = t_alarm c.
Lemma runs_on_trans s1 s2 s3 : runs_on s1 s2 -> runs_on s2 s3 -> runs_on s1 s3.
Proof.
  intros (_ & ? & ? & ? & ? & A1) (? & ? & ? & ? & ? & A2). split_and!; try congruence.
  intros t c' E. destruct (A2 t c' E) as (c2 & E2 & ->). eauto.
Qed.
Lemma runs_on_steady s s' : base_ok s' -> steady s s' -> runs_on s s'.
Proof.
  intros Hb (Hk & Hc & _). pose proof Hk as (_&Hq&Hi&_&_&_&Ha&_). split_and!; try done.
  intros t d' E. destruct (same_upto_task' _ _ _ _ _ Hk E) as (d & Ed & K). exists d. split; [done|]. unfold kin in K. congruence.
Qed.
Lemma runs_on_eq s s' :
  tasks s' = tasks s -> queues s' = queues s -> curr s' = curr s -> idle s' = idle s -> init s' = init s ->
  task_pcount s' = task_pcount s -> task_count s' = task_count s -> last_pid s' = last_pid s -> alarm_t s' = alarm_t s ->
  base_ok s -> runs_on s s'.
Proof.
  intros Et Eq Ec Ei En Ep Ek El Ea Hb. split_and!; try congruence; [by apply (base_eq s)|].
  intros t c. unfold task_at. rewrite Et. eauto.
Qed.

Lemma clock_second_runs s : base_ok s -> runs_on s (clock_second s) /\ now (clock_second s) = now s.
Proof.
  intros Hb. unfold clock_second. destruct (CLOCK_HZ <=? upticks s + 1); (split; [|done]); [|by apply runs_on_eq].
  destruct (sample_base s Hb) as [Hb1 St1]. eapply runs_on_trans; [by apply runs_on_steady; [exact Hb1|exact St1]|]. by apply runs_on_eq.
Qed.
Lemma clock_tick_runs s : base_ok s -> runs_on s (clock_tick s).
Proof. intros Hb. unfold clock_tick. destruct (CLOCK_HZ <=? ticks s + 1); by apply runs_on_eq. Qed.

(** The part of [clock_intr] before the alarms. *)
Lemma clock_upd s t f :
  base_ok s -> (forall c, (t_links (f c), view (f c)) = (t_links c, view c) /\ kin (f c) = kin c /\ t_sig (f c) = t_sig c /\
    stopped (t_run (f c)) = stopped (t_run c)) ->
  runs_on s (task_upd t f s).
Proof. intros Hb Hf. destruct (tick_task s t f Hb Hf) as [Hb1 St1]. by apply runs_on_steady. Qed.

(** The end of [clock_intr]. *)
Lemma clock_alarms s :
  base_ok s -> 0 < time s -> 0 <= ticks s < CLOCK_HZ ->
  (forall t c, task_at t s = Some c -> covered (alarm_t s) c /\ 0 <= alarm_repeat (t_alarm c) < 2 ^ 31) ->
  let '(at_, ac) := alarm_t s in
  exists s', (if negb (at_ =? 0) && (((at_ =? time s) && (ac <=? ticks s)) || (at_ <? time s)) then
     modify (fun s => with_alarm (0, ac) s);;; chk_alarms TASK_MAX 0 else ret tt) s = Ret tt s' /\
    sys_ok s' /\ now s' = now s /\ curr s' = curr s /\ init s' = init s /\ length (queues s') = length (queues s) /\
    forall t c, task_at t s' = Some c -> ahead (now s') c.
Proof.
  intros Hb Htm Htk Hal. destruct (alarm_t s) as [at_ ac] eqn:Ea. destruct (_ && _) eqn:Hf.
  - rewrite modify_bind. set (s1 := with_alarm (0, ac) s). assert (base_ok s1) as Hb1 by (by apply (base_eq s)).
    destruct (chk_alarms_ok TASK_MAX 0 s1) as (s' & E & Hb' & Hn & Hc & Hi & Hq & Hin); try done.
    + destruct (sk_placed _ (bo_sched _ Hb1)) as [Q Hp]. by rewrite (pl_len _ _ _ Hp).
    + intros t c Ec. by apply (Hal t c).
    + intros t c Ht. lia.
    + exists s'. assert (time s' = time s /\ ticks s' = ticks s) as [E1 E2] by (unfold now in Hn; cbn in Hn; by injection Hn).
      split_and!; try done; [|intros t c Ec; apply (Hin t c Ec)]. apply base_sys; [done|]. split; [by rewrite E1, E2|].
      intros t c Ec. destruct (Hin t c Ec) as (? & _ & ?). done.
  - exists s. split_and!; try done; [apply base_sys; [done|]; split; [done|by rewrite Ea]|].
    intros t c Ec Hd. destruct (Hal t c Ec) as [Hcv _]. destruct (Hcv Hd) as [Ha0 Hno]. cbn in Ha0.
    apply andb_false_iff in Hf as [Hf%negb_false_iff%Z.eqb_eq|[Hand Hlt%Z.ltb_ge]%orb_false_iff]; [done|].
    unfold later, no_later, now in *. cbn in *. apply andb_false_iff in Hand as [He%Z.eqb_neq|Hl%Z.leb_gt]; lia.
Qed.

(** The rest of [clock_intr], from the look at the alarms on. *)
Definition clock_rest : M (sys X) unit :=
  now <~ gets (fun s => (alarm_t s, time s, ticks s));;
  let '(at_, ac, tm, tc) := now in
  (if negb (at_ =? 0) && (((at_ =? tm) && (ac <=? tc)) || (at_ <? tm)) then
     modify (fun s => with_alarm (0, ac) s);;;
     chk_alarms TASK_MAX 0
   else ret tt);;;
  modify_env clock_procs.

Lemma clock_front s :
  base_ok s -> exists s4, clock_intr s = clock_rest s4 /\ runs_on s s4 /\ now s4 = now (clock_tick s).
Proof.
  intros Hb. unfold clock_intr. rewrite gets_bind.
  set (m1 := match curr s with Some me => upd_task me (fun c => set_cputime _ _ _);;; _ | None => ret tt end).
  assert (exists s1, m1 s = Ret tt s1 /\ runs_on s s1 /\ now s1 = now s) as (s1 & E1 & R1 & N1).
  { subst m1. destruct (curr s) as [me|]; [|exists s; split_and!; try done; by apply runs_on_eq].
    unfold upd_task. rewrite modify_bind. eexists. split; [reflexivity|]. split; [|done].
    pose proof (clock_upd s me (fun c => set_cputime (cputime_cnt c + 1) (cputime c) c) Hb ltac:(done)) as R.
    eapply runs_on_trans; [exact R|]. apply runs_on_eq; try done. apply R. }
  rewrite (bind_run _ _ _ _ _ E1), !modify_bind. clear m1 E1.
  destruct (clock_second_runs s1 (proj1 R1)) as [R2 N2]. set (s2 := clock_second s1) in *. clearbody s2.
  assert (now (clock_tick s2) = now (clock_tick s)) as N3.
  { rewrite N1 in N2. unfold now in N2. injection N2 as E1 E2. unfold clock_tick, now. rewrite E1, E2. by destruct (_ <=? _). }
  pose proof (clock_tick_runs s2 (proj1 R2)) as R3. set (s3 := clock_tick s2) in *. clearbody s3.
  pose proof (runs_on_trans _ _ _ R1 (runs_on_trans _ _ _ R2 R3)) as R. clear R1 R2 R3 N1 N2 s1 s2.
  set (m4 := match curr s with Some me => upd_task me (fun c => set_time_slice _ _);;; _ | None => ret tt end).
  assert (exists s4, m4 s3 = Ret tt s4 /\ runs_on s3 s4 /\ now s4 = now s3) as (s4 & E4 & R4 & N4).
  { subst m4. destruct (curr s) as [me|] eqn:Hcu; [|exists s3; split_and!; try done; apply runs_on_eq; try done; apply R].
    unfold upd_task. rewrite modify_bind. set (f := fun c => set_time_slice (time_slice (t_run c) - 1) c).
    pose proof (clock_upd s3 me f (proj1 R) ltac:(done)) as R'.
    assert (exists c, task_at me (task_upd me f s3) = Some c) as [c Ec].
    { destruct (sk_curr _ (bo_sched _ (proj1 R')) me) as (c & Ec & _); [|eauto]. destruct R as (_ & Ec & _). change (curr s3 = Some me). congruence. }
    rewrite (get_task_run _ me c) by done. destruct (_ <? 0); (eexists; split; [reflexivity|]; split; [|done]); [|exact R'].
    eapply runs_on_trans; [exact R'|]. apply runs_on_eq; try done. apply R'. }
  rewrite (bind_run _ _ _ _ _ E4). exists s4. split_and!; [done|by eapply runs_on_trans|congruence].
Qed.

Lemma clock_intr_ok s :
  sys_ok s ->
  exists s', clock_intr s = Ret tt s' /\ sys_ok s' /\ curr s' = curr s /\ init s' = init s /\
    length (queues s') = length (queues s) /\ later (now s) (now s') /\ forall t c, task_at t s' = Some c -> ahead (now s') c.
Proof.
  intros Hok. destruct (so_alarms _ Hok I) as [[Htm Htk] Hal].
  destruct (clock_front s (sys_base _ Hok)) as (s4 & -> & (Hb5 & Hc5 & Hi5 & Hq5 & Ha5 & A5) & N4).
  destruct (clock_tick_now s Htm Htk) as (Htm3 & Htk3 & L). rewrite <- N4 in L.
  assert (time s4 = time (clock_tick s) /\ ticks s4 = ticks (clock_tick s)) as [Etm Etk] by (unfold now in N4; by injection N4).
  unfold clock_rest. rewrite gets_bind. pose proof (clock_alarms s4 Hb5 ltac:(lia) ltac:(lia)) as Hca. destruct (alarm_t s4) as [at_ ac] eqn:Ea.
  destruct Hca as (s5 & E5 & Hok5 & N5 & Hc & Hi & Hq & Hah).
  { intros t c Ec. destruct (A5 t c Ec) as (d & Ed & Eal). destruct (Hal t d Ed) as [Hcv Hr]. rewrite Eal. split; [|done].
    unfold covered, due in *. rewrite Eal, Ha5. exact Hcv. }
  rewrite (bind_run _ _ _ _ _ E5). eexists. split; [reflexivity|]. split_and!; [by apply with_env_ok|cbn; congruence..| |exact Hah].
  change (later (now s) (now s5)). by rewrite N5.
Qed.

(** ** Whatever the time is *)

Lemma chk_alarm_base s p c :
  base_ok s -> task_at p s = Some c -> exists s', chk_alarm p s = Ret tt s' /\ base_ok s'.
Proof.
  intros Hb Ec. unfold chk_alarm. rewrite (get_task_run s p c) by done. destruct (alarm (t_alarm c) =? 0); [eauto|].
  rewrite gets_bind. destruct (((_ =? time s) && _) || _); [|rewrite set_alarm_run; eexists; split; [done|]; by apply (base_eq s)].
  assert (tasks_ok False s) as Hok by (by apply base_sys).
  assert (exists e s1, status (signal_send_k p SIGALRM) s = Ret e s1 /\ base_ok s1 /\ steady s s1) as (e & s1 & E1 & Hb1 & St1).
  { pose proof (send_k_sys s p SIGALRM c Hok Ec) as Hw. unfold wp in Hw. unfold status.
    destruct (signal_send_k p SIGALRM s) as [[] s1|e s1|h]; [..|done]; destruct Hw as [Hok1 St1]; eauto 10 using sys_base. }
  rewrite (bind_run _ _ _ _ _ E1). destruct (steady_task _ _ _ _ St1 Ec) as (c1 & Ec1 & _).
  assert (forall a, base_ok (task_upd p (set_alarms a) s1)) as Hu by (intros a; by apply (base_upd s1 p c1)).
  destruct (alarm_repeat (t_alarm c) =? 0); [eexists; split; [reflexivity|]; apply Hu|].
  destruct (if CLOCK_HZ <=? _ then _ else _) as [at_ ac]. unfold upd_task. rewrite modify_bind, set_alarm_run.
  eexists. split; [done|]. eapply base_eq; [..|apply (Hu (Alarms (alarm_repeat (t_alarm c)) ac at_))]; done.
Qed.
Lemma chk_alarms_base n i s : base_ok s -> exists s', chk_alarms n i s = Ret tt s' /\ base_ok s'.
Proof.
  revert i s. induction n as [|n IH]; intros i s Hb; cbn [chk_alarms]; [eauto|]. rewrite gets_bind.
  destruct (task_at i s) as [c|] eqn:Ec; [|rewrite ret_bind; by apply IH].
  destruct (chk_alarm_base s i c Hb Ec) as (s1 & E1 & Hb1). rewrite (bind_run _ _ _ _ _ E1). by apply IH.
Qed.
Lemma clock_intr_base s : base_ok s -> exists s', clock_intr s = Ret tt s' /\ base_ok s'.
Proof.
  intros Hb. destruct (clock_front s Hb) as (s4 & -> & (Hb4 & _) & _). unfold clock_rest. rewrite gets_bind.
  destruct (alarm_t s4) as [at_ ac]. destruct (_ && _); [|rewrite ret_bind; eexists; split; [reflexivity|]; by apply (base_eq s4)].
  unfold bind at 1. rewrite modify_bind. destruct (chk_alarms_base TASK_MAX 0 (with_alarm (0, ac) s4)) as (s5 & E5 & Hb5); [by apply (base_eq s4)|].
  rewrite E5. eexists. split; [reflexivity|]. by apply (base_eq s5).
Qed.

(** An operation that is fine with any time, and with alarms in order. *)
Lemma tasks_of (P : Prop) s : tasks_ok P s -> base_ok s /\ (P -> sys_ok s).
Proof. intros Hok. split; [exact (sys_base s Hok)|]. intros HP. destruct Hok. split; auto. Qed.
Lemma clock_intr_sys (P : Prop) s : tasks_ok P s -> exists s', clock_intr s = Ret tt s' /\ tasks_ok P s'.
Proof.
  intros [Hb HP]%tasks_of. destruct (clock_intr_base s Hb) as (s' & E & Hb'). exists s'. split; [done|]. apply base_sys; [done|].
  intros Hp. destruct (clock_intr_ok s (HP Hp)) as (s1 & E1 & Hok1 & _). assert (s1 = s') as -> by congruence. by apply Hok1.
Qed.

(** * Setting alarms *)

Lemma arm_sys s me c rep at_ ac :
  sys_ok s -> task_at me s = Some c -> 0 < at_ -> 0 <= rep < 2 ^ 31 ->
  sys_ok (with_alarm (sooner (alarm_t s) (at_, ac)) (task_upd me (set_alarms (Alarms rep ac at_)) s)).
Proof.
  intros Hok Ec Hat Hr. destruct (so_alarms _ Hok I) as [Hnow Hal]. set (f := set_alarms (Alarms rep ac at_)).
  assert (base_ok (task_upd me f s)) as Hb by (apply (base_upd s me c); try done; exact (sys_base s Hok)).
  apply base_sys; [by apply (base_eq (task_upd me f s))|]. split; [done|]. intros t d E.
  change (task_at t (task_upd me f s) = Some d) in E. rewrite task_at_upd in E. cbn [alarm_t with_alarm]. case_decide; [subst|].
  - rewrite Ec in E. simplify_eq/=. split; [|done]. apply (sooner_new _ (f c)). cbn. lia.
  - destruct (Hal t d E) as [Hcv Hre]. split; [|done]. destruct (sooner_covers _ (at_, ac) _ Hcv); [done|]. cbn in *. lia.
Qed.
Lemma disarm_sys s me c rep :
  sys_ok s -> task_at me s = Some c -> 0 <= rep < 2 ^ 31 -> sys_ok (task_upd me (set_alarms (Alarms rep 0 0)) s).
Proof. intros Hok Ec Hr. by apply (quiet_task_sys s me c). Qed.

Lemma sys_alarm_sys s me delay :
  sys_ok s -> curr s = Some me -> 0 <= delay -> wp (sys_alarm delay) (fun _ => sys_ok) (fun _ _ => False) s.
Proof.
  intros Hok Hcu Hd. destruct (sys_curr s me Hok Hcu) as (c & Ec & _). destruct (so_alarms _ Hok I) as [[Htm Htk] Hal].
  destruct (Hal me c Ec) as [_ Hre]. unfold sys_alarm, wp. rewrite (get_curr_run s me), (get_task_run s me c) by done.
  rewrite gets_bind. unfold upd_task. destruct (Z.eqb_spec delay 0); rewrite modify_bind.
  - by apply (disarm_sys s me c).
  - rewrite (bind_run _ _ _ _ _ (set_alarm_run _ _ _)). by apply (arm_sys s me c); [| |lia|].
Qed.

(** The tick a delay in microseconds ends at. *)
Lemma again_pos tm tc rep : 0 < tm -> 0 <= tc -> 0 <= rep -> 0 < (again tm tc rep).1.
Proof.
  intros Htm Htc Hr. unfold again, CLOCK_HZ. pose proof (u32_range (tc + rep)).
  destruct (Z.leb_spec 250 (u32 (tc + rep))); cbn; [|lia]. pose proof (Z.div_pos (u32 (tc + rep)) 250). lia.
Qed.
Lemma sys_ualarm_sys s me u_delay rep :
  sys_ok s -> curr s = Some me -> 0 <= u_delay -> wp (sys_ualarm u_delay rep) (fun _ => sys_ok) (fun _ s' => s' = s) s.
Proof.
  intros Hok Hcu Hd. destruct (sys_curr s me Hok Hcu) as (c & Ec & _). destruct (so_alarms _ Hok I) as [[Htm Htk] Hal].
  destruct (Hal me c Ec) as [_ Hre]. unfold sys_ualarm. destruct (Z.ltb_spec 1000000 u_delay) as [|Hle]; [done|]. unfold wp.
  rewrite (get_curr_run s me), (get_task_run s me c) by done. rewrite gets_bind. unfold upd_task.
  destruct (Z.eqb_spec u_delay 0); [rewrite modify_bind; by apply (disarm_sys s me c)|].
  fold (again (time s) (ticks s) (u_delay * CLOCK_HZ / 1000000)). set (rp := if rep then _ else 0).
  pose proof (again_pos (time s) (ticks s) (u_delay * CLOCK_HZ / 1000000)) as Hpos.
  destruct (again (time s) (ticks s) (u_delay * CLOCK_HZ / 1000000)) as [at_ ac]. rewrite modify_bind.
  rewrite (bind_run _ _ _ _ _ (set_alarm_run _ _ _)). cbn in Hpos. apply (arm_sys s me c); [done|done| |].
  - apply Hpos; [done|lia|]. apply Z.div_pos; unfold CLOCK_HZ; lia.
  - unfold rp, CLOCK_HZ. destruct rep; [|lia].
    pose proof (Z.div_pos (u_delay * 250 + 250 - 1) 1000000). pose proof (Z.div_le_mono (u_delay * 250 + 250 - 1) 1000000000 1000000 ltac:(lia) ltac:(lia)) as H1.
    change (1000000000 / 1000000) with 1000 in H1. lia.
Qed.

(** The calls that touch the clock or an alarm, whatever the time is. *)
Lemma wp_tasks (P : Prop) {A} (m : M (sys X) A) s :
  (base_ok s -> wp m (fun _ => base_ok) (fun _ => base_ok) s) -> (P -> sys_ok s -> wp m (fun _ => sys_ok) (fun _ => sys_ok) s) ->
  tasks_ok P s -> wp m (fun _ => tasks_ok P) (fun _ => tasks_ok P) s.
Proof.
  intros Hb HP [Hok1 Hok2]%tasks_of. specialize (Hb Hok1). unfold wp in *.
  destruct (m s) as [a s'|e s'|h]; [| |done]; (apply base_sys; [done|]; intros Hp; by apply (HP Hp (Hok2 Hp))).
Qed.
Lemma base_curr s me : base_ok s -> curr s = Some me -> exists c, task_at me s = Some c.
Proof. intros Hb E. destruct (sk_curr _ (bo_sched _ Hb) me E) as (c & Ec & _). eauto. Qed.
Lemma alarm_base s me c a b : base_ok s -> task_at me s = Some c -> base_ok (with_alarm b (task_upd me (set_alarms a) s)).
Proof. intros Hb Ec. apply (base_eq (task_upd me (set_alarms a) s)); try done. by apply (base_upd s me c). Qed.

Lemma sys_alarm_tasks (P : Prop) s me delay :
  tasks_ok P s -> curr s = Some me -> 0 <= delay -> wp (sys_alarm delay) (fun _ => tasks_ok P) (fun _ => tasks_ok P) s.
Proof.
  intros Hok Hcu Hd. apply wp_tasks; [|intros _ Hs; eapply wp_mono; [by apply (sys_alarm_sys s me)|done|done]|done].
  intros Hb. destruct (base_curr s me Hb Hcu) as [c Ec]. unfold sys_alarm, wp.
  rewrite (get_curr_run s me), (get_task_run s me c) by done. rewrite gets_bind. unfold upd_task.
  destruct (delay =? 0); rewrite modify_bind; [by apply (base_upd s me c)|].
  rewrite (bind_run _ _ _ _ _ (set_alarm_run _ _ _)). by apply (alarm_base s me c).
Qed.
Lemma sys_ualarm_tasks (P : Prop) s me u_delay rep :
  tasks_ok P s -> curr s = Some me -> 0 <= u_delay -> wp (sys_ualarm u_delay rep) (fun _ => tasks_ok P) (fun _ => tasks_ok P) s.
Proof.
  intros Hok Hcu Hd. apply wp_tasks; [|intros _ Hs; eapply wp_mono; [by apply (sys_ualarm_sys s me)|done|by intros ? ? ->]|done].
  intros Hb. destruct (base_curr s me Hb Hcu) as [c Ec]. unfold sys_ualarm. destruct (1000000 <? u_delay); [done|]. unfold wp.
  rewrite (get_curr_run s me), (get_task_run s me c) by done. rewrite gets_bind. unfold upd_task.
  destruct (u_delay =? 0); [rewrite modify_bind; by apply (base_upd s me c)|].
  destruct (if CLOCK_HZ <=? _ then _ else _) as [at_ ac]. rewrite modify_bind.
  rewrite (bind_run _ _ _ _ _ (set_alarm_run _ _ _)). by apply (alarm_base s me c).
Qed.

(** A time that makes sense: after the epoch, with less than a million
    microseconds, and so that the 64 bits of [time] do not overflow in the next
    [2 ^ 62] seconds. *)
Definition good_time (tv : option (Z * Z)) : Prop :=
  match tv with Some (sec, usec) => 0 < sec < 2 ^ 62 /\ 0 <= usec < 1000000 | None => True end.
Lemma settimeofday_tasks (P : Prop) s tv :
  tasks_ok P s -> (P -> good_time tv) -> wp (sys_settimeofday tv) (fun _ => tasks_ok P) (fun _ => tasks_ok P) s.
Proof.
  intros Hok Hg. unfold sys_settimeofday. destruct tv as [[sec usec]|]; [|by apply wp_ret].
  unfold wp, bind, env_call. destruct (uga_user (curr s) (env s)) as [e x]. destruct (e =? 0); [|by apply with_env_ok].
  apply (with_env_ok _ x) in Hok. pose proof (sys_base _ Hok) as Hb. cbn [modify]. apply base_sys; [by apply (base_eq (with_env x s))|].
  intros Hp. destruct (Hg Hp) as [Hs Hu]. destruct (so_alarms _ Hok Hp) as [_ Hal]. split; [|exact Hal]. cbn [time ticks with_time].
  split; [lia|]. unfold CLOCK_HZ. rewrite (u32_small (usec * 250)) by lia.
  pose proof (Z.div_pos (usec * 250) 1000000). pose proof (Z.div_lt_upper_bound (usec * 250) 1000000 250). rewrite u32_small by lia. lia.
Qed.
End alarms.
