(* ===== verification/TaskKept.v ===== *)
(** No operation on tasks changes the size of an event buffer or the number of
    task queues, the first event is always inside of its buffer, and the last one
    is where the first one and their number say, or, in a task made by [do_fork],
    one place behind ([ring_wf]). *)

From S2P Require Import Prelude Frame Tasks TaskSys TaskQueueOk TaskOk TaskSched TaskInv TaskLife TaskSysOk TaskClock.

(** * The buffers of the event queues, and the number of queues, stay as they are *)

Section kept.
Context {X : Type} `{TaskEnv X}.
Implicit Types s : sys X.

Definition signals_wf (g : signals) : Prop :=
  length (signal_received g) = 33%nat /\ length (signal_handler g) = 33%nat /\ length (signal_use_event g) = 33%nat.
Definition bufs_wf (c : task) : Prop := events_wf (t_ev c) /\ signals_wf (t_sig c).
Definition bufs_ok s : Prop := forall t c, task_at t s = Some c -> bufs_wf c.

(** [last_event] is the place of the last event, or, after [do_fork], which
    starts it at 0 with no event, the next place. *)
Definition in_step (v : events) : Prop := (last_event v + 1) mod EVT_MAX = (first_event v + event_count v) mod EVT_MAX.
Definition behind (v : events) : Prop := last_event v = (first_event v + event_count v) mod EVT_MAX.
Definition ring_wf (v : events) : Prop :=
  0 <= event_count v <= EVT_MAX /\ -1 <= last_event v < EVT_MAX /\ (in_step v \/ behind v).

(** The buffers of every task, and its ring when [P]. *)
Definition task_wf (P : Prop) (c : task) : Prop := bufs_wf c /\ (P -> ring_wf (t_ev c)).
Definition all_wf (P : Prop) s : Prop := forall t c, task_at t s = Some c -> task_wf P c.
Definition kept_if (P : Prop) s s' : Prop := all_wf P s -> all_wf P s' /\ length (queues s') = length (queues s).
Lemma all_bufs s : all_wf False s <-> bufs_ok s.
Proof. split; intros Ha t c E; [by apply (Ha t c E)|]. split; [by eapply Ha|done]. Qed.

Context {P : Prop}.
Notation kept := (kept_if P).
Global Instance kept_preorder : PreOrder kept.
Proof. split; [by intros s|]. intros s1 s2 s3 K1 K2 H1. destruct (K1 H1) as [H2 ?]. destruct (K2 H2). split; [done|congruence]. Qed.

Lemma keeps_kept_upd t f : (forall c, task_wf P c -> task_wf P (f c)) -> keeps kept (upd_task (X := X) t f).
Proof.
  intros Hf s Hok. split; [|done]. intros u c E. rewrite task_at_upd in E. case_decide; [subst|by eapply Hok].
  destruct (task_at t s) as [d|] eqn:Ed; [|done]. simplify_eq/=. apply Hf. by eapply Hok.
Qed.
Lemma keeps_kept_same t f : (forall c, (t_ev (f c), t_sig (f c)) = (t_ev c, t_sig c)) -> keeps kept (upd_task (X := X) t f).
Proof. intros Hf. apply keeps_kept_upd. intros c. unfold task_wf, bufs_wf. by injection (Hf c) as -> ->. Qed.
Lemma keeps_kept_modify (h : sys X -> sys X) :
  (forall s, tasks (h s) = tasks s) -> (forall s, length (queues (h s)) = length (queues s)) -> keeps kept (modify h).
Proof. intros Ht Hq s Hok. split; [|apply Hq]. intros t c. unfold task_at. rewrite Ht. apply Hok. Qed.
Lemma keeps_kept_put q v : keeps kept (put_queue (X := X) q v).
Proof. apply keeps_kept_modify; [done|]. intros s. apply length_insert. Qed.
Lemma keeps_kept_slot i o : (forall c, o = Some c -> task_wf P c) ->
  keeps kept (modify (fun s : sys X => with_tasks (<[i := o]> (tasks s)) s)).
Proof.
  intros Ho s Hok. split; [|done]. intros t c. unfold task_at. cbn. destruct (decide (t = i)) as [->|Hne].
  - destruct (decide (i < length (tasks s))%nat) as [Hl|Hl].
    + rewrite list_lookup_insert_eq by done. cbn. apply Ho.
    + rewrite (proj2 (lookup_ge_None _ _)) by (rewrite length_insert; lia). done.
  - rewrite list_lookup_insert_ne by done. apply Hok.
Qed.
(** A task that is read has a well-formed queue of events. *)
Lemma keeps_kept_get {B} t (k : task -> M (sys X) B) :
  (forall c, task_wf P c -> keeps kept (k c)) -> keeps kept (bind (get_task t) k).
Proof.
  intros Hk s. unfold wlp, bind, get_task. cbn. destruct (task_at t s) as [c|] eqn:Ec; [|done]. cbn.
  destruct (k c s) as [a s'|e s'|h] eqn:E; [..|done]; intros Hok;
    pose proof (Hk c (Hok t c Ec) s) as K; unfold wlp in K; rewrite E in K; by apply K.
Qed.
Lemma keeps_get_curr R `{!PreOrder R} : keeps R (get_curr (X := X)).
Proof. unfold get_curr. keeps. Qed.
Lemma keeps_kept_env f : keeps kept (env_call (X := X) f).
Proof. apply keeps_env_call; [apply _|done]. Qed.
End kept.

(** ** What the operations do to a ring *)

Lemma evring_push v e :
  ring_wf v -> event_count v < EVT_MAX -> ring_wf (Events (<[Z.to_nat ((last_event v + 1) mod EVT_MAX) := e]> (event_ v)) (unseen_events v + 1)
    (event_count v + 1) (if event_high v <? event_count v + 1 then event_count v + 1 else event_high v) (first_event v) ((last_event v + 1) mod EVT_MAX)).
Proof.
  intros (Hc & Hl & Hs) Hlt. pose proof (Z.mod_pos_bound (last_event v + 1) EVT_MAX ltac:(done)). split_and!; cbn; try lia.
  unfold in_step, behind in *. cbn. destruct Hs as [Hs|Hs]; [left|right].
  - rewrite Hs, Zplus_mod_idemp_l. f_equal. lia.
  - rewrite Hs, Zplus_mod_idemp_l. f_equal. lia.
Qed.
Lemma evring_same v w :
  (event_count w, first_event w, last_event w) = (event_count v, first_event v, last_event v) -> ring_wf v -> ring_wf w.
Proof. intros [= E1 E2 E3]. unfold ring_wf, in_step, behind. by rewrite E1, E2, E3. Qed.
Lemma evring_pop v l :
  ring_wf v -> event_count v <> 0 ->
  ring_wf (Events l 0 (event_count v - 1) (event_high v) ((first_event v + 1) mod EVT_MAX) (last_event v)).
Proof.
  intros (Hc & Hl & Hs) Hne. split_and!; cbn; try lia. unfold in_step, behind in *. cbn. rewrite Zplus_mod_idemp_l.
  replace (first_event v + 1 + (event_count v - 1)) with (first_event v + event_count v) by lia. done.
Qed.
Lemma evring_fresh l u h : ring_wf (Events l u 0 h 0 (-1)).
Proof. split_and!; [done..|by left]. Qed.
Lemma task0_wf P : task_wf P task0.
Proof. split; [done|]. intros _. split_and!; [done..|by right]. Qed.

Ltac kept_sizes := intros ? [[? (? & ? & ?)] ?]; split; [split; [done|]; split_and!; cbn; rewrite ?length_insert; done|done].
#[local] Hint Resolve keeps_get_task keeps_get_queue keeps_get_curr keeps_kept_put keeps_kept_env : keeps.
#[local] Hint Extern 1 (keeps (kept_if _) (upd_task _ _)) => first [apply keeps_kept_same; done | apply keeps_kept_upd; solve [kept_sizes]] : keeps.
#[local] Hint Extern 1 (keeps (kept_if _) (modify _)) => (apply keeps_kept_modify; done) : keeps.
#[local] Hint Extern 1 (keeps (kept_if _) (modify_env _)) => (apply keeps_kept_modify; done) : keeps.
#[local] Hint Extern 1 (keeps (kept_if _) (panic _)) => done : keeps.
Ltac kept := intros; keeps.

Section kept_ops.
Context {X : Type} `{TaskEnv X} {P : Prop}.
Notation kept := (kept_if P).

Lemma task_insert_kept q t : keeps kept (task_insert (X := X) q t).
Proof. unfold task_insert. kept. Qed.
Lemma task_dequeue_kept q : keeps kept (task_dequeue (X := X) q).
Proof. unfold task_dequeue. kept. Qed.
Lemma task_remove_kept t : keeps kept (task_remove (X := X) t).
Proof. unfold task_remove. kept. Qed.
#[local] Hint Resolve task_insert_kept task_dequeue_kept task_remove_kept : keeps.
Lemma dequeue_ready_kept n q : keeps kept (dequeue_ready (X := X) n q).
Proof. revert q. induction n as [|n IH]; intros q; cbn [dequeue_ready]; kept. Qed.
#[local] Hint Resolve dequeue_ready_kept : keeps.
Lemma pick_loop_kept n : keeps kept (pick_loop (X := X) n).
Proof. induction n as [|n IH]; cbn [pick_loop]; kept. Qed.
#[local] Hint Resolve pick_loop_kept : keeps.
Lemma switch_to_kept p n : keeps kept (switch_to (X := X) p n).
Proof. apply keeps_kept_modify; intros s; by destruct (p =? n)%nat. Qed.
#[local] Hint Resolve switch_to_kept : keeps.
Lemma sched_pick_kept p : keeps kept (sched_pick (X := X) p).
Proof. unfold sched_pick. kept. Qed.
#[local] Hint Resolve sched_pick_kept : keeps.
Lemma sched_kept : keeps kept (sched (X := X)).
Proof. unfold sched, sched_leave. kept. Qed.
#[local] Hint Resolve sched_kept : keeps.
Lemma task_suspend_kept q ty : keeps kept (task_suspend (X := X) q ty).
Proof. unfold task_suspend. kept. Qed.
Lemma task_resume_kept t : keeps kept (task_resume (X := X) t).
Proof. unfold task_resume. kept. Qed.
#[local] Hint Resolve task_suspend_kept task_resume_kept : keeps.
Lemma sys_nice_kept i : keeps kept (sys_nice (X := X) i).
Proof. unfold sys_nice, task_set_prio. kept. Qed.
Lemma signal_send_k_kept p g : keeps kept (signal_send_k (X := X) p g).
Proof. unfold signal_send_k. kept. Qed.
#[local] Hint Resolve signal_send_k_kept : keeps.
Lemma signal_send_kept p g : keeps kept (signal_send (X := X) p g).
Proof. unfold signal_send. kept. Qed.
Lemma signal_fatal_kept p g : keeps kept (signal_fatal (X := X) p g).
Proof. unfold signal_fatal. kept. Qed.
Lemma signal_raise_kept g : keeps kept (signal_raise (X := X) g).
Proof. unfold signal_raise. kept. Qed.
#[local] Hint Resolve signal_fatal_kept signal_raise_kept : keeps.
Lemma task_exec_kept a b : keeps kept (task_exec (X := X) a b).
Proof. unfold task_exec. kept. Qed.
Lemma set_alarm_kept a b : keeps kept (set_alarm (X := X) a b).
Proof. apply keeps_kept_modify; intros s; by repeat case_match. Qed.
#[local] Hint Resolve set_alarm_kept : keeps.
Lemma chk_alarm_kept p : keeps kept (chk_alarm (X := X) p).
Proof. unfold chk_alarm. kept. Qed.
Lemma sys_alarm_kept d : keeps kept (sys_alarm (X := X) d).
Proof. unfold sys_alarm. kept. Qed.
Lemma sys_ualarm_kept d r : keeps kept (sys_ualarm (X := X) d r).
Proof. unfold sys_ualarm. kept. Qed.
Lemma sys_evt_count_kept : keeps kept (sys_evt_count (X := X)).
Proof. unfold sys_evt_count. kept. Qed.
#[local] Hint Resolve sys_nice_kept signal_send_kept task_exec_kept chk_alarm_kept sys_alarm_kept sys_ualarm_kept
  sys_evt_count_kept : keeps.
Lemma chk_alarms_kept n i : keeps kept (chk_alarms (X := X) n i).
Proof. revert i. induction n as [|n IH]; intros i; cbn [chk_alarms]; kept. Qed.
#[local] Hint Resolve chk_alarms_kept : keeps.
Lemma task_at_map f (s : sys X) t : task_at t (with_tasks (map (option_map f) (tasks s)) s) = option_map f (task_at t s).
Proof. unfold task_at. cbn. rewrite list_lookup_fmap. destruct (tasks s !! t) as [[c|]|]; done. Qed.
Lemma clock_second_kept : keeps kept (modify (clock_second (X := X))).
Proof.
  intros s Hok. unfold clock_second. case_match; [|done]. split; [|done]. intros t c.
  change (task_at t (with_tasks (map (option_map sample_cputime) (tasks s)) s) = Some c -> task_wf P c).
  rewrite task_at_map. destruct (task_at t s) as [d|] eqn:E; [|done]. intros [= <-]. by apply (Hok t d).
Qed.
Lemma clock_tick_kept : keeps kept (modify (clock_tick (X := X))).
Proof. apply keeps_kept_modify; intros s; unfold clock_tick; by case_match. Qed.
#[local] Hint Resolve clock_second_kept clock_tick_kept : keeps.
Lemma clock_intr_kept : keeps kept (clock_intr (X := X)).
Proof. unfold clock_intr. kept. Qed.

Lemma send_event_kept t e : keeps kept (send_event (X := X) t e).
Proof.
  unfold send_event. apply keeps_kept_get. intros c [[[Hl Hf] _] Hr]. destruct (Z.leb_spec EVT_MAX (event_count (t_ev c))); [kept|].
  case_match; [kept|]. apply keeps_bind; [apply _| |intros _; kept]. apply keeps_kept_upd. intros d [[_ Hd] _]. split.
  - split; [|done]. split; [by cbn [set_ev t_ev event_]; rewrite length_insert|done].
  - intros HP. apply (evring_push (t_ev c) e); [by apply Hr|done].
Qed.
#[local] Hint Resolve send_event_kept : keeps.
Lemma task_putslot_kept i : keeps kept (task_putslot (X := X) i).
Proof. unfold task_putslot. apply keeps_bind; [apply _|by apply keeps_kept_slot|]. kept. Qed.
Lemma free_slot_kept n i : keeps kept (free_slot (X := X) n i).
Proof. revert i. induction n as [|n IH]; intros i; cbn [free_slot]; kept. Qed.
Lemma newpid_kept : keeps kept (newpid (X := X)).
Proof. unfold newpid. generalize (S TASK_MAX). intros n. induction n as [|n IH]; cbn [newpid_loop]; kept. Qed.
#[local] Hint Resolve task_putslot_kept free_slot_kept newpid_kept : keeps.
Lemma task_getslot_kept : keeps kept (task_getslot (X := X)).
Proof.
  unfold task_getslot. apply keeps_bind; [apply _|kept|]. intros [i|]; [|kept]. apply keeps_bind; [apply _|kept|].
  intros _. apply keeps_bind; [apply _| |kept]. apply keeps_kept_slot. intros c [= <-]. apply task0_wf.
Qed.
#[local] Hint Resolve task_getslot_kept : keeps.
Lemma creat_signals_wf g : signals_wf g -> signals_wf (creat_signals g).
Proof.
  intros (Hr & Hh & Hu). split_and!; cbn; rewrite ?length_app, ?length_zip_with, ?length_fmap, ?length_take, ?length_drop; lia.
Qed.
Lemma exec_handlers_wf g : signals_wf g -> signals_wf (exec_handlers g).
Proof. intros (Hr & Hh & Hu). split_and!; cbn; rewrite ?length_app, ?length_fmap, ?length_take, ?length_drop; lia. Qed.
Lemma fork_copy_wf me l c t : task_wf P c -> task_wf P t -> task_wf P (fork_copy me l c t).
Proof.
  intros [[_ (Hr & Hh & Hu)] _] [[Ht (Hr' & Hh' & Hu')] Hg]. split; [|intros HP; by apply (evring_same (t_ev t)), Hg]. split; [exact Ht|].
  split_and!; cbn; rewrite ?length_app, ?length_take, ?length_drop; lia.
Qed.
#[local] Hint Extern 2 (keeps (kept_if _) (upd_task _ (fun p => set_sig _ p))) =>
  (apply keeps_kept_upd; intros ? [[? ?] ?]; split; [split; [done|by apply creat_signals_wf]|done]) : keeps.
Lemma task_creat_kept name arg : keeps kept (task_creat (X := X) name arg).
Proof.
  unfold task_creat. apply keeps_bind; [apply _|kept|]. intros [e|fqn]; [kept|].
  apply keeps_bind; [apply _|kept|]. intros i. apply keeps_bind; [apply _|kept|]. intros me.
  apply keeps_kept_get. intros c Hc. apply keeps_bind; [apply _|by apply keeps_kept_upd|]. intros _.
  apply keeps_bind; [apply _|kept|]. intros l. apply keeps_bind; [apply _| |intros _; kept].
  apply keeps_kept_upd. intros d [[[Hd _] Hs] _]. split; [split; [split|]; done|intros _; apply evring_fresh].
Qed.
Lemma do_fork_kept : keeps kept (do_fork (X := X)).
Proof.
  unfold do_fork. do 6 (apply keeps_bind; [apply _|kept|]; intros ?). apply keeps_kept_get. intros c Hc.
  apply keeps_bind; [apply _| |intros _; kept]. apply keeps_kept_upd. intros d Hd. by apply fork_copy_wf.
Qed.
Lemma orphan_loop_kept n i me : keeps kept (orphan_loop (X := X) n i me).
Proof. revert i. induction n as [|n IH]; intros i; cbn [orphan_loop]; kept. Qed.
#[local] Hint Resolve orphan_loop_kept : keeps.
Lemma task_exit_kept st : keeps kept (task_exit (X := X) st).
Proof. unfold task_exit. kept. Qed.
#[local] Hint Resolve task_exit_kept : keeps.
Lemma adopt_exited_kept n i me ini : keeps kept (adopt_exited (X := X) n i me ini).
Proof. revert i. induction n as [|n IH]; intros i; cbn [adopt_exited]; kept. Qed.
Lemma raise_exited_kept n i me : keeps kept (raise_exited (X := X) n i me).
Proof. revert i. induction n as [|n IH]; intros i; cbn [raise_exited]; kept. Qed.
#[local] Hint Resolve adopt_exited_kept raise_exited_kept : keeps.
Lemma setup_chld_kept h : keeps kept (setup_chld (X := X) h).
Proof. unfold setup_chld. kept. Qed.
#[local] Hint Resolve setup_chld_kept : keeps.
Lemma sys_signal_kept g h : keeps kept (sys_signal (X := X) g h).
Proof. unfold sys_signal. kept. Qed.
Lemma sys_evt_signal_kept g h : keeps kept (sys_evt_signal (X := X) g h).
Proof. unfold sys_evt_signal. kept. Qed.
Lemma find_child_kept n i me w b : keeps kept (find_child (X := X) n i me w b).
Proof. revert i b. induction n as [|n IH]; intros i b; cbn [find_child]; kept. Qed.
#[local] Hint Resolve find_child_kept : keeps.
Lemma xwait_kept w b : keeps kept (sys___xwait (X := X) w b).
Proof. unfold sys___xwait. kept. Qed.
Lemma signal_default_kept i : keeps kept (signal_default (X := X) i).
Proof. unfold signal_default. kept. Qed.
Lemma upush_kept v : keeps kept (upush (X := X) v).
Proof. unfold upush. kept. Qed.
#[local] Hint Resolve signal_default_kept upush_kept : keeps.
Lemma signal_dispatch_kept r i : keeps kept (signal_dispatch (X := X) r i).
Proof. unfold signal_dispatch, signal_push. kept. Qed.
#[local] Hint Resolve signal_dispatch_kept : keeps.
Lemma handle_loop_kept n r i : keeps kept (handle_loop (X := X) n r i).
Proof. revert i. induction n as [|n IH]; intros i; cbn [handle_loop]; kept. Qed.
#[local] Hint Resolve handle_loop_kept : keeps.
Lemma signal_handle_kept r : keeps kept (signal_handle (X := X) r).
Proof.
  unfold signal_handle. apply keeps_bind; [apply _|kept|]. intros me. apply keeps_bind; [apply _|kept|].
  intros c. generalize (S (length (signal_handler (t_sig c)))). intros n. induction n as [|n IH]; cbn [handle_rounds]; kept.
Qed.
Lemma do_exec_kept : keeps kept (do_exec (X := X)).
Proof.
  unfold do_exec. apply keeps_bind; [apply _|kept|]. intros me. apply keeps_bind; [apply _| |intros _].
  { apply keeps_kept_upd. intros c [[He Hs] Hr]. split; [|exact Hr]. split; [exact He|]. by apply exec_handlers_wf. }
  do 3 (apply keeps_bind; [apply _|kept|intros _]). apply keeps_bind; [apply _| |intros _; kept].
  apply keeps_kept_upd. intros d [[[Hd _] Hs] _]. split; [split; [split|]; done|intros _; apply evring_fresh].
Qed.
(** [evt_take] is called when there is an event. *)
Lemma evt_take_kept me s :
  (forall c, task_at me s = Some c -> event_count (t_ev c) <> 0) -> wlp (evt_take (X := X) me) (fun _ => kept s) (fun _ => kept s) s.
Proof.
  intros Hne. unfold evt_take, wlp, bind at 1, get_task. cbn. destruct (task_at me s) as [c|] eqn:Ec; [|done]. cbn.
  specialize (Hne c eq_refl). match goal with |- match ?m s with _ => _ end => set (k := m) end.
  assert (task_wf P c -> keeps kept k) as Hk.
  { intros [[[Hl Hf] _] Hr]. subst k. apply keeps_bind; [apply _|kept|]. intros e.
    assert (forall v, length (event_ v) = length (event_ (t_ev c)) -> 0 <= first_event v < EVT_MAX -> (P -> ring_wf v) ->
      keeps kept (upd_task (X := X) me (set_ev v))) as Hu.
    { intros v H1 H2 H3. apply keeps_kept_upd. intros d [[_ Hd] _]. split; [|exact H3]. split; [|done]. split; [by cbn; rewrite H1|done]. }
    apply keeps_bind; [apply _|apply Hu; [by cbn; rewrite length_insert|done|intros HP; by apply (evring_same (t_ev c)), Hr]|]. intros _.
    apply keeps_bind; [apply _|kept|]. intros _. apply keeps_bind; [apply _|apply Hu|kept].
    - cbn. by rewrite length_insert.
    - cbn. apply Z.mod_pos_bound. done.
    - intros HP. apply evring_pop; [by apply Hr|done]. }
  destruct (k s) as [a s'|e s'|h] eqn:E; [..|done]; intros Hok; specialize (Hk (Hok me c Ec) s); unfold wlp in Hk; rewrite E in Hk; by apply Hk.
Qed.
Lemma evt_wait_kept : keeps kept (sys__evt_wait (X := X)).
Proof.
  unfold sys__evt_wait. generalize 2%nat. intros n. induction n as [|n IH]; cbn [evt_wait]; apply keeps_bind; [apply _|kept| |apply _|kept|].
  all: intros me s; unfold wlp, bind at 1, get_task; cbn; destruct (task_at me s) as [c|] eqn:Ec; [|done]; cbn.
  all: destruct (Z.eqb_spec (event_count (t_ev c)) 0) as [Hz|Hz]; cbn [negb].
  2, 4: apply wlp_bind; eapply wlp_mono; [apply (evt_take_kept me s)|done|done]; intros d Ed; congruence.
  all: lazymatch goal with |- match ?m ?s0 with _ => _ end => cut (keeps kept m); [intros Hk; exact (Hk s0)|] end; kept.
Qed.
Lemma settimeofday_kept tv : keeps kept (sys_settimeofday (X := X) tv).
Proof. unfold sys_settimeofday. kept. Qed.
End kept_ops.
