(* ===== verification/Mutex.v ===== *)
(** Recursive mutexes over the task queues (kern/mutex.c).

    [mtx_enter] ends at the point where the task waits; what it does when it
    runs again is [mtx_again], the loop.  [tq] is the queue inside of the mutex.

    [stays_off q s s']: from [s] to [s'] no task has come to wait on queue [q].  The
    history of a mutex interleaves its operations with steps of the rest of the
    system that keep the tasks consistent and let no task join its queue. *)

From S2P Require Import Prelude Frame Tasks TaskSys TaskQueueOk TaskOk TaskSched TaskInv TaskLife TaskSysOk TaskKept.

Record mutex := Mutex { tq : nat; owner : option nat; lockcnt : Z }.

(** The state of the tasks and one mutex. *)
Definition mstate (X : Type) : Type := sys X * mutex.

Section ops.
Context {X : Type} `{TaskEnv X}.

Definition on_sys {A} (m : M (sys X) A) : M (mstate X) A := zoom fst (fun s st => (s, st.2)) m.
Definition set_mutex (f : mutex -> mutex) : M (mstate X) unit := modify (fun st => (st.1, f st.2)).
Definition set_lock (o : option nat) (n : Z) (m : mutex) : mutex := Mutex (tq m) o n.

Definition mtx_init (q : nat) : M (mstate X) unit :=
  set_mutex (fun _ => Mutex q None 0);;;
  on_sys (task_qinit q).

(** The [while (mtx->lockcnt)] loop up to the next wait, and what follows it. *)
Definition mtx_again (wait : Z) : M (mstate X) (progress unit) :=
  me <~ gets (fun st => curr st.1);;
  m <~ gets snd;;
  if negb (lockcnt m =? 0) then
    if wait =? 0 then fail EAGAIN
    else on_sys (task_suspend (Some (tq m)) wait);;; ret Wait
  else
    set_mutex (set_lock me 1);;;
    ret (Done tt).

Definition mtx_enter (wait : Z) : M (mstate X) (progress unit) :=
  me <~ gets (fun st => curr st.1);;
  m <~ gets snd;;
  if bool_decide (owner m = None) then
    set_mutex (set_lock me 1);;;
    ret (Done tt)
  else if bool_decide (owner m = me) then
    if INT_MAX <? lockcnt m + 1 then halted Undefined else
    set_mutex (set_lock (owner m) (lockcnt m + 1));;;
    ret (Done tt)
  else mtx_again wait.

(** [while (t = task_dequeue (&mtx->tq), t != NULL) task_resume (t)]: a task is
    on at most one queue, so that there are at most [TASK_MAX] rounds. *)
Fixpoint resume_waiters (fuel : nat) (q : nat) : M (sys X) unit :=
  match fuel with
  | O => halted Undefined
  | S fuel' =>
    t <~ task_dequeue q;;
    match t with
    | None => ret tt
    | Some t => task_resume t;;; resume_waiters fuel' q
    end
  end.

Definition mtx_leave : M (mstate X) unit :=
  me <~ gets (fun st => curr st.1);;
  m <~ gets snd;;
  if negb (bool_decide (owner m = me)) then panic "mtx_leave: mtx->owner != curr"
  else
    let n := lockcnt m - 1 in
    set_mutex (set_lock (owner m) n);;;
    if negb (n =? 0) then ret tt
    else
      set_mutex (set_lock None n);;;
      on_sys (resume_waiters (S TASK_MAX) (tq m)).
End ops.

(** * Correctness *)

Section joined.
Context {X : Type} `{TaskEnv X}.
Implicit Types s : sys X.

Definition waits_on (q : nat) (c : task) : Prop := queue (t_links c) = Some q.
Definition prios_ok s : Prop := forall t c, task_at t s = Some c -> 0 <= priority (t_run c) <= TASK_PRIO_LOW.
Definition stays_off (q : nat) s s' : Prop :=
  forall t c', task_at t s' = Some c' -> waits_on q c' -> exists c, task_at t s = Some c /\ waits_on q c.
Definition joins_not (q : nat) s s' : Prop := prios_ok s -> prios_ok s' /\ stays_off q s s'.

#[export] Instance joins_not_preorder q : PreOrder (joins_not q).
Proof.
  split; [intros s Hp; split; [done|by intros t c; eauto]|]. intros s1 s2 s3 J1 J2 Hp. destruct (J1 Hp) as [Hp2 O1].
  destruct (J2 Hp2) as [Hp3 O2]. split; [done|]. intros t c E Hw. destruct (O2 t c E Hw) as (c2 & E2 & Hw2). eauto.
Qed.
Lemma joins_not_upd q t f :
  (forall c, priority (t_run (f c)) = priority (t_run c)) -> (forall c, waits_on q (f c) -> waits_on q c) ->
  keeps (joins_not q) (upd_task (X := X) t f).
Proof.
  intros Hp Hf s Hs. split.
  - intros u c E. rewrite task_at_upd in E. case_decide; [subst|by apply (Hs u)]. destruct (task_at t s) as [d|] eqn:Ed; [|done].
    simplify_eq/=. rewrite Hp. by apply (Hs t).
  - intros u c E Hw. rewrite task_at_upd in E. case_decide; [subst|eauto]. destruct (task_at t s) as [d|] eqn:Ed; [|done].
    simplify_eq/=. eauto.
Qed.
Lemma joins_not_modify q (h : sys X -> sys X) : (forall s, tasks (h s) = tasks s) -> keeps (joins_not q) (modify h).
Proof.
  intros Ht s Hs. assert (forall t, task_at t (h s) = task_at t s) as E by (intros t; unfold task_at; by rewrite Ht).
  split; [intros t c; rewrite E; apply Hs|]. intros t c. rewrite E. eauto.
Qed.
Lemma joins_not_put q q' v : keeps (joins_not q) (put_queue (X := X) q' v).
Proof. by apply joins_not_modify. Qed.
Lemma joins_not_get {B} q t (k : task -> M (sys X) B) :
  (forall c, 0 <= priority (t_run c) <= TASK_PRIO_LOW -> keeps (joins_not q) (k c)) -> keeps (joins_not q) (bind (get_task t) k).
Proof.
  intros Hk s. unfold wlp, bind, get_task. cbn. destruct (task_at t s) as [c|] eqn:Ec; [|done]. cbn.
  destruct (k c s) as [a s'|e s'|h] eqn:E; [..|done]; intros Hok;
    pose proof (Hk c (Hok t c Ec) s) as K; unfold wlp in K; rewrite E in K; by apply K.
Qed.
End joined.

#[local] Hint Resolve keeps_get_task keeps_get_queue keeps_get_curr joins_not_put : keeps.
#[local] Hint Extern 1 (keeps (joins_not _) (upd_task _ _)) => (apply joins_not_upd; done) : keeps.
#[local] Hint Extern 1 (keeps (joins_not _) (modify _)) => (apply joins_not_modify; done) : keeps.
#[local] Hint Extern 1 (keeps (joins_not _) (panic _)) => done : keeps.

Section ops.
Context {X : Type} `{TaskEnv X}.
Implicit Types (s : sys X) (st : mstate X).

Lemma task_insert_joins q q' t : q' <> q -> keeps (joins_not q) (task_insert (X := X) q' t).
Proof.
  intros Hne. assert (forall u p n, keeps (joins_not q) (upd_task (X := X) u (set_links (Links (Some q') p n)))) as Hl.
  { intros u p n. apply joins_not_upd; [done|]. intros c. unfold waits_on. cbn. congruence. }
  unfold task_insert. keeps; auto.
Qed.
Lemma task_remove_joins q t : keeps (joins_not q) (task_remove (X := X) t).
Proof. unfold task_remove. keeps. Qed.
#[local] Hint Resolve task_remove_joins : keeps.
Lemma task_dequeue_joins q q' : keeps (joins_not q) (task_dequeue (X := X) q').
Proof. unfold task_dequeue. keeps. Qed.
Lemma task_resume_joins q t : (NREADY <= q)%nat -> keeps (joins_not q) (task_resume (X := X) t).
Proof.
  intros Hq. unfold task_resume. apply joins_not_get. intros c Hp.
  assert (keeps (joins_not q) (task_insert (X := X) (Z.to_nat (priority (t_run c))) t)) as Hi.
  { apply task_insert_joins. unfold NREADY, TASK_PRIO_LOW in *. lia. }
  keeps; auto.
Qed.

Lemma sys_prios s : sys_ok s -> prios_ok s.
Proof. intros Hok t c E. destruct (sk_placed _ (so_sched _ Hok)) as [Q Hp]. by apply (pl_prio _ _ _ Hp t). Qed.
Lemma joins_run {A} q (m : M (sys X) A) s a s' : keeps (joins_not q) m -> sys_ok s -> m s = Ret a s' -> stays_off q s s'.
Proof. intros Hk Hok E. specialize (Hk s). unfold wlp in Hk. rewrite E in Hk. by apply Hk, sys_prios. Qed.

Definition deserted (q : nat) s : Prop := forall t c, task_at t s = Some c -> ~ waits_on q c.

Lemma deserted_queue s Q Hs q l : placed s Q Hs -> Q !! q = Some l -> deserted q s <-> l = [].
Proof.
  intros Hp Hl. split.
  - intros Hd. destruct l as [|t l]; [done|]. destruct (qd_seg _ _ _ (pl_queued _ _ _ Hp) _ _ Hl) as [[Hlk _] _].
    unfold lk in Hlk. destruct (task_at t s) as [c|] eqn:Ec; [|done]. injection Hlk as Hlk. destruct (Hd t c Ec). unfold waits_on. by rewrite Hlk.
  - intros -> t c Ec Hw. assert (lk s t = Some (t_links c)) as El by (unfold lk; by rewrite Ec).
    apply (queued_member _ _ _ _ _ _ (pl_queued _ _ _ Hp) El) in Hw as (l & Hl' & Ht). simplify_eq. by apply not_elem_of_nil in Ht.
Qed.

(** Taking the first waiting task off its queue. *)
Lemma dequeue_waiter s Q q t l :
  sys_ok s -> placed s Q (current s) -> (NREADY <= q)%nat -> Q !! q = Some (t :: l) ->
  exists s1 c, task_dequeue q s = Ret (Some t) s1 /\ sys_ok s1 /\ steady s s1 /\ placed s1 (<[q := l]> Q) (current s1) /\
    task_at t s1 = Some c /\ exited (t_run c) = false.
Proof.
  intros Hok Hp Hq Hl. destruct (placed_dequeue s Q (current s) q t l Hp Hl) as (s1 & E & Hb & Hp1 & Hnot).
  destruct (qd_seg _ _ _ (pl_queued _ _ _ Hp) _ _ Hl) as [[Hlk _] _]. unfold lk in Hlk.
  destruct (task_at t s) as [c0|] eqn:Ec0; [|done]. injection Hlk as Hlk.
  pose proof (pl_queue _ _ _ Hp t c0 q Ec0 ltac:(by rewrite Hlk)) as Hg. unfold good_place in Hg. rewrite (proj2 (Nat.ltb_ge q NREADY)) in Hg by done.
  pose proof (pl_exit _ _ _ Hp t c0 Ec0) as Hx. pose proof Hb as (_ & _ & Hbt). specialize (Hbt t). rewrite Ec0 in Hbt.
  destruct (task_at t s1) as [c|] eqn:Ec; [|done]. apply (inj Some), same_body_run in Hbt.
  destruct (same_body_curr _ _ Hb) as (Hcu & Hid & _). assert (current s1 = current s) as Hcs by (unfold current; by rewrite Hcu).
  assert (placed s1 (<[q := l]> Q) (current s1)) as Hp1'.
  { rewrite Hcs. eapply placed_drop; [exact Hp1|exact Ec|]. unfold runnable. rewrite Hbt. apply andb_false_iff. right. by apply Z.eqb_neq. }
  assert (length (queues s1) = length (queues s)) as Hql by (eapply placed_qlen; [exact Hp|exact Hp1|apply length_insert]).
  assert (hushed s s1) as Hh by (apply same_calm_upto; [by apply same_body_calm|done]).
  assert (sched_ok s1) as Hs1.
  { split; [by eexists|by apply (same_body_counted s), (so_sched _ Hok)| |].
    - intros me Em. rewrite Hcu in Em. destruct (sys_curr s me Hok Em) as (d & Ed & Hr).
      destruct (same_calm_task _ _ _ _ (same_body_calm _ _ Hb) Ed) as (d1 & Ed1 & Cd). exists d1. split; [done|].
      by rewrite (runnable_view _ _ (calm_view _ _ Cd)).
    - rewrite Hcu, Hid. apply (sk_idle _ (so_sched _ Hok)). }
  exists s1, c. split; [done|]. split; [by apply (sys_ok_hushed s)|].
  split; [by apply wakes_steady, same_calm_wakes; [apply same_body_calm|]|]. split; [done|]. split; [done|].
  rewrite Hbt. destruct (exited (t_run c0)); [|done]. by destruct (Hx eq_refl).
Qed.

(** The loop of [mtx_leave] ends, and no task waits for the mutex any more. *)
Lemma resume_waiters_ok fuel q s Q l :
  sys_ok s -> placed s Q (current s) -> (NREADY <= q)%nat -> Q !! q = Some l -> (length l < fuel)%nat ->
  exists s', resume_waiters fuel q s = Ret tt s' /\ sys_ok s' /\ steady s s' /\ deserted q s'.
Proof.
  revert s Q l. induction fuel as [|fuel IH]; intros s Q l Hok Hp Hq Hl Hf; [lia|]. cbn [resume_waiters]. destruct l as [|t l].
  - rewrite (bind_run _ _ _ _ _ (task_dequeue_empty s Q q (pl_queued _ _ _ Hp) Hl)). exists s.
    split_and!; [done|done|reflexivity|by apply (deserted_queue s Q (current s) q [])].
  - destruct (dequeue_waiter s Q q t l Hok Hp Hq Hl) as (s1 & c & E1 & Hok1 & St1 & Hp1 & Ec & Hx). rewrite (bind_run _ _ _ _ _ E1).
    destruct (task_resume_sys s1 t c Hok1 Ec Hx) as (s2 & E2 & Hok2 & St2). rewrite (bind_run _ _ _ _ _ E2).
    destruct (sk_placed _ (so_sched _ Hok2)) as [Q2 Hp2].
    pose proof (joins_run q _ s1 tt s2 (task_resume_joins q t Hq) Hok1 E2) as Ho.
    assert (exists l2, Q2 !! q = Some l2 /\ (length l2 <= length l)%nat) as (l2 & Hl2 & Hle).
    { assert (length Q2 = length Q) as HQ.
      { rewrite (qd_len _ _ _ (pl_queued _ _ _ Hp2)), (qd_len _ _ _ (pl_queued _ _ _ Hp)).
        destruct St1 as ((_&E&_)&_), St2 as ((_&E'&_)&_). congruence. }
      destruct (lookup_lt_is_Some_2 Q2 q) as [l2 Hl2]; [rewrite HQ; by eapply lookup_lt_Some|]. exists l2. split; [done|].
      destruct (qd_seg _ _ _ (pl_queued _ _ _ Hp2) _ _ Hl2) as [Hseg Hnd]. apply submseteq_length, NoDup_submseteq; [done|].
      intros u Hu. destruct (dseg_mem _ _ _ _ _ _ Hseg Hu) as (k & Ek & Eq). unfold lk in Ek.
      destruct (task_at u s2) as [d|] eqn:Ed; [|done]. injection Ek as Ek. destruct (Ho u d Ed) as (d1 & Ed1 & Hw1); [unfold waits_on; congruence|].
      assert (lk s1 u = Some (t_links d1)) as El by (unfold lk; by rewrite Ed1).
      apply (queued_member _ _ _ _ _ _ (pl_queued _ _ _ Hp1) El) in Hw1 as (l1 & Hl1 & Hu1).
      rewrite list_lookup_insert_eq in Hl1 by (by eapply lookup_lt_Some). by simplify_eq. }
    destruct (IH s2 Q2 l2 Hok2 Hp2 Hq Hl2 ltac:(cbn in Hf; lia)) as (s' & E' & Hok' & St' & Hd). exists s'.
    split_and!; [done|done| |done]. transitivity s1; [done|]. by transitivity s2.
Qed.

(** A queue has no more members than there are tasks. *)
Lemma queue_short s Q Hs q l : placed s Q Hs -> Q !! q = Some l -> (length l <= TASK_MAX)%nat.
Proof.
  intros Hp Hl. destruct (qd_seg _ _ _ (pl_queued _ _ _ Hp) _ _ Hl) as [Hseg Hnd].
  rewrite <- (length_seq TASK_MAX 0). apply submseteq_length, NoDup_submseteq; [done|]. intros u Hu.
  destruct (dseg_mem _ _ _ _ _ _ Hseg Hu) as (k & Ek & _). unfold lk in Ek. destruct (task_at u s) as [d|] eqn:Ed; [|done].
  apply task_at_lookup, lookup_lt_Some in Ed. rewrite (pl_len _ _ _ Hp) in Ed. apply elem_of_seq. lia.
Qed.

(** The tasks that wait on [q] are resumed. *)
Lemma wake_queue s q : sys_ok s -> (NREADY <= q < length (queues s))%nat ->
  exists s', resume_waiters (S TASK_MAX) q s = Ret tt s' /\ sys_ok s' /\ steady s s' /\ deserted q s'.
Proof.
  intros Hok Hq. destruct (sk_placed _ (so_sched _ Hok)) as [Q Hp].
  destruct (lookup_lt_is_Some_2 Q q) as [l Hl]; [rewrite (qd_len _ _ _ (pl_queued _ _ _ Hp)); lia|].
  apply (resume_waiters_ok (S TASK_MAX) q s Q l Hok Hp); [lia|done|]. by apply Nat.lt_succ_r, (queue_short s Q (current s) q).
Qed.

(** * Histories of one mutex *)

(** How often each task is inside, and the tasks that wait inside of [mtx_enter]. *)
Record ghost := Ghost { inside : nat -> Z; waiting : gset nat }.
Definition bump (me : nat) (d : Z) (h : nat -> Z) : nat -> Z := fun t => h t + (if (t =? me)%nat then d else 0).
Definition entered (me : nat) (r : outcome (mstate X) (progress unit)) (g : ghost) : option (mstate X * ghost) :=
  match r with
  | Ret (Done _) st => Some (st, Ghost (bump me 1 (inside g)) (waiting g ∖ {[me]}))
  | Ret Wait st => Some (st, Ghost (inside g) ({[me]} ∪ waiting g))
  | Err _ st => Some (st, Ghost (inside g) (waiting g ∖ {[me]}))
  | Halt _ => None
  end.
Definition wait_type (w : Z) : Prop := w = 0 \/ w = WAIT_INTR \/ w = WAIT_NOINTR.

Inductive mtx_step : mstate X * ghost -> mstate X * ghost -> Prop :=
| do_enter st g me w x :
  curr st.1 = Some me -> me ∉ waiting g -> inside g me < INT_MAX -> wait_type w ->
  entered me (mtx_enter w st) g = Some x -> mtx_step (st, g) x
| do_again st g me w x :
  curr st.1 = Some me -> me ∈ waiting g -> wait_type w ->
  entered me (mtx_again w st) g = Some x -> mtx_step (st, g) x
| do_leave st g me st' :
  curr st.1 = Some me -> me ∉ waiting g -> 0 < inside g me ->
  mtx_leave st = Ret tt st' -> mtx_step (st, g) (st', Ghost (bump me (-1) (inside g)) (waiting g))
| do_other s m g s' :
  sys_ok s' -> length (queues s') = length (queues s) -> stays_off (tq m) s s' -> mtx_step ((s, m), g) ((s', m), g).

Record mtx_ok (st : mstate X) (g : ghost) : Prop := MtxOk {
  mo_sys : sys_ok st.1;
  mo_tq : (NREADY <= tq st.2 < length (queues st.1))%nat;
  mo_count : 0 <= lockcnt st.2 /\ (owner st.2 = None <-> lockcnt st.2 = 0);
  mo_free : lockcnt st.2 = 0 -> deserted (tq st.2) st.1;
  mo_inside : forall t, inside g t = if decide (owner st.2 = Some t) then lockcnt st.2 else 0;
  mo_waiting : forall t, t ∈ waiting g -> owner st.2 <> Some t
}.

(** One round of the loop of [mtx_enter]: the mutex is taken, or it is another
    task's and nothing about it changes. *)
Lemma mtx_again_ok st g me w : mtx_ok st g -> curr st.1 = Some me -> wait_type w ->
  match mtx_again w st with
  | Ret (Done _) st' => st' = (st.1, set_lock (Some me) 1 st.2) /\ lockcnt st.2 = 0
  | Ret Wait st' | Err _ st' => st'.2 = st.2 /\ sys_ok st'.1 /\ length (queues st'.1) = length (queues st.1) /\ lockcnt st.2 <> 0
  | Halt _ => False
  end.
Proof.
  intros [Hok Htq _ _ _ _] Hcu Hw. destruct st as [s m]. cbn [fst snd] in *. unfold mtx_again. rewrite !gets_bind. cbn [fst snd].
  destruct (Z.eqb_spec (lockcnt m) 0) as [Hz|Hz]; cbn [negb].
  - unfold set_mutex. rewrite modify_bind. cbn [ret]. by rewrite Hcu.
  - destruct (Z.eqb_spec w 0) as [->|Hw0]; [done|]. destruct (sys_curr s me Hok Hcu) as (c & Ec & _).
    pose proof (task_suspend_sys s (Some (tq m)) w me c Hok Hcu Ec Htq ltac:(destruct Hw as [?|[?|?]]; auto; lia)) as Hs.
    unfold wp in Hs. unfold bind, on_sys, zoom. cbn [fst snd]. destruct (task_suspend (Some (tq m)) w s) as [[] s'|e s'|h]; [..|done]; cbn [ret fst snd].
    + destruct Hs as (Hok' & (_&Hq&_) & _). done.
    + destruct Hs as (_ & Hok' & ((_&Hq&_) & _) & _). done.
Qed.

Lemma entered_ok st g me w x : mtx_ok st g -> curr st.1 = Some me -> wait_type w -> owner st.2 <> Some me ->
  entered me (mtx_again w st) g = Some x -> mtx_ok x.1 x.2.
Proof.
  intros Hm Hcu Hw Hne. pose proof (mtx_again_ok st g me w Hm Hcu Hw) as Ha. destruct Hm as [Hok Htq [Hn Ho] Hf Hi Hwa].
  destruct (mtx_again w st) as [[[]|] s1|e s1|h]; cbn [entered]; [| | |done]; intros [= <-]; cbn [fst snd].
  - destruct Ha as [-> Hz]. split; cbn [fst snd set_lock owner lockcnt tq inside waiting]; try done.
    + intros t. unfold bump. rewrite Hi, (proj2 Ho Hz). rewrite decide_False by done. destruct (Nat.eqb_spec t me) as [->|Ht].
      * by rewrite decide_True.
      * rewrite decide_False; [done|congruence].
    + intros t Ht. set_solver.
  - destruct Ha as (E & Hok' & Hq & Hz). split; rewrite ?E, ?Hq; try done. intros t. cbn. set_solver.
  - destruct Ha as (E & Hok' & Hq & Hz). split; rewrite ?E, ?Hq; try done. intros t. cbn. set_solver.
Qed.

(** [mtx_enter] by the owner counts, otherwise it is a round of the loop. *)
Lemma mtx_enter_ok st g me w : mtx_ok st g -> curr st.1 = Some me -> inside g me < INT_MAX ->
  mtx_enter w st = if decide (owner st.2 = Some me) then Ret (Done tt) (st.1, set_lock (Some me) (lockcnt st.2 + 1) st.2) else mtx_again w st.
Proof.
  intros [Hok Htq [Hn Ho] Hf Hi Hwa] Hcu Hlt. destruct st as [s m]. cbn [fst snd] in *. unfold mtx_enter. rewrite !gets_bind. cbn [fst snd].
  specialize (Hi me). rewrite Hcu. case_decide as Hd.
  - rewrite bool_decide_false by congruence. rewrite bool_decide_true by done.
    rewrite (proj2 (Z.ltb_ge _ _)) by lia. unfold set_mutex. rewrite modify_bind. cbn. by rewrite Hd.
  - destruct (decide (owner m = None)) as [Hnone|Hnone].
    + rewrite bool_decide_true by done. unfold mtx_again. rewrite !gets_bind. cbn [fst snd]. rewrite (proj1 Ho Hnone), Hcu. done.
    + rewrite !bool_decide_false by done. done.
Qed.

Lemma mtx_leave_ok st g me : mtx_ok st g -> curr st.1 = Some me -> 0 < inside g me ->
  exists st', mtx_leave st = Ret tt st' /\ mtx_ok st' (Ghost (bump me (-1) (inside g)) (waiting g)).
Proof.
  intros [Hok Htq [Hn Ho] Hf Hi Hwa] Hcu Hin. destruct st as [s m]. cbn [fst snd] in *. unfold mtx_leave. rewrite !gets_bind. cbn [fst snd].
  pose proof (Hi me) as Hme. case_decide as Hd; [|lia]. rewrite Hcu, bool_decide_true by done. cbn [negb]. unfold set_mutex. rewrite modify_bind. cbn [fst snd].
  assert (forall t, bump me (-1) (inside g) t = if decide (owner m = Some t) then lockcnt m - 1 else 0) as Hb.
  { intros t. unfold bump. rewrite Hi. destruct (Nat.eqb_spec t me) as [->|Ht]; [rewrite !decide_True by done; lia|].
    rewrite decide_False by congruence. rewrite decide_False by congruence. done. }
  destruct (Z.eqb_spec (lockcnt m - 1) 0) as [Hz|Hz]; cbn [negb].
  - rewrite modify_bind. cbn [fst snd]. destruct (sk_placed _ (so_sched _ Hok)) as [Q Hp].
    destruct (lookup_lt_is_Some_2 Q (tq m)) as [l Hl]; [rewrite (qd_len _ _ _ (pl_queued _ _ _ Hp)); lia|].
    destruct (resume_waiters_ok (S TASK_MAX) (tq m) s Q l Hok Hp ltac:(lia) Hl) as (s' & E & Hok' & ((_&Hq&_)&_) & Hdes).
    { by apply Nat.lt_succ_r, (queue_short s Q (current s) (tq m)). }
    exists (s', set_lock None (lockcnt m - 1) (set_lock (owner m) (lockcnt m - 1) m)). split; [unfold on_sys, zoom; cbn [fst snd]; by rewrite E|].
    split; cbn [fst snd set_lock owner lockcnt tq inside waiting]; try done; [by rewrite Hq|split; [lia|by split; [lia|]]|].
    intros t. rewrite Hb. repeat case_decide; done || lia.
  - eexists. split; [reflexivity|]. split; cbn [fst snd set_lock owner lockcnt tq inside waiting]; try done.
    split; [lia|]. rewrite Hd. split; [done|lia].
Qed.

Lemma mtx_step_ok x y : mtx_step x y -> mtx_ok x.1 x.2 -> mtx_ok y.1 y.2.
Proof.
  intros [st g me w x' Hcu Hnw Hlt Hw E|st g me w x' Hcu Hwa Hw E|st g me st' Hcu Hnw Hin E|s m g s' Hok' Hq Ho] Hm; cbn [fst snd] in *.
  - rewrite (mtx_enter_ok st g me w Hm Hcu Hlt) in E. case_decide as Hd; [|by eapply entered_ok]. cbn in E. simplify_eq. cbn [fst snd].
    destruct Hm as [Hok Htq [Hn Hoz] Hf Hi Hwt]. split; cbn [fst snd set_lock owner lockcnt tq inside waiting]; try done.
    + split; [lia|]. split; [done|lia].
    + lia.
    + intros t. unfold bump. rewrite Hi, Hd. destruct (Nat.eqb_spec t me) as [->|Ht]; [by rewrite !decide_True|].
      rewrite !decide_False by congruence. done.
    + intros t Ht. set_solver.
  - eapply entered_ok; [done|done|done| |exact E]. by apply (mo_waiting _ _ Hm).
  - destruct (mtx_leave_ok st g me Hm Hcu Hin) as (st1 & E1 & Hm1). by assert (st1 = st') as <- by congruence.
  - destruct Hm as [Hok Htq Hc Hf Hi Hwt]. split; cbn [fst snd] in *; try done; [by rewrite Hq|].
    intros Hz t c Ec Hwo. destruct (Ho t c Ec Hwo) as (d & Ed & Hd). by apply (Hf Hz t d).
Qed.
Lemma mtx_reach_ok x y : rtc mtx_step x y -> mtx_ok x.1 x.2 -> mtx_ok y.1 y.2.
Proof. induction 1 as [|x y z Hs _ IH]; [done|]. intros Hm. by apply IH, (mtx_step_ok x). Qed.

(** C10. A mutex excludes: however [mtx_enter], its waiting loop, [mtx_leave] and
    steps of the rest of the system interleave, two tasks are never both inside;
    a task leaves as often as it has entered before another one comes in; no task
    waits for a mutex that is free; and the operations return, without [panic]. *)
Theorem mutex_excludes s q st g :
  sys_ok s -> (NREADY <= q < length (queues s))%nat -> deserted q s ->
  rtc mtx_step ((s, Mutex q None 0), Ghost (fun _ => 0) ∅) (st, g) ->
  (forall t u, 0 < inside g t -> 0 < inside g u -> t = u) /\
  (lockcnt st.2 = 0 -> deserted (tq st.2) st.1) /\
  (forall me, curr st.1 = Some me -> 0 < inside g me -> exists st', mtx_leave st = Ret tt st') /\
  (forall me w h, curr st.1 = Some me -> inside g me < INT_MAX -> wait_type w -> mtx_enter w st <> Halt h).
Proof.
  intros Hok Hq Hd Hr. assert (mtx_ok st g) as Hm.
  { apply (mtx_reach_ok _ _ Hr). split; cbn; try done; intros t; set_solver. }
  pose proof Hm as [Hok' Htq [Hn Ho] Hf Hi Hwt]. split_and!.
  - intros t u. rewrite !Hi. repeat case_decide; try lia. congruence.
  - done.
  - intros me Hcu Hin. destruct (mtx_leave_ok st g me Hm Hcu Hin) as (st' & E & _). eauto.
  - intros me w h Hcu Hlt Hw. rewrite (mtx_enter_ok st g me w Hm Hcu Hlt). case_decide; [done|].
    pose proof (mtx_again_ok st g me w Hm Hcu Hw) as Ha. by destruct (mtx_again w st).
Qed.
End ops.
