(* ===== verification/MsgQueue.v ===== *)
(** Message queues (kern/mqueue.c): a ring of items of a fixed size with queues of
    tasks that wait for room and for items.

    [mq_put] and [mq_get] end at the point where the task waits; when it runs
    again, it goes on with the loop, which is the whole function.  [size_t] has 64
    bits.

    They are queues for items of one byte.  With larger items they are not: [mq_put]
    and [mq_get] count places in bytes and not in items, see [mq_items_overlap]. *)

From S2P Require Import Prelude Frame BlockDev Tasks TaskSys TaskQueueOk TaskOk TaskSched TaskInv TaskLife TaskSysOk TaskKept Mutex.

(** [struct mqueue] without its name; [putq] and [getq] are the queues inside. *)
Record mqueue := Mqueue { putq : nat; getq : nat; mq_buf : list Z; itemsz : Z; maxcnt : Z; curcnt : Z; first : Z }.
Definition mqstate (X : Type) : Type := sys X * mqueue.

Section ops.
Context {X : Type} `{TaskEnv X}.

Definition on_tasks {A} (m : M (sys X) A) : M (mqstate X) A := zoom fst (fun s st => (s, st.2)) m.
Definition set_mq (f : mqueue -> mqueue) : M (mqstate X) unit := modify (fun st => (st.1, f st.2)).
Definition set_ring_mq (b : list Z) (n f : Z) (q : mqueue) : mqueue := Mqueue (putq q) (getq q) b (itemsz q) (maxcnt q) n f.

(** [mem] is the result of [kmalloc]: an error or the contents of the buffer. *)
Definition mq_init (pq gq : nat) (isz max : Z) (mem : Z + list Z) : M (mqstate X) unit :=
  set_mq (fun _ => Mqueue pq gq [] 0 0 0 0);;;
  if ov_mul_size isz max then fail EINVAL
  else
    match mem with
    | inl err => fail err
    | inr b =>
      on_tasks (task_qinit pq);;;
      on_tasks (task_qinit gq);;;
      set_mq (fun _ => Mqueue pq gq b isz max 0 0)
    end.

(** The memory of the buffer is not given back. *)
Definition mq_free : M (mqstate X) unit := set_mq (fun q => Mqueue (putq q) (getq q) [] 0 0 0 0).

Definition mq_put (data : list Z) (wait : Z) : M (mqstate X) (progress unit) :=
  q <~ gets snd;;
  if maxcnt q <=? curcnt q then
    if wait =? 0 then fail EAGAIN
    else on_tasks (task_suspend (Some (putq q)) wait);;; ret Wait
  else
    let dp := u64 (first q + curcnt q) mod maxcnt q in
    set_mq (set_ring_mq (mem_write (mq_buf q) dp (take (Z.to_nat (itemsz q)) data)) (u64 (curcnt q + 1)) (first q));;;
    on_tasks (resume_waiters (S TASK_MAX) (getq q));;;
    ret (Done tt).

Definition mq_get (wait : Z) : M (mqstate X) (progress (list Z)) :=
  q <~ gets snd;;
  if curcnt q =? 0 then
    if wait =? 0 then fail EAGAIN
    else on_tasks (task_suspend (Some (getq q)) wait);;; ret Wait
  else
    let sp := first q mod maxcnt q in
    let data := mem_read (mq_buf q) sp (itemsz q) in
    set_mq (set_ring_mq (mq_buf q) (curcnt q - 1) (u64 (first q + 1) mod maxcnt q));;;
    on_tasks (resume_waiters (S TASK_MAX) (putq q));;;
    ret (Done data).
End ops.

#[local] Hint Resolve keeps_get_task keeps_get_queue keeps_get_curr joins_not_put task_remove_joins task_dequeue_joins : keeps.
#[local] Hint Extern 1 (keeps (joins_not _) (upd_task _ _)) => (apply joins_not_upd; done) : keeps.
#[local] Hint Extern 1 (keeps (joins_not _) (modify _)) => (apply joins_not_modify; done) : keeps.
#[local] Hint Extern 1 (keeps (joins_not _) (panic _)) => done : keeps.

(** * Who joins a queue *)

Section joins.
Context {X : Type} `{TaskEnv X} (q : nat) (Hq : (NREADY <= q)%nat).

Lemma ready_insert_joins (c : task) t : 0 <= priority (t_run c) <= TASK_PRIO_LOW -> keeps (joins_not q) (task_insert (X := X) (Z.to_nat (priority (t_run c))) t).
Proof. intros Hp. apply task_insert_joins. unfold NREADY, TASK_PRIO_LOW in *. lia. Qed.
Lemma dequeue_ready_joins n i : keeps (joins_not q) (dequeue_ready (X := X) n i).
Proof. revert i. induction n as [|n IH]; intros i; cbn [dequeue_ready]; keeps. Qed.
Lemma pick_loop_joins fuel : keeps (joins_not q) (pick_loop (X := X) fuel).
Proof.
  induction fuel as [|fuel IH]; cbn [pick_loop]; [done|]. apply keeps_bind; [apply _|apply dequeue_ready_joins|]. intros [t|]; [|done].
  apply joins_not_get. intros c Hp. pose proof (ready_insert_joins c t Hp). keeps.
Qed.
Lemma sched_joins : keeps (joins_not q) (sched (X := X)).
Proof.
  unfold sched. apply keeps_bind; [apply _| |].
  - unfold sched_leave. apply keeps_bind; [apply _|keeps|]. intros _. apply keeps_bind; [apply _|keeps|]. intros me. apply joins_not_get. intros c Hp.
    pose proof (ready_insert_joins c me Hp). keeps.
  - intros [p|]; [|keeps]. unfold sched_pick, switch_to. pose proof pick_loop_joins. keeps; auto. apply joins_not_modify. intros s. by destruct (_ =? _)%nat.
Qed.
Lemma task_suspend_joins q' type : q' <> q -> keeps (joins_not q) (task_suspend (X := X) (Some q') type).
Proof. intros Hne. unfold task_suspend. pose proof (task_insert_joins (X := X) q q'). pose proof sched_joins. keeps; auto. Qed.
Lemma resume_waiters_joins fuel q' : keeps (joins_not q) (resume_waiters (X := X) fuel q').
Proof.
  induction fuel as [|fuel IH]; cbn [resume_waiters]; [done|]. pose proof (fun t => task_resume_joins (X := X) q t Hq). keeps; auto.
Qed.
End joins.

Section ok.
Context {X : Type} `{TaskEnv X}.
Implicit Types (s : sys X) (st : mqstate X).

(** The items in the queue, the oldest first. *)
Definition items (q : mqueue) : list Z := ring_list (maxcnt q) (mq_buf q) (first q) (Z.to_nat (curcnt q)).

(** A queue of one-byte items; no task waits for an item or for room that is there. *)
Record mq_ok st : Prop := MqOk {
  mk_sys : sys_ok st.1;
  mk_putq : (NREADY <= putq st.2 < length (queues st.1))%nat;
  mk_getq : (NREADY <= getq st.2 < length (queues st.1))%nat;
  mk_apart : putq st.2 <> getq st.2;
  mk_item : itemsz st.2 = 1;
  mk_max : 0 < maxcnt st.2 <= 2 ^ 63;
  mk_buf : Z.of_nat (length (mq_buf st.2)) = maxcnt st.2;
  mk_count : 0 <= curcnt st.2 <= maxcnt st.2;
  mk_first : 0 <= first st.2 < maxcnt st.2;
  mk_get : 0 < curcnt st.2 -> deserted (getq st.2) st.1;
  mk_put : curcnt st.2 < maxcnt st.2 -> deserted (putq st.2) st.1
}.

Lemma stays_deserted q s s' : stays_off q s s' -> deserted q s -> deserted q s'.
Proof. intros Ho Hd t c Ec Hw. destruct (Ho t c Ec Hw) as (d & Ed & Hwd). by apply (Hd t d). Qed.

(** The tasks that wait on [q] are resumed, and none joins another queue. *)
Lemma wake_ok s q : sys_ok s -> (NREADY <= q < length (queues s))%nat ->
  exists s', resume_waiters (S TASK_MAX) q s = Ret tt s' /\ sys_ok s' /\ length (queues s') = length (queues s) /\ deserted q s' /\
    forall q', (NREADY <= q')%nat -> stays_off q' s s'.
Proof.
  intros Hok Hq. destruct (wake_queue s q Hok Hq) as (s' & E & Hok' & ((_&Hql&_)&_) & Hdes).
  exists s'. split_and!; try done. intros q' Hq'. by apply (joins_run q' _ s tt s' (resume_waiters_joins q' Hq' (S TASK_MAX) q)).
Qed.
(** A task waits on [q], or is interrupted. *)
Lemma suspend_ok s q w me : sys_ok s -> curr s = Some me -> (NREADY <= q < length (queues s))%nat -> w = WAIT_INTR \/ w = WAIT_NOINTR ->
  wp (task_suspend (Some q) w)
    (fun _ s' => sys_ok s' /\ length (queues s') = length (queues s) /\ forall q', (NREADY <= q')%nat -> q <> q' -> stays_off q' s s')
    (fun e s' => e = EINTR /\ sys_ok s' /\ length (queues s') = length (queues s) /\ forall q', (NREADY <= q')%nat -> stays_off q' s s') s.
Proof.
  intros Hok Hcu Hq Hw. destruct (sys_curr s me Hok Hcu) as (c & Ec & _).
  pose proof (task_suspend_sys s (Some q) w me c Hok Hcu Ec Hq Hw) as Hs. unfold wp in *. destruct (task_suspend (Some q) w s) as [[] s'|e s'|] eqn:E; [..|done].
  - destruct Hs as (Hok' & (_&Hql&_) & _). split_and!; try done. intros q' Hq' Hne. by apply (joins_run q' _ s tt s' (task_suspend_joins q' Hq' q w Hne)).
  - destruct Hs as (-> & Hok' & ((_&Hql&_)&_) & -> & _). split_and!; try done. intros q' Hq'.
    apply (joins_run q' (upd_task me (set_unseen 0)) s tt); [by apply joins_not_upd|done|done].
Qed.

(** * The operations *)

Lemma u64_id x : 0 <= x < 2 ^ 64 -> u64 x = x.
Proof. apply u64_small. Qed.
Lemma mem_write_one b i x : 0 <= i < Z.of_nat (length b) -> mem_write b i [x] = <[Z.to_nat i := x]> b.
Proof. intros Hi. unfold mem_write. rewrite insert_take_drop by lia. cbn. by rewrite Nat.add_1_r. Qed.
Lemma mem_read_one b i x : b !! Z.to_nat i = Some x -> mem_read b i 1 = [x].
Proof. intros E. unfold mem_read. change (Z.to_nat 1) with 1%nat. by rewrite (drop_S _ _ _ E). Qed.

(** The system goes on without the queue being touched. *)
Lemma mq_other s s' q :
  mq_ok (s, q) -> sys_ok s' -> length (queues s') = length (queues s) -> (0 < curcnt q -> stays_off (getq q) s s') -> (curcnt q < maxcnt q -> stays_off (putq q) s s') -> mq_ok (s', q).
Proof.
  intros [H1 H2 H3 H4 H5 H6 H7 H8 H9 Ha Hb] Hok Hl Hg Hp. cbn [fst snd] in *. split; cbn [fst snd]; rewrite ?Hl; try done; intros Hc.
  - by eapply stays_deserted; [apply Hg|apply Ha].
  - by eapply stays_deserted; [apply Hp|apply Hb].
Qed.

Lemma mq_wait_ok {A} s q w me qu :
  mq_ok (s, q) -> curr s = Some me -> wait_type w -> w <> 0 -> (qu = putq q /\ curcnt q = maxcnt q \/ qu = getq q /\ curcnt q = 0) ->
  wp (on_tasks (task_suspend (Some qu) w);;; ret (Wait (A := A))) (fun r st' => r = Wait /\ st'.2 = q /\ mq_ok st') (fun e st' => e = EINTR /\ st'.2 = q /\ mq_ok st') (s, q).
Proof.
  intros Hm Hcu Hw Hw0 Hqu. pose proof Hm as [Hok Hpq Hgq Hne _ Hmax _ _ _ _ _]. cbn [fst snd] in *.
  assert (Hq : (NREADY <= qu < length (queues s))%nat) by (destruct Hqu as [[-> _]|[-> _]]; done).
  pose proof (suspend_ok s qu w me Hok Hcu Hq ltac:(destruct Hw as [?|[?|?]]; auto; lia)) as Hs. unfold wp, on_tasks, zoom, bind in *. cbn [fst snd].
  destruct (task_suspend (Some qu) w s) as [[] s'|e s'|]; [..|done]; cbn [ret fst snd].
  - destruct Hs as (Hok' & Hl & Ho). split; [done|]. split; [done|]. apply (mq_other s); try done; intros Hc; (apply Ho; [lia|]); destruct Hqu as [[-> ?]|[-> ?]]; (done || lia).
  - destruct Hs as (-> & Hok' & Hl & Ho). split; [done|]. split; [done|]. apply (mq_other s); try done; intros Hc; apply Ho; lia.
Qed.

(** What [mq_put] does: the item is added, or there is no room for it. *)
Lemma mq_put_ok st x w me :
  mq_ok st -> curr st.1 = Some me -> wait_type w ->
  wp (mq_put [x] w)
    (fun r st' => mq_ok st' /\ match r with Done _ => items st'.2 = items st.2 ++ [x] | Wait => items st'.2 = items st.2 /\ curcnt st.2 = maxcnt st.2 end)
    (fun e st' => mq_ok st' /\ items st'.2 = items st.2 /\ curcnt st.2 = maxcnt st.2 /\ (e = EAGAIN /\ w = 0 \/ e = EINTR)) st.
Proof.
  intros Hm Hcu Hw. destruct st as [s q]. cbn [fst snd] in *. unfold mq_put. apply wp_bind, wp_gets. cbn [snd]. pose proof Hm as [Hok Hpq Hgq Hne Hi Hmax Hb Hc Hf Hg Hp].
  cbn [fst snd] in *. destruct (Z.leb_spec (maxcnt q) (curcnt q)) as [Hfull|Hroom].
  - destruct (Z.eqb_spec w 0) as [->|Hw0]; [apply wp_fail; split_and!; (done || lia || by left)|].
    eapply wp_mono; [apply (mq_wait_ok s q w me (putq q) Hm Hcu Hw Hw0); left; split; [done|lia]| |].
    + intros r st' (-> & <- & Hm'). split; [done|]. split; [done|lia].
    + intros e st' (-> & <- & Hm'). split_and!; (done || lia || by right).
  - rewrite Hi, u64_id by lia. change (take (Z.to_nat 1) [x]) with [x]. set (i := (first q + curcnt q) mod maxcnt q).
    assert (Hir : 0 <= i < maxcnt q) by (apply Z.mod_pos_bound; lia). rewrite mem_write_one by lia. rewrite u64_id by lia.
    apply wp_bind. unfold set_mq, wp at 1, modify. cbn [fst snd]. destruct (wake_ok s (getq q) Hok Hgq) as (s' & E & Hok' & Hl & Hd & Ho).
    eapply wp_known; [unfold on_tasks, zoom; cbn [fst snd]; rewrite E; reflexivity|]. apply wp_ret. cbn [fst snd]. split.
    + split; cbn [fst snd set_ring_mq putq getq mq_buf itemsz maxcnt curcnt first]; rewrite ?Hl; try done; try lia.
      * by rewrite length_insert.
      * intros _. eapply stays_deserted; [apply Ho; lia|]. apply Hp. lia.
    + unfold items. cbn [set_ring_mq mq_buf maxcnt curcnt first]. replace (Z.to_nat (curcnt q + 1)) with (S (Z.to_nat (curcnt q))) by lia.
      unfold i. replace (curcnt q) with (Z.of_nat (Z.to_nat (curcnt q))) at 1 by lia. apply ring_push; lia.
Qed.

(** What [mq_get] does: the oldest item is taken, or there is none. *)
Lemma mq_get_ok st w me :
  mq_ok st -> curr st.1 = Some me -> wait_type w ->
  wp (mq_get w)
    (fun r st' => mq_ok st' /\ match r with Done d => exists x, d = [x] /\ items st.2 = x :: items st'.2 | Wait => items st'.2 = items st.2 /\ curcnt st.2 = 0 end)
    (fun e st' => mq_ok st' /\ items st'.2 = items st.2 /\ curcnt st.2 = 0 /\ (e = EAGAIN /\ w = 0 \/ e = EINTR)) st.
Proof.
  intros Hm Hcu Hw. destruct st as [s q]. cbn [fst snd] in *. unfold mq_get. apply wp_bind, wp_gets. cbn [snd]. pose proof Hm as [Hok Hpq Hgq Hne Hi Hmax Hb Hc Hf Hg Hp].
  cbn [fst snd] in *. destruct (Z.eqb_spec (curcnt q) 0) as [Hz|Hz].
  - destruct (Z.eqb_spec w 0) as [->|Hw0]; [apply wp_fail; split_and!; (done || lia || by left)|].
    eapply wp_mono; [apply (mq_wait_ok s q w me (getq q) Hm Hcu Hw Hw0); right; split; [done|lia]| |].
    + intros r st' (-> & <- & Hm'). done.
    + intros e st' (-> & <- & Hm'). split_and!; (done || lia || by right).
  - rewrite Hi, (Z.mod_small (first q)), u64_id by lia. destruct (ring_pop (maxcnt q) (mq_buf q) ltac:(lia) Hb (first q) (Z.to_nat (curcnt q - 1)) Hf) as (x & Ex & Er).
    rewrite (mem_read_one _ _ x Ex). apply wp_bind. unfold set_mq, wp at 1, modify. cbn [fst snd]. destruct (wake_ok s (putq q) Hok Hpq) as (s' & E & Hok' & Hl & Hd & Ho).
    eapply wp_known; [unfold on_tasks, zoom; cbn [fst snd]; rewrite E; reflexivity|]. apply wp_ret. cbn [fst snd]. split.
    + split; cbn [fst snd set_ring_mq putq getq mq_buf itemsz maxcnt curcnt first]; rewrite ?Hl; try done; try lia.
      * apply Z.mod_pos_bound. lia.
      * intros _. eapply stays_deserted; [apply Ho; lia|]. apply Hg. lia.
    + exists x. split; [done|]. unfold items. cbn [set_ring_mq mq_buf maxcnt curcnt first]. rewrite <- Er. f_equal. lia.
Qed.

(** * Histories *)

(** The operations of the tasks on one queue, and steps of the rest of the system
    that keep the tasks consistent and let no task join its queues; the items put
    and got so far. *)
Inductive mq_step : mqstate X * (list Z * list Z) -> mqstate X * (list Z * list Z) -> Prop :=
| do_put st me x w st' i o : curr st.1 = Some me -> wait_type w -> mq_put [x] w st = Ret (Done tt) st' -> mq_step (st, (i, o)) (st', (i ++ [x], o))
| do_put_not st me x w st' i o : curr st.1 = Some me -> wait_type w -> (mq_put [x] w st = Ret Wait st' \/ exists e, mq_put [x] w st = Err e st') -> mq_step (st, (i, o)) (st', (i, o))
| do_get st me d w st' i o : curr st.1 = Some me -> wait_type w -> mq_get w st = Ret (Done d) st' -> mq_step (st, (i, o)) (st', (i, o ++ d))
| do_get_not st me w st' i o : curr st.1 = Some me -> wait_type w -> (mq_get w st = Ret Wait st' \/ exists e, mq_get w st = Err e st') -> mq_step (st, (i, o)) (st', (i, o))
| do_rest s q s' i o : sys_ok s' -> length (queues s') = length (queues s) -> stays_off (getq q) s s' -> stays_off (putq q) s s' -> mq_step ((s, q), (i, o)) ((s', q), (i, o)).

Lemma mq_step_ok a b : mq_step a b -> mq_ok a.1 -> mq_ok b.1 /\ forall l, l ++ a.2.1 = a.2.2 ++ items a.1.2 -> l ++ b.2.1 = b.2.2 ++ items b.1.2.
Proof.
  intros Hs Hm. destruct Hs as [st me x w st' i o Hcu Hw E|st me x w st' i o Hcu Hw E|st me d w st' i o Hcu Hw E|st me w st' i o Hcu Hw E|s q s' i o Hok Hl Hg Hp]; cbn [fst snd] in *.
  1-2: pose proof (mq_put_ok st x w me Hm Hcu Hw) as Hp.
  3-4: pose proof (mq_get_ok st w me Hm Hcu Hw) as Hp.
  - apply (wp_Ret _ _ _ _ _ _ E) in Hp as [Hm' Hi]. split; [done|]. intros l Hl. by rewrite Hi, !app_assoc, Hl.
  - destruct E as [E|[e E]]; [apply (wp_Ret _ _ _ _ _ _ E) in Hp as (Hm' & Hi & _)|apply (wp_Err _ _ _ _ _ _ E) in Hp as (Hm' & Hi & _)]; (split; [done|]); intros l Hl; by rewrite Hi.
  - apply (wp_Ret _ _ _ _ _ _ E) in Hp as (Hm' & x & -> & Hi). split; [done|]. intros l Hl. by rewrite Hl, Hi, <- app_assoc.
  - destruct E as [E|[e E]]; [apply (wp_Ret _ _ _ _ _ _ E) in Hp as (Hm' & Hi & _)|apply (wp_Err _ _ _ _ _ _ E) in Hp as (Hm' & Hi & _)]; (split; [done|]); intros l Hl; by rewrite Hi.
  - split; [by apply (mq_other s)|done].
Qed.
Lemma mq_reach_ok a b : rtc mq_step a b -> mq_ok a.1 -> mq_ok b.1 /\ forall l, l ++ a.2.1 = a.2.2 ++ items a.1.2 -> l ++ b.2.1 = b.2.2 ++ items b.1.2.
Proof. induction 1 as [|a b c Hs _ IH]; intros Hm; [done|]. destruct (mq_step_ok a b Hs Hm) as [Hm' Hl]. destruct (IH Hm') as [Hc Hl']. split; [done|]. auto. Qed.

(** C25. A message queue of one-byte items is a bounded queue: over any interleaving
    of tasks that put and get, with waits, interruptions and calls that do not wait,
    the items got are the items that were there followed by those put, in order, and
    the rest is in the queue, which never has more than [maxcnt]; no task waits for
    an item or for room that is there; and the next call returns. *)
Theorem mq_fifo st i st' i' o' me x w :
  mq_ok st -> rtc mq_step (st, (i, [])) (st', (i', o')) -> items st.2 = i ->
  curr st'.1 = Some me -> wait_type w ->
  i' = o' ++ items st'.2 /\ Z.of_nat (length (items st'.2)) <= maxcnt st'.2 /\
  (items st'.2 <> [] -> deserted (getq st'.2) st'.1) /\ (Z.of_nat (length (items st'.2)) < maxcnt st'.2 -> deserted (putq st'.2) st'.1) /\
  (forall h, mq_put [x] w st' <> Halt h) /\ (forall h, mq_get w st' <> Halt h).
Proof.
  intros Hm Hr Hi Hcu Hw. destruct (mq_reach_ok _ _ Hr Hm) as [Hm' Hl]. cbn [fst snd] in *. specialize (Hl []). cbn in Hl. specialize (Hl (eq_sym Hi)).
  pose proof Hm' as [_ _ _ _ _ Hmax Hb Hc Hf Hg Hp].
  assert (Hlen : length (items st'.2) = Z.to_nat (curcnt st'.2)) by (apply length_ring_list; [lia|done]). split; [done|]. split; [lia|]. split_and!.
  - intros Hne. apply Hg. destruct (decide (curcnt st'.2 = 0)) as [Hz|]; [|lia]. destruct Hne. apply length_zero_iff_nil. lia.
  - intros Hlt. apply Hp. lia.
  - intros h E. pose proof (mq_put_ok st' x w me Hm' Hcu Hw) as H1. unfold wp in H1. by rewrite E in H1.
  - intros h E. pose proof (mq_get_ok st' w me Hm' Hcu Hw) as H1. unfold wp in H1. by rewrite E in H1.
Qed.

(** Larger items overlap: of two items put into an empty queue, the first one comes
    out with all but its first byte replaced by bytes of the second one. *)
Theorem mq_items_overlap s pq gq b n max x y w :
  sys_ok s -> (NREADY <= pq < length (queues s))%nat -> (NREADY <= gq < length (queues s))%nat ->
  2 <= n -> 2 <= max < 2 ^ 64 -> Z.of_nat (length b) = n * max -> Z.of_nat (length x) = n -> Z.of_nat (length y) = n ->
  wp (mq_put x w;;; mq_put y w;;; mq_get w)
    (fun r _ => r = Done (take 1 x ++ take (Z.to_nat (n - 1)) y)) (fun _ _ => False) (s, Mqueue pq gq b n max 0 0).
Proof.
  intros Hok Hpq Hgq Hn Hmax Hb Hx Hy. assert (Hbig : 1 + n <= Z.of_nat (length b)) by nia. destruct (wake_ok s gq Hok Hgq) as (s1 & E1 & Hok1 & Hl1 & _). destruct (wake_ok s1 gq Hok1 ltac:(lia)) as (s2 & E2 & Hok2 & Hl2 & _).
  destruct (wake_ok s2 pq Hok2 ltac:(lia)) as (s3 & E3 & _).
  assert (Hr1 : mq_put x w (s, Mqueue pq gq b n max 0 0) = Ret (Done tt) (s1, Mqueue pq gq (mem_write b 0 x) n max 1 0)).
  { unfold mq_put. rewrite gets_bind. cbn [snd maxcnt curcnt first itemsz mq_buf getq putq]. rewrite (proj2 (Z.leb_gt _ _)) by lia.
    unfold set_mq. rewrite modify_bind. cbn [fst snd]. unfold bind, on_tasks, zoom. cbn [fst snd]. rewrite E1. unfold set_ring_mq, ret. cbn. rewrite take_ge by lia. by rewrite Z.mod_0_l by lia. }
  assert (Hr2 : mq_put y w (s1, Mqueue pq gq (mem_write b 0 x) n max 1 0) = Ret (Done tt) (s2, Mqueue pq gq (mem_write (mem_write b 0 x) 1 y) n max 2 0)).
  { unfold mq_put. rewrite gets_bind. cbn [snd maxcnt curcnt first itemsz mq_buf getq putq]. rewrite (proj2 (Z.leb_gt _ _)) by lia.
    unfold set_mq. rewrite modify_bind. cbn [fst snd]. unfold bind, on_tasks, zoom. cbn [fst snd]. rewrite E2. unfold set_ring_mq, ret. cbn [putq getq itemsz maxcnt]. rewrite take_ge by lia. change (u64 (0 + 1)) with 1. change (u64 (1 + 1)) with 2. by rewrite Z.mod_small by lia. }
  eapply wp_known; [exact Hr1|]. eapply wp_known; [exact Hr2|]. unfold mq_get. apply wp_bind, wp_gets. cbn [snd maxcnt curcnt first itemsz mq_buf getq putq]. cbn [Z.eqb].
  apply wp_bind. unfold set_mq, wp at 1, modify. cbn [fst snd]. eapply wp_known; [unfold on_tasks, zoom; cbn [fst snd]; rewrite E3; reflexivity|]. apply wp_ret. f_equal.
  rewrite Z.mod_0_l by lia. assert (L1 : length (mem_write b 0 x) = length b) by (apply length_mem_write; lia). assert (L2 : length (mem_write (mem_write b 0 x) 1 y) = length b) by (rewrite length_mem_write; lia).
  apply rd8_ext.
  - pose proof (length_mem_read (mem_write (mem_write b 0 x) 1 y) 0 n ltac:(lia) ltac:(lia) ltac:(lia)). rewrite length_app, !length_take. lia.
  - intros j Hj. pose proof (length_mem_read (mem_write (mem_write b 0 x) 1 y) 0 n ltac:(lia) ltac:(lia) ltac:(lia)) as Hl. rewrite Hl in Hj.
    rewrite rd8_mem_read, rd8_mem_write, rd8_mem_write by lia. rewrite rd8_app, length_take by lia. destruct (decide (j = 0)) as [->|Hj0].
    + rewrite decide_False, !decide_True by lia. change 1%nat with (Z.to_nat 1). by rewrite rd8_take by lia.
    + rewrite decide_True, decide_False by lia. rewrite rd8_take by lia. f_equal. lia.
Qed.
End ok.
