(* ===== verification/Pty.v ===== *)
(** Pseudo-terminals (kern/fs/pty/ptyfs.c): the line discipline, the two rings of
    bytes between the master and the slave side, and the tasks that wait on them.

    A call ends at the point where its task waits ([Wait]); when the task runs again
    it goes on with the computation named there.  A [char] is a byte from 0 to 255;
    [schar] is its value as a signed number.  A request has fewer than [2 ^ 31]
    bytes, so that [left], an [int], is [req->count] at the start; [size_t] has 64
    bits.  [fs_getfso], which finds or makes a file object for a number and calls
    back [pty_getfso], and the copies from and to user memory are arguments. *)

From S2P Require Import Prelude Kern Tasks Mutex.

Definition PTY_MAX : nat := 64.
Definition MAX_CANON : Z := 256.
Definition PTY_BUF : Z := 1870.
Definition ROOT_INDEX : Z := 1.
Definition PTMX_INDEX : Z := 2.
Definition PTM_INDEX : Z := 3.
Definition PTS_INDEX : Z := PTM_INDEX + Z.of_nat PTY_MAX.

Definition ISIG : Z := 1.
Definition ICANON : Z := 2.
Definition ECHO : Z := 4.
Definition ECHONL : Z := 8.
Definition ECHOCTL : Z := 16.
Definition VINTR : nat := 0.
Definition VQUIT : nat := 1.
Definition VERASE : nat := 2.
Definition VKILL : nat := 3.
Definition VEOF : nat := 4.
Definition VREPRINT : nat := 7.
Definition SIGHUP : Z := 1.
Definition SIGINT : Z := 2.

(** * Data *)

(** [in_buf], [in_count], [in_p0] and [in_p1], and the same for [out_buf]. *)
Record ring := Ring { r_buf : list Z; r_count : Z; r_p0 : Z; r_p1 : Z }.
Record canon := Canon { canon_buf : list Z; canon_count : Z; canon_intr : bool; canon_eot : bool }.
Record termios := Termios { c_iflag : Z; c_oflag : Z; c_lflag : Z; c_cflag : Z; c_cc : list Z }.

(** [struct pty] without [uid] and [gid], which nothing uses; the four queues are inside
    of it, a file object is its number. *)
Record pty := Pty {
  ptm_readers : nat; ptm_writers : nat; pts_readers : nat; pts_writers : nat;
  ptm_fso : option nat; pts_fso : option nat; locked : bool;
  p_canon : canon; p_in : ring; p_out : ring;
  p_size : Z * Z; tio : termios
}.

(** [p_desc]: of every slot of [task] and every descriptor, the file object of the
    open file, if there is one. *)
Record ptys (X : Type) := Ptys {
  p_sys : sys X;
  pty_ : list (option pty);
  pty_mounted : bool;
  p_fso : gmap nat fso;
  p_desc : list (list (option (option nat)));
  fs_pollq : nat
}.
Arguments Ptys {X}. Arguments p_sys {X}. Arguments pty_ {X}. Arguments pty_mounted {X}.
Arguments p_fso {X}. Arguments p_desc {X}. Arguments fs_pollq {X}.

Definition set_rings (i o : ring) (p : pty) : pty :=
  Pty (ptm_readers p) (ptm_writers p) (pts_readers p) (pts_writers p) (ptm_fso p) (pts_fso p) (locked p) (p_canon p) i o (p_size p) (tio p).
Definition set_in (r : ring) (p : pty) : pty := set_rings r (p_out p) p.
Definition set_out (r : ring) (p : pty) : pty := set_rings (p_in p) r p.
Definition set_canon (c : canon) (p : pty) : pty :=
  Pty (ptm_readers p) (ptm_writers p) (pts_readers p) (pts_writers p) (ptm_fso p) (pts_fso p) (locked p) c (p_in p) (p_out p) (p_size p) (tio p).
Definition set_ends (m s : option nat) (p : pty) : pty :=
  Pty (ptm_readers p) (ptm_writers p) (pts_readers p) (pts_writers p) m s (locked p) (p_canon p) (p_in p) (p_out p) (p_size p) (tio p).
Definition set_locked (v : bool) (p : pty) : pty :=
  Pty (ptm_readers p) (ptm_writers p) (pts_readers p) (pts_writers p) (ptm_fso p) (pts_fso p) v (p_canon p) (p_in p) (p_out p) (p_size p) (tio p).
Definition set_tio (v : termios) (p : pty) : pty :=
  Pty (ptm_readers p) (ptm_writers p) (pts_readers p) (pts_writers p) (ptm_fso p) (pts_fso p) (locked p) (p_canon p) (p_in p) (p_out p) (p_size p) v.
Definition set_psize (v : Z * Z) (p : pty) : pty :=
  Pty (ptm_readers p) (ptm_writers p) (pts_readers p) (pts_writers p) (ptm_fso p) (pts_fso p) (locked p) (p_canon p) (p_in p) (p_out p) v (tio p).
Definition set_count (n : Z) (c : canon) : canon := Canon (canon_buf c) n (canon_intr c) (canon_eot c).

(** * Rings *)

(** [buf[p0] = ch; count++; p0++; p0 %= sizeof buf] *)
Definition rput (ch : Z) (r : ring) : ring :=
  Ring (<[Z.to_nat (r_p0 r) := ch]> (r_buf r)) (r_count r + 1) ((r_p0 r + 1) mod PTY_BUF) (r_p1 r).
(** [while (left) ...], the bytes from [p1] on. *)
Fixpoint drain (left : nat) (r : ring) : option (list Z * ring) :=
  match left with
  | O => Some ([], r)
  | S left' =>
    ch ← r_buf r !! Z.to_nat (r_p1 r);
    '(l, r') ← drain left' (Ring (r_buf r) (r_count r - 1) (r_p0 r) ((r_p1 r + 1) mod PTY_BUF));
    Some (ch :: l, r')
  end.
(** The copy of a line into the ring, cut where it is full. *)
Fixpoint canon_fill (l : list Z) (r : ring) : ring :=
  match l with
  | [] => r
  | ch :: l' => if PTY_BUF <=? r_count r then r else canon_fill l' (rput ch r)
  end.

Definition schar (ch : Z) : Z := if ch <? 128 then ch else ch - 256.
Definition lflag (p : pty) (v : Z) : bool := negb (Z.land (c_lflag (tio p)) v =? 0).
Definition cc (p : pty) (v : nat) : option Z := c_cc (tio p) !! v.

(** [memset (pty[i], 0, sizeof *pty[i])]; [q] is the first of its queues. *)
Definition ring0 : ring := Ring (replicate (Z.to_nat PTY_BUF) 0) 0 0 0.
Definition canon0 : canon := Canon (replicate (Z.to_nat MAX_CANON) 0) 0 false false.
Definition pty0 (q : nat) : pty :=
  Pty q (q + 1) (q + 2) (q + 3) None None false canon0 ring0 ring0 (0, 0) (Termios 0 0 0 0 (replicate 8 0)).
(** What [pty_getfso] sets for a new terminal. *)
Definition tio0 : termios :=
  Termios 0 0 (Z.lor ICANON (Z.lor ISIG (Z.lor ECHO (Z.lor ECHONL ECHOCTL)))) 0 [3; 28; 8; 21; 4; 23; 20; 18].

(** ["ptsXXX"] with the digits of [i]. *)
Definition digit (i : Z) : Z := (48 + Z.rem i 10) mod 256.
Definition pts_name (i : Z) : list Z := [112; 116; 115; digit (Z.quot i 100); digit (Z.quot i 10); digit i].
Definition isdigit (ch : Z) : bool := (48 <=? ch) && (ch <=? 57).
(** The number in a name for which the macro [ispts] holds. *)
Definition ispts (name : list Z) : option Z :=
  match name with
  | [112; 116; 115; a; b; c] =>
    if isdigit a && isdigit b && isdigit c then Some ((a - 48) * 100 + (b - 48) * 10 + (c - 48)) else None
  | _ => None
  end.

Definition PTY_PTSNAME : Z := 0x5000.
Definition PTY_UNLOCK : Z := 0x5001.
Definition PTY_SSIZE : Z := 0x5002.
Definition PTY_GSIZE : Z := 0x5003.
Definition PTY_SHUP : Z := 0x5004.
Definition TCGETS : Z := 0x7401.
Definition TCSETS : Z := 0x7402.
Definition TCSETSW : Z := 0x7403.
Definition TCSETSF : Z := 0x7404.

Section ops.
Context {X : Type} `{TaskEnv X}.

Definition on_sys {A} (m : M (sys X) A) : M (ptys X) A :=
  zoom p_sys (fun s st => Ptys s (pty_ st) (pty_mounted st) (p_fso st) (p_desc st) (fs_pollq st)) m.
Definition with_ptys (l : list (option pty)) (st : ptys X) : ptys X :=
  Ptys (p_sys st) l (pty_mounted st) (p_fso st) (p_desc st) (fs_pollq st).
Definition with_fso (m : gmap nat fso) (st : ptys X) : ptys X :=
  Ptys (p_sys st) (pty_ st) (pty_mounted st) m (p_desc st) (fs_pollq st).
Definition pty_at (i : nat) (st : ptys X) : option pty := mjoin (pty_ st !! i).
Definition get_pty (i : nat) : M (ptys X) pty := o <~ gets (pty_at i);; deref o.
Definition upd_pty (i : nat) (f : pty -> pty) : M (ptys X) unit :=
  modify (fun st => with_ptys (alter (fmap f) i (pty_ st)) st).
Definition get_fobj (i : nat) : M (ptys X) fso := o <~ gets (fun st => p_fso st !! i);; deref o.
Definition upd_fobj (i : nat) (f : fso -> fso) : M (ptys X) unit := modify (fun st => with_fso (alter f i (p_fso st)) st).

(** ** Poll state (kern/fs/main.c), on the tasks *)

Definition fs_state (i : nat) (st : Z) : M (ptys X) unit :=
  f <~ get_fobj i;;
  if state f =? st then ret tt
  else
    upd_fobj i (set_state st);;;
    match polling f with
    | Some t => on_sys (task_resume t)
    | None =>
      if negb (pollcnt f =? 0) then q <~ gets fs_pollq;; on_sys (resume_waiters (S TASK_MAX) q) else ret tt
    end.
Definition fs_setstate (i : nat) (st : Z) : M (ptys X) unit :=
  f <~ get_fobj i;; fs_state i (Z.lor (state f) st).
Definition fs_clrstate (i : nat) (st : Z) : M (ptys X) unit :=
  f <~ get_fobj i;; fs_state i (Z.land (state f) (Z.lnot st)).

(** ** Waking the tasks of one side *)

Definition pty_resume (o : option nat) (st : Z) (q : nat) : M (ptys X) unit :=
  (match o with Some f => fs_setstate f st | None => ret tt end);;;
  on_sys (resume_waiters (S TASK_MAX) q).
Definition pty_resume_ptm_r (i : nat) : M (ptys X) unit := p <~ get_pty i;; pty_resume (ptm_fso p) R_OK (ptm_readers p).
Definition pty_resume_ptm_w (i : nat) : M (ptys X) unit := p <~ get_pty i;; pty_resume (ptm_fso p) W_OK (ptm_writers p).
Definition pty_resume_pts_r (i : nat) : M (ptys X) unit := p <~ get_pty i;; pty_resume (pts_fso p) R_OK (pts_readers p).
Definition pty_resume_pts_w (i : nat) : M (ptys X) unit := p <~ get_pty i;; pty_resume (pts_fso p) W_OK (pts_writers p).

(** ** Echo *)

Definition pty_echo (i : nat) (ch : Z) : M (ptys X) unit :=
  p <~ get_pty i;;
  if negb (r_count (p_out p) =? PTY_BUF) then
    upd_pty i (set_out (rput ch (p_out p)));;;
    pty_resume_ptm_r i
  else ret tt.

Definition pty_cecho (i : nat) (ch : Z) : M (ptys X) unit :=
  p <~ get_pty i;;
  if lflag p ECHOCTL && (0 <=? schar ch) && (schar ch <? 0x20) then
    pty_echo i 94 (* '^' *);;; pty_echo i (ch + 0x40)
  else if lflag p ECHOCTL && (schar ch =? 127) then
    pty_echo i 94;;; pty_echo i 63 (* '?' *)
  else pty_echo i ch.

Fixpoint echo_all (i : nat) (l : list Z) : M (ptys X) unit :=
  match l with [] => ret tt | ch :: l' => pty_echo i ch;;; echo_all i l' end.
Definition pty_erase_ch (i : nat) (ch : Z) : M (ptys X) unit :=
  p <~ get_pty i;;
  if ((ch <? 0x20) || (schar ch =? 127)) && lflag p ECHOCTL then echo_all i [8; 8; 32; 32; 8; 8]
  else echo_all i [8; 32; 8].

(** ** Signals to the tasks of the slave side *)

Definition desc_on (fso : option nat) (d : option (option nat)) : bool :=
  match d with Some o => bool_decide (o = fso) | None => false end.
Fixpoint signal_tasks (n t : nat) (fso : option nat) (nr : Z) : M (ptys X) unit :=
  match n with
  | O => ret tt
  | S n' =>
    o <~ gets (fun st => task_at t (p_sys st));;
    ds <~ gets (fun st => p_desc st !! t);;
    (match o, ds with
     | Some _, Some l => if existsb (desc_on fso) l then status (on_sys (signal_send_k t nr));;; ret tt else ret tt
     | _, _ => ret tt
     end);;;
    signal_tasks n' (S t) fso nr
  end.
Definition pty_signal (i : nat) (nr : Z) : M (ptys X) unit :=
  p <~ get_pty i;; signal_tasks TASK_MAX 0 (pts_fso p) nr.

(** ** The line discipline *)

(** [while (pp->canon_count)] of [VKILL]. *)
Fixpoint kill_loop (n : nat) (i : nat) : M (ptys X) unit :=
  match n with
  | O => ret tt
  | S n' =>
    p <~ get_pty i;;
    upd_pty i (set_canon (set_count (canon_count (p_canon p) - 1) (p_canon p)));;;
    ch <~ deref (canon_buf (p_canon p) !! Z.to_nat (canon_count (p_canon p) - 1));;
    (if lflag p ECHO then pty_erase_ch i ch else ret tt);;;
    kill_loop n' i
  end.

Fixpoint cecho_all (i : nat) (l : list Z) : M (ptys X) unit :=
  match l with [] => ret tt | ch :: l' => pty_cecho i ch;;; cecho_all i l' end.

(** [VINTR] and [VQUIT] *)
Definition canon_signal (i : nat) (ch nr : Z) : M (ptys X) unit :=
  p <~ get_pty i;;
  (if lflag p ISIG then
     pty_signal i nr;;;
     upd_pty i (fun p => set_canon (set_count 0 (p_canon p)) p)
   else ret tt);;;
  if lflag p ECHO then pty_cecho i ch;;; pty_echo i 10 else ret tt.

(** ['\n']: the line goes into the input ring. *)
Definition canon_line (i : nat) : M (ptys X) unit :=
  p <~ get_pty i;;
  let c := p_canon p in
  (if canon_count c <? MAX_CANON then
     upd_pty i (set_canon (Canon (<[Z.to_nat (canon_count c) := 10]> (canon_buf c)) (canon_count c + 1) (canon_intr c) (canon_eot c)));;;
     if lflag p (Z.lor ECHO ECHONL) then pty_echo i 10 else ret tt
   else ret tt);;;
  p <~ get_pty i;;
  upd_pty i (set_in (canon_fill (take (Z.to_nat (canon_count (p_canon p))) (canon_buf (p_canon p))) (p_in p)));;;
  upd_pty i (fun p => set_canon (set_count 0 (p_canon p)) p);;;
  pty_resume_pts_r i.

Definition pty_canon_input (i : nat) (ch : Z) : M (ptys X) unit :=
  p <~ get_pty i;;
  let c := p_canon p in
  if bool_decide (cc p VKILL = Some ch) then kill_loop (Z.to_nat (canon_count c)) i
  else if bool_decide (cc p VEOF = Some ch) then
    upd_pty i (set_canon (Canon (canon_buf c) (canon_count c) (canon_intr c) true));;;
    if lflag p ECHO then pty_cecho i ch;;; pty_echo i 10 else ret tt
  else if bool_decide (cc p VINTR = Some ch) then canon_signal i ch SIGINT
  else if bool_decide (cc p VREPRINT = Some ch) then
    if lflag p ECHO then
      echo_all i [10; 62; 32];;; cecho_all i (take (Z.to_nat (canon_count c)) (canon_buf c))
    else ret tt
  else if bool_decide (cc p VQUIT = Some ch) then canon_signal i ch SIGQUIT
  else if bool_decide (cc p VERASE = Some ch) then
    if negb (canon_count c =? 0) then kill_loop 1 i else ret tt
  else if ch =? 13 then ret tt
  else if ch =? 10 then canon_line i
  else if canon_count c <? MAX_CANON then
    upd_pty i (set_canon (Canon (<[Z.to_nat (canon_count c) := ch]> (canon_buf c)) (canon_count c + 1) (canon_intr c) (canon_eot c)));;;
    if lflag p ECHO then pty_cecho i ch else ret tt
  else ret tt.

(** ** Reading *)

(** [req->count] and the bytes stored in [req->buf]. *)
Definition rresult : Type := Z * list Z.

(** The bytes of the output ring for the master. *)
Definition ptm_take (i : nat) (count : Z) : M (ptys X) rresult :=
  p <~ get_pty i;;
  let n := if r_count (p_out p) <? count then r_count (p_out p) else count in
  '(l, r) <~ deref (drain (Z.to_nat n) (p_out p));;
  upd_pty i (set_out r);;;
  (if r_count r =? 0 then f <~ deref (ptm_fso p);; fs_clrstate f R_OK else ret tt);;;
  pty_resume_pts_w i;;;
  ret (n, l).
(** From the start, and when the task runs again after a wait. *)
Definition ptm_read (i : nat) (count : Z) (no_delay : bool) : M (ptys X) (progress rresult) :=
  o <~ gets (pty_at i);;
  match o with
  | None => panic "ptm_read: !pp"
  | Some p =>
    if r_count (p_out p) =? 0 then
      if no_delay then fail EAGAIN
      else on_sys (task_suspend (Some (ptm_readers p)) WAIT_INTR);;; ret Wait
    else r <~ ptm_take i count;; ret (Done r)
  end.

Definition pts_take (i : nat) (count : Z) : M (ptys X) rresult :=
  p <~ get_pty i;;
  let n := if r_count (p_in p) <? count then r_count (p_in p) else count in
  '(l, r) <~ deref (drain (Z.to_nat n) (p_in p));;
  upd_pty i (set_in r);;;
  (if r_count r =? 0 then f <~ deref (pts_fso p);; fs_clrstate f R_OK else ret tt);;;
  pty_resume_ptm_w i;;;
  ret (n, l).
(** [restart:], then [k]. *)
Definition pts_restart (i : nat) (k : M (ptys X) (progress rresult)) : M (ptys X) (progress rresult) :=
  p <~ get_pty i;;
  if bool_decide (ptm_fso p = None) then status (on_sys (signal_raise SIGHUP));;; ret (Done (0, []))
  else if canon_intr (p_canon p) then
    status (on_sys (signal_raise SIGINT));;;
    upd_pty i (fun p => set_canon (Canon (canon_buf (p_canon p)) 0 false (canon_eot (p_canon p))) p);;;
    fail EINTR
  else k.
(** [while (!pp->in_count)] and what follows; a task that waited goes on here.  A
    caller that does not wait gets [EAGAIN] as the number of bytes. *)
Definition pts_loop (i : nat) (count : Z) (no_delay : bool) : M (ptys X) (progress rresult) :=
  p <~ get_pty i;;
  if r_count (p_in p) =? 0 then
    if no_delay then ret (Done (EAGAIN, []))
    else if canon_intr (p_canon p) || bool_decide (ptm_fso p = None) then pts_restart i (halted Undefined)
    else if canon_eot (p_canon p) then
      upd_pty i (fun p => set_canon (Canon (canon_buf (p_canon p)) (canon_count (p_canon p)) (canon_intr (p_canon p)) false) p);;;
      r <~ pts_take i count;; ret (Done r)
    else on_sys (task_suspend (Some (pts_readers p)) WAIT_INTR);;; ret Wait
  else r <~ pts_take i count;; ret (Done r).
Definition pts_read (i : nat) (count : Z) (no_delay : bool) : M (ptys X) (progress rresult) :=
  o <~ gets (pty_at i);;
  match o with
  | None => panic "pts_read: !pp"
  | Some _ => pts_restart i (pts_loop i count no_delay)
  end.

(** ** Writing *)

(** A byte of the buffer, or the error of [fucpy] there. *)
Definition ubuf : Type := list (Z + Z).
(** The end of a write: [Done] with [req->count], or the error. *)
Definition wresult (count left err : Z) : M (ptys X) (progress Z) :=
  let n := u64 (count - left) in
  if negb (n =? 0) then ret (Done n) else if err =? 0 then ret (Done 0) else fail err.
Definition ptm_fail (i : nat) (count left err : Z) : M (ptys X) (progress Z) :=
  p <~ get_pty i;;
  (if PTY_BUF <=? r_count (p_in p) then f <~ deref (ptm_fso p);; fs_clrstate f W_OK else ret tt);;;
  pty_resume_pts_r i;;;
  wresult count left err.

(** [while (pp->in_count >= sizeof pp->in_buf)] up to the next wait, then the byte
    goes into the ring: [inr] when the loop of the caller goes on; [left] counts
    this byte. *)
Definition ptm_raw (i : nat) (ch count left : Z) (no_delay : bool) : M (ptys X) (progress Z + unit) :=
  p <~ get_pty i;;
  if PTY_BUF <=? r_count (p_in p) then
    if no_delay then r <~ ptm_fail i (u64 (count - left)) left 0;; ret (inl r)
    else
      me <~ on_sys get_curr;;
      c <~ on_sys (get_task me);;
      if signal_pending (t_sig c) then r <~ ptm_fail i count left EINTR;; ret (inl r)
      else
        pty_resume_pts_r i;;;
        e <~ status (on_sys (task_suspend (Some (ptm_writers p)) WAIT_INTR));;
        if negb (e =? 0) then r <~ ptm_fail i count left e;; ret (inl r) else ret (inl Wait)
  else
    upd_pty i (set_in (rput ch (p_in p)));;;
    (if lflag p ECHO then pty_echo i ch else ret tt);;;
    ret (inr tt).
(** The outer loop over the rest of the buffer. *)
Fixpoint ptm_loop (i : nat) (count : Z) (no_delay : bool) (buf : ubuf) : M (ptys X) (progress Z) :=
  let left := Z.of_nat (length buf) in
  match buf with
  | [] => ptm_fail i count 0 0
  | inl err :: _ => ptm_fail i count left err
  | inr ch :: buf' =>
    p <~ get_pty i;;
    if lflag p ICANON then pty_canon_input i ch;;; ptm_loop i count no_delay buf'
    else
      r <~ ptm_raw i ch count left no_delay;;
      match r with inl r => ret r | inr _ => ptm_loop i count no_delay buf' end
  end.
(** A writer that waited with the byte [ch]. *)
Definition ptm_write_on (i : nat) (count : Z) (no_delay : bool) (ch : Z) (buf : ubuf) : M (ptys X) (progress Z) :=
  r <~ ptm_raw i ch count (Z.of_nat (length buf) + 1) no_delay;;
  match r with inl r => ret r | inr _ => ptm_loop i count no_delay buf end.
Definition ptm_write (i : nat) (buf : ubuf) (no_delay : bool) : M (ptys X) (progress Z) :=
  match buf with [] => ret (Done 0) | _ => ptm_loop i (Z.of_nat (length buf)) no_delay buf end.

Definition pts_fail (i : nat) (count left err : Z) : M (ptys X) (progress Z) :=
  p <~ get_pty i;;
  (if PTY_BUF <=? r_count (p_out p) then f <~ deref (pts_fso p);; fs_clrstate f W_OK else ret tt);;;
  pty_resume_ptm_r i;;;
  wresult count left err.
Definition pts_put (i : nat) (ch count left : Z) (no_delay : bool) : M (ptys X) (progress Z + unit) :=
  p <~ get_pty i;;
  if PTY_BUF <=? r_count (p_out p) then
    if bool_decide (ptm_fso p = None) then
      status (on_sys (signal_raise SIGHUP));;;
      r <~ pts_fail i 0 left 0;; ret (inl r)
    else if canon_intr (p_canon p) then
      status (on_sys (signal_raise SIGINT));;;
      upd_pty i (fun p => set_canon (Canon (canon_buf (p_canon p)) (canon_count (p_canon p)) false (canon_eot (p_canon p))) p);;;
      r <~ pts_fail i count left EINTR;; ret (inl r)
    else if no_delay then r <~ pts_fail i count left 0;; ret (inl r)
    else
      me <~ on_sys get_curr;;
      c <~ on_sys (get_task me);;
      if signal_pending (t_sig c) then r <~ pts_fail i count left EINTR;; ret (inl r)
      else
        pty_resume_ptm_r i;;;
        e <~ status (on_sys (task_suspend (Some (pts_writers p)) WAIT_INTR));;
        if negb (e =? 0) then r <~ pts_fail i count left e;; ret (inl r) else ret (inl Wait)
  else
    upd_pty i (set_out (rput ch (p_out p)));;;
    ret (inr tt).
Fixpoint pts_write_loop (i : nat) (count : Z) (no_delay : bool) (buf : ubuf) : M (ptys X) (progress Z) :=
  let left := Z.of_nat (length buf) in
  match buf with
  | [] => pts_fail i count 0 0
  | inl err :: _ => pts_fail i count left err
  | inr ch :: buf' =>
    r <~ pts_put i ch count left no_delay;;
    match r with inl r => ret r | inr _ => pts_write_loop i count no_delay buf' end
  end.
Definition pts_write_on (i : nat) (count : Z) (no_delay : bool) (ch : Z) (buf : ubuf) : M (ptys X) (progress Z) :=
  r <~ pts_put i ch count (Z.of_nat (length buf) + 1) no_delay;;
  match r with inl r => ret r | inr _ => pts_write_loop i count no_delay buf end.
Definition pts_write (i : nat) (buf : ubuf) (no_delay : bool) : M (ptys X) (progress Z) :=
  match buf with [] => ret (Done 0) | _ => pts_write_loop i (Z.of_nat (length buf)) no_delay buf end.

(** [i] is in the range of [PTY_MAX] numbers from [b] on: the terminal. *)
Definition side (b i : Z) : option nat :=
  if (b <=? i) && (i <? b + Z.of_nat PTY_MAX) then Some (Z.to_nat (i - b)) else None.
Definition pty_read (ino count : Z) (no_delay : bool) : M (ptys X) (progress rresult) :=
  match side PTM_INDEX ino, side PTS_INDEX ino with
  | Some i, _ => ptm_read i count no_delay
  | None, Some i => pts_read i count no_delay
  | None, None => fail EPERM
  end.
Definition pty_write (ino : Z) (buf : ubuf) (no_delay : bool) : M (ptys X) (progress Z) :=
  match side PTM_INDEX ino, side PTS_INDEX ino with
  | Some i, _ => ptm_write i buf no_delay
  | None, Some i => pts_write i buf no_delay
  | None, None => fail EPERM
  end.

(** ** The file system *)

Definition pty_mount : M (ptys X) unit :=
  m <~ gets pty_mounted;;
  if m then fail EBUSY
  else modify (fun st => Ptys (p_sys st) (pty_ st) true (p_fso st) (p_desc st) (fs_pollq st)).
Definition pty_umount : M (ptys X) unit :=
  modify (fun st => Ptys (p_sys st) (pty_ st) false (p_fso st) (p_desc st) (fs_pollq st)).

Fixpoint free_pty (l : list (option pty)) (i : nat) : option nat :=
  match l with [] => None | None :: _ => Some i | Some _ :: l' => free_pty l' (S i) end.

(** [mem] is the result of [kmalloc]: an error, or the place of the structure, as the
    number of the first of the four queues inside. *)
Definition pty_lookup (fs_getfso : Z -> M (ptys X) nat) (name : list Z) (mem : Z + nat) : M (ptys X) nat :=
  if bool_decide (name = []) then fs_getfso ROOT_INDEX
  else if bool_decide (name = [112; 116; 109; 120]) (* "ptmx" *) then
    o <~ gets (fun st => free_pty (pty_ st) 0);;
    match o, mem with
    | None, _ => fail ENOMEM
    | Some _, inl err => fail err
    | Some i, inr q =>
      modify (fun st => with_ptys (<[i := Some (pty0 q)]> (pty_ st)) st);;;
      on_sys (task_qinit q;;; task_qinit (q + 1);;; task_qinit (q + 2);;; task_qinit (q + 3));;;
      fs_getfso (PTM_INDEX + Z.of_nat i)
    end
  else
    match ispts name with
    | Some i =>
      if Z.of_nat PTY_MAX <=? i then fail ENOENT
      else
        o <~ gets (pty_at (Z.to_nat i));;
        match o with
        | None => fail ENOENT
        | Some p => if locked p then fail EPERM else fs_getfso (PTS_INDEX + i)
        end
    | None => fail ENOENT
    end.

Definition pty_creat : M (ptys X) unit := fail EPERM.

Definition pty_getfso (f : nat) : M (ptys X) unit :=
  t <~ gets (fun st => time (p_sys st));;
  upd_fobj f (fun o => set_size 0 (set_nlink 1 (set_blocks 0 (set_times t t t o))));;;
  o <~ get_fobj f;;
  if index o =? ROOT_INDEX then
    upd_fobj f (fun o => set_mode (Z.lor S_IFDIR 0x1ed) (set_owner 0 0 o));;;
    fs_state f (Z.lor R_OK W_OK)
  else
    upd_fobj f (set_rdev (Z.lor (Z.shiftl 2 16) (index o)));;;
    match side PTM_INDEX (index o), side PTS_INDEX (index o) with
    | Some i, _ =>
      _ <~ get_pty i;;
      upd_pty i (fun p => set_locked true (set_ends (Some f) (pts_fso p) (set_tio tio0 p)));;;
      me <~ on_sys get_curr;;
      c <~ on_sys (get_task me);;
      upd_fobj f (fun o => set_no_seek true (set_owner (euid (t_creds c)) (egid (t_creds c)) (set_mode (Z.lor S_IFCHR 0x180) o)));;;
      fs_state f W_OK
    | None, Some i =>
      _ <~ get_pty i;;
      upd_pty i (fun p => set_ends (ptm_fso p) (Some f) p);;;
      p <~ get_pty i;;
      g <~ deref (ptm_fso p);;
      og <~ get_fobj g;;
      upd_fobj f (fun o => set_no_seek true (set_owner (uid og) (gid og) (set_mode (Z.lor S_IFCHR 0x180) o)));;;
      fs_setstate f (Z.lor (if r_count (p_out p) <? PTY_BUF then W_OK else 0) (if negb (r_count (p_in p) =? 0) then R_OK else 0))
    | None, None => fail EINVAL
    end.

(** [free (pty[i])]; [pty[i] = NULL] *)
Definition drop_pty (i : nat) : M (ptys X) unit := modify (fun st => with_ptys (<[i := None]> (pty_ st)) st).
Definition put_ptm (i : nat) : M (ptys X) unit :=
  p <~ get_pty i;;
  if bool_decide (pts_fso p = None) then drop_pty i
  else
    upd_pty i (fun p => set_ends None (pts_fso p) p);;;
    pty_resume_pts_r i;;;
    pty_resume_pts_w i.
Definition put_pts (i : nat) : M (ptys X) unit :=
  p <~ get_pty i;;
  if bool_decide (ptm_fso p = None) then drop_pty i
  else
    upd_pty i (fun p => set_ends (ptm_fso p) None p);;;
    pty_resume_ptm_r i.
Definition pty_putfso (f : nat) : M (ptys X) unit :=
  o <~ get_fobj f;;
  (match side PTM_INDEX (index o) with Some i => put_ptm i | None => ret tt end);;;
  match side PTS_INDEX (index o) with Some i => put_pts i | None => ret tt end.

(** [de->index] and, where it is stored, [de->name]. *)
Definition pty_readdir (index : Z) : M (ptys X) (Z * option (list Z)) :=
  if index =? 0 then ret (ROOT_INDEX, Some [46])
  else if index =? 1 then ret (ROOT_INDEX, Some [46; 46])
  else
    let index := index - 2 in
    if index =? PTMX_INDEX then ret (PTMX_INDEX, Some [112; 116; 109; 120])
    else
      used <~ gets (fun st => match side PTS_INDEX index with Some i => bool_decide (is_Some (pty_at i st)) | None => false end);;
      if used : bool then ret (index, Some (pts_name (index - PTS_INDEX)))
      else if index <? PTS_INDEX + Z.of_nat PTY_MAX then ret (0, None)
      else fail ENOENT.

(** What a request stores through its pointer. *)
Inductive ioctl_out := OutNone | OutName (l : list Z) | OutTio (t : termios) | OutSize (s : Z * Z).
Definition checked (e : Z) (k : M (ptys X) ioctl_out) : M (ptys X) ioctl_out := if negb (e =? 0) then fail e else k.
(** The requests both sides have.  [perm] is the result of [fs_chk_perm] for the
    current task, [tu] that of [tucpy], [ti] and [psz] those of [fucpy]. *)
Definition ioctl_both (i : nat) (cmd : Z) (perm : Z -> Z) (tu : Z) (ti : Z + termios) (psz : Z + Z * Z) : M (ptys X) ioctl_out :=
  if cmd =? PTY_PTSNAME then checked (perm R_OK) (checked tu (ret (OutName (pts_name (Z.of_nat i) ++ [0]))))
  else if (cmd =? TCSETS) || (cmd =? TCSETSW) || (cmd =? TCSETSF) then
    checked (perm W_OK) (match ti with inl err => fail err | inr t => _ <~ get_pty i;; upd_pty i (set_tio t);;; ret OutNone end)
  else if cmd =? TCGETS then checked (perm R_OK) (p <~ get_pty i;; checked tu (ret (OutTio (tio p))))
  else if cmd =? PTY_GSIZE then p <~ get_pty i;; checked tu (ret (OutSize (p_size p)))
  else if cmd =? PTY_SSIZE then
    match psz with inl err => fail err | inr z => _ <~ get_pty i;; upd_pty i (set_psize z);;; ret OutNone end
  else fail ENOTTY.
Definition pty_ioctl (ino cmd : Z) (perm : Z -> Z) (tu : Z) (ti : Z + termios) (psz : Z + Z * Z) : M (ptys X) ioctl_out :=
  match side PTM_INDEX ino, side PTS_INDEX ino with
  | Some i, _ =>
    if cmd =? PTY_UNLOCK then checked (perm W_OK) (_ <~ get_pty i;; upd_pty i (set_locked false);;; ret OutNone)
    else if cmd =? PTY_SHUP then checked (perm W_OK) (pty_signal i SIGHUP;;; ret OutNone)
    else ioctl_both i cmd perm tu ti psz
  | None, Some i => ioctl_both i cmd perm tu ti psz
  | None, None => fail ENOTTY
  end.

Definition pty_ttyname (ino : Z) (prefix : list Z) (buf_size : Z) : M (ptys X) (list Z) :=
  if buf_size <? Z.of_nat (length prefix) + 8 then fail ENOMEM
  else ret (prefix ++ [47] ++ pts_name (ino - PTS_INDEX)).

(** The operations that do nothing, and those that are refused. *)
Definition pty_syncfso : M (ptys X) unit := ret tt.
Definition pty_trunc : M (ptys X) unit := ret tt.
Definition pty_chk_perm : M (ptys X) unit := ret tt.
Definition pty_link : M (ptys X) unit := fail EPERM.
Definition pty_unlink : M (ptys X) unit := fail EPERM.
Definition pty_rename : M (ptys X) unit := fail EPERM.
Definition pty_chdir (name : list Z) : M (ptys X) unit := if bool_decide (name = []) then ret tt else fail ENOENT.
Definition pty_mkdir : M (ptys X) unit := fail EPERM.
Definition pty_rmdir : M (ptys X) unit := fail EPERM.
Definition pty_statfs : M (ptys X) unit := ret tt.
Definition pty_sync : M (ptys X) unit := ret tt.
End ops.
