(* ===== verification/PtyOk.v ===== *)
(** The rings and the line discipline of the pseudo-terminals (kern/fs/pty/ptyfs.c).

    [term] is a terminal as its users see it: the line being typed, the bytes for the
    slave side, the bytes for the master side and whether the end of input was typed.
    [type_char] says what a character typed does to it. *)

From S2P Require Import Prelude Kern Frame Tasks TaskSys TaskQueueOk TaskOk TaskSched TaskInv TaskLife TaskSysOk Mutex MsgQueue Pty.

(** * Rings *)

Record ring_ok (r : ring) : Prop := RingOk {
  rk_len : Z.of_nat (length (r_buf r)) = PTY_BUF;
  rk_count : 0 <= r_count r <= PTY_BUF;
  rk_p1 : 0 <= r_p1 r < PTY_BUF;
  rk_p0 : r_p0 r = (r_p1 r + r_count r) mod PTY_BUF
}.
Definition contents (r : ring) : list Z := ring_list PTY_BUF (r_buf r) (r_p1 r) (Z.to_nat (r_count r)).

Lemma length_contents r : ring_ok r -> Z.of_nat (length (contents r)) = r_count r.
Proof. intros [Hl Hc _ _]. unfold contents. rewrite length_ring_list; [lia|done|done]. Qed.

Lemma rput_ok ch r : ring_ok r -> r_count r < PTY_BUF -> ring_ok (rput ch r) /\ contents (rput ch r) = contents r ++ [ch].
Proof.
  intros [Hl Hc H1 H0] Hr. split.
  - split; cbn [rput r_buf r_count r_p0 r_p1]; [by rewrite length_insert|lia|done|]. rewrite H0, Zplus_mod_idemp_l. f_equal. lia.
  - unfold contents. cbn [rput r_buf r_count r_p0 r_p1]. replace (Z.to_nat (r_count r + 1)) with (S (Z.to_nat (r_count r))) by lia.
    rewrite H0. replace (r_count r) with (Z.of_nat (Z.to_nat (r_count r))) at 1 by lia. apply ring_push; [done|done|lia].
Qed.

Lemma drain_ok n r :
  ring_ok r -> Z.of_nat n <= r_count r ->
  exists l r', drain n r = Some (l, r') /\ ring_ok r' /\ contents r = l ++ contents r' /\ length l = n /\ r_count r' = r_count r - Z.of_nat n.
Proof.
  revert r. induction n as [|n IH]; intros r Hr Hn; [exists [], r; split_and!; (done || lia)|]. pose proof Hr as [Hl Hc H1 H0].
  destruct (ring_pop PTY_BUF (r_buf r) ltac:(done) Hl (r_p1 r) (Z.to_nat (r_count r - 1)) H1) as (a & Ea & Er).
  set (r1 := Ring (r_buf r) (r_count r - 1) (r_p0 r) ((r_p1 r + 1) mod PTY_BUF)).
  assert (Hr1 : ring_ok r1).
  { split; cbn [r1 r_buf r_count r_p0 r_p1]; [done|lia|by apply Z.mod_pos_bound|]. rewrite Zplus_mod_idemp_l, H0. f_equal. lia. }
  destruct (IH r1 Hr1) as (l & r' & Ed & Hr' & El & Hln & Hc'); [cbn; lia|]. exists (a :: l), r'.
  cbn [drain]. rewrite Ea. cbn [mbind option_bind]. fold r1. rewrite Ed. split_and!; [done|done| |cbn; lia|cbn [r1 r_count] in Hc'; lia].
  cbn [app]. rewrite <- El. change (contents r1) with (ring_list PTY_BUF (r_buf r) ((r_p1 r + 1) mod PTY_BUF) (Z.to_nat (r_count r - 1))).
  rewrite <- Er. unfold contents. f_equal. lia.
Qed.

(** Bytes at the end of a queue, those that fit. *)
Definition fill (l q : list Z) : list Z := q ++ take (Z.to_nat PTY_BUF - length q) l.
Lemma fill_nil q : fill [] q = q.
Proof. unfold fill. by rewrite take_nil, app_nil_r. Qed.
Lemma fill_app l1 l2 q : fill l2 (fill l1 q) = fill (l1 ++ l2) q.
Proof.
  unfold fill. rewrite <- app_assoc. f_equal. rewrite take_app. f_equal. rewrite length_app, length_take. f_equal. lia.
Qed.
Lemma fill_short l q : (length q + length l <= Z.to_nat PTY_BUF)%nat -> fill l q = q ++ l.
Proof. intros H. unfold fill. by rewrite take_ge by lia. Qed.

Lemma canon_fill_app l1 l2 r : canon_fill (l1 ++ l2) r = canon_fill l2 (canon_fill l1 r).
Proof.
  revert r. induction l1 as [|ch l1 IH]; intros r; [done|]. cbn [app canon_fill]. destruct (PTY_BUF <=? r_count r) eqn:E; [|apply IH].
  destruct l2; [done|]. cbn [canon_fill]. by rewrite E.
Qed.
Lemma canon_fill_ok l r : ring_ok r -> ring_ok (canon_fill l r) /\ contents (canon_fill l r) = fill l (contents r).
Proof.
  revert r. induction l as [|ch l IH]; intros r Hr; [split; [done|by rewrite fill_nil]|]. cbn [canon_fill].
  pose proof (length_contents r Hr) as Hlen. destruct (Z.leb_spec PTY_BUF (r_count r)) as [Hf|Hf].
  - split; [done|]. unfold fill. replace (_ - _)%nat with O by lia. by rewrite app_nil_r.
  - destruct (rput_ok ch r Hr Hf) as [Hr1 E1]. destruct (IH _ Hr1) as [Hr' E']. split; [done|]. rewrite E', E1.
    rewrite <- (fill_short [ch]) by (cbn; lia). by rewrite fill_app.
Qed.

(** * The terminal its users see *)

Record term := Term { t_line : list Z; t_in : list Z; t_out : list Z; t_eot : bool }.

Inductive key := Kill | Eof | Intr | Reprint | Quit | Erase | Return | Newline | Plain.
Definition key_of (t : termios) (ch : Z) : key :=
  if bool_decide (c_cc t !! VKILL = Some ch) then Kill
  else if bool_decide (c_cc t !! VEOF = Some ch) then Eof
  else if bool_decide (c_cc t !! VINTR = Some ch) then Intr
  else if bool_decide (c_cc t !! VREPRINT = Some ch) then Reprint
  else if bool_decide (c_cc t !! VQUIT = Some ch) then Quit
  else if bool_decide (c_cc t !! VERASE = Some ch) then Erase
  else if ch =? 13 then Return else if ch =? 10 then Newline else Plain.

Definition has (t : termios) (v : Z) : bool := negb (Z.land (c_lflag t) v =? 0).
(** A control character is shown as two. *)
Definition control (ch : Z) : bool := (ch <? 32) || (ch =? 127).
Definition shown (t : termios) (ch : Z) : list Z :=
  if has t ECHOCTL && control ch then [94; if ch =? 127 then 63 else ch + 64] else [ch].
Definition unshown (t : termios) (ch : Z) : list Z :=
  if has t ECHOCTL && control ch then [8; 8; 32; 32; 8; 8] else [8; 32; 8].
Definition when (b : bool) (l : list Z) : list Z := if b then l else [].

Definition emit (l : list Z) (a : term) : term := Term (t_line a) (t_in a) (fill l (t_out a)) (t_eot a).
Definition with_line (l : list Z) (a : term) : term := Term l (t_in a) (t_out a) (t_eot a).
Definition room_in_line (a : term) : bool := Z.of_nat (length (t_line a)) <? MAX_CANON.

Definition type_char (t : termios) (ch : Z) (a : term) : term :=
  let echo := has t ECHO in
  match key_of t ch with
  | Kill => emit (when echo (reverse (t_line a) ≫= unshown t)) (with_line [] a)
  | Eof => emit (when echo (shown t ch ++ [10])) (Term (t_line a) (t_in a) (t_out a) true)
  | Intr | Quit => emit (when echo (shown t ch ++ [10])) (if has t ISIG then with_line [] a else a)
  | Reprint => emit (when echo ([10; 62; 32] ++ (t_line a ≫= shown t))) a
  | Erase => emit (when echo (drop (length (t_line a) - 1) (t_line a) ≫= unshown t)) (with_line (take (length (t_line a) - 1) (t_line a)) a)
  | Return => a
  | Newline =>
    let l := t_line a ++ when (room_in_line a) [10] in
    emit (when (room_in_line a && (echo || has t ECHONL)) [10]) (Term [] (fill l (t_in a)) (t_out a) (t_eot a))
  | Plain => if room_in_line a then emit (when echo (shown t ch)) (with_line (t_line a ++ [ch]) a) else a
  end.

(** * Well-formed terminals *)

Definition line (c : canon) : list Z := take (Z.to_nat (canon_count c)) (canon_buf c).
Record canon_ok (c : canon) : Prop := CanonOk {
  ck_len : Z.of_nat (length (canon_buf c)) = MAX_CANON;
  ck_count : 0 <= canon_count c <= MAX_CANON;
  ck_bytes : Forall is_byte (canon_buf c);
  ck_intr : canon_intr c = false
}.
Record pty_wf (p : pty) : Prop := PtyWf {
  pw_canon : canon_ok (p_canon p);
  pw_in : ring_ok (p_in p);
  pw_out : ring_ok (p_out p)
}.
Definition abs (p : pty) : term := Term (line (p_canon p)) (contents (p_in p)) (contents (p_out p)) (canon_eot (p_canon p)).
(** What input and output leave alone. *)
Definition frame (p : pty) : pty := set_canon (Canon [] 0 false false) (set_rings (Ring [] 0 0 0) (Ring [] 0 0 0) p).
Definition queues_of (p : pty) : list nat := [ptm_readers p; ptm_writers p; pts_readers p; pts_writers p].

Definition echoed (l : list Z) (p : pty) : pty := set_out (canon_fill l (p_out p)) p.
Lemma echoed_app l1 l2 p : echoed l2 (echoed l1 p) = echoed (l1 ++ l2) p.
Proof. unfold echoed. cbn. by rewrite canon_fill_app. Qed.
Lemma echoed_nil p : echoed [] p = p.
Proof. by destruct p. Qed.
Lemma echoed_wf l p : pty_wf p -> pty_wf (echoed l p).
Proof. intros [Hc Hi Ho]. split; [done|done|]. by apply canon_fill_ok. Qed.
Lemma echoed_abs l p : pty_wf p -> abs (echoed l p) = emit l (abs p).
Proof. intros [Hc Hi Ho]. unfold abs, emit. cbn. f_equal. by apply canon_fill_ok. Qed.

Section ok.
Context {X : Type} `{TaskEnv X}.
Implicit Types (st : ptys X) (p q : pty).

(** The tasks and the parts of the terminals that tie them to tasks and files. *)
Record net_ok st : Prop := NetOk {
  no_sys : sys_ok (p_sys st);
  no_pollq : (NREADY <= fs_pollq st < length (queues (p_sys st)))%nat;
  no_polling : forall f o t, p_fso st !! f = Some o -> polling o = Some t -> exists c, task_at t (p_sys st) = Some c /\ exited (t_run c) = false;
  no_queues : forall i p (n : nat), pty_at i st = Some p -> n ∈ queues_of p -> (NREADY <= n < length (queues (p_sys st)))%nat;
  no_ends : forall i p f, pty_at i st = Some p -> ptm_fso p = Some f \/ pts_fso p = Some f -> is_Some (p_fso st !! f)
}.

(** Terminal [i] becomes [q]; apart from that some tasks may be woken and files may
    change their poll state. *)
Record moves (i : nat) st q st' : Prop := Moves {
  mv_sys : sys_ok (p_sys st');
  mv_steady : steady (p_sys st) (p_sys st');
  mv_pty : pty_ st' = <[i := Some q]> (pty_ st);
  mv_frame : frame <$> pty_at i st = Some (frame q);
  mv_fso : forall f, set_state 0 <$> p_fso st' !! f = set_state 0 <$> p_fso st !! f;
  mv_rest : (pty_mounted st', p_desc st', fs_pollq st') = (pty_mounted st, p_desc st, fs_pollq st)
}.

Lemma pty_at_lookup i st p : pty_at i st = Some p <-> pty_ st !! i = Some (Some p).
Proof. unfold pty_at. destruct (pty_ st !! i) as [[q|]|]; cbn; naive_solver. Qed.
Lemma moves_at i st q st' j : moves i st q st' -> pty_at j st' = if decide (j = i) then Some q else pty_at j st.
Proof.
  intros Hm. unfold pty_at. rewrite (mv_pty _ _ _ _ Hm). case_decide as Hj; [subst|by rewrite list_lookup_insert_ne].
  destruct (pty_at i st) as [p|] eqn:E; [|by pose proof (mv_frame _ _ _ _ Hm) as Hf; rewrite E in Hf].
  apply pty_at_lookup in E. rewrite list_lookup_insert_eq; [done|]. by eapply lookup_lt_Some.
Qed.
Lemma moves_trans i st p1 st1 p2 st2 : moves i st p1 st1 -> moves i st1 p2 st2 -> moves i st p2 st2.
Proof.
  intros M1 M2. pose proof (moves_at i st p1 st1 i M1) as E1. rewrite decide_True in E1 by done. destruct M1, M2. split; try done.
  - by transitivity (p_sys st1).
  - by rewrite mv_pty1, mv_pty0, list_insert_insert_eq.
  - rewrite E1 in mv_frame1. cbn in mv_frame1. by rewrite <- mv_frame1.
  - intros f. by rewrite mv_fso1.
  - congruence.
Qed.
Lemma moves_alike i j st q st' p' : moves i st q st' -> pty_at j st' = Some p' -> exists p, pty_at j st = Some p /\ frame p' = frame p.
Proof.
  intros Hm E. rewrite (moves_at _ _ _ _ _ Hm) in E. case_decide as Hj; [subst|by exists p']. injection E as ->.
  pose proof (mv_frame _ _ _ _ Hm) as Hf. destruct (pty_at i st) as [p|]; [|done]. apply (inj Some) in Hf. exists p. by split.
Qed.
Lemma frame_parts p q :
  frame q = frame p -> queues_of q = queues_of p /\ ptm_fso q = ptm_fso p /\ pts_fso q = pts_fso p /\ tio q = tio p /\ locked q = locked p /\ p_size q = p_size p.
Proof.
  intros E.
  split_and!; [exact (f_equal queues_of E)|exact (f_equal ptm_fso E)|exact (f_equal pts_fso E)|exact (f_equal tio E)|exact (f_equal locked E)|exact (f_equal p_size E)].
Qed.
Lemma moves_net i st q st' : net_ok st -> moves i st q st' -> net_ok st'.
Proof.
  intros [Hs Hq Hp Hqs He] Hm. pose proof Hm as [Hs' St _ _ Hf Hr]. injection Hr as _ _ Hpq. pose proof St as ((_ & Hql & _) & _). split.
  - done.
  - by rewrite Hpq, Hql.
  - intros f o t Ef Et. specialize (Hf f). rewrite Ef in Hf. destruct (p_fso st !! f) as [o0|] eqn:E0; [|done]. apply (inj Some) in Hf.
    assert (Et0 : polling o0 = Some t) by (rewrite <- Et; exact (eq_sym (f_equal polling Hf))). destruct (Hp f o0 t E0 Et0) as (c & Ec & Hx).
    destruct (steady_task _ _ _ _ St Ec) as (c' & Ec' & Hk). exists c'. split; [done|]. by rewrite (kin_exited _ _ Hk).
  - intros j p q' Ej Hin. destruct (moves_alike _ _ _ _ _ _ Hm Ej) as (p0 & E0 & Hfr). apply frame_parts in Hfr as (Hqe & _). rewrite Hql. apply (Hqs j p0); [done|]. by rewrite <- Hqe.
  - intros j p f Ej Hor. destruct (moves_alike _ _ _ _ _ _ Hm Ej) as (p0 & E0 & Hfr). apply frame_parts in Hfr as (_ & H1 & H2 & _). rewrite H1, H2 in Hor.
    pose proof (He j p0 f E0 Hor) as Hi. specialize (Hf f). destruct (p_fso st' !! f); [done|]. destruct (p_fso st !! f); [done|]. by destruct Hi.
Qed.

(** [m] ends and makes terminal [i] [q]. *)
Definition does (i : nat) (m : M (ptys X) unit) st q : Prop := exists st', m st = Ret tt st' /\ moves i st q st'.
Lemma does_seq i m (k : unit -> M (ptys X) unit) st q1 q2 :
  net_ok st -> does i m st q1 -> (forall st1, moves i st q1 st1 -> net_ok st1 -> pty_at i st1 = Some q1 -> does i (k tt) st1 q2) -> does i (bind m k) st q2.
Proof.
  intros Hn (st1 & E1 & M1) Hk. destruct (Hk st1) as (st2 & E2 & M2); [done|by eapply moves_net| |].
  - by rewrite (moves_at _ _ _ _ _ M1), decide_True.
  - exists st2. split; [by rewrite (bind_run _ _ _ _ _ E1)|by eapply moves_trans].
Qed.
Lemma does_ret i st p : net_ok st -> pty_at i st = Some p -> does i (ret tt) st p.
Proof.
  intros Hn Ep. exists st. split; [done|]. split; try done; [apply Hn| |by rewrite Ep]. symmetry. by apply list_insert_id, pty_at_lookup.
Qed.
Lemma get_pty_run i st p B (k : pty -> M (ptys X) B) : pty_at i st = Some p -> bind (get_pty i) k st = k p st.
Proof. intros E. unfold get_pty, bind. cbn. by rewrite E. Qed.
Lemma does_get i st p q (k : pty -> M (ptys X) unit) : pty_at i st = Some p -> does i (k p) st q -> does i (bind (get_pty i) k) st q.
Proof. intros E (st' & E' & Hm). exists st'. by rewrite (get_pty_run _ _ _ _ _ E). Qed.
Lemma does_upd i st p f : net_ok st -> pty_at i st = Some p -> frame (f p) = frame p -> does i (upd_pty i f) st (f p).
Proof.
  intros Hn Ep Hf. eexists. split; [reflexivity|]. split; cbn; try done; [apply Hn| |by rewrite Ep; cbn; rewrite Hf].
  apply pty_at_lookup in Ep. apply list_eq. intros j. destruct (decide (j = i)) as [->|Hj].
  - rewrite list_lookup_alter_eq, Ep, list_lookup_insert_eq; [done|]. by eapply lookup_lt_Some.
  - by rewrite list_lookup_alter_ne, list_lookup_insert_ne.
Qed.
(** A step of the tasks alone. *)
Lemma does_sys i st p m s' :
  net_ok st -> pty_at i st = Some p -> m (p_sys st) = Ret tt s' -> sys_ok s' -> steady (p_sys st) s' -> does i (on_sys m) st p.
Proof.
  intros Hn Ep E Hok St. eexists. split; [unfold on_sys, zoom; rewrite E; reflexivity|]. split; cbn; try done; [|by rewrite Ep].
  symmetry. by apply list_insert_id, pty_at_lookup.
Qed.

(** * Waking *)

Lemma does_wake i st p (n : nat) : net_ok st -> pty_at i st = Some p -> (NREADY <= n < length (queues (p_sys st)))%nat -> does i (on_sys (resume_waiters (S TASK_MAX) n)) st p.
Proof.
  intros Hn Ep Hq. destruct (wake_queue (p_sys st) n (no_sys _ Hn) Hq) as (s' & E & Hok & St & _). by apply (does_sys i st p _ s').
Qed.
Lemma does_state i st p f v : net_ok st -> pty_at i st = Some p -> is_Some (p_fso st !! f) -> does i (fs_state f v) st p.
Proof.
  intros Hn Ep [o Ef]. unfold does, fs_state, get_fobj. unfold bind at 1. cbn. rewrite Ef. cbn. destruct (state o =? v); [by apply does_ret|].
  eapply (does_seq i (upd_fobj f (set_state v)) _ st p); [done| |].
  - eexists. split; [reflexivity|]. split; cbn; try done; [apply Hn|symmetry; by apply list_insert_id, pty_at_lookup|by rewrite Ep|].
    intros g. destruct (decide (g = f)) as [->|Hg]; [by rewrite lookup_alter_eq, Ef|by rewrite lookup_alter_ne].
  - intros st1 M1 Hn1 Ep1. destruct (polling o) as [t|] eqn:Et.
    + destruct (no_polling _ Hn f o t Ef Et) as (c & Ec & Hx). destruct (steady_task _ _ _ _ (mv_steady _ _ _ _ M1) Ec) as (c1 & Ec1 & Hk).
      destruct (task_resume_sys (p_sys st1) t c1 (no_sys _ Hn1) Ec1) as (s' & E & Hok & St); [by rewrite (kin_exited _ _ Hk)|]. by apply (does_sys i st1 p _ s').
    + destruct (negb (pollcnt o =? 0)); [|by apply does_ret]. unfold does. rewrite gets_bind. apply does_wake; [done|done|apply Hn1].
Qed.
Lemma get_fobj_run f st o B (k : fso -> M (ptys X) B) : p_fso st !! f = Some o -> bind (get_fobj f) k st = k o st.
Proof. intros E. unfold get_fobj, bind. cbn. by rewrite E. Qed.
Lemma does_clrstate i st p f v : net_ok st -> pty_at i st = Some p -> is_Some (p_fso st !! f) -> does i (fs_clrstate f v) st p.
Proof. intros Hn Ep [o Ef]. unfold does, fs_clrstate. rewrite (get_fobj_run _ _ _ _ _ Ef). by apply does_state. Qed.
Lemma does_setstate i st p f v : net_ok st -> pty_at i st = Some p -> is_Some (p_fso st !! f) -> does i (fs_setstate f v) st p.
Proof. intros Hn Ep [o Ef]. unfold does, fs_setstate. rewrite (get_fobj_run _ _ _ _ _ Ef). by apply does_state. Qed.
Lemma does_resume i st p e v (n : nat) :
  net_ok st -> pty_at i st = Some p -> (forall f, e = Some f -> is_Some (p_fso st !! f)) -> n ∈ queues_of p -> does i (pty_resume e v n) st p.
Proof.
  intros Hn Ep He Hq. unfold pty_resume. eapply does_seq; [done| |].
  - destruct e as [f|]; [by apply does_setstate; auto|by apply does_ret].
  - intros st1 _ Hn1 Ep1. apply does_wake; [done|done|]. by apply (no_queues _ Hn1 i p).
Qed.
Lemma does_ptm_r i st p : net_ok st -> pty_at i st = Some p -> does i (pty_resume_ptm_r i) st p.
Proof. intros Hn Ep. eapply does_get; [done|]. apply does_resume; [done|done|intros f Hf; apply (no_ends _ Hn i p f Ep); by left|set_solver]. Qed.
Lemma does_ptm_w i st p : net_ok st -> pty_at i st = Some p -> does i (pty_resume_ptm_w i) st p.
Proof. intros Hn Ep. eapply does_get; [done|]. apply does_resume; [done|done|intros f Hf; apply (no_ends _ Hn i p f Ep); by left|set_solver]. Qed.
Lemma does_pts_r i st p : net_ok st -> pty_at i st = Some p -> does i (pty_resume_pts_r i) st p.
Proof. intros Hn Ep. eapply does_get; [done|]. apply does_resume; [done|done|intros f Hf; apply (no_ends _ Hn i p f Ep); by right|set_solver]. Qed.
Lemma does_pts_w i st p : net_ok st -> pty_at i st = Some p -> does i (pty_resume_pts_w i) st p.
Proof. intros Hn Ep. eapply does_get; [done|]. apply does_resume; [done|done|intros f Hf; apply (no_ends _ Hn i p f Ep); by right|set_solver]. Qed.

Lemma does_signal_tasks n t i st p e nr : net_ok st -> pty_at i st = Some p -> does i (signal_tasks n t e nr) st p.
Proof.
  revert t st. induction n as [|n IH]; intros t st Hn Ep; cbn [signal_tasks]; [by apply does_ret|]. unfold does. rewrite !gets_bind.
  fold (does i (bind (match task_at t (p_sys st), p_desc st !! t with Some _, Some l => if existsb (desc_on e) l then status (on_sys (signal_send_k t nr));;; ret tt else ret tt | _, _ => ret tt end) (fun _ => signal_tasks n (S t) e nr)) st p).
  eapply does_seq; [done| |intros st1 _ Hn1 Ep1; by apply IH].
  destruct (task_at t (p_sys st)) as [c|] eqn:Ec; [|by apply does_ret]. destruct (p_desc st !! t) as [l|]; [|by apply does_ret].
  destruct (existsb (desc_on e) l); [|by apply does_ret]. pose proof (send_k_sys (p_sys st) t nr c (no_sys _ Hn) Ec) as Hw. unfold wp in Hw.
  unfold does, bind, status, on_sys, zoom. destruct (signal_send_k t nr (p_sys st)) as [[] s'|er s'|] eqn:E; [..|done]; destruct Hw as [Hok St].
  all: eexists; (split; [reflexivity|]); split; cbn; try done; [symmetry; by apply list_insert_id, pty_at_lookup|by rewrite Ep].
Qed.
Lemma does_signal i st p nr : net_ok st -> pty_at i st = Some p -> does i (pty_signal i nr) st p.
Proof. intros Hn Ep. eapply does_get; [done|]. by apply does_signal_tasks. Qed.

(** * Echo *)

Lemma does_echo i st p ch : net_ok st -> pty_at i st = Some p -> pty_wf p -> does i (pty_echo i ch) st (echoed [ch] p).
Proof.
  intros Hn Ep Hw. eapply does_get; [done|]. pose proof (rk_count _ (pw_out _ Hw)) as Hc. unfold echoed. cbn [canon_fill].
  destruct (Z.eqb_spec (r_count (p_out p)) PTY_BUF) as [Hf|Hf]; cbn [negb].
  - rewrite (proj2 (Z.leb_le _ _)) by lia. replace (set_out (p_out p) p) with p by (by destruct p). by apply does_ret.
  - rewrite (proj2 (Z.leb_gt _ _)) by lia. eapply does_seq; [done|by apply does_upd|]. intros st1 _ Hn1 Ep1. by apply does_ptm_r.
Qed.
Lemma does_echo_all i l st p : net_ok st -> pty_at i st = Some p -> pty_wf p -> does i (echo_all i l) st (echoed l p).
Proof.
  revert st p. induction l as [|ch l IH]; intros st p Hn Ep Hw; cbn [echo_all]; [rewrite echoed_nil; by apply does_ret|].
  eapply does_seq; [done|by apply does_echo|]. intros st1 _ Hn1 Ep1. change (ch :: l) with ([ch] ++ l). rewrite <- echoed_app. apply IH; [done|done|by apply echoed_wf].
Qed.
Lemma schar_small ch : is_byte ch -> (0 <=? schar ch) && (schar ch <? 32) = (ch <? 32).
Proof. unfold is_byte, schar. intros Hb. destruct (Z.ltb_spec ch 128), (Z.ltb_spec ch 32); rewrite ?(proj2 (Z.leb_le _ _)), ?(proj2 (Z.leb_gt _ _)), ?(proj2 (Z.ltb_lt _ _)), ?(proj2 (Z.ltb_ge _ _)) by lia; try done; lia. Qed.
Lemma schar_del ch : is_byte ch -> (schar ch =? 127) = (ch =? 127).
Proof. unfold is_byte, schar. intros Hb. destruct (Z.ltb_spec ch 128); [done|]. destruct (Z.eqb_spec (ch - 256) 127), (Z.eqb_spec ch 127); (done || lia). Qed.
Lemma does_cecho i st p ch : net_ok st -> pty_at i st = Some p -> pty_wf p -> is_byte ch -> does i (pty_cecho i ch) st (echoed (shown (tio p) ch) p).
Proof.
  intros Hn Ep Hw Hb. eapply does_get; [done|]. rewrite <- andb_assoc, schar_small, schar_del by done. unfold shown, control. change (lflag p ECHOCTL) with (has (tio p) ECHOCTL).
  destruct (has (tio p) ECHOCTL); cbn [andb]; [|by apply does_echo]. destruct (Z.ltb_spec ch 32) as [Hs|Hs]; cbn [orb].
  - rewrite (proj2 (Z.eqb_neq ch 127)) by lia. change [94; ch + 64] with ([94] ++ [ch + 64]). rewrite <- echoed_app.
    eapply does_seq; [done|by apply does_echo|]. intros st1 _ Hn1 Ep1. apply does_echo; [done|done|by apply echoed_wf].
  - destruct (ch =? 127); [|by apply does_echo]. change [94; 63] with ([94] ++ [63]). rewrite <- echoed_app.
    eapply does_seq; [done|by apply does_echo|]. intros st1 _ Hn1 Ep1. apply does_echo; [done|done|by apply echoed_wf].
Qed.
Lemma does_erase i st p ch : net_ok st -> pty_at i st = Some p -> pty_wf p -> is_byte ch -> does i (pty_erase_ch i ch) st (echoed (unshown (tio p) ch) p).
Proof.
  intros Hn Ep Hw Hb. eapply does_get; [done|]. rewrite schar_del, andb_comm by done. unfold unshown, control. change (lflag p ECHOCTL) with (has (tio p) ECHOCTL).
  destruct (_ && _); by apply does_echo_all.
Qed.

(** * The line being typed *)

Definition to_count (n : Z) (p : pty) : pty := set_canon (set_count n (p_canon p)) p.
Definition echo_of (p : pty) (l : list Z) : list Z := when (has (tio p) ECHO) l.
Lemma to_count_wf n p : pty_wf p -> 0 <= n <= MAX_CANON -> pty_wf (to_count n p).
Proof. intros [[Hl Hc Hb Hi] Hin Ho] Hn. split; [by split|done|done]. Qed.
Lemma to_count_abs n p : pty_wf p -> 0 <= n <= canon_count (p_canon p) -> abs (to_count n p) = with_line (take (Z.to_nat n) (t_line (abs p))) (abs p).
Proof. intros Hw Hn. unfold abs, with_line, line. cbn. f_equal. rewrite take_take. f_equal. lia. Qed.
Lemma length_line p : pty_wf p -> Z.of_nat (length (t_line (abs p))) = canon_count (p_canon p).
Proof. intros [[Hl Hc _ _] _ _]. cbn. unfold line. rewrite length_take. lia. Qed.
Lemma line_byte p j ch : pty_wf p -> canon_buf (p_canon p) !! j = Some ch -> is_byte ch.
Proof. intros [[_ _ Hb _] _ _] E. by eapply Forall_lookup_1 in Hb. Qed.
Lemma line_bytes p : pty_wf p -> Forall is_byte (t_line (abs p)).
Proof. intros [[_ _ Hb _] _ _]. cbn. by apply Forall_take. Qed.

(** An optional echo. *)
Lemma does_if_echo i (m : M (ptys X) unit) st p l :
  net_ok st -> pty_at i st = Some p -> (has (tio p) ECHO = true -> does i m st (echoed l p)) ->
  does i (if lflag p ECHO then m else ret tt) st (echoed (echo_of p l) p).
Proof.
  intros Hn Ep Hm. unfold echo_of. change (lflag p ECHO) with (has (tio p) ECHO). destruct (has (tio p) ECHO); cbn [when]; [by apply Hm|]. rewrite echoed_nil. by apply does_ret.
Qed.

Lemma last_chars (b : list Z) (k : nat) ch n : b !! k = Some ch -> (n <= k)%nat -> reverse (drop (S k - S n) (take (S k) b)) = ch :: reverse (drop (k - n) (take k b)).
Proof.
  intros E Hn. assert (Hk : (k < length b)%nat) by (by eapply lookup_lt_Some). rewrite (take_S_r _ _ _ E), drop_app_le by (rewrite length_take; lia). by rewrite reverse_app.
Qed.
Lemma when_app c (l1 l2 : list Z) : when c l1 ++ when c l2 = when c (l1 ++ l2).
Proof. by destruct c. Qed.

Lemma does_kill n i st p :
  net_ok st -> pty_at i st = Some p -> pty_wf p -> Z.of_nat n <= canon_count (p_canon p) ->
  does i (kill_loop n i) st (echoed (echo_of p (reverse (drop (Z.to_nat (canon_count (p_canon p)) - n) (t_line (abs p))) ≫= unshown (tio p)))
    (to_count (canon_count (p_canon p) - Z.of_nat n) p)).
Proof.
  revert st p. induction n as [|n IH]; intros st p Hn Ep Hw Hle; cbn [kill_loop].
  - rewrite Nat.sub_0_r, drop_ge by (pose proof (length_line p Hw); lia). unfold echo_of, when. cbn [reverse mbind list_bind]. rewrite Z.sub_0_r.
    replace (to_count _ p) with p by (by destruct p as [???????[]]). destruct (has _ _); cbn; rewrite echoed_nil; by apply does_ret.
  - pose proof (pw_canon _ Hw) as [Hl Hc Hb Hi]. set (k := canon_count (p_canon p) - 1).
    destruct (lookup_lt_is_Some_2 (canon_buf (p_canon p)) (Z.to_nat k)) as [ch Ech]; [lia|].
    eapply does_get; [done|]. eapply does_seq; [done|by apply (does_upd i st p (set_canon (set_count k (p_canon p))))|]. intros st1 _ Hn1 Ep1. cbv beta.
    fold k. rewrite Ech. unfold does. cbn [deref]. rewrite ret_bind. fold (to_count k p) in Ep1. assert (Hw1 : pty_wf (to_count k p)) by (apply to_count_wf; [done|lia]).
    fold (does i ((if lflag p ECHO then pty_erase_ch i ch else ret tt);;; kill_loop n i) st1 (echoed (echo_of p (reverse (drop (Z.to_nat (canon_count (p_canon p)) - S n) (t_line (abs p))) ≫= unshown (tio p))) (to_count (canon_count (p_canon p) - Z.of_nat (S n)) p))).
    change (lflag p ECHO) with (lflag (to_count k p) ECHO). eapply does_seq; [done|apply (does_if_echo i (pty_erase_ch i ch) st1 (to_count k p) (unshown (tio p) ch)); [done|done|]|].
    + intros _. apply (does_erase i st1 (to_count k p) ch); [done|done|done|by eapply (line_byte p)].
    + intros st2 _ Hn2 Ep2. set (p2 := echoed (echo_of (to_count k p) (unshown (tio p) ch)) (to_count k p)) in *.
      assert (Hk : Z.of_nat n <= canon_count (p_canon p2)) by (cbn; lia). assert (Hw2 : pty_wf p2) by (by apply echoed_wf).
      specialize (IH st2 p2 Hn2 Ep2 Hw2 Hk). eapply eq_ind; [exact IH|].
      set (l := reverse (drop (Z.to_nat (canon_count (p_canon p2)) - n) (t_line (abs p2))) ≫= unshown (tio p2)).
      change (echoed (echo_of p2 l) (to_count (canon_count (p_canon p2) - Z.of_nat n) p2)) with (echoed (echo_of p l) (echoed (echo_of p (unshown (tio p) ch)) (to_count (k - Z.of_nat n) p))).
      rewrite echoed_app. f_equal; [|unfold to_count; do 2 f_equal; lia]. unfold echo_of. rewrite when_app. f_equal.
      change (t_line (abs p)) with (line (p_canon p)). unfold line. replace (Z.to_nat (canon_count (p_canon p))) with (S (Z.to_nat k)) by lia.
      rewrite (last_chars _ _ ch n) by (done || lia). cbn [mbind list_bind]. done.
Qed.

(** ** Characters *)

Definition put_char (ch : Z) (p : pty) : pty :=
  let c := p_canon p in set_canon (Canon (<[Z.to_nat (canon_count c) := ch]> (canon_buf c)) (canon_count c + 1) (canon_intr c) (canon_eot c)) p.
Lemma put_char_wf ch p : pty_wf p -> is_byte ch -> canon_count (p_canon p) < MAX_CANON -> pty_wf (put_char ch p).
Proof. intros [[Hl Hc Hb Hi] Hin Ho] Hch Hlt. split; [split; cbn; [by rewrite length_insert|lia|by apply Forall_insert|done]|done|done]. Qed.
Lemma put_char_abs ch p : pty_wf p -> canon_count (p_canon p) < MAX_CANON -> abs (put_char ch p) = with_line (t_line (abs p) ++ [ch]) (abs p).
Proof.
  intros [[Hl Hc _ _] _ _] Hlt. unfold abs, with_line, line. cbn. f_equal. replace (Z.to_nat (canon_count (p_canon p) + 1)) with (S (Z.to_nat (canon_count (p_canon p)))) by lia.
  erewrite take_S_r by (apply list_lookup_insert_eq; lia). by rewrite take_insert_ge by lia.
Qed.
Lemma room_in_line_abs p : pty_wf p -> room_in_line (abs p) = (canon_count (p_canon p) <? MAX_CANON).
Proof. intros Hw. unfold room_in_line. by rewrite length_line. Qed.

Lemma does_cecho_all i l st p : net_ok st -> pty_at i st = Some p -> pty_wf p -> Forall is_byte l -> does i (cecho_all i l) st (echoed (l ≫= shown (tio p)) p).
Proof.
  revert st p. induction l as [|ch l IH]; intros st p Hn Ep Hw Hb; cbn [cecho_all]; [rewrite echoed_nil; by apply does_ret|]. inversion_clear Hb as [|?? Hch Hl].
  eapply does_seq; [done|by apply does_cecho|]. intros st1 _ Hn1 Ep1. cbn [mbind list_bind]. rewrite <- echoed_app. apply (IH st1 (echoed (shown (tio p) ch) p)); [done|done|by apply echoed_wf|done].
Qed.
Lemma does_cecho_nl i st p ch : net_ok st -> pty_at i st = Some p -> pty_wf p -> is_byte ch -> does i (pty_cecho i ch;;; pty_echo i 10) st (echoed (shown (tio p) ch ++ [10]) p).
Proof.
  intros Hn Ep Hw Hb. eapply does_seq; [done|by apply does_cecho|]. intros st1 _ Hn1 Ep1. rewrite <- echoed_app. apply does_echo; [done|done|by apply echoed_wf].
Qed.

(** The line goes to the input ring. *)
Definition sent (p : pty) : pty := to_count 0 (set_in (canon_fill (line (p_canon p)) (p_in p)) p).
Lemma sent_wf p : pty_wf p -> pty_wf (sent p).
Proof. intros [[Hl Hc Hb Hi] Hin Ho]. split; [split; cbn; (done || lia)|by apply canon_fill_ok|done]. Qed.
Lemma sent_abs p : pty_wf p -> abs (sent p) = Term [] (fill (t_line (abs p)) (t_in (abs p))) (t_out (abs p)) (t_eot (abs p)).
Proof. intros [Hc Hin Ho]. unfold abs. cbn. f_equal. by apply canon_fill_ok. Qed.

Definition newline (p : pty) : pty := if canon_count (p_canon p) <? MAX_CANON then echoed (when (has (tio p) (Z.lor ECHO ECHONL)) [10]) (put_char 10 p) else p.
Lemma newline_wf p : pty_wf p -> pty_wf (newline p).
Proof. intros Hw. unfold newline. destruct (Z.ltb_spec (canon_count (p_canon p)) MAX_CANON); [|done]. by apply echoed_wf, put_char_wf. Qed.
Lemma does_line i st p : net_ok st -> pty_at i st = Some p -> pty_wf p -> does i (canon_line i) st (sent (newline p)).
Proof.
  intros Hn Ep Hw. eapply does_get; [done|]. cbv zeta. eapply (does_seq i _ _ st (newline p)); [done| |].
  - unfold newline. destruct (Z.ltb_spec (canon_count (p_canon p)) MAX_CANON) as [Hlt|Hlt]; [|by apply does_ret].
    eapply (does_seq i _ _ st (put_char 10 p)); [done|by apply (does_upd i st p (set_canon _))|]. intros st1 _ Hn1 Ep1. change (lflag p (Z.lor ECHO ECHONL)) with (has (tio p) (Z.lor ECHO ECHONL)).
    destruct (has (tio p) (Z.lor ECHO ECHONL)); cbn [when]; [apply does_echo; [done|done|by apply put_char_wf]|]. rewrite echoed_nil. by apply does_ret.
  - intros st1 _ Hn1 Ep1. eapply does_get; [done|]. eapply does_seq; [done|by apply (does_upd i st1 (newline p) (set_in (canon_fill (line (p_canon (newline p))) (p_in (newline p)))))|].
    intros st2 _ Hn2 Ep2. eapply does_seq; [done|by apply (does_upd i st2 (set_in (canon_fill (line (p_canon (newline p))) (p_in (newline p))) (newline p)) (to_count 0))|]. intros st3 _ Hn3 Ep3. by apply does_pts_r.
Qed.
Lemma does_canon_signal i st p ch nr :
  net_ok st -> pty_at i st = Some p -> pty_wf p -> is_byte ch ->
  does i (canon_signal i ch nr) st (echoed (echo_of p (shown (tio p) ch ++ [10])) (if has (tio p) ISIG then to_count 0 p else p)).
Proof.
  intros Hn Ep Hw Hb. eapply does_get; [done|]. change (lflag p ISIG) with (has (tio p) ISIG). set (p1 := if has (tio p) ISIG then to_count 0 p else p).
  assert (Et : tio p1 = tio p) by (unfold p1; by destruct (has _ _)). assert (Hw1 : pty_wf p1) by (unfold p1; destruct (has _ _); [by apply to_count_wf|done]).
  eapply (does_seq i _ _ st p1); [done| |].
  - unfold p1. destruct (has (tio p) ISIG); [|by apply does_ret]. eapply does_seq; [done|by apply does_signal|]. intros st1 _ Hn1 Ep1. by apply (does_upd i st1 p (to_count 0)).
  - intros st1 _ Hn1 Ep1. unfold lflag, echo_of. rewrite <- Et. apply (does_if_echo i _ st1 p1); [done|done|]. intros _. by apply does_cecho_nl.
Qed.

(** [m] ends, keeps terminal [i] well-formed and makes it look like [a]. *)
Definition acts (i : nat) (m : M (ptys X) unit) st (a : term) : Prop := exists p', does i m st p' /\ pty_wf p' /\ abs p' = a.
Lemma acts_echoed i m st l p : does i m st (echoed l p) -> pty_wf p -> acts i m st (emit l (abs p)).
Proof. intros Hd Hw. exists (echoed l p). split; [done|]. split; [by apply echoed_wf|by apply echoed_abs]. Qed.

Lemma abs_cut n p : pty_wf p -> 0 <= n <= canon_count (p_canon p) -> pty_wf (to_count n p) /\ abs (to_count n p) = with_line (take (Z.to_nat n) (t_line (abs p))) (abs p).
Proof. intros Hw Hn. pose proof (ck_count _ (pw_canon _ Hw)). split; [apply to_count_wf; [done|lia]|by apply to_count_abs]. Qed.
Section key.
Context (i : nat) st p (Hn : net_ok st) (Ep : pty_at i st = Some p) (Hw : pty_wf p) (ch : Z) (Hb : is_byte ch).

Lemma acts_kill n : Z.of_nat n <= canon_count (p_canon p) ->
  acts i (kill_loop n i) st (emit (echo_of p (reverse (drop (length (t_line (abs p)) - n) (t_line (abs p))) ≫= unshown (tio p))) (with_line (take (length (t_line (abs p)) - n) (t_line (abs p))) (abs p))).
Proof.
  intros Hle. pose proof (length_line p Hw) as Hll. destruct (abs_cut (canon_count (p_canon p) - Z.of_nat n) p Hw ltac:(lia)) as [Hw1 E1].
  replace (length (t_line (abs p)) - n)%nat with (Z.to_nat (canon_count (p_canon p) - Z.of_nat n)) by lia. rewrite <- E1. apply acts_echoed; [|done].
  replace (Z.to_nat (canon_count (p_canon p) - Z.of_nat n)) with (Z.to_nat (canon_count (p_canon p)) - n)%nat by lia. by apply does_kill.
Qed.
Lemma acts_erase :
  acts i (if negb (canon_count (p_canon p) =? 0) then kill_loop 1 i else ret tt) st
    (emit (echo_of p (drop (length (t_line (abs p)) - 1) (t_line (abs p)) ≫= unshown (tio p))) (with_line (take (length (t_line (abs p)) - 1) (t_line (abs p))) (abs p))).
Proof.
  pose proof (length_line p Hw) as Hll. pose proof (ck_count _ (pw_canon _ Hw)) as Hc. destruct (Z.eqb_spec (canon_count (p_canon p)) 0) as [Hz|Hz]; cbn [negb].
  - assert (El : t_line (abs p) = []) by (apply length_zero_iff_nil; lia). rewrite El. exists p. split; [by apply does_ret|]. split; [done|].
    unfold echo_of. replace (when _ _) with (@nil Z) by (by destruct (has _ _)). unfold emit, with_line. cbn [take drop length t_line t_in t_out t_eot]. rewrite fill_nil. destruct (abs p) as [l1 l2 l3 b]. cbn in El |- *. by subst.
  - replace (drop (length (t_line (abs p)) - 1) (t_line (abs p))) with (reverse (drop (length (t_line (abs p)) - 1) (t_line (abs p)))); [apply acts_kill; lia|].
    destruct (drop (length (t_line (abs p)) - 1) (t_line (abs p))) as [|x [|y l]] eqn:Ed; [done|done|]. apply (f_equal length) in Ed. rewrite length_drop in Ed. cbn in Ed. lia.
Qed.
Lemma acts_eof :
  acts i (upd_pty i (set_canon (Canon (canon_buf (p_canon p)) (canon_count (p_canon p)) (canon_intr (p_canon p)) true));;;
    if lflag p ECHO then pty_cecho i ch;;; pty_echo i 10 else ret tt) st
    (emit (echo_of p (shown (tio p) ch ++ [10])) (Term (t_line (abs p)) (t_in (abs p)) (t_out (abs p)) true)).
Proof.
  set (p1 := set_canon (Canon (canon_buf (p_canon p)) (canon_count (p_canon p)) (canon_intr (p_canon p)) true) p).
  assert (Hw1 : pty_wf p1) by (destruct Hw as [[] ? ?]; by split). apply (acts_echoed i _ st (echo_of p1 (shown (tio p1) ch ++ [10])) p1); [|done].
  eapply (does_seq i _ _ st p1); [done|by apply (does_upd i st p (set_canon _))|]. intros st1 _ Hn1 Ep1. change (lflag p ECHO) with (lflag p1 ECHO).
  apply does_if_echo; [done|done|]. intros _. by apply does_cecho_nl.
Qed.
Lemma acts_signal nr :
  acts i (canon_signal i ch nr) st (emit (echo_of p (shown (tio p) ch ++ [10])) (if has (tio p) ISIG then with_line [] (abs p) else abs p)).
Proof.
  pose proof (does_canon_signal i st p ch nr Hn Ep Hw Hb) as Hd. destruct (abs_cut 0 p Hw) as [Hw1 E1]; [pose proof (ck_count _ (pw_canon _ Hw)); lia|].
  rewrite take_0 in E1. destruct (has (tio p) ISIG); [rewrite <- E1|]; by apply acts_echoed.
Qed.
Lemma acts_reprint :
  acts i (if lflag p ECHO then echo_all i [10; 62; 32];;; cecho_all i (line (p_canon p)) else ret tt) st
    (emit (echo_of p ([10; 62; 32] ++ (t_line (abs p) ≫= shown (tio p)))) (abs p)).
Proof.
  apply acts_echoed; [|done]. apply does_if_echo; [done|done|]. intros _. eapply does_seq; [done|by apply does_echo_all|]. intros st1 _ Hn1 Ep1. rewrite <- echoed_app.
  apply (does_cecho_all i _ st1 (echoed [10; 62; 32] p)); [done|done|by apply echoed_wf|by apply line_bytes].
Qed.
Lemma has_either t v w : has t (Z.lor v w) = has t v || has t w.
Proof.
  unfold has. rewrite Z.land_lor_distr_r. destruct (Z.eqb_spec (Z.land (c_lflag t) v) 0) as [->|H1]; [by rewrite Z.lor_0_l|]. cbn [negb orb].
  destruct (Z.eqb_spec (Z.lor (Z.land (c_lflag t) v) (Z.land (c_lflag t) w)) 0) as [E|]; [|done]. by apply Z.lor_eq_0_iff in E as [E _].
Qed.
Lemma acts_line :
  acts i (canon_line i) st
    (emit (when (room_in_line (abs p) && (has (tio p) ECHO || has (tio p) ECHONL)) [10])
      (Term [] (fill (t_line (abs p) ++ when (room_in_line (abs p)) [10]) (t_in (abs p))) (t_out (abs p)) (t_eot (abs p)))).
Proof.
  exists (sent (newline p)). split; [by apply does_line|]. pose proof (newline_wf p Hw) as Hw1. split; [by apply sent_wf|]. rewrite sent_abs by done. rewrite room_in_line_abs by done.
  unfold newline. destruct (Z.ltb_spec (canon_count (p_canon p)) MAX_CANON) as [Hlt|Hlt]; cbn [andb when].
  - rewrite echoed_abs by (by apply put_char_wf). rewrite put_char_abs by done. by rewrite has_either.
  - rewrite app_nil_r. unfold emit. by rewrite fill_nil.
Qed.
Lemma acts_plain :
  canon_count (p_canon p) < MAX_CANON ->
  acts i (upd_pty i (set_canon (Canon (<[Z.to_nat (canon_count (p_canon p)) := ch]> (canon_buf (p_canon p))) (canon_count (p_canon p) + 1) (canon_intr (p_canon p)) (canon_eot (p_canon p))));;;
    if lflag p ECHO then pty_cecho i ch else ret tt) st (emit (echo_of p (shown (tio p) ch)) (with_line (t_line (abs p) ++ [ch]) (abs p))).
Proof.
  intros Hlt. rewrite <- put_char_abs by done. pose proof (put_char_wf ch p Hw Hb Hlt) as Hw1. apply acts_echoed; [|done].
  eapply (does_seq i _ _ st (put_char ch p)); [done|by apply (does_upd i st p (set_canon _))|]. intros st1 _ Hn1 Ep1. change (lflag p ECHO) with (lflag (put_char ch p) ECHO).
  apply (does_if_echo i _ st1 (put_char ch p)); [done|done|]. intros _. by apply (does_cecho i st1 (put_char ch p)).
Qed.

(** What a character typed does. *)
Lemma canon_input_ok : acts i (pty_canon_input i ch) st (type_char (tio p) ch (abs p)).
Proof.
  unfold type_char, key_of. assert (Hg : forall (k : pty -> M (ptys X) unit) a, acts i (k p) st a -> acts i (bind (get_pty i) k) st a).
  { intros k a (p' & Hd & Hr). exists p'. split; [by eapply does_get|done]. }
  apply Hg. cbv zeta. unfold cc. pose proof (ck_count _ (pw_canon _ Hw)) as Hc. pose proof (length_line p Hw) as Hll.
  case_bool_decide.
  { pose proof (acts_kill (Z.to_nat (canon_count (p_canon p))) ltac:(lia)) as Hk. replace (length (t_line (abs p)) - _)%nat with O in Hk by lia. by rewrite drop_0, take_0 in Hk. }
  case_bool_decide; [by apply acts_eof|]. case_bool_decide; [by apply acts_signal|]. case_bool_decide; [by apply acts_reprint|].
  case_bool_decide; [by apply acts_signal|]. case_bool_decide; [by apply acts_erase|].
  destruct (Z.eqb_spec ch 13); [exists p; split; [by apply does_ret|done]|]. destruct (Z.eqb_spec ch 10) as [Hnl|]; [by apply acts_line|].
  rewrite room_in_line_abs by done. destruct (Z.ltb_spec (canon_count (p_canon p)) MAX_CANON); [by apply acts_plain|]. exists p. split; [by apply does_ret|done].
Qed.
End key.
End ok.
