(* ===== verification/PtyProps.v ===== *)
(** Reading from and writing to pseudo-terminals (kern/fs/pty/ptyfs.c): what a call
    does to the terminal its users see. *)

From S2P Require Import Prelude Kern Frame Tasks TaskSys TaskQueueOk TaskOk TaskSched TaskInv TaskLife TaskSysOk Mutex MsgQueue Pty PtyOk.

Inductive result := RDone (n : Z) (l : list Z) | RWait | RErr (e : Z).

(** * Reading *)

Definition with_in (q : list Z) (a : term) : term := Term (t_line a) q (t_out a) (t_eot a).
Definition with_out (q : list Z) (a : term) : term := Term (t_line a) (t_in a) q (t_eot a).
Definition no_eot (a : term) : term := Term (t_line a) (t_in a) (t_out a) false.

(** The first [n] bytes of [q], as many as there are and no more than [count]. *)
Definition took (count : Z) (q : list Z) (n : Z) (l q' : list Z) : Prop :=
  q = l ++ q' /\ n = Z.of_nat (length l) /\ n = Z.min count (Z.of_nat (length q)).

Definition mread_spec (count : Z) (nd : bool) (a : term) (r : result) (a' : term) : Prop :=
  match r with
  | RDone n l => t_out a <> [] /\ exists q, took count (t_out a) n l q /\ a' = with_out q a
  | RWait => t_out a = [] /\ nd = false /\ a' = a
  | RErr e => t_out a = [] /\ a' = a /\ (nd = true /\ e = EAGAIN \/ nd = false /\ e = EINTR)
  end.

(** [hup]: the master side is closed. *)
Definition sread_spec (hup : bool) (count : Z) (nd : bool) (a : term) (r : result) (a' : term) : Prop :=
  match r with
  | RDone n l =>
    (hup = true /\ n = 0 /\ l = [] /\ a' = a) \/
    (hup = false /\ t_in a <> [] /\ exists q, took count (t_in a) n l q /\ a' = with_in q a) \/
    (hup = false /\ t_in a = [] /\ nd = true /\ n = EAGAIN /\ l = [] /\ a' = a) \/
    (hup = false /\ t_in a = [] /\ nd = false /\ t_eot a = true /\ n = 0 /\ l = [] /\ a' = no_eot a)
  | RWait => hup = false /\ t_in a = [] /\ nd = false /\ t_eot a = false /\ a' = a
  | RErr e => hup = false /\ t_in a = [] /\ nd = false /\ t_eot a = false /\ a' = a /\ e = EINTR
  end.

(** * Writing *)

(** The bytes before the first one that cannot be read. *)
Fixpoint good (buf : ubuf) : list Z := match buf with inr ch :: buf' => ch :: good buf' | _ => [] end.
Definition request_ok (buf : ubuf) : Prop := Forall is_byte (good buf) /\ Z.of_nat (length buf) < 2 ^ 31 /\ forall e, inl e ∈ buf -> e <> 0.
Definition fault (buf : ubuf) : option Z := match drop (length (good buf)) buf with inl e :: _ => Some e | _ => None end.

(** A byte for the slave side: typed on a terminal that edits lines, or taken as it
    is when there is room. *)
Definition put_raw (t : termios) (a : term) (ch : Z) : option term :=
  if decide (Z.of_nat (length (t_in a)) < PTY_BUF) then Some (emit (when (has t ECHO) [ch]) (with_in (t_in a ++ [ch]) a)) else None.
Definition put_in (t : termios) (a : term) (ch : Z) : option term := if has t ICANON then Some (type_char t ch a) else put_raw t a ch.
Definition put_out (a : term) (ch : Z) : option term :=
  if decide (Z.of_nat (length (t_out a)) < PTY_BUF) then Some (with_out (t_out a ++ [ch]) a) else None.
Definition puts (put : term -> Z -> option term) (a : term) (l : list Z) : option term := foldl (fun o ch => o ≫= fun a => put a ch) (Some a) l.

(** [k] more bytes are taken after [k0].  [stop]: a call that finds no room returns at
    once, and what it gives as the number of bytes then; otherwise it waits. *)
Definition write_spec (put : term -> Z -> option term) (stop : option (Z -> Z)) (k0 : Z) (buf : ubuf) (a : term) (r : result) (a' : term) : Prop :=
  exists k : nat, (k <= length (good buf))%nat /\ puts put a (take k (good buf)) = Some a' /\
  let stuck := match good buf !! k with Some ch => put a' ch = None | None => False end in
  let n := k0 + Z.of_nat k in
  match r with
  | RDone n' l =>
    l = [] /\
    ((k = length (good buf) /\ n' = n /\ (buf = [] \/ 0 < n)) \/
     (stuck /\ match stop with Some f => n' = f n | None => n' = n /\ 0 < n end))
  | RWait => stuck /\ stop = None
  | RErr e => n = 0 /\ (stuck /\ stop = None /\ e = EINTR \/ k = length (good buf) /\ fault buf = Some e)
  end.
(** A master that does not wait is told [left] bytes too few; a slave whose master is
    gone is told a number below zero, which is huge as a [size_t]. *)
Definition mstop (len : Z) (nd : bool) : option (Z -> Z) := if nd then Some (fun k => u64 (k - (len - k))) else None.
Definition sstop (hup : bool) (len : Z) (nd : bool) : option (Z -> Z) :=
  if hup then Some (fun k => u64 (k - len)) else if nd then Some (fun k => k) else None.

Section ok.
Context {X : Type} `{TaskEnv X}.
Implicit Types (st : ptys X) (p q : pty).

(** The state after a call on terminal [i]: the other terminals are as before. *)
Definition after (i : nat) st p (a : term) st' : Prop :=
  net_ok st' /\ (exists p', pty_at i st' = Some p' /\ pty_wf p' /\ frame p' = frame p /\ abs p' = a) /\ forall j, j <> i -> pty_at j st' = pty_at j st.
Definition io {A} (i : nat) (m : M (ptys X) (progress A)) (f : A -> Z * list Z) st p (spec : term -> result -> term -> Prop) : Prop :=
  wp m (fun r st' => exists a', after i st p a' st' /\ spec (abs p) (match r with Done x => RDone (f x).1 (f x).2 | Wait => RWait end) a')
    (fun e st' => exists a', after i st p a' st' /\ spec (abs p) (RErr e) a') st.

Lemma moves_after i st p q st' : net_ok st -> pty_at i st = Some p -> moves i st q st' -> pty_wf q -> after i st p (abs q) st'.
Proof.
  intros Hn Ep Hm Hw. split; [by eapply moves_net|]. split.
  - exists q. split_and!; [by rewrite (moves_at _ _ _ _ _ Hm), decide_True|done| |done]. pose proof (mv_frame _ _ _ _ Hm) as Hf. rewrite Ep in Hf. cbn in Hf. by apply (inj Some) in Hf.
  - intros j Hj. by rewrite (moves_at _ _ _ _ _ Hm), decide_False.
Qed.
Lemma after_refl i st p : net_ok st -> pty_at i st = Some p -> pty_wf p -> after i st p (abs p) st.
Proof. intros Hn Ep Hw. split; [done|]. split; [by exists p|done]. Qed.
Lemma after_moves i st p q st1 a st2 : net_ok st -> pty_at i st = Some p -> moves i st q st1 -> after i st1 q a st2 -> after i st p a st2.
Proof.
  intros Hn Ep Hm (Hn2 & (p' & E' & Hw' & Hf' & Ha) & Ho). split; [done|]. split.
  - exists p'. split_and!; [done|done| |done]. rewrite Hf'. pose proof (mv_frame _ _ _ _ Hm) as Hf. rewrite Ep in Hf. cbn in Hf. by apply (inj Some) in Hf.
  - intros j Hj. rewrite Ho by done. by rewrite (moves_at _ _ _ _ _ Hm), decide_False.
Qed.
(** A part that ends, then the rest. *)
Lemma wp_does {B} i m (k : unit -> M (ptys X) B) st q Q E :
  net_ok st -> does i m st q -> (forall st1, moves i st q st1 -> net_ok st1 -> pty_at i st1 = Some q -> wp (k tt) Q E st1) -> wp (bind m k) Q E st.
Proof.
  intros Hn (st1 & E1 & M1) Hk. eapply wp_known; [exact E1|]. apply Hk; [done|by eapply moves_net|by rewrite (moves_at _ _ _ _ _ M1), decide_True].
Qed.
Lemma wp_get {B} i st p (k : pty -> M (ptys X) B) Q E : pty_at i st = Some p -> wp (k p) Q E st -> wp (bind (get_pty i) k) Q E st.
Proof. intros Ep Hk. unfold wp. by rewrite (get_pty_run _ _ _ _ _ Ep). Qed.

(** The task waits, or is interrupted. *)
Lemma suspend_after i st p me (n : nat) :
  net_ok st -> pty_at i st = Some p -> pty_wf p -> curr (p_sys st) = Some me -> n ∈ queues_of p ->
  wp (on_sys (task_suspend (Some n) WAIT_INTR)) (fun _ st' => after i st p (abs p) st') (fun e st' => e = EINTR /\ after i st p (abs p) st') st.
Proof.
  intros Hn Ep Hw Hcu Hq. destruct (sys_curr _ me (no_sys _ Hn) Hcu) as (c & Ec & _).
  pose proof (task_suspend_sys (p_sys st) (Some n) WAIT_INTR me c (no_sys _ Hn) Hcu Ec (no_queues _ Hn i p n Ep Hq) ltac:(by left)) as Hs.
  assert (Hk : forall s', sys_ok s' -> same_upto kin (p_sys st) s' -> after i st p (abs p) (Ptys s' (pty_ st) (pty_mounted st) (p_fso st) (p_desc st) (fs_pollq st))).
  { intros s' Hok Hk. split; [|split; [by exists p|done]]. pose proof Hk as (_ & Hql & _). destruct Hn as [Hs0 Hpq Hpo Hqs He]. split; cbn; [done|by rewrite Hql| | |done].
    - intros f o t Ef Et. destruct (Hpo f o t Ef Et) as (d & Ed & Hx). destruct (same_upto_task _ _ _ _ _ Hk Ed) as (d' & Ed' & K). exists d'. split; [done|]. by rewrite (kin_exited _ _ K).
    - intros j p0 n0. rewrite Hql. apply Hqs. }
  unfold on_sys. apply wp_zoom. eapply wp_mono; [exact Hs| |].
  - intros _ s' (Hok & K & _). by apply Hk.
  - intros e s' (-> & Hok & (K & _) & _). split; [done|]. by apply Hk.
Qed.

(** ** Reading *)

Lemma set_out_wf p r : pty_wf p -> ring_ok r -> pty_wf (set_out r p).
Proof. by intros [Hc Hi Ho] Hr. Qed.
Lemma set_in_wf p r : pty_wf p -> ring_ok r -> pty_wf (set_in r p).
Proof. by intros [Hc Hi Ho] Hr. Qed.

(** The bytes [drain] gives. *)
Lemma drain_took r count : ring_ok r -> 0 <= count ->
  exists l r', drain (Z.to_nat (if r_count r <? count then r_count r else count)) r = Some (l, r') /\ ring_ok r' /\
    took count (contents r) (if r_count r <? count then r_count r else count) l (contents r').
Proof.
  intros Hr Hc. set (n := if r_count r <? count then r_count r else count). pose proof (rk_count _ Hr) as Hk. pose proof (length_contents r Hr) as Hl.
  assert (Hn : n = Z.min count (r_count r)) by (unfold n; destruct (Z.ltb_spec (r_count r) count); lia).
  destruct (drain_ok (Z.to_nat n) r Hr ltac:(lia)) as (l & r' & E & Hr' & Ec & Ell & _). exists l, r'. split; [done|]. split; [done|]. split; [done|]. lia.
Qed.
Lemma contents_nil r : ring_ok r -> contents r = [] <-> r_count r = 0.
Proof.
  intros Hr. pose proof (length_contents r Hr) as Hl. split; [intros E; rewrite E in Hl; by cbn in Hl|]. intros Hz. apply length_zero_iff_nil. lia.
Qed.

Lemma ptm_take_ok i st p count f :
  net_ok st -> pty_at i st = Some p -> pty_wf p -> ptm_fso p = Some f -> 0 <= count ->
  wp (ptm_take i count) (fun r st' => exists l, took count (t_out (abs p)) r.1 r.2 l /\ after i st p (with_out l (abs p)) st') (fun _ _ => False) st.
Proof.
  intros Hn Ep Hw Ef Hc. eapply wp_get; [done|]. destruct (drain_took (p_out p) count (pw_out _ Hw) Hc) as (l & r & Ed & Hr & Ht). cbv zeta. rewrite Ed. cbn [deref].
  apply wp_bind, wp_ret. pose proof (set_out_wf p r Hw Hr) as Hw1. eapply wp_does; [done|by apply (does_upd i st p (set_out r))|]. intros st1 M1 Hn1 Ep1.
  eapply (wp_does i _ _ st1 (set_out r p)); [done| |].
  - destruct (r_count r =? 0); [|by apply does_ret]. unfold does. rewrite Ef. cbn [deref]. rewrite ret_bind. apply does_clrstate; [done|done|].
    apply (no_ends _ Hn1 i (set_out r p)); [done|by left].
  - intros st2 M2 Hn2 Ep2. eapply wp_does; [done|by apply does_pts_w|]. intros st3 M3 Hn3 Ep3. apply wp_ret. exists (contents r). split; [done|].
    change (with_out (contents r) (abs p)) with (abs (set_out r p)). apply moves_after; [done|done| |done]. eapply moves_trans; [exact M1|]. by eapply moves_trans.
Qed.
Lemma pts_take_ok i st p count f :
  net_ok st -> pty_at i st = Some p -> pty_wf p -> pts_fso p = Some f -> 0 <= count ->
  wp (pts_take i count) (fun r st' => exists l, took count (t_in (abs p)) r.1 r.2 l /\ after i st p (with_in l (abs p)) st') (fun _ _ => False) st.
Proof.
  intros Hn Ep Hw Ef Hc. eapply wp_get; [done|]. destruct (drain_took (p_in p) count (pw_in _ Hw) Hc) as (l & r & Ed & Hr & Ht). cbv zeta. rewrite Ed. cbn [deref].
  apply wp_bind, wp_ret. pose proof (set_in_wf p r Hw Hr) as Hw1. eapply wp_does; [done|by apply (does_upd i st p (set_in r))|]. intros st1 M1 Hn1 Ep1.
  eapply (wp_does i _ _ st1 (set_in r p)); [done| |].
  - destruct (r_count r =? 0); [|by apply does_ret]. unfold does. rewrite Ef. cbn [deref]. rewrite ret_bind. apply does_clrstate; [done|done|].
    apply (no_ends _ Hn1 i (set_in r p)); [done|by right].
  - intros st2 M2 Hn2 Ep2. eapply wp_does; [done|by apply does_ptm_w|]. intros st3 M3 Hn3 Ep3. apply wp_ret. exists (contents r). split; [done|].
    change (with_in (contents r) (abs p)) with (abs (set_in r p)). apply moves_after; [done|done| |done]. eapply moves_trans; [exact M1|]. by eapply moves_trans.
Qed.

Definition both (x : rresult) : Z * list Z := x.
Lemma ptm_read_io i st p me count nd f :
  net_ok st -> pty_at i st = Some p -> pty_wf p -> curr (p_sys st) = Some me -> ptm_fso p = Some f -> 0 <= count ->
  io i (ptm_read i count nd) both st p (mread_spec count nd).
Proof.
  intros Hn Ep Hw Hcu Ef Hc. unfold io, ptm_read. apply wp_bind, wp_gets. rewrite Ep. pose proof (contents_nil _ (pw_out _ Hw)) as Hz. destruct (Z.eqb_spec (r_count (p_out p)) 0) as [H0|H0].
  - apply Hz in H0. destruct nd; [apply wp_fail; exists (abs p); split; [by apply after_refl|split_and!; [done|done|by left]]|].
    eapply wp_seq; [apply (suspend_after i st p me (ptm_readers p)); [done..|set_solver]| |].
    + intros [] st' Ha. apply wp_ret. exists (abs p). split; [done|]. by split_and!.
    + intros e st' [-> Ha]. exists (abs p). split; [done|]. split_and!; [done|done|by right].
  - eapply wp_seq; [by apply (ptm_take_ok i st p count f)| |done]. intros r st' (q & Ht & Ha). apply wp_ret. exists (with_out q (abs p)). split; [done|].
    split; [by rewrite Hz|]. by exists q.
Qed.

(** A signal to the task itself. *)
Lemma does_raise i st p me sig : net_ok st -> pty_at i st = Some p -> curr (p_sys st) = Some me -> does i (status (on_sys (signal_raise sig));;; ret tt) st p.
Proof.
  intros Hn Ep Hcu. pose proof (signal_raise_sys (p_sys st) me sig (no_sys _ Hn) Hcu) as Hw. unfold wp in Hw. unfold does, bind, status, on_sys, zoom.
  destruct (signal_raise sig (p_sys st)) as [[] s'|er s'|] eqn:E; [..|done]; destruct Hw as [Hok St].
  all: eexists; (split; [reflexivity|]); split; cbn; try done; [symmetry; by apply list_insert_id, pty_at_lookup|by rewrite Ep].
Qed.
Lemma wp_raise {B} i st p me sig (k : M (ptys X) B) Q E :
  net_ok st -> pty_at i st = Some p -> curr (p_sys st) = Some me ->
  (forall st1, moves i st p st1 -> net_ok st1 -> pty_at i st1 = Some p -> wp k Q E st1) -> wp (bind (status (on_sys (signal_raise sig))) (fun _ => k)) Q E st.
Proof.
  intros Hn Ep Hcu Hk. destruct (does_raise i st p me sig Hn Ep Hcu) as (st1 & E1 & M1). unfold bind in E1. unfold wp, bind.
  destruct (status (on_sys (signal_raise sig)) st) as [? st'|? ?|]; [|done..]. cbn in E1. injection E1 as ->. apply Hk; [done|by eapply moves_net|by rewrite (moves_at _ _ _ _ _ M1), decide_True].
Qed.

Definition hung_up (p : pty) : bool := bool_decide (ptm_fso p = None).
Lemma pts_loop_io i st p me count nd f :
  net_ok st -> pty_at i st = Some p -> pty_wf p -> curr (p_sys st) = Some me -> pts_fso p = Some f -> 0 <= count -> hung_up p = false ->
  io i (pts_loop i count nd) both st p (sread_spec false count nd).
Proof.
  intros Hn Ep Hw Hcu Ef Hc Hh. unfold io, pts_loop. eapply wp_get; [done|]. pose proof (contents_nil _ (pw_in _ Hw)) as Hz. rewrite (ck_intr _ (pw_canon _ Hw)). fold (hung_up p). rewrite Hh. cbn [orb].
  destruct (Z.eqb_spec (r_count (p_in p)) 0) as [H0|H0].
  - apply Hz in H0. destruct nd; [apply wp_ret; exists (abs p); split; [by apply after_refl|by right; right; left]|].
    destruct (canon_eot (p_canon p)) eqn:Ee.
    + set (p1 := set_canon (Canon (canon_buf (p_canon p)) (canon_count (p_canon p)) (canon_intr (p_canon p)) false) p).
      assert (Hw1 : pty_wf p1) by (destruct Hw as [[] ? ?]; by split).
      eapply wp_does; [done|by apply (does_upd i st p (fun p => set_canon (Canon (canon_buf (p_canon p)) (canon_count (p_canon p)) (canon_intr (p_canon p)) false) p))|]. intros st1 M1 Hn1 Ep1. fold p1 in Ep1, M1.
      eapply wp_seq; [by apply (pts_take_ok i st1 p1 count f)| |done]. intros r st2 (l & (El & E1 & E2) & Ha). apply wp_ret. exists (with_in l (abs p1)). split; [by eapply after_moves|].
      change (t_in (abs p1)) with (t_in (abs p)) in El, E2. change (t_in (abs p)) with (contents (p_in p)) in El, E2. rewrite H0 in El, E2. destruct r as [n r]. cbn [fst snd] in *. symmetry in El. apply app_nil in El as [-> ->]. right. right. right. cbn [both fst snd length] in *.
      split_and!; try done. by unfold with_in, no_eot; cbn; rewrite H0.
    + eapply wp_seq; [apply (suspend_after i st p me (pts_readers p)); [done..|set_solver]| |].
      * intros [] st' Ha. apply wp_ret. exists (abs p). split; [done|]. by split_and!.
      * intros e st' [-> Ha]. exists (abs p). split; [done|]. by split_and!.
  - eapply wp_seq; [by apply (pts_take_ok i st p count f)| |done]. intros r st' (q & Ht & Ha). apply wp_ret. exists (with_in q (abs p)). split; [done|].
    right. left. split; [done|]. split; [by rewrite Hz|]. by exists q.
Qed.
Lemma pts_read_io i st p me count nd f :
  net_ok st -> pty_at i st = Some p -> pty_wf p -> curr (p_sys st) = Some me -> pts_fso p = Some f -> 0 <= count ->
  io i (pts_read i count nd) both st p (sread_spec (hung_up p) count nd).
Proof.
  intros Hn Ep Hw Hcu Ef Hc. unfold io, pts_read. apply wp_bind, wp_gets. rewrite Ep. unfold pts_restart. eapply wp_get; [done|]. fold (hung_up p). destruct (hung_up p) eqn:Hh.
  - eapply wp_raise; [done|done|done|]. intros st1 M1 Hn1 Ep1. apply wp_ret. exists (abs p). split; [by apply moves_after|]. by left.
  - rewrite (ck_intr _ (pw_canon _ Hw)). by apply (pts_loop_io i st p me count nd f).
Qed.

(** ** Writing *)

Lemma after_trans i st p st1 p1 a st2 :
  pty_at i st1 = Some p1 -> frame p1 = frame p -> (forall j, j <> i -> pty_at j st1 = pty_at j st) -> after i st1 p1 a st2 -> after i st p a st2.
Proof.
  intros E1 Hf1 Ho1 (Hn2 & (p' & E' & Hw' & Hf' & Ha) & Ho). split; [done|]. split; [exists p'; split_and!; [done|done|by rewrite Hf'|done]|]. intros j Hj. by rewrite Ho, Ho1.
Qed.

Lemma write_spec_cons put stop k0 ch buf a a1 r a' :
  put a ch = Some a1 -> 0 <= k0 -> write_spec put stop (k0 + 1) buf a1 r a' -> write_spec put stop k0 (inr ch :: buf) a r a'.
Proof.
  intros Ep Hk0 (k & Hk & Hp & Hr). exists (S k). cbn [good length take]. split; [lia|]. split; [unfold puts in *; cbn [foldl mbind option_bind]; by rewrite Ep|].
  cbn [lookup list_lookup]. replace (k0 + Z.of_nat (S k)) with (k0 + 1 + Z.of_nat k) by lia. destruct r as [n l| |e]; [|done|].
  - destruct Hr as [-> [(-> & -> & _)|Hs]]; (split; [done|]); [left; split_and!; [done|done|right; lia]|by right].
  - destruct Hr as [Hz Hr]. lia.
Qed.
Lemma write_spec_stuck put stop k0 ch buf a r :
  put a ch = None ->
  match r with RDone n l => l = [] /\ match stop with Some f => n = f k0 | None => n = k0 /\ 0 < k0 end | RWait => stop = None | RErr e => k0 = 0 /\ stop = None /\ e = EINTR end ->
  write_spec put stop k0 (inr ch :: buf) a r a.
Proof.
  intros Ep Hr. exists O. cbn [good length take]. split; [lia|]. split; [done|]. cbn [lookup list_lookup]. rewrite Z.add_0_r. destruct r as [n l| |e].
  - destruct Hr as [-> Hr]. split; [done|]. by right.
  - done.
  - destruct Hr as (-> & -> & ->). split; [done|]. by left.
Qed.

Definition alone (n : Z) : Z * list Z := (n, []).
(** The end of a write. *)
Definition ends (i : nat) st p (m : M (ptys X) (progress Z)) (n err : Z) : Prop :=
  wp m (fun r st' => r = Done n /\ after i st p (abs p) st' /\ (n <> 0 \/ err = 0)) (fun e st' => e = err /\ err <> 0 /\ n = 0 /\ after i st p (abs p) st') st.
Lemma wresult_ok i st p m count left err :
  net_ok st -> pty_at i st = Some p -> pty_wf p -> does i m st p -> ends i st p (m;;; wresult count left err) (u64 (count - left)) err.
Proof.
  intros Hn Ep Hw Hd. unfold ends. eapply wp_does; [done|exact Hd|]. intros st1 M1 Hn1 Ep1. pose proof (moves_after _ _ _ _ _ Hn Ep M1 Hw) as Ha.
  unfold wresult. destruct (Z.eqb_spec (u64 (count - left)) 0) as [E0|E0]; cbn [negb]; [|apply wp_ret; auto].
  destruct (Z.eqb_spec err 0) as [->|He]; [apply wp_ret; rewrite E0; auto|apply wp_fail; auto].
Qed.
Lemma ptm_fail_ok i st p f count left err :
  net_ok st -> pty_at i st = Some p -> pty_wf p -> ptm_fso p = Some f -> ends i st p (ptm_fail i count left err) (u64 (count - left)) err.
Proof.
  intros Hn Ep Hw Ef. unfold ends, ptm_fail. eapply wp_get; [done|]. set (m := if PTY_BUF <=? r_count (p_in p) then _ else _).
  apply wp_assoc, (wresult_ok i st p (m;;; pty_resume_pts_r i)); [done|done|done|]. eapply (does_seq i m); [done| |intros st1 _ Hn1 Ep1; by apply does_pts_r].
  unfold m. destruct (PTY_BUF <=? r_count (p_in p)); [|by apply does_ret]. unfold does. rewrite Ef. cbn [deref]. rewrite ret_bind. apply does_clrstate; [done|done|].
  apply (no_ends _ Hn i p); [done|by left].
Qed.
Lemma pts_fail_ok i st p f count left err :
  net_ok st -> pty_at i st = Some p -> pty_wf p -> pts_fso p = Some f -> ends i st p (pts_fail i count left err) (u64 (count - left)) err.
Proof.
  intros Hn Ep Hw Ef. unfold ends, pts_fail. eapply wp_get; [done|]. set (m := if PTY_BUF <=? r_count (p_out p) then _ else _).
  apply wp_assoc, (wresult_ok i st p (m;;; pty_resume_ptm_r i)); [done|done|done|]. eapply (does_seq i m); [done| |intros st1 _ Hn1 Ep1; by apply does_ptm_r].
  unfold m. destruct (PTY_BUF <=? r_count (p_out p)); [|by apply does_ret]. unfold does. rewrite Ef. cbn [deref]. rewrite ret_bind. apply does_clrstate; [done|done|].
  apply (no_ends _ Hn i p); [done|by right].
Qed.

(** One byte: taken, or the end of the call. *)
Definition byte_ret (i : nat) st p (put : option term) (stop : option (Z -> Z)) (n : Z) (r : progress Z + unit) st' : Prop :=
  match r with
  | inr _ => exists q, put = Some (abs q) /\ moves i st q st' /\ pty_wf q
  | inl Wait => put = None /\ stop = None /\ after i st p (abs p) st'
  | inl (Done n') => put = None /\ after i st p (abs p) st' /\ match stop with Some f => n' = f n | None => n' = n /\ 0 < n end
  end.
Definition byte_err (i : nat) st p (put : option term) (stop : option (Z -> Z)) (n e : Z) st' : Prop :=
  put = None /\ stop = None /\ after i st p (abs p) st' /\ e = EINTR /\ n = 0.

(** The end of a call without room. *)
Lemma byte_ends i st st0 p p0 stop n n' err m :
  pty_at i st0 = Some p0 -> frame p0 = frame p -> (forall j, j <> i -> pty_at j st0 = pty_at j st) -> abs p0 = abs p ->
  ends i st0 p0 m n' err -> 0 <= n -> (err = 0 /\ match stop with Some f => n' = f n | None => False end \/ err = EINTR /\ stop = None /\ n' = n) ->
  wp (r <~ m;; ret (inl r)) (byte_ret i st p None stop n) (byte_err i st p None stop n) st0.
Proof.
  intros E0 Hf Ho Ha He Hn Hr. eapply wp_seq; [exact He| |].
  - intros r st' (-> & Hafter & Hz). apply wp_ret. rewrite Ha in Hafter. split; [done|]. split; [by eapply after_trans|].
    destruct Hr as [[-> Hs]|(-> & -> & ->)]; [by destruct stop|]. split; [done|]. destruct Hz; [lia|done].
  - intros e st' (-> & Hne & -> & Hafter). rewrite Ha in Hafter. destruct Hr as [[-> Hs]|(-> & -> & <-)]; [done|]. split_and!; try done. by eapply after_trans.
Qed.
(** The wait for room. *)
Lemma byte_waits i st p me n (qn : nat) wake (fl : Z -> M (ptys X) (progress Z)) :
  net_ok st -> pty_at i st = Some p -> pty_wf p -> curr (p_sys st) = Some me -> qn ∈ queues_of p -> 0 <= n ->
  does i wake st p -> (forall st1 p1, net_ok st1 -> pty_at i st1 = Some p1 -> pty_wf p1 -> frame p1 = frame p -> ends i st1 p1 (fl EINTR) n EINTR) ->
  wp (me <~ on_sys get_curr;; c <~ on_sys (get_task me);;
      if signal_pending (t_sig c) then r <~ fl EINTR;; ret (inl r)
      else wake;;; e <~ status (on_sys (task_suspend (Some qn) WAIT_INTR));; if negb (e =? 0) then r <~ fl e;; ret (inl r) else ret (inl Wait))
    (byte_ret i st p None None n) (byte_err i st p None None n) st.
Proof.
  intros Hn Ep Hw Hcu Hq Hn0 Hwake He. destruct (sys_curr _ me (no_sys _ Hn) Hcu) as (c & Ec & _).
  eapply wp_known; [unfold on_sys, zoom, get_curr, bind, gets; rewrite Hcu; reflexivity|].
  eapply wp_known; [unfold on_sys, zoom, get_task, bind, gets; cbn; rewrite Ec; reflexivity|].
  replace (Ptys _ _ _ _ _ _) with st by (by destruct st). destruct (signal_pending (t_sig c)).
  - eapply (byte_ends i st st p p); [done|done|done|done|by apply He|done|by right].
  - eapply wp_does; [done|exact Hwake|]. intros st1 M1 Hn1 Ep1.
    assert (Hcu1 : curr (p_sys st1) = Some me) by (destruct (mv_steady _ _ _ _ M1) as (_ & -> & _); done).
    apply wp_bind, wp_status. eapply wp_mono; [by apply (suspend_after i st1 p me qn)| |].
    + intros [] st2 Ha. apply wp_ret. split; [done|]. split; [done|]. by eapply after_moves.
    + intros e st2 [-> Ha]. destruct (after_moves i st p p st1 _ st2 Hn Ep M1 Ha) as (Hn2 & (p2 & E2 & Hw2 & Hf2 & Ha2) & Ho2).
      cbn [negb Z.eqb]. eapply (byte_ends i st st2 p p2); [done|done|done|done|by apply He|done|by right].
Qed.

Lemma frame_ptm p q f : frame q = frame p -> ptm_fso p = Some f -> ptm_fso q = Some f.
Proof. intros Hf E. by apply frame_parts in Hf as (_ & -> & _). Qed.
Lemma frame_pts p q f : frame q = frame p -> pts_fso p = Some f -> pts_fso q = Some f.
Proof. intros Hf E. by apply frame_parts in Hf as (_ & _ & -> & _). Qed.

Lemma ptm_raw_ok i st p me f ch len left nd :
  net_ok st -> pty_at i st = Some p -> pty_wf p -> curr (p_sys st) = Some me -> ptm_fso p = Some f -> 0 <= left <= len -> len < 2 ^ 31 ->
  wp (ptm_raw i ch len left nd) (byte_ret i st p (put_raw (tio p) (abs p) ch) (mstop len nd) (len - left)) (byte_err i st p (put_raw (tio p) (abs p) ch) (mstop len nd) (len - left)) st.
Proof.
  intros Hn Ep Hw Hcu Ef Hl Hlen. unfold ptm_raw. eapply wp_get; [done|]. unfold put_raw. change (t_in (abs p)) with (contents (p_in p)). rewrite (length_contents _ (pw_in _ Hw)).
  destruct (Z.leb_spec PTY_BUF (r_count (p_in p))) as [Hfull|Hroom].
  - rewrite decide_False by lia. destruct nd; cbn [mstop].
    + eapply (byte_ends i st st p p); [done|done|done|done|by eapply ptm_fail_ok|lia|]. left. split; [done|]. rewrite (u64_id (len - left)) by lia. f_equal. lia.
    + apply (byte_waits i st p me (len - left) (ptm_writers p) (pty_resume_pts_r i) (fun e => ptm_fail i len left e)); [done|done|done|done|set_solver|lia|by apply does_pts_r|].
      intros st1 p1 Hn1 Ep1 Hw1 Hf1. rewrite <- (u64_id (len - left)) at 1 by lia. eapply ptm_fail_ok; [done|done|done|by eapply frame_ptm].
  - rewrite decide_True by lia. destruct (rput_ok ch (p_in p) (pw_in _ Hw) Hroom) as [Hr Ec]. pose proof (set_in_wf p _ Hw Hr) as Hw1.
    eapply wp_does; [done|by apply (does_upd i st p (set_in (rput ch (p_in p))))|]. intros st1 M1 Hn1 Ep1. change (lflag p ECHO) with (lflag (set_in (rput ch (p_in p)) p) ECHO).
    eapply wp_does; [done|apply (does_if_echo i _ st1 _ [ch]); [done|done|intros _; by apply does_echo]|]. intros st2 M2 Hn2 Ep2. apply wp_ret.
    eexists. split; [|split; [by eapply moves_trans|by apply echoed_wf]]. rewrite echoed_abs by done. unfold abs, with_in. cbn. by rewrite Ec.
Qed.

Lemma fault_cons ch buf : fault (inr ch :: buf) = fault buf.
Proof. done. Qed.
(** The bytes of a request, and the errors of [fucpy]. *)
Lemma bytes_tail ch buf : request_ok (inr ch :: buf) -> is_byte ch /\ request_ok buf.
Proof.
  intros (Hf & Hl & He). cbn [good length] in *. inversion_clear Hf. split; [done|]. split_and!; [done|lia|]. intros e Hin. apply He. by apply list_elem_of_further.
Qed.
Lemma moves_tio i st p q st' : pty_at i st = Some p -> moves i st q st' -> frame q = frame p.
Proof. intros Ep Hm. pose proof (mv_frame _ _ _ _ Hm) as Hf. rewrite Ep in Hf. cbn in Hf. by apply (inj Some) in Hf. Qed.
Lemma moves_curr i st q st' me : moves i st q st' -> curr (p_sys st) = Some me -> curr (p_sys st') = Some me.
Proof. intros Hm Hcu. by destruct (mv_steady _ _ _ _ Hm) as (_ & -> & _). Qed.

(** The end of the buffer, or a byte that cannot be read. *)
Lemma io_ends i st p put stop len buf m err :
  ends i st p m (len - Z.of_nat (length buf)) err -> good buf = [] -> 0 <= len - Z.of_nat (length buf) -> (buf = [] /\ err = 0 \/ fault buf = Some err) -> (forall e, fault buf = Some e -> e <> 0) ->
  io i m alone st p (write_spec put stop (len - Z.of_nat (length buf)) buf).
Proof.
  intros He Hg Hk Hb Hz. unfold io. eapply wp_mono; [exact He| |].
  - intros r st' (-> & Ha & Hor). exists (abs p). split; [done|]. exists O. rewrite Hg. split; [done|]. split; [done|]. cbn. split; [done|]. left. split; [done|]. split; [lia|].
    destruct Hb as [[-> _]|Hb]; [by left|]. right. destruct Hor as [Hn|He0]; [lia|]. by destruct (Hz err).
  - intros e st' (-> & Hne & Hn & Ha). exists (abs p). split; [done|]. exists O. rewrite Hg. split; [done|]. split; [done|]. cbn. split; [lia|]. right. split; [done|].
    by destruct Hb as [[_ ->]|Hb].
Qed.
Lemma fault_elem buf e : fault buf = Some e -> inl e ∈ buf.
Proof.
  unfold fault. intros Hf. destruct (drop (length (good buf)) buf) as [|[e'|] l] eqn:E; [done| |done]. injection Hf as ->.
  rewrite <- (take_drop (length (good buf)) buf), E. set_solver.
Qed.
(** One byte, then the rest of the buffer. *)
Lemma io_cons i st p put stop k0 ch buf m (k : M (ptys X) (progress Z)) :
  net_ok st -> pty_at i st = Some p -> 0 <= k0 ->
  wp m (byte_ret i st p (put (abs p) ch) stop k0) (byte_err i st p (put (abs p) ch) stop k0) st ->
  (forall st1 q, moves i st q st1 -> net_ok st1 -> pty_at i st1 = Some q -> pty_wf q -> io i k alone st1 q (write_spec put stop (k0 + 1) buf)) ->
  io i (r <~ m;; match r with inl r => ret r | inr _ => k end) alone st p (write_spec put stop k0 (inr ch :: buf)).
Proof.
  intros Hn Ep Hk0 Hm Hk. unfold io. eapply wp_seq; [exact Hm| |].
  - intros [[n|]|[]] st' Hr; cbn [byte_ret] in Hr.
    + destruct Hr as (Hp & Ha & Hs). apply wp_ret. exists (abs p). split; [done|]. by apply write_spec_stuck.
    + destruct Hr as (Hp & Hs & Ha). apply wp_ret. exists (abs p). split; [done|]. by apply write_spec_stuck.
    + destruct Hr as (q & Hp & Hm1 & Hwq). eapply wp_mono; [apply (Hk st' q Hm1); [by eapply moves_net|by rewrite (moves_at _ _ _ _ _ Hm1), decide_True|done]| |].
      all: cbv beta; intros r st2 (a' & Ha' & Hs'); exists a'; (split; [by eapply after_moves|]); by eapply write_spec_cons.
  - intros e st' (Hp & Hs & Ha & -> & Hz). exists (abs p). split; [done|]. by apply write_spec_stuck.
Qed.

Lemma ptm_loop_io i len nd f me t buf st p :
  net_ok st -> pty_at i st = Some p -> pty_wf p -> curr (p_sys st) = Some me -> ptm_fso p = Some f -> tio p = t -> request_ok buf -> Z.of_nat (length buf) <= len < 2 ^ 31 ->
  io i (ptm_loop i len nd buf) alone st p (write_spec (put_in t) (mstop len nd) (len - Z.of_nat (length buf)) buf).
Proof.
  revert st p. induction buf as [|[err|ch] buf IH]; intros st p Hn Ep Hw Hcu Ef Et Hb Hl; cbn [ptm_loop].
  - apply (io_ends i st p _ _ len [] _ 0); [|done|cbn in *; lia|by left|done]. cbn [length] in *. change (Z.of_nat 0) with 0 in *. rewrite <- (u64_id (len - 0)) by lia. by eapply ptm_fail_ok.
  - apply (io_ends i st p _ _ len (inl err :: buf) _ err); [|done|lia|by right|].
    + rewrite <- (u64_id (len - _)) at 1 by lia. by eapply ptm_fail_ok.
    + intros e He. destruct Hb as (_ & _ & Hz). by apply Hz, fault_elem.
  - destruct (bytes_tail _ _ Hb) as [Hch Hb']. cbn [length] in *. assert (Hrest : forall st1 q, moves i st q st1 -> net_ok st1 -> pty_at i st1 = Some q -> pty_wf q ->
      io i (ptm_loop i len nd buf) alone st1 q (write_spec (put_in t) (mstop len nd) (len - Z.of_nat (S (length buf)) + 1) buf)).
    { intros st1 q M1 Hn1 Eq Hwq. replace (len - _ + 1) with (len - Z.of_nat (length buf)) by lia. pose proof (moves_tio _ _ _ _ _ Ep M1) as Hfr.
      apply IH; [done|done|done|by eapply moves_curr|by eapply frame_ptm| |done|lia]. by apply frame_parts in Hfr as (_ & _ & _ & -> & _). }
    unfold io. eapply wp_get; [done|]. change (lflag p ICANON) with (has (tio p) ICANON). rewrite Et. destruct (has t ICANON) eqn:Hic.
    + destruct (canon_input_ok i st p Hn Ep Hw ch Hch) as (q & Hd & Hwq & Ha). eapply wp_does; [done|exact Hd|]. intros st1 M1 Hn1 Ep1.
      eapply wp_mono; [by apply (Hrest st1 q)| |]; cbv beta; intros r st2 (a' & Ha' & Hs'); exists a'; (split; [by eapply after_moves|]).
      all: eapply write_spec_cons; [|lia|exact Hs']; unfold put_in; rewrite Hic, Ha, Et; done.
    + apply (io_cons i st p (put_in t) (mstop len nd) _ ch buf _ (ptm_loop i len nd buf)); [done|done|lia| |done].
      unfold put_in. rewrite Hic, <- Et. apply (ptm_raw_ok i st p me f); (done || lia).
Qed.

Lemma pts_put_ok i st p me f ch len left nd :
  net_ok st -> pty_at i st = Some p -> pty_wf p -> curr (p_sys st) = Some me -> pts_fso p = Some f -> 0 <= left <= len -> len < 2 ^ 31 ->
  wp (pts_put i ch len left nd) (byte_ret i st p (put_out (abs p) ch) (sstop (hung_up p) len nd) (len - left)) (byte_err i st p (put_out (abs p) ch) (sstop (hung_up p) len nd) (len - left)) st.
Proof.
  intros Hn Ep Hw Hcu Ef Hl Hlen. unfold pts_put. eapply wp_get; [done|]. unfold put_out. change (t_out (abs p)) with (contents (p_out p)). rewrite (length_contents _ (pw_out _ Hw)).
  fold (hung_up p). destruct (Z.leb_spec PTY_BUF (r_count (p_out p))) as [Hfull|Hroom].
  - rewrite decide_False by lia. rewrite (ck_intr _ (pw_canon _ Hw)). destruct (hung_up p) eqn:Hh; cbn [sstop].
    + eapply wp_raise; [done|done|done|]. intros st1 M1 Hn1 Ep1. eapply (byte_ends i st st1 p p); [done|done| |done|by eapply pts_fail_ok|lia|].
      * intros j Hj. by rewrite (moves_at _ _ _ _ _ M1), decide_False.
      * left. split; [done|]. f_equal. lia.
    + destruct nd.
      * eapply (byte_ends i st st p p); [done|done|done|done|by eapply pts_fail_ok|lia|]. left. split; [done|]. by rewrite u64_id by lia.
      * apply (byte_waits i st p me (len - left) (pts_writers p) (pty_resume_ptm_r i) (fun e => pts_fail i len left e)); [done|done|done|done|set_solver|lia|by apply does_ptm_r|].
        intros st1 p1 Hn1 Ep1 Hw1 Hf1. rewrite <- (u64_id (len - left)) at 1 by lia. eapply pts_fail_ok; [done|done|done|by eapply frame_pts].
  - rewrite decide_True by lia. destruct (rput_ok ch (p_out p) (pw_out _ Hw) Hroom) as [Hr Ec]. pose proof (set_out_wf p _ Hw Hr) as Hw1.
    eapply wp_does; [done|by apply (does_upd i st p (set_out (rput ch (p_out p))))|]. intros st1 M1 Hn1 Ep1. apply wp_ret.
    exists (set_out (rput ch (p_out p)) p). split; [|by split]. unfold abs, with_out. cbn. by rewrite Ec.
Qed.
Lemma frame_hung p q : frame q = frame p -> hung_up q = hung_up p.
Proof. intros Hf. unfold hung_up. by apply frame_parts in Hf as (_ & -> & _). Qed.

Lemma pts_loop_write_io i len nd f me hup buf st p :
  net_ok st -> pty_at i st = Some p -> pty_wf p -> curr (p_sys st) = Some me -> pts_fso p = Some f -> hung_up p = hup -> request_ok buf -> Z.of_nat (length buf) <= len < 2 ^ 31 ->
  io i (pts_write_loop i len nd buf) alone st p (write_spec put_out (sstop hup len nd) (len - Z.of_nat (length buf)) buf).
Proof.
  revert st p. induction buf as [|[err|ch] buf IH]; intros st p Hn Ep Hw Hcu Ef Et Hb Hl; cbn [pts_write_loop].
  - apply (io_ends i st p _ _ len [] _ 0); [|done|cbn in *; lia|by left|done]. cbn [length] in *. change (Z.of_nat 0) with 0 in *. rewrite <- (u64_id (len - 0)) by lia. by eapply pts_fail_ok.
  - apply (io_ends i st p _ _ len (inl err :: buf) _ err); [|done|lia|by right|].
    + rewrite <- (u64_id (len - _)) at 1 by lia. by eapply pts_fail_ok.
    + intros e He. destruct Hb as (_ & _ & Hz). by apply Hz, fault_elem.
  - destruct (bytes_tail _ _ Hb) as [Hch Hb']. cbn [length] in *.
    apply (io_cons i st p put_out (sstop hup len nd) _ ch buf _ (pts_write_loop i len nd buf)); [done|done|lia| |].
    + rewrite <- Et. apply (pts_put_ok i st p me f); (done || lia).
    + intros st1 q M1 Hn1 Eq Hwq. replace (len - _ + 1) with (len - Z.of_nat (length buf)) by lia. pose proof (moves_tio _ _ _ _ _ Ep M1) as Hfr.
      apply IH; [done|done|done|by eapply moves_curr|by eapply frame_pts| |done|lia]. by rewrite (frame_hung p).
Qed.

Lemma empty_write_io i st p put stop : net_ok st -> pty_at i st = Some p -> pty_wf p -> io i (ret (Done 0)) alone st p (write_spec put stop 0 []).
Proof.
  intros Hn Ep Hw. apply wp_ret. exists (abs p). split; [by apply after_refl|]. exists O. split; [done|]. split; [done|]. split; [done|]. left. split_and!; [done|done|by left].
Qed.

Lemma ptm_write_io i st p me f buf nd :
  net_ok st -> pty_at i st = Some p -> pty_wf p -> curr (p_sys st) = Some me -> ptm_fso p = Some f -> request_ok buf ->
  io i (ptm_write i buf nd) alone st p (write_spec (put_in (tio p)) (mstop (Z.of_nat (length buf)) nd) 0 buf).
Proof.
  intros Hn Ep Hw Hcu Ef Hb. destruct buf as [|x buf]; [by apply empty_write_io|].
  pose proof (ptm_loop_io i (Z.of_nat (length (x :: buf))) nd f me (tio p) (x :: buf) st p Hn Ep Hw Hcu Ef eq_refl Hb) as Hio.
  rewrite Z.sub_diag in Hio. apply Hio. destruct Hb as (_ & Hl & _). lia.
Qed.
Lemma pts_write_io i st p me f buf nd :
  net_ok st -> pty_at i st = Some p -> pty_wf p -> curr (p_sys st) = Some me -> pts_fso p = Some f -> request_ok buf ->
  io i (pts_write i buf nd) alone st p (write_spec put_out (sstop (hung_up p) (Z.of_nat (length buf)) nd) 0 buf).
Proof.
  intros Hn Ep Hw Hcu Ef Hb. destruct buf as [|x buf]; [by apply empty_write_io|].
  pose proof (pts_loop_write_io i (Z.of_nat (length (x :: buf))) nd f me (hung_up p) (x :: buf) st p Hn Ep Hw Hcu Ef eq_refl Hb) as Hio.
  rewrite Z.sub_diag in Hio. apply Hio. destruct Hb as (_ & Hl & _). lia.
Qed.

(** C20. What the calls on a pseudo-terminal do is what they do on the terminal its
    users see: a read of the master takes the oldest bytes of output and one of the
    slave the oldest bytes of input, or reports the end of input or a closed master;
    a write of the master types its bytes on a terminal that edits lines and appends
    them to the input otherwise; a write of the slave appends to the output.  A call
    waits exactly when there is nothing to read or no room and it may wait; it
    changes no other terminal and does not halt the kernel. *)
Theorem terminal_refines i st p me nd :
  net_ok st -> pty_at i st = Some p -> pty_wf p -> curr (p_sys st) = Some me ->
  (forall f count, ptm_fso p = Some f -> 0 <= count -> io i (ptm_read i count nd) both st p (mread_spec count nd)) /\
  (forall f count, pts_fso p = Some f -> 0 <= count -> io i (pts_read i count nd) both st p (sread_spec (hung_up p) count nd)) /\
  (forall f buf, ptm_fso p = Some f -> request_ok buf ->
    io i (ptm_write i buf nd) alone st p (write_spec (put_in (tio p)) (mstop (Z.of_nat (length buf)) nd) 0 buf)) /\
  (forall f buf, pts_fso p = Some f -> request_ok buf ->
    io i (pts_write i buf nd) alone st p (write_spec put_out (sstop (hung_up p) (Z.of_nat (length buf)) nd) 0 buf)).
Proof.
  intros Hn Ep Hw Hcu. split_and!.
  - intros f count. by apply ptm_read_io with me.
  - intros f count. by apply pts_read_io with me.
  - intros f buf. by apply ptm_write_io with me.
  - intros f buf. by apply pts_write_io with me.
Qed.

(** A reader or writer that waited goes on like a call that starts then, with the
    bytes it has left. *)
Theorem terminal_resumes i st p me nd :
  net_ok st -> pty_at i st = Some p -> pty_wf p -> curr (p_sys st) = Some me ->
  (forall f count, pts_fso p = Some f -> 0 <= count -> hung_up p = false -> io i (pts_loop i count nd) both st p (sread_spec false count nd)) /\
  (forall f len ch buf, ptm_fso p = Some f -> request_ok (inr ch :: buf) -> Z.of_nat (length buf) < len < 2 ^ 31 -> has (tio p) ICANON = false ->
    io i (ptm_write_on i len nd ch buf) alone st p (write_spec (put_in (tio p)) (mstop len nd) (len - Z.of_nat (length (inr ch :: buf : ubuf))) (inr ch :: buf))) /\
  (forall f len ch buf, pts_fso p = Some f -> request_ok (inr ch :: buf) -> Z.of_nat (length buf) < len < 2 ^ 31 ->
    io i (pts_write_on i len nd ch buf) alone st p (write_spec put_out (sstop (hung_up p) len nd) (len - Z.of_nat (length (inr ch :: buf : ubuf))) (inr ch :: buf))).
Proof.
  intros Hn Ep Hw Hcu. split_and!.
  - intros f count Ef Hc Hh. by apply pts_loop_io with me f.
  - intros f len ch buf Ef Hb Hl Hic. pose proof (ptm_loop_io i len nd f me (tio p) (inr ch :: buf) st p Hn Ep Hw Hcu Ef eq_refl Hb) as Hio. unfold io, wp in *. cbn [ptm_loop] in Hio.
    rewrite (get_pty_run _ _ _ _ _ Ep) in Hio. change (lflag p ICANON) with (has (tio p) ICANON) in Hio. rewrite Hic in Hio. unfold ptm_write_on.
    cbn [length] in *. replace (Z.of_nat (length buf) + 1) with (Z.of_nat (S (length buf))) by lia. apply Hio. lia.
  - intros f len ch buf Ef Hb Hl. unfold pts_write_on. replace (Z.of_nat (length buf) + 1) with (Z.of_nat (length (inr ch :: buf : ubuf))) by (cbn; lia).
    apply (pts_loop_write_io i len nd f me (hung_up p) (inr ch :: buf) st p Hn Ep Hw Hcu Ef eq_refl Hb). cbn in *. lia.
Qed.

(** ** A line typed *)

(** The line after plain characters, erasures and kills. *)
Definition edit (t : termios) (l : list Z) (ch : Z) : list Z :=
  match key_of t ch with Plain => l ++ [ch] | Erase => take (length l - 1) l | Kill => [] | _ => l end.
Definition edits (t : termios) (ch : Z) : bool := match key_of t ch with Plain | Erase | Kill => true | _ => false end.

Lemma puts_typed t a l : has t ICANON = true -> puts (put_in t) a l = Some (foldl (fun a ch => type_char t ch a) a l).
Proof. intros Hic. revert a. induction l as [|ch l IH]; intros a; [done|]. unfold puts in *. cbn [foldl mbind option_bind]. unfold put_in at 2. rewrite Hic. apply IH. Qed.
Lemma typed_line t ks a :
  forallb (edits t) ks = true -> Z.of_nat (length (t_line a) + length ks) < MAX_CANON ->
  let a' := foldl (fun a ch => type_char t ch a) a ks in
  t_line a' = foldl (edit t) (t_line a) ks /\ t_in a' = t_in a /\ Z.of_nat (length (t_line a')) < MAX_CANON.
Proof.
  revert a. induction ks as [|ch ks IH]; intros a Hk Hl; [cbn in *; split_and!; (done || lia)|]. cbn [foldl forallb length] in *. apply andb_true_iff in Hk as [Hch Hk].
  assert (Hr : room_in_line a = true) by (unfold room_in_line; apply Z.ltb_lt; lia).
  assert (H1 : t_line (type_char t ch a) = edit t (t_line a) ch /\ t_in (type_char t ch a) = t_in a /\ (length (t_line (type_char t ch a)) <= S (length (t_line a)))%nat).
  { unfold type_char, edit, edits in *. destruct (key_of t ch); try done; rewrite ?Hr; cbn; split_and!; (done || rewrite ?length_take, ?length_app; cbn; lia). }
  destruct H1 as (E1 & E2 & E3). destruct (IH (type_char t ch a) Hk ltac:(lia)) as (F1 & F2 & F3). split_and!; [by rewrite F1, E1|by rewrite F2|done].
Qed.

Lemma good_map (l : list Z) : good (inr <$> l) = l.
Proof. induction l as [|x l IH]; [done|]. cbn. by rewrite IH. Qed.
Lemma fault_map (l : list Z) : fault (inr <$> l) = None.
Proof. unfold fault. by rewrite good_map, drop_ge by (by rewrite length_fmap). Qed.

(** On a terminal that edits lines there is always room. *)
Lemma typed_spec t stop l a r a' :
  has t ICANON = true -> l <> [] -> write_spec (put_in t) stop 0 (inr <$> l) a r a' -> r = RDone (Z.of_nat (length l)) [] /\ a' = foldl (fun a ch => type_char t ch a) a l.
Proof.
  intros Hic Hl (k & Hk & Hp & Hr). rewrite good_map in *. rewrite puts_typed in Hp by done. injection Hp as <-.
  assert (Hst : (match l !! k with Some ch => put_in t (foldl (fun a ch => type_char t ch a) a (take k l)) ch = None | None => False end) -> False).
  { destruct (l !! k); [|done]. unfold put_in. by rewrite Hic. }
  assert (Hl0 : (0 < length l)%nat) by (destruct l; [done|cbn; lia]). destruct r as [n q| |e].
  - destruct Hr as [-> [(-> & -> & _)|[Hs _]]]; [|by apply Hst in Hs]. by rewrite take_ge.
  - by destruct Hr as [?%Hst _].
  - destruct Hr as [Hz [[?%Hst _]|[Hk' _]]]; [done|lia].
Qed.
Lemma sread_whole count nd a r a' : sread_spec false count nd a r a' -> t_in a <> [] -> Z.of_nat (length (t_in a)) <= count -> r = RDone (Z.of_nat (length (t_in a))) (t_in a).
Proof.
  intros Hs Hne Hc. destruct r as [n l| |e]; cbn in Hs; [|naive_solver..]. destruct Hs as [[? _]|[(_ & _ & q & (Eq & En & Em) & _)|[(_ & ? & _)|(_ & ? & _)]]]; [done| |done|done].
  assert (q = []) as -> by (apply length_zero_iff_nil; rewrite Eq, length_app in Em, Hc; lia). rewrite app_nil_r in Eq. by subst.
Qed.

(** C22. A line typed on the master of a terminal that edits lines, with erasures and
    kills, followed by a newline, is what a task reads from the slave: the line after
    the editing and the newline. *)
Theorem edited_line_read i st p me fm fs ks nd :
  net_ok st -> pty_at i st = Some p -> pty_wf p -> curr (p_sys st) = Some me -> ptm_fso p = Some fm -> pts_fso p = Some fs ->
  has (tio p) ICANON = true -> t_line (abs p) = [] -> t_in (abs p) = [] ->
  Forall is_byte ks -> forallb (edits (tio p)) ks = true -> key_of (tio p) 10 = Newline -> Z.of_nat (length ks) < MAX_CANON ->
  let l := foldl (edit (tio p)) [] ks ++ [10] in
  wp (ptm_write i (inr <$> (ks ++ [10])) nd)
    (fun r st' => r = Done (Z.of_nat (length ks) + 1) /\
      forall me' count nd', curr (p_sys st') = Some me' -> Z.of_nat (length l) <= count ->
        wp (pts_read i count nd') (fun r _ => r = Done (Z.of_nat (length l), l)) (fun _ _ => False) st')
    (fun _ _ => False) st.
Proof.
  intros Hn Ep Hw Hcu Efm Efs Hic El Ei Hb Hed Hnl Hlen l. set (buf := inr <$> (ks ++ [10]) : ubuf).
  assert (Hbl : length buf = S (length ks)) by (unfold buf; rewrite length_fmap, length_app; cbn; lia).
  assert (Hbo : request_ok buf).
  { split_and!; [unfold buf; rewrite good_map; apply Forall_app; split; [done|by repeat constructor]|rewrite Hbl; unfold MAX_CANON in *; lia|].
    intros e He. unfold buf in He. by apply list_elem_of_fmap in He as (x & Hx & _). }
  assert (Hsp : forall r a', write_spec (put_in (tio p)) (mstop (Z.of_nat (length buf)) nd) 0 buf (abs p) r a' -> r = RDone (Z.of_nat (length ks) + 1) [] /\ t_in a' = l).
  { intros r a' Hs. apply typed_spec in Hs as [-> ->]; [|done|by destruct ks]. split; [f_equal; rewrite length_app; cbn; lia|]. rewrite foldl_app. cbn [foldl].
    destruct (typed_line (tio p) ks (abs p) Hed ltac:(rewrite El; cbn; lia)) as (F1 & F2 & F3). set (a1 := foldl _ (abs p) ks) in *. unfold type_char. rewrite Hnl.
    cbn [emit t_in]. unfold room_in_line. rewrite (proj2 (Z.ltb_lt _ _)) by done. cbn [when]. rewrite F1, El in F3. rewrite F2, Ei, F1, El. apply fill_short. rewrite length_app. cbn. unfold MAX_CANON, PTY_BUF in *. lia. }
  eapply wp_mono; [by apply (ptm_write_io i st p me fm)| |].
  - cbv beta. intros r st' (a' & Ha & Hs). apply Hsp in Hs as [Hr Hin]. destruct r as [n|]; [|done]. cbn in Hr. injection Hr as ->. split; [done|].
    intros me' count nd' Hcu' Hc. destruct Ha as (Hn' & (p' & E' & Hw' & Hf' & Ha') & _). rewrite <- Ha' in Hin.
    assert (Hh : hung_up p' = false) by (rewrite (frame_hung _ _ Hf'); unfold hung_up; by rewrite Efm). pose proof (pts_read_io i st' p' me' count nd' fs Hn' E' Hw' Hcu' (frame_pts _ _ _ Hf' Efs) ltac:(lia)) as Hrd.
    rewrite Hh in Hrd. assert (Hne : t_in (abs p') <> []) by (rewrite Hin; unfold l; by destruct (foldl _ [] ks)). eapply wp_mono; [exact Hrd| |]; cbv beta.
    + intros r st2 (a2 & _ & Hs). apply sread_whole in Hs; [|done|by rewrite Hin]. rewrite Hin in Hs. destruct r as [[n b]|]; [|done]. cbn in Hs. by injection Hs as -> ->.
    + intros e st2 (a2 & _ & Hs). apply sread_whole in Hs; [done|done|by rewrite Hin].
  - cbv beta. intros e st' (a' & Ha & Hs). by apply Hsp in Hs as [? _].
Qed.

(** * All terminals *)

Definition ptys_ok st : Prop := net_ok st /\ forall i p, pty_at i st = Some p -> pty_wf p.
(** File object [f] is the end of its terminal. *)
Definition open_ok st (f : nat) (o : fso) : Prop :=
  p_fso st !! f = Some o /\ (forall i, side PTM_INDEX (index o) = Some i -> exists p, pty_at i st = Some p /\ ptm_fso p = Some f) /\
  (forall i, side PTS_INDEX (index o) = Some i -> exists p, pty_at i st = Some p /\ pts_fso p = Some f).
Definition kept {A} (m : M (ptys X) A) st : Prop := wp m (fun _ st' => ptys_ok st') (fun _ st' => ptys_ok st') st.

Lemma after_kept i st p a st' : ptys_ok st -> after i st p a st' -> ptys_ok st'.
Proof.
  intros [Hn Hw] (Hn' & (p' & E' & Hw' & _) & Ho). split; [done|]. intros j q Eq. destruct (decide (j = i)) as [->|Hj]; [by simplify_eq|]. rewrite Ho in Eq by done. by eapply Hw.
Qed.
Lemma moves_kept i st q st' : ptys_ok st -> moves i st q st' -> pty_wf q -> ptys_ok st'.
Proof.
  intros [Hn Hw] Hm Hq. split; [by eapply moves_net|]. intros j p E. rewrite (moves_at _ _ _ _ _ Hm) in E. case_decide; [by simplify_eq|by eapply Hw].
Qed.
Lemma io_kept {A} i (m : M (ptys X) (progress A)) g st p spec : ptys_ok st -> io i m g st p spec -> kept m st.
Proof. intros Hok Hio. eapply wp_mono; [exact Hio| |]; cbv beta; intros r st' (a' & Ha & _); by eapply after_kept. Qed.
Lemma does_kept i (m : M (ptys X) unit) st q : ptys_ok st -> does i m st q -> pty_wf q -> kept m st.
Proof. intros Hok (st' & E & Hm) Hq. eapply wp_is; [exact E|]. by eapply moves_kept. Qed.

Lemma read_kept st f o me count nd : ptys_ok st -> open_ok st f o -> curr (p_sys st) = Some me -> 0 <= count -> kept (pty_read (index o) count nd) st.
Proof.
  intros Hok (_ & Hm & Hs) Hcu Hc. pose proof Hok as [Hn Hw]. unfold pty_read. destruct (side PTM_INDEX (index o)) as [i|] eqn:Em.
  - destruct (Hm i eq_refl) as (p & Ep & Ef). eapply io_kept; [done|]. eapply ptm_read_io; [done|exact Ep|by eapply Hw|done|done|done].
  - destruct (side PTS_INDEX (index o)) as [i|] eqn:Es; [|by apply wp_fail]. destruct (Hs i eq_refl) as (p & Ep & Ef). eapply io_kept; [done|]. eapply pts_read_io; [done|exact Ep|by eapply Hw|done|done|done].
Qed.
Lemma write_kept st f o me buf nd : ptys_ok st -> open_ok st f o -> curr (p_sys st) = Some me -> request_ok buf -> kept (pty_write (index o) buf nd) st.
Proof.
  intros Hok (_ & Hm & Hs) Hcu Hb. pose proof Hok as [Hn Hw]. unfold pty_write. destruct (side PTM_INDEX (index o)) as [i|] eqn:Em.
  - destruct (Hm i eq_refl) as (p & Ep & Ef). eapply io_kept; [done|]. eapply ptm_write_io; [done|exact Ep|by eapply Hw|done|done|done].
  - destruct (side PTS_INDEX (index o)) as [i|] eqn:Es; [|by apply wp_fail]. destruct (Hs i eq_refl) as (p & Ep & Ef). eapply io_kept; [done|]. eapply pts_write_io; [done|exact Ep|by eapply Hw|done|done|done].
Qed.

(** Terminal [i] becomes [q], or nothing. *)
Lemma change_kept i st (o : option pty) :
  ptys_ok st -> (forall q, o = Some q -> pty_wf q /\ (forall n : nat, n ∈ queues_of q -> (NREADY <= n < length (queues (p_sys st)))%nat) /\ (forall f, ptm_fso q = Some f \/ pts_fso q = Some f -> is_Some (p_fso st !! f))) ->
  ptys_ok (with_ptys (<[i := o]> (pty_ st)) st).
Proof.
  intros [[Hs Hq Hp Hqs He] Hw] Ho.
  assert (Hat : forall j p, pty_at j (with_ptys (<[i := o]> (pty_ st)) st) = Some p -> pty_at j st = Some p \/ o = Some p).
  { intros j p. unfold pty_at. cbn. destruct (decide (j = i)) as [->|Hj]; [|by rewrite list_lookup_insert_ne by done; left].
    destruct (decide (i < length (pty_ st))%nat); [rewrite list_lookup_insert_eq by done; by right|rewrite list_insert_ge by lia; by left]. }
  split; [split; try done|]; cbn.
  - intros j p n Ep Hin. apply Hat in Ep as [Ep|Ep]; [by eapply Hqs|by apply (Ho p Ep)].
  - intros j p f Ep Hor. apply Hat in Ep as [Ep|Ep]; [by eapply He|by apply (Ho p Ep)].
  - intros j p Ep. apply Hat in Ep as [Ep|Ep]; [by eapply Hw|by apply (Ho p Ep)].
Qed.
Lemma upd_insert i st p f : pty_at i st = Some p -> upd_pty i f st = Ret tt (with_ptys (<[i := Some (f p)]> (pty_ st)) st).
Proof.
  intros Ep. unfold upd_pty, modify. do 2 f_equal. apply pty_at_lookup in Ep. apply list_eq. intros j. destruct (decide (j = i)) as [->|Hj].
  - rewrite list_lookup_alter_eq, Ep, list_lookup_insert_eq; [done|]. by eapply lookup_lt_Some.
  - by rewrite list_lookup_alter_ne, list_lookup_insert_ne.
Qed.
Lemma same_parts_ok i st p q : ptys_ok st -> pty_at i st = Some p -> pty_wf q -> queues_of q = queues_of p -> (forall f, ptm_fso q = Some f \/ pts_fso q = Some f -> ptm_fso p = Some f \/ pts_fso p = Some f) ->
  ptys_ok (with_ptys (<[i := Some q]> (pty_ st)) st).
Proof.
  intros Hok Ep Hq Eq Hf. apply change_kept; [done|]. intros q' [= <-]. destruct Hok as [[_ _ _ Hqs He] _]. split; [done|]. split; [intros n; rewrite Eq; by apply (Hqs i p)|]. intros f Hor. by apply (He i p f Ep), Hf.
Qed.

Lemma set_kept {B} i st p f (b : B) : ptys_ok st -> pty_at i st = Some p -> pty_wf (f p) -> queues_of (f p) = queues_of p -> ptm_fso (f p) = ptm_fso p -> pts_fso (f p) = pts_fso p ->
  kept (_ <~ get_pty i;; upd_pty i f;;; ret b) st.
Proof.
  intros Hok Ep Hq Eq Em Es. eapply wp_get; [done|]. eapply wp_known; [by apply upd_insert|]. apply wp_ret. eapply same_parts_ok; [done|done|done|done|]. intros g. by rewrite Em, Es.
Qed.
Lemma checked_kept e (k : M (ptys X) ioctl_out) st : ptys_ok st -> kept k st -> kept (checked e k) st.
Proof. intros Hok Hk. unfold checked. by destruct (negb (e =? 0)). Qed.
Lemma get_kept {B} i st p (k : pty -> M (ptys X) B) : pty_at i st = Some p -> kept (k p) st -> kept (bind (get_pty i) k) st.
Proof. intros Ep Hk. by eapply wp_get. Qed.
Lemma both_kept i st p cmd perm tu ti psz : ptys_ok st -> pty_at i st = Some p -> kept (ioctl_both i cmd perm tu ti psz) st.
Proof.
  intros Hok Ep. pose proof (proj2 Hok i p Ep) as [? ? ?]. unfold ioctl_both.
  destruct (cmd =? PTY_PTSNAME); [by do 2 (apply checked_kept; [done|])|]. destruct (_ || _ || _).
  { apply checked_kept; [done|]. destruct ti as [err|t]; [done|]. by eapply set_kept. }
  destruct (cmd =? TCGETS); [apply checked_kept; [done|]; eapply get_kept; [done|]; by apply checked_kept|].
  destruct (cmd =? PTY_GSIZE); [eapply get_kept; [done|]; by apply checked_kept|]. destruct (cmd =? PTY_SSIZE); [|done]. destruct psz as [err|z]; [done|]. by eapply set_kept.
Qed.
Lemma ioctl_kept st f o cmd perm tu ti psz : ptys_ok st -> open_ok st f o -> kept (pty_ioctl (index o) cmd perm tu ti psz) st.
Proof.
  intros Hok (_ & Hm & Hs). unfold pty_ioctl. destruct (side PTM_INDEX (index o)) as [i|] eqn:Em.
  - destruct (Hm i eq_refl) as (p & Ep & Ef). pose proof (proj2 Hok i p Ep) as Hw. destruct (cmd =? PTY_UNLOCK); [|destruct (cmd =? PTY_SHUP); [|by eapply both_kept]]; apply checked_kept; try done.
    + destruct Hw as [? ? ?]. by eapply set_kept.
    + eapply wp_does; [apply Hok|by apply does_signal; [apply Hok|]|]. intros st1 M1 Hn1 Ep1. apply wp_ret. by eapply moves_kept.
  - destruct (side PTS_INDEX (index o)) as [i|] eqn:Es; [|done]. destruct (Hs i eq_refl) as (p & Ep & Ef). by eapply both_kept.
Qed.

(** The last reference to an end of a terminal. *)
Lemma free_kept i st : ptys_ok st -> kept (drop_pty i) st.
Proof. intros Hok. by apply (change_kept i st None). Qed.
Lemma upd_then {B} i st p g (k : M (ptys X) B) :
  ptys_ok st -> pty_at i st = Some p -> pty_wf (g p) -> queues_of (g p) = queues_of p -> (forall f, ptm_fso (g p) = Some f \/ pts_fso (g p) = Some f -> ptm_fso p = Some f \/ pts_fso p = Some f) ->
  (forall st1, ptys_ok st1 -> pty_at i st1 = Some (g p) -> kept k st1) -> kept (upd_pty i g;;; k) st.
Proof.
  intros Hok Ep Hw Hq Hf Hk. eapply wp_known; [by apply upd_insert|]. apply Hk; [by eapply same_parts_ok|].
  unfold pty_at. cbn. apply pty_at_lookup in Ep. by rewrite list_lookup_insert_eq by (by eapply lookup_lt_Some).
Qed.
Lemma seq_kept {A B} (m : M (ptys X) A) (k : A -> M (ptys X) B) st : kept m st -> (forall a st1, ptys_ok st1 -> kept (k a) st1) -> kept (bind m k) st.
Proof. intros Hm Hk. eapply wp_seq; [exact Hm|exact Hk|done]. Qed.
Lemma sides_apart i j n : side PTM_INDEX n = Some i -> side PTS_INDEX n = Some j -> False.
Proof.
  unfold side, PTS_INDEX. destruct (Z.leb_spec PTM_INDEX n), (Z.ltb_spec n (PTM_INDEX + Z.of_nat PTY_MAX)); try done. cbn [andb].
  by destruct (Z.leb_spec (PTM_INDEX + Z.of_nat PTY_MAX) n); [lia|].
Qed.
(** The last reference to one end: the terminal goes, or the other end is told. *)
Lemma close_kept (b : bool) i st p g m :
  ptys_ok st -> pty_at i st = Some p -> pty_wf (g p) -> queues_of (g p) = queues_of p -> (forall f, ptm_fso (g p) = Some f \/ pts_fso (g p) = Some f -> ptm_fso p = Some f \/ pts_fso p = Some f) ->
  (forall st1, net_ok st1 -> pty_at i st1 = Some (g p) -> does i m st1 (g p)) -> kept (if b then drop_pty i else upd_pty i g;;; m) st.
Proof.
  intros Hok Ep Hw Hq Hf Hm. destruct b; [by apply free_kept|]. eapply upd_then; [done|done|done|done|done|]. intros st1 Hok1 Ep1. eapply does_kept; [done|apply Hm; [apply Hok1|done]|done].
Qed.
Lemma put_ptm_kept i st p : ptys_ok st -> pty_at i st = Some p -> kept (put_ptm i) st.
Proof.
  intros Hok Ep. destruct (proj2 Hok i p Ep) as [? ? ?]. eapply get_kept; [done|]. eapply (close_kept _ i st p); [done|done|done|done|by intros g [?|?]; [done|right]|].
  intros st1 Hn1 Ep1. eapply does_seq; [done|by apply does_pts_r|]. intros st2 _ Hn2 Ep2. by apply does_pts_w.
Qed.
Lemma put_pts_kept i st p : ptys_ok st -> pty_at i st = Some p -> kept (put_pts i) st.
Proof.
  intros Hok Ep. destruct (proj2 Hok i p Ep) as [? ? ?]. eapply get_kept; [done|]. eapply (close_kept _ i st p); [done|done|done|done|by intros g [?|?]; [left|done]|].
  intros st1 Hn1 Ep1. by apply does_ptm_r.
Qed.
Lemma putfso_kept st f o : ptys_ok st -> open_ok st f o -> kept (pty_putfso f) st.
Proof.
  intros Hok (Ef & Hm & Hs). unfold pty_putfso, kept, wp. rewrite (get_fobj_run _ _ _ _ _ Ef). destruct (side PTM_INDEX (index o)) as [i|] eqn:Em.
  - destruct (side PTS_INDEX (index o)) as [j|] eqn:Es; [by destruct (sides_apart _ _ _ Em Es)|]. destruct (Hm i eq_refl) as (p & Ep & _).
    apply (seq_kept (put_ptm i)); [by eapply put_ptm_kept|done].
  - rewrite ret_bind. destruct (side PTS_INDEX (index o)) as [j|] eqn:Es; [|done]. destruct (Hs j eq_refl) as (p & Ep & _). by apply (put_pts_kept j st p).
Qed.

(** A new file object for an end of a terminal. *)
Lemma fobj_kept f g st : ptys_ok st -> (forall o, polling (g o) = polling o) -> ptys_ok (with_fso (alter g f (p_fso st)) st).
Proof.
  intros [[Hs Hq Hp Hqs He] Hw] Hg. split; [|done]. split; try done; cbn.
  - intros h o t E Et. destruct (decide (h = f)) as [->|Hh]; [|rewrite lookup_alter_ne in E by done; by eapply Hp]. rewrite lookup_alter_eq in E. destruct (p_fso st !! f) as [o'|] eqn:Eo; [|done].
    cbn in E. injection E as <-. rewrite Hg in Et. by eapply Hp.
  - intros i p h Ep Hor. destruct (He i p h Ep Hor) as [o Eo]. destruct (decide (h = f)) as [->|Hh]; [rewrite lookup_alter_eq, Eo; by eexists|by rewrite lookup_alter_ne, Eo by done].
Qed.
Lemma sys_kept m s' st : ptys_ok st -> m (p_sys st) = Ret tt s' -> sys_ok s' -> steady (p_sys st) s' -> kept (on_sys m) st.
Proof.
  intros [[Hs Hq Hp Hqs He] Hw] E Hok St. eapply wp_is; [unfold on_sys, zoom; rewrite E; reflexivity|]. pose proof St as ((_ & Hql & _) & _). split; [|done]. split; cbn; rewrite ?Hql; try done.
  intros f o t Ef Et. destruct (Hp f o t Ef Et) as (c & Ec & Hx). destruct (steady_task _ _ _ _ St Ec) as (c' & Ec' & Hk). exists c'. split; [done|]. by rewrite (kin_exited _ _ Hk).
Qed.
Lemma fobj_then {B} f g st (k : M (ptys X) B) : ptys_ok st -> (forall o, polling (g o) = polling o) -> (ptys_ok (with_fso (alter g f (p_fso st)) st) -> kept k (with_fso (alter g f (p_fso st)) st)) -> kept (upd_fobj f g;;; k) st.
Proof. intros Hok Hg Hk. eapply wp_known; [reflexivity|]. apply Hk. by apply fobj_kept. Qed.
Lemma state_kept f o v st : ptys_ok st -> p_fso st !! f = Some o -> kept (fs_state f v) st.
Proof.
  intros Hok Ef. unfold fs_state, kept, wp. rewrite (get_fobj_run _ _ _ _ _ Ef). destruct (state o =? v); [done|]. apply (fobj_then f (set_state v)); [done|done|]. intros Hok1.
  set (st1 := with_fso _ st) in *. destruct (polling o) as [t|] eqn:Et.
  - destruct (no_polling _ (proj1 Hok) f o t Ef Et) as (c & Ec & Hx). destruct (task_resume_sys (p_sys st) t c (no_sys _ (proj1 Hok)) Ec Hx) as (s' & E & Hs & St). by apply (sys_kept _ s').
  - destruct (negb (pollcnt o =? 0)); [|done]. unfold kept, wp. rewrite gets_bind. destruct (wake_queue (p_sys st1) (fs_pollq st1) (no_sys _ (proj1 Hok1)) (no_pollq _ (proj1 Hok1))) as (s' & E & Hs & St & _).
    by apply (sys_kept _ s').
Qed.

Lemma upd_end {B} i st p g (k : M (ptys X) B) :
  ptys_ok st -> pty_at i st = Some p -> pty_wf (g p) -> queues_of (g p) = queues_of p -> (forall f, ptm_fso (g p) = Some f \/ pts_fso (g p) = Some f -> is_Some (p_fso st !! f)) ->
  (ptys_ok (with_ptys (<[i := Some (g p)]> (pty_ st)) st) -> pty_at i (with_ptys (<[i := Some (g p)]> (pty_ st)) st) = Some (g p) -> kept k (with_ptys (<[i := Some (g p)]> (pty_ st)) st)) -> kept (upd_pty i g;;; k) st.
Proof.
  intros Hok Ep Hw Hq Hf Hk. eapply wp_known; [by apply upd_insert|]. apply Hk.
  - apply change_kept; [done|]. intros q [= <-]. split; [done|]. split; [|done]. intros n. rewrite Hq. by apply (no_queues _ (proj1 Hok) i p).
  - unfold pty_at. cbn. apply pty_at_lookup in Ep. by rewrite list_lookup_insert_eq by (by eapply lookup_lt_Some).
Qed.
Lemma fobj_get f g st o B (k : fso -> M (ptys X) B) : p_fso st !! f = Some o -> kept (k (g o)) (with_fso (alter g f (p_fso st)) st) -> kept (bind (get_fobj f) k) (with_fso (alter g f (p_fso st)) st).
Proof. intros Ef Hk. unfold kept, wp. rewrite (get_fobj_run f _ (g o)); [done|]. cbn. by rewrite lookup_alter_eq, Ef. Qed.

(** What [pty_getfso] may rely on for the number of a new file object. *)
Definition may_open st (n : Z) : Prop :=
  (forall i, side PTM_INDEX n = Some i -> is_Some (pty_at i st)) /\
  (forall i, side PTS_INDEX n = Some i -> exists p g, pty_at i st = Some p /\ ptm_fso p = Some g).
Lemma getfso_kept st f o me : ptys_ok st -> p_fso st !! f = Some o -> curr (p_sys st) = Some me -> may_open st (index o) -> kept (pty_getfso f) st.
Proof.
  intros Hok Ef Hcu [Hm Hs]. unfold pty_getfso, kept, wp. rewrite gets_bind. apply fobj_then; [done|done|]. intros Hok1. apply (fobj_get f _ st o); [done|].
  set (st1 := with_fso _ st) in *. set (o1 := set_size 0 _). assert (Ef1 : p_fso st1 !! f = Some o1) by (cbn; by rewrite lookup_alter_eq, Ef). change (index o1) with (index o).
  destruct (index o =? ROOT_INDEX).
  { apply fobj_then; [done|done|]. intros Hok2. eapply state_kept; [done|]. cbn. rewrite lookup_alter_eq. cbn in Ef1. rewrite Ef1. done. }
  apply fobj_then; [done|done|]. intros Hok2. set (st2 := with_fso _ st1) in *. assert (Ef2 : p_fso st2 !! f = Some (set_rdev (Z.lor (Z.shiftl 2 16) (index o)) o1)) by (cbn in *; by rewrite lookup_alter_eq, Ef1).
  destruct (side PTM_INDEX (index o)) as [i|] eqn:Em.
  - destruct (Hm i eq_refl) as [p Ep]. assert (Ep2 : pty_at i st2 = Some p) by done. destruct (proj2 Hok i p Ep) as [? ? ?]. eapply get_kept; [exact Ep2|]. eapply upd_end; [done|exact Ep2|by split|done| |].
    + intros g [[= <-]|Eg]; [by eexists|]. apply (no_ends _ (proj1 Hok2) i p g Ep2). by right.
    + intros Hok3 Ep3. set (st3 := with_ptys _ st2) in *. destruct (sys_curr _ me (no_sys _ (proj1 Hok)) Hcu) as (c & Ec & _).
      eapply wp_known; [unfold on_sys, zoom, get_curr, bind, gets; cbn; rewrite Hcu; reflexivity|]. eapply wp_known; [unfold on_sys, zoom, get_task, bind, gets; cbn; rewrite Ec; reflexivity|].
      change (Ptys _ _ _ _ _ _) with st3. apply fobj_then; [done|done|]. intros Hok4. eapply state_kept; [done|]. cbn in *. rewrite lookup_alter_eq, Ef2. done.
  - destruct (side PTS_INDEX (index o)) as [i|] eqn:Es; [|done]. destruct (Hs i eq_refl) as (p & g & Ep & Eg). assert (Ep2 : pty_at i st2 = Some p) by done. destruct (proj2 Hok i p Ep) as [? ? ?].
    eapply get_kept; [exact Ep2|]. eapply upd_end; [done|exact Ep2|by split|done| |].
    + intros h [Eh|[= <-]]; [|by eexists]. apply (no_ends _ (proj1 Hok2) i p h Ep2). by left.
    + intros Hok3 Ep3. set (st3 := with_ptys _ st2) in *. eapply get_kept; [exact Ep3|]. cbn [set_ends ptm_fso p_out p_in]. rewrite Eg. cbn [deref]. unfold kept, wp. rewrite ret_bind.
      destruct (no_ends _ (proj1 Hok2) i p g Ep2 ltac:(by left)) as [og Eog]. rewrite (get_fobj_run g st3 og) by done. apply fobj_then; [done|done|]. intros Hok4.
      unfold fs_setstate. eapply fobj_get; [exact Ef2|]. eapply state_kept; [done|]. cbn in *. rewrite lookup_alter_eq, Ef2. done.
Qed.

(** C21. The terminals stay well-formed: their rings keep to their buffers, the line to
    its [MAX_CANON] bytes, their queues and file objects exist and the tasks stay
    consistent, under every operation on a file object of the file system - opening,
    reading, writing, control requests and closing - which all return, wait or fail. *)
Theorem ptys_stay_ok st f o me :
  ptys_ok st -> curr (p_sys st) = Some me -> p_fso st !! f = Some o ->
  (may_open st (index o) -> kept (pty_getfso f) st) /\
  (open_ok st f o ->
   (forall count nd, 0 <= count -> kept (pty_read (index o) count nd) st) /\
   (forall buf nd, request_ok buf -> kept (pty_write (index o) buf nd) st) /\
   (forall cmd perm tu ti psz, kept (pty_ioctl (index o) cmd perm tu ti psz) st) /\
   kept (pty_putfso f) st).
Proof.
  intros Hok Hcu Ef. split; [intros Hm; by apply (getfso_kept st f o me)|]. intros Ho. split_and!.
  - intros count nd. by apply (read_kept st f o me).
  - intros buf nd. by apply (write_kept st f o me).
  - intros cmd perm tu ti psz. by apply (ioctl_kept st f o).
  - by apply (putfso_kept st f o).
Qed.

(** * Names *)

Lemma pts_name_number i : 0 <= i < 1000 -> ispts (pts_name i) = Some i.
Proof.
  intros Hi. assert (Hall : forallb (fun n => bool_decide (ispts (pts_name n) = Some n)) (seqZ 0 1000) = true) by (vm_compute; reflexivity).
  rewrite forallb_forall in Hall. apply (bool_decide_eq_true_1 _), Hall, list_elem_of_In, elem_of_seqZ. lia.
Qed.

(** The names of the slave sides, as [readdir] lists them, as the control request
    gives them and as the last part of what [ttyname] gives, lead back to their
    terminals: looking one up asks for the file object of that terminal. *)
Theorem pts_name_found i st p fs_getfso mem prefix n :
  (i < PTY_MAX)%nat -> pty_at i st = Some p -> locked p = false -> Z.of_nat (length prefix) + 8 <= n ->
  let name := pts_name (Z.of_nat i) in
  pty_readdir (PTS_INDEX + Z.of_nat i + 2) st = Ret (PTS_INDEX + Z.of_nat i, Some name) st /\
  pty_ttyname (PTS_INDEX + Z.of_nat i) prefix n st = Ret (prefix ++ [47] ++ name) st /\
  pty_lookup fs_getfso name mem st = fs_getfso (PTS_INDEX + Z.of_nat i) st.
Proof.
  intros Hi Ep Hl Hn name. split_and!.
  - assert (Es : side PTS_INDEX (PTS_INDEX + Z.of_nat i) = Some i).
    { unfold side. rewrite (proj2 (Z.leb_le _ _)), (proj2 (Z.ltb_lt _ _)) by lia. cbn [andb]. f_equal. lia. }
    unfold pty_readdir. rewrite !(proj2 (Z.eqb_neq _ _)) by (unfold PTS_INDEX, PTM_INDEX, PTMX_INDEX; lia). rewrite Z.add_simpl_r, gets_bind, Es, Ep. cbn. by rewrite Z.add_simpl_l.
  - unfold pty_ttyname. rewrite (proj2 (Z.ltb_ge _ _)) by lia. by rewrite Z.add_simpl_l.
  - unfold pty_lookup. rewrite !bool_decide_eq_false_2 by done. unfold name. rewrite pts_name_number by (unfold PTY_MAX in Hi; lia). rewrite (proj2 (Z.leb_gt _ _)) by lia.
    rewrite gets_bind, Nat2Z.id, Ep. by rewrite Hl.
Qed.
End ok.
