(* ===== verification/Poll.v ===== *)
(** Waiting for files (kern/fs/syscall.c, [poll1], [unpoll1] and [sys__poll]), over the
    tasks and the file objects of Pty.v.

    The result of [fs_fdaccess] for a descriptor is an argument, as is the array of
    requests, which has been copied from user memory.  [multipoll] is stored and never
    read, and left out; the pointer it is stored through is not. *)

From S2P Require Import Prelude Kern Frame Tasks TaskSys TaskQueueOk TaskOk TaskSched TaskInv TaskLife TaskSysOk Mutex MsgQueue Pty PtyOk.

(** [struct pollfd] without [revents], which is a result. *)
Record pollfd := Pollfd { fd : Z; events : Z }.

Definition set_poll (t : option nat) (n : Z) (f : fso) : fso :=
  Fso (no_seek f) (refcnt f) (dirty f) (f_fs f) (index f) (nlink f) (uid f) (gid f)
    (atime f) (ctime f) (mtime f) (blocks f) (mode f) (size f) (rdev f)
    (reader_count f) (writer_count f) t n (state f) (fnat f) (fpipe f).

Section ops.
Context {X : Type} `{TaskEnv X}.

(** [curr->file_desc[fd].file->fso] *)
Definition desc_fso (me : nat) (d : Z) (st : ptys X) : option nat := l ← p_desc st !! me; o ← l !! Z.to_nat d; o ← o; o.
Definition get_desc (d : Z) : M (ptys X) nat :=
  me <~ on_sys get_curr;; o <~ gets (desc_fso me d);; deref o.

Definition poll1 (f : nat) : M (ptys X) unit :=
  o <~ get_fobj f;;
  if negb (pollcnt o =? 0) then
    _ <~ deref (polling o);;
    upd_fobj f (set_poll None (pollcnt o + 1))
  else
    me <~ on_sys get_curr;;
    upd_fobj f (set_poll (Some me) 1).
Definition unpoll1 (f : nat) : M (ptys X) unit :=
  o <~ get_fobj f;;
  if pollcnt o =? 0 then panic "unpoll1: !f->pollcnt"
  else
    me <~ on_sys get_curr;;
    upd_fobj f (set_poll (if bool_decide (polling o = Some me) then None else polling o) (pollcnt o - 1)).

(** The first loop: only the result for the last descriptor is looked at. *)
Definition last_err (access : Z -> Z -> Z) (l : list pollfd) : Z := match last l with Some p => access (fd p) (events p) | None => 0 end.
Fixpoint poll_all (access : Z -> Z -> Z) (l : list pollfd) : M (ptys X) unit :=
  match l with
  | [] => ret tt
  | p :: l' =>
    if negb (access (fd p) (events p) =? 0) then panic "sys_poll: fs_fdaccess failed"
    else f <~ get_desc (fd p);; poll1 f;;; poll_all access l'
  end.
Fixpoint ready_count (l : list pollfd) : M (ptys X) Z :=
  match l with
  | [] => ret 0
  | p :: l' =>
    f <~ get_desc (fd p);;
    o <~ get_fobj f;;
    n <~ ready_count l';;
    ret (if negb (Z.land (state o) (events p) =? 0) then n + 1 else n)
  end.
(** The last loop: [revents]. *)
Fixpoint poll_results (l : list pollfd) (ndelay : bool) : M (ptys X) (list Z) :=
  match l with
  | [] => ret []
  | p :: l' =>
    f <~ get_desc (fd p);;
    (if ndelay then ret tt else unpoll1 f);;;
    o <~ get_fobj f;;
    r <~ poll_results l' ndelay;;
    ret (Z.land (state o) (events p) :: r)
  end.
(** The result of the call, with [revents]: the number of descriptors that are ready,
    or the error of the wait. *)
Definition poll_end (l : list pollfd) (ndelay : bool) (rcnt err : Z) : M (ptys X) (Z * list Z) :=
  r <~ poll_results l ndelay;;
  ret (if negb (rcnt =? 0) then rcnt else err, r).
(** [for (;;)] up to the next wait; a task that waited goes on here. *)
Definition poll_loop (l : list pollfd) (ndelay : bool) : M (ptys X) (progress (Z * list Z)) :=
  n <~ ready_count l;;
  if negb (n =? 0) || ndelay then r <~ poll_end l ndelay n 0;; ret (Done r)
  else
    q <~ gets fs_pollq;;
    e <~ status (on_sys (task_suspend (Some q) WAIT_INTR));;
    if negb (e =? 0) then r <~ poll_end l ndelay 0 e;; ret (Done r) else ret Wait.
Definition sys__poll (access : Z -> Z -> Z) (l : list pollfd) (ndelay : bool) : M (ptys X) (progress (Z * list Z)) :=
  if negb (last_err access l =? 0) then fail (last_err access l)
  else
    (if ndelay then ret tt else poll_all access l);;;
    poll_loop l ndelay.
End ops.

(** Files marked as polled by [t], with [n] polls. *)
Definition mark (t : option nat) (n : Z) (fs : list nat) (m : gmap nat fso) : gmap nat fso := foldr (alter (set_poll t n)) m fs.
Lemma lookup_mark t n fs m f : mark t n fs m !! f = if decide (f ∈ fs) then set_poll t n <$> m !! f else m !! f.
Proof.
  induction fs as [|g fs IH]; [by rewrite decide_False by apply not_elem_of_nil|]. cbn [mark foldr]. fold (mark t n fs m). destruct (decide (f = g)) as [->|Hne].
  - rewrite lookup_alter_eq, IH. rewrite (decide_True (P := g ∈ g :: fs)) by (by left). case_decide; [|done]. by destruct (m !! g).
  - rewrite lookup_alter_ne by done. rewrite IH. destruct (decide (f ∈ fs)); [rewrite decide_True by (by right); done|]. by rewrite decide_False by (rewrite elem_of_cons; naive_solver).
Qed.
Lemma mark_alter t n g fs m : mark t n fs (alter (set_poll t n) g m) = mark t n (g :: fs) m.
Proof.
  apply map_eq. intros f. rewrite !lookup_mark. destruct (decide (f = g)) as [->|Hne].
  - rewrite lookup_alter_eq, (decide_True (P := g ∈ g :: fs)) by (by left). case_decide; [|done]. by destruct (m !! g).
  - rewrite lookup_alter_ne by done. destruct (decide (f ∈ fs)); [by rewrite (decide_True (P := f ∈ g :: fs)) by (by right)|]. by rewrite (decide_False (P := f ∈ g :: fs)) by (rewrite elem_of_cons; naive_solver).
Qed.

(** The events found of each request, and how many found some. *)
Definition revs (m : gmap nat fso) (l : list pollfd) (fs : list nat) : list Z :=
  zip_with (fun p f => Z.land (default 0 (state <$> m !! f)) (events p)) l fs.
Definition found (r : list Z) : Z := Z.of_nat (length (filter (fun v => v <> 0) r)).

Section ok.
Context {X : Type} `{TaskEnv X}.
Implicit Types st : ptys X.

(** The descriptors of the requests are open on the files [fs]. *)
Definition open_on (me : nat) st (l : list pollfd) (fs : list nat) : Prop :=
  curr (p_sys st) = Some me /\ Forall2 (fun p f => desc_fso me (fd p) st = Some f) l fs.
Definition not_polled (m : gmap nat fso) (f : nat) : Prop := exists o, m !! f = Some o /\ polling o = None /\ pollcnt o = 0.

Lemma on_curr_run st me B (k : nat -> M (ptys X) B) : curr (p_sys st) = Some me -> bind (on_sys get_curr) k st = k me st.
Proof.
  intros Hcu. assert (E : on_sys get_curr st = Ret me st); [|by rewrite (bind_run _ _ _ _ _ E)].
  unfold on_sys, zoom, get_curr. unfold bind, gets. rewrite Hcu. destruct st; done.
Qed.
Lemma get_desc_run st me d f B (k : nat -> M (ptys X) B) : curr (p_sys st) = Some me -> desc_fso me d st = Some f -> bind (get_desc d) k st = k f st.
Proof.
  intros Hcu Hd. assert (E : get_desc d st = Ret f st); [|by rewrite (bind_run _ _ _ _ _ E)]. unfold get_desc. rewrite (on_curr_run st me) by done. rewrite gets_bind, Hd. done.
Qed.

Lemma poll_all_run access l fs me st :
  open_on me st l fs -> NoDup fs -> (forall f, f ∈ fs -> not_polled (p_fso st) f) -> Forall (fun p => access (fd p) (events p) = 0) l ->
  poll_all access l st = Ret tt (with_fso (mark (Some me) 1 fs (p_fso st)) st).
Proof.
  intros [Hcu Hds]. revert fs st Hcu Hds. induction l as [|p l IH]; intros fs st Hcu Hds Hnd Hnp Ha; inversion Hds as [|? f ? fs' Hd Hds']; subst; cbn [poll_all]; [by destruct st|].
  inversion_clear Ha as [|? ? Hap Hal]. inversion_clear Hnd as [|? ? Hnf Hnd']. rewrite Hap. cbn [negb Z.eqb]. rewrite (get_desc_run st me _ f) by done.
  destruct (Hnp f ltac:(by left)) as (o & Eo & Hpo & Hpc). assert (E1 : poll1 f st = Ret tt (with_fso (alter (set_poll (Some me) 1) f (p_fso st)) st)).
  { unfold poll1. rewrite (get_fobj_run _ _ _ _ _ Eo), Hpc. cbn [negb Z.eqb]. by rewrite (on_curr_run st me). }
  rewrite (bind_run _ _ _ _ _ E1), (IH fs' (with_fso (alter (set_poll (Some me) 1) f (p_fso st)) st)); [|done|done|done| |done].
  - cbn [p_fso with_fso]. by rewrite mark_alter.
  - intros g Hg. cbn. destruct (Hnp g ltac:(by right)) as (og & Eog & Hg2). exists og. rewrite lookup_alter_ne by (intros ->; done). done.
Qed.
Lemma ready_count_run l fs me st :
  open_on me st l fs -> (forall f, f ∈ fs -> is_Some (p_fso st !! f)) -> ready_count l st = Ret (found (revs (p_fso st) l fs)) st.
Proof.
  intros [Hcu Hds] He. induction Hds as [|p f l fs Hd Hds IH]; [done|]. cbn [ready_count]. rewrite (get_desc_run st me _ f) by done. destruct (He f ltac:(by left)) as [o Eo].
  rewrite (get_fobj_run _ _ _ _ _ Eo). rewrite (bind_run _ _ _ _ _ (IH (fun g Hg => He g ltac:(by right)))). unfold ret, revs, found. cbn [zip_with]. rewrite Eo. cbn [fmap option_fmap option_map default].
  destruct (Z.eqb_spec (Z.land (state o) (events p)) 0) as [E|E]; cbn [negb]; [rewrite filter_cons_False; [done|by intros []]|]. rewrite filter_cons_True by done. cbn [length]. f_equal. lia.
Qed.
Lemma unpoll1_run f o me st : curr (p_sys st) = Some me -> p_fso st !! f = Some o -> polling o = Some me -> pollcnt o = 1 -> unpoll1 f st = Ret tt (with_fso (alter (set_poll None 0) f (p_fso st)) st).
Proof.
  intros Hcu Eo Hp Hc. unfold unpoll1. rewrite (get_fobj_run _ _ _ _ _ Eo), Hc. cbn [Z.eqb Pos.eqb]. rewrite (on_curr_run st me) by done. by rewrite bool_decide_eq_true_2.
Qed.
Lemma poll_results_run l fs me st :
  open_on me st l fs -> NoDup fs -> (forall f, f ∈ fs -> exists o, p_fso st !! f = Some o /\ polling o = Some me /\ pollcnt o = 1) ->
  poll_results l false st = Ret (revs (p_fso st) l fs) (with_fso (mark None 0 fs (p_fso st)) st).
Proof.
  intros [Hcu Hds]. revert fs st Hcu Hds. induction l as [|p l IH]; intros fs st Hcu Hds Hnd Hp; inversion Hds as [|? f ? fs' Hd Hds']; subst; cbn [poll_results]; [by destruct st|].
  inversion_clear Hnd as [|? ? Hnf Hnd']. rewrite (get_desc_run st me _ f) by done. destruct (Hp f ltac:(by left)) as (o & Eo & Hpo & Hpc).
  rewrite (bind_run _ _ _ _ _ (unpoll1_run f o me st Hcu Eo Hpo Hpc)). set (st1 := with_fso _ st).
  assert (Eo1 : p_fso st1 !! f = Some (set_poll None 0 o)) by (cbn; by rewrite lookup_alter_eq, Eo). rewrite (get_fobj_run _ _ _ _ _ Eo1).
  assert (Hfs : forall g, g ∈ fs' -> p_fso st1 !! g = p_fso st !! g) by (intros g Hg; cbn; rewrite lookup_alter_ne; [done|intros ->; done]).
  assert (Hi : poll_results l false st1 = Ret (revs (p_fso st1) l fs') (with_fso (mark None 0 fs' (p_fso st1)) st1)).
  { apply IH; [done|done|done|]. intros g Hg. rewrite Hfs by done. apply Hp. by right. }
  rewrite (bind_run _ _ _ _ _ Hi). unfold ret. f_equal; [|cbn [p_fso with_fso st1]; by rewrite mark_alter]. unfold revs. cbn [zip_with]. f_equal; [by rewrite Eo|].
  clear -Hfs Hds'. revert Hfs. induction Hds' as [|q g l fs' _ _ IH]; intros Hfs; [done|]. cbn [zip_with]. f_equal; [by rewrite Hfs by (by left)|]. apply IH. intros h Hh. apply Hfs. by right.
Qed.
Lemma mark_back me fs m : (forall f, f ∈ fs -> not_polled m f) -> mark None 0 fs (mark (Some me) 1 fs m) = m.
Proof.
  intros Hnp. apply map_eq. intros f. rewrite !lookup_mark. case_decide as Hf; [|done]. destruct (Hnp f Hf) as (o & -> & Hp & Hc). cbn. f_equal. destruct o. cbn in *. by subst.
Qed.

Lemma revs_mark t n gs m l fs : revs (mark t n gs m) l fs = revs m l fs.
Proof.
  unfold revs. revert l. induction fs as [|f fs IH]; intros [|p l]; [done..|]. cbn [zip_with]. f_equal; [|apply IH]. rewrite lookup_mark. case_decide; [|done]. by destruct (m !! f).
Qed.
Lemma last_err_ok access l : Forall (fun p => access (fd p) (events p) = 0) l -> last_err access l = 0.
Proof. intros Ha. unfold last_err. destruct (last l) as [p|] eqn:E; [|done]. apply last_Some_elem_of in E. rewrite Forall_forall in Ha. by apply Ha. Qed.
Lemma marked_polled me fs m f : f ∈ fs -> not_polled m f -> exists o, mark (Some me) 1 fs m !! f = Some o /\ polling o = Some me /\ pollcnt o = 1.
Proof. intros Hf (o & Eo & _). exists (set_poll (Some me) 1 o). by rewrite lookup_mark, decide_True, Eo. Qed.

(** What a call that waited or may wait finds, from the moment its files are marked. *)
Lemma poll_loop_ok l fs me m0 st :
  sys_ok (p_sys st) -> (NREADY <= fs_pollq st < length (queues (p_sys st)))%nat -> open_on me st l fs -> NoDup fs -> (forall f, f ∈ fs -> not_polled m0 f) -> p_fso st = mark (Some me) 1 fs m0 ->
  wp (poll_loop l false)
    (fun r st' => sys_ok (p_sys st') /\ pty_ st' = pty_ st /\
      match r with
      | Done (n, r) => r = revs m0 l fs /\ p_fso st' = m0 /\ (0 < found r /\ n = found r \/ found r = 0 /\ n = EINTR)
      | Wait => found (revs m0 l fs) = 0 /\ p_fso st' = p_fso st
      end) (fun _ _ => False) st.
Proof.
  intros Hok Hq Ho Hnd Hnp Em. unfold poll_loop. pose proof Ho as [Hcu Hds].
  assert (Hex : forall f, f ∈ fs -> exists o, p_fso st !! f = Some o /\ polling o = Some me /\ pollcnt o = 1) by (intros f Hf; rewrite Em; apply marked_polled; [done|by apply Hnp]).
  eapply wp_known; [apply (ready_count_run l fs me st Ho); intros f Hf; destruct (Hex f Hf) as (o & -> & _); done|].
  assert (Er : revs (p_fso st) l fs = revs m0 l fs) by (rewrite Em; apply revs_mark). rewrite Er. rewrite orb_false_r.
  assert (Hend : forall n e st1, open_on me st1 l fs -> p_fso st1 = p_fso st -> sys_ok (p_sys st1) -> pty_ st1 = pty_ st -> (0 < found (revs m0 l fs) /\ n = found (revs m0 l fs) \/ found (revs m0 l fs) = 0 /\ n = 0 /\ e = EINTR) ->
    wp (r <~ poll_end l false n e;; ret (Done r)) (fun r st' => sys_ok (p_sys st') /\ pty_ st' = pty_ st /\
      match r with
      | Done (n, r) => r = revs m0 l fs /\ p_fso st' = m0 /\ (0 < found r /\ n = found r \/ found r = 0 /\ n = EINTR)
      | Wait => found (revs m0 l fs) = 0 /\ p_fso st' = p_fso st
      end) (fun _ _ => False) st1).
  { intros n e st1 Ho1 Ef1 Hok1 Ep1 Hn. unfold poll_end. apply wp_bind. eapply wp_known; [apply (poll_results_run l fs me st1 Ho1 Hnd); by rewrite Ef1|]. apply wp_ret, wp_ret. split; [done|]. split; [done|].
    rewrite Ef1, Er. split; [done|]. split; [cbn; rewrite Em; by apply mark_back|]. destruct Hn as [[Hp ->]|(Hz & -> & ->)]; [left; by rewrite (proj2 (Z.eqb_neq _ _)) by lia|right; done]. }
  assert (Hge : 0 <= found (revs m0 l fs)) by (unfold found; lia). destruct (Z.eqb_spec (found (revs m0 l fs)) 0) as [Hz|Hz]; cbn [negb]; [|apply Hend; auto; left; lia].
  apply wp_bind, wp_gets. destruct (sys_curr _ me Hok Hcu) as (c & Ec & _). apply wp_bind, wp_status. unfold on_sys. apply wp_zoom.
  eapply wp_mono; [apply (task_suspend_sys (p_sys st) (Some (fs_pollq st)) WAIT_INTR me c Hok Hcu Ec Hq); by left| |].
  - intros [] s' (Hok' & _). apply wp_ret. by split_and!.
  - intros e s' (-> & Hok' & (_ & Hcu' & _) & _). cbn [negb Z.eqb EINTR]. apply Hend; try done; [|by right]. split; [cbn; by rewrite Hcu'|exact Hds].
Qed.

(** C23. [poll] on open descriptors of files that nobody polls.  When some of them are
    ready it returns their number and the events found, and the files are as before;
    otherwise the task waits, each file leading to it; an interrupted call returns with
    the files as before, and gives the code of the error as the number of descriptors
    that are ready.  A call that does not wait changes nothing. *)
Theorem poll_spec access l fs me st :
  sys_ok (p_sys st) -> (NREADY <= fs_pollq st < length (queues (p_sys st)))%nat -> open_on me st l fs -> NoDup fs ->
  (forall f, f ∈ fs -> not_polled (p_fso st) f) -> Forall (fun p => access (fd p) (events p) = 0) l ->
  wp (sys__poll access l false)
    (fun r st' => sys_ok (p_sys st') /\ pty_ st' = pty_ st /\
      match r with
      | Done (n, r) => r = revs (p_fso st) l fs /\ p_fso st' = p_fso st /\ (0 < found r /\ n = found r \/ found r = 0 /\ n = EINTR)
      | Wait => found (revs (p_fso st) l fs) = 0 /\ p_fso st' = mark (Some me) 1 fs (p_fso st)
      end) (fun _ _ => False) st /\
  sys__poll access l true st = Ret (Done (found (revs (p_fso st) l fs), revs (p_fso st) l fs)) st.
Proof.
  intros Hok Hq Ho Hnd Hnp Ha. unfold sys__poll. rewrite last_err_ok by done. cbn [negb Z.eqb]. split.
  - eapply wp_known; [by apply (poll_all_run access l fs me st)|]. eapply wp_mono; [apply (poll_loop_ok l fs me (p_fso st)); done| |done]. cbv beta. intros r st'. done.
  - rewrite ret_bind. unfold poll_loop. assert (Hex : forall f, f ∈ fs -> is_Some (p_fso st !! f)) by (intros f Hf; destruct (Hnp f Hf) as (o & -> & _); done).
    rewrite (bind_run _ _ _ _ _ (ready_count_run l fs me st Ho Hex)), orb_true_r. unfold poll_end.
    assert (Er : poll_results l true st = Ret (revs (p_fso st) l fs) st).
    { destruct Ho as [Hcu Hds]. clear -Hcu Hds Hex. induction Hds as [|p f l fs Hd Hds IH]; [done|]. cbn [poll_results]. rewrite (get_desc_run st me _ f) by done. rewrite ret_bind. destruct (Hex f ltac:(by left)) as [o Eo].
      rewrite (get_fobj_run _ _ _ _ _ Eo). rewrite (bind_run _ _ _ _ _ (IH (fun g Hg => Hex g ltac:(by right)))). unfold revs. cbn [zip_with]. by rewrite Eo. }
    unfold bind. rewrite Er. unfold ret. destruct (Z.eqb_spec (found (revs (p_fso st) l fs)) 0) as [->|]; done.
Qed.

(** A task that a file leads to goes on when the state of the file changes. *)
Theorem poll_wakes st i p f o t v :
  net_ok st -> pty_at i st = Some p -> p_fso st !! f = Some o -> polling o = Some t -> state o <> v ->
  exists st' c, fs_state f v st = Ret tt st' /\ net_ok st' /\ task_at t (p_sys st') = Some c /\ paused (t_run c) = 0.
Proof.
  intros Hn Ep Ef Et Hv. destruct (no_polling _ Hn f o t Ef Et) as (c & Ec & Hx). destruct (task_resume_ok (p_sys st) t c (so_sched _ (no_sys _ Hn)) Ec Hx) as (s' & c' & E & _ & _ & Ec' & Hz).
  destruct (does_state i st p f v Hn Ep ltac:(by exists o)) as (st' & Es & Hm). exists st', c'. split; [done|]. split; [by eapply moves_net|]. split; [|done].
  revert Es. unfold fs_state. rewrite (get_fobj_run _ _ _ _ _ Ef), (proj2 (Z.eqb_neq _ _)) by done. unfold bind, upd_fobj, modify. rewrite Et. unfold on_sys, zoom. cbn. rewrite E. intros [= <-]. exact Ec'.
Qed.

(** * What a user task can do *)

(** Three descriptors of one file: the third [poll1] follows a NULL pointer. *)
Theorem poll_thrice_faults st me f o :
  curr (p_sys st) = Some me -> p_fso st !! f = Some o -> pollcnt o = 0 -> (poll1 f;;; poll1 f;;; poll1 f) st = Halt Undefined.
Proof.
  intros Hcu Eo Hc. set (st1 := with_fso (alter (set_poll (Some me) 1) f (p_fso st)) st). assert (E1 : poll1 f st = Ret tt st1).
  { unfold poll1. rewrite (get_fobj_run _ _ _ _ _ Eo), Hc. cbn [negb Z.eqb]. by rewrite (on_curr_run st me). }
  rewrite (bind_run _ _ _ _ _ E1). assert (Eo1 : p_fso st1 !! f = Some (set_poll (Some me) 1 o)) by (cbn; by rewrite lookup_alter_eq, Eo).
  set (st2 := with_fso (alter (set_poll None 2) f (p_fso st1)) st1). assert (E2 : poll1 f st1 = Ret tt st2) by (unfold poll1; by rewrite (get_fobj_run _ _ _ _ _ Eo1)).
  rewrite (bind_run _ _ _ _ _ E2). assert (Eo2 : p_fso st2 !! f = Some (set_poll None 2 (set_poll (Some me) 1 o))) by (unfold st2; cbn [p_fso with_fso]; by rewrite lookup_alter_eq, Eo1).
  unfold poll1. by rewrite (get_fobj_run _ _ _ _ _ Eo2).
Qed.
(** A bad descriptor before a good one: the kernel panics. *)
Theorem poll_bad_panics access p q st :
  access (fd p) (events p) <> 0 -> access (fd q) (events q) = 0 -> exists msg, sys__poll access [p; q] false st = Halt (KPanic msg).
Proof.
  intros Hp Hq. unfold sys__poll, last_err. cbn [last]. rewrite Hq. cbn [negb Z.eqb poll_all]. rewrite (proj2 (Z.eqb_neq _ _)) by done. by eexists.
Qed.
End ok.
