(* ===== verification/TaskRung.v ===== *)
(** No alarm goes by unheard: a task whose alarm the clock has taken off has
    [SIGALRM] pending, unless it ignores the signal or has exited
    (kern/clock.c, kern/signal.c). *)

From S2P Require Import Prelude Frame Tasks TaskSys TaskQueueOk TaskOk TaskSched TaskInv TaskLife TaskSysOk TaskClock TaskKept.

Definition rung (c : task) : Prop := received c SIGALRM = true /\ signal_pending (t_sig c) = true.
(** The task hears [SIGALRM]. *)
Definition listens (c : task) : bool := negb (exited (t_run c)) && negb (handler c SIGALRM =? SIG_IGN).

Section heard.
Context {X : Type} `{TaskEnv X}.
Implicit Types s : sys X.

Definition hears (c c' : task) : Prop :=
  listens c' = listens c /\ (rung c -> rung c') /\ (t_alarm c' = t_alarm c \/ (listens c = true -> rung c')).
Definition heard s s' : Prop :=
  bufs_ok s -> bufs_ok s' /\ forall t c, task_at t s = Some c -> exists c', task_at t s' = Some c' /\ hears c c'.

Lemma hears_refl c : hears c c.
Proof. split_and!; [done|done|by left]. Qed.
Lemma hears_trans c1 c2 c3 : hears c1 c2 -> hears c2 c3 -> hears c1 c3.
Proof.
  intros (L1 & R1 & A1) (L2 & R2 & A2). split_and!; [congruence|auto|]. destruct A1 as [E1|A1]; [|right; auto].
  destruct A2 as [E2|A2]; [left; congruence|right]. rewrite <- L1. auto.
Qed.
Global Instance heard_preorder : PreOrder heard.
Proof.
  split; [intros s Hb; split; [done|]; eauto using hears_refl|].
  intros s1 s2 s3 H1 H2 Hb. destruct (H1 Hb) as [Hb2 T1]. destruct (H2 Hb2) as [Hb3 T2]. split; [done|].
  intros t c E. destruct (T1 t c E) as (c2 & E2 & Hc2). destruct (T2 t c2 E2) as (c3 & E3 & Hc3). eauto using hears_trans.
Qed.

Lemma heard_intro {A} (m : M (sys X) A) : keeps (kept_if False) m ->
  (forall s, bufs_ok s -> wlp m (fun _ s' => forall t c, task_at t s = Some c -> exists c', task_at t s' = Some c' /\ hears c c')
     (fun _ s' => forall t c, task_at t s = Some c -> exists c', task_at t s' = Some c' /\ hears c c') s) -> keeps heard m.
Proof.
  intros Hk Hm s. specialize (Hk s). unfold wlp in *.
  destruct (m s) as [a s'|e s'|h] eqn:E; [..|done]; (intros Hb; split; [by apply all_bufs, Hk, all_bufs|]; specialize (Hm s Hb); by rewrite E in Hm).
Qed.
Lemma heard_modify (h : sys X -> sys X) : keeps (kept_if False) (modify h) -> (forall s, tasks (h s) = tasks s) -> keeps heard (modify h).
Proof.
  intros Hk Ht. apply heard_intro; [done|]. intros s _ t c E. exists c. split; [|apply hears_refl].
  unfold task_at in *. by rewrite Ht.
Qed.
Lemma heard_upd t f : keeps (kept_if False) (upd_task (X := X) t f) -> (forall c, bufs_wf c -> hears c (f c)) -> keeps heard (upd_task (X := X) t f).
Proof.
  intros Hk Hf. apply heard_intro; [done|]. intros s Hb u c E. cbn. rewrite task_at_upd. case_decide as Hu; [subst u; rewrite E|eauto using hears_refl].
  exists (f c). split; [done|]. apply Hf. by eapply Hb.
Qed.
Lemma heard_same t f : keeps (kept_if False) (upd_task (X := X) t f) ->
  (forall c, (listens (f c), t_sig (f c), t_alarm (f c)) = (listens c, t_sig c, t_alarm c)) -> keeps heard (upd_task (X := X) t f).
Proof.
  intros Hk Hf. apply heard_upd; [done|]. intros c _. destruct (f_equal id (Hf c)). injection (Hf c) as H1 H2 H3.
  split_and!; [done|unfold rung, received; by rewrite H2|by left].
Qed.
Lemma heard_put q v : keeps heard (put_queue (X := X) q v).
Proof. apply heard_modify; [apply keeps_kept_put|done]. Qed.
Lemma heard_env f : keeps heard (env_call (X := X) f).
Proof. apply keeps_env_call; [apply _|]. intros x s Hb. split; [exact Hb|]. intros t c E. eauto using hears_refl. Qed.

Lemma set_received_rung sig c : bufs_wf c -> 0 < sig <= SIGMAX ->
  hears c (set_pending true (set_received sig true c)) /\ received (set_pending true (set_received sig true c)) sig = true.
Proof.
  intros [_ (Hr & _)] Hs. unfold SIGMAX in Hs. split.
  - split_and!; [done| |by left]. intros [E1 E2]. split; [|done]. unfold received in *. cbn.
    destruct (decide (Z.to_nat (sig - 1) = Z.to_nat (SIGALRM - 1))) as [->|Hne].
    + rewrite list_lookup_insert_eq; [done|]. rewrite Hr. unfold SIGALRM. lia.
    + by rewrite list_lookup_insert_ne.
  - unfold received. cbn. rewrite list_lookup_insert_eq; [done|]. rewrite Hr. lia.
Qed.
End heard.

#[local] Hint Resolve keeps_get_task keeps_get_queue keeps_get_curr heard_put heard_env : keeps.
#[local] Hint Extern 1 (keeps heard (upd_task _ _)) => (apply heard_same; [apply keeps_kept_same|]; done) : keeps.
#[local] Hint Extern 1 (keeps heard (modify _)) => (apply heard_modify; [apply keeps_kept_modify|]; done) : keeps.
#[local] Hint Extern 1 (keeps heard (modify_env _)) => (apply heard_modify; [apply keeps_kept_modify|]; done) : keeps.
#[local] Hint Extern 1 (keeps heard (panic _)) => done : keeps.
Ltac heard := intros; keeps.

Section ops.
Context {X : Type} `{TaskEnv X}.
Implicit Types s : sys X.

Lemma task_insert_heard q t : keeps heard (task_insert (X := X) q t).
Proof. unfold task_insert. heard. Qed.
Lemma task_remove_heard t : keeps heard (task_remove (X := X) t).
Proof. unfold task_remove. heard. Qed.
#[local] Hint Resolve task_insert_heard task_remove_heard : keeps.
Lemma task_resume_heard t : keeps heard (task_resume (X := X) t).
Proof. unfold task_resume. heard. Qed.
#[local] Hint Resolve task_resume_heard : keeps.

(** The part of [signal_send_k] after its checks. *)
Lemma signal_send_k_heard p sig : keeps heard (signal_send_k (X := X) p sig).
Proof.
  unfold signal_send_k. destruct ((sig <? 0) || (SIGMAX <? sig)) eqn:Hs; [heard|]. destruct (sig =? 0) eqn:Hz; [heard|].
  apply keeps_bind; [apply _|heard|]. intros c. destruct (exited (t_run c) || _); [heard|].
  apply keeps_bind; [apply _|heard|intros _]. apply keeps_bind; [apply _|heard|intros _].
  apply keeps_bind; [apply _| |intros _; heard]. apply orb_false_iff in Hs as [Hs1 Hs2].
  apply heard_upd; [apply keeps_kept_upd; solve [kept_sizes]|].
  intros d Hd. apply set_received_rung; [done|]. lia.
Qed.
#[local] Hint Resolve signal_send_k_heard : keeps.

Lemma heard_wlp {A} (m : M (sys X) A) s t c : keeps heard m -> bufs_ok s -> task_at t s = Some c -> rung c ->
  wlp m (fun _ s' => exists c', task_at t s' = Some c' /\ rung c') (fun _ s' => exists c', task_at t s' = Some c' /\ rung c') s.
Proof.
  intros Hm Hb Ec Hr. eapply wlp_mono; [apply Hm|..]; cbn; intros _ s' Hs; destruct (Hs Hb) as [_ Ht];
    destruct (Ht t c Ec) as (c' & Ec' & _ & Hr' & _); eauto.
Qed.
Lemma send_alarm_rung s p c : bufs_ok s -> task_at p s = Some c -> listens c = true ->
  wlp (signal_send_k p SIGALRM) (fun _ s' => exists c', task_at p s' = Some c' /\ rung c')
    (fun _ s' => exists c', task_at p s' = Some c' /\ rung c') s.
Proof.
  intros Hb Ec [Hx%negb_true_iff Hi%negb_true_iff]%andb_true_iff. unfold signal_send_k.
  change ((SIGALRM <? 0) || (SIGMAX <? SIGALRM)) with false. change (SIGALRM =? 0) with false.
  change ((SIGALRM =? SIGCONT) || (SIGALRM =? SIGKILL)) with false. change (SIGALRM =? SIGSTOP) with false. cbv iota.
  unfold wlp. rewrite (get_task_run s p c) by done. rewrite Hx, Hi. cbn [orb]. rewrite !ret_bind. unfold upd_task. rewrite modify_bind.
  set (f := fun c => set_pending true (set_received SIGALRM true c)).
  assert (task_at p (task_upd p f s) = Some (f c)) as Ec1 by (by apply task_at_upd_eq).
  assert (rung (f c)) as Hf by (split; [|done]; apply set_received_rung; [by eapply Hb|done]).
  assert (bufs_ok (task_upd p f s)) as Hb1.
  { assert (keeps (kept_if False) (upd_task (X := X) p f)) as Hk; [|by apply all_bufs, (Hk s), all_bufs].
    apply keeps_kept_upd. solve [kept_sizes]. }
  rewrite (get_task_run _ p (f c)) by done. destruct (paused (t_run (f c)) =? WAIT_INTR); [|by exists (f c)].
  apply (heard_wlp (task_resume p) (task_upd p f s) p (f c)); [apply task_resume_heard|done..].
Qed.

(** Taking off the alarm of a task that has been told. *)
Lemma alarm_off_heard s s1 p c a :
  task_at p s = Some c -> (listens c = true -> exists c', task_at p s1 = Some c' /\ rung c') ->
  (forall t c, task_at t s = Some c -> exists c', task_at t s1 = Some c' /\ hears c c') ->
  forall t d, task_at t s = Some d -> exists d', task_at t (task_upd p (set_alarms a) s1) = Some d' /\ hears d d'.
Proof.
  intros Ec Hr Hs t d Ed. rewrite task_at_upd. destruct (Hs t d Ed) as (d1 & Ed1 & Hd). case_decide as Ht; [subst t|eauto].
  rewrite Ed1. exists (set_alarms a d1). split; [done|]. assert (d = c) as -> by congruence. destruct Hd as (Hl & Hr1 & _).
  split_and!; [done|done|]. right. intros Hli. destruct (Hr Hli) as (c' & Ec' & Hc'). by assert (c' = d1) as <- by congruence.
Qed.
Lemma chk_alarm_heard p : keeps heard (chk_alarm (X := X) p).
Proof.
  apply heard_intro; [apply chk_alarm_kept|]. intros s Hb. unfold chk_alarm.
  destruct (task_at p s) as [c|] eqn:Ec; [|unfold wlp, bind, get_task; cbn; by rewrite Ec].
  unfold wlp. rewrite (get_task_run s p c) by done. destruct (alarm (t_alarm c) =? 0); [cbn; eauto using hears_refl|].
  rewrite gets_bind. destruct (((_ =? time s) && _) || _); [|rewrite set_alarm_run; cbn; eauto using hears_refl].
  pose proof (signal_send_k_heard p SIGALRM s) as Hh. pose proof (send_alarm_rung s p c Hb Ec) as Hr. unfold wlp in Hh, Hr.
  unfold bind at 1, status. set (a0 := t_alarm c) in *. clearbody a0.
  destruct (signal_send_k p SIGALRM s) as [[] s1|e s1|h]; [..|done]; destruct (Hh Hb) as [_ Ht];
    (destruct (alarm_repeat a0 =? 0); [exact (alarm_off_heard s s1 p c _ Ec Hr Ht)|];
     destruct (if CLOCK_HZ <=? _ then _ else _) as [at_ ac]; unfold upd_task; rewrite modify_bind, set_alarm_run; exact (alarm_off_heard s s1 p c _ Ec Hr Ht)).
Qed.
#[local] Hint Resolve chk_alarm_heard : keeps.
Lemma chk_alarms_heard n i : keeps heard (chk_alarms (X := X) n i).
Proof. revert i. induction n as [|n IH]; intros i; cbn [chk_alarms]; heard. Qed.
Lemma clock_second_heard : keeps heard (modify (clock_second (X := X))).
Proof.
  apply heard_intro; [apply clock_second_kept|]. intros s _ t c E. unfold clock_second. case_match; [|exists c; split; [done|apply hears_refl]].
  exists (sample_cputime c). split; [|split_and!; [done|done|by left]].
  change (task_at t (with_tasks (map (option_map sample_cputime) (tasks s)) s) = Some (sample_cputime c)). by rewrite task_at_map, E.
Qed.
Lemma clock_tick_heard : keeps heard (modify (clock_tick (X := X))).
Proof. apply heard_modify; [apply clock_tick_kept|]. intros s. unfold clock_tick. by case_match. Qed.
#[local] Hint Resolve chk_alarms_heard clock_second_heard clock_tick_heard : keeps.
Lemma clock_intr_heard : keeps heard (clock_intr (X := X)).
Proof. unfold clock_intr. heard. Qed.

Lemma clock_intr_alarms s :
  sys_ok s -> bufs_ok s ->
  exists s', clock_intr s = Ret tt s' /\ sys_ok s' /\ later (now s) (now s') /\
    (forall t c, task_at t s' = Some c -> ahead (now s') c) /\
    (forall t c, task_at t s = Some c -> alarm (t_alarm c) <> 0 -> no_later (due c) (now s') -> listens c = true ->
       exists c', task_at t s' = Some c' /\ rung c').
Proof.
  intros Hok Hb. destruct (clock_intr_ok s Hok) as (s' & E & Hok' & _ & _ & _ & Hl & Hah). exists s'. split_and!; try done.
  intros t c Ec Ha Hd Hli. pose proof (clock_intr_heard s) as Hh. unfold wlp in Hh. rewrite E in Hh. destruct (Hh Hb) as [_ Ht].
  destruct (Ht t c Ec) as (c' & Ec' & _ & _ & [Eal|Hr]); [|eauto]. exfalso.
  assert (later (now s') (due c')) as Hla by (apply (Hah t c' Ec'); by rewrite Eal).
  unfold due in Hla. rewrite Eal in Hla. fold (due c) in Hla. unfold later, no_later in *. lia.
Qed.
End ops.
