(* ===== verification/TaskProps.v ===== *)
(** The tasks of the system over any history of system calls, kernel calls and
    interrupts from [task_init] on.

    [sys_op] lists the operations, [enabled] what their callers guarantee, and
    [step] is one operation that is enabled.  A task that waits gives up the
    processor inside of the operation; with no task to run [curr] is NULL until
    an interrupt resumes one and [WakeUp] finishes the waiting [sched]. *)

From S2P Require Import Prelude Frame Tasks TaskSys TaskQueueOk TaskOk TaskSched TaskInv TaskLife TaskSysOk TaskClock TaskKept TaskRung.

Inductive sys_op :=
| Yield | WakeUp | Suspend (q : option nat) (type : Z) | Resume (t : nat)
| Nice (inc : Z) | Creat (name arg : list Z) | Fork | Exit (st : Z) | XWait (want : Z) (nohang : bool)
| Send (t : nat) (sig : Z) | KSend (t : nat) (sig : Z) | Fatal (t : nat) (sig : Z)
| SigHandler (sig h : Z) | EvtSignal (sig h : Z) | Deliver (rip : Z)
| SendEvent (t : nat) (e : event) | EvtCount | EvtWait
| Exec (name arg : list Z) | DoExec
| ClockIntr | AlarmCall (delay : Z) | UAlarm (u_delay : Z) (rep : bool) | SetTime (tv : option (Z * Z)).

Section history.
Context {X : Type} `{TaskEnv X}.
Implicit Types s : sys X.

Definition void {A} (m : M (sys X) A) : M (sys X) unit := status m;;; ret tt.

Definition run_op (op : sys_op) : M (sys X) unit :=
  match op with
  | Yield => sched
  | WakeUp => o <~ gets idle;; match o with Some p => sched_pick p | None => ret tt end
  | Suspend q type => void (task_suspend q type)
  | Resume t => task_resume t
  | Nice inc => void (sys_nice inc)
  | Creat name arg => void (task_creat name arg)
  | Fork => void do_fork
  | Exit st => task_exit st
  | XWait want nohang => void (sys___xwait want nohang)
  | Send t sig => void (signal_send t sig)
  | KSend t sig => void (signal_send_k t sig)
  | Fatal t sig => void (signal_fatal t sig)
  | SigHandler sig h => void (sys_signal sig h)
  | EvtSignal sig h => void (sys_evt_signal sig h)
  | Deliver rip => void (signal_handle rip)
  | SendEvent t e => void (send_event t e)
  | EvtCount => void sys_evt_count
  | EvtWait => void sys__evt_wait
  | Exec name arg => void (task_exec name arg)
  | DoExec => void do_exec
  | ClockIntr => clock_intr
  | AlarmCall delay => void (sys_alarm delay)
  | UAlarm u rep => void (sys_ualarm u rep)
  | SetTime tv => void (sys_settimeofday tv)
  end.

Definition is_some {A} (o : option A) : bool := match o with Some _ => true | None => false end.

(** What the callers inside of the kernel guarantee: a system call and the way
    back to user mode have a current task; [sched] is finished when there is
    none; only a queue other than the ready queues is waited on; a task that is
    named is there, and is resumed before it has exited.  The arguments of a user
    are any values of their types. *)
Definition enabled (op : sys_op) s : bool :=
  match op with
  | WakeUp => negb (is_some (curr s))
  | Suspend q type =>
    is_some (curr s) && ((type =? WAIT_INTR) || (type =? WAIT_NOINTR)) &&
    match q with Some q => (NREADY <=? q)%nat && (q <? length (queues s))%nat | None => true end
  | Resume t => match task_at t s with Some c => negb (exited (t_run c)) | None => false end
  | Nice inc => is_some (curr s) && (- INT_MAX - 1 <=? inc) && (inc <=? INT_MAX)
  | Send t _ => is_some (curr s) && is_some (task_at t s)
  | KSend t _ | Fatal t _ | SendEvent t _ => is_some (task_at t s)
  | AlarmCall d | UAlarm d _ => is_some (curr s) && (0 <=? d)
  | ClockIntr => true
  | Yield | Creat _ _ | Fork | Exit _ | XWait _ _ | SigHandler _ _ | EvtSignal _ _ | Deliver _ | EvtCount | EvtWait
  | Exec _ _ | DoExec | SetTime _ => is_some (curr s)
  end.

(** Where the code does not go on: [nice] by a number that overflows and
    [signal] for signal 0, which any program may ask for, are undefined, and the
    kernel stops when [init] exits or dies of a signal. *)
Definition stops (op : sys_op) s : Prop :=
  match op with
  | Nice inc =>
    run_op op s = Halt Undefined /\ exists me c, curr s = Some me /\ task_at me s = Some c /\ INT_MAX < priority (t_run c) + inc
  | SigHandler sig _ => run_op op s = Halt Undefined /\ sig = 0
  | Exit _ | Deliver _ => run_op op s = Halt (KPanic "init exited") /\ curr s = Some (init s)
  | _ => False
  end.

(** The histories: the operations that are asked for, one after the other. *)
Inductive runs : list sys_op -> sys X -> sys X -> Prop :=
| runs_nil s : runs [] s s
| runs_cons op l s s1 s2 : enabled op s = true -> run_op op s = Ret tt s1 -> runs l s1 s2 -> runs (op :: l) s s2.

(** No program has set the clock to a senseless time. *)
Definition good_op (op : sys_op) : Prop := match op with SetTime tv => good_time tv | _ => True end.

Definition sys_wf (P : Prop) s : Prop := tasks_ok P s /\ all_wf True s /\ (EVTQ < length (queues s))%nat.

(** ** One operation *)

Lemma void_run {A} (m : M (sys X) A) (Q : sys X -> Prop) s :
  wp m (fun _ => Q) (fun _ => Q) s -> exists s', void m s = Ret tt s' /\ Q s'.
Proof. unfold wp, void, status, bind. destruct (m s) as [a s'|e s'|h]; intros HQ; [eauto..|done]. Qed.
Lemma wp_weak {A} (m : M (sys X) A) (Q : A -> sys X -> Prop) (E : Z -> sys X -> Prop) (R : sys X -> Prop) s :
  wp m Q E s -> (forall a s', Q a s' -> R s') -> (forall e s', E e s' -> R s') -> wp m (fun _ => R) (fun _ => R) s.
Proof. unfold wp. destruct (m s); naive_solver. Qed.
Lemma tasks_weaken (P Q : Prop) s : (Q -> P) -> tasks_ok P s -> tasks_ok Q s.
Proof. intros HQ []. split; auto. Qed.
Lemma stays_ok (P : Prop) s s' : stays (P := P) s s' -> tasks_ok P s'.
Proof. by intros []. Qed.
Lemma kept_run m s s' : keeps (kept_if True) m -> m s = Ret tt s' -> all_wf True s -> (EVTQ < length (queues s))%nat ->
  all_wf True s' /\ (EVTQ < length (queues s'))%nat.
Proof. intros Hk E He Hq. specialize (Hk s). unfold wlp in Hk. rewrite E in Hk. destruct (Hk He) as [? ->]. done. Qed.
Lemma void_kept {A} (m : M (sys X) A) : keeps (kept_if True) m -> keeps (kept_if True) (void m).
Proof. intros Hm. unfold void. apply keeps_bind; [apply _|by apply keeps_status|]. intros ?. apply keeps_ret, _. Qed.

Lemma run_op_kept op : keeps (kept_if True) (run_op op).
Proof.
  destruct op; cbn [run_op]; try (apply void_kept); eauto using sched_kept, task_suspend_kept, task_resume_kept, sys_nice_kept,
    task_creat_kept, do_fork_kept, task_exit_kept, xwait_kept, signal_send_kept, signal_send_k_kept, signal_fatal_kept,
    sys_signal_kept, sys_evt_signal_kept, signal_handle_kept, send_event_kept, sys_evt_count_kept, evt_wait_kept,
    task_exec_kept, do_exec_kept, clock_intr_kept, sys_alarm_kept, sys_ualarm_kept, settimeofday_kept.
  apply keeps_bind; [apply _|apply keeps_gets, _|]. intros [p|]; [apply sched_pick_kept|apply keeps_ret, _].
Qed.

Lemma is_some_true {A} (o : option A) : is_some o = true -> exists a, o = Some a.
Proof. destruct o; [eauto|done]. Qed.

(** ** The operations that may stop *)

Section stop.
Context (P : Prop) (s : sys X) (me : nat) (c : task).
Hypotheses (Hok : tasks_ok P s) (Hcu : curr s = Some me) (Ec : task_at me s = Some c).

Lemma nice_or_stop inc : - INT_MAX - 1 <= inc <= INT_MAX ->
  stops (Nice inc) s \/ exists s', run_op (Nice inc) s = Ret tt s' /\ tasks_ok P s'.
Proof.
  intros Hi. destruct (decide (INT_MAX < priority (t_run c) + inc)) as [Ho|Ho].
  - left. split; [|by exists me, c]. cbn [run_op]. unfold void, status, bind, sys_nice.
    rewrite (get_curr_run s me), (get_task_run s me c) by done.
    destruct (sk_placed _ (so_sched _ Hok)) as [Q Hp]. pose proof (pl_prio _ _ _ Hp me c Ec) as Hpr. unfold TASK_PRIO_LOW, INT_MAX in *.
    rewrite (proj2 (Z.ltb_ge inc 0)) by lia. cbn [andb]. by rewrite (proj2 (Z.ltb_lt _ _)) by lia.
  - right. apply void_run. eapply wp_weak; [apply (sys_nice_sys s me c inc Hok Hcu Ec); lia|done|by intros ? ? ->].
Qed.
Lemma signal_or_stop sig h :
  stops (SigHandler sig h) s \/ exists s', run_op (SigHandler sig h) s = Ret tt s' /\ tasks_ok P s'.
Proof.
  destruct (decide (sig = 0)) as [->|Hs]; [by left|right]. apply void_run.
  eapply wp_weak; [apply (sys_signal_sys s me sig h Hok Hcu Hs)|intros ? ?; apply stays_ok|by intros ? ? ->].
Qed.
Lemma exit_or_stop st : stops (Exit st) s \/ exists s', run_op (Exit st) s = Ret tt s' /\ tasks_ok P s'.
Proof.
  destruct (decide (me = init s)) as [->|Hne].
  - left. split; [|done]. by apply (task_exit_init (P := P) s c).
  - right. destruct (task_exit_sys s me st Hok Hcu Hne) as (s' & c' & E & Hs & _). eauto.
Qed.
Lemma deliver_or_stop rip : stops (Deliver rip) s \/ exists s', run_op (Deliver rip) s = Ret tt s' /\ tasks_ok P s'.
Proof.
  pose proof (signal_handle_run rip s me c Hok Hcu Ec) as Hw. unfold wph in Hw. cbn [stops run_op]. unfold void, status, bind.
  destruct (signal_handle rip s) as [g s'|e s'|h]; [|done|]; [right; destruct Hw; eauto|]. destruct Hw as [-> ->]. by left.
Qed.
End stop.

(** ** One operation *)

(** The operations that act for the current task and go on. *)
Lemma call_ok (P : Prop) op s me c :
  sys_wf P s -> curr s = Some me -> task_at me s = Some c -> enabled op s = true -> (P -> good_op op) ->
  match op with
  | Suspend _ _ | Creat _ _ | Fork | XWait _ _ | EvtSignal _ _ | EvtCount | EvtWait
  | Exec _ _ | DoExec | AlarmCall _ | UAlarm _ _ | SetTime _ => exists s', run_op op s = Ret tt s' /\ tasks_ok P s'
  | _ => True
  end.
Proof.
  intros (Hok & He & Hq) Hcu Ec Hen Hg. pose proof (proj1 (proj1 (He me c Ec))) as Hev.
  destruct op; try done; cbn [enabled run_op good_op] in *; apply void_run;
    repeat match goal with H : _ && _ = true |- _ => apply andb_true_iff in H as [H ?] end.
  - eapply wp_weak; [eapply (task_suspend_sys s q type me c Hok Hcu Ec)|naive_solver..].
    + destruct q as [q|]; [|done]. cbn. match goal with H : _ && _ = true |- _ => apply andb_true_iff in H as [?%Nat.leb_le ?%Nat.ltb_lt] end. lia.
    + match goal with H : _ || _ = true |- _ => apply orb_true_iff in H as [->%Z.eqb_eq| ->%Z.eqb_eq] end; auto.
  - eapply wp_weak; [apply (task_creat_sys s me name arg Hok Hcu)|naive_solver..].
  - eapply wp_weak; [apply (do_fork_sys s me Hok Hcu)|naive_solver..].
  - by apply (xwait_sys (P := P) s me).
  - eapply wp_weak; [apply (sys_evt_signal_sys s me sig h Hok Hcu)|intros ? ?; apply stays_ok|by intros ? ? ->].
  - eapply wp_weak; [apply (sys_evt_count_sys s me Hok Hcu)|intros ? ?; apply stays_ok|done].
  - by apply (evt_wait_sys (P := P) s me c).
  - eapply wp_weak; [apply (task_exec_sys s me name arg Hok Hcu)|intros ? ?; apply stays_ok|by intros ? ? ->].
  - by apply (do_exec_sys (P := P) s me).
  - eapply wp_weak; [apply (sys_alarm_tasks P s me delay Hok Hcu)|done|done]. lia.
  - eapply wp_weak; [apply (sys_ualarm_tasks P s me u_delay rep Hok Hcu)|done|done]. lia.
  - by apply settimeofday_tasks.
Qed.

Lemma run_op_ok (P : Prop) op s :
  sys_wf P s -> enabled op s = true -> (P -> good_op op) -> stops op s \/ exists s', run_op op s = Ret tt s' /\ tasks_ok P s'.
Proof.
  intros Hwf Hen Hg. pose proof Hwf as (Hok & He & Hq).
  assert (is_some (curr s) = true -> exists me c, curr s = Some me /\ task_at me s = Some c) as Hcall.
  { intros [me E]%is_some_true. destruct (sys_curr s me Hok E) as (c & Ec & _). eauto. }
  pose proof (fun me c E Ec => call_ok P op s me c Hwf E Ec Hen Hg) as Hco.
  destruct op; cbn [enabled] in *; repeat (apply andb_true_iff in Hen as [Hen ?]);
    try (destruct (Hcall Hen) as (me & c & E & Ec); specialize (Hco me c E Ec)); try (by right).
  - right. destruct (sched_sys s me Hok E) as (s' & E' & Hs & _). eauto.
  - right. destruct (curr s) eqn:E; [done|]. cbn [run_op]. rewrite gets_bind. destruct (idle s) as [p|]; [|eauto].
    destruct (sched_pick_sys s p Hok E) as (s' & E' & Hs & _). eauto.
  - right. destruct (task_at t s) as [c|] eqn:Ec; [|done]. apply negb_true_iff in Hen.
    destruct (task_resume_sys s t c Hok Ec Hen) as (s' & E' & Hs & _). eauto.
  - apply (nice_or_stop P s me c Hok E Ec). lia.
  - by apply (exit_or_stop P s me c).
  - right. apply is_some_true in H0 as [d Ed]. apply void_run.
    eapply wp_weak; [apply (signal_send_sys s me t sig d Hok E Ed)|naive_solver..].
  - right. apply is_some_true in Hen as [d Ed]. apply void_run. eapply wp_weak; [apply (send_k_sys s t sig d Hok Ed)|naive_solver..].
  - right. apply is_some_true in Hen as [d Ed]. apply void_run. eapply wp_weak; [apply (signal_fatal_sys s t sig d Hok Ed)|naive_solver..].
  - by apply (signal_or_stop P s me).
  - by apply (deliver_or_stop P s me c).
  - right. apply is_some_true in Hen as [d Ed]. apply void_run. eapply wp_weak; [apply (send_event_sys s t e d Hok Ed)|naive_solver..].
  - right. by apply clock_intr_sys.
Qed.

Lemma run_op_wf (P : Prop) op s s' :
  sys_wf P s -> enabled op s = true -> (P -> good_op op) -> run_op op s = Ret tt s' -> sys_wf P s'.
Proof.
  intros Hwf Hen Hg E. destruct (run_op_ok P op s Hwf Hen Hg) as [Hst|(s1 & E1 & Hok1)].
  - exfalso. destruct op; try done; destruct Hst as [Hst _]; congruence.
  - assert (s1 = s') as -> by congruence. destruct Hwf as (_ & He & Hq). split; [done|]. exact (kept_run _ s s' (run_op_kept op) E He Hq).
Qed.
Lemma reach_wf (P : Prop) ops s s' : runs ops s s' -> (P -> Forall good_op ops) -> sys_wf P s -> sys_wf P s'.
Proof.
  induction 1 as [s|op l s s1 s2 Hen E _ IH]; [done|]. intros Hg Hwf.
  assert (P -> good_op op /\ Forall good_op l) as Hg' by (intros HP; by apply Forall_cons, Hg).
  apply IH; [by intros [_ ?]%Hg'|]. apply (run_op_wf P op s); try done. by intros [? _]%Hg'.
Qed.

(** A history, when every operation of it is enabled. *)
Fixpoint run_ops (ops : list sys_op) s : option (sys X) :=
  match ops with
  | [] => Some s
  | op :: l => if enabled op s then match run_op op s with Ret _ s' => run_ops l s' | _ => None end else None
  end.
Lemma run_ops_reach ops s s' : run_ops ops s = Some s' -> runs ops s s'.
Proof.
  revert s. induction ops as [|op l IH]; intros s; cbn [run_ops]; [intros [= <-]; constructor|].
  destruct (enabled op s) eqn:Hen; [|done]. destruct (run_op op s) as [[] s1|e s1|h] eqn:E; [|done..].
  intros Hr. by econstructor; [..|apply IH].
Qed.

(** ** The first task *)

Definition boot_task : task :=
  set_sig (init_signals (t_sig task0)) (set_pid 1 (set_parent (Some 0%nat) (set_ev (Events (replicate 256 event0) 0 0 0 0 (-1)) (set_priority TASK_PRIO_USER task0)))).
Definition booted (n : nat) (x : X) : sys X :=
  Sys (Some boot_task :: replicate 63 None) (replicate (NREADY + n) (TaskQueue None None)) (Some 0%nat) None 0%nat 0 1
    false 0 0 1 1 0 0 0 (0, 0) 0 0 x.

Lemma task_init_eq n x :
  task_init (boot_state n x) =
    let '(e0, x0) := pg_adget None x in
    if e0 =? 0 then
      let '(e1, x1) := pg_atmem_slot 0 None x0 in
      if e1 =? 0 then
        let '(e2, x2) := pg_newdir 0 (Some 0%nat) x1 in
        if e2 =? 0 then Ret tt (booted n x2) else panic "task_init: pg_newdir failed" (boot_state n x)
      else panic "task_init: getslot failed" (boot_state n x)
    else panic "task_init: pg_adget failed" (boot_state n x).
Proof.
  unfold task_init, task_getslot. generalize (@pg_adget X H) (@pg_atmem_slot X H) (@pg_newdir X H). intros h f g. vm_compute.
  destruct (h None x) as [[| |] x0]; [|done..]. destruct (f 0%nat None x0) as [[| |] x1]; [|done..].
  by destruct (g 0%nat (Some 0%nat) x1) as [[| |] x2].
Qed.
Lemma task_init_run n x s : task_init (boot_state n x) = Ret tt s -> exists x', s = booted n x'.
Proof.
  rewrite task_init_eq. destruct (pg_adget None x) as [e0 x0]. destruct (e0 =? 0); [|done].
  destruct (pg_atmem_slot 0 None x0) as [e1 x1]. destruct (e1 =? 0); [|done].
  destruct (pg_newdir 0 (Some 0%nat) x1) as [e2 x2]. destruct (e2 =? 0); [|done]. intros [= <-]. eauto.
Qed.

Lemma booted_task n x t c : task_at t (booted n x) = Some c -> t = 0%nat /\ c = boot_task.
Proof.
  unfold task_at, booted. cbn [tasks]. destruct t as [|t]; [by intros [= <-]|]. rewrite lookup_cons_ne_0 by done.
  cbn [Nat.pred]. intros E. destruct (replicate 63 None !! t) as [o|] eqn:Eo; [|done].
  apply lookup_replicate in Eo as [-> _]. done.
Qed.
Lemma booted_queues n x : queues (booted n x) = replicate (NREADY + n) (TaskQueue None None).
Proof. reflexivity. Qed.
Lemma booted_placed n x : placed (booted n x) (replicate (NREADY + n) []) [0%nat].
Proof.
  split.
  - split.
    + by rewrite booted_queues, !length_replicate.
    + intros q l [-> Hl]%lookup_replicate. rewrite booted_queues. by apply lookup_replicate.
    + intros q l [-> _]%lookup_replicate. split; [done|constructor].
    + intros t k. unfold lk. destruct (task_at t (booted n x)) as [c|] eqn:E; [|done]. apply booted_task in E as [-> ->].
      by intros [= <-].
  - done.
  - rewrite booted_queues, length_replicate. lia.
  - intros t ->%list_elem_of_singleton. done.
  - by intros t c [-> ->]%booted_task.
  - by intros t c [-> ->]%booted_task.
  - by intros t c q [-> ->]%booted_task.
  - intros t c [-> ->]%booted_task Hn. by destruct Hn; left.
Qed.
Lemma booted_wf n x : (2 <= n)%nat -> sys_wf True (booted n x).
Proof.
  intros Hn. split; [split|split].
  - split; [exists (replicate (NREADY + n) []); apply booted_placed|done| |done].
    intros me [= <-]. by exists boot_task.
  - split; [by exists boot_task|]. intros t c [-> ->]%booted_task. by exists 0%nat, boot_task.
  - by intros t c [-> ->]%booted_task.
  - split; [done|]. intros t u c d [-> ->]%booted_task [-> ->]%booted_task. done.
  - split; [done|]. intros t c [-> ->]%booted_task. done.
  - intros t c [-> ->]%booted_task. split; [done|]. intros _. split_and!; [done..|by left].
  - rewrite booted_queues, length_replicate. unfold EVTQ, NREADY. lia.
Qed.

(** A state reached from [task_init] by [ops]. *)
Lemma booted_reach n x s0 ops s :
  (2 <= n)%nat -> task_init (boot_state n x) = Ret tt s0 -> runs ops s0 s -> sys_wf (Forall good_op ops) s.
Proof.
  intros Hn Hi Hr. destruct (task_init_run n x s0 Hi) as [x' ->]. apply (reach_wf _ ops _ _ Hr); [done|].
  destruct (booted_wf n x' Hn) as [Hok Hwf]. split; [|done]. by apply (tasks_weaken True).
Qed.


(** C40. In every history the fields that index arrays stay in bounds: a task is
    one of [TASK_MAX] and so is its parent, its priority names a ready queue and
    its queue a queue there is, its arrays of signals and of events have their
    size, [first_event] and [last_event], -1 before the first event, are places
    of the latter, and [last_event] is where the number of events says, or one
    place behind after [do_fork]. *)
Theorem task_fields_bounded n x s0 ops s t c :
  (2 <= n)%nat -> task_init (boot_state n x) = Ret tt s0 -> runs ops s0 s -> task_at t s = Some c ->
  (t < TASK_MAX)%nat /\ (forall p, parent c = Some p -> (p < TASK_MAX)%nat) /\
  0 <= priority (t_run c) <= TASK_PRIO_LOW /\ (forall q, queue (t_links c) = Some q -> (q < length (queues s))%nat) /\
  length (signal_received (t_sig c)) = 33%nat /\ length (signal_handler (t_sig c)) = 33%nat /\
  length (event_ (t_ev c)) = Z.to_nat EVT_MAX /\ 0 <= first_event (t_ev c) < EVT_MAX /\ -1 <= last_event (t_ev c) < EVT_MAX /\
  0 <= event_count (t_ev c) <= EVT_MAX /\ (in_step (t_ev c) \/ behind (t_ev c)).
Proof.
  intros Hn Hi Hr Ec. destruct (booted_reach n x s0 ops s Hn Hi Hr) as (Hok & Hb & _).
  destruct (Hb t c Ec) as [[[He Hf] (Hs1 & Hs2 & _)] Hri]. destruct (Hri I) as (Hcn & Hla & Hst).
  destruct (sk_placed _ (so_sched _ Hok)) as [Q Hp].
  assert (forall u e, task_at u s = Some e -> (u < TASK_MAX)%nat) as Hlt.
  { intros u e Ee. rewrite <- (pl_len _ _ _ Hp). by eapply lookup_lt_Some, task_at_lookup. }
  split; [by eapply Hlt|]. split.
  { intros p E. destruct (fo_parent _ (so_family _ Hok) t c Ec) as (p' & d & Ep & Ed & _). assert (p' = p) as -> by congruence. by eapply Hlt. }
  split; [by apply (pl_prio _ _ _ Hp t)|]. split; [|split_and!; (done || lia)].
  intros q Eq. assert (lk s t = Some (t_links c)) as El by (unfold lk; by rewrite Ec).
  apply (queued_member _ _ _ _ _ _ (pl_queued _ _ _ Hp) El) in Eq as (l & Hl & _). apply lookup_lt_Some in Hl.
  by rewrite (qd_len _ _ _ (pl_queued _ _ _ Hp)) in Hl.
Qed.

(** ** The scheduler *)

Lemma member_task s Q Hs q t : placed s Q Hs -> member Q q t -> exists c, task_at t s = Some c /\ queue (t_links c) = Some q.
Proof.
  intros Hp Hm. destruct Hm as (l & Hl & Ht). destruct (qd_seg _ _ _ (pl_queued _ _ _ Hp) q l Hl) as [Hd _].
  destruct (dseg_mem _ _ _ _ _ _ Hd Ht) as (k & Ek & Eq). unfold lk in Ek. destruct (task_at t s) as [c|]; [|done]. exists c.
  split; [done|]. cbn in Ek. congruence.
Qed.
Lemma zcount_lt {A} (p q : A -> bool) l i x :
  (forall y, y ∈ l -> p y = true -> q y = true) -> l !! i = Some x -> p x = false -> q x = true -> zcount p l < zcount q l.
Proof.
  revert i. induction l as [|y l IH]; intros i Hle Hi Hp Hq; [done|]. cbn.
  assert (forall l, (forall y, y ∈ l -> p y = true -> q y = true) -> zcount p l <= zcount q l) as Hmono.
  { clear. induction l as [|y l IH]; intros Hl; cbn; [lia|]. specialize (Hl y (list_elem_of_here _ _)) as Hy.
    specialize (IH ltac:(intros z Hz; apply Hl; by right)). destruct (p y), (q y); cbn; try lia; by specialize (Hy eq_refl). }
  destruct i as [|i]; simplify_eq/=.
  - rewrite Hp, Hq. cbn. specialize (Hmono l ltac:(intros z Hz; apply Hle; by right)). lia.
  - specialize (IH i ltac:(intros z Hz; apply Hle; by right) Hi Hp Hq). specialize (Hle y (list_elem_of_here _ _)).
    destruct (p y), (q y); cbn; try lia; by specialize (Hle eq_refl).
Qed.
Lemma runnable_counts s Q Hs u d :
  placed s Q Hs -> counted s -> task_at u s = Some d -> runnable d = true -> task_pcount s < task_count s.
Proof.
  intros Hp [-> ->] Ed [Hx Hz]%andb_true_iff. pose proof (task_at_lookup _ _ _ Ed) as El. apply (zcount_lt _ _ _ u (Some d)); [|done|cbn; by rewrite Hz|done].
  intros o [t Et]%list_elem_of_lookup. destruct o as [c|]; [|done]. cbn. intros Ha. destruct (exited (t_run c)) eqn:Hex; [|done].
  assert (task_at t s = Some c) as Ec by (unfold task_at; by rewrite Et). destruct (pl_exit _ _ _ Hp t c Ec Hex) as [E _].
  by rewrite E in Ha.
Qed.


(** C31. The delivery of signals on the way to user mode ends, whatever handlers
    the task has set and whatever its stack does: the task goes on running with
    no signal pending, or it has exited of one of the signals that end a task,
    with that signal as its status (and 128 added when there is a core file), and
    runs no more; when the task is [init] the kernel stops instead of the exit. *)
Theorem signal_handle_ends (P : Prop) rip s me c :
  tasks_ok P s -> curr s = Some me -> task_at me s = Some c ->
  (exists s', signal_handle rip s = Ret false s' /\ tasks_ok P s' /\ curr s' = Some me /\
     exists c', task_at me s' = Some c' /\ signal_pending (t_sig c') = false) \/
  (me <> init s /\ exists s' c' i, signal_handle rip s = Ret true s' /\ tasks_ok P s' /\ curr s' <> Some me /\
     task_at me s' = Some c' /\ 1 <= i <= SIGMAX /\ died_of i c') \/
  (me = init s /\ signal_handle rip s = Halt (KPanic "init exited")).
Proof.
  intros Hok Hcu Ec. pose proof (signal_handle_run rip s me c Hok Hcu Ec) as Hw. unfold wph, handled, killed in Hw.
  destruct (signal_handle rip s) as [gone s'|e s'|h] eqn:E; [|done|]; [|right; right; by destruct Hw as [-> ->]].
  destruct Hw as (Hok' & Hi & Hg). destruct gone; [|left; naive_solver]. destruct Hg as (Hcu' & c' & i & Ec' & Hi' & Hd).
  right. left. split; [|by exists s', c', i]. intros ->. destruct (fo_init _ (so_family _ Hok')) as (c0 & E0 & X0). rewrite Hi in E0.
  destruct Hd as (_ & Hx & _). congruence.
Qed.


(** [newpid] ends and gives a number no task has, also when the numbers have
    wrapped around. *)
Theorem newpid_fresh s :
  sys_ok s -> exists l, newpid s = Ret l (with_pid l s) /\ 0 <= l <= PID_MAX /\ forall t c, task_at t s = Some c -> pid c <> l.
Proof.
  intros Hok. destruct (newpid_ok s) as (l & E & Hf & Hl); [|apply (so_pids _ Hok)|eauto].
  destruct (sk_placed _ (so_sched _ Hok)) as [Q Hp]. by rewrite (pl_len _ _ _ Hp).
Qed.

End history.
