(* ===== verification/TaskEvents.v ===== *)
(** The queue of events of a task is a bounded first-in first-out queue
    (kern/event.c, sys__evt_wait of kern/syscall.c).

    [pending_events] reads the ring buffer as a list.  [evt_step] is the queue
    that [send_event] and [sys__evt_wait] promise: a full queue refuses an event;
    an event that cannot be copied to the caller stays the first one.  A task
    that [do_fork] made has [last_event] one place too far until it runs a new
    program; [late_step] is what its queue does instead. *)

From S2P Require Import Prelude Frame Tasks TaskSys TaskQueueOk TaskOk TaskSched TaskInv TaskLife TaskSysOk TaskClock TaskKept TaskProps.

(** * The ring buffer as a list *)

Definition slot (v : events) (i : Z) : event := default event0 (event_ v !! Z.to_nat ((first_event v + i) mod EVT_MAX)).
Definition pending_events (v : events) : list event := slot v <$> seqZ 0 (event_count v).
Definition counted_wf (v : events) : Prop := events_wf v /\ 0 <= event_count v <= EVT_MAX.
(** The event at the place [last_event] of a ring that is [behind]. *)
Definition newest (v : events) : event := slot v (event_count v).

(** A pointer motion is marked when another one follows. *)
Definition motion (e : event) : bool := e_sig e =? WIN_E_PTR_MOVE.
Definition mark (e : event) (l : list event) : event :=
  if (e_type e =? E_WINGUI) && motion e && existsb motion l then set_more e else e.

Definition pushed (v : events) (e : event) : events :=
  let cnt := event_count v + 1 in
  let i := (last_event v + 1) mod EVT_MAX in
  Events (<[Z.to_nat i := e]> (event_ v)) (unseen_events v + 1) cnt
    (if event_high v <? cnt then cnt else event_high v) (first_event v) i.
Definition with_head (v : events) (e : event) : events :=
  Events (<[Z.to_nat (first_event v) := e]> (event_ v)) (unseen_events v) (event_count v) (event_high v) (first_event v) (last_event v).
Definition popped (v : events) : events :=
  Events (event_ v) 0 (event_count v - 1) (event_high v) ((first_event v + 1) mod EVT_MAX) (last_event v).

Lemma length_pending v : 0 <= event_count v -> Z.of_nat (length (pending_events v)) = event_count v.
Proof. intros Hc. unfold pending_events. rewrite length_fmap, length_seqZ. lia. Qed.

Lemma ring_index a i j : 0 <= i < EVT_MAX -> 0 <= j < EVT_MAX -> (a + i) mod EVT_MAX = (a + j) mod EVT_MAX -> i = j.
Proof.
  intros Hi Hj E. assert ((i - j) mod EVT_MAX = 0) as Hz.
  { replace (i - j) with ((a + i) - (a + j)) by lia. rewrite Zminus_mod, E, Z.sub_diag. done. }
  unfold EVT_MAX in *. apply Z.mod_divide in Hz as [k Hk]; lia.
Qed.
Lemma slot_insert v i j e w :
  events_wf v -> 0 <= i < EVT_MAX -> 0 <= j < EVT_MAX -> first_event w = first_event v ->
  event_ w = <[Z.to_nat ((first_event v + j) mod EVT_MAX) := e]> (event_ v) -> slot w i = if decide (i = j) then e else slot v i.
Proof.
  intros [Hl Hf] Hi Hj Ef Ew. unfold slot. rewrite Ef, Ew. pose proof (Z.mod_pos_bound (first_event v + j) EVT_MAX ltac:(done)) as Hb.
  case_decide as Hij.
  - subst. rewrite list_lookup_insert_eq; [done|]. rewrite Hl. lia.
  - rewrite list_lookup_insert_ne; [done|]. pose proof (Z.mod_pos_bound (first_event v + i) EVT_MAX ltac:(done)). intros E.
    apply Hij, (ring_index (first_event v)); [done|done|]. lia.
Qed.

Lemma step_not_behind v : in_step v -> ~ behind v.
Proof.
  unfold in_step, behind. intros Hs Hb. rewrite <- Hb in Hs. pose proof (Z.mod_pos_bound (first_event v + event_count v) EVT_MAX ltac:(done)) as Hm.
  rewrite <- Hb in Hm. unfold EVT_MAX in *. pose proof (Z.div_mod (last_event v + 1) 256 ltac:(done)). lia.
Qed.
Lemma pushed_wf v e : counted_wf v -> event_count v < EVT_MAX -> counted_wf (pushed v e).
Proof. intros [[Hl Hf] Hc] Hlt. split; [split; [cbn; by rewrite length_insert|done]|cbn; lia]. Qed.
Lemma pushed_ok v e : counted_wf v -> in_step v -> event_count v < EVT_MAX ->
  in_step (pushed v e) /\ pending_events (pushed v e) = pending_events v ++ [e].
Proof.
  intros [Hwf Hc] Hl Hlt. unfold in_step in *. split.
  - cbn. rewrite Hl. rewrite Zplus_mod_idemp_l. f_equal. lia.
  - unfold pending_events. cbn [event_count pushed].
    rewrite seqZ_app, fmap_app by lia. change (seqZ (0 + event_count v) 1) with [Z.of_nat 0 + (0 + event_count v)]. f_equal.
    + apply list_fmap_ext. intros k i Hk. apply lookup_seqZ in Hk as [-> Hk].
      rewrite (slot_insert v (0 + Z.of_nat k) (event_count v) e (pushed v e)); [|done|lia|lia|done|cbn; by rewrite Hl].
      rewrite decide_False; [done|lia].
    + cbn [fmap list_fmap]. f_equal. rewrite (slot_insert v (Z.of_nat 0 + (0 + event_count v)) (event_count v) e (pushed v e)); [|done|lia|lia|done|cbn; by rewrite Hl].
      rewrite decide_True; [done|lia].
Qed.
Lemma pending_cons v : 0 < event_count v -> pending_events v = slot v 0 :: (slot v <$> seqZ 1 (event_count v - 1)).
Proof. intros Hc. unfold pending_events. rewrite seqZ_cons by lia. cbn. done. Qed.
Lemma pending_snoc v : 0 <= event_count v -> slot v <$> seqZ 0 (event_count v + 1) = pending_events v ++ [newest v].
Proof.
  intros Hc. unfold pending_events, newest. rewrite seqZ_app, fmap_app by lia. f_equal.
Qed.
Lemma mod_wrap a : (a + EVT_MAX) mod EVT_MAX = a mod EVT_MAX.
Proof. by rewrite <- (Z_mod_plus_full a 1 EVT_MAX). Qed.
Lemma slot_wrap v i : slot v (i + EVT_MAX) = slot v i.
Proof. unfold slot. by rewrite Z.add_assoc, mod_wrap. Qed.

(** An event sent to a task whose ring is behind: the event sent before it comes
    into view, and the last of [EVT_MAX] events takes the place of the first one. *)
Lemma pushed_late v e : counted_wf v -> behind v -> event_count v < EVT_MAX ->
  behind (pushed v e) /\ newest (pushed v e) = e /\
  pending_events (pushed v e) =
    if decide (event_count v = EVT_MAX - 1) then e :: tail (pending_events v ++ [newest v]) else pending_events v ++ [newest v].
Proof.
  intros [Hwf Hc] Hl Hlt. unfold behind in *.
  assert ((last_event v + 1) mod EVT_MAX = (first_event v + (event_count v + 1)) mod EVT_MAX) as Hp.
  { rewrite Hl, Zplus_mod_idemp_l. f_equal. lia. }
  assert (forall j, 0 <= j < EVT_MAX -> (first_event v + (event_count v + 1)) mod EVT_MAX = (first_event v + j) mod EVT_MAX ->
    forall i, 0 <= i < EVT_MAX -> slot (pushed v e) i = if decide (i = j) then e else slot v i) as Hs.
  { intros j Hj Ej i Hi. apply slot_insert; try done. cbn. by rewrite Hp, Ej. }
  split; [cbn; rewrite Hp; done|]. unfold newest at 1, pending_events at 1. cbn [event_count pushed]. case_decide as Hn.
  - rewrite Hn in Hs. pose proof (Hs 0 ltac:(done)) as Hs0. replace (EVT_MAX - 1 + 1) with EVT_MAX in Hs0 by lia.
    rewrite Z.add_0_r, mod_wrap in Hs0. specialize (Hs0 eq_refl).
    split.
    + rewrite Hn. replace (EVT_MAX - 1 + 1) with (0 + EVT_MAX) by lia. rewrite slot_wrap, Hs0 by done. done.
    + rewrite <- pending_snoc by lia. rewrite seqZ_cons by lia. cbn [fmap list_fmap tail]. rewrite Hs0 by done. cbn [decide].
      rewrite decide_True by done. f_equal. apply list_fmap_ext. intros k i Hk. apply lookup_seqZ in Hk as [-> Hk]. rewrite Hs0 by lia.
      by rewrite decide_False by lia.
  - specialize (Hs (event_count v + 1) ltac:(lia) eq_refl). split; [by rewrite Hs, decide_True by lia|].
    rewrite <- pending_snoc by lia. apply list_fmap_ext. intros k i Hk. apply lookup_seqZ in Hk as [-> Hk]. rewrite Hs by lia.
    by rewrite decide_False by lia.
Qed.

Lemma popped_wf v : counted_wf v -> 0 < event_count v -> counted_wf (popped v).
Proof. intros [[Hl Hf] Hc] Hp. split; [split; [done|cbn; by apply Z.mod_pos_bound]|cbn; lia]. Qed.
Lemma popped_next v : (first_event (popped v) + event_count (popped v)) mod EVT_MAX = (first_event v + event_count v) mod EVT_MAX.
Proof. cbn. rewrite Zplus_mod_idemp_l. f_equal. lia. Qed.
Lemma popped_ok v : counted_wf v -> 0 < event_count v -> slot v 0 :: pending_events (popped v) = pending_events v /\ newest (popped v) = newest v.
Proof.
  intros [Hwf Hc] Hp. split.
  - rewrite (pending_cons v) by done. f_equal. unfold pending_events. cbn [event_count popped]. rewrite <- (fmap_add_seqZ 1 0), <- list_fmap_compose.
    apply list_fmap_ext. intros k i Hk. unfold slot. cbn [popped first_event event_ compose]. rewrite Zplus_mod_idemp_l. do 4 f_equal. cbn. lia.
  - unfold newest, slot. by rewrite popped_next.
Qed.
Lemma with_head_wf v e : counted_wf v -> counted_wf (with_head v e).
Proof. intros [[Hl Hf] Hc]. split; [split; [cbn; by rewrite length_insert|done]|done]. Qed.
Lemma with_head_ok v e : counted_wf v -> 0 < event_count v ->
  pending_events (with_head v e) = e :: (slot v <$> seqZ 1 (event_count v - 1)) /\
  newest (with_head v e) = if decide (event_count v = EVT_MAX) then e else newest v.
Proof.
  intros [Hwf Hc] Hp. pose proof Hwf as [Hlen Hf].
  assert (forall i, 0 <= i < EVT_MAX -> slot (with_head v e) i = if decide (i = 0) then e else slot v i) as Hs.
  { intros i Hi. apply slot_insert; [done|done|done|done|]. cbn [event_ with_head]. by rewrite Z.add_0_r, Z.mod_small. }
  split.
  - rewrite (pending_cons (with_head v e)) by done. cbn [event_count with_head].
    rewrite Hs by done. cbn. f_equal. apply list_fmap_ext. intros k i Hk. apply lookup_seqZ in Hk as [-> Hk].
    rewrite Hs by lia. rewrite decide_False; [done|lia].
  - unfold newest. cbn [event_count with_head]. case_decide as Hn.
    + rewrite Hn. change EVT_MAX with (0 + EVT_MAX). rewrite slot_wrap, Hs by done. done.
    + rewrite Hs by lia. by rewrite decide_False by lia.
Qed.
Lemma more_motion_ok v n i : events_wf v -> 0 <= i ->
  more_motion n ((first_event v + i) mod EVT_MAX) (event_ v) = existsb motion (slot v <$> seqZ i (Z.of_nat n)).
Proof.
  intros [Hl _]. revert i. induction n as [|n IH]; intros i Hi; [done|]. cbn [more_motion]. rewrite seqZ_cons by lia. cbn [fmap list_fmap existsb].
  pose proof (Z.mod_pos_bound (first_event v + i) EVT_MAX ltac:(done)).
  destruct (lookup_lt_is_Some_2 (event_ v) (Z.to_nat ((first_event v + i) mod EVT_MAX))) as [e He]; [rewrite Hl; lia|].
  rewrite He. unfold slot at 1. rewrite He. cbn [default]. f_equal.
  rewrite Zplus_mod_idemp_l, <- Z.add_assoc, IH by lia. do 3 f_equal; lia.
Qed.

(** * The operations *)

(** Signals do not touch the events of any task. *)
Section same_on.
Context {X : Type} `{TaskEnv X} {B : Type} (g : task -> B).
Implicit Types s : sys X.

Definition same_on s s' : Prop := forall t, g <$> task_at t s' = g <$> task_at t s.
#[export] Instance same_on_preorder : PreOrder same_on.
Proof. split; [by intros s t|]. intros s1 s2 s3 H1 H2 t. by rewrite H2, H1. Qed.
Lemma same_on_upd t f : (forall c, g (f c) = g c) -> keeps same_on (upd_task (X := X) t f).
Proof. intros Hf s u. rewrite task_at_upd. case_decide; [subst|done]. destruct (task_at t s); [|done]. cbn. by rewrite Hf. Qed.
Lemma same_on_modify (h : sys X -> sys X) : (forall s, tasks (h s) = tasks s) -> keeps same_on (modify h).
Proof. intros Ht s t. unfold task_at. by rewrite Ht. Qed.
Lemma same_on_put q v : keeps same_on (put_queue (X := X) q v).
Proof. by apply same_on_modify. Qed.
Lemma same_on_task s s' t c : same_on s s' -> task_at t s = Some c -> exists c', task_at t s' = Some c' /\ g c' = g c.
Proof. intros Hs E. specialize (Hs t). rewrite E in Hs. destruct (task_at t s') as [c'|]; [|done]. exists c'. split; [done|]. by injection Hs. Qed.
End same_on.

#[local] Hint Resolve keeps_get_task keeps_get_queue keeps_get_curr same_on_put : keeps.
#[local] Hint Extern 1 (keeps (same_on _) (upd_task _ _)) => (apply same_on_upd; done) : keeps.
#[local] Hint Extern 1 (keeps (same_on _) (modify _)) => (apply same_on_modify; done) : keeps.
#[local] Hint Extern 1 (keeps (same_on _) (panic _)) => done : keeps.

Section ops.
Context {X : Type} `{TaskEnv X} {P : Prop}.
Implicit Types s : sys X.

Lemma task_resume_events t : keeps (same_on (X := X) t_ev) (task_resume t).
Proof. unfold task_resume, task_insert, task_remove. keeps. Qed.
#[local] Hint Resolve task_resume_events : keeps.
Lemma signal_send_k_events p sig : keeps (same_on (X := X) t_ev) (signal_send_k p sig).
Proof. unfold signal_send_k. keeps. Qed.

Lemma upd_ring s t c v : tasks_ok P s -> task_at t s = Some c ->
  tasks_ok P (task_upd t (set_ev v) s) /\ task_at t (task_upd t (set_ev v) s) = Some (set_ev v c) /\ curr (task_upd t (set_ev v) s) = curr s.
Proof.
  intros Hok Ec. destruct (minor_sys (P := P) s t (set_ev v)) as [Hok1 St1]; [done|by split|done|].
  split_and!; [done|by apply task_at_upd_eq|by destruct St1 as (_ & ? & _)].
Qed.

Lemma send_event_full s t e c : task_at t s = Some c -> EVT_MAX <= event_count (t_ev c) -> send_event t e s = Err EAGAIN s.
Proof. intros Ec Hc. unfold send_event. rewrite (get_task_run s t c) by done. by rewrite (proj2 (Z.leb_le _ _)). Qed.
Lemma send_event_pushed s t e c : tasks_ok P s -> task_at t s = Some c -> event_count (t_ev c) < EVT_MAX ->
  exists s' c', send_event t e s = Ret tt s' /\ tasks_ok P s' /\ curr s' = curr s /\ task_at t s' = Some c' /\ t_ev c' = pushed (t_ev c) e.
Proof.
  intros Hok Ec Hc. unfold send_event. rewrite (get_task_run s t c) by done. rewrite (proj2 (Z.leb_gt _ _)), event_place by done.
  fold (pushed (t_ev c) e). unfold upd_task. rewrite modify_bind.
  destruct (upd_ring s t c (pushed (t_ev c) e) Hok Ec) as (Hok1 & Ec1 & Hcu1). set (s1 := task_upd t _ s) in *. clearbody s1.
  pose proof (send_k_sys s1 t SIGEVT _ Hok1 Ec1) as Hw. pose proof (signal_send_k_events t SIGEVT s1) as Hk.
  unfold wp, wlp in *. unfold bind, status. destruct (signal_send_k t SIGEVT s1) as [[] s2|err s2|h]; [..|done];
    destruct Hw as [Hok2 (_ & Hcu2 & _)]; destruct (same_on_task _ _ _ _ _ Hk Ec1) as (c' & Ec' & Ev);
    exists s2, c'; split_and!; try done; congruence.
Qed.

Lemma evt_take_run s me c : tasks_ok P s -> task_at me s = Some c -> counted_wf (t_ev c) -> 0 < event_count (t_ev c) ->
  let l := slot (t_ev c) <$> seqZ 1 (event_count (t_ev c) - 1) in
  let e := mark (slot (t_ev c) 0) l in
  wp (evt_take me)
    (fun r s' => r = e /\ tasks_ok P s' /\ curr s' = curr s /\ exists c', task_at me s' = Some c' /\ t_ev c' = popped (with_head (t_ev c) e))
    (fun _ s' => tasks_ok P s' /\ curr s' = curr s /\ exists c', task_at me s' = Some c' /\ t_ev c' = with_head (t_ev c) e) s.
Proof.
  intros Hok Ec [Hwf Hc] Hp l e. pose proof Hwf as [Hlen Hf]. unfold evt_take, wp. rewrite (get_task_run s me c) by done.
  set (v := t_ev c) in *.
  destruct (lookup_lt_is_Some_2 (event_ v) (Z.to_nat (first_event v))) as [e0 He]; [rewrite Hlen; lia|].
  rewrite He. cbn [deref]. rewrite ret_bind. assert (slot v 0 = e0) as E0.
  { unfold slot. rewrite Z.add_0_r, Z.mod_small by done. by rewrite He. }
  assert ((if (e_type e0 =? E_WINGUI) && (e_sig e0 =? WIN_E_PTR_MOVE) &&
    more_motion (Z.to_nat (event_count v - 1)) ((first_event v + 1) mod EVT_MAX) (event_ v) then set_more e0 else e0) = e) as ->.
  { rewrite more_motion_ok, Z2Nat.id by (done || lia). subst e. by rewrite E0. }
  fold (with_head v e). change (Events _ 0 _ _ _ _) with (popped (with_head v e)). unfold upd_task. rewrite modify_bind.
  destruct (upd_ring s me c (with_head v e) Hok Ec) as (Hok1 & Ec1 & Hcu1). set (s1 := task_upd me _ s) in *. clearbody s1.
  unfold bind at 1, env_call. destruct (tucpy_user (curr s1) (env s1)) as [z x]. destruct (z =? 0).
  - rewrite modify_bind. destruct (upd_ring (with_env x s1) me _ (popped (with_head v e)) (with_env_ok _ _ Hok1) Ec1) as (Hok2 & Ec2 & Hcu2).
    cbn [ret]. split; [done|]. split; [exact Hok2|]. split; [rewrite Hcu2; exact Hcu1|]. eexists. split; [exact Ec2|done].
  - split; [by apply with_env_ok|]. split; [exact Hcu1|]. eexists. split; [exact Ec1|done].
Qed.

(** * Refinement *)

(** What a task and those that send events to it may do, and the answers. *)
Inductive evt_call := Put (e : event) | Get.
Inductive evt_answer := Sent | Refused (err : Z) | Got (e : event) | Fault | Empty.

Definition evt_do (me : nat) (a : evt_call) : M (sys X) evt_answer :=
  match a with
  | Put e => r <~ attempt (send_event me e);; ret (match r with inl err => Refused err | inr _ => Sent end)
  | Get =>
    c <~ get_task me;;
    if event_count (t_ev c) =? 0 then ret Empty
    else r <~ attempt (evt_take me);; ret (match r with inl _ => Fault | inr e => Got e end)
  end.
Fixpoint evt_all (me : nat) (l : list evt_call) : M (sys X) (list evt_answer) :=
  match l with
  | [] => ret []
  | a :: l' => r <~ evt_do me a;; rs <~ evt_all me l';; ret (r :: rs)
  end.

Inductive evt_step : list event -> evt_call -> evt_answer -> list event -> Prop :=
| step_put q e : Z.of_nat (length q) < EVT_MAX -> evt_step q (Put e) Sent (q ++ [e])
| step_full q e : Z.of_nat (length q) = EVT_MAX -> evt_step q (Put e) (Refused EAGAIN) q
| step_get e q : evt_step (e :: q) Get (Got (mark e q)) q
| step_fault e q : evt_step (e :: q) Get Fault (mark e q :: q)
| step_empty : evt_step [] Get Empty [].

(** The queue of a task that was forked and has not run a new program: what is
    taken are the events in view [q]; the event sent last, [x], comes into view
    only with the next one; with [EVT_MAX] events the last one has taken the
    place of the first one. *)
Definition overlap (h : event) (q : list event) (x : event) : event :=
  if decide (Z.of_nat (length (h :: q)) = EVT_MAX) then h else x.
Inductive late_step : list event * event -> evt_call -> evt_answer -> list event * event -> Prop :=
| late_put q x e : Z.of_nat (length q) < EVT_MAX - 1 -> late_step (q, x) (Put e) Sent (q ++ [x], e)
| late_over q x e : Z.of_nat (length q) = EVT_MAX - 1 -> late_step (q, x) (Put e) Sent (e :: tail (q ++ [x]), e)
| late_full q x e : Z.of_nat (length q) = EVT_MAX -> late_step (q, x) (Put e) (Refused EAGAIN) (q, x)
| late_get h q x : late_step (h :: q, x) Get (Got (mark h q)) (q, overlap (mark h q) q x)
| late_fault h q x : late_step (h :: q, x) Get Fault (mark h q :: q, overlap (mark h q) q x)
| late_empty x : late_step ([], x) Get Empty ([], x).

Inductive steps {Q : Type} (R : Q -> evt_call -> evt_answer -> Q -> Prop) : Q -> list evt_call -> list evt_answer -> Q -> Prop :=
| steps_nil q : steps R q [] [] q
| steps_cons q a r q1 l rs q2 : R q a r q1 -> steps R q1 l rs q2 -> steps R q (a :: l) (r :: rs) q2.

(** The promise, for a ring in step or behind. *)
Definition view_of (v : events) : list event * event := (pending_events v, newest v).
Definition answers (v : events) (l : list evt_call) (rs : list evt_answer) (v' : events) : Prop :=
  in_step v /\ in_step v' /\ steps evt_step (pending_events v) l rs (pending_events v') \/
  behind v /\ behind v' /\ steps late_step (view_of v) l rs (view_of v').

(** What one call does to the ring. *)
Inductive ring_call (v : events) : evt_call -> evt_answer -> events -> Prop :=
| ring_put e : event_count v < EVT_MAX -> ring_call v (Put e) Sent (pushed v e)
| ring_full e : event_count v = EVT_MAX -> ring_call v (Put e) (Refused EAGAIN) v
| ring_get e : 0 < event_count v -> e = mark (slot v 0) (slot v <$> seqZ 1 (event_count v - 1)) ->
    ring_call v Get (Got e) (popped (with_head v e))
| ring_fault e : 0 < event_count v -> e = mark (slot v 0) (slot v <$> seqZ 1 (event_count v - 1)) ->
    ring_call v Get Fault (with_head v e)
| ring_empty : event_count v = 0 -> ring_call v Get Empty v.

Lemma evt_do_ok s me c a : tasks_ok P s -> task_at me s = Some c -> counted_wf (t_ev c) ->
  exists r s' c', evt_do me a s = Ret r s' /\ tasks_ok P s' /\ task_at me s' = Some c' /\ counted_wf (t_ev c') /\ ring_call (t_ev c) a r (t_ev c').
Proof.
  intros Hok Ec Hr. pose proof Hr as [_ Hc]. destruct a as [e|]; cbn [evt_do].
  - destruct (decide (event_count (t_ev c) < EVT_MAX)) as [Hlt|Hge].
    + destruct (send_event_pushed s me e c Hok Ec Hlt) as (s' & c' & E & Hok' & _ & Ec' & Ev). exists Sent, s', c'.
      unfold bind, attempt. rewrite E, Ev. split_and!; try done; [by apply pushed_wf|by constructor].
    + exists (Refused EAGAIN), s, c. unfold bind, attempt. rewrite (send_event_full s me e c) by (done || lia).
      split_and!; try done. constructor. lia.
  - rewrite (get_task_run s me c) by done. destruct (Z.eqb_spec (event_count (t_ev c)) 0) as [Hz|Hz].
    + exists Empty, s, c. split_and!; try done. by constructor.
    + pose proof (evt_take_run s me c Hok Ec Hr ltac:(lia)) as Hw. cbn zeta in Hw.
      unfold wp in Hw. unfold bind, attempt. destruct (evt_take me s) as [r s'|err s'|h]; [..|done].
      * destruct Hw as (-> & Hok' & _ & c' & Ec' & Ev). eexists (Got _), s', c'. rewrite Ev.
        split_and!; try done; [apply popped_wf; [by apply with_head_wf|cbn; lia]|]. by constructor; [lia|].
      * destruct Hw as (Hok' & _ & c' & Ec' & Ev). exists Fault, s', c'. rewrite Ev.
        split_and!; try done; [by apply with_head_wf|]. by constructor; [lia|].
Qed.
Lemma ring_call_step v a r v' : counted_wf v -> in_step v -> ring_call v a r v' -> in_step v' /\ evt_step (pending_events v) a r (pending_events v').
Proof.
  intros Hwf Hs Hc. pose proof (length_pending v (proj1 (proj2 Hwf))) as Hlen. destruct Hc as [e Hlt|e Hf|e Hp He|e Hp He|Hz].
  - destruct (pushed_ok v e Hwf Hs Hlt) as [? ->]. split; [done|]. constructor. lia.
  - split; [done|]. constructor. lia.
  - destruct (with_head_ok v e Hwf Hp) as [Hp1 _]. destruct (popped_ok (with_head v e)) as [Hp2 _]; [by apply with_head_wf|done|].
    rewrite Hp1 in Hp2. injection Hp2 as _ ->. rewrite pending_cons, He by done. split; [|constructor]. unfold in_step. by rewrite popped_next.
  - destruct (with_head_ok v e Hwf Hp) as [-> _]. rewrite pending_cons, He by done. split; [done|constructor].
  - split; [done|]. destruct (pending_events v); [constructor|cbn in Hlen; lia].
Qed.
Lemma newest_overlap v e : 0 < event_count v ->
  (if decide (event_count v = EVT_MAX) then e else newest v) = overlap e (slot v <$> seqZ 1 (event_count v - 1)) (newest v).
Proof. intros Hp. unfold overlap. cbn [length]. rewrite length_fmap, length_seqZ. by do 2 case_decide; [|lia|lia|]. Qed.
Lemma ring_call_late v a r v' : counted_wf v -> behind v -> ring_call v a r v' -> behind v' /\ late_step (view_of v) a r (view_of v').
Proof.
  intros Hwf Hs Hc. pose proof (length_pending v (proj1 (proj2 Hwf))) as Hlen. unfold view_of. destruct Hc as [e Hlt|e Hf|e Hp He|e Hp He|Hz].
  - destruct (pushed_late v e Hwf Hs Hlt) as (? & -> & ->). split; [done|]. case_decide; constructor; lia.
  - split; [done|]. constructor. lia.
  - destruct (with_head_ok v e Hwf Hp) as [Hp1 Hn1]. destruct (popped_ok (with_head v e)) as [Hp2 Hn2]; [by apply with_head_wf|done|].
    rewrite Hp1 in Hp2. injection Hp2 as _ ->. rewrite Hn2, Hn1, newest_overlap by done. rewrite pending_cons by done.
    split; [unfold behind; by rewrite popped_next|]. rewrite He. apply late_get.
  - destruct (with_head_ok v e Hwf Hp) as [-> ->]. rewrite newest_overlap by done. rewrite pending_cons by done. split; [done|]. rewrite He. apply late_fault.
  - split; [done|]. destruct (pending_events v); [constructor|cbn in Hlen; lia].
Qed.

Lemma evt_all_ok s me c l :
  tasks_ok P s -> task_at me s = Some c -> counted_wf (t_ev c) -> in_step (t_ev c) \/ behind (t_ev c) ->
  exists rs s' c', evt_all me l s = Ret rs s' /\ tasks_ok P s' /\ task_at me s' = Some c' /\ answers (t_ev c) l rs (t_ev c').
Proof.
  revert s c. induction l as [|a l IH]; intros s c Hok Ec Hwf Hr.
  - exists [], s, c. split_and!; try done. destruct Hr; [left|right]; split_and!; (done || constructor).
  - destruct (evt_do_ok s me c a Hok Ec Hwf) as (r & s1 & c1 & E1 & Hok1 & Ec1 & Hwf1 & Hst).
    assert (in_step (t_ev c) /\ in_step (t_ev c1) /\ evt_step (pending_events (t_ev c)) a r (pending_events (t_ev c1)) \/
      behind (t_ev c) /\ behind (t_ev c1) /\ late_step (view_of (t_ev c)) a r (view_of (t_ev c1))) as Hone.
    { destruct Hr as [Hr|Hr]; [left|right]; (split; [done|]); [by apply ring_call_step|by apply ring_call_late]. }
    destruct (IH s1 c1 Hok1 Ec1 Hwf1 ltac:(naive_solver)) as (rs & s2 & c2 & E2 & Hok2 & Ec2 & Hsts). exists (r :: rs), s2, c2.
    cbn [evt_all]. rewrite (bind_run _ _ _ _ _ E1), (bind_run _ _ _ _ _ E2). split_and!; try done.
    pose proof (step_not_behind (t_ev c1)) as Hx. destruct Hone as [(H1 & H2 & H3)|(H1 & H2 & H3)], Hsts as [(H4 & H5 & H6)|(H4 & H5 & H6)];
      [left|by destruct Hx|by destruct Hx|right]; split_and!; try done; by econstructor.
Qed.
End ops.

Section fifo.
Context {X : Type} `{TaskEnv X}.

(** C9. In every history the ring buffer of events of every task is a bounded
    queue, for any sequence of events sent to the task and calls that take one.
    When [last_event] is the place of the last event ([in_step]), every event
    comes out once, in the order it was sent, the queue refuses an event only when
    it holds [EVT_MAX] of them, an event is lost in no error path, and a pointer
    motion is marked exactly when another one is waiting behind it ([evt_step]).
    Otherwise the task was made by [do_fork] and has not run a new program since
    ([behind]): every event comes out one event too late, after whatever was in
    the buffer, and the last of [EVT_MAX] events replaces the first ([late_step]). *)
Theorem event_queue_fifo n x s0 ops (s : sys X) me c l :
  (2 <= n)%nat -> task_init (boot_state n x) = Ret tt s0 -> runs ops s0 s -> task_at me s = Some c ->
  exists rs s' c', evt_all me l s = Ret rs s' /\ tasks_ok (Forall good_op ops) s' /\ task_at me s' = Some c' /\
    answers (t_ev c) l rs (t_ev c').
Proof.
  intros Hn Hi Hr Ec. destruct (booted_reach n x s0 ops s Hn Hi Hr) as (Hok & Hb & _). destruct (Hb me c Ec) as [[Hev _] Hri].
  destruct (Hri I) as (Hc & _ & Hst). by apply evt_all_ok.
Qed.

(** A new program, whether it can be loaded or not, starts in step with no event. *)
Lemma exec_in_step (s : sys X) me c : curr s = Some me -> task_at me s = Some c ->
  wlp do_exec (fun _ s' => exists c', task_at me s' = Some c' /\ in_step (t_ev c') /\ event_count (t_ev c') = 0)
    (fun _ s' => exists c', task_at me s' = Some c' /\ in_step (t_ev c') /\ event_count (t_ev c') = 0) s.
Proof.
  intros Hcu Ec. unfold do_exec, wlp. rewrite (get_curr_run s me) by done. unfold upd_task, modify_env. rewrite !modify_bind.
  set (s1 := with_env _ _). set (g := fun c => set_ev _ c).
  assert (exists c1, task_at me s1 = Some c1) as [c1 Ec1].
  { unfold s1. eexists. change (task_at me (with_env ?x ?t)) with (task_at me t). apply task_at_upd_eq.
    change (task_at me (with_env ?x ?t)) with (task_at me t). by apply task_at_upd_eq. }
  rewrite (get_task_run _ me (g c1)) by (by apply task_at_upd_eq). rewrite gets_bind, modify_bind.
  destruct (exec_load _ _ _ _) as [[e|[u w]] x]; cbn [fst snd]; eexists; (split; [|split]);
    [by apply (task_at_upd_eq s1)|done|done|apply task_at_upd_eq; by apply (task_at_upd_eq s1)|done|done].
Qed.
End fifo.
