(* ===== verification/TaskDemo.v ===== *)
(** The tasks on small histories: the hypotheses of the theorems on tasks hold of
    states that [task_init] and a few operations give, over an environment where
    every call of memory management, files and windows succeeds. *)

From S2P Require Import Prelude Frame Tasks TaskSys TaskQueueOk TaskOk TaskSched TaskInv TaskLife TaskSysOk TaskClock TaskKept Mutex TaskRung TaskEvents TaskProps MsgQueue.

#[export] Instance unit_env : TaskEnv unit := {
  pg_adget _ x := (0, x);
  pg_atmem_slot _ _ x := (0, x);
  pg_dtmem_slot _ _ x := x;
  pg_newdir _ _ x := (0, x);
  env_newtask _ _ x := x;
  env_fqname name _ _ := inr name;
  copy_pages _ _ x := (0, x);
  env_clean _ x := x;
  dump_core _ _ x := (0, x);
  red_zone _ x := x;
  tucpy_stack _ _ x := (0, x);
  set_entry _ x := x;
  tucpy_user _ x := (0, x);
  uga_user _ x := (0, x);
  exec_close _ x := x;
  exec_clean _ x := x;
  exec_load _ _ _ x := (inr (None, None), x);
  clock_procs _ x := x
}.

Definition boot : sys unit := booted 2 tt.
Definition after (ops : list sys_op) : sys unit := default boot (run_ops ops boot).

Lemma boot_init : task_init (boot_state 2 tt) = Ret tt boot.
Proof. rewrite task_init_eq. reflexivity. Qed.
Lemma after_reach ops : is_some (run_ops ops boot) = true -> runs ops boot (after ops).
Proof. unfold after. intros [s E]%is_some_true. rewrite E. by apply (run_ops_reach ops). Qed.
Lemma after_ok ops : is_some (run_ops ops boot) = true -> sys_wf (Forall good_op ops) (after ops).
Proof. intros Hr%after_reach. apply (booted_reach 2 tt boot ops); [lia|apply boot_init|done]. Qed.
(** No operation of the history sets the clock. *)
Definition clock_unset (ops : list sys_op) : bool := forallb (fun op => match op with SetTime _ => false | _ => true end) ops.
Lemma clock_unset_good ops : clock_unset ops = true -> Forall good_op ops.
Proof. unfold clock_unset. rewrite forallb_forall. intros Hf. apply Forall_forall. intros op Hop. specialize (Hf op (proj1 (list_elem_of_In _ _) Hop)). by destruct op. Qed.
Lemma after_sys ops : is_some (run_ops ops boot) = true -> clock_unset ops = true -> sys_ok (after ops).
Proof. intros [Hok _]%after_ok Hc%clock_unset_good. by apply (tasks_weaken (Forall good_op ops)). Qed.
Lemma after_bufs ops : is_some (run_ops ops boot) = true -> bufs_ok (after ops).
Proof. intros (_ & Hb & _)%after_ok. intros t c E. by apply (Hb t c E). Qed.

(** The child runs; it has two signals pending; both tasks wait and an interrupt
    resumes [init]; the child waits for an alarm that is due at the next tick. *)
Definition child_runs : list sys_op := [Fork; Yield].
Definition child_killed : list sys_op := child_runs ++ [SigHandler 15 4096; SigHandler SIGKILL SIG_DFL; KSend 1 15; KSend 1 SIGKILL].
Definition woken : list sys_op := child_runs ++ [Suspend (Some 64%nat) WAIT_NOINTR; Suspend None WAIT_INTR; SendEvent 1 event0; Resume 0].

(** A program sets the clock to a senseless time, and the clock goes on. *)
Definition clock_set : list sys_op := child_runs ++ [AlarmCall 5; SetTime (Some (-1, 4294967295)); ClockIntr].


(** The child dies of [SIGKILL]; with a handler for the other signal alone it goes on. *)
Definition child_told : list sys_op := child_runs ++ [SigHandler 15 4096; KSend 1 15].
Definition gone_of (o : outcome (sys unit) bool) : option bool := match o with Ret g _ => Some g | _ => None end.
Lemma signal_handle_ends_witness :
  (exists s' c' i, signal_handle 4660 (after child_killed) = Ret true s' /\ sys_ok s' /\ curr s' <> Some 1%nat /\
     task_at 1 s' = Some c' /\ 1 <= i <= SIGMAX /\ died_of i c') /\
  (exists s', signal_handle 4660 (after child_told) = Ret false s' /\ sys_ok s' /\ curr s' = Some 1%nat /\
     exists c', task_at 1 s' = Some c' /\ signal_pending (t_sig c') = false).
Proof.
  assert (gone_of (signal_handle 4660 (after child_killed)) = Some true) as G1 by (vm_compute; reflexivity).
  assert (gone_of (signal_handle 4660 (after child_told)) = Some false) as G2 by (vm_compute; reflexivity).
  split.
  - destruct (task_at 1 (after child_killed)) as [c|] eqn:Ec; [|vm_compute in Ec; discriminate].
    destruct (signal_handle_ends True 4660 (after child_killed) 1 c) as [(s' & E & _)|[[_ Hk]|[_ E]]].
    + apply after_sys; vm_compute; reflexivity.
    + vm_compute. reflexivity.
    + exact Ec.
    + rewrite E in G1. discriminate.
    + exact Hk.
    + rewrite E in G1. discriminate.
  - destruct (task_at 1 (after child_told)) as [c|] eqn:Ec; [|vm_compute in Ec; discriminate].
    destruct (signal_handle_ends True 4660 (after child_told) 1 c) as [Hk|[(_ & s' & c' & i & E & _)|[_ E]]].
    + apply after_sys; vm_compute; reflexivity.
    + vm_compute. reflexivity.
    + exact Ec.
    + exact Hk.
    + rewrite E in G2. discriminate.
    + rewrite E in G2. discriminate.
Defined.

Definition alarm_set : list sys_op := child_runs ++ [SigHandler SIGALRM 4096; UAlarm 4000 true].

Lemma newpid_fresh_witness :
  exists l, newpid (after child_runs) = Ret l (with_pid l (after child_runs)) /\ 0 <= l <= PID_MAX /\
    forall t c, task_at t (after child_runs) = Some c -> pid c <> l.
Proof. apply (newpid_fresh (after child_runs)). apply after_sys; vm_compute; reflexivity. Defined.

Definition moved (n : Z) : event := Event E_WINGUI 0 n WIN_E_PTR_MOVE 0 [].
Definition two_moves : list evt_call := [Put (moved 1); Put (moved 2); Get; Get; Get].
(** The queue of [init] is in step, the one of the forked child is behind. *)
Lemma event_queue_fifo_witness :
  (exists rs s' c c', in_step (t_ev c) /\ evt_all 0 two_moves (after child_runs) = Ret rs s' /\ tasks_ok (Forall good_op child_runs) s' /\
     task_at 0 s' = Some c' /\ answers (t_ev c) two_moves rs (t_ev c')) /\
  (exists rs s' c c', behind (t_ev c) /\ evt_all 1 two_moves (after child_runs) = Ret rs s' /\ tasks_ok (Forall good_op child_runs) s' /\
     task_at 1 s' = Some c' /\ answers (t_ev c) two_moves rs (t_ev c')).
Proof.
  split.
  - destruct (task_at 0 (after child_runs)) as [c|] eqn:Ec; [|vm_compute in Ec; discriminate].
    destruct (event_queue_fifo 2 tt boot child_runs (after child_runs) 0 c two_moves) as (rs & s' & c' & Hr); [lia|apply boot_init| |exact Ec|].
    + apply after_reach. vm_compute. reflexivity.
    + exists rs, s', c, c'. split; [|exact Hr]. vm_compute in Ec. injection Ec as <-. vm_compute. reflexivity.
  - destruct (task_at 1 (after child_runs)) as [c|] eqn:Ec; [|vm_compute in Ec; discriminate].
    destruct (event_queue_fifo 2 tt boot child_runs (after child_runs) 1 c two_moves) as (rs & s' & c' & Hr); [lia|apply boot_init| |exact Ec|].
    + apply after_reach. vm_compute. reflexivity.
    + exists rs, s', c, c'. split; [|exact Hr]. vm_compute in Ec. injection Ec as <-. vm_compute. reflexivity.
Defined.

(** [do_fork] leaves [last_event] at 0 like [first_event], where [task_creat]
    sets it to -1: the first event that is sent to a forked task goes to the
    second place of its buffer, and the task takes an empty event instead. *)
Theorem fork_loses_first_event :
  exists s, send_event 1 (moved 7) (after child_runs) = Ret tt s /\
    match sys__evt_wait s with Ret (Done e) _ => e = event0 | _ => False end.
Proof. eexists. split; [vm_compute; reflexivity|]. vm_compute. reflexivity. Qed.

(** [do_fork] puts the new task on ready queue 0 before it has a priority: a
    task of the lowest priority starts before every other one that is ready. *)
Theorem fork_starts_on_queue_0 :
  let s := after [Nice 31; Fork] in
  exists c, task_at 1 s = Some c /\ priority (t_run c) = TASK_PRIO_LOW /\ queue (t_links c) = Some 0%nat.
Proof. eexists. split; [vm_compute; reflexivity|]. split; reflexivity. Qed.

(** A large increment, which any task may ask for, makes [sys_nice] overflow. *)
Theorem nice_overflow : sys_nice INT_MAX (after child_runs) = Halt Undefined.
Proof. vm_compute. reflexivity. Qed.
(** [signal (0, h)] writes outside of the arrays of the task. *)
Theorem signal_zero h : sys_signal 0 h (after child_runs) = Halt Undefined.
Proof. reflexivity. Qed.
(** [ualarm] with a repeat of less than a tick rings once. *)
Theorem ualarm_short_repeat :
  let s := after (child_runs ++ [UAlarm 3999 true]) in
  exists c, task_at 1 s = Some c /\ alarm (t_alarm c) <> 0 /\ alarm_repeat (t_alarm c) = 0.
Proof. eexists. split; [vm_compute; reflexivity|]. split; vm_compute; congruence. Qed.

(** The kernel stops when [init] exits, and a signal that the kernel forces on it
    is enough. *)
Theorem init_exit_stops : task_exit 0 boot = Halt (KPanic "init exited").
Proof. vm_compute. reflexivity. Qed.
Theorem init_signal_stops : run_op (Deliver 0) (after [Fatal 0 SIGSEGV]) = Halt (KPanic "init exited").
Proof. vm_compute. reflexivity. Qed.
(** Any program may set the clock; an alarm that is set at a time before the
    epoch so that it is due at second 0 takes the alarms of all tasks away: here
    the alarm of [init], 5 seconds after the start, is no longer looked at. *)
Theorem settimeofday_loses_alarms :
  let s := after [AlarmCall 5; Fork; Yield; SetTime (Some (-3, 0)); AlarmCall 3] in
  alarm_t s = (0, 0) /\ exists c, task_at 0 s = Some c /\ alarm (t_alarm c) = 6.
Proof. split; [vm_compute; reflexivity|]. eexists. split; vm_compute; reflexivity. Qed.

Lemma task_fields_bounded_witness :
  exists c, task_at 1 (after child_killed) = Some c /\
  (1 < TASK_MAX)%nat /\ (forall p, parent c = Some p -> (p < TASK_MAX)%nat) /\
  0 <= priority (t_run c) <= TASK_PRIO_LOW /\ (forall q, queue (t_links c) = Some q -> (q < length (queues (after child_killed)))%nat) /\
  length (signal_received (t_sig c)) = 33%nat /\ length (signal_handler (t_sig c)) = 33%nat /\
  length (event_ (t_ev c)) = Z.to_nat EVT_MAX /\ 0 <= first_event (t_ev c) < EVT_MAX /\ -1 <= last_event (t_ev c) < EVT_MAX /\
  0 <= event_count (t_ev c) <= EVT_MAX /\ (in_step (t_ev c) \/ behind (t_ev c)).
Proof.
  destruct (task_at 1 (after child_killed)) as [c|] eqn:Ec; [|vm_compute in Ec; discriminate]. exists c. split; [reflexivity|].
  apply (task_fields_bounded 2 tt boot child_killed (after child_killed) 1 c); [lia|apply boot_init| |exact Ec].
  apply after_reach. vm_compute. reflexivity.
Defined.

Definition desertedb (q : nat) (s : sys unit) : bool :=
  forallb (fun o => match o with Some c => negb (bool_decide (queue (t_links c) = Some q)) | None => true end) (tasks s).
Lemma desertedb_ok q s : desertedb q s = true -> deserted q s.
Proof.
  unfold desertedb. rewrite forallb_forall. intros Hf t c Ec Hw. apply task_at_lookup in Ec.
  specialize (Hf (Some c) (proj1 (list_elem_of_In _ _) (list_elem_of_lookup_2 _ _ _ Ec))). cbv beta iota in Hf.
  apply negb_true_iff, bool_decide_eq_false in Hf. done.
Qed.
(** The child is inside of a mutex. *)
Lemma mutex_excludes_witness :
  exists (st : mstate unit) g, 0 < inside g 1%nat /\
  (forall t u, 0 < inside g t -> 0 < inside g u -> t = u) /\
  (lockcnt st.2 = 0 -> deserted (tq st.2) st.1) /\
  (forall me, curr st.1 = Some me -> 0 < inside g me -> exists st', mtx_leave st = Ret tt st') /\
  (forall me w h, curr st.1 = Some me -> inside g me < INT_MAX -> wait_type w -> mtx_enter w st <> Halt h).
Proof.
  assert (curr (after child_runs) = Some 1%nat) as Hcu by (vm_compute; reflexivity).
  exists (after child_runs, Mutex 64 (Some 1%nat) 1), (Ghost (bump 1 1 (fun _ => 0)) (∅ ∖ {[1%nat]})). split; [reflexivity|].
  apply (mutex_excludes (after child_runs) 64).
  - apply after_sys; vm_compute; reflexivity.
  - vm_compute. lia.
  - apply desertedb_ok. vm_compute. reflexivity.
  - apply rtc_once. apply (do_enter _ _ 1 0); [exact Hcu|set_solver|reflexivity|by left|]. unfold mtx_enter. rewrite !gets_bind. cbn [fst snd].
    rewrite Hcu. reflexivity.
Defined.

(** * A message queue *)

(** The child puts an item into an empty queue. *)
Definition queue0 : mqueue := Mqueue 64 65 [0; 0; 0; 0] 1 4 0 0.
Definition queue1 : mqueue := Mqueue 64 65 [7; 0; 0; 0] 1 4 1 0.
Lemma queue0_ok : mq_ok (after child_runs, queue0).
Proof.
  split; cbn [fst snd queue0 itemsz maxcnt mq_buf curcnt first putq getq]; try done; try lia.
  - apply after_sys; vm_compute; reflexivity.
  - vm_compute. lia.
  - vm_compute. lia.
  - intros _. apply desertedb_ok. vm_compute. reflexivity.
Qed.
Lemma queue1_run : mq_put [7] 0 (after child_runs, queue0) = Ret (Done tt) (after child_runs, queue1).
Proof. vm_compute. reflexivity. Qed.

Lemma curr_child_runs : curr (after child_runs) = Some 1%nat.
Proof. vm_compute. reflexivity. Qed.

Lemma mq_fifo_witness :
  items queue1 = [7] /\ deserted (getq queue1) (after child_runs) /\ forall h, mq_get 0 (after child_runs, queue1) <> Halt h.
Proof.
  generalize queue0_ok queue1_run curr_child_runs. generalize (after child_runs). intros s H0 H1 Hcu.
  destruct (mq_fifo (s, queue0) [] (s, queue1) [7] [] 1 0 0 H0) as (E & _ & Hg & _ & _ & Hh).
  - apply rtc_once. exact (do_put (s, queue0) 1 7 0 (s, queue1) [] [] Hcu (or_introl eq_refl) H1).
  - reflexivity.
  - exact Hcu.
  - by left.
  - split; [exact (eq_sym E)|]. split; [|exact Hh]. apply Hg. discriminate.
Defined.
