(* ===== verification/PtyDemo.v ===== *)
(** A pseudo-terminal on a system that has just started: the hypotheses of the
    theorems on terminals hold, and some calls whose results are not what they should
    be. *)

From S2P Require Import Prelude Kern Frame Tasks TaskSys TaskQueueOk TaskOk TaskSched TaskInv TaskLife TaskSysOk TaskProps Mutex MsgQueue TaskDemo Pty PtyOk PtyProps Poll.

(** Both sides of terminal 0 are open, as file objects 1 and 2. *)
Definition end_of (n : Z) : fso := Fso true 1 false 0 n 1 0 0 0 0 0 0 0x2180 0 0 0 0 None 0 0 (FsoNat false 0 0 [] 0 0) no_pipe.
Definition tty (m s : option nat) (i o : ring) (t : termios) : pty := set_tio t (set_rings i o (set_ends m s (pty0 64))).
Definition tty_state (p : pty) : ptys unit :=
  Ptys (booted 5 tt) [Some p] true {[1%nat := end_of PTM_INDEX; 2%nat := end_of PTS_INDEX]} [[Some (Some 2%nat)]] 68.
Definition open_tty : pty := tty (Some 1%nat) (Some 2%nat) ring0 ring0 tio0.

Lemma ring0_ok : ring_ok ring0.
Proof. split; cbn [ring0 r_buf r_count r_p0 r_p1]; [rewrite length_replicate; reflexivity|done|done|reflexivity]. Qed.
Lemma canon0_ok : canon_ok canon0.
Proof. split; cbn [canon0 canon_buf canon_count canon_intr]; [rewrite length_replicate; reflexivity|done| |done]. by apply Forall_replicate. Qed.
Lemma tty_wf m s t i o : ring_ok i -> ring_ok o -> pty_wf (tty m s i o t).
Proof. intros Hi Ho. split; [apply canon0_ok|done|done]. Qed.
Lemma tty_net m s t i o : m ∈ [None; Some 1%nat] -> s ∈ [None; Some 2%nat] -> net_ok (tty_state (tty m s i o t)).
Proof.
  intros Hm Hs. destruct (booted_wf 5 tt ltac:(lia)) as [Hok _].
  assert (Hql : length (queues (booted 5 tt)) = 69%nat) by reflexivity.
  assert (Hat : forall j p, pty_at j (tty_state (tty m s i o t)) = Some p -> p = tty m s i o t).
  { intros [|[|j]] p Ep; unfold pty_at in Ep; cbn in Ep; congruence. }
  split; cbn [tty_state p_sys fs_pollq p_fso]; [done|rewrite Hql; unfold NREADY; lia| | |].
  - intros f x u Ef Eu. destruct (decide (f = 1%nat)) as [->|Hf1]; [rewrite lookup_insert_eq in Ef; by simplify_eq|]. rewrite lookup_insert_ne in Ef by done.
    apply lookup_singleton_Some in Ef as [_ <-]. done.
  - intros j p n Ep Hin. apply Hat in Ep as ->. rewrite Hql. unfold NREADY. cbn in Hin. set_solver by lia.
  - intros j p f Ep Hor. apply Hat in Ep as ->. cbn in Hor. assert (Hf : f = 1%nat \/ f = 2%nat) by set_solver. destruct Hf as [-> | ->]; by eexists.
Qed.

Lemma open_tty_wf : pty_wf open_tty.
Proof. apply tty_wf; apply ring0_ok. Qed.
Lemma open_tty_net : net_ok (tty_state open_tty).
Proof. apply tty_net; set_solver. Qed.
Lemma open_tty_ok : ptys_ok (tty_state open_tty).
Proof.
  split; [apply open_tty_net|]. intros [|[|j]] p Ep; [|done|done]. unfold pty_at in Ep. cbn [tty_state pty_] in Ep. injection Ep as <-. apply open_tty_wf.
Qed.
Lemma empty_tty : t_line (abs open_tty) = [] /\ t_in (abs open_tty) = [].
Proof. by split. Qed.

Lemma terminal_refines_witness :
  io 0 (ptm_read 0 10 true) both (tty_state open_tty) open_tty (mread_spec 10 true) /\
  io 0 (pts_read 0 10 true) both (tty_state open_tty) open_tty (sread_spec false 10 true) /\
  io 0 (ptm_write 0 [inr 104; inr 10] true) alone (tty_state open_tty) open_tty (write_spec (put_in tio0) (mstop 2 true) 0 [inr 104; inr 10]).
Proof.
  destruct (terminal_refines 0 (tty_state open_tty) open_tty 0 true open_tty_net eq_refl open_tty_wf eq_refl) as (Hmr & Hsr & Hmw & _).
  split; [apply (Hmr 1%nat 10 eq_refl); lia|]. split; [apply (Hsr 2%nat 10 eq_refl); lia|]. apply (Hmw 1%nat [inr 104; inr 10] eq_refl).
  split; [repeat constructor; lia|]. split; [cbn; lia|]. intros e He. set_solver.
Defined.

(** "ab", an erasure, "c", a kill, "hij" and an erasure. *)
Definition typed : list Z := [97; 98; 8; 99; 21; 104; 105; 106; 8].
Lemma edited_line_read_witness :
  foldl (edit tio0) [] typed ++ [10] = [104; 105; 10] /\
  wp (ptm_write 0 (inr <$> (typed ++ [10])) false)
    (fun r st' => r = Done 10 /\
      forall me' count nd', curr (p_sys st') = Some me' -> 3 <= count ->
        wp (pts_read 0 count nd') (fun r _ => r = Done (3, [104; 105; 10])) (fun _ _ => False) st')
    (fun _ _ => False) (tty_state open_tty).
Proof.
  split; [reflexivity|]. destruct empty_tty as [El Ei].
  exact (edited_line_read 0 (tty_state open_tty) open_tty 0 1 2 typed false open_tty_net eq_refl open_tty_wf eq_refl eq_refl eq_refl eq_refl El Ei
    ltac:(repeat constructor; lia) eq_refl eq_refl eq_refl).
Defined.

Lemma open_ends : open_ok (tty_state open_tty) 2 (end_of PTS_INDEX).
Proof.
  split; [reflexivity|]. split; intros i Ei; [discriminate|]. injection Ei as <-. exists open_tty. by split.
Qed.
Lemma ptys_stay_ok_witness :
  kept (pty_read PTS_INDEX 10 false) (tty_state open_tty) /\ kept (pty_putfso 2) (tty_state open_tty).
Proof.
  destruct (ptys_stay_ok (tty_state open_tty) 2 (end_of PTS_INDEX) 0 open_tty_ok eq_refl eq_refl) as [_ Ho].
  destruct (Ho open_ends) as (Hr & _ & _ & Hp). split; [apply (Hr 10 false); lia|exact Hp].
Defined.

Lemma pts_name_found_witness :
  pty_readdir 69 (tty_state open_tty) = Ret (67, Some [112; 116; 115; 48; 48; 48]) (tty_state open_tty) /\
  pty_lookup (fun n => ret (Z.to_nat n)) [112; 116; 115; 48; 48; 48] (inl 0) (tty_state open_tty) = Ret 67%nat (tty_state open_tty).
Proof.
  destruct (pts_name_found 0 (tty_state open_tty) open_tty (fun n => ret (Z.to_nat n)) (inl 0) [] 8 ltac:(unfold PTY_MAX; lia) eq_refl eq_refl ltac:(cbn; lia)) as (H1 & _ & H3).
  split; [exact H1|exact H3].
Defined.

(** Terminal 0, whose slave side has data to read or leads to task 0. *)
Definition ready_tty : ptys unit := with_fso {[2%nat := set_state R_OK (end_of PTS_INDEX)]} (tty_state open_tty).
Definition polled_tty : ptys unit := with_fso {[1%nat := end_of PTM_INDEX; 2%nat := set_poll (Some 0%nat) 1 (end_of PTS_INDEX)]} (tty_state open_tty).
Lemma polled_tty_net : net_ok polled_tty.
Proof.
  destruct open_tty_net as [Hok Hq Hp Hqs Hf]. split; [exact Hok|exact Hq| |exact Hqs|].
  - intros f x u Ef Eu. cbn [polled_tty with_fso p_fso] in Ef. destruct (decide (f = 1%nat)) as [->|Hf1]; [rewrite lookup_insert_eq in Ef; by simplify_eq|]. rewrite lookup_insert_ne in Ef by done.
    apply lookup_singleton_Some in Ef as [_ <-]. injection Eu as <-. eexists. split; reflexivity.
  - intros j p f Ep Hor. destruct (Hf j p f Ep Hor) as [x Ex]. cbn [polled_tty with_fso tty_state p_fso] in *. destruct (decide (f = 1%nat)) as [->|Hf1]; [by eexists|].
    rewrite lookup_insert_ne in Ex |- * by done. apply lookup_singleton_Some in Ex as [<- _]. by eexists.
Qed.

Lemma poll_spec_witness :
  sys__poll (fun _ _ => 0) [Pollfd 0 (Z.lor R_OK W_OK)] true ready_tty = Ret (Done (1, [R_OK])) ready_tty /\
  wp (sys__poll (fun _ _ => 0) [Pollfd 0 (Z.lor R_OK W_OK)] false)
    (fun r _ => r = Done (1, [R_OK])) (fun _ _ => False) ready_tty.
Proof.
  destruct (booted_wf 5 tt ltac:(lia)) as [Hok _].
  destruct (poll_spec (fun _ _ => 0) [Pollfd 0 (Z.lor R_OK W_OK)] [2%nat] 0 ready_tty Hok) as [Hw Hn]; [cbn; unfold NREADY; lia|split; [reflexivity|by repeat constructor]|apply NoDup_singleton| |by repeat constructor|].
  - intros f Hf. apply list_elem_of_singleton in Hf as ->. by eexists.
  - split; [exact Hn|]. eapply wp_mono; [exact Hw| |done]. intros [[n r]|] st' (_ & _ & Hr); [|by destruct Hr].
    destruct Hr as (-> & _ & [[_ ->]|[Hz _]]); [reflexivity|discriminate].
Defined.

Lemma poll_wakes_witness :
  exists st' c, fs_state 2 R_OK polled_tty = Ret tt st' /\ net_ok st' /\ task_at 0 (p_sys st') = Some c /\ paused (t_run c) = 0.
Proof.
  apply (poll_wakes polled_tty 0 open_tty 2 (set_poll (Some 0%nat) 1 (end_of PTS_INDEX)) 0 R_OK polled_tty_net); [reflexivity..|discriminate].
Defined.
